(* ===== verification/_CoqProject ===== *)
-Q . S2P
Prelude.v
Errors.v
Triples.v
IsoTime.v
Text.v
Crypto.v
Utf8.v
Json.v
JsonText.v
Command.v
Win32.v
RunArgv.v
PosixPath.v
Fs.v
SafePaths.v
WinPaths.v
FallbackPaths.v
FileTree.v
Ipaddress.v
Urls.v
Models.v
LaunchAuth.v
Web.v
Bounded.v
Source.v
Lifecycle.v
Sql.v
Network.v
Database.v
Schemas.v
StateStore.v
Migration.v
Leases.v
AuditLog.v
Lifecycles.v
Mcp.v
Datalayer.v
Bridge.v
Heartbeats.v
Sandbox.v
Runtime.v
Repository.v
Jupyter.v
Adapters.v
Environment.v
Trust.v
Grants.v
Cli.v
Workspace.v
Execution.v
Scheduler.v
Pipeline.v
PipelineProofs.v
PipelineOutcomes.v
Progress.v
Assembly.v
Workers.v
Launches.v
App.v
AppProofs.v
