(* ===== verification/Prelude.v ===== *)
(** * Notebook Launcher: a verification development

    The launcher opens a notebook of a public GitHub repository in a Jupyter
    server inside a container on the user's own machine, asks for trust before
    it runs anything, and lets an agent attach to the running notebook.  The
    Python package is src/src/notebook_launcher/ (written as a bare file name
    below).  This library models it file by file and proves what makes its
    parts and their composition correct.

    ** The parts and how they interact

    A local web application (app.py) previews a source (source.py, github.py),
    issues a one-time launch token (launch_auth.py), and on [launch] consumes
    it and records the launch (state.py).  launches.py decides whether the
    source is trusted (trust.py) or a challenge is needed (trust_flow.py), and
    hands authorized launches to the pipeline (pipeline.py).  The pipeline
    acquires the commit (repository.py), prepares a workspace (workspace.py
    over safe_paths.py), builds the image (environment.py), applies the egress
    policy (network.py), validates the container policy (sandbox.py), starts
    the container (runtime.py) and drives the session through its states
    (orchestration.py, state.py).  The command mcp (cli.py) resolves a ready
    session, takes its writable lease (leases.py) and serves JSON-RPC (mcp.py).
    execution.py serialises executions in a kernel, jupyter.py keeps the bridge
    fixed to one notebook, grants.py gives a workspace one host directory,
    audit.py logs, versions.py normalises the paths of versioned documents.

    ** Files, in dependency order

    Shared: Prelude (results, lists, this header), Errors (errors.py and the
    exceptions that are raised or caught), Triples (the program logic: an
    invariant, a relation between states, a postcondition), Python's library
    where the source depends on its exact behaviour: IsoTime (datetime), Text
    and Utf8 (str), Crypto (hashlib, hmac, base64), Json and JsonText (json),
    PosixPath (pathlib, with the path checks of safe_paths.py, versions.py and
    mcp.py), Urls (urllib.parse), Ipaddress (ipaddress); and SQLite as the
    source uses it: Sql (tables, constraints, statements).

    Components: Models and Schemas (models.py); LaunchAuth (launch_auth.py); Source
    (source.py, github.py); Database (the schema) and StateStore (state.py);
    Migration (its schema, opening an old database, rows to records); Leases
    (leases.py, the validators of cli.py, the descriptors of mcp.py and
    launches.py); Trust (trust.py, trust_flow.py); Grants (grants.py); AuditLog
    (audit.py); Execution (execution.py); Command (what a command prints),
    RunArgv (its process, groups and jobs) and Lifecycle (orchestration.py);
    Network (network.py); Sandbox (sandbox.py); Runtime (runtime.py); Environment (environment.py); Repository (repository.py); Fs,
    SafePaths and FileTree (the POSIX branch of safe_paths.py), Win32 and
    WinPaths (its Windows branch), FallbackPaths (its path-based branch);
    Workspace (workspace.py); Bounded, Mcp and Datalayer (mcp.py); Bridge (the
    command mcp of cli.py), Heartbeats (config.py, the thread of cli.py), Cli
    (the other commands of cli.py); Jupyter (jupyter.py); Pipeline (the launch
    itself in pipeline.py), Adapters (its container control, readiness probe
    and small system helpers), Scheduler (its thread pool); Web, Launches and
    App (app.py, launches.py).

    Specifications and compositions: Lifecycles (the abstract life cycles of
    sessions and launches), PipelineProofs and PipelineOutcomes (the pipeline
    implements them; what its results guarantee), Assembly (the pipeline with
    the repository's own collaborators), Workers (what the pipeline's threads
    leave alone), AppProofs (requests and threads together).

    ** How code becomes definitions

    - A function that may raise returns [result exn A]: [Ok] or [Err].  A
      method with state is a function [S -> S * result exn A] ([Eff S]), with
      [eff_try], [eff_finally] and [eff_raise_if] for the handlers.  The state
      after an exception is part of the result, so what a failing operation
      leaves behind is stated and proved.
    - The database is a record of tables ([Database.db]); a method of the state
      store is a transaction that commits or leaves the database as it was.
      CHECK, UNIQUE and FOREIGN KEY constraints are computed, and a statement
      that breaks one raises [IntegrityError].
    - What is outside src/ (Docker, git, HTTP servers, the Jupyter server, the
      kernel, the Windows API, other processes) is an argument that answers each call from the
      list of the calls made so far; the list is part of the state.  Theorems
      hold for every such argument, hence also for answers that change over
      time and for failures at any call.
    - Where threads or processes share the database, they change it between the
      accesses of the modelled code.  The assumptions about them are named
      ([well_behaved] in PipelineProofs, [workers_ok] in Workers, [others_ok]
      in Bridge) and the pipeline's own operations are proved to satisfy those
      that they are assumed to satisfy (Workers).
    - A text is its UTF-8 bytes.  Integers are [Z], since Python's have no
      width; where the code fixes a width ([to_bytes], SHA-256, addresses,
      ports) the bound is computed.  Times are microseconds since the epoch,
      their texts those of [isoformat].  Random ids, clocks and environment
      variables are arguments.

    ** What the theorems show

    Authorization (AppProofs, Workers): what may execute is trusted or reopens
    a workspace, each launch was requested with a one-time token bound to its
    content, only local requests act, and no thread of the pipeline authorizes.
    Sessions (PipelineProofs, PipelineOutcomes, Lifecycles): every operation
    of the pipeline moves sessions and launches along their life cycles, keeps
    the database well-formed, removes a network only after the container was
    seen stopped, and reports success only for the complete effect.  With the
    models of the collaborators in place (Assembly, Adapters), success means
    that the rules were enforced, the container confined and running, and the
    Jupyter server asked and sharing the notebook; a launch has at most one
    worker (Scheduler).
    Confinement (Sandbox, Runtime, Network, SafePaths, FileTree, WinPaths,
    FallbackPaths, Grants, Cli): mounts, argument vectors, firewall rules and file
    operations do what the policy says and fail closed, on each platform.
    Processes (RunArgv): a command ends, and leaves none of its processes.
    Integrity (Repository, Workspace, StateStore, Migration, Trust,
    LaunchAuth): snapshots are what was verified, stale writers are rejected,
    writes are atomic, opening an old database loses nothing, trust is bound to
    its source, tokens round trip.  Agents (Leases, Heartbeats, Bridge, Mcp,
    Bounded, Datalayer, Execution, Jupyter): one writer per session whose lease
    stays while it is renewed and comes back, every request answered within
    the output limit and with its own answer, reads that only read, executions
    in order, one fixed notebook.

    ** Fuel and bounds

    Recursions that are not structural carry fuel with a proof that it is
    enough: JSON parsing takes twice the length of the text plus two; reuse of
    a session in the pipeline recurs at most once ([reuse_terminates]); the
    bisections of mcp.py take a step for each halving of their interval; loops
    over requests and rows are structural on the list.  Loops that go on for as
    long as another party answers (the polls of [run_argv], the lines read
    until the awaited answer comes, the chunks of a Windows write, the attempts
    of the readiness probe) carry fuel and raise [Diverges] without it: the
    theorems hold for every fuel, and [run_argv_ends] and
    [probe_ends_truthfully] give the fuel that is enough; for the probe with its
    defaults that is one attempt for each interval and one more
    ([probe_polls]).

    ** Not modelled, and why

    - Routing, body parsing, headers and static markup of app.py (the
      framework's), argument parsing of cli.py (a parsed command is a value of
      [Cli.command]), uvicorn.
    - The JSON of the plain models of models.py (pydantic's).
    - In [Scheduler] a worker is the status of its future; what it does is
      [Pipeline.run], whose interleaving with other threads is the [interfere]
      of the pipeline's environment.
    - Failures of SQLite other than broken constraints (a full disk, a locked
      file) in the methods of the state store; when a database is opened
      (Migration) every statement may fail.
    - Within the models: letters, digits and white space are those of ASCII in
      case folding and in the regular expressions; a lone surrogate is kept as
      three bytes; a handler of the web application runs without another
      handler in between (none of them awaits).

    ** Plan

    Next: the liveness of a launch whose collaborators answer normally, and a
    refinement of the session adapter of jupyter.py by the MCP adapter that
    drives it. *)
From Stdlib Require Export List ZArith Lia Bool String Ascii.
From stdpp Require Export base tactics option list numbers strings gmap.
Export ListNotations.

#[global] Open Scope Z_scope.
#[global] Open Scope list_scope.

(** ** Database of simplifications shared by all components *)
Create HintDb launcher.

(** ** Results of Python code

    A Python function that returns gives [Ok]; one that raises gives [Err]
    with the exception.  [E] is the type of exceptions (see [Errors]). *)
Inductive result (E A : Type) : Type :=
| Ok (a : A)
| Err (e : E).
Arguments Ok {E A} a.
Arguments Err {E A} e.

Definition rbind {E A B : Type} (m : result E A) (k : A -> result E B) : result E B :=
  match m with
  | Ok a => k a
  | Err e => Err e
  end.

Definition rmap {E A B : Type} (f : A -> B) (m : result E A) : result E B :=
  rbind m (fun a => Ok (f a)).

Definition is_ok {E A : Type} (m : result E A) : bool :=
  match m with
  | Ok _ => true
  | Err _ => false
  end.

Declare Scope launcher_scope.
Delimit Scope launcher_scope with launcher.
#[global] Open Scope launcher_scope.

Notation "'let!' x ':=' m 'in' k" := (rbind m (fun x => k))
  (at level 10, x name, m at level 100, k at level 200) : launcher_scope.
Notation "'let!' ' p ':=' m 'in' k" := (rbind m (fun x => match x with p => k end))
  (at level 10, p strict pattern, m at level 100, k at level 200) : launcher_scope.

(** [guard b e]: the statement [if b: raise e]. *)
Definition raise_if {E : Type} (b : bool) (e : E) : result E unit :=
  if b then Err e else Ok tt.

Lemma rbind_ok {E A B} (m : result E A) (k : A -> result E B) b :
  rbind m k = Ok b <-> exists a, m = Ok a /\ k a = Ok b.
Proof.
  destruct m as [a|e]; simpl; split.
  - eauto.
  - intros (a' & [= ->] & H); exact H.
  - discriminate.
  - intros (a' & [=] & _).
Qed.

Lemma rbind_err {E A B} (m : result E A) (k : A -> result E B) e :
  rbind m k = Err e <-> m = Err e \/ exists a, m = Ok a /\ k a = Err e.
Proof.
  destruct m as [a|e']; simpl; split.
  - eauto.
  - intros [[=]|(a' & [= ->] & H)]; exact H.
  - intros [= ->]; auto.
  - intros [[= ->]|(a' & [=] & _)]; reflexivity.
Qed.

Lemma raise_if_ok {E} b (e : E) u : raise_if b e = Ok u <-> b = false.
Proof. destruct b, u; simpl; split; congruence. Qed.

Lemma raise_if_err {E} b (e e' : E) : raise_if b e = Err e' <-> b = true /\ e = e'.
Proof. destruct b; simpl; naive_solver. Qed.

(** ** Tactics *)

(** Break the hypotheses that say a monadic chain returned. *)
Ltac inv_ok :=
  repeat match goal with
  | H : rbind _ _ = Ok _ |- _ =>
      let a := fresh "r" in let H1 := fresh "Hr" in let H2 := fresh "Hk" in
      apply rbind_ok in H; destruct H as (a & H1 & H2)
  | H : raise_if _ _ = Ok ?u |- _ =>
      apply raise_if_ok in H; try destruct u
  | H : Ok _ = Ok _ |- _ => simplify_eq H
  | H : Err _ = Ok _ |- _ => discriminate H
  | H : Ok _ = Err _ |- _ => discriminate H
  end.

(** Turn the boolean tests of the code into propositions. *)
Ltac bool_to_prop :=
  repeat match goal with
  | H : (_ && _)%bool = true |- _ => apply andb_true_iff in H; destruct H
  | H : (_ || _)%bool = false |- _ => apply orb_false_iff in H; destruct H
  | H : negb _ = true |- _ => apply negb_true_iff in H
  | H : negb _ = false |- _ => apply negb_false_iff in H
  | H : (_ =? _)%string = true |- _ => apply String.eqb_eq in H
  | H : (_ =? _)%string = false |- _ => apply String.eqb_neq in H
  | H : (_ =? _)%Z = true |- _ => apply Z.eqb_eq in H
  | H : (_ =? _)%Z = false |- _ => apply Z.eqb_neq in H
  | H : (_ <? _)%Z = true |- _ => apply Z.ltb_lt in H
  | H : (_ <? _)%Z = false |- _ => apply Z.ltb_ge in H
  | H : (_ <=? _)%Z = true |- _ => apply Z.leb_le in H
  | H : (_ <=? _)%Z = false |- _ => apply Z.leb_gt in H
  end.

(** ** Options *)

Definition is_some {A} (o : option A) : bool :=
  match o with Some _ => true | None => false end.

Definition is_none {A} (o : option A) : bool := negb (is_some o).

(** SQL's [COALESCE(a, b)] on two expressions. *)
Definition coalesce {A} (a b : option A) : option A :=
  match a with Some _ => a | None => b end.

Lemma is_some_true {A} (o : option A) : is_some o = true <-> exists a, o = Some a.
Proof. destruct o; simpl; naive_solver. Qed.

Lemma is_none_true {A} (o : option A) : is_none o = true <-> o = None.
Proof. destruct o; simpl; naive_solver. Qed.

(** ** Lists *)

Definition str_mem (s : string) (l : list string) : bool :=
  existsb (String.eqb s) l.

Lemma str_mem_In s l : str_mem s l = true <-> In s l.
Proof.
  unfold str_mem. rewrite existsb_exists. split.
  - intros (x & Hx & Heq). apply String.eqb_eq in Heq. now subst.
  - intros H. exists s. split; [exact H|apply String.eqb_refl].
Qed.

Lemma find_app {A} (p : A -> bool) l1 l2 :
  List.find p (l1 ++ l2) =
  match List.find p l1 with Some a => Some a | None => List.find p l2 end.
Proof.
  induction l1 as [|x l1 IH]; simpl; [reflexivity|].
  destruct (p x); [reflexivity|exact IH].
Qed.

Lemma find_none_iff {A} (p : A -> bool) l :
  List.find p l = None <-> forall x, In x l -> p x = false.
Proof.
  split; [apply find_none|].
  intros H. induction l as [|x l IH]; simpl; [reflexivity|].
  rewrite (H x) by now left. apply IH. intros y Hy. apply H. now right.
Qed.

Lemma find_ext {A} (p q : A -> bool) l :
  (forall x, In x l -> p x = q x) -> List.find p l = List.find q l.
Proof.
  induction l as [|x l IH]; intros H; simpl; [reflexivity|].
  rewrite <- (H x) by now left. rewrite IH; [reflexivity|].
  intros y Hy. apply H. now right.
Qed.

Lemma forallb_map {A B} (f : A -> B) (p : B -> bool) l :
  forallb p (map f l) = forallb (fun x => p (f x)) l.
Proof. induction l as [|x l IH]; simpl; [reflexivity|]. now rewrite IH. Qed.

Lemma existsb_false {A} (p : A -> bool) l : existsb p l = false -> Forall (fun a => p a = false) l.
Proof. induction l as [|a l IH]; cbn [existsb]; intros H; constructor; apply orb_false_iff in H as [? ?]; auto. Qed.

Lemma filter_nil_iff {A} (p : A -> bool) l :
  List.filter p l = [] <-> forall x, In x l -> p x = false.
Proof.
  induction l as [|x l IH]; simpl; [naive_solver|].
  destruct (p x) eqn:Hx; split.
  - discriminate.
  - intros H. rewrite (H x) in Hx by now left. discriminate.
  - intros H y [->|Hy]; [exact Hx|]. now apply IH.
  - intros H. apply IH. intros y Hy. apply H. now right.
Qed.

Lemma find_filter_hd {A} (p : A -> bool) l :
  List.find p l = hd_error (List.filter p l).
Proof.
  induction l as [|x l IH]; simpl; [reflexivity|].
  destruct (p x); [reflexivity|exact IH].
Qed.

(** A test on every integer from [0] below [n]. *)
Fixpoint all_from (p : Z -> bool) (k : nat) (z : Z) : bool :=
  match k with
  | O => true
  | S k' => p z && all_from p k' (z + 1)
  end.

Definition all_below (p : Z -> bool) (n : Z) : bool := all_from p (Z.to_nat n) 0.

Lemma all_from_spec p k z :
  all_from p k z = true -> forall x, z <= x < z + Z.of_nat k -> p x = true.
Proof.
  revert z. induction k as [|k IH]; intros z H x Hx; [lia|].
  simpl in H. apply andb_true_iff in H as [Hz H].
  destruct (Z.eq_dec x z) as [->|Hne]; [exact Hz|].
  apply (IH _ H). lia.
Qed.

Lemma all_below_spec p n :
  all_below p n = true -> forall k, 0 <= k < n -> p k = true.
Proof. intros H k Hk. apply (all_from_spec _ _ _ H). lia. Qed.

(** ** Strings *)
Lemma string_app_nil_r (s : string) : (s ++ "")%string = s.
Proof.
  induction s as [|c s IH]; [reflexivity|].
  change ((String c s ++ "")%string) with (String c (s ++ "")%string). now rewrite IH.
Qed.

Lemma string_app_assoc (a b c : string) : ((a ++ b) ++ c = a ++ (b ++ c))%string.
Proof.
  induction a as [|x a IH]; [reflexivity|].
  change ((String x (((a ++ b) ++ c)) = String x (a ++ (b ++ c)))%string). now rewrite IH.
Qed.

(** Evaluates the scrutinees at the head of a hypothesis about a concrete
    input. *)
Ltac eval_head H :=
  cbv zeta in H;
  repeat (match type of H with
          | match ?x with _ => _ end =>
              let v := eval vm_compute in x in change x with v in H; cbv beta iota in H
          end).
