(* ===== verification/Errors.v ===== *)
(** * Exceptions (src/notebook_launcher/errors.py)

    [LauncherError] and its subclasses with the codes, messages and HTTP
    statuses of the source, and the sum [exn] of the exceptions that the
    modelled code raises and catches. *)
From S2P Require Export Prelude.

(** ** The dataclass [LauncherError] *)
Record LauncherError := mkLauncherError {
  code : string;
  message : string;
  http_status : Z
}.

#[export] Instance LauncherError_eq_dec : EqDecision LauncherError.
Proof. solve_decision. Defined.

Definition public_dict (e : LauncherError) : list (string * string) :=
  [("error"%string, code e); ("message"%string, message e)].

(** ** Subclasses, each with the arguments its [__init__] takes *)
Definition ConflictError_default : string :=
  "The resource changed; refresh and retry.".
Definition ConflictError (msg : string) : LauncherError :=
  mkLauncherError "conflict" msg 409.
Definition PermissionDenied (msg : string) : LauncherError :=
  mkLauncherError "permission_denied" msg 403.
Definition LaunchAuthorizationError (c msg : string) : LauncherError :=
  mkLauncherError c msg 400.
Definition InvalidLaunchToken : LauncherError :=
  LaunchAuthorizationError "invalid_launch_token"
    "The launch authorization token is invalid.".
Definition LaunchTokenExpired : LauncherError :=
  LaunchAuthorizationError "launch_token_expired"
    "The launch authorization token expired; refresh the preview and retry.".
Definition ExecutionTimeout : LauncherError :=
  mkLauncherError "execution_timeout"
    "The operation exceeded its allowed execution time." 408.
Definition ExecutionCancelled : LauncherError :=
  mkLauncherError "execution_cancelled" "The operation was cancelled." 409.
Definition RepositorySetupFailed (msg : string) : LauncherError :=
  mkLauncherError "repository_setup_failed" msg 502.
Definition RepositoryIdentityChanged : LauncherError :=
  mkLauncherError "repository_identity_changed"
    "The resolved repository revision changed; refresh and retry." 409.
Definition WritableAgentBusy : LauncherError :=
  mkLauncherError "writable_agent_busy"
    "Another writable agent is already attached." 409.
Definition WorkspaceActive : LauncherError :=
  mkLauncherError "workspace_active"
    "The workspace already has an active session." 409.
Definition StorageFull : LauncherError :=
  mkLauncherError "storage_full"
    "The persistent write could not complete because storage is full." 507.
Definition HostPathEscape : LauncherError :=
  mkLauncherError "host_path_escape"
    "The requested path resolves outside the granted directory." 403.
Definition HostPathChanged : LauncherError :=
  mkLauncherError "host_path_changed"
    "The granted host path changed and must be authorized again." 409.
Definition InvalidHostPath (msg : string) : LauncherError :=
  mkLauncherError "invalid_host_path" msg 400.
Definition NetworkPolicyUnavailable : LauncherError :=
  mkLauncherError "network_policy_unavailable"
    "The required runtime network policy could not be applied." 503.
Definition SessionNotReady : LauncherError :=
  mkLauncherError "session_not_ready" "The notebook session is not ready." 409.
Definition UnknownSession : LauncherError :=
  mkLauncherError "unknown_session" "The notebook session was not found." 404.
Definition UnknownWorkspace : LauncherError :=
  mkLauncherError "unknown_workspace" "The workspace was not found." 404.
Definition TrustNotFound : LauncherError :=
  mkLauncherError "trust_not_found" "The trust grant was not found." 404.

(** The detail of an error response of the web framework. *)
Inductive http_detail :=
| DetailText (text : string)
| DetailPublic (error : LauncherError)
| DetailOfCause.

(** ** Exceptions of the modelled code

    [LauncherExn] carries the launcher's own errors; [HTTPException] is the
    web framework's, with the text, the public fields of an error, or the text
    of its cause as its detail; the others are the
    built-in, [subprocess] (with the name of the subclass) and [sqlite3] classes that the source raises or catches.
    [WindowsError] is what [ctypes.WinError] makes of an error code.
    [SystemExit] is not an [Exception] in Python; [is_Exception] says so.
    [Diverges] is no exception of Python: a loop that did not end within its
    fuel.  No handler takes it, and each such loop has a theorem that says when
    it does not occur. *)
Inductive exn : Type :=
| LauncherExn (e : LauncherError)
| ValueError (msg : string)
| JSONDecodeError (msg : string)
| TypeError (msg : string)
| KeyError (key : string)
| RuntimeError (msg : string)
| NetworkPolicyError (msg : string)
| RuntimePolicyError (msg : string)
| EnvironmentBuildError (msg : string)
| JupyterStateError (msg : string)
| SubprocessError (cls : string)
| FileNotFoundError (msg : string)
| FileExistsError (msg : string)
| PermissionError (msg : string)
| ProcessLookupError
| WindowsError (winerror : Z)
| OSError (errno : Z)
| OverflowError
| AttributeError (msg : string)
| IntegrityError
| AssertionError
| SystemExit (msg : string)
| HTTPException (status : Z) (detail : http_detail) (cause : option exn)
| ExceptionGroup (msg : string) (exns : list exn)
| Diverges.

Definition is_Exception (e : exn) : bool :=
  match e with SystemExit _ | Diverges => false | _ => true end.

(** [except OSError] also catches its subclasses used here. *)
Definition is_OSError (e : exn) : bool :=
  match e with
  | OSError _ | FileNotFoundError _ | FileExistsError _ | PermissionError _ | ProcessLookupError | WindowsError _ => true
  | _ => false
  end.

(** [json.JSONDecodeError] is a [ValueError]. *)
Definition is_ValueError (e : exn) : bool :=
  match e with ValueError _ | JSONDecodeError _ => true | _ => false end.

(** [NetworkPolicyError] (network.py) and [RuntimePolicyError] (runtime.py)
    [EnvironmentBuildError] (environment.py) and [JupyterStateError] (jupyter.py)
    are [RuntimeError]s. *)
Definition is_RuntimeError (e : exn) : bool :=
  match e with RuntimeError _ | NetworkPolicyError _ | RuntimePolicyError _ | EnvironmentBuildError _ | JupyterStateError _ => true | _ => false end.

Definition is_LauncherError (e : exn) : bool :=
  match e with LauncherExn _ => true | _ => false end.

(** The result of code that may raise. *)
Abbreviation res := (result exn).

Definition raise {A} (e : exn) : res A := Err e.
Definition raiseL {A} (e : LauncherError) : res A := Err (LauncherExn e).

(** ** Code with effects on a state [S]

    A step changes the state and returns or raises; unlike a transaction it
    keeps its effects when it raises. *)
Definition Eff (S A : Type) : Type := S -> S * res A.

#[export] Instance eff_ret {S} : MRet (Eff S) := fun A a s => (s, Ok a).
#[export] Instance eff_bind {S} : MBind (Eff S) := fun A B k m s =>
  match m s with
  | (s', Ok a) => k a s'
  | (s', Err e) => (s', Err e)
  end.

Definition eff_raise {S A} (e : exn) : Eff S A := fun s => (s, Err e).
Definition eff_lift {S A} (r : res A) : Eff S A := fun s => (s, r).
Definition eff_raise_if {S} (b : bool) (e : exn) : Eff S unit := fun s => (s, raise_if b e).

(** [try: m  except ...: h]: the handler says which exceptions it takes. *)
Definition eff_try {S A} (m : Eff S A) (h : exn -> option (Eff S A)) : Eff S A := fun s =>
  match m s with
  | (s', Err e) => match h e with Some k => k s' | None => (s', Err e) end
  | r => r
  end.

(** [try: m  finally: f], for an [f] that returns nothing. *)
Definition eff_finally {S A} (m : Eff S A) (f : Eff S unit) : Eff S A := fun s =>
  let '(s', r) := m s in
  match f s' with
  | (s'', Ok _) => (s'', r)
  | (s'', Err e) => (s'', Err e)
  end.

(** [for a in l: f(a)] *)
Fixpoint eff_iter {S A} (f : A -> Eff S unit) (l : list A) : Eff S unit :=
  match l with
  | [] => fun s => (s, Ok tt)
  | a :: l' => fun s =>
      match f a s with
      | (s', Ok _) => eff_iter f l' s'
      | (s', Err e) => (s', Err e)
      end
  end.

Lemma eff_bind_ok {S A B} (m : Eff S A) (k : A -> Eff S B) s s' b :
  (m ≫= k) s = (s', Ok b) <-> exists s1 a, m s = (s1, Ok a) /\ k a s1 = (s', Ok b).
Proof.
  unfold mbind, eff_bind. destruct (m s) as [s1 [a|e]]; split.
  - eauto.
  - intros (s2 & a' & [= -> ->] & Hk). exact Hk.
  - discriminate.
  - intros (s2 & a' & [=] & _).
Qed.

Lemma bind_inv {S A B} (m : Eff S A) (k : A -> Eff S B) s s' r :
  (m ≫= k) s = (s', r) ->
  (exists e, m s = (s', Err e) /\ r = Err e) \/ (exists s1 a, m s = (s1, Ok a) /\ k a s1 = (s', r)).
Proof.
  unfold mbind, eff_bind. destruct (m s) as [s1 [a|e]]; intros H; [right; eauto|].
  left. injection H as <- <-. eauto.
Qed.

Lemma eff_lift_bind {S A B} (r : res A) (k : A -> Eff S B) s s' b :
  (eff_lift r ≫= k) s = (s', b) ->
  (exists e, r = Err e /\ s' = s /\ b = Err e) \/ (exists a, r = Ok a /\ k a s = (s', b)).
Proof. unfold mbind, eff_bind, eff_lift. destruct r as [a|e]; [eauto|]. intros H. left. exists e. split_and!; congruence. Qed.

Lemma eff_raise_if_bind {S A} c e (k : unit -> Eff S A) s s' b :
  (eff_raise_if c e ≫= k) s = (s', b) -> (c = true /\ s' = s /\ b = Err e) \/ (c = false /\ k tt s = (s', b)).
Proof. unfold mbind, eff_bind, eff_raise_if, raise_if. destruct c; [left|right; auto]. split_and!; congruence. Qed.
