(* ===== verification/Triples.v ===== *)
(** * Triples for effectful code

    The program logic of the development: an invariant, a relation between the
    states before and after, and a postcondition.  The postcondition is about
    normal results; the invariant and the relation hold of every outcome,
    exceptions included.  [solve_triple] takes a program apart. *)
From S2P Require Export Errors.

Section Triples.
Context {S : Type} (I : S -> Prop) (Rel : S -> S -> Prop) `{!PreOrder Rel}.

Definition triple {A} (P : S -> Prop) (m : Eff S A) (Q : A -> S -> Prop) : Prop :=
  forall s s' r, I s -> P s -> m s = (s', r) -> I s' /\ Rel s s' /\ (forall a, r = Ok a -> Q a s').

(** Nothing is assumed of the state or known of the result. *)
Definition holds {A} (m : Eff S A) : Prop := triple (fun _ => True) m (fun _ _ => True).

Lemma triple_conseq {A} (P P' : S -> Prop) (m : Eff S A) (Q Q' : A -> S -> Prop) :
  triple P' m Q' -> (forall s, P s -> P' s) -> (forall a s, Q' a s -> Q a s) -> triple P m Q.
Proof. intros H HP HQ s s' r Hi Hs Hm. destruct (H s s' r Hi (HP s Hs) Hm) as (H1 & H2 & H3). eauto. Qed.

Lemma triple_holds {A} (P : S -> Prop) (m : Eff S A) : holds m -> triple P m (fun _ _ => True).
Proof. intros H. eapply triple_conseq; [exact H|easy|easy]. Qed.

Lemma holds_triple {A} (m : Eff S A) (Q : A -> S -> Prop) : triple (fun _ => True) m Q -> holds m.
Proof. intros H. eapply triple_conseq; [exact H|easy|easy]. Qed.

Lemma triple_ret {A} (P : S -> Prop) (a : A) : triple P (mret a) (fun x s => x = a /\ P s).
Proof. intros s s' r Hi Hp [= <- <-]. split; [exact Hi|]. split; [reflexivity|]. intros x [= ->]. auto. Qed.

Lemma triple_raise {A} (P : S -> Prop) e (Q : A -> S -> Prop) : triple P (eff_raise e) Q.
Proof. intros s s' r Hi _ [= <- <-]. split; [exact Hi|]. split; [reflexivity|discriminate]. Qed.

Lemma triple_lift {A} (P : S -> Prop) (x : res A) : triple P (eff_lift x) (fun a s => x = Ok a /\ P s).
Proof. intros s s' r Hi Hp [= <- <-]. split; [exact Hi|]. split; [reflexivity|]. auto. Qed.

Lemma triple_raise_if (P : S -> Prop) b e : triple P (eff_raise_if b e) (fun _ s => b = false /\ P s).
Proof.
  intros s s' r Hi Hp [= <- <-]. split; [exact Hi|]. split; [reflexivity|]. unfold raise_if.
  destruct b; [discriminate|auto].
Qed.

Lemma triple_bind {A B} (P : S -> Prop) (m : Eff S A) (k : A -> Eff S B) (Q : A -> S -> Prop) (Q' : B -> S -> Prop) :
  triple P m Q -> (forall a, triple (Q a) (k a) Q') -> triple P (m ≫= k) Q'.
Proof.
  intros Hm Hk s s' r Hi Hp H. apply bind_inv in H as [(e & E & ->)|(s1 & a & E & H)].
  - destruct (Hm _ _ _ Hi Hp E) as (H1 & H2 & _). split_and!; [exact H1|exact H2|discriminate].
  - destruct (Hm _ _ _ Hi Hp E) as (H1 & H2 & H3). destruct (Hk a _ _ _ H1 (H3 a eq_refl) H) as (H4 & H5 & H6).
    split_and!; [exact H4|etrans; eauto|exact H6].
Qed.

Lemma triple_try {A} (P : S -> Prop) (m : Eff S A) h (Q : A -> S -> Prop) :
  triple P m Q -> (forall e k, h e = Some k -> triple (fun _ => True) k Q) -> triple P (eff_try m h) Q.
Proof.
  intros Hm Hh s s' r Hi Hp H. unfold eff_try in H. destruct (m s) as [s1 [a|e]] eqn:E.
  - injection H as <- <-. exact (Hm _ _ _ Hi Hp E).
  - destruct (Hm _ _ _ Hi Hp E) as (H1 & H2 & _). destruct (h e) as [k|] eqn:Eh.
    + destruct (Hh e k Eh _ _ _ H1 Logic.I H) as (H3 & H4 & H5). split_and!; [exact H3|etrans; eauto|exact H5].
    + injection H as <- <-. split_and!; [exact H1|exact H2|discriminate].
Qed.

Lemma holds_ret {A} (a : A) : holds (mret a).
Proof. eapply triple_conseq; [apply (triple_ret (fun _ => True))|easy|easy]. Qed.
Lemma holds_raise {A} e : holds (A := A) (eff_raise e).
Proof. apply triple_raise. Qed.
Lemma holds_lift {A} (x : res A) : holds (eff_lift x).
Proof. eapply triple_conseq; [apply (triple_lift (fun _ => True))|easy|easy]. Qed.
Lemma holds_raise_if b e : holds (eff_raise_if b e).
Proof. eapply triple_conseq; [apply (triple_raise_if (fun _ => True))|easy|easy]. Qed.
Lemma holds_bind {A B} (m : Eff S A) (k : A -> Eff S B) : holds m -> (forall a, holds (k a)) -> holds (m ≫= k).
Proof. intros Hm Hk. eapply triple_bind; [exact Hm|exact Hk]. Qed.
(** After a step of which nothing is known. *)
Lemma triple_after {A B} (m : Eff S A) (k : A -> Eff S B) (Q : B -> S -> Prop) :
  holds m -> (forall a, triple (fun _ => True) (k a) Q) -> triple (fun _ => True) (m ≫= k) Q.
Proof. intros Hm Hk. eapply triple_bind; [exact Hm|exact Hk]. Qed.

(** A step that is only about its result. *)
Lemma triple_value {A} (a : A) (P : S -> Prop) (Q : A -> S -> Prop) : (forall s, P s -> Q a s) -> triple P (mret a) Q.
Proof. intros H. eapply triple_conseq; [apply triple_ret|intros s Hs; exact Hs|]. intros x s [-> Hs]. auto. Qed.

Lemma holds_try {A} (m : Eff S A) h : holds m -> (forall e k, h e = Some k -> holds k) -> holds (eff_try m h).
Proof. intros Hm Hh. apply triple_try; [exact Hm|exact Hh]. Qed.

Lemma holds_iter {A} (f : A -> Eff S unit) l : (forall a, In a l -> holds (f a)) -> holds (eff_iter f l).
Proof.
  induction l as [|a l IH]; intros H; cbn [eff_iter]; [apply (holds_ret tt)|].
  intros s s' r Hi _ Hm. destruct (f a s) as [s1 [u|e]] eqn:E; destruct (H a (or_introl eq_refl) _ _ _ Hi Logic.I E) as (H1 & H2 & _).
  - assert (Hl : holds (eff_iter f l)) by (apply IH; intros x Hx; apply H; now right).
    destruct (Hl _ _ _ H1 Logic.I Hm) as (H3 & H4 & _). split_and!; [exact H3|etrans; eauto|auto].
  - injection Hm as <- <-. split_and!; [exact H1|exact H2|auto].
Qed.

Lemma holds_finally {A} (m : Eff S A) (f : Eff S unit) : holds m -> holds f -> holds (eff_finally m f).
Proof.
  intros Hm Hf s s' r Hi _ H. unfold eff_finally in H. destruct (m s) as [s1 r1] eqn:E1, (f s1) as [s2 r2] eqn:E2.
  destruct (Hm _ _ _ Hi Logic.I E1) as (H1 & H2 & _). destruct (Hf _ _ _ H1 Logic.I E2) as (H3 & H4 & _).
  destruct r2; injection H as <- <-; (split_and!; [exact H3|etrans; eauto|auto]).
Qed.
End Triples.

Create HintDb triples.
#[export] Hint Resolve holds_ret holds_raise holds_lift holds_raise_if : triples.
#[export] Hint Extern 0 (PreOrder _) => (typeclasses eauto) : triples.

(** Takes an effectful program apart down to the steps that the database knows. *)
Ltac triple_step :=
  first
  [ solve [eauto 3 with triples]
  | match goal with
    | |- holds _ _ (_ ≫= _) => apply holds_bind; [typeclasses eauto| |intros ?]
    | |- holds _ _ (eff_try _ _) => apply holds_try; [typeclasses eauto| |intros ? ?]
    | |- holds _ _ (eff_iter _ _) => apply holds_iter; [typeclasses eauto|intros ? _]
    | |- holds _ _ (eff_finally _ _) => apply holds_finally; [typeclasses eauto| |]
    | |- (if ?b then _ else _) = Some _ -> _ => destruct b; [intros [= <-]|discriminate]
    | |- match ?e with _ => _ end = Some _ -> _ => destruct e; first [discriminate|intros [= <-]]
    | |- holds _ _ (if ?b then _ else _) => destruct b
    | |- holds _ _ (match ?x with _ => _ end) => destruct x
    end ].
Ltac solve_triple := intros; repeat triple_step.

(** ** Traces that grow *)

(** The second trace continues the first by events in [P]. *)
Definition appends {E} (P : E -> Prop) (t t' : list E) : Prop := exists s, t' = t ++ s /\ Forall P s.

#[export] Instance appends_preorder {E} (P : E -> Prop) : PreOrder (appends P).
Proof.
  split.
  - intros t. exists []. split; [now rewrite app_nil_r|constructor].
  - intros a b c (s1 & -> & F1) (s2 & -> & F2). exists (s1 ++ s2). split; [now rewrite app_assoc|now apply Forall_app].
Qed.

Lemma appends_one {E} (P : E -> Prop) t x : P x -> appends P t (t ++ [x]).
Proof. intros Hx. exists [x]. split; [reflexivity|]. constructor; [exact Hx|constructor]. Qed.
