(* ===== verification/IsoTime.v ===== *)
(** * Instants and their ISO-8601 text

    The launcher keeps every time as the text [datetime.now(UTC).isoformat()]
    and compares those texts inside SQL ([writable_agent_leases.heartbeat_at]
    against [stale_before]).  An aware UTC [datetime] is an instant [z : Z], in
    microseconds since the epoch; [isoformat] renders it the way CPython does
    (proleptic Gregorian calendar, the fraction omitted when it is zero).

    [iso_compare]: SQLite's byte-wise comparison of two such texts is the
    chronological comparison of the instants, for the years 1 to 9999. *)
From S2P Require Export Errors.

(** ** The calendar of CPython's [datetime] *)
Definition is_leap (y : Z) : bool :=
  (y mod 4 =? 0) && (negb (y mod 100 =? 0) || (y mod 400 =? 0)).

Definition days_before_year (y : Z) : Z :=
  let y1 := y - 1 in y1 * 365 + y1 / 4 - y1 / 100 + y1 / 400.

Definition days_before_month_tbl : list Z :=
  [0; 0; 31; 59; 90; 120; 151; 181; 212; 243; 273; 304; 334].
Definition days_in_month_tbl : list Z :=
  [0; 31; 28; 31; 30; 31; 30; 31; 31; 30; 31; 30; 31].

(** Month and day of the day [n] (from 0) of a year. *)
Definition month_day (leap : bool) (n : Z) : Z * Z :=
  let month := Z.shiftr (n + 50) 5 in
  let preceding := nth (Z.to_nat month) days_before_month_tbl 0
                   + Z.b2z ((2 <? month) && leap) in
  if n <? preceding then
    let month' := month - 1 in
    let preceding' := preceding - (nth (Z.to_nat month') days_in_month_tbl 0
                                   + Z.b2z ((month' =? 2) && leap)) in
    (month', n - preceding' + 1)
  else (month, n - preceding + 1).

(** CPython's [_ord2ymd]. *)
Definition ord2ymd (ord : Z) : Z * Z * Z :=
  let n := ord - 1 in
  let n400 := n / 146097 in let n := n mod 146097 in
  let n100 := n / 36524 in let n := n mod 36524 in
  let n4 := n / 1461 in let n := n mod 1461 in
  let n1 := n / 365 in let n := n mod 365 in
  let year := n400 * 400 + 1 + n100 * 100 + n4 * 4 + n1 in
  if (n1 =? 4) || (n100 =? 4) then (year - 1, 12, 31)
  else
    let leapyear := (n1 =? 3) && (negb (n4 =? 24) || (n100 =? 3)) in
    let '(month, day) := month_day leapyear n in
    (year, month, day).

(** ** Rendering *)
Definition digit (d : Z) : ascii := ascii_of_N (48 + Z.to_N d).

(** The [k] low decimal digits of [n], as by [%0kd]. *)
Fixpoint digits (k : nat) (n : Z) : string :=
  match k with
  | O => EmptyString
  | S k' => String (digit (n / 10 ^ Z.of_nat k' mod 10)) (digits k' n)
  end.

Definition usec_per_day : Z := 86400000000.
Definition epoch_ordinal : Z := 719163.

Definition iso_date (z : Z) : string :=
  let '(y, m, d) := ord2ymd (z / usec_per_day + epoch_ordinal) in
  (digits 4 y ++ ("-" ++ (digits 2 m ++ ("-" ++ digits 2 d))))%string.

Definition iso_frac (us : Z) : string :=
  ((if (us =? 0)%Z then "" else "." ++ digits 6 us) ++ "+00:00")%string.

Definition iso_time (r : Z) : string :=
  (digits 2 (r / 3600000000)%Z ++ (":" ++ (digits 2 (r / 60000000 mod 60)%Z
   ++ (":" ++ (digits 2 (r / 1000000 mod 60)%Z ++ iso_frac (r mod 1000000)%Z)))))%string.

Definition isoformat (z : Z) : string :=
  (iso_date z ++ ("T" ++ iso_time (z mod usec_per_day)))%string.

(** SQLite compares TEXT values byte by byte (BINARY collation). *)
Definition sql_ltb (a b : string) : bool := String.ltb a b.

(** 0001-01-01T00:00:00Z and 9999-12-31T23:59:59.999999Z. *)
Definition datetime_min : Z := -62135596800000000.
Definition datetime_max : Z := 253402300799999999.
Definition in_datetime_range (z : Z) : Prop := datetime_min <= z <= datetime_max.

Example iso_epoch : isoformat 0 = "1970-01-01T00:00:00+00:00"%string.
Proof. reflexivity. Qed.
Example iso_frac_half :
  isoformat 1790000000500000 = "2026-09-21T14:13:20.500000+00:00"%string.
Proof. reflexivity. Qed.
Example iso_leap_day : isoformat (951782400000000 + 1) = "2000-02-29T00:00:00.000001+00:00"%string.
Proof. reflexivity. Qed.
Example iso_min : isoformat datetime_min = "0001-01-01T00:00:00+00:00"%string.
Proof. reflexivity. Qed.
Example iso_max : isoformat datetime_max = "9999-12-31T23:59:59.999999+00:00"%string.
Proof. reflexivity. Qed.

(** ** Comparing strings piecewise *)
Definition then_cmp (c k : comparison) : comparison :=
  match c with Eq => k | _ => c end.

Lemma compare_app a b s t :
  String.length a = String.length b ->
  String.compare (a ++ s)%string (b ++ t)%string
  = then_cmp (String.compare a b) (String.compare s t).
Proof.
  revert b. induction a as [|x a IH]; intros [|y b] Hlen; simpl in *; try discriminate.
  - reflexivity.
  - destruct (Ascii.compare x y); simpl; auto.
Qed.

Lemma string_compare_refl s : String.compare s s = Eq.
Proof.
  induction s as [|c s IH]; simpl; [reflexivity|].
  unfold Ascii.compare. now rewrite N.compare_refl.
Qed.

Lemma length_digits k n : String.length (digits k n) = k.
Proof. induction k; simpl; congruence. Qed.

Lemma compare_app_refl a s t :
  String.compare (a ++ s)%string (a ++ t)%string = String.compare s t.
Proof. rewrite compare_app by reflexivity. now rewrite string_compare_refl. Qed.

Lemma digit_compare a b :
  0 <= a < 10 -> 0 <= b < 10 -> Ascii.compare (digit a) (digit b) = Z.compare a b.
Proof.
  intros Ha Hb. unfold Ascii.compare, digit.
  rewrite !N_ascii_embedding by lia.
  destruct (Z.compare_spec a b); [subst; apply N.compare_refl|apply N.compare_lt_iff; lia
    |apply N.compare_gt_iff; lia].
Qed.

Lemma digits_mod k n : digits k n = digits k (n mod 10 ^ Z.of_nat k).
Proof.
  enough (H : forall j, Z.of_nat k <= j -> digits k n = digits k (n mod 10 ^ j)) by (apply H; lia).
  induction k as [|k IH]; intros j Hj; simpl; [reflexivity|].
  f_equal; [|apply IH; lia].
  f_equal.
  replace j with (Z.of_nat k + (j - Z.of_nat k)) by lia.
  rewrite Z.pow_add_r, Z.rem_mul_r by lia.
  rewrite (Z.mul_comm (10 ^ Z.of_nat k) (_ mod _)), Z.div_add by lia.
  rewrite (Z.div_small (n mod _)) by (apply Z.mod_pos_bound; lia).
  replace (j - Z.of_nat k) with (1 + (j - Z.of_nat k - 1)) by lia.
  rewrite Z.pow_add_r, Z.pow_1_r, Z.rem_mul_r by lia.
  rewrite Z.add_0_l, (Z.mul_comm 10), Z.mod_add by lia.
  now rewrite Z.mod_mod by lia.
Qed.

Lemma digits_compare k a b :
  0 <= a < 10 ^ Z.of_nat k -> 0 <= b < 10 ^ Z.of_nat k ->
  String.compare (digits k a) (digits k b) = Z.compare a b.
Proof.
  revert a b. induction k as [|k IH]; intros a b Ha Hb.
  - simpl. replace a with b by (simpl in *; lia). now rewrite Z.compare_refl.
  - rewrite Nat2Z.inj_succ, Z.pow_succ_r in Ha, Hb by lia.
    set (p := 10 ^ Z.of_nat k) in *. assert (Hp : 0 < p) by (apply Z.pow_pos_nonneg; lia).
    simpl. fold p.
    pose proof (Z.div_mod a p ltac:(lia)). pose proof (Z.mod_pos_bound a p Hp).
    pose proof (Z.div_mod b p ltac:(lia)). pose proof (Z.mod_pos_bound b p Hp).
    assert (0 <= a / p < 10) by nia. assert (0 <= b / p < 10) by nia.
    rewrite !Z.mod_small by lia. rewrite digit_compare by lia.
    destruct (Z.compare_spec (a / p) (b / p)) as [He|Hl|Hg].
    + rewrite (digits_mod k a), (digits_mod k b). fold p. rewrite IH by lia.
      destruct (Z.compare_spec (a mod p) (b mod p)); symmetry.
      * apply Z.compare_eq_iff. nia.
      * apply Z.compare_lt_iff. nia.
      * apply Z.compare_gt_iff. nia.
    + symmetry. apply Z.compare_lt_iff. nia.
    + symmetry. apply Z.compare_gt_iff. nia.
Qed.

Lemma digits_app_compare k a b s t :
  0 <= a < 10 ^ Z.of_nat k -> 0 <= b < 10 ^ Z.of_nat k ->
  String.compare (digits k a ++ s)%string (digits k b ++ t)%string
  = then_cmp (Z.compare a b) (String.compare s t).
Proof.
  intros. rewrite compare_app by now rewrite !length_digits.
  now rewrite digits_compare.
Qed.

(** Lexicographic comparison of two digits is comparison of a mixed-radix
    number. *)
Lemma then_cmp_key B a b x y :
  0 <= x < B -> 0 <= y < B ->
  then_cmp (Z.compare a b) (Z.compare x y) = Z.compare (a * B + x) (b * B + y).
Proof.
  intros Hx Hy. destruct (Z.compare_spec a b) as [->|H|H]; simpl; symmetry.
  - destruct (Z.compare_spec x y);
      [apply Z.compare_eq_iff|apply Z.compare_lt_iff|apply Z.compare_gt_iff]; lia.
  - apply Z.compare_lt_iff. nia.
  - apply Z.compare_gt_iff. nia.
Qed.

Lemma then_cmp_assoc a b c : then_cmp (then_cmp a b) c = then_cmp a (then_cmp b c).
Proof. now destruct a. Qed.

(** ** The time of day *)
Lemma frac_compare a b :
  0 <= a < 1000000 -> 0 <= b < 1000000 ->
  String.compare (iso_frac a) (iso_frac b) = Z.compare a b.
Proof.
  intros Ha Hb. unfold iso_frac.
  destruct (Z.eqb_spec a 0) as [->|Hna], (Z.eqb_spec b 0) as [->|Hnb].
  - reflexivity.
  - replace (Z.compare 0 b) with Lt by (symmetry; apply Z.compare_lt_iff; lia). reflexivity.
  - replace (Z.compare a 0) with Gt by (symmetry; apply Z.compare_gt_iff; lia). reflexivity.
  - rewrite compare_app by reflexivity. rewrite string_compare_refl, compare_app_refl.
    rewrite digits_compare by (change (10 ^ Z.of_nat 6) with 1000000; lia).
    now destruct (Z.compare a b).
Qed.

Lemma iso_time_compare r s :
  0 <= r < usec_per_day -> 0 <= s < usec_per_day ->
  String.compare (iso_time r) (iso_time s) = Z.compare r s.
Proof.
  unfold usec_per_day. intros Hr Hs. unfold iso_time.
  rewrite !digits_app_compare, !compare_app_refl, !digits_app_compare, !compare_app_refl,
    !digits_app_compare, frac_compare
    by (try (apply Z.mod_pos_bound; lia); simpl; Z.to_euclidean_division_equations; lia).
  rewrite (then_cmp_key 1000000) by (apply Z.mod_pos_bound; lia).
  rewrite (then_cmp_key (60 * 1000000)) by (Z.to_euclidean_division_equations; lia).
  rewrite (then_cmp_key (60 * (60 * 1000000))) by (Z.to_euclidean_division_equations; lia).
  f_equal; Z.to_euclidean_division_equations; lia.
Qed.

(** ** The date *)
Definition days_in_year (y : Z) : Z := 365 + Z.b2z (is_leap y).

Definition md_key (leap : bool) (n : Z) : Z :=
  let '(m, d) := month_day leap n in m * 100 + d.

Definition md_ok (leap : bool) (n : Z) : bool :=
  let '(m, d) := month_day leap n in
  (1 <=? m) && (m <=? 12) && (1 <=? d) && (d <=? 31)
  && (md_key leap n <? md_key leap (n + 1) + 2000 * Z.b2z (n + 1 =? 365 + Z.b2z leap)).

(** Every day of both kinds of year, by computation. *)
Lemma md_ok_all leap n : 0 <= n < 365 + Z.b2z leap -> md_ok leap n = true.
Proof.
  intros Hn.
  apply (all_below_spec (md_ok leap) (365 + Z.b2z leap)); [|exact Hn].
  destruct leap; vm_compute; reflexivity.
Qed.

Lemma md_range leap n m d :
  0 <= n < 365 + Z.b2z leap -> month_day leap n = (m, d) -> 1 <= m <= 12 /\ 1 <= d <= 31.
Proof.
  intros Hn Hmd. pose proof (md_ok_all leap n Hn) as H. unfold md_ok in H.
  rewrite Hmd in H. bool_to_prop. lia.
Qed.

Lemma md_key_mono leap n k :
  0 <= n < k -> k < 365 + Z.b2z leap -> md_key leap n < md_key leap k.
Proof.
  intros Hn Hk. replace k with (n + 1 + Z.of_nat (Z.to_nat (k - n - 1))) in * by lia.
  remember (Z.to_nat (k - n - 1)) as j eqn:Hj. clear Hj.
  assert (Hstep : forall i, 0 <= i -> i + 1 < 365 + Z.b2z leap -> md_key leap i < md_key leap (i + 1)).
  { intros i Hi Hi1. pose proof (md_ok_all leap i ltac:(lia)) as H. unfold md_ok in H.
    destruct (month_day leap i). bool_to_prop.
    rewrite (proj2 (Z.eqb_neq _ _)) in * by lia. simpl in *. lia. }
  induction j as [|j IH].
  - rewrite Z.add_0_r. apply Hstep; lia.
  - rewrite Nat2Z.inj_succ in *. specialize (IH ltac:(lia) ltac:(lia)).
    replace (n + 1 + Z.succ (Z.of_nat j)) with (n + 1 + Z.of_nat j + 1) by lia.
    pose proof (Hstep (n + 1 + Z.of_nat j) ltac:(lia) ltac:(lia)). lia.
Qed.

(** [ord2ymd] splits an ordinal into a year and a day of that year. *)
Lemma ord2ymd_spec ord :
  exists y n, 0 <= n < days_in_year y /\ ord = days_before_year y + n + 1
    /\ ord2ymd ord = (y, fst (month_day (is_leap y) n), snd (month_day (is_leap y) n)).
Proof.
  unfold ord2ymd.
  set (a := (ord - 1) / 146097). set (ra := (ord - 1) mod 146097).
  set (b := ra / 36524). set (rb := ra mod 36524).
  set (c := rb / 1461). set (rc := rb mod 1461).
  set (d := rc / 365). set (rd := rc mod 365).
  assert (Ha : ord - 1 = 146097 * a + ra /\ 0 <= ra < 146097)
    by (split; [apply Z.div_mod|apply Z.mod_pos_bound]; lia).
  assert (Hb : ra = 36524 * b + rb /\ 0 <= rb < 36524)
    by (split; [apply Z.div_mod|apply Z.mod_pos_bound]; lia).
  assert (Hc : rb = 1461 * c + rc /\ 0 <= rc < 1461)
    by (split; [apply Z.div_mod|apply Z.mod_pos_bound]; lia).
  assert (Hd : rc = 365 * d + rd /\ 0 <= rd < 365)
    by (split; [apply Z.div_mod|apply Z.mod_pos_bound]; lia).
  clearbody a ra b rb c rc d rd.
  assert (Hdby : forall x, 0 <= b <= 3 -> 0 <= c <= 24 -> 0 <= x <= 3 ->
    days_before_year (a * 400 + 1 + b * 100 + c * 4 + x)
    = 146097 * a + 36524 * b + 1461 * c + 365 * x).
  { intros x ? ? ?. unfold days_before_year. Z.to_euclidean_division_equations; lia. }
  destruct ((d =? 4) || (b =? 4)) eqn:H4.
  - assert (Hlast : b = 4 /\ c = 0 /\ d = 0 /\ rd = 0 \/ b <= 3 /\ d = 4 /\ rd = 0)
      by (apply orb_true_iff in H4; rewrite !Z.eqb_eq in H4; lia).
    set (y := a * 400 + 1 + b * 100 + c * 4 + d - 1).
    assert (Hleap : is_leap y = true /\ ord = days_before_year y + 365 + 1).
    { destruct Hlast as [(-> & -> & -> & ->)|(Hb3 & -> & ->)]; subst y.
      - replace (a * 400 + 1 + 4 * 100 + 0 * 4 + 0 - 1) with (a * 400 + 400) by lia.
        unfold is_leap, days_before_year. split; [|Z.to_euclidean_division_equations; lia].
        rewrite !(proj2 (Z.eqb_eq _ _)); [reflexivity|Z.to_euclidean_division_equations; lia..].
      - replace (a * 400 + 1 + b * 100 + c * 4 + 4 - 1) with (a * 400 + 1 + b * 100 + c * 4 + 3) by lia.
        assert (Hc24 : c <= 23 \/ b = 3 /\ c = 24) by lia.
        split; [|rewrite Hdby; lia].
        unfold is_leap. apply andb_true_iff. rewrite orb_true_iff, negb_true_iff, !Z.eqb_eq, Z.eqb_neq.
        split; [|destruct Hc24; [left|right]]; Z.to_euclidean_division_equations; lia. }
    exists y, 365. unfold days_in_year. destruct Hleap as [-> ->]. simpl. repeat split; lia.
  - apply orb_false_iff in H4. rewrite !Z.eqb_neq in H4.
    assert (Hr : 0 <= b <= 3 /\ 0 <= c <= 24 /\ 0 <= d <= 3) by lia.
    set (y := a * 400 + 1 + b * 100 + c * 4 + d).
    assert (Hy : (d =? 3) && (negb (c =? 24) || (b =? 3)) = is_leap y).
    { unfold is_leap. apply eq_true_iff_eq.
      rewrite !andb_true_iff, !orb_true_iff, !negb_true_iff, !Z.eqb_eq, !Z.eqb_neq. subst y.
      split; intros; Z.to_euclidean_division_equations; lia. }
    rewrite Hy. exists y, rd. unfold days_in_year.
    rewrite (surjective_pairing (month_day (is_leap y) rd)).
    repeat split; [lia|destruct (is_leap y); simpl; lia|].
    subst y. rewrite Hdby; lia.
Qed.

Lemma days_before_year_succ y : days_before_year (y + 1) = days_before_year y + days_in_year y.
Proof.
  unfold days_before_year, days_in_year, is_leap.
  destruct (Z.eqb_spec (y mod 4) 0), (Z.eqb_spec (y mod 100) 0), (Z.eqb_spec (y mod 400) 0);
    simpl; Z.to_euclidean_division_equations; lia.
Qed.

Lemma days_before_year_mono x y : x <= y -> days_before_year x <= days_before_year y.
Proof.
  unfold days_before_year. intros. Z.to_euclidean_division_equations; lia.
Qed.

Definition date_key (ord : Z) : Z :=
  let '(y, m, d) := ord2ymd ord in (y * 100 + m) * 100 + d.

Lemma date_key_mono a b : a < b -> date_key a < date_key b.
Proof.
  intros Hab. unfold date_key.
  destruct (ord2ymd_spec a) as (y & n & Hn & Ha & ->).
  destruct (ord2ymd_spec b) as (x & k & Hk & Hb & ->).
  assert (Hyx : y <= x).
  { destruct (Z.le_gt_cases y x) as [H|H]; [exact H|exfalso].
    pose proof (days_before_year_mono (x + 1) y ltac:(lia)).
    rewrite days_before_year_succ in *. lia. }
  unfold days_in_year in *.
  pose proof (md_range _ n _ _ Hn (surjective_pairing _)).
  pose proof (md_range _ k _ _ Hk (surjective_pairing _)).
  destruct (Z.eq_dec y x) as [->|Hne]; [|lia].
  pose proof (md_key_mono (is_leap x) n k ltac:(lia) ltac:(lia)) as Hmd.
  unfold md_key in Hmd. destruct (month_day _ n), (month_day _ k). simpl in *. lia.
Qed.

Lemma date_key_compare a b : Z.compare (date_key a) (date_key b) = Z.compare a b.
Proof.
  destruct (Z.compare_spec a b) as [->|H|H].
  - apply Z.compare_refl.
  - apply Z.compare_lt_iff. now apply date_key_mono.
  - apply Z.compare_gt_iff. now apply date_key_mono.
Qed.

Lemma ord2ymd_range z y m d :
  in_datetime_range z -> ord2ymd (z / usec_per_day + epoch_ordinal) = (y, m, d) ->
  0 <= y < 10000 /\ 0 <= m < 100 /\ 0 <= d < 100.
Proof.
  unfold in_datetime_range, datetime_min, datetime_max, usec_per_day, epoch_ordinal.
  intros Hz. destruct (ord2ymd_spec (z / 86400000000 + 719163)) as (y' & n & Hn & Ho & ->).
  intros [= <- <- <-]. unfold days_in_year in Hn.
  pose proof (md_range _ n _ _ Hn (surjective_pairing _)).
  assert (Hd : 0 <= days_before_year y' + n < 3652059) by (Z.to_euclidean_division_equations; lia).
  assert (0 <= y' < 10000); [|lia].
  unfold days_before_year in Hd. destruct (is_leap y'); simpl in Hn;
    Z.to_euclidean_division_equations; lia.
Qed.

Lemma length_iso_date z : String.length (iso_date z) = 10%nat.
Proof.
  unfold iso_date. destruct (ord2ymd _) as [[y m] d].
  reflexivity.
Qed.

Lemma iso_date_compare a b :
  in_datetime_range a -> in_datetime_range b ->
  String.compare (iso_date a) (iso_date b) = Z.compare (a / usec_per_day) (b / usec_per_day).
Proof.
  intros Ha Hb. unfold iso_date.
  pose proof (date_key_compare (a / usec_per_day + epoch_ordinal) (b / usec_per_day + epoch_ordinal)) as Hk.
  unfold date_key in Hk.
  destruct (ord2ymd (a / _ + _)) as [[y m] d] eqn:Ea.
  destruct (ord2ymd (b / _ + _)) as [[x n] e] eqn:Eb.
  apply ord2ymd_range in Ea; [|exact Ha]. apply ord2ymd_range in Eb; [|exact Hb].
  rewrite !digits_app_compare, !compare_app_refl, !digits_app_compare, !compare_app_refl,
    !digits_compare by (simpl; lia).
  rewrite (then_cmp_key 100 m n d e), (then_cmp_key 10000) by lia.
  replace (y * 10000 + (m * 100 + d)) with ((y * 100 + m) * 100 + d) by lia.
  replace (x * 10000 + (n * 100 + e)) with ((x * 100 + n) * 100 + e) by lia.
  rewrite Hk. destruct (Z.compare_spec (a / usec_per_day) (b / usec_per_day));
    [apply Z.compare_eq_iff|apply Z.compare_lt_iff|apply Z.compare_gt_iff]; lia.
Qed.

(** ** The text order is the chronological order *)
Lemma isoformat_compare a b :
  in_datetime_range a -> in_datetime_range b ->
  String.compare (isoformat a) (isoformat b) = Z.compare a b.
Proof.
  intros Ha Hb. unfold isoformat.
  rewrite compare_app by now rewrite !length_iso_date.
  rewrite compare_app_refl, iso_date_compare, iso_time_compare
    by (try assumption; apply Z.mod_pos_bound; unfold usec_per_day; lia).
  rewrite (then_cmp_key usec_per_day)
    by (apply Z.mod_pos_bound; unfold usec_per_day; lia).
  f_equal; unfold usec_per_day; Z.to_euclidean_division_equations; lia.
Qed.

Lemma iso_ltb a b :
  in_datetime_range a -> in_datetime_range b ->
  sql_ltb (isoformat a) (isoformat b) = (a <? b).
Proof.
  intros Ha Hb. unfold sql_ltb, String.ltb, Z.ltb.
  now rewrite isoformat_compare.
Qed.

Lemma isoformat_inj a b :
  in_datetime_range a -> in_datetime_range b -> isoformat a = isoformat b -> a = b.
Proof.
  intros Ha Hb Heq. apply Z.compare_eq_iff.
  rewrite <- isoformat_compare by assumption. rewrite Heq. apply string_compare_refl.
Qed.

(** ** Reading an instant back: [datetime.fromisoformat] on UTC texts *)
Definition digit_val (c : ascii) : option Z :=
  let n := Z.of_N (N_of_ascii c) in
  if (48 <=? n) && (n <=? 57) then Some (n - 48) else None.

Fixpoint read_digits (k : nat) (acc : Z) (s : string) : option (Z * string) :=
  match k, s with
  | O, _ => Some (acc, s)
  | S k', String c s' =>
      match digit_val c with
      | Some d => read_digits k' (acc * 10 + d) s'
      | None => None
      end
  | S _, EmptyString => None
  end.

Definition read_char (c : ascii) (s : string) : option string :=
  match s with
  | String x s' => if Ascii.eqb x c then Some s' else None
  | EmptyString => None
  end.

Definition days_before_month (leap : bool) (m : Z) : Z :=
  nth (Z.to_nat m) days_before_month_tbl 0 + Z.b2z ((2 <? m) && leap).

Definition days_in_month (leap : bool) (m : Z) : Z :=
  nth (Z.to_nat m) days_in_month_tbl 0 + Z.b2z ((m =? 2) && leap).

Definition ymd_ok (y m d : Z) : bool :=
  (1 <=? y) && (1 <=? m) && (m <=? 12) && (1 <=? d) && (d <=? days_in_month (is_leap y) m).

Definition ymd2ord (y m d : Z) : Z :=
  days_before_year y + days_before_month (is_leap y) m + d.

Definition fromisoformat (s : string) : option Z :=
  '(y, s) ← read_digits 4 0 s; s ← read_char "-" s;
  '(m, s) ← read_digits 2 0 s; s ← read_char "-" s;
  '(d, s) ← read_digits 2 0 s; s ← read_char "T" s;
  '(hh, s) ← read_digits 2 0 s; s ← read_char ":" s;
  '(mm, s) ← read_digits 2 0 s; s ← read_char ":" s;
  '(ss, s) ← read_digits 2 0 s;
  '(us, s) ← match read_char "." s with
             | Some s' => read_digits 6 0 s'
             | None => Some (0, s)
             end;
  if String.eqb s "+00:00" && ymd_ok y m d && (hh <? 24) && (mm <? 60) && (ss <? 60) then
    Some ((ymd2ord y m d - epoch_ordinal) * usec_per_day
          + ((hh * 60 + mm) * 60 + ss) * 1000000 + us)
  else None.

Example fromiso_frac :
  fromisoformat "2026-09-21T14:13:20.500000+00:00" = Some 1790000000500000.
Proof. reflexivity. Qed.
Example fromiso_bad : fromisoformat "2026-02-29T14:13:20+00:00" = None.
Proof. reflexivity. Qed.

Lemma digit_val_digit a : 0 <= a < 10 -> digit_val (digit a) = Some a.
Proof.
  intros Ha. unfold digit_val, digit. rewrite N_ascii_embedding by lia.
  replace (Z.of_N (48 + Z.to_N a)) with (48 + a) by lia.
  rewrite !(proj2 (Z.leb_le _ _)) by lia. simpl. f_equal. lia.
Qed.

Lemma read_digits_digits k n acc s :
  0 <= n < 10 ^ Z.of_nat k ->
  read_digits k acc (digits k n ++ s)%string = Some (acc * 10 ^ Z.of_nat k + n, s).
Proof.
  revert n acc. induction k as [|k IH]; intros n acc Hn.
  - simpl in *. do 2 f_equal. lia.
  - rewrite Nat2Z.inj_succ, Z.pow_succ_r in * by lia. simpl.
    set (p := 10 ^ Z.of_nat k) in *.
    assert (Hp : 0 < p) by (apply Z.pow_pos_nonneg; lia).
    pose proof (Z.div_mod n p ltac:(lia)). pose proof (Z.mod_pos_bound n p Hp).
    assert (0 <= n / p < 10) by nia.
    rewrite digit_val_digit by (apply Z.mod_pos_bound; lia).
    rewrite digits_mod. fold p. rewrite IH by lia. rewrite (Z.mod_small (n / p)) by lia.
    do 2 f_equal. nia.
Qed.

Lemma read_digits_end k n :
  0 <= n < 10 ^ Z.of_nat k -> read_digits k 0 (digits k n) = Some (n, ""%string).
Proof.
  intros Hn. pose proof (read_digits_digits k n 0 ""%string Hn) as H.
  now rewrite Z.mul_0_l, Z.add_0_l, string_app_nil_r in H.
Qed.

Lemma read_digits_app k n s :
  0 <= n < 10 ^ Z.of_nat k -> read_digits k 0 (digits k n ++ s)%string = Some (n, s).
Proof. intros Hn. now rewrite read_digits_digits. Qed.

Definition md_inv_ok (leap : bool) (n : Z) : bool :=
  let '(m, d) := month_day leap n in
  (days_before_month leap m + d =? n + 1) && (d <=? days_in_month leap m).

Lemma md_inv leap n m d :
  0 <= n < 365 + Z.b2z leap -> month_day leap n = (m, d) ->
  days_before_month leap m + d = n + 1 /\ d <= days_in_month leap m.
Proof.
  intros Hn Hmd.
  assert (Hall : all_below (md_inv_ok leap) (365 + Z.b2z leap) = true)
    by (destruct leap; vm_compute; reflexivity).
  pose proof (all_below_spec _ _ Hall n Hn) as H.
  unfold md_inv_ok in H. rewrite Hmd in H. bool_to_prop. lia.
Qed.

Lemma ymd2ord_ord2ymd ord y m d :
  ord2ymd ord = (y, m, d) -> ymd2ord y m d = ord /\ 1 <= m <= 12 /\ 1 <= d <= days_in_month (is_leap y) m.
Proof.
  destruct (ord2ymd_spec ord) as (y' & n & Hn & Ho & ->). intros [= <- <- <-].
  unfold days_in_year in Hn.
  pose proof (md_inv _ n _ _ Hn (surjective_pairing _)).
  pose proof (md_range _ n _ _ Hn (surjective_pairing _)).
  unfold ymd2ord. lia.
Qed.

Lemma md_dbm_le leap m d :
  1 <= m <= 12 -> d <= days_in_month leap m -> days_before_month leap m + d <= 366.
Proof.
  intros Hm. assert (Hc : m = 1 \/ m = 2 \/ m = 3 \/ m = 4 \/ m = 5 \/ m = 6 \/ m = 7 \/ m = 8
    \/ m = 9 \/ m = 10 \/ m = 11 \/ m = 12) by lia.
  assert (days_before_month leap m + days_in_month leap m <= 366); [|lia].
  destruct leap; repeat destruct Hc as [->|Hc]; try subst m; vm_compute; discriminate.
Qed.

Lemma read_frac us :
  0 <= us < 1000000 ->
  match read_char "." (iso_frac us) with
  | Some s' => read_digits 6 0 s'
  | None => Some (0, iso_frac us)
  end = Some (us, "+00:00"%string).
Proof.
  intros Hus. unfold iso_frac. destruct (Z.eqb_spec us 0) as [->|Hne]; [reflexivity|].
  change (read_char "." ((("." ++ digits 6 us) ++ "+00:00")%string))
    with (Some (digits 6 us ++ "+00:00")%string).
  apply read_digits_app. change (10 ^ Z.of_nat 6) with 1000000. lia.
Qed.

Lemma read_char_app c (s : string) : read_char c ((String c "") ++ s)%string = Some s.
Proof. unfold read_char. simpl. now rewrite Ascii.eqb_refl. Qed.

(** Every instant of Python's range is read back from its text. *)
Lemma fromisoformat_isoformat z :
  in_datetime_range z -> fromisoformat (isoformat z) = Some z.
Proof.
  intros Hz. unfold isoformat, iso_date.
  destruct (ord2ymd (z / usec_per_day + epoch_ordinal)) as [[y m] d] eqn:Ho.
  pose proof (ord2ymd_range z y m d Hz Ho) as Hr.
  destruct (ymd2ord_ord2ymd _ _ _ _ Ho) as (Hord & Hm & Hd).
  assert (Hy : 1 <= y).
  { unfold in_datetime_range, datetime_min in Hz.
    assert (1 <= z / usec_per_day + epoch_ordinal)
      by (unfold usec_per_day, epoch_ordinal; Z.to_euclidean_division_equations; lia).
    rewrite <- Hord in *. unfold ymd2ord in *.
    destruct (Z.le_gt_cases 1 y); [assumption|exfalso].
    pose proof (md_dbm_le (is_leap y) m d Hm (proj2 Hd)).
    pose proof (days_before_year_mono y 0 ltac:(lia)).
    change (days_before_year 0) with (-366) in *. lia. }
  set (r := z mod usec_per_day).
  assert (Hr' : 0 <= r < usec_per_day) by (apply Z.mod_pos_bound; unfold usec_per_day; lia).
  unfold usec_per_day in Hr'. unfold iso_time, fromisoformat.
  assert (Hhh : 0 <= r / 3600000000 < 24) by (Z.to_euclidean_division_equations; lia).
  pose proof (Z.mod_pos_bound (r / 60000000) 60 ltac:(lia)) as Hmm.
  pose proof (Z.mod_pos_bound (r / 1000000) 60 ltac:(lia)) as Hss.
  rewrite !string_app_assoc.
  repeat (rewrite read_digits_app by (simpl; lia); cbn [mbind option_bind];
          try (rewrite read_char_app; cbn [mbind option_bind])).
  rewrite read_frac by (apply Z.mod_pos_bound; lia). cbn [mbind option_bind].
  unfold ymd_ok. rewrite String.eqb_refl, !(proj2 (Z.leb_le _ _)), !(proj2 (Z.ltb_lt _ _)) by lia.
  cbn [andb]. f_equal. rewrite Hord.
  pose proof (Z.div_mod z usec_per_day ltac:(unfold usec_per_day; lia)) as Hz'. fold r in Hz'.
  assert (Ht : ((r / 3600000000 * 60 + (r / 60000000) mod 60) * 60 + (r / 1000000) mod 60) * 1000000
           + r mod 1000000 = r) by (Z.to_euclidean_division_equations; lia).
  unfold usec_per_day in *. lia.
Qed.
