(* ===== verification/Text.v ===== *)
(** * Python's string methods, on ASCII text

    [split], [join], [startswith], [endswith], [casefold], [replace] of one
    character, decimal and hexadecimal numerals, and lists of characters. *)
From S2P Require Export Errors.

(** [s.split(c)] *)
Fixpoint split_on (c : ascii) (s : string) : list string :=
  match s with
  | EmptyString => [""%string]
  | String x s' =>
      if Ascii.eqb x c then ""%string :: split_on c s'
      else match split_on c s' with
           | p :: ps => String x p :: ps
           | [] => [String x ""]
           end
  end.

(** [s.split(c, 1)] when it gives two parts: [None] when [c] is not in [s]. *)
Fixpoint split_once (c : ascii) (s : string) : option (string * string) :=
  match s with
  | EmptyString => None
  | String x s' =>
      if Ascii.eqb x c then Some (""%string, s')
      else match split_once c s' with
           | Some (a, b) => Some (String x a, b)
           | None => None
           end
  end.

(** [sep.join(parts)] *)
Fixpoint str_join (sep : string) (parts : list string) : string :=
  match parts with
  | [] => ""
  | [p] => p
  | p :: ps => (p ++ sep ++ str_join sep ps)%string
  end.

Fixpoint all_chars (p : ascii -> bool) (s : string) : bool :=
  match s with
  | EmptyString => true
  | String c s' => p c && all_chars p s'
  end.

Fixpoint map_chars (f : ascii -> ascii) (s : string) : string :=
  match s with
  | EmptyString => EmptyString
  | String c s' => String (f c) (map_chars f s')
  end.

Fixpoint filter_chars (p : ascii -> bool) (s : string) : string :=
  match s with
  | EmptyString => EmptyString
  | String c s' => if p c then String c (filter_chars p s') else filter_chars p s'
  end.

(** [c in s] *)
Definition has_char (c : ascii) (s : string) : bool := negb (all_chars (fun x => negb (Ascii.eqb x c)) s).

Definition ord (c : ascii) : Z := Z.of_N (N_of_ascii c).
Definition is_upper (c : ascii) : bool := (65 <=? ord c) && (ord c <=? 90).
Definition is_lower (c : ascii) : bool := (97 <=? ord c) && (ord c <=? 122).
Definition is_digit (c : ascii) : bool := (48 <=? ord c) && (ord c <=? 57).
Definition is_alnum (c : ascii) : bool := is_upper c || is_lower c || is_digit c.

(** [str.lower]/[str.casefold] and [str.upper] *)
Definition lower_char (c : ascii) : ascii := if is_upper c then ascii_of_N (N_of_ascii c + 32) else c.
Definition upper_char (c : ascii) : ascii := if is_lower c then ascii_of_N (N_of_ascii c - 32) else c.
Definition lower : string -> string := map_chars lower_char.
Definition upper : string -> string := map_chars upper_char.

(** [s.replace(a, b)] of one character *)
Definition replace_char (a b : ascii) : string -> string :=
  map_chars (fun c => if Ascii.eqb c a then b else c).

(** [s[:n]] *)
Fixpoint str_take (n : nat) (s : string) : string :=
  match n, s with
  | S n', String c s' => String c (str_take n' s')
  | _, _ => EmptyString
  end.

Fixpoint str_drop (n : nat) (s : string) : string :=
  match n, s with
  | S n', String _ s' => str_drop n' s'
  | _, _ => s
  end.

(** [s.startswith(p)] *)
Fixpoint starts_with (p s : string) : bool :=
  match p, s with
  | EmptyString, _ => true
  | String a p', String b s' => Ascii.eqb a b && starts_with p' s'
  | String _ _, EmptyString => false
  end.

Definition ends_with (p s : string) : bool :=
  let n := String.length s in
  let m := String.length p in
  Nat.leb m n && String.eqb (str_drop (n - m) s) p.

(** [p in s] *)
Fixpoint contains (p s : string) : bool :=
  starts_with p s
  || match s with
     | EmptyString => false
     | String _ s' => contains p s'
     end.

(** ** White space (of ASCII) *)
Definition is_space (c : ascii) : bool :=
  let n := ord c in ((9 <=? n) && (n <=? 13)) || ((28 <=? n) && (n <=? 32)).

(** [s.lstrip(...)] *)
Fixpoint lstrip (p : ascii -> bool) (s : string) : string :=
  match s with
  | String c s' => if p c then lstrip p s' else s
  | EmptyString => s
  end.

Fixpoint rstrip (p : ascii -> bool) (s : string) : string :=
  match s with
  | String c s' =>
      match rstrip p s' with
      | EmptyString => if p c then EmptyString else String c EmptyString
      | r => String c r
      end
  | EmptyString => EmptyString
  end.

(** [s.strip()] *)
Definition strip (s : string) : string := rstrip is_space (lstrip is_space s).
Definition is_blank (s : string) : bool := all_chars is_space s.

(** [s.splitlines()] for the line ends of ASCII. *)
Definition is_line_end (c : ascii) : bool :=
  let n := ord c in ((10 <=? n) && (n <=? 13)) || ((28 <=? n) && (n <=? 30)).

Fixpoint splitlines_from (line s : string) : list string :=
  match s with
  | EmptyString => if String.eqb line "" then [] else [line]
  | String c s' =>
      if is_line_end c then
        line :: match s' with
                | String d s'' => if (ord c =? 13) && (ord d =? 10) then splitlines_from "" s'' else splitlines_from "" s'
                | EmptyString => []
                end
      else splitlines_from (line ++ String c "") s'
  end.
Definition splitlines (s : string) : list string := splitlines_from "" s.

Example splitlines_ex :
  splitlines (String "a" (String "013" (String "010" (String "b" (String "010" (String "010" "c"))))))
  = ["a"; "b"; ""; "c"]%string.
Proof. reflexivity. Qed.

(** ** Numerals *)
Definition digit_value (c : ascii) : option Z :=
  if is_digit c then Some (ord c - 48) else None.

Definition hex_value (c : ascii) : option Z :=
  if is_digit c then Some (ord c - 48)
  else let n := ord (lower_char c) in
       if (97 <=? n) && (n <=? 102) then Some (n - 87) else None.

Fixpoint read_base (base : Z) (value : ascii -> option Z) (acc : Z) (s : string) : option Z :=
  match s with
  | EmptyString => Some acc
  | String c s' =>
      match value c with
      | Some v => read_base base value (acc * base + v) s'
      | None => None
      end
  end.

(** A non-empty run of digits. *)
Definition read_decimal (s : string) : option Z :=
  if String.eqb s "" then None else read_base 10 digit_value 0 s.
Definition read_hex (s : string) : option Z :=
  if String.eqb s "" then None else read_base 16 hex_value 0 s.

Fixpoint decimal_digits (fuel : nat) (n : Z) (acc : string) : string :=
  match fuel with
  | O => acc
  | S fuel' =>
      let acc' := String (ascii_of_N (Z.to_N (48 + n mod 10))) acc in
      if n <? 10 then acc' else decimal_digits fuel' (n / 10) acc'
  end.

(** [str(n)] *)
Definition str_of_int (n : Z) : string :=
  if n <? 0 then String "-" (decimal_digits (S (Z.to_nat (Z.log2 (- n)))) (- n) "")
  else decimal_digits (S (Z.to_nat (Z.log2 n))) n "".

Example str_of_int_ex : map str_of_int [0; 7; 10; 255; -120; 1000000]
  = ["0"; "7"; "10"; "255"; "-120"; "1000000"]%string.
Proof. reflexivity. Qed.
Example split_ex : split_on "." "10.0..1" = ["10"; "0"; ""; "1"]%string.
Proof. reflexivity. Qed.
Example contains_ex : (contains "not" "if not x", ends_with ".py" "a.py", starts_with "a/" "a/b")
  = (true, true, true).
Proof. reflexivity. Qed.

(** ** Lemmas *)
Lemma split_on_nonempty c s : split_on c s <> [].
Proof.
  destruct s as [|x s]; simpl; [discriminate|].
  destruct (Ascii.eqb x c); [discriminate|]. now destruct (split_on c s).
Qed.

(** [sep.join(s.split(sep))] is [s]. *)
Lemma str_join_split c s : str_join (String c "") (split_on c s) = s.
Proof.
  induction s as [|x s IH]; [reflexivity|]. simpl split_on.
  destruct (Ascii.eqb x c) eqn:E.
  - apply Ascii.eqb_eq in E as ->. destruct (split_on c s) as [|p ps] eqn:Hs;
      [now apply split_on_nonempty in Hs|].
    change (str_join (String c "") (""%string :: p :: ps)) with (String c (str_join (String c "") (p :: ps))).
    now rewrite IH.
  - destruct (split_on c s) as [|p ps] eqn:Hs; [now apply split_on_nonempty in Hs|].
    rewrite <- IH. destruct ps as [|q ps]; reflexivity.
Qed.

Lemma split_once_join c s a b : split_once c s = Some (a, b) -> s = (a ++ String c b)%string.
Proof.
  revert a b. induction s as [|x s IH]; intros a b; simpl; [discriminate|].
  destruct (Ascii.eqb x c) eqn:E.
  - apply Ascii.eqb_eq in E as ->. intros [= <- <-]. reflexivity.
  - destruct (split_once c s) as [[a' b']|]; [|discriminate]. intros [= <- <-].
    now rewrite (IH a' b' eq_refl).
Qed.

Lemma split_once_none c a :
  all_chars (fun x => negb (Ascii.eqb x c)) a = true -> split_once c a = None.
Proof.
  induction a as [|x a IH]; simpl; intros H; [reflexivity|]. bool_to_prop. now rewrite H, IH.
Qed.

(** A separator that a text lacks does not split it. *)
Lemma split_once_app c a b :
  all_chars (fun x => negb (Ascii.eqb x c)) a = true ->
  split_once c (a ++ String c b)%string = Some (a, b).
Proof.
  induction a as [|x a IH]; simpl; intros H.
  - now rewrite Ascii.eqb_refl.
  - bool_to_prop. change ((String x a ++ String c b)%string) with (String x (a ++ String c b)%string).
    simpl. now rewrite H, IH.
Qed.

Lemma str_of_int_length_pos n : (0 < String.length (str_of_int n))%nat.
Proof.
  assert (Hd : forall k m acc, (0 < String.length (decimal_digits (S k) m acc))%nat).
  { assert (Hge : forall k m acc, (String.length acc <= String.length (decimal_digits k m acc))%nat).
    { induction k as [|k IH]; intros m acc; simpl; [lia|].
      destruct (m <? 10); [simpl; lia|]. etrans; [|apply IH]. simpl. lia. }
    intros k m acc. simpl. destruct (m <? 10); [simpl; lia|].
    eapply Nat.lt_le_trans; [|apply Hge]. simpl. lia. }
  unfold str_of_int. destruct (n <? 0); [simpl; lia|apply Hd].
Qed.

Lemma all_chars_append p a b : all_chars p (a ++ b) = all_chars p a && all_chars p b.
Proof.
  induction a as [|c a IH]; [reflexivity|].
  change ((String c a ++ b)%string) with (String c (a ++ b)%string). simpl. now rewrite IH, andb_assoc.
Qed.

Lemma all_chars_imp (p q : ascii -> bool) s :
  (forall c, p c = true -> q c = true) -> all_chars p s = true -> all_chars q s = true.
Proof.
  intros Hpq. induction s as [|c s IH]; simpl; [easy|]. intros H. bool_to_prop.
  now rewrite Hpq, IH.
Qed.

(** A text without the separator is its only part. *)
Lemma split_on_none c s : all_chars (fun x => negb (Ascii.eqb x c)) s = true -> split_on c s = [s].
Proof.
  induction s as [|x s IH]; simpl; [reflexivity|]. intros H. bool_to_prop.
  rewrite H, IH by assumption. reflexivity.
Qed.

Lemma all_chars_join p sep l :
  all_chars p sep = true -> forallb (all_chars p) l = true -> all_chars p (str_join sep l) = true.
Proof.
  intros Hs. induction l as [|s l IH]; [reflexivity|]. intros Hl. simpl in Hl. bool_to_prop.
  destruct l as [|t l]; [assumption|].
  change (str_join sep (s :: t :: l)) with (s ++ sep ++ str_join sep (t :: l))%string.
  rewrite !all_chars_append, Hs, H. simpl. now apply IH.
Qed.

Lemma length_append a b : String.length (a ++ b) = (String.length a + String.length b)%nat.
Proof.
  induction a as [|c a IH]; [reflexivity|].
  change ((String c a ++ b)%string) with (String c (a ++ b)%string). simpl. now rewrite IH.
Qed.

(** ** Cutting texts *)
Lemma length_str_take n s : String.length (str_take n s) = Nat.min n (String.length s).
Proof. revert n. induction s as [|c s IH]; intros [|n]; simpl; congruence. Qed.

Lemma str_take_0 s : str_take 0 s = ""%string.
Proof. now destruct s. Qed.

Lemma str_take_append n a b :
  str_take n (a ++ b) = (str_take n a ++ str_take (n - String.length a) b)%string.
Proof.
  revert n. induction a as [|c a IH]; intros n.
  - change (str_take n b = str_take (n - 0) b) || idtac.
    rewrite Nat.sub_0_r. now destruct n.
  - change ((String c a ++ b)%string) with (String c (a ++ b)%string). destruct n as [|n].
    + rewrite !str_take_0. reflexivity.
    + change (String c (str_take n (a ++ b)%string)
              = String c (str_take n a ++ str_take (n - String.length a) b)%string). now rewrite IH.
Qed.

Lemma str_take_all n s : (String.length s <= n)%nat -> str_take n s = s.
Proof.
  revert n. induction s as [|c s IH]; intros [|n] H; simpl in *; try reflexivity; [lia|].
  f_equal. apply IH. lia.
Qed.

Lemma str_take_take m n s : str_take m (str_take n s) = str_take (Nat.min m n) s.
Proof.
  revert m n. induction s as [|c s IH]; intros [|m] [|n]; simpl; try reflexivity. now rewrite IH.
Qed.

Lemma all_chars_take p n s : all_chars p s = true -> all_chars p (str_take n s) = true.
Proof.
  revert n. induction s as [|c s IH]; intros [|n] H; try reflexivity. cbn [all_chars str_take] in *.
  apply andb_true_iff in H as [-> Hs]. now apply IH.
Qed.

Lemma str_drop_length n s : (String.length (str_drop n s) <= String.length s - n)%nat.
Proof. revert s. induction n as [|n IH]; intros [|c s]; simpl; try lia. apply IH. Qed.

Lemma length_str_drop n s : String.length (str_drop n s) = (String.length s - n)%nat.
Proof. revert n. induction s as [|c s IH]; intros [|n]; cbn; auto. Qed.

Lemma str_take_drop n s : (str_take n s ++ str_drop n s)%string = s.
Proof. revert n. induction s as [|c s IH]; intros [|n]; try reflexivity. cbn [str_take str_drop]. change (String c (str_take n s ++ str_drop n s) = String c s). now rewrite IH. Qed.
