(* ===== verification/Crypto.v ===== *)
(** * The parts of hashlib, hmac and base64 that the launcher calls

    SHA-256 and HMAC-SHA-256 on byte lists (FIPS 180-4, RFC 2104), lower-case
    hex digests, and base64 as [base64.urlsafe_b64encode] and the lenient
    [binascii.a2b_base64] compute it.  A byte is a [Z] in [0, 256).  Texts are
    ASCII, so [str.encode()] gives one byte per character. *)
From S2P Require Export Text.

Definition str_encode (s : string) : list Z :=
  map (fun c => Z.of_N (N_of_ascii c)) (list_ascii_of_string s).

Definition chr (b : Z) : ascii := ascii_of_N (Z.to_N b).

Definition decode_ascii (bs : list Z) : string := string_of_list_ascii (map chr bs).

(** ** SHA-256 *)
Definition w32 (x : Z) : Z := Z.land x 0xffffffff.
Definition add32 (x y : Z) : Z := w32 (x + y).
Definition rotr (n x : Z) : Z := Z.lor (Z.shiftr x n) (w32 (Z.shiftl x (32 - n))).

Definition Ch (x y z : Z) : Z := Z.lxor (Z.land x y) (Z.land (Z.lxor x 0xffffffff) z).
Definition Maj (x y z : Z) : Z := Z.lxor (Z.lxor (Z.land x y) (Z.land x z)) (Z.land y z).
Definition Sigma0 (x : Z) : Z := Z.lxor (Z.lxor (rotr 2 x) (rotr 13 x)) (rotr 22 x).
Definition Sigma1 (x : Z) : Z := Z.lxor (Z.lxor (rotr 6 x) (rotr 11 x)) (rotr 25 x).
Definition sigma0 (x : Z) : Z := Z.lxor (Z.lxor (rotr 7 x) (rotr 18 x)) (Z.shiftr x 3).
Definition sigma1 (x : Z) : Z := Z.lxor (Z.lxor (rotr 17 x) (rotr 19 x)) (Z.shiftr x 10).

(** The constants of SHA-256: 32 bits of the fractional parts of the cube and
    square roots of the first primes. *)
Definition is_prime (p : nat) : bool := forallb (fun k => negb (Nat.eqb (Nat.modulo p k) 0)) (seq 2 (p - 2)).
Definition primes : list Z := map Z.of_nat (List.filter is_prime (seq 2 310)).

Fixpoint cube_root (bits : nat) (r n : Z) : Z :=
  match bits with
  | O => r
  | S b =>
      let r' := r + 2 ^ Z.of_nat b in
      cube_root b (if r' * r' * r' <=? n then r' else r) n
  end.

Definition sha_K : list Z := Eval vm_compute in
  map (fun p => w32 (cube_root 36 0 (p * 2 ^ 96))) primes.
Definition sha_H0 : list Z := Eval vm_compute in
  map (fun p => w32 (Z.sqrt (p * 2 ^ 64))) (firstn 8 primes).

(** Big-endian words of four bytes. *)
Fixpoint words (bs : list Z) : list Z :=
  match bs with
  | a :: b :: c :: d :: bs' => (((a * 256 + b) * 256 + c) * 256 + d) :: words bs'
  | _ => []
  end.

Definition word_bytes (w : Z) : list Z :=
  [Z.shiftr w 24; Z.land (Z.shiftr w 16) 255; Z.land (Z.shiftr w 8) 255; Z.land w 255].

(** The message schedule, latest word first. *)
Fixpoint schedule (k : nat) (ws : list Z) : list Z :=
  match k with
  | O => ws
  | S k' =>
      let w := add32 (add32 (sigma1 (nth 1 ws 0)) (nth 6 ws 0))
                 (add32 (sigma0 (nth 14 ws 0)) (nth 15 ws 0)) in
      schedule k' (w :: ws)
  end.

Definition sha_round (st : list Z) (kw : Z * Z) : list Z :=
  match st with
  | [a; b; c; d; e; f; g; h] =>
      let t1 := add32 (add32 h (Sigma1 e)) (add32 (Ch e f g) (add32 (fst kw) (snd kw))) in
      let t2 := add32 (Sigma0 a) (Maj a b c) in
      [add32 t1 t2; a; b; c; add32 d t1; e; f; g]
  | _ => st
  end.

Definition sha_block (st : list Z) (block : list Z) : list Z :=
  let ws := rev (schedule 48 (rev (words block))) in
  map (fun p => add32 (fst p) (snd p)) (combine st (fold_left sha_round (combine sha_K ws) st)).

Definition sha_pad (bs : list Z) : list Z :=
  let n := Z.of_nat (List.length bs) in
  bs ++ [128] ++ repeat 0 (Z.to_nat ((55 - n) mod 64))
     ++ word_bytes (Z.shiftr (n * 8) 32) ++ word_bytes (w32 (n * 8)).

Fixpoint sha_blocks (k : nat) (st bs : list Z) : list Z :=
  match k with
  | O => st
  | S k' => sha_blocks k' (sha_block st (firstn 64 bs)) (skipn 64 bs)
  end.

Definition sha256 (bs : list Z) : list Z :=
  let p := sha_pad bs in
  flat_map word_bytes (sha_blocks (Nat.div (List.length p) 64) sha_H0 p).

(** [hmac.new(key, msg, hashlib.sha256).digest()] *)
Definition hmac_sha256 (key msg : list Z) : list Z :=
  let k0 := if (64 <? Z.of_nat (List.length key)) then sha256 key else key in
  let k := k0 ++ repeat 0 (64 - List.length k0) in
  sha256 (map (Z.lxor 0x5c) k ++ sha256 (map (Z.lxor 0x36) k ++ msg)).

(** [.hexdigest()] *)
Definition hex_digit (d : Z) : ascii := chr (if d <? 10 then 48 + d else 87 + d).
Fixpoint hex (bs : list Z) : string :=
  match bs with
  | [] => ""
  | b :: bs' => String (hex_digit (b / 16)) (String (hex_digit (b mod 16)) (hex bs'))
  end.

Definition sha256_hex (bs : list Z) : string := hex (sha256 bs).

Example sha256_abc :
  sha256_hex (str_encode "abc") = "ba7816bf8f01cfea414140de5dae2223b00361a396177a9cb410ff61f20015ad"%string.
Proof. vm_compute. reflexivity. Qed.
Example sha256_empty :
  sha256_hex [] = "e3b0c44298fc1c149afbf4c8996fb92427ae41e4649b934ca495991b7852b855"%string.
Proof. vm_compute. reflexivity. Qed.
(** RFC 4231, test case 2. *)
Example hmac_jefe :
  hex (hmac_sha256 (str_encode "Jefe") (str_encode "what do ya want for nothing?"))
  = "5bdcc146bf60754e6a042426089575c75a003f089d2739839dec58b964ec3843"%string.
Proof. vm_compute. reflexivity. Qed.

(** ** Base64 *)
Definition b64_char (v : Z) : ascii :=
  chr (if v <? 26 then 65 + v else if v <? 52 then 71 + v else if v <? 62 then v - 4
       else if v =? 62 then 45 else 95).

(** The value of a character after [urlsafe_b64decode]'s translation of
    [-_] to [+/]; [None] for a character outside the alphabet. *)
Definition b64_value (c : ascii) : option Z :=
  let n := Z.of_N (N_of_ascii c) in
  if (65 <=? n) && (n <=? 90) then Some (n - 65)
  else if (97 <=? n) && (n <=? 122) then Some (n - 71)
  else if (48 <=? n) && (n <=? 57) then Some (n + 4)
  else if (n =? 43) || (n =? 45) then Some 62
  else if (n =? 47) || (n =? 95) then Some 63
  else None.

(** [base64.urlsafe_b64encode(value).rstrip(b"=").decode()]; the padding that
    [rstrip] removes is not built. *)
Fixpoint b64 (bs : list Z) : string :=
  match bs with
  | [] => ""
  | [a] => String (b64_char (a / 4)) (String (b64_char ((a mod 4) * 16)) "")
  | [a; b] => String (b64_char (a / 4)) (String (b64_char ((a mod 4) * 16 + b / 16))
                (String (b64_char ((b mod 16) * 4)) ""))
  | a :: b :: c :: bs' =>
      String (b64_char (a / 4)) (String (b64_char ((a mod 4) * 16 + b / 16))
        (String (b64_char ((b mod 16) * 4 + c / 64)) (String (b64_char (c mod 64)) (b64 bs'))))
  end.

(** [binascii.a2b_base64], not strict: [pos] characters of the current
    quadruple were read, [left] holds their pending bits, [pads] counts the
    padding seen. *)
Fixpoint a2b (s : string) (pos left pads : Z) : res (list Z) :=
  match s with
  | EmptyString => if pos =? 0 then Ok [] else Err (ValueError "Incorrect padding")
  | String c s' =>
      if Ascii.eqb c "="%char then
        if (2 <=? pos) && (4 <=? pos + (pads + 1)) then Ok []
        else a2b s' pos left (if 2 <=? pos then pads + 1 else pads)
      else match b64_value c with
           | None => a2b s' pos left pads
           | Some v =>
               if pos =? 0 then a2b s' 1 v 0
               else if pos =? 1 then
                 rmap (cons (left * 4 + v / 16)) (a2b s' 2 (v mod 16) 0)
               else if pos =? 2 then
                 rmap (cons (left * 16 + v / 4)) (a2b s' 3 (v mod 4) 0)
               else rmap (cons (left * 64 + v)) (a2b s' 0 0 0)
           end
  end.

Definition b64_padding (n : nat) : string :=
  match Nat.modulo n 4 with
  | 0%nat => ""
  | 1%nat => "==="
  | 2%nat => "=="
  | _ => "="
  end%string.

(** [base64.urlsafe_b64decode(value + padding)] *)
Definition unb64 (value : string) : res (list Z) :=
  a2b (value ++ b64_padding (String.length value))%string 0 0 0.

Definition is_byte (b : Z) : bool := (0 <=? b) && (b <? 256).
Definition is_bytes (bs : list Z) : bool := forallb is_byte bs.

(** ** Base64 round trip *)
Definition b64_ok (v : Z) : bool :=
  match b64_value (b64_char v) with Some w => v =? w | None => false end
  && negb (Ascii.eqb (b64_char v) "="%char).

Lemma b64_ok_all v : 0 <= v < 64 -> b64_ok v = true.
Proof. apply all_below_spec. vm_compute. reflexivity. Qed.

Lemma a2b_char v s pos left pads :
  0 <= v < 64 ->
  a2b (String (b64_char v) s) pos left pads
  = if pos =? 0 then a2b s 1 v 0
    else if pos =? 1 then rmap (cons (left * 4 + v / 16)) (a2b s 2 (v mod 16) 0)
    else if pos =? 2 then rmap (cons (left * 16 + v / 4)) (a2b s 3 (v mod 4) 0)
    else rmap (cons (left * 64 + v)) (a2b s 0 0 0).
Proof.
  intros Hv. apply b64_ok_all in Hv. unfold b64_ok in Hv. bool_to_prop. cbn [a2b].
  rewrite H0. destruct (b64_value (b64_char v)); [|discriminate]. bool_to_prop. now subst.
Qed.

Lemma b64_padding_4 n : b64_padding (S (S (S (S n)))) = b64_padding n.
Proof.
  unfold b64_padding. replace (S (S (S (S n)))) with (n + 1 * 4)%nat by lia.
  now rewrite Nat.Div0.mod_add.
Qed.

Lemma b64_sextets a b c :
  is_byte a = true -> is_byte b = true -> is_byte c = true ->
  0 <= a / 4 < 64 /\ 0 <= (a mod 4) * 16 + b / 16 < 64 /\ 0 <= (b mod 16) * 4 + c / 64 < 64
  /\ 0 <= c mod 64 < 64
  /\ a / 4 * 4 + ((a mod 4) * 16 + b / 16) / 16 = a
  /\ ((a mod 4) * 16 + b / 16) mod 16 * 16 + ((b mod 16) * 4 + c / 64) / 4 = b
  /\ ((b mod 16) * 4 + c / 64) mod 4 * 64 + c mod 64 = c.
Proof.
  unfold is_byte. intros. bool_to_prop. repeat split; Z.to_euclidean_division_equations; lia.
Qed.

Lemma app_cons_string c s t : (String c s ++ t)%string = String c (s ++ t)%string.
Proof. reflexivity. Qed.

Lemma unb64_b64 bs : is_bytes bs = true -> unb64 (b64 bs) = Ok bs.
Proof.
  unfold unb64. remember (List.length bs) as n eqn:Hn. revert bs Hn.
  induction n as [n IH] using (well_founded_induction Nat.lt_wf_0). intros bs Hn Hb.
  destruct bs as [|a [|b [|c bs]]]; cbn [b64].
  - reflexivity.
  - simpl in Hb. bool_to_prop. destruct (b64_sextets a 0 0) as (E1 & E2 & _ & _ & E3 & _); auto.
    rewrite Z.add_0_r in *. rewrite !app_cons_string, !a2b_char by assumption.
    cbn. simpl Z.div in E3. now rewrite E3.
  - simpl in Hb. bool_to_prop. destruct (b64_sextets a b 0) as (E1 & E2 & E4 & _ & E3 & E5 & _); auto.
    rewrite Z.add_0_r in *. rewrite !app_cons_string, !a2b_char by assumption.
    cbn [Z.eqb Pos.eqb]. cbn. now rewrite E3, E5.
  - cbn [is_bytes forallb] in Hb. bool_to_prop.
    destruct (b64_sextets a b c) as (E1 & E2 & E4 & E5 & E6 & E7 & E8); auto.
    cbn [String.length]. rewrite b64_padding_4, !app_cons_string, !a2b_char by assumption.
    cbn [Z.eqb Pos.eqb]. rewrite E6, E7, E8.
    rewrite (IH (List.length bs)); [reflexivity|simpl in Hn; lia|reflexivity|assumption].
Qed.

(** The text of [b64] is drawn from the alphabet. *)
Lemma b64_all_chars p bs :
  (forall v, 0 <= v < 64 -> p (b64_char v) = true) ->
  is_bytes bs = true -> all_chars p (b64 bs) = true.
Proof.
  intros Hp. remember (List.length bs) as n eqn:Hn. revert bs Hn.
  induction n as [n IH] using (well_founded_induction Nat.lt_wf_0). intros bs Hn Hb.
  destruct bs as [|a [|b [|c bs]]]; cbn [b64]; [reflexivity|..];
    cbn [is_bytes forallb] in Hb; bool_to_prop.
  - destruct (b64_sextets a 0 0) as (E1 & E2 & _); auto. rewrite Z.add_0_r in *.
    cbn [all_chars]. now rewrite !Hp.
  - destruct (b64_sextets a b 0) as (E1 & E2 & E4 & _); auto. rewrite Z.add_0_r in *.
    cbn [all_chars]. now rewrite !Hp.
  - destruct (b64_sextets a b c) as (E1 & E2 & E4 & E5 & _); auto.
    cbn [all_chars]. rewrite !Hp by assumption.
    rewrite (IH (List.length bs)); [reflexivity|simpl in Hn; lia|reflexivity|assumption].
Qed.

Lemma b64_char_ok v : 0 <= v < 64 ->
  negb (Ascii.eqb (b64_char v) ".") && (ord (b64_char v) <? 128) = true.
Proof.
  apply (all_below_spec (fun v => negb (Ascii.eqb (b64_char v) ".") && (ord (b64_char v) <? 128))).
  vm_compute. reflexivity.
Qed.

(** It has no dot and is ASCII. *)
Lemma b64_no_dot bs : is_bytes bs = true -> all_chars (fun c => negb (Ascii.eqb c ".")) (b64 bs) = true.
Proof. apply b64_all_chars. intros v Hv. now apply b64_char_ok, andb_true_iff in Hv. Qed.

Lemma b64_ascii bs : is_bytes bs = true -> all_chars (fun c => ord c <? 128) (b64 bs) = true.
Proof. apply b64_all_chars. intros v Hv. now apply b64_char_ok, andb_true_iff in Hv. Qed.

(** ** Bytes *)
Lemma is_bytes_str_encode s : is_bytes (str_encode s) = true.
Proof.
  apply forallb_forall. intros b Hb. unfold str_encode in Hb. apply in_map_iff in Hb as (c & <- & _).
  unfold is_byte. pose proof (N_ascii_bounded c). rewrite andb_true_iff, Z.leb_le, Z.ltb_lt. lia.
Qed.

Lemma decode_str_encode s : decode_ascii (str_encode s) = s.
Proof.
  unfold decode_ascii, str_encode. rewrite map_map.
  rewrite (map_ext _ id); [now rewrite map_id, string_of_list_ascii_of_string|].
  intros c. unfold chr, id. now rewrite N2Z.id, ascii_N_embedding.
Qed.

Definition is_word (w : Z) : bool := (0 <=? w) && (w <? 2 ^ 32).

Lemma w32_word x : is_word (w32 x) = true.
Proof.
  unfold is_word, w32. change 0xffffffff with (Z.ones 32). rewrite Z.land_ones by lia.
  pose proof (Z.mod_pos_bound x (2 ^ 32) ltac:(lia)). rewrite andb_true_iff, Z.leb_le, Z.ltb_lt. lia.
Qed.

Lemma word_bytes_bytes w : is_word w = true -> is_bytes (word_bytes w) = true.
Proof.
  unfold is_word, word_bytes, is_bytes. intros H. bool_to_prop. cbn [forallb].
  change 255 with (Z.ones 8). rewrite !Z.land_ones by lia. rewrite !Z.shiftr_div_pow2 by lia.
  assert (Hm : forall x, is_byte (x mod 2 ^ 8) = true).
  { intros x. unfold is_byte. pose proof (Z.mod_pos_bound x (2 ^ 8) ltac:(lia)).
    rewrite andb_true_iff, Z.leb_le, Z.ltb_lt. lia. }
  rewrite !Hm. unfold is_byte. rewrite !andb_true_iff, Z.leb_le, Z.ltb_lt.
  repeat split; Z.to_euclidean_division_equations; lia.
Qed.

Lemma sha_block_words st block : forallb is_word st = true -> forallb is_word (sha_block st block) = true.
Proof.
  intros _. unfold sha_block. rewrite forallb_map. apply forallb_forall. intros p _. apply w32_word.
Qed.

Lemma is_bytes_sha256 bs : is_bytes (sha256 bs) = true.
Proof.
  unfold sha256. set (k := Nat.div _ _).
  assert (Hw : forall k st p, forallb is_word st = true -> forallb is_word (sha_blocks k st p) = true).
  { clear. induction k as [|k IH]; intros st p Hst; [exact Hst|]. apply IH, sha_block_words, Hst. }
  specialize (Hw k sha_H0 (sha_pad bs) eq_refl). apply forallb_forall. intros b Hb.
  apply in_flat_map in Hb as (w & Hin & Hb).
  exact (proj1 (forallb_forall _ _) (word_bytes_bytes w (proj1 (forallb_forall _ _) Hw w Hin)) b Hb).
Qed.

Lemma is_bytes_hmac key msg : is_bytes (hmac_sha256 key msg) = true.
Proof. apply is_bytes_sha256. Qed.
