(* ===== verification/Utf8.v ===== *)
(** * Text as UTF-8

    A Python [str] is its UTF-8 bytes: [len] counts the bytes that start a
    character, a slice keeps whole characters, and [.encode("utf-8")] is the
    string itself.  [decode_replace] is [bytes.decode("utf-8", "replace")] and
    [unquote] is [urllib.parse.unquote].  A lone surrogate is kept as three
    bytes. *)
From S2P Require Export Text.

(** A byte inside a character. *)
Definition is_cont (c : ascii) : bool := (128 <=? ord c) && (ord c <? 192).

(** [len(s)] *)
Fixpoint str_len (s : string) : nat :=
  match s with
  | EmptyString => O
  | String c s' => if is_cont c then str_len s' else S (str_len s')
  end.

(** [s[:n]] *)
Fixpoint str_slice (n : nat) (s : string) : string :=
  match s with
  | EmptyString => EmptyString
  | String c s' =>
      if is_cont c then String c (str_slice n s')
      else match n with
           | O => EmptyString
           | S n' => String c (str_slice n' s')
           end
  end.

Definition byte (z : Z) : ascii := ascii_of_N (Z.to_N z).

(** [chr(code).encode("utf-8", "surrogatepass")] *)
Definition utf8_char (code : Z) : string :=
  let cont k := byte (128 + Z.land (Z.shiftr code k) 63) in
  if code <? 0x80 then String (byte code) ""
  else if code <? 0x800 then String (byte (192 + Z.shiftr code 6)) (String (cont 0) "")
  else if code <? 0x10000 then
    String (byte (224 + Z.shiftr code 12)) (String (cont 6) (String (cont 0) ""))
  else
    String (byte (240 + Z.shiftr code 18)) (String (cont 12) (String (cont 6) (String (cont 0) ""))).

(** ** [bytes.decode("utf-8", "replace")] *)

(** The bytes that may follow the lead byte [b]: how many, and the range of
    the first. *)
Definition lead_range (b : Z) : option (nat * Z * Z) :=
  if (0xC2 <=? b) && (b <=? 0xDF) then Some (1%nat, 0x80, 0xBF)
  else if b =? 0xE0 then Some (2%nat, 0xA0, 0xBF)
  else if b =? 0xED then Some (2%nat, 0x80, 0x9F)
  else if (0xE1 <=? b) && (b <=? 0xEF) then Some (2%nat, 0x80, 0xBF)
  else if b =? 0xF0 then Some (3%nat, 0x90, 0xBF)
  else if (0xF1 <=? b) && (b <=? 0xF3) then Some (3%nat, 0x80, 0xBF)
  else if b =? 0xF4 then Some (3%nat, 0x80, 0x8F)
  else None.

Definition replacement : string := utf8_char 0xFFFD.

(** [pending] is the part of a character read so far; [need] bytes are missing
    and the next lies between [lo] and [hi]. *)
Fixpoint decode_from (pending : string) (need : nat) (lo hi : Z) (s : string) : string :=
  match s with
  | EmptyString => match need with O => EmptyString | S _ => replacement end
  | String c s' =>
      let b := ord c in
      let fresh_start (_ : unit) :=
        if b <? 0x80 then String c (decode_from "" 0 0 0 s')
        else match lead_range b with
             | Some (k, l, h) => decode_from (String c "") k l h s'
             | None => (replacement ++ decode_from "" 0 0 0 s')%string
             end in
      match need with
      | O => fresh_start tt
      | S k =>
          if (lo <=? b) && (b <=? hi) then
            let pending' := (pending ++ String c "")%string in
            match k with
            | O => (pending' ++ decode_from "" 0 0 0 s')%string
            | S _ => decode_from pending' k 0x80 0xBF s'
            end
          else (replacement ++ fresh_start tt)%string
      end
  end.

Definition decode_replace (s : string) : string := decode_from "" 0 0 0 s.

(** ** [urllib.parse.unquote] *)

(** [unquote_to_bytes]: the percent escapes as bytes. *)
Fixpoint unquote_bytes (s : string) : string :=
  match s with
  | EmptyString => EmptyString
  | String c s' =>
      match c, s' with
      | "%"%char, String a (String b s2) =>
          match hex_value a, hex_value b with
          | Some x, Some y => String (byte (16 * x + y)) (unquote_bytes s2)
          | _, _ => String c (unquote_bytes s')
          end
      | _, _ => String c (unquote_bytes s')
      end
  end.

(** The maximal runs of ASCII and of other characters. *)
Fixpoint ascii_runs (s : string) : list string :=
  match s with
  | EmptyString => []
  | String c s' =>
      match ascii_runs s' with
      | String d t :: rs =>
          if Bool.eqb (ord c <? 128) (ord d <? 128) then String c (String d t) :: rs
          else String c "" :: String d t :: rs
      | rs => String c "" :: rs
      end
  end.

(** Only the ASCII runs are unquoted and decoded. *)
Definition unquote_run (r : string) : string :=
  match r with
  | String c _ => if ord c <? 128 then decode_replace (unquote_bytes r) else r
  | EmptyString => r
  end.

Definition unquote (s : string) : string :=
  if has_char "%" s then str_join "" (map unquote_run (ascii_runs s)) else s.

Example unquote_ex : map unquote ["a%20b"; "a%2Fb"; "100%"; "%zz%41"; "caf%C3%A9"; "%ff"]%string
  = ["a b"; "a/b"; "100%"; "%zzA"; "caf" ++ utf8_char 0xE9; replacement]%string.
Proof. reflexivity. Qed.
Example decode_replace_ex :
  decode_replace (String (byte 0xE2) (String (byte 0x82) "a")) = (replacement ++ "a")%string
  /\ decode_replace (utf8_char 0x20AC ++ utf8_char 0x1F600) = (utf8_char 0x20AC ++ utf8_char 0x1F600)%string
  /\ str_len (utf8_char 0x20AC ++ "a" ++ utf8_char 0x1F600) = 3%nat
  /\ str_slice 2 (utf8_char 0x20AC ++ "a" ++ utf8_char 0x1F600) = (utf8_char 0x20AC ++ "a")%string.
Proof. repeat split. Qed.

(** ** Lemmas on lengths and slices *)
Lemma str_len_le s : (str_len s <= String.length s)%nat.
Proof. induction s as [|c s IH]; simpl; [lia|]. destruct (is_cont c); lia. Qed.

Lemma str_slice_all n s : (str_len s <= n)%nat -> str_slice n s = s.
Proof.
  revert n. induction s as [|c s IH]; intros n; simpl; [reflexivity|].
  destruct (is_cont c); intros H; [now rewrite IH|].
  destruct n as [|n]; [lia|]. rewrite IH by lia. reflexivity.
Qed.

(** A longer slice extends a shorter one. *)
Lemma str_slice_prefix n m s :
  (n <= m)%nat -> exists t, str_slice m s = (str_slice n s ++ t)%string.
Proof.
  revert n m. induction s as [|c s IH]; intros n m Hnm; simpl; [exists ""%string; reflexivity|].
  destruct (is_cont c).
  - destruct (IH n m Hnm) as [t Ht]. exists t. now rewrite Ht.
  - destruct n as [|n]; [eexists; reflexivity|]. destruct m as [|m]; [lia|].
    destruct (IH n m ltac:(lia)) as [t Ht]. exists t. now rewrite Ht.
Qed.

Lemma str_slice_length n s : (String.length (str_slice n s) <= String.length s)%nat.
Proof.
  revert n. induction s as [|c s IH]; intros n; simpl; [lia|].
  destruct (is_cont c); [simpl; specialize (IH n); lia|].
  destruct n as [|n]; simpl; [lia|]. specialize (IH n). lia.
Qed.
