(* ===== verification/Json.v ===== *)
(** * JSON (Python's [json] module, as mcp.py and launch_auth.py use it)

    [dumps] with the compact separators, with and without [ensure_ascii], and
    [loads] with Python's grammar, escapes and error messages.  A dict keeps
    the order of insertion.  [loads] of what [dumps] wrote is the value. *)
From S2P Require Export Utf8.

(** The text of a [float] is what [repr] prints; how [float] rounds a numeral
    is left open. *)
Class PyFloat := float_repr : string -> string.

Inductive json :=
| JNull
| JBool (b : bool)
| JInt (z : Z)
| JFloat (t : string)
| JStr (s : string)
| JList (l : list json)
| JObj (fields : list (string * json)).

(** ** [json.dumps(value, separators=(",", ":"))] *)

Definition hex_of (d : Z) : ascii := byte (if d <? 10 then 48 + d else 87 + d).

(** [\uXXXX] *)
Definition u_escape (n : Z) : string :=
  String "\" (String "u"
    (String (hex_of (Z.land (Z.shiftr n 12) 15)) (String (hex_of (Z.land (Z.shiftr n 8) 15))
      (String (hex_of (Z.land (Z.shiftr n 4) 15)) (String (hex_of (Z.land n 15)) ""))))).

Definition quote_char : ascii := "034"%char.

(** The escape of an ASCII character, if it needs one. *)
Definition short_escape (c : ascii) : option string :=
  let n := ord c in
  if n =? 34 then Some (String "\" (String quote_char ""))
  else if n =? 92 then Some "\\"%string
  else if n =? 10 then Some "\n"%string
  else if n =? 13 then Some "\r"%string
  else if n =? 9 then Some "\t"%string
  else if n =? 12 then Some "\f"%string
  else if n =? 8 then Some "\b"%string
  else if n <? 32 then Some (u_escape n)
  else None.

(** The body of a string with [ensure_ascii=False]. *)
Fixpoint escape (s : string) : string :=
  match s with
  | EmptyString => EmptyString
  | String c s' =>
      match short_escape c with
      | Some e => (e ++ escape s')%string
      | None => String c (escape s')
      end
  end.

(** A character beyond ASCII with [ensure_ascii=True]. *)
Definition wide_escape (code : Z) : string :=
  if code <? 0x10000 then u_escape code
  else (u_escape (0xD800 + Z.shiftr (code - 0x10000) 10)
        ++ u_escape (0xDC00 + Z.land (code - 0x10000) 1023))%string.

(** The body of a string with [ensure_ascii=True]; [code] collects a character
    of which [need] bytes are missing. *)
Fixpoint escape_ascii (code : Z) (need : nat) (s : string) : string :=
  match s with
  | EmptyString => EmptyString
  | String c s' =>
      let b := ord c in
      match need with
      | S k =>
          let code' := Z.shiftl code 6 + Z.land b 63 in
          match k with
          | O => (wide_escape code' ++ escape_ascii 0 0 s')%string
          | S _ => escape_ascii code' k s'
          end
      | O =>
          if b <? 127 then
            match short_escape c with
            | Some e => (e ++ escape_ascii 0 0 s')%string
            | None => String c (escape_ascii 0 0 s')
            end
          else if b =? 127 then (u_escape 127 ++ escape_ascii 0 0 s')%string
          else if b <? 0xE0 then escape_ascii (Z.land b 31) 1 s'
          else if b <? 0xF0 then escape_ascii (Z.land b 15) 2 s'
          else escape_ascii (Z.land b 7) 3 s'
      end
  end.

Definition quoted (body : string) : string :=
  String quote_char (body ++ String quote_char "").

Definition dump_str (ensure_ascii : bool) (s : string) : string :=
  quoted (if ensure_ascii then escape_ascii 0 0 s else escape s).

Fixpoint dumps_with (ensure_ascii : bool) (v : json) : string :=
  match v with
  | JNull => "null"
  | JBool true => "true"
  | JBool false => "false"
  | JInt z => str_of_int z
  | JFloat t => t
  | JStr s => dump_str ensure_ascii s
  | JList l => ("[" ++ str_join "," (map (dumps_with ensure_ascii) l) ++ "]")%string
  | JObj fields =>
      ("{" ++ str_join "," (map (fun f => dump_str ensure_ascii (fst f) ++ ":" ++ dumps_with ensure_ascii (snd f)) fields)
        ++ "}")%string
  end.

(** [ensure_ascii=False] and the default. *)
Definition dumps : json -> string := dumps_with false.
Definition dumps_ascii : json -> string := dumps_with true.

(** ** Dicts *)

(** [d.get(key)] *)
Fixpoint obj_get (key : string) (fields : list (string * json)) : option json :=
  match fields with
  | [] => None
  | (k, v) :: r => if String.eqb k key then Some v else obj_get key r
  end.

(** [d[key] = v] *)
Fixpoint obj_set (key : string) (v : json) (fields : list (string * json)) : list (string * json) :=
  match fields with
  | [] => [(key, v)]
  | (k, x) :: r => if String.eqb k key then (k, v) :: r else (k, x) :: obj_set key v r
  end.

(** A dict from pairs: the last value of a key, where the key came first. *)
Definition obj_of (pairs : list (string * json)) : list (string * json) :=
  fold_left (fun acc f => obj_set (fst f) (snd f) acc) pairs [].

(** [sort_keys=True] *)
Fixpoint insert_field (f : string * json) (l : list (string * json)) : list (string * json) :=
  match l with
  | [] => [f]
  | g :: r => if String.ltb (fst f) (fst g) then f :: l else g :: insert_field f r
  end.

Fixpoint sort_keys (v : json) : json :=
  match v with
  | JList l => JList (map sort_keys l)
  | JObj fields => JObj (fold_right insert_field [] (map (fun f => (fst f, sort_keys (snd f))) fields))
  | _ => v
  end.

(** ** [json.loads] *)

Definition decode_error {A} (msg : string) : res A := Err (JSONDecodeError msg).

Definition is_ws (c : ascii) : bool :=
  let n := ord c in (n =? 32) || (n =? 9) || (n =? 10) || (n =? 13).

Fixpoint skip_ws (s : string) : string :=
  match s with
  | String c s' => if is_ws c then skip_ws s' else s
  | EmptyString => s
  end.

(** The longest prefix of characters in [p], and the rest. *)
Fixpoint span (p : ascii -> bool) (s : string) : string * string :=
  match s with
  | EmptyString => (EmptyString, EmptyString)
  | String c s' => if p c then let '(a, b) := span p s' in (String c a, b) else (EmptyString, s)
  end.

Definition hex4 (a b c d : ascii) : option Z :=
  match hex_value a, hex_value b, hex_value c, hex_value d with
  | Some w, Some x, Some y, Some z => Some (4096 * w + 256 * x + 16 * y + z)
  | _, _, _, _ => None
  end.

Definition simple_escape (c : ascii) : option ascii :=
  let n := ord c in
  if (n =? 34) || (n =? 92) || (n =? 47) then Some c
  else if n =? 98 then Some (byte 8)
  else if n =? 102 then Some (byte 12)
  else if n =? 110 then Some (byte 10)
  else if n =? 114 then Some (byte 13)
  else if n =? 116 then Some (byte 9)
  else None.

Definition prepend (p : string) (r : res (string * string)) : res (string * string) :=
  match r with Ok (a, rest) => Ok ((p ++ a)%string, rest) | Err e => Err e end.

Definition is_high (n : Z) : bool := (0xD800 <=? n) && (n <=? 0xDBFF).
Definition is_low (n : Z) : bool := (0xDC00 <=? n) && (n <=? 0xDFFF).

(** [scanstring]: after the opening quote, the text and what follows the
    closing one. *)
Fixpoint scan_string (s : string) : res (string * string) :=
  match s with
  | EmptyString => decode_error "Unterminated string starting at"
  | String c s' =>
      if Ascii.eqb c quote_char then Ok (EmptyString, s')
      else if Ascii.eqb c "\" then
        match s' with
        | EmptyString => decode_error "Unterminated string starting at"
        | String e s1 =>
            if Ascii.eqb e "u" then
              match s1 with
              | String h1 (String h2 (String h3 (String h4 s2))) =>
                  match hex4 h1 h2 h3 h4 with
                  | None => decode_error "Invalid \uXXXX escape"
                  | Some n =>
                      match s2 with
                      | String b (String v (String l1 (String l2 (String l3 (String l4 s3))))) =>
                          if is_high n && Ascii.eqb b "\" && Ascii.eqb v "u" then
                            match hex4 l1 l2 l3 l4 with
                            | None => decode_error "Invalid \uXXXX escape"
                            | Some m =>
                                if is_low m
                                then prepend (utf8_char (0x10000 + (n - 0xD800) * 1024 + (m - 0xDC00)))
                                       (scan_string s3)
                                else prepend (utf8_char n) (scan_string s2)
                            end
                          else prepend (utf8_char n) (scan_string s2)
                      | _ => prepend (utf8_char n) (scan_string s2)
                      end
                  end
              | _ => decode_error "Invalid \uXXXX escape"
              end
            else match simple_escape e with
                 | Some x => prepend (String x "") (scan_string s1)
                 | None => decode_error "Invalid \escape: "
                 end
        end
      else if ord c <? 32 then decode_error "Invalid control character at"
      else prepend (String c "") (scan_string s')
  end.

(** The numerals of the grammar: an integer or the text of a float. *)
Definition is_one_to_nine (c : ascii) : bool := is_digit c && negb (Ascii.eqb c "0").

Definition scan_sign (s : string) : string * string :=
  match s with
  | String c s' => if Ascii.eqb c "-" then ("-"%string, s') else (EmptyString, s)
  | EmptyString => (EmptyString, s)
  end.

Definition scan_int (s : string) : option (string * string) :=
  match s with
  | String c s' =>
      if Ascii.eqb c "0" then Some ("0"%string, s')
      else if is_digit c then Some (span is_digit s) else None
  | EmptyString => None
  end.

Definition scan_frac (s : string) : string * string :=
  match s with
  | String c s' =>
      if Ascii.eqb c "." then
        let '(d, rest) := span is_digit s' in
        if String.eqb d "" then (EmptyString, s) else (String c d, rest)
      else (EmptyString, s)
  | EmptyString => (EmptyString, s)
  end.

Definition is_e (c : ascii) : bool := Ascii.eqb c "e" || Ascii.eqb c "E".
Definition is_sign (c : ascii) : bool := Ascii.eqb c "+" || Ascii.eqb c "-".

Definition scan_exp (s : string) : string * string :=
  match s with
  | String c s' =>
      if is_e c then
        let '(sg, s1) := match s' with
                         | String x s2 => if is_sign x then (String x "", s2) else (EmptyString, s')
                         | EmptyString => (EmptyString, s')
                         end in
        let '(d, rest) := span is_digit s1 in
        if String.eqb d "" then (EmptyString, s) else (String c (sg ++ d), rest)
      else (EmptyString, s)
  | EmptyString => (EmptyString, s)
  end.

(** [sys.get_int_max_str_digits()] *)
Definition max_str_digits : nat := 4300.

Definition int_of_digits (sign digits : string) : res json :=
  let! _ := raise_if (Nat.ltb max_str_digits (String.length digits))
    (ValueError "Exceeds the limit (4300 digits) for integer string conversion") in
  let n := match read_decimal digits with Some n => n | None => 0 end in
  Ok (JInt (if String.eqb sign "-" then - n else n)).

Section Loads.
Context `{PyFloat}.

Definition scan_number (s : string) : option (res json * string) :=
  let '(sign, s1) := scan_sign s in
  match scan_int s1 with
  | None => None
  | Some (digits, s2) =>
      let '(frac, s3) := scan_frac s2 in
      let '(ex, s4) := scan_exp s3 in
      Some (if String.eqb frac "" && String.eqb ex "" then int_of_digits sign digits
            else Ok (JFloat (float_repr (sign ++ digits ++ frac ++ ex))), s4)
  end.

(** The constants, the non-standard ones included. *)
Definition constants : list (string * json) :=
  [("null", JNull); ("true", JBool true); ("false", JBool false);
   ("NaN", JFloat "NaN"); ("Infinity", JFloat "Infinity"); ("-Infinity", JFloat "-Infinity")]%string.

Definition scan_constant (s : string) : option (json * string) :=
  match List.find (fun k => starts_with (fst k) s) constants with
  | Some (k, v) => Some (v, str_drop (String.length k) s)
  | None => None
  end.

Definition out_of_fuel {A} : res A := Err AssertionError.

(** One value of [s]; the fuel bounds the calls. *)
Fixpoint scan_once (fuel : nat) (s : string) : res (json * string) :=
  match fuel with
  | O => out_of_fuel
  | S fuel' =>
      match s with
      | EmptyString => decode_error "Expecting value"
      | String c s' =>
          if Ascii.eqb c quote_char then
            let! '(t, rest) := scan_string s' in Ok (JStr t, rest)
          else if Ascii.eqb c "{" then
            match skip_ws s' with
            | String d s1 =>
                if Ascii.eqb d "}" then Ok (JObj [], s1)
                else let! '(fields, rest) := scan_members fuel' (String d s1) in
                     Ok (JObj (obj_of fields), rest)
            | EmptyString => decode_error "Expecting property name enclosed in double quotes"
            end
          else if Ascii.eqb c "[" then
            match skip_ws s' with
            | String d s1 =>
                if Ascii.eqb d "]" then Ok (JList [], s1)
                else let! '(l, rest) := scan_elements fuel' (String d s1) in Ok (JList l, rest)
            | EmptyString => decode_error "Expecting value"
            end
          else match scan_constant s with
               | Some r => Ok r
               | None =>
                   match scan_number s with
                   | Some (r, rest) => let! v := r in Ok (v, rest)
                   | None => decode_error "Expecting value"
                   end
               end
      end
  end
with scan_elements (fuel : nat) (s : string) : res (list json * string) :=
  match fuel with
  | O => out_of_fuel
  | S fuel' =>
      let! '(v, s1) := scan_once fuel' s in
      match skip_ws s1 with
      | String c s2 =>
          if Ascii.eqb c "]" then Ok ([v], s2)
          else if Ascii.eqb c "," then
            let! '(l, rest) := scan_elements fuel' (skip_ws s2) in Ok (v :: l, rest)
          else decode_error "Expecting ',' delimiter"
      | EmptyString => decode_error "Expecting ',' delimiter"
      end
  end
with scan_members (fuel : nat) (s : string) : res (list (string * json) * string) :=
  match fuel with
  | O => out_of_fuel
  | S fuel' =>
      match s with
      | String q s0 =>
          if Ascii.eqb q quote_char then
            let! '(key, s1) := scan_string s0 in
            match skip_ws s1 with
            | String c s2 =>
                if Ascii.eqb c ":" then
                  let! '(v, s3) := scan_once fuel' (skip_ws s2) in
                  match skip_ws s3 with
                  | String d s4 =>
                      if Ascii.eqb d "}" then Ok ([(key, v)], s4)
                      else if Ascii.eqb d "," then
                        let! '(fields, rest) := scan_members fuel' (skip_ws s4) in
                        Ok ((key, v) :: fields, rest)
                      else decode_error "Expecting ',' delimiter"
                  | EmptyString => decode_error "Expecting ',' delimiter"
                  end
                else decode_error "Expecting ':' delimiter"
            | EmptyString => decode_error "Expecting ':' delimiter"
            end
          else decode_error "Expecting property name enclosed in double quotes"
      | EmptyString => decode_error "Expecting property name enclosed in double quotes"
      end
  end.

(** Two calls per character are enough. *)
Definition loads (s : string) : res json :=
  if starts_with (utf8_char 0xFEFF) s then decode_error "Unexpected UTF-8 BOM (decode using utf-8-sig)"
  else
    let s := skip_ws s in
    let! '(v, rest) := scan_once (2 + 2 * String.length s) s in
    let! _ := raise_if (negb (String.eqb (skip_ws rest) "")) (JSONDecodeError "Extra data") in
    Ok v.
End Loads.

#[export] Instance literal_floats : PyFloat | 10 := fun t => t.

Example loads_ex :
  map loads ["{\u0022a\u0022:1}"; "[1, 2.5,-3]"; " 01"; "tru"; "[1,]"]%string
  = [decode_error "Expecting property name enclosed in double quotes";
     Ok (JList [JInt 1; JFloat "2.5"; JInt (-3)]); decode_error "Extra data";
     decode_error "Expecting value"; decode_error "Expecting value"].
Proof. reflexivity. Qed.

Example dumps_ex :
  dumps (JObj [("k", JList [JInt (-12); JBool true; JNull]); ("s", JStr (String (byte 10) "x"))])
  = (let q := String quote_char "" in
     "{" ++ q ++ "k" ++ q ++ ":[-12,true,null]," ++ q ++ "s" ++ q ++ ":" ++ q ++ "\nx" ++ q ++ "}")%string.
Proof. reflexivity. Qed.

Example loads_dumps_ex :
  let v := JObj [("k", JList [JInt (-12); JBool true; JNull; JStr (utf8_char 0x20AC ++ utf8_char 1)]); ("e", JObj [])] in
  loads (dumps v) = Ok v /\ loads (dumps_ascii v) = Ok v.
Proof. split; reflexivity. Qed.

(** ** Round trip *)

(** Structural induction with the hypothesis on the members. *)
Section JsonInd.
Variable P : json -> Prop.
Hypothesis (HNull : P JNull) (HBool : forall b, P (JBool b)) (HInt : forall z, P (JInt z))
  (HFloat : forall t, P (JFloat t)) (HStr : forall s, P (JStr s))
  (HList : forall l, Forall P l -> P (JList l))
  (HObj : forall fields, Forall (fun f => P (snd f)) fields -> P (JObj fields)).

Fixpoint json_rect_prop (v : json) : P v :=
  match v with
  | JNull => HNull
  | JBool b => HBool b
  | JInt z => HInt z
  | JFloat t => HFloat t
  | JStr s => HStr s
  | JList l =>
      HList l ((fix go l := match l return Forall P l with
                            | [] => Forall_nil_2 P
                            | x :: r => Forall_cons_2 P x r (json_rect_prop x) (go r)
                            end) l)
  | JObj fields =>
      HObj fields ((fix go l := match l return Forall (fun f => P (snd f)) l with
                                | [] => Forall_nil_2 _
                                | x :: r => Forall_cons_2 _ x r (json_rect_prop (snd x)) (go r)
                                end) fields)
  end.
End JsonInd.

(** *** Numerals *)
Definition no_head (p : ascii -> bool) (s : string) : bool :=
  match s with String c _ => negb (p c) | EmptyString => true end.

Lemma span_ext p s rest :
  no_head p rest = true ->
  span p (s ++ rest) = (fst (span p s), (snd (span p s) ++ rest)%string).
Proof.
  intros Hr. induction s as [|c s IH].
  - change (("" ++ rest)%string) with rest. destruct rest as [|c rest]; [reflexivity|].
    simpl in *. destruct (p c); [discriminate|reflexivity].
  - change ((String c s ++ rest)%string) with (String c (s ++ rest)%string). simpl.
    destruct (p c); [|reflexivity]. rewrite IH. now destruct (span p s).
Qed.

(** What may follow a value inside a document. *)
Definition is_delim (c : ascii) : bool :=
  Ascii.eqb c "," || Ascii.eqb c "]" || Ascii.eqb c "}".
Definition delimited (rest : string) : bool :=
  match rest with String c _ => is_delim c | EmptyString => true end.

Ltac by_chars c := destruct c as [[] [] [] [] [] [] [] []]; try discriminate; repeat split; reflexivity.

Lemma delim_char c : is_delim c = true ->
  is_digit c = false /\ is_e c = false /\ is_sign c = false /\ Ascii.eqb c "." = false /\ Ascii.eqb c "-" = false.
Proof. by_chars c. Qed.

Lemma delimited_no_head p rest :
  (forall c, is_delim c = true -> p c = false) -> delimited rest = true -> no_head p rest = true.
Proof. intros Hp. destruct rest as [|c rest]; simpl; [reflexivity|]. intros H. now rewrite (Hp c H). Qed.

Lemma delimited_no_digit rest : delimited rest = true -> no_head is_digit rest = true.
Proof. apply delimited_no_head. intros c Hc. now apply delim_char. Qed.

Lemma scan_frac_ext s rest : delimited rest = true ->
  scan_frac (s ++ rest) = (fst (scan_frac s), (snd (scan_frac s) ++ rest)%string).
Proof.
  intros Hr. destruct s as [|c s].
  - change (("" ++ rest)%string) with rest. destruct rest as [|c rest]; [reflexivity|].
    simpl in *. destruct (delim_char c Hr) as (_ & _ & _ & -> & _). reflexivity.
  - change ((String c s ++ rest)%string) with (String c (s ++ rest)%string). simpl.
    destruct (Ascii.eqb c "."); [|reflexivity]. rewrite span_ext by now apply delimited_no_digit.
    destruct (span is_digit s) as [d b]. cbn [fst snd]. now destruct (String.eqb d "").
Qed.

Lemma scan_exp_ext s rest : delimited rest = true ->
  scan_exp (s ++ rest) = (fst (scan_exp s), (snd (scan_exp s) ++ rest)%string).
Proof.
  intros Hr. pose proof (delimited_no_digit _ Hr) as Hd. destruct s as [|c s].
  - change (("" ++ rest)%string) with rest. destruct rest as [|c rest]; [reflexivity|].
    simpl in *. destruct (delim_char c Hr) as (_ & -> & _). reflexivity.
  - change ((String c s ++ rest)%string) with (String c (s ++ rest)%string). simpl.
    destruct (is_e c); [|reflexivity]. destruct s as [|x s].
    + change (("" ++ rest)%string) with rest. simpl. destruct rest as [|x rest]; [reflexivity|].
      destruct (delim_char x Hr) as (_ & _ & -> & _). cbn [span]. simpl in Hd.
      destruct (is_digit x); [discriminate|]. reflexivity.
    + change ((String x s ++ rest)%string) with (String x (s ++ rest)%string). cbv beta iota.
      destruct (is_sign x); cbv beta iota.
      * rewrite span_ext by assumption. destruct (span is_digit s) as [d b]. cbn [fst snd].
        now destruct (String.eqb d "").
      * change (String x (s ++ rest)%string) with ((String x s ++ rest)%string).
        rewrite span_ext by assumption. destruct (span is_digit (String x s)) as [d b]. cbn [fst snd].
        now destruct (String.eqb d "").
Qed.

Lemma scan_int_ext s rest : delimited rest = true -> s <> ""%string ->
  scan_int (s ++ rest)
  = match scan_int s with Some (d, b) => Some (d, (b ++ rest)%string) | None => None end.
Proof.
  intros Hr Hs. destruct s as [|c s]; [easy|].
  change ((String c s ++ rest)%string) with (String c (s ++ rest)%string). cbn [scan_int].
  destruct (Ascii.eqb c "0"); [reflexivity|]. destruct (is_digit c); [|reflexivity].
  change (String c (s ++ rest)%string) with ((String c s ++ rest)%string).
  rewrite span_ext by now apply delimited_no_digit. now destruct (span is_digit (String c s)).
Qed.

Lemma scan_sign_ext s rest : delimited rest = true ->
  scan_sign (s ++ rest) = (fst (scan_sign s), (snd (scan_sign s) ++ rest)%string).
Proof.
  intros Hr. destruct s as [|c s].
  - change (("" ++ rest)%string) with rest. destruct rest as [|c rest]; [reflexivity|].
    simpl in *. destruct (delim_char c Hr) as (_ & _ & _ & _ & ->). reflexivity.
  - change ((String c s ++ rest)%string) with (String c (s ++ rest)%string). simpl.
    now destruct (Ascii.eqb c "-").
Qed.

(** A numeral is read the same before a delimiter. *)
Lemma scan_number_ext `{PyFloat} s rest r b : delimited rest = true ->
  scan_number s = Some (r, b) -> scan_number (s ++ rest) = Some (r, (b ++ rest)%string).
Proof.
  intros Hr. unfold scan_number. rewrite scan_sign_ext by exact Hr.
  destruct (scan_sign s) as [sg s1]. cbn [fst snd]. intros Hs.
  assert (Hne : s1 <> ""%string) by (intros ->; discriminate).
  rewrite scan_int_ext by assumption. destruct (scan_int s1) as [[d s2]|]; [|discriminate].
  rewrite scan_frac_ext by exact Hr. destruct (scan_frac s2) as [fr s3]. cbn [fst snd].
  rewrite scan_exp_ext by exact Hr. destruct (scan_exp s3) as [ex s4]. cbn [fst snd].
  injection Hs as <- <-. reflexivity.
Qed.

(** Numerals start with a digit or a minus sign and a digit, so they are not
    taken for another token. *)
Lemma scan_number_first `{PyFloat} s r b :
  scan_number s = Some (r, b) ->
  exists c s', s = String c s'
    /\ (is_digit c = true \/ (c = "-"%char /\ exists d t, s' = String d t /\ is_digit d = true)).
Proof.
  unfold scan_number. destruct s as [|c s]; [discriminate|]. cbn [scan_sign].
  destruct (Ascii.eqb c "-") eqn:E.
  - apply Ascii.eqb_eq in E as ->. intros Hs. exists "-"%char, s. split; [reflexivity|]. right.
    split; [reflexivity|]. destruct s as [|d t]; [discriminate|]. exists d, t. split; [reflexivity|].
    cbn [scan_int] in Hs. destruct (Ascii.eqb d "0") eqn:E0; [apply Ascii.eqb_eq in E0 as ->; reflexivity|].
    destruct (is_digit d); [reflexivity|discriminate].
  - intros Hs. exists c, s. split; [reflexivity|]. left. cbn [scan_int] in Hs.
    destruct (Ascii.eqb c "0") eqn:E0; [apply Ascii.eqb_eq in E0 as ->; reflexivity|].
    destruct (is_digit c); [reflexivity|discriminate].
Qed.

Lemma digit_not_token c : is_digit c = true ->
  Ascii.eqb c quote_char = false /\ Ascii.eqb c "{" = false /\ Ascii.eqb c "[" = false.
Proof. by_chars c. Qed.

Lemma starts_with_cons a p b s : starts_with (String a p) (String b s) = Ascii.eqb a b && starts_with p s.
Proof. reflexivity. Qed.

Lemma digit_no_constant c s : is_digit c = true ->
  scan_constant (String c s) = None /\ scan_constant (String "-" (String c s)) = None.
Proof.
  intros Hc. unfold scan_constant, constants. cbn [List.find fst].
  rewrite !starts_with_cons.
  assert (He : Ascii.eqb "n" c = false /\ Ascii.eqb "t" c = false /\ Ascii.eqb "f" c = false
          /\ Ascii.eqb "N" c = false /\ Ascii.eqb "I" c = false /\ Ascii.eqb "-" c = false)
    by (clear s; by_chars c).
  destruct He as (-> & -> & -> & -> & -> & ->). split; reflexivity.
Qed.

Lemma scan_once_number `{PyFloat} f s r b :
  scan_number s = Some (r, b) -> scan_once (S f) s = (let! v := r in Ok (v, b)).
Proof.
  intros Hs. destruct (scan_number_first s r b Hs) as (c & s' & -> & Hc).
  assert (Ht : Ascii.eqb c quote_char = false /\ Ascii.eqb c "{" = false /\ Ascii.eqb c "[" = false
               /\ scan_constant (String c s') = None).
  { destruct Hc as [Hc|(-> & d & t & -> & Hd)].
    - destruct (digit_not_token c Hc) as (? & ? & ?). pose proof (proj1 (digit_no_constant c s' Hc)). auto.
    - repeat split; try reflexivity. now apply digit_no_constant. }
  destruct Ht as (H1 & H2 & H3 & H4). cbn [scan_once]. rewrite H1, H2, H3, H4, Hs. reflexivity.
Qed.

(** *** Decimal numerals *)
Lemma decimal_digits_acc k n acc : decimal_digits k n acc = (decimal_digits k n "" ++ acc)%string.
Proof.
  revert n acc. induction k as [|k IH]; intros n acc; [reflexivity|]. cbn [decimal_digits].
  destruct (n <? 10); [reflexivity|]. rewrite IH. symmetry. rewrite IH. rewrite string_app_assoc. reflexivity.
Qed.

Lemma digit_ascii d : 0 <= d <= 9 ->
  is_digit (ascii_of_N (Z.to_N (48 + d))) = true
  /\ digit_value (ascii_of_N (Z.to_N (48 + d))) = Some d
  /\ (d <> 0 -> Ascii.eqb (ascii_of_N (Z.to_N (48 + d))) "0" = false).
Proof.
  intros Hd. assert (Hc : d = 0 \/ d = 1 \/ d = 2 \/ d = 3 \/ d = 4 \/ d = 5 \/ d = 6 \/ d = 7 \/ d = 8 \/ d = 9) by lia.
  destruct Hc as [->|[->|[->|[->|[->|[->|[->|[->|[->| ->]]]]]]]]]; repeat split; easy.
Qed.

Lemma read_base_app a b x y :
  read_base 10 digit_value x a = Some y ->
  read_base 10 digit_value x (a ++ b) = read_base 10 digit_value y b.
Proof.
  revert x. induction a as [|c a IH]; intros x.
  - intros [= ->]. reflexivity.
  - change ((String c a ++ b)%string) with (String c (a ++ b)%string). simpl.
    destruct (digit_value c); [apply IH|discriminate].
Qed.

(** What [str(n)] prints for a natural number. *)
Record numeral (n : Z) (D : string) : Prop := mkNumeral {
  num_digits : all_chars is_digit D = true;
  num_value : read_base 10 digit_value 0 D = Some n;
  num_first : exists c D', D = String c D' /\ (D = "0"%string \/ Ascii.eqb c "0" = false) }.

Lemma decimal_numeral k n :
  0 <= n < 10 ^ Z.of_nat k -> (0 < k)%nat -> numeral n (decimal_digits k n "").
Proof.
  revert n. induction k as [|k IH]; intros n Hn Hk; [lia|]. cbn [decimal_digits].
  destruct (digit_ascii (n mod 10) ltac:(pose proof (Z.mod_pos_bound n 10); lia)) as (Hd & Hv & H0).
  destruct (n <? 10) eqn:E; bool_to_prop.
  - rewrite Z.mod_small in * by lia. constructor.
    + cbn [all_chars]. now rewrite Hd.
    + cbn [read_base]. now rewrite Hv.
    + eexists _, _. split; [reflexivity|]. destruct (Z.eq_dec n 0) as [->|Hne]; [left; reflexivity|].
      right. now apply H0.
  - destruct k as [|k]; [simpl in Hn; lia|].
    assert (Hlt : 0 <= n / 10 < 10 ^ Z.of_nat (S k)).
    { split; [apply Z.div_pos; lia|]. apply Z.div_lt_upper_bound; [lia|].
      rewrite (Nat2Z.inj_succ (S k)), Z.pow_succ_r in Hn by lia. lia. }
    destruct (IH (n / 10) Hlt ltac:(lia)) as [Ha Hr (c & D' & HD & Hf)]. rewrite decimal_digits_acc.
    constructor.
    + rewrite all_chars_append, Ha. cbn [all_chars]. now rewrite Hd.
    + rewrite (read_base_app _ _ _ _ Hr). cbn [read_base]. rewrite Hv. f_equal.
      rewrite (Z.div_mod n 10) at 3 by lia. lia.
    + rewrite HD. eexists _, _. split; [reflexivity|]. right. destruct Hf as [Hf|Hf]; [|exact Hf].
      exfalso. rewrite Hf in Hr.
      assert (Hz : Some 0 = Some (n / 10)) by exact Hr. injection Hz as Hz. assert (1 <= n / 10) by (apply Z.div_le_lower_bound; lia). lia.
Qed.

Lemma log2_fuel n : 0 <= n -> n < 10 ^ Z.of_nat (S (Z.to_nat (Z.log2 n))).
Proof.
  intros Hn. pose proof (Z.log2_nonneg n). rewrite Nat2Z.inj_succ, Z2Nat.id by lia.
  destruct (Z.eq_dec n 0) as [->|Hne]; [reflexivity|].
  apply Z.lt_le_trans with (2 ^ Z.succ (Z.log2 n)); [apply Z.log2_spec; lia|].
  apply Z.pow_le_mono_l. lia.
Qed.

(** [str(n)] is an optional minus sign and a numeral. *)
Lemma str_of_int_numeral z :
  exists sign D, str_of_int z = (sign ++ D)%string
    /\ (sign = "-"%string /\ z < 0 \/ sign = ""%string /\ 0 <= z) /\ numeral (Z.abs z) D.
Proof.
  unfold str_of_int. destruct (z <? 0) eqn:E; bool_to_prop.
  - exists "-"%string, (decimal_digits (S (Z.to_nat (Z.log2 (- z)))) (- z) "").
    split; [reflexivity|]. split; [auto|].
    replace (Z.abs z) with (- z) by lia. apply decimal_numeral; [|lia]. split; [lia|]. apply log2_fuel. lia.
  - exists ""%string, (decimal_digits (S (Z.to_nat (Z.log2 z))) z "").
    split; [reflexivity|]. split; [auto|].
    replace (Z.abs z) with z by lia. apply decimal_numeral; [|lia]. split; [lia|]. apply log2_fuel. lia.
Qed.

(** The characters of [str(n)]. *)
Lemma str_of_int_chars (p : ascii -> bool) z :
  p "-"%char = true -> (forall c, is_digit c = true -> p c = true) -> all_chars p (str_of_int z) = true.
Proof.
  intros Hsign Hdigit. destruct (str_of_int_numeral z) as (sg & D & -> & Hsg & Hnum). rewrite all_chars_append.
  replace (all_chars p sg) with true by (destruct Hsg as [[-> _]|[-> _]]; cbn; now rewrite ?Hsign).
  apply (all_chars_imp is_digit); [exact Hdigit|apply Hnum].
Qed.

Lemma span_all p s : all_chars p s = true -> span p s = (s, ""%string).
Proof. induction s as [|c s IH]; simpl; [reflexivity|]. intros H. bool_to_prop. now rewrite H, IH. Qed.

Lemma scan_int_numeral n D : numeral n D -> scan_int D = Some (D, ""%string).
Proof.
  intros [Ha _ (c & D' & -> & Hf)]. cbn [scan_int].
  destruct Hf as [Hf|Hf]; [injection Hf as -> ->; reflexivity|]. rewrite Hf.
  rewrite span_all by exact Ha. cbn [all_chars] in Ha. bool_to_prop. now rewrite H.
Qed.

Lemma read_decimal_numeral n D : numeral n D -> read_decimal D = Some n.
Proof. intros [_ Hv (c & D' & -> & _)]. exact Hv. Qed.

Lemma digits_sign D : all_chars is_digit D = true -> scan_sign D = (""%string, D).
Proof.
  destruct D as [|c D]; [reflexivity|]. cbn [all_chars scan_sign]. intros H. bool_to_prop.
  assert (Ascii.eqb c "-" = false) as -> by (clear -H; by_chars c). reflexivity.
Qed.

(** [int(str(z))] inside a document, within Python's limit on digits. *)
Lemma scan_number_int `{PyFloat} z :
  (String.length (str_of_int z) <= max_str_digits)%nat ->
  scan_number (str_of_int z) = Some (Ok (JInt z), ""%string).
Proof.
  destruct (str_of_int_numeral z) as (sg & D & -> & Hsg & Hnum). intros Hlen.
  rewrite length_append in Hlen.
  assert (Hmax : Nat.ltb max_str_digits (String.length D) = false) by (apply Nat.ltb_ge; lia).
  assert (Hsign : scan_sign (sg ++ D) = (sg, D)).
  { destruct Hsg as [[-> _]|[-> _]]; [reflexivity|]. apply digits_sign, Hnum. }
  unfold scan_number. rewrite Hsign, (scan_int_numeral _ _ Hnum). cbn [scan_frac scan_exp].
  unfold int_of_digits. rewrite Hmax, (read_decimal_numeral _ _ Hnum). cbn [raise_if rbind].
  change (String.eqb "" "" && String.eqb "" "") with true. cbv iota.
  destruct Hsg as [[-> Hz]|[-> Hz]]; cbn; do 4 f_equal; lia.
Qed.

(** *** Strings *)
Lemma hex_of_value d : 0 <= d < 16 -> hex_value (hex_of d) = Some d.
Proof.
  intros Hd. assert (Hb : all_below (fun d => match hex_value (hex_of d) with Some x => x =? d | None => false end) 16 = true)
    by reflexivity.
  specialize (all_below_spec _ _ Hb d Hd). cbv beta. destruct (hex_value (hex_of d)); [|discriminate].
  intros E. bool_to_prop. congruence.
Qed.

(** The escapes of [dumps] are read back, whatever follows. *)
Lemma scan_string_char c s :
  scan_string (match short_escape c with Some e => e ++ s | None => String c s end)%string
  = prepend (String c "") (scan_string s).
Proof.
  assert (Hu : forall h1 h2 h3 h4 n x s, hex4 h1 h2 h3 h4 = Some n -> is_high n = false -> utf8_char n = String x "" ->
    scan_string (String "\" (String "u" (String h1 (String h2 (String h3 (String h4 s))))))
    = prepend (String x "") (scan_string s)).
  { intros h1 h2 h3 h4 n x t Hh Hn Hx. cbn [scan_string]. change (Ascii.eqb "\" quote_char) with false.
    change (Ascii.eqb "\" "\") with true. change (Ascii.eqb "u" "u") with true. cbv iota. rewrite Hh, Hn, Hx.
    cbn [andb].
    destruct t as [|? [|? [|? [|? [|? [|? ?]]]]]]; reflexivity. }
  destruct c as [[] [] [] [] [] [] [] []];
    first [reflexivity
          | match goal with |- scan_string ?x = _ => let y := eval lazy in x in change x with y end;
            eapply Hu; reflexivity].
Qed.

Lemma scan_string_escape s rest :
  scan_string (escape s ++ String quote_char rest) = Ok (s, rest).
Proof.
  induction s as [|c s IH]; [reflexivity|].
  transitivity (prepend (String c "") (scan_string (escape s ++ String quote_char rest))).
  - rewrite <- scan_string_char. cbn [escape]. destruct (short_escape c); [|reflexivity].
    now rewrite string_app_assoc.
  - now rewrite IH.
Qed.

Lemma quoted_append body rest :
  (quoted body ++ rest = String quote_char (body ++ String quote_char rest))%string.
Proof.
  unfold quoted. change ((String quote_char (body ++ String quote_char "") ++ rest)%string)
    with (String quote_char ((body ++ String quote_char "") ++ rest)%string).
  now rewrite string_app_assoc.
Qed.

(** *** Documents *)

(** The text of a float that [loads] gives back as it is. *)
Definition float_ok `{PyFloat} (t : string) : bool :=
  str_mem t ["NaN"; "Infinity"; "-Infinity"]%string
  || match scan_number t with
     | Some (Ok (JFloat t'), EmptyString) => String.eqb t t'
     | _ => false
     end.

Fixpoint distinct (l : list string) : bool :=
  match l with
  | [] => true
  | k :: r => negb (str_mem k r) && distinct r
  end.

(** What Python's [dict]s, [int]s and [float]s satisfy, with a condition on the
    strings. *)
Fixpoint wf_text `{PyFloat} (good : string -> bool) (v : json) : bool :=
  match v with
  | JNull | JBool _ => true
  | JStr s => good s
  | JInt z => Nat.leb (String.length (str_of_int z)) max_str_digits
  | JFloat t => float_ok t
  | JList l => forallb (wf_text good) l
  | JObj fields => distinct (map fst fields) && forallb (fun f => good (fst f) && wf_text good (snd f)) fields
  end.

Definition wf_json `{PyFloat} : json -> bool := wf_text (fun _ => true).

Lemma obj_set_new k v fields : str_mem k (map fst fields) = false -> obj_set k v fields = fields ++ [(k, v)].
Proof.
  induction fields as [|[k' x] r IH]; [reflexivity|]. cbn [map fst str_mem existsb obj_set]. intros H.
  apply orb_false_iff in H as [H1 H2]. rewrite String.eqb_sym, H1. cbn [app]. f_equal. now apply IH.
Qed.

Lemma str_mem_app k a b : str_mem k (a ++ b) = str_mem k a || str_mem k b.
Proof. apply existsb_app. Qed.

Lemma obj_of_distinct fields : distinct (map fst fields) = true -> obj_of fields = fields.
Proof.
  unfold obj_of. assert (Hg : forall l acc, distinct (map fst l) = true ->
    (forall k, In k (map fst l) -> str_mem k (map fst acc) = false) ->
    fold_left (fun acc f => obj_set (fst f) (snd f) acc) l acc = acc ++ l).
  { induction l as [|[k v] l IH]; intros acc Hd Hdis; [now rewrite app_nil_r|].
    cbn [fold_left map fst distinct snd] in *. bool_to_prop.
    rewrite obj_set_new by (apply Hdis; now left). rewrite IH; [now rewrite <- app_assoc|assumption|].
    intros k' Hk'. rewrite map_app, str_mem_app. rewrite Hdis by now right. cbn [map fst str_mem existsb orb].
    rewrite orb_false_r. apply not_true_iff_false. intros E. apply String.eqb_eq in E as ->.
    apply str_mem_In in Hk'. congruence. }
  intros Hd. rewrite Hg; [reflexivity|exact Hd|reflexivity].
Qed.

(** [json.dumps] with strings written by [esc]. *)
Fixpoint dumps_esc (esc : string -> string) (v : json) : string :=
  match v with
  | JNull => "null"
  | JBool true => "true"
  | JBool false => "false"
  | JInt z => str_of_int z
  | JFloat t => t
  | JStr s => quoted (esc s)
  | JList l => ("[" ++ str_join "," (map (dumps_esc esc) l) ++ "]")%string
  | JObj fields =>
      ("{" ++ str_join "," (map (fun f => quoted (esc (fst f)) ++ ":" ++ dumps_esc esc (snd f)) fields) ++ "}")%string
  end.

Lemma dumps_with_esc b v : dumps_with b v = dumps_esc (if b then escape_ascii 0 0 else escape) v.
Proof.
  induction v as [| [] |z|t|s|l IH|fields IH] using json_rect_prop; cbn [dumps_with dumps_esc]; try reflexivity.
  - unfold dump_str. now destruct b.
  - do 3 f_equal. apply map_ext_in. rewrite Forall_forall in IH. intros x Hx. apply IH. now apply list_elem_of_In.
  - do 3 f_equal. apply map_ext_in. rewrite Forall_forall in IH. intros x Hx.
    rewrite IH by now apply list_elem_of_In. unfold dump_str. now destruct b.
Qed.

Section RoundTrip.
Context `{PyFloat}.

(** Strings that are read back as they were. *)
Context (esc : string -> string) (good : string -> bool)
  (esc_read : forall s rest, good s = true -> scan_string (esc s ++ String quote_char rest) = Ok (s, rest)).
#[local] Abbreviation dumps := (dumps_esc esc).
#[local] Abbreviation wf := (wf_text good).

(** A value starts with a character that is neither blank nor a closing
    bracket. *)
Definition value_head (s : string) : bool :=
  match s with
  | String c _ => negb (is_ws c) && negb (Ascii.eqb c "]") && negb (Ascii.eqb c "}")
  | EmptyString => false
  end.

Lemma value_head_append s t : value_head s = true -> value_head (s ++ t) = true.
Proof. destruct s; [discriminate|]. auto. Qed.

Lemma value_head_skip s : value_head s = true -> skip_ws s = s.
Proof. destruct s as [|c s]; [discriminate|]. simpl. destruct (is_ws c); [discriminate|reflexivity]. Qed.

Lemma scan_number_head s r b : scan_number s = Some (r, b) -> value_head s = true.
Proof.
  intros Hs. destruct (scan_number_first s r b Hs) as (c & s' & -> & [Hc|[-> _]]); [|reflexivity].
  unfold value_head. by_chars c.
Qed.

Lemma float_cases t : float_ok t = true ->
  In t ["NaN"; "Infinity"; "-Infinity"]%string \/ scan_number t = Some (Ok (JFloat t), ""%string).
Proof.
  unfold float_ok. intros Ht. apply orb_true_iff in Ht as [Ht|Ht]; [left; now apply str_mem_In|right].
  destruct (scan_number t) as [[[[]|] []]|]; try discriminate. apply String.eqb_eq in Ht. now subst.
Qed.

Lemma dumps_head v : wf v = true -> value_head (dumps v) = true.
Proof.
  destruct v as [| [] |z|t|s|l|fields]; intros Hv; try reflexivity; cbn [wf_text] in Hv.
  - apply Nat.leb_le in Hv. exact (scan_number_head _ _ _ (scan_number_int z Hv)).
  - destruct (float_cases t Hv) as [[<-|[<-|[<-|[]]]]|Hn]; try reflexivity. exact (scan_number_head _ _ _ Hn).
Qed.

Definition reads_back (v : json) : Prop :=
  forall fuel rest, delimited rest = true -> (2 * String.length (dumps v) <= fuel)%nat ->
    scan_once fuel (dumps v ++ rest) = Ok (v, rest).

Lemma head_length s : value_head s = true -> (0 < String.length s)%nat.
Proof. destruct s; simpl; [discriminate|lia]. Qed.

Lemma reads_back_number v : scan_number (dumps v) = Some (Ok v, ""%string) -> reads_back v.
Proof.
  intros Hs fuel rest Hr Hf. pose proof (head_length _ (scan_number_head _ _ _ Hs)).
  destruct fuel as [|fuel]; [lia|].
  rewrite (scan_once_number fuel _ _ _ (scan_number_ext _ rest _ _ Hr Hs)). reflexivity.
Qed.

Lemma reads_back_str s : good s = true -> reads_back (JStr s).
Proof.
  intros Hs fuel rest _ Hf. change (dumps (JStr s)) with (quoted (esc s)) in *.
  destruct fuel as [|fuel]; [unfold quoted in Hf; simpl in Hf; lia|].
  rewrite quoted_append. cbn [scan_once]. change (Ascii.eqb quote_char quote_char) with true. cbv iota.
  rewrite esc_read by exact Hs. reflexivity.
Qed.

Lemma str_join_cons sep p q ps : str_join sep (p :: q :: ps) = (p ++ sep ++ str_join sep (q :: ps))%string.
Proof. reflexivity. Qed.

(** The elements of a list. *)
Lemma scan_elements_dumps l : l <> [] -> Forall reads_back l -> forallb wf l = true ->
  forall fuel rest, (2 * String.length (str_join "," (map dumps l)) < fuel)%nat ->
    scan_elements fuel (str_join "," (map dumps l) ++ "]" ++ rest) = Ok (l, rest).
Proof.
  induction l as [|v l IH]; [easy|]. intros _ Hall Hwf fuel rest Hf.
  apply Forall_cons in Hall as [Hv Hall]. cbn [forallb] in Hwf. bool_to_prop.
  destruct fuel as [|fuel]; [lia|]. cbn [scan_elements]. destruct l as [|w l].
  - change (str_join "," (map dumps [v])) with (dumps v) in *. rewrite Hv by (reflexivity || lia). reflexivity.
  - change (map dumps (v :: w :: l)) with (dumps v :: dumps w :: map dumps l) in *.
    rewrite str_join_cons in *. rewrite !length_append in Hf. change (String.length ",") with 1%nat in Hf.
    rewrite !string_app_assoc.
    rewrite Hv by (reflexivity || lia). cbn [rbind].
    change (dumps w :: map dumps l) with (map dumps (w :: l)) in *.
    set (tail := (str_join "," (map dumps (w :: l)) ++ "]" ++ rest)%string).
    change (skip_ws ("," ++ tail)%string) with (String "," tail). cbv iota.
    change (Ascii.eqb "," "]") with false. change (Ascii.eqb "," ",") with true. cbv iota.
    rewrite value_head_skip.
    + unfold tail. rewrite IH; [reflexivity|discriminate|assumption|assumption|lia].
    + unfold tail. apply value_head_append. apply andb_true_iff in H1 as [Hw _].
      destruct l; [exact (dumps_head w Hw)|].
      change (map dumps (w :: j :: l)) with (dumps w :: dumps j :: map dumps l).
      rewrite str_join_cons. apply value_head_append, dumps_head, Hw.
Qed.

Definition field (f : string * json) : string := (quoted (esc (fst f)) ++ ":" ++ dumps (snd f))%string.

(** The members of an object. *)
Lemma scan_members_dumps l : l <> [] -> Forall (fun f => reads_back (snd f)) l ->
  forallb (fun f => good (fst f) && wf (snd f)) l = true ->
  forall fuel rest, (2 * String.length (str_join "," (map field l)) < fuel)%nat ->
    scan_members fuel (str_join "," (map field l) ++ "}" ++ rest) = Ok (l, rest).
Proof.
  induction l as [|[k v] l IH]; [easy|]. intros _ Hall Hwf fuel rest Hf.
  apply Forall_cons in Hall as [Hv Hall]. cbn [forallb fst snd] in Hwf. cbn [snd] in Hv. bool_to_prop.
  destruct fuel as [|fuel]; [lia|].
  assert (Hone : forall t, (delimited t = true) -> (2 * String.length (dumps v) <= fuel)%nat ->
    scan_members (S fuel) (field (k, v) ++ t)
    = match skip_ws t with
      | String d s4 =>
          if Ascii.eqb d "}" then Ok ([(k, v)], s4)
          else if Ascii.eqb d "," then
            let! '(fields, rest) := scan_members fuel (skip_ws s4) in Ok ((k, v) :: fields, rest)
          else decode_error "Expecting ',' delimiter"
      | EmptyString => decode_error "Expecting ',' delimiter"
      end).
  { intros t Ht Hfu. unfold field. cbn [fst snd]. rewrite string_app_assoc, quoted_append.
    cbn [scan_members]. change (Ascii.eqb quote_char quote_char) with true. cbv iota.
    rewrite esc_read by assumption. cbn [rbind]. rewrite string_app_assoc.
    change (skip_ws (":" ++ dumps v ++ t)%string) with (String ":" (dumps v ++ t)%string). cbv iota.
    change (Ascii.eqb ":" ":") with true. cbv iota.
    rewrite (value_head_skip (dumps v ++ t)) by now apply value_head_append, dumps_head.
    rewrite Hv by assumption. reflexivity. }
  assert (Hlen : (String.length (dumps v) < String.length (field (k, v)))%nat).
  { unfold field. cbn [fst snd]. rewrite !length_append. simpl. lia. }
  destruct l as [|w l].
  - change (str_join "," (map field [(k, v)])) with (field (k, v)) in *.
    rewrite Hone by (reflexivity || lia). reflexivity.
  - change (map field ((k, v) :: w :: l)) with (field (k, v) :: field w :: map field l) in *.
    rewrite str_join_cons in *. rewrite !length_append in Hf. change (String.length ",") with 1%nat in Hf.
    rewrite !string_app_assoc. rewrite Hone by (reflexivity || lia).
    change (field w :: map field l) with (map field (w :: l)) in *.
    set (tail := (str_join "," (map field (w :: l)) ++ "}" ++ rest)%string).
    change (skip_ws ("," ++ tail)%string) with (String "," tail). cbv iota.
    change (Ascii.eqb "," "}") with false. change (Ascii.eqb "," ",") with true. cbv iota.
    rewrite value_head_skip.
    + unfold tail. rewrite IH; [reflexivity|discriminate|assumption|assumption|lia].
    + unfold tail. apply value_head_append.
      destruct l; [reflexivity|]. change (map field (w :: p :: l)) with (field w :: field p :: map field l).
      rewrite str_join_cons. reflexivity.
Qed.

Lemma scan_once_list f t : value_head t = true ->
  scan_once (S f) (String "[" t) = (let! '(l, rest) := scan_elements f t in Ok (JList l, rest)).
Proof.
  intros Ht. change (scan_once (S f) (String "[" t)) with
    (match skip_ws t with
     | String d s1 =>
         if Ascii.eqb d "]" then Ok (JList [], s1)
         else let! '(l, rest) := scan_elements f (String d s1) in Ok (JList l, rest)
     | EmptyString => decode_error "Expecting value"
     end). rewrite value_head_skip by exact Ht.
  destruct t as [|d t]; [discriminate|]. unfold value_head in Ht. bool_to_prop. now rewrite H2.
Qed.

Lemma scan_once_obj f t : value_head t = true ->
  scan_once (S f) (String "{" t)
  = (let! '(l, rest) := scan_members f t in Ok (JObj (obj_of l), rest)).
Proof.
  intros Ht. change (scan_once (S f) (String "{" t)) with
    (match skip_ws t with
     | String d s1 =>
         if Ascii.eqb d "}" then Ok (JObj [], s1)
         else let! '(l, rest) := scan_members f (String d s1) in Ok (JObj (obj_of l), rest)
     | EmptyString => decode_error "Expecting property name enclosed in double quotes"
     end). rewrite value_head_skip by exact Ht.
  destruct t as [|d t]; [discriminate|]. unfold value_head in Ht. bool_to_prop. now rewrite H1.
Qed.

Lemma reads_back_list l : Forall (fun v => wf v = true -> reads_back v) l ->
  wf (JList l) = true -> reads_back (JList l).
Proof.
  intros Hall Hwf fuel rest Hr Hf. cbn [wf_text] in Hwf.
  assert (Hl : Forall reads_back l).
  { clear Hf. induction l as [|v l IH]; constructor; apply Forall_cons in Hall as [Hv Hl];
      cbn [forallb] in Hwf; bool_to_prop; auto. }
  change (dumps (JList l)) with ("[" ++ str_join "," (map dumps l) ++ "]")%string in *.
  rewrite !length_append in Hf. change (String.length "[") with 1%nat in Hf.
  change (String.length "]") with 1%nat in Hf. destruct fuel as [|fuel]; [lia|].
  destruct l as [|v l]; [reflexivity|].
  change (("[" ++ str_join "," (map dumps (v :: l)) ++ "]") ++ rest)%string
    with (String "[" ((str_join "," (map dumps (v :: l)) ++ "]") ++ rest)%string).
  rewrite string_app_assoc, scan_once_list.
  - rewrite scan_elements_dumps; [reflexivity|discriminate|assumption|assumption|lia].
  - apply value_head_append. cbn [forallb] in Hwf. apply andb_true_iff in Hwf as [Hv _].
    destruct l as [|w l]; [exact (dumps_head v Hv)|].
    change (map dumps (v :: w :: l)) with (dumps v :: dumps w :: map dumps l).
    rewrite str_join_cons. apply value_head_append, dumps_head, Hv.
Qed.

Lemma reads_back_obj l : Forall (fun f => reads_back (snd f)) l ->
  wf (JObj l) = true -> reads_back (JObj l).
Proof.
  intros Hall Hwf fuel rest Hr Hf. cbn [wf_text] in Hwf. apply andb_true_iff in Hwf as [Hd Hwf].
  change (dumps (JObj l)) with ("{" ++ str_join "," (map field l) ++ "}")%string in *.
  rewrite !length_append in Hf. change (String.length "{") with 1%nat in Hf.
  change (String.length "}") with 1%nat in Hf. destruct fuel as [|fuel]; [lia|].
  destruct l as [|f l]; [reflexivity|].
  change (("{" ++ str_join "," (map field (f :: l)) ++ "}") ++ rest)%string
    with (String "{" ((str_join "," (map field (f :: l)) ++ "}") ++ rest)%string).
  rewrite string_app_assoc, scan_once_obj.
  - rewrite scan_members_dumps; [|discriminate|assumption|assumption|lia].
    cbn [rbind]. now rewrite obj_of_distinct.
  - apply value_head_append. destruct l; reflexivity.
Qed.

(** A value does not start with a byte order mark. *)
Lemma bom_is_no_value v : wf v = true ->
  exists c t, dumps v = String c t /\ Ascii.eqb "239" c = false.
Proof.
  intros Hwf.
  assert (Hnum : forall s r b, scan_number s = Some (r, b) -> exists c t, s = String c t /\ Ascii.eqb "239" c = false).
  { intros s r b Hs. destruct (scan_number_first s r b Hs) as (c & t & -> & Hc). exists c, t. split; [reflexivity|].
    destruct Hc as [Hc|[-> _]]; [|reflexivity]. clear -Hc. by_chars c. }
  destruct v as [| [] |z|t|s|l|fields]; cbn [wf_text] in Hwf; try (eexists _, _; split; reflexivity).
  - apply Nat.leb_le in Hwf. exact (Hnum _ _ _ (scan_number_int z Hwf)).
  - destruct (float_cases t Hwf) as [[<-|[<-|[<-|[]]]]|Hn]; [eexists _, _; split; reflexivity..|].
    exact (Hnum _ _ _ Hn).
Qed.

Lemma scan_once_dumps v : wf v = true -> reads_back v.
Proof.
  induction v as [|b|z|t|s|l IHl|fields IHf] using json_rect_prop; intros Hwf.
  - intros [|fuel] rest Hr Hf; [simpl in Hf; lia|]. reflexivity.
  - intros [|fuel] rest Hr Hf; [destruct b; simpl in Hf; lia|]. destruct b; reflexivity.
  - apply reads_back_number, scan_number_int. now apply Nat.leb_le in Hwf.
  - destruct (float_cases t Hwf) as [Ht|Hn]; [|exact (reads_back_number (JFloat t) Hn)].
    intros [|fuel] rest Hr Hf; [destruct Ht as [<-|[<-|[<-|[]]]]; simpl in Hf; lia|].
    destruct Ht as [<-|[<-|[<-|[]]]]; reflexivity.
  - now apply reads_back_str.
  - now apply reads_back_list.
  - apply reads_back_obj; [|assumption..].
    cbn [wf_text] in Hwf. apply andb_true_iff in Hwf as [_ Hwf].
    induction fields as [|f l IH]; constructor; apply Forall_cons in IHf as [Hf Hl];
      cbn [forallb] in Hwf; bool_to_prop; auto.
Qed.

(** What is written is read back. *)
Lemma loads_dumps_esc v : wf v = true -> loads (dumps v) = Ok v.
Proof.
  intros Hwf. pose proof (dumps_head v Hwf) as Hh. unfold loads.
  assert (Hbom : starts_with (utf8_char 0xFEFF) (dumps v) = false).
  { destruct (bom_is_no_value v Hwf) as (c & t & -> & Hc).
    change (utf8_char 0xFEFF) with (String "239" (String "187" (String "191" ""))).
    now rewrite starts_with_cons, Hc. }
  rewrite Hbom, value_head_skip by exact Hh.
  rewrite <- (string_app_nil_r (dumps v)) at 2.
  rewrite (scan_once_dumps v Hwf) by (reflexivity || lia). reflexivity.
Qed.
End RoundTrip.

Lemma wf_text_mono `{PyFloat} (p q : string -> bool) v :
  (forall s, p s = true -> q s = true) -> wf_text p v = true -> wf_text q v = true.
Proof.
  intros Hpq. induction v as [| | | |s|l IH|fields IH] using json_rect_prop; cbn [wf_text]; auto.
  - rewrite !forallb_forall. rewrite Forall_forall in IH. intros Hl x Hx. apply IH; [now apply list_elem_of_In|auto].
  - intros [Hd Hl]%andb_true_iff. rewrite Hd. cbn [andb]. rewrite forallb_forall in *. rewrite Forall_forall in IH. intros x Hx.
    specialize (Hl x Hx). bool_to_prop. rewrite Hpq by assumption. apply IH; [now apply list_elem_of_In|assumption].
Qed.

(** What [json.dumps] writes, [json.loads] reads back.  For every value
    whose dicts have distinct keys, whose floats are printed as [repr] prints
    them and whose integers are within Python's limit on digits, parsing the
    compact text gives the value, whatever characters its strings contain. *)
Theorem loads_dumps `{PyFloat} v : wf_json v = true -> loads (dumps v) = Ok v.
Proof.
  intros Hwf. unfold dumps. rewrite dumps_with_esc.
  apply (loads_dumps_esc escape (fun _ => true)); [intros s rest _; apply scan_string_escape|exact Hwf].
Qed.

(** ** Termination *)

(** A scanner that consumes some of [n] characters, or raises a [ValueError]. *)
Definition shrinks {A} (n : nat) (r : res (A * string)) : Prop :=
  match r with
  | Ok (_, rest) => (String.length rest < n)%nat
  | Err e => is_ValueError e = true
  end.

Lemma shrinks_prepend p n r : shrinks n r -> shrinks n (prepend p r).
Proof. destruct r as [[a rest]|e]; auto. Qed.

Lemma shrinks_le {A} n m (r : res (A * string)) : shrinks n r -> (n <= m)%nat -> shrinks m r.
Proof. destruct r as [[a rest]|e]; simpl; [lia|auto]. Qed.

Lemma shrinks_bind {A B} n m (r : res (A * string)) (k : A -> string -> res (B * string)) :
  shrinks n r -> (forall a rest, (String.length rest < n)%nat -> shrinks m (k a rest)) ->
  shrinks m (let! '(a, rest) := r in k a rest).
Proof. destruct r as [[a rest]|e]; simpl; auto. Qed.

Lemma skip_ws_length s : (String.length (skip_ws s) <= String.length s)%nat.
Proof. induction s as [|c s IH]; simpl; [lia|]. destruct (is_ws c); simpl; lia. Qed.

Lemma span_length p s : (String.length (snd (span p s)) <= String.length s)%nat.
Proof. induction s as [|c s IH]; simpl; [lia|]. destruct (p c); [|simpl; lia]. destruct (span p s). simpl in *. lia. Qed.

Lemma scan_string_shrinks s : shrinks (S (String.length s)) (scan_string s).
Proof.
  assert (Hg : forall n s, (String.length s <= n)%nat -> shrinks (S (String.length s)) (scan_string s));
    [|now apply (Hg (String.length s))].
  clear s. induction n as [|n IH]; intros [|c s] Hn; try reflexivity; [simpl in Hn; lia|].
  assert (Hrec : forall p t, (String.length t <= String.length s)%nat ->
            shrinks (S (S (String.length s))) (prepend p (scan_string t))).
  { intros p t Ht. apply shrinks_prepend. simpl in Hn. apply (shrinks_le (S (String.length t))); [apply IH|]; lia. }
  cbn [scan_string String.length]. destruct (Ascii.eqb c quote_char); [simpl; lia|].
  destruct (Ascii.eqb c "\"); [|destruct (ord c <? 32); [easy|]; now apply Hrec].
  destruct s as [|e s1]; [easy|]. destruct (Ascii.eqb e "u").
  - destruct s1 as [|h1 [|h2 [|h3 [|h4 s2]]]]; try easy.
    destruct (hex4 h1 h2 h3 h4) as [u|]; [|easy].
    destruct s2 as [|b [|v [|l1 [|l2 [|l3 [|l4 s3]]]]]]; try (apply Hrec; simpl; lia).
    destruct (is_high u && Ascii.eqb b "\" && Ascii.eqb v "u"); [|apply Hrec; simpl; lia].
    destruct (hex4 l1 l2 l3 l4) as [m|]; [|easy].
    destruct (is_low m); apply Hrec; simpl; lia.
  - destruct (simple_escape e); [|easy]. apply Hrec. simpl. lia.
Qed.

Lemma scan_frac_length s : (String.length (snd (scan_frac s)) <= String.length s)%nat.
Proof.
  destruct s as [|c s]; simpl; [lia|]. destruct (Ascii.eqb c "."); [|simpl; lia].
  pose proof (span_length is_digit s). destruct (span is_digit s) as [d rest]. cbn [snd] in *.
  destruct (String.eqb d ""); simpl; lia.
Qed.

Lemma scan_exp_length s : (String.length (snd (scan_exp s)) <= String.length s)%nat.
Proof.
  destruct s as [|c s]; simpl; [lia|]. destruct (is_e c); [|simpl; lia].
  destruct s as [|x s]; cbv beta iota.
  - simpl. lia.
  - destruct (is_sign x); cbv beta iota.
    + pose proof (span_length is_digit s). destruct (span is_digit s) as [d rest]. cbn [snd] in *.
      destruct (String.eqb d ""); simpl; lia.
    + pose proof (span_length is_digit (String x s)). destruct (span is_digit (String x s)) as [d rest]. cbn [snd] in *.
      destruct (String.eqb d ""); simpl in *; lia.
Qed.

Lemma scan_int_length s d b : scan_int s = Some (d, b) -> (String.length b < String.length s)%nat.
Proof.
  destruct s as [|c s]; [easy|]. cbn [scan_int].
  destruct (Ascii.eqb c "0"); [intros [= _ <-]; simpl; lia|].
  destruct (is_digit c) eqn:Hc; [|easy]. cbn [span]. rewrite Hc.
  pose proof (span_length is_digit s). destruct (span is_digit s). intros [= _ <-]. simpl in *. lia.
Qed.

Section Termination.
Context `{PyFloat}.

Lemma scan_number_shrinks s r b :
  scan_number s = Some (r, b) -> shrinks (String.length s) (let! v := r in Ok (v, b)).
Proof.
  unfold scan_number. intros Hs.
  assert (Hsg : (String.length (snd (scan_sign s)) <= String.length s)%nat)
    by (destruct s as [|c s']; simpl; [lia|destruct (Ascii.eqb c "-"); simpl; lia]).
  destruct (scan_sign s) as [sg s1]. destruct (scan_int s1) as [[d s2]|] eqn:Hi; [|easy].
  apply scan_int_length in Hi. pose proof (scan_frac_length s2). destruct (scan_frac s2) as [fr s3].
  pose proof (scan_exp_length s3). destruct (scan_exp s3) as [ex s4]. cbn [snd] in *.
  injection Hs as <- <-. destruct (String.eqb fr "" && String.eqb ex ""); [|simpl; lia].
  unfold int_of_digits. destruct (Nat.ltb max_str_digits (String.length d)); [easy|]. simpl. lia.
Qed.

Lemma scan_constant_shrinks s v b : scan_constant s = Some (v, b) -> (String.length b < String.length s)%nat.
Proof.
  unfold scan_constant. destruct (List.find _ constants) as [[k w]|] eqn:E; [|easy].
  intros [= <- <-]. apply find_some in E as [Hin Hk]. cbn [fst] in Hk.
  pose proof (str_drop_length (String.length k) s).
  destruct s as [|c s]; [destruct Hin as [[= <- _]|[[= <- _]|[[= <- _]|[[= <- _]|[[= <- _]|[[= <- _]|[]]]]]]]; discriminate|].
  assert (0 < String.length k)%nat
    by (destruct Hin as [[= <- _]|[[= <- _]|[[= <- _]|[[= <- _]|[[= <- _]|[[= <- _]|[]]]]]]]; simpl; lia).
  simpl in *. lia.
Qed.

(** Two calls per character are enough for the three scanners. *)
Definition scanners_shrink (f : nat) : Prop :=
  (forall s, (2 * String.length s < f)%nat -> shrinks (String.length s) (scan_once f s))
  /\ (forall s, (2 * String.length s + 1 < f)%nat -> shrinks (String.length s) (scan_elements f s))
  /\ (forall s, (2 * String.length s + 1 < f)%nat -> shrinks (String.length s) (scan_members f s)).

Lemma shrinks_wrap {A B} n (g : A -> B) (r : res (A * string)) :
  shrinks n r -> shrinks n (let! '(a, rest) := r in Ok (g a, rest)).
Proof. destruct r as [[a rest]|e]; auto. Qed.

Ltac skip_blanks s :=
  pose proof (skip_ws_length s); destruct (skip_ws s); [easy|cbn [String.length] in *].

Lemma scan_elements_step f s : scanners_shrink f ->
  (2 * String.length s + 1 < S f)%nat -> shrinks (String.length s) (scan_elements (S f) s).
Proof.
  intros (Honce & Helems & _) Hf. cbn [scan_elements].
  apply (shrinks_bind (String.length s)); [apply Honce; lia|]. intros v s1 H1.
  skip_blanks s1. destruct (Ascii.eqb a "]"); [simpl; lia|]. destruct (Ascii.eqb a ","); [|easy].
  apply shrinks_wrap. pose proof (skip_ws_length s0).
  apply (shrinks_le (String.length (skip_ws s0))); [apply Helems|]; lia.
Qed.

Lemma scan_members_step f s : scanners_shrink f ->
  (2 * String.length s + 1 < S f)%nat -> shrinks (String.length s) (scan_members (S f) s).
Proof.
  intros (Honce & _ & Hmem) Hf. cbn [scan_members].
  destruct s as [|q s0]; [easy|]. destruct (Ascii.eqb q quote_char); [|easy].
  cbn [String.length] in *. apply (shrinks_bind (S (String.length s0))); [apply scan_string_shrinks|].
  intros key s1 H1. skip_blanks s1. destruct (Ascii.eqb a ":"); [|easy].
  pose proof (skip_ws_length s).
  apply (shrinks_bind (String.length (skip_ws s))); [apply Honce; lia|]. intros v s3 H3.
  skip_blanks s3. destruct (Ascii.eqb a0 "}"); [simpl; lia|]. destruct (Ascii.eqb a0 ","); [|easy].
  apply shrinks_wrap. pose proof (skip_ws_length s2).
  apply (shrinks_le (String.length (skip_ws s2))); [apply Hmem|]; lia.
Qed.

Lemma scan_once_step f s : scanners_shrink f ->
  (2 * String.length s < S f)%nat -> shrinks (String.length s) (scan_once (S f) s).
Proof.
  intros (_ & Helems & Hmem) Hf. cbn [scan_once]. destruct s as [|c s']; [easy|].
  cbn [String.length] in Hf.
  destruct (Ascii.eqb c quote_char); [apply shrinks_wrap; apply scan_string_shrinks|].
  destruct (Ascii.eqb c "{").
  { skip_blanks s'. destruct (Ascii.eqb a "}"); [simpl; lia|]. apply shrinks_wrap.
    apply (shrinks_le (String.length (String a s))); [apply Hmem|]; cbn [String.length]; lia. }
  destruct (Ascii.eqb c "[").
  { skip_blanks s'. destruct (Ascii.eqb a "]"); [simpl; lia|]. apply shrinks_wrap.
    apply (shrinks_le (String.length (String a s))); [apply Helems|]; cbn [String.length]; lia. }
  destruct (scan_constant (String c s')) as [[v b]|] eqn:Ek; [now apply scan_constant_shrinks in Ek|].
  destruct (scan_number (String c s')) as [[r b]|] eqn:En; [now apply scan_number_shrinks|easy].
Qed.

Lemma scanners_terminate f : scanners_shrink f.
Proof.
  induction f as [|f IH]; [repeat split; intros; lia|].
  split; [|split]; intros s Hf.
  - now apply scan_once_step.
  - now apply scan_elements_step.
  - now apply scan_members_step.
Qed.

(** [loads] returns a value or raises a [ValueError], on every text: its fuel
    is enough. *)
Theorem loads_total s e : loads s = Err e -> is_ValueError e = true.
Proof.
  unfold loads. destruct (starts_with _ s); [intros [= <-]; reflexivity|].
  destruct (scanners_terminate (2 + 2 * String.length (skip_ws s))) as (Honce & _).
  specialize (Honce (skip_ws s) ltac:(lia)).
  destruct (scan_once _ (skip_ws s)) as [[v rest]|e']; cbn [shrinks rbind] in *; [|congruence].
  destruct (negb (String.eqb (skip_ws rest) "")); [intros [= <-]; reflexivity|discriminate].
Qed.
End Termination.
