(* ===== verification/JsonText.v ===== *)
(** * JSON with [ensure_ascii] (Python's default) is read back

    [json.dumps] of text in UTF-8 writes every character beyond ASCII as one
    or two [\uXXXX] escapes; [json.loads] gives the text back, also when
    further characters were replaced by their escapes. *)
From S2P Require Export Json.

(** ** Text in UTF-8: no lone surrogate, no overlong form *)
Fixpoint utf8_from (need : nat) (lo hi : Z) (s : string) : bool :=
  match s, need with
  | EmptyString, O => true
  | EmptyString, S _ => false
  | String c s', O =>
      if ord c <? 0x80 then utf8_from 0 0 0 s'
      else match lead_range (ord c) with Some (k, l, h) => utf8_from k l h s' | None => false end
  | String c s', S k => (lo <=? ord c) && (ord c <=? hi) && utf8_from k 0x80 0xBF s'
  end.

Definition utf8_text (s : string) : bool := utf8_from 0 0 0 s.

(** ** One escape is read back *)
Ltac bits_to_arith :=
  repeat match goal with
  | |- context [Z.land ?a 15] => change (Z.land a 15) with (Z.land a (Z.ones 4))
  | |- context [Z.land ?a 31] => change (Z.land a 31) with (Z.land a (Z.ones 5))
  | |- context [Z.land ?a 7] => change (Z.land a 7) with (Z.land a (Z.ones 3))
  | |- context [Z.land ?a 63] => change (Z.land a 63) with (Z.land a (Z.ones 6))
  | |- context [Z.land ?a 1023] => change (Z.land a 1023) with (Z.land a (Z.ones 10))
  end;
  rewrite ?Z.land_ones, ?Z.shiftr_div_pow2, ?Z.shiftl_mul_pow2 by lia.

Lemma hex4_u_escape n : 0 <= n < 0x10000 ->
  hex4 (hex_of (Z.land (Z.shiftr n 12) 15)) (hex_of (Z.land (Z.shiftr n 8) 15))
       (hex_of (Z.land (Z.shiftr n 4) 15)) (hex_of (Z.land n 15)) = Some n.
Proof.
  intros Hn. bits_to_arith. unfold hex4.
  assert (Hm : forall x, 0 <= x mod 2 ^ 4 < 16) by (intros x; apply Z.mod_pos_bound; lia).
  rewrite !hex_of_value by apply Hm. f_equal. Z.to_euclidean_division_equations. lia.
Qed.

Lemma u_escape_shape n t : exists a b c d,
  (u_escape n ++ t)%string = String "\" (String "u" (String a (String b (String c (String d t)))))
  /\ (0 <= n < 0x10000 -> hex4 a b c d = Some n).
Proof. eexists _, _, _, _. split; [reflexivity|]. apply hex4_u_escape. Qed.

(** [scan_string] after the backslash and the [u]. *)
Lemma scan_u_step a b c d n t :
  hex4 a b c d = Some n -> is_high n = false ->
  scan_string (String "\" (String "u" (String a (String b (String c (String d t))))))
  = prepend (utf8_char n) (scan_string t).
Proof.
  intros Hh Hn. cbn [scan_string]. change (Ascii.eqb "\" quote_char) with false.
  change (Ascii.eqb "\" "\") with true. change (Ascii.eqb "u" "u") with true. cbv iota. rewrite Hh, Hn. cbn [andb].
  destruct t as [|? [|? [|? [|? [|? [|? ?]]]]]]; reflexivity.
Qed.

Lemma scan_u_escape n t : 0 <= n < 0x10000 -> is_high n = false ->
  scan_string (u_escape n ++ t) = prepend (utf8_char n) (scan_string t).
Proof.
  intros Hn Hh. destruct (u_escape_shape n t) as (a & b & c & d & -> & Hx).
  apply scan_u_step; [now apply Hx|exact Hh].
Qed.

(** A pair of surrogates. *)
Lemma scan_pair n m t :
  0xD800 <= n <= 0xDBFF -> 0xDC00 <= m <= 0xDFFF ->
  scan_string (u_escape n ++ u_escape m ++ t)
  = prepend (utf8_char (0x10000 + (n - 0xD800) * 1024 + (m - 0xDC00))) (scan_string t).
Proof.
  intros Hn Hm. destruct (u_escape_shape n (u_escape m ++ t)%string) as (a & b & c & d & -> & Hx).
  destruct (u_escape_shape m t) as (a' & b' & c' & d' & -> & Hx').
  assert (Hh : is_high n = true) by (unfold is_high; lia). assert (Hl : is_low m = true) by (unfold is_low; lia).
  cbn [scan_string]. change (Ascii.eqb "\" quote_char) with false.
  change (Ascii.eqb "\" "\") with true. change (Ascii.eqb "u" "u") with true. cbv iota.
  rewrite Hx, Hx', Hh, Hl by lia. reflexivity.
Qed.

Lemma scan_wide code t :
  0x80 <= code < 0x110000 -> ~ 0xD800 <= code <= 0xDFFF ->
  scan_string (wide_escape code ++ t) = prepend (utf8_char code) (scan_string t).
Proof.
  intros Hc Hs. unfold wide_escape. destruct (code <? 0x10000) eqn:E; bool_to_prop.
  - apply scan_u_escape; [lia|]. unfold is_high. lia.
  - rewrite string_app_assoc. bits_to_arith. rewrite scan_pair by (Z.to_euclidean_division_equations; lia).
    do 2 f_equal. Z.to_euclidean_division_equations. lia.
Qed.

(** ** A character of several bytes *)
Lemma byte_ord c : byte (ord c) = c.
Proof. unfold byte, ord. rewrite N2Z.id. apply ascii_N_embedding. Qed.

Lemma byte_is z c : ord c = z -> byte z = c.
Proof. intros <-. apply byte_ord. Qed.

Lemma utf8_char_two a b : 0xC2 <= ord a <= 0xDF -> 0x80 <= ord b <= 0xBF ->
  let code := Z.shiftl (Z.land (ord a) 31) 6 + Z.land (ord b) 63 in
  utf8_char code = String a (String b "") /\ 0x80 <= code < 0x800.
Proof.
  intros Ha Hb code. assert (Hc : code = (ord a - 0xC0) * 64 + (ord b - 0x80)).
  { unfold code. bits_to_arith. Z.to_euclidean_division_equations. lia. }
  split; [|lia]. unfold utf8_char. replace (code <? 128) with false by lia. replace (code <? 2048) with true by lia.
  bits_to_arith. rewrite (byte_is _ a), (byte_is _ b); [reflexivity|..]; Z.to_euclidean_division_equations; lia.
Qed.

Lemma utf8_char_three a b c : 0xE0 <= ord a <= 0xEF -> 0x80 <= ord b <= 0xBF -> 0x80 <= ord c <= 0xBF ->
  (ord a = 0xE0 -> 0xA0 <= ord b) -> (ord a = 0xED -> ord b <= 0x9F) ->
  let code := Z.shiftl (Z.shiftl (Z.land (ord a) 15) 6 + Z.land (ord b) 63) 6 + Z.land (ord c) 63 in
  utf8_char code = String a (String b (String c "")) /\ 0x800 <= code < 0x10000 /\ ~ 0xD800 <= code <= 0xDFFF.
Proof.
  intros Ha Hb Hc0 H0 HD code. assert (Hc : code = (ord a - 0xE0) * 4096 + (ord b - 0x80) * 64 + (ord c - 0x80)).
  { unfold code. bits_to_arith. Z.to_euclidean_division_equations. lia. }
  split; [|lia]. unfold utf8_char. replace (code <? 128) with false by lia. replace (code <? 2048) with false by lia.
  replace (code <? 65536) with true by lia.
  bits_to_arith. rewrite (byte_is _ a), (byte_is _ b), (byte_is _ c); [reflexivity|..]; Z.to_euclidean_division_equations; lia.
Qed.

Lemma utf8_char_four a b c d : 0xF0 <= ord a <= 0xF4 -> 0x80 <= ord b <= 0xBF -> 0x80 <= ord c <= 0xBF ->
  0x80 <= ord d <= 0xBF -> (ord a = 0xF0 -> 0x90 <= ord b) -> (ord a = 0xF4 -> ord b <= 0x8F) ->
  let code := Z.shiftl (Z.shiftl (Z.shiftl (Z.land (ord a) 7) 6 + Z.land (ord b) 63) 6 + Z.land (ord c) 63) 6
              + Z.land (ord d) 63 in
  utf8_char code = String a (String b (String c (String d ""))) /\ 0x10000 <= code < 0x110000.
Proof.
  intros Ha Hb Hc0 Hd H0 HF code.
  assert (Hc : code = (ord a - 0xF0) * 262144 + (ord b - 0x80) * 4096 + (ord c - 0x80) * 64 + (ord d - 0x80)).
  { unfold code. bits_to_arith. Z.to_euclidean_division_equations. lia. }
  split; [|lia]. unfold utf8_char. replace (code <? 128) with false by lia. replace (code <? 2048) with false by lia.
  replace (code <? 65536) with false by lia.
  bits_to_arith. rewrite (byte_is _ a), (byte_is _ b), (byte_is _ c), (byte_is _ d);
    [reflexivity|..]; Z.to_euclidean_division_equations; lia.
Qed.

(** ** Strings *)

(** How one ASCII character is written. *)
Definition ascii_piece (c : ascii) : string :=
  match short_escape c with Some e => e | None => String c "" end.

(** Lead bytes and the continuation bytes they need. *)
Lemma lead_cases a k l h : lead_range (ord a) = Some (k, l, h) ->
  (k = 1%nat /\ l = 0x80 /\ h = 0xBF /\ 0xC2 <= ord a <= 0xDF)
  \/ (k = 2%nat /\ 0x80 <= l /\ h <= 0xBF /\ 0xE0 <= ord a <= 0xEF
      /\ (ord a = 0xE0 -> l = 0xA0) /\ (ord a = 0xED -> h = 0x9F))
  \/ (k = 3%nat /\ 0x80 <= l /\ h <= 0xBF /\ 0xF0 <= ord a <= 0xF4
      /\ (ord a = 0xF0 -> l = 0x90) /\ (ord a = 0xF4 -> h = 0x8F)).
Proof.
  unfold lead_range. repeat match goal with |- context [if ?b then _ else _] => destruct b eqn:? end;
    intros [= <- <- <-]; lia.
Qed.

(** The next byte of a character of several bytes. *)
Lemma utf8_from_next k l h s : utf8_from (S k) l h s = true ->
  exists c r, s = String c r /\ l <= ord c <= h /\ utf8_from k 0x80 0xBF r = true.
Proof. destruct s as [|c r]; [discriminate|]. cbn [utf8_from]. intros H. bool_to_prop. eauto 6. Qed.

Lemma utf8_from_done l h s : utf8_from 0 l h s = utf8_text s.
Proof. now destruct s. Qed.

Section Escaped.
(** [f] is applied to the escaped text and may escape further characters. *)
Context (f : string -> string).
Hypothesis f_app : forall a b, f (a ++ b)%string = (f a ++ f b)%string.
Hypothesis f_u : forall n, f (u_escape n) = u_escape n.
Hypothesis f_piece : forall c t, ord c < 127 ->
  scan_string (f (ascii_piece c) ++ t) = prepend (String c "") (scan_string t).

Lemma f_nil : f "" = ""%string.
Proof.
  pose proof (f_equal String.length (f_app "" "")) as H. change ("" ++ "")%string with ""%string in H.
  rewrite length_append in H. destruct (f ""); [reflexivity|]. simpl in H. lia.
Qed.

Lemma f_wide code : f (wide_escape code) = wide_escape code.
Proof. unfold wide_escape. destruct (code <? _); [|rewrite f_app]; now rewrite !f_u. Qed.

(** Every character of the text is a prefix that is written and read alone. *)
Lemma escape_ascii_step a s : utf8_text (String a s) = true ->
  exists p w r, String a s = (p ++ r)%string /\ (String.length r < S (String.length s))%nat /\ utf8_text r = true
    /\ escape_ascii 0 0 (String a s) = (w ++ escape_ascii 0 0 r)%string
    /\ forall t, scan_string (f w ++ t) = prepend p (scan_string t).
Proof.
  unfold utf8_text. cbn [utf8_from]. destruct (ord a <? 128) eqn:Ea; [|destruct (lead_range (ord a)) as [[[k l] h]|] eqn:El; [|discriminate]].
  - intros Hs. exists (String a ""). destruct (Z.eq_dec (ord a) 127) as [E7|E7].
    + exists (u_escape 127), s. split_and!; [reflexivity|lia|exact Hs|cbn [escape_ascii]; rewrite E7; reflexivity|].
      intros t. rewrite f_u, scan_u_escape by (unfold is_high; lia || reflexivity). rewrite <- (byte_ord a), E7. reflexivity.
    + bool_to_prop. exists (ascii_piece a), s.
      split_and!; [reflexivity|lia|exact Hs| |intros t; apply f_piece; lia].
      cbn [escape_ascii]. replace (ord a <? 127) with true by lia. unfold ascii_piece. now destruct (short_escape a).
  - intros Hs. bool_to_prop.
    assert (Hea : forall r, escape_ascii 0 0 (String a r) = escape_ascii (Z.land (ord a) (if ord a <? 224 then 31 else if ord a <? 240 then 15 else 7)) k r).
    { intros r. cbn [escape_ascii]. replace (ord a <? 127) with false by lia. replace (ord a =? 127) with false by lia.
      destruct (lead_cases a k l h El) as [(-> & _ & _ & Hr)|[(-> & _ & _ & Hr & _)|(-> & _ & _ & Hr & _)]];
        destruct (ord a <? 224) eqn:E1, (ord a <? 240) eqn:E2; bool_to_prop; lia || reflexivity. }
    destruct (lead_cases a k l h El) as [(-> & -> & -> & Hr)|[(-> & Hl & Hh & Hr & H0 & H1)|(-> & Hl & Hh & Hr & H0 & H1)]].
    + apply utf8_from_next in Hs as (c & r & -> & ? & Hs). destruct (utf8_char_two a c) as [Hu Hc]; [lia..|]. eexists (String a (String c "")), _, r.
      split_and!; [reflexivity|simpl; lia|now rewrite utf8_from_done in Hs|rewrite Hea; replace (ord a <? 224) with true by lia; reflexivity|].
      intros t. rewrite f_wide, scan_wide by lia. now rewrite Hu.
    + apply utf8_from_next in Hs as (c & s1 & -> & ? & Hs). apply utf8_from_next in Hs as (c0 & r & -> & ? & Hs).
      destruct (utf8_char_three a c c0) as (Hu & Hc & Hd); [lia..|].
      eexists (String a (String c (String c0 ""))), _, r.
      split_and!; [reflexivity|simpl; lia|now rewrite utf8_from_done in Hs|rewrite Hea; replace (ord a <? 224) with false by lia;
        replace (ord a <? 240) with true by lia; reflexivity|].
      intros t. rewrite f_wide, scan_wide by lia. now rewrite Hu.
    + apply utf8_from_next in Hs as (c & s1 & -> & ? & Hs). apply utf8_from_next in Hs as (c0 & s2 & -> & ? & Hs).
      apply utf8_from_next in Hs as (c1 & r & -> & ? & Hs). destruct (utf8_char_four a c c0 c1) as [Hu Hc]; [lia..|].
      eexists (String a (String c (String c0 (String c1 "")))), _, r.
      split_and!; [reflexivity|simpl; lia|now rewrite utf8_from_done in Hs|rewrite Hea; replace (ord a <? 224) with false by lia;
        replace (ord a <? 240) with false by lia; reflexivity|].
      intros t. rewrite f_wide, scan_wide by lia. now rewrite Hu.
Qed.

Lemma scan_escaped s rest : utf8_text s = true ->
  scan_string (f (escape_ascii 0 0 s) ++ String quote_char rest) = Ok (s, rest).
Proof.
  assert (Hg : forall n s, (String.length s <= n)%nat -> utf8_text s = true ->
    scan_string (f (escape_ascii 0 0 s) ++ String quote_char rest) = Ok (s, rest));
    [|now apply (Hg (String.length s))].
  clear s. induction n as [|n IH]; intros [|a s] Hn Hs; try (cbn [escape_ascii]; rewrite f_nil; reflexivity);
    [simpl in Hn; lia|].
  destruct (escape_ascii_step a s Hs) as (p & w & r & E & Hlen & Hr & Hw & Hscan).
  rewrite Hw, f_app, string_app_assoc, Hscan, IH by (simpl in Hn; lia || exact Hr). cbn [prepend]. now rewrite <- E.
Qed.
End Escaped.

Lemma scan_piece c t : scan_string (ascii_piece c ++ t) = prepend (String c "") (scan_string t).
Proof. rewrite <- scan_string_char. unfold ascii_piece. now destruct (short_escape c). Qed.

Lemma scan_string_escape_ascii s rest : utf8_text s = true ->
  scan_string (escape_ascii 0 0 s ++ String quote_char rest) = Ok (s, rest).
Proof. apply (scan_escaped id); [reflexivity..|]. intros c t _. apply scan_piece. Qed.

(** What [json.dumps] writes by default is read back too. *)
Theorem loads_dumps_ascii `{PyFloat} v : wf_text utf8_text v = true -> loads (dumps_ascii v) = Ok v.
Proof.
  intros Hv. unfold dumps_ascii. rewrite dumps_with_esc.
  exact (loads_dumps_esc _ _ scan_string_escape_ascii v Hv).
Qed.
