(* ===== verification/Command.v ===== *)
(** * Running commands (src/notebook_launcher/orchestration.py, first half)

    The result of [run_argv], its argument checks, and the capture, redaction
    and truncation of the output.  RunArgv has the process itself; the clients
    of [run_argv] take a runner as a parameter. *)
From S2P Require Export Utf8.

Record CommandResult := mkCommandResult {
  cr_argv : list string;
  returncode : Z;
  stdout : string;
  stderr : string;
  stdout_bytes : Z;
  stderr_bytes : Z;
  truncated : bool;
  duration_ms : Z }.

(** ** [_BoundedCapture] *)
Record BoundedCapture := mkCapture { cap_limit : nat; cap_total : nat; cap_kept : string }.

Definition new_capture (limit : nat) : BoundedCapture := mkCapture limit 0 "".

(** One turn of the loop of [read]. *)
Definition capture_chunk (c : BoundedCapture) (chunk : string) : BoundedCapture :=
  let remaining := (cap_limit c - String.length (cap_kept c))%nat in
  mkCapture (cap_limit c) (cap_total c + String.length chunk)
    (if Nat.ltb 0 remaining then (cap_kept c ++ str_take remaining chunk)%string else cap_kept c).

(** [read], on the chunks that the stream gives up to the empty one. *)
Fixpoint capture_read (c : BoundedCapture) (chunks : list string) : BoundedCapture :=
  match chunks with
  | [] => c
  | chunk :: rest => if String.eqb chunk "" then c else capture_read (capture_chunk c chunk) rest
  end.

(** ** Redaction *)

(** [value.replace(secret, "[REDACTED]")] for a non-empty secret, scanning
    from the left. *)
Fixpoint replace_fuel (fuel : nat) (secret by_ value : string) : string :=
  match fuel with
  | O => value
  | S fuel' =>
      match value with
      | EmptyString => EmptyString
      | String c rest =>
          if starts_with secret value
          then (by_ ++ replace_fuel fuel' secret by_ (str_drop (String.length secret) value))%string
          else String c (replace_fuel fuel' secret by_ rest)
      end
  end.

Definition str_replace (secret by_ value : string) : string :=
  replace_fuel (String.length value) secret by_ value.

Definition redact (value : string) (redactions : list string) : string :=
  fold_left (fun v secret => str_replace secret "[REDACTED]" v) redactions value.

(** The inner loop: the longest proper prefix of the secret, of at most [k]
    characters, that the text ends with. *)
Fixpoint redact_tail (k : nat) (secret value : string) : string :=
  match k with
  | O => value
  | S k' =>
      if ends_with (str_slice k secret) value
      then (str_take (String.length value - String.length (str_slice k secret)) value ++ "[REDACTED]")%string
      else redact_tail k' secret value
  end.

Definition redact_capture_boundary (value : string) (redactions : list string) : string :=
  redact
    (fold_left (fun v secret =>
       redact_tail (Nat.min (str_len secret - 1) (str_len v)) secret v)
       redactions value)
    redactions.

(** [encoded[:limit].decode("utf-8", errors="ignore")]: the whole characters
    within the first [limit] bytes. *)
Fixpoint char_boundary (s : string) (k : nat) : nat :=
  match k with
  | O => O
  | S k' => match String.get k s with Some c => if is_cont c then char_boundary s k' else k | None => k end
  end.
Definition cut_text (limit : nat) (s : string) : string := str_take (char_boundary s limit) s.

Definition bounded_text (c : BoundedCapture) (limit : nat) (redactions : list string)
    : string * bool :=
  let captured := cap_kept c in
  let text := decode_replace captured in
  let text :=
    if Nat.ltb (String.length captured) (cap_total c)
    then redact_capture_boundary text redactions
    else redact text redactions in
  let truncated := Nat.ltb limit (cap_total c) || Nat.ltb limit (String.length text) in
  (if Nat.ltb limit (String.length text) then cut_text limit text else text, truncated).

(** The checks of [run_argv] on its arguments; a timeout and a grace period
    are in any unit of time. *)
Definition check_argv (argv : list string) (timeout_seconds : option Z)
    (terminate_grace_seconds max_output_bytes : Z) : res (list string) :=
  let! _ := raise_if (match argv with [] => true | _ => false end)
    (ValueError "argv must be a non-empty sequence of strings") in
  let! _ := raise_if (existsb (has_char "000"%char) argv)
    (ValueError "argv entries must be strings without NUL bytes") in
  let! _ := raise_if (match timeout_seconds with Some t => t <=? 0 | None => false end)
    (ValueError "timeout_seconds must be positive") in
  let! _ := raise_if (terminate_grace_seconds <? 0)
    (ValueError "terminate_grace_seconds cannot be negative") in
  let! _ := raise_if (max_output_bytes <=? 0)
    (ValueError "max_output_bytes must be positive") in
  Ok argv.

(** ** Lemmas *)
(** The capture of a stream is its longest prefix within the limit. *)
Definition captures (c : BoundedCapture) (text : string) : Prop :=
  cap_kept c = str_take (cap_limit c) text /\ cap_total c = String.length text.

Lemma capture_chunk_spec c text chunk :
  captures c text -> captures (capture_chunk c chunk) (text ++ chunk).
Proof.
  intros [Hk Ht]. unfold captures, capture_chunk. simpl. rewrite Ht, length_append. split; [|reflexivity].
  rewrite str_take_append, Hk, length_str_take.
  destruct (Nat.ltb_spec 0 (cap_limit c - Nat.min (cap_limit c) (String.length text))).
  - do 2 f_equal. lia.
  - replace (cap_limit c - String.length text)%nat with 0%nat by lia.
    destruct chunk; now rewrite string_app_nil_r.
Qed.

Fixpoint concat_text (l : list string) : string :=
  match l with [] => "" | s :: l' => (s ++ concat_text l')%string end.

Lemma capture_read_spec c text chunks :
  captures c text -> forallb (fun s => negb (String.eqb s "")) chunks = true ->
  captures (capture_read c chunks) (text ++ concat_text chunks)
  /\ cap_limit (capture_read c chunks) = cap_limit c.
Proof.
  revert c text. induction chunks as [|s l IH]; intros c text Hc Hne; simpl.
  - now rewrite string_app_nil_r.
  - simpl in Hne. bool_to_prop. rewrite (proj2 (String.eqb_neq s "")) by assumption.
    rewrite <- string_app_assoc.
    destruct (IH (capture_chunk c s) (text ++ s)%string) as [H1 H2]; auto using capture_chunk_spec.
Qed.

(** ASCII text is its own decoding, and every byte starts a character. *)
Definition is_ascii (c : ascii) : bool := ord c <? 128.

Lemma decode_ascii s : all_chars is_ascii s = true -> decode_replace s = s.
Proof.
  unfold decode_replace, is_ascii. induction s as [|c s IH]; [reflexivity|]. cbn [all_chars decode_from].
  intros H. apply andb_true_iff in H as [Hc Hs]. change (0x80) with 128. rewrite Hc. now rewrite IH.
Qed.

Lemma get_ascii s k c : all_chars is_ascii s = true -> String.get k s = Some c -> is_cont c = false.
Proof.
  revert k. induction s as [|x s IH]; intros k H; [destruct k; discriminate|]. cbn [all_chars] in H.
  apply andb_true_iff in H as [Hx Hs]. destruct k as [|k]; cbn [String.get]; [intros [= <-]|now apply IH].
  unfold is_ascii in Hx. unfold is_cont. destruct (128 <=? ord x) eqn:E; [lia|reflexivity].
Qed.

Lemma cut_ascii n s : all_chars is_ascii s = true -> cut_text n s = str_take n s.
Proof.
  intros H. unfold cut_text. f_equal. destruct n as [|n]; [reflexivity|]. cbn [char_boundary].
  destruct (String.get (S n) s) as [c|] eqn:E; [|reflexivity]. now rewrite (get_ascii _ _ _ H E).
Qed.

Lemma char_boundary_le s k : (char_boundary s k <= k)%nat.
Proof. induction k as [|k IH]; cbn [char_boundary]; [lia|]. destruct (String.get _ _) as [c|]; [destruct (is_cont c)|]; lia. Qed.

Lemma cut_text_bound n s : (String.length (cut_text n s) <= n)%nat.
Proof. unfold cut_text. rewrite length_str_take. pose proof (char_boundary_le s n). lia. Qed.

Lemma bounded_text_bound c limit redactions : (String.length (fst (bounded_text c limit redactions)) <= limit)%nat.
Proof.
  unfold bounded_text. cbv zeta. cbn [fst]. set (t := if Nat.ltb _ _ then redact_capture_boundary _ _ else _).
  destruct (Nat.ltb_spec limit (String.length t)); [apply cut_text_bound|lia].
Qed.

(** Captured output is bounded and exact.  Whatever the chunks in which a
    process writes its output, the bytes kept for it are the prefix of the
    output of [limit] bytes, the count is the full length, and the text
    that [run_argv] reports never exceeds [max_output_bytes]; without secrets
    to redact, ASCII output is exactly the output cut at that bound, and the
    truncation flag tells whether something was cut. *)
Theorem bounded_output_exact (limit extra : nat) (chunks redactions : list string) :
  forallb (fun s => negb (String.eqb s "")) chunks = true ->
  let output := concat_text chunks in
  let c := capture_read (new_capture (limit + extra)) chunks in
  cap_kept c = str_take (limit + extra) output
  /\ cap_total c = String.length output
  /\ (String.length (fst (bounded_text c limit redactions)) <= limit)%nat
  /\ (all_chars is_ascii output = true -> bounded_text c limit [] = (str_take limit output, Nat.ltb limit (String.length output))).
Proof.
  intros Hne. cbv zeta.
  destruct (capture_read_spec (new_capture (limit + extra)) "" chunks) as [[Hk Ht] Hl];
    [split; [simpl; now destruct (limit + extra)%nat|reflexivity]|exact Hne|].
  change ((""%string ++ concat_text chunks)%string) with (concat_text chunks) in *.
  rewrite Hl in Hk. simpl in Hk. set (c := capture_read _ _) in *. set (out := concat_text chunks) in *.
  split; [exact Hk|]. split; [exact Ht|]. split; [apply bounded_text_bound|]. intros Ha.
  unfold bounded_text, redact_capture_boundary. cbn [fold_left redact]. rewrite Hk, Ht.
  set (t := str_take (limit + extra) out).
  assert (Hat : all_chars is_ascii t = true) by now apply all_chars_take. rewrite (decode_ascii t Hat).
  assert (Hlen : String.length t = Nat.min (limit + extra) (String.length out)) by apply length_str_take.
  replace (if Nat.ltb (String.length t) (String.length out) then t else t) with t
    by now destruct (Nat.ltb _ _).
  rewrite (cut_ascii limit t Hat).
  assert (Hcut : (if Nat.ltb limit (String.length t) then str_take limit t else t) = str_take limit out).
  { unfold t. rewrite str_take_take. replace (Nat.min limit (limit + extra)) with limit by lia.
    fold t. destruct (Nat.ltb_spec limit (String.length t)); [reflexivity|].
    unfold t in *. rewrite <- (str_take_all limit (str_take (limit + extra) out)) by lia.
    rewrite str_take_take. f_equal. lia. }
  rewrite Hcut. f_equal. rewrite Hlen.
  destruct (Nat.ltb_spec limit (String.length out)),
    (Nat.ltb_spec limit (Nat.min (limit + extra) (String.length out))); simpl; lia || reflexivity.
Qed.

Lemma bounded_output_exact_witness :
  fst (bounded_text (capture_read (new_capture (8 + 5)) ["token"; "=abcdef "; "and more"]%string) 8
         ["abcdef"]%string) = "token=[R"%string
  /\ (String.length (fst (bounded_text (capture_read (new_capture (8 + 5))
        ["token"; "=abcdef "; "and more"]%string) 8 ["abcdef"]%string)) <= 8)%nat.
Proof.
  split; [reflexivity|].
  exact (proj1 (proj2 (proj2 (bounded_output_exact 8 5 ["token"; "=abcdef "; "and more"]%string
           ["abcdef"]%string eq_refl)))).
Defined.
