(* ===== verification/Win32.v ===== *)
(** * Windows handles (the kernel calls of safe_paths.py and orchestration.py)

    The code for Windows calls kernel32 and ntdll through ctypes.  A call is an
    event of a trace, with its answer: a value, or the error that
    [GetLastError] then gives.  The answers come from an environment that knows
    the trace so far, so any call may fail.  [accounts] states which handles
    and descriptors a piece of code takes over and gives back. *)
From S2P Require Export Triples Utf8.

Inductive win_call :=
| CreateJobObjectW
| SetInformationJobObject (job limit_flags : Z)
| AssignProcessToJobObject (job process : Z)
| TerminateJobObject (job code : Z)
| CloseHandle (h : Z)
| CreateToolhelp32Snapshot (flags : Z)
| Thread32First (snapshot : Z)
| Thread32Next (snapshot : Z)
| OpenThread (access thread_id : Z)
| ResumeThread (thread : Z)
| CreateFileW (path : string) (access disposition flags : Z)
| NtCreateFile (parent : Z) (name : list Z) (access disposition options : Z)
| GetFileInformationByHandle (h : Z)
| GetFileInformationByHandleEx (h : Z)
| WriteFile (h : Z) (chunk : string)
| FlushFileBuffers (h : Z)
| NtSetInformationFile (h : Z) (root : Z) (name : list Z) (replace_if_exists : bool)
| SetFileInformationByHandle (h : Z)
| OpenOsfHandle (h flags : Z)
| ReadDescriptor (fd : Z)
| CloseDescriptor (fd : Z)
| ResolvePath (path : string)
| StatPath (path : string).

(** The value of a call, or its error. *)
Inductive win_answer := Value (v : Z) | Failed (error : Z).
Definition win_event : Type := win_call * win_answer.
Definition WinTrace : Type := list win_event.

(** The owner and the id of the thread entry that [Thread32First] and
    [Thread32Next] fill in and the bytes read from a descriptor are further
    results. *)
Record WinEnv := mkWinEnv {
  we_answer : WinTrace -> win_call -> win_answer;
  we_thread : WinTrace -> Z * Z;
  we_bytes : WinTrace -> string }.

Section Calls.
Context (env : WinEnv).

Definition win (c : win_call) : Eff WinTrace win_answer := fun t =>
  let a := we_answer env t c in (t ++ [(c, a)], Ok a).

(** A call that raises [mk error] when it fails. *)
Definition win_or (mk : Z -> exn) (c : win_call) : Eff WinTrace Z :=
  a ← win c; match a with Value v => mret v | Failed e => eff_raise (mk e) end.
Definition win_error (c : win_call) : Eff WinTrace Z := win_or WindowsError c.

(** [_raise_windows_error] *)
Definition windows_error (path : string) (error : Z) : exn :=
  if (error =? 2) || (error =? 3) then FileNotFoundError path
  else if error =? 5 then PermissionError path
  else if (error =? 80) || (error =? 183) then FileExistsError path
  else OSError error.

(** [_close_handle_windows] *)
Definition close_handle (h : Z) : Eff WinTrace unit := _ ← win_or OSError (CloseHandle h); mret tt.
End Calls.

(** ** Who owns which handle *)
Inductive resource := Handle (h : Z) | Descriptor (fd : Z).

#[export] Instance resource_eq : EqDecision resource.
Proof. solve_decision. Defined.

(** What an event takes over (1) or gives back (-1).  A handle that
    [open_osfhandle] turned into a descriptor belongs to the descriptor. *)
Definition one_if (P : Prop) `{Decision P} : Z := if decide P then 1 else 0.

Definition delta (r : resource) (ev : win_event) : Z :=
  match ev with
  | (CreateJobObjectW, Value h) | (CreateToolhelp32Snapshot _, Value h) | (OpenThread _ _, Value h)
  | (CreateFileW _ _ _ _, Value h) | (NtCreateFile _ _ _ _ _, Value h) => one_if (r = Handle h)
  | (OpenOsfHandle h _, Value fd) => one_if (r = Descriptor fd) - one_if (r = Handle h)
  | (CloseHandle h, _) => - one_if (r = Handle h)
  | (CloseDescriptor fd, _) => - one_if (r = Descriptor fd)
  | _ => 0
  end.

Fixpoint net (r : resource) (t : WinTrace) : Z :=
  match t with [] => 0 | ev :: t' => delta r ev + net r t' end.

Fixpoint count (r : resource) (l : list resource) : Z :=
  match l with [] => 0 | x :: l' => one_if (r = x) + count r l' end.

Lemma net_app r a b : net r (a ++ b) = net r a + net r b.
Proof. induction a as [|e a IH]; cbn [app net]; lia. Qed.
Lemma count_app r a b : count r (a ++ b) = count r a + count r b.
Proof. induction a as [|e a IH]; cbn [app count]; lia. Qed.

(** The calls that must not fail for an owner to be able to keep its promise:
    closing, and asking whether a fresh handle is a reparse point. *)
Definition keeps_promise (ev : win_event) : bool :=
  match ev with
  | (CloseHandle _, Failed _) | (CloseDescriptor _, Failed _) | (GetFileInformationByHandleEx _, Failed _) => false
  | _ => true
  end.

(** [m] starts as the owner of [l]; it ends as the owner of [ok a] when it
    returns [a], and of [er e] when it raises [e]. *)
Definition accounts {A} (l : list resource) (m : Eff WinTrace A) (ok : A -> list resource) (er : exn -> list resource) : Prop :=
  forall t t' r, m t = (t', r) ->
    exists s, t' = t ++ s
      /\ (forallb keeps_promise s = true ->
          forall x, net x s = count x (match r with Ok a => ok a | Err e => er e end) - count x l).

(** Nothing is owned. *)
Definition none {A} (_ : A) : list resource := [].

Section Accounts.
Context (env : WinEnv).

Lemma accounts_result {A} l (x : res A) ok er :
  match x with Ok a => ok a = l | Err e => er e = l end -> accounts l (fun t => (t, x)) ok er.
Proof. intros H t t' r [= <- <-]. exists []. split; [now rewrite app_nil_r|]. intros _ y. destruct x; rewrite H; cbn; lia. Qed.

Lemma accounts_ret {A} l (a : A) ok er : ok a = l -> accounts l (mret a) ok er.
Proof. apply (accounts_result l (Ok a)). Qed.

Lemma accounts_raise {A} l e ok er : er e = l -> accounts (A := A) l (eff_raise e) ok er.
Proof. apply (accounts_result l (Err e)). Qed.

Lemma accounts_lift {A} l (x : res A) : accounts l (eff_lift x) (fun _ => l) (fun _ => l).
Proof. apply accounts_result. now destruct x. Qed.

Lemma accounts_raise_if l b e : accounts l (eff_raise_if b e) (fun _ => l) (fun _ => l).
Proof. apply accounts_lift. Qed.

(** Two pieces one after the other. *)
Lemma accounts_seq {B} l (s1 : WinTrace) (ow : list resource) t t' (k : Eff WinTrace B) (r : res B) (ok : B -> list resource) er :
  (forallb keeps_promise s1 = true -> forall x, net x s1 = count x ow - count x l) ->
  accounts ow k ok er -> k (t ++ s1) = (t', r) ->
  exists s, t' = t ++ s /\ (forallb keeps_promise s = true ->
    forall x, net x s = count x (match r with Ok a => ok a | Err e => er e end) - count x l).
Proof.
  intros H1 Hk E. destruct (Hk _ _ _ E) as (s2 & -> & H2). exists (s1 ++ s2). split; [now rewrite app_assoc|].
  rewrite forallb_app. intros Hf x. apply andb_true_iff in Hf as [F1 F2]. rewrite net_app, (H1 F1 x), (H2 F2 x). lia.
Qed.

Lemma accounts_bind {A B} l (m : Eff WinTrace A) (k : A -> Eff WinTrace B) ok1 ok2 er :
  accounts l m ok1 er -> (forall a, accounts (ok1 a) (k a) ok2 er) -> accounts l (m ≫= k) ok2 er.
Proof.
  intros Hm Hk t t' r E. apply bind_inv in E as [(e & E & ->)|(t1 & a & E1 & E2)].
  - destruct (Hm _ _ _ E) as (s & -> & Hs). exists s. split; [reflexivity|exact Hs].
  - destruct (Hm _ _ _ E1) as (s1 & -> & H1). eapply (accounts_seq l s1 (ok1 a)); eauto.
Qed.

Lemma accounts_try {A} l (m : Eff WinTrace A) h ok er1 er :
  accounts l m ok er1 -> (forall e, match h e with Some k => accounts (er1 e) k ok er | None => er1 e = er e end) ->
  accounts l (eff_try m h) ok er.
Proof.
  intros Hm Hh t t' r E. unfold eff_try in E. destruct (m t) as [t1 [a|e]] eqn:E1.
  - injection E as <- <-. exact (Hm _ _ _ E1).
  - destruct (Hm _ _ _ E1) as (s1 & -> & H1). specialize (Hh e). destruct (h e) as [k|].
    + eapply (accounts_seq l s1 (er1 e)); eauto.
    + injection E as <- <-. exists s1. split; [reflexivity|]. now rewrite <- Hh.
Qed.

Lemma accounts_finally {A} l (m : Eff WinTrace A) f ok keep er1 er :
  accounts l m ok er1 -> (forall a, accounts (ok a) f (fun _ => keep a) er) ->
  (forall e, accounts (er1 e) f (fun _ => er e) er) -> accounts l (eff_finally m f) keep er.
Proof.
  intros Hm Hf He t t' r E. unfold eff_finally in E. destruct (m t) as [t1 x] eqn:E1.
  destruct (Hm _ _ _ E1) as (s1 & -> & H1). destruct (f (t ++ s1)) as [t2 y] eqn:E2. destruct x as [a|e].
  - destruct (accounts_seq l s1 (ok a) t t2 f y _ er H1 (Hf a) E2) as (s & -> & Hs).
    exists s. destruct y; injection E as <- <-; auto.
  - destruct (accounts_seq l s1 (er1 e) t t2 f y _ er H1 (He e) E2) as (s & -> & Hs).
    exists s. destruct y; injection E as <- <-; auto.
Qed.

(** Other handles are not touched. *)
Lemma accounts_frame {A} k l (m : Eff WinTrace A) ok er :
  accounts l m ok er -> accounts (l ++ k) m (fun a => ok a ++ k) (fun e => er e ++ k).
Proof.
  intros Hm t t' r E. destruct (Hm _ _ _ E) as (s & -> & H). exists s. split; [reflexivity|]. intros F x.
  rewrite (H F x). destruct r; rewrite !count_app; lia.
Qed.

Lemma accounts_conseq {A} l l' (m : Eff WinTrace A) (ok ok' : A -> list resource) (er er' : exn -> list resource) :
  accounts l m ok er -> (forall x, count x l = count x l') -> (forall a x, count x (ok a) = count x (ok' a)) ->
  (forall e x, count x (er e) = count x (er' e)) -> accounts l' m ok' er'.
Proof.
  intros Hm Hl Hok Her t t' r E. destruct (Hm _ _ _ E) as (s & -> & H). exists s. split; [reflexivity|]. intros F x.
  rewrite (H F x), Hl. destruct r; [rewrite Hok|rewrite Her]; reflexivity.
Qed.

(** A call does what [delta] says. *)
Lemma accounts_win_or mk l c ok er :
  (forall v x, delta x (c, Value v) = count x (ok v) - count x l) ->
  (forall e x, keeps_promise (c, Failed e) = true -> delta x (c, Failed e) = count x (er (mk e)) - count x l) ->
  accounts l (win_or env mk c) ok er.
Proof.
  intros Hv Hf t t' r E. unfold win_or, win, mbind, eff_bind in E. exists [(c, we_answer env t c)].
  destruct (we_answer env t c) as [v|e]; injection E as <- <-; (split; [reflexivity|]); cbn [forallb net];
    rewrite andb_true_r; intros Hk x; [rewrite Hv|rewrite (Hf e x Hk)]; lia.
Qed.

Lemma accounts_close h k er : accounts (Handle h :: k) (close_handle env h) (fun _ => k) er.
Proof.
  unfold close_handle. eapply accounts_bind; [eapply (accounts_win_or _ _ _ (fun _ => k))|intros v; now apply accounts_ret].
  - intros v x. cbn. lia.
  - discriminate.
Qed.

(** [for handle in reversed(handles): close(handle)] *)
Lemma accounts_close_all hs k er : accounts (map Handle hs ++ k) (eff_iter (close_handle env) hs) (fun _ => k) er.
Proof.
  induction hs as [|h hs IH]; cbn [eff_iter map app]; [now apply accounts_result|].
  intros t t' r E. destruct (close_handle env h t) as [t1 [u|e]] eqn:E1.
  - destruct (accounts_close h (map Handle hs ++ k) er _ _ _ E1) as (s1 & -> & H1).
    eapply (accounts_seq _ s1 (map Handle hs ++ k)); eauto.
  - destruct (accounts_close h k er _ _ _ E1) as (s1 & -> & H1). injection E as <- <-. exists s1. split; [reflexivity|].
    intros F. exfalso. unfold close_handle, win_or, win, mbind, eff_bind in E1.
    destruct (we_answer env t (CloseHandle h)) as [v|e'] eqn:Ea; [discriminate|]. injection E1 as E1 _.
    apply app_inv_head in E1. subst s1. discriminate.
Qed.
End Accounts.

(** A call that neither takes over nor gives back. *)
Definition neutral (c : win_call) : bool :=
  match c with
  | CreateJobObjectW | CreateToolhelp32Snapshot _ | OpenThread _ _ | CreateFileW _ _ _ _ | NtCreateFile _ _ _ _ _
  | OpenOsfHandle _ _ | CloseHandle _ | CloseDescriptor _ => false
  | _ => true
  end.

Lemma accounts_neutral env mk l c : neutral c = true -> accounts l (win_or env mk c) (fun _ => l) (fun _ => l).
Proof. intros Hc. apply accounts_win_or; intros v x; destruct c; try discriminate; cbn; lia. Qed.
