(* ===== verification/RunArgv.v ===== *)
(** * Running a command to its end ([run_argv] of src/notebook_launcher/orchestration.py)

    [run_argv] with [_stop_process], and on Windows the job object that the
    process belongs to.  The process, the clock, the callback that asks for
    cancellation and the reader threads answer from the calls made so far; the
    kernel calls for Windows are those of Win32.  Times are microseconds. *)
From S2P Require Export Win32 Command.

Inductive proc_call :=
| Popen (argv : list string) (cwd : option string) (env : option (gmap string string))
| Poll
| Wait
| Kill
| KillPg (signal : Z)
| Taskkill
| Monotonic
| CancelRequested
| Sleep (duration : Z)
| StartReader (stderr : bool)
| JoinReader (stderr : bool).

Definition ProcTrace : Type := list proc_call.

Record ProcEnv := mkProcEnv {
  pe_unit : ProcTrace -> proc_call -> res unit;
  pe_poll : ProcTrace -> option Z;
  pe_clock : ProcTrace -> Z;
  pe_cancel : ProcTrace -> res bool;
  pe_taskkill : ProcTrace -> res Z;
  pe_output : bool -> list string;
  pe_pid : Z;
  pe_handle : Z;
  (** the order in which Python goes through a set of texts *)
  pe_set : list string -> list string;
  pe_win : WinEnv }.

(** The calls, and the handle of the job ([None] when there is none). *)
Record ProcWorld := mkProcWorld { pw_trace : ProcTrace; pw_win : WinTrace; pw_job : option Z }.

Record RunArgs := mkRunArgs {
  ra_argv : list string;
  ra_cwd : option string;
  ra_env : option (gmap string string);
  ra_timeout : option Z;
  ra_cancellable : bool;
  ra_grace : Z;
  ra_max_output : Z;
  ra_redact : list string }.

(** ** Windows jobs ([_WindowsJob] and [_resume_windows_process]) *)
Section Jobs.
Context (env : WinEnv).

(** A call whose failure is not looked at. *)
Definition win_ignored (c : win_call) : Eff WinTrace unit := _ ← win env c; mret tt.

Definition job_create : Eff WinTrace Z :=
  h ← win_error env CreateJobObjectW;
  eff_try (_ ← win_error env (SetInformationJobObject h 0x2000); mret h)
    (fun e => Some (_ ← win_ignored (CloseHandle h); eff_raise e)).

Definition job_assign (h process : Z) : Eff WinTrace unit := _ ← win_error env (AssignProcessToJobObject h process); mret tt.
Definition job_terminate (h : Z) : Eff WinTrace unit := _ ← win_error env (TerminateJobObject h 1); mret tt.
Definition job_close (h : Z) : Eff WinTrace unit := _ ← win_error env (CloseHandle h); mret tt.

(** [bool(thread_first(...))] and the entry that it fills in *)
Definition next_thread (c : win_call) : Eff WinTrace (option (Z * Z)) := fun t =>
  match win env c t with
  | (t', Ok (Value _)) => (t', Ok (Some (we_thread env t')))
  | (t', _) => (t', Ok None)
  end.

Definition resume_thread (thread_id : Z) : Eff WinTrace unit :=
  h ← win_error env (OpenThread 0x2 thread_id);
  eff_finally (_ ← win_error env (ResumeThread h); mret tt) (win_ignored (CloseHandle h)).

Fixpoint resume_threads (fuel : nat) (snapshot pid resumed : Z) (found : option (Z * Z)) : Eff WinTrace Z :=
  match found with
  | None => mret resumed
  | Some (owner, thread_id) =>
      match fuel with
      | O => eff_raise Diverges
      | S fuel' =>
          resumed' ← (if owner =? pid then _ ← resume_thread thread_id; mret (resumed + 1) else mret resumed);
          next ← next_thread (Thread32Next snapshot);
          resume_threads fuel' snapshot pid resumed' next
      end
  end.

Definition resume_process (fuel : nat) (pid : Z) : Eff WinTrace unit :=
  snapshot ← win_error env (CreateToolhelp32Snapshot 0x4);
  resumed ← eff_finally (first ← next_thread (Thread32First snapshot); resume_threads fuel snapshot pid 0 first)
              (win_ignored (CloseHandle snapshot));
  eff_raise_if (resumed =? 0) ProcessLookupError.
End Jobs.

(** ** The arguments *)
(** [sorted(..., key=len, reverse=True)] *)
Fixpoint insert_by_len (s : string) (l : list string) : list string :=
  match l with
  | [] => [s]
  | x :: l' => if Nat.ltb (str_len x) (str_len s) then s :: l else x :: insert_by_len s l'
  end.
Definition sort_by_len (l : list string) : list string := fold_left (fun acc s => insert_by_len s acc) l [].

Definition redactions_of (set_order : list string -> list string) (values : list string) : list string :=
  sort_by_len (set_order (List.filter (fun v => negb (String.eqb v "")) values)).

Definition longest (l : list string) : nat := fold_right (fun s n => Nat.max (String.length s) n) 0%nat l.

Section RunArgv.
(** [os.name == "nt"], and how often the loops may turn. *)
Context (env : ProcEnv) (nt : bool) (polls probes threads : nat).

Definition proc {A} (c : proc_call) (answer : ProcTrace -> res A) : Eff ProcWorld A := fun w =>
  (mkProcWorld (pw_trace w ++ [c]) (pw_win w) (pw_job w), answer (pw_trace w)).
Definition act (c : proc_call) : Eff ProcWorld unit := proc c (fun t => pe_unit env t c).
Definition poll : Eff ProcWorld (option Z) := proc Poll (fun t => Ok (pe_poll env t)).
Definition monotonic : Eff ProcWorld Z := proc Monotonic (fun t => Ok (pe_clock env t)).

Definition on_win {A} (m : Eff WinTrace A) : Eff ProcWorld A := fun w =>
  let '(t, r) := m (pw_win w) in (mkProcWorld (pw_trace w) t (pw_job w), r).
Definition set_job (job : option Z) : Eff ProcWorld unit := fun w => (mkProcWorld (pw_trace w) (pw_win w) job, Ok tt).
Definition get_job : Eff ProcWorld (option Z) := fun w => (w, Ok (pw_job w)).

(** [windows_job.close()], which forgets the handle first *)
Definition close_job : Eff ProcWorld unit :=
  job ← get_job;
  match job with
  | Some h => _ ← set_job None; on_win (job_close (pe_win env) h)
  | None => mret tt
  end.

(** ** [_stop_process] *)
Definition SIGTERM : Z := 15.
Definition SIGKILL : Z := 9.
Definition lookup_error {A} (k : Eff ProcWorld A) (e : exn) : option (Eff ProcWorld A) :=
  match e with ProcessLookupError => Some k | _ => None end.

(** The loop of probes with its [else]: [SIGKILL] when the time is over. *)
Fixpoint probe_group (fuel : nat) (deadline : Z) : Eff ProcWorld unit :=
  match fuel with
  | O => eff_raise Diverges
  | S fuel' =>
      now ← monotonic;
      if now <? deadline then
        gone ← eff_try (_ ← act (KillPg 0); mret false) (lookup_error (mret true));
        if gone : bool then mret tt
        else _ ← act (Sleep 10000); probe_group fuel' deadline
      else eff_try (act (KillPg SIGKILL)) (lookup_error (mret tt))
  end.

Definition stop_posix (grace : Z) : Eff ProcWorld unit :=
  there ← eff_try (_ ← act (KillPg SIGTERM); mret true) (lookup_error (mret false));
  if there : bool then
    now ← monotonic;
    _ ← probe_group probes (now + grace);
    act Wait
  else mret tt.

Definition stop_windows : Eff ProcWorld unit :=
  job ← get_job;
  done ← match job with
         | Some h => eff_try (_ ← on_win (job_terminate (pe_win env) h); _ ← act Wait; mret true)
                       (fun e => if is_OSError e then Some (mret false) else None)
         | None => eff_try (_ ← act Wait; mret true) (fun e => if is_OSError e then Some (mret false) else None)
         end;
  if done : bool then mret tt
  else
    returncode ← proc Taskkill (fun t => pe_taskkill env t);
    running ← (if returncode =? 0 then mret None else (p ← poll; mret (Some p)));
    _ ← (match running with Some None => act Kill | _ => mret tt end);
    act Wait.

Definition stop_process (grace : Z) : Eff ProcWorld unit := if nt then stop_windows else stop_posix grace.

(** ** [run_argv] *)
Inductive outcome := Exited (code : Z) | Failure (e : LauncherError).

Fixpoint watch (fuel : nat) (a : RunArgs) (deadline : option Z) : Eff ProcWorld outcome :=
  match fuel with
  | O => eff_raise Diverges
  | S fuel' =>
      status ← poll;
      match status with
      | Some code => mret (Exited code)
      | None =>
          cancelled ← (if ra_cancellable a then proc CancelRequested (fun t => pe_cancel env t) else mret false);
          if cancelled : bool then _ ← stop_process (ra_grace a); mret (Failure ExecutionCancelled)
          else
            late ← match deadline with Some d => now ← monotonic; mret (d <=? now) | None => mret false end;
            if late : bool then _ ← stop_process (ra_grace a); mret (Failure ExecutionTimeout)
            else _ ← act (Sleep 20000); watch fuel' a deadline
      end
  end.

Definition start (a : RunArgs) (argv : list string) : Eff ProcWorld unit :=
  _ ← (if nt then h ← on_win (job_create (pe_win env)); set_job (Some h) else mret tt);
  _ ← eff_try (act (Popen argv (ra_cwd a) (ra_env a))) (fun e => if is_Exception e then Some (_ ← (if nt then close_job else mret tt); eff_raise e) else None);
  if nt then
    eff_try (job ← get_job;
             _ ← match job with Some h => on_win (job_assign (pe_win env) h (pe_handle env)) | None => eff_raise (RuntimeError "Windows job is already closed") end;
             on_win (resume_process (pe_win env) threads (pe_pid env)))
      (fun e => if is_Exception e then Some (_ ← act Kill; _ ← act Wait; _ ← close_job; eff_raise e) else None)
  else mret tt.

Definition finish : Eff ProcWorld unit :=
  _ ← (if nt then close_job else mret tt);
  _ ← act (JoinReader false);
  act (JoinReader true).

Definition capture (limit : nat) (stderr : bool) : BoundedCapture := capture_read (new_capture limit) (pe_output env stderr).

(** What is made of the output once the process is over. *)
Definition report (redact_values : list string) (max_output : Z) (normalized : list string) (begun : Z) (ended : outcome)
  : Eff ProcWorld CommandResult :=
  let redactions := redactions_of (pe_set env) redact_values in
  let limit := Z.to_nat max_output in
  let capture_limit := (limit + longest redactions)%nat in
  match ended with
  | Failure e => eff_raise (LauncherExn e)
  | Exited code =>
      let out := bounded_text (capture capture_limit false) limit redactions in
      let err := bounded_text (capture capture_limit true) limit redactions in
      now ← monotonic;
      mret (mkCommandResult (map (fun arg => redact arg redactions) normalized) code (fst out) (fst err)
              (Z.of_nat (cap_total (capture capture_limit false))) (Z.of_nat (cap_total (capture capture_limit true)))
              (snd out || snd err) (Z.quot (now - begun) 1000))
  end.

(** From the readers to the end of the process; the loop with its clauses
    [except Exception] and [finally]. *)
Definition attend (a : RunArgs) (deadline : option Z) : Eff ProcWorld outcome :=
  _ ← act (StartReader false);
  _ ← act (StartReader true);
  eff_finally
    (eff_try (watch polls a deadline)
       (fun e => if is_Exception e then Some (_ ← stop_process (ra_grace a); eff_raise e) else None))
    finish.

Definition run_argv (a : RunArgs) : Eff ProcWorld CommandResult :=
  normalized ← eff_lift (check_argv (ra_argv a) (ra_timeout a) (ra_grace a) (ra_max_output a));
  begun ← monotonic;
  _ ← start a normalized;
  ended ← attend a (match ra_timeout a with Some t => Some (begun + t) | None => None end);
  report (ra_redact a) (ra_max_output a) normalized begun ended.
End RunArgv.

(** ** No process is left behind *)
Section Settled.
Context (env : ProcEnv) (nt : bool) (polls probes threads : nat).

(** A call that shows that the process is over: it was seen to have ended, it
    was waited for, or its group does not exist. *)
Definition over_at (t : ProcTrace) (c : proc_call) : Prop :=
  match c with
  | Poll => is_some (pe_poll env t) = true
  | Wait => pe_unit env t Wait = Ok tt
  | KillPg signal => pe_unit env t (KillPg signal) = Err ProcessLookupError
  | _ => False
  end.

(** A call by which the process is stopped, and which fails. *)
Definition helpless_at (t : ProcTrace) (c : proc_call) : Prop :=
  match c with
  | KillPg signal => exists e, pe_unit env t (KillPg signal) = Err e /\ e <> ProcessLookupError
  | Wait | Kill | Sleep _ => exists e, pe_unit env t c = Err e
  | Taskkill => exists e, pe_taskkill env t = Err e
  | _ => False
  end.

Definition extends (w w' : ProcWorld) : Prop := exists s, pw_trace w' = pw_trace w ++ s.

#[local] Instance extends_preorder : PreOrder extends.
Proof.
  split.
  - intros w. exists []. now rewrite app_nil_r.
  - intros a b c (s1 & E1) (s2 & E2). exists (s1 ++ s2). now rewrite E2, E1, app_assoc.
Qed.

Definition settled (w w' : ProcWorld) : Prop :=
  exists a c b, pw_trace w' = pw_trace w ++ a ++ c :: b
    /\ (over_at (pw_trace w ++ a) c \/ helpless_at (pw_trace w ++ a) c).

Lemma settled_before w w1 w' : extends w w1 -> settled w1 w' -> settled w w'.
Proof.
  intros (s & E) (a & c & b & E' & H). exists (s ++ a), c, b. rewrite E', E in *. rewrite <- !app_assoc in *. auto.
Qed.
Lemma settled_after w w1 w' : settled w w1 -> extends w1 w' -> settled w w'.
Proof. intros (a & c & b & E & H) (s & E'). exists a, c, (b ++ s). rewrite E', E, <- !app_assoc. auto. Qed.

Abbreviation growing := (holds (fun _ : ProcWorld => True) extends).

Lemma growing_proc {A} c (answer : ProcTrace -> res A) : growing (proc c answer).
Proof. intros w w' r _ _ [= <- _]. split_and!; [exact Logic.I|now exists [c]|auto]. Qed.
Lemma growing_win {A} (m : Eff WinTrace A) : growing (on_win m).
Proof.
  intros w w' r _ _ E. unfold on_win in E. destruct (m (pw_win w)) as [t x]. injection E as <- <-.
  split_and!; [exact Logic.I|exists []; now rewrite app_nil_r|auto].
Qed.
Lemma growing_job j : growing (set_job j).
Proof. intros w w' r _ _ [= <- _]. split_and!; [exact Logic.I|exists []; now rewrite app_nil_r|auto]. Qed.
Lemma growing_get : growing get_job.
Proof. intros w w' r _ _ [= <- _]. split_and!; [exact Logic.I|reflexivity|auto]. Qed.
#[local] Hint Resolve growing_proc growing_win growing_job growing_get : triples.

Lemma growing_act c : growing (act env c).
Proof. apply growing_proc. Qed.
#[local] Hint Resolve growing_act : triples.

Lemma growing_close : growing (close_job env).
Proof. unfold close_job. solve_triple. Qed.
#[local] Hint Resolve growing_close : triples.
Lemma growing_probe fuel d : growing (probe_group env fuel d).
Proof.
  induction fuel as [|fuel IH]; cbn [probe_group]; [solve_triple|]. unfold monotonic, lookup_error. solve_triple.
Qed.
#[local] Hint Resolve growing_probe : triples.
Lemma growing_stop g : growing (stop_process env nt probes g).
Proof. unfold stop_process, stop_windows, stop_posix, monotonic, poll, lookup_error. solve_triple. Qed.
#[local] Hint Resolve growing_stop : triples.
Lemma growing_watch fuel a d : growing (watch env nt probes fuel a d).
Proof. revert d. induction fuel as [|fuel IH]; intros d; cbn [watch]; [solve_triple|]. unfold poll, monotonic. solve_triple. Qed.
#[local] Hint Resolve growing_watch : triples.
Lemma growing_finish : growing (finish env nt).
Proof. unfold finish. solve_triple. Qed.

Lemma grown {A} (m : Eff ProcWorld A) w w' r : growing m -> m w = (w', r) -> extends w w'.
Proof. intros Hm E. now destruct (Hm _ _ _ Logic.I Logic.I E) as (_ & H & _). Qed.

(** A control call that ends the matter. *)
Lemma act_settles c w w' r : act env c w = (w', r) -> match c with Wait | Kill | Sleep _ => True | _ => False end ->
  (exists e, r = Err e) \/ c = Wait -> settled w w'.
Proof.
  intros [= <- <-] Hc H. exists [], c, []. cbn. rewrite app_nil_r. split; [reflexivity|].
  destruct H as [[e H]| ->]; [right; destruct c; cbn; try contradiction; eauto|].
  destruct (pe_unit env (pw_trace w) Wait) as [[]|e] eqn:E; [left; exact E|right; cbn; eauto].
Qed.

(** The group is gone, or it cannot be told. *)
Lemma killpg_settles signal w w' e : act env (KillPg signal) w = (w', Err e) -> settled w w'.
Proof.
  intros [= <- E]. exists [], (KillPg signal), []. cbn. rewrite app_nil_r. split; [reflexivity|].
  destruct e; try (right; eexists; split; [exact E|discriminate]). left. exact E.
Qed.

(** [m] settles the matter when it raises, and when it returns an [a] with
    [Q a]; that a loop runs out of fuel is no matter here. *)
Definition tells {A} (Q : A -> bool) (m : Eff ProcWorld A) : Prop := forall w w' r, m w = (w', r) ->
  extends w w' /\ match r with Ok a => Q a = true -> settled w w' | Err e => e <> Diverges -> settled w w' end.

Definition always {A} (_ : A) : bool := true.
Definition never {A} (_ : A) : bool := false.

Lemma tells_bind {A B} Q Q' (m : Eff ProcWorld A) (k : A -> Eff ProcWorld B) :
  tells Q m -> (forall a, growing (k a)) -> (forall a, Q a = false -> tells Q' (k a)) -> tells Q' (m ≫= k).
Proof.
  intros Hm Hg Hk w w' r E. apply bind_inv in E as [(e & E & ->)|(w1 & a & E1 & E)]; [exact (Hm _ _ _ E)|].
  destruct (Hm _ _ _ E1) as [G1 S1]. pose proof (grown _ _ _ _ (Hg a) E) as G2. split; [etrans; eassumption|].
  destruct (Q a) eqn:Ea.
  - assert (settled w w') by (eapply settled_after; eauto). now destruct r.
  - destruct (Hk a Ea _ _ _ E) as [_ S2]. destruct r; intros H; (eapply settled_before; [exact G1|auto]).
Qed.

Lemma tells_ret {A} (Q : A -> bool) a : Q a = false -> tells Q (mret a).
Proof. intros Ha w w' r [= <- <-]. split; [reflexivity|congruence]. Qed.
Lemma tells_diverges {A} (Q : A -> bool) : tells Q (eff_raise Diverges).
Proof. intros w w' r [= <- <-]. split; [reflexivity|easy]. Qed.
Lemma tells_weaken {A} (Q Q' : A -> bool) (m : Eff ProcWorld A) : tells Q m -> (forall a, Q' a = true -> Q a = true) -> tells Q' m.
Proof. intros Hm HQ w w' r E. destruct (Hm _ _ _ E) as [G H]. split; [exact G|]. destruct r; auto. Qed.

Lemma tells_clock : tells never (monotonic env).
Proof. intros w w' r [= <- <-]. split; [now exists [Monotonic]|discriminate]. Qed.
Lemma tells_sleep d : tells never (act env (Sleep d)).
Proof.
  intros w w' r E. split; [exact (grown _ _ _ _ (growing_act _) E)|]. destruct r as [u|e]; [discriminate|].
  intros _. eapply act_settles; [exact E|exact Logic.I|eauto].
Qed.
Lemma tells_kill : tells never (act env Kill).
Proof.
  intros w w' r E. split; [exact (grown _ _ _ _ (growing_act _) E)|]. destruct r as [u|e]; [discriminate|].
  intros _. eapply act_settles; [exact E|exact Logic.I|eauto].
Qed.
Lemma tells_wait : tells always (act env Wait).
Proof.
  intros w w' r E. split; [exact (grown _ _ _ _ (growing_act _) E)|].
  assert (settled w w') by (eapply act_settles; [exact E|exact Logic.I|now right]). now destruct r.
Qed.

(** A signal to a group that may be gone. *)
Lemma tells_signal {A} signal (sent gone : A) (Q : A -> bool) : Q sent = false ->
  tells Q (eff_try (_ ← act env (KillPg signal); mret sent) (lookup_error (mret gone))).
Proof.
  intros Hsent w w' r E. unfold eff_try in E. destruct ((_ ← act env (KillPg signal); mret sent) w) as [w1 [a|e]] eqn:E1.
  - injection E as <- <-. apply eff_bind_ok in E1 as (w2 & u & E2 & [= <- <-]). split; [exact (grown _ _ _ _ (growing_act _) E2)|congruence].
  - apply bind_inv in E1 as [(e' & E1 & [= <-])|(w2 & u & _ & [=])]. pose proof (killpg_settles _ _ _ _ E1) as Hs.
    pose proof (grown _ _ _ _ (growing_act _) E1) as G. destruct e; injection E as <- <-; auto.
Qed.

Lemma tells_probe fuel d : tells never (probe_group env fuel d).
Proof.
  induction fuel as [|fuel IH]; cbn [probe_group]; [apply tells_diverges|].
  eapply (tells_bind never); [apply tells_clock|intros now; unfold lookup_error; solve_triple|intros now _].
  destruct (now <? d).
  - eapply (tells_bind (fun b => b)); [now apply tells_signal|intros b; solve_triple|intros b ->].
    eapply (tells_bind never); [apply tells_sleep|intros u; apply growing_probe|intros u _; exact IH].
  - intros w w' r E. unfold eff_try in E. destruct (act env (KillPg SIGKILL) w) as [w1 [u|e]] eqn:E1;
      pose proof (grown _ _ _ _ (growing_act _) E1) as G; [injection E as <- <-; split; [exact G|discriminate]|].
    pose proof (killpg_settles _ _ _ _ E1). destruct e; injection E as <- <-; auto.
Qed.

Lemma tells_stop_posix g : tells always (stop_posix env probes g).
Proof.
  unfold stop_posix. eapply (tells_bind negb); [now apply tells_signal|intros b; unfold monotonic; solve_triple|].
  intros [] Hb; [|discriminate]. eapply (tells_bind never); [apply tells_clock|intros now; solve_triple|intros now _].
  eapply (tells_bind never); [apply tells_probe|intros u; solve_triple|intros u _; apply tells_wait].
Qed.

(** Waiting, when a failing system call is passed over. *)
Lemma tells_wait_try (m : Eff ProcWorld unit) : growing m -> (forall w w' e, m w = (w', Err e) -> is_OSError e = true) ->
  tells (fun b : bool => b) (eff_try (_ ← m; _ ← act env Wait; mret true) (fun e => if is_OSError e then Some (mret false) else None)).
Proof.
  intros Hg Hm w w' r E. unfold eff_try in E. destruct ((_ ← m; _ ← act env Wait; mret true) w) as [w1 x] eqn:E1.
  apply bind_inv in E1 as [(e & E1 & ->)|(w2 & u & E1 & E2)].
  - pose proof (grown _ _ _ _ Hg E1). rewrite (Hm _ _ _ E1) in E. injection E as <- <-. split; [assumption|discriminate].
  - pose proof (grown _ _ _ _ Hg E1) as G1. assert (tells always (_ ← act env Wait; mret true)) as Hw
      by (eapply (tells_bind always); [apply tells_wait|intros v; solve_triple|discriminate]).
    destruct (Hw _ _ _ E2) as [G2 S2]. destruct x as [b|e].
    + injection E as <- <-. split; [etrans; eassumption|]. intros _. eapply settled_before; [exact G1|auto].
    + destruct (is_OSError e) eqn:Eo; injection E as <- <-; (split; [etrans; eassumption|]); [discriminate|].
      intros He. eapply settled_before; [exact G1|auto].
Qed.

Lemma tells_stop_windows : tells always (stop_windows env).
Proof.
  unfold stop_windows. eapply (tells_bind never); [|intros j; unfold poll; solve_triple|intros job _].
  { intros w w' r [= <- <-]. split; [reflexivity|discriminate]. }
  eapply (tells_bind (fun b => b)); [|intros b; unfold poll; solve_triple|].
  { destruct job as [h|].
    - apply tells_wait_try; [apply growing_win|]. intros w w' e E. unfold on_win, job_terminate, win_error, win_or, win, mbind, eff_bind in E.
      destruct (we_answer _ _ _); [discriminate|]. now injection E as <- <-.
    - intros w w' r E. destruct (tells_wait_try (mret tt) (holds_ret _ _ tt) ltac:(discriminate) w w' r E) as [G H]. auto. }
  intros b ->. eapply (tells_bind never); [|intros c; unfold poll; solve_triple|intros code _].
  { intros w w' r E. split; [exact (grown _ _ _ _ (growing_proc _ _) E)|]. injection E as <- <-. destruct (pe_taskkill env _) as [z|e] eqn:Et; [discriminate|].
    intros _. exists [], Taskkill, []. cbn. rewrite app_nil_r. split; [reflexivity|right; eauto]. }
  eapply (tells_bind never); [|intros p; solve_triple|intros running _].
  { destruct (code =? 0); [now apply tells_ret|]. eapply (tells_bind never); [|intros p; solve_triple|intros p _; now apply tells_ret].
    intros w w' r [= <- <-]. split; [now exists [Poll]|discriminate]. }
  eapply (tells_bind never); [|intros u; solve_triple|intros u _; apply tells_wait].
  destruct running as [[z|]|]; [now apply tells_ret|apply tells_kill|now apply tells_ret].
Qed.

Lemma tells_stop g : tells always (stop_process env nt probes g).
Proof. unfold stop_process. destruct nt; [apply tells_stop_windows|apply tells_stop_posix]. Qed.

Lemma watch_ok fuel a d w w' o : watch env nt probes fuel a d w = (w', Ok o) -> settled w w'.
Proof.
  revert w. induction fuel as [|fuel IH]; intros w E; cbn [watch] in E; [discriminate|].
  apply eff_bind_ok in E as (w1 & status & E1 & E). pose proof (grown _ _ _ _ (growing_proc _ _) E1) as G1.
  destruct status as [code|].
  { injection E as <- <-. injection E1 as <- E1. exists [], Poll, []. cbn. rewrite app_nil_r. split; [reflexivity|left].
    unfold over_at. now rewrite E1. }
  eapply settled_before; [exact G1|]. apply eff_bind_ok in E as (w2 & c & E2 & E).
  assert (G2 : extends w1 w2).
  { eapply grown; [|exact E2]. destruct (ra_cancellable a); solve_triple. }
  eapply settled_before; [exact G2|].
  assert (Hstop : forall (x : outcome) v v', (_ ← stop_process env nt probes (ra_grace a); mret x) v = (v', Ok o) -> settled v v').
  { intros x v v' Es. apply eff_bind_ok in Es as (v1 & u & Es & [= <- _]). destruct (tells_stop (ra_grace a) _ _ _ Es) as [_ H]. now apply H. }
  destruct c; [exact (Hstop _ _ _ E)|]. apply eff_bind_ok in E as (w3 & late & E3 & E).
  assert (G3 : extends w2 w3).
  { eapply grown; [|exact E3]. destruct d; unfold monotonic; solve_triple. }
  eapply settled_before; [exact G3|]. destruct late; [exact (Hstop _ _ _ E)|].
  apply eff_bind_ok in E as (w4 & u & E4 & E). eapply settled_before; [exact (grown _ _ _ _ (growing_act _) E4)|now apply IH].
Qed.

(** The process was seen to have ended with this code. *)
Definition exited (w : ProcWorld) (code : Z) : Prop :=
  exists p s, pw_trace w = p ++ Poll :: s /\ pe_poll env p = Some code.

Lemma exited_later w w' code : exited w code -> extends w w' -> exited w' code.
Proof. intros (p & s & E & H) (s' & E'). exists p, (s ++ s'). rewrite E', E, <- app_assoc. auto. Qed.

Lemma watch_exited fuel a d w w' code : watch env nt probes fuel a d w = (w', Ok (Exited code)) -> exited w' code.
Proof.
  revert w. induction fuel as [|fuel IH]; intros w E; cbn [watch] in E; [discriminate|].
  apply eff_bind_ok in E as (w1 & status & E1 & E). destruct status as [z|].
  { injection E as <- <-. injection E1 as <- E1. now exists (pw_trace w), []. }
  apply eff_bind_ok in E as (w2 & c & E2 & E). destruct c; [now apply eff_bind_ok in E as (w3 & u & _ & [=])|].
  apply eff_bind_ok in E as (w3 & late & E3 & E). destruct late; [now apply eff_bind_ok in E as (w4 & u & _ & [=])|].
  apply eff_bind_ok in E as (w4 & u & _ & E). now apply IH in E.
Qed.

(** The loop, and the clause [except Exception] around it. *)
Definition guarded_watch (a : RunArgs) (d : option Z) : Eff ProcWorld outcome :=
  eff_try (watch env nt probes polls a d)
    (fun e => if is_Exception e then Some (_ ← stop_process env nt probes (ra_grace a); eff_raise e) else None).

Definition unmanaged {A} (r : res A) : Prop := exists e, r = Err e /\ is_Exception e = false.

Lemma guarded_watch_settles a d w w' r : guarded_watch a d w = (w', r) -> extends w w' /\ (settled w w' \/ unmanaged r).
Proof.
  intros E. unfold guarded_watch, eff_try in E. destruct (watch env nt probes polls a d w) as [w1 [o|e]] eqn:E1;
    pose proof (grown _ _ _ _ (growing_watch _ _ _) E1) as G1.
  - injection E as <- <-. split; [exact G1|left]. eapply watch_ok. exact E1.
  - destruct (is_Exception e) eqn:Ee; [|injection E as <- <-; split; [exact G1|right; exists e; auto]].
    apply bind_inv in E as [(e' & E & ->)|(w2 & u & E2 & [= <- <-])].
    + destruct (tells_stop _ _ _ _ E) as [G2 S2]. split; [etrans; eassumption|]. destruct (decide (is_Exception e' = false)) as [Hd|Hd].
      * right. exists e'. auto.
      * left. eapply settled_before; [exact G1|apply S2]. intros ->. now apply Hd.
    + destruct (tells_stop _ _ _ _ E2) as [G2 S2]. split; [etrans; eassumption|]. left. eapply settled_before; [exact G1|now apply S2].
Qed.

(** The process was started since then. *)
Definition started (w w' : ProcWorld) : Prop :=
  exists a argv cwd vars b, pw_trace w' = pw_trace w ++ a ++ Popen argv cwd vars :: b
    /\ pe_unit env (pw_trace w ++ a) (Popen argv cwd vars) = Ok tt.

Definition not_popen (c : proc_call) : Prop := match c with Popen _ _ _ => False | _ => True end.

Lemma not_started w w' s : pw_trace w' = pw_trace w ++ s -> Forall not_popen s -> ~ started w w'.
Proof.
  intros E F (a & argv & cwd & vars & b & E' & _). rewrite E in E'. apply app_inv_head in E'. subst s.
  apply Forall_app in F as [_ F]. now inversion F.
Qed.

Lemma on_win_trace {A} (m : Eff WinTrace A) w w' r : on_win m w = (w', r) -> pw_trace w' = pw_trace w.
Proof. unfold on_win. destruct (m (pw_win w)) as [t x]. now intros [= <- <-]. Qed.
Lemma close_job_trace w w' r : close_job env w = (w', r) -> pw_trace w' = pw_trace w.
Proof.
  unfold close_job, get_job, set_job, mbind, eff_bind. destruct (pw_job w) as [h|]; [|now intros [= <- _]].
  intros E. now apply on_win_trace in E.
Qed.

(** Starting: no process, or a process that the code goes on with or that is settled. *)
Lemma start_outcome a argv w w' r : start env nt threads a argv w = (w', r) ->
  extends w w' /\ match r with
                  | Ok _ => True
                  | Err e => (forall w0 s, pw_trace w = pw_trace w0 ++ s -> Forall not_popen s -> ~ started w0 w') \/ settled w w' \/ is_Exception e = false
                  end.
Proof.
  intros E. unfold start in E. apply bind_inv in E as [(e & E & ->)|(w1 & u & E1 & E)].
  - assert (Ht : pw_trace w' = pw_trace w).
    { destruct nt; [|discriminate]. apply bind_inv in E as [(e' & E & _)|(w2 & h & _ & E)]; [now apply on_win_trace in E|discriminate]. }
    split; [exists []; now rewrite app_nil_r|]. left. intros w0 s Es F. eapply not_started; [rewrite Ht; exact Es|exact F].
  - assert (Ht : pw_trace w1 = pw_trace w).
    { destruct nt; [|now injection E1 as <- _]. apply eff_bind_ok in E1 as (w2 & h & E1 & [= <- _]). now apply on_win_trace in E1. }
    set (c := Popen argv (ra_cwd a) (ra_env a)) in *. apply bind_inv in E as [(e & E & ->)|(w2 & v & E2 & E)].
    + unfold eff_try in E. destruct (act env c w1) as [w3 [x|e3]] eqn:E3; [discriminate|]. injection E3 as <- Ep.
      assert (Hw : pw_trace w' = pw_trace w ++ [c]).
      { destruct (is_Exception e3); [|injection E as <- _; cbn; now rewrite Ht].
        apply bind_inv in E as [(e' & E & _)|(w4 & y & E4 & [= <- _])].
        - destruct nt; [|discriminate]. apply close_job_trace in E. rewrite E. cbn. now rewrite Ht.
        - destruct nt; [|injection E4 as <- _; cbn; now rewrite Ht]. apply close_job_trace in E4. rewrite E4. cbn. now rewrite Ht. }
      split; [now exists [c]|left]. intros w0 s Es F (a0 & argv0 & cwd & vars & b & E' & Ho).
      rewrite Hw, Es, <- app_assoc in E'. apply app_inv_head in E'. destruct b as [|y b] using rev_ind.
      * apply app_inj_tail in E' as [<- Ec]. rewrite <- Ec, <- Es, <- Ht, Ep in Ho. discriminate.
      * rewrite app_comm_cons, app_assoc in E'. apply app_inj_tail in E' as [-> _]. apply Forall_app in F as [_ F]. now inversion F.
    + assert (G2 : extends w w2).
      { unfold eff_try in E2. destruct (act env c w1) as [w3 [x|e3]] eqn:E3.
        - injection E2 as <- _. injection E3 as <- _. exists [c]. cbn. now rewrite Ht.
        - destruct (is_Exception e3); [|discriminate]. apply bind_inv in E2 as [(e' & _ & [=])|(w4 & y & _ & [=])]. }
      destruct nt; [|injection E as <- <-; auto]. clear E1 E2. unfold eff_try in E.
      match type of E with context [match ?m w2 with _ => _ end] => destruct (m w2) as [w3 [x|e3]] eqn:E3 end.
      * assert (G3 : extends w2 w3) by (eapply grown; [|exact E3]; solve_triple). injection E as <- <-. split; [etrans; eassumption|exact Logic.I].
      * assert (G3 : extends w2 w3) by (eapply grown; [|exact E3]; solve_triple).
        destruct (is_Exception e3) eqn:Ee; [|injection E as <- <-; split; [etrans; eassumption|auto]].
        assert (Ht2 : tells always (_ ← act env Kill; _ ← act env Wait; _ ← close_job env; eff_raise (A := unit) e3)).
        { eapply (tells_bind never); [apply tells_kill|intros; solve_triple|intros u' _].
          eapply (tells_bind always); [apply tells_wait|intros; solve_triple|discriminate]. }
        destruct (Ht2 _ _ _ E) as [G4 S4]. split; [etrans; [exact G2|etrans; eassumption]|]. destruct r as [y|e]; [exact Logic.I|].
        right. destruct (is_Exception e) eqn:Ee'; [left|now right]. eapply settled_before; [etrans; eassumption|apply S4]. intros ->. discriminate.
Qed.

(** A reader thread could not be started. *)
Definition unread (w w' : ProcWorld) : Prop :=
  exists a which b e, pw_trace w' = pw_trace w ++ a ++ StartReader which :: b
    /\ pe_unit env (pw_trace w ++ a) (StartReader which) = Err e.

(** The loop that watches the process was left by an exception that is no
    [Exception], as [KeyboardInterrupt]. *)
Definition interrupted (a : RunArgs) (w w' : ProcWorld) : Prop :=
  exists d w1 w2 r, extends w w1 /\ guarded_watch a d w1 = (w2, r) /\ unmanaged r /\ extends w2 w'.

Lemma start_reader which w w' r : act env (StartReader which) w = (w', r) ->
  pw_trace w' = pw_trace w ++ [StartReader which] /\ r = pe_unit env (pw_trace w) (StartReader which).
Proof. now intros [= <- <-]. Qed.

Lemma attend_settles a d w w' r : attend env nt polls probes a d w = (w', r) ->
  extends w w' /\ (settled w w' \/ unread w w' \/ interrupted a w w').
Proof.
  intros E. unfold attend in E. apply bind_inv in E as [(e & E & ->)|(w1 & u & E1 & E)].
  { apply start_reader in E as [Et He]. split; [now exists [StartReader false]|]. right. left.
    exists [], false, [], e. cbn. rewrite app_nil_r. auto. }
  apply start_reader in E1 as [T1 _]. apply bind_inv in E as [(e & E & ->)|(w2 & v & E2 & E)].
  { apply start_reader in E as [Et He]. split; [exists [StartReader false; StartReader true]; now rewrite Et, T1, <- app_assoc|].
    right. left. exists [StartReader false], true, [], e. rewrite <- T1. split; [now rewrite Et, T1, <- app_assoc|auto]. }
  apply start_reader in E2 as [T2 _].
  assert (G2 : extends w w2) by (exists [StartReader false; StartReader true]; now rewrite T2, T1, <- app_assoc).
  fold (guarded_watch a d) in E. unfold eff_finally in E. destruct (guarded_watch a d w2) as [w3 x] eqn:E3. destruct (finish env nt w3) as [w4 y] eqn:E4.
  assert (w4 = w') as -> by (destruct y; now injection E). pose proof (grown _ _ _ _ growing_finish E4) as G4.
  destruct (guarded_watch_settles _ _ _ _ _ E3) as [G3 [Hs|Hu]].
  - split; [etrans; [exact G2|etrans; eassumption]|left]. eapply settled_before; [exact G2|]. eapply settled_after; eassumption.
  - split; [etrans; [exact G2|etrans; eassumption]|]. right. right. exists d, w2, w3, x. auto.
Qed.


Lemma attend_exited a d w w' code : attend env nt polls probes a d w = (w', Ok (Exited code)) -> exited w' code.
Proof.
  intros E. unfold attend in E. apply eff_bind_ok in E as (w1 & u & _ & E). apply eff_bind_ok in E as (w2 & v & _ & E).
  fold (guarded_watch a d) in E. unfold eff_finally in E. destruct (guarded_watch a d w2) as [w3 x] eqn:E3. destruct (finish env nt w3) as [w4 [y|]] eqn:E4; [|discriminate].
  injection E as <- ->. eapply exited_later; [|exact (grown _ _ _ _ growing_finish E4)]. unfold guarded_watch, eff_try in E3.
  destruct (watch env nt probes polls a d w2) as [w5 [o|e]] eqn:E5; [injection E3 as <- ->; exact (watch_exited _ _ _ _ _ _ E5)|].
  destruct (is_Exception e); [|discriminate]. now apply eff_bind_ok in E3 as (w6 & z & _ & [=]).
Qed.

Lemma report_trace redact_values max_output normalized begun ended w w' r :
  report env redact_values max_output normalized begun ended w = (w', r) ->
  extends w w' /\ match r with
                  | Ok res => ended = Exited (returncode res)
                      /\ (String.length (stdout res) <= Z.to_nat max_output)%nat /\ (String.length (stderr res) <= Z.to_nat max_output)%nat
                  | Err e => exists f, ended = Failure f /\ e = LauncherExn f
                  end.
Proof.
  unfold report. cbv zeta. destruct ended as [code|f]; intros E.
  - apply bind_inv in E as [(e & E & _)|(w1 & now & E1 & [= <- <-])]; [discriminate|].
    split; [exact (grown _ _ _ _ (growing_proc _ _) E1)|]. cbn. split_and!; [reflexivity|apply bounded_text_bound..].
  - injection E as <- <-. split; [reflexivity|eauto].
Qed.

(** C20: no process is left behind.  Whatever the process, the clock, the kernel
    and the callback do: when [run_argv] returns or raises and the process had
    been started, it was seen to have ended or waited for, or its group was
    gone, or a system call by which it is stopped or waited for failed.  The
    only other ways out are that a thread that reads its output could not be
    started, and an exception that is no [Exception].  A result is given only
    for a process that was seen to have ended, with the code that it ended with;
    its texts are within the bound of the caller. *)
Theorem run_argv_leaves_no_process a w w' r :
  run_argv env nt polls probes threads a w = (w', r) ->
  (started w w' -> settled w w' \/ unread w w' \/ interrupted a w w' \/ unmanaged r)
  /\ forall res, r = Ok res ->
       exited w' (returncode res)
       /\ (String.length (stdout res) <= Z.to_nat (ra_max_output a))%nat /\ (String.length (stderr res) <= Z.to_nat (ra_max_output a))%nat.
Proof.
  intros E. unfold run_argv in E. apply eff_lift_bind in E as [(e & _ & -> & ->)|(normalized & _ & E)].
  { split; [|discriminate]. intros H. exfalso. revert H. apply (not_started w w []); [now rewrite app_nil_r|constructor]. }
  apply bind_inv in E as [(e & E & _)|(w1 & begun & E1 & E)]; [discriminate|].
  assert (T1 : pw_trace w1 = pw_trace w ++ [Monotonic]) by now injection E1 as <- _.
  assert (G1 : extends w w1) by now exists [Monotonic].
  apply bind_inv in E as [(e & E & ->)|(w2 & u & E2 & E)].
  { destruct (start_outcome _ _ _ _ _ E) as [G2 [Hn|[Hs|He]]]; (split; [intros Hst|discriminate]).
    - exfalso. revert Hst. apply (Hn w [Monotonic]); [exact T1|now constructor].
    - left. eapply settled_before; eassumption.
    - right. right. right. exists e. auto. }
  destruct (start_outcome _ _ _ _ _ E2) as [G2 _]. assert (G12 : extends w w2) by (etrans; eassumption).
  apply bind_inv in E as [(e & E & ->)|(w3 & ended & E3 & E)].
  - destruct (attend_settles _ _ _ _ _ E) as [G3 H3]. split; [intros _|discriminate]. destruct H3 as [H|[H|H]].
    + left. eapply settled_before; eassumption.
    + right. left. destruct G12 as [s Es]. destruct H as (b & which & c & e' & Et & He). exists (s ++ b), which, c, e'.
      rewrite Es in Et, He. rewrite <- !app_assoc in *. auto.
    + right. right. left. destruct H as (d & v1 & v2 & x & V1 & V2 & V3 & V4). exists d, v1, v2, x.
      split_and!; [etrans; eassumption|exact V2|exact V3|exact V4].
  - destruct (attend_settles _ _ _ _ _ E3) as [G3 H3]. destruct (report_trace _ _ _ _ _ _ _ _ E) as [G4 H4].
    split; [intros _|intros res ->; destruct H4 as [-> H4]; split; [|exact H4]; eapply exited_later; [exact (attend_exited _ _ _ _ _ E3)|exact G4]]. destruct H3 as [H|[H|H]].
    + left. eapply settled_before; [exact G12|]. eapply settled_after; eassumption.
    + right. left. destruct G12 as [s Es]. destruct H as (b & which & c & e' & Et & He), G4 as [s4 E4].
      exists (s ++ b), which, (c ++ s4), e'. rewrite E4, Et, Es in *. rewrite <- !app_assoc in *. auto.
    + right. right. left. destruct H as (d & v1 & v2 & x & V1 & V2 & V3 & V4). exists d, v1, v2, x.
      split_and!; [etrans; eassumption|exact V2|exact V3|etrans; eassumption].
Qed.
End Settled.

(** ** The loops end *)
Section Ending.
#[local] Existing Instance extends_preorder.
#[local] Hint Resolve growing_act : triples.
Context (env : ProcEnv) (polls probes threads : nat).

(** The clock does not go back, and sleeping takes its time. *)
Record steady : Prop := mkSteady {
  steady_step t c : pe_clock env t <= pe_clock env (t ++ [c]);
  steady_sleep t d : pe_clock env t + d <= pe_clock env (t ++ [Sleep d]) }.

(** No answer stands for a loop that does not end. *)
Record answering : Prop := mkAnswering {
  answering_unit t c : pe_unit env t c <> Err Diverges;
  answering_cancel t : pe_cancel env t <> Err Diverges }.

Context (Hclock : steady) (Hanswer : answering).

Definition clock (w : ProcWorld) : Z := pe_clock env (pw_trace w).

Lemma clock_extends w w' : extends w w' -> clock w <= clock w'.
Proof.
  intros [s E]. unfold clock. rewrite E. clear E. induction s as [|c s IH] using rev_ind; [now rewrite app_nil_r|].
  rewrite app_assoc. pose proof (steady_step Hclock (pw_trace w ++ s) c). lia.
Qed.

Definition ends_at {A} (m : Eff ProcWorld A) (w : ProcWorld) : Prop := snd (m w) <> Err Diverges.
Definition ends {A} (m : Eff ProcWorld A) : Prop := forall w, ends_at m w.

Lemma ends_bind {A B} (m : Eff ProcWorld A) (k : A -> Eff ProcWorld B) w :
  ends_at m w -> (forall w' x, m w = (w', Ok x) -> ends_at (k x) w') -> ends_at (m ≫= k) w.
Proof.
  unfold ends_at, mbind, eff_bind. destruct (m w) as [w' [x|e]] eqn:E; intros Hm Hk; [exact (Hk _ _ eq_refl)|].
  cbn in *. congruence.
Qed.
Lemma ends_try {A} (m : Eff ProcWorld A) h w :
  ends_at m w -> (forall w' e k, m w = (w', Err e) -> h e = Some k -> ends_at k w') -> ends_at (eff_try m h) w.
Proof.
  unfold ends_at, eff_try. destruct (m w) as [w' [x|e]] eqn:E; intros Hm Hk; [exact Hm|].
  destruct (h e) as [k|] eqn:Eh; [exact (Hk _ _ _ eq_refl Eh)|exact Hm].
Qed.
Lemma ends_finally {A} (m : Eff ProcWorld A) f : forall w, ends_at m w -> ends f -> ends_at (eff_finally m f) w.
Proof.
  intros w Hm Hf. unfold ends_at, eff_finally in *. destruct (m w) as [w1 r]. specialize (Hf w1). unfold ends_at in Hf.
  destruct (f w1) as [w2 [u|e]]; cbn in *; congruence.
Qed.
Lemma ends_ret {A} (x : A) : ends (mret x).
Proof. discriminate. Qed.
Lemma ends_raise {A} e : e <> Diverges -> ends (A := A) (eff_raise e).
Proof. intros H w [= ->]. now apply H. Qed.
Lemma ends_act c : ends (act env c).
Proof. intros w. apply (answering_unit Hanswer). Qed.
Lemma ends_monotonic : ends (monotonic env).
Proof. discriminate. Qed.
Lemma ends_poll : ends (poll env).
Proof. discriminate. Qed.
Lemma ends_cancel (b : bool) : ends (if b then proc CancelRequested (fun t => pe_cancel env t) else mret false).
Proof. destruct b; [intros w; apply (answering_cancel Hanswer)|discriminate]. Qed.

Lemma ends_signal {A} signal (sent gone : A) :
  ends (eff_try (_ ← act env (KillPg signal); mret sent) (lookup_error (mret gone))).
Proof.
  intros w. apply ends_try; [apply ends_bind; [apply ends_act|intros; apply ends_ret]|].
  intros w' e k _ H. destruct e; try discriminate. injection H as <-. apply ends_ret.
Qed.

Lemma read_clock w w' now : monotonic env w = (w', Ok now) -> now = clock w /\ extends w w'.
Proof. intros [= <- <-]. split; [reflexivity|now exists [Monotonic]]. Qed.
Lemma slept d w w' u : act env (Sleep d) w = (w', Ok u) -> clock w + d <= clock w'.
Proof. intros [= <- _]. apply (steady_sleep Hclock). Qed.

(** The probes for the process group stop when its time is over. *)
Lemma ends_probe fuel d w : d - clock w <= 10000 * (Z.of_nat fuel - 1) -> (0 < fuel)%nat -> ends_at (probe_group env fuel d) w.
Proof.
  revert w. induction fuel as [|fuel IH]; intros w Hd Hf; [lia|]. cbn [probe_group].
  apply ends_bind; [apply ends_monotonic|]. intros w1 now E1. apply read_clock in E1 as [-> G1]. apply clock_extends in G1.
  destruct (clock w <? d) eqn:Hlt.
  - apply Z.ltb_lt in Hlt. apply ends_bind; [apply ends_signal|]. intros w2 gone E2.
    assert (G2 : clock w1 <= clock w2).
    { apply clock_extends. eapply grown; [|exact E2]. unfold lookup_error. solve_triple. }
    destruct gone; [apply ends_ret|]. apply ends_bind; [apply ends_act|]. intros w3 u E3. apply slept in E3. apply IH; lia.
  - apply ends_try; [apply ends_act|]. intros w' e k _ H. destruct e; try discriminate. injection H as <-. apply ends_ret.
Qed.

Lemma ends_stop g : 0 <= g <= 10000 * (Z.of_nat probes - 1) -> ends (stop_process env false probes g).
Proof.
  intros Hg w. unfold stop_process, stop_posix. apply ends_bind; [apply ends_signal|]. intros w1 there _.
  destruct there; [|apply ends_ret]. apply ends_bind; [apply ends_monotonic|]. intros w2 now E2.
  apply read_clock in E2 as [-> G2]. apply clock_extends in G2.
  apply ends_bind; [apply ends_probe; lia|intros; apply ends_act].
Qed.

(** The process is watched until its time is over. *)
Lemma ends_watch fuel a d w : 0 <= ra_grace a <= 10000 * (Z.of_nat probes - 1) ->
  d - clock w <= 20000 * (Z.of_nat fuel - 1) -> (0 < fuel)%nat -> ends_at (watch env false probes fuel a (Some d)) w.
Proof.
  intros Hg. revert w. induction fuel as [|fuel IH]; intros w Hd Hf; [lia|]. cbn [watch].
  apply ends_bind; [apply ends_poll|]. intros w1 status E1. destruct status as [code|]; [apply ends_ret|].
  assert (G1 : clock w <= clock w1) by (apply clock_extends; injection E1 as <- _; now exists [Poll]).
  apply ends_bind; [apply ends_cancel|]. intros w2 c E2.
  assert (G2 : clock w1 <= clock w2).
  { apply clock_extends. destruct (ra_cancellable a); injection E2 as <- _; [now exists [CancelRequested]|reflexivity]. }
  assert (Hstop : forall (o : outcome) v, ends_at (_ ← stop_process env false probes (ra_grace a); mret o) v)
    by (intros o v; apply ends_bind; [now apply ends_stop|intros; apply ends_ret]).
  destruct c; [apply Hstop|]. apply ends_bind.
  { apply ends_bind; [apply ends_monotonic|intros; apply ends_ret]. }
  intros w3 late E3.
  apply eff_bind_ok in E3 as (w4 & now & E4 & [= <- <-]). apply read_clock in E4 as [-> G4]. apply clock_extends in G4.
  destruct (d <=? clock w2) eqn:Hle; [apply Hstop|]. apply Z.leb_gt in Hle.
  apply ends_bind; [apply ends_act|]. intros w5 u E5. apply slept in E5. apply IH; lia.
Qed.

Lemma ends_attend a d w : 0 <= ra_grace a <= 10000 * (Z.of_nat probes - 1) ->
  d - clock w <= 20000 * (Z.of_nat polls - 1) -> (0 < polls)%nat -> ends_at (attend env false polls probes a (Some d)) w.
Proof.
  intros Hg Hd Hp. unfold attend. apply ends_bind; [apply ends_act|]. intros w1 u E1. apply ends_bind; [apply ends_act|]. intros w2 v E2.
  assert (G : clock w <= clock w2).
  { apply clock_extends. injection E1 as <- _. injection E2 as <- _. eexists. cbn. rewrite <- app_assoc. reflexivity. }
  apply ends_finally.
  - apply ends_try; [apply ends_watch; lia|]. intros w' e k _ H. destruct (is_Exception e) eqn:Ee; [|discriminate]. injection H as <-.
    apply ends_bind; [now apply ends_stop|intros; apply ends_raise; now intros ->].
  - intros w'. apply ends_bind; [apply ends_ret|intros]. apply ends_bind; [apply ends_act|intros; apply ends_act].
Qed.

Lemma check_argv_inv argv timeout grace max_output r : check_argv argv timeout grace max_output = r ->
  r <> Err Diverges /\ (r = Ok argv \/ exists msg, r = Err (ValueError msg)) /\ (forall x, r = Ok x -> (forall t, timeout = Some t -> 0 < t) /\ 0 <= grace).
Proof.
  intros <-. unfold check_argv, raise_if. destruct argv; cbn; [split_and!; eauto; discriminate|].
  destruct (has_char _ s || _); [split_and!; eauto; discriminate|].
  destruct timeout as [t|]; [destruct (t <=? 0) eqn:Ht; [split_and!; eauto; discriminate|]|];
    (destruct (grace <? 0) eqn:Hg; [split_and!; eauto; discriminate|]); destruct (max_output <=? 0);
    (split_and!; eauto; try discriminate); cbn; intros x _; split; try (intros ? [= <-]); lia.
Qed.

(** C21: on POSIX a command with a timeout comes to an end.  When the clock does
    not go back, [sleep] takes the time it is asked for and every single call
    returns, [run_argv] gives a result or an exception: the loop that watches
    the process turns at most once per 20 ms of the timeout, and the loop that
    waits for its group once per 10 ms of the grace period, however long the
    process itself would run. *)
Theorem run_argv_ends a limit w :
  ra_timeout a = Some limit -> limit <= 20000 * (Z.of_nat polls - 1) -> ra_grace a <= 10000 * (Z.of_nat probes - 1) ->
  snd (run_argv env false polls probes threads a w) <> Err Diverges.
Proof.
  intros Ht Hp Hg. change (ends_at (run_argv env false polls probes threads a) w). unfold run_argv.
  apply ends_bind; [|intros w1 normalized E1].
  { unfold ends_at, eff_lift. cbn. intros E. now apply check_argv_inv in E as [E _]. }
  assert (Hpos : 0 < limit /\ 0 <= ra_grace a).
  { injection E1 as _ E1. apply check_argv_inv in E1 as (_ & _ & H). destruct (H _ eq_refl). auto. }
  apply ends_bind; [apply ends_monotonic|]. intros w2 begun E2. apply read_clock in E2 as [-> G2]. apply clock_extends in G2.
  apply ends_bind; [|intros w3 u E3].
  { unfold start. apply ends_bind; [apply ends_ret|intros w4 u _]. apply ends_bind; [|intros; apply ends_ret].
    apply ends_try; [apply ends_act|]. intros w' e k _ H. destruct (is_Exception e) eqn:Ee; [|discriminate]. injection H as <-.
    apply ends_bind; [apply ends_ret|intros; apply ends_raise; now intros ->]. }
  assert (G3 : clock w2 <= clock w3) by (apply clock_extends; exact (proj1 (start_outcome _ _ _ _ _ _ _ _ E3))).
  rewrite Ht. apply ends_bind; [apply ends_attend; lia|]. intros w4 ended _. unfold report. cbv zeta.
  destruct ended as [code|e]; [|now apply ends_raise]. apply ends_bind; [apply ends_monotonic|intros; apply ends_ret].
Qed.
End Ending.

(** ** A command that is too slow *)

Definition slept_in (t : ProcTrace) : Z :=
  fold_right (fun c n => match c with Sleep d => Z.max 0 d + n | _ => n end) 0 t.

(** The process ignores [SIGTERM]; every call works, and the group is gone
    after [SIGKILL]. *)
Definition stubborn : ProcEnv := {|
  pe_unit := fun _ _ => Ok tt;
  pe_poll := fun _ => None;
  pe_clock := slept_in;
  pe_cancel := fun _ => Ok false;
  pe_taskkill := fun _ => Ok 0;
  pe_output := fun _ => [];
  pe_pid := 7; pe_handle := 8;
  pe_set := fun l => l;
  pe_win := mkWinEnv (fun _ _ => Value 0) (fun _ => (0, 0)) (fun _ => "") |}.

Definition sleeper : RunArgs := mkRunArgs ["sleep"; "60"] None None (Some 30000) false 15000 100 [].
Definition unborn : ProcWorld := mkProcWorld [] [] None.
Definition slow_run : ProcWorld * res CommandResult := run_argv stubborn false 4 4 0 sleeper unborn.

Example slow_run_calls : pw_trace (fst slow_run) =
  [Monotonic; Popen ["sleep"; "60"] None None; StartReader false; StartReader true;
   Poll; Monotonic; Sleep 20000; Poll; Monotonic; Sleep 20000; Poll; Monotonic;
   KillPg 15; Monotonic; Monotonic; KillPg 0; Sleep 10000; Monotonic; KillPg 0; Sleep 10000; Monotonic; KillPg 9; Wait;
   JoinReader false; JoinReader true].
Proof. reflexivity. Qed.

Lemma slow_run_starts : started stubborn unborn (fst slow_run).
Proof.
  exists [Monotonic], ["sleep"; "60"], None, None, (skipn 2 (pw_trace (fst slow_run))). rewrite slow_run_calls. now split.
Qed.

Lemma run_argv_leaves_no_process_witness :
  snd slow_run = Err (LauncherExn ExecutionTimeout)
  /\ (settled stubborn unborn (fst slow_run) \/ unread stubborn unborn (fst slow_run)
      \/ interrupted stubborn false 4 4 sleeper unborn (fst slow_run) \/ unmanaged (snd slow_run)).
Proof.
  split; [vm_compute; reflexivity|].
  apply (run_argv_leaves_no_process stubborn false 4 4 0 sleeper unborn (fst slow_run) (snd slow_run)).
  - unfold slow_run. now destruct (run_argv _ _ _ _ _ _ _).
  - exact slow_run_starts.
Defined.

Lemma slept_in_app t c : slept_in (t ++ [c]) = slept_in t + slept_in [c].
Proof. induction t as [|x t IH]; [reflexivity|]. cbn [app]. unfold slept_in in *. cbn [fold_right]. rewrite IH. destruct x; cbn; lia. Qed.

Lemma stubborn_steady : steady stubborn.
Proof. split; intros t; [intros c; destruct c|intros d]; cbn [pe_clock stubborn]; rewrite slept_in_app; cbn; lia. Qed.

Lemma run_argv_ends_witness :
  ra_timeout sleeper = Some 30000 /\ snd (run_argv stubborn false 4 4 0 sleeper unborn) <> Err Diverges.
Proof.
  split; [reflexivity|]. apply (run_argv_ends stubborn 4 4 0) with (limit := 30000).
  - exact stubborn_steady.
  - now split.
  - reflexivity.
  - cbn. lia.
  - cbn. lia.
Defined.

(** The threads are started outside the clauses that stop the process: when one
    cannot be started, the process goes on and nobody waits for it. *)
Definition threadless : ProcEnv := {|
  pe_unit := fun _ c => match c with StartReader true => Err (RuntimeError "can't start new thread") | _ => Ok tt end;
  pe_poll := fun _ => None; pe_clock := slept_in; pe_cancel := fun _ => Ok false; pe_taskkill := fun _ => Ok 0;
  pe_output := fun _ => []; pe_pid := 7; pe_handle := 8; pe_set := fun l => l; pe_win := pe_win stubborn |}.

Example reader_failure_leaves_process :
  run_argv threadless false 4 4 0 sleeper unborn =
    (mkProcWorld [Monotonic; Popen ["sleep"; "60"] None None; StartReader false; StartReader true] [] None,
     Err (RuntimeError "can't start new thread")).
Proof. reflexivity. Qed.
