(* ===== verification/PosixPath.v ===== *)
(** * Relative paths (pathlib's [PurePosixPath] and the path checks of the launcher)

    The components of a path, [_safe_relative_parts] and
    [validate_relative_path] (safe_paths.py), [_normalized_path] (versions.py)
    and [_normalize_workspace_path] (mcp.py). *)
From S2P Require Export Text.

(** The components of [PurePosixPath(s)] below its root: empty components and
    single dots are dropped. *)
Definition is_component (p : string) : bool := negb (String.eqb p "") && negb (String.eqb p ".").
Definition path_parts (s : string) : list string := List.filter is_component (split_on "/" s).
Definition is_absolute (s : string) : bool := starts_with "/" s.

(** [PurePosixPath(s).as_posix()] of a relative path. *)
Definition as_posix (parts : list string) : string :=
  match parts with [] => "." | _ => str_join "/" parts end.

Definition has_dotdot (parts : list string) : bool := str_mem ".." parts.

(** ** [_safe_relative_parts] *)
Definition safe_relative_parts (relative : string) : res (list string) :=
  let normalized := replace_char "\" "/" relative in
  let parts := path_parts normalized in
  let! _ := raise_if (is_absolute normalized || match parts with [] => true | _ => false end)
    (LauncherExn HostPathEscape) in
  let! _ := raise_if (existsb (fun p => str_mem p [""; "."; ".."]%string) parts)
    (LauncherExn HostPathEscape) in
  let! _ := raise_if (has_char ":" (hd ""%string parts)) (LauncherExn HostPathEscape) in
  Ok parts.

(** [a.is_relative_to(b)], for absolute paths *)
Fixpoint parts_prefix (a b : list string) : bool :=
  match a, b with
  | [], _ => true
  | x :: a', y :: b' => String.eqb x y && parts_prefix a' b'
  | _ :: _, [] => false
  end.
Definition is_relative_to (a b : string) : bool := parts_prefix (path_parts b) (path_parts a).

(** [b in a.parents] *)
Definition is_parent (b a : string) : bool :=
  is_relative_to a b && negb (Nat.eqb (List.length (path_parts a)) (List.length (path_parts b))).

(** [validate_relative_path(relative).as_posix()] *)
Definition validate_relative_path (relative : string) : res string :=
  rmap as_posix (safe_relative_parts relative).

(** ** [_normalized_path] and [assert_not_active_notebook] *)
Definition normalized_path (path : string) : res string :=
  let candidate := replace_char "\" "/" path in
  let! _ := raise_if (is_absolute candidate
                      || existsb (fun p => str_mem p [""; "."; ".."]%string) (path_parts candidate))
    (LauncherExn (ConflictError "Workspace paths must be normalized relative paths.")) in
  Ok (as_posix (path_parts candidate)).

Definition assert_not_active_notebook (target_path active_notebook_path : string) : res unit :=
  let! a := normalized_path target_path in
  let! b := normalized_path active_notebook_path in
  raise_if (String.eqb a b)
    (LauncherExn (ConflictError
       "The active notebook must be changed through notebook-aware operations.")).

(** ** [_normalize_workspace_path] *)
Definition normalize_workspace_path (path : string) : res string :=
  let normalized := replace_char "\" "/" path in
  let! _ := raise_if (is_absolute normalized || has_dotdot (path_parts normalized))
    (LauncherExn (PermissionDenied "Workspace path must remain relative to the workspace.")) in
  Ok (as_posix (path_parts normalized)).

Example parts_ex : map safe_relative_parts ["a/./b//c.py"; "a\b"; "/etc"; "a/../b"; "."; "c:/x"]%string
  = [Ok ["a"; "b"; "c.py"]; Ok ["a"; "b"]; Err (LauncherExn HostPathEscape);
     Err (LauncherExn HostPathEscape); Err (LauncherExn HostPathEscape);
     Err (LauncherExn HostPathEscape)]%string.
Proof. reflexivity. Qed.

(** ** Lemmas *)
Definition no_sep (c : ascii) (x : ascii) : bool := negb (Ascii.eqb x c).

Lemma split_on_parts c s : forallb (all_chars (no_sep c)) (split_on c s) = true.
Proof.
  induction s as [|x s IH]; [reflexivity|]. simpl. destruct (Ascii.eqb x c) eqn:E; [exact IH|].
  destruct (split_on c s) as [|p ps]; simpl in *; unfold no_sep at 1; rewrite E; [reflexivity|].
  exact IH.
Qed.

Lemma split_on_append c a b :
  all_chars (no_sep c) a = true -> split_on c (a ++ String c b) = a :: split_on c b.
Proof.
  induction a as [|x a IH]; intros Ha.
  - change ((""%string ++ String c b)%string) with (String c b). simpl. now rewrite Ascii.eqb_refl.
  - simpl in Ha. bool_to_prop. change ((String x a ++ String c b)%string) with (String x (a ++ String c b)%string).
    simpl. unfold no_sep in H. bool_to_prop. rewrite H, IH by assumption. reflexivity.
Qed.

(** Splitting what was joined. *)
Lemma split_join c ps :
  ps <> [] -> forallb (all_chars (no_sep c)) ps = true -> split_on c (str_join (String c "") ps) = ps.
Proof.
  induction ps as [|p ps IH]; [easy|]. intros _ Hps. simpl in Hps. bool_to_prop.
  destruct ps as [|q ps].
  - simpl. now apply split_on_none.
  - change (str_join (String c "") (p :: q :: ps)) with (p ++ String c (str_join (String c "") (q :: ps)))%string.
    rewrite split_on_append by assumption. now rewrite IH.
Qed.

Lemma replace_char_no_src a b s : a <> b -> all_chars (no_sep a) (replace_char a b s) = true.
Proof.
  intros Hab. induction s as [|c s IH]; [reflexivity|]. unfold replace_char in *. simpl. rewrite IH, andb_true_r.
  destruct (Ascii.eqb c a) eqn:E; unfold no_sep.
  - now rewrite (proj2 (Ascii.eqb_neq b a)).
  - now rewrite E.
Qed.

Lemma replace_char_same a b s : all_chars (no_sep a) s = true -> replace_char a b s = s.
Proof.
  unfold replace_char. induction s as [|c s IH]; simpl; [reflexivity|]. intros H. bool_to_prop.
  unfold no_sep in H. bool_to_prop. now rewrite H, IH.
Qed.

(** A canonical component: what [_safe_relative_parts] returns. *)
Definition safe_component (p : string) : bool :=
  negb (str_mem p [""; "."; ".."]%string) && all_chars (no_sep "/") p && all_chars (no_sep "\") p.

Lemma split_on_keeps (q : ascii -> bool) c s :
  all_chars q s = true -> forallb (all_chars q) (split_on c s) = true.
Proof.
  induction s as [|x s IH]; [reflexivity|]. simpl. intros H. bool_to_prop.
  destruct (Ascii.eqb x c); [simpl; auto|]. specialize (IH H0).
  destruct (split_on c s) as [|p ps]; simpl in *; [now rewrite H|]. bool_to_prop. now rewrite H, H1, H2.
Qed.

Lemma three_guards {A} (a b c : bool) (e1 e2 e3 : exn) (q ps : A) :
  (let! _ := raise_if a e1 in let! _ := raise_if b e2 in let! _ := raise_if c e3 in Ok q) = Ok ps ->
  a = false /\ b = false /\ c = false /\ q = ps.
Proof. destruct a, b, c; simpl; try discriminate. intros [= ->]. auto. Qed.

Lemma safe_relative_parts_guards r ps :
  safe_relative_parts r = Ok ps ->
  is_absolute (replace_char "\" "/" r) || match ps with [] => true | _ => false end = false
  /\ existsb (fun p => str_mem p [""; "."; ".."]%string) ps = false
  /\ has_char ":" (hd ""%string ps) = false
  /\ ps = path_parts (replace_char "\" "/" r).
Proof.
  unfold safe_relative_parts. intros H. apply three_guards in H as (Ha & Hb & Hc & Hq).
  rewrite Hq in Ha, Hb, Hc. auto.
Qed.

Lemma safe_relative_parts_ok r ps :
  safe_relative_parts r = Ok ps ->
  ps <> [] /\ forallb safe_component ps = true /\ has_char ":" (hd ""%string ps) = false.
Proof.
  intros H. apply safe_relative_parts_guards in H as (Hroot & Hbad & Hcolon & Hq).
  assert (Hne : ps <> []).
  { apply orb_false_iff in Hroot as [_ Hroot]. intros ->. discriminate Hroot. }
  split; [exact Hne|]. split; [|exact Hcolon].
  apply forallb_forall. intros p Hp. unfold safe_component. rewrite !andb_true_iff. repeat split.
  - apply negb_true_iff, not_true_iff_false. intros Hm.
    apply not_true_iff_false in Hbad. apply Hbad, existsb_exists. eauto.
  - rewrite Hq in Hp. unfold path_parts in Hp. apply filter_In in Hp as [Hp _].
    exact (proj1 (forallb_forall _ _) (split_on_parts "/" _) p Hp).
  - rewrite Hq in Hp. unfold path_parts in Hp. apply filter_In in Hp as [Hp _].
    exact (proj1 (forallb_forall _ _)
             (split_on_keeps _ "/" _ (replace_char_no_src "\" "/" r ltac:(discriminate))) p Hp).
Qed.

Lemma starts_with_slash_join p ps :
  safe_component p = true -> is_absolute (str_join "/" (p :: ps)) = false.
Proof.
  unfold safe_component. intros H. bool_to_prop. destruct p as [|c p]; [discriminate|].
  assert (Hc : Ascii.eqb c "/" = false)
    by (simpl in H1; bool_to_prop; unfold no_sep in H1; now bool_to_prop).
  assert (Hs : forall s, is_absolute (String c s) = false).
  { intros s. unfold is_absolute. cbn [starts_with]. destruct (Ascii.eqb "/" c) eqn:E; [|reflexivity].
    apply Ascii.eqb_eq in E. subst. rewrite Ascii.eqb_refl in Hc. discriminate. }
  destruct ps; apply Hs.
Qed.

(** The parts of a path, joined, have the same parts again. *)
Lemma path_parts_back s : path_parts s <> [] ->
  path_parts (as_posix (path_parts s)) = path_parts s /\ is_absolute (as_posix (path_parts s)) = false.
Proof.
  intros Hne. assert (Hp : forall p, In p (path_parts s) -> is_component p = true /\ all_chars (no_sep "/") p = true).
  { intros p Hp. unfold path_parts in Hp. apply filter_In in Hp as [Hp Hc]. split; [exact Hc|].
    exact (proj1 (forallb_forall _ _) (split_on_parts "/" _) p Hp). }
  revert Hne Hp. generalize (path_parts s) as ps. intros ps Hne Hp.
  assert (Hj : as_posix ps = str_join "/" ps) by (destruct ps; [easy|reflexivity]). rewrite Hj. split.
  - unfold path_parts. rewrite split_join; [|exact Hne|apply forallb_forall; intros p Hin; now apply Hp].
    clear Hne Hj. induction ps as [|p ps IH]; [reflexivity|]. cbn [List.filter].
    rewrite (proj1 (Hp p (or_introl eq_refl))), IH by (intros; apply Hp; now right). reflexivity.
  - destruct ps as [|p ps]; [easy|]. destruct (Hp p (or_introl eq_refl)) as [Hc Hs]. destruct p as [|c p]; [discriminate|].
    cbn [all_chars] in Hs. apply andb_true_iff in Hs as [Hs _]. unfold no_sep in Hs. apply negb_true_iff, Ascii.eqb_neq in Hs.
    assert (Hcons : forall x, is_absolute (String c x) = false).
    { intros x. unfold is_absolute. cbn [starts_with]. destruct (Ascii.eqb_spec "/" c); [now elim Hs|reflexivity]. }
    destruct ps; apply Hcons.
Qed.

(** Canonical components are read back unchanged. *)
Lemma safe_relative_parts_join ps :
  ps <> [] -> forallb safe_component ps = true -> has_char ":" (hd ""%string ps) = false ->
  safe_relative_parts (str_join "/" ps) = Ok ps.
Proof.
  intros Hne Hsafe Hcolon.
  assert (Hslash : forallb (all_chars (no_sep "/")) ps = true).
  { apply forallb_forall. intros p Hp. apply (proj1 (forallb_forall _ _) Hsafe) in Hp.
    unfold safe_component in Hp. now bool_to_prop. }
  assert (Hback : all_chars (no_sep "\") (str_join "/" ps) = true).
  { apply all_chars_join; [reflexivity|]. apply forallb_forall. intros p Hp.
    apply (proj1 (forallb_forall _ _) Hsafe) in Hp. unfold safe_component in Hp. now bool_to_prop. }
  assert (Hkeep : List.filter is_component ps = ps).
  { clear -Hsafe. induction ps as [|p ps IH]; [reflexivity|]. simpl in Hsafe. bool_to_prop.
    simpl. unfold is_component at 1. unfold safe_component, str_mem in H. cbn [existsb] in H. bool_to_prop.
    rewrite (proj2 (String.eqb_neq p "")), (proj2 (String.eqb_neq p ".")) by assumption.
    simpl. now rewrite IH. }
  unfold safe_relative_parts. rewrite replace_char_same by exact Hback.
  unfold path_parts. rewrite (split_join "/" ps Hne Hslash), Hkeep.
  assert (Hbad : existsb (fun p => str_mem p [""; "."; ".."]%string) ps = false).
  { apply not_true_iff_false. intros He. apply existsb_exists in He as (p & Hp & Hm).
    apply (proj1 (forallb_forall _ _) Hsafe) in Hp. unfold safe_component in Hp. bool_to_prop. congruence. }
  rewrite Hbad, Hcolon. destruct ps as [|p ps]; [easy|]. simpl in Hsafe. bool_to_prop.
  rewrite starts_with_slash_join by assumption. reflexivity.
Qed.

(** Paths are confined and canonical.  Every path that
    [validate_relative_path] accepts is returned as a non-empty sequence of
    components none of which is empty, a dot, a double dot or contains a
    separator, so following it never leaves the root; and the result is
    canonical: accepted again, it is returned unchanged. *)
Theorem validated_path_canonical (r s : string) :
  validate_relative_path r = Ok s ->
  exists ps, safe_relative_parts s = Ok ps /\ s = str_join "/" ps /\ ps <> []
    /\ (forall p, In p ps -> ~ In p [""; "."; ".."]%string
          /\ all_chars (no_sep "/") p = true /\ all_chars (no_sep "\") p = true)
    /\ validate_relative_path s = Ok s.
Proof.
  unfold validate_relative_path, rmap. intros H. apply rbind_ok in H as (r0 & Hr & Hs).
  assert (Hs' : s = as_posix r0) by congruence. subst s. clear Hs.
  destruct (safe_relative_parts_ok r r0 Hr) as (Hne & Hsafe & Hcolon).
  assert (Hj : as_posix r0 = str_join "/" r0) by (destruct r0; [easy|reflexivity]).
  pose proof (safe_relative_parts_join r0 Hne Hsafe Hcolon) as Hback. rewrite Hj.
  exists r0. split; [exact Hback|]. split; [reflexivity|]. split; [exact Hne|]. split.
  - intros p Hp. apply (proj1 (forallb_forall _ _) Hsafe) in Hp. unfold safe_component in Hp. bool_to_prop.
    split; [|auto]. intros Hin. apply str_mem_In in Hin. congruence.
  - rewrite Hback. simpl. now rewrite Hj.
Qed.

Lemma validated_path_canonical_witness :
  validate_relative_path "a/b.py" = Ok "a/b.py"%string.
Proof.
  destruct (validated_path_canonical "a\.//b.py" "a/b.py" eq_refl) as (ps & _ & _ & _ & _ & H).
  exact H.
Defined.
