(* ===== verification/Fs.v ===== *)
(** * The file system behind safe_paths.py

    Inodes, directory entries, symbolic links and the system calls that the
    Linux branch of safe_paths.py makes, relative to an open directory (its
    inode).  Any call may fail: a fault oracle gives the error of the [n]-th
    call, and how many bytes a failing write got through. *)
From S2P Require Export Text.

Inductive node :=
| Dir (entries : gmap string Z)
| File (data : string)
| Symlink (target : string).

Record FileSystem := mkFs { inodes : gmap Z node; next_ino : Z; syscalls : nat }.

(** Error numbers of Linux. *)
Definition EPERM : Z := 1.
Definition ENOENT : Z := 2.
Definition EEXIST : Z := 17.
Definition ENOTDIR : Z := 20.
Definition EISDIR : Z := 21.
Definition EINVAL : Z := 22.
Definition ENOSPC : Z := 28.
Definition ENOTEMPTY : Z := 39.
Definition ELOOP : Z := 40.

(** [OSError(errno)] makes the subclass of the error number. *)
Definition os_error (errno : Z) : exn :=
  if errno =? ENOENT then FileNotFoundError ""
  else if errno =? EEXIST then FileExistsError ""
  else OSError errno.

Definition exn_errno (e : exn) : option Z :=
  match e with
  | OSError n => Some n
  | FileNotFoundError _ => Some ENOENT
  | FileExistsError _ => Some EEXIST
  | _ => None
  end.

Definition entry (f : FileSystem) (d : Z) (name : string) : option Z :=
  match inodes f !! d with
  | Some (Dir es) => es !! name
  | _ => None
  end.

Definition is_dir (f : FileSystem) (i : Z) : bool :=
  match inodes f !! i with Some (Dir _) => true | _ => false end.

Definition with_inodes (m : gmap Z node) (f : FileSystem) : FileSystem := mkFs m (next_ino f) (syscalls f).

(** The entries of a directory, changed. *)
Definition set_entries (d : Z) (g : gmap string Z -> gmap string Z) (f : FileSystem) : FileSystem :=
  match inodes f !! d with
  | Some (Dir es) => with_inodes (<[d := Dir (g es)]> (inodes f)) f
  | _ => f
  end.

(** A new inode and its entry in [d]. *)
Definition allocate (d : Z) (name : string) (n : node) (f : FileSystem) : FileSystem * Z :=
  let i := next_ino f in
  let f1 := set_entries d (fun es => <[name := i]> es) f in
  (mkFs (<[i := n]> (inodes f1)) (i + 1) (syscalls f1), i).

Section Syscalls.
(** The faults: the error of a call, and the bytes a write got through. *)
Context (fault : nat -> option (Z * nat)).

Definition tick (f : FileSystem) : FileSystem := mkFs (inodes f) (next_ino f) (S (syscalls f)).

Definition syscall {A} (act : FileSystem -> FileSystem * res A) : Eff FileSystem A := fun f =>
  match fault (syscalls f) with
  | Some (errno, _) => (tick f, Err (os_error errno))
  | None => act (tick f)
  end.

Definition fail {A} (errno : Z) (f : FileSystem) : FileSystem * res A := (f, Err (os_error errno)).

(** [os.open(name, O_RDONLY | O_DIRECTORY | O_NOFOLLOW, dir_fd=d)] *)
Definition open_dir_at (d : Z) (name : string) : Eff FileSystem Z := syscall (fun f =>
  match entry f d name with
  | None => fail ENOENT f
  | Some i =>
      match inodes f !! i with
      | Some (Dir _) => (f, Ok i)
      | Some (Symlink _) => fail ELOOP f
      | _ => fail ENOTDIR f
      end
  end).

(** [os.mkdir(name, dir_fd=d)] *)
Definition mkdir_at (d : Z) (name : string) : Eff FileSystem unit := syscall (fun f =>
  if negb (is_dir f d) then fail ENOENT f
  else match entry f d name with
       | Some _ => fail EEXIST f
       | None => (fst (allocate d name (Dir ∅) f), Ok tt)
       end).

(** [os.open(name, O_WRONLY | O_CREAT | O_EXCL | O_NOFOLLOW, dir_fd=d)] *)
Definition create_excl_at (d : Z) (name : string) : Eff FileSystem Z := syscall (fun f =>
  if negb (is_dir f d) then fail ENOENT f
  else match entry f d name with
       | Some _ => fail EEXIST f
       | None => let '(f', i) := allocate d name (File "") f in (f', Ok i)
       end).

(** [os.open(name, O_RDONLY | O_NOFOLLOW, dir_fd=d)]: a directory can be opened. *)
Definition open_at (d : Z) (name : string) : Eff FileSystem Z := syscall (fun f =>
  match entry f d name with
  | None => fail ENOENT f
  | Some i =>
      match inodes f !! i with
      | Some (Symlink _) => fail ELOOP f
      | Some _ => (f, Ok i)
      | None => fail ENOENT f
      end
  end).

(** [os.fdopen(descriptor, "rb").read()] *)
Definition read_fd (i : Z) : Eff FileSystem string := syscall (fun f =>
  match inodes f !! i with
  | Some (File data) => (f, Ok data)
  | _ => fail EISDIR f
  end).

(** [_write_descriptor]: write, flush and fsync of a new file; a fault leaves a
    part of the data. *)
Definition write_descriptor (i : Z) (data : string) : Eff FileSystem unit := fun f =>
  match fault (syscalls f) with
  | Some (errno, n) =>
      (with_inodes (<[i := File (str_take n data)]> (inodes f)) (tick f), Err (os_error errno))
  | None => (with_inodes (<[i := File data]> (inodes f)) (tick f), Ok tt)
  end.

(** [os.unlink(name, dir_fd=d)] *)
Definition unlink_at (d : Z) (name : string) : Eff FileSystem unit := syscall (fun f =>
  match entry f d name with
  | None => fail ENOENT f
  | Some i => if is_dir f i then fail EISDIR f
              else (set_entries d (fun es => delete name es) f, Ok tt)
  end).

(** [os.link(a, b, follow_symlinks=False)] in directories [d1], [d2]. *)
Definition link_at (d1 : Z) (a : string) (d2 : Z) (b : string) : Eff FileSystem unit := syscall (fun f =>
  match entry f d1 a with
  | None => fail ENOENT f
  | Some i =>
      if is_dir f i then fail EPERM f
      else if negb (is_dir f d2) then fail ENOENT f
      else match entry f d2 b with
           | Some _ => fail EEXIST f
           | None => (set_entries d2 (fun es => <[b := i]> es) f, Ok tt)
           end
  end).

(** Whether directory [d] is [i] or lies below it. *)
Fixpoint below (fuel : nat) (f : FileSystem) (i d : Z) : bool :=
  (i =? d) ||
  match fuel, inodes f !! i with
  | S k, Some (Dir es) => existsb (fun e => below k f (snd e) d) (map_to_list es)
  | _, _ => false
  end.

(** What [rename] refuses: the kinds of source [i] and of an existing
    destination [j]. *)
Definition rename_error (f : FileSystem) (i d2 : Z) (dst : option Z) : option Z :=
  if negb (is_dir f d2) then Some ENOENT
  else if is_dir f i && below (size (inodes f)) f i d2 then Some EINVAL
  else match dst with
       | None => None
       | Some j =>
           match inodes f !! i, inodes f !! j with
           | Some (Dir _), Some (Dir es) => if bool_decide (es = ∅) then None else Some ENOTEMPTY
           | Some (Dir _), _ => Some ENOTDIR
           | _, Some (Dir _) => Some EISDIR
           | _, _ => None
           end
       end.

Definition move_entry (d1 : Z) (a : string) (d2 : Z) (b : string) (i : Z) (f : FileSystem) : FileSystem :=
  set_entries d2 (fun es => <[b := i]> es) (set_entries d1 (fun es => delete a es) f).

(** [os.replace(a, b)]; two names of one inode are left as they are. *)
Definition replace_at (d1 : Z) (a : string) (d2 : Z) (b : string) : Eff FileSystem unit := syscall (fun f =>
  match entry f d1 a with
  | None => fail ENOENT f
  | Some i =>
      match rename_error f i d2 (entry f d2 b) with
      | Some errno => fail errno f
      | None =>
          if bool_decide (entry f d2 b = Some i) then (f, Ok tt)
          else (move_entry d1 a d2 b i f, Ok tt)
      end
  end).

(** [renameat2(..., RENAME_NOREPLACE)] *)
Definition rename_noreplace_at (d1 : Z) (a : string) (d2 : Z) (b : string) : Eff FileSystem unit :=
  syscall (fun f =>
    match entry f d1 a with
    | None => fail ENOENT f
    | Some i =>
        match entry f d2 b with
        | Some _ => fail EEXIST f
        | None =>
            match rename_error f i d2 None with
            | Some errno => fail errno f
            | None => (move_entry d1 a d2 b i f, Ok tt)
            end
        end
    end).

(** [os.fsync(d)] *)
Definition fsync (d : Z) : Eff FileSystem unit := syscall (fun f => (f, Ok tt)).
End Syscalls.
