(* ===== verification/SafePaths.v ===== *)
(** * Safe paths (the Linux branch of src/notebook_launcher/safe_paths.py)

    Files are reached from a root directory one component at a time, relative
    to the directory opened before and never through a symbolic link; writes go
    to a temporary file that is renamed.  The inode that the root path names
    may differ at every call: [root_now] is an argument.  There is one device,
    so the identity of a root is its inode. *)
From S2P Require Export Fs PosixPath.

Section SafePaths.
Context (fault : nat -> option (Z * nat)).
(** What [root.resolve(strict=True)] finds at the time of a system call. *)
Context (root_now : nat -> res Z).

Definition resolve_root : Eff FileSystem Z := fun f => (tick f, root_now (syscalls f)).

Definition host_path_escape {A} : Eff FileSystem A := eff_raise (LauncherExn HostPathEscape).

(** [except OSError as exc: _translate_escape(exc); raise] *)
Definition is_escape (e : exn) : bool :=
  match exn_errno e with Some n => (n =? ELOOP) || (n =? ENOTDIR) | None => false end.
Definition translate_escape {A} (e : exn) : option (Eff FileSystem A) :=
  if is_escape e then Some host_path_escape else None.

(** [root_identity] *)
Definition root_identity (i : Z) : Eff FileSystem Z := fun f =>
  if is_dir f i then (f, Ok i) else (f, Err (LauncherExn HostPathEscape)).

(** [validate_root_identity] *)
Definition validate_root_identity (expected : Z) : Eff FileSystem Z :=
  canonical ← resolve_root;
  current ← root_identity canonical;
  if negb (current =? expected) then host_path_escape else mret canonical.

(** [_validated_root] *)
Definition validated_root (expected : option Z) : Eff FileSystem unit :=
  canonical ← resolve_root;
  match expected with
  | Some identity => _ ← validate_root_identity identity; mret tt
  | None => _ ← root_identity canonical; mret tt
  end.

(** The loop of [_open_parent_fd] from directory [d]. *)
Fixpoint open_dirs (create : bool) (d : Z) (components : list string) : Eff FileSystem Z :=
  match components with
  | [] => mret d
  | component :: rest =>
      next ← eff_try (open_dir_at fault d component)
        (fun e => match e with
                  | FileNotFoundError _ =>
                      Some (if negb create then eff_raise e
                            else _ ← mkdir_at fault d component; open_dir_at fault d component)
                  | _ => translate_escape e
                  end);
      open_dirs create next rest
  end.

(** [os.open(root, O_RDONLY | O_DIRECTORY | O_NOFOLLOW)] *)
Definition require_dir (i : Z) : Eff FileSystem Z := fun f =>
  if is_dir f i then (f, Ok i) else (f, Err (os_error ENOTDIR)).
Definition open_root : Eff FileSystem Z := root ← resolve_root; require_dir root.

Definition open_parent_fd (parts : list string) (create : bool) (expected : option Z) : Eff FileSystem Z :=
  root ← open_root;
  match expected with
  | Some identity =>
      if negb (root =? identity) then host_path_escape
      else open_dirs create root (removelast parts)
  | None => open_dirs create root (removelast parts)
  end.

Definition final (parts : list string) : string := List.last parts ""%string.

(** [safe_open_under_root] with [flags=os.O_RDONLY] *)
Definition safe_open_under_root (relative : string) (expected : option Z) : Eff FileSystem Z :=
  parts ← eff_lift (safe_relative_parts relative);
  _ ← validated_root expected;
  parent ← open_parent_fd parts false expected;
  eff_try (open_at fault parent (final parts)) translate_escape.

(** [read_bytes_under_root]: the file is opened as above, and read. *)
Definition read_bytes_under_root (relative : string) (expected : option Z) : Eff FileSystem string :=
  parts ← eff_lift (safe_relative_parts relative);
  _ ← validated_root expected;
  parent ← open_parent_fd parts false expected;
  descriptor ← eff_try (open_at fault parent (final parts)) translate_escape;
  read_fd fault descriptor.

(** [_atomic_write_at]; [token] is [secrets.token_hex(8)]. *)
Definition temporary_name (token name : string) : string := ("." ++ name ++ "." ++ token)%string.

Definition write_and_rename (parent : Z) (temporary name data : string) (overwrite : bool) : Eff FileSystem unit :=
  descriptor ← create_excl_at fault parent temporary;
  _ ← write_descriptor fault descriptor data;
  _ ← (if overwrite then replace_at fault parent temporary parent name
       else _ ← link_at fault parent temporary parent name;
            unlink_at fault parent temporary);
  fsync fault parent.

Definition discard_temporary (parent : Z) (temporary : string) : Eff FileSystem unit :=
  eff_try (unlink_at fault parent temporary)
    (fun e => match e with FileNotFoundError _ => Some (mret tt) | _ => None end).

Definition atomic_write_at (token : string) (parent : Z) (name data : string) (overwrite : bool)
  : Eff FileSystem unit :=
  let temporary := temporary_name token name in
  eff_try (write_and_rename parent temporary name data overwrite)
    (fun e =>
       if is_OSError e then
         Some (_ ← discard_temporary parent temporary;
               if bool_decide (exn_errno e = Some ENOSPC) then eff_raise (LauncherExn StorageFull)
               else if is_escape e then host_path_escape
               else eff_raise e)
       else None).

(** [atomic_write_under_root] *)
Definition atomic_write_under_root (token relative data : string) (overwrite : bool) (expected : option Z)
  : Eff FileSystem unit :=
  parts ← eff_lift (safe_relative_parts relative);
  _ ← validated_root expected;
  parent ← open_parent_fd parts true expected;
  atomic_write_at token parent (final parts) data overwrite.

(** [unlink_under_root] *)
Definition unlink_under_root (relative : string) (missing_ok : bool) (expected : option Z)
  : Eff FileSystem unit :=
  parts ← eff_lift (safe_relative_parts relative);
  _ ← validated_root expected;
  parent ← open_parent_fd parts false expected;
  removed ← eff_try (_ ← unlink_at fault parent (final parts); mret true)
    (fun e => match e with
              | FileNotFoundError _ => Some (if missing_ok then mret false else eff_raise e)
              | _ => None
              end);
  if removed : bool then fsync fault parent else mret tt.

(** [rename_under_root] *)
Definition rename_under_root (source destination : string) (overwrite : bool) (expected : option Z)
  : Eff FileSystem unit :=
  source_parts ← eff_lift (safe_relative_parts source);
  destination_parts ← eff_lift (safe_relative_parts destination);
  _ ← validated_root expected;
  source_fd ← open_parent_fd source_parts false expected;
  destination_fd ← open_parent_fd destination_parts false expected;
  _ ← eff_try (if overwrite
               then replace_at fault source_fd (final source_parts) destination_fd (final destination_parts)
               else rename_noreplace_at fault source_fd (final source_parts) destination_fd (final destination_parts))
        translate_escape;
  fsync fault destination_fd.
End SafePaths.

(** ** Examples *)
Definition no_fault : nat -> option (Z * nat) := fun _ => None.
Definition fixed_root : nat -> res Z := fun _ => Ok 1.

(** [/a.txt], [/dir/b.txt], and [/link] to [/etc]. *)
Definition sample_fs : FileSystem := mkFs
  (<[1 := Dir (<["a.txt" := 2]> (<["dir" := 3]> (<["link" := 5]> ∅)))%string]>
   (<[2 := File "A"]> (<[3 := Dir (<["b.txt"%string := 4]> ∅)]> (<[4 := File "B"]> (<[5 := Symlink "/etc"]> ∅))))) 6 0.

Example safe_paths_ex :
  let read p f := snd (read_bytes_under_root no_fault fixed_root p (Some 1) f) in
  let write p d o f := atomic_write_under_root no_fault fixed_root "00ff" p d o (Some 1) f in
  let f1 := fst (write "dir/b.txt" "B2" true sample_fs)%string in
  let f2 := fst (write "new/c.txt" "C" false f1)%string in
  map (fun p => read p f2) ["a.txt"; "dir/b.txt"; "new/c.txt"; "link/passwd"; "no"; "link"]%string
  = [Ok "A"; Ok "B2"; Ok "C"; Err (LauncherExn HostPathEscape); Err (FileNotFoundError "");
     Err (LauncherExn HostPathEscape)]%string
  /\ snd (write "a.txt" "X" false f2)%string = Err (FileExistsError "").
Proof. vm_compute. auto. Qed.

(** ** What the system calls change *)

(** Inode numbers in use are below the next one, and the directories form no
    cycle. *)
Record wf_fs (f : FileSystem) : Prop := mkWfFs {
  wf_acyclic : exists rank : Z -> nat, forall d es name i es',
    inodes f !! d = Some (Dir es) -> es !! name = Some i -> inodes f !! i = Some (Dir es') ->
    (rank d < rank i)%nat;
  wf_inodes : forall i n, inodes f !! i = Some n -> i < next_ino f;
  wf_entries : forall d es name i, inodes f !! d = Some (Dir es) -> es !! name = Some i -> i < next_ino f }.

(** The file system up to the count of system calls. *)
Definition same_fs (f f' : FileSystem) : Prop := inodes f' = inodes f /\ next_ino f' = next_ino f.

Lemma same_fs_refl f : same_fs f f.
Proof. split; reflexivity. Qed.
Lemma same_fs_tick f : same_fs f (tick f).
Proof. split; reflexivity. Qed.
Lemma same_fs_trans f g h : same_fs f g -> same_fs g h -> same_fs f h.
Proof. intros [H1 H2] [H3 H4]. split; congruence. Qed.

Lemma syscall_inv {A} fault (act : FileSystem -> FileSystem * res A) f f' r :
  syscall fault act f = (f', r) ->
  (exists errno n, fault (syscalls f) = Some (errno, n) /\ f' = tick f /\ r = Err (os_error errno))
  \/ (fault (syscalls f) = None /\ act (tick f) = (f', r)).
Proof.
  unfold syscall. destruct (fault (syscalls f)) as [[errno n]|]; [|auto]. intros [= <- <-]. left. eauto 6.
Qed.

(** [m] changes nothing, whatever it returns. *)
Definition pure_call {A} (m : Eff FileSystem A) : Prop := forall f f' r, m f = (f', r) -> same_fs f f'.

Lemma pure_syscall {A} fault (act : FileSystem -> FileSystem * res A) :
  (forall f, fst (act f) = f) -> pure_call (syscall fault act).
Proof.
  intros Ha f f' r Hs. apply syscall_inv in Hs as [(e & n & _ & -> & _)|[_ Hs]]; [apply same_fs_tick|].
  specialize (Ha (tick f)). rewrite Hs in Ha. cbn in Ha. subst. apply same_fs_tick.
Qed.

Lemma pure_ret {A} (a : A) : pure_call (mret a).
Proof. intros f f' r [= <- <-]. apply same_fs_refl. Qed.
Lemma pure_raise {A} e : pure_call (@eff_raise FileSystem A e).
Proof. intros f f' r [= <- <-]. apply same_fs_refl. Qed.
Lemma pure_lift {A} (x : res A) : pure_call (@eff_lift FileSystem A x).
Proof. intros f f' r [= <- <-]. apply same_fs_refl. Qed.

Lemma pure_bind {A B} (m : Eff FileSystem A) (k : A -> Eff FileSystem B) :
  pure_call m -> (forall a, pure_call (k a)) -> pure_call (m ≫= k).
Proof.
  intros Hm Hk f f' r Hs. unfold mbind, eff_bind in Hs. destruct (m f) as [f1 [a|e]] eqn:E.
  - eapply same_fs_trans; [exact (Hm _ _ _ E)|exact (Hk _ _ _ _ Hs)].
  - injection Hs as <- _. exact (Hm _ _ _ E).
Qed.

Lemma pure_try {A} (m : Eff FileSystem A) h :
  pure_call m -> (forall e k, h e = Some k -> pure_call k) -> pure_call (eff_try m h).
Proof.
  intros Hm Hh f f' r Hs. unfold eff_try in Hs. destruct (m f) as [f1 [a|e]] eqn:E.
  - injection Hs as <- _. exact (Hm _ _ _ E).
  - destruct (h e) as [k|] eqn:Ek.
    + eapply same_fs_trans; [exact (Hm _ _ _ E)|exact (Hh _ _ Ek _ _ _ Hs)].
    + injection Hs as <- _. exact (Hm _ _ _ E).
Qed.

Create HintDb pure_fs.
#[export] Hint Resolve pure_ret pure_raise pure_lift pure_bind pure_try : pure_fs.

Lemma pure_open_dir_at fault d name : pure_call (open_dir_at fault d name).
Proof.
  apply pure_syscall. intros f. unfold fail. destruct (entry f d name) as [i|]; [|reflexivity].
  now destruct (inodes f !! i) as [[]|].
Qed.

Lemma pure_open_at fault d name : pure_call (open_at fault d name).
Proof.
  apply pure_syscall. intros f. unfold fail. destruct (entry f d name) as [i|]; [|reflexivity].
  now destruct (inodes f !! i) as [[]|].
Qed.

Lemma pure_read_fd fault i : pure_call (read_fd fault i).
Proof. apply pure_syscall. intros f. unfold fail. now destruct (inodes f !! i) as [[]|]. Qed.

Lemma pure_fsync fault d : pure_call (fsync fault d).
Proof. now apply pure_syscall. Qed.

Lemma pure_translate {A} e k : @translate_escape A e = Some k -> pure_call k.
Proof. unfold translate_escape. destruct (is_escape e); [|discriminate]. intros [= <-]. apply pure_raise. Qed.

Lemma pure_resolve_root root_now : pure_call (resolve_root root_now).
Proof. intros f f' r [= <- <-]. apply same_fs_tick. Qed.
Lemma pure_root_identity i : pure_call (root_identity i).
Proof. intros f f' r. unfold root_identity. destruct (is_dir f i); intros [= <- <-]; apply same_fs_refl. Qed.
Lemma pure_require_dir i : pure_call (require_dir i).
Proof. intros f f' r. unfold require_dir. destruct (is_dir f i); intros [= <- <-]; apply same_fs_refl. Qed.
#[export] Hint Resolve pure_open_dir_at pure_open_at pure_read_fd pure_fsync pure_resolve_root
  pure_root_identity pure_require_dir : pure_fs.

Lemma pure_validated_root root_now expected : pure_call (validated_root root_now expected).
Proof.
  unfold validated_root, validate_root_identity, host_path_escape.
  apply pure_bind; [auto with pure_fs|]. intros c. destruct expected; [|auto with pure_fs].
  apply pure_bind; [|auto with pure_fs]. apply pure_bind; [auto with pure_fs|]. intros a.
  apply pure_bind; [auto with pure_fs|]. intros b. destruct (negb _); auto with pure_fs.
Qed.

Lemma pure_open_dirs fault d comps : pure_call (open_dirs fault false d comps).
Proof.
  revert d. induction comps as [|c rest IH]; intros d; cbn [open_dirs]; [apply pure_ret|].
  apply pure_bind; [|intros a; apply IH]. apply pure_try; [auto with pure_fs|].
  intros e k. cbn [negb]. destruct e; intros Hk; try exact (pure_translate _ _ Hk).
  injection Hk as <-. apply pure_raise.
Qed.

Lemma pure_open_parent fault root_now parts expected :
  pure_call (open_parent_fd fault root_now parts false expected).
Proof.
  unfold open_parent_fd, open_root. apply pure_bind; [auto with pure_fs|]. intros root.
  destruct expected; [destruct (negb _); [apply pure_raise|]|]; apply pure_open_dirs.
Qed.

(** Reading is opening and reading the descriptor. *)
Lemma read_bytes_open fault root_now relative expected f :
  read_bytes_under_root fault root_now relative expected f
  = (descriptor ← safe_open_under_root fault root_now relative expected; read_fd fault descriptor) f.
Proof.
  unfold read_bytes_under_root, safe_open_under_root, mbind, eff_bind.
  destruct (eff_lift _ f) as [f1 [parts|]]; [|reflexivity]. destruct (validated_root _ _ f1) as [f2 [u|]]; [|reflexivity].
  destruct (open_parent_fd _ _ _ _ _ f2) as [f3 [p|]]; reflexivity.
Qed.

(** Reading changes nothing. *)
Lemma pure_read_bytes fault root_now relative expected :
  pure_call (read_bytes_under_root fault root_now relative expected).
Proof.
  unfold read_bytes_under_root. apply pure_bind; [auto with pure_fs|]. intros parts.
  apply pure_bind; [apply pure_validated_root|]. intros _.
  apply pure_bind; [apply pure_open_parent|]. intros parent.
  apply pure_bind; [|auto with pure_fs]. apply pure_try; [auto with pure_fs|]. apply pure_translate.
Qed.

(** ** Atomic writes *)
Section AtomicWrite.
Context (fault : nat -> option (Z * nat)).
Context (f0 : FileSystem) (parent : Z) (es : gmap string Z) (temporary name data : string).
Context (Hwf : wf_fs f0) (Hparent : inodes f0 !! parent = Some (Dir es)).
Context (Hfresh : es !! temporary = None) (Hne : temporary <> name).

Let new := next_ino f0.

(** The file system with the entries [es'] in the directory and the text [c]
    in the new inode. *)
Definition written_state (f : FileSystem) (es' : gmap string Z) (c : string) : Prop :=
  inodes f = <[new := File c]> (<[parent := Dir es']> (inodes f0)) /\ next_ino f = new + 1.

Lemma parent_not_new : parent <> new.
Proof. pose proof (wf_inodes _ Hwf _ _ Hparent). unfold new. lia. Qed.

Lemma name_not_new : es !! name <> Some new.
Proof. intros Hn. pose proof (wf_entries _ Hwf _ _ _ _ Hparent Hn). unfold new in *. lia. Qed.

Lemma ws_entry f es' c n : written_state f es' c -> entry f parent n = es' !! n.
Proof.
  intros [Hi _]. unfold entry. rewrite Hi, lookup_insert_ne, lookup_insert_eq by (apply not_eq_sym, parent_not_new).
  reflexivity.
Qed.

Lemma ws_is_dir f es' c : written_state f es' c -> is_dir f parent = true /\ is_dir f new = false.
Proof.
  intros [Hi _]. unfold is_dir. rewrite Hi, lookup_insert_eq.
  rewrite lookup_insert_ne, lookup_insert_eq by (apply not_eq_sym, parent_not_new). auto.
Qed.

Lemma ws_set_entries f es' c g : written_state f es' c -> written_state (set_entries parent g f) (g es') c.
Proof.
  intros [Hi Hn]. unfold set_entries. rewrite Hi.
  rewrite lookup_insert_ne, lookup_insert_eq by (apply not_eq_sym, parent_not_new).
  split; [|exact Hn]. cbn [with_inodes inodes].
  rewrite insert_insert_ne by apply parent_not_new. now rewrite insert_insert_eq.
Qed.

Lemma ws_same f f' es' c : written_state f es' c -> same_fs f f' -> written_state f' es' c.
Proof. intros [Hi Hn] [Hi' Hn']. split; congruence. Qed.

Lemma create_step f f' r : same_fs f0 f -> create_excl_at fault parent temporary f = (f', r) ->
  (exists e, r = Err e /\ is_OSError e = true /\ same_fs f0 f')
  \/ (r = Ok new /\ written_state f' (<[temporary := new]> es) "").
Proof.
  intros [Hi Hn] Hs. apply syscall_inv in Hs as [(errno & n & _ & -> & ->)|[_ Hs]].
  - left. eexists. split; [reflexivity|]. split; [unfold os_error; destruct (_ =? _); [|destruct (_ =? _)]; reflexivity|].
    split; [exact Hi|exact Hn].
  - right. revert Hs. unfold is_dir, entry, allocate, set_entries. cbn [inodes tick next_ino]. rewrite Hi, Hparent, Hn.
    cbn [negb]. rewrite Hfresh. intros [= <- <-]. split; [reflexivity|]. split; [|reflexivity].
    reflexivity.
Qed.

Lemma write_step f f' r es' c : written_state f es' c -> write_descriptor fault new data f = (f', r) ->
  (r = Ok tt /\ written_state f' es' data) \/ (exists errno c', r = Err (os_error errno) /\ written_state f' es' c').
Proof.
  intros [Hi Hn]. unfold write_descriptor. destruct (fault (syscalls f)) as [[errno n]|]; intros [= <- <-].
  - right. exists errno, (str_take n data). split; [reflexivity|]. split; [|exact Hn].
    cbn [with_inodes tick inodes]. rewrite Hi. now rewrite insert_insert_eq.
  - left. split; [reflexivity|]. split; [|exact Hn]. cbn [with_inodes tick inodes]. rewrite Hi. now rewrite insert_insert_eq.
Qed.

(** The directory with the new file under its name and no temporary entry. *)
Definition final_entries : gmap string Z := <[name := new]> (delete temporary (<[temporary := new]> es)).

Lemma replace_step f f' r c : written_state f (<[temporary := new]> es) c ->
  replace_at fault parent temporary parent name f = (f', r) ->
  (r = Ok tt /\ written_state f' final_entries c)
  \/ (exists errno, r = Err (os_error errno) /\ written_state f' (<[temporary := new]> es) c).
Proof.
  intros Hw Hs. assert (Hw' := ws_same _ _ _ _ Hw (same_fs_tick f)).
  apply syscall_inv in Hs as [(errno & n & _ & -> & ->)|[_ Hs]]; [right; eauto|]. revert Hs.
  rewrite !(ws_entry _ _ _ _ Hw'), lookup_insert_eq.
  destruct (rename_error _ _ _ _) as [errno|]; [intros [= <- <-]; right; eauto|].
  rewrite lookup_insert_ne by exact Hne. rewrite bool_decide_eq_false_2 by apply name_not_new.
  intros [= <- <-]. left. split; [reflexivity|]. unfold move_entry.
  now apply (ws_set_entries _ _ _ (fun es => <[name:=new]> es)), (ws_set_entries _ _ _ (fun es => delete temporary es)).
Qed.

Lemma unlink_step f f' r es' c : written_state f es' c -> unlink_at fault parent temporary f = (f', r) ->
  es' !! temporary = Some new ->
  (r = Ok tt /\ written_state f' (delete temporary es') c)
  \/ (exists errno, r = Err (os_error errno) /\ written_state f' es' c).
Proof.
  intros Hw Hs Ht. assert (Hw' := ws_same _ _ _ _ Hw (same_fs_tick f)).
  apply syscall_inv in Hs as [(errno & n & _ & -> & ->)|[_ Hs]]; [right; eauto|]. revert Hs.
  rewrite (ws_entry _ _ _ _ Hw'), Ht, (proj2 (ws_is_dir _ _ _ Hw')). intros [= <- <-].
  left. split; [reflexivity|]. now apply (ws_set_entries _ _ _ (fun es => delete temporary es)).
Qed.

Lemma link_step f f' r c : written_state f (<[temporary := new]> es) c ->
  link_at fault parent temporary parent name f = (f', r) ->
  (r = Ok tt /\ es !! name = None /\ written_state f' (<[name := new]> (<[temporary := new]> es)) c)
  \/ (exists errno, r = Err (os_error errno) /\ written_state f' (<[temporary := new]> es) c).
Proof.
  intros Hw Hs. assert (Hw' := ws_same _ _ _ _ Hw (same_fs_tick f)).
  apply syscall_inv in Hs as [(errno & n & _ & -> & ->)|[_ Hs]]; [right; eauto|]. revert Hs.
  rewrite !(ws_entry _ _ _ _ Hw'), lookup_insert_eq, (proj2 (ws_is_dir _ _ _ Hw')), (proj1 (ws_is_dir _ _ _ Hw')).
  cbn [negb]. rewrite lookup_insert_ne by exact Hne.
  destruct (es !! name); intros [= <- <-]; [right; eauto|]. left. split; [reflexivity|]. split; [reflexivity|].
  now apply (ws_set_entries _ _ _ (fun es => <[name:=new]> es)).
Qed.

(** The directory as seen by others: only [name] may have changed, to the
    complete new file, and the temporary name is free or the new file's. *)
Definition good (es' : gmap string Z) (c : string) : Prop :=
  (forall n, n <> name -> n <> temporary -> es' !! n = es !! n)
  /\ (es' !! name = es !! name \/ (es' !! name = Some new /\ c = data))
  /\ (es' !! temporary = None \/ es' !! temporary = Some new).

Definition stored (overwrite : bool) (es' : gmap string Z) (c : string) : Prop :=
  es' !! name = Some new /\ c = data /\ es' !! temporary = None /\ (overwrite = false -> es !! name = None).

Lemma good_created c : good (<[temporary := new]> es) c.
Proof.
  split; [intros n _ Hn; now rewrite lookup_insert_ne by auto|]. rewrite lookup_insert_ne by exact Hne.
  rewrite lookup_insert_eq. auto.
Qed.

Lemma good_delete es' c : good es' c -> good (delete temporary es') c.
Proof.
  intros (H1 & H2 & _). split; [intros n Hn Ht; rewrite lookup_delete_ne by auto; auto|].
  rewrite lookup_delete_ne by exact Hne. rewrite lookup_delete_eq. auto.
Qed.

Lemma good_final : good final_entries data /\ stored true final_entries data.
Proof.
  unfold final_entries, good, stored. rewrite lookup_insert_eq.
  rewrite (lookup_insert_ne _ name temporary) by auto. rewrite lookup_delete_eq.
  split; [|split; [reflexivity|split; [reflexivity|split; [reflexivity|discriminate]]]].
  split; [|auto]. intros n Hn Ht. now rewrite lookup_insert_ne, lookup_delete_ne, lookup_insert_ne by auto.
Qed.

Lemma good_linked : good (<[name := new]> (<[temporary := new]> es)) data.
Proof.
  unfold good. rewrite lookup_insert_eq, (lookup_insert_ne _ name temporary), lookup_insert_eq by auto.
  split; [|auto]. intros n Hn Ht. now rewrite !lookup_insert_ne by auto.
Qed.

(** The state after some of the steps of a write that returned [r]. *)
Definition progress (overwrite : bool) (f : FileSystem) (r : res unit) : Prop :=
  (same_fs f0 f /\ is_ok r = false)
  \/ exists es' c, written_state f es' c /\ good es' c /\ (is_ok r = true -> stored overwrite es' c).

Definition os_failure (r : res unit) : Prop := forall e, r = Err e -> is_OSError e = true.

Lemma os_error_is errno : is_OSError (os_error errno) = true.
Proof. unfold os_error. destruct (_ =? _); [|destruct (_ =? _)]; reflexivity. Qed.

Lemma fsync_progress overwrite f f' r es' c :
  written_state f es' c -> good es' c -> stored overwrite es' c ->
  fsync fault parent f = (f', r) -> progress overwrite f' r /\ os_failure r.
Proof.
  intros Hw Hg Hst Hs. split.
  - right. exists es', c. split; [|auto]. eapply ws_same; [exact Hw|]. exact (pure_fsync _ _ _ _ _ Hs).
  - intros e ->. apply syscall_inv in Hs as [(errno & n & _ & _ & [= ->])|[_ Hs]]; [apply os_error_is|discriminate].
Qed.

(** A step that failed in a good state. *)
Lemma failed_progress overwrite f es' c errno :
  written_state f es' c -> good es' c ->
  progress overwrite f (Err (os_error errno)) /\ os_failure (Err (os_error errno)).
Proof.
  intros Hw Hg. split; [right; exists es', c; split; [exact Hw|]; split; [exact Hg|discriminate]|].
  intros e [= <-]. apply os_error_is.
Qed.

Lemma write_and_rename_progress overwrite f f' r :
  same_fs f0 f -> write_and_rename fault parent temporary name data overwrite f = (f', r) ->
  progress overwrite f' r /\ os_failure r.
Proof.
  intros Hsame Hs. unfold write_and_rename in Hs. unfold mbind at 1, eff_bind at 1 in Hs.
  destruct (create_excl_at fault parent temporary f) as [f1 r1] eqn:E1.
  destruct (create_step _ _ _ Hsame E1) as [(e & -> & He & Hs1)|[-> Hw1]].
  { injection Hs as <- <-. split; [left; auto|]. intros x [= <-]. exact He. }
  unfold mbind at 1, eff_bind at 1 in Hs. destruct (write_descriptor fault new data f1) as [f2 r2] eqn:E2.
  destruct (write_step _ _ _ _ _ Hw1 E2) as [[-> Hw2]|(errno & c' & -> & Hw2)].
  2:{ injection Hs as <- <-. exact (failed_progress _ _ _ _ _ Hw2 (good_created _)). }
  unfold mbind at 1, eff_bind at 1 in Hs. destruct overwrite.
  - destruct (replace_at fault parent temporary parent name f2) as [f3 r3] eqn:E3.
    destruct (replace_step _ _ _ _ Hw2 E3) as [[-> Hw3]|(errno & -> & Hw3)].
    + exact (fsync_progress _ _ _ _ _ _ Hw3 (proj1 good_final) (proj2 good_final) Hs).
    + injection Hs as <- <-. exact (failed_progress _ _ _ _ _ Hw3 (good_created _)).
  - unfold mbind at 1, eff_bind at 1 in Hs.
    destruct (link_at fault parent temporary parent name f2) as [f3 r3] eqn:E3.
    destruct (link_step _ _ _ _ Hw2 E3) as [(-> & Hnone & Hw3)|(errno & -> & Hw3)].
    2:{ injection Hs as <- <-. exact (failed_progress _ _ _ _ _ Hw3 (good_created _)). }
    destruct (unlink_at fault parent temporary f3) as [f4 r4] eqn:E4.
    destruct (unlink_step _ _ _ _ _ Hw3 E4) as [[-> Hw4]|(errno & -> & Hw4)].
    + rewrite lookup_insert_ne by auto. apply lookup_insert_eq.
    + eapply (fsync_progress false _ _ _ _ _ Hw4); [apply good_delete, good_linked| |exact Hs].
      unfold stored. rewrite lookup_delete_ne by exact Hne. rewrite lookup_insert_eq, lookup_delete_eq. auto.
    + injection Hs as <- <-. exact (failed_progress _ _ _ _ _ Hw4 good_linked).
Qed.

(** Removing the temporary file keeps the state good. *)
Lemma discard_progress overwrite f f' r x :
  progress overwrite f (Err x) -> discard_temporary fault parent temporary f = (f', r) ->
  (same_fs f0 f' \/ exists es' c, written_state f' es' c /\ good es' c).
Proof.
  intros Hp Hs. unfold discard_temporary, eff_try in Hs.
  destruct (unlink_at fault parent temporary f) as [f1 r1] eqn:E.
  assert (Hf : f' = f1) by (destruct r1 as [|[]]; injection Hs as <- _; reflexivity).
  subst f'. clear Hs. destruct Hp as [[Hsame _]|(es' & c & Hw & Hg & _)].
  - left. apply syscall_inv in E as [(errno & n & _ & -> & _)|[_ E]].
    + eapply same_fs_trans; [exact Hsame|apply same_fs_tick].
    + revert E. unfold entry. cbn [tick inodes]. rewrite (proj1 Hsame), Hparent, Hfresh.
      intros [= <- _]. eapply same_fs_trans; [exact Hsame|apply same_fs_tick].
  - right. destruct (proj2 (proj2 Hg)) as [Hnone|Hsome].
    + exists es', c. split; [|exact Hg]. eapply ws_same; [exact Hw|].
      apply syscall_inv in E as [(errno & n & _ & -> & _)|[_ E]]; [apply same_fs_tick|].
      revert E. rewrite (ws_entry (tick f) es' c) by (eapply ws_same; [exact Hw|apply same_fs_tick]).
      rewrite Hnone. intros [= <- _]. apply same_fs_tick.
    + destruct (unlink_step _ _ _ _ _ Hw E Hsome) as [[_ Hw1]|(errno & _ & Hw1)]; eauto.
      exists (delete temporary es'), c. split; [exact Hw1|]. now apply good_delete.
Qed.

Lemma good_value es' c n i : good es' c -> es' !! n = Some i -> i = new \/ es !! n = Some i.
Proof.
  intros (H1 & H2 & H3) Hn. destruct (decide (n = name)) as [->|Hname].
  - destruct H2 as [H2|[H2 _]]; [right; congruence|left; congruence].
  - destruct (decide (n = temporary)) as [->|Ht].
    + destruct H3; [congruence|left; congruence].
    + right. now rewrite <- H1.
Qed.

Lemma ws_wf f es' c : written_state f es' c -> good es' c -> wf_fs f.
Proof.
  intros [Hi Hn] Hg. destruct Hwf as [[rank Hrank] Hin Hen]. pose proof parent_not_new as Hpn.
  assert (Hdir : forall d x, inodes f !! d = Some (Dir x) ->
            d <> new /\ (d = parent /\ x = es' \/ d <> parent /\ inodes f0 !! d = Some (Dir x))).
  { intros d x. rewrite Hi. destruct (Z.eq_dec d new) as [->|Hd]; [now rewrite lookup_insert_eq|].
    rewrite lookup_insert_ne by auto. destruct (Z.eq_dec d parent) as [->|Hp].
    - rewrite lookup_insert_eq. intros [= <-]. auto.
    - rewrite lookup_insert_ne by auto. auto. }
  constructor.
  - exists rank. intros d x n i y Hd Hx Hy. apply Hdir in Hd as [_ Hd]. apply Hdir in Hy as [Hy1 Hy].
    assert (Hy0 : exists y', inodes f0 !! i = Some (Dir y')) by (destruct Hy as [[-> _]|[_ Hy]]; eauto).
    destruct Hy0 as [y' Hy0]. destruct Hd as [[-> ->]|[_ Hd]]; [|eauto].
    destruct (good_value _ _ _ _ Hg Hx); [contradiction|eauto].
  - intros i x Hx. rewrite Hn. rewrite Hi in Hx. destruct (Z.eq_dec i new) as [->|Hd]; [lia|].
    rewrite lookup_insert_ne in Hx by auto. destruct (Z.eq_dec i parent) as [->|Hp].
    + specialize (Hin _ _ Hparent). unfold new. lia.
    + rewrite lookup_insert_ne in Hx by auto. specialize (Hin _ _ Hx). unfold new. lia.
  - intros d x n i Hd Hx. rewrite Hn. apply Hdir in Hd as [_ [[-> ->]|[_ Hd]]].
    + destruct (good_value _ _ _ _ Hg Hx) as [->|Hx0]; [lia|]. specialize (Hen _ _ _ _ Hparent Hx0). unfold new. lia.
    + specialize (Hen _ _ _ _ Hd Hx). unfold new. lia.
Qed.
End AtomicWrite.

(** The node that a name of a directory leads to. *)
Definition node_at (f : FileSystem) (d : Z) (name : string) : option node :=
  match entry f d name with Some i => inodes f !! i | None => None end.

Lemma temporary_name_ne token name : temporary_name token name <> name.
Proof.
  intros H. apply (f_equal String.length) in H. unfold temporary_name in H.
  rewrite !length_append in H. simpl in H. lia.
Qed.

(** What a write leaves behind. *)
Record write_outcome (f f' : FileSystem) (parent : Z) (temporary name data : string) : Prop := mkOutcome {
  wo_wf : wf_fs f';
  wo_next : next_ino f <= next_ino f';
  wo_others : forall i, i < next_ino f -> i <> parent -> inodes f' !! i = inodes f !! i;
  wo_new : forall i, next_ino f <= i -> is_dir f' i = false;
  wo_dir : is_dir f' parent = true;
  wo_names : forall n, n <> name -> n <> temporary -> entry f' parent n = entry f parent n;
  wo_name : (entry f' parent name = entry f parent name /\ node_at f' parent name = node_at f parent name)
            \/ node_at f' parent name = Some (File data) }.

Section Outcome.
Context (fault : nat -> option (Z * nat)) (parent : Z) (temporary name data : string) (f : FileSystem)
  (es : gmap string Z).
Context (Hwf : wf_fs f) (Hparent : inodes f !! parent = Some (Dir es))
  (Hfresh : es !! temporary = None) (Hne : temporary <> name).

Lemma parent_entry n : entry f parent n = es !! n.
Proof. unfold entry. now rewrite Hparent. Qed.

Lemma not_self n : es !! n <> Some parent.
Proof.
  intros Hn. destruct (wf_acyclic _ Hwf) as [rank Hr]. specialize (Hr _ _ _ _ _ Hparent Hn Hparent). lia.
Qed.

Lemma same_outcome f' : same_fs f f' -> write_outcome f f' parent temporary name data.
Proof.
  intros [Hi Hn]. assert (He : forall n, entry f' parent n = entry f parent n) by (intros n; unfold entry; now rewrite Hi).
  constructor.
  - destruct Hwf as [H1 H2 H3]. constructor; rewrite ?Hi, ?Hn; auto.
  - lia.
  - intros i _ _. now rewrite Hi.
  - intros i Hn'. unfold is_dir. rewrite Hi. destruct (inodes f !! i) eqn:E; [|reflexivity].
    apply (wf_inodes _ Hwf) in E. lia.
  - unfold is_dir. now rewrite Hi, Hparent.
  - auto.
  - left. split; [auto|]. unfold node_at. now rewrite He, Hi.
Qed.

Lemma written_outcome f' es' c :
  written_state f parent f' es' c -> good f es temporary name data es' c ->
  write_outcome f f' parent temporary name data.
Proof.
  intros Hw Hg. assert (Hpn := parent_not_new f parent es Hwf Hparent).
  assert (He := ws_entry f parent es Hwf Hparent f' es' c). constructor.
  - exact (ws_wf f parent es temporary name data Hwf Hparent f' es' c Hw Hg).
  - destruct Hw as [_ ->]. lia.
  - intros i Hi Hp. destruct Hw as [-> _]. rewrite !lookup_insert_ne by (auto || lia). reflexivity.
  - intros i Hi. destruct (Z.eq_dec i (next_ino f)) as [->|Hne'];
      [exact (proj2 (ws_is_dir f parent es Hwf Hparent f' es' c Hw))|].
    pose proof (wf_inodes _ Hwf _ _ Hparent). unfold is_dir. destruct Hw as [-> _].
    rewrite !lookup_insert_ne by lia. destruct (inodes f !! i) eqn:E; [|reflexivity].
    apply (wf_inodes _ Hwf) in E. lia.
  - exact (proj1 (ws_is_dir f parent es Hwf Hparent f' es' c Hw)).
  - intros n Hn Ht. rewrite (He n Hw), parent_entry. now apply Hg.
  - destruct (proj1 (proj2 Hg)) as [Hs|[Hs ->]].
    + left. unfold node_at. rewrite (He name Hw), Hs, parent_entry. split; [reflexivity|].
      destruct (es !! name) as [j|] eqn:Ej; [|reflexivity].
      pose proof (wf_entries _ Hwf _ _ _ _ Hparent Ej). assert (j <> parent) by (intros ->; exact (not_self name Ej)).
      destruct Hw as [-> _]. rewrite !lookup_insert_ne by (auto || lia). reflexivity.
    + right. unfold node_at. rewrite (He name Hw), Hs. destruct Hw as [-> _]. apply lookup_insert_eq.
Qed.
End Outcome.

Lemma atomic_write_outcome fault token parent name data overwrite f f' r :
  wf_fs f -> is_dir f parent = true -> entry f parent (temporary_name token name) = None ->
  atomic_write_at fault token parent name data overwrite f = (f', r) ->
  write_outcome f f' parent (temporary_name token name) name data
  /\ (r = Ok tt -> node_at f' parent name = Some (File data)
        /\ entry f' parent (temporary_name token name) = None
        /\ (overwrite = false -> entry f parent name = None)).
Proof.
  intros Hwf Hdir Hfresh Hs. set (temporary := temporary_name token name) in *.
  assert (Hne : temporary <> name) by apply temporary_name_ne.
  unfold is_dir in Hdir. destruct (inodes f !! parent) as [[es| |]|] eqn:Hparent; try discriminate.
  assert (Hent := parent_entry parent f es Hparent). rewrite Hent in Hfresh.
  unfold atomic_write_at, eff_try in Hs. fold temporary in Hs.
  destruct (write_and_rename fault parent temporary name data overwrite f) as [f1 r1] eqn:E1.
  destruct (write_and_rename_progress fault f parent es temporary name data Hwf Hparent Hfresh Hne
              overwrite f f1 r1 (same_fs_refl f) E1) as [Hp Hos].
  destruct r1 as [[]|e].
  - injection Hs as <- <-. destruct Hp as [[_ [=]]|(es' & c & Hw & Hg & Hst)].
    split; [eapply written_outcome; eassumption|]. intros _.
    destruct (Hst eq_refl) as (Hname & -> & Ht & Hfree). unfold node_at.
    assert (He := fun n => ws_entry f parent es Hwf Hparent f1 es' data n Hw). rewrite !He, Hname, (Hent name).
    destruct Hw as [-> _]. rewrite lookup_insert_eq. auto.
  - rewrite (Hos e eq_refl) in Hs. unfold mbind, eff_bind in Hs.
    destruct (discard_temporary fault parent temporary f1) as [f2 r2] eqn:E2.
    assert (Hend : f' = f2 /\ is_ok r = false).
    { destruct r2 as [[]|x]; [|injection Hs as <- <-; auto].
      destruct (bool_decide _); [injection Hs as <- <-; auto|].
      destruct (is_escape e); injection Hs as <- <-; auto. }
    destruct Hend as [-> Hr]. split; [|intros ->; discriminate].
    destruct (discard_progress fault f parent es temporary name data Hwf Hparent Hfresh Hne overwrite f1 f2 r2 e Hp E2)
      as [Hsame|(es' & c & Hw & Hg)].
    + eapply same_outcome; eassumption.
    + eapply written_outcome; eassumption.
Qed.

(** C26: a file write is never torn.  Whatever system calls fail, and however
    little of a failing write got through, [_atomic_write_at] leaves the target
    name either as it was or naming a file with exactly the new data; every
    other name of the directory but the temporary one, and every other file,
    is untouched.  If it returns, the new data is in place, the temporary name
    is gone, and without [overwrite] the name was free before. *)
Theorem atomic_write_never_torn fault token parent name data overwrite f f' r :
  wf_fs f -> is_dir f parent = true -> entry f parent (temporary_name token name) = None ->
  atomic_write_at fault token parent name data overwrite f = (f', r) ->
  (node_at f' parent name = node_at f parent name \/ node_at f' parent name = Some (File data))
  /\ (forall n, n <> name -> n <> temporary_name token name -> entry f' parent n = entry f parent n)
  /\ (forall i, i < next_ino f -> i <> parent -> inodes f' !! i = inodes f !! i)
  /\ (r = Ok tt -> node_at f' parent name = Some (File data)
        /\ entry f' parent (temporary_name token name) = None
        /\ (overwrite = false -> entry f parent name = None)).
Proof.
  intros Hwf Hdir Hfresh Hs.
  destruct (atomic_write_outcome _ _ _ _ _ _ _ _ _ Hwf Hdir Hfresh Hs) as [Ho Hok].
  split; [|split; [apply Ho|split; [apply Ho|exact Hok]]].
  destruct (wo_name _ _ _ _ _ _ Ho) as [[_ H]|H]; auto.
Qed.

Lemma sample_fs_wf : wf_fs sample_fs.
Proof.
  assert (Hcases : forall i n, inodes sample_fs !! i = Some n ->
    (i = 1 /\ n = Dir (<["a.txt" := 2]> (<["dir" := 3]> (<["link" := 5]> ∅)))%string) \/ (i = 2 /\ n = File "A")
    \/ (i = 3 /\ n = Dir (<["b.txt"%string := 4]> ∅)) \/ (i = 4 /\ n = File "B") \/ (i = 5 /\ n = Symlink "/etc")).
  { intros i n. unfold sample_fs. cbn [inodes]. intros Hi.
    repeat (apply lookup_insert_Some in Hi as [[<- <-]|[_ Hi]]; [intuition|]). now rewrite lookup_empty in Hi. }
  assert (Hent : forall d es name i, inodes sample_fs !! d = Some (Dir es) -> es !! name = Some i ->
    i < 6 /\ (i = 3 -> d = 1)).
  { intros d es name i Hd Hn. apply Hcases in Hd as [[-> [= ->]]|[[_ [=]]|[[-> [= ->]]|[[_ [=]]|[_ [=]]]]]];
      repeat (apply lookup_insert_Some in Hn as [[_ <-]|[_ Hn]]; [split; [lia|intros; (reflexivity || lia)]|]);
      now rewrite lookup_empty in Hn. }
  constructor.
  - exists (fun i => if i =? 3 then 1%nat else 0%nat). intros d es n i es' Hd Hn Hi.
    destruct (Hent _ _ _ _ Hd Hn) as [_ H3].
    apply Hcases in Hi as [[-> [= ->]]|[[_ [=]]|[[-> [= ->]]|[[_ [=]]|[_ [=]]]]]].
    + exfalso. apply Hcases in Hd as [[-> [= ->]]|[[_ [=]]|[[-> [= ->]]|[[_ [=]]|[_ [=]]]]]];
        repeat (apply lookup_insert_Some in Hn as [[_ Hn]|[_ Hn]]; [lia|]); now rewrite lookup_empty in Hn.
    + rewrite (H3 eq_refl). simpl. lia.
  - intros i n Hi. change (next_ino sample_fs) with 6. apply Hcases in Hi. lia.
  - intros d es n i Hd Hn. exact (proj1 (Hent _ _ _ _ Hd Hn)).
Qed.

Lemma atomic_write_never_torn_witness :
  let f' := fst (atomic_write_at no_fault "00ff" 3 "b.txt" "B2" true sample_fs) in
  node_at f' 3 "b.txt" = Some (File "B2") /\ entry f' 3 (temporary_name "00ff" "b.txt") = None.
Proof.
  destruct (atomic_write_never_torn no_fault "00ff" 3 "b.txt" "B2" true sample_fs
              (fst (atomic_write_at no_fault "00ff" 3 "b.txt" "B2" true sample_fs))
              (snd (atomic_write_at no_fault "00ff" 3 "b.txt" "B2" true sample_fs))
              sample_fs_wf eq_refl eq_refl eq_refl) as (_ & _ & _ & H).
  destruct (H ltac:(vm_compute; reflexivity)) as (H1 & H2 & _). auto.
Defined.
