(* ===== verification/WinPaths.v ===== *)
(** * Safe paths on Windows (the Windows branch of src/notebook_launcher/safe_paths.py)

    Directories are opened one component at a time, relative to the handle of
    the directory before and never through a reparse point; a write goes to a
    temporary file whose open handle is renamed.  What a path resolves to, and
    every kernel call, answer through [WinEnv]. *)
From S2P Require Export Win32 SafePaths.

(** ** Names as the kernel gets them *)

(** The code points of a text, and its UTF-16 units. *)
Definition lead_bits (b : Z) : Z := if b <? 0x80 then b else if b <? 0xE0 then Z.land b 31 else if b <? 0xF0 then Z.land b 15 else Z.land b 7.

Fixpoint code_points_from (current : option Z) (s : string) : list Z :=
  match s with
  | EmptyString => match current with Some n => [n] | None => [] end
  | String c s' =>
      if is_cont c then
        match current with
        | Some n => code_points_from (Some (n * 64 + Z.land (ord c) 63)) s'
        | None => code_points_from (Some (Z.land (ord c) 63)) s'
        end
      else match current with
           | Some n => n :: code_points_from (Some (lead_bits (ord c))) s'
           | None => code_points_from (Some (lead_bits (ord c))) s'
           end
  end.
Definition code_points (s : string) : list Z := code_points_from None s.

Definition utf16_units (code : Z) : list Z :=
  if code <? 0x10000 then [code]
  else [0xD800 + Z.shiftr (code - 0x10000) 10; 0xDC00 + Z.land (code - 0x10000) 1023].
Definition utf16 (s : string) : list Z := flat_map utf16_units (code_points s).

(** The [UnicodeString] of a name: its length field is [len(name)] code points
    of two bytes, in 16 bits. *)
Definition unicode_string (name : string) : list Z :=
  take (Z.to_nat (Z.land (2 * Z.of_nat (str_len name)) 0xFFFF / 2)) (utf16 name).

(** [RootIdentity], and what [stat] says of a path. *)
Record RootIdentity := mkRootIdentity { ri_device : Z; ri_inode : Z }.
Record PathInfo := mkPathInfo { pi_is_dir : bool; pi_reparse : bool; pi_identity : RootIdentity }.

#[export] Instance root_identity_eq : EqDecision RootIdentity.
Proof. solve_decision. Defined.

Section WinPaths.
Context (env : WinEnv).
(** [Path.resolve(strict=True)] and [Path.lstat()] of the operating system. *)
Context (resolve : WinTrace -> string -> res string) (lstat : WinTrace -> string -> res PathInfo).

Definition path_call {A} (c : win_call) (answer : WinTrace -> res A) : Eff WinTrace A := fun t =>
  (t ++ [(c, Value 0)], answer t).
Definition resolve_path (p : string) : Eff WinTrace string := path_call (ResolvePath p) (fun t => resolve t p).
Definition stat_path (p : string) : Eff WinTrace PathInfo := path_call (StatPath p) (fun t => lstat t p).

Definition escape {A} : Eff WinTrace A := eff_raise (LauncherExn HostPathEscape).

(** [_is_reparse_point] *)
Definition is_reparse_point (p : string) : Eff WinTrace bool :=
  eff_try (info ← stat_path p; mret (pi_reparse info))
    (fun e => match e with FileNotFoundError _ => Some (mret false) | _ => None end).

(** [root_identity], [validate_root_identity] and [_validated_root] *)
Definition root_identity_of (p : string) : Eff WinTrace RootIdentity :=
  info ← stat_path p;
  reparse ← (if pi_is_dir info then is_reparse_point p else mret true);
  if reparse : bool then escape else mret (pi_identity info).

Definition validate_identity (p : string) (expected : RootIdentity) : Eff WinTrace string :=
  canonical ← resolve_path p;
  current ← root_identity_of canonical;
  if bool_decide (current = expected) then mret canonical else escape.

Definition validated_root_path (p : string) (expected : option RootIdentity) : Eff WinTrace string :=
  canonical ← resolve_path p;
  match expected with
  | Some e => _ ← validate_identity canonical e; mret canonical
  | None =>
      reparse ← is_reparse_point canonical;
      info ← (if reparse : bool then mret (Some false)
              else eff_try (i ← stat_path canonical; mret (Some (pi_is_dir i))) (fun e => if is_OSError e then Some (mret (Some false)) else None));
      match info with Some true => mret canonical | _ => escape end
  end.

(** ** Handles *)

(** [_handle_is_reparse_windows] *)
Definition handle_is_reparse (h : Z) : Eff WinTrace bool :=
  attributes ← win_or env OSError (GetFileInformationByHandleEx h);
  mret (negb (Z.land attributes 0x400 =? 0)).

(** [if _handle_is_reparse_windows(h): close; raise HostPathEscape()] *)
Definition refuse_reparse (h : Z) : Eff WinTrace unit :=
  reparse ← handle_is_reparse h;
  if reparse : bool then _ ← close_handle env h; escape else mret tt.

(** [_nt_open_relative_windows] *)
Definition disposition_of (create exclusive truncate : bool) : Z :=
  if create then if truncate then 5 else if exclusive then 2 else 3 else if truncate then 4 else 1.

Definition nt_open_relative (parent : Z) (name : string) (directory create : bool) (desired_access : option Z)
    (exclusive truncate : bool) : Eff WinTrace Z :=
  let access := match desired_access with Some a => a | None => 0x1 + 0x2 + 0x80 + 0x20 end in
  let access := Z.lor access (0x00100000 + 0x80) in
  let options := Z.lor (0x00200000 + 0x20) (if directory then 0x1 else 0x40) in
  h ← win_or env (windows_error name)
        (NtCreateFile parent (unicode_string name) access (disposition_of create exclusive truncate) options);
  _ ← refuse_reparse h;
  mret h.

(** [_create_file_windows] and [_open_directory_handle_windows] *)
Definition open_directory_handle (path : string) : Eff WinTrace Z :=
  h ← win_or env (windows_error path) (CreateFileW path (0x2 + 0x80 + 0x20) 3 (0x02000000 + 0x00200000));
  _ ← refuse_reparse h;
  mret h.

(** [_identity_from_handle_windows], the inode *)
Definition handle_inode (h : Z) : Eff WinTrace Z :=
  index ← win_or env OSError (GetFileInformationByHandle h);
  mret (Z.lor (Z.shiftl (Z.shiftr index 32) 32) (Z.land index 0xFFFFFFFF)).

(** The body of [_open_parent_path_windows] up to its [yield]; the handles that
    it appended to [handles], the last one first, and how it ended. *)
Definition open_component (create : bool) (parent : Z) (component : string) : Eff WinTrace Z :=
  eff_try (nt_open_relative parent component true false None false false)
    (fun e => match e with
     | FileNotFoundError _ =>
         if create then
           Some (eff_try (nt_open_relative parent component true true None false false)
                   (fun e' => match e' with
                    | FileExistsError _ => Some (nt_open_relative parent component true false None false false)
                    | _ => None
                    end))
         else None
     | _ => None
     end).

Fixpoint open_components (create : bool) (handles : list Z) (parent : Z) (components : list string)
  : Eff WinTrace (list Z * res Z) := fun t =>
  match components with
  | [] => (t, Ok (handles, Ok parent))
  | component :: rest =>
      match open_component create parent component t with
      | (t', Ok h) => open_components create (h :: handles) h rest t'
      | (t', Err e) => (t', Ok (handles, Err e))
      end
  end.

Definition check_inode (h : Z) (expected : option RootIdentity) : Eff WinTrace unit :=
  match expected with
  | Some e => inode ← handle_inode h; if inode =? ri_inode e then mret tt else escape
  | None => mret tt
  end.

Definition open_parents (root : string) (parts : list string) (create : bool) (expected : option RootIdentity)
  : Eff WinTrace (list Z * res Z) := fun t =>
  match open_directory_handle root t with
  | (t', Err e) => (t', Ok ([], Err e))
  | (t', Ok h) =>
      match check_inode h expected t' with
      | (t'', Err e) => (t'', Ok ([h], Err e))
      | (t'', Ok _) => open_components create [h] h (removelast parts) t''
      end
  end.

(** [with _open_parent_path_windows(...) as parent: body] *)
Definition with_parent {A} (root : string) (parts : list string) (create : bool) (expected : option RootIdentity)
    (body : Z -> Eff WinTrace A) : Eff WinTrace A :=
  opened ← open_parents root parts create expected;
  eff_finally (match snd opened with Ok parent => body parent | Err e => eff_raise e end)
    (eff_iter (close_handle env) (fst opened)).

(** ** Files *)
Definition O_WRONLY : Z := 0x1.
Definition O_RDWR : Z := 0x2.
Definition O_CREAT : Z := 0x100.
Definition O_TRUNC : Z := 0x200.
Definition O_EXCL : Z := 0x400.
Definition has_flag (flags f : Z) : bool := negb (Z.land flags f =? 0).

(** [_open_final_windows] *)
Definition open_final (parent : Z) (name : string) (flags : Z) : Eff WinTrace Z :=
  let access_mode := Z.land flags (Z.lor O_WRONLY O_RDWR) in
  let desired := if access_mode =? O_WRONLY then 0x40000000 else if access_mode =? O_RDWR then 0xC0000000 else 0x80000000 in
  h ← nt_open_relative parent name false (has_flag flags O_CREAT) (Some desired) (has_flag flags O_EXCL) (has_flag flags O_TRUNC);
  _ ← refuse_reparse h;
  eff_try (win_or env OSError (OpenOsfHandle h flags))
    (fun e => if is_Exception e then Some (_ ← close_handle env h; eff_raise e) else None).

(** [_write_handle_windows] *)
Definition chunk_size : nat := Z.to_nat (Z.shiftl 1 20).
Definition write_error (error : Z) : exn :=
  if error =? 112 then OSError ENOSPC else windows_error "temporary workspace file" error.

Fixpoint write_chunks (fuel : nat) (h : Z) (data : string) : Eff WinTrace unit :=
  match fuel with
  | O => eff_raise Diverges
  | S fuel' =>
      if String.eqb data "" then mret tt
      else written ← win_or env write_error (WriteFile h (str_take chunk_size data));
           write_chunks fuel' h (str_drop (Z.to_nat written) data)
  end.

Definition write_handle (h : Z) (data : string) : Eff WinTrace unit :=
  _ ← write_chunks (S (String.length data)) h data;
  _ ← win_or env (windows_error "temporary workspace file") (FlushFileBuffers h);
  mret tt.

(** [_rename_open_handle_windows]; ctypes refuses a text that has more units
    than the array, whose size is [len(destination_name)]. *)
Definition rename_open_handle (h parent : Z) (name : string) (overwrite : bool) : Eff WinTrace unit :=
  _ ← eff_raise_if (Nat.ltb (str_len name) (List.length (utf16 name))) (ValueError "string too long");
  _ ← win_or env (windows_error name) (NtSetInformationFile h parent (utf16 name) overwrite);
  mret tt.

(** [_mark_handle_delete_windows] *)
Definition mark_delete (h : Z) : Eff WinTrace unit :=
  _ ← win_or env (windows_error "workspace file") (SetFileInformationByHandle h); mret tt.

(** [_atomic_write_windows] *)
Definition atomic_write_windows (token : string) (parent : Z) (name data : string) (overwrite : bool) : Eff WinTrace unit :=
  h ← nt_open_relative parent (temporary_name token name) false true (Some 0x40010000) true false;
  eff_finally
    (eff_try (_ ← write_handle h data; rename_open_handle h parent name overwrite)
       (fun e => if is_OSError e
                 then Some (_ ← mark_delete h;
                            eff_raise (if bool_decide (exn_errno e = Some ENOSPC) then LauncherExn StorageFull else e))
                 else None))
    (close_handle env h).

(** [_rename_relative_windows] *)
Definition rename_relative (source : Z) (source_name : string) (destination : Z) (destination_name : string) (overwrite : bool)
  : Eff WinTrace unit :=
  h ← nt_open_relative source source_name false false (Some 0x00010000) false false;
  eff_finally (rename_open_handle h destination destination_name overwrite) (close_handle env h).

(** ** The operations, on Windows *)
Definition managed (expected : option RootIdentity) (allow_windows_managed_root : bool) : Eff WinTrace unit :=
  eff_raise_if (is_some expected && negb allow_windows_managed_root) (LauncherExn HostPathEscape).

Definition win_safe_open (root relative : string) (flags : Z) (expected : option RootIdentity) (allow : bool) : Eff WinTrace Z :=
  parts ← eff_lift (safe_relative_parts relative);
  canonical ← validated_root_path root expected;
  _ ← managed expected allow;
  with_parent canonical parts false expected (fun parent => open_final parent (final parts) flags).

Definition win_read_bytes (root relative : string) (expected : option RootIdentity) (allow : bool) : Eff WinTrace string :=
  fd ← win_safe_open root relative 0 expected allow;
  eff_finally (fun t => match win_or env OSError (ReadDescriptor fd) t with
                        | (t', Ok _) => (t', Ok (we_bytes env t)) | (t', Err e) => (t', Err e) end)
    (_ ← win_or env OSError (CloseDescriptor fd); mret tt).

Definition win_atomic_write (token root relative data : string) (overwrite : bool) (expected : option RootIdentity) (allow : bool)
  : Eff WinTrace unit :=
  parts ← eff_lift (safe_relative_parts relative);
  canonical ← validated_root_path root expected;
  _ ← managed expected allow;
  with_parent canonical parts true expected (fun parent => atomic_write_windows token parent (final parts) data overwrite).

Definition win_unlink (root relative : string) (missing_ok : bool) (expected : option RootIdentity) (allow : bool) : Eff WinTrace unit :=
  parts ← eff_lift (safe_relative_parts relative);
  canonical ← validated_root_path root expected;
  _ ← managed expected allow;
  with_parent canonical parts false expected (fun parent =>
    found ← eff_try (h ← nt_open_relative parent (final parts) false false (Some 0x00010000) false false; mret (Some h))
              (fun e => match e with FileNotFoundError _ => if missing_ok then Some (mret None) else None | _ => None end);
    match found with
    | Some h => eff_finally (mark_delete h) (close_handle env h)
    | None => mret tt
    end).

Definition win_rename (root source destination : string) (overwrite : bool) (expected : option RootIdentity) (allow : bool)
  : Eff WinTrace unit :=
  source_parts ← eff_lift (safe_relative_parts source);
  destination_parts ← eff_lift (safe_relative_parts destination);
  canonical ← validated_root_path root expected;
  _ ← managed expected allow;
  with_parent canonical source_parts false expected (fun source_parent =>
    with_parent canonical destination_parts false expected (fun destination_parent =>
      rename_relative source_parent (final source_parts) destination_parent (final destination_parts) overwrite)).
End WinPaths.

(** ** Every handle is closed *)
Section WinAccounts.
Context (env : WinEnv).
Context (resolve : WinTrace -> string -> res string) (lstat : WinTrace -> string -> res PathInfo).

(** A step that owns nothing and keeps what it is given. *)
Lemma accounts_path {A} l c (answer : WinTrace -> res A) : neutral c = true ->
  accounts l (path_call c answer) (fun _ => l) (fun _ => l).
Proof.
  intros Hc t t' r [= <- <-]. exists [(c, Value 0)]. split; [reflexivity|]. intros _ x.
  destruct c; try discriminate; cbn; destruct (answer t); lia.
Qed.

Lemma accounts_if {A} l (b : bool) (m k : Eff WinTrace A) ok er :
  accounts l m ok er -> accounts l k ok er -> accounts l (if b then m else k) ok er.
Proof. now destruct b. Qed.

Lemma accounts_escape {A} l ok er : er (LauncherExn HostPathEscape) = l -> accounts (A := A) l escape ok er.
Proof. apply accounts_raise. Qed.

Lemma accounts_reparse_point l p : accounts l (is_reparse_point lstat p) (fun _ => l) (fun _ => l).
Proof.
  unfold is_reparse_point, stat_path. eapply (accounts_try _ _ _ _ (fun _ => l)).
  - eapply accounts_bind; [now apply accounts_path|intros a; now apply accounts_ret].
  - intros []; try reflexivity. now apply accounts_ret.
Qed.

Lemma accounts_identity l p : accounts l (root_identity_of lstat p) (fun _ => l) (fun _ => l).
Proof.
  unfold root_identity_of, stat_path. eapply accounts_bind; [now apply accounts_path|intros info]. eapply accounts_bind.
  - apply accounts_if; [apply accounts_reparse_point|now apply accounts_ret].
  - intros b. apply accounts_if; [now apply accounts_escape|now apply accounts_ret].
Qed.

Lemma accounts_validated_root l p expected : accounts l (validated_root_path resolve lstat p expected) (fun _ => l) (fun _ => l).
Proof.
  unfold validated_root_path, validate_identity, resolve_path, stat_path.
  eapply accounts_bind; [now apply accounts_path|intros canonical]. destruct expected as [e|].
  - eapply accounts_bind; [|intros x; now apply accounts_ret].
    eapply accounts_bind; [now apply accounts_path|intros c]. eapply accounts_bind; [apply accounts_identity|intros i].
    apply accounts_if; [now apply accounts_ret|now apply accounts_escape].
  - eapply accounts_bind; [apply accounts_reparse_point|intros b]. eapply (accounts_bind _ _ _ (fun _ => l)).
    + apply accounts_if; [now apply accounts_ret|]. eapply (accounts_try _ _ _ _ (fun _ => l)).
      * eapply accounts_bind; [now apply accounts_path|intros i; now apply accounts_ret].
      * intros e. destruct (is_OSError e); [now apply accounts_ret|reflexivity].
    + intros [[]|]; [now apply accounts_ret|now apply accounts_escape..].
Qed.

(** The fresh handle is given back unless it is returned. *)
Lemma accounts_refuse h : accounts [Handle h] (refuse_reparse env h) (fun _ => [Handle h]) none.
Proof.
  unfold refuse_reparse, handle_is_reparse. eapply (accounts_bind _ _ _ (fun _ => [Handle h])).
  - eapply (accounts_bind _ _ _ (fun _ => [Handle h])); [|intros v; now apply accounts_ret].
    apply accounts_win_or; [intros v x; cbn; lia|discriminate].
  - intros b. apply accounts_if; [|now apply accounts_ret].
    eapply accounts_bind; [apply accounts_close|intros u; now apply accounts_escape].
Qed.

Lemma accounts_open mk c : (forall v x, delta x (c, Value v) = count x [Handle v]) -> (forall e x, delta x (c, Failed e) = 0) ->
  accounts [] (h ← win_or env mk c; _ ← refuse_reparse env h; mret h) (fun h => [Handle h]) none.
Proof.
  intros Hv Hf. eapply (accounts_bind _ _ _ (fun h => [Handle h])).
  - apply accounts_win_or; [intros v x; rewrite Hv; cbn; lia|intros e x _; rewrite Hf; reflexivity].
  - intros h. eapply accounts_bind; [apply accounts_refuse|intros u; now apply accounts_ret].
Qed.

Lemma accounts_nt_open p n d c a x y : accounts [] (nt_open_relative env p n d c a x y) (fun h => [Handle h]) none.
Proof. apply accounts_open; [intros v z; cbn; lia|reflexivity]. Qed.

Lemma accounts_open_directory p : accounts [] (open_directory_handle env p) (fun h => [Handle h]) none.
Proof. apply accounts_open; [intros v z; cbn; lia|reflexivity]. Qed.

Lemma accounts_component create p c : accounts [] (open_component env create p c) (fun h => [Handle h]) none.
Proof.
  unfold open_component. eapply accounts_try; [apply accounts_nt_open|].
  intros []; try reflexivity. destruct create; [|reflexivity]. eapply accounts_try; [apply accounts_nt_open|].
  intros []; try reflexivity. apply accounts_nt_open.
Qed.

Abbreviation opened_handles := (fun x : list Z * res Z => map Handle (fst x)).

Lemma accounts_components create hs p cs : accounts (map Handle hs) (open_components env create hs p cs) opened_handles none.
Proof.
  revert hs p. induction cs as [|c cs IH]; intros hs p; cbn [open_components]; [now apply accounts_result|].
  intros t t' r E. pose proof (accounts_frame (map Handle hs) _ _ _ _ (accounts_component create p c)) as Hc.
  destruct (open_component env create p c t) as [t1 [h|e]] eqn:E1; destruct (Hc _ _ _ E1) as (s1 & -> & H1).
  - eapply (accounts_seq _ s1 (map Handle (h :: hs))); [exact H1|apply IH|exact E].
  - injection E as <- <-. exists s1. split; [reflexivity|exact H1].
Qed.

Lemma accounts_check_inode l h e : accounts l (check_inode env h e) (fun _ => l) (fun _ => l).
Proof.
  unfold check_inode, handle_inode. destruct e as [i|]; [|now apply accounts_ret].
  eapply (accounts_bind _ _ _ (fun _ => l)); [eapply accounts_bind; [now apply accounts_neutral|intros v; now apply accounts_ret]|].
  intros v. apply accounts_if; [now apply accounts_ret|now apply accounts_escape].
Qed.

Lemma accounts_parents root parts create expected : accounts [] (open_parents env root parts create expected) opened_handles none.
Proof.
  intros t t' r E. unfold open_parents in E. destruct (open_directory_handle env root t) as [t1 [h|e]] eqn:E1.
  - destruct (accounts_open_directory root _ _ _ E1) as (s1 & -> & H1).
    destruct (check_inode env h expected (t ++ s1)) as [t2 [u|e]] eqn:E2.
    + destruct (accounts_seq [] s1 [Handle h] t t2 _ _ _ _ H1 (accounts_check_inode [Handle h] h expected) E2) as (s2 & -> & H2).
      eapply (accounts_seq [] s2 (map Handle [h])); [exact H2|apply accounts_components|exact E].
    + destruct (accounts_seq [] s1 [Handle h] t t2 _ _ _ _ H1 (accounts_check_inode [Handle h] h expected) E2) as (s2 & -> & H2).
      injection E as <- <-. exists s2. split; [reflexivity|exact H2].
  - destruct (accounts_open_directory root _ _ _ E1) as (s1 & -> & H1). injection E as <- <-. exists s1. split; [reflexivity|exact H1].
Qed.

(** [with _open_parent_path_windows(...)] around code that accounts for its own. *)
Lemma accounts_with_parent {A} root parts create expected (body : Z -> Eff WinTrace A) ok :
  (forall p, accounts [] (body p) ok none) -> accounts [] (with_parent env root parts create expected body) ok none.
Proof.
  intros Hb. unfold with_parent. eapply accounts_bind; [apply accounts_parents|]. intros [hs r]. cbn [fst snd].
  eapply (accounts_finally _ _ _ (fun a => map Handle hs ++ ok a) _ (fun _ => map Handle hs ++ [])).
  - destruct r as [p|e]; [|apply accounts_raise; cbn; now rewrite app_nil_r].
    eapply accounts_conseq; [apply (accounts_frame (map Handle hs)), (Hb p)|..]; intros; rewrite ?count_app; cbn; lia.
  - intros a. apply accounts_close_all.
  - intros e. apply accounts_close_all.
Qed.

Lemma accounts_final p n flags : accounts [] (open_final env p n flags) (fun fd => [Descriptor fd]) none.
Proof.
  unfold open_final. eapply accounts_bind; [apply accounts_nt_open|intros h].
  eapply accounts_bind; [apply accounts_refuse|intros u].
  eapply (accounts_try _ _ _ _ (fun e => if is_Exception e then [Handle h] else [])).
  - apply accounts_win_or; [intros v x|intros e x _]; cbn; lia.
  - intros e. destruct (is_Exception e); [|reflexivity].
    eapply accounts_bind; [apply accounts_close|intros v; now apply accounts_raise].
Qed.

Lemma accounts_chunks fuel l h data : accounts l (write_chunks env fuel h data) (fun _ => l) (fun _ => l).
Proof.
  revert data. induction fuel as [|fuel IH]; intros data; cbn [write_chunks]; [now apply accounts_raise|].
  apply accounts_if; [now apply accounts_ret|]. eapply accounts_bind; [now apply accounts_neutral|intros n; apply IH].
Qed.

Lemma accounts_rename_handle l h p n o : accounts l (rename_open_handle env h p n o) (fun _ => l) (fun _ => l).
Proof.
  unfold rename_open_handle. eapply accounts_bind; [apply accounts_raise_if|intros u].
  eapply accounts_bind; [now apply accounts_neutral|intros v; now apply accounts_ret].
Qed.

Lemma accounts_mark l h : accounts l (mark_delete env h) (fun _ => l) (fun _ => l).
Proof. unfold mark_delete. eapply accounts_bind; [now apply accounts_neutral|intros v; now apply accounts_ret]. Qed.

(** Work on a fresh handle that is closed in the end. *)
Lemma accounts_closing {A} h (m : Eff WinTrace A) :
  accounts [Handle h] m (fun _ => [Handle h]) (fun _ => [Handle h]) ->
  accounts [Handle h] (eff_finally m (close_handle env h)) none none.
Proof.
  intros Hm. eapply (accounts_finally _ _ _ (fun _ => [Handle h]) none (fun _ => [Handle h]) none);
    [exact Hm|intros a; apply accounts_close|intros e; apply accounts_close].
Qed.

Lemma accounts_write token p n data o : accounts [] (atomic_write_windows env token p n data o) none none.
Proof.
  unfold atomic_write_windows. eapply accounts_bind; [apply accounts_nt_open|intros h]. apply accounts_closing.
  eapply (accounts_try _ _ _ _ (fun _ => [Handle h])).
  - eapply (accounts_bind _ _ _ (fun _ => [Handle h])); [|intros u; apply accounts_rename_handle].
    unfold write_handle. eapply accounts_bind; [apply accounts_chunks|intros u].
    eapply accounts_bind; [now apply accounts_neutral|intros v; now apply accounts_ret].
  - intros e. destruct (is_OSError e); [|reflexivity]. eapply accounts_bind; [apply accounts_mark|intros u; now apply accounts_raise].
Qed.

Lemma accounts_rename p n p' n' o : accounts [] (rename_relative env p n p' n' o) none none.
Proof.
  unfold rename_relative. eapply accounts_bind; [apply accounts_nt_open|intros h]. apply accounts_closing, accounts_rename_handle.
Qed.

(** The checks that every operation starts with. *)
Lemma accounts_checked {A} root relative expected allow (k : list string -> string -> Eff WinTrace A) ok :
  (forall parts canonical, accounts [] (k parts canonical) ok none) ->
  accounts [] (parts ← eff_lift (safe_relative_parts relative);
               canonical ← validated_root_path resolve lstat root expected;
               _ ← managed expected allow; k parts canonical) ok none.
Proof.
  intros Hk. eapply (accounts_bind _ _ _ (fun _ => [])); [apply (accounts_lift [])|intros parts].
  eapply (accounts_bind _ _ _ (fun _ => [])); [apply (accounts_validated_root [])|intros canonical].
  eapply (accounts_bind _ _ _ (fun _ => [])); [apply (accounts_raise_if [])|intros u; apply Hk].
Qed.

Lemma accounts_safe_open root relative flags expected allow :
  accounts [] (win_safe_open env resolve lstat root relative flags expected allow) (fun fd => [Descriptor fd]) none.
Proof. apply accounts_checked. intros parts c. apply accounts_with_parent. intros p. apply accounts_final. Qed.

Lemma accounts_read root relative expected allow :
  accounts [] (win_read_bytes env resolve lstat root relative expected allow) none none.
Proof.
  unfold win_read_bytes. eapply accounts_bind; [apply accounts_safe_open|intros fd].
  eapply (accounts_finally _ _ _ (fun _ => [Descriptor fd]) none (fun _ => [Descriptor fd]) none).
  - intros t t' r E. destruct (win_or env OSError (ReadDescriptor fd) t) as [t1 [v|e]] eqn:E1;
      destruct (accounts_neutral env OSError [Descriptor fd] (ReadDescriptor fd) eq_refl _ _ _ E1) as (s & -> & H);
      injection E as <- <-; exists s; auto.
  - intros a. eapply (accounts_bind _ _ _ none); [|intros v; now apply accounts_ret].
    apply accounts_win_or; [intros v x; cbn; lia|discriminate].
  - intros e. eapply (accounts_bind _ _ _ none); [|intros v; now apply accounts_ret].
    apply accounts_win_or; [intros v x; cbn; lia|discriminate].
Qed.

Lemma accounts_unlink root relative missing expected allow :
  accounts [] (win_unlink env resolve lstat root relative missing expected allow) none none.
Proof.
  apply accounts_checked. intros parts c. apply accounts_with_parent. intros p.
  eapply (accounts_bind _ _ _ (fun o => match o with Some h => [Handle h] | None => [] end)).
  - eapply (accounts_try _ _ _ _ none).
    + eapply accounts_bind; [apply accounts_nt_open|intros h; now apply accounts_ret].
    + intros []; try reflexivity. destruct missing; [now apply accounts_ret|reflexivity].
  - intros [h|]; [apply accounts_closing, accounts_mark|now apply accounts_ret].
Qed.
End WinAccounts.

(** ** Every relative open starts from a checked directory *)

(** The last question about [h], which was not closed since, was answered: not
    a reparse point. *)
Definition checked (t : WinTrace) (h : Z) : Prop :=
  exists a attributes b, t = a ++ (GetFileInformationByHandleEx h, Value attributes) :: b
    /\ Z.land attributes 0x400 = 0 /\ Forall (fun ev => fst ev <> CloseHandle h) b.

(** Opens and renames name one component below a checked handle. *)
Definition relative_ok (before : WinTrace) (c : win_call) : Prop :=
  match c with
  | NtCreateFile parent units _ _ _ => checked before parent /\ exists n, safe_component n = true /\ units = unicode_string n
  | NtSetInformationFile _ parent units _ => checked before parent /\ exists n, safe_component n = true /\ units = utf16 n
  | _ => True
  end.
Definition confined (t : WinTrace) : Prop := forall before ev after, t = before ++ ev :: after -> relative_ok before (fst ev).

Lemma confined_snoc t ev : confined t -> relative_ok t (fst ev) -> confined (t ++ [ev]).
Proof.
  intros Ht Hev before ev' after E. destruct after as [|x after] using rev_ind.
  - apply app_inj_tail in E as [<- <-]. exact Hev.
  - rewrite app_comm_cons, app_assoc in E. apply app_inj_tail in E as [-> _]. now eapply Ht.
Qed.

Lemma checked_snoc t ev h : checked t h -> fst ev <> CloseHandle h -> checked (t ++ [ev]) h.
Proof.
  intros (a & at_ & b & -> & Ha & Hb) Hne. exists a, at_, (b ++ [ev]). rewrite <- app_assoc. split_and!; [reflexivity|exact Ha|].
  apply Forall_app. auto.
Qed.

Definition is_missing (e : exn) : bool := match e with FileNotFoundError _ | FileExistsError _ => true | _ => false end.

(** From a confined trace in which the handles of [H] are checked, [m] makes a
    confined one.  The handles stay checked, and with them those of [Q], when
    [m] returns; they also do when it raises that a file is missing or exists. *)
Definition steps {A} (H : Z -> Prop) (m : Eff WinTrace A) (Q : A -> Z -> Prop) : Prop :=
  forall t t' r, confined t -> (forall h, H h -> checked t h) -> m t = (t', r) ->
    confined t' /\ match r with
                   | Ok a => forall h, H h \/ Q a h -> checked t' h
                   | Err e => is_missing e = true -> forall h, H h -> checked t' h
                   end.
(** At the end of an operation only the trace matters. *)
Definition ends {A} (H : Z -> Prop) (m : Eff WinTrace A) : Prop :=
  forall t t' r, confined t -> (forall h, H h -> checked t h) -> m t = (t', r) -> confined t'.

Definition known : Z -> Prop := fun _ => False.
Definition and_also (H : Z -> Prop) (p : Z) : Z -> Prop := fun h => H h \/ h = p.

Section Confined.
Context (env : WinEnv).

Lemma steps_result {A} H (x : res A) Q : (forall a h, x = Ok a -> Q a h -> H h) -> steps H (fun t => (t, x)) Q.
Proof. intros HQ t t' r Ht Hh [= <- <-]. split; [exact Ht|]. destruct x; [|auto]. intros h [Hx|Hx]; eauto. Qed.
Lemma steps_ret {A} H (a : A) Q : (forall h, Q a h -> H h) -> steps H (mret a) Q.
Proof. intros HQ. apply (steps_result H (Ok a)). intros x h [= ->]. auto. Qed.
Lemma steps_raise {A} H e Q : steps (A := A) H (eff_raise e) Q.
Proof. apply (steps_result H (Err e)). discriminate. Qed.

Lemma steps_bind {A B} H (m : Eff WinTrace A) (k : A -> Eff WinTrace B) Q Q' :
  steps H m Q -> (forall a, steps (fun h => H h \/ Q a h) (k a) Q') -> steps H (m ≫= k) Q'.
Proof.
  intros Hm Hk t t' r Ht Hh E. apply bind_inv in E as [(e & E & ->)|(t1 & a & E1 & E2)].
  - destruct (Hm _ _ _ Ht Hh E) as [H1 H2]. auto.
  - destruct (Hm _ _ _ Ht Hh E1) as [H1 H2]. destruct (Hk a _ _ _ H1 H2 E2) as [H3 H4]. split; [exact H3|].
    destruct r as [b|e]; [intros h [Hx|Hx]; auto|auto].
Qed.

Lemma steps_try {A} H (m : Eff WinTrace A) h Q :
  steps H m Q -> (forall e k, h e = Some k -> is_missing e = true /\ steps H k Q) -> steps H (eff_try m h) Q.
Proof.
  intros Hm Hh t t' r Ht Hk E. unfold eff_try in E. destruct (m t) as [t1 [a|e]] eqn:E1.
  - injection E as <- <-. exact (Hm _ _ _ Ht Hk E1).
  - destruct (Hm _ _ _ Ht Hk E1) as [H1 H2]. destruct (h e) as [k|] eqn:Eh.
    + destruct (Hh e k Eh) as [Hmiss Hs]. exact (Hs _ _ _ H1 (H2 Hmiss) E).
    + injection E as <- <-. auto.
Qed.

Lemma steps_if {A} H (b : bool) (m k : Eff WinTrace A) Q : steps H m Q -> steps H k Q -> steps H (if b then m else k) Q.
Proof. now destruct b. Qed.

Lemma steps_ends {A} H (m : Eff WinTrace A) Q : steps H m Q -> ends H m.
Proof. intros Hm t t' r Ht Hh E. exact (proj1 (Hm _ _ _ Ht Hh E)). Qed.

Lemma win_ends_bind {A B} H (m : Eff WinTrace A) (k : A -> Eff WinTrace B) Q :
  steps H m Q -> (forall a, ends (fun h => H h \/ Q a h) (k a)) -> ends H (m ≫= k).
Proof.
  intros Hm Hk t t' r Ht Hh E. apply bind_inv in E as [(e & E & ->)|(t1 & a & E1 & E2)].
  - exact (proj1 (Hm _ _ _ Ht Hh E)).
  - destruct (Hm _ _ _ Ht Hh E1) as [H1 H2]. exact (Hk a _ _ _ H1 H2 E2).
Qed.

Lemma ends_weaken {A} (H H' : Z -> Prop) (m : Eff WinTrace A) : ends H' m -> (forall h, H' h -> H h) -> ends H m.
Proof. intros Hm HH t t' r Ht Hh E. eapply Hm; eauto. Qed.

Lemma win_ends_finally {A} H (m : Eff WinTrace A) f : ends H m -> ends known f -> ends H (eff_finally m f).
Proof.
  intros Hm Hf t t' r Ht Hh E. unfold eff_finally in E. destruct (m t) as [t1 x] eqn:E1.
  destruct (f t1) as [t2 y] eqn:E2. assert (confined t2) by (eapply Hf; [eapply Hm; eauto|intros h []|exact E2]).
  destruct y; injection E as <- <-; assumption.
Qed.

Lemma win_ends_try {A} H (m : Eff WinTrace A) h : ends H m -> (forall e k, h e = Some k -> ends known k) -> ends H (eff_try m h).
Proof.
  intros Hm Hh t t' r Ht Hk E. unfold eff_try in E. destruct (m t) as [t1 [a|e]] eqn:E1.
  - injection E as <- <-. eapply Hm; eauto.
  - destruct (h e) as [k|] eqn:Eh; [|injection E as <- <-; eapply Hm; eauto].
    eapply (Hh e k Eh); [eapply Hm; eauto|intros x []|exact E].
Qed.

(** A call that closes nothing. *)
Lemma steps_win H mk c (Q : Z -> Z -> Prop) : (forall h, c <> CloseHandle h) ->
  (forall t, confined t -> (forall h, H h -> checked t h) -> relative_ok t c) -> (forall v h, ~ Q v h) ->
  steps H (win_or env mk c) Q.
Proof.
  intros Hc Hr HQ t t' r Ht Hh E. unfold win_or, win, mbind, eff_bind in E.
  assert (t' = t ++ [(c, we_answer env t c)]) as -> by (destruct (we_answer env t c); now injection E).
  assert (Hk : forall h, H h -> checked (t ++ [(c, we_answer env t c)]) h)
    by (intros h Hx; apply checked_snoc; [auto|apply Hc]).
  split; [apply confined_snoc; [exact Ht|now apply Hr]|]. destruct r; [|auto]. intros h [Hx|Hx]; [auto|now elim (HQ a h)].
Qed.

Lemma ends_win H mk c : (forall t, relative_ok t c) -> ends H (win_or env mk c).
Proof.
  intros Hr t t' r Ht _ E. unfold win_or, win, mbind, eff_bind in E.
  assert (t' = t ++ [(c, we_answer env t c)]) as -> by (destruct (we_answer env t c); now injection E).
  apply confined_snoc; [exact Ht|apply Hr].
Qed.

Lemma win_ends_ret {A} H (a : A) : ends H (mret a).
Proof. intros t t' r Ht _ [= <- _]. exact Ht. Qed.
Lemma win_ends_raise {A} H e : ends (A := A) H (eff_raise e).
Proof. intros t t' r Ht _ [= <- _]. exact Ht. Qed.
Lemma ends_seq {A B} H (m : Eff WinTrace A) (k : A -> Eff WinTrace B) : ends H m -> (forall a, ends known (k a)) -> ends H (m ≫= k).
Proof.
  intros Hm Hk t t' r Ht Hh E. apply bind_inv in E as [(e & E & ->)|(t1 & a & E1 & E2)]; [eapply Hm; eauto|].
  eapply (Hk a); [eapply Hm; eauto|intros x []|exact E2].
Qed.

Lemma ends_close H h : ends H (close_handle env h).
Proof. apply ends_seq; [now apply ends_win|intros v; apply win_ends_ret]. Qed.
Lemma ends_close_all H hs : ends H (eff_iter (close_handle env) hs).
Proof.
  intros t t' r Ht _ E. revert t Ht E. induction hs as [|h hs IH]; intros t Ht E; cbn [eff_iter] in E; [now injection E as <- _|].
  destruct (close_handle env h t) as [t1 [u|e]] eqn:E1.
  - eapply IH; [|exact E]. eapply (ends_close known h); [exact Ht|intros x []|exact E1].
  - injection E as <- _. eapply (ends_close known h); [exact Ht|intros x []|exact E1].
Qed.

Lemma close_error h t t' e : close_handle env h t = (t', Err e) -> exists n, e = OSError n.
Proof.
  unfold close_handle, win_or, win, mbind, eff_bind, mret, eff_ret. intros E.
  destruct (we_answer env t (CloseHandle h)) as [v|n]; [discriminate|]. injection E as _ <-. eauto.
Qed.

Lemma steps_refuse H h : steps H (refuse_reparse env h) (fun _ x => x = h).
Proof.
  intros t t' r Ht Hh E. unfold refuse_reparse, handle_is_reparse, win_or, win, mbind, eff_bind in E.
  destruct (we_answer env t (GetFileInformationByHandleEx h)) as [v|e] eqn:Ea.
  - assert (Hc : confined (t ++ [(GetFileInformationByHandleEx h, Value v)])) by now apply confined_snoc.
    cbn in E. destruct (Z.land v 0x400 =? 0) eqn:Ev; cbn [negb] in E.
    + injection E as <- <-. split; [exact Hc|]. intros x [Hx|Hx].
      * apply checked_snoc; [auto|discriminate].
      * rewrite Hx. exists t, v, []. split_and!; [reflexivity|lia|constructor].
    + destruct (close_handle env h (t ++ [(GetFileInformationByHandleEx h, Value v)])) as [t1 [u|e]] eqn:E1;
        assert (confined t1) by (eapply (ends_close known h); [exact Hc|intros x []|exact E1]).
      * injection E as <- <-. split; [assumption|discriminate].
      * apply close_error in E1 as [n ->]. injection E as <- <-. split; [assumption|discriminate].
  - injection E as <- <-. split; [now apply confined_snoc|discriminate].
Qed.

Lemma steps_nt_open (H : Z -> Prop) p n d c a x y : H p -> safe_component n = true ->
  steps H (nt_open_relative env p n d c a x y) (fun h z => z = h).
Proof.
  intros Hp Hn. unfold nt_open_relative. eapply (steps_bind _ _ _ (fun _ _ => False)).
  - apply steps_win; [discriminate|intros t _ Hh; split; [auto|eauto]|auto].
  - intros h. eapply steps_bind; [apply steps_refuse|intros u]. apply steps_ret. intros z ->. now right.
Qed.

Lemma steps_component (H : Z -> Prop) create p c : H p -> safe_component c = true ->
  steps H (open_component env create p c) (fun h z => z = h).
Proof.
  intros Hp Hc. unfold open_component. apply steps_try; [now apply steps_nt_open|].
  intros [] k; try discriminate. destruct create; [|discriminate]. intros [= <-]. split; [reflexivity|].
  apply steps_try; [now apply steps_nt_open|]. intros [] k; try discriminate. intros [= <-]. split; [reflexivity|now apply steps_nt_open].
Qed.

(** What the walk to the parent ends in. *)
Definition reached (H : Z -> Prop) (t : WinTrace) (x : list Z * res Z) : Prop :=
  confined t /\ forall p, snd x = Ok p -> forall h, H h \/ h = p -> checked t h.

Lemma components_reached (H : Z -> Prop) create cs : forallb safe_component cs = true ->
  forall hs p t t' x, confined t -> (forall h, H h \/ h = p -> checked t h) ->
  open_components env create hs p cs t = (t', Ok x) -> reached H t' x.
Proof.
  induction cs as [|c cs IH]; intros Hcs hs p t t' x Ht Hh E; cbn [open_components] in E.
  - injection E as <- <-. split; [exact Ht|]. intros q [= <-]. exact Hh.
  - cbn [forallb] in Hcs. apply andb_true_iff in Hcs as [Hc Hcs].
    destruct (open_component env create p c t) as [t1 [h|e]] eqn:E1;
      destruct (steps_component (fun z => H z \/ z = p) create p c (or_intror eq_refl) Hc _ _ _ Ht Hh E1) as [H1 H2].
    + eapply IH; [exact Hcs|exact H1| |exact E]. intros z Hz; apply H2; tauto.
    + injection E as <- <-. split; [exact H1|discriminate].
Qed.

Lemma steps_check_inode H h expected : steps H (check_inode env h expected) (fun _ _ => False).
Proof.
  unfold check_inode, handle_inode. destruct expected as [i|]; [|now apply steps_ret].
  eapply (steps_bind _ _ _ (fun _ _ => False)).
  - eapply (steps_bind _ _ _ (fun _ _ => False)); [apply steps_win; [discriminate|easy|auto]|intros v; now apply steps_ret].
  - intros v. apply steps_if; [now apply steps_ret|apply steps_raise].
Qed.

Lemma parents_reached (H : Z -> Prop) root parts create expected t t' x : forallb safe_component parts = true ->
  confined t -> (forall h, H h -> checked t h) -> open_parents env root parts create expected t = (t', Ok x) -> reached H t' x.
Proof.
  intros Hps Ht Hh E. unfold open_parents in E.
  assert (Hopen : steps H (open_directory_handle env root) (fun h z => z = h)).
  { unfold open_directory_handle. eapply (steps_bind _ _ _ (fun _ _ => False)); [apply steps_win; [discriminate|easy|auto]|].
    intros h. eapply steps_bind; [apply steps_refuse|intros u]. apply steps_ret. intros z ->. now right. }
  destruct (open_directory_handle env root t) as [t1 [h|e]] eqn:E1; destruct (Hopen _ _ _ Ht Hh E1) as [H1 H2].
  - destruct (check_inode env h expected t1) as [t2 [u|e]] eqn:E2;
      destruct (steps_check_inode (fun z => H z \/ z = h) h expected _ _ _ H1 H2 E2) as [H3 H4].
    + eapply components_reached; [|exact H3| |exact E]; [|intros z Hz; apply H4; now left].
      apply forallb_forall. intros c Hc. eapply forallb_forall; [exact Hps|]. clear -Hc.
      induction parts as [|a [|b l] IH]; [easy|destruct Hc|]. destruct Hc as [->|Hc]; [now left|right; now apply IH].
    + injection E as <- <-. split; [exact H3|discriminate].
  - injection E as <- <-. split; [exact H1|discriminate].
Qed.

Lemma ends_with_parent {A} (H : Z -> Prop) root parts create expected (body : Z -> Eff WinTrace A) :
  forallb safe_component parts = true -> (forall p, ends (and_also H p) (body p)) ->
  ends H (with_parent env root parts create expected body).
Proof.
  intros Hps Hb t t' r Ht Hh E. unfold with_parent in E. apply bind_inv in E as [(e & E & _)|(t1 & [hs x] & E1 & E)].
  - exfalso. unfold open_parents in E. destruct (open_directory_handle env root t) as [t1 [h|e1]]; [|discriminate].
    destruct (check_inode env h expected t1) as [t2 [u|e1]]; [|discriminate].
    assert (Hno : forall cs hs p s s' e, open_components env create hs p cs s <> (s', Err e)); [|exact (Hno _ _ _ _ _ _ E)].
    induction cs as [|c cs IH]; intros hs p s s' e0; cbn [open_components]; [discriminate|].
    destruct (open_component env create p c s) as [s1 [z|z]]; [apply IH|discriminate].
  - destruct (parents_reached H _ _ _ _ _ _ _ Hps Ht Hh E1) as [H1 H2]. cbn [fst snd] in *.
    destruct x as [p|e].
    + assert (Hf : ends (and_also H p) (eff_finally (body p) (eff_iter (close_handle env) hs)))
        by (apply win_ends_finally; [apply Hb|apply ends_close_all]).
      eapply Hf; [exact H1|exact (H2 p eq_refl)|exact E].
    + assert (Hf : ends known (eff_finally (eff_raise (A := A) e) (eff_iter (close_handle env) hs)))
        by (apply win_ends_finally; [apply win_ends_raise|apply ends_close_all]).
      eapply Hf; [exact H1|intros h []|exact E].
Qed.
End Confined.

(** ** A write is complete before it is renamed *)

(** What [WriteFile] got through to [h]. *)
Fixpoint written (h : Z) (s : WinTrace) : string :=
  match s with
  | [] => ""
  | (WriteFile h' chunk, Value n) :: s' =>
      if h' =? h then (str_take (Z.to_nat n) chunk ++ written h s')%string else written h s'
  | _ :: s' => written h s'
  end.

Lemma written_app h a b : written h (a ++ b) = (written h a ++ written h b)%string.
Proof.
  induction a as [|[c x] a IH]; [reflexivity|]. cbn [app written]. destruct c, x; try exact IH.
  destruct (_ =? h); [now rewrite IH, string_app_assoc|exact IH].
Qed.

(** Calls that write nothing and rename nothing. *)
Definition setup_call (ev : win_event) : Prop :=
  match fst ev with WriteFile _ _ | NtSetInformationFile _ _ _ _ | FlushFileBuffers _ => False | _ => True end.
Abbreviation set_up := (appends setup_call).

Lemma written_set_up h s : Forall setup_call s -> written h s = ""%string.
Proof. induction 1 as [|[c a] s Hev Hs IH]; [reflexivity|]. cbn [written]. destruct c, a; (exact IH || now elim Hev). Qed.

(** [WriteFile] gets through at least a byte and at most what it was given. *)
Definition full_writes (env : WinEnv) : Prop := forall t h chunk n, chunk <> ""%string ->
  we_answer env t (WriteFile h chunk) = Value n -> (0 < Z.to_nat n <= String.length chunk)%nat.

(** Each rename comes right after a successful flush, when the whole data is
    written to the handle. *)
Definition complete_renames (data : string) (s : WinTrace) : Prop :=
  forall before h p units replace a after, s = before ++ (NtSetInformationFile h p units replace, a) :: after ->
    exists s1 v, before = s1 ++ [(FlushFileBuffers h, Value v)] /\ written h s1 = data.

Section Complete.
Context (env : WinEnv) (Hw : full_writes env).

Abbreviation quiet_setup := (holds (fun _ : WinTrace => True) set_up).

Lemma setup_win mk c : setup_call (c, Value 0) -> quiet_setup (win_or env mk c).
Proof.
  intros Hc t t' r _ _ E. unfold win_or, win, mbind, eff_bind in E. split_and!; [exact Logic.I| |auto].
  exists [(c, we_answer env t c)]. split; [destruct (we_answer env t c); now injection E|]. constructor; [exact Hc|constructor].
Qed.
Lemma setup_path {A} c (answer : WinTrace -> res A) : setup_call (c, Value 0) -> quiet_setup (path_call c answer).
Proof.
  intros Hc t t' r _ _ [= <- <-]. split_and!; [exact Logic.I| |auto]. exists [(c, Value 0)]. split; [reflexivity|].
  constructor; [exact Hc|constructor].
Qed.
#[local] Hint Extern 1 (holds _ set_up (win_or _ _ _)) => (apply setup_win; exact Logic.I) : triples.
#[local] Hint Extern 1 (holds _ set_up (path_call _ _)) => (apply setup_path; exact Logic.I) : triples.

Lemma setup_refuse h : quiet_setup (refuse_reparse env h).
Proof. unfold refuse_reparse, handle_is_reparse, close_handle, escape. solve_triple. Qed.
#[local] Hint Resolve setup_refuse : triples.
Lemma setup_nt_open p n d c a x y : quiet_setup (nt_open_relative env p n d c a x y).
Proof. unfold nt_open_relative. solve_triple. Qed.
#[local] Hint Resolve setup_nt_open : triples.
Lemma setup_component create p c : quiet_setup (open_component env create p c).
Proof.
  unfold open_component. apply holds_try; [typeclasses eauto|apply setup_nt_open|]. intros [] k; try discriminate.
  destruct create; [|discriminate]. intros [= <-]. apply holds_try; [typeclasses eauto|apply setup_nt_open|].
  intros [] k; try discriminate. intros [= <-]. apply setup_nt_open.
Qed.
Lemma setup_close_all hs : quiet_setup (eff_iter (close_handle env) hs).
Proof. unfold close_handle. solve_triple. Qed.


(** ** The pieces of a write *)
Lemma chunk_size_pos : (0 < chunk_size)%nat.
Proof. unfold chunk_size. change (Z.shiftl 1 20) with 1048576. lia. Qed.
#[local] Opaque chunk_size.

Definition no_rename (ev : win_event) : Prop := match fst ev with NtSetInformationFile _ _ _ _ => False | _ => True end.

Lemma setup_no_rename s : Forall setup_call s -> Forall no_rename s.
Proof. intros H. eapply Forall_impl; [exact H|]. intros [[] a]; cbn; tauto. Qed.

Lemma complete_before data s0 s1 : Forall setup_call s0 -> complete_renames data s1 -> complete_renames data (s0 ++ s1).
Proof.
  intros H0 H1 before h p u o a after E. apply app_eq_inv in E as [(k & -> & E)|(k & -> & E)].
  - destruct k as [|ev k]; [|injection E as <- _; apply Forall_app in H0 as [_ H0]; now inversion H0].
    cbn in E. destruct (H1 [] h p u o a after (eq_sym E)) as (s & v & Hs & _). now destruct s.
  - destruct (H1 k h p u o a after E) as (s & v & -> & Hd). exists (s0 ++ s), v. split; [now rewrite app_assoc|].
    rewrite written_app, (written_set_up h s0 H0). exact Hd.
Qed.

Lemma complete_after data s0 s1 : complete_renames data s0 -> Forall no_rename s1 -> complete_renames data (s0 ++ s1).
Proof.
  intros H0 H1 before h p u o a after E. apply app_eq_inv in E as [(k & -> & E)|(k & -> & E)].
  - destruct k as [|ev k]; [cbn in E; subst s1; now inversion H1|]. injection E as <- ->. exact (H0 before h p u o a k eq_refl).
  - rewrite E in H1. apply Forall_app in H1 as [_ H1]. now inversion H1.
Qed.

Lemma complete_none data s : Forall no_rename s -> complete_renames data s.
Proof. intros H. apply (complete_after data [] s); [|exact H]. intros before h p u o a after E. now destruct before. Qed.

(** The whole data, a flush, the rename. *)
Lemma complete_one data h s v p u o a : Forall no_rename s -> written h s = data ->
  complete_renames data (s ++ [(FlushFileBuffers h, Value v); (NtSetInformationFile h p u o, a)]).
Proof.
  intros F Hs before h' p' u' o' a' after E. apply app_eq_inv in E as [(k & -> & E)|(k & -> & E)].
  - destruct k as [|ev k]; [discriminate|]. injection E as <- _. apply Forall_app in F as [_ F]. now inversion F.
  - destruct k as [|e1 [|e2 k]]; [discriminate| |].
    + injection E as <- <- _ _ _ _ _. exists s, v. auto.
    + injection E as _ _ E. now destruct k.
Qed.

(** Progress: each write takes something off the data. *)
Lemma chunks_spec fuel h data t t' r : (String.length data < fuel)%nat -> write_chunks env fuel h data t = (t', r) ->
  r <> Err Diverges /\ exists s, t' = t ++ s /\ Forall no_rename s /\ (r = Ok tt -> written h s = data).
Proof.
  revert data t. induction fuel as [|fuel IH]; intros data t Hf E; [lia|]. cbn [write_chunks] in E.
  destruct (String.eqb_spec data "") as [->|Hd].
  { injection E as <- <-. split; [discriminate|]. exists []. split_and!; [now rewrite app_nil_r|constructor|reflexivity]. }
  unfold win_or, win, mbind, eff_bind in E. destruct (we_answer env t (WriteFile h _)) as [n|e] eqn:Ea.
  - assert (Hne : str_take chunk_size data <> ""%string)
      by (pose proof chunk_size_pos; destruct chunk_size; [lia|]; now destruct data).
    pose proof (Hw _ _ _ _ Hne Ea) as [Hn Hm]. rewrite length_str_take in Hm.
    destruct (IH (str_drop (Z.to_nat n) data) _ ltac:(rewrite length_str_drop; destruct data; cbn in *; lia) E) as (H1 & s & -> & F & Hs).
    split; [exact H1|]. exists ((WriteFile h (str_take chunk_size data), Value n) :: s). rewrite <- app_assoc. split_and!; [reflexivity|now constructor|].
    intros Hr. cbn [written]. rewrite Z.eqb_refl, (Hs Hr), str_take_take, Nat.min_l by lia. apply str_take_drop.
  - injection E as <- <-. split; [unfold write_error, windows_error; repeat case_match; discriminate|].
    exists [(WriteFile h (str_take chunk_size data), Failed e)]. split_and!; [reflexivity|now constructor|discriminate].
Qed.

Lemma open_setup p n d c a x y t t' r : nt_open_relative env p n d c a x y t = (t', r) ->
  exists s, t' = t ++ s /\ Forall setup_call s.
Proof. intros E. destruct (setup_nt_open p n d c a x y _ _ _ Logic.I Logic.I E) as (_ & H & _). exact H. Qed.

Lemma nt_open_ends p n d c a x y t t' r : nt_open_relative env p n d c a x y t = (t', r) -> r <> Err Diverges.
Proof.
  unfold nt_open_relative. intros E ->. apply bind_inv in E as [(e & E & [= <-])|(t1 & h & _ & E)].
  - unfold win_or, win, mbind, eff_bind in E. destruct (we_answer _ _ _); [discriminate|]. injection E as _ E.
    unfold windows_error in E. repeat case_match; discriminate.
  - apply bind_inv in E as [(e & E & [= <-])|(t2 & u & _ & E)]; [|discriminate]. unfold refuse_reparse, handle_is_reparse in E.
    apply bind_inv in E as [(e & E & [= <-])|(t2 & b & _ & E)].
    + apply bind_inv in E as [(e & E & [= <-])|(t3 & b & _ & E)]; [|discriminate].
      unfold win_or, win, mbind, eff_bind in E. destruct (we_answer _ _ _); discriminate.
    + destruct b; [|discriminate]. apply bind_inv in E as [(e & E & [= <-])|(t3 & u & _ & E)]; [|discriminate].
      apply close_error in E as [n' [=]].
Qed.

(** The writing part, up to the rename. *)
Lemma write_then_rename h p name data overwrite t t' r :
  (_ ← write_handle env h data; rename_open_handle env h p name overwrite) t = (t', r) ->
  r <> Err Diverges /\ exists s, t' = t ++ s /\ complete_renames data s
    /\ (r = Ok tt -> exists v, In (NtSetInformationFile h p (utf16 name) overwrite, Value v) s).
Proof.
  intros E. unfold write_handle, rename_open_handle in E. apply bind_inv in E as [(e & E & ->)|(t1 & u & E1 & E)].
  - apply bind_inv in E as [(e' & E & [= <-])|(t1 & u & E1 & E)].
    + destruct (chunks_spec (S (String.length data)) h data _ _ _ ltac:(lia) E) as (Hd & s & -> & F & _).
      split; [exact Hd|]. exists s. split_and!; [reflexivity|now apply complete_none|discriminate].
    + destruct (chunks_spec (S (String.length data)) h data _ _ _ ltac:(lia) E1) as (_ & s & -> & F & _).
      unfold win_or, win, mbind, eff_bind in E. destruct (we_answer _ _ _) as [v|n]; [discriminate|]. injection E as <- <-.
      split; [unfold windows_error; repeat case_match; discriminate|].
      exists (s ++ [(FlushFileBuffers h, Failed n)]). rewrite app_assoc. split_and!; [reflexivity| |discriminate].
      apply complete_none, Forall_app. split; [exact F|now constructor].
  - apply bind_inv in E1 as [(e' & _ & [=])|(t2 & u' & E1 & E2)].
    destruct (chunks_spec (S (String.length data)) h data _ _ _ ltac:(lia) E1) as (_ & s & -> & F & Hs). destruct u'. specialize (Hs eq_refl).
    unfold win_or at 1, win, mbind, eff_bind in E2. destruct (we_answer _ _ _) as [v|n]; [|discriminate]. injection E2 as <- _.
    apply eff_raise_if_bind in E as [(_ & -> & ->)|[_ E]].
    { split; [discriminate|]. exists (s ++ [(FlushFileBuffers h, Value v)]). rewrite app_assoc. split_and!; [reflexivity| |discriminate].
      apply complete_none, Forall_app. split; [exact F|now constructor]. }
    unfold win_or, win, mbind, eff_bind in E.
    destruct (we_answer _ _ (NtSetInformationFile h p _ _)) as [n|n]; injection E as <- <-;
      (split; [unfold windows_error; repeat case_match; discriminate|]); eexists (s ++ [_; _]); rewrite <- !app_assoc;
      (split_and!; [reflexivity|now apply complete_one|]); [|discriminate].
    intros _. exists n. rewrite in_app_iff. right. right. now left.
Qed.

(** [m] adds complete renames only; what it returns is renamed, and its loops end. *)
Definition writes {A} (data : string) (m : Eff WinTrace A) : Prop := forall t t' r, m t = (t', r) ->
  r <> Err Diverges /\ exists s, t' = t ++ s /\ complete_renames data s
    /\ (is_ok r = true -> exists h p u o v, In (NtSetInformationFile h p u o, Value v) s).

Lemma setup_finally_writes {A} data (m : Eff WinTrace A) f : writes data m -> quiet_setup f ->
  (forall t, snd (f t) <> Err Diverges) -> writes data (eff_finally m f).
Proof.
  intros Hm Hf Hd t t' r E. unfold eff_finally in E. destruct (m t) as [t1 x] eqn:E1.
  destruct (Hm _ _ _ E1) as (H1 & s & -> & Hc & Hr). destruct (f (t ++ s)) as [t2 y] eqn:E2.
  destruct (Hf _ _ _ Logic.I Logic.I E2) as (_ & (s2 & -> & F) & _). specialize (Hd (t ++ s)). rewrite E2 in Hd. cbn in Hd.
  assert (exists s', (t ++ s) ++ s2 = t ++ s' /\ complete_renames data s' /\
    (is_ok x = true -> exists h p u o v, In (NtSetInformationFile h p u o, Value v) s')) as (s' & Es & Hc' & Hr').
  { exists (s ++ s2). split_and!; [now rewrite app_assoc|apply complete_after; [exact Hc|now apply setup_no_rename]|].
    intros Hx. destruct (Hr Hx) as (h & p & u & o & v & Hin). exists h, p, u, o, v. rewrite in_app_iff. now left. }
  rewrite Es in E. destruct y as [u|e]; injection E as <- <-.
  - split; [exact H1|]. exists s'. auto.
  - split; [congruence|]. exists s'. split_and!; [reflexivity|exact Hc'|discriminate].
Qed.

Lemma close_ends h t : snd (close_handle env h t) <> Err Diverges.
Proof. unfold close_handle, win_or, win, mbind, eff_bind. destruct (we_answer _ _ _); discriminate. Qed.
Lemma close_all_ends hs t : snd (eff_iter (close_handle env) hs t) <> Err Diverges.
Proof.
  revert t. induction hs as [|h hs IH]; intros t; cbn [eff_iter]; [discriminate|].
  pose proof (close_ends h t) as Hc. destruct (close_handle env h t) as [t1 [u|e]]; [apply IH|exact Hc].
Qed.

(** After steps that only set up. *)
Lemma setup_then_writes {A B} data (m : Eff WinTrace A) (k : A -> Eff WinTrace B) : quiet_setup m ->
  (forall t, snd (m t) <> Err Diverges) -> (forall a, writes data (k a)) -> writes data (m ≫= k).
Proof.
  intros Hm Hd Hk t t' r E. apply bind_inv in E as [(e & E & ->)|(t1 & a & E1 & E2)].
  - specialize (Hd t). rewrite E in Hd. destruct (Hm _ _ _ Logic.I Logic.I E) as (_ & (s & -> & F) & _). split; [cbn in Hd; congruence|].
    exists s. split_and!; [reflexivity|now apply complete_none, setup_no_rename|discriminate].
  - destruct (Hm _ _ _ Logic.I Logic.I E1) as (_ & (s & -> & F) & _). destruct (Hk a _ _ _ E2) as (H1 & s2 & -> & Hc & Hr).
    split; [exact H1|]. exists (s ++ s2). split_and!; [now rewrite app_assoc|now apply complete_before|].
    intros Hx. destruct (Hr Hx) as (h & p & u & o & v & Hin). exists h, p, u, o, v. rewrite in_app_iff. now right.
Qed.

Lemma writes_atomic token p name data overwrite : writes data (atomic_write_windows env token p name data overwrite).
Proof.
  unfold atomic_write_windows. apply setup_then_writes; [apply setup_nt_open| |intros h].
  { intros t E. destruct (nt_open_relative env p _ _ _ _ _ _ t) as [t' r] eqn:Eo. cbn in E. now apply nt_open_ends in Eo. }
  apply setup_finally_writes; [|unfold close_handle; solve_triple|intros t; apply close_ends].
  intros t t' r E. unfold eff_try in E.
  destruct ((_ ← write_handle env h data; rename_open_handle env h p name overwrite) t) as [t1 [u|e]] eqn:E1;
    destruct (write_then_rename _ _ _ _ _ _ _ _ E1) as (Hd & s & -> & Hc & Hr).
  - injection E as <- <-. split; [exact Hd|]. exists s. split_and!; [reflexivity|exact Hc|]. intros _. destruct u.
    destruct (Hr eq_refl) as [v Hv]. eauto 6.
  - destruct (is_OSError e); [|injection E as <- <-; split; [exact Hd|]; exists s; split_and!; [reflexivity|exact Hc|discriminate]].
    apply bind_inv in E as [(e' & E & ->)|(t2 & u & E2 & E)].
    + unfold mark_delete, win_or, win, mbind, eff_bind in E. destruct (we_answer _ _ _) as [v|n]; [discriminate|].
      injection E as <- <-. split; [unfold windows_error; repeat case_match; discriminate|].
      eexists (s ++ [_]). rewrite <- app_assoc. split_and!; [reflexivity|apply complete_after; [exact Hc|now constructor]|discriminate].
    + unfold mark_delete, win_or, win, mbind, eff_bind in E2. destruct (we_answer _ _ _) as [v|n]; [|discriminate].
      injection E2 as <- _. injection E as <- <-. split; [destruct (bool_decide _); congruence|].
      eexists (s ++ [_]). rewrite <- app_assoc. split_and!; [reflexivity|apply complete_after; [exact Hc|now constructor]|discriminate].
Qed.

Lemma setup_parents root parts create expected : quiet_setup (open_parents env root parts create expected).
Proof.
  intros t t' r _ _ E. split_and!; [exact Logic.I| |auto]. unfold open_parents in E.
  assert (Hd : quiet_setup (open_directory_handle env root)) by (unfold open_directory_handle; solve_triple).
  destruct (open_directory_handle env root t) as [t1 [h|e]] eqn:E1; destruct (Hd _ _ _ Logic.I Logic.I E1) as (_ & S1 & _);
    [|now injection E as <- _]. etrans; [exact S1|]. clear S1 E1 t.
  assert (Hi : quiet_setup (check_inode env h expected)) by (unfold check_inode, handle_inode, escape; solve_triple).
  destruct (check_inode env h expected t1) as [t2 [u|e]] eqn:E2; destruct (Hi _ _ _ Logic.I Logic.I E2) as (_ & S2 & _);
    [|now injection E as <- _]. etrans; [exact S2|]. clear S2 E2 Hi Hd. revert t2 E. generalize [h] at 1. revert h.
  induction (removelast parts) as [|c cs IH]; intros h hs t2 E; cbn [open_components] in E; [injection E as <- _; reflexivity|].
  destruct (open_component env create h c t2) as [t3 [h'|e]] eqn:E3; destruct (setup_component create h c _ _ _ Logic.I Logic.I E3) as (_ & S3 & _);
    [|now injection E as <- _]. etrans; [exact S3|]. eapply IH. exact E.
Qed.

(** As [writes], without the end of the loops: what a path resolves to may be
    any result. *)
Definition renames {A} (data : string) (m : Eff WinTrace A) : Prop := forall t t' r, m t = (t', r) ->
  exists s, t' = t ++ s /\ complete_renames data s
    /\ (is_ok r = true -> exists h p u o v, In (NtSetInformationFile h p u o, Value v) s).

Lemma setup_then_renames {A B} data (m : Eff WinTrace A) (k : A -> Eff WinTrace B) : quiet_setup m ->
  (forall a, renames data (k a)) -> renames data (m ≫= k).
Proof.
  intros Hm Hk t t' r E. apply bind_inv in E as [(e & E & ->)|(t1 & a & E1 & E2)].
  - destruct (Hm _ _ _ Logic.I Logic.I E) as (_ & (s & -> & F) & _).
    exists s. split_and!; [reflexivity|now apply complete_none, setup_no_rename|discriminate].
  - destruct (Hm _ _ _ Logic.I Logic.I E1) as (_ & (s & -> & F) & _). destruct (Hk a _ _ _ E2) as (s2 & -> & Hc & Hr).
    exists (s ++ s2). split_and!; [now rewrite app_assoc|now apply complete_before|].
    intros Hx. destruct (Hr Hx) as (h & p & u & o & v & Hin). exists h, p, u, o, v. rewrite in_app_iff. now right.
Qed.

Lemma renames_with_parent {A} data root parts create expected (body : Z -> Eff WinTrace A) :
  (forall p, writes data (body p)) -> renames data (with_parent env root parts create expected body).
Proof.
  intros Hb. apply setup_then_renames; [apply setup_parents|]. intros [hs [p|e]] t t' r E; cbn [fst snd] in E.
  - destruct (setup_finally_writes data (body p) _ (Hb p) (setup_close_all hs) (close_all_ends hs) _ _ _ E) as (_ & H). exact H.
  - unfold eff_finally, eff_raise in E. destruct (eff_iter (close_handle env) hs t) as [t1 x] eqn:E1.
    destruct (setup_close_all hs _ _ _ Logic.I Logic.I E1) as (_ & (s & -> & F) & _).
    exists s. destruct x; injection E as <- <-; (split_and!; [reflexivity|now apply complete_none, setup_no_rename|discriminate]).
Qed.

Context (resolve : WinTrace -> string -> res string) (lstat : WinTrace -> string -> res PathInfo).

Lemma setup_root p expected : quiet_setup (validated_root_path resolve lstat p expected).
Proof.
  assert (Hr : forall q, quiet_setup (is_reparse_point lstat q)).
  { intros q. unfold is_reparse_point, stat_path. apply holds_try; [typeclasses eauto|solve_triple|].
    intros [] k; try discriminate. intros [= <-]. apply holds_ret; typeclasses eauto. }
  unfold validated_root_path, validate_identity, root_identity_of, resolve_path, stat_path, escape. solve_triple; apply Hr.
Qed.

Lemma renames_write token root relative data overwrite expected allow :
  renames data (win_atomic_write env resolve lstat token root relative data overwrite expected allow).
Proof.
  apply setup_then_renames; [apply holds_lift; typeclasses eauto|intros parts].
  apply setup_then_renames; [apply setup_root|intros canonical].
  apply setup_then_renames; [apply holds_raise_if; typeclasses eauto|intros u].
  apply renames_with_parent. intros p. apply writes_atomic.
Qed.
End Complete.

(** ** The operations together *)
Inductive win_op :=
| WSafeOpen (relative : string) (flags : Z)
| WReadBytes (relative : string)
| WAtomicWrite (token relative data : string) (overwrite : bool)
| WUnlink (relative : string) (missing_ok : bool)
| WRename (source destination : string) (overwrite : bool).

(** The token of a temporary name is hexadecimal. *)
Definition op_ok (op : win_op) : Prop :=
  match op with WAtomicWrite token _ _ _ => all_chars (fun c => is_digit c || is_lower c) token = true | _ => True end.

Section Operations.
Context (env : WinEnv).
Context (resolve : WinTrace -> string -> res string) (lstat : WinTrace -> string -> res PathInfo).

(** The descriptor that an operation returns, if it does. *)
Definition win_run (root : string) (expected : option RootIdentity) (allow : bool) (op : win_op) : Eff WinTrace (option Z) :=
  match op with
  | WSafeOpen relative flags => fd ← win_safe_open env resolve lstat root relative flags expected allow; mret (Some fd)
  | WReadBytes relative => _ ← win_read_bytes env resolve lstat root relative expected allow; mret None
  | WAtomicWrite token relative data overwrite =>
      _ ← win_atomic_write env resolve lstat token root relative data overwrite expected allow; mret None
  | WUnlink relative missing_ok => _ ← win_unlink env resolve lstat root relative missing_ok expected allow; mret None
  | WRename source destination overwrite =>
      _ ← win_rename env resolve lstat root source destination overwrite expected allow; mret None
  end.

Definition descriptor_of (o : option Z) : list resource := match o with Some fd => [Descriptor fd] | None => [] end.

Lemma accounts_run root expected allow op : accounts [] (win_run root expected allow op) descriptor_of none.
Proof.
  assert (Hnone : forall {A} (m : Eff WinTrace A), accounts [] m none none ->
    accounts [] (_ ← m; mret None) descriptor_of none)
    by (intros A m Hm; eapply accounts_bind; [exact Hm|intros a; now apply accounts_ret]).
  destruct op; cbn [win_run]; [eapply accounts_bind; [apply accounts_safe_open|intros fd; now apply accounts_ret]|apply Hnone..].
  - apply accounts_read.
  - apply accounts_checked. intros parts c. apply accounts_with_parent. intros p. apply accounts_write.
  - apply accounts_unlink.
  - unfold win_rename. eapply (accounts_bind _ _ _ (fun _ => [])); [apply (accounts_lift [])|intros sp].
    apply accounts_checked. intros dp c. apply accounts_with_parent. intros p. apply accounts_with_parent. intros q. apply accounts_rename.
Qed.

Lemma steps_path {A} H c (answer : WinTrace -> res A) Q : (forall h, c <> CloseHandle h) -> (forall t, relative_ok t c) ->
  (forall a h, ~ Q a h) -> steps H (path_call c answer) Q.
Proof.
  intros Hc Hr HQ t t' r Ht Hh [= <- <-]. split; [apply confined_snoc; [exact Ht|apply Hr]|].
  destruct (answer t); [intros h [Hx|Hx]; [|now elim (HQ a h)]|intros _ h Hx]; (apply checked_snoc; [auto|apply Hc]).
Qed.

Lemma ends_path {A} H c (answer : WinTrace -> res A) : (forall t, relative_ok t c) -> ends H (path_call c answer).
Proof. intros Hr t t' r Ht _ [= <- _]. apply confined_snoc; [exact Ht|apply Hr]. Qed.

Lemma ends_root p expected : ends known (validated_root_path resolve lstat p expected).
Proof.
  assert (Hr : forall q, ends known (is_reparse_point lstat q)).
  { intros q. unfold is_reparse_point, stat_path. apply win_ends_try; [apply ends_seq; [now apply ends_path|intros i; apply win_ends_ret]|].
    intros [] k; try discriminate. intros [= <-]. apply win_ends_ret. }
  unfold validated_root_path, validate_identity, root_identity_of, resolve_path, stat_path, escape.
  apply ends_seq; [now apply ends_path|intros c]. destruct expected as [e|].
  - apply ends_seq; [|intros x; apply win_ends_ret]. apply ends_seq; [now apply ends_path|intros c'].
    apply ends_seq; [|intros i; destruct (bool_decide _); [apply win_ends_ret|apply win_ends_raise]].
    apply ends_seq; [now apply ends_path|intros i]. apply ends_seq; [destruct (pi_is_dir i); [apply Hr|apply win_ends_ret]|].
    intros []; [apply win_ends_raise|apply win_ends_ret].
  - apply ends_seq; [apply Hr|intros b]. apply ends_seq; [|intros [[]|]; [apply win_ends_ret|apply win_ends_raise..]].
    destruct b; [apply win_ends_ret|]. apply win_ends_try; [apply ends_seq; [now apply ends_path|intros i; apply win_ends_ret]|].
    intros e k. destruct (is_OSError e); [|discriminate]. intros [= <-]. apply win_ends_ret.
Qed.

Lemma ends_checked {A} root relative expected allow (k : list string -> string -> Eff WinTrace A) :
  (forall parts canonical, safe_relative_parts relative = Ok parts -> ends known (k parts canonical)) ->
  ends known (parts ← eff_lift (safe_relative_parts relative);
              canonical ← validated_root_path resolve lstat root expected;
              _ ← managed expected allow; k parts canonical).
Proof.
  intros Hk t t' r Ht Hh E. apply eff_lift_bind in E as [(e & _ & -> & _)|(parts & Hp & E)]; [exact Ht|].
  assert (Hrest : ends known (canonical ← validated_root_path resolve lstat root expected; _ ← managed expected allow; k parts canonical)).
  { apply ends_seq; [apply ends_root|intros c]. apply ends_seq; [intros s s' x Hs _ [= <- _]; exact Hs|intros u; now apply Hk]. }
  eapply Hrest; eauto.
Qed.

Lemma parts_safe relative parts : safe_relative_parts relative = Ok parts ->
  forallb safe_component parts = true /\ safe_component (final parts) = true.
Proof.
  intros H. apply safe_relative_parts_ok in H as (Hne & Hs & _). split; [exact Hs|].
  eapply forallb_forall; [exact Hs|]. unfold final. pose proof (app_removelast_last "" Hne) as E.
  assert (Hin : In (List.last parts "") (removelast parts ++ [List.last parts ""])) by (rewrite in_app_iff; right; now left).
  now rewrite <- E in Hin.
Qed.

Lemma temporary_safe token name : all_chars (fun c => is_digit c || is_lower c) token = true -> safe_component name = true ->
  safe_component (temporary_name token name) = true.
Proof.
  unfold safe_component, temporary_name. rewrite !andb_true_iff. intros Ht [[H1 H2] H3].
  assert (Hk : forall sep, is_digit sep || is_lower sep = false -> Ascii.eqb "." sep = false ->
    all_chars (no_sep sep) name = true -> all_chars (no_sep sep) ("." ++ name ++ "." ++ token)%string = true).
  { intros sep Hsep Hdot Hn. cbn [append all_chars]. rewrite !all_chars_append. cbn [append all_chars]. unfold no_sep at 1 3.
    rewrite Hdot, Hn. cbn. eapply all_chars_imp; [|exact Ht]. intros c Hc. unfold no_sep.
    destruct (Ascii.eqb_spec c sep) as [->|]; [congruence|reflexivity]. }
  split_and!; [|now apply Hk..]. destruct name as [|c name]; [discriminate|].
  change ("." ++ String c name ++ "." ++ token)%string with (String "." (String c (name ++ String "." token))).
  cbn. destruct (Ascii.eqb c "."); [|reflexivity]. now destruct name.
Qed.

Lemma ends_open_final H p n flags : H p -> safe_component n = true -> ends H (open_final env p n flags).
Proof.
  intros Hp Hn. unfold open_final. eapply win_ends_bind; [now apply steps_nt_open|intros h].
  eapply win_ends_bind; [apply steps_refuse|intros u]. apply win_ends_try; [now apply ends_win|].
  intros e k. destruct (is_Exception e); [|discriminate]. intros [= <-]. apply ends_seq; [apply ends_close|intros v; apply win_ends_raise].
Qed.

Lemma steps_chunks H fuel h data : steps H (write_chunks env fuel h data) (fun _ _ => False).
Proof.
  revert H data. induction fuel as [|fuel IH]; intros H data; cbn [write_chunks]; [apply steps_raise|].
  apply steps_if; [now apply steps_ret|]. eapply (steps_bind _ _ _ (fun _ _ => False)); [apply steps_win; [discriminate|easy|auto]|].
  intros n. apply IH.
Qed.

Lemma ends_rename_handle H h p n o : H p -> safe_component n = true -> ends H (rename_open_handle env h p n o).
Proof.
  intros Hp Hn. unfold rename_open_handle. eapply (win_ends_bind _ _ _ (fun _ _ => False)); [now apply steps_result|intros u].
  apply ends_seq; [|intros v; apply win_ends_ret]. eapply steps_ends, (steps_win _ _ _ _ (fun _ _ => False)); [discriminate| |auto].
  intros t _ Hh. split; [auto|eauto].
Qed.

Lemma ends_atomic H token p n data o : H p -> safe_component n = true -> safe_component (temporary_name token n) = true ->
  ends H (atomic_write_windows env token p n data o).
Proof.
  intros Hp Hn Ht. unfold atomic_write_windows. eapply win_ends_bind; [now apply steps_nt_open|intros h].
  apply win_ends_finally; [|apply ends_close]. apply win_ends_try.
  - eapply (win_ends_bind _ _ _ (fun _ _ => False)); [|intros u; apply ends_rename_handle; [now left; left|exact Hn]].
    unfold write_handle. eapply steps_bind; [apply steps_chunks|intros u].
    eapply (steps_bind _ _ _ (fun _ _ => False)); [apply steps_win; [discriminate|easy|auto]|intros v; now apply steps_ret].
  - intros e k. destruct (is_OSError e); [|discriminate]. intros [= <-].
    apply ends_seq; [|intros u; apply win_ends_raise]. apply ends_seq; [now apply ends_win|intros v; apply win_ends_ret].
Qed.

Lemma ends_run root expected allow op : op_ok op -> ends known (win_run root expected allow op).
Proof.
  assert (Hw : forall {A B} (m : Eff WinTrace A) (b : B), ends known m -> ends known (_ ← m; mret b))
    by (intros A B m b Hm; apply ends_seq; [exact Hm|intros a; apply win_ends_ret]).
  assert (Hopen : forall relative flags, ends known (win_safe_open env resolve lstat root relative flags expected allow)).
  { intros relative flags. apply ends_checked. intros parts c Hp. apply parts_safe in Hp as [Hs Hf].
    apply ends_with_parent; [exact Hs|]. intros p. apply ends_open_final; [now right|exact Hf]. }
  destruct op as [relative flags|relative|token relative data o|relative missing|source destination o]; cbn [op_ok win_run]; intros Hop.
  - apply ends_seq; [apply Hopen|intros fd; apply win_ends_ret].
  - apply Hw. apply ends_seq; [apply Hopen|intros fd]. apply win_ends_finally.
    + intros t t' r Ht _ E. destruct (win_or env OSError (ReadDescriptor fd) t) as [t1 [v|e]] eqn:E1; injection E as <- _;
        (eapply (ends_win env known OSError (ReadDescriptor fd)); [easy|exact Ht|intros h []|exact E1]).
    + apply ends_seq; [now apply ends_win|intros v; apply win_ends_ret].
  - apply Hw, ends_checked. intros parts c Hp. apply parts_safe in Hp as [Hs Hf].
    apply ends_with_parent; [exact Hs|]. intros p. apply ends_atomic; [now right|exact Hf|now apply temporary_safe].
  - apply Hw, ends_checked. intros parts c Hp. apply parts_safe in Hp as [Hs Hf].
    apply ends_with_parent; [exact Hs|]. intros p. apply ends_seq.
    + apply win_ends_try; [|intros [] k; try discriminate; destruct missing; [|discriminate]; intros [= <-]; apply win_ends_ret].
      apply ends_seq; [|intros h; apply win_ends_ret]. eapply steps_ends, steps_nt_open; [now right|exact Hf].
    + intros [h|]; [|apply win_ends_ret]. apply win_ends_finally; [|apply ends_close].
      apply ends_seq; [now apply ends_win|intros v; apply win_ends_ret].
  - apply Hw. intros t t' r Ht Hh E. unfold win_rename in E. apply eff_lift_bind in E as [(e & _ & -> & _)|(sp & Hsp & E)]; [exact Ht|].
    apply parts_safe in Hsp as [Hs Hf]. revert t t' r Ht Hh E. apply ends_checked. intros dp c Hdp. apply parts_safe in Hdp as [Hds Hdf].
    apply ends_with_parent; [exact Hs|]. intros p. apply ends_with_parent; [exact Hds|]. intros q.
    unfold rename_relative. eapply win_ends_bind; [apply steps_nt_open; [now left; right|exact Hf]|intros h].
    apply win_ends_finally; [|apply ends_close]. apply ends_rename_handle; [now left; right|exact Hdf].
Qed.


(** A write on Windows is complete before it shows.  If each [WriteFile]
    gets through at least one byte and no more than it was given, then the file
    is renamed to its name only right after a flush and when exactly the given
    data has been written to it, whatever fails before or after; and the write
    reports success only if it was renamed.  The loop that writes ends. *)
Theorem windows_write_complete token root relative data overwrite expected allow t t' r :
  full_writes env ->
  win_atomic_write env resolve lstat token root relative data overwrite expected allow t = (t', r) ->
  (exists s, t' = t ++ s /\ complete_renames data s
     /\ (is_ok r = true -> exists h p u o v, In (NtSetInformationFile h p u o, Value v) s))
  /\ forall p name t0, snd (atomic_write_windows env token p name data overwrite t0) <> Err Diverges.
Proof.
  intros Hw E. split; [exact (renames_write env Hw resolve lstat _ _ _ _ _ _ _ _ _ _ E)|].
  intros p name t0 Hd. destruct (atomic_write_windows env token p name data overwrite t0) as [t1 x] eqn:E1.
  apply (writes_atomic env Hw) in E1 as [H _]. now apply H.
Qed.
End Operations.

(** ** A kernel that answers normally *)
Definition sample_win : WinEnv := {|
  we_answer t c := Value match c with
    | WriteFile _ chunk => Z.min 3 (Z.of_nat (String.length chunk))
    | GetFileInformationByHandleEx _ => 0x10
    | _ => 100 + Z.of_nat (List.length t)
    end;
  we_thread _ := (0, 0);
  we_bytes _ := "data" |}%string.
Definition same_path (_ : WinTrace) (p : string) : res string := Ok p.
Definition a_directory (_ : WinTrace) (_ : string) : res PathInfo := Ok (mkPathInfo true false (mkRootIdentity 1 7)).

Definition sample_write : win_op := WAtomicWrite "00ff" "d/b.txt" "hello" true.
Definition sample_written : WinTrace * res (option Z) := win_run sample_win same_path a_directory "C:\work" None false sample_write [].

Example win_write_ex :
  snd sample_written = Ok None
  /\ map fst (drop 8 (fst sample_written))
     = [GetFileInformationByHandleEx 107; WriteFile 107 "hello"; WriteFile 107 "lo"; FlushFileBuffers 107;
        NtSetInformationFile 107 105 (utf16 "b.txt") true; CloseHandle 107; CloseHandle 105; CloseHandle 103]%string.
Proof. vm_compute. split; reflexivity. Qed.

Lemma sample_written_eq : win_run sample_win same_path a_directory "C:\work" None false sample_write []
  = (fst sample_written, snd sample_written).
Proof. unfold sample_written. now destruct win_run. Qed.

Lemma confined_nil : confined [].
Proof. intros [|] ev after E; discriminate. Qed.


Lemma sample_full : full_writes sample_win.
Proof.
  intros t h chunk n Hne [= <-]. assert (H : (0 < String.length chunk)%nat) by (destruct chunk; [easy|cbn; lia]). lia.
Qed.

Lemma sample_atomic_eq : win_atomic_write sample_win same_path a_directory "00ff" "C:\work" "d/b.txt" "hello" true None false []
  = (fst sample_written, Ok tt).
Proof. vm_compute. reflexivity. Qed.

Lemma windows_write_complete_witness :
  exists s, fst sample_written = [] ++ s /\ complete_renames "hello" s
    /\ (is_ok (Ok tt : res unit) = true -> exists h p u o v, In (NtSetInformationFile h p u o, Value v) s).
Proof.
  exact (proj1 (windows_write_complete sample_win same_path a_directory "00ff" "C:\work" "d/b.txt" "hello" true None false [] _ _
    sample_full sample_atomic_eq)).
Defined.

(** ** What goes wrong *)

(** A kernel that cannot tell whether a fresh handle is a reparse point: the
    handle stays open. *)
Definition mute_win : WinEnv := {|
  we_answer t c := match c with
    | GetFileInformationByHandleEx _ => Failed 6
    | _ => we_answer sample_win t c
    end;
  we_thread := we_thread sample_win;
  we_bytes := we_bytes sample_win |}.

Example unanswered_question_leaks :
  let '(t, r) := win_run mute_win same_path a_directory "C:\work" None false (WReadBytes "a.txt") [] in
  r = Err (OSError 6) /\ net (Handle 103) t = 1.
Proof. vm_compute. auto. Qed.

(** The length of a name is counted in code points and used as a number of
    UTF-16 units: each character beyond the basic plane cuts a unit off the
    end, and two names become one. *)
Definition astral : string := utf8_char 0x1F600.
Example astral_names_collide :
  unicode_string (astral ++ "a") = unicode_string (astral ++ "b")
  /\ code_points (astral ++ "a") <> code_points (astral ++ "b")
  /\ unicode_string "b.txt" = utf16 "b.txt".
Proof. vm_compute. split_and!; [reflexivity|discriminate|reflexivity]. Qed.

(** The rename of such a file raises a [ValueError], which the handler for
    [OSError] does not take: the temporary file stays. *)
Example astral_write_leaves_temporary :
  let '(t, r) := win_run sample_win same_path a_directory "C:\work" None false (WAtomicWrite "00ff" (astral ++ "a") "hello" true) [] in
  r = Err (ValueError "string too long")
  /\ existsb (fun ev => match fst ev with SetFileInformationByHandle _ => true | _ => false end) t = false
  /\ existsb (fun ev => match fst ev with WriteFile _ _ => true | _ => false end) t = true.
Proof. vm_compute. auto. Qed.
