(* ===== verification/FallbackPaths.v ===== *)
(** * Safe paths without directory handles (src/notebook_launcher/safe_paths.py)

    The branch for a system that is not Windows and cannot open files relative
    to a directory, and [atomic_write], which workspace.py uses everywhere.
    Paths are checked component by component before they are used; what the
    system answers may change from call to call.  A path is the canonical root
    and the components below it. *)
From S2P Require Export SafePaths Triples.

Record path := mkPath { base : string; below : list string }.

#[export] Instance path_eq : EqDecision path.
Proof. solve_decision. Defined.

Definition path_text (p : path) : string :=
  if String.eqb (base p) "/" then ("/" ++ str_join "/" (below p))%string else str_join "/" (base p :: below p).
Definition child (p : path) (name : string) : path := mkPath (base p) (below p ++ [name]).
Definition parent (p : path) : path := mkPath (base p) (removelast (below p)).
Definition name_of (p : path) : string := final (below p).

(** What [lstat] says; the identity is device and inode. *)
Record FileInfo := mkFileInfo { is_directory : bool; is_symlink : bool; is_reparse : bool; file_identity : Z * Z }.

Inductive path_call :=
| Resolve (text : string)
| Lstat (p : path)
| Exists (p : path)
| IsDir (p : path)
| Mkdir (p : path)
| MkdirParents (p : path)
| OpenPath (p : path) (flags mode : Z)
| OpenDirectory (p : path)
| CloseFd (fd : Z)
| SyncFd (fd : Z)
| Mkstemp (directory : path) (prefix : string)
| WriteFd (fd : Z) (data : string)
| Replace (source destination : path)
| Link (source destination : path)
| Unlink (p : path).

Definition PathTrace : Type := list path_call.

Record PathEnv := mkPathEnv {
  pa_resolve : PathTrace -> string -> res string;
  pa_lstat : PathTrace -> path -> res FileInfo;
  pa_bool : PathTrace -> path_call -> res bool;
  pa_unit : PathTrace -> path_call -> res unit;
  pa_fd : PathTrace -> path_call -> res Z;
  (** what [mkstemp] appends to its prefix *)
  pa_suffix : PathTrace -> string }.

(** ** [_within] *)
Fixpoint common_prefix (a b : list string) : list string :=
  match a, b with
  | x :: a', y :: b' => if String.eqb x y then x :: common_prefix a' b' else []
  | _, _ => []
  end.

(** [os.path.commonpath], which raises [ValueError] on a relative and an absolute path *)
Definition commonpath (a b : string) : option string :=
  if Bool.eqb (is_absolute a) (is_absolute b)
  then Some ((if is_absolute a then "/" else "") ++ str_join "/" (common_prefix (path_parts a) (path_parts b)))%string
  else None.

Definition within (root candidate : string) : bool :=
  match commonpath root candidate with Some c => String.eqb c root | None => false end.

(** ** Which branch a system takes *)
Record Platform := mkPlatform {
  has_O_NOFOLLOW : bool; has_O_DIRECTORY : bool;
  open_takes_dir_fd : bool; rename_takes_dir_fd : bool; stat_takes_dir_fd : bool;
  is_nt : bool }.

Definition supports_secure_dir_fd (p : Platform) : bool :=
  has_O_NOFOLLOW p && has_O_DIRECTORY p && open_takes_dir_fd p && rename_takes_dir_fd p && stat_takes_dir_fd p.
Definition secure_handle_relative_supported (p : Platform) : bool := supports_secure_dir_fd p || is_nt p.

Section FallbackPaths.
(** The system, its value of [os.O_CREAT], and whether it has [os.O_DIRECTORY]. *)
Context (env : PathEnv) (O_CREAT : Z) (has_directory_flag : bool).

Definition ask_path {A} (c : path_call) (answer : PathTrace -> res A) : Eff PathTrace A := fun t => (t ++ [c], answer t).
Definition resolve_strict (text : string) : Eff PathTrace string := ask_path (Resolve text) (fun t => pa_resolve env t text).
Definition lstat (p : path) : Eff PathTrace FileInfo := ask_path (Lstat p) (fun t => pa_lstat env t p).
Definition ask_bool (c : path_call) : Eff PathTrace bool := ask_path c (fun t => pa_bool env t c).
Definition do_path (c : path_call) : Eff PathTrace unit := ask_path c (fun t => pa_unit env t c).
Definition ask_fd (c : path_call) : Eff PathTrace Z := ask_path c (fun t => pa_fd env t c).

Definition path_escape {A} : Eff PathTrace A := eff_raise (LauncherExn HostPathEscape).

(** [_is_reparse_point] *)
Definition is_reparse_point (p : path) : Eff PathTrace bool :=
  eff_try (info ← lstat p; mret (is_symlink info || is_reparse info))
    (fun e => match e with FileNotFoundError _ => Some (mret false) | _ => None end).

(** ** The root *)
Definition root_path (canonical : string) : path := mkPath canonical [].

Definition root_identity (root : path) : Eff PathTrace (Z * Z) :=
  info ← lstat root;
  bad ← (if is_directory info then is_reparse_point root else mret true);
  if bad : bool then path_escape else mret (file_identity info).

Definition validate_root_identity (root : string) (expected : Z * Z) : Eff PathTrace string :=
  canonical ← resolve_strict root;
  current ← root_identity (root_path canonical);
  if bool_decide (current = expected) then mret canonical else path_escape.

Definition validated_root (root : string) (expected : option (Z * Z)) : Eff PathTrace string :=
  canonical ← resolve_strict root;
  match expected with
  | Some e => _ ← validate_root_identity canonical e; mret canonical
  | None =>
      reparse ← is_reparse_point (root_path canonical);
      directory ← (if reparse : bool then mret false else ask_bool (IsDir (root_path canonical)));
      if directory : bool then mret canonical else path_escape
  end.

(** ** [_validated_path] *)

(** One component that exists or is missing; [None] leaves the loop. *)
Definition inspect (current : path) (is_final allow_missing_final : bool) : Eff PathTrace (option FileInfo) :=
  eff_try (info ← lstat current; mret (Some info))
    (fun e => match e with
     | FileNotFoundError _ =>
         if is_final && allow_missing_final then Some (mret None) else if is_final then None else Some path_escape
     | _ => None
     end).

Fixpoint check_components (current : path) (components : list string) (allow_missing_final : bool) : Eff PathTrace path :=
  match components with
  | [] => mret current
  | component :: rest =>
      let current := child current component in
      let is_final := match rest with [] => true | _ => false end in
      there ← (if is_final && allow_missing_final then ask_bool (Exists current) else mret true);
      info ← (if there : bool then inspect current is_final allow_missing_final else mret None);
      match info with
      | None => mret current
      | Some info =>
          reparse ← (if is_symlink info then mret true else is_reparse_point current);
          if reparse : bool then path_escape
          else if negb is_final && negb (is_directory info) then path_escape
          else check_components current rest allow_missing_final
      end
  end.

Definition validated_path (root : string) (parts : list string) (allow_missing_final : bool) : Eff PathTrace path :=
  current ← check_components (root_path root) parts allow_missing_final;
  resolved ← resolve_strict (path_text (parent current));
  if within root resolved then mret current else path_escape.

(** ** [_validated_destination_path] *)
Fixpoint make_components (root : string) (current : path) (components : list string) : Eff PathTrace path :=
  match components with
  | [] => mret current
  | component :: rest =>
      let current := child current component in
      info ← eff_try (lstat current)
        (fun e => match e with FileNotFoundError _ => Some (_ ← do_path (Mkdir current); lstat current) | _ => None end);
      bad ← (if is_directory info then is_reparse_point current else mret true);
      if bad : bool then path_escape
      else
        resolved ← resolve_strict (path_text current);
        if within root resolved then make_components root current rest else path_escape
  end.

Definition validated_destination_path (root : string) (parts : list string) : Eff PathTrace path :=
  current ← make_components root (root_path root) (removelast parts);
  let destination := child current (final parts) in
  there ← ask_bool (Exists destination);
  reparse ← (if there : bool then is_reparse_point destination else mret false);
  if reparse : bool then path_escape else mret destination.

(** ** [atomic_write] *)
Definition ignore_missing (e : exn) : option (Eff PathTrace unit) :=
  match e with FileNotFoundError _ => Some (mret tt) | _ => None end.

(** [_sync_directory] *)
Definition sync_directory (p : path) : Eff PathTrace unit :=
  if negb has_directory_flag then mret tt
  else
    fd ← eff_try (fd ← ask_fd (OpenDirectory p); mret (Some fd)) (fun e => if is_OSError e then Some (mret None) else None);
    match fd with
    | Some fd => eff_finally (do_path (SyncFd fd)) (do_path (CloseFd fd))
    | None => mret tt
    end.

(** [tempfile.mkstemp]: the descriptor and the path. *)
Definition mkstemp (directory : path) (prefix : string) : Eff PathTrace (Z * path) := fun t =>
  let c := Mkstemp directory prefix in
  (t ++ [c], match pa_fd env t c with Ok fd => Ok (fd, child directory (prefix ++ pa_suffix env t)) | Err e => Err e end).

Definition put_in_place (temporary destination : path) (overwrite : bool) : Eff PathTrace unit :=
  if overwrite then do_path (Replace temporary destination)
  else _ ← do_path (Link temporary destination); do_path (Unlink temporary).

Definition atomic_write (p : path) (data : string) (overwrite : bool) : Eff PathTrace unit :=
  _ ← do_path (MkdirParents (parent p));
  made ← mkstemp (parent p) ("." ++ name_of p ++ ".");
  eff_try (_ ← do_path (WriteFd (fst made) data);
           _ ← put_in_place (snd made) p overwrite;
           sync_directory (parent p))
    (fun e => if is_OSError e
              then Some (_ ← eff_try (do_path (Unlink (snd made))) ignore_missing;
                         eff_raise (if bool_decide (exn_errno e = Some ENOSPC) then LauncherExn StorageFull else e))
              else None).

(** ** The operations *)
Definition no_grant (expected : option (Z * Z)) : Eff PathTrace unit :=
  eff_raise_if (is_some expected) (LauncherExn HostPathEscape).

Definition fallback_open (root relative : string) (flags mode : Z) (expected : option (Z * Z)) : Eff PathTrace Z :=
  parts ← eff_lift (safe_relative_parts relative);
  canonical ← validated_root root expected;
  _ ← no_grant expected;
  target ← validated_path canonical parts (negb (Z.land flags O_CREAT =? 0));
  descriptor ← eff_try (ask_fd (OpenPath target flags mode))
    (fun e => if is_OSError e && is_escape e then Some path_escape else None);
  eff_try (reparse ← is_reparse_point target;
           inside ← (if reparse : bool then mret false
                     else resolved ← resolve_strict (path_text target); mret (within canonical resolved));
           if inside : bool then mret descriptor else path_escape)
    (fun e => if is_Exception e then Some (_ ← do_path (CloseFd descriptor); eff_raise e) else None).

Definition fallback_write (root relative data : string) (overwrite : bool) (expected : option (Z * Z)) : Eff PathTrace unit :=
  parts ← eff_lift (safe_relative_parts relative);
  canonical ← validated_root root expected;
  _ ← no_grant expected;
  destination ← validated_destination_path canonical parts;
  there ← ask_bool (Exists destination);
  refused ← (if there : bool then reparse ← is_reparse_point destination; mret (reparse || negb overwrite) else mret false);
  _ ← (if refused : bool then
         reparse ← is_reparse_point destination;
         if reparse : bool then path_escape else eff_raise (FileExistsError (path_text destination))
       else mret tt);
  _ ← atomic_write destination data overwrite;
  _ ← validated_root root expected;
  mret tt.

Definition fallback_unlink (root relative : string) (missing_ok : bool) (expected : option (Z * Z)) : Eff PathTrace unit :=
  parts ← eff_lift (safe_relative_parts relative);
  canonical ← validated_root root expected;
  _ ← no_grant expected;
  target ← validated_path canonical parts false;
  _ ← eff_try (do_path (Unlink target)) (fun e => if missing_ok then ignore_missing e else None);
  _ ← validated_root root expected;
  mret tt.

Definition fallback_rename (root source destination : string) (overwrite : bool) (expected : option (Z * Z)) : Eff PathTrace unit :=
  source_parts ← eff_lift (safe_relative_parts source);
  destination_parts ← eff_lift (safe_relative_parts destination);
  canonical ← validated_root root expected;
  _ ← no_grant expected;
  source_path ← validated_path canonical source_parts false;
  destination_path ← validated_path canonical destination_parts true;
  there ← ask_bool (Exists destination_path);
  _ ← eff_raise_if (there && negb overwrite) (FileExistsError (path_text destination_path));
  _ ← do_path (Replace source_path destination_path);
  _ ← validated_root root expected;
  mret tt.
End FallbackPaths.

(** ** What is touched *)

(** The calls that only look. *)
Definition looks (c : path_call) : bool :=
  match c with Resolve _ | Lstat _ | Exists _ | IsDir _ => true | _ => false end.

Section Confined.
Context (env : PathEnv) (O_CREAT : Z) (has_directory_flag : bool).

(** [lstat], which follows no link, said that there is a directory. *)
Definition seen_directory (t : PathTrace) (p : path) : Prop :=
  exists a b info, t = a ++ Lstat p :: b /\ pa_lstat env a p = Ok info /\ is_directory info = true.

(** Every directory between the root and this one, and this one, was seen to be a directory. *)
Definition walked (t : PathTrace) (d : path) : Prop :=
  forall q rest, q <> [] -> below d = q ++ rest -> seen_directory t (mkPath (base d) q).

(** A call touches only what is reached through directories that were seen. *)
Definition guarded (root : string) (t : PathTrace) (c : path_call) : Prop :=
  let entry p := base p = root /\ walked t (parent p) in
  match c with
  | OpenPath p _ _ | Unlink p | Mkdir p => entry p
  | Replace a b | Link a b => entry a /\ entry b
  | Mkstemp d _ | MkdirParents d | OpenDirectory d => base d = root /\ walked t d
  | _ => True
  end.

Definition confined (root : string) (t t' : PathTrace) : Prop :=
  exists s, t' = t ++ s /\ forall a c b, s = a ++ c :: b -> guarded root (t ++ a) c.

#[local] Instance confined_preorder root : PreOrder (confined root).
Proof.
  split.
  - intros t. exists []. split; [now rewrite app_nil_r|]. now intros [|].
  - intros t1 t2 t3 (s1 & -> & H1) (s2 & -> & H2). exists (s1 ++ s2). split; [now rewrite app_assoc|].
    intros a c b E. apply app_eq_app in E as (l & [(-> & E)|(-> & E)]).
    + destruct l as [|x l]; [|injection E as -> ->; eapply H1; reflexivity].
      specialize (H2 [] c b (eq_sym E)). rewrite !app_nil_r in H2. exact H2.
    + rewrite app_assoc. eapply H2. exact E.
Qed.

Lemma confined_one root t c : guarded root t c -> confined root t (t ++ [c]).
Proof.
  intros H. exists [c]. split; [reflexivity|]. intros a x b E. destruct a as [|y a]; [|destruct a; discriminate].
  injection E as <- _. now rewrite app_nil_r.
Qed.

Lemma seen_later t s p : seen_directory t p -> seen_directory (t ++ s) p.
Proof. intros (a & b & i & -> & H). exists a, (b ++ s), i. now rewrite <- app_assoc. Qed.
Lemma walked_later root t t' d : confined root t t' -> walked t d -> walked t' d.
Proof. intros (s & -> & _) H q rest Hq E. apply seen_later. eauto. Qed.
Lemma walked_root t r : walked t (root_path r).
Proof. intros [|x q] rest Hq E; [now destruct Hq|discriminate]. Qed.
Lemma parent_child d name : parent (child d name) = d.
Proof. destruct d. unfold parent, child. cbn. now rewrite removelast_last. Qed.
Lemma walked_parent t d : walked t d -> walked t (parent d).
Proof.
  intros H q rest Hq E. destruct d as [r comps]. cbn in E. destruct comps as [|x comps] using rev_ind; [now destruct q|].
  rewrite removelast_last in E. apply (H q (rest ++ [x])); [exact Hq|]. cbn. now rewrite E, <- app_assoc.
Qed.
Lemma walked_child t d name info a b : walked t d -> t = a ++ Lstat (child d name) :: b ->
  pa_lstat env a (child d name) = Ok info -> is_directory info = true -> walked t (child d name).
Proof.
  intros H Et Hl Hd q rest Hq E. cbn in E. destruct rest as [|x rest] using rev_ind.
  - rewrite app_nil_r in E. subst q. exists a, b, info. auto.
  - rewrite app_assoc in E. apply app_inj_tail in E as [E _]. now apply (H q rest).
Qed.

Abbreviation safe root := (triple (fun _ : PathTrace => True) (confined root)).
Abbreviation quiet root m := (holds (fun _ : PathTrace => True) (confined root) m).

Lemma safe_call {A} root c (answer : PathTrace -> res A) (P : PathTrace -> Prop) :
  (forall t, P t -> guarded root t c) ->
  safe root P (ask_path c answer) (fun x t' => exists t, P t /\ t' = t ++ [c] /\ answer t = Ok x).
Proof.
  intros Hg t t' r _ Hp [= <- <-]. split_and!; [exact Logic.I|now apply confined_one, Hg|]. intros x E. eauto.
Qed.
Lemma quiet_call {A} root c (answer : PathTrace -> res A) : (forall t, guarded root t c) -> quiet root (ask_path c answer).
Proof. intros H. eapply holds_triple, safe_call. auto. Qed.
Lemma quiet_look {A} root c (answer : PathTrace -> res A) : looks c = true -> quiet root (ask_path c answer).
Proof. intros H. apply quiet_call. intros t. now destruct c. Qed.
#[local] Hint Extern 1 (holds _ (confined _) (ask_path _ _)) => (apply quiet_look; reflexivity) : triples.

Lemma quiet_reparse root p : quiet root (is_reparse_point env p).
Proof. unfold is_reparse_point, lstat. solve_triple. Qed.
#[local] Hint Resolve quiet_reparse : triples.
Lemma quiet_root root r e : quiet root (validated_root env r e).
Proof. unfold validated_root, validate_root_identity, root_identity, resolve_strict, lstat, ask_bool, path_escape. solve_triple. Qed.
#[local] Hint Resolve quiet_root : triples.

(** A step keeps what lasts. *)
Definition lasting (root : string) (P : PathTrace -> Prop) : Prop := forall t t', confined root t t' -> P t -> P t'.

Lemma lasting_walked root d : lasting root (fun t => walked t d).
Proof. intros t t' Hc. now apply (walked_later root). Qed.

(** What [lstat] said of a path. *)
Definition known (t : PathTrace) (p : path) (info : FileInfo) : Prop :=
  exists a b, t = a ++ Lstat p :: b /\ pa_lstat env a p = Ok info.
Lemma lasting_known root p info : lasting root (fun t => known t p info).
Proof. intros t t' (s & -> & _) (a & b & -> & H). exists a, (b ++ s). now rewrite <- app_assoc. Qed.
Lemma lasting_and root P Q : lasting root P -> lasting root Q -> lasting root (fun t => P t /\ Q t).
Proof. intros HP HQ t t' Hc [H1 H2]. split; [eapply HP|eapply HQ]; eassumption. Qed.
#[local] Hint Resolve lasting_walked lasting_known lasting_and : triples.

Lemma safe_keep {A} root P (m : Eff PathTrace A) : lasting root P -> quiet root m -> safe root P m (fun _ t => P t).
Proof.
  intros HP H t t' r _ Hp E. destruct (H _ _ _ Logic.I Logic.I E) as (_ & Hc & _). split_and!; [exact Logic.I|exact Hc|].
  intros x _. eapply HP; eassumption.
Qed.

(** [m] with a quiet first step. *)
Lemma safe_after {A B} root P (m : Eff PathTrace A) (k : A -> Eff PathTrace B) Q :
  lasting root P -> quiet root m -> (forall x, safe root P (k x) Q) -> safe root P (m ≫= k) Q.
Proof. intros HP Hm Hk. eapply triple_bind; [typeclasses eauto|apply safe_keep; eassumption|exact Hk]. Qed.

Lemma safe_assume {A} root (F : Prop) P (m : Eff PathTrace A) Q : (F -> safe root P m Q) -> safe root (fun t => F /\ P t) m Q.
Proof. intros H t t' r Hi [Hf Hp] E. exact (H Hf t t' r Hi Hp E). Qed.

Lemma safe_escape {A} root P (Q : A -> PathTrace -> Prop) : safe root P path_escape Q.
Proof. apply triple_raise. typeclasses eauto. Qed.
Lemma safe_value {A} root P (x : A) (Q : A -> PathTrace -> Prop) : (forall t, P t -> Q x t) -> safe root P (mret x) Q.
Proof. apply triple_value. typeclasses eauto. Qed.

Lemma safe_lstat root P p : lasting root P -> safe root P (lstat env p) (fun info t => P t /\ known t p info).
Proof.
  intros HP. unfold lstat. eapply triple_conseq; [apply (safe_call root _ _ P); intros t _; exact Logic.I|auto|].
  intros info t' (t & Hp & -> & E). split; [|now exists t, []]. eapply HP; [|exact Hp]. apply (confined_one root t (Lstat p) Logic.I).
Qed.

Lemma safe_try {A} root P (m : Eff PathTrace A) h Q : lasting root P ->
  safe root P m Q -> (forall e k, h e = Some k -> safe root P k Q) -> safe root P (eff_try m h) Q.
Proof.
  intros HP Hm Hh t t' r _ Hp E. unfold eff_try in E. destruct (m t) as [t1 [x|e]] eqn:E1;
    destruct (Hm _ _ _ Logic.I Hp E1) as (_ & Hc & Hq).
  - injection E as <- <-. auto.
  - destruct (h e) as [k|] eqn:Ek; [|injection E as <- <-; split_and!; [exact Logic.I|exact Hc|discriminate]].
    destruct (Hh e k Ek _ _ _ Logic.I (HP _ _ Hc Hp) E) as (_ & Hc' & Hq'). split_and!; [exact Logic.I|etrans; eassumption|exact Hq'].
Qed.

Lemma safe_inspect root P current is_final allow : lasting root P ->
  safe root P (inspect env current is_final allow)
    (fun info t => P t /\ match info with Some i => known t current i | None => True end).
Proof.
  intros HP. unfold inspect. apply safe_try; [exact HP| |].
  - eapply triple_bind; [typeclasses eauto|now apply safe_lstat|]. intros info. apply safe_value. auto.
  - intros e k Hk. destruct e; try discriminate. destruct (is_final && allow); [|destruct is_final; [discriminate|]]; injection Hk as <-.
    + apply safe_value. auto.
    + apply safe_escape.
Qed.

(** [_validated_path] *)
Lemma safe_components root d components allow : base d = root ->
  safe root (fun t => walked t d) (check_components env d components allow) (fun p t => base p = root /\ walked t (parent p)).
Proof.
  revert d. induction components as [|component rest IH]; intros d Hd; cbn [check_components].
  { apply safe_value. intros t H. split; [exact Hd|now apply walked_parent]. }
  apply safe_after; [auto with triples|unfold ask_bool; solve_triple|intros there].
  assert (Hcur : forall t, walked t d -> base (child d component) = root /\ walked t (parent (child d component)))
    by (intros t H; rewrite parent_child; auto).
  eapply (triple_bind _ _ _ _ _ (fun info t => walked t d /\ match info with Some i => known t (child d component) i | None => True end)).
  { destruct there; [apply safe_inspect; auto with triples|apply safe_value; auto]. }
  intros [info|]; [|apply safe_value; intros t [H _]; auto].
  apply safe_after; [auto with triples|unfold path_escape; solve_triple|intros reparse]. destruct reparse; [apply safe_escape|].
  destruct rest as [|x rest]; cbn [negb andb]; [cbn [check_components]; apply safe_value; intros t [H _]; auto|].
  destruct (is_directory info) eqn:Ei; [|apply safe_escape]. cbn [negb].
  eapply triple_conseq; [apply (IH (child d component) Hd)| |auto].
  intros t [H (a & b & Et & El)]. eapply walked_child; eassumption.
Qed.

Lemma safe_validated_path root parts allow : safe root (fun _ => True) (validated_path env root parts allow) (fun p t => base p = root /\ walked t (parent p)).
Proof.
  unfold validated_path. eapply triple_bind; [typeclasses eauto| |].
  { eapply triple_conseq; [apply (safe_components root (root_path root)); reflexivity|intros t _; apply walked_root|].
    intros p t H. exact H. }
  intros p. apply safe_assume. intros Hb. apply safe_after; [auto with triples| |].
  - unfold resolve_strict. solve_triple.
  - intros resolved. destruct (within root resolved); [apply safe_value; auto|apply safe_escape].
Qed.

(** [_validated_destination_path] *)
Lemma safe_make root d components : base d = root ->
  safe root (fun t => walked t d) (make_components env root d components) (fun p t => base p = root /\ walked t p).
Proof.
  revert d. induction components as [|component rest IH]; intros d Hd; cbn [make_components]; [apply safe_value; auto|].
  eapply (triple_bind _ _ _ _ _ (fun info t => walked t d /\ known t (child d component) info)).
  { apply safe_try; [auto with triples|apply safe_lstat; auto with triples|]. intros e k Hk. destruct e; try discriminate.
    injection Hk as <-. eapply (triple_bind _ _ _ _ _ (fun _ t => walked t d)); [|intros u; apply safe_lstat; auto with triples].
    unfold do_path. eapply triple_conseq; [apply (safe_call root _ _ (fun t => walked t d))|auto|].
    - intros t H. cbn. rewrite parent_child. auto.
    - intros u t' (t & H & -> & _). intros q rs Hq E. apply seen_later. eauto. }
  intros info. eapply (triple_bind _ _ _ _ _ (fun bad t => (bad = false -> is_directory info = true) /\ walked t d /\ known t (child d component) info)).
  { destruct (is_directory info) eqn:Ei; [|apply safe_value; intuition discriminate].
    eapply triple_conseq; [apply (safe_keep root (fun t => walked t d /\ known t (child d component) info)); auto with triples|auto|]. auto. }
  intros bad. apply safe_assume. intros Hbad. destruct bad; [apply safe_escape|].
  apply safe_after; [auto with triples|unfold resolve_strict; solve_triple|intros resolved]. destruct (within root resolved); [|apply safe_escape].
  eapply triple_conseq; [apply (IH (child d component) Hd)| |auto]. intros t [H (a & b & Et & El)]. eapply walked_child; eauto.
Qed.

Lemma safe_destination root parts :
  safe root (fun _ => True) (validated_destination_path env root parts) (fun p t => base p = root /\ walked t (parent p)).
Proof.
  unfold validated_destination_path. eapply triple_bind; [typeclasses eauto| |].
  { eapply triple_conseq; [apply (safe_make root (root_path root) (removelast parts)); reflexivity|intros t _; apply walked_root|].
    intros p t H. exact H. }
  intros d. apply safe_assume. intros Hb. cbv zeta. apply safe_after; [auto with triples|unfold ask_bool; solve_triple|intros there].
  apply safe_after; [auto with triples|solve_triple|intros reparse]. destruct reparse; [apply safe_escape|].
  apply safe_value. intros t H. rewrite parent_child. auto.
Qed.

(** [atomic_write], in a directory that was walked *)
Section Write.
Context (root : string) (p : path) (Hbase : base p = root).

Abbreviation kept m := (holds (fun t => walked t (parent p)) (confined root) m).

Lemma kept_call {A} c (answer : PathTrace -> res A) : (forall t, walked t (parent p) -> guarded root t c) -> kept (ask_path c answer).
Proof.
  intros Hg t t' r Hw _ [= <- _]. pose proof (confined_one root t c (Hg t Hw)) as Hc. split_and!; [|exact Hc|auto].
  eapply walked_later; eassumption.
Qed.

Lemma kept_put name overwrite : kept (put_in_place env (child (parent p) name) p overwrite).
Proof.
  unfold put_in_place, do_path. destruct overwrite.
  - apply kept_call. cbn. rewrite parent_child. auto.
  - apply holds_bind; [typeclasses eauto|apply kept_call; cbn; rewrite parent_child; auto|].
    intros u. apply kept_call. cbn. rewrite parent_child. auto.
Qed.
Lemma kept_sync : kept (sync_directory env has_directory_flag (parent p)).
Proof.
  unfold sync_directory, ask_fd, do_path. destruct has_directory_flag; cbn [negb]; [|apply holds_ret; typeclasses eauto].
  apply holds_bind; [typeclasses eauto| |].
  - apply holds_try; [typeclasses eauto| |intros e k; destruct (is_OSError e); [intros [= <-]; apply holds_ret; typeclasses eauto|discriminate]].
    apply holds_bind; [typeclasses eauto|apply kept_call; cbn; auto|intros fd; apply holds_ret; typeclasses eauto].
  - intros [fd|]; [|apply holds_ret; typeclasses eauto]. apply holds_finally; [typeclasses eauto|apply kept_call; now cbn..].
Qed.

Lemma kept_made {B} name (k : Z * path -> Eff PathTrace B) : (forall fd suffix, kept (k (fd, child (parent p) suffix))) ->
  kept (mkstemp env (parent p) name ≫= k).
Proof.
  intros Hk t t' r Hw _ E. assert (Hm : kept (mkstemp env (parent p) name)).
  { intros t0 t1 x Hw0 _ [= <- _]. pose proof (confined_one root t0 (Mkstemp (parent p) name)) as Hc.
    assert (Hc' : confined root t0 (t0 ++ [Mkstemp (parent p) name])) by (apply Hc; cbn; auto).
    split_and!; [eapply walked_later; eassumption|exact Hc'|auto]. }
  apply bind_inv in E as [(e & E & ->)|(t1 & [fd q] & E1 & E)].
  - destruct (Hm _ _ _ Hw Logic.I E) as (H1 & H2 & _). auto.
  - destruct (Hm _ _ _ Hw Logic.I E1) as (H1 & H2 & _). assert (Hq : exists suffix, q = child (parent p) suffix).
    { unfold mkstemp in E1. destruct (pa_fd env t _); [|discriminate]. injection E1 as _ _ <-. eauto. }
    destruct Hq as [suffix ->]. destruct (Hk fd suffix _ _ _ H1 Logic.I E) as (H3 & H4 & H5). split_and!; [exact H3|etrans; eassumption|auto].
Qed.

Lemma kept_write data overwrite : kept (atomic_write env has_directory_flag p data overwrite).
Proof.
  unfold atomic_write, do_path. apply holds_bind; [typeclasses eauto|apply kept_call; cbn; auto|intros u]. apply kept_made.
  intros fd suffix. cbn [fst snd]. apply holds_try; [typeclasses eauto| |].
  - apply holds_bind; [typeclasses eauto|apply kept_call; now cbn|intros u1].
    apply holds_bind; [typeclasses eauto|apply kept_put|intros u2]. apply kept_sync.
  - intros e k Hk. destruct (is_OSError e); [|discriminate]. injection Hk as <-.
    apply holds_bind; [typeclasses eauto| |intros u1; apply holds_raise; typeclasses eauto].
    apply holds_try; [typeclasses eauto|apply kept_call; cbn; rewrite parent_child; auto|].
    intros e' k Hk. destruct e'; try discriminate. injection Hk as <-. apply holds_ret. typeclasses eauto.
Qed.

Lemma safe_write data overwrite :
  safe root (fun t => walked t (parent p)) (atomic_write env has_directory_flag p data overwrite) (fun _ _ => True).
Proof. intros t t' r _ Hw E. destruct (kept_write data overwrite t t' r Hw Logic.I E) as (_ & Hc & _). auto. Qed.
End Write.

(** ** The operations *)
Lemma safe_quiet {A} root (m : Eff PathTrace A) : quiet root m -> safe root (fun _ => True) m (fun _ _ => True).
Proof. auto. Qed.

(** The shared beginning of the operations, once the root is resolved. *)
Lemma root_canonical r e t t' canonical : validated_root env r e t = (t', Ok canonical) -> pa_resolve env t r = Ok canonical.
Proof.
  unfold validated_root. intros E. apply eff_bind_ok in E as (t1 & c & E1 & E). injection E1 as <- ->.
  enough (c = canonical) as <- by reflexivity. destruct e as [e|].
  - apply eff_bind_ok in E as (t2 & u & _ & E). now injection E.
  - apply eff_bind_ok in E as (t2 & b & _ & E). apply eff_bind_ok in E as (t3 & d & _ & E). destruct d; [now injection E|discriminate].
Qed.

Definition from_root {B} (r : string) (e : option (Z * Z)) (k : string -> Eff PathTrace B) : Eff PathTrace B :=
  c ← validated_root env r e; _ ← no_grant e; k c.

Lemma confined_start {B} r e (k : string -> Eff PathTrace B) t t' res canonical :
  from_root r e k t = (t', res) -> pa_resolve env t r = Ok canonical ->
  safe canonical (fun _ => True) (k canonical) (fun _ _ => True) -> confined canonical t t'.
Proof.
  intros E Hr Hk. unfold from_root in E.
  apply bind_inv in E as [(e' & E & _)|(t1 & c & E1 & E)]; [exact (proj1 (proj2 (quiet_root canonical r e _ _ _ Logic.I Logic.I E)))|].
  pose proof (proj1 (proj2 (quiet_root canonical r e _ _ _ Logic.I Logic.I E1))) as H1. apply root_canonical in E1.
  assert (c = canonical) as -> by congruence. apply bind_inv in E as [(e' & [= <- _] & _)|(t2 & u & [= <- _] & E)]; [exact H1|].
  etrans; [exact H1|]. exact (proj1 (proj2 (Hk _ _ _ Logic.I Logic.I E))).
Qed.

(** Nothing but looking, before the root is accepted. *)
Abbreviation looking m := (holds (fun _ : PathTrace => True) (appends (fun c => looks c = true)) m).
Lemma looking_ask {A} c (answer : PathTrace -> res A) : looks c = true -> looking (ask_path c answer).
Proof. intros Hc t t' r _ _ [= <- _]. split_and!; [exact Logic.I|now apply appends_one|auto]. Qed.
#[local] Hint Extern 1 (holds _ (appends _) (ask_path _ _)) => (apply looking_ask; reflexivity) : triples.

Lemma refused_start {B} r e (k : string -> Eff PathTrace B) t t' res : from_root r (Some e) k t = (t', res) ->
  appends (fun c => looks c = true) t t' /\ exists x, res = Err x.
Proof.
  intros E. unfold from_root in E. assert (Hv : looking (validated_root env r (Some e))).
  { unfold validated_root, validate_root_identity, root_identity, is_reparse_point, resolve_strict, lstat, ask_bool, path_escape. solve_triple. }
  apply bind_inv in E as [(e' & E & ->)|(t1 & c & E1 & E)].
  - split; [exact (proj1 (proj2 (Hv _ _ _ Logic.I Logic.I E)))|eauto].
  - injection E as <- <-. split; [exact (proj1 (proj2 (Hv _ _ _ Logic.I Logic.I E1)))|eauto].
Qed.

Lemma safe_entry {A} root P (c : path_call) (answer : PathTrace -> res A) :
  (forall t, P t -> guarded root t c) -> lasting root P -> safe root P (ask_path c answer) (fun _ t => P t).
Proof.
  intros Hg HP. eapply triple_conseq; [apply safe_call; exact Hg|auto|]. intros x t (t0 & H & -> & _).
  eapply HP; [|exact H]. now apply confined_one, Hg.
Qed.

(** The last step: the root is looked at once more. *)
Lemma safe_end root P r e : safe root P (_ ← validated_root env r e; mret tt) (fun _ _ => True).
Proof.
  intros t t' x _ _ E. assert (H : quiet root (_ ← validated_root env r e; mret tt)) by solve_triple.
  destruct (H _ _ _ Logic.I Logic.I E) as (_ & Hc & _). auto.
Qed.
End Confined.

(** The operations, of which [fallback_open] gives a descriptor. *)
Inductive file_op :=
| OpenFile (relative : string) (flags mode : Z)
| WriteFile (relative data : string) (overwrite : bool)
| UnlinkFile (relative : string) (missing_ok : bool)
| RenameFile (source destination : string) (overwrite : bool).

Definition fallback_run (env : PathEnv) (O_CREAT : Z) (has_directory_flag : bool) (root : string) (expected : option (Z * Z)) (o : file_op)
  : Eff PathTrace unit :=
  match o with
  | OpenFile relative flags mode => _ ← fallback_open env O_CREAT root relative flags mode expected; mret tt
  | WriteFile relative data overwrite => fallback_write env has_directory_flag root relative data overwrite expected
  | UnlinkFile relative missing_ok => fallback_unlink env root relative missing_ok expected
  | RenameFile source destination overwrite => fallback_rename env root source destination overwrite expected
  end.

Section Operations.
Context (env : PathEnv) (O_CREAT : Z) (has_directory_flag : bool).
#[local] Existing Instance confined_preorder.

(** What is shown of every operation. *)
Definition answers_for {B} (root : string) (expected : option (Z * Z)) (t t' : PathTrace) (r : res B) : Prop :=
  (expected <> None -> appends (fun c => looks c = true) t t' /\ exists e, r = Err e)
  /\ forall canonical, pa_resolve env t root = Ok canonical -> confined env canonical t t'.

Abbreviation safe root := (triple (fun _ : PathTrace => True) (confined env root)).

Lemma run_start {A B} root expected (x : res A) (k : A -> string -> Eff PathTrace B) t t' r :
  (a ← eff_lift x; from_root env root expected (k a)) t = (t', r) ->
  (forall a canonical, safe canonical (fun _ => True) (k a canonical) (fun _ _ => True)) ->
  answers_for root expected t t' r.
Proof.
  intros E Hk. apply eff_lift_bind in E as [(e & _ & -> & ->)|(a & _ & E)].
  - split; [intros _; split; [reflexivity|eauto]|intros c _; reflexivity].
  - split.
    + intros He. destruct expected as [e|]; [|now destruct He]. exact (refused_start _ _ _ _ _ _ _ E).
    + intros canonical Hc. exact (confined_start _ _ _ _ _ _ _ _ E Hc (Hk a canonical)).
Qed.

Section Target.
Context (root : string) (p : path) (Hbase : base p = root).
Abbreviation kept m := (holds (fun t => walked env t (parent p)) (confined env root) m).
#[local] Hint Extern 1 (holds (fun t => walked _ t _) (confined _ _) (ask_path _ _)) => (apply kept_call; cbn; auto) : triples.

Lemma kept_reparse q : kept (is_reparse_point env q).
Proof. unfold is_reparse_point, lstat. solve_triple. Qed.
#[local] Hint Resolve kept_reparse : triples.
Lemma kept_root r e : kept (validated_root env r e).
Proof. unfold validated_root, validate_root_identity, root_identity, resolve_strict, lstat, ask_bool, path_escape. solve_triple. Qed.
#[local] Hint Resolve kept_root : triples.

Lemma kept_open flags mode :
  kept (descriptor ← eff_try (ask_fd env (OpenPath p flags mode)) (fun e => if is_OSError e && is_escape e then Some path_escape else None);
        eff_try (reparse ← is_reparse_point env p;
                 inside ← (if reparse : bool then mret false
                           else resolved ← resolve_strict env (path_text p); mret (within root resolved));
                 if inside : bool then mret descriptor else path_escape)
          (fun e => if is_Exception e then Some (_ ← do_path env (CloseFd descriptor); eff_raise e) else None)).
Proof. unfold ask_fd, resolve_strict, do_path, path_escape. solve_triple. Qed.

Lemma kept_unlink (missing_ok : bool) r e :
  kept (_ ← eff_try (do_path env (Unlink p)) (fun e => if missing_ok then ignore_missing e else None);
        _ ← validated_root env r e; mret tt).
Proof. unfold do_path, ignore_missing. destruct missing_ok; solve_triple; discriminate. Qed.

Lemma kept_store data overwrite r e :
  kept (there ← ask_bool env (Exists p);
        refused ← (if there : bool then reparse ← is_reparse_point env p; mret (reparse || negb overwrite) else mret false);
        _ ← (if refused : bool then
               reparse ← is_reparse_point env p;
               if reparse : bool then path_escape else eff_raise (FileExistsError (path_text p))
             else mret tt);
        _ ← atomic_write env has_directory_flag p data overwrite;
        _ ← validated_root env r e;
        mret tt).
Proof. pose proof (kept_write env has_directory_flag root p Hbase data overwrite). unfold ask_bool, path_escape. solve_triple. Qed.

Lemma kept_safe {A} (m : Eff PathTrace A) : kept m -> safe root (fun t => walked env t (parent p)) m (fun _ _ => True).
Proof. intros H t t' r _ Hw E. destruct (H t t' r Hw Logic.I E) as (_ & Hc & _). auto. Qed.
End Target.

Lemma safe_at {A} root (m : Eff PathTrace path) (k : path -> Eff PathTrace A) :
  safe root (fun _ => True) m (fun p t => base p = root /\ walked env t (parent p)) ->
  (forall p, base p = root -> holds (fun t => walked env t (parent p)) (confined env root) (k p)) ->
  safe root (fun _ => True) (m ≫= k) (fun _ _ => True).
Proof.
  intros Hm Hk. eapply triple_bind; [typeclasses eauto|exact Hm|]. intros p. apply safe_assume. intros Hp. now apply kept_safe, Hk.
Qed.

Lemma safe_rename root a b overwrite r e :
  safe root (fun _ => True)
    (source_path ← validated_path env root a false;
     destination_path ← validated_path env root b true;
     there ← ask_bool env (Exists destination_path);
     _ ← eff_raise_if (there && negb overwrite) (FileExistsError (path_text destination_path));
     _ ← do_path env (Replace source_path destination_path);
     _ ← validated_root env r e;
     mret tt) (fun _ _ => True).
Proof.
  eapply triple_bind; [typeclasses eauto|apply safe_validated_path|]. intros p. apply safe_assume. intros Hp.
  eapply (triple_bind _ _ _ _ _ (fun q t => base q = root /\ walked env t (parent p) /\ walked env t (parent q))); [|intros q; apply safe_assume; intros Hq].
  { intros t t' x _ Hw E. destruct (safe_validated_path env root b true _ _ _ Logic.I Logic.I E) as (_ & Hc & Hv).
    split_and!; [exact Logic.I|exact Hc|]. intros q Eq. destruct (Hv q Eq). split_and!; [assumption|eapply walked_later; eassumption|assumption]. }
  assert (HP : lasting env root (fun t => walked env t (parent p) /\ walked env t (parent q)))
    by (apply lasting_and; apply lasting_walked).
  apply safe_after; [exact HP|apply quiet_look; reflexivity|intros there].
  apply safe_after; [exact HP|apply holds_raise_if; typeclasses eauto|intros u].
  eapply triple_bind; [typeclasses eauto|apply safe_entry; [|exact HP]|intros v; apply safe_end]. intros t [H1 H2]. cbn. auto.
Qed.

End Operations.

(** ** A system *)
Definition directory_info : FileInfo := mkFileInfo true false false (1, 2).
Definition file_info : FileInfo := mkFileInfo false false false (1, 3).

(** [/r/a] is a directory, [/r/a/f] a file, and [/r/a/dangling] a link to nothing. *)
Definition small_system : PathEnv := {|
  pa_resolve := fun _ text => Ok text;
  pa_lstat := fun _ p => if bool_decide (below p = ["a"; "f"]%string) then Ok file_info
                         else if bool_decide (below p = ["a"; "dangling"]%string) then Ok (mkFileInfo false true false (1, 4))
                         else if bool_decide (below p = []) || bool_decide (below p = ["a"]%string) then Ok directory_info
                         else Err (FileNotFoundError (path_text p));
  pa_bool := fun _ c => Ok match c with
                           | IsDir _ => true
                           | Exists p => bool_decide (below p = ["a"; "f"]%string) || bool_decide (below p = ["a"]%string)
                           | _ => false
                           end;
  pa_unit := fun _ _ => Ok tt;
  pa_fd := fun _ _ => Ok 5;
  pa_suffix := fun _ => "x7" |}.

Definition in_a (name : string) : path := mkPath "/r" ["a"; name]%string.

Example fallback_write_calls :
  fst (fallback_run small_system 64 true "/r" None (WriteFile "a/g" "hello" true) []) =
    [Resolve "/r"; Lstat (root_path "/r"); IsDir (root_path "/r");
     Lstat (mkPath "/r" ["a"]); Lstat (mkPath "/r" ["a"]); Resolve "/r/a"; Exists (in_a "g"); Exists (in_a "g");
     MkdirParents (mkPath "/r" ["a"]); Mkstemp (mkPath "/r" ["a"]) ".g."; WriteFd 5 "hello"; Replace (in_a ".g.x7") (in_a "g");
     OpenDirectory (mkPath "/r" ["a"]); SyncFd 5; CloseFd 5;
     Resolve "/r"; Lstat (root_path "/r"); IsDir (root_path "/r")]%string.
Proof. vm_compute. reflexivity. Qed.

Definition granted_run : PathTrace * res unit :=
  fallback_run small_system 64 true "/r" (Some (1, 2)) (UnlinkFile "a/f" false) [].
Definition plain_run : PathTrace * res unit := fallback_run small_system 64 true "/r" None (UnlinkFile "a/f" false) [].


(** [exists] follows links, so a link to nothing counts as a missing file: with
    [O_CREAT] it is opened, and what it names is created, before the check
    after the opening refuses it. *)
Example dangling_link_is_opened :
  let '(t, r) := fallback_run small_system 64 true "/r" None (OpenFile "a/dangling" 65 384) [] in
  In (OpenPath (in_a "dangling") 65 384) t /\ r = Err (LauncherExn HostPathEscape).
Proof. vm_compute. tauto. Qed.

(** Grants are served exactly where files can be opened relative to a directory. *)
Lemma grants_need_handles p : secure_handle_relative_supported p = false <-> supports_secure_dir_fd p = false /\ is_nt p = false.
Proof. unfold secure_handle_relative_supported. now rewrite orb_false_iff. Qed.
