(* ===== verification/FileTree.v ===== *)
(** * What a relative path names, before and after the operations of safe_paths.py

    [content_at f root parts] is the data of the regular file reached from the
    directory [root] through directories only.  The operations of SafePaths are
    specified by it: what reading returns, and what writing and removing leave
    behind when any system call may fail. *)
From S2P Require Export SafePaths.

(** The directory reached through [components]. *)
Fixpoint walk (f : FileSystem) (d : Z) (components : list string) : option Z :=
  match components with
  | [] => Some d
  | c :: rest =>
      match entry f d c with
      | Some i => if is_dir f i then walk f i rest else None
      | None => None
      end
  end.

Definition content_at (f : FileSystem) (root : Z) (parts : list string) : option string :=
  match walk f root (removelast parts) with
  | Some parent => match node_at f parent (final parts) with Some (File data) => Some data | _ => None end
  | None => None
  end.

Definition fresh_name (n : string) (f : FileSystem) : Prop := forall d, entry f d n = None.

(** Every name but [name] leads where it led, and no file was changed in place. *)
Definition kept (name : string) (f f' : FileSystem) : Prop :=
  (forall d n i, n <> name -> entry f d n = Some i -> entry f' d n = Some i)
  /\ (forall i data, inodes f !! i = Some (File data) -> inodes f' !! i = Some (File data)).

Lemma kept_refl name f : kept name f f.
Proof. split; auto. Qed.
Lemma kept_trans name f g h : kept name f g -> kept name g h -> kept name f h.
Proof. intros [H1 H2] [H3 H4]. split; auto. Qed.

(** ** The same inodes, the same view *)
Section Same.
Context (f f' : FileSystem) (Hsame : same_fs f f').

Lemma same_entry d n : entry f' d n = entry f d n.
Proof. unfold entry. now rewrite (proj1 Hsame). Qed.
Lemma same_is_dir i : is_dir f' i = is_dir f i.
Proof. unfold is_dir. now rewrite (proj1 Hsame). Qed.
Lemma same_walk d components : walk f' d components = walk f d components.
Proof.
  revert d. induction components as [|c rest IH]; intros d; simpl; [reflexivity|].
  rewrite same_entry. destruct (entry f d c) as [i|]; [|reflexivity]. rewrite same_is_dir.
  destruct (is_dir f i); [apply IH|reflexivity].
Qed.
Lemma same_node_at d n : node_at f' d n = node_at f d n.
Proof. unfold node_at. rewrite same_entry. destruct (entry f d n); [|reflexivity]. now rewrite (proj1 Hsame). Qed.
Lemma same_content root parts : content_at f' root parts = content_at f root parts.
Proof. unfold content_at. rewrite same_walk. destruct (walk f root _); [|reflexivity]. now rewrite same_node_at. Qed.
Lemma same_wf : wf_fs f -> wf_fs f'.
Proof. destruct Hsame as [Hi Hn]. intros [H1 H2 H3]. constructor; rewrite ?Hi, ?Hn; auto. Qed.
Lemma same_fresh n : fresh_name n f -> fresh_name n f'.
Proof. intros H d. rewrite same_entry. apply H. Qed.
Lemma same_kept name : kept name f f'.
Proof. split; [intros d n i _; now rewrite same_entry|]. intros i data. now rewrite (proj1 Hsame). Qed.
End Same.

(** ** Opening the parent directory *)
Section Open.
Context (fault : nat -> option (Z * nat)) (root_now : nat -> res Z).

Lemma open_dir_at_spec d c f f' r : open_dir_at fault d c f = (f', r) ->
  match r with
  | Ok i => entry f d c = Some i /\ is_dir f i = true
  | Err e => is_OSError e = true
  end.
Proof.
  intros Hs. apply syscall_inv in Hs as [(errno & n & _ & _ & ->)|[_ Hs]]; [apply os_error_is|].
  revert Hs. rewrite (same_entry _ _ (same_fs_tick f)). unfold fail.
  destruct (entry f d c) as [i|]; [|intros [= _ <-]; reflexivity]. cbn [tick inodes]. unfold is_dir.
  destruct (inodes f !! i) as [[]|] eqn:E; intros [= _ <-]; try reflexivity. now rewrite E.
Qed.

(** Without [create], the directory opened is the one the path walks to. *)
Lemma open_dirs_walk components d f f' p :
  open_dirs fault false d components f = (f', Ok p) -> walk f d components = Some p.
Proof.
  revert d f. induction components as [|c rest IH]; intros d f Hs; cbn [open_dirs] in Hs.
  - now injection Hs as _ <-.
  - apply eff_bind_ok in Hs as (f1 & i & Ho & Hk). unfold eff_try in Ho.
    destruct (open_dir_at fault d c f) as [f2 [j|e]] eqn:E.
    + injection Ho as <- <-. destruct (open_dir_at_spec _ _ _ _ _ E) as [He Hd]. simpl. rewrite He, Hd.
      apply IH in Hk. now rewrite (same_walk _ _ (pure_open_dir_at _ _ _ _ _ _ E)) in Hk.
    + exfalso. revert Ho. unfold translate_escape.
      destruct e; cbn [negb]; try (destruct (is_escape _)); discriminate.
Qed.

(** The root directory when its path leads to [root] all the time. *)
Context (root : Z) (Hroot : forall n, root_now n = Ok root).

Lemma open_parent_ok create parts f f' p :
  open_parent_fd fault root_now parts create (Some root) f = (f', Ok p) ->
  is_dir f root = true /\ open_dirs fault create root (removelast parts) (tick f) = (f', Ok p).
Proof.
  unfold open_parent_fd, open_root. intros Hs. apply eff_bind_ok in Hs as (f1 & i & Ho & Hk).
  apply eff_bind_ok in Ho as (f2 & j & Hr & Ho). unfold resolve_root in Hr. rewrite Hroot in Hr.
  injection Hr as <- <-. unfold require_dir in Ho. rewrite (same_is_dir _ _ (same_fs_tick f)) in Ho.
  destruct (is_dir f root); [|discriminate]. injection Ho as <- <-. rewrite Z.eqb_refl in Hk. auto.
Qed.

Lemma read_bytes_ok relative f f' data :
  read_bytes_under_root fault root_now relative (Some root) f = (f', Ok data) ->
  exists parts, safe_relative_parts relative = Ok parts /\ content_at f root parts = Some data.
Proof.
  unfold read_bytes_under_root. intros Hs. apply eff_bind_ok in Hs as (f1 & parts & Hp & Hs).
  injection Hp as <- Hp. exists parts. split; [exact Hp|].
  apply eff_bind_ok in Hs as (f2 & u & Hv & Hs). assert (H2 := pure_validated_root _ _ _ _ _ Hv).
  apply eff_bind_ok in Hs as (f3 & p & Ho & Hs). assert (H3 := pure_open_parent _ _ _ _ _ _ _ Ho).
  apply eff_bind_ok in Hs as (f4 & i & Hopen & Hread). apply open_parent_ok in Ho as [_ Ho].
  apply open_dirs_walk in Ho. rewrite (same_walk _ _ (same_fs_tick f2)), (same_walk _ _ H2) in Ho.
  unfold content_at. rewrite Ho. rewrite <- (same_node_at _ _ H2), <- (same_node_at _ _ H3).
  unfold eff_try in Hopen. destruct (open_at fault p (final parts) f3) as [f5 [j|e]] eqn:E.
  2:{ revert Hopen. unfold translate_escape. destruct (is_escape e); discriminate. }
  injection Hopen as <- <-. assert (H5 := pure_open_at _ _ _ _ _ _ E).
  apply syscall_inv in Hread as [(errno & n & _ & _ & [=])|[_ Hread]].
  apply syscall_inv in E as [(errno & n & _ & _ & [=])|[_ E]].
  revert E. rewrite (same_entry _ _ (same_fs_tick f3)). unfold node_at, fail.
  destruct (entry f3 p (final parts)) as [k|]; [|discriminate]. intros E.
  assert (k = j) by (destruct (inodes (tick f3) !! k) as [[]|]; try discriminate; now injection E). subst k.
  cbn [tick inodes] in Hread. rewrite (proj1 H5) in Hread. unfold fail in Hread.
  destruct (inodes f3 !! j) as [[|s|]|]; try discriminate. now injection Hread as _ ->.
Qed.
End Open.

(** ** What is missing is reported as missing *)
Section Missing.
Context (fault : nat -> option (Z * nat)) (root_now : nat -> res Z).
(** A system call reports a missing file only when it is missing. *)
Context (Hhonest : forall n k, fault n <> Some (ENOENT, k)).

Lemma os_error_missing errno m : os_error errno = FileNotFoundError m -> errno = ENOENT.
Proof. unfold os_error. destruct (Z.eqb_spec errno ENOENT); [auto|]. destruct (errno =? EEXIST); discriminate. Qed.

Lemma syscall_missing {A} (act : FileSystem -> FileSystem * res A) f f' m :
  syscall fault act f = (f', Err (FileNotFoundError m)) -> act (tick f) = (f', Err (FileNotFoundError m)).
Proof.
  intros Hs. apply syscall_inv in Hs as [(errno & n & He & _ & Hr)|[_ Hs]]; [|exact Hs].
  exfalso. assert (Hm : os_error errno = FileNotFoundError m) by congruence.
  apply os_error_missing in Hm as ->. exact (Hhonest _ _ He).
Qed.

Lemma fail_missing {A} errno f f' m :
  @fail A errno f = (f', Err (FileNotFoundError m)) -> errno = ENOENT.
Proof. unfold fail. intros H. apply (os_error_missing errno m). congruence. Qed.

Lemma open_dir_at_missing d c f f' m :
  open_dir_at fault d c f = (f', Err (FileNotFoundError m)) -> entry f d c = None.
Proof.
  intros Hs. apply syscall_missing in Hs. revert Hs. rewrite (same_entry _ _ (same_fs_tick f)).
  destruct (entry f d c) as [i|]; [|reflexivity]. intros Hs. exfalso.
  destruct (inodes (tick f) !! i) as [[]|]; try discriminate; now apply fail_missing in Hs.
Qed.

Lemma open_dirs_missing components d f f' m :
  open_dirs fault false d components f = (f', Err (FileNotFoundError m)) -> walk f d components = None.
Proof.
  revert d f. induction components as [|c rest IH]; intros d f Hs; cbn [open_dirs] in Hs; [discriminate|].
  unfold mbind, eff_bind, eff_try in Hs. destruct (open_dir_at fault d c f) as [f1 [i|e]] eqn:E.
  - destruct (open_dir_at_spec _ _ _ _ _ _ E) as [He Hd]. simpl. rewrite He, Hd.
    apply IH in Hs. now rewrite (same_walk _ _ (pure_open_dir_at _ _ _ _ _ _ E)) in Hs.
  - assert (He : e = FileNotFoundError m).
    { revert Hs. unfold translate_escape, eff_raise.
      destruct e; cbn [negb]; try (destruct (is_escape _)); intros [=]; congruence. }
    subst e. simpl. now rewrite (open_dir_at_missing _ _ _ _ _ E).
Qed.

Context (root : Z) (Hroot : forall n, root_now n = Ok root).

Lemma validated_root_error f f' e :
  validated_root root_now (Some root) f = (f', Err e) -> e = LauncherExn HostPathEscape.
Proof.
  unfold validated_root, validate_root_identity, mbind, eff_bind, resolve_root, root_identity. rewrite !Hroot.
  destruct (is_dir _ root); [rewrite Z.eqb_refl|]; intros [= _ He]; congruence.
Qed.

Lemma open_parent_missing parts f f' m :
  open_parent_fd fault root_now parts false (Some root) f = (f', Err (FileNotFoundError m)) ->
  walk f root (removelast parts) = None.
Proof.
  unfold open_parent_fd, open_root, mbind, eff_bind, resolve_root, require_dir. rewrite Hroot.
  destruct (is_dir _ root); [|discriminate]. rewrite Z.eqb_refl. cbn [negb]. intros Hs.
  apply open_dirs_missing in Hs. now rewrite (same_walk _ _ (same_fs_tick f)) in Hs.
Qed.

Lemma open_at_missing d n f f' m :
  open_at fault d n f = (f', Err (FileNotFoundError m)) -> node_at f d n = None.
Proof.
  intros Hs. apply syscall_missing in Hs. revert Hs. rewrite (same_entry _ _ (same_fs_tick f)). unfold node_at.
  destruct (entry f d n) as [i|]; [|reflexivity]. cbn [tick inodes]. intros Hs.
  destruct (inodes f !! i) as [[]|]; try discriminate; reflexivity.
Qed.

Lemma read_fd_missing i f f' m : read_fd fault i f <> (f', Err (FileNotFoundError m)).
Proof. intros Hs. apply syscall_missing in Hs. destruct (inodes (tick f) !! i) as [[]|]; now apply fail_missing in Hs || discriminate. Qed.

Lemma safe_parts_error relative e : safe_relative_parts relative = Err e -> e = LauncherExn HostPathEscape.
Proof.
  unfold safe_relative_parts. cbv zeta. repeat match goal with
  | |- context [raise_if ?b ?x] => destruct b; cbn [raise_if rbind]; [intros [= <-]; reflexivity|]
  end. discriminate.
Qed.

Lemma read_bytes_missing relative f f' m :
  read_bytes_under_root fault root_now relative (Some root) f = (f', Err (FileNotFoundError m)) ->
  exists parts, safe_relative_parts relative = Ok parts /\ content_at f root parts = None.
Proof.
  unfold read_bytes_under_root. unfold mbind at 1, eff_bind at 1, eff_lift.
  destruct (safe_relative_parts relative) as [parts|e] eqn:Ep;
    [|intros [= _ He]; apply safe_parts_error in Ep; congruence].
  intros Hs. exists parts. split; [reflexivity|]. unfold mbind at 1, eff_bind at 1 in Hs.
  destruct (validated_root root_now (Some root) f) as [f1 [u|e]] eqn:Ev;
    [|apply validated_root_error in Ev; congruence].
  assert (H1 := pure_validated_root _ _ _ _ _ Ev). rewrite <- (same_content _ _ H1).
  unfold mbind at 1, eff_bind at 1 in Hs. unfold content_at.
  destruct (open_parent_fd fault root_now parts false (Some root) f1) as [f2 [p|e]] eqn:Eo.
  2:{ injection Hs as <- ->. now rewrite (open_parent_missing _ _ _ _ Eo). }
  assert (H2 := pure_open_parent _ _ _ _ _ _ _ Eo). rewrite <- (same_walk _ _ H2).
  destruct (walk f2 root (removelast parts)) as [q|] eqn:Ew; [|reflexivity].
  assert (q = p).
  { apply (open_parent_ok _ _ _ Hroot) in Eo as [_ Eo]. apply open_dirs_walk in Eo.
    rewrite (same_walk _ _ (same_fs_tick f1)), <- (same_walk _ _ H2) in Eo. congruence. }
  subst q. rewrite <- (same_node_at _ _ H2). unfold mbind at 1, eff_bind at 1, eff_try in Hs.
  destruct (open_at fault p (final parts) f2) as [f3 [i|e]] eqn:E.
  - now apply read_fd_missing in Hs.
  - destruct (translate_escape e) as [k|] eqn:Et.
    + unfold translate_escape in Et. destruct (is_escape e); [|discriminate]. injection Et as <-. discriminate.
    + injection Hs as <- ->. now rewrite (open_at_missing _ _ _ _ _ E).
Qed.
End Missing.

(** ** Creating the missing directories *)

(** New directories appeared under some of [names]; nothing else changed. *)
Record grown (names : list string) (f f' : FileSystem) : Prop := mkGrown {
  gr_wf : wf_fs f';
  gr_next : next_ino f <= next_ino f';
  gr_dir : forall i, i < next_ino f -> is_dir f' i = is_dir f i;
  gr_node : forall i, i < next_ino f -> is_dir f i = false -> inodes f' !! i = inodes f !! i;
  gr_entry : forall d n i, entry f d n = Some i -> entry f' d n = Some i;
  gr_new : forall d n i, entry f' d n = Some i ->
    entry f d n = Some i \/ (In n names /\ next_ino f <= i /\ is_dir f' i = true) }.

Lemma entry_known f d n i : wf_fs f -> entry f d n = Some i -> d < next_ino f /\ i < next_ino f.
Proof.
  intros Hwf. unfold entry. destruct (inodes f !! d) as [[es| |]|] eqn:E; try discriminate.
  intros Hn. split; [exact (wf_inodes _ Hwf _ _ E)|exact (wf_entries _ Hwf _ _ _ _ E Hn)].
Qed.

Lemma is_dir_known f i : wf_fs f -> is_dir f i = true -> i < next_ino f.
Proof.
  intros Hwf. unfold is_dir. destruct (inodes f !! i) as [[es| |]|] eqn:E; try discriminate.
  intros _. exact (wf_inodes _ Hwf _ _ E).
Qed.

Lemma grown_same names f f' : wf_fs f -> same_fs f f' -> grown names f f'.
Proof.
  intros Hwf Hs. constructor.
  - exact (same_wf _ _ Hs Hwf).
  - destruct Hs as [_ ->]. lia.
  - intros i _. now apply same_is_dir.
  - intros i _ _. now rewrite (proj1 Hs).
  - intros d n i. now rewrite (same_entry _ _ Hs).
  - intros d n i. rewrite (same_entry _ _ Hs). auto.
Qed.

Lemma grown_trans names f g h : grown names f g -> grown names g h -> grown names f h.
Proof.
  intros [W1 N1 D1 O1 E1 C1] [W2 N2 D2 O2 E2 C2]. constructor.
  - exact W2.
  - lia.
  - intros i Hi. rewrite D2 by lia. auto.
  - intros i Hi Hd. rewrite O2, O1; auto; [lia|]. now rewrite D1.
  - auto.
  - intros d n i Hi. apply C2 in Hi as [Hi|(Hn & Hi & Hd)]; [|right; repeat split; [auto|lia|auto]].
    apply C1 in Hi as [Hi|(Hn & Hi & Hd)]; [auto|right; repeat split; auto].
    rewrite D2; [exact Hd|]. exact (is_dir_known _ _ W1 Hd).
Qed.

(** [mkdir] of [c] in the directory [d]. *)
Section Mkdir.
Context (f : FileSystem) (d : Z) (es : gmap string Z) (c : string) (calls : nat).
Context (Hwf : wf_fs f) (Hd : inodes f !! d = Some (Dir es)) (Hc : es !! c = None).
Let new := next_ino f.

Definition with_dir : FileSystem :=
  mkFs (<[next_ino f := Dir ∅]> (<[d := Dir (<[c := next_ino f]> es)]> (inodes f))) (next_ino f + 1) calls.

Lemma with_dir_below : d < new.
Proof. exact (wf_inodes _ Hwf _ _ Hd). Qed.

Lemma with_dir_entry x n : entry with_dir x n =
  if Z.eq_dec x new then None else if Z.eq_dec x d then (<[c := new]> es) !! n else entry f x n.
Proof.
  unfold entry, with_dir. cbn [inodes]. fold new. destruct (Z.eq_dec x new) as [->|]; [now rewrite lookup_insert_eq|].
  rewrite lookup_insert_ne by auto. destruct (Z.eq_dec x d) as [->|]; [now rewrite lookup_insert_eq|].
  now rewrite lookup_insert_ne by auto.
Qed.

Lemma with_dir_old i : i < new -> i <> d -> inodes with_dir !! i = inodes f !! i.
Proof. intros Hi Hne. unfold with_dir, new in *. cbn [inodes]. now rewrite !lookup_insert_ne by lia. Qed.

Lemma with_dir_is_dir i : i < new -> is_dir with_dir i = is_dir f i.
Proof.
  intros Hi. destruct (Z.eq_dec i d) as [->|Hne]; [|unfold is_dir; now rewrite with_dir_old].
  unfold is_dir, with_dir, new in *. cbn [inodes]. rewrite lookup_insert_ne, lookup_insert_eq by lia. now rewrite Hd.
Qed.

Lemma with_dir_entries x n i : entry with_dir x n = Some i ->
  (entry f x n = Some i /\ x < new /\ i < new) \/ (x = d /\ n = c /\ i = new).
Proof.
  rewrite with_dir_entry. destruct (Z.eq_dec x new) as [|Hx]; [discriminate|].
  destruct (Z.eq_dec x d) as [->|Hxd].
  - intros Hn. apply lookup_insert_Some in Hn as [[<- <-]|[Hne Hn]]; [auto|]. left.
    assert (He : entry f d n = Some i) by (unfold entry; now rewrite Hd).
    split; [exact He|exact (entry_known _ _ _ _ Hwf He)].
  - intros Hn. left. split; [exact Hn|exact (entry_known _ _ _ _ Hwf Hn)].
Qed.

Lemma with_dir_wf : wf_fs with_dir.
Proof.
  assert (Hent : forall x xs n i, inodes with_dir !! x = Some (Dir xs) -> xs !! n = Some i -> entry with_dir x n = Some i)
    by (intros x xs n i Hx Hn; unfold entry; now rewrite Hx).
  destruct (wf_acyclic _ Hwf) as [rank Hrank]. pose proof with_dir_below as Hdn. constructor.
  - exists (fun i => if Z.eq_dec i new then S (rank d) else rank i). intros x xs n i ys Hx Hn Hi.
    destruct (with_dir_entries _ _ _ (Hent _ _ _ _ Hx Hn)) as [(He & Hxn & Hin)|(-> & -> & ->)].
    + destruct (Z.eq_dec x new); [lia|]. destruct (Z.eq_dec i new); [lia|].
      unfold entry in He. destruct (inodes f !! x) as [[es1| |]|] eqn:Ex; try discriminate.
      assert (Hdi : is_dir f i = true) by (rewrite <- with_dir_is_dir by exact Hin; unfold is_dir; now rewrite Hi).
      unfold is_dir in Hdi. destruct (inodes f !! i) as [[es2| |]|] eqn:Ei; try discriminate. eauto.
    + destruct (Z.eq_dec d new); [lia|]. destruct (Z.eq_dec new new); [lia|congruence].
  - intros i n Hi. change (next_ino with_dir) with (new + 1). destruct (Z.eq_dec i new) as [->|Hne]; [lia|].
    destruct (Z.eq_dec i d) as [->|Hid]; [lia|]. unfold with_dir in Hi. cbn [inodes] in Hi. fold new in Hi.
    rewrite !lookup_insert_ne in Hi by auto. pose proof (wf_inodes _ Hwf _ _ Hi). unfold new. lia.
  - intros x xs n i Hx Hn. change (next_ino with_dir) with (new + 1).
    destruct (with_dir_entries _ _ _ (Hent _ _ _ _ Hx Hn)) as [(_ & _ & Hi)|(_ & _ & ->)]; lia.
Qed.

Lemma with_dir_grown names : In c names -> grown names f with_dir.
Proof.
  intros Hin. constructor.
  - exact with_dir_wf.
  - simpl. lia.
  - exact with_dir_is_dir.
  - intros i Hi Hnd. apply with_dir_old; [exact Hi|]. intros ->. unfold is_dir in Hnd. now rewrite Hd in Hnd.
  - intros x n i He. destruct (entry_known _ _ _ _ Hwf He) as [Hx _]. rewrite with_dir_entry.
    unfold new. destruct (Z.eq_dec x (next_ino f)); [lia|]. destruct (Z.eq_dec x d) as [->|]; [|exact He].
    unfold entry in He. rewrite Hd in He. rewrite lookup_insert_ne; [exact He|]. intros ->. congruence.
  - intros x n i He. destruct (with_dir_entries _ _ _ He) as [(Hf & _)|(_ & -> & ->)]; [auto|]. right.
    split; [exact Hin|]. split; [unfold new; lia|]. unfold is_dir, with_dir, new. cbn [inodes]. now rewrite lookup_insert_eq.
Qed.
End Mkdir.

Lemma mkdir_grown fault names d c f f' r : wf_fs f -> In c names ->
  mkdir_at fault d c f = (f', r) -> grown names f f'.
Proof.
  intros Hwf Hc Hs. apply syscall_inv in Hs as [(errno & n & _ & -> & _)|[_ Hs]];
    [apply grown_same; [exact Hwf|apply same_fs_tick]|].
  assert (Hsame := same_fs_tick f). revert Hs. rewrite (same_is_dir _ _ Hsame), (same_entry _ _ Hsame).
  unfold fail. destruct (is_dir f d) eqn:Hd; cbn [negb]; [|intros [= <- _]; now apply grown_same].
  destruct (entry f d c) as [j|] eqn:He; intros [= <- _]; [now apply grown_same|].
  unfold is_dir in Hd. destruct (inodes f !! d) as [[es| |]|] eqn:Hino; try discriminate.
  unfold allocate, set_entries. cbn [tick inodes next_ino syscalls]. rewrite Hino. cbn [with_inodes inodes syscalls fst].
  unfold entry in He. rewrite Hino in He. exact (with_dir_grown f d es c _ Hwf Hino He names Hc).
Qed.

Section OpenCreate.
Context (fault : nat -> option (Z * nat)) (names : list string).

Lemma open_dir_grown d c f f' r : wf_fs f -> open_dir_at fault d c f = (f', r) -> grown names f f'.
Proof. intros Hwf Hs. exact (grown_same _ _ _ Hwf (pure_open_dir_at _ _ _ _ _ _ Hs)). Qed.

(** One component of the path, created if it is missing. *)
Lemma open_or_create d c f f' r : wf_fs f -> In c names ->
  eff_try (open_dir_at fault d c)
    (fun e => match e with
              | FileNotFoundError _ =>
                  Some (if negb true then eff_raise e else _ ← mkdir_at fault d c; open_dir_at fault d c)
              | _ => translate_escape e
              end) f = (f', r) ->
  grown names f f' /\ forall i, r = Ok i -> entry f' d c = Some i /\ is_dir f' i = true.
Proof.
  intros Hwf Hc Hs. unfold eff_try in Hs. destruct (open_dir_at fault d c f) as [f1 [j|e]] eqn:E.
  - injection Hs as <- <-. split; [exact (open_dir_grown _ _ _ _ _ Hwf E)|]. intros i [= <-].
    rewrite (same_entry _ _ (pure_open_dir_at _ _ _ _ _ _ E)), (same_is_dir _ _ (pure_open_dir_at _ _ _ _ _ _ E)).
    exact (open_dir_at_spec _ _ _ _ _ _ E).
  - assert (H1 := open_dir_grown _ _ _ _ _ Hwf E).
    destruct (match e with FileNotFoundError _ => true | _ => false end) eqn:He.
    + destruct e; try discriminate He. cbn [negb] in Hs. unfold mbind, eff_bind in Hs.
      destruct (mkdir_at fault d c f1) as [f2 r2] eqn:E2.
      assert (H2 := mkdir_grown _ _ _ _ _ _ _ (gr_wf _ _ _ H1) Hc E2).
      assert (H12 := grown_trans _ _ _ _ H1 H2). destruct r2 as [u|e2]; [|injection Hs as <- <-; split; [exact H12|discriminate]].
      split; [exact (grown_trans _ _ _ _ H12 (open_dir_grown _ _ _ _ _ (gr_wf _ _ _ H2) Hs))|]. intros i ->.
      rewrite (same_entry _ _ (pure_open_dir_at _ _ _ _ _ _ Hs)), (same_is_dir _ _ (pure_open_dir_at _ _ _ _ _ _ Hs)).
      exact (open_dir_at_spec _ _ _ _ _ _ Hs).
    + assert (Hr : f' = f1 /\ is_ok r = false).
      { revert Hs. unfold translate_escape, host_path_escape, eff_raise.
        destruct e; try discriminate He; try (destruct (is_escape _)); intros [= <- <-]; auto. }
      destruct Hr as [-> Hr]. split; [exact H1|]. intros i ->. discriminate.
Qed.

Lemma walk_grown f f' d components p : wf_fs f -> grown names f f' ->
  walk f d components = Some p -> walk f' d components = Some p.
Proof.
  intros Hwf Hg. revert d. induction components as [|c rest IH]; intros d; simpl; [auto|].
  destruct (entry f d c) as [i|] eqn:He; [|discriminate]. rewrite (gr_entry _ _ _ Hg _ _ _ He).
  rewrite (gr_dir _ _ _ Hg) by exact (proj2 (entry_known _ _ _ _ Hwf He)).
  destruct (is_dir f i); [apply IH|discriminate].
Qed.

Lemma open_dirs_create components d f f' r : wf_fs f -> (forall c, In c components -> In c names) ->
  open_dirs fault true d components f = (f', r) ->
  grown names f f' /\ forall p, r = Ok p -> walk f' d components = Some p /\ (is_dir f d = true -> is_dir f' p = true).
Proof.
  revert d f. induction components as [|c rest IH]; intros d f Hwf Hin Hs; cbn [open_dirs] in Hs.
  - injection Hs as <- <-. split; [exact (grown_same _ _ _ Hwf (same_fs_refl f))|]. intros p [= <-]. auto.
  - unfold mbind at 1, eff_bind at 1 in Hs.
    destruct (eff_try _ _ f) as [f1 r1] eqn:E.
    destruct (open_or_create _ _ _ _ _ Hwf (Hin c (or_introl eq_refl)) E) as [H1 Hok].
    destruct r1 as [i|e]; [|injection Hs as <- <-; split; [exact H1|discriminate]].
    destruct (Hok i eq_refl) as [He Hd]. assert (Hwf1 := gr_wf _ _ _ H1).
    destruct (IH i f1 Hwf1 (fun x Hx => Hin x (or_intror Hx)) Hs) as [H2 Hp].
    split; [exact (grown_trans _ _ _ _ H1 H2)|]. intros p Hr. destruct (Hp p Hr) as [Hw Hdp].
    simpl. rewrite (gr_entry _ _ _ H2 _ _ _ He), (gr_dir _ _ _ H2), Hd by exact (is_dir_known _ _ Hwf1 Hd). auto.
Qed.
End OpenCreate.

(** ** Contents across new directories *)
Section GrownContents.
Context (names : list string) (f f' : FileSystem) (Hwf : wf_fs f) (Hg : grown names f f').

Lemma no_entry_new d n : next_ino f <= d -> entry f d n = None.
Proof. intros Hd. destruct (entry f d n) as [i|] eqn:E; [|reflexivity]. apply (entry_known _ _ _ _ Hwf) in E. lia. Qed.

Lemma walk_from_new components d p : next_ino f <= d -> walk f' d components = Some p -> next_ino f <= p.
Proof.
  revert d. induction components as [|c rest IH]; intros d Hd; simpl; [intros [= <-]; exact Hd|].
  destruct (entry f' d c) as [i|] eqn:He; [|discriminate]. destruct (is_dir f' i); [|discriminate].
  destruct (gr_new _ _ _ Hg _ _ _ He) as [Hf|(_ & Hi & _)]; [now rewrite no_entry_new in Hf|]. now apply IH.
Qed.

Lemma walk_back components d p : walk f' d components = Some p ->
  walk f d components = Some p \/ next_ino f <= p.
Proof.
  revert d. induction components as [|c rest IH]; intros d; simpl; [auto|].
  destruct (entry f' d c) as [i|] eqn:He; [|discriminate]. destruct (is_dir f' i) eqn:Hd; [|discriminate].
  destruct (gr_new _ _ _ Hg _ _ _ He) as [Hf|(_ & Hi & _)].
  - rewrite Hf. rewrite (gr_dir _ _ _ Hg) in Hd by exact (proj2 (entry_known _ _ _ _ Hwf Hf)). rewrite Hd. apply IH.
  - intros Hw. right. exact (walk_from_new _ _ _ Hi Hw).
Qed.

Lemma node_file f0 d n data : node_at f0 d n = Some (File data) ->
  exists i, entry f0 d n = Some i /\ inodes f0 !! i = Some (File data) /\ is_dir f0 i = false.
Proof.
  unfold node_at. destruct (entry f0 d n) as [i|]; [|discriminate]. intros Hi. exists i.
  split; [reflexivity|]. split; [exact Hi|]. unfold is_dir. now rewrite Hi.
Qed.

Lemma file_grown d n data : node_at f d n = Some (File data) <-> node_at f' d n = Some (File data).
Proof.
  split; intros H; apply node_file in H as (i & He & Hi & Hd).
  - unfold node_at. rewrite (gr_entry _ _ _ Hg _ _ _ He).
    now rewrite (gr_node _ _ _ Hg i (proj2 (entry_known _ _ _ _ Hwf He)) Hd).
  - destruct (gr_new _ _ _ Hg _ _ _ He) as [Hf|(_ & _ & H)]; [|congruence].
    destruct (entry_known _ _ _ _ Hwf Hf) as [_ Hlt]. rewrite (gr_dir _ _ _ Hg i Hlt) in Hd.
    rewrite (gr_node _ _ _ Hg i Hlt Hd) in Hi. unfold node_at. now rewrite Hf.
Qed.

Lemma grown_content root parts : content_at f' root parts = content_at f root parts.
Proof.
  unfold content_at. destruct (walk f' root (removelast parts)) as [p|] eqn:Ew.
  - destruct (walk_back _ _ _ Ew) as [->|Hp].
    + pose proof (file_grown p (final parts)) as Hfile.
      destruct (node_at f' p (final parts)) as [[|s|]|] eqn:E', (node_at f p (final parts)) as [[|t|]|] eqn:E; try reflexivity;
        first [apply (proj2 (Hfile _)) in E' as E2; congruence | apply (proj1 (Hfile _)) in E as E2; congruence | idtac].
      all: try (specialize (proj2 (Hfile s) eq_refl); congruence); try (specialize (proj1 (Hfile t) eq_refl); congruence).
    + assert (Hnone : forall data, node_at f' p (final parts) <> Some (File data)).
      { intros data H. apply file_grown in H. unfold node_at in H. now rewrite no_entry_new in H. }
      assert (Hw : walk f root (removelast parts) = None \/ walk f root (removelast parts) = Some p).
      { destruct (walk f root (removelast parts)) as [q|] eqn:E; [|auto]. right.
        apply (walk_grown names f f' _ _ _ Hwf Hg) in E. congruence. }
      destruct (node_at f' p (final parts)) as [[|s|]|]; [|now specialize (Hnone s)| |];
        (destruct Hw as [->| ->]; [reflexivity|]; unfold node_at; now rewrite no_entry_new).
  - destruct (walk f root (removelast parts)) as [q|] eqn:E; [|reflexivity].
    apply (walk_grown names f f' _ _ _ Hwf Hg) in E. congruence.
Qed.

Lemma grown_fresh n : ~ In n names -> fresh_name n f -> fresh_name n f'.
Proof.
  intros Hn Hf d. destruct (entry f' d n) as [i|] eqn:E; [|reflexivity].
  destruct (gr_new _ _ _ Hg _ _ _ E) as [H|(H & _)]; [now rewrite Hf in H|contradiction].
Qed.

Lemma grown_kept name : kept name f f'.
Proof.
  split.
  - intros d n i _. apply (gr_entry _ _ _ Hg).
  - intros i data Hi. rewrite (gr_node _ _ _ Hg); [exact Hi|exact (wf_inodes _ Hwf _ _ Hi)|].
    unfold is_dir. now rewrite Hi.
Qed.
End GrownContents.

(** ** Contents across a change of one directory *)
Lemma walk_rank f (rank : Z -> nat) components d p :
  (forall d es name i es', inodes f !! d = Some (Dir es) -> es !! name = Some i ->
     inodes f !! i = Some (Dir es') -> (rank d < rank i)%nat) ->
  walk f d components = Some p -> components = [] \/ (rank d < rank p)%nat.
Proof.
  intros Hr. revert d. induction components as [|c rest IH]; intros d Hw; [auto|]. right. simpl in Hw.
  unfold entry in Hw. destruct (inodes f !! d) as [[es| |]|] eqn:Ed; try discriminate.
  destruct (es !! c) as [i|] eqn:Ec; [|discriminate]. unfold is_dir in Hw.
  destruct (inodes f !! i) as [[es'| |]|] eqn:Ei; try discriminate.
  specialize (Hr _ _ _ _ _ Ed Ec Ei). destruct (IH _ Hw) as [->|H]; [|lia]. simpl in Hw. injection Hw as <-. exact Hr.
Qed.

(** A walk to a directory does not look at that directory's entries. *)
Lemma walk_changed f f' components d p : wf_fs f ->
  (forall i, i < next_ino f -> i <> p -> inodes f' !! i = inodes f !! i) -> is_dir f' p = true ->
  walk f d components = Some p -> walk f' d components = Some p.
Proof.
  intros Hwf Hsame Hp. destruct (wf_acyclic _ Hwf) as [rank Hr]. revert d.
  induction components as [|c rest IH]; intros d Hw; [exact Hw|].
  assert (Hdp : d <> p).
  { intros ->. destruct (walk_rank _ _ _ _ _ Hr Hw) as [[=]|H]. lia. }
  simpl in *. destruct (entry f d c) as [i|] eqn:He; [|discriminate].
  destruct (entry_known _ _ _ _ Hwf He) as [Hd Hi].
  assert (He' : entry f' d c = Some i) by (unfold entry in *; now rewrite Hsame). rewrite He'.
  destruct (is_dir f i) eqn:Hdi; [|discriminate].
  assert (Hdi' : is_dir f' i = true).
  { destruct (Z.eq_dec i p) as [->|Hne]; [exact Hp|]. unfold is_dir in *. now rewrite Hsame. }
  rewrite Hdi'. now apply IH.
Qed.

Section WriteOutcome.
Context (f f' : FileSystem) (parent : Z) (temporary name data : string).
Context (Hwf : wf_fs f) (Ho : write_outcome f f' parent temporary name data).
Context (Hfresh : entry f parent temporary = None) (Hdir : is_dir f parent = true).

Lemma outcome_entry d n : n <> name -> n <> temporary -> entry f' d n = entry f d n.
Proof.
  intros Hn Ht. destruct (Z.eq_dec d parent) as [->|Hd]; [now apply (wo_names _ _ _ _ _ _ Ho)|].
  destruct (Z_lt_le_dec d (next_ino f)) as [Hlt|Hge].
  - unfold entry. now rewrite (wo_others _ _ _ _ _ _ Ho d Hlt Hd).
  - pose proof (wo_new _ _ _ _ _ _ Ho d Hge) as Hnd. rewrite (no_entry_new _ Hwf _ _ Hge).
    unfold entry. unfold is_dir in Hnd. now destruct (inodes f' !! d) as [[]|].
Qed.

Lemma outcome_kept : kept name f f'.
Proof.
  split.
  - intros d n i Hn He. destruct (String.eqb_spec n temporary) as [->|Ht]; [|now rewrite outcome_entry].
    destruct (Z.eq_dec d parent) as [->|Hd]; [congruence|].
    unfold entry in *. now rewrite (wo_others _ _ _ _ _ _ Ho d (proj1 (entry_known _ _ _ _ Hwf He)) Hd).
  - intros i s Hi. rewrite (wo_others _ _ _ _ _ _ Ho); [exact Hi|exact (wf_inodes _ Hwf _ _ Hi)|].
    intros ->. unfold is_dir in Hdir. now rewrite Hi in Hdir.
Qed.

Lemma outcome_dir i : is_dir f i = true -> is_dir f' i = true.
Proof.
  intros Hi. destruct (Z.eq_dec i parent) as [->|Hne]; [exact (wo_dir _ _ _ _ _ _ Ho)|].
  unfold is_dir. rewrite (wo_others _ _ _ _ _ _ Ho i (is_dir_known _ _ Hwf Hi) Hne). exact Hi.
Qed.

Lemma outcome_fresh n : n <> name -> n <> temporary -> fresh_name n f -> fresh_name n f'.
Proof. intros Hn Ht Hf d. now rewrite outcome_entry. Qed.

Lemma outcome_walk components d : walk f d components = Some parent -> walk f' d components = Some parent.
Proof. exact (walk_changed f f' components d parent Hwf (wo_others _ _ _ _ _ _ Ho) (wo_dir _ _ _ _ _ _ Ho)). Qed.

Lemma outcome_content root parts : name = final parts -> walk f root (removelast parts) = Some parent ->
  (content_at f' root parts = content_at f root parts \/ content_at f' root parts = Some data)
  /\ (node_at f' parent name = Some (File data) -> content_at f' root parts = Some data).
Proof.
  intros Hn Hw. unfold content_at. rewrite Hw, (outcome_walk _ _ Hw), <- Hn. split; [|now intros ->].
  destruct (wo_name _ _ _ _ _ _ Ho) as [[_ ->]| ->]; auto.
Qed.
End WriteOutcome.

(** ** What a write leaves behind *)
Section Write.
Context (fault : nat -> option (Z * nat)) (root_now : nat -> res Z) (root : Z).
Context (Hroot : forall n, root_now n = Ok root).

Lemma removelast_In {A} (l : list A) x : In x (removelast l) -> In x l.
Proof. induction l as [|a [|b l'] IH]; simpl in *; [auto|auto|]. intros [->|H]; auto. Qed.

(** The state after [atomic_write_under_root]: either nothing but directories
    was created, or the file was replaced as a whole. *)
Record written (token : string) (parts : list string) (data : string) (f f' : FileSystem) (r : res unit) : Prop := mkWritten {
  wr_wf : wf_fs f';
  wr_content : content_at f' root parts = content_at f root parts \/ content_at f' root parts = Some data;
  wr_ok : r = Ok tt -> content_at f' root parts = Some data;
  wr_dir : forall i, is_dir f i = true -> is_dir f' i = true;
  wr_kept : kept (final parts) f f';
  wr_fresh : forall n, ~ In n parts -> n <> temporary_name token (final parts) ->
    fresh_name n f -> fresh_name n f' }.

Lemma written_grown token parts data f f' e : wf_fs f ->
  grown (removelast parts) f f' -> written token parts data f f' (Err e).
Proof.
  intros Hwf Hg. constructor.
  - exact (gr_wf _ _ _ Hg).
  - left. exact (grown_content _ _ _ Hwf Hg root parts).
  - discriminate.
  - intros i Hi. rewrite (gr_dir _ _ _ Hg); [exact Hi|exact (is_dir_known _ _ Hwf Hi)].
  - exact (grown_kept _ _ _ Hwf Hg (final parts)).
  - intros n Hn _. apply (grown_fresh _ _ _ Hg). intros Hin. exact (Hn (removelast_In _ _ Hin)).
Qed.

Lemma final_In parts : parts <> [] -> In (final parts) parts.
Proof.
  intros Hne. destruct (exists_last Hne) as (l & x & ->). unfold final. rewrite last_last. apply in_or_app. right. now left.
Qed.

Lemma safe_parts_nonempty relative parts : safe_relative_parts relative = Ok parts -> parts <> [].
Proof.
  unfold safe_relative_parts. cbv zeta. generalize (path_parts (replace_char "\" "/" relative)).
  intros l H ->. apply rbind_ok in H as (u1 & H1 & H). apply raise_if_ok, orb_false_iff in H1 as [_ H1].
  apply rbind_ok in H as (u2 & _ & H). apply rbind_ok in H as (u3 & _ & H).
  assert (l = []) by congruence. subst l. discriminate H1.
Qed.

Lemma open_parent_create parts f f' r : wf_fs f ->
  open_parent_fd fault root_now parts true (Some root) f = (f', r) ->
  grown (removelast parts) f f'
  /\ forall p, r = Ok p -> walk f' root (removelast parts) = Some p /\ is_dir f' p = true.
Proof.
  intros Hwf. unfold open_parent_fd, open_root, mbind, eff_bind, resolve_root, require_dir. rewrite Hroot.
  assert (Ht := same_fs_tick f). rewrite (same_is_dir _ _ Ht). destruct (is_dir f root) eqn:Hd.
  - rewrite Z.eqb_refl. cbn [negb]. intros Hs. assert (Hwt := same_wf _ _ Ht Hwf).
    destruct (open_dirs_create _ _ _ _ _ _ _ Hwt (fun c H => H) Hs) as [Hg Hp].
    split; [exact (grown_trans _ _ _ _ (grown_same _ _ _ Hwf Ht) Hg)|]. intros p Hr. destruct (Hp p Hr) as [Hw Hdp].
    split; [exact Hw|]. apply Hdp. now rewrite (same_is_dir _ _ Ht).
  - intros [= <- <-]. split; [now apply grown_same|discriminate].
Qed.

Lemma write_under_root_spec token relative data overwrite f f' r parts :
  wf_fs f -> safe_relative_parts relative = Ok parts -> fresh_name (temporary_name token (final parts)) f ->
  ~ In (temporary_name token (final parts)) parts ->
  atomic_write_under_root fault root_now token relative data overwrite (Some root) f = (f', r) ->
  written token parts data f f' r.
Proof.
  intros Hwf Hp Hfresh Hnot Hs. unfold atomic_write_under_root in Hs.
  unfold mbind at 1, eff_bind at 1, eff_lift in Hs. rewrite Hp in Hs.
  unfold mbind at 1, eff_bind at 1 in Hs. destruct (validated_root root_now (Some root) f) as [f1 [u|e]] eqn:Ev.
  2:{ injection Hs as <- <-. apply written_grown, grown_same; [auto..|]. exact (pure_validated_root _ _ _ _ _ Ev). }
  assert (H1 := grown_same (removelast parts) _ _ Hwf (pure_validated_root _ _ _ _ _ Ev)).
  unfold mbind at 1, eff_bind at 1 in Hs.
  destruct (open_parent_fd fault root_now parts true (Some root) f1) as [f2 r2] eqn:Eo.
  destruct (open_parent_create _ _ _ _ (gr_wf _ _ _ H1) Eo) as [H2 Hwalk].
  assert (Hg := grown_trans _ _ _ _ H1 H2). assert (Hw0 := written_grown token parts data f f2 AssertionError Hwf Hg).
  destruct r2 as [p|e]; [|injection Hs as <- <-; exact (written_grown _ _ _ _ _ _ Hwf Hg)].
  destruct (Hwalk p eq_refl) as [Hwp Hdp]. assert (Hwf2 := gr_wf _ _ _ Hg).
  assert (Hnotr : ~ In (temporary_name token (final parts)) (removelast parts)).
  { intros Hin. exact (Hnot (removelast_In _ _ Hin)). }
  assert (Hf2 := grown_fresh _ _ _ Hg _ Hnotr Hfresh p).
  destruct (atomic_write_outcome _ _ _ _ _ _ _ _ _ Hwf2 Hdp Hf2 Hs) as [Ho Hok].
  destruct (outcome_content _ _ _ _ _ _ Hwf2 Ho root parts eq_refl Hwp) as [Hc Hcd].
  rewrite (grown_content _ _ _ Hwf Hg) in Hc. constructor.
  - exact (wo_wf _ _ _ _ _ _ Ho).
  - exact Hc.
  - intros Hr. apply Hcd. apply (Hok Hr).
  - intros i Hi. apply (outcome_dir _ _ _ _ _ _ Hwf2 Ho), (wr_dir _ _ _ _ _ _ Hw0 i Hi).
  - eapply kept_trans; [exact (grown_kept _ _ _ Hwf Hg _)|]. now apply (outcome_kept _ _ _ _ _ _ Hwf2 Ho).
  - intros n Hn Ht Hf. apply (outcome_fresh _ _ _ _ _ _ Hwf2 Ho); [|exact Ht|exact (wr_fresh _ _ _ _ _ _ Hw0 n Hn Ht Hf)].
    intros ->. apply Hn, final_In, (safe_parts_nonempty _ _ Hp).
Qed.
End Write.

(** ** What removing a file leaves behind *)
Section Unlink.
Context (f : FileSystem) (parent : Z) (es : gmap string Z) (name : string).
Context (Hwf : wf_fs f) (Hparent : inodes f !! parent = Some (Dir es)).

Definition without_entry : FileSystem := set_entries parent (fun es => delete name es) f.

Lemma without_entry_inodes : inodes without_entry = <[parent := Dir (delete name es)]> (inodes f).
Proof. unfold without_entry, set_entries. now rewrite Hparent. Qed.

Lemma without_entry_next : next_ino without_entry = next_ino f.
Proof. unfold without_entry, set_entries. now rewrite Hparent. Qed.

Lemma without_entry_other i : i <> parent -> inodes without_entry !! i = inodes f !! i.
Proof. intros Hi. rewrite without_entry_inodes. now rewrite lookup_insert_ne by auto. Qed.

Lemma without_entry_entry d n :
  entry without_entry d n = if Z.eq_dec d parent then delete name es !! n else entry f d n.
Proof.
  unfold entry. destruct (Z.eq_dec d parent) as [->|Hd]; [|now rewrite without_entry_other].
  now rewrite without_entry_inodes, lookup_insert_eq.
Qed.

Lemma without_entry_dir : is_dir without_entry parent = true.
Proof. unfold is_dir. now rewrite without_entry_inodes, lookup_insert_eq. Qed.

Lemma without_entry_sub d n i : entry without_entry d n = Some i -> entry f d n = Some i.
Proof.
  rewrite without_entry_entry. destruct (Z.eq_dec d parent) as [->|]; [|auto].
  intros H. apply lookup_delete_Some in H as [_ H]. unfold entry. now rewrite Hparent.
Qed.

Lemma without_entry_wf : wf_fs without_entry.
Proof.
  assert (Hsub : forall d xs n i, inodes without_entry !! d = Some (Dir xs) -> xs !! n = Some i ->
            exists ys, inodes f !! d = Some (Dir ys) /\ ys !! n = Some i).
  { intros d xs n i Hd Hn. assert (He : entry without_entry d n = Some i) by (unfold entry; now rewrite Hd).
    apply without_entry_sub in He. unfold entry in He. destruct (inodes f !! d) as [[ys| |]|]; try discriminate. eauto. }
  destruct Hwf as [[rank Hr] Hi He]. constructor.
  - exists rank. intros d xs n i ys Hd Hn Hy. destruct (Hsub _ _ _ _ Hd Hn) as (zs & Hz & Hzn).
    destruct (Z.eq_dec i parent) as [->|Hip]; [eauto|]. rewrite (without_entry_other _ Hip) in Hy. eauto.
  - intros i n Hn. rewrite without_entry_next. destruct (Z.eq_dec i parent) as [->|Hip]; [eauto|].
    rewrite (without_entry_other _ Hip) in Hn. eauto.
  - intros d xs n i Hd Hn. rewrite without_entry_next. destruct (Hsub _ _ _ _ Hd Hn) as (zs & Hz & Hzn). eauto.
Qed.

Lemma without_entry_kept : kept name f without_entry.
Proof.
  split.
  - intros d n i Hn He. rewrite without_entry_entry. destruct (Z.eq_dec d parent) as [->|]; [|exact He].
    rewrite lookup_delete_ne by auto. unfold entry in He. now rewrite Hparent in He.
  - intros i data Hi. rewrite without_entry_other; [exact Hi|]. intros ->. congruence.
Qed.

Lemma without_entry_content root parts : name = final parts -> walk f root (removelast parts) = Some parent ->
  content_at without_entry root parts = None.
Proof.
  intros Hn Hw. unfold content_at. rewrite (walk_changed f without_entry _ _ parent Hwf); [|intros i _; apply without_entry_other|apply without_entry_dir|exact Hw].
  unfold node_at. rewrite without_entry_entry, <- Hn. destruct (Z.eq_dec parent parent); [|congruence].
  now rewrite lookup_delete_eq.
Qed.
End Unlink.

Lemma unlink_at_spec fault d n f f' r : wf_fs f -> unlink_at fault d n f = (f', r) ->
  (same_fs f f' /\ is_ok r = false)
  \/ (r = Ok tt /\ exists es, inodes f !! d = Some (Dir es) /\ same_fs (without_entry f d n) f').
Proof.
  intros Hwf Hs. apply syscall_inv in Hs as [(errno & k & _ & -> & ->)|[_ Hs]]; [left; split; [apply same_fs_tick|reflexivity]|].
  assert (Ht := same_fs_tick f). revert Hs. unfold fail. rewrite (same_entry _ _ Ht).
  destruct (entry f d n) as [i|] eqn:He; [|intros [= <- <-]; auto].
  rewrite (same_is_dir _ _ Ht). destruct (is_dir f i); intros [= <- <-]; [auto|]. right. split; [reflexivity|].
  unfold entry in He. destruct (inodes f !! d) as [[es| |]|] eqn:Ed; try discriminate. exists es. split; [reflexivity|].
  unfold without_entry, set_entries, same_fs. cbn [tick inodes]. rewrite Ed. auto.
Qed.

Section UnlinkUnderRoot.
Context (fault : nat -> option (Z * nat)) (root_now : nat -> res Z) (root : Z).
Context (Hroot : forall n, root_now n = Ok root) (Hhonest : forall n k, fault n <> Some (ENOENT, k)).

(** Removing a file that may be missing: when it returns, nothing is there. *)
Lemma unlink_under_root_spec relative f f' parts : wf_fs f -> safe_relative_parts relative = Ok parts ->
  unlink_under_root fault root_now relative true (Some root) f = (f', Ok tt) ->
  content_at f' root parts = None /\ kept (final parts) f f' /\ wf_fs f'.
Proof.
  intros Hwf Hp Hs. unfold unlink_under_root in Hs. unfold mbind at 1, eff_bind at 1, eff_lift in Hs. rewrite Hp in Hs.
  apply eff_bind_ok in Hs as (f1 & u & Hv & Hs). assert (H1 := pure_validated_root _ _ _ _ _ Hv).
  apply eff_bind_ok in Hs as (f2 & p & Ho & Hs). assert (H2 := pure_open_parent _ _ _ _ _ _ _ Ho).
  assert (H12 := same_fs_trans _ _ _ H1 H2). assert (Hwf2 := same_wf _ _ H12 Hwf).
  apply (open_parent_ok _ _ _ Hroot) in Ho as [_ Ho]. apply open_dirs_walk in Ho.
  rewrite (same_walk _ _ (same_fs_tick f1)), <- (same_walk _ _ H2) in Ho.
  apply eff_bind_ok in Hs as (f3 & removed & Hu & Hs). unfold eff_try, mbind, eff_bind in Hu.
  destruct (unlink_at fault p (final parts) f2) as [f4 [[]|e]] eqn:E.
  - injection Hu as <- <-. assert (H5 := pure_fsync _ _ _ _ _ Hs).
    destruct (unlink_at_spec _ _ _ _ _ _ Hwf2 E) as [[_ [=]]|(_ & es & Hes & H4)].
    assert (H45 := same_fs_trans _ _ _ H4 H5). rewrite (same_content _ _ H45).
    split; [exact (without_entry_content _ _ _ _ Hwf2 Hes root parts eq_refl Ho)|].
    split; [|exact (same_wf _ _ H45 (without_entry_wf _ _ _ _ Hwf2 Hes))].
    eapply kept_trans; [exact (same_kept _ _ H12 _)|].
    eapply kept_trans; [exact (without_entry_kept _ _ _ _ Hes)|exact (same_kept _ _ H45 _)].
  - destruct e; try discriminate. injection Hu as <- <-. injection Hs as <-.
    destruct (unlink_at_spec _ _ _ _ _ _ Hwf2 E) as [[H4 _]|([=] & _)]. assert (H24 := same_fs_trans _ _ _ H12 H4).
    split; [|split; [exact (same_kept _ _ H24 _)|exact (same_wf _ _ H24 Hwf)]].
    rewrite (same_content _ _ H4). unfold content_at. rewrite Ho. unfold node_at.
    apply (syscall_missing _ Hhonest) in E. revert E. rewrite (same_entry _ _ (same_fs_tick f2)).
    destruct (entry f2 p (final parts)) as [i|]; [|reflexivity]. intros E. exfalso.
    destruct (is_dir _ i); [now apply fail_missing in E|discriminate].
Qed.
End UnlinkUnderRoot.

(** ** Reading without faults finds the file *)
Section ReadComplete.
Context (root_now : nat -> res Z) (root : Z) (Hroot : forall n, root_now n = Ok root).

Lemma no_fault_syscall {A} (act : FileSystem -> FileSystem * res A) f : syscall no_fault act f = act (tick f).
Proof. reflexivity. Qed.

Lemma open_dirs_complete components d p f : walk f d components = Some p ->
  exists f', open_dirs no_fault false d components f = (f', Ok p) /\ same_fs f f'.
Proof.
  revert d f. induction components as [|c rest IH]; intros d f Hw; cbn [open_dirs walk] in *.
  - injection Hw as <-. exists f. split; [reflexivity|apply same_fs_refl].
  - destruct (entry f d c) as [i|] eqn:He; [|discriminate]. destruct (is_dir f i) eqn:Hd; [|discriminate].
    rewrite <- (same_walk _ _ (same_fs_tick f)) in Hw. destruct (IH i (tick f) Hw) as (f' & Ho & Hs).
    exists f'. split; [|exact (same_fs_trans _ _ _ (same_fs_tick f) Hs)].
    unfold mbind, eff_bind, eff_try, open_dir_at. rewrite no_fault_syscall, (same_entry _ _ (same_fs_tick f)), He.
    unfold is_dir in Hd. cbn [tick inodes]. destruct (inodes f !! i) as [[]|]; try discriminate. exact Ho.
Qed.

Lemma read_bytes_complete relative parts data f :
  is_dir f root = true -> safe_relative_parts relative = Ok parts -> content_at f root parts = Some data ->
  snd (read_bytes_under_root no_fault root_now relative (Some root) f) = Ok data.
Proof.
  intros Hd Hp Hc. unfold read_bytes_under_root. unfold mbind at 1, eff_bind at 1, eff_lift. rewrite Hp.
  unfold mbind at 1, eff_bind at 1, validated_root, validate_root_identity, open_parent_fd, open_root, mbind, eff_bind,
    resolve_root, root_identity, require_dir, mret, eff_ret. rewrite !Hroot.
  assert (H2 := same_fs_trans _ _ _ (same_fs_tick f) (same_fs_tick (tick f))).
  assert (H3 := same_fs_trans _ _ _ H2 (same_fs_tick (tick (tick f)))).
  rewrite (same_is_dir _ _ H2), Hd, Z.eqb_refl. cbn [negb].
  rewrite Hroot, (same_is_dir _ _ H3), Hd, Z.eqb_refl. cbn [negb].
  unfold content_at in Hc. destruct (walk f root (removelast parts)) as [p|] eqn:Hw; [|discriminate].
  rewrite <- (same_walk _ _ H3) in Hw. destruct (open_dirs_complete _ _ _ _ Hw) as (f' & -> & H4).
  assert (H := same_fs_trans _ _ _ (same_fs_trans _ _ _ H3 H4) (same_fs_tick f')).
  unfold eff_try, open_at. rewrite no_fault_syscall, (same_entry _ _ H). unfold node_at in Hc.
  destruct (entry f p (final parts)) as [i|]; [|discriminate]. rewrite (proj1 H).
  destruct (inodes f !! i) as [[|s|]|] eqn:Ei; try discriminate. injection Hc as <-. unfold read_fd. rewrite no_fault_syscall.
  rewrite (proj1 (same_fs_tick _)), (proj1 H), Ei. reflexivity.
Qed.
End ReadComplete.

(** Reading below a root is exact.  It changes nothing; the data it returns
    is that of the regular file that the path reaches through directories only,
    never through a symbolic link; it reports a missing file only when there
    is none; and without faults it finds the file that is there. *)
Theorem read_under_root_exact fault root_now root relative f f' r :
  (forall n, root_now n = Ok root) -> (forall n k, fault n <> Some (ENOENT, k)) ->
  read_bytes_under_root fault root_now relative (Some root) f = (f', r) ->
  same_fs f f'
  /\ (forall data, r = Ok data ->
        exists parts, safe_relative_parts relative = Ok parts /\ content_at f root parts = Some data)
  /\ (forall m, r = Err (FileNotFoundError m) ->
        exists parts, safe_relative_parts relative = Ok parts /\ content_at f root parts = None)
  /\ (forall parts data, is_dir f root = true -> safe_relative_parts relative = Ok parts ->
        content_at f root parts = Some data ->
        snd (read_bytes_under_root no_fault root_now relative (Some root) f) = Ok data).
Proof.
  intros Hroot Hhonest Hs. split; [exact (pure_read_bytes _ _ _ _ _ _ _ Hs)|].
  split; [intros data ->; exact (read_bytes_ok _ _ _ Hroot _ _ _ _ Hs)|].
  split; [intros m ->; exact (read_bytes_missing _ _ Hhonest _ Hroot _ _ _ _ Hs)|].
  intros parts data. apply (read_bytes_complete _ _ Hroot).
Qed.

(** C30: what was written is read back.  When [atomic_write_under_root]
    returns, a later reading of the same path returns the data; when it raises,
    the file has its old content or all of the new one, never a part. *)
Theorem write_then_read fault root_now root token relative data overwrite f f' r parts :
  (forall n, root_now n = Ok root) -> wf_fs f -> is_dir f root = true ->
  safe_relative_parts relative = Ok parts ->
  fresh_name (temporary_name token (final parts)) f -> ~ In (temporary_name token (final parts)) parts ->
  atomic_write_under_root fault root_now token relative data overwrite (Some root) f = (f', r) ->
  (r = Ok tt -> snd (read_bytes_under_root no_fault root_now relative (Some root) f') = Ok data)
  /\ (content_at f' root parts = content_at f root parts \/ content_at f' root parts = Some data)
  /\ kept (final parts) f f'.
Proof.
  intros Hroot Hwf Hd Hp Hfresh Hnot Hs.
  destruct (write_under_root_spec _ _ _ Hroot _ _ _ _ _ _ _ _ Hwf Hp Hfresh Hnot Hs) as [_ Hc Hok Hdir Hk _].
  split; [|split; [exact Hc|exact Hk]]. intros Hr. exact (read_bytes_complete _ _ Hroot _ _ _ _ (Hdir _ Hd) Hp (Hok Hr)).
Qed.

(** The names of [sample_fs]. *)
Lemma sample_fresh n : ~ In n ["a.txt"; "dir"; "link"; "b.txt"]%string -> fresh_name n sample_fs.
Proof.
  intros Hn d. destruct (entry sample_fs d n) as [i|] eqn:E; [|reflexivity]. exfalso. apply Hn. revert E. unfold entry.
  destruct (inodes sample_fs !! d) as [x|] eqn:Ed; [|discriminate]. revert Ed. unfold sample_fs. cbn [inodes].
  intros Ed. repeat (apply lookup_insert_Some in Ed as [[_ <-]|[_ Ed]]; [|]); try (intros He; discriminate He);
    [..|now rewrite lookup_empty in Ed].
  all: intros He; repeat (apply lookup_insert_Some in He as [[<- _]|[_ He]]; [cbn; tauto|]); now rewrite lookup_empty in He.
Qed.

Lemma no_fault_honest : forall n k, no_fault n <> Some (ENOENT, k).
Proof. discriminate. Qed.

Lemma read_under_root_exact_witness :
  exists data, snd (read_bytes_under_root no_fault fixed_root "dir/b.txt" (Some 1) sample_fs) = Ok data
    /\ content_at sample_fs 1 ["dir"; "b.txt"]%string = Some data.
Proof.
  destruct (read_under_root_exact no_fault fixed_root 1 "dir/b.txt" sample_fs
              (fst (read_bytes_under_root no_fault fixed_root "dir/b.txt" (Some 1) sample_fs))
              (snd (read_bytes_under_root no_fault fixed_root "dir/b.txt" (Some 1) sample_fs))
              (fun _ => eq_refl) no_fault_honest eq_refl) as (_ & H & _).
  destruct (H "B"%string ltac:(vm_compute; reflexivity)) as (parts & Hp & Hc). exists "B"%string.
  split; [vm_compute; reflexivity|]. assert (Hparts : parts = ["dir"; "b.txt"]%string) by (vm_compute in Hp; congruence).
  rewrite <- Hparts. exact Hc.
Defined.

Lemma write_then_read_witness :
  let f' := fst (atomic_write_under_root no_fault fixed_root "00ff" "new/c.txt" "C" false (Some 1) sample_fs) in
  snd (read_bytes_under_root no_fault fixed_root "new/c.txt" (Some 1) f') = Ok "C"%string.
Proof.
  apply (write_then_read no_fault fixed_root 1 "00ff" "new/c.txt" "C" false sample_fs
           (fst (atomic_write_under_root no_fault fixed_root "00ff" "new/c.txt" "C" false (Some 1) sample_fs))
           (snd (atomic_write_under_root no_fault fixed_root "00ff" "new/c.txt" "C" false (Some 1) sample_fs))
           ["new"; "c.txt"]%string (fun _ => eq_refl) sample_fs_wf eq_refl); try (vm_compute; reflexivity).
  - apply sample_fresh. cbn. intuition discriminate.
  - cbn. intuition discriminate.
Defined.
