(* ===== verification/Ipaddress.v ===== *)
(** * The module [ipaddress] of Python's standard library, as network.py uses it

    Parsing of IPv4 and IPv6 addresses and of IPv4 networks, and the special
    purpose registries behind [is_private], [is_global] and the like
    (CPython 3.13; 3.12.4 and later agree on IPv4). *)
From S2P Require Export Text.

(** An address: its value, and the scope of an IPv6 address. *)
Inductive ip_addr := IPv4 (a : Z) | IPv6 (a : Z) (scope : option string).

#[export] Instance ip_addr_eq_dec : EqDecision ip_addr.
Proof. solve_decision. Defined.

(** ** Parsing *)
Definition parse_octet (s : string) : option Z :=
  if all_chars is_digit s && Nat.leb (String.length s) 3
     && negb (starts_with "0" s && negb (String.eqb s "0")) then
    match read_decimal s with
    | Some n => if n <=? 255 then Some n else None
    | None => None
    end
  else None.

Definition parse_ipv4 (s : string) : option Z :=
  match split_on "." s with
  | [a; b; c; d] =>
      match parse_octet a, parse_octet b, parse_octet c, parse_octet d with
      | Some a, Some b, Some c, Some d => Some (((a * 256 + b) * 256 + c) * 256 + d)
      | _, _, _, _ => None
      end
  | _ => None
  end.

Definition parse_hextet (s : string) : option Z :=
  if Nat.leb (String.length s) 4 then read_hex s else None.

Fixpoint parse_hextets (acc : Z) (parts : list string) : option Z :=
  match parts with
  | [] => Some acc
  | p :: ps =>
      match parse_hextet p with
      | Some h => parse_hextets (acc * 65536 + h) ps
      | None => None
      end
  end.

(** Replaces a dotted-quad last part by its two hextets. *)
Definition expand_ipv4_tail (parts : list string) : option (list string) :=
  match rev parts with
  | l :: front =>
      if has_char "." l then
        match parse_ipv4 l with
        | Some v =>
            let hexs n := let digit d := nth_default "0"%char
                              (list_ascii_of_string "0123456789abcdef") (Z.to_nat d) in
                          String (digit (n / 4096)) (String (digit (n / 256 mod 16))
                            (String (digit (n / 16 mod 16)) (String (digit (n mod 16)) ""))) in
            Some (rev front ++ [hexs (v / 65536); hexs (v mod 65536)])
        | None => None
        end
      else Some parts
  | [] => None
  end.

(** The positions, apart from the first and the last, of the empty parts. *)
Fixpoint inner_empty (k : nat) (parts : list string) : list nat :=
  match parts with
  | [] => []
  | [_] => []
  | p :: ps => if Nat.ltb 0 k && String.eqb p "" then k :: inner_empty (S k) ps
               else inner_empty (S k) ps
  end.

Definition parse_ipv6_int (s : string) : option Z :=
  let parts := split_on ":" s in
  if Nat.ltb (List.length parts) 3 then None else
  match expand_ipv4_tail parts with
  | None => None
  | Some parts =>
      if Nat.ltb 9 (List.length parts) then None else
      let first := hd ""%string parts in
      let lst := List.last parts ""%string in
      match inner_empty 0 parts with
      | [] =>
          if Nat.eqb (List.length parts) 8 && negb (String.eqb first "") && negb (String.eqb lst "")
          then parse_hextets 0 parts else None
      | [k] =>
          let hi := firstn k parts in
          let lo := skipn (S k) parts in
          let hi' := if String.eqb first "" then tl hi else hi in
          let lo' := if String.eqb lst "" then removelast lo else lo in
          if (String.eqb first "" && negb (Nat.eqb (List.length hi') 0))
             || (String.eqb lst "" && negb (Nat.eqb (List.length lo') 0))
             || Nat.leb 8 (List.length hi' + List.length lo')
          then None
          else
            let skipped := Z.of_nat (8 - (List.length hi' + List.length lo')) in
            match parse_hextets 0 hi' with
            | Some h => parse_hextets (h * 2 ^ (16 * skipped)) lo'
            | None => None
            end
      | _ => None
      end
  end.

(** [addr, sep, scope = text.partition("%")] *)
Definition parse_ipv6 (s : string) : option ip_addr :=
  if has_char "/" s then None else
  match split_once "%" s with
  | None => option_map (fun a => IPv6 a None) (parse_ipv6_int s)
  | Some (a, scope) =>
      if String.eqb scope "" || has_char "%" scope then None
      else option_map (fun a => IPv6 a (Some scope)) (parse_ipv6_int a)
  end.

(** [ipaddress.ip_address(text)]; [None] is [ValueError]. *)
Definition ip_address (s : string) : option ip_addr :=
  match parse_ipv4 s with
  | Some a => Some (IPv4 a)
  | None => parse_ipv6 s
  end.

(** [IPv6Address.ipv4_mapped] *)
Definition ipv4_mapped (a : Z) : option Z :=
  if Z.shiftr a 32 =? 0xffff then Some (Z.land a 0xffffffff) else None.

(** ** Networks *)
Record network := mkNetwork { net_addr : Z; net_prefix : Z }.

(** [address in network], for addresses of [w] bits. *)
Definition in_network (w : Z) (a : Z) (n : network) : bool :=
  Z.shiftr a (w - net_prefix n) =? Z.shiftr (net_addr n) (w - net_prefix n).

Definition in_any (w : Z) (a : Z) (ns : list network) : bool := existsb (in_network w a) ns.

Definition net_last (w : Z) (n : network) : Z := net_addr n + 2 ^ (w - net_prefix n) - 1.

(** [_prefix_from_ip_int]: a contiguous netmask, as its length. *)
Definition prefix_of_mask (m : Z) : option Z :=
  List.find (fun p => m =? 0xffffffff - (2 ^ (32 - p) - 1)) (map Z.of_nat (seq 0 33)).

(** [_make_netmask]: a prefix length, a netmask or a hostmask. *)
Definition parse_prefix (s : string) : option Z :=
  match (if all_chars is_digit s then read_decimal s else None) with
  | Some p => if p <=? 32 then Some p else None
  | None =>
      match parse_ipv4 s with
      | None => None
      | Some m =>
          match prefix_of_mask m with
          | Some p => Some p
          | None => prefix_of_mask (0xffffffff - m)
          end
      end
  end.

(** [ipaddress.ip_network(text, strict=True)], on IPv4 texts. *)
Definition parse_ipv4_network (s : string) : option network :=
  let make a p :=
    if Z.land a (2 ^ (32 - p) - 1) =? 0 then Some (mkNetwork a p) else None in
  match split_on "/" s with
  | [a] => match parse_ipv4 a with Some a => make a 32 | None => None end
  | [a; p] =>
      match parse_ipv4 a, parse_prefix p with
      | Some a, Some p => make a p
      | _, _ => None
      end
  | _ => None
  end.

(** The registries, written as in the library. *)
Definition cidrs (l : list string) : list network :=
  flat_map (fun s => match parse_ipv4_network s with Some n => [n] | None => [] end) l.

Definition v4_private : list network := Eval vm_compute in
  cidrs ["0.0.0.0/8"; "10.0.0.0/8"; "127.0.0.0/8"; "169.254.0.0/16"; "172.16.0.0/12";
         "192.0.0.0/24"; "192.0.0.170/31"; "192.0.2.0/24"; "192.168.0.0/16"; "198.18.0.0/15";
         "198.51.100.0/24"; "203.0.113.0/24"; "240.0.0.0/4"; "255.255.255.255/32"]%string.
Definition v4_private_exceptions : list network := Eval vm_compute in
  cidrs ["192.0.0.9/32"; "192.0.0.10/32"]%string.
Definition v4_shared : network := mkNetwork 0x64400000 10.
Definition v4_loopback : network := mkNetwork 0x7f000000 8.
Definition v4_linklocal : network := mkNetwork 0xa9fe0000 16.
Definition v4_multicast : network := mkNetwork 0xe0000000 4.

Definition v6 (hextets : list Z) (p : Z) : network :=
  mkNetwork (fold_left (fun acc h => acc * 65536 + h) hextets 0) p.
Definition v6_private : list network := Eval vm_compute in
  [v6 [0;0;0;0;0;0;0;1] 128; v6 [0;0;0;0;0;0;0;0] 128; v6 [0;0;0;0;0;0xffff;0;0] 96;
   v6 [0x64;0xff9b;1;0;0;0;0;0] 48; v6 [0x100;0;0;0;0;0;0;0] 64; v6 [0x2001;0;0;0;0;0;0;0] 23;
   v6 [0x2001;0xdb8;0;0;0;0;0;0] 32; v6 [0x2002;0;0;0;0;0;0;0] 16; v6 [0x3fff;0;0;0;0;0;0;0] 20;
   v6 [0xfc00;0;0;0;0;0;0;0] 7; v6 [0xfe80;0;0;0;0;0;0;0] 10].
Definition v6_private_exceptions : list network := Eval vm_compute in
  [v6 [0x2001;1;0;0;0;0;0;1] 128; v6 [0x2001;1;0;0;0;0;0;2] 128; v6 [0x2001;3;0;0;0;0;0;0] 32;
   v6 [0x2001;4;0x112;0;0;0;0;0] 48; v6 [0x2001;0x20;0;0;0;0;0;0] 28;
   v6 [0x2001;0x30;0;0;0;0;0;0] 28].
Definition v6_linklocal : network := v6 [0xfe80;0;0;0;0;0;0;0] 10.
Definition v6_multicast : network := v6 [0xff00;0;0;0;0;0;0;0] 8.

(** ** Properties of addresses *)
Definition v4_is_private (a : Z) : bool :=
  in_any 32 a v4_private && negb (in_any 32 a v4_private_exceptions).

Definition is_private (x : ip_addr) : bool :=
  match x with
  | IPv4 a => v4_is_private a
  | IPv6 a _ =>
      match ipv4_mapped a with
      | Some m => v4_is_private m
      | None => in_any 128 a v6_private && negb (in_any 128 a v6_private_exceptions)
      end
  end.

Definition v4_is_global (a : Z) : bool := negb (in_network 32 a v4_shared) && negb (v4_is_private a).

Definition is_global (x : ip_addr) : bool :=
  match x with
  | IPv4 a => v4_is_global a
  | IPv6 a _ => match ipv4_mapped a with
                | Some m => v4_is_global m
                | None => negb (is_private x)
                end
  end.

Definition is_loopback (x : ip_addr) : bool :=
  match x with
  | IPv4 a => in_network 32 a v4_loopback
  | IPv6 a _ => match ipv4_mapped a with
                | Some m => in_network 32 m v4_loopback
                | None => a =? 1
                end
  end.

Definition is_link_local (x : ip_addr) : bool :=
  match x with
  | IPv4 a => in_network 32 a v4_linklocal
  | IPv6 a _ => match ipv4_mapped a with
                | Some m => in_network 32 m v4_linklocal
                | None => in_network 128 a v6_linklocal
                end
  end.

Definition is_multicast (x : ip_addr) : bool :=
  match x with
  | IPv4 a => in_network 32 a v4_multicast
  | IPv6 a _ => match ipv4_mapped a with
                | Some m => in_network 32 m v4_multicast
                | None => in_network 128 a v6_multicast
                end
  end.

Definition is_unspecified (x : ip_addr) : bool :=
  match x with
  | IPv4 a => a =? 0
  | IPv6 a _ => match ipv4_mapped a with Some m => m =? 0 | None => a =? 0 end
  end.

(** [IPv4Network.is_global] *)
Definition network_within (n m : network) : bool :=
  in_network 32 (net_addr n) m && in_network 32 (net_last 32 n) m.
Definition network_is_private (n : network) : bool :=
  existsb (network_within n) v4_private
  && forallb (fun m => negb (in_network 32 (net_addr n) m)
                       && negb (in_network 32 (net_last 32 n) m)) v4_private_exceptions.
Definition network_is_global (n : network) : bool :=
  negb (network_within n v4_shared) && negb (network_is_private n).

Example parse_v4 : map parse_ipv4 ["10.0.0.1"; "255.255.255.255"; "1.2.3"; "01.2.3.4"; "1.2.3.256"]%string
  = [Some 167772161; Some 4294967295; None; None; None].
Proof. reflexivity. Qed.
Example parse_v6 : map ip_address ["::1"; "::"; "fe80::1%eth0"; "::ffff:10.0.0.1"; "1::2::3"; "2001:db8:0:0:0:0:0:1"]%string
  = [Some (IPv6 1 None); Some (IPv6 0 None); Some (IPv6 0xfe800000000000000000000000000001 (Some "eth0"%string));
     Some (IPv6 0xffff0a000001 None); None; Some (IPv6 0x20010db8000000000000000000000001 None)].
Proof. vm_compute. reflexivity. Qed.
Example parse_nets : map parse_ipv4_network ["10.0.0.0/8"; "10.0.0.1/8"; "10.0.0.0/255.0.0.0"; "1.2.3.4"; "10.0.0.0/33"]%string
  = [Some (mkNetwork 167772160 8); None; Some (mkNetwork 167772160 8); Some (mkNetwork 16909060 32); None].
Proof. vm_compute. reflexivity. Qed.

(** ** Membership depends only on the boundaries of the networks *)
Definition aligned (w : Z) (n : network) : bool :=
  (0 <=? net_prefix n) && (net_prefix n <=? w) && (net_addr n mod 2 ^ (w - net_prefix n) =? 0).

Lemma in_network_interval w a n :
  aligned w n = true ->
  in_network w a n = (net_addr n <=? a) && (a <? net_last w n + 1).
Proof.
  unfold aligned, in_network, net_last. intros H. bool_to_prop.
  set (k := w - net_prefix n) in *. assert (Hk : 0 <= k) by lia.
  rewrite !Z.shiftr_div_pow2 by lia. pose proof (Z.pow_pos_nonneg 2 k ltac:(lia) Hk) as Hp.
  set (m := 2 ^ k) in *. replace (net_addr n + m - 1 + 1) with (net_addr n + m) by lia.
  apply eq_iff_eq_true. rewrite Z.eqb_eq, andb_true_iff, Z.leb_le, Z.ltb_lt.
  pose proof (Z.div_mod a m ltac:(lia)). pose proof (Z.div_mod (net_addr n) m ltac:(lia)).
  pose proof (Z.mod_pos_bound a m Hp). split; intros; [nia|].
  symmetry. apply (Z.div_unique _ _ _ (a - net_addr n)); nia.
Qed.

Definition bound_below (bs : list Z) (a : Z) : Z :=
  fold_right (fun b m => if (b <=? a) && (m <? b) then b else m) 0 bs.

Lemma bound_below_le bs a : 0 <= a -> bound_below bs a <= a.
Proof.
  intros Ha. induction bs as [|b bs IH]; simpl; [exact Ha|].
  destruct ((b <=? a) && (bound_below bs a <? b)) eqn:E; [|exact IH]. bool_to_prop. assumption.
Qed.

Lemma bound_below_ge bs a b : In b bs -> b <= a -> b <= bound_below bs a.
Proof.
  induction bs as [|x bs IH]; simpl; [easy|]. intros [->|Hb] Hle.
  - destruct (Z.leb_spec b a); [|lia]. simpl. destruct (Z.ltb_spec (bound_below bs a) b); lia.
  - specialize (IH Hb Hle). destruct (_ && _) eqn:E; [|exact IH]. bool_to_prop. lia.
Qed.

Lemma bound_below_In bs a : In (bound_below bs a) (0 :: bs).
Proof.
  induction bs as [|x bs IH]; simpl; [now left|].
  destruct (_ && _); [auto|]. simpl in IH. tauto.
Qed.

Lemma bound_below_leb bs a b : 0 <= a -> In b bs -> (b <=? bound_below bs a) = (b <=? a).
Proof.
  intros Ha Hb. apply eq_iff_eq_true. rewrite !Z.leb_le.
  pose proof (bound_below_le bs a Ha). split; [lia|now apply bound_below_ge].
Qed.

Definition bounded_by (w : Z) (bs : list Z) (n : network) : bool :=
  aligned w n && existsb (Z.eqb (net_addr n)) bs && existsb (Z.eqb (net_last w n + 1)) bs.

Lemma existsb_Z_In b bs : existsb (Z.eqb b) bs = true -> In b bs.
Proof. rewrite existsb_exists. intros (x & Hx & He). apply Z.eqb_eq in He. now subst. Qed.

Lemma in_network_floor w bs a n :
  0 <= a -> bounded_by w bs n = true -> in_network w (bound_below bs a) n = in_network w a n.
Proof.
  intros Ha H. unfold bounded_by in H. bool_to_prop.
  rewrite !in_network_interval, !Z.ltb_antisym, !bound_below_leb by auto using existsb_Z_In. reflexivity.
Qed.

Lemma in_any_floor w bs a ns :
  0 <= a -> forallb (bounded_by w bs) ns = true -> in_any w (bound_below bs a) ns = in_any w a ns.
Proof.
  intros Ha Hns. unfold in_any. induction ns as [|n ns IH]; simpl in *; [reflexivity|].
  bool_to_prop. now rewrite in_network_floor, IH.
Qed.

Definition boundaries (w : Z) (ns : list network) : list Z :=
  flat_map (fun n => [net_addr n; net_last w n + 1]) ns.
