(* ===== verification/Urls.v ===== *)
(** * Taking URLs apart (Python's urllib.parse)

    [urlsplit] and [urlparse] as the source uses them: the checks of GitHub
    URLs (source.py, repository.py) and of loopback URLs (jupyter.py, cli.py).
    The NFKC check of a host beyond ASCII is not modelled: every client of this
    file refuses such a host in any case. *)
From S2P Require Export Ipaddress Utf8 Errors.

Record SplitResult := mkSplitResult {
  us_scheme : string;
  us_netloc : string;
  us_path : string;
  us_query : string;
  us_fragment : string }.

(** The text before the first character in [p]. *)
Fixpoint before (p : ascii -> bool) (s : string) : string :=
  match s with
  | String c s' => if p c then EmptyString else String c (before p s')
  | EmptyString => s
  end.

Definition is_char (c x : ascii) : bool := Ascii.eqb x c.
Definition scheme_char (c : ascii) : bool :=
  is_alnum c || Ascii.eqb c "+" || Ascii.eqb c "-" || Ascii.eqb c ".".

Definition split_scheme (url : string) : string * string :=
  match split_once ":" url, url with
  | Some (scheme, rest), String c _ =>
      if (is_upper c || is_lower c) && all_chars scheme_char scheme then (lower scheme, rest)
      else (EmptyString, url)
  | _, _ => (EmptyString, url)
  end.

(** [s.partition(c)] without its second part. *)
Definition partition (c : ascii) (s : string) : string * string :=
  match split_once c s with Some p => p | None => (s, EmptyString) end.

(** After the last [c]. *)
Definition after_last (c : ascii) (s : string) : string := List.last (split_on c s) EmptyString.

(** ** Hosts in brackets *)
Definition hexadecimal (c : ascii) : bool := match hex_value c with Some _ => true | None => false end.

(** [v[a-fA-F0-9]+\..+] *)
Definition is_ipvfuture (host : string) : bool :=
  match split_once "." (str_drop 1 host) with
  | Some (version, rest) =>
      negb (String.eqb version "") && all_chars hexadecimal version
      && negb (String.eqb rest "") && negb (has_char "010" rest)
  | None => false
  end.

Definition check_bracketed_host (host : string) : res unit :=
  if starts_with "v" host then raise_if (negb (is_ipvfuture host)) (ValueError "IPvFuture address is invalid")
  else match ip_address host with
       | Some (IPv6 _ _) => Ok tt
       | Some (IPv4 _) => Err (ValueError "An IPv4 address cannot be in brackets")
       | None => Err (ValueError "does not appear to be an IPv4 or IPv6 address")
       end.

(** [netloc.rpartition("@")[2]] *)
Definition host_and_port (netloc : string) : string := after_last "@" netloc.

Definition check_netloc (netloc : string) : res unit :=
  let opening := has_char "[" netloc in
  let closing := has_char "]" netloc in
  let! _ := raise_if (xorb opening closing) (ValueError "Invalid IPv6 URL") in
  if negb (opening && closing) then Ok tt
  else
    match split_once "[" (host_and_port netloc) with
    | Some (front, bracketed) =>
        let! _ := raise_if (negb (String.eqb front "")) (ValueError "Invalid IPv6 URL") in
        let '(host, port) := partition "]" bracketed in
        let! _ := raise_if (negb (String.eqb port "") && negb (starts_with ":" port)) (ValueError "Invalid IPv6 URL") in
        check_bracketed_host host
    | None => check_bracketed_host (fst (partition ":" (host_and_port netloc)))
    end.

(** ** [urlsplit] *)
Definition clean_url (url : string) : string :=
  filter_chars (fun c => negb ((ord c =? 9) || (ord c =? 10) || (ord c =? 13))) (lstrip (fun c => ord c <=? 32) url).

Definition urlsplit (url : string) : res SplitResult :=
  let '(scheme, rest) := split_scheme (clean_url url) in
  let '(netloc, rest) :=
    if starts_with "//" rest then
      let body := str_drop 2 rest in
      let netloc := before (fun c => Ascii.eqb c "/" || Ascii.eqb c "?" || Ascii.eqb c "#") body in
      (netloc, str_drop (String.length netloc) body)
    else (EmptyString, rest) in
  let! _ := check_netloc netloc in
  let '(rest, fragment) := partition "#" rest in
  let '(path, query) := partition "?" rest in
  Ok (mkSplitResult scheme netloc path query fragment).

(** ** The attributes of the result *)
Definition userinfo (u : SplitResult) : option string :=
  if has_char "@" (us_netloc u)
  then Some (str_take (String.length (us_netloc u) - String.length (host_and_port (us_netloc u)) - 1) (us_netloc u))
  else None.

Definition username (u : SplitResult) : option string :=
  option_map (fun info => fst (partition ":" info)) (userinfo u).

Definition password (u : SplitResult) : option string :=
  match userinfo u with
  | Some info => option_map snd (split_once ":" info)
  | None => None
  end.

(** [_hostinfo]: the host and the text of the port. *)
Definition hostinfo (u : SplitResult) : string * string :=
  let info := host_and_port (us_netloc u) in
  match split_once "[" info with
  | Some (_, bracketed) => let '(host, port) := partition "]" bracketed in (host, snd (partition ":" port))
  | None => partition ":" info
  end.

(** The zone of an address keeps its case. *)
Definition hostname (u : SplitResult) : option string :=
  let host := fst (hostinfo u) in
  if String.eqb host "" then None
  else match split_once "%" host with
       | Some (name, zone) => Some (lower name ++ "%" ++ zone)%string
       | None => Some (lower host)
       end.

Definition port (u : SplitResult) : res (option Z) :=
  let text := snd (hostinfo u) in
  if String.eqb text "" then Ok None
  else if negb (all_chars is_digit text) then Err (ValueError "Port could not be cast to integer value")
  else match read_decimal text with
       | Some n => if n <=? 65535 then Ok (Some n) else Err (ValueError "Port out of range 0-65535")
       | None => Err (ValueError "Port could not be cast to integer value")
       end.

(** ** [urlparse]: the parameters after a semicolon in the last segment are cut
    off the path *)
Definition without_params (path : string) : string :=
  let segments := split_on "/" path in
  str_join "/" (removelast segments ++ [before (is_char ";") (List.last segments EmptyString)]).

Definition urlparse (url : string) : res SplitResult :=
  let! u := urlsplit url in
  let path := if has_char ";" (us_path u) then without_params (us_path u) else us_path u in
  Ok (mkSplitResult (us_scheme u) (us_netloc u) path (us_query u) (us_fragment u)).

(** ** [quote], with the characters that stay *)
Definition unreserved (c : ascii) : bool :=
  is_alnum c || Ascii.eqb c "_" || Ascii.eqb c "." || Ascii.eqb c "-" || Ascii.eqb c "~".
Definition path_safe (c : ascii) : bool := unreserved c || Ascii.eqb c "/".
Definition upper_hex (d : Z) : ascii := byte (if d <? 10 then 48 + d else 55 + d).

Fixpoint quote (safe : ascii -> bool) (s : string) : string :=
  match s with
  | EmptyString => EmptyString
  | String c s' =>
      if safe c then String c (quote safe s')
      else String "%" (String (upper_hex (ord c / 16)) (String (upper_hex (ord c mod 16)) (quote safe s')))
  end.

Example urlsplit_ex :
  let parts url := match urlsplit url with
                   | Ok u => Some (us_scheme u, hostname u, username u, password u, us_path u, us_query u, us_fragment u)
                   | Err _ => None
                   end in
  parts " HTTPS://me:pw@x@GitHub.com:443/o/r.git?q#f#g"%string
    = Some ("https", Some "github.com", Some "me", Some "pw@x", "/o/r.git", "q", "f#g")%string
  /\ parts "http://[::1%Eth0]:8888/lab"%string = Some ("http", Some "::1%Eth0", None, None, "/lab", "", "")%string
  /\ parts "http://[127.0.0.1]/"%string = None /\ parts "http://[::1/"%string = None
  /\ parts "http://[::1]x/"%string = None
  /\ parts "github.com/x"%string = Some ("", None, None, None, "github.com/x", "", "")%string.
Proof. vm_compute. auto 7. Qed.
