(* ===== verification/Models.v ===== *)
(** * Data model (src/notebook_launcher/models.py)

    The enumerations with the string values of the [StrEnum]s, and the
    pydantic models that carry validators.  A UUID is its canonical text, the
    form in which the state database stores it. *)
From S2P Require Export Errors IsoTime.

Definition uuid := string.

(** [datetime + timedelta(microseconds=us)] on aware UTC datetimes. *)
Definition dt_add (t us : Z) : res Z :=
  if (datetime_min <=? t + us) && (t + us <=? datetime_max) then Ok (t + us)
  else Err OverflowError.
Definition dt_sub (t us : Z) : res Z := dt_add t (- us).
Definition seconds (n : Z) : Z := n * 1000000.

Lemma dt_add_range t us u : dt_add t us = Ok u -> u = t + us /\ in_datetime_range u.
Proof.
  unfold dt_add, in_datetime_range. destruct (_ && _) eqn:E; [|discriminate].
  intros [= <-]. bool_to_prop. lia.
Qed.

(** Python's truth value of an optional string. *)
Definition truthy (o : option string) : bool :=
  match o with
  | Some s => negb (String.eqb s "")
  | None => false
  end.

Inductive GPU := GPU_AUTO | GPU_ON | GPU_OFF.
Inductive AgentMode := AgentMode_WRITE | AgentMode_READONLY.
Inductive TrustScope := EXACT_COMMIT | REPOSITORY.
Inductive DestinationScope := Scope_WORKSPACE | Scope_USER_DATA.
Inductive ExecutionState :=
| QUEUED | DISPATCHED | RUNNING | CANCEL_PENDING | CANCELLING
| COMPLETED | FAILED | TIMEOUT | CANCELLED.

#[export] Instance GPU_eq_dec : EqDecision GPU. Proof. solve_decision. Defined.
#[export] Instance AgentMode_eq_dec : EqDecision AgentMode. Proof. solve_decision. Defined.
#[export] Instance TrustScope_eq_dec : EqDecision TrustScope. Proof. solve_decision. Defined.
#[export] Instance DestinationScope_eq_dec : EqDecision DestinationScope.
Proof. solve_decision. Defined.
#[export] Instance ExecutionState_eq_dec : EqDecision ExecutionState.
Proof. solve_decision. Defined.

(** ** The values of the enumerations *)
Definition GPU_value (g : GPU) : string :=
  match g with GPU_AUTO => "auto" | GPU_ON => "on" | GPU_OFF => "off" end.
Definition AgentMode_value (m : AgentMode) : string :=
  match m with AgentMode_WRITE => "write" | AgentMode_READONLY => "readonly" end.
Definition TrustScope_value (s : TrustScope) : string :=
  match s with EXACT_COMMIT => "exact_commit" | REPOSITORY => "repository" end.
Definition DestinationScope_value (s : DestinationScope) : string :=
  match s with Scope_WORKSPACE => "workspace" | Scope_USER_DATA => "user_data" end.

(** [GPU(text)] and the like: the inverse, raising [ValueError]. *)
Definition GPU_of (s : string) : res GPU :=
  if String.eqb s "auto" then Ok GPU_AUTO
  else if String.eqb s "on" then Ok GPU_ON
  else if String.eqb s "off" then Ok GPU_OFF
  else Err (ValueError "is not a valid GPU").
Definition AgentMode_of (s : string) : res AgentMode :=
  if String.eqb s "write" then Ok AgentMode_WRITE
  else if String.eqb s "readonly" then Ok AgentMode_READONLY
  else Err (ValueError "is not a valid AgentMode").
Definition TrustScope_of (s : string) : res TrustScope :=
  if String.eqb s "exact_commit" then Ok EXACT_COMMIT
  else if String.eqb s "repository" then Ok REPOSITORY
  else Err (ValueError "is not a valid TrustScope").

Lemma GPU_of_value g : GPU_of (GPU_value g) = Ok g.
Proof. now destruct g. Qed.
Lemma AgentMode_of_value m : AgentMode_of (AgentMode_value m) = Ok m.
Proof. now destruct m. Qed.
Lemma TrustScope_of_value s : TrustScope_of (TrustScope_value s) = Ok s.
Proof. now destruct s. Qed.

(** ** [LaunchRequest] *)
Record LaunchRequest := mkLaunchRequest {
  rq_url : option string;
  rq_repo : option string;
  rq_ref : option string;
  rq_path : option string;
  rq_workspace_id : option uuid;
  rq_gpu : GPU;
  rq_agent_mode : AgentMode
}.

(** The [model_validator]: which combinations of fields are a request. *)
Definition validate_source (r : LaunchRequest) : res LaunchRequest :=
  let remote := truthy (rq_url r) || truthy (rq_repo r)
                || truthy (rq_ref r) || truthy (rq_path r) in
  let! _ := raise_if (is_some (rq_workspace_id r) && remote)
    (ValueError "workspace_id is mutually exclusive with remote-source fields") in
  let! _ := raise_if (negb (is_some (rq_workspace_id r))
                      && negb (truthy (rq_url r) || truthy (rq_repo r)))
    (ValueError "remote source or workspace_id is required") in
  let! _ := raise_if (truthy (rq_repo r) && negb (truthy (rq_ref r) && truthy (rq_path r)))
    (ValueError "repo launches require ref and path") in
  Ok r.

(** ** [ResolvedSource] *)
Record ResolvedSource := mkResolvedSource {
  rs_repository_id : Z;
  rs_repository_node_id : option string;
  rs_owner : string;
  rs_repository : string;
  rs_requested_ref : string;
  rs_commit_sha : string;
  rs_notebook_path : string;
  rs_clone_url : string
}.

(** [Field(min_length=40, max_length=40)] on [commit_sha]. *)
Definition validate_resolved (s : ResolvedSource) : res ResolvedSource :=
  let! _ := raise_if (negb (Nat.eqb (String.length (rs_commit_sha s)) 40))
    (ValueError "commit_sha must have 40 characters") in
  Ok s.

(** ** [TrustRecord] *)
Record TrustRecord := mkTrustRecord {
  tr_id : uuid;
  tr_repository_id : Z;
  tr_repository_node_id : option string;
  tr_grant_owner : string;
  tr_grant_repository : string;
  tr_scope : TrustScope;
  tr_commit_sha : option string;
  tr_created_at : string;
  tr_revoked_at : option string
}.

Definition validate_commit_scope (t : TrustRecord) : res TrustRecord :=
  let! _ := raise_if (bool_decide (tr_scope t = EXACT_COMMIT) && negb (truthy (tr_commit_sha t)))
    (ValueError "exact_commit trust requires commit_sha") in
  let! _ := raise_if (bool_decide (tr_scope t = REPOSITORY) && is_some (tr_commit_sha t))
    (ValueError "repository trust must not include commit_sha") in
  Ok t.
