(* ===== verification/LaunchAuth.v ===== *)
(** * Launch tokens (src/notebook_launcher/launch_auth.py)

    [LaunchTokenCodec]: a token is the base64 of a JSON payload, a dot and the
    base64 of the payload's HMAC-SHA-256.  The clock reading and the random
    [jti] are arguments. *)
From S2P Require Export Crypto Json Models.

Record LaunchTokenClaims := mkClaims {
  cl_jti : string;
  cl_request_digest : string;
  cl_issued_at : Z;
  cl_expires_at : Z }.

Record LaunchTokenCodec := mkCodec { secret : list Z; ttl_seconds : Z }.

Definition LaunchTokenCodec_init (key : list Z) (ttl : Z) : res LaunchTokenCodec :=
  let! _ := raise_if (Nat.ltb (List.length key) 32)
    (ValueError "launch token secret must be at least 32 bytes") in
  Ok (mkCodec key ttl).

(** [int(t.timestamp())] *)
Definition timestamp (t : Z) : Z := Z.quot t 1000000.

Definition sign (c : LaunchTokenCodec) (body : list Z) : string := b64 (hmac_sha256 (secret c) body).

Definition hash_jti (jti : string) : string := sha256_hex (str_encode jti).

Definition token_payload (jti digest : string) (issued expires : Z) : json :=
  JObj [("jti", JStr jti); ("request_digest", JStr digest);
        ("iat", JInt (timestamp issued)); ("exp", JInt (timestamp expires))]%string.

Definition issue (c : LaunchTokenCodec) (jti digest : string) (now : Z) : res (string * Z) :=
  let! expires := dt_add now (seconds (ttl_seconds c)) in
  let payload := token_payload jti digest now expires in
  let body := b64 (str_encode (dumps_ascii (sort_keys payload))) in
  Ok ((body ++ "." ++ sign c (str_encode body))%string, expires).

(** How Python converts the values that a payload of this codec never holds:
    [str] of a container, [int] of a text or a float, and [json.loads] of bytes
    that are not ASCII text. *)
Class PyConversions := {
  str_of_container : json -> string;
  int_of_text : string -> res Z;
  int_of_float : string -> res Z;
  loads_encoded : list Z -> res json }.

Section Decode.
Context `{PyFloat} `{PyConversions}.

(** [str(value)] and [int(value)] *)
Definition py_str (v : json) : string :=
  match v with
  | JNull => "None"
  | JBool true => "True"
  | JBool false => "False"
  | JInt z => str_of_int z
  | JFloat t => t
  | JStr s => s
  | JList _ | JObj _ => str_of_container v
  end.

Definition py_int (v : json) : res Z :=
  match v with
  | JInt z => Ok z
  | JBool b => Ok (Z.b2z b)
  | JFloat t => int_of_float t
  | JStr s => int_of_text s
  | JNull | JList _ | JObj _ => Err (TypeError "int() argument must be a string or a real number")
  end.

(** [payload[key]] *)
Definition py_item (key : string) (v : json) : res json :=
  match v with
  | JObj fields => match obj_get key fields with Some x => Ok x | None => Err (KeyError key) end
  | _ => Err (TypeError "indices must be integers")
  end.

Definition is_plain_byte (b : Z) : bool := (1 <=? b) && (b <? 128).
Definition loads_bytes (bs : list Z) : res json :=
  if forallb is_plain_byte bs then loads (decode_ascii bs) else loads_encoded bs.

(** The exceptions that make a token invalid. *)
Definition malformed (e : exn) : bool :=
  match e with KeyError _ | TypeError _ => true | _ => is_ValueError e end.

Definition read_payload (body : string) : res LaunchTokenClaims :=
  let! bs := unb64 body in
  let! payload := loads_bytes bs in
  let! jti := py_item "jti" payload in
  let! digest := py_item "request_digest" payload in
  let! iat := rbind (py_item "iat" payload) py_int in
  let! ex := rbind (py_item "exp" payload) py_int in
  Ok (mkClaims (py_str jti) (py_str digest) iat ex).

(** [hmac.compare_digest] of two strings takes ASCII only. *)
Definition compare_digest (a b : string) : res bool :=
  if all_chars (fun c => ord c <? 128) a && all_chars (fun c => ord c <? 128) b
  then Ok (String.eqb a b)
  else Err (TypeError "comparing strings with non-ASCII characters is not supported").

Definition decode (c : LaunchTokenCodec) (token : string) (now : Z) : res LaunchTokenClaims :=
  match split_once "." token with
  | None => raiseL InvalidLaunchToken
  | Some (body, supplied) =>
      let! same := compare_digest supplied (sign c (str_encode body)) in
      let! _ := raise_if (negb same) (LauncherExn InvalidLaunchToken) in
      let! claims := match read_payload body with
                     | Err e => if malformed e then raiseL InvalidLaunchToken else Err e
                     | ok => ok
                     end in
      let! _ := raise_if (cl_expires_at claims <? timestamp now) (LauncherExn LaunchTokenExpired) in
      Ok claims
  end.
End Decode.

(** [request_digest]: over a dict of JSON values. *)
Definition request_digest (normalized : json) : string :=
  sha256_hex (str_encode (dumps_ascii (sort_keys normalized))).

#[export] Instance no_conversions : PyConversions | 10 := {|
  str_of_container _ := "";
  int_of_text _ := Err (ValueError "invalid literal for int()");
  int_of_float _ := Err (ValueError "cannot convert float to integer");
  loads_encoded _ := Err (ValueError "not UTF-8") |}.

Definition sample_codec : LaunchTokenCodec := mkCodec (repeat 7 32) 300.

Example issue_decode_ex :
  match issue sample_codec "nonce-1" "digest-1" (seconds 1000) with
  | Ok (token, _) =>
      decode sample_codec token (seconds 1300) = Ok (mkClaims "nonce-1" "digest-1" 1000 1300)
      /\ decode sample_codec token (seconds 1301) = raiseL LaunchTokenExpired
      /\ decode sample_codec (token ++ "A") (seconds 1300) = raiseL InvalidLaunchToken
  | Err _ => False
  end.
Proof. vm_compute. auto. Qed.

(** ** Lemmas *)

(** Text that the launcher puts in a payload: printable ASCII. *)
Definition printable (c : ascii) : bool := (32 <=? ord c) && (ord c <? 127).

Lemma escape_ascii_printable s : all_chars printable s = true -> escape_ascii 0 0 s = escape s.
Proof.
  induction s as [|c s IH]; [reflexivity|]. cbn [all_chars escape_ascii escape]. unfold printable at 1.
  intros H. bool_to_prop. rewrite (proj2 (Z.ltb_lt _ _) H1), IH by assumption. reflexivity.
Qed.

Lemma escape_printable s : all_chars printable s = true -> all_chars printable (escape s) = true.
Proof.
  induction s as [|c s IH]; [reflexivity|]. cbn [all_chars escape]. intros H. bool_to_prop.
  assert (He : match short_escape c with Some e => all_chars printable e | None => true end = true)
    by (clear -H; by_chars c).
  destruct (short_escape c) as [e|].
  - rewrite all_chars_append, He. now apply IH.
  - cbn [all_chars]. rewrite H. now apply IH.
Qed.

Lemma str_of_int_printable z : all_chars printable (str_of_int z) = true.
Proof. apply str_of_int_chars; [reflexivity|]. intros c Hc. by_chars c. Qed.

Lemma decimal_digits_length k n : (String.length (decimal_digits k n "") <= k)%nat.
Proof.
  revert n. induction k as [|k IH]; intros n; [simpl; lia|]. cbn [decimal_digits].
  destruct (n <? 10); [simpl; lia|]. rewrite decimal_digits_acc, length_append.
  specialize (IH (n / 10)). simpl. lia.
Qed.

Lemma str_of_int_length z : (String.length (str_of_int z) <= 2 + Z.to_nat (Z.log2 (Z.abs z)))%nat.
Proof.
  unfold str_of_int. destruct (z <? 0) eqn:E; bool_to_prop.
  - change (String.length (String "-" ?s)) with (S (String.length s)). rewrite Z.abs_neq by lia.
    pose proof (decimal_digits_length (S (Z.to_nat (Z.log2 (- z)))) (- z)). cbn [String.length]. lia.
  - rewrite Z.abs_eq by lia. pose proof (decimal_digits_length (S (Z.to_nat (Z.log2 z))) z). lia.
Qed.

(** Timestamps of datetimes are short enough for [int]. *)
Lemma timestamp_digits t : in_datetime_range t ->
  Nat.leb (String.length (str_of_int (timestamp t))) max_str_digits = true.
Proof.
  unfold in_datetime_range, datetime_min, datetime_max, timestamp. intros Ht.
  apply Nat.leb_le. etrans; [apply str_of_int_length|].
  assert (Hb : Z.abs (Z.quot t 1000000) < 2 ^ 40).
  { pose proof (Z.quot_abs t 1000000 ltac:(lia)) as Hq. rewrite <- Hq.
    apply Z.quot_lt_upper_bound; lia. }
  assert (Z.log2 (Z.abs (Z.quot t 1000000)) < 40).
  { destruct (Z.eq_dec (Z.abs (Z.quot t 1000000)) 0) as [->|Hne]; [reflexivity|].
    apply Z.log2_lt_pow2; lia. }
  unfold max_str_digits. lia.
Qed.

Section Roundtrip.
Context `{PyFloat} `{PyConversions}.

Lemma sorted_payload jti digest i e :
  sort_keys (token_payload jti digest i e)
  = JObj [("exp", JInt (timestamp e)); ("iat", JInt (timestamp i));
          ("jti", JStr jti); ("request_digest", JStr digest)]%string.
Proof. reflexivity. Qed.

Lemma payload_text jti digest i e :
  all_chars printable jti = true -> all_chars printable digest = true ->
  dumps_ascii (sort_keys (token_payload jti digest i e)) = dumps (sort_keys (token_payload jti digest i e))
  /\ all_chars printable (dumps (sort_keys (token_payload jti digest i e))) = true.
Proof.
  intros Hj Hd. rewrite sorted_payload. split.
  - unfold dumps_ascii, dumps. cbn [dumps_with map fst snd]. unfold dump_str.
    now rewrite (escape_ascii_printable jti Hj), (escape_ascii_printable digest Hd).
  - unfold dumps. cbn [dumps_with map fst snd str_join]. unfold dump_str, quoted.
    repeat first
      [ rewrite all_chars_append | rewrite str_of_int_printable
      | rewrite (escape_printable jti Hj) | rewrite (escape_printable digest Hd)
      | progress cbn [all_chars] ].
    reflexivity.
Qed.

Lemma plain_bytes s : all_chars printable s = true -> forallb is_plain_byte (str_encode s) = true.
Proof.
  intros Hs. apply forallb_forall. intros b Hb. unfold str_encode in Hb.
  apply in_map_iff in Hb as (c & <- & Hc). revert Hc. induction s as [|x s IH]; [easy|].
  cbn [all_chars] in Hs. apply andb_true_iff in Hs as [Hx Hs]. intros [->|Hc]; [|now apply IH].
  unfold printable, ord in Hx. unfold is_plain_byte. bool_to_prop. rewrite andb_true_iff, Z.leb_le, Z.ltb_lt. lia.
Qed.

(** The payload of an issued token is read back. *)
Lemma read_issued_payload jti digest i e :
  all_chars printable jti = true -> all_chars printable digest = true ->
  in_datetime_range i -> in_datetime_range e ->
  read_payload (b64 (str_encode (dumps_ascii (sort_keys (token_payload jti digest i e)))))
  = Ok (mkClaims jti digest (timestamp i) (timestamp e)).
Proof.
  intros Hj Hd Hi He. destruct (payload_text jti digest i e Hj Hd) as [Htext Hplain].
  unfold read_payload. rewrite unb64_b64 by apply is_bytes_str_encode. cbn [rbind]. unfold loads_bytes.
  rewrite Htext, plain_bytes, decode_str_encode, sorted_payload by exact Hplain.
  rewrite loads_dumps; [reflexivity|].
  unfold wf_json. cbn [wf_text forallb map fst snd distinct andb]. now rewrite !timestamp_digits.
Qed.

End Roundtrip.

Definition sample_token : string := Eval vm_compute in
  match issue sample_codec "nonce-1" "digest-1" (seconds 1000) with
  | Ok (t, _) => t
  | Err _ => ""%string
  end.

Lemma sample_token_issued :
  issue sample_codec "nonce-1" "digest-1" (seconds 1000) = Ok (sample_token, seconds 1300).
Proof. vm_compute. reflexivity. Qed.

Lemma sample_time_ok : in_datetime_range (seconds 1000).
Proof. split; apply Z.leb_le; vm_compute; reflexivity. Qed.

