(* ===== verification/Web.v ===== *)
(** * Text in web pages and local requests (src/notebook_launcher/app.py)

    [html.escape], [_safe_script_json] and the two checks of a local request,
    with what they guarantee of the pages: the text put into one cannot leave
    the element it is put in, and it still means the same there. *)
From S2P Require Export JsonText Ipaddress Models.

(** ** Replacing one character by a text *)

(** [s.replace(c, r)] for a single character [c] *)
Fixpoint replace_with (c : ascii) (r : string) (s : string) : string :=
  match s with
  | EmptyString => EmptyString
  | String x s' => if Ascii.eqb x c then (r ++ replace_with c r s')%string else String x (replace_with c r s')
  end.

(** [html.escape(s)] *)
Definition html_escape (s : string) : string :=
  replace_with "'" "&#x27;" (replace_with quote_char "&quot;" (replace_with ">" "&gt;"
    (replace_with "<" "&lt;" (replace_with "&" "&amp;" s)))).

(** The three replacements of [_safe_script_json]. *)
Definition script_escape (s : string) : string :=
  replace_with "&" "\u0026" (replace_with ">" "\u003e" (replace_with "<" "\u003c" s)).

Definition safe_script_json (v : json) : string := script_escape (dumps_ascii v).

(** ** Local requests *)
Definition is_loopback_host (host : option string) : bool :=
  match host with
  | None => false
  | Some h => if String.eqb h "localhost" then true
              else match ip_address h with Some a => is_loopback a | None => false end
  end.

(** What the check reads of a request: the address of the client and the
    [Origin] header. *)
Record HttpClient := mkHttpClient {
  hc_host : option string;
  hc_origin : option string }.

Record WebSettings := mkWebSettings {
  ws_host : string;
  ws_port : Z;
  ws_trust_challenge_ttl_seconds : Z }.

Definition allowed_origins (s : WebSettings) : list string :=
  [("http://" ++ ws_host s ++ ":" ++ str_of_int (ws_port s)); ("http://localhost:" ++ str_of_int (ws_port s))]%string.

(** Whether the request is local; [_check_local_request] raises 400 otherwise. *)
Definition local_client (c : HttpClient) : bool :=
  is_loopback_host (hc_host c) || match hc_host c with Some h => String.eqb h "testclient" | None => false end.
Definition local_origin (s : WebSettings) (c : HttpClient) : bool :=
  match hc_origin c with None => true | Some o => str_mem o (allowed_origins s) end.

Example local_ex :
  map (fun h => is_loopback_host (Some h)) ["localhost"; "127.8.0.1"; "::1"; "::ffff:127.0.0.1"; "10.0.0.1"; "127.1"; "evil"]%string
  = [true; true; true; true; false; false; false]
  /\ map (fun o => local_origin (mkWebSettings "127.0.0.1" 8080 600) (mkHttpClient None o))
       [None; Some "http://127.0.0.1:8080"; Some "http://localhost:8080"; Some "http://localhost:80801"; Some "null"]%string
     = [true; true; true; false; false].
Proof. vm_compute. split; reflexivity. Qed.

Example html_escape_ex : html_escape "<a href='x'>&amp;" = "&lt;a href=&#x27;x&#x27;&gt;&amp;amp;"%string.
Proof. reflexivity. Qed.

(** ** Lemmas on the replacements *)
Lemma replace_with_append c r a b : replace_with c r (a ++ b) = (replace_with c r a ++ replace_with c r b)%string.
Proof.
  induction a as [|x a IH]; [reflexivity|].
  change ((String x a ++ b)%string) with (String x (a ++ b)%string). cbn [replace_with].
  destruct (Ascii.eqb x c); rewrite IH; [now rewrite string_app_assoc|reflexivity].
Qed.

Lemma replace_with_absent c r s : all_chars (fun x => negb (Ascii.eqb x c)) s = true -> replace_with c r s = s.
Proof. induction s as [|x s IH]; [reflexivity|]. cbn [all_chars replace_with]. intros H. bool_to_prop. now rewrite H, IH. Qed.

(** After the replacement the character is gone, and others do not come. *)
Lemma replace_with_chars (p q : ascii -> bool) c r s :
  (forall x, p x = true -> Ascii.eqb x c = false -> q x = true) -> all_chars q r = true ->
  all_chars p s = true -> all_chars q (replace_with c r s) = true.
Proof.
  intros Hpq Hr. induction s as [|x s IH]; [reflexivity|]. cbn [all_chars replace_with]. intros H. bool_to_prop.
  destruct (Ascii.eqb x c) eqn:E; [rewrite all_chars_append, Hr; now apply IH|]. cbn [all_chars].
  rewrite Hpq by assumption. now apply IH.
Qed.

Lemma script_escape_append a b : script_escape (a ++ b) = (script_escape a ++ script_escape b)%string.
Proof. unfold script_escape. now rewrite !replace_with_append. Qed.

(** What ends a script element or starts an entity. *)
Definition markup (c : ascii) : bool := Ascii.eqb c "<" || Ascii.eqb c ">" || Ascii.eqb c "&".

Lemma script_escape_absent s : all_chars (fun x => negb (markup x)) s = true -> script_escape s = s.
Proof.
  intros H. assert (Hc : forall c, markup c = true -> all_chars (fun x => negb (Ascii.eqb x c)) s = true).
  { intros c Hc. revert H. apply all_chars_imp. intros x Hx. destruct (Ascii.eqb x c) eqn:E; [|reflexivity].
    apply Ascii.eqb_eq in E as ->. now rewrite Hc in Hx. }
  unfold script_escape. now rewrite !(replace_with_absent _ _ s) by (apply Hc; reflexivity).
Qed.

Lemma script_escape_clean s : all_chars (fun x => negb (markup x)) (script_escape s) = true.
Proof.
  unfold script_escape.
  apply (replace_with_chars (fun x => negb (Ascii.eqb x "<" || Ascii.eqb x ">")));
    [intros x Hx Hn; unfold markup; now rewrite Hn, orb_false_r|reflexivity|].
  apply (replace_with_chars (fun x => negb (Ascii.eqb x "<")));
    [intros x Hx Hn; now rewrite Hn, orb_false_r|reflexivity|].
  apply (replace_with_chars (fun _ => true)); [intros x _ Hn; now rewrite Hn|reflexivity|].
  induction s as [|x s IH]; [reflexivity|exact IH].
Qed.

(** The escapes of JSON contain no markup. *)
Lemma u_escape_chars (p : ascii -> bool) n :
  all_chars p "\u0123456789abcdef" = true -> all_chars p (u_escape n) = true.
Proof.
  intros Hp. assert (Hh : forall d, 0 <= d < 16 -> p (hex_of d) = true).
  { cbn [all_chars] in Hp. bool_to_prop.
    intros d Hd. assert (Hc : d = 0 \/ d = 1 \/ d = 2 \/ d = 3 \/ d = 4 \/ d = 5 \/ d = 6 \/ d = 7 \/ d = 8 \/ d = 9
      \/ d = 10 \/ d = 11 \/ d = 12 \/ d = 13 \/ d = 14 \/ d = 15) by lia.
    repeat (destruct Hc as [->|Hc]; [assumption|]). now subst. }
  assert (Hm : forall x, 0 <= Z.land x 15 < 16).
  { intros x. change 15 with (Z.ones 4). rewrite Z.land_ones by lia. apply Z.mod_pos_bound. lia. }
  unfold u_escape. cbn [all_chars] in *. bool_to_prop. rewrite !Hh by apply Hm.
  repeat match goal with H : p _ = true |- _ => rewrite H end. reflexivity.
Qed.

Lemma script_escape_u n : script_escape (u_escape n) = u_escape n.
Proof. apply script_escape_absent, u_escape_chars. reflexivity. Qed.

Lemma script_escape_piece c t : ord c < 127 ->
  scan_string (script_escape (ascii_piece c) ++ t) = prepend (String c "") (scan_string t).
Proof.
  intros Hc. destruct (markup c) eqn:Em.
  - assert (Hcase : c = "<"%char \/ c = ">"%char \/ c = "&"%char).
    { unfold markup in Em. rewrite !orb_true_iff, !Ascii.eqb_eq in Em. tauto. }
    destruct Hcase as [->|[->| ->]].
    + exact (scan_u_escape 60 t ltac:(lia) eq_refl).
    + exact (scan_u_escape 62 t ltac:(lia) eq_refl).
    + exact (scan_u_escape 38 t ltac:(lia) eq_refl).
  - rewrite script_escape_absent; [apply scan_piece|]. clear -Em.
    destruct c as [[] [] [] [] [] [] [] []]; first [discriminate Em|reflexivity].
Qed.

(** ** A value in a script *)

(** Values without floats, as the pages have them. *)
Fixpoint no_float (v : json) : bool :=
  match v with
  | JFloat _ => false
  | JList l => forallb no_float l
  | JObj fields => forallb (fun f => no_float (snd f)) fields
  | _ => true
  end.

Lemma script_escape_join l :
  script_escape (str_join "," l) = str_join "," (map script_escape l).
Proof.
  induction l as [|a [|b l] IH]; [reflexivity|reflexivity|].
  change (str_join "," (a :: b :: l)) with (a ++ "," ++ str_join "," (b :: l))%string.
  rewrite !script_escape_append, IH. reflexivity.
Qed.

Definition script_string (s : string) : string := script_escape (escape_ascii 0 0 s).

Lemma script_escape_quoted s : script_escape (quoted s) = quoted (script_escape s).
Proof.
  unfold quoted. change (String quote_char (s ++ String quote_char ""))
    with (String quote_char "" ++ s ++ String quote_char "")%string.
  rewrite !script_escape_append. reflexivity.
Qed.

Lemma safe_script_json_esc v : no_float v = true -> safe_script_json v = dumps_esc script_string v.
Proof.
  unfold safe_script_json, dumps_ascii. rewrite dumps_with_esc.
  induction v as [| [] |z|t|s|l IH|fields IH] using json_rect_prop; cbn [no_float dumps_esc]; intros Hv; try reflexivity.
  - apply script_escape_absent, str_of_int_chars; [reflexivity|].
    intros c Hc. clear -Hc. destruct c as [[] [] [] [] [] [] [] []]; first [discriminate Hc|reflexivity].
  - discriminate.
  - apply script_escape_quoted.
  - rewrite !script_escape_append, script_escape_join, map_map. do 3 f_equal. apply map_ext_in. intros x Hx.
    rewrite Forall_forall in IH. rewrite forallb_forall in Hv. apply IH; [now apply list_elem_of_In|auto].
  - rewrite !script_escape_append, script_escape_join, map_map. do 3 f_equal. apply map_ext_in. intros x Hx.
    rewrite Forall_forall in IH. rewrite forallb_forall in Hv. rewrite !script_escape_append, script_escape_quoted.
    rewrite IH; [reflexivity|now apply list_elem_of_In|auto].
Qed.

(** JSON in a script element is inert and exact.  Whatever text in UTF-8
    the value contains, what [_safe_script_json] writes has no [<], [>] or [&],
    so it can neither close the script element nor start a comment or an
    entity; and reading it as JSON gives the very value back. *)
Theorem script_json_inert `{PyFloat} v :
  wf_text utf8_text v = true -> no_float v = true ->
  all_chars (fun c => negb (markup c)) (safe_script_json v) = true
  /\ loads (safe_script_json v) = Ok v.
Proof.
  intros Hv Hf. split; [apply script_escape_clean|]. rewrite safe_script_json_esc by exact Hf.
  apply (loads_dumps_esc script_string utf8_text); [|exact Hv]. intros s rest Hs.
  apply (scan_escaped script_escape script_escape_append script_escape_u script_escape_piece), Hs.
Qed.

Definition hostile_value : json :=
  JObj [("url", JStr ("https://x/</script><script>" ++ utf8_char 0x20AC ++ utf8_char 0x1F600 ++ "&")); ("n", JInt 3)]%string.

Lemma script_json_inert_witness :
  all_chars (fun c => negb (markup c)) (safe_script_json hostile_value) = true
  /\ loads (safe_script_json hostile_value) = Ok hostile_value.
Proof. apply script_json_inert; vm_compute; reflexivity. Defined.

(** ** Text in HTML *)

(** How a browser reads the five character references of [html.escape]. *)
Definition entities : list (string * ascii) :=
  [("&amp;", "&"%char); ("&lt;", "<"%char); ("&gt;", ">"%char); ("&quot;", quote_char); ("&#x27;", "'"%char)]%string.

Definition entity_of (c : ascii) : option string :=
  option_map fst (List.find (fun e => Ascii.eqb (snd e) c) entities).

Definition html_piece (c : ascii) : string := match entity_of c with Some e => e | None => String c "" end.

(** The text that a fragment denotes; [skip] counts the rest of a reference. *)
Fixpoint html_text (skip : nat) (s : string) : string :=
  match s with
  | EmptyString => EmptyString
  | String c s' =>
      match skip with
      | S k => html_text k s'
      | O => match List.find (fun e => starts_with (fst e) s) entities with
             | Some (e, x) => String x (html_text (String.length e - 1) s')
             | None => String c (html_text 0 s')
             end
      end
  end.

Lemma html_escape_append a b : html_escape (a ++ b) = (html_escape a ++ html_escape b)%string.
Proof. unfold html_escape. now rewrite !replace_with_append. Qed.

Lemma html_escape_char c : html_escape (String c "") = html_piece c.
Proof. destruct c as [[] [] [] [] [] [] [] []]; reflexivity. Qed.

Lemma html_text_piece c t : html_text 0 (html_piece c ++ t) = String c (html_text 0 t).
Proof. destruct c as [[] [] [] [] [] [] [] []]; reflexivity. Qed.

Lemma html_escape_cons c s : html_escape (String c s) = (html_piece c ++ html_escape s)%string.
Proof. change (String c s) with (String c "" ++ s)%string. now rewrite html_escape_append, html_escape_char. Qed.

(** Text in HTML is inert and exact.  Whatever the text, what [html.escape]
    writes has no angle bracket and no quote, so it opens no element and ends
    no attribute; and the browser shows the very text. *)
Theorem html_escape_inert s :
  all_chars (fun c => negb (Ascii.eqb c "<" || Ascii.eqb c ">" || Ascii.eqb c quote_char || Ascii.eqb c "'")) (html_escape s) = true
  /\ html_text 0 (html_escape s) = s.
Proof.
  induction s as [|c s [IH1 IH2]]; [split; reflexivity|]. rewrite html_escape_cons. split.
  - rewrite all_chars_append, IH1, andb_true_r. destruct c as [[] [] [] [] [] [] [] []]; reflexivity.
  - now rewrite html_text_piece, IH2.
Qed.
