(* ===== verification/Bounded.v ===== *)
(** * Bounded responses (the output part of src/notebook_launcher/mcp.py)

    [bound_output], the previews of structured values and the JSON-RPC
    responses that are shrunk by bisection until they fit the output limit. *)
From S2P Require Export Crypto Json Models.

(** What a backend or the adapter hands over: bytes, or a JSON value. *)
Inductive value := VBytes (bs : string) | VJson (j : json).

Record OutputEnvelope := mkEnvelope {
  ev_mime_type : option string;
  ev_serialized_size : option Z;
  ev_payload : value;
  ev_truncated : bool;
  ev_authoritative_location : option string }.

(** [len(json.dumps(v, ensure_ascii=False, ...).encode("utf-8"))] *)
Definition size (v : json) : Z := Z.of_nat (String.length (dumps v)).

(** ** The bisections

    [low], [high] and [best] of the loops; [build] makes the candidate of the
    middle, which may raise, and [fits] tests it.  The interval shrinks in
    every turn, so its length is enough fuel. *)
Fixpoint bisect {A} (fuel : nat) (build : Z -> res A) (fits : A -> bool) (low high : Z) (best : option A)
  : res (option A) :=
  match fuel with
  | O => Ok best
  | S fuel' =>
      if low <=? high then
        let mid := (low + high) / 2 in
        let! candidate := build mid in
        if fits candidate then bisect fuel' build fits (mid + 1) high (Some candidate)
        else bisect fuel' build fits low (mid - 1) best
      else Ok best
  end.

Definition bisection {A} (build : Z -> res A) (fits : A -> bool) (low high : Z) : res (option A) :=
  bisect (Z.to_nat (high - low + 1)) build fits low high None.

(** ** Previews *)
Fixpoint cap_json_strings (limit : Z) (v : json) : json :=
  match v with
  | JStr s => JStr (str_slice (Z.to_nat limit) s)
  | JList l => JList (map (cap_json_strings limit) l)
  | JObj fields => JObj (map (fun f => (fst f, cap_json_strings limit (snd f))) fields)
  | _ => v
  end.

Definition largest_string_capped_value (v : json) (limit : Z) : option json :=
  match bisection (fun n => Ok (cap_json_strings n v)) (fun c => size c <=? limit) 0 limit with
  | Ok best => best
  | Err _ => None
  end.

Definition essential_keys : list string :=
  ["document_version"; "etag"; "version"; "path"; "cell_id"]%string.

(** [{key: value[key] for key in (...) if key in value}] *)
Definition essential (fields : list (string * json)) : list (string * json) :=
  flat_map (fun k => match obj_get k fields with Some v => [(k, v)] | None => [] end) essential_keys.

Definition structured_preview (v : json) (limit : Z) : json :=
  if size v <=? limit then v
  else match largest_string_capped_value v limit with
       | Some preview => preview
       | None =>
           match v with
           | JObj fields =>
               match largest_string_capped_value (JObj (essential fields)) limit with
               | Some preview => preview
               | None => JObj []
               end
           | JList _ => JList []
           | _ => JNull
           end
       end.

Section Responses.
Context `{PyFloat}.

(** [str(value)] of the location, which Python prints for other values. *)
Variable str_of : json -> string.

Definition bound_output (v : value) (limit : Z) : res OutputEnvelope :=
  let! _ := raise_if (limit <=? 0) (ValueError "limit must be positive") in
  let location := match v with
                  | VJson (JObj fields) =>
                      match obj_get "authoritative_location" fields with
                      | Some x => Some (match x with JStr s => s | _ => str_of x end)
                      | None => None
                      end
                  | _ => None
                  end in
  let envelope mime encoded payload :=
    let n := Z.of_nat (String.length encoded) in
    mkEnvelope (Some mime) (Some n) payload (limit <? n) location in
  match v with
  | VBytes bs =>
      Ok (envelope "application/octet-stream"%string bs (VBytes (str_take (Z.to_nat limit) bs)))
  | VJson (JStr s) =>
      Ok (envelope "text/plain"%string s (VJson (JStr (decode_replace (str_take (Z.to_nat limit) s)))))
  | VJson j =>
      let text := dumps j in
      let! normalized := loads text in
      Ok (envelope "application/json"%string text (VJson (structured_preview normalized limit)))
  end.

(** ** Envelopes on the wire *)
Definition opt_json {A} (f : A -> json) (o : option A) : json :=
  match o with Some a => f a | None => JNull end.

(** [base64.b64encode(payload).decode("ascii")] *)
Definition b64encode (bs : list Z) : string :=
  (map_chars (fun c => if Ascii.eqb c "-" then "+"%char else if Ascii.eqb c "_" then "/"%char else c) (b64 bs)
   ++ b64_padding (String.length (b64 bs)))%string.

(** [envelope.model_dump()], with a payload of bytes in base64. *)
Definition envelope_json (e : OutputEnvelope) : json :=
  let payload := match ev_payload e with
                 | VBytes bs => JStr (b64encode (str_encode bs))
                 | VJson j => j
                 end in
  JObj ([("mime_type", opt_json JStr (ev_mime_type e));
         ("serialized_size", opt_json JInt (ev_serialized_size e));
         ("payload", payload);
         ("truncated", JBool (ev_truncated e));
         ("authoritative_location", opt_json JStr (ev_authoritative_location e))]%string
        ++ match ev_payload e with
           | VBytes _ => [("payload_encoding"%string, JStr "base64")]
           | VJson _ => []
           end).

(** A result of the adapter: JSON of a backend, or the dump of an envelope. *)
Inductive semantic_result := RJson (j : json) | RDump (e : OutputEnvelope).

(** pydantic's [OutputEnvelope.model_validate] of a dict. *)
Variable model_validate : list (string * json) -> res OutputEnvelope.

Definition has_keys (keys : list string) (fields : list (string * json)) : bool :=
  forallb (fun k => is_some (obj_get k fields)) keys.

Definition original_envelope (v : semantic_result) : option (res OutputEnvelope) :=
  match v with
  | RDump e => Some (Ok e)
  | RJson (JObj fields) =>
      if has_keys ["serialized_size"; "payload"; "truncated"]%string fields
      then Some (model_validate fields) else None
  | RJson _ => None
  end.

Definition wire_output_envelope (v : semantic_result) (preview_limit : Z) : res json :=
  match original_envelope v, v with
  | Some original, _ =>
      let! original := original in
      let! preview := bound_output (ev_payload original) preview_limit in
      Ok (envelope_json (mkEnvelope (ev_mime_type original) (ev_serialized_size original)
                           (ev_payload preview) (ev_truncated original || ev_truncated preview)
                           (ev_authoritative_location original)))
  | None, RJson j => rmap envelope_json (bound_output (VJson j) preview_limit)
  | None, RDump e => Ok (envelope_json e)
  end.

(** ** JSON-RPC responses *)
Definition JSONRPC_PARSE_ERROR : Z := -32700.
Definition JSONRPC_INVALID_REQUEST : Z := -32600.
Definition JSONRPC_METHOD_NOT_FOUND : Z := -32601.
Definition JSONRPC_INVALID_PARAMS : Z := -32602.
Definition JSONRPC_INTERNAL_ERROR : Z := -32603.
Definition JSONRPC_SERVER_ERROR : Z := -32000.
Definition MAX_REQUEST_ID_BYTES : Z := 128.

Definition jsonrpc (id : json) (rest : list (string * json)) : json :=
  JObj (("jsonrpc"%string, JStr "2.0") :: ("id"%string, id) :: rest).

Definition jsonrpc_error (id : json) (code : Z) (message : string) : json :=
  jsonrpc id [("error"%string, JObj [("code", JInt code); ("message", JStr message)]%string)].

Definition response_size (r : json) : Z := size r + 1.

Definition tool_result (id : json) (text : string) (is_error : bool) : json :=
  jsonrpc id [("result", JObj [("content", JList [JObj [("type", JStr "text"); ("text", JStr text)]]);
                               ("isError", JBool is_error)])]%string.

Definition bounded_tool_response (id : json) (v : semantic_result) (limit : Z) : res json :=
  let! best := bisection
    (fun preview_limit =>
       let! envelope := wire_output_envelope v preview_limit in
       Ok (tool_result id (dumps envelope) false))
    (fun candidate => response_size candidate <=? limit) 1 limit in
  Ok (match best with
      | Some candidate => candidate
      | None => jsonrpc_error id JSONRPC_INTERNAL_ERROR "Response exceeds configured output limit"
      end).

Definition bounded_tool_error (id : json) (code message : string) (limit : Z) : json :=
  match bisection
          (fun length =>
             Ok (tool_result id (dumps (JObj [("code", JStr code);
                                              ("message", JStr (str_slice (Z.to_nat length) message))]%string))
                   true))
          (fun candidate => response_size candidate <=? limit) 0 (Z.of_nat (str_len message)) with
  | Ok (Some candidate) => candidate
  | _ => jsonrpc_error id JSONRPC_INTERNAL_ERROR "Tool error exceeds configured output limit"
  end.

Definition not_finite (t : string) : bool := str_mem t ["NaN"; "Infinity"; "-Infinity"]%string.

(** [_safe_request_id]: [None] is [JNull]. *)
Definition safe_request_id (v : json) : json :=
  match v with
  | JStr s => if Z.of_nat (String.length s) <=? MAX_REQUEST_ID_BYTES then v else JNull
  | JInt _ => if Z.of_nat (String.length (dumps_ascii v)) <=? MAX_REQUEST_ID_BYTES then v else JNull
  | JFloat t =>
      if not_finite t then JNull
      else if Z.of_nat (String.length (dumps_ascii v)) <=? MAX_REQUEST_ID_BYTES then v else JNull
  | _ => JNull
  end.

Definition NEWLINE : string := String "010"%char "".

Definition get_or_null (key : string) (v : json) : json :=
  match v with
  | JObj fields => match obj_get key fields with Some x => x | None => JNull end
  | _ => JNull
  end.

(** [_encode_response_line] *)
Definition fits_line (limit : Z) (text : string) : bool := Z.of_nat (String.length text) + 1 <=? limit.

Definition shortened_error (r : json) (limit : Z) : option string :=
  match get_or_null "error" r with
  | JObj error =>
      match obj_get "code" error with
      | Some code =>
          let message := match obj_get "message" error with
                         | Some (JStr m) => m
                         | Some x => str_of x
                         | None => ""%string
                         end in
          match bisection
                  (fun length =>
                     Ok (dumps_ascii (jsonrpc (safe_request_id (get_or_null "id" r))
                           [("error", JObj [("code", code);
                                            ("message", JStr (str_slice (Z.to_nat length) message))])]%string)))
                  (fits_line limit) 0 (Z.of_nat (str_len message)) with
          | Ok best => best
          | Err _ => None
          end
      | None => None
      end
  | _ => None
  end.

Definition encode_response_line (r : json) (limit : Z) : res string :=
  let encoded := dumps r in
  if fits_line limit encoded then Ok (encoded ++ NEWLINE)%string
  else match shortened_error r limit with
       | Some best => Ok (best ++ NEWLINE)%string
       | None =>
           let fallback := dumps_ascii (jsonrpc_error (safe_request_id (get_or_null "id" r))
                             JSONRPC_INTERNAL_ERROR "Response exceeds configured output limit") in
           if fits_line limit fallback then Ok (fallback ++ NEWLINE)%string
           else Err (ValueError "output_limit is too small for a JSON-RPC error")
       end.
End Responses.

(** ** The smallest output limit *)
Definition tool_descriptors (methods : list string) : json :=
  JList (map (fun m => JObj [("name", JStr m);
                             ("description", JStr ("Notebook Launcher semantic capability: " ++ m));
                             ("inputSchema", JObj [("type", JStr "object");
                                                   ("additionalProperties", JBool true)])]%string) methods).

Definition tools_list_response (id : json) (methods : list string) : json :=
  jsonrpc id [("result", JObj [("tools", tool_descriptors methods)])]%string.

Fixpoint repeat_char (n : nat) (c : ascii) : string :=
  match n with O => EmptyString | S n' => String c (repeat_char n' c) end.

Definition minimum_mcp_output_bytes (methods : list string) : Z :=
  size (tools_list_response (JStr (repeat_char (Z.to_nat MAX_REQUEST_ID_BYTES) "000"%char)) methods) + 1.

(** ** The bisections find the largest candidate *)
Section Bisection.
Context {A : Type} (fits : A -> bool).

(** Whatever the candidates, what a bisection returns fits. *)
Lemma bisect_fits build fuel low high best c :
  bisect fuel build fits low high best = Ok (Some c) -> best = Some c \/ fits c = true.
Proof.
  revert low high best. induction fuel as [|fuel IH]; intros low high best H; simpl in H.
  - left. congruence.
  - destruct (low <=? high); [|left; congruence].
    apply rbind_ok in H as (x & _ & H). destruct (fits x) eqn:Hx; apply IH in H; [|exact H].
    right. destruct H as [[= ->]|H]; assumption.
Qed.

Lemma bisection_fits build low high c : bisection build fits low high = Ok (Some c) -> fits c = true.
Proof. intros H. apply bisect_fits in H as [[=]|H]. exact H. Qed.

Lemma bisect_built build fuel low high best c :
  bisect fuel build fits low high best = Ok (Some c) -> best = Some c \/ exists n, build n = Ok c.
Proof.
  revert low high best. induction fuel as [|fuel IH]; intros low high best H; simpl in H.
  - left. congruence.
  - destruct (low <=? high); [|left; congruence].
    apply rbind_ok in H as (x & Hx & H). destruct (fits x); apply IH in H; [|exact H].
    right. destruct H as [[= ->]|H]; eauto.
Qed.

Lemma bisect_raises build fuel low high best e :
  bisect fuel build fits low high best = Err e -> exists n, build n = Err e.
Proof.
  revert low high best. induction fuel as [|fuel IH]; intros low high best H; simpl in H; [discriminate|].
  destruct (low <=? high); [|discriminate].
  apply rbind_err in H as [H|(x & _ & H)]; [eauto|]. destruct (fits x); eapply IH; exact H.
Qed.

Variable f : Z -> A.

(** [n] is the largest number of the interval whose candidate fits. *)
Definition largest (low high : Z) (n : Z) : Prop :=
  low <= n <= high /\ fits (f n) = true /\ forall k, n < k <= high -> fits (f k) = false.

Lemma bisect_largest fuel low high best :
  (forall a b, low <= a <= b -> b <= high -> fits (f b) = true -> fits (f a) = true) ->
  high - low < Z.of_nat fuel ->
  (exists n, largest low high n /\ bisect fuel (fun n => Ok (f n)) fits low high best = Ok (Some (f n)))
  \/ ((forall k, low <= k <= high -> fits (f k) = false)
      /\ bisect fuel (fun n => Ok (f n)) fits low high best = Ok best).
Proof.
  revert low high best. induction fuel as [|fuel IH]; intros low high best Hmono Hfuel.
  - right. split; [intros k Hk; lia|reflexivity].
  - cbn [bisect]. destruct (low <=? high) eqn:E; bool_to_prop; [|right; split; [intros k Hk; lia|reflexivity]].
    set (mid := (low + high) / 2).
    assert (Hmid : low <= mid <= high) by (unfold mid; split; Z.to_euclidean_division_equations; lia).
    cbn [rbind]. destruct (fits (f mid)) eqn:Hf.
    + destruct (IH (mid + 1) high (Some (f mid))) as [(n & (Hn & Hfn & Hmax) & ->)|[Hno ->]];
        [intros a b Ha Hb; apply Hmono; lia|lia| |].
      * left. exists n. split; [|reflexivity]. split; [lia|auto].
      * left. exists mid. split; [|reflexivity]. split; [lia|]. split; [exact Hf|].
        intros k Hk. apply Hno. lia.
    + assert (Habove : forall k, mid <= k <= high -> fits (f k) = false).
      { intros k Hk. destruct (fits (f k)) eqn:Ek; [|reflexivity].
        rewrite (Hmono mid k) in Hf; [discriminate|lia|lia|exact Ek]. }
      destruct (IH low (mid - 1) best) as [(n & (Hn & Hfn & Hmax) & ->)|[Hno ->]];
        [intros a b Ha Hb; apply Hmono; lia|lia| |].
      * left. exists n. split; [|reflexivity]. split; [lia|]. split; [exact Hfn|].
        intros k Hk. destruct (Z.le_gt_cases mid k); [apply Habove; lia|apply Hmax; lia].
      * right. split; [|reflexivity]. intros k Hk.
        destruct (Z.le_gt_cases mid k); [apply Habove; lia|apply Hno; lia].
Qed.

Lemma bisection_largest low high :
  (forall a b, low <= a <= b -> b <= high -> fits (f b) = true -> fits (f a) = true) ->
  (exists n, largest low high n /\ bisection (fun n => Ok (f n)) fits low high = Ok (Some (f n)))
  \/ ((forall k, low <= k <= high -> fits (f k) = false)
      /\ bisection (fun n => Ok (f n)) fits low high = Ok None).
Proof. intros Hmono. apply bisect_largest; [exact Hmono|lia]. Qed.
End Bisection.

(** ** Sizes *)
Lemma escape_append a b : escape (a ++ b) = (escape a ++ escape b)%string.
Proof.
  induction a as [|c a IH]; [reflexivity|].
  change ((String c a ++ b)%string) with (String c (a ++ b)%string). cbn [escape].
  destruct (short_escape c); rewrite IH; [now rewrite string_app_assoc|reflexivity].
Qed.

Lemma str_join_length_le sep l l' :
  Forall2 (fun a b => String.length a <= String.length b)%nat l l' ->
  (String.length (str_join sep l) <= String.length (str_join sep l'))%nat.
Proof.
  induction 1 as [|a b l l' Hab Hl IH]; [simpl; lia|]. destruct Hl as [|a' b' l l' Hab' Hl]; [exact Hab|].
  rewrite !str_join_cons, !length_append. lia.
Qed.

Lemma Forall2_map_self {A B} (P : B -> B -> Prop) (f g : A -> B) l :
  Forall (fun x => P (f x) (g x)) l -> Forall2 P (map f l) (map g l).
Proof. induction 1; simpl; constructor; auto. Qed.

(** A larger cap never makes the text shorter. *)
Lemma capped_size_mono v a b : a <= b -> size (cap_json_strings a v) <= size (cap_json_strings b v).
Proof.
  intros Hab. unfold size. apply Nat2Z.inj_le. unfold dumps.
  induction v as [|x|z|t|s|l IH|fields IH] using json_rect_prop; try reflexivity.
  - cbn [cap_json_strings dumps_with]. unfold dump_str, quoted.
    destruct (str_slice_prefix (Z.to_nat a) (Z.to_nat b) s ltac:(lia)) as [u ->].
    rewrite escape_append. cbn [String.length]. rewrite !length_append. lia.
  - cbn [cap_json_strings dumps_with]. rewrite !length_append.
    assert (Hj := str_join_length_le "," (map (dumps_with false) (map (cap_json_strings a) l))
                    (map (dumps_with false) (map (cap_json_strings b) l))).
    rewrite !map_map in *. specialize (Hj (Forall2_map_self _ _ _ l IH)). lia.
  - cbn [cap_json_strings dumps_with]. rewrite !length_append, !map_map. cbn [fst snd].
    match goal with |- (_ + (String.length (str_join _ (map ?f _)) + _) <= _ + (String.length (str_join _ (map ?g _)) + _))%nat =>
      pose proof (str_join_length_le "," (map f fields) (map g fields)) as Hj end.
    lapply Hj; [lia|]. apply Forall2_map_self. eapply Forall_impl; [exact IH|].
    cbv beta. intros f Hf. rewrite !length_append. lia.
Qed.

(** The largest number of characters per string with which a value fits. *)
Definition largest_cap (v : json) (limit n : Z) : Prop :=
  0 <= n <= limit /\ size (cap_json_strings n v) <= limit
  /\ forall k, n < k <= limit -> limit < size (cap_json_strings k v).

Lemma capped_value_cases v limit :
  (exists n, largest_cap v limit n /\ largest_string_capped_value v limit = Some (cap_json_strings n v))
  \/ ((forall k, 0 <= k <= limit -> limit < size (cap_json_strings k v))
      /\ largest_string_capped_value v limit = None).
Proof.
  unfold largest_string_capped_value.
  destruct (bisection_largest (fun c => size c <=? limit) (fun n => cap_json_strings n v) 0 limit)
    as [(n & (Hn & Hf & Hmax) & ->)|[Hno ->]].
  - intros a b Ha Hb Hf. bool_to_prop. apply Z.leb_le. pose proof (capped_size_mono v a b). lia.
  - left. exists n. split; [|reflexivity]. bool_to_prop. split; [lia|]. split; [lia|].
    intros k Hk. specialize (Hmax k Hk). now bool_to_prop.
  - right. split; [|reflexivity]. intros k Hk. specialize (Hno k Hk). now bool_to_prop.
Qed.

(** Previews are as large as the limit allows.  A JSON value that fits the
    limit is returned unchanged.  Otherwise, if capping the length of its
    strings can make it fit at all, the preview is the value with its strings
    capped at the largest length that fits: the bisection misses nothing.  And
    with a limit of at least four bytes the preview always fits. *)
Theorem structured_preview_maximal v limit :
  (size v <= limit -> structured_preview v limit = v)
  /\ (limit < size v ->
      (exists k, 0 <= k <= limit /\ size (cap_json_strings k v) <= limit) ->
      exists n, largest_cap v limit n /\ structured_preview v limit = cap_json_strings n v)
  /\ (4 <= limit -> size (structured_preview v limit) <= limit).
Proof.
  unfold structured_preview. split; [|split].
  - intros Hs. now rewrite (proj2 (Z.leb_le _ _) Hs).
  - intros Hs (k & Hk & Hfit). rewrite (proj2 (Z.leb_gt _ _) Hs).
    destruct (capped_value_cases v limit) as [(n & Hn & ->)|[Hno _]]; [eauto|].
    specialize (Hno k Hk). lia.
  - intros Hlim. destruct (size v <=? limit) eqn:Hs; [now apply Z.leb_le|].
    destruct (capped_value_cases v limit) as [(n & (_ & Hn & _) & ->)|[_ ->]]; [exact Hn|].
    destruct v as [|x|z|t|s|l|fields]; try (change (4 <= limit); exact Hlim).
    + change (2 <= limit). lia.
    + destruct (capped_value_cases (JObj (essential fields)) limit) as [(n & (_ & Hn & _) & ->)|[_ ->]]; [exact Hn|].
      change (2 <= limit). lia.
Qed.

Lemma structured_preview_maximal_witness :
  exists n, largest_cap (JObj [("source", JStr "0123456789"); ("n", JInt 7)]%string) 24 n
    /\ structured_preview (JObj [("source", JStr "0123456789"); ("n", JInt 7)]%string) 24
       = cap_json_strings n (JObj [("source", JStr "0123456789"); ("n", JInt 7)]%string).
Proof.
  apply (proj1 (proj2 (structured_preview_maximal (JObj [("source", JStr "0123456789"); ("n", JInt 7)]%string) 24))).
  - vm_compute. reflexivity.
  - exists 0. split; [lia|]. vm_compute. discriminate.
Defined.

(** ** Lines *)

(** A character that may stand inside a line. *)
Definition not_control (c : ascii) : bool := 32 <=? ord c.

(** The texts of the floats contain no control characters: [repr] prints
    digits, a point, signs, an exponent or a name. *)
Fixpoint clean (v : json) : bool :=
  match v with
  | JFloat t => all_chars not_control t
  | JList l => forallb clean l
  | JObj fields => forallb (fun f => clean (snd f)) fields
  | _ => true
  end.

Lemma escape_not_control s : all_chars not_control (escape s) = true.
Proof.
  induction s as [|c s IH]; [reflexivity|]. cbn [escape].
  assert (He : match short_escape c with Some e => all_chars not_control e | None => not_control c end = true)
    by (by_chars c).
  destruct (short_escape c) as [e|]; [now rewrite all_chars_append, He|]. cbn [all_chars]. now rewrite He.
Qed.

Lemma hex_of_not_control d : 0 <= d < 16 -> not_control (hex_of d) = true.
Proof. apply (all_below_spec (fun d => not_control (hex_of d))). vm_compute. reflexivity. Qed.

Lemma u_escape_not_control n : all_chars not_control (u_escape n) = true.
Proof.
  assert (Hl : forall x, not_control (hex_of (Z.land x 15)) = true).
  { intros x. apply hex_of_not_control. change 15 with (Z.ones 4). rewrite Z.land_ones by lia.
    apply Z.mod_pos_bound. lia. }
  unfold u_escape. cbn [all_chars]. now rewrite !Hl.
Qed.

Lemma u_escape_length n : String.length (u_escape n) = 6%nat.
Proof. reflexivity. Qed.

Lemma wide_escape_facts n :
  all_chars not_control (wide_escape n) = true /\ (String.length (wide_escape n) <= 12)%nat.
Proof.
  unfold wide_escape. destruct (n <? 0x10000).
  - rewrite u_escape_not_control, u_escape_length. split; [reflexivity|lia].
  - rewrite all_chars_append, !u_escape_not_control, length_append, !u_escape_length. split; [reflexivity|lia].
Qed.

(** [ensure_ascii] writes at most six characters per byte, none of them a
    control character. *)
Lemma escape_ascii_facts s code need :
  all_chars not_control (escape_ascii code need s) = true
  /\ (String.length (escape_ascii code need s)
      <= 6 * String.length s + match need with O => 0 | S _ => 6 end)%nat.
Proof.
  revert code need. induction s as [|c s IH]; intros code need; [split; [reflexivity|simpl; lia]|].
  cbn [escape_ascii String.length]. destruct need as [|[|need]].
  - destruct (ord c <? 127) eqn:E.
    + assert (He : match short_escape c with
                   | Some e => all_chars not_control e && (Nat.leb (String.length e) 6)
                   | None => not_control c end = true) by (clear E; by_chars c).
      destruct (IH 0 0%nat) as [H1 H2]. destruct (short_escape c) as [e|].
      * apply andb_true_iff in He as [He Hl]. apply Nat.leb_le in Hl.
        rewrite all_chars_append, He, length_append. split; [exact H1|lia].
      * cbn [all_chars String.length]. rewrite He. split; [exact H1|lia].
    + destruct (ord c =? 127).
      { destruct (IH 0 0%nat) as [H1 H2]. rewrite all_chars_append, u_escape_not_control, length_append, u_escape_length.
        split; [exact H1|lia]. }
      destruct (ord c <? 0xE0); [destruct (IH (Z.land (ord c) 31) 1%nat) as [H1 H2]; split; [exact H1|lia]|].
      destruct (ord c <? 0xF0); [destruct (IH (Z.land (ord c) 15) 2%nat) as [H1 H2]; split; [exact H1|lia]|].
      destruct (IH (Z.land (ord c) 7) 3%nat) as [H1 H2]. split; [exact H1|lia].
  - destruct (wide_escape_facts (Z.shiftl code 6 + Z.land (ord c) 63)) as [H3 H4].
    destruct (IH 0 0%nat) as [H1 H2]. rewrite all_chars_append, H3, length_append. split; [exact H1|lia].
  - destruct (IH (Z.shiftl code 6 + Z.land (ord c) 63) (S need)) as [H1 H2]. split; [exact H1|lia].
Qed.

Lemma dump_str_not_control b s : all_chars not_control (dump_str b s) = true.
Proof.
  unfold dump_str, quoted. cbn [all_chars]. rewrite all_chars_append.
  destruct b; [rewrite (proj1 (escape_ascii_facts s 0 0))|rewrite escape_not_control]; reflexivity.
Qed.

Lemma str_of_int_not_control z : all_chars not_control (str_of_int z) = true.
Proof. apply str_of_int_chars; [reflexivity|]. intros c Hc. by_chars c. Qed.

Lemma all_chars_enclosed p a m b :
  all_chars p a = true -> all_chars p b = true -> all_chars p m = true ->
  all_chars p (a ++ m ++ b) = true.
Proof. intros Ha Hb Hm. now rewrite !all_chars_append, Ha, Hm, Hb. Qed.

Lemma dumps_not_control b v : clean v = true -> all_chars not_control (dumps_with b v) = true.
Proof.
  induction v as [|x|z|t|s|l IH|fields IH] using json_rect_prop; intros Hc; cbn [clean] in Hc.
  - reflexivity.
  - destruct x; reflexivity.
  - apply str_of_int_not_control.
  - exact Hc.
  - apply dump_str_not_control.
  - cbn [dumps_with]. apply all_chars_enclosed; [reflexivity|reflexivity|].
    apply all_chars_join; [reflexivity|]. rewrite forallb_map. apply forallb_forall. intros x Hx.
    apply (proj1 (List.Forall_forall _ _) IH x Hx). exact (proj1 (forallb_forall _ _) Hc x Hx).
  - cbn [dumps_with]. apply all_chars_enclosed; [reflexivity|reflexivity|].
    apply all_chars_join; [reflexivity|]. rewrite forallb_map. apply forallb_forall. intros x Hx.
    rewrite !all_chars_append, dump_str_not_control.
    change (all_chars not_control ":") with true. cbn [andb].
    apply (proj1 (List.Forall_forall _ _) IH x Hx). exact (proj1 (forallb_forall _ _) Hc x Hx).
Qed.

(** A line of the protocol: one text without control characters, ended by a
    newline, within the limit. *)
Definition framed (limit : Z) (line : string) : Prop :=
  exists text, line = (text ++ NEWLINE)%string /\ all_chars not_control text = true
    /\ Z.of_nat (String.length line) <= limit.

Lemma fits_framed limit text :
  fits_line limit text = true -> all_chars not_control text = true -> framed limit (text ++ NEWLINE).
Proof.
  unfold fits_line. intros Hf Hc. exists text. split; [reflexivity|]. split; [exact Hc|].
  apply Z.leb_le in Hf. rewrite length_append. change (String.length NEWLINE) with 1%nat. lia.
Qed.

Lemma obj_get_clean key fields v :
  forallb (fun f => clean (snd f)) fields = true -> obj_get key fields = Some v -> clean v = true.
Proof.
  induction fields as [|[k x] r IH]; [discriminate|]. cbn [forallb snd obj_get]. intros Hc.
  apply andb_true_iff in Hc as [Hx Hr]. destruct (String.eqb k key); [now intros [= <-]|now apply IH].
Qed.

Lemma get_or_null_clean key v : clean v = true -> clean (get_or_null key v) = true.
Proof.
  destruct v as [| | | | | |fields]; try reflexivity. cbn [clean get_or_null]. intros Hc.
  destruct (obj_get key fields) eqn:E; [exact (obj_get_clean _ _ _ Hc E)|reflexivity].
Qed.

Lemma safe_request_id_clean v : clean v = true -> clean (safe_request_id v) = true.
Proof.
  destruct v; try reflexivity; cbn [safe_request_id clean]; intros Hc.
  - now destruct (_ <=? _).
  - destruct (not_finite t); [reflexivity|]. now destruct (_ <=? _).
  - now destruct (_ <=? _).
Qed.

(** A safe id takes at most 770 bytes on the wire, in either encoding. *)
Lemma escape_length s : (String.length (escape s) <= 6 * String.length s)%nat.
Proof.
  induction s as [|c s IH]; [simpl; lia|]. cbn [escape].
  assert (He : match short_escape c with Some e => Nat.leb (String.length e) 6 | None => true end = true) by (by_chars c).
  destruct (short_escape c) as [e|]; [apply Nat.leb_le in He; rewrite length_append|]; cbn [String.length]; lia.
Qed.

Lemma dump_str_length b s : (String.length (dump_str b s) <= 6 * String.length s + 2)%nat.
Proof.
  unfold dump_str, quoted. cbn [String.length]. rewrite length_append.
  change (String.length (String quote_char "")) with 1%nat.
  destruct b; [pose proof (proj2 (escape_ascii_facts s 0 0))|pose proof (escape_length s)]; cbn [String.length] in *; lia.
Qed.

Lemma safe_request_id_length b v :
  Z.of_nat (String.length (dumps_with b (safe_request_id v))) <= 770.
Proof.
  unfold safe_request_id, MAX_REQUEST_ID_BYTES, dumps_ascii. destruct v; try (simpl; lia).
  - destruct (_ <=? _) eqn:E; [|simpl; lia]. apply Z.leb_le in E. cbn [dumps_with] in *. lia.
  - destruct (not_finite t); [simpl; lia|]. destruct (_ <=? _) eqn:E; [|simpl; lia].
    apply Z.leb_le in E. cbn [dumps_with] in *. lia.
  - destruct (_ <=? _) eqn:E; [|simpl; lia]. apply Z.leb_le in E. cbn [dumps_with].
    pose proof (dump_str_length b s). lia.
Qed.

(** The texts around the id of a response. *)
Definition envelope_start : string := Eval vm_compute in
  ("{" ++ dump_str false "jsonrpc" ++ ":" ++ dump_str false "2.0" ++ "," ++ dump_str false "id" ++ ":")%string.

Lemma jsonrpc_text b id key v :
  dumps_with b (jsonrpc id [(key, v)])
  = (envelope_start ++ dumps_with b id ++ "," ++ dump_str b key ++ ":" ++ dumps_with b v ++ "}")%string.
Proof.
  unfold jsonrpc. cbn [dumps_with map fst snd]. rewrite !str_join_cons. cbn [str_join].
  destruct b; rewrite !string_app_assoc; reflexivity.
Qed.

Definition fallback_error : string := "Response exceeds configured output limit".

Lemma fallback_fits v limit : 900 <= limit ->
  fits_line limit (dumps_ascii (jsonrpc_error (safe_request_id v) JSONRPC_INTERNAL_ERROR fallback_error)) = true.
Proof.
  intros Hlim. unfold fits_line, dumps_ascii, jsonrpc_error. rewrite jsonrpc_text, !length_append.
  pose proof (safe_request_id_length true v).
  change (String.length envelope_start) with 22%nat.
  change (String.length (dump_str true "error")) with 7%nat.
  match goal with |- context [dumps_with true (JObj ?l)] =>
    let n := eval vm_compute in (String.length (dumps_with true (JObj l))) in
    change (String.length (dumps_with true (JObj l))) with n end.
  apply Z.leb_le. cbn [String.length]. lia.
Qed.

(** Above the smallest limit every response can be written as one line. *)
Lemma encode_response_line_framed str_of r limit :
  900 <= limit -> clean r = true ->
  exists line, encode_response_line str_of r limit = Ok line /\ framed limit line.
Proof.
  intros Hlim Hc. unfold encode_response_line.
  destruct (fits_line limit (dumps r)) eqn:Hf.
  { eexists. split; [reflexivity|]. apply fits_framed; [exact Hf|]. now apply dumps_not_control. }
  assert (Hid : clean (safe_request_id (get_or_null "id" r)) = true)
    by now apply safe_request_id_clean, get_or_null_clean.
  destruct (shortened_error str_of r limit) as [best|] eqn:Hs.
  - eexists. split; [reflexivity|].
    unfold shortened_error in Hs. destruct (get_or_null "error" r) as [| | | | | |fields] eqn:He; try discriminate.
    destruct (obj_get "code" fields) as [code|] eqn:Ek; [|discriminate].
    assert (Hcode : clean code = true).
    { pose proof (get_or_null_clean "error" r Hc) as Hfields. rewrite He in Hfields.
      exact (obj_get_clean _ _ _ Hfields Ek). }
    match type of Hs with context [bisection ?b ?f ?l ?h] => destruct (bisection b f l h) as [[x|]|] eqn:Hb end;
      [|discriminate..].
    injection Hs as <-. pose proof (bisection_fits _ _ _ _ _ Hb) as Hx.
    apply fits_framed; [exact Hx|].
    assert (Hform : exists m, x = dumps_ascii (jsonrpc (safe_request_id (get_or_null "id" r))
               [("error", JObj [("code", code); ("message", JStr m)])]%string)).
    { apply bisect_built in Hb as [[=]|(n & Hn)]. injection Hn as <-. eauto. }
    destruct Hform as [m ->]. apply dumps_not_control. cbn [clean jsonrpc forallb snd]. now rewrite Hid, Hcode.
  - fold fallback_error. rewrite fallback_fits by exact Hlim. eexists. split; [reflexivity|].
    apply fits_framed; [now apply fallback_fits|]. apply dumps_not_control.
    cbn [clean jsonrpc_error jsonrpc forallb snd]. now rewrite Hid.
Qed.

(** ** What [loads] reads is clean *)
Section LoadsClean.
Context `{PyFloat}.
Hypothesis float_repr_clean : forall t, all_chars not_control t = true -> all_chars not_control (float_repr t) = true.

Lemma span_all_chars p s : all_chars p (fst (span p s)) = true.
Proof.
  induction s as [|c s IH]; [reflexivity|]. simpl. destruct (p c) eqn:E; [|reflexivity].
  destruct (span p s). simpl in *. now rewrite E, IH.
Qed.

Lemma digits_clean s : all_chars not_control (fst (span is_digit s)) = true.
Proof. eapply all_chars_imp; [|apply span_all_chars]. intros c Hc. by_chars c. Qed.

Lemma scan_int_clean s d b : scan_int s = Some (d, b) -> all_chars not_control d = true.
Proof.
  destruct s as [|c s]; [discriminate|]. cbn [scan_int].
  destruct (Ascii.eqb c "0"); [now intros [= <- _]|]. destruct (is_digit c); [|discriminate].
  pose proof (digits_clean (String c s)). destruct (span is_digit (String c s)). now intros [= <- _].
Qed.

Lemma scan_frac_clean s : all_chars not_control (fst (scan_frac s)) = true.
Proof.
  destruct s as [|c s]; [reflexivity|]. simpl. destruct (Ascii.eqb c ".") eqn:E; [|reflexivity].
  pose proof (digits_clean s). destruct (span is_digit s) as [d rest]. destruct (String.eqb d ""); [reflexivity|].
  apply Ascii.eqb_eq in E as ->. exact H0.
Qed.

Lemma scan_exp_clean s : all_chars not_control (fst (scan_exp s)) = true.
Proof.
  destruct s as [|c s]; [reflexivity|]. simpl. destruct (is_e c) eqn:E; [|reflexivity].
  assert (Hc : not_control c = true) by (by_chars c).
  destruct s as [|x s]; [reflexivity|]. cbv beta iota. destruct (is_sign x) eqn:Ex; cbv beta iota.
  - assert (Hx : not_control x = true) by (by_chars x).
    pose proof (digits_clean s). destruct (span is_digit s) as [d rest].
    destruct (String.eqb d ""); [reflexivity|].
    change (all_chars not_control (String c (String x d)) = true). cbn [all_chars]. now rewrite Hc, Hx.
  - pose proof (digits_clean (String x s)). destruct (span is_digit (String x s)) as [d rest].
    destruct (String.eqb d ""); [reflexivity|].
    change (all_chars not_control (String c d) = true). cbn [all_chars]. now rewrite Hc.
Qed.

Lemma scan_number_clean s v b : scan_number s = Some (Ok v, b) -> clean v = true.
Proof.
  unfold scan_number. assert (Hsg : all_chars not_control (fst (scan_sign s)) = true).
  { destruct s as [|c s]; [reflexivity|]. simpl. now destruct (Ascii.eqb c "-"). }
  destruct (scan_sign s) as [sg s1]. destruct (scan_int s1) as [[d s2]|] eqn:Hi; [|discriminate].
  apply scan_int_clean in Hi. pose proof (scan_frac_clean s2) as Hf. destruct (scan_frac s2) as [fr s3].
  pose proof (scan_exp_clean s3) as He. destruct (scan_exp s3) as [ex s4]. cbn [fst] in *.
  destruct (String.eqb fr "" && String.eqb ex "").
  - unfold int_of_digits. destruct (Nat.ltb _ _); [discriminate|]. intros [= <- _]. reflexivity.
  - intros [= <- _]. cbn [clean]. apply float_repr_clean. now rewrite !all_chars_append, Hsg, Hi, Hf, He.
Qed.

Lemma scan_constant_clean s v b : scan_constant s = Some (v, b) -> clean v = true.
Proof.
  unfold scan_constant. destruct (List.find _ constants) as [[k w]|] eqn:E; [|discriminate].
  intros [= <- _]. apply find_some in E as [Hin _].
  destruct Hin as [[= _ <-]|[[= _ <-]|[[= _ <-]|[[= _ <-]|[[= _ <-]|[[= _ <-]|[]]]]]]]; reflexivity.
Qed.

Definition clean_fields (fields : list (string * json)) : bool := forallb (fun f => clean (snd f)) fields.

Lemma obj_set_clean k v fields : clean v = true -> clean_fields fields = true -> clean_fields (obj_set k v fields) = true.
Proof.
  intros Hv. induction fields as [|[k' x] r IH]; cbn [obj_set]; intros Hc.
  - cbn. now rewrite Hv.
  - cbn [clean_fields forallb snd] in Hc. apply andb_true_iff in Hc as [Hx Hr].
    destruct (String.eqb k' k); cbn [clean_fields forallb snd]; apply andb_true_iff; auto.
Qed.

Lemma obj_of_clean pairs : clean_fields pairs = true -> clean_fields (obj_of pairs) = true.
Proof.
  unfold obj_of. assert (Hg : forall l acc, clean_fields l = true -> clean_fields acc = true ->
    clean_fields (fold_left (fun acc f => obj_set (fst f) (snd f) acc) l acc) = true).
  { induction l as [|f l IH]; intros acc Hl Ha; [exact Ha|]. cbn [clean_fields forallb] in Hl.
    apply andb_true_iff in Hl as [Hf Hl]. apply IH; [exact Hl|]. now apply obj_set_clean. }
  intros Hp. now apply Hg.
Qed.

Lemma scanners_clean f :
  (forall s v b, scan_once f s = Ok (v, b) -> clean v = true)
  /\ (forall s l b, scan_elements f s = Ok (l, b) -> forallb clean l = true)
  /\ (forall s l b, scan_members f s = Ok (l, b) -> clean_fields l = true).
Proof.
  induction f as [|f (IHo & IHe & IHm)]; [repeat split; intros; discriminate|]. split; [|split]; intros s.
  - intros v b. cbn [scan_once]. destruct s as [|c s']; [discriminate|].
    destruct (Ascii.eqb c quote_char); [intros Hs; apply rbind_ok in Hs as ([t r] & _ & [= <- _]); reflexivity|].
    destruct (Ascii.eqb c "{").
    { destruct (skip_ws s') as [|d s1]; [discriminate|]. destruct (Ascii.eqb d "}"); [intros [= <- _]; reflexivity|].
      intros Hs. apply rbind_ok in Hs as ([l r] & Hl & [= <- _]). apply obj_of_clean. exact (IHm _ _ _ Hl). }
    destruct (Ascii.eqb c "[").
    { destruct (skip_ws s') as [|d s1]; [discriminate|]. destruct (Ascii.eqb d "]"); [intros [= <- _]; reflexivity|].
      intros Hs. apply rbind_ok in Hs as ([l r] & Hl & [= <- _]). exact (IHe _ _ _ Hl). }
    destruct (scan_constant (String c s')) as [[w r]|] eqn:Ek; [intros [= <- _]; exact (scan_constant_clean _ _ _ Ek)|].
    destruct (scan_number (String c s')) as [[[w|e] r]|] eqn:En; [|discriminate..].
    intros [= <- _]. exact (scan_number_clean _ _ _ En).
  - intros l b Hs. cbn [scan_elements] in Hs. apply rbind_ok in Hs as ([v s1] & Hv & Hs).
    apply IHo in Hv. destruct (skip_ws s1) as [|c s2]; [discriminate|].
    destruct (Ascii.eqb c "]"); [injection Hs as <- _; simpl; now rewrite Hv|].
    destruct (Ascii.eqb c ","); [|discriminate]. apply rbind_ok in Hs as ([l' r] & Hl & [= <- _]).
    simpl. rewrite Hv. exact (IHe _ _ _ Hl).
  - intros l b Hs. cbn [scan_members] in Hs. destruct s as [|q s0]; [discriminate|].
    destruct (Ascii.eqb q quote_char); [|discriminate]. apply rbind_ok in Hs as ([key s1] & _ & Hs).
    destruct (skip_ws s1) as [|c s2]; [discriminate|]. destruct (Ascii.eqb c ":"); [|discriminate].
    apply rbind_ok in Hs as ([v s3] & Hv & Hs). apply IHo in Hv.
    destruct (skip_ws s3) as [|d s4]; [discriminate|].
    destruct (Ascii.eqb d "}"); [injection Hs as <- _; simpl; now rewrite Hv|].
    destruct (Ascii.eqb d ","); [|discriminate]. apply rbind_ok in Hs as ([l' r] & Hl & [= <- _]).
    simpl. rewrite Hv. exact (IHm _ _ _ Hl).
Qed.

Lemma loads_clean s v : loads s = Ok v -> clean v = true.
Proof.
  unfold loads. destruct (starts_with _ s); [discriminate|]. intros Hs.
  apply rbind_ok in Hs as ([w rest] & Hw & Hs). apply rbind_ok in Hs as (u & _ & [= <-]).
  exact (proj1 (scanners_clean _) _ _ _ Hw).
Qed.
End LoadsClean.

(** C36: the smallest limit is enough for [tools/list].  With any output limit
    that the adapter accepts, the list of its tools is written in full for
    every request id that the bridge echoes, however it is escaped. *)
Theorem tools_list_always_fits str_of id methods limit :
  minimum_mcp_output_bytes methods <= limit ->
  encode_response_line str_of (tools_list_response (safe_request_id id) methods) limit
  = Ok (dumps (tools_list_response (safe_request_id id) methods) ++ NEWLINE)%string.
Proof.
  intros Hlim. unfold encode_response_line.
  assert (Hfit : fits_line limit (dumps (tools_list_response (safe_request_id id) methods)) = true).
  { apply Z.leb_le. etrans; [|exact Hlim]. unfold minimum_mcp_output_bytes, size, tools_list_response, dumps.
    rewrite !jsonrpc_text, !length_append.
    pose proof (safe_request_id_length false id).
    assert (Hmax : String.length (dumps_with false (JStr (repeat_char (Z.to_nat MAX_REQUEST_ID_BYTES) "000"%char))) = 770%nat)
      by (vm_compute; reflexivity).
    rewrite Hmax. lia. }
  now rewrite Hfit.
Qed.

Lemma tools_list_always_fits_witness :
  encode_response_line (fun _ => ""%string) (tools_list_response (safe_request_id (JStr "req-1")) ["cell.read"]%string) 1000
  = Ok (dumps (tools_list_response (safe_request_id (JStr "req-1")) ["cell.read"]%string) ++ NEWLINE)%string.
Proof. apply tools_list_always_fits. apply Z.leb_le. vm_compute. reflexivity. Defined.
