(* ===== verification/Source.v ===== *)
(** * GitHub sources (src/notebook_launcher/source.py and github.py)

    Notebook paths, repository fields and blob URLs, and [GitHubResolver] over
    an HTTP client that answers each request from the requests made so far. *)
From S2P Require Export LaunchAuth PosixPath Bounded Urls.

Definition value_error {A} (msg : string) : res A := Err (ValueError msg).

(** ** [normalize_notebook_path] *)
Definition normalize_notebook_path (v : string) : res string :=
  let decoded := unquote v in
  let parts := path_parts decoded in
  let! _ := raise_if (is_absolute decoded) (ValueError "absolute notebook path is not allowed") in
  let! _ := raise_if (match parts with [] => true | _ => false end
                      || existsb (fun p => str_mem p [""; "."; ".."]%string) parts)
    (ValueError "unsafe notebook path") in
  let normalized := as_posix parts in
  let! _ := raise_if (negb (ends_with ".ipynb" (lower normalized)))
    (ValueError "target must be an .ipynb file") in
  Ok normalized.

(** ** [parse_repo_fields] *)
Record ParsedGitHubSource := mkParsed {
  ps_owner : string;
  ps_repository : string;
  ps_requested_ref : string;
  ps_notebook_path : string }.

Definition repo_char (c : ascii) : bool :=
  is_alnum c || Ascii.eqb c "_" || Ascii.eqb c "." || Ascii.eqb c "-".

(** [_REPO_RE.fullmatch] *)
Definition repo_parts (repo : string) : option (string * string) :=
  match split_once "/" repo with
  | Some (owner, repository) =>
      if negb (String.eqb owner "") && all_chars repo_char owner
         && negb (String.eqb repository "") && all_chars repo_char repository
      then Some (owner, repository) else None
  | None => None
  end.

(** [s.removesuffix(suffix)] *)
Definition remove_suffix (suffix s : string) : string :=
  if ends_with suffix s then str_take (String.length s - String.length suffix) s else s.

Definition parse_repo_fields (repo ref path : string) : res ParsedGitHubSource :=
  match repo_parts repo with
  | None => value_error "repo must be owner/repository"
  | Some (owner, repository) =>
      let! _ := raise_if (all_chars is_space ref) (ValueError "ref is required") in
      let! notebook := normalize_notebook_path path in
      Ok (mkParsed owner (remove_suffix ".git" repository) ref notebook)
  end.

(** ** [parse_github_blob_url] *)
Record ParsedBlobURL := mkBlob { bl_owner : string; bl_repository : string; bl_tail : list string }.

Definition parse_github_blob_url (url : string) : res ParsedBlobURL :=
  let! parsed := urlparse url in
  let! _ := raise_if (negb (String.eqb (us_scheme parsed) "https") || negb (bool_decide (hostname parsed = Some "github.com"%string)))
    (ValueError "only https://github.com notebook URLs are supported") in
  let parts := map unquote (List.filter (fun p => negb (String.eqb p "")) (split_on "/" (us_path parsed))) in
  match parts with
  | owner :: repository :: blob :: tail =>
      let! _ := raise_if (Nat.ltb (List.length parts) 5 || negb (String.eqb blob "blob"))
        (ValueError "expected a GitHub blob URL") in
      let! _ := raise_if (Nat.ltb (List.length tail) 2) (ValueError "missing ref or notebook path") in
      Ok (mkBlob owner repository tail)
  | _ => value_error "expected a GitHub blob URL"
  end.

(** ** [resolve_blob_tail] *)

(** The reference and the path when the tail is split after [n] parts. *)
Definition split_ref (tail : list string) (n : nat) : string := str_join "/" (firstn n tail).
Definition split_path (tail : list string) (n : nat) : string := str_join "/" (skipn n tail).

(** [range(1, len(tail))] *)
Definition split_points (tail : list string) : list nat := seq 1 (List.length tail - 1).

Definition candidate_at (tail : list string) (known : string -> bool) (n : nat) : option (nat * string * string) :=
  if known (split_ref tail n) then
    match normalize_notebook_path (split_path tail n) with
    | Ok normalized => Some (n, split_ref tail n, normalized)
    | Err _ => None
    end
  else None.

Definition candidates (tail : list string) (known : string -> bool) : list (nat * string * string) :=
  omap (candidate_at tail known) (split_points tail).

(** [max(candidates, key=lambda item: item[0])] *)
Definition max_candidate (c : nat * string * string) (l : list (nat * string * string)) : nat * string * string :=
  fold_left (fun best c => if Nat.ltb (fst (fst best)) (fst (fst c)) then c else best) l c.

Definition resolve_blob_tail (blob : ParsedBlobURL) (known : string -> bool) : res ParsedGitHubSource :=
  match candidates (bl_tail blob) known with
  | [] => value_error "could not resolve GitHub ref/path boundary"
  | c :: l =>
      let '(_, ref, path) := max_candidate c l in
      Ok (mkParsed (bl_owner blob) (bl_repository blob) ref path)
  end.

Example normalize_ex : map normalize_notebook_path ["a%20b/x.IPYNB"; "../x.ipynb"; "a.py"; "%2Fetc/x.ipynb"; "./n.ipynb"]%string
  = [Ok "a b/x.IPYNB"%string; value_error "unsafe notebook path"; value_error "target must be an .ipynb file";
     value_error "absolute notebook path is not allowed"; Ok "n.ipynb"%string].
Proof. vm_compute. reflexivity. Qed.

Example blob_ex :
  (let! blob := parse_github_blob_url "https://user@GitHub.com:443/o/r/blob/feat/x/nb/a.ipynb?raw=1#L1" in
   resolve_blob_tail blob (fun ref => str_mem ref ["feat"; "feat/x"]%string))
  = Ok (mkParsed "o" "r" "feat/x" "nb/a.ipynb").
Proof. vm_compute. reflexivity. Qed.

Example parse_repo_ex :
  map (fun r => rmap ps_repository (parse_repo_fields r "main" "a.ipynb")) ["o/r.git"; "o/.git"; "o"; "../r"; "o/r/x"]%string
  = [Ok "r"%string; Ok ""%string; value_error "repo must be owner/repository"; Ok "r"%string;
     value_error "repo must be owner/repository"].
Proof. vm_compute. reflexivity. Qed.

(** ** [GitHubResolver] *)

(** A response of the HTTP client. *)
Record Response := mkResponse {
  status_code : Z;
  response_json : res json;
  raise_for_status : res unit }.

Definition Urls : Type := list string.

Section GitHubResolver.
Context `{PyFloat} `{PyConversions}.
(** [self.client.get], which may answer differently every time or raise. *)
Context (client_get : Urls -> string -> res Response).

Definition http_get (url : string) : Eff Urls Response := fun h => (h ++ [url], client_get h url).

Definition object_json (r : Response) : res (list (string * json)) :=
  let! data := response_json r in
  match data with
  | JObj fields => Ok fields
  | _ => Err (TypeError "unexpected GitHub API response")
  end.

Definition get_json (url : string) : Eff Urls (list (string * json)) :=
  response ← http_get url;
  _ ← eff_lift (raise_for_status response);
  eff_lift (object_json response).

Definition commit_url (owner repository : json) (ref : string) : string :=
  ("https://api.github.com/repos/" ++ py_str owner ++ "/" ++ py_str repository ++ "/commits/" ++ quote unreserved ref)%string.

Definition unknown_commit (data : json) : bool :=
  match data with
  | JObj fields =>
      starts_with "No commit found for SHA:"
        (match obj_get "message" fields with Some v => py_str v | None => "" end)
  | _ => false
  end.

Definition resolve_commit_if_exists (owner repository : json) (ref : string)
  : Eff Urls (option (list (string * json))) :=
  response ← http_get (commit_url owner repository ref);
  if status_code response =? 404 then mret None
  else
    absent ← eff_lift (if status_code response =? 422
                       then let! data := response_json response in Ok (unknown_commit data)
                       else Ok false);
    if absent : bool then mret None
    else
      _ ← eff_lift (raise_for_status response);
      commit ← eff_lift (object_json response);
      mret (Some commit).

(** The loop of [_resolve_blob_url]: from the longest reference down. *)
Fixpoint longest_ref (owner repository : json) (tail : list string) (splits : list nat)
  : Eff Urls (string * string * list (string * json)) :=
  match splits with
  | [] => eff_raise (ValueError "could not resolve GitHub ref/path boundary")
  | n :: splits' =>
      match normalize_notebook_path (split_path tail n) with
      | Err _ => longest_ref owner repository tail splits'
      | Ok normalized =>
          commit ← resolve_commit_if_exists owner repository (split_ref tail n);
          match commit with
          | Some commit => mret (split_ref tail n, normalized, commit)
          | None => longest_ref owner repository tail splits'
          end
      end
  end.

Definition metadata_owner (metadata : list (string * json)) : res json :=
  let! owner := py_item "owner" (JObj metadata) in py_item "login" owner.

Definition resolve_blob_url (blob : ParsedBlobURL)
  : Eff Urls (string * string * list (string * json) * list (string * json)) :=
  metadata ← get_json ("https://api.github.com/repos/" ++ bl_owner blob ++ "/" ++ bl_repository blob);
  owner ← eff_lift (metadata_owner metadata);
  repository ← eff_lift (py_item "name" (JObj metadata));
  found ← longest_ref owner repository (bl_tail blob) (rev (split_points (bl_tail blob)));
  let '(ref, path, commit) := found in
  mret (ref, path, metadata, commit).

(** pydantic's check of a [str] field of [ResolvedSource]. *)
Definition str_field (v : json) : res string :=
  match v with JStr s => Ok s | _ => value_error "Input should be a valid string" end.

Definition resolved_source (ref path : string) (metadata commit : list (string * json)) : res ResolvedSource :=
  let! owner := metadata_owner metadata in
  let! repository := py_item "name" (JObj metadata) in
  let! clone_url := match obj_get "clone_url" metadata with
                    | Some (JStr s) =>
                        if starts_with "https://github.com/" s then Ok s
                        else value_error "GitHub returned an unexpected clone URL"
                    | _ => value_error "GitHub returned an unexpected clone URL"
                    end in
  let! repository_id := rbind (py_item "id" (JObj metadata)) py_int in
  let! sha := py_item "sha" (JObj commit) in
  let! owner := str_field owner in
  let! repository := str_field repository in
  let! node_id := match obj_get "node_id" metadata with
                  | None | Some JNull => Ok None
                  | Some v => rmap Some (str_field v)
                  end in
  validate_resolved (mkResolvedSource repository_id node_id owner repository ref (py_str sha) path clone_url).

Definition text_of (o : option string) : string := match o with Some s => s | None => "" end.

Definition resolve (request : LaunchRequest) : Eff Urls ResolvedSource :=
  if is_some (rq_workspace_id request) then
    eff_raise (ValueError "workspace reopen does not require GitHub resolution")
  else if truthy (rq_repo request) then
    parsed ← eff_lift (parse_repo_fields (text_of (rq_repo request)) (text_of (rq_ref request))
                         (text_of (rq_path request)));
    metadata ← get_json ("https://api.github.com/repos/" ++ ps_owner parsed ++ "/" ++ ps_repository parsed);
    owner ← eff_lift (metadata_owner metadata);
    repository ← eff_lift (py_item "name" (JObj metadata));
    commit ← get_json (commit_url owner repository (ps_requested_ref parsed));
    eff_lift (resolved_source (ps_requested_ref parsed) (ps_notebook_path parsed) metadata commit)
  else if truthy (rq_url request) then
    blob ← eff_lift (parse_github_blob_url (text_of (rq_url request)));
    found ← resolve_blob_url blob;
    let '(ref, path, metadata, commit) := found in
    eff_lift (resolved_source ref path metadata commit)
  else eff_raise (ValueError "GitHub source is required").
End GitHubResolver.

(** ** The resolver and [resolve_blob_tail] agree *)

(** The candidates of increasing split points: the largest is the last. *)
Lemma candidate_index tail known n c : candidate_at tail known n = Some c -> fst (fst c) = n.
Proof.
  unfold candidate_at. destruct (known _); [|discriminate]. destruct (normalize_notebook_path _); [|discriminate].
  now intros [= <-].
Qed.

Lemma last_cons_default {A} (c d : A) l : List.last (c :: l) d = List.last l c.
Proof.
  destruct l as [|x l _] using rev_ind; [reflexivity|].
  change (c :: l ++ [x]) with ((c :: l) ++ [x]). now rewrite !last_last.
Qed.

Lemma last_rev_head {A} (c : A) l : List.last l c = hd c (rev (c :: l)).
Proof.
  rewrite <- (last_cons_default c c l). generalize (c :: l). intros m. clear l.
  induction m as [|x m IH] using rev_ind; [reflexivity|]. rewrite last_last, rev_app_distr. reflexivity.
Qed.

Lemma max_candidate_last tail known m k best :
  (fst (fst best) < m)%nat ->
  max_candidate best (omap (candidate_at tail known) (seq m k))
  = List.last (omap (candidate_at tail known) (seq m k)) best.
Proof.
  revert m best. induction k as [|k IH]; intros m best Hb; [reflexivity|]. cbn [seq omap list_omap].
  destruct (candidate_at tail known m) as [c|] eqn:Ec; [|apply IH; lia].
  unfold max_candidate. cbn [fold_left]. apply candidate_index in Ec as Hi. rewrite Hi.
  rewrite (proj2 (Nat.ltb_lt (fst (fst best)) m) Hb). fold (max_candidate c (omap (candidate_at tail known) (seq (S m) k))).
  rewrite IH by lia. symmetry. apply last_cons_default.
Qed.

Lemma omap_rev {A B} (f : A -> option B) l : omap f (rev l) = rev (omap f l).
Proof.
  induction l as [|x l IH]; [reflexivity|]. cbn [rev]. rewrite omap_app, IH. cbn [omap list_omap].
  destruct (f x); [reflexivity|now rewrite app_nil_r].
Qed.

(** What [resolve_blob_tail] picks: the last candidate. *)
Lemma resolve_blob_tail_last blob known :
  resolve_blob_tail blob known
  = match rev (candidates (bl_tail blob) known) with
    | [] => value_error "could not resolve GitHub ref/path boundary"
    | (_, ref, path) :: _ => Ok (mkParsed (bl_owner blob) (bl_repository blob) ref path)
    end.
Proof.
  unfold resolve_blob_tail, candidates, split_points. generalize (List.length (bl_tail blob) - 1)%nat as k.
  generalize (bl_tail blob) as tail. intros tail k.
  assert (Hg : forall m, match omap (candidate_at tail known) (seq m k) with
    | [] => True
    | c :: l => max_candidate c l = List.last l c end).
  { clear blob. induction k as [|k IH]; intros m; [exact I|]. cbn [seq omap list_omap].
    destruct (candidate_at tail known m) as [c|] eqn:Ec; [|apply IH].
    apply max_candidate_last. apply candidate_index in Ec. lia. }
  specialize (Hg 1%nat). destruct (omap (candidate_at tail known) (seq 1 k)) as [|c l]; [reflexivity|].
  rewrite Hg, last_rev_head. destruct (rev (c :: l)) as [|x r] eqn:Er; [|reflexivity].
  apply (f_equal (@List.length _)) in Er. rewrite length_rev in Er. discriminate.
Qed.

Section Agreement.
Context `{PyFloat} `{PyConversions}.
Context (client_get : Urls -> string -> res Response) (owner repository : json).
(** A server whose answers about a reference do not change. *)
Context (commit_of : string -> option (list (string * json))).
Hypothesis stable : forall ref h,
  snd (resolve_commit_if_exists client_get owner repository ref h) = Ok (commit_of ref).

Lemma longest_ref_candidates tail splits h :
  snd (longest_ref client_get owner repository tail splits h)
  = match omap (candidate_at tail (fun ref => is_some (commit_of ref))) splits with
    | [] => value_error "could not resolve GitHub ref/path boundary"
    | (_, ref, path) :: _ =>
        match commit_of ref with
        | Some commit => Ok (ref, path, commit)
        | None => value_error "could not resolve GitHub ref/path boundary"
        end
    end.
Proof.
  revert h. induction splits as [|n splits IH]; intros h; [reflexivity|].
  cbn [longest_ref omap list_omap]. unfold candidate_at at 1.
  destruct (normalize_notebook_path (split_path tail n)) as [normalized|e].
  - unfold mbind, eff_bind. pose proof (stable (split_ref tail n) h) as Hst.
    destruct (resolve_commit_if_exists client_get owner repository (split_ref tail n) h) as [h' r].
    cbn [snd] in Hst. subst r. destruct (commit_of (split_ref tail n)) as [commit|] eqn:Ec; cbn [is_some].
    + now rewrite Ec.
    + apply IH.
  - destruct (is_some _); apply IH.
Qed.

(** C34: the resolver finds the longest reference.  Against a server whose
    answers about the references of a repository do not change, the loop of
    [_resolve_blob_url], which asks from the longest prefix of the URL down and
    stops at the first that exists, returns the reference and the notebook path
    that [resolve_blob_tail] computes from the set of all existing references,
    with that reference's commit; and it fails exactly when that fails. *)
Theorem resolver_finds_longest_ref blob h :
  snd (longest_ref client_get owner repository (bl_tail blob) (rev (split_points (bl_tail blob))) h)
  = let! parsed := resolve_blob_tail blob (fun ref => is_some (commit_of ref)) in
    match commit_of (ps_requested_ref parsed) with
    | Some commit => Ok (ps_requested_ref parsed, ps_notebook_path parsed, commit)
    | None => value_error "could not resolve GitHub ref/path boundary"
    end.
Proof.
  rewrite longest_ref_candidates, omap_rev, resolve_blob_tail_last. unfold candidates.
  now destruct (rev _) as [|[[n ref] path] l].
Qed.
End Agreement.

(** A server that knows one reference. *)
Definition sample_commit : list (string * json) := [("sha"%string, JStr (repeat_char 40 "a"))].
Definition sample_url : string := commit_url (JStr "o") (JStr "r") "feat/x".
Definition sample_server : Urls -> string -> res Response := fun _ url =>
  if String.eqb url sample_url then Ok (mkResponse 200 (Ok (JObj sample_commit)) (Ok tt))
  else Ok (mkResponse 404 (Ok (JObj [])) (Err (RuntimeError "404"))).
Definition sample_commit_of (ref : string) : option (list (string * json)) :=
  if String.eqb (commit_url (JStr "o") (JStr "r") ref) sample_url then Some sample_commit else None.

Lemma sample_server_stable ref h :
  snd (resolve_commit_if_exists sample_server (JStr "o") (JStr "r") ref h) = Ok (sample_commit_of ref).
Proof.
  unfold resolve_commit_if_exists, sample_commit_of, sample_server, http_get, mbind, eff_bind.
  destruct (String.eqb _ sample_url); reflexivity.
Qed.

Definition sample_blob : ParsedBlobURL := mkBlob "o" "r" ["feat"; "x"; "nb"; "a.ipynb"]%string.

Lemma resolver_finds_longest_ref_witness :
  snd (longest_ref sample_server (JStr "o") (JStr "r") (bl_tail sample_blob)
         (rev (split_points (bl_tail sample_blob))) [])
  = Ok ("feat/x"%string, "nb/a.ipynb"%string, sample_commit).
Proof.
  rewrite (resolver_finds_longest_ref sample_server (JStr "o") (JStr "r") sample_commit_of
             sample_server_stable sample_blob []).
  vm_compute. reflexivity.
Defined.
