(* ===== verification/Lifecycle.v ===== *)
(** * Session lifecycle (second half of src/notebook_launcher/orchestration.py)

    [LifecycleOrchestrator] over the protocols it calls.  The store, the
    runtime, the invalidators and the starter are protocols in the source; here
    they are an environment that answers every call from the calls made so far,
    so the theorems hold for any implementation of them, failing ones
    included. *)
From S2P Require Export Errors Models.

Record SessionSnapshot := mkSnapshot {
  sn_session_id : uuid;
  sn_workspace_id : uuid;
  sn_runtime_id : string;
  sn_state : string;
  sn_notebook_url : string;
  sn_active_notebook_path : string }.

(** ** The calls on the protocols *)
Inductive call :=
| RequireAuthorizedLaunch (launch_id workspace_id : uuid)
| ActiveSession (workspace_id : uuid)
| GetSession (session_id : uuid)
| ActiveNotebookExists (workspace_id : uuid)
| MarkSessionState (session_id : uuid) (state : string)
| IsAlive (runtime_id : string)
| StopRuntime (runtime_id : string)
| Invalidate (invalidator : nat) (session_id : uuid)
| Start (workspace_id launch_id : uuid).

Definition Calls : Type := list call.

(** [LifecycleStore], [RuntimeLifecycle], [SessionInvalidator] and
    [AuthorizedSessionStarter]: the answers, each of which may depend on what
    was called before. *)
Record Environment := mkEnvironment {
  on_require_authorized_launch : Calls -> uuid -> uuid -> res unit;
  on_active_session : Calls -> uuid -> res (option SessionSnapshot);
  on_get_session : Calls -> uuid -> res (option SessionSnapshot);
  on_active_notebook_exists : Calls -> uuid -> res bool;
  on_mark_session_state : Calls -> uuid -> string -> res unit;
  on_is_alive : Calls -> string -> res bool;
  on_stop : Calls -> string -> res unit;
  on_invalidate : Calls -> nat -> uuid -> res unit;
  on_start : Calls -> uuid -> uuid -> res SessionSnapshot }.

Definition perform {A} (c : call) (answer : Calls -> res A) : Eff Calls A := fun h =>
  (h ++ [c], answer h).

Definition live_states : list string := ["starting"; "ready"; "stopping"]%string.

Section LifecycleOrchestrator.
Context (env : Environment) (invalidators : list nat).

Definition store_get_session (s : uuid) : Eff Calls (option SessionSnapshot) :=
  perform (GetSession s) (fun h => on_get_session env h s).
Definition store_mark (s : uuid) (st : string) : Eff Calls unit :=
  perform (MarkSessionState s st) (fun h => on_mark_session_state env h s st).
Definition runtime_is_alive (r : string) : Eff Calls bool :=
  perform (IsAlive r) (fun h => on_is_alive env h r).
Definition runtime_stop (r : string) : Eff Calls unit :=
  perform (StopRuntime r) (fun h => on_stop env h r).

(** [for invalidator in self.invalidators: invalidator.invalidate(session_id)] *)
Definition invalidate_all (s : uuid) : Eff Calls unit :=
  eff_iter (fun i => perform (Invalidate i s) (fun h => on_invalidate env h i s)) invalidators.

Definition lifecycle_reconcile (s : uuid) : Eff Calls bool :=
  snapshot ← store_get_session s;
  match snapshot with
  | None => mret false
  | Some snapshot =>
      if negb (str_mem (sn_state snapshot) live_states) then mret false
      else
        alive ← runtime_is_alive (sn_runtime_id snapshot);
        if alive : bool then mret true
        else
          _ ← invalidate_all s;
          _ ← store_mark s "failed";
          mret false
  end.

Definition lifecycle_status (s : uuid) : Eff Calls (option SessionSnapshot) :=
  snapshot ← store_get_session s;
  match snapshot with
  | None => mret None
  | Some snapshot =>
      if str_mem (sn_state snapshot) live_states then
        _ ← lifecycle_reconcile s;
        store_get_session s
      else mret (Some snapshot)
  end.

Definition lifecycle_stop (s : uuid) : Eff Calls bool :=
  snapshot ← store_get_session s;
  match snapshot with
  | None => mret false
  | Some snapshot =>
      if str_mem (sn_state snapshot) ["stopped"; "failed"]%string then
        _ ← invalidate_all s;
        mret true
      else
        _ ← store_mark s "stopping";
        alive ← runtime_is_alive (sn_runtime_id snapshot);
        _ ← (if alive : bool then runtime_stop (sn_runtime_id snapshot) else mret tt);
        _ ← invalidate_all s;
        _ ← store_mark s "stopped";
        mret true
  end.

(** [existing is not None and self.runtime.is_alive(existing.runtime_id)] *)
Definition existing_alive (existing : option SessionSnapshot) : Eff Calls bool :=
  match existing with
  | None => mret false
  | Some e => runtime_is_alive (sn_runtime_id e)
  end.

(** A session whose runtime is dead is invalidated and recorded as failed. *)
Definition retire (e : SessionSnapshot) : Eff Calls unit :=
  _ ← invalidate_all (sn_session_id e);
  store_mark (sn_session_id e) "failed".

Definition reopen (workspace_id authorized_launch_id : uuid)
  : Eff Calls (SessionSnapshot * bool) :=
  _ ← perform (RequireAuthorizedLaunch authorized_launch_id workspace_id)
        (fun h => on_require_authorized_launch env h authorized_launch_id workspace_id);
  existing ← perform (ActiveSession workspace_id) (fun h => on_active_session env h workspace_id);
  alive ← existing_alive existing;
  match existing, alive with
  | Some e, true => mret (e, true)
  | _, _ =>
      _ ← match existing with
          | Some e => retire e
          | None => mret tt
          end;
      present ← perform (ActiveNotebookExists workspace_id)
                  (fun h => on_active_notebook_exists env h workspace_id);
      if negb present then eff_raise (FileNotFoundError "workspace active notebook is missing")
      else
        started ← perform (Start workspace_id authorized_launch_id)
                    (fun h => on_start env h workspace_id authorized_launch_id);
        mret (started, false)
  end.
End LifecycleOrchestrator.

(** ** Traces *)
Section Traces.
Context (env : Environment) (invalidators : list nat).

(** Every invalidator answered without raising, in order. *)
Fixpoint all_invalidated (s : uuid) (h : Calls) (l : list nat) : Prop :=
  match l with
  | [] => True
  | i :: l' => on_invalidate env h i s = Ok tt /\ all_invalidated s (h ++ [Invalidate i s]) l'
  end.

Definition invalidations (s : uuid) (l : list nat) : Calls := map (fun i => Invalidate i s) l.

Lemma invalidate_all_ok s h h' u :
  invalidate_all env invalidators s h = (h', Ok u) ->
  h' = h ++ invalidations s invalidators /\ all_invalidated s h invalidators.
Proof.
  unfold invalidate_all, perform, invalidations. revert h.
  induction invalidators as [|i l IH]; intros h H; simpl in *.
  - injection H as -> _. rewrite app_nil_r. auto.
  - destruct (on_invalidate env h i s) as [[]|e] eqn:E; [|discriminate].
    apply IH in H as [-> H]. rewrite <- app_assoc. auto.
Qed.

Lemma invalidate_all_err s h h' e :
  invalidate_all env invalidators s h = (h', Err e) -> exists l, h' = h ++ invalidations s l.
Proof.
  unfold invalidate_all, perform, invalidations. revert h.
  induction invalidators as [|i l IH]; intros h H; simpl in *; [discriminate|].
  destruct (on_invalidate env h i s) as [[]|e'] eqn:E.
  - apply IH in H as [l' ->]. exists (i :: l'). now rewrite <- app_assoc.
  - injection H as <- _. now exists [i].
Qed.

Lemma invalidations_mark s t st l : ~ In (MarkSessionState t st) (invalidations s l).
Proof. unfold invalidations. rewrite in_map_iff. intros (i & Hi & _). discriminate. Qed.

Lemma invalidations_start s w i l : ~ In (Start w i) (invalidations s l).
Proof. unfold invalidations. rewrite in_map_iff. intros (j & Hj & _). discriminate. Qed.
End Traces.

(** The calls [stop] makes before it records the session as stopped. *)
Definition teardown_calls (s : uuid) (runtime : string) (alive : bool) : Calls :=
  [GetSession s; MarkSessionState s "stopping"; IsAlive runtime]
    ++ if alive then [StopRuntime runtime] else [].

(** Runs the next call of a trace: in the first goal it raised, in the second
    it answered. *)
Tactic Notation "next_call" hyp(H) ident(a) ident(E) :=
  let e := fresh "e" in let h1 := fresh "h1" in let Hh := fresh "Hh" in
  apply bind_inv in H as [(e & E & ->)|(h1 & a & E & H)];
  unfold store_get_session, store_mark, runtime_is_alive, runtime_stop, perform in E;
  injection E as Hh E; subst.

(** The calls made so far are [l] and the last of them raised. *)
Ltac early l :=
  exists l; split; [now rewrite <- ?app_assoc|];
  left; split; [simpl; intuition congruence|reflexivity].

(** What the calls of [stop] look like on a session that is not ended: they
    break off before the session is recorded as stopped, or they are the
    complete teardown. *)
Definition torn_down (env : Environment) (invs : list nat) (s : uuid) (h : Calls)
    (sn : SessionSnapshot) (tr : Calls) : Prop :=
  exists alive,
    on_is_alive env (h ++ [GetSession s; MarkSessionState s "stopping"]) (sn_runtime_id sn) = Ok alive
    /\ (alive = true ->
        on_stop env (h ++ teardown_calls s (sn_runtime_id sn) false) (sn_runtime_id sn) = Ok tt)
    /\ all_invalidated env s (h ++ teardown_calls s (sn_runtime_id sn) alive) invs
    /\ tr = teardown_calls s (sn_runtime_id sn) alive ++ invalidations s invs
              ++ [MarkSessionState s "stopped"].

Definition breaks_off (s : uuid) (tr : Calls) {A} (r : res A) : Prop :=
  ~ In (MarkSessionState s "stopped") tr /\ is_ok r = false.

(** The last two steps of [stop]. *)
Lemma stop_finish env invs s h pre h' r :
  (_ ← invalidate_all env invs s; _ ← store_mark env s "stopped"; mret true) (h ++ pre) = (h', r) ->
  ~ In (MarkSessionState s "stopped") pre ->
  exists tr, h' = h ++ tr /\
    (breaks_off s tr r
     \/ (all_invalidated env s (h ++ pre) invs
         /\ tr = pre ++ invalidations s invs ++ [MarkSessionState s "stopped"])).
Proof.
  intros H Hpre. apply bind_inv in H as [(e & E & ->)|(h1 & [] & E & H)].
  - apply invalidate_all_err in E as (l & ->). exists (pre ++ invalidations s l).
    split; [now rewrite <- app_assoc|]. left. split; [|reflexivity].
    rewrite in_app_iff. intros [Hi|Hi]; [auto|]. exact (invalidations_mark _ _ _ _ Hi).
  - apply invalidate_all_ok in E as [-> Hall]. exists (pre ++ invalidations s invs ++ [MarkSessionState s "stopped"]).
    split; [|auto]. next_call H a E; [now rewrite <- !app_assoc|].
    injection H as <- _. now rewrite <- !app_assoc.
Qed.

Lemma stop_trace env invs s h h' r sn :
  on_get_session env h s = Ok (Some sn) ->
  str_mem (sn_state sn) ["stopped"; "failed"]%string = false ->
  lifecycle_stop env invs s h = (h', r) ->
  exists tr, h' = h ++ tr /\ (breaks_off s tr r \/ torn_down env invs s h sn tr).
Proof.
  intros Hget Hlive H. unfold lifecycle_stop in H. next_call H o E; [congruence|].
  assert (o = Some sn) as -> by congruence. cbv beta iota in H. rewrite Hlive in H.
  next_call H u E0; [early [GetSession s; MarkSessionState s "stopping"]|].
  next_call H a1 E1; [early (teardown_calls s (sn_runtime_id sn) false)|].
  rewrite <- !app_assoc in H. cbn [app] in H. rewrite <- app_assoc in E1. cbn [app] in E1.
  apply bind_inv in H as [(e & E2 & ->)|(h1 & [] & E2 & H)].
  - destruct a1; [|discriminate]. unfold runtime_stop, perform in E2. injection E2 as <- E2.
    early (teardown_calls s (sn_runtime_id sn) true).
  - assert (Hh : h1 = h ++ teardown_calls s (sn_runtime_id sn) a1
              /\ (a1 = true -> on_stop env (h ++ teardown_calls s (sn_runtime_id sn) false)
                                 (sn_runtime_id sn) = Ok tt)).
    { destruct a1.
      - unfold runtime_stop, perform in E2. injection E2 as <- E2. rewrite <- app_assoc. auto.
      - injection E2 as <-. split; [reflexivity|discriminate]. }
    destruct Hh as [-> Hstop]. apply stop_finish in H as (tr & -> & Htr).
    + exists tr. split; [reflexivity|]. destruct Htr as [Hb|[Hall ->]]; [now left|].
      right. exists a1. auto.
    + destruct a1; simpl; intuition congruence.
Qed.

(** A session is recorded as stopped only after its teardown.  Whatever
    the store, the runtime and the invalidators answer, if [stop] records a
    session as stopped then it first recorded it as stopping, found the runtime
    dead or stopped it without error, and ran every invalidator, in order and
    without error; and when [stop] reports success for a live session it did
    all of that. *)
Theorem stopped_after_teardown env invs s h h' r sn :
  on_get_session env h s = Ok (Some sn) ->
  str_mem (sn_state sn) ["stopped"; "failed"]%string = false ->
  lifecycle_stop env invs s h = (h', r) ->
  exists tr, h' = h ++ tr
    /\ (In (MarkSessionState s "stopped") tr \/ is_ok r = true -> torn_down env invs s h sn tr).
Proof.
  intros Hget Hlive H. apply (stop_trace _ _ _ _ _ _ sn) in H as (tr & -> & Htr); [|assumption..].
  exists tr. split; [reflexivity|]. intros Hor. destruct Htr as [[Hno Herr]|Ht]; [|exact Ht].
  destruct Hor; [contradiction|congruence].
Qed.

(** ** Reopening *)

(** The calls [reopen] makes before it starts a session. *)
Definition reopen_prelude (invs : list nat) (w l : uuid) (existing : option SessionSnapshot) : Calls :=
  [RequireAuthorizedLaunch l w; ActiveSession w] ++
  match existing with
  | None => []
  | Some e => [IsAlive (sn_runtime_id e)] ++ invalidations (sn_session_id e) invs
                ++ [MarkSessionState (sn_session_id e) "failed"]
  end.

Definition never_starts (w l : uuid) (tr : Calls) (r : res (SessionSnapshot * bool)) : Prop :=
  ~ In (Start w l) tr /\ is_ok r = false.

(** [reopen] started a session, after all of its checks. *)
Definition starts (env : Environment) (invs : list nat) (w l : uuid) (h tr : Calls)
    (r : res (SessionSnapshot * bool)) : Prop :=
  exists existing,
    on_require_authorized_launch env h l w = Ok tt
    /\ on_active_session env (h ++ [RequireAuthorizedLaunch l w]) w = Ok existing
    /\ (forall e, existing = Some e ->
          on_is_alive env (h ++ [RequireAuthorizedLaunch l w; ActiveSession w]) (sn_runtime_id e) = Ok false)
    /\ on_active_notebook_exists env (h ++ reopen_prelude invs w l existing) w = Ok true
    /\ tr = reopen_prelude invs w l existing ++ [ActiveNotebookExists w; Start w l]
    /\ forall sn, r <> Ok (sn, true).

(** [reopen] found the workspace's session alive. *)
Definition reuses (env : Environment) (w l : uuid) (h tr : Calls)
    (r : res (SessionSnapshot * bool)) : Prop :=
  exists e,
    on_active_session env (h ++ [RequireAuthorizedLaunch l w]) w = Ok (Some e)
    /\ on_is_alive env (h ++ [RequireAuthorizedLaunch l w; ActiveSession w]) (sn_runtime_id e) = Ok true
    /\ r = Ok (e, true) /\ ~ In (Start w l) tr.

Lemma prelude_no_start invs w l existing : ~ In (Start w l) (reopen_prelude invs w l existing).
Proof.
  unfold reopen_prelude. destruct existing as [e|]; simpl; [|intuition congruence].
  rewrite in_app_iff. intros [H|[H|[H|[H|[H|[]]]]]]; try discriminate.
  exact (invalidations_start _ _ _ _ H).
Qed.

Lemma reopen_finish env w l h pre h' r :
  (present ← perform (ActiveNotebookExists w) (fun h => on_active_notebook_exists env h w);
   if negb present then eff_raise (FileNotFoundError "workspace active notebook is missing")
   else started ← perform (Start w l) (fun h => on_start env h w l); mret (started, false)) (h ++ pre)
  = (h', r) ->
  ~ In (Start w l) pre ->
  exists tr, h' = h ++ tr /\
    (never_starts w l tr r
     \/ (on_active_notebook_exists env (h ++ pre) w = Ok true
         /\ tr = pre ++ [ActiveNotebookExists w; Start w l] /\ forall sn, r <> Ok (sn, true))).
Proof.
  intros H Hpre. next_call H present E.
  - exists (pre ++ [ActiveNotebookExists w]). rewrite <- app_assoc. split; [reflexivity|].
    left. split; [|reflexivity]. rewrite in_app_iff. simpl. intuition congruence.
  - rewrite <- app_assoc in H. destruct present; simpl negb in H; cbv iota in H.
    + exists (pre ++ [ActiveNotebookExists w; Start w l]).
      next_call H started E0; [|injection H as <- <-]; rewrite <- !app_assoc;
        (split; [reflexivity|]); right; (split; [exact E|]); split; congruence.
    + injection H as <- <-. exists (pre ++ [ActiveNotebookExists w]). split; [reflexivity|].
      left. split; [|reflexivity]. rewrite in_app_iff. simpl. intuition congruence.
Qed.

Lemma retire_err env invs e h h' x :
  retire env invs e h = (h', Err x) ->
  exists tr, h' = h ++ tr /\ forall w l, ~ In (Start w l) tr.
Proof.
  intros H. unfold retire in H. apply bind_inv in H as [(e1 & E & _)|(h1 & [] & E & H)].
  - apply invalidate_all_err in E as (l & ->). eexists. split; [reflexivity|].
    intros w i. apply invalidations_start.
  - apply invalidate_all_ok in E as [-> _]. unfold store_mark, perform in H. injection H as <- _.
    rewrite <- app_assoc. eexists. split; [reflexivity|]. intros w i Hi.
    apply in_app_iff in Hi as [Hi|[Hi|[]]]; [|discriminate]. exact (invalidations_start _ _ _ _ Hi).
Qed.

Lemma retire_ok env invs e h h' u :
  retire env invs e h = (h', Ok u) ->
  h' = h ++ invalidations (sn_session_id e) invs ++ [MarkSessionState (sn_session_id e) "failed"].
Proof.
  intros H. unfold retire in H. apply bind_inv in H as [(e1 & E & [=])|(h1 & [] & E & H)].
  apply invalidate_all_ok in E as [-> _]. unfold store_mark, perform in H. injection H as <- _.
  now rewrite <- app_assoc.
Qed.

Lemma start_checked env invs w l h h' r existing :
  on_require_authorized_launch env h l w = Ok tt ->
  on_active_session env (h ++ [RequireAuthorizedLaunch l w]) w = Ok existing ->
  (forall e, existing = Some e ->
     on_is_alive env (h ++ [RequireAuthorizedLaunch l w; ActiveSession w]) (sn_runtime_id e) = Ok false) ->
  (present ← perform (ActiveNotebookExists w) (fun h => on_active_notebook_exists env h w);
   if negb present then eff_raise (FileNotFoundError "workspace active notebook is missing")
   else started ← perform (Start w l) (fun h => on_start env h w l); mret (started, false))
    (h ++ reopen_prelude invs w l existing) = (h', r) ->
  exists tr, h' = h ++ tr /\
    (never_starts w l tr r \/ starts env invs w l h tr r \/ reuses env w l h tr r).
Proof.
  intros Ha Hs Halive H.
  apply reopen_finish in H as (tr & -> & [Hno|(Hx & -> & Hne)]); [| |apply prelude_no_start].
  - exists tr. auto.
  - eexists. split; [reflexivity|]. right; left. exists existing. auto 10.
Qed.

(** The calls made so far are [l], none of them starts a session and the last
    of them raised. *)
Ltac no_start l :=
  exists l; split; [now rewrite <- ?app_assoc|];
  left; split; [simpl; intuition congruence|reflexivity].

Lemma reopen_trace env invs w l h h' r :
  reopen env invs w l h = (h', r) ->
  exists tr, h' = h ++ tr /\
    (never_starts w l tr r \/ starts env invs w l h tr r \/ reuses env w l h tr r).
Proof.
  intros H. unfold reopen in H. next_call H u E; [no_start [RequireAuthorizedLaunch l w]|].
  next_call H existing E0; [no_start [RequireAuthorizedLaunch l w; ActiveSession w]|].
  rewrite <- app_assoc in H. cbn [app] in H. destruct u.
  apply bind_inv in H as [(e & E1 & ->)|(h1 & alive & E1 & H)].
  - destruct existing as [x|]; [|discriminate]. unfold existing_alive, runtime_is_alive, perform in E1.
    injection E1 as <- E1.
    no_start [RequireAuthorizedLaunch l w; ActiveSession w; IsAlive (sn_runtime_id x)].
  - destruct existing as [x|].
    + unfold existing_alive, runtime_is_alive, perform in E1. injection E1 as <- E1.
      rewrite <- app_assoc in H. cbn [app] in H. destruct alive.
      * injection H as <- <-.
        exists [RequireAuthorizedLaunch l w; ActiveSession w; IsAlive (sn_runtime_id x)].
        split; [reflexivity|]. right; right. exists x. repeat split; auto. simpl. intuition congruence.
      * apply bind_inv in H as [(e & E2 & ->)|(h1 & [] & E2 & H)].
        -- apply retire_err in E2 as (tr & -> & Hno). rewrite <- app_assoc.
           eexists. split; [reflexivity|]. left. split; [|reflexivity].
           intros [Hi|[Hi|[Hi|Hi]]]; [discriminate..|exact (Hno _ _ Hi)].
        -- apply retire_ok in E2 as ->. rewrite <- app_assoc in H.
           apply (start_checked env invs w l h h' r (Some x)); [assumption..| |exact H].
           intros e [= <-]. exact E1.
    + injection E1 as <- <-. apply (start_checked env invs w l h h' r None); [assumption..|discriminate|exact H].
Qed.

(** Reopening never starts a second runtime beside a live one.  Whatever
    the store, the runtime, the invalidators and the starter answer, if
    [reopen] starts a session then the launch was authorized for the workspace,
    the workspace's recorded session was absent, or its runtime was found dead
    and it was invalidated and recorded as failed before; the active notebook
    exists; and the start is the last call and the only one.  If it returns a
    reused session then that is the recorded session, found alive, and nothing
    was started. *)
Theorem reopen_single_runtime env invs w l h h' r :
  reopen env invs w l h = (h', r) ->
  exists tr, h' = h ++ tr
    /\ (In (Start w l) tr -> starts env invs w l h tr r)
    /\ (forall sn, r = Ok (sn, true) -> reuses env w l h tr r)
    /\ (forall sn, r = Ok (sn, false) -> starts env invs w l h tr r).
Proof.
  intros H. apply reopen_trace in H as (tr & -> & Htr). exists tr. split; [reflexivity|].
  destruct Htr as [[Hno Herr]|[Hs|Hr]].
  - split; [contradiction|]. split; intros sn ->; discriminate.
  - split; [auto|]. split; [|auto]. intros sn ->.
    destruct Hs as (x & _ & _ & _ & _ & _ & Hne). now destruct (Hne sn).
  - split; [|split; [auto|]].
    + destruct Hr as (e & _ & _ & _ & Hno). contradiction.
    + intros sn ->. destruct Hr as (e & _ & _ & [=] & _).
Qed.

(** ** Witnesses *)
Definition sample_snapshot (st : string) : SessionSnapshot :=
  mkSnapshot "se-1" "ws-1" "runtime-1" st "http://127.0.0.1" "a.ipynb".

(** A session with a runtime that is [alive] and services that do not fail. *)
Definition sample_environment (st : string) (alive : bool) : Environment := {|
  on_require_authorized_launch _ _ _ := Ok tt;
  on_active_session _ _ := Ok (Some (sample_snapshot st));
  on_get_session _ _ := Ok (Some (sample_snapshot st));
  on_active_notebook_exists _ _ := Ok true;
  on_mark_session_state _ _ _ := Ok tt;
  on_is_alive _ _ := Ok alive;
  on_stop _ _ := Ok tt;
  on_invalidate _ _ _ := Ok tt;
  on_start _ _ _ := Ok (sample_snapshot "starting") |}.

Lemma stopped_after_teardown_witness :
  exists tr, fst (lifecycle_stop (sample_environment "ready" true) [0%nat; 1%nat] "se-1" []) = [] ++ tr
    /\ (In (MarkSessionState "se-1" "stopped") tr
        \/ is_ok (snd (lifecycle_stop (sample_environment "ready" true) [0%nat; 1%nat] "se-1" [])) = true ->
        torn_down (sample_environment "ready" true) [0%nat; 1%nat] "se-1" [] (sample_snapshot "ready") tr).
Proof.
  exact (stopped_after_teardown (sample_environment "ready" true) [0%nat; 1%nat] "se-1" []
           (fst (lifecycle_stop (sample_environment "ready" true) [0%nat; 1%nat] "se-1" []))
           (snd (lifecycle_stop (sample_environment "ready" true) [0%nat; 1%nat] "se-1" []))
           (sample_snapshot "ready") eq_refl eq_refl eq_refl).
Defined.

Example stop_ex :
  lifecycle_stop (sample_environment "ready" true) [0%nat; 1%nat] "se-1" []
  = ([GetSession "se-1"; MarkSessionState "se-1" "stopping"; IsAlive "runtime-1"; StopRuntime "runtime-1";
      Invalidate 0 "se-1"; Invalidate 1 "se-1"; MarkSessionState "se-1" "stopped"], Ok true).
Proof. reflexivity. Qed.

Lemma reopen_single_runtime_witness :
  exists tr, fst (reopen (sample_environment "ready" false) [0%nat] "ws-1" "la-1" []) = [] ++ tr
    /\ starts (sample_environment "ready" false) [0%nat] "ws-1" "la-1" [] tr
         (snd (reopen (sample_environment "ready" false) [0%nat] "ws-1" "la-1" [])).
Proof.
  destruct (reopen_single_runtime (sample_environment "ready" false) [0%nat] "ws-1" "la-1" []
              (fst (reopen (sample_environment "ready" false) [0%nat] "ws-1" "la-1" []))
              (snd (reopen (sample_environment "ready" false) [0%nat] "ws-1" "la-1" [])) eq_refl)
    as (tr & Htr & _ & _ & Hs).
  exists tr. split; [exact Htr|]. exact (Hs _ eq_refl).
Defined.
