(* ===== verification/Sql.v ===== *)
(** * Tables, constraints and statements of SQLite, as the launcher uses them

    A table is the list of its rows in rowid order.  A [Table] instance gives
    the schema of a table: [tbl_check] is the conjunction of its NOT NULL and
    CHECK constraints, [tbl_conflict] holds of two rows that agree on the
    PRIMARY KEY or on the key of a (partial) UNIQUE index.  A statement that
    would break a constraint raises [sqlite3.IntegrityError]; it is the only
    way these statements fail in the model ([None] below). *)
From S2P Require Export IsoTime.

Class Table (R : Type) := {
  tbl_check : R -> bool;
  tbl_conflict : R -> R -> bool;
  tbl_conflict_sym : forall a b, tbl_conflict a b = tbl_conflict b a
}.

Section Statements.
Context {R : Type} `{Table R}.
Implicit Types (t : list R) (r : R) (p : R -> bool) (f : R -> R).

Definition no_conflict t r : bool := forallb (fun x => negb (tbl_conflict x r)) t.

(** Every constraint of the table holds. *)
Fixpoint tbl_ok t : bool :=
  match t with
  | [] => true
  | r :: t' => tbl_check r && no_conflict t' r && tbl_ok t'
  end.

(** [SELECT ... WHERE p] and its first row. *)
Definition select p t : list R := List.filter p t.
Definition fetchone p t : option R := List.find p t.

(** [INSERT INTO ... VALUES r] *)
Definition sql_insert r t : option (list R) :=
  if tbl_check r && no_conflict t r then Some (t ++ [r]) else None.

(** [INSERT OR REPLACE]: the conflicting rows are deleted first. *)
Definition sql_replace r t : option (list R) :=
  if tbl_check r then
    Some (List.filter (fun x => negb (tbl_conflict x r)) t ++ [r])
  else None.

(** [UPDATE ... SET f WHERE p] with [cursor.rowcount]. *)
Definition sql_update p f t : option (list R * Z) :=
  let t' := map (fun r => if p r then f r else r) t in
  if tbl_ok t' then Some (t', Z.of_nat (List.length (select p t))) else None.

(** ** Lemmas on statements *)
Lemma no_conflict_In t r x :
  no_conflict t r = true -> In x t -> tbl_conflict x r = false.
Proof.
  unfold no_conflict. rewrite forallb_forall. intros Hn Hx.
  now apply negb_true_iff, Hn.
Qed.

Lemma tbl_ok_app t1 t2 :
  tbl_ok (t1 ++ t2) = tbl_ok t1 && tbl_ok t2 && forallb (no_conflict t2) t1.
Proof.
  induction t1 as [|r t1 IH]; simpl; [now rewrite andb_true_r|].
  rewrite IH. unfold no_conflict at 1. rewrite forallb_app.
  fold (no_conflict t1 r) (no_conflict t2 r).
  destruct (tbl_check r), (no_conflict t1 r), (no_conflict t2 r), (tbl_ok t1), (tbl_ok t2);
    simpl; rewrite ?andb_false_r; reflexivity.
Qed.

Lemma tbl_ok_snoc t r :
  tbl_ok (t ++ [r]) = tbl_ok t && tbl_check r && no_conflict t r.
Proof.
  rewrite tbl_ok_app. f_equal.
  - simpl. now rewrite !andb_true_r.
  - unfold no_conflict. induction t as [|x t IH]; [reflexivity|].
    simpl in *. now rewrite IH, tbl_conflict_sym, andb_true_r.
Qed.

Lemma tbl_ok_check t r : tbl_ok t = true -> In r t -> tbl_check r = true.
Proof.
  induction t as [|x t IH]; simpl; [easy|]. intros Ht [->|Hr]; bool_to_prop; auto.
Qed.

(** Two conflicting rows of a well-formed table are the same row. *)
Lemma tbl_ok_unique t r x :
  tbl_ok t = true -> In r t -> In x t -> tbl_conflict r x = true -> r = x.
Proof.
  induction t as [|y t IH]; simpl; [easy|]. intros Ht Hr Hx Hc. bool_to_prop.
  destruct Hr as [->|Hr], Hx as [->|Hx]; auto.
  - rewrite tbl_conflict_sym, (no_conflict_In t r) in Hc by assumption. discriminate.
  - rewrite (no_conflict_In t x) in Hc by assumption. discriminate.
Qed.

Lemma sql_insert_spec r t t' :
  sql_insert r t = Some t' ->
  t' = t ++ [r] /\ tbl_check r = true /\ no_conflict t r = true.
Proof.
  unfold sql_insert. destruct (tbl_check r && no_conflict t r) eqn:E; [|discriminate].
  intros [= <-]. bool_to_prop. auto.
Qed.

Lemma sql_insert_ok r t t' :
  tbl_ok t = true -> sql_insert r t = Some t' -> tbl_ok t' = true.
Proof.
  intros Ht Hi. apply sql_insert_spec in Hi as (-> & Hc & Hn).
  now rewrite tbl_ok_snoc, Ht, Hc, Hn.
Qed.

Lemma tbl_ok_filter p t : tbl_ok t = true -> tbl_ok (List.filter p t) = true.
Proof.
  induction t as [|r t IH]; simpl; [easy|]. intros Ht. bool_to_prop.
  destruct (p r); simpl; auto. rewrite H0, IH by assumption.
  apply andb_true_iff; split; [|reflexivity]. simpl.
  unfold no_conflict in *. rewrite forallb_forall in *.
  intros x Hx. apply filter_In in Hx as [Hx _]. auto.
Qed.

Lemma sql_replace_ok r t t' :
  tbl_ok t = true -> sql_replace r t = Some t' -> tbl_ok t' = true.
Proof.
  unfold sql_replace. intros Ht. destruct (tbl_check r) eqn:Hc; [|discriminate].
  intros [= <-]. rewrite tbl_ok_snoc, tbl_ok_filter, Hc by assumption.
  unfold no_conflict. apply forallb_forall. intros x Hx.
  now apply filter_In in Hx as [_ ->].
Qed.

Lemma sql_update_spec p f t t' n :
  sql_update p f t = Some (t', n) ->
  t' = map (fun r => if p r then f r else r) t /\ n = Z.of_nat (List.length (select p t))
  /\ tbl_ok t' = true.
Proof.
  unfold sql_update. destruct (tbl_ok _) eqn:E; [|discriminate].
  intros [= <- <-]. auto.
Qed.

Lemma sql_update_ok p f t t' n : sql_update p f t = Some (t', n) -> tbl_ok t' = true.
Proof. intros Hu. now apply sql_update_spec in Hu. Qed.

(** An UPDATE that keeps the checks and does not create index entries
    cannot break a constraint. *)
Lemma sql_update_monotone p f t :
  tbl_ok t = true ->
  (forall r, In r t -> p r = true -> tbl_check r = true -> tbl_check (f r) = true) ->
  (forall r x, In r t -> In x t -> p r = true ->
     tbl_conflict (f r) x = true -> tbl_conflict r x = true) ->
  (forall r x, In r t -> In x t -> p r = true -> p x = true ->
     tbl_conflict (f r) (f x) = true -> tbl_conflict r x = true) ->
  exists t', sql_update p f t = Some (t', Z.of_nat (List.length (select p t))).
Proof.
  intros Ht Hchk Hone Htwo. unfold sql_update.
  enough (tbl_ok (map (fun r => if p r then f r else r) t) = true) as -> by eauto.
  induction t as [|r t IH]; [reflexivity|]. simpl in Ht |- *. bool_to_prop.
  rewrite IH; try (intros; simpl in *; eauto; fail).
  rewrite andb_true_r. apply andb_true_iff; split.
  - destruct (p r) eqn:Hpr; [apply Hchk; simpl; auto|assumption].
  - unfold no_conflict. rewrite forallb_map. apply forallb_forall. intros x Hx.
    pose proof (no_conflict_In t r x ltac:(assumption) Hx) as Hn.
    apply negb_true_iff, not_true_iff_false. intros Hc.
    enough (tbl_conflict x r = true) by congruence.
    destruct (p x) eqn:Hpx, (p r) eqn:Hpr.
    + apply Htwo; simpl; auto.
    + apply Hone; simpl; auto.
    + rewrite tbl_conflict_sym. apply Hone; simpl; auto. now rewrite tbl_conflict_sym.
    + assumption.
Qed.

Lemma fetchone_some p t r : fetchone p t = Some r -> In r t /\ p r = true.
Proof. apply find_some. Qed.

Lemma fetchone_none p t : fetchone p t = None <-> forall r, In r t -> p r = false.
Proof. apply find_none_iff. Qed.

Lemma select_spec p t r : In r (select p t) <-> In r t /\ p r = true.
Proof. apply filter_In. Qed.

(** An UPDATE that does not move rows in or out of a query. *)
Lemma fetchone_map (q p : R -> bool) f t :
  (forall r, In r t -> q (f r) = q r) ->
  fetchone q (map (fun r => if p r then f r else r) t)
  = option_map (fun r => if p r then f r else r) (fetchone q t).
Proof.
  unfold fetchone. induction t as [|r t IH]; intros Hq; simpl; [reflexivity|].
  rewrite IH by (intros; apply Hq; simpl; auto).
  replace (q (if p r then f r else r)) with (q r)
    by (destruct (p r); [rewrite Hq; simpl; auto|reflexivity]).
  now destruct (q r).
Qed.

(** An UPDATE of rows that a query does not see, before or after. *)
Lemma select_map_other (q p : R -> bool) f t :
  (forall r, In r t -> p r = true -> q r = false /\ q (f r) = false) ->
  select q (map (fun r => if p r then f r else r) t) = select q t.
Proof.
  unfold select. induction t as [|r t IH]; intros Hq; simpl; [reflexivity|].
  rewrite IH by (intros; apply Hq; simpl; auto). destruct (p r) eqn:Hp; [|reflexivity].
  destruct (Hq r (or_introl eq_refl) Hp) as [-> ->]. reflexivity.
Qed.

Lemma select_snoc_other (q : R -> bool) r t : q r = false -> select q (t ++ [r]) = select q t.
Proof. intros Hq. unfold select. rewrite List.filter_app. simpl. rewrite Hq. apply app_nil_r. Qed.

(** When the selected rows all conflict with each other, there is at most one. *)
Lemma select_at_most_one p t :
  tbl_ok t = true ->
  (forall r x, In r t -> In x t -> p r = true -> p x = true -> tbl_conflict r x = true) ->
  select p t = [] \/ exists r, select p t = [r].
Proof.
  induction t as [|y t IH]; simpl; [auto|]. intros Ht Hp. bool_to_prop.
  destruct (p y) eqn:Hy; [|apply IH; auto].
  right. exists y. f_equal. apply filter_nil_iff. intros x Hx.
  destruct (p x) eqn:Hpx; [|reflexivity].
  pose proof (Hp x y ltac:(auto) ltac:(auto) Hpx Hy) as Hc.
  rewrite (no_conflict_In t y x) in Hc by assumption. discriminate.
Qed.
End Statements.

(** ** Rows found by their PRIMARY KEY *)
Class Keyed (R : Type) `{Table R} := {
  pk : R -> string;
  pk_conflict : forall a b, pk a = pk b -> tbl_conflict a b = true }.

Section ByKey.
Context {R : Type} `{Keyed R}.
Implicit Types (t : list R) (r : R) (i : string).

Definition by_key i r : bool := String.eqb (pk r) i.

Lemma by_key_unique t i r x :
  tbl_ok t = true -> In r t -> In x t -> pk r = i -> pk x = i -> r = x.
Proof. intros Ht Hr Hx <- Hi. eapply tbl_ok_unique; eauto. now apply pk_conflict. Qed.

Lemma fetch_by_key t i r :
  tbl_ok t = true -> In r t -> pk r = i -> fetchone (by_key i) t = Some r.
Proof.
  intros Ht Hr Hi. unfold fetchone. destruct (List.find (by_key i) t) as [x|] eqn:Hf.
  - apply find_some in Hf as [Hx Hk]. unfold by_key in Hk. bool_to_prop.
    f_equal. eapply by_key_unique; eauto.
  - rewrite find_none_iff in Hf. specialize (Hf r Hr). unfold by_key in Hf.
    bool_to_prop. congruence.
Qed.

Lemma fetch_by_key_some t i r :
  fetchone (by_key i) t = Some r -> In r t /\ pk r = i.
Proof.
  intros Hf. apply fetchone_some in Hf as [Hr Hk]. unfold by_key in Hk.
  bool_to_prop. auto.
Qed.

Lemma tbl_ok_keys t : tbl_ok t = true -> NoDup (map pk t).
Proof.
  induction t as [|r t IH]; cbn [tbl_ok map]; [constructor|]. intros Ht. bool_to_prop. constructor; [|auto].
  intros Hin. apply list_elem_of_In, in_map_iff in Hin as (x & Hk & Hx). apply pk_conflict in Hk.
  rewrite (no_conflict_In t r) in Hk by assumption. discriminate.
Qed.

(** [UPDATE ... WHERE id = i AND c]: the row of key [i], when it satisfies [c]. *)
Lemma select_by_key t i c :
  tbl_ok t = true ->
  select (fun r => by_key i r && c r) t
  = match fetchone (by_key i) t with
    | Some r => if c r then [r] else []
    | None => []
    end.
Proof.
  intros Ht. destruct (fetchone (by_key i) t) as [r|] eqn:Hf.
  - apply fetch_by_key_some in Hf as [Hr Hi].
    destruct (select_at_most_one (fun x => by_key i x && c x) t Ht) as [Hs|(x & Hs)].
    + intros a b _ _ Ha Hb. unfold by_key in *. bool_to_prop. apply pk_conflict. congruence.
    + rewrite Hs. destruct (c r) eqn:Hc; [exfalso|reflexivity].
      apply filter_nil_iff with (x := r) in Hs; [|exact Hr].
      unfold by_key in Hs. rewrite Hi, String.eqb_refl, Hc in Hs. discriminate.
    + assert (Hx : In x (select (fun x => by_key i x && c x) t)) by (rewrite Hs; now left).
      apply select_spec in Hx as [Hx Hb]. unfold by_key in Hb. bool_to_prop.
      assert (r = x) as <- by (eapply by_key_unique; eauto).
      rewrite Hs. now replace (c r) with true by auto.
  - apply filter_nil_iff. intros x Hx. rewrite (proj1 (fetchone_none _ _) Hf x Hx). reflexivity.
Qed.

Lemma map_by_key_other (p : R -> bool) (f : R -> R) t j :
  (forall r, In r t -> p r = true -> pk (f r) = pk r) ->
  (forall r, In r t -> p r = true -> pk r <> j) ->
  fetchone (by_key j) (map (fun r => if p r then f r else r) t) = fetchone (by_key j) t.
Proof.
  intros Hk Hj. unfold fetchone. induction t as [|r t IH]; simpl; [reflexivity|].
  rewrite IH by (intros; simpl in *; eauto). unfold by_key at 1 3.
  destruct (p r) eqn:Hp; [|reflexivity].
  rewrite Hk by (simpl; auto). rewrite (proj2 (String.eqb_neq _ _)); [reflexivity|].
  apply Hj; simpl; auto.
Qed.

Lemma map_by_key_self (p : R -> bool) (f : R -> R) t i r :
  tbl_ok t = true ->
  (forall x, In x t -> p x = true -> pk (f x) = pk x) ->
  fetchone (by_key i) t = Some r ->
  fetchone (by_key i) (map (fun x => if p x then f x else x) t)
  = Some (if p r then f r else r).
Proof.
  intros Ht Hk Hf. unfold fetchone in *. induction t as [|x t IH]; simpl in *; [discriminate|].
  bool_to_prop. revert Hf. unfold by_key at 1 3. intros Hf.
  assert (Hx : pk (if p x then f x else x) = pk x) by (destruct (p x) eqn:E; auto).
  rewrite Hx. destruct (pk x =? i)%string eqn:E; [|apply IH; auto].
  injection Hf as ->. reflexivity.
Qed.

Lemma fetch_by_key_snoc t r i :
  fetchone (by_key i) t = None -> pk r = i -> fetchone (by_key i) (t ++ [r]) = Some r.
Proof.
  unfold fetchone. intros Hn Hi. rewrite find_app, Hn. simpl. unfold by_key.
  now rewrite Hi, String.eqb_refl.
Qed.

Lemma fetch_by_key_snoc_other t r i :
  pk r <> i -> fetchone (by_key i) (t ++ [r]) = fetchone (by_key i) t.
Proof.
  unfold fetchone. intros Hi. rewrite find_app. destruct (List.find (by_key i) t); [reflexivity|].
  simpl. unfold by_key. now rewrite (proj2 (String.eqb_neq _ _)).
Qed.

(** No row has a key that an inserted row brings. *)
Lemma no_conflict_fresh t r :
  no_conflict t r = true -> fetchone (by_key (pk r)) t = None.
Proof.
  intros Hn. apply fetchone_none. intros x Hx.
  pose proof (no_conflict_In t r x Hn Hx) as Hc.
  apply not_true_iff_false. unfold by_key. rewrite String.eqb_eq. intros He.
  rewrite pk_conflict in Hc by exact He. discriminate.
Qed.
End ByKey.
