(* ===== verification/Network.v ===== *)
(** * The egress policy (src/notebook_launcher/network.py)

    Classification of destinations, the host firewall commands, and
    [NetworkPolicyApplier], which runs them and attests them.  The runner is a
    parameter that may answer each command depending on all the commands
    before it; the commands that ran are the state. *)
From S2P Require Export Ipaddress Command Crypto Models.

Definition IPV4_DENY_CIDRS : list string :=
  ["0.0.0.0/8"; "10.0.0.0/8"; "100.64.0.0/10"; "127.0.0.0/8"; "169.254.0.0/16"; "172.16.0.0/12";
   "192.0.0.0/29"; "192.0.0.8/32"; "192.0.0.11/32"; "192.0.0.12/30"; "192.0.0.16/28";
   "192.0.0.32/27"; "192.0.0.64/26"; "192.0.0.128/25"; "192.0.2.0/24"; "192.88.99.0/24";
   "192.168.0.0/16"; "198.18.0.0/15"; "198.51.100.0/24"; "203.0.113.0/24"; "224.0.0.0/4";
   "240.0.0.0/4"]%string.

(** ** Classification *)
Record DestinationDecision := mkDecision { allowed : bool; reason : string }.

Definition IANA_NON_GLOBAL_NETWORKS : list network := [mkNetwork 0xc0586300 24].

Definition is_global_unicast (address : ip_addr) : bool :=
  if match address with IPv4 a => in_any 32 a IANA_NON_GLOBAL_NETWORKS | IPv6 _ _ => false end
  then false
  else is_global address && negb (is_multicast address) && negb (is_unspecified address).

Definition normalized_address (value : string) : option ip_addr :=
  match ip_address value with
  | Some (IPv6 a scope) =>
      match ipv4_mapped a with Some m => Some (IPv4 m) | None => Some (IPv6 a scope) end
  | r => r
  end.

Fixpoint normalized_addresses (values : list string) : option (list ip_addr) :=
  match values with
  | [] => Some []
  | v :: vs =>
      match normalized_address v, normalized_addresses vs with
      | Some a, Some l => Some (a :: l)
      | _, _ => None
      end
  end.

(** The decision once the addresses are parsed. *)
Definition classify_address (address : ip_addr) (approved : list ip_addr) : DestinationDecision :=
  if bool_decide (address ∈ approved) then mkDecision true "approved_dns_endpoint"
  else if is_loopback address then mkDecision false "loopback"
  else if is_private address then mkDecision false "private"
  else if is_link_local address then mkDecision false "link_local"
  else if is_multicast address then mkDecision false "multicast"
  else if is_unspecified address then mkDecision false "unspecified"
  else if negb (is_global_unicast address) then mkDecision false "non_global"
  else mkDecision true "public_internet".

Definition classify_destination (value : string) (approved_dns_endpoints : list string)
    : DestinationDecision :=
  match normalized_address value with
  | None => mkDecision false "invalid_ip"
  | Some address =>
      match normalized_addresses approved_dns_endpoints with
      | None => mkDecision false "invalid_dns_endpoint"
      | Some approved => classify_address address approved
      end
  end.

Definition validate_resolved_addresses (addresses approved : list string) : list DestinationDecision :=
  map (fun v => classify_destination v approved) addresses.

Definition all_destinations_allowed (addresses approved : list string) : bool :=
  let decisions := validate_resolved_addresses addresses approved in
  negb (match decisions with [] => true | _ => false end) && forallb allowed decisions.

(** ** Plans *)
Record FirewallPlan := mkPlan {
  network_name : string;
  bridge_name : string;
  ipv4_subnet : string;
  ipv6_subnet : option string;
  approved_dns_endpoints : list string }.

Definition name_char (c : ascii) : bool :=
  is_alnum c || Ascii.eqb c "_" || Ascii.eqb c "." || Ascii.eqb c "-".

(** [^[A-Za-z0-9][A-Za-z0-9_.-]{0,62}$] and [^[A-Za-z0-9_.-]{1,15}$] *)
Definition valid_network_name (s : string) : bool :=
  match s with
  | EmptyString => false
  | String c s' => is_alnum c && all_chars name_char s' && Nat.leb (String.length s') 62
  end.
Definition valid_interface_name (s : string) : bool :=
  all_chars name_char s && Nat.leb 1 (String.length s) && Nat.leb (String.length s) 15.

(** [FirewallPlan.__post_init__] *)
Definition validate_plan (p : FirewallPlan) : res FirewallPlan :=
  let! _ := raise_if (negb (valid_network_name (network_name p)))
    (ValueError "invalid Docker network name") in
  let! _ := raise_if (negb (valid_interface_name (bridge_name p)))
    (ValueError "invalid bridge interface name") in
  let! _ := raise_if (match parse_ipv4_network (ipv4_subnet p) with
                      | Some n => network_is_global n
                      | None => true
                      end)
    (ValueError "runtime IPv4 subnet must be non-global IPv4") in
  let! _ := raise_if (is_some (ipv6_subnet p))
    (ValueError "IPv6 runtime networking is disabled until its deny policy is complete") in
  let! _ := raise_if (negb (forallb (fun e => match ip_address e with
                                              | Some (IPv4 _) => true
                                              | _ => false
                                              end) (approved_dns_endpoints p)))
    (ValueError "approved DNS endpoints must be IPv4") in
  Ok p.

Definition NETWORK_PLAN_LABEL : string := "io.notebook-launcher.plan".

(** [sorted] on texts. *)
Fixpoint insert_sorted (s : string) (l : list string) : list string :=
  match l with
  | [] => [s]
  | x :: l' => if String.ltb x s then x :: insert_sorted s l' else s :: l
  end.
Definition sorted (l : list string) : list string := fold_right insert_sorted [] l.

Definition NUL : string := String "000"%char "".
Definition TAB : string := String "009"%char "".

Definition network_plan_identity (p : FirewallPlan) : string :=
  let material := [network_name p; bridge_name p; ipv4_subnet p;
                   match ipv6_subnet p with Some s => s | None => ""%string end]
                  ++ sorted (approved_dns_endpoints p) in
  sha256_hex (str_encode (str_join NUL material)).

Definition docker_network_create_argv (p : FirewallPlan) : list string :=
  ["docker"; "network"; "create"; "--driver"; "bridge"; "--opt";
   "com.docker.network.bridge.name=" ++ bridge_name p; "--label";
   NETWORK_PLAN_LABEL ++ "=" ++ network_plan_identity p; "--subnet"; ipv4_subnet p;
   network_name p]%string.

Definition QUOTE : string := String "034"%char "".

Definition docker_network_inspect_argv (p : FirewallPlan) : list string :=
  ["docker"; "network"; "inspect"; "--format";
   "{{.Id}}" ++ TAB ++ "{{ index .Labels " ++ QUOTE ++ NETWORK_PLAN_LABEL ++ QUOTE ++ " }}";
   network_name p]%string.

Definition chain_name (p : FirewallPlan) (executable purpose : string) : string :=
  let family := if String.eqb executable "iptables" then "4"%string else "6"%string in
  let role := if String.eqb purpose "input" then "I"%string else "E"%string in
  let safe := upper (filter_chars is_alnum (network_name p)) in
  let suffix := upper (str_take 8 (sha256_hex (str_encode (purpose ++ ":" ++ network_name p)%string))) in
  ("NL" ++ family ++ role ++ str_take 9 safe ++ suffix)%string.

(** ** Firewall commands *)
Definition protocols : list string := ["udp"; "tcp"]%string.

Definition endpoint_is_ipv4 (endpoint : string) : bool :=
  match ip_address endpoint with Some (IPv4 _) => true | _ => false end.

(** The ACCEPT rules for the approved resolvers, in both chains. *)
Definition dns_accept_argv (executable chain : string) (endpoints : list string) : list (list string) :=
  flat_map (fun endpoint =>
    if Bool.eqb (endpoint_is_ipv4 endpoint) (String.eqb executable "iptables")
    then map (fun protocol =>
           [executable; "-w"; "-A"; chain; "-p"; protocol; "-d"; endpoint; "--dport"; "53";
            "-j"; "ACCEPT"]%string) protocols
    else []) endpoints.

Definition egress_rules (p : FirewallPlan) (executable chain : string) (denied : list string)
    : list (list string) :=
  dns_accept_argv executable chain (approved_dns_endpoints p)
  ++ map (fun protocol =>
       [executable; "-w"; "-A"; chain; "-p"; protocol; "--dport"; "53"; "-j"; "REJECT"]%string) protocols
  ++ map (fun destination =>
       [executable; "-w"; "-A"; chain; "-d"; destination; "-j"; "REJECT"]%string) denied
  ++ [[executable; "-w"; "-A"; chain; "-j"; "RETURN"]%string].

Definition input_rules (p : FirewallPlan) (executable chain : string) : list (list string) :=
  dns_accept_argv executable chain (approved_dns_endpoints p)
  ++ [[executable; "-w"; "-A"; chain; "-j"; "REJECT"]%string].

Definition firewall_rule_argv (p : FirewallPlan) : list (list string) :=
  let executable := "iptables"%string in
  let chain := chain_name p executable "egress" in
  let input_chain := chain_name p executable "input" in
  [[executable; "-w"; "-N"; chain]; [executable; "-w"; "-F"; chain]]%string
  ++ egress_rules p executable chain IPV4_DENY_CIDRS
  ++ [[executable; "-w"; "-I"; "DOCKER-USER"; "1"; "-s"; ipv4_subnet p; "-j"; chain]]%string
  ++ [[executable; "-w"; "-N"; input_chain]; [executable; "-w"; "-F"; input_chain]]%string
  ++ input_rules p executable input_chain
  ++ [[executable; "-w"; "-I"; "INPUT"; "1"; "-i"; bridge_name p; "-s"; ipv4_subnet p; "-j";
       input_chain]]%string.

(** [check = list(command); check[2] = "-C"; if action == "-I": del check[4]] *)
Definition check_of (command : list string) : list string :=
  let action := nth 2 command ""%string in
  let check := firstn 2 command ++ "-C"%string :: skipn 3 command in
  if String.eqb action "-I" then firstn 4 check ++ skipn 5 check else check.

Definition firewall_verification_argv (p : FirewallPlan) : list (list string) :=
  ["ip"; "link"; "show"; "dev"; bridge_name p]%string
  :: flat_map (fun command =>
       if str_mem (nth 2 command ""%string) ["-N"; "-F"]%string then [] else [check_of command])
       (firewall_rule_argv p).

(** ** [_cleanup_target_absent] *)
Definition cleanup_target_absent (command : list string) (result : CommandResult) : bool :=
  let message := lower (stdout result ++ String "010"%char "" ++ stderr result)%string in
  if String.eqb (nth 0 command ""%string) "iptables" then
    existsb (fun marker => contains marker message)
      ["bad rule (does a matching rule exist"; "no chain/target/match by that name"]%string
  else if bool_decide (firstn 3 command = ["docker"; "network"; "inspect"]%string)
          || bool_decide (firstn 3 command = ["docker"; "network"; "rm"]%string) then
    let target := lower (List.last command ""%string) in
    existsb (fun marker => contains marker message)
      ["network " ++ target ++ " not found"; "no such network: " ++ target]%string
  else false.

(** ** [NetworkPolicyApplier] *)
Record NetworkPolicyAttestation := mkAttestation {
  at_network_name : string;
  at_bridge_name : string;
  at_verified : bool;
  at_commands_verified : Z;
  at_deny_non_global : bool;
  at_dns_exceptions_port_53_only : bool;
  at_host_gateway_alias_present : bool;
  at_verification_commands : list (list string) }.

Record NetworkIdentity := mkNetworkIdentity { network_id : string; plan_identity : string }.

(** The commands that ran, in order, and the runner's answer to the next. *)
Definition History : Type := list (list string).
Definition Runner : Type := History -> list string -> res CommandResult.

(** [type(exc).__name__] of the exceptions that [_run] converts. *)
Definition runner_failure (e : exn) : option string :=
  match e with
  | LauncherExn x => if bool_decide (x = ExecutionTimeout) then Some "ExecutionTimeout"%string else None
  | OSError _ => Some "OSError"%string
  | FileNotFoundError _ => Some "FileNotFoundError"%string
  | FileExistsError _ => Some "FileExistsError"%string
  | _ => None
  end.

(** [s.rstrip] of carriage returns and newlines. *)
Fixpoint rstrip_newlines (s : string) : string :=
  match s with
  | EmptyString => EmptyString
  | String c s' =>
      match rstrip_newlines s' with
      | EmptyString => if (ord c =? 10) || (ord c =? 13) then EmptyString else String c EmptyString
      | t => String c t
      end
  end.

Definition valid_network_id (s : string) : bool :=
  Nat.eqb (String.length s) 64
  && all_chars (fun c => is_digit c || ((97 <=? ord c) && (ord c <=? 102))) s.

Definition cleanup_commands (p : FirewallPlan) : list (list string) :=
  let executable := "iptables"%string in
  let egress := chain_name p executable "egress" in
  let input := chain_name p executable "input" in
  [[executable; "-w"; "-D"; "DOCKER-USER"; "-s"; ipv4_subnet p; "-j"; egress];
   [executable; "-w"; "-D"; "INPUT"; "-i"; bridge_name p; "-s"; ipv4_subnet p; "-j"; input];
   [executable; "-w"; "-F"; egress];
   [executable; "-w"; "-X"; egress];
   [executable; "-w"; "-F"; input];
   [executable; "-w"; "-X"; input]]%string.

Section Applier.
Context (runner : Runner).

Definition run (argv : list string) : Eff History CommandResult := fun h =>
  (h ++ [argv],
   match runner h argv with
   | Ok r => Ok r
   | Err e => match runner_failure e with
              | Some name => Err (NetworkPolicyError name)
              | None => Err e
              end
   end).

(** Runs the commands in order and raises at the first that fails. *)
Definition run_all (failure : list string -> CommandResult -> string)
    : list (list string) -> Eff History unit :=
  eff_iter (fun command =>
    r ← run command;
    eff_raise_if (negb (returncode r =? 0)) (NetworkPolicyError (failure command r))).

Definition verify (p : FirewallPlan) : Eff History NetworkPolicyAttestation :=
  let commands := firewall_verification_argv p in
  _ ← run_all (fun command r =>
         "firewall_verification_failed_" ++ str_of_int (returncode r) ++ ":"
         ++ nth 0 command "")%string commands;
  mret (mkAttestation (network_name p) (bridge_name p) true
          (Z.of_nat (List.length commands)) true true false commands).

Definition inspect_network_identity (p : FirewallPlan) : Eff History (option NetworkIdentity) :=
  let command := docker_network_inspect_argv p in
  r ← run command;
  if negb (returncode r =? 0) then
    if cleanup_target_absent command r then mret None
    else eff_raise (NetworkPolicyError ("network_inspect_failed_" ++ str_of_int (returncode r))%string)
  else
    match split_once "009"%char (rstrip_newlines (stdout r)) with
    | Some (i, identity) =>
        if valid_network_id i then mret (Some (mkNetworkIdentity i identity))
        else eff_raise (NetworkPolicyError "network_inspect_invalid_identity")
    | None => eff_raise (NetworkPolicyError "network_inspect_invalid_identity")
    end.

Definition remove_verified_network (i : string) : Eff History unit :=
  let command := ["docker"; "network"; "rm"; i]%string in
  r ← run command;
  eff_raise_if (negb (returncode r =? 0) && negb (cleanup_target_absent command r))
    (NetworkPolicyError ("network_remove_failed_" ++ str_of_int (returncode r))%string).

Definition remove_owned_network (p : FirewallPlan) : Eff History unit :=
  identity ← inspect_network_identity p;
  match identity with
  | None => mret tt
  | Some i =>
      if negb (String.eqb (plan_identity i) (network_plan_identity p))
      then eff_raise (NetworkPolicyError "network_plan_identity_mismatch")
      else remove_verified_network (network_id i)
  end.

(** The loop of [remove]: every command runs, the failures are collected. *)
Fixpoint cleanup_loop (commands : list (list string)) (failures : list string)
    : Eff History (list string) :=
  match commands with
  | [] => mret failures
  | command :: rest => fun h =>
      let name := (nth 0 command "" ++ ":" ++ nth 2 command "" ++ ":")%string in
      match run command h with
      | (h', Ok r) =>
          cleanup_loop rest
            (if negb (returncode r =? 0) && negb (cleanup_target_absent command r)
             then failures ++ [(name ++ str_of_int (returncode r))%string] else failures) h'
      | (h', Err (NetworkPolicyError m)) => cleanup_loop rest (failures ++ [(name ++ m)%string]) h'
      | (h', Err e) => (h', Err e)
      end
  end.

Definition remove (p : FirewallPlan) : Eff History unit :=
  _ ← eff_try (remove_owned_network p) (fun e =>
        match e with
        | NetworkPolicyError m =>
            Some (eff_raise (NetworkPolicyError ("network_cleanup_failed:docker:network-rm:" ++ m)%string))
        | _ => None
        end);
  failures ← cleanup_loop (cleanup_commands p) [];
  match failures with
  | [] => mret tt
  | _ => eff_raise (NetworkPolicyError ("network_cleanup_failed:" ++ str_join "," failures)%string)
  end.

(** A [NetworkPolicyError] of the clean-up only becomes a note. *)
Definition swallow_policy_error (m : Eff History unit) : Eff History unit :=
  eff_try m (fun e => match e with NetworkPolicyError _ => Some (mret tt) | _ => None end).

Definition reconcile_create_failure (p : FirewallPlan) : Eff History unit :=
  swallow_policy_error (remove_owned_network p).

Definition apply_policy (p : FirewallPlan) : Eff History NetworkPolicyAttestation :=
  created ← eff_try (run (docker_network_create_argv p)) (fun e =>
    match e with
    | NetworkPolicyError _ => Some (_ ← reconcile_create_failure p; eff_raise e)
    | _ => None
    end);
  if negb (returncode created =? 0) then
    _ ← reconcile_create_failure p;
    eff_raise (NetworkPolicyError
      ("docker_network_create_failed_" ++ str_of_int (returncode created))%string)
  else
    eff_try
      (_ ← run_all (fun command r =>
             "firewall_rule_failed_" ++ str_of_int (returncode r) ++ ":"
             ++ nth 0 command "" ++ ":" ++ nth 2 command "")%string (firewall_rule_argv p);
       verify p)
      (fun e => if is_Exception e
                then Some (_ ← swallow_policy_error (remove p); eff_raise e) else None).
End Applier.

(** ** The deny list is the classifier *)
Definition denied_networks : list network := Eval vm_compute in cidrs IPV4_DENY_CIDRS.

Lemma denied_networks_eq : cidrs IPV4_DENY_CIDRS = denied_networks.
Proof. vm_compute. reflexivity. Qed.

Definition classified_networks : list network :=
  denied_networks ++ v4_private ++ v4_private_exceptions ++ IANA_NON_GLOBAL_NETWORKS
  ++ [v4_shared; v4_loopback; v4_linklocal; v4_multicast; mkNetwork 0 32].

Definition policy_boundaries : list Z := Eval vm_compute in boundaries 32 classified_networks.

Lemma boundaries_cover : forallb (bounded_by 32 policy_boundaries) classified_networks = true.
Proof. vm_compute. reflexivity. Qed.

Lemma cover_sub ns :
  (forall n, In n ns -> In n classified_networks) -> forallb (bounded_by 32 policy_boundaries) ns = true.
Proof.
  intros H. apply forallb_forall. intros n Hn.
  exact (proj1 (forallb_forall _ _) boundaries_cover n (H n Hn)).
Qed.

Definition denied_by_list (a : Z) : bool := in_any 32 a denied_networks.
Definition public_ipv4 (a : Z) : bool := allowed (classify_address (IPv4 a) []).

(** Membership in a network that the policy names only depends on the
    greatest boundary below the address. *)
Lemma in_network_boundary a n :
  0 <= a -> In n classified_networks ->
  in_network 32 (bound_below policy_boundaries a) n = in_network 32 a n.
Proof.
  intros Ha Hn. apply in_network_floor; [exact Ha|].
  exact (proj1 (forallb_forall _ _) boundaries_cover n Hn).
Qed.

Lemma in_any_boundary a ns :
  0 <= a -> (forall n, In n ns -> In n classified_networks) ->
  in_any 32 (bound_below policy_boundaries a) ns = in_any 32 a ns.
Proof. intros Ha Hns. apply in_any_floor; [exact Ha|now apply cover_sub]. Qed.

Lemma bound_below_range a : 0 <= a -> 0 <= bound_below policy_boundaries a <= a.
Proof.
  intros Ha. split; [|now apply bound_below_le].
  apply (bound_below_ge policy_boundaries a 0); [vm_compute; tauto|exact Ha].
Qed.

Definition net_eqb (m n : network) : bool :=
  (net_addr m =? net_addr n) && (net_prefix m =? net_prefix n).

Definition classified (ns : list network) : bool :=
  forallb (fun n => existsb (net_eqb n) classified_networks) ns.

Lemma classified_In ns n : classified ns = true -> In n ns -> In n classified_networks.
Proof.
  intros Hc Hn. apply (proj1 (forallb_forall _ _) Hc) in Hn.
  apply existsb_exists in Hn as (m & Hm & He). unfold net_eqb in He. bool_to_prop.
  destruct m, n. simpl in *. now subst.
Qed.

Lemma in_any_policy a ns :
  0 <= a -> classified ns = true ->
  in_any 32 (bound_below policy_boundaries a) ns = in_any 32 a ns.
Proof. intros Ha Hc. apply in_any_boundary; [exact Ha|]. intros n. now apply classified_In. Qed.

Lemma in_network_policy a n :
  0 <= a -> classified [n] = true ->
  in_network 32 (bound_below policy_boundaries a) n = in_network 32 a n.
Proof. intros Ha Hc. apply in_network_boundary; [exact Ha|]. apply (classified_In [n] n Hc). now left. Qed.

Lemma zero_network x : 0 <= x -> in_network 32 x (mkNetwork 0 32) = (x =? 0).
Proof.
  intros Hx. rewrite in_network_interval by reflexivity.
  change (net_addr (mkNetwork 0 32)) with 0. change (net_last 32 (mkNetwork 0 32) + 1) with 1.
  destruct (Z.leb_spec 0 x), (Z.ltb_spec x 1), (Z.eqb_spec x 0); simpl; lia || reflexivity.
Qed.

(** Both sides only look at the networks above. *)
Lemma policy_boundary a :
  0 <= a ->
  denied_by_list (bound_below policy_boundaries a) = denied_by_list a
  /\ public_ipv4 (bound_below policy_boundaries a) = public_ipv4 a.
Proof.
  intros Ha.
  assert (Hpriv : v4_is_private (bound_below policy_boundaries a) = v4_is_private a).
  { unfold v4_is_private. rewrite (in_any_policy a v4_private) by (assumption || (vm_compute; reflexivity)).
    now rewrite (in_any_policy a v4_private_exceptions) by (assumption || (vm_compute; reflexivity)). }
  assert (Hz : (bound_below policy_boundaries a =? 0) = (a =? 0)).
  { rewrite <- !zero_network by (assumption || (apply bound_below_range; assumption)).
    apply in_network_policy; [exact Ha|vm_compute; reflexivity]. }
  split; [apply in_any_policy; [exact Ha|vm_compute; reflexivity]|].
  unfold public_ipv4, classify_address. rewrite !bool_decide_eq_false_2 by apply not_elem_of_nil.
  unfold is_global_unicast, is_global, v4_is_global, is_private, is_loopback, is_link_local,
    is_multicast, is_unspecified.
  rewrite Hpriv, Hz, (in_any_policy a IANA_NON_GLOBAL_NETWORKS), (in_network_policy a v4_shared),
    (in_network_policy a v4_loopback), (in_network_policy a v4_linklocal),
    (in_network_policy a v4_multicast) by (assumption || (vm_compute; reflexivity)).
  reflexivity.
Qed.

Lemma policy_at_boundaries :
  forallb (fun b => (b <? 0) || (2 ^ 32 <=? b) || Bool.eqb (denied_by_list b) (negb (public_ipv4 b)))
    (0 :: policy_boundaries) = true.
Proof. vm_compute. reflexivity. Qed.

Lemma denied_iff_not_public a : 0 <= a < 2 ^ 32 -> denied_by_list a = negb (public_ipv4 a).
Proof.
  intros Ha. destruct (policy_boundary a ltac:(lia)) as [<- <-].
  pose proof (proj1 (forallb_forall _ _) policy_at_boundaries (bound_below policy_boundaries a)
                (bound_below_In _ _)) as H.
  pose proof (bound_below_range a ltac:(lia)) as Hr. revert H Hr.
  generalize (bound_below policy_boundaries a) as m. intros m H Hr.
  rewrite (proj2 (Z.ltb_ge m 0)), (proj2 (Z.leb_gt (2 ^ 32) m)) in H by lia.
  cbn [orb] in H. exact (eqb_prop _ _ H).
Qed.

(** The firewall's deny list is the classifier.  For each of the 2^32 IPv4
    addresses, the address lies in one of [IPV4_DENY_CIDRS] exactly when
    [classify_destination] does not allow it, for every way to write it. *)
Theorem deny_list_matches_classifier (value : string) (a : Z) :
  normalized_address value = Some (IPv4 a) -> 0 <= a < 2 ^ 32 ->
  in_any 32 a (cidrs IPV4_DENY_CIDRS) = negb (allowed (classify_destination value []))
  /\ List.length (cidrs IPV4_DENY_CIDRS) = List.length IPV4_DENY_CIDRS.
Proof.
  intros Hv Ha. split; [|reflexivity]. unfold classify_destination. rewrite Hv. simpl normalized_addresses.
  rewrite denied_networks_eq. exact (denied_iff_not_public a Ha).
Qed.

(** ** What the rules mean

    A packet leaving a notebook, and the documented reading of a chain: its
    rules are tried in order and the first one whose matches all hold gives
    the verdict.  The rules are read back from the command lines. *)
Record packet := mkPacket { pk_proto : string; pk_dst : Z; pk_dport : option Z }.

(** One option of a rule; [None] for an option that is not understood. *)
Definition match_option (flag value : string) (k : packet) : option bool :=
  if String.eqb flag "-p" then Some (String.eqb value (pk_proto k))
  else if String.eqb flag "-d" then
    option_map (in_network 32 (pk_dst k)) (parse_ipv4_network value)
  else if String.eqb flag "--dport" then
    match read_decimal value, pk_dport k with
    | Some n, Some m => Some (n =? m)
    | Some _, None => Some false
    | None, _ => None
    end
  else None.

(** The target of a rule that matches. *)
Fixpoint rule_target (args : list string) (k : packet) : option string :=
  match args with
  | flag :: value :: rest =>
      if String.eqb flag "-j" then match rest with [] => Some value | _ => None end
      else match match_option flag value k with
           | Some true => rule_target rest k
           | _ => None
           end
  | _ => None
  end.

Fixpoint chain_verdict (rules : list (list string)) (k : packet) : option string :=
  match rules with
  | [] => None
  | r :: rs => match rule_target r k with Some t => Some t | None => chain_verdict rs k end
  end.

(** The rules that a list of commands appends to a chain. *)
Definition appended_rules (chain : string) (commands : list (list string)) : list (list string) :=
  flat_map (fun command =>
    match command with
    | "iptables"%string :: "-w"%string :: action :: c :: args =>
        if String.eqb action "-A" && String.eqb c chain then [args] else []
    | _ => []
    end) commands.

Definition dns_request (k : packet) : bool :=
  str_mem (pk_proto k) protocols && match pk_dport k with Some n => n =? 53 | None => false end.

Definition approved_dst (p : FirewallPlan) (k : packet) : bool :=
  existsb (fun e => match ip_address e with Some (IPv4 a) => a =? pk_dst k | _ => false end)
    (approved_dns_endpoints p).

Lemma chain_verdict_app a b k :
  chain_verdict (a ++ b) k = match chain_verdict a k with Some t => Some t | None => chain_verdict b k end.
Proof.
  induction a as [|r a IH]; simpl; [reflexivity|]. destruct (rule_target r k); [reflexivity|exact IH].
Qed.

Lemma appended_rules_app c a b : appended_rules c (a ++ b) = appended_rules c a ++ appended_rules c b.
Proof. unfold appended_rules. apply flat_map_app. Qed.

Lemma chain_names_differ p :
  String.eqb (chain_name p "iptables" "egress") (chain_name p "iptables" "input") = false
  /\ String.eqb (chain_name p "iptables" "input") (chain_name p "iptables" "egress") = false.
Proof. split; reflexivity. Qed.

Lemma validate_plan_dns p e :
  validate_plan p = Ok p -> In e (approved_dns_endpoints p) ->
  exists a, ip_address e = Some (IPv4 a) /\ parse_ipv4 e = Some a.
Proof.
  unfold validate_plan. intros H He. inv_ok. bool_to_prop.
  match goal with Hf : forallb _ _ = true |- _ => apply (proj1 (forallb_forall _ _) Hf) in He end.
  destruct (ip_address e) as [[a|]|] eqn:Ha; try discriminate. exists a. split; [reflexivity|].
  unfold ip_address in Ha. destruct (parse_ipv4 e) as [b|]; [congruence|].
  unfold parse_ipv6 in Ha. destruct (has_char "/" e); [discriminate|].
  destruct (split_once "%" e) as [[x y]|]; [destruct (_ || _); [discriminate|]|];
    destruct (parse_ipv6_int _); discriminate.
Qed.

Lemma parse_octet_digits s n : parse_octet s = Some n -> all_chars is_digit s = true.
Proof. unfold parse_octet. destruct (all_chars is_digit s); [reflexivity|discriminate]. Qed.

Definition not_slash (c : ascii) : bool := negb (Ascii.eqb c "/").

Lemma digit_not_slash c : is_digit c = true -> not_slash c = true.
Proof.
  unfold not_slash. intros H. apply negb_true_iff, not_true_iff_false. intros He.
  apply Ascii.eqb_eq in He. subst. discriminate.
Qed.

Lemma parse_ipv4_no_slash s a : parse_ipv4 s = Some a -> all_chars not_slash s = true.
Proof.
  unfold parse_ipv4. intros H. rewrite <- (str_join_split "." s).
  destruct (split_on "." s) as [|x1 [|x2 [|x3 [|x4 [|]]]]]; try discriminate.
  destruct (parse_octet x1) eqn:E1; [|discriminate]. destruct (parse_octet x2) eqn:E2; [|discriminate].
  destruct (parse_octet x3) eqn:E3; [|discriminate]. destruct (parse_octet x4) eqn:E4; [|discriminate].
  apply all_chars_join; [reflexivity|]. simpl.
  rewrite !(all_chars_imp is_digit not_slash _ digit_not_slash) by eauto using parse_octet_digits.
  reflexivity.
Qed.

Lemma parse_host s a : parse_ipv4 s = Some a -> parse_ipv4_network s = Some (mkNetwork a 32).
Proof.
  intros H. unfold parse_ipv4_network.
  rewrite split_on_none by (apply (parse_ipv4_no_slash s a); exact H). rewrite H.
  now rewrite Z.land_0_r.
Qed.

Lemma in_host a b : in_network 32 a (mkNetwork b 32) = (b =? a).
Proof.
  unfold in_network. simpl. rewrite !Z.shiftr_0_r. apply Z.eqb_sym.
Qed.

(** The verdict of one DNS rule for one resolver. *)
Lemma dns_rule_target proto e a k :
  parse_ipv4 e = Some a ->
  rule_target ["-p"; proto; "-d"; e; "--dport"; "53"; "-j"; "ACCEPT"]%string k
  = if String.eqb proto (pk_proto k) && (a =? pk_dst k)
       && match pk_dport k with Some n => n =? 53 | None => false end
    then Some "ACCEPT"%string else None.
Proof.
  intros He. cbn [rule_target match_option String.eqb Ascii.eqb Bool.eqb].
  destruct (proto =? pk_proto k)%string; [|reflexivity].
  rewrite (parse_host e a He). cbn [option_map]. rewrite in_host. destruct (a =? pk_dst k); [|reflexivity].
  change (read_decimal "53") with (Some 53). destruct (pk_dport k) as [n|]; [|reflexivity].
  rewrite (Z.eqb_sym 53). destruct (n =? 53); reflexivity.
Qed.

Lemma appended_map chain {A} (f : A -> list string) (l : list A) :
  appended_rules chain (map (fun a => "iptables"%string :: "-w"%string :: "-A"%string :: chain :: f a) l)
  = map f l.
Proof.
  unfold appended_rules. induction l as [|a l IH]; simpl; [reflexivity|].
  rewrite String.eqb_refl. simpl. now rewrite IH.
Qed.

Lemma appended_other chain c {A} (f : A -> list string) (l : list A) :
  String.eqb c chain = false ->
  appended_rules chain (map (fun a => "iptables"%string :: "-w"%string :: "-A"%string :: c :: f a) l) = [].
Proof.
  intros Hc. unfold appended_rules. induction l as [|a l IH]; simpl; [reflexivity|]. now rewrite Hc.
Qed.

(** The resolver rules accept exactly the DNS requests to approved resolvers. *)
Lemma dns_accept_verdict chain es k :
  (forall e, In e es -> exists a, ip_address e = Some (IPv4 a) /\ parse_ipv4 e = Some a) ->
  chain_verdict (appended_rules chain (dns_accept_argv "iptables" chain es)) k
  = if dns_request k && existsb (fun e => match ip_address e with
                                          | Some (IPv4 a) => a =? pk_dst k | _ => false end) es
    then Some "ACCEPT"%string else None.
Proof.
  intros Hes. unfold dns_accept_argv. induction es as [|e es IH]; cbn [flat_map].
  - simpl. now rewrite andb_false_r.
  - destruct (Hes e (or_introl eq_refl)) as (a & Hip & Hp).
    assert (He4 : endpoint_is_ipv4 e = true) by (unfold endpoint_is_ipv4; now rewrite Hip).
    rewrite appended_rules_app, chain_verdict_app, IH by (intros; apply Hes; now right).
    rewrite He4. change (Bool.eqb true (String.eqb "iptables" "iptables")) with true. cbv iota.
    rewrite (appended_map chain (fun proto => ["-p"; proto; "-d"; e; "--dport"; "53"; "-j"; "ACCEPT"]%string)).
    cbn [map protocols chain_verdict]. rewrite !(dns_rule_target _ e a k Hp).
    cbn [existsb]. rewrite Hip. unfold dns_request, str_mem, protocols. cbn [existsb].
    rewrite orb_false_r, (String.eqb_sym (pk_proto k)), (String.eqb_sym (pk_proto k) "tcp").
    destruct ("udp" =? pk_proto k)%string, ("tcp" =? pk_proto k)%string, (a =? pk_dst k),
      (match pk_dport k with Some n => n =? 53 | None => false end); reflexivity.
Qed.

Lemma port_rule_target proto t k :
  rule_target ["-p"; proto; "--dport"; "53"; "-j"; t]%string k
  = if String.eqb proto (pk_proto k) && match pk_dport k with Some n => n =? 53 | None => false end
    then Some t else None.
Proof.
  cbn [rule_target match_option String.eqb Ascii.eqb Bool.eqb].
  destruct (proto =? pk_proto k)%string; [|reflexivity].
  change (read_decimal "53") with (Some 53). destruct (pk_dport k) as [n|]; [|reflexivity].
  rewrite (Z.eqb_sym 53). destruct (n =? 53); reflexivity.
Qed.

Lemma dns_reject_verdict chain k :
  chain_verdict (appended_rules chain (map (fun protocol =>
     ["iptables"; "-w"; "-A"; chain; "-p"; protocol; "--dport"; "53"; "-j"; "REJECT"]%string) protocols)) k
  = if dns_request k then Some "REJECT"%string else None.
Proof.
  rewrite (appended_map chain (fun proto => ["-p"; proto; "--dport"; "53"; "-j"; "REJECT"]%string)).
  cbn [map protocols chain_verdict]. rewrite !port_rule_target.
  unfold dns_request, str_mem, protocols. cbn [existsb].
  rewrite orb_false_r, (String.eqb_sym (pk_proto k)), (String.eqb_sym (pk_proto k) "tcp").
  destruct ("udp" =? pk_proto k)%string, ("tcp" =? pk_proto k)%string,
    (match pk_dport k with Some n => n =? 53 | None => false end); reflexivity.
Qed.

Lemma deny_verdict chain l k :
  chain_verdict (appended_rules chain (map (fun destination =>
     ["iptables"; "-w"; "-A"; chain; "-d"; destination; "-j"; "REJECT"]%string) l)) k
  = if in_any 32 (pk_dst k) (cidrs l) then Some "REJECT"%string else None.
Proof.
  rewrite (appended_map chain (fun d => ["-d"; d; "-j"; "REJECT"]%string)).
  induction l as [|d l IH]; [reflexivity|]. cbn [map chain_verdict cidrs flat_map]. rewrite IH.
  cbn [rule_target String.eqb Ascii.eqb Bool.eqb match_option].
  unfold in_any. rewrite existsb_app. fold (cidrs l).
  destruct (parse_ipv4_network d) as [n|]; [|reflexivity]. simpl. rewrite orb_false_r.
  now destruct (in_network 32 (pk_dst k) n).
Qed.

(** The commands that append to the two chains of a plan. *)
Lemma appended_egress p :
  let c := chain_name p "iptables" "egress" in
  appended_rules c (firewall_rule_argv p) = appended_rules c (egress_rules p "iptables" c IPV4_DENY_CIDRS).
Proof.
  cbv zeta. unfold firewall_rule_argv. rewrite !appended_rules_app.
  destruct (chain_names_differ p) as [_ Hd].
  set (c := chain_name p "iptables" "egress") in *. set (i := chain_name p "iptables" "input") in *.
  assert (Hi : appended_rules c (input_rules p "iptables" i) = []).
  { unfold input_rules, dns_accept_argv. rewrite appended_rules_app.
    rewrite (appended_other c i (fun _ : unit => ["-j"; "REJECT"]%string) [tt] Hd : appended_rules c [_] = []).
    rewrite app_nil_r. induction (approved_dns_endpoints p) as [|e es IH]; [reflexivity|].
    cbn [flat_map]. rewrite appended_rules_app, IH, app_nil_r.
    destruct (Bool.eqb _ _); [|reflexivity].
    exact (appended_other c i (fun proto => ["-p"; proto; "-d"; e; "--dport"; "53"; "-j"; "ACCEPT"]%string)
             protocols Hd). }
  rewrite Hi. simpl (appended_rules c [_; _]). rewrite !app_nil_r. reflexivity.
Qed.

Lemma appended_input p :
  let c := chain_name p "iptables" "input" in
  appended_rules c (firewall_rule_argv p) = appended_rules c (input_rules p "iptables" c).
Proof.
  cbv zeta. unfold firewall_rule_argv. rewrite !appended_rules_app.
  destruct (chain_names_differ p) as [Hd _].
  set (i := chain_name p "iptables" "egress") in *. set (c := chain_name p "iptables" "input") in *.
  assert (Hi : appended_rules c (egress_rules p "iptables" i IPV4_DENY_CIDRS) = []).
  { unfold egress_rules, dns_accept_argv. rewrite !appended_rules_app.
    rewrite (appended_other c i (fun proto => ["-p"; proto; "--dport"; "53"; "-j"; "REJECT"]%string) protocols Hd),
      (appended_other c i (fun d => ["-d"; d; "-j"; "REJECT"]%string) IPV4_DENY_CIDRS Hd),
      (appended_other c i (fun _ : unit => ["-j"; "RETURN"]%string) [tt] Hd : appended_rules c [_] = []).
    rewrite !app_nil_r. induction (approved_dns_endpoints p) as [|e es IH]; [reflexivity|].
    cbn [flat_map]. rewrite appended_rules_app, IH, app_nil_r.
    destruct (Bool.eqb _ _); [|reflexivity].
    exact (appended_other c i (fun proto => ["-p"; proto; "-d"; e; "--dport"; "53"; "-j"; "ACCEPT"]%string)
             protocols Hd). }
  rewrite Hi. simpl (appended_rules c [_; _]). rewrite !app_nil_r. reflexivity.
Qed.

(** C25: the rules implement the policy.  For every plan that validates, the
    rules that [firewall_rule_argv] appends to the egress chain give each
    packet from a notebook the policy's verdict: DNS only to the approved
    resolvers, anything else returned to the host's own rules exactly when
    [classify_destination] calls the destination public, and rejected
    otherwise; and those of the input chain let a notebook reach the host
    itself only for DNS on an approved resolver. *)
Theorem firewall_implements_policy (p : FirewallPlan) (k : packet) :
  validate_plan p = Ok p -> 0 <= pk_dst k < 2 ^ 32 ->
  chain_verdict (appended_rules (chain_name p "iptables" "egress") (firewall_rule_argv p)) k
  = Some (if dns_request k then if approved_dst p k then "ACCEPT" else "REJECT"
          else if allowed (classify_address (IPv4 (pk_dst k)) []) then "RETURN" else "REJECT")%string
  /\ chain_verdict (appended_rules (chain_name p "iptables" "input") (firewall_rule_argv p)) k
     = Some (if dns_request k && approved_dst p k then "ACCEPT" else "REJECT")%string.
Proof.
  intros Hp Hk. pose proof (validate_plan_dns p) as Hdns.
  rewrite appended_egress, appended_input. unfold egress_rules, input_rules.
  rewrite !appended_rules_app, !chain_verdict_app, !dns_accept_verdict by auto.
  fold (approved_dst p k). rewrite dns_reject_verdict, deny_verdict, denied_networks_eq.
  fold (denied_by_list (pk_dst k)). rewrite denied_iff_not_public by exact Hk.
  fold (public_ipv4 (pk_dst k)).
  set (e := chain_name p "iptables" "egress"). set (i := chain_name p "iptables" "input").
  rewrite (appended_map e (fun _ : unit => ["-j"; "RETURN"]%string) [tt] : appended_rules e [_] = _).
  rewrite (appended_map i (fun _ : unit => ["-j"; "REJECT"]%string) [tt] : appended_rules i [_] = _).
  destruct (dns_request k), (approved_dst p k), (public_ipv4 (pk_dst k)); split; reflexivity.
Qed.

(** ** Applying a plan *)

(** All these commands, run after [h], returned zero. *)
Fixpoint all_succeed (runner : Runner) (h : History) (commands : list (list string)) : Prop :=
  match commands with
  | [] => True
  | c :: cs => (exists r, runner h c = Ok r /\ returncode r = 0) /\ all_succeed runner (h ++ [c]) cs
  end.

Lemma all_succeed_app runner h a b :
  all_succeed runner h (a ++ b) <-> all_succeed runner h a /\ all_succeed runner (h ++ a) b.
Proof.
  revert h. induction a as [|c a IH]; intros h; simpl; [rewrite app_nil_r; tauto|].
  rewrite IH, <- app_assoc. simpl. tauto.
Qed.

Lemma run_all_ok runner failure cs h h' :
  run_all runner failure cs h = (h', Ok tt) -> h' = h ++ cs /\ all_succeed runner h cs.
Proof.
  unfold run_all. revert h. induction cs as [|c cs IH]; intros h; simpl.
  - intros [= <-]. now rewrite app_nil_r.
  - unfold mbind, eff_bind, run at 1, eff_raise_if.
    destruct (runner h c) as [r|e] eqn:Hr; [|destruct (runner_failure e); discriminate].
    unfold raise_if. destruct (Z.eqb_spec (returncode r) 0) as [H0|H0]; simpl; [|discriminate].
    intros He. apply IH in He as [-> Hs]. rewrite <- app_assoc. split; [reflexivity|]. split; eauto.
Qed.

Lemma run_all_prefix runner failure cs h h' r :
  run_all runner failure cs h = (h', r) -> exists pre, h' = h ++ pre.
Proof.
  unfold run_all. revert h. induction cs as [|c cs IH]; intros h; simpl.
  - intros [= <- _]. exists []. now rewrite app_nil_r.
  - unfold mbind, eff_bind, run at 1, eff_raise_if.
    destruct (runner h c) as [x|e].
    + destruct (raise_if _ _); [|intros [= <- _]; eauto]. intros He.
      apply IH in He as [pre ->]. exists (c :: pre). now rewrite <- app_assoc.
    + destruct (runner_failure e); intros [= <- _]; eauto.
Qed.

Lemma run_history runner c h h' r : run runner c h = (h', r) -> h' = h ++ [c].
Proof. unfold run. now intros [= <- _]. Qed.

(** [remove_owned_network] asks for the identity first; it runs at most one
    more command, and only to remove the network that carries the plan's
    identity. *)
Lemma remove_owned_history runner p h h' r :
  remove_owned_network runner p h = (h', r) ->
  h' = h ++ [docker_network_inspect_argv p]
  \/ exists i a, h' = h ++ [docker_network_inspect_argv p; ["docker"; "network"; "rm"; i]%string]
       /\ runner h (docker_network_inspect_argv p) = Ok a /\ returncode a = 0
       /\ split_once "009"%char (rstrip_newlines (stdout a)) = Some (i, network_plan_identity p).
Proof.
  unfold remove_owned_network, inspect_network_identity, mbind, eff_bind, run at 1.
  destruct (runner h (docker_network_inspect_argv p)) as [a|e] eqn:Ha;
    [|destruct (runner_failure e); intros [= <- _]; now left].
  destruct (Z.eqb_spec (returncode a) 0) as [H0|H0]; cbn [negb].
  - destruct (split_once _ _) as [[i ident]|] eqn:Hs; [|intros [= <- _]; now left].
    destruct (valid_network_id i); [|intros [= <- _]; now left].
    unfold mret, eff_ret. cbn [plan_identity network_id].
    destruct (String.eqb_spec ident (network_plan_identity p)) as [->|]; cbn [negb];
      [|intros [= <- _]; now left].
    unfold remove_verified_network, mbind, eff_bind, run. intros He. right. exists i, a.
    assert (Hh : h' = (h ++ [docker_network_inspect_argv p]) ++ [["docker"; "network"; "rm"; i]%string]).
    { destruct (runner _ ["docker"; "network"; "rm"; i]%string) as [x|e]; [|destruct (runner_failure e)];
        now injection He as <- _. }
    rewrite <- app_assoc in Hh. auto.
  - destruct (cleanup_target_absent _ _); intros [= <- _]; now left.
Qed.

Definition starts_with_inspect (p : FirewallPlan) (h h' : History) : Prop :=
  exists rest, h' = h ++ docker_network_inspect_argv p :: rest.

Lemma remove_owned_starts runner p h h' r :
  remove_owned_network runner p h = (h', r) -> starts_with_inspect p h h'.
Proof.
  intros H. apply remove_owned_history in H as [->|(i & a & -> & _)]; unfold starts_with_inspect; eauto.
Qed.

Lemma cleanup_loop_history runner cs fs h h' r :
  cleanup_loop runner cs fs h = (h', r) -> exists l, h' = h ++ l.
Proof.
  revert fs h. induction cs as [|c cs IH]; intros fs h; cbn [cleanup_loop].
  - intros [= <- _]. exists []. now rewrite app_nil_r.
  - destruct (run runner c h) as [h1 o] eqn:Hr. apply run_history in Hr as ->.
    destruct o as [x|[]]; intros He; try (injection He as <- _; eauto);
      apply IH in He as [l ->]; exists (c :: l); now rewrite <- app_assoc.
Qed.

Lemma remove_starts runner p h h' r : remove runner p h = (h', r) -> starts_with_inspect p h h'.
Proof.
  unfold remove, mbind, eff_bind, eff_try.
  destruct (remove_owned_network runner p h) as [h1 o] eqn:Ho.
  apply remove_owned_starts in Ho as [l ->].
  assert (Hstop : forall x : res unit, (h ++ docker_network_inspect_argv p :: l, x) = (h', r) ->
            starts_with_inspect p h h') by (intros x [= <- _]; unfold starts_with_inspect; eauto).
  destruct o as [u|e]; [|destruct e; apply Hstop].
  destruct (cleanup_loop _ _ _ _) as [h2 [fs|e]] eqn:Hc; apply cleanup_loop_history in Hc as [l2 ->];
    [destruct fs|]; intros [= <- _]; exists (l ++ l2); now rewrite <- app_assoc.
Qed.

Lemma swallow_starts p m h h' r :
  (forall h1 h2 r, m h1 = (h2, r) -> starts_with_inspect p h1 h2) ->
  swallow_policy_error m h = (h', r) -> starts_with_inspect p h h'.
Proof.
  unfold swallow_policy_error, eff_try. intros Hm. destruct (m h) as [h1 [u|e]] eqn:Hr.
  - intros [= <- _]. exact (Hm _ _ _ Hr).
  - destruct e; intros [= <- _]; exact (Hm _ _ _ Hr).
Qed.

Lemma reconcile_starts runner p h h' r :
  reconcile_create_failure runner p h = (h', r) -> starts_with_inspect p h h'.
Proof. apply swallow_starts. apply remove_owned_starts. Qed.

Lemma verify_ok runner p h h' a :
  verify runner p h = (h', Ok a) ->
  h' = h ++ firewall_verification_argv p /\ all_succeed runner h (firewall_verification_argv p)
  /\ at_verification_commands a = firewall_verification_argv p /\ at_verified a = true.
Proof.
  unfold verify, mbind, eff_bind. destruct (run_all _ _ _ h) as [h1 [[]|e]] eqn:Hr; [|discriminate].
  apply run_all_ok in Hr as [-> Hs]. unfold mret, eff_ret. intros [= <- <-]. auto.
Qed.

Lemma verify_prefix runner p h h' r : verify runner p h = (h', r) -> exists l, h' = h ++ l.
Proof.
  unfold verify, mbind, eff_bind. destruct (run_all _ _ _ h) as [h1 o] eqn:Hr.
  apply run_all_prefix in Hr as [l ->]. destruct o; intros [= <- _]; eauto.
Qed.

(** [apply] once the network exists. *)
Lemma apply_created runner p h h' r c :
  let create := docker_network_create_argv p in
  runner h create = Ok c -> returncode c = 0 ->
  eff_try
    (_ ← run_all runner (fun command r =>
           "firewall_rule_failed_" ++ str_of_int (returncode r) ++ ":"
           ++ nth 0 command "" ++ ":" ++ nth 2 command "")%string (firewall_rule_argv p);
     verify runner p)
    (fun e => if is_Exception e
              then Some (_ ← swallow_policy_error (remove runner p); eff_raise e) else None)
    (h ++ [create]) = (h', r) ->
  match r with
  | Ok a =>
      let commands := create :: firewall_rule_argv p ++ firewall_verification_argv p in
      h' = h ++ commands /\ all_succeed runner h commands
      /\ at_verification_commands a = firewall_verification_argv p /\ at_verified a = true
  | Err e =>
      is_Exception e = true ->
      (exists ran rest, h' = h ++ create :: ran ++ docker_network_inspect_argv p :: rest)
      \/ (h' = h ++ [create] /\ runner h create = Err e /\ runner_failure e = None)
  end.
Proof.
  cbv zeta. intros Hr H0. unfold eff_try, mbind, eff_bind.
  set (create := docker_network_create_argv p) in *.
  destruct (run_all _ _ (firewall_rule_argv p) (h ++ [create])) as [h1 [[]|e]] eqn:H1.
  - apply run_all_ok in H1 as [-> Hs1]. destruct (verify runner p _) as [h2 [a|e]] eqn:H2.
    + apply verify_ok in H2 as (-> & Hs2 & Ha). intros [= <- <-]. rewrite <- !app_assoc.
      split; [reflexivity|]. split; [|exact Ha].
      apply (all_succeed_app runner h [create]). split; [split; [eauto|exact I]|].
      apply all_succeed_app. split; [exact Hs1|exact Hs2].
    + apply verify_prefix in H2 as [l ->]. destruct (is_Exception e) eqn:He.
      * destruct (swallow_policy_error _ _) as [h3 o] eqn:H3.
        apply (swallow_starts p) in H3 as [l2 ->]; [|apply remove_starts].
        destruct o; unfold eff_raise; intros [= <- <-] _; left;
          exists (firewall_rule_argv p ++ l), l2; rewrite <- !app_assoc; reflexivity.
      * intros [= <- <-] Hx. congruence.
  - apply run_all_prefix in H1 as [l ->]. destruct (is_Exception e) eqn:He.
    + destruct (swallow_policy_error _ _) as [h3 o] eqn:H3.
      apply (swallow_starts p) in H3 as [l2 ->]; [|apply remove_starts].
      destruct o; unfold eff_raise; intros [= <- <-] _; left; exists l, l2; rewrite <- !app_assoc; reflexivity.
    + intros [= <- <-] Hx. congruence.
Qed.

(** Applying a plan fails closed.  When [apply] returns an attestation,
    the network was created, every firewall command ran after it in order and
    then every verification command, and each of them returned zero.  When it
    raises after the network may have been created, the clean-up ran: the
    commands that follow begin with the ownership check of the network.  The
    one other way to raise is an exception of the runner itself, on the very
    first command, that is neither a time-out nor an operating-system error. *)
Theorem apply_fails_closed (runner : Runner) (p : FirewallPlan) (h h' : History)
    (r : res NetworkPolicyAttestation) :
  apply_policy runner p h = (h', r) ->
  let create := docker_network_create_argv p in
  match r with
  | Ok a =>
      let commands := create :: firewall_rule_argv p ++ firewall_verification_argv p in
      h' = h ++ commands /\ all_succeed runner h commands
      /\ at_verification_commands a = firewall_verification_argv p /\ at_verified a = true
  | Err e =>
      is_Exception e = true ->
      (exists ran rest, h' = h ++ create :: ran ++ docker_network_inspect_argv p :: rest)
      \/ (h' = h ++ [create] /\ runner h create = Err e /\ runner_failure e = None)
  end.
Proof.
  intros H. cbv zeta. unfold apply_policy, mbind, eff_bind in H. unfold eff_try at 1 in H.
  set (create := docker_network_create_argv p) in *.
  destruct (run runner create h) as [h1 [c|e]] eqn:Hc; pose proof (run_history _ _ _ _ _ Hc) as ->.
  - unfold run in Hc. destruct (runner h create) as [c'|e'] eqn:Hr; [|destruct (runner_failure e'); discriminate].
    injection Hc as ->. destruct (Z.eqb_spec (returncode c) 0) as [H0|H0]; cbn [negb] in H.
    + pose proof (apply_created runner p h h' r c Hr H0 H) as HA. fold create in HA.
      rewrite Hr in HA. exact HA.
    + destruct (reconcile_create_failure runner p (h ++ [create])) as [h2 o] eqn:Ho.
      apply reconcile_starts in Ho as [l ->]. rewrite <- app_assoc in H.
      destruct o; unfold eff_raise in H; injection H as <- <-; intros _; left; exists [], l; reflexivity.
  - unfold run in Hc. destruct (runner h create) as [c'|e'] eqn:Hr; [discriminate|].
    destruct (runner_failure e') as [m|] eqn:Hf; injection Hc as <-.
    + destruct (reconcile_create_failure runner p (h ++ [create])) as [h2 o] eqn:Ho.
      apply reconcile_starts in Ho as [l ->]. rewrite <- app_assoc in H.
      destruct o; unfold eff_raise in H; injection H as <- <-; intros _; left; exists [], l; reflexivity.
    + assert (Hh : (h' = h ++ [create] /\ r = Err e')
                   \/ exists l, h' = h ++ create :: docker_network_inspect_argv p :: l
                        /\ exists e, r = Err e).
      { destruct e'; try (injection H as <- <-; auto).
        destruct (reconcile_create_failure runner p (h ++ [create])) as [h2 o] eqn:Ho.
        apply reconcile_starts in Ho as [l ->]. rewrite <- app_assoc in H.
        destruct o; unfold eff_raise in H; injection H as <- <-; eauto 6. }
      destruct Hh as [[-> ->]|(l & -> & e & ->)]; intros _; [right; auto|left].
      exists [], l. reflexivity.
Qed.

(** Only the launcher's own network is removed.  [remove] (and the
    reconciliation of a failed creation) never removes a Docker network unless
    the inspection that it ran just before answered, successfully, with that
    network's id and with the identity label of this very plan. *)
Theorem remove_only_owned (runner : Runner) (p : FirewallPlan) (h h' : History) (r : res unit)
    (i : string) :
  remove_owned_network runner p h = (h', r) ->
  h' = h ++ [docker_network_inspect_argv p; ["docker"; "network"; "rm"; i]%string] ->
  exists a, runner h (docker_network_inspect_argv p) = Ok a /\ returncode a = 0
    /\ split_once "009"%char (rstrip_newlines (stdout a)) = Some (i, network_plan_identity p).
Proof.
  intros H ->. apply remove_owned_history in H as [H|(j & a & H & Ha & H0 & Hs)].
  - apply app_inv_head in H. discriminate.
  - apply app_inv_head in H. injection H as <-. eauto.
Qed.

(** A cleaned-up resource: the command succeeded or says it was not there. *)
Definition cleaned (command : list string) (r : res CommandResult) : bool :=
  match r with
  | Ok x => (returncode x =? 0) || cleanup_target_absent command x
  | Err _ => false
  end.

Fixpoint all_cleaned (runner : Runner) (h : History) (commands : list (list string)) : bool :=
  match commands with
  | [] => true
  | c :: cs => cleaned c (runner h c) && all_cleaned runner (h ++ [c]) cs
  end.

Lemma cleanup_loop_total runner cs fs h :
  (forall h c e, runner h c = Err e -> runner_failure e <> None) ->
  exists gs, cleanup_loop runner cs fs h = (h ++ cs, Ok (fs ++ gs))
    /\ (gs = [] <-> all_cleaned runner h cs = true).
Proof.
  intros Hrun. revert fs h. induction cs as [|c cs IH]; intros fs h; cbn [cleanup_loop all_cleaned].
  - exists []. unfold mret, eff_ret. rewrite !app_nil_r. tauto.
  - unfold run. destruct (runner h c) as [x|e] eqn:Hr; cbn [cleaned].
    + destruct (negb (returncode x =? 0) && negb (cleanup_target_absent c x)) eqn:Hb.
      * match goal with |- context [cleanup_loop runner cs ?f ?h1] => destruct (IH f h1) as (gs & -> & Hg) end.
        rewrite <- !app_assoc. eexists. split; [reflexivity|]. bool_to_prop.
        rewrite H0, (proj2 (Z.eqb_neq _ 0)) by assumption. split; discriminate.
      * match goal with |- context [cleanup_loop runner cs ?f ?h1] => destruct (IH f h1) as (gs & -> & Hg) end.
        rewrite <- app_assoc. exists gs. split; [reflexivity|].
        apply andb_false_iff in Hb. rewrite !negb_false_iff in Hb.
        assert (Hc : (returncode x =? 0) || cleanup_target_absent c x = true)
          by (apply orb_true_iff; exact Hb). rewrite Hc. exact Hg.
    + destruct (runner_failure e) as [m|] eqn:Hf; [|now destruct (Hrun h c e Hr)].
      match goal with |- context [cleanup_loop runner cs ?f ?h1] => destruct (IH f h1) as (gs & -> & Hg) end.
      rewrite <- !app_assoc. eexists. split; [reflexivity|]. split; discriminate.
Qed.

(** Clean-up is attempted in full.  With a runner that only fails by a
    time-out or an operating-system error, once the network is gone [remove]
    runs every one of the six firewall clean-up commands whatever the earlier
    ones returned, and it returns exactly when each succeeded or reported that
    its target was already absent. *)
Theorem remove_attempts_everything (runner : Runner) (p : FirewallPlan) (h h1 : History) :
  (forall h c e, runner h c = Err e -> runner_failure e <> None) ->
  remove_owned_network runner p h = (h1, Ok tt) ->
  exists r, remove runner p h = (h1 ++ cleanup_commands p, r)
    /\ (r = Ok tt <-> all_cleaned runner h1 (cleanup_commands p) = true).
Proof.
  intros Hrun Ho. unfold remove, mbind, eff_bind, eff_try. rewrite Ho.
  destruct (cleanup_loop_total runner (cleanup_commands p) [] h1 Hrun) as (gs & -> & Hg).
  simpl app. destruct gs as [|g gs]; unfold mret, eff_ret, eff_raise.
  - eexists. split; [reflexivity|]. tauto.
  - eexists. split; [reflexivity|]. split; [discriminate|]. intros H. apply Hg in H. discriminate.
Qed.

(** ** Witnesses *)
Definition sample_plan : FirewallPlan :=
  mkPlan "nl-net" "nl0" "172.30.0.0/24" None ["9.9.9.9"]%string.

Definition sample_packet (dst : Z) (port : Z) : packet := mkPacket "udp" dst (Some port).

Definition answer (rc : Z) (out : string) : CommandResult :=
  mkCommandResult [] rc out "" 0 0 false 0.

(** A runner whose commands all succeed; the inspection prints this plan's
    identity. *)
Definition good_runner : Runner := fun _ c =>
  if bool_decide (c = docker_network_inspect_argv sample_plan)
  then Ok (answer 0 ("0123456789abcdef0123456789abcdef0123456789abcdef0123456789abcdef"
                     ++ TAB ++ network_plan_identity sample_plan)%string)
  else Ok (answer 0 "").

Lemma deny_list_matches_classifier_witness :
  in_any 32 2886729729 (cidrs IPV4_DENY_CIDRS)
  = negb (allowed (classify_destination "::ffff:172.16.0.1" [])).
Proof.
  exact (proj1 (deny_list_matches_classifier "::ffff:172.16.0.1" 2886729729 eq_refl
                  ltac:(lia))).
Defined.

Lemma firewall_implements_policy_witness :
  chain_verdict (appended_rules (chain_name sample_plan "iptables" "egress")
                   (firewall_rule_argv sample_plan)) (sample_packet 167772161 443)
  = Some "REJECT"%string.
Proof.
  rewrite (proj1 (firewall_implements_policy sample_plan (sample_packet 167772161 443) eq_refl
                    ltac:(simpl; lia))).
  reflexivity.
Defined.

Lemma apply_fails_closed_witness :
  exists h' a, apply_policy good_runner sample_plan [] = (h', Ok a) /\ at_verified a = true
    /\ hd_error h' = Some (docker_network_create_argv sample_plan).
Proof.
  destruct (apply_policy good_runner sample_plan []) as [h' r] eqn:Hr.
  pose proof (apply_fails_closed good_runner sample_plan [] h' r Hr) as H.
  destruct r as [a|e].
  - destruct H as (-> & _ & _ & Hv). exists (docker_network_create_argv sample_plan
      :: firewall_rule_argv sample_plan ++ firewall_verification_argv sample_plan), a.
    split; [reflexivity|]. split; [exact Hv|reflexivity].
  - exfalso. apply (f_equal (fun x => is_ok (snd x))) in Hr. vm_compute in Hr. discriminate.
Defined.

Definition sample_network_id : string :=
  "0123456789abcdef0123456789abcdef0123456789abcdef0123456789abcdef".

Lemma good_removal :
  remove_owned_network good_runner sample_plan []
  = ([docker_network_inspect_argv sample_plan; ["docker"; "network"; "rm"; sample_network_id]%string], Ok tt).
Proof. vm_compute. reflexivity. Qed.

Lemma remove_only_owned_witness :
  exists a, good_runner [] (docker_network_inspect_argv sample_plan) = Ok a /\ returncode a = 0
    /\ split_once "009"%char (rstrip_newlines (stdout a))
       = Some (sample_network_id, network_plan_identity sample_plan).
Proof.
  exact (remove_only_owned good_runner sample_plan [] _ (Ok tt) sample_network_id good_removal eq_refl).
Defined.

Lemma good_runner_total h c e : good_runner h c = Err e -> runner_failure e <> None.
Proof. unfold good_runner. destruct (bool_decide _); discriminate. Qed.

Lemma remove_attempts_everything_witness :
  exists r, remove good_runner sample_plan []
    = ([docker_network_inspect_argv sample_plan; ["docker"; "network"; "rm"; sample_network_id]%string]
       ++ cleanup_commands sample_plan, r)
    /\ (r = Ok tt <-> all_cleaned good_runner
          [docker_network_inspect_argv sample_plan; ["docker"; "network"; "rm"; sample_network_id]%string]
          (cleanup_commands sample_plan) = true).
Proof.
  exact (remove_attempts_everything good_runner sample_plan [] _ good_runner_total good_removal).
Defined.
