(* ===== verification/Database.v ===== *)
(** * The state database (the [SCHEMA] of src/notebook_launcher/state.py)

    One record per table row with the columns of the schema, one [Table]
    instance per table for its CHECK constraints, PRIMARY KEY and UNIQUE
    indexes, and the database [db] with its FOREIGN KEYs.  Statements run in a
    [Tx]; [transaction] gives them BEGIN IMMEDIATE / COMMIT / ROLLBACK. *)
From S2P Require Export Sql Models.

(** ** Rows *)
Record replay_row := mkReplay {
  r_jti_hash : string; r_request_digest : string; r_consumed_at : string }.

Record launch_row := mkLaunch {
  l_id : string;
  l_request_digest : string;
  l_repository_id : option Z;
  l_commit_sha : option string;
  l_notebook_path : option string;
  l_workspace_id : option uuid;
  l_gpu : string;
  l_agent_mode : string;
  l_trust_covered : bool;
  l_state : string;
  l_session_id : option uuid;
  l_message : option string;
  l_error_code : option string;
  l_created_at : string;
  l_updated_at : string }.

Record trust_row := mkTrust {
  t_id : uuid;
  t_repository_id : Z;
  t_repository_node_id : option string;
  t_grant_owner : string;
  t_grant_repository : string;
  t_scope : string;
  t_commit_sha : option string;
  t_created_at : string;
  t_revoked_at : option string }.

(** [WorkspaceRecord] has the columns of the row. *)
Record WorkspaceRecord := mkWorkspace {
  w_id : uuid;
  w_source_repository_id : Z;
  w_source_owner : string;
  w_source_repository : string;
  w_source_commit_sha : string;
  w_source_notebook_path : string;
  w_root_path : string;
  w_work_path : string;
  w_outputs_path : string;
  w_active_notebook_path : string;
  w_user_data_grant_id : option uuid;
  w_created_at : string;
  w_updated_at : string }.

(** [SessionRecord] has the columns of the row. *)
Record SessionRecord := mkSession {
  s_id : uuid;
  s_workspace_id : uuid;
  s_runtime_id : string;
  s_host_port : Z;
  s_gpu_enabled : bool;
  s_agent_mode : string;
  s_sandbox_verified : bool;
  s_network_verified : bool;
  s_collaboration_ready : bool;
  s_state : string;
  s_notebook_url : string;
  s_started_at : string;
  s_stopped_at : option string }.

Record lease_row := mkLease {
  ls_id : uuid;
  ls_session_id : uuid;
  ls_client_label : option string;
  ls_acquired_at : string;
  ls_heartbeat_at : option string;
  ls_released_at : option string }.

(** [DocumentVersionRecord] has the columns of the row. *)
Record DocumentVersionRecord := mkDocument {
  d_workspace_id : uuid;
  d_path : string;
  d_kind : string;
  d_version : string;
  d_content_hash : option string;
  d_updated_at : string }.

(** [root_dev] and [root_ino] hold the decimal text of an integer. *)
Record grant_row := mkGrant {
  g_id : uuid;
  g_workspace_id : uuid;
  g_display_path : string;
  g_canonical_root : string;
  g_root_dev : option Z;
  g_root_ino : option Z;
  g_container_path : string;
  g_mode : string;
  g_created_at : string;
  g_revoked_at : option string }.

Record audit_row := mkAudit {
  a_id : uuid;
  a_session_id : option uuid;
  a_lease_id : option uuid;
  a_operation_id : option uuid;
  a_operation : string;
  a_target : option string;
  a_started_at : string;
  a_duration_ms : option Z;
  a_outcome : option string;
  a_error_type : option string }.

(** [launch_sources] and [trust_challenges] (trust_flow.py). *)
Record launch_source_row := mkLaunchSource {
  src_launch_id : string;
  src_repository_id : Z;
  src_repository_node_id : option string;
  src_owner : string;
  src_repository : string;
  src_commit_sha : string;
  src_notebook_path : string;
  src_requested_ref : option string;
  src_clone_url : option string }.

Record challenge_row := mkChallenge {
  ch_launch_id : string;
  ch_nonce_hash : string;
  ch_expires_at : string;
  ch_used_at : option string }.

(** ** States *)
Definition active_states : list string := ["starting"; "ready"; "stopping"]%string.
Definition session_states : list string :=
  ["starting"; "ready"; "stopping"; "stopped"; "failed"]%string.
Definition launch_states : list string :=
  ["pending_trust"; "authorized"; "starting"; "ready"; "failed"; "stopped"]%string.

Definition session_active (s : SessionRecord) : bool := str_mem (s_state s) active_states.
Definition lease_active (l : lease_row) : bool := is_none (ls_released_at l).
Definition grant_active (g : grant_row) : bool := is_none (g_revoked_at g).
Definition trust_active (t : trust_row) : bool := is_none (t_revoked_at t).

(** ** Constraints *)
Definition opt_eqb (a b : option string) : bool :=
  match a, b with
  | Some x, Some y => String.eqb x y
  | _, _ => false
  end.

Definition trust_check (t : trust_row) : bool :=
  str_mem (t_scope t) ["exact_commit"; "repository"]%string
  && ((String.eqb (t_scope t) "exact_commit" && is_some (t_commit_sha t))
      || (String.eqb (t_scope t) "repository" && is_none (t_commit_sha t))).

(** PRIMARY KEY, [ux_active_repository_trust], [ux_active_exact_commit_trust]. *)
Definition trust_conflict (a b : trust_row) : bool :=
  String.eqb (t_id a) (t_id b)
  || (String.eqb (t_scope a) "repository" && String.eqb (t_scope b) "repository"
      && trust_active a && trust_active b && (t_repository_id a =? t_repository_id b)%Z)
  || (String.eqb (t_scope a) "exact_commit" && String.eqb (t_scope b) "exact_commit"
      && trust_active a && trust_active b && (t_repository_id a =? t_repository_id b)%Z
      && opt_eqb (t_commit_sha a) (t_commit_sha b)).

Definition launch_check (l : launch_row) : bool :=
  str_mem (l_gpu l) ["auto"; "on"; "off"]%string
  && str_mem (l_agent_mode l) ["write"; "readonly"]%string
  && str_mem (l_state l) launch_states.

Definition session_check (s : SessionRecord) : bool :=
  str_mem (s_agent_mode s) ["write"; "readonly"]%string && str_mem (s_state s) session_states.

(** PRIMARY KEY and [ux_one_active_session_per_workspace]. *)
Definition session_conflict (a b : SessionRecord) : bool :=
  String.eqb (s_id a) (s_id b)
  || (session_active a && session_active b && String.eqb (s_workspace_id a) (s_workspace_id b)).

(** PRIMARY KEY and [ux_one_active_writable_lease]. *)
Definition lease_conflict (a b : lease_row) : bool :=
  String.eqb (ls_id a) (ls_id b)
  || (lease_active a && lease_active b && String.eqb (ls_session_id a) (ls_session_id b)).

Definition document_check (d : DocumentVersionRecord) : bool :=
  str_mem (d_kind d) ["notebook"; "file"]%string.
Definition document_conflict (a b : DocumentVersionRecord) : bool :=
  String.eqb (d_workspace_id a) (d_workspace_id b) && String.eqb (d_path a) (d_path b).

Definition grant_check (g : grant_row) : bool := str_mem (g_mode g) ["ro"; "rw"]%string.
(** PRIMARY KEY and [ux_one_active_user_data_grant]. *)
Definition grant_conflict (a b : grant_row) : bool :=
  String.eqb (g_id a) (g_id b)
  || (grant_active a && grant_active b && String.eqb (g_workspace_id a) (g_workspace_id b)).

Lemma opt_eqb_sym a b : opt_eqb a b = opt_eqb b a.
Proof. destruct a, b; simpl; auto using String.eqb_sym. Qed.

#[export] Instance replay_table : Table replay_row := {|
  tbl_check _ := true;
  tbl_conflict a b := String.eqb (r_jti_hash a) (r_jti_hash b);
  tbl_conflict_sym a b := String.eqb_sym _ _ |}.

#[export] Instance launch_table : Table launch_row := {|
  tbl_check := launch_check;
  tbl_conflict a b := String.eqb (l_id a) (l_id b);
  tbl_conflict_sym a b := String.eqb_sym _ _ |}.

#[export] Program Instance trust_table : Table trust_row := {|
  tbl_check := trust_check;
  tbl_conflict := trust_conflict |}.
Next Obligation.
  intros a b. unfold trust_conflict.
  rewrite (String.eqb_sym (t_id a)), (Z.eqb_sym (t_repository_id a)), (opt_eqb_sym (t_commit_sha a)).
  destruct (t_scope a =? "repository")%string, (t_scope b =? "repository")%string,
    (t_scope a =? "exact_commit")%string, (t_scope b =? "exact_commit")%string,
    (trust_active a), (trust_active b); reflexivity.
Qed.

#[export] Instance workspace_table : Table WorkspaceRecord := {|
  tbl_check _ := true;
  tbl_conflict a b := String.eqb (w_id a) (w_id b);
  tbl_conflict_sym a b := String.eqb_sym _ _ |}.

#[export] Program Instance session_table : Table SessionRecord := {|
  tbl_check := session_check;
  tbl_conflict := session_conflict |}.
Next Obligation.
  intros a b. unfold session_conflict.
  rewrite (String.eqb_sym (s_id a)), (String.eqb_sym (s_workspace_id a)).
  now rewrite (andb_comm (session_active a)).
Qed.

#[export] Program Instance lease_table : Table lease_row := {|
  tbl_check _ := true;
  tbl_conflict := lease_conflict |}.
Next Obligation.
  intros a b. unfold lease_conflict.
  rewrite (String.eqb_sym (ls_id a)), (String.eqb_sym (ls_session_id a)).
  now rewrite (andb_comm (lease_active a)).
Qed.

#[export] Program Instance document_table : Table DocumentVersionRecord := {|
  tbl_check := document_check;
  tbl_conflict := document_conflict |}.
Next Obligation.
  intros a b. unfold document_conflict.
  now rewrite (String.eqb_sym (d_workspace_id a)), (String.eqb_sym (d_path a)).
Qed.

#[export] Program Instance grant_table : Table grant_row := {|
  tbl_check := grant_check;
  tbl_conflict := grant_conflict |}.
Next Obligation.
  intros a b. unfold grant_conflict.
  rewrite (String.eqb_sym (g_id a)), (String.eqb_sym (g_workspace_id a)).
  now rewrite (andb_comm (grant_active a)).
Qed.

#[export] Instance audit_table : Table audit_row := {|
  tbl_check _ := true;
  tbl_conflict a b := String.eqb (a_id a) (a_id b);
  tbl_conflict_sym a b := String.eqb_sym _ _ |}.

#[export] Instance launch_source_table : Table launch_source_row := {|
  tbl_check _ := true;
  tbl_conflict a b := String.eqb (src_launch_id a) (src_launch_id b);
  tbl_conflict_sym a b := String.eqb_sym _ _ |}.

#[export] Instance challenge_table : Table challenge_row := {|
  tbl_check _ := true;
  tbl_conflict a b := String.eqb (ch_launch_id a) (ch_launch_id b);
  tbl_conflict_sym a b := String.eqb_sym _ _ |}.

(** ** Primary keys *)
#[export] Program Instance replay_keyed : Keyed replay_row := {| pk := r_jti_hash |}.
Next Obligation. intros a b Hab. now apply String.eqb_eq. Qed.
#[export] Program Instance launch_keyed : Keyed launch_row := {| pk := l_id |}.
Next Obligation. intros a b Hab. now apply String.eqb_eq. Qed.
#[export] Program Instance trust_keyed : Keyed trust_row := {| pk := t_id |}.
Next Obligation. intros a b Hab. apply orb_true_iff. left. apply orb_true_iff. left. now apply String.eqb_eq. Qed.
#[export] Program Instance workspace_keyed : Keyed WorkspaceRecord := {| pk := w_id |}.
Next Obligation. intros a b Hab. now apply String.eqb_eq. Qed.
#[export] Program Instance session_keyed : Keyed SessionRecord := {| pk := s_id |}.
Next Obligation. intros a b Hab. apply orb_true_iff. left. now apply String.eqb_eq. Qed.
#[export] Program Instance lease_keyed : Keyed lease_row := {| pk := ls_id |}.
Next Obligation. intros a b Hab. apply orb_true_iff. left. now apply String.eqb_eq. Qed.
#[export] Program Instance grant_keyed : Keyed grant_row := {| pk := g_id |}.
Next Obligation. intros a b Hab. apply orb_true_iff. left. now apply String.eqb_eq. Qed.
#[export] Program Instance launch_source_keyed : Keyed launch_source_row := {| pk := src_launch_id |}.
Next Obligation. intros a b Hab. now apply String.eqb_eq. Qed.
#[export] Program Instance challenge_keyed : Keyed challenge_row := {| pk := ch_launch_id |}.
Next Obligation. intros a b Hab. now apply String.eqb_eq. Qed.

(** ** The database *)
Record db := mkDb {
  replays : list replay_row;
  launches : list launch_row;
  trust_records : list trust_row;
  workspaces : list WorkspaceRecord;
  notebook_sessions : list SessionRecord;
  writable_agent_leases : list lease_row;
  document_versions : list DocumentVersionRecord;
  user_data_grants : list grant_row;
  audit_events : list audit_row;
  launch_sources : list launch_source_row;
  trust_challenges : list challenge_row }.

Definition empty_db : db := mkDb [] [] [] [] [] [] [] [] [] [] [].

Definition has_launch (d : db) (i : string) : bool :=
  existsb (fun l => String.eqb (l_id l) i) (launches d).
Definition has_workspace (d : db) (i : string) : bool :=
  existsb (fun w => String.eqb (w_id w) i) (workspaces d).
Definition has_session (d : db) (i : string) : bool :=
  existsb (fun s => String.eqb (s_id s) i) (notebook_sessions d).

(** [DbTable R]: where the rows of type [R] live, and the REFERENCES
    constraints ([PRAGMA foreign_keys = ON]) of one row.  [tbl_key] is the
    column that other tables reference (constant where none does). *)
Class DbTable (R : Type) `{Table R} := {
  tbl : db -> list R;
  set_tbl : list R -> db -> db;
  tbl_fk : db -> R -> bool;
  tbl_key : R -> string;
  tbl_set : forall t d, tbl (set_tbl t d) = t }.

#[export] Instance replay_db : DbTable replay_row := {|
  tbl := replays;
  set_tbl t d := mkDb t (launches d) (trust_records d) (workspaces d) (notebook_sessions d)
    (writable_agent_leases d) (document_versions d) (user_data_grants d) (audit_events d)
    (launch_sources d) (trust_challenges d);
  tbl_fk _ _ := true;
  tbl_key _ := ""%string;
  tbl_set _ _ := eq_refl |}.
#[export] Instance launch_db : DbTable launch_row := {|
  tbl := launches;
  set_tbl t d := mkDb (replays d) t (trust_records d) (workspaces d) (notebook_sessions d)
    (writable_agent_leases d) (document_versions d) (user_data_grants d) (audit_events d)
    (launch_sources d) (trust_challenges d);
  tbl_fk _ _ := true;
  tbl_key := l_id;
  tbl_set _ _ := eq_refl |}.
#[export] Instance trust_db : DbTable trust_row := {|
  tbl := trust_records;
  set_tbl t d := mkDb (replays d) (launches d) t (workspaces d) (notebook_sessions d)
    (writable_agent_leases d) (document_versions d) (user_data_grants d) (audit_events d)
    (launch_sources d) (trust_challenges d);
  tbl_fk _ _ := true;
  tbl_key _ := ""%string;
  tbl_set _ _ := eq_refl |}.
#[export] Instance workspace_db : DbTable WorkspaceRecord := {|
  tbl := workspaces;
  set_tbl t d := mkDb (replays d) (launches d) (trust_records d) t (notebook_sessions d)
    (writable_agent_leases d) (document_versions d) (user_data_grants d) (audit_events d)
    (launch_sources d) (trust_challenges d);
  tbl_fk _ _ := true;
  tbl_key := w_id;
  tbl_set _ _ := eq_refl |}.
#[export] Instance session_db : DbTable SessionRecord := {|
  tbl := notebook_sessions;
  set_tbl t d := mkDb (replays d) (launches d) (trust_records d) (workspaces d) t
    (writable_agent_leases d) (document_versions d) (user_data_grants d) (audit_events d)
    (launch_sources d) (trust_challenges d);
  tbl_fk d s := has_workspace d (s_workspace_id s);
  tbl_key := s_id;
  tbl_set _ _ := eq_refl |}.
#[export] Instance lease_db : DbTable lease_row := {|
  tbl := writable_agent_leases;
  set_tbl t d := mkDb (replays d) (launches d) (trust_records d) (workspaces d)
    (notebook_sessions d) t (document_versions d) (user_data_grants d) (audit_events d)
    (launch_sources d) (trust_challenges d);
  tbl_fk d l := has_session d (ls_session_id l);
  tbl_key _ := ""%string;
  tbl_set _ _ := eq_refl |}.
#[export] Instance document_db : DbTable DocumentVersionRecord := {|
  tbl := document_versions;
  set_tbl t d := mkDb (replays d) (launches d) (trust_records d) (workspaces d)
    (notebook_sessions d) (writable_agent_leases d) t (user_data_grants d) (audit_events d)
    (launch_sources d) (trust_challenges d);
  tbl_fk d v := has_workspace d (d_workspace_id v);
  tbl_key _ := ""%string;
  tbl_set _ _ := eq_refl |}.
#[export] Instance grant_db : DbTable grant_row := {|
  tbl := user_data_grants;
  set_tbl t d := mkDb (replays d) (launches d) (trust_records d) (workspaces d)
    (notebook_sessions d) (writable_agent_leases d) (document_versions d) t (audit_events d)
    (launch_sources d) (trust_challenges d);
  tbl_fk d g := has_workspace d (g_workspace_id g);
  tbl_key _ := ""%string;
  tbl_set _ _ := eq_refl |}.
#[export] Instance audit_db : DbTable audit_row := {|
  tbl := audit_events;
  set_tbl t d := mkDb (replays d) (launches d) (trust_records d) (workspaces d)
    (notebook_sessions d) (writable_agent_leases d) (document_versions d) (user_data_grants d) t
    (launch_sources d) (trust_challenges d);
  tbl_fk _ _ := true;
  tbl_key _ := ""%string;
  tbl_set _ _ := eq_refl |}.
#[export] Instance launch_source_db : DbTable launch_source_row := {|
  tbl := launch_sources;
  set_tbl t d := mkDb (replays d) (launches d) (trust_records d) (workspaces d)
    (notebook_sessions d) (writable_agent_leases d) (document_versions d) (user_data_grants d)
    (audit_events d) t (trust_challenges d);
  tbl_fk d s := has_launch d (src_launch_id s);
  tbl_key _ := ""%string;
  tbl_set _ _ := eq_refl |}.
#[export] Instance challenge_db : DbTable challenge_row := {|
  tbl := trust_challenges;
  set_tbl t d := mkDb (replays d) (launches d) (trust_records d) (workspaces d)
    (notebook_sessions d) (writable_agent_leases d) (document_versions d) (user_data_grants d)
    (audit_events d) (launch_sources d) t;
  tbl_fk d c := has_launch d (ch_launch_id c);
  tbl_key _ := ""%string;
  tbl_set _ _ := eq_refl |}.

(** ** Code running inside a transaction *)
Definition Tx (A : Type) : Type := db -> res (db * A).

Definition tx_ret {A} (a : A) : Tx A := fun d => Ok (d, a).
Definition tx_bind {A B} (m : Tx A) (k : A -> Tx B) : Tx B :=
  fun d => match m d with
           | Ok (d', a) => k a d'
           | Err e => Err e
           end.
Definition tx_raise {A} (e : exn) : Tx A := fun _ => Err e.
Definition tx_raise_if (b : bool) (e : exn) : Tx unit :=
  if b then tx_raise e else tx_ret tt.
Definition tx_lift {A} (r : res A) : Tx A :=
  match r with Ok a => tx_ret a | Err e => tx_raise e end.

Notation "x <- m ;; k" := (tx_bind m (fun x => k))
  (at level 100, m at next level, right associativity) : launcher_scope.
Notation "m ;;; k" := (tx_bind m (fun _ => k))
  (at level 100, right associativity) : launcher_scope.

Section TableStatements.
Context {R : Type} `{DbTable R}.

Definition tx_select (p : R -> bool) : Tx (list R) := fun d => Ok (d, select p (tbl d)).
Definition tx_fetchone (p : R -> bool) : Tx (option R) := fun d => Ok (d, fetchone p (tbl d)).

Definition tx_insert (r : R) : Tx unit := fun d =>
  if tbl_fk d r then
    match sql_insert r (tbl d) with
    | Some t => Ok (set_tbl t d, tt)
    | None => Err IntegrityError
    end
  else Err IntegrityError.

Definition tx_replace (r : R) : Tx unit := fun d =>
  if tbl_fk d r then
    match sql_replace r (tbl d) with
    | Some t => Ok (set_tbl t d, tt)
    | None => Err IntegrityError
    end
  else Err IntegrityError.

(** Returns [cursor.rowcount]. *)
Definition tx_update (p : R -> bool) (f : R -> R) : Tx Z := fun d =>
  match sql_update p f (tbl d) with
  | Some (t, n) => Ok (set_tbl t d, n)
  | None => Err IntegrityError
  end.
End TableStatements.

(** [StateStore.transaction] without compensation, for bodies that only run
    statements: COMMIT when the body returns, ROLLBACK when it raises. *)
Definition transaction {A} (m : Tx A) (d : db) : db * res A :=
  match m d with
  | Ok (d', a) => (d', Ok a)
  | Err e => (d, Err e)
  end.

(** [try: with transaction(): ... except sqlite3.IntegrityError as exc: ...] *)
Definition on_integrity_error {A} (h : res A) (r : db * res A) : db * res A :=
  match r with
  | (d, Err IntegrityError) => (d, h)
  | _ => r
  end.

(** ** Well-formed databases: every constraint of the schema *)
Definition fks {R} `{DbTable R} (d : db) : bool := forallb (tbl_fk d) (tbl d).

Record wf_db (d : db) : Prop := mkWf {
  wf_replays : tbl_ok (replays d) = true;
  wf_launches : tbl_ok (launches d) = true;
  wf_trust : tbl_ok (trust_records d) = true;
  wf_workspaces : tbl_ok (workspaces d) = true;
  wf_sessions : tbl_ok (notebook_sessions d) = true;
  wf_leases : tbl_ok (writable_agent_leases d) = true;
  wf_documents : tbl_ok (document_versions d) = true;
  wf_grants : tbl_ok (user_data_grants d) = true;
  wf_audit : tbl_ok (audit_events d) = true;
  wf_launch_sources : tbl_ok (launch_sources d) = true;
  wf_challenges : tbl_ok (trust_challenges d) = true;
  wf_fk_sessions : fks (R:=SessionRecord) d = true;
  wf_fk_leases : fks (R:=lease_row) d = true;
  wf_fk_documents : fks (R:=DocumentVersionRecord) d = true;
  wf_fk_grants : fks (R:=grant_row) d = true;
  wf_fk_launch_sources : fks (R:=launch_source_row) d = true;
  wf_fk_challenges : fks (R:=challenge_row) d = true }.

Lemma empty_db_wf : wf_db empty_db.
Proof. split; reflexivity. Qed.

(** ** Statements keep the database well-formed *)
Definition keys_kept {R} `{DbTable R} (t t' : list R) : Prop :=
  forall k, existsb (fun r => String.eqb (tbl_key r) k) t = true ->
            existsb (fun r => String.eqb (tbl_key r) k) t' = true.

Class DbTableWf (R : Type) `{DbTable R} :=
  set_tbl_wf : forall d t,
    wf_db d -> tbl_ok t = true -> forallb (tbl_fk d) t = true -> keys_kept (tbl d) t ->
    wf_db (set_tbl t d).

(** Replacing a table that no other table references. *)
Ltac solve_set_tbl_wf :=
  intros d t [] Ht Hfk Hk; split; try assumption; try exact Ht; try exact Hfk.

Lemma fks_mono {R} `{DbTable R} (d d' : db) :
  tbl d' = tbl d -> (forall r, tbl_fk d r = true -> tbl_fk d' r = true) ->
  fks (R:=R) d = true -> fks (R:=R) d' = true.
Proof.
  unfold fks. intros -> Hfk. rewrite !forallb_forall. eauto.
Qed.

#[export] Instance replay_wf : DbTableWf replay_row. Proof. solve_set_tbl_wf. Qed.
#[export] Instance trust_wf : DbTableWf trust_row. Proof. solve_set_tbl_wf. Qed.
#[export] Instance lease_wf : DbTableWf lease_row. Proof. solve_set_tbl_wf. Qed.
#[export] Instance document_wf : DbTableWf DocumentVersionRecord. Proof. solve_set_tbl_wf. Qed.
#[export] Instance grant_wf : DbTableWf grant_row. Proof. solve_set_tbl_wf. Qed.
#[export] Instance audit_wf : DbTableWf audit_row. Proof. solve_set_tbl_wf. Qed.
#[export] Instance launch_source_wf : DbTableWf launch_source_row. Proof. solve_set_tbl_wf. Qed.
#[export] Instance challenge_wf : DbTableWf challenge_row. Proof. solve_set_tbl_wf. Qed.
#[export] Instance launch_wf : DbTableWf launch_row.
Proof.
  solve_set_tbl_wf;
    (eapply (fks_mono d); [reflexivity|intros r; simpl; apply Hk|assumption]).
Qed.
#[export] Instance workspace_wf : DbTableWf WorkspaceRecord.
Proof.
  solve_set_tbl_wf;
    (eapply (fks_mono d); [reflexivity|intros r; simpl; apply Hk|assumption]).
Qed.
#[export] Instance session_wf : DbTableWf SessionRecord.
Proof.
  solve_set_tbl_wf;
    (eapply (fks_mono d); [reflexivity|intros r; simpl; apply Hk|assumption]).
Qed.

Class TableOfWf (R : Type) `{DbTable R} := {
  tbl_wf : forall d, wf_db d -> tbl_ok (tbl d) = true;
  tbl_fks : forall d, wf_db d -> forallb (tbl_fk d) (tbl d) = true }.

Lemma forallb_true {A} (l : list A) : forallb (fun _ => true) l = true.
Proof. now apply forallb_forall. Qed.

Ltac solve_table_of_wf :=
  split; intros d []; [assumption|first [assumption | apply forallb_true]].

#[export] Instance replay_of_wf : TableOfWf replay_row. Proof. solve_table_of_wf. Qed.
#[export] Instance launch_of_wf : TableOfWf launch_row. Proof. solve_table_of_wf. Qed.
#[export] Instance trust_of_wf : TableOfWf trust_row. Proof. solve_table_of_wf. Qed.
#[export] Instance workspace_of_wf : TableOfWf WorkspaceRecord. Proof. solve_table_of_wf. Qed.
#[export] Instance session_of_wf : TableOfWf SessionRecord. Proof. solve_table_of_wf. Qed.
#[export] Instance lease_of_wf : TableOfWf lease_row. Proof. solve_table_of_wf. Qed.
#[export] Instance document_of_wf : TableOfWf DocumentVersionRecord. Proof. solve_table_of_wf. Qed.
#[export] Instance grant_of_wf : TableOfWf grant_row. Proof. solve_table_of_wf. Qed.
#[export] Instance audit_of_wf : TableOfWf audit_row. Proof. solve_table_of_wf. Qed.
#[export] Instance launch_source_of_wf : TableOfWf launch_source_row. Proof. solve_table_of_wf. Qed.
#[export] Instance challenge_of_wf : TableOfWf challenge_row. Proof. solve_table_of_wf. Qed.

Definition preserves {A} (m : Tx A) : Prop :=
  forall d d' a, wf_db d -> m d = Ok (d', a) -> wf_db d'.

Create HintDb wfdb.

Lemma preserves_ret {A} (a : A) : preserves (tx_ret a).
Proof. intros d d' b Hd [= <- _]. exact Hd. Qed.

Lemma preserves_raise {A} e : preserves (tx_raise (A:=A) e).
Proof. intros d d' b Hd [=]. Qed.

Lemma preserves_raise_if b e : preserves (tx_raise_if b e).
Proof. unfold tx_raise_if. destruct b; [apply preserves_raise|apply preserves_ret]. Qed.

Lemma preserves_lift {A} (r : res A) : preserves (tx_lift r).
Proof. destruct r; [apply preserves_ret|apply preserves_raise]. Qed.

Lemma preserves_bind {A B} (m : Tx A) (k : A -> Tx B) :
  preserves m -> (forall a, preserves (k a)) -> preserves (tx_bind m k).
Proof.
  unfold tx_bind. intros Hm Hk d d' b Hd He.
  destruct (m d) as [[d1 a]|e] eqn:Em; [|discriminate].
  exact (Hk a d1 d' b (Hm d d1 a Hd Em) He).
Qed.

Section PreservesStatements.
Context {R : Type} `{HwfR : DbTableWf R} `{Hof : !TableOfWf R}.

Lemma preserves_select (p : R -> bool) : preserves (tx_select p).
Proof. intros d d' b Hd [= <- _]. exact Hd. Qed.

Lemma preserves_fetchone (p : R -> bool) : preserves (tx_fetchone p).
Proof. intros d d' b Hd [= <- _]. exact Hd. Qed.

Lemma preserves_insert (r : R) : preserves (tx_insert r).
Proof.
  unfold tx_insert. intros d d' b Hd He.
  destruct (tbl_fk d r) eqn:Hfk; [|discriminate].
  destruct (sql_insert r (tbl d)) as [t|] eqn:Hi; [|discriminate].
  injection He as <- _. apply set_tbl_wf; [exact Hd|..].
  - eapply sql_insert_ok; [exact (tbl_wf d Hd)|exact Hi].
  - apply sql_insert_spec in Hi as (-> & _). rewrite forallb_app, (tbl_fks d Hd).
    simpl. now rewrite Hfk.
  - apply sql_insert_spec in Hi as (-> & _). intros k Hk.
    rewrite existsb_app, Hk. reflexivity.
Qed.

Lemma preserves_update (p : R -> bool) (f : R -> R) :
  (forall r, tbl_key (f r) = tbl_key r) ->
  (forall d r, tbl_fk d r = true -> tbl_fk d (f r) = true) ->
  preserves (tx_update p f).
Proof.
  unfold tx_update. intros Hkey Hfk d d' b Hd He.
  destruct (sql_update p f (tbl d)) as [[t n]|] eqn:Hu; [|discriminate].
  injection He as <- _. apply sql_update_spec in Hu as (-> & _ & Hok).
  apply set_tbl_wf; [exact Hd|exact Hok|..].
  - pose proof (tbl_fks d Hd) as Hfks. rewrite forallb_forall in *.
    intros x Hx. apply in_map_iff in Hx as (y & <- & Hy).
    destruct (p y); auto.
  - intros k Hk. rewrite existsb_exists in *. destruct Hk as (x & Hx & Hkx).
    exists (if p x then f x else x). split.
    + apply in_map_iff. eauto.
    + destruct (p x); [rewrite Hkey|]; exact Hkx.
Qed.

Lemma preserves_replace (r : R) :
  (forall x, tbl_conflict x r = true -> tbl_key x = tbl_key r) ->
  preserves (tx_replace r).
Proof.
  unfold tx_replace. intros Hkey d d' b Hd He.
  destruct (tbl_fk d r) eqn:Hfk; [|discriminate].
  destruct (sql_replace r (tbl d)) as [t|] eqn:Hi; [|discriminate].
  injection He as <- _. apply set_tbl_wf; [exact Hd|..].
  - eapply sql_replace_ok; [exact (tbl_wf d Hd)|exact Hi].
  - unfold sql_replace in Hi. destruct (tbl_check r); [|discriminate].
    injection Hi as <-. rewrite forallb_app. simpl. rewrite Hfk, andb_true_r.
    pose proof (tbl_fks d Hd) as Hfks. rewrite forallb_forall in *.
    intros x Hx. apply filter_In in Hx. now apply Hfks.
  - unfold sql_replace in Hi. destruct (tbl_check r); [|discriminate].
    injection Hi as <-. intros k Hk. rewrite existsb_app. simpl. rewrite orb_false_r.
    rewrite existsb_exists in Hk. destruct Hk as (x & Hx & Hkx).
    destruct (tbl_conflict x r) eqn:Hc.
    + rewrite <- (Hkey x Hc), Hkx. apply orb_true_r.
    + apply orb_true_iff. left. apply existsb_exists.
      exists x. split; [apply filter_In; rewrite Hc; auto|exact Hkx].
Qed.
End PreservesStatements.

#[export] Hint Resolve preserves_ret preserves_raise preserves_raise_if preserves_lift : wfdb.
#[export] Hint Extern 1 (preserves (tx_select _)) => (apply preserves_select) : wfdb.
#[export] Hint Extern 1 (preserves (tx_fetchone _)) => (apply preserves_fetchone) : wfdb.
#[export] Hint Extern 1 (preserves (tx_insert _)) => (apply preserves_insert) : wfdb.
#[export] Hint Extern 1 (preserves (tx_update _ _)) =>
  (apply preserves_update; [reflexivity|do 2 intro; exact id]) : wfdb.
#[export] Hint Extern 1 (preserves (tx_replace _)) =>
  (apply preserves_replace; reflexivity) : wfdb.
#[export] Hint Extern 2 (preserves (tx_bind _ _)) =>
  (apply preserves_bind; [|intros ?]) : wfdb.
#[export] Hint Extern 3 (preserves (if ?b then _ else _)) => (destruct b) : wfdb.
#[export] Hint Extern 3 (preserves (match ?o with _ => _ end)) => (destruct o) : wfdb.

(** A transaction leaves a well-formed database, committed or rolled back. *)
Lemma transaction_wf {A} (m : Tx A) d :
  preserves m -> wf_db d -> wf_db (fst (transaction m d)).
Proof.
  unfold transaction. intros Hm Hd.
  destruct (m d) as [[d' a]|e] eqn:Em; simpl; [exact (Hm _ _ _ Hd Em)|exact Hd].
Qed.

Lemma on_integrity_error_fst {A} (h : res A) r : fst (on_integrity_error h r) = fst r.
Proof. destruct r as [d [a|[]]]; reflexivity. Qed.

(** ** Reading a committed transaction back *)
Lemma transaction_ok {A} (m : Tx A) d d' a :
  transaction m d = (d', Ok a) <-> m d = Ok (d', a).
Proof.
  unfold transaction. destruct (m d) as [[d1 b]|e]; split; intros H; simplify_eq; auto.
Qed.

(** ROLLBACK: a transaction that raises changes nothing. *)
Lemma transaction_err {A} (m : Tx A) d d' e :
  transaction m d = (d', Err e) -> d' = d /\ m d = Err e.
Proof.
  unfold transaction. destruct (m d) as [[d1 b]|e1]; intros H; simplify_eq; auto.
Qed.

(** ** Compare-and-set on the row of a given key *)
Section CompareAndSet.
Context {R : Type} `{DbTable R} `{!TableOfWf R} `{!Keyed R}.

(** [UPDATE ... SET f WHERE id = i AND c], when it breaks no constraint. *)
Lemma tx_update_by_key i c (f : R -> R) d t' n :
  wf_db d -> (forall r, pk (f r) = pk r) ->
  sql_update (fun r => by_key i r && c r) f (tbl d) = Some (t', n) ->
  match fetchone (by_key i) (tbl d) with
  | Some r =>
      if c r then n = 1 /\ fetchone (by_key i) t' = Some (f r) else n = 0
  | None => n = 0
  end /\ (forall j, j <> i -> fetchone (by_key j) t' = fetchone (by_key j) (tbl d)).
Proof.
  intros Hd Hpk Hu. apply sql_update_spec in Hu as (-> & -> & _).
  pose proof (tbl_wf d Hd) as Hok. rewrite select_by_key by exact Hok.
  split.
  - destruct (fetchone (by_key i) (tbl d)) as [r|] eqn:Hf; [|reflexivity].
    destruct (c r) eqn:Hc; [|reflexivity]. split; [reflexivity|].
    rewrite (map_by_key_self _ _ _ i r) by auto.
    apply fetch_by_key_some in Hf as [_ Hi]. unfold by_key.
    now rewrite Hi, String.eqb_refl, Hc.
  - intros j Hj. apply map_by_key_other; [auto|].
    intros r _ Hp. unfold by_key in Hp. bool_to_prop. congruence.
Qed.
End CompareAndSet.
