(* ===== verification/Schemas.v ===== *)
(** * String enumerations and plain models (src/notebook_launcher/models.py)

    The [StrEnum]s as instances of one class, with the constructor
    [Enum(text)] that every one of them has, and the pydantic models that only
    carry fields.  The columns of the database hold the values of these
    enumerations as text; [stored_values_valid] says that reading them back
    never raises. *)
From S2P Require Import Prelude Models Source Database.

(** ** [StrEnum] *)
Class StrEnum (A : Type) := {
  members : list A;
  value : A -> string }.

Class StrEnumLaws (A : Type) `{StrEnum A} : Prop := {
  members_complete : forall a : A, In a members;
  value_inj :: Inj (=) (=) (value : A -> string) }.

(** [Enum(text)]: the member with this value, or [ValueError]. *)
Definition of_value {A} `{StrEnum A} (invalid s : string) : res A :=
  match find (fun a => String.eqb (value a) s) members with
  | Some a => Ok a
  | None => Err (ValueError invalid)
  end.

Section enum.
Context {A : Type} `{StrEnumLaws A}.

Lemma of_value_spec invalid s (a : A) : of_value invalid s = Ok a <-> value a = s.
Proof.
  unfold of_value. destruct (find _ members) as [b|] eqn:E; split.
  - intros [= ->]. apply find_some in E as [_ E]. now apply String.eqb_eq.
  - intros <-. apply find_some in E as [_ E%String.eqb_eq]. f_equal. now apply value_inj.
  - discriminate.
  - intros <-. pose proof (find_none _ _ E a (members_complete a)) as Hn. cbn in Hn.
    rewrite String.eqb_refl in Hn. discriminate.
Qed.

Lemma of_value_total invalid s :
  In s (map (value : A -> string) members) -> exists a : A, of_value invalid s = Ok a.
Proof. intros (a & <- & _)%in_map_iff. exists a. now apply of_value_spec. Qed.
End enum.

(** A finite enumeration: its laws are decided by cases. *)
Ltac enum_laws :=
  constructor;
  [ intros []; cbn; tauto | intros [] []; cbn; intros; first [reflexivity | discriminate] ].

(** ** The enumerations *)
Inductive LaunchPhase :=
| Phase_RECEIVED | Phase_AWAITING_TRUST | Phase_ACQUIRING | Phase_WORKSPACE_PREPARING
| Phase_BUILDING | Phase_CACHE_HIT | Phase_STARTING | Phase_MCP_PREPARING | Phase_READY
| Phase_FAILED | Phase_STOPPING | Phase_STOPPED.
Inductive McpStatus :=
| Mcp_UNAVAILABLE | Mcp_AVAILABLE | Mcp_ATTACHING | Mcp_ATTACHED | Mcp_ERROR | Mcp_INVALIDATED.
Inductive SessionState :=
| Session_STARTING | Session_READY | Session_STOPPING | Session_STOPPED | Session_FAILED.

#[export] Instance GPU_enum : StrEnum GPU := {|
  members := [GPU_AUTO; GPU_ON; GPU_OFF];
  value := GPU_value |}.
#[export] Instance AgentMode_enum : StrEnum AgentMode := {|
  members := [AgentMode_WRITE; AgentMode_READONLY];
  value := AgentMode_value |}.
#[export] Instance TrustScope_enum : StrEnum TrustScope := {|
  members := [EXACT_COMMIT; REPOSITORY];
  value := TrustScope_value |}.
#[export] Instance DestinationScope_enum : StrEnum DestinationScope := {|
  members := [Scope_WORKSPACE; Scope_USER_DATA];
  value := DestinationScope_value |}.
#[export] Instance LaunchPhase_enum : StrEnum LaunchPhase := {|
  members := [Phase_RECEIVED; Phase_AWAITING_TRUST; Phase_ACQUIRING; Phase_WORKSPACE_PREPARING;
              Phase_BUILDING; Phase_CACHE_HIT; Phase_STARTING; Phase_MCP_PREPARING; Phase_READY;
              Phase_FAILED; Phase_STOPPING; Phase_STOPPED];
  value p :=
    match p with
    | Phase_RECEIVED => "received"
    | Phase_AWAITING_TRUST => "awaiting_trust"
    | Phase_ACQUIRING => "acquiring"
    | Phase_WORKSPACE_PREPARING => "workspace_preparing"
    | Phase_BUILDING => "building"
    | Phase_CACHE_HIT => "cache_hit"
    | Phase_STARTING => "starting"
    | Phase_MCP_PREPARING => "mcp_preparing"
    | Phase_READY => "ready"
    | Phase_FAILED => "failed"
    | Phase_STOPPING => "stopping"
    | Phase_STOPPED => "stopped"
    end |}.
#[export] Instance McpStatus_enum : StrEnum McpStatus := {|
  members := [Mcp_UNAVAILABLE; Mcp_AVAILABLE; Mcp_ATTACHING; Mcp_ATTACHED; Mcp_ERROR; Mcp_INVALIDATED];
  value m :=
    match m with
    | Mcp_UNAVAILABLE => "unavailable"
    | Mcp_AVAILABLE => "available"
    | Mcp_ATTACHING => "attaching"
    | Mcp_ATTACHED => "attached"
    | Mcp_ERROR => "error"
    | Mcp_INVALIDATED => "invalidated"
    end |}.
#[export] Instance SessionState_enum : StrEnum SessionState := {|
  members := [Session_STARTING; Session_READY; Session_STOPPING; Session_STOPPED; Session_FAILED];
  value s :=
    match s with
    | Session_STARTING => "starting"
    | Session_READY => "ready"
    | Session_STOPPING => "stopping"
    | Session_STOPPED => "stopped"
    | Session_FAILED => "failed"
    end |}.
#[export] Instance ExecutionState_enum : StrEnum ExecutionState := {|
  members := [QUEUED; DISPATCHED; RUNNING; CANCEL_PENDING; CANCELLING; COMPLETED; FAILED; TIMEOUT;
              CANCELLED];
  value s :=
    match s with
    | QUEUED => "queued"
    | DISPATCHED => "dispatched"
    | RUNNING => "running"
    | CANCEL_PENDING => "cancel_pending"
    | CANCELLING => "cancelling"
    | COMPLETED => "completed"
    | FAILED => "failed"
    | TIMEOUT => "timeout"
    | CANCELLED => "cancelled"
    end |}.

#[export] Instance GPU_laws : StrEnumLaws GPU. Proof. enum_laws. Qed.
#[export] Instance AgentMode_laws : StrEnumLaws AgentMode. Proof. enum_laws. Qed.
#[export] Instance TrustScope_laws : StrEnumLaws TrustScope. Proof. enum_laws. Qed.
#[export] Instance DestinationScope_laws : StrEnumLaws DestinationScope. Proof. enum_laws. Qed.
#[export] Instance LaunchPhase_laws : StrEnumLaws LaunchPhase. Proof. enum_laws. Qed.
#[export] Instance McpStatus_laws : StrEnumLaws McpStatus. Proof. enum_laws. Qed.
#[export] Instance SessionState_laws : StrEnumLaws SessionState. Proof. enum_laws. Qed.
#[export] Instance ExecutionState_laws : StrEnumLaws ExecutionState. Proof. enum_laws. Qed.

(** The constructors that the other files use are those of the class. *)
Lemma GPU_of_enum s : GPU_of s = of_value "is not a valid GPU" s.
Proof.
  unfold GPU_of, of_value. rewrite (String.eqb_sym s "auto"), (String.eqb_sym s "on"), (String.eqb_sym s "off").
  cbn [find members value GPU_enum GPU_value]. repeat case_match; congruence.
Qed.
Lemma AgentMode_of_enum s : AgentMode_of s = of_value "is not a valid AgentMode" s.
Proof.
  unfold AgentMode_of, of_value. rewrite (String.eqb_sym s "write"), (String.eqb_sym s "readonly").
  cbn [find members value AgentMode_enum AgentMode_value]. repeat case_match; congruence.
Qed.
Lemma TrustScope_of_enum s : TrustScope_of s = of_value "is not a valid TrustScope" s.
Proof.
  unfold TrustScope_of, of_value. rewrite (String.eqb_sym s "exact_commit"), (String.eqb_sym s "repository").
  cbn [find members value TrustScope_enum TrustScope_value]. repeat case_match; congruence.
Qed.

(** ** The models without validators *)
Module Schemas.

Record LaunchPreview := mkLaunchPreview {
  lp_request_digest : string;
  lp_source : option ResolvedSource;
  lp_workspace_id : option uuid;
  lp_trust_covered : bool;
  lp_launch_token : string;
  lp_expires_at : Z }.

Record LaunchStatus := mkLaunchStatus {
  ln_id : uuid;
  ln_phase : LaunchPhase;
  ln_created_at : Z;
  ln_updated_at : Z;
  ln_message : option string;
  ln_error_code : option string;
  ln_repository_id : option Z;
  ln_repository : option string;
  ln_commit_sha : option string;
  ln_workspace_id : option uuid;
  ln_notebook_path : option string;
  ln_session_id : option uuid;
  ln_existing_session_id : option uuid;
  ln_ready_url : option string;
  ln_gpu_enabled : option bool;
  ln_agent_mode : option AgentMode;
  ln_mcp_available : option bool }.

Record Workspace := mkWorkspace {
  ws_id : uuid;
  ws_source_repository_id : Z;
  ws_source_owner : string;
  ws_source_repository : string;
  ws_source_commit_sha : string;
  ws_source_notebook_path : string;
  ws_root_path : string;
  ws_work_path : string;
  ws_outputs_path : string;
  ws_active_notebook_path : string;
  ws_user_data_grant_id : option uuid;
  ws_created_at : Z;
  ws_updated_at : Z }.

Record UserDataGrant := mkUserDataGrant {
  ug_id : uuid;
  ug_workspace_id : uuid;
  ug_display_path : string;
  ug_canonical_root : string;
  ug_container_path : string;
  ug_mode : string;
  ug_created_at : Z;
  ug_revoked_at : option Z }.

Record GPUDeviceStatus := mkGPUDeviceStatus { ds_uuid : string; ds_name : string }.

Record EffectiveGPUStatus := mkEffectiveGPUStatus {
  eg_requested_mode : GPU;
  eg_enabled : bool;
  eg_devices : list GPUDeviceStatus;
  eg_host_available : bool;
  eg_container_available : bool;
  eg_reason : option string }.

Record NotebookSession := mkNotebookSession {
  ns_id : uuid;
  ns_workspace_id : uuid;
  ns_runtime_id : string;
  ns_host_port : Z;
  ns_gpu_enabled : bool;
  ns_agent_mode : AgentMode;
  ns_sandbox_verified : bool;
  ns_network_verified : bool;
  ns_collaboration_ready : bool;
  ns_state : SessionState;
  ns_notebook_url : string;
  ns_started_at : Z;
  ns_stopped_at : option Z }.

Record ExecutionOperation := mkExecutionOperation {
  eo_operation_id : uuid;
  eo_session_id : uuid;
  eo_lease_id : option uuid;
  eo_state : ExecutionState;
  eo_jupyter_msg_id : option string;
  eo_active_parent_msg_id : option string;
  eo_queued_at : Z;
  eo_dispatched_at : option Z;
  eo_started_at : option Z;
  eo_deadline_at : option Z;
  eo_cancel_requested_at : option Z;
  eo_finished_at : option Z }.

Record DocumentVersion := mkDocumentVersion {
  dv_workspace_id : uuid;
  dv_path : string;
  dv_kind : string;
  dv_version : string;
  dv_updated_at : Z }.

Record NetworkPolicyState := mkNetworkPolicyState {
  np_public_internet_allowed : bool;
  np_approved_dns_endpoints : list string;
  np_deny_non_global : bool;
  np_host_gateway_alias_present : bool;
  np_verified_at : option Z }.

(** The defaults of the fields. *)
Definition default_network_policy : NetworkPolicyState :=
  mkNetworkPolicyState true [] true false None.

Record McpAttachment := mkMcpAttachment {
  ma_session_id : uuid;
  ma_notebook_path : string;
  ma_available : bool;
  ma_status : McpStatus;
  ma_transport : string;
  ma_command : option string;
  ma_args : list string;
  ma_backend : option string;
  ma_agent_mode : AgentMode;
  ma_write_lease_available : option bool;
  ma_capabilities : list string;
  ma_message : option string }.

Record AgentExecutionEvent := mkAgentExecutionEvent {
  ae_session_id : uuid;
  ae_operation_id : option uuid;
  ae_lease_id : option uuid;
  ae_operation : string;
  ae_target : option string;
  ae_duration_ms : option Z;
  ae_outcome : option string;
  ae_error_type : option string }.

(** [Field(default=None, ge=0)] on [duration_ms]. *)
Definition validate_event (e : AgentExecutionEvent) : res AgentExecutionEvent :=
  let! _ := raise_if (match ae_duration_ms e with Some n => n <? 0 | None => false end)
    (ValueError "duration_ms must not be negative") in
  Ok e.

End Schemas.

(** ** Values in the database *)
Lemma str_mem_in s l : str_mem s l = true -> In s l.
Proof. unfold str_mem. rewrite existsb_exists. intros (x & Hx & ->%String.eqb_eq). exact Hx. Qed.

(** The columns of sessions, launches and trust records hold values of their
    enumerations, so [AgentMode(row["agent_mode"])], [GPU(row["gpu"])] and
    [TrustScope(row["scope"])] do not raise; the active sessions are the ones
    that are starting, ready or stopping; a trust record that does not hold an
    empty commit passes the validator of [TrustRecord]. *)
Lemma stored_values_valid d :
  wf_db d ->
  (forall s, In s (notebook_sessions d) ->
     is_ok (AgentMode_of (s_agent_mode s)) = true /\
     exists st, of_value (A:=SessionState) "is not a valid SessionState" (s_state s) = Ok st
       /\ (session_active s = true <-> In st [Session_STARTING; Session_READY; Session_STOPPING])) /\
  (forall l, In l (launches d) ->
     is_ok (GPU_of (l_gpu l)) = true /\ is_ok (AgentMode_of (l_agent_mode l)) = true) /\
  (forall t, In t (trust_records d) ->
     exists scope, TrustScope_of (t_scope t) = Ok scope /\
       forall node owner name created revoked, t_commit_sha t <> Some ""%string ->
         is_ok (validate_commit_scope (mkTrustRecord (t_id t) (t_repository_id t) node owner name
                  scope (t_commit_sha t) created revoked)) = true).
Proof.
  intros [_ Hl Ht _ Hs _ _ _ _ _ _ _ _ _ _ _ _].
  assert (Hmode : forall m, str_mem m ["write"; "readonly"]%string = true -> is_ok (AgentMode_of m) = true)
    by (intros m Hm%str_mem_in; cbn in Hm; intuition (subst; reflexivity)).
  split_and!.
  - intros s Hin. pose proof (tbl_ok_check _ _ Hs Hin) as Hc. cbn in Hc. unfold session_check in Hc.
    bool_to_prop. split; [auto|]. apply str_mem_in in H0.
    destruct (of_value_total (A:=SessionState) "is not a valid SessionState" (s_state s)) as [st Est];
      [exact H0|].
    exists st. split; [exact Est|]. apply of_value_spec in Est. unfold session_active. rewrite <- Est.
    destruct st; cbn; intuition discriminate.
  - intros l Hin. pose proof (tbl_ok_check _ _ Hl Hin) as Hc. cbn in Hc. unfold launch_check in Hc.
    bool_to_prop. split; [|auto]. apply str_mem_in in H. cbn in H.
    destruct H as [E|[E|[E|[]]]]; rewrite <- E; reflexivity.
  - intros t Hin. pose proof (tbl_ok_check _ _ Ht Hin) as Hc. cbn in Hc. unfold trust_check in Hc.
    bool_to_prop. apply str_mem_in in H. cbn in H.
    destruct H as [E|[E|[]]]; rewrite <- E in *; cbn in H0; eexists; (split; [reflexivity|]);
      intros node owner name created revoked Hne; unfold validate_commit_scope; cbn.
    + destruct (t_commit_sha t) as [c|]; [cbn|discriminate]. destruct (c =? "")%string eqn:Ec; [|reflexivity].
      apply String.eqb_eq in Ec as ->. now destruct Hne.
    + destruct (t_commit_sha t); [discriminate|reflexivity].
Qed.
