(* ===== verification/StateStore.v ===== *)
(** * The state store (class [StateStore] of src/notebook_launcher/state.py)

    Each method is a function from the database to the new database and the
    method's result.  UUIDs drawn with [uuid4()] and the clock texts are
    arguments.  [Platform] says whether [os.name == "nt"]. *)
From S2P Require Export Database.

Class Platform := os_nt : bool.

(** ASCII case folding, the part of [str.casefold] that the paths need. *)
Definition ascii_lower (c : ascii) : ascii :=
  let n := N_of_ascii c in
  if (65 <=? n)%N && (n <=? 90)%N then ascii_of_N (n + 32) else c.

Fixpoint casefold (s : string) : string :=
  match s with
  | EmptyString => EmptyString
  | String c s' => String (ascii_lower c) (casefold s')
  end.

Definition document_path_key `{Platform} (path : string) : string :=
  if os_nt then casefold path else path.

(** ** Transactions around a body with other effects

    [transaction(rollback_compensation=...)]: the body runs statements and
    changes an outside state [F] (files).  When the body, or COMMIT, raises an
    [Exception], the compensation runs while the write lock is held, then the
    statements are rolled back; a compensation that raises as well gives an
    [ExceptionGroup] of both.  The outside state is never rolled back. *)
Section Compensation.
Context {F A : Type}.

Definition compensate_before_rollback (original : exn) (compensation : F -> F * res unit)
    (d : db) (f : F) : (db * F) * res A :=
  match compensation f with
  | (f', Ok _) => ((d, f'), Err original)
  | (f', Err ce) =>
      if is_Exception ce then
        ((d, f'), Err (ExceptionGroup "transaction and filesystem compensation both failed"
                        [original; ce]))
      else ((d, f'), Err ce)
  end.

Definition transaction_with (commit : res unit) (compensation : F -> F * res unit)
    (body : db -> F -> F * res (db * A)) (d : db) (f : F) : (db * F) * res A :=
  match body d f with
  | (f', Ok (d', a)) =>
      match commit with
      | Ok _ => ((d', f'), Ok a)
      | Err e => if is_Exception e then compensate_before_rollback e compensation d f'
                 else ((d, f'), Err e)
      end
  | (f', Err e) =>
      if is_Exception e then compensate_before_rollback e compensation d f'
      else ((d, f'), Err e)
  end.
End Compensation.

(** [except sqlite3.IntegrityError] around one statement. *)
Definition tx_catch_integrity {A} (m : Tx A) (h : exn) : Tx A := fun d =>
  match m d with
  | Err IntegrityError => Err h
  | r => r
  end.

(** ** Launch authorization replay *)
Definition consume_launch_jti (jti_hash request_digest consumed_at : string)
    (d : db) : db * res bool :=
  on_integrity_error (Ok false)
    (transaction (tx_insert (mkReplay jti_hash request_digest consumed_at) ;;; tx_ret true) d).

(** ** Launches *)
Definition create_launch (launch_id request_digest : string) (repository_id : option Z)
    (commit_sha notebook_path workspace_id : option string) (gpu agent_mode : string)
    (trust_covered : bool) (state now : string) (d : db) : db * res string :=
  transaction
    (tx_insert (mkLaunch launch_id request_digest repository_id commit_sha notebook_path
        workspace_id gpu agent_mode trust_covered state None None None now now) ;;;
     tx_ret launch_id) d.

Definition get_launch (launch_id : string) (d : db) : option launch_row :=
  fetchone (fun l => String.eqb (l_id l) launch_id) (launches d).

Definition launch_set_state (new_state now : string) (workspace_id session_id : option string)
    (message error_code : option string) (l : launch_row) : launch_row :=
  mkLaunch (l_id l) (l_request_digest l) (l_repository_id l) (l_commit_sha l) (l_notebook_path l)
    (coalesce workspace_id (l_workspace_id l)) (l_gpu l) (l_agent_mode l) (l_trust_covered l)
    new_state (coalesce session_id (l_session_id l)) message error_code
    (l_created_at l) now.

Definition update_launch_state (launch_id : string) (expected_states : list string)
    (new_state now : string) (workspace_id session_id message error_code : option string)
    (d : db) : db * res unit :=
  match expected_states with
  | [] => (d, Err (ValueError "expected_states must not be empty"))
  | _ =>
    transaction
      (n <- tx_update
              (fun l => String.eqb (l_id l) launch_id && str_mem (l_state l) expected_states)
              (launch_set_state new_state now workspace_id session_id message error_code) ;;
       tx_raise_if (negb (n =? 1))
         (LauncherExn (ConflictError "Launch state changed; refresh and retry."))) d
  end.

Definition fail_launches_for_session (session_id now message error_code : string)
    (d : db) : db * res Z :=
  transaction
    (tx_update
       (fun l => opt_eqb (l_session_id l) (Some session_id) && String.eqb (l_state l) "starting")
       (launch_set_state "failed" now None None (Some message) (Some error_code))) d.

(** ** Workspaces *)
Definition create_workspace (w : WorkspaceRecord) (d : db) : db * res WorkspaceRecord :=
  transaction
    (tx_insert w ;;;
     row <- tx_fetchone (fun x => String.eqb (w_id x) (w_id w)) ;;
     match row with
     | Some r => tx_ret r
     | None => tx_raise AssertionError
     end) d.

Definition get_workspace (workspace_id : uuid) (d : db) : option WorkspaceRecord :=
  fetchone (fun w => String.eqb (w_id w) workspace_id) (workspaces d).

Definition workspace_set_active (new_path now : string) (w : WorkspaceRecord) : WorkspaceRecord :=
  mkWorkspace (w_id w) (w_source_repository_id w) (w_source_owner w) (w_source_repository w)
    (w_source_commit_sha w) (w_source_notebook_path w) (w_root_path w) (w_work_path w)
    (w_outputs_path w) new_path (w_user_data_grant_id w) (w_created_at w) now.

Definition document_set_path (new_path now : string) (v : DocumentVersionRecord)
    : DocumentVersionRecord :=
  mkDocument (d_workspace_id v) new_path (d_kind v) (d_version v) (d_content_hash v) now.

Definition update_active_notebook (workspace_id : uuid) (expected_path new_path now : string)
    (d : db) : db * res WorkspaceRecord :=
  transaction
    (n <- tx_update (fun w => String.eqb (w_id w) workspace_id
                              && String.eqb (w_active_notebook_path w) expected_path)
            (workspace_set_active new_path now) ;;
     tx_raise_if (negb (n =? 1))
       (LauncherExn (ConflictError "Active notebook path changed; refresh and retry.")) ;;;
     tx_update (fun v => String.eqb (d_workspace_id v) workspace_id
                         && String.eqb (d_path v) expected_path
                         && String.eqb (d_kind v) "notebook")
       (document_set_path new_path now) ;;;
     row <- tx_fetchone (fun w => String.eqb (w_id w) workspace_id) ;;
     match row with
     | Some r => tx_ret r
     | None => tx_raise AssertionError
     end) d.

(** ** Sessions *)
Definition active_session_of (workspace_id : uuid) (s : SessionRecord) : bool :=
  String.eqb (s_workspace_id s) workspace_id && session_active s.

Definition active_session (workspace_id : uuid) (d : db) : option SessionRecord :=
  fetchone (active_session_of workspace_id) (notebook_sessions d).

Definition get_session (session_id : uuid) (d : db) : option SessionRecord :=
  fetchone (fun s => String.eqb (s_id s) session_id) (notebook_sessions d).

Definition sessions_in_states (states : list string) (d : db) : list SessionRecord :=
  match states with
  | [] => []
  | _ => select (fun s => str_mem (s_state s) states) (notebook_sessions d)
  end.

Definition lease_release_now (now : string) (l : lease_row) : lease_row :=
  mkLease (ls_id l) (ls_session_id l) (ls_client_label l) (ls_acquired_at l)
    (ls_heartbeat_at l) (coalesce (ls_released_at l) (Some now)).

Definition release_session_leases (session_id : uuid) (now : string) (d : db) : db * res unit :=
  transaction
    (tx_update (fun l => String.eqb (ls_session_id l) session_id) (lease_release_now now) ;;;
     tx_ret tt) d.

Definition claim_session (session_id workspace_id : uuid) (runtime_id : string) (host_port : Z)
    (gpu_enabled : bool) (agent_mode notebook_url now : string) (reuse_existing : bool)
    (d : db) : db * res (SessionRecord * bool) :=
  transaction
    (existing <- tx_fetchone (active_session_of workspace_id) ;;
     match existing with
     | Some s => if reuse_existing then tx_ret (s, false)
                 else tx_raise (LauncherExn WorkspaceActive)
     | None =>
         tx_catch_integrity
           (tx_insert (mkSession session_id workspace_id runtime_id host_port gpu_enabled agent_mode
              false false false "starting" notebook_url now None))
           (LauncherExn WorkspaceActive) ;;;
         row <- tx_fetchone (fun s => String.eqb (s_id s) session_id) ;;
         match row with
         | Some r => tx_ret (r, true)
         | None => tx_raise AssertionError
         end
     end) d.

Definition or_keep (o : option bool) (old : bool) : bool :=
  match o with Some b => b | None => old end.

Definition session_set_state (new_state : string) (stopped_at : option string)
    (sandbox network collaboration : option bool) (s : SessionRecord) : SessionRecord :=
  mkSession (s_id s) (s_workspace_id s) (s_runtime_id s) (s_host_port s) (s_gpu_enabled s)
    (s_agent_mode s) (or_keep sandbox (s_sandbox_verified s))
    (or_keep network (s_network_verified s)) (or_keep collaboration (s_collaboration_ready s))
    new_state (s_notebook_url s) (s_started_at s) (coalesce stopped_at (s_stopped_at s)).

Definition transition_session (session_id : uuid) (expected_states : list string)
    (new_state : string) (stopped_at : option string)
    (sandbox_verified network_verified collaboration_ready : option bool)
    (d : db) : db * res SessionRecord :=
  match expected_states with
  | [] => (d, Err (ValueError "expected_states must not be empty"))
  | _ =>
    transaction
      (n <- tx_update
              (fun s => String.eqb (s_id s) session_id && str_mem (s_state s) expected_states)
              (session_set_state new_state stopped_at sandbox_verified network_verified
                 collaboration_ready) ;;
       tx_raise_if (negb (n =? 1))
         (LauncherExn (ConflictError "Session state changed; refresh and retry.")) ;;;
       row <- tx_fetchone (fun s => String.eqb (s_id s) session_id) ;;
       match row with
       | Some r => tx_ret r
       | None => tx_raise AssertionError
       end) d
  end.

(** ** Document versions *)
Section Documents.
Context `{Platform}.

Definition document_key_is (path : string) (v : DocumentVersionRecord) : bool :=
  String.eqb (document_path_key (d_path v)) (document_path_key path).

Definition document_version_row (workspace_id : uuid) (path : string)
    : Tx (option DocumentVersionRecord) :=
  rows <- tx_select (fun v => String.eqb (d_workspace_id v) workspace_id) ;;
  match List.filter (document_key_is path) rows with
  | [] => tx_ret None
  | [v] => tx_ret (Some v)
  | _ => tx_raise (LauncherExn (ConflictError
           "Ambiguous persisted document path aliases; repair state before retrying."))
  end.

Definition get_document_version (workspace_id : uuid) (path : string) (d : db)
    : res (option DocumentVersionRecord) :=
  rmap snd (document_version_row workspace_id path d).

Definition document_set_version (kind version : string) (content_digest : option string)
    (now : string) (v : DocumentVersionRecord) : DocumentVersionRecord :=
  mkDocument (d_workspace_id v) (d_path v) kind version content_digest now.

(** [WHERE workspace_id = ? AND path = ? AND version = ?]; a NULL
    [expected_version] matches no row. *)
Definition document_at (workspace_id : uuid) (path : string) (version : option string)
    (v : DocumentVersionRecord) : bool :=
  String.eqb (d_workspace_id v) workspace_id && String.eqb (d_path v) path
  && opt_eqb (Some (d_version v)) version.

(** The optimistic check of both writers: an existing row needs its version,
    a new document needs none. *)
Definition check_expected (row : option DocumentVersionRecord)
    (expected_version : option string) : Tx unit :=
  match row with
  | None => tx_raise_if (is_some expected_version)
              (LauncherExn (ConflictError ConflictError_default))
  | Some v => tx_raise_if (is_none expected_version
                           || negb (opt_eqb (Some (d_version v)) expected_version))
                (LauncherExn (ConflictError ConflictError_default))
  end.

Section WriteGuard.
Context (workspace_id : uuid) (path kind version : string) (content_digest : option string)
  (expected_version : option string) (now : string) (allow_active_notebook : bool).

(** Before the [yield]: the checks, and the row found. *)
Definition document_write_guard_before : Tx (option DocumentVersionRecord) :=
  workspace <- tx_fetchone (fun w => String.eqb (w_id w) workspace_id) ;;
  match workspace with
  | None => tx_raise (KeyError workspace_id)
  | Some w =>
      tx_raise_if (negb allow_active_notebook
                   && String.eqb (document_path_key path)
                        (document_path_key (w_active_notebook_path w)))
        (LauncherExn (ConflictError
           "The active notebook must be changed through notebook-aware operations.")) ;;;
      row <- document_version_row workspace_id path ;;
      check_expected row expected_version ;;;
      tx_ret row
  end.

(** After the [yield]: the version is recorded. *)
Definition document_write_guard_after (row : option DocumentVersionRecord) : Tx unit :=
  match row with
  | None => tx_insert (mkDocument workspace_id path kind version content_digest now)
  | Some v =>
      n <- tx_update (document_at workspace_id (d_path v) expected_version)
             (document_set_version kind version content_digest now) ;;
      tx_raise_if (negb (n =? 1)) (LauncherExn (ConflictError ConflictError_default))
  end.

(** The [with document_write_guard(...):] statement around [body]. *)
Definition document_write_guard {F A} (commit : res unit) (compensation : F -> F * res unit)
    (body : F -> F * res A) : db -> F -> (db * F) * res A :=
  transaction_with commit compensation (fun d f =>
    match document_write_guard_before d with
    | Err e => (f, Err e)
    | Ok (d1, row) =>
        match body f with
        | (f', Err e) => (f', Err e)
        | (f', Ok a) =>
            match document_write_guard_after row d1 with
            | Ok (d2, _) => (f', Ok (d2, a))
            | Err e => (f', Err e)
            end
        end
    end).

Definition set_document_version (d : db) : db * res DocumentVersionRecord :=
  transaction
    (row <- document_version_row workspace_id path ;;
     check_expected row expected_version ;;;
     match row with
     | None => tx_insert (mkDocument workspace_id path kind version content_digest now)
     | Some v =>
         tx_update (document_at workspace_id (d_path v) expected_version)
           (document_set_version kind version content_digest now) ;;; tx_ret tt
     end ;;;
     updated <- document_version_row workspace_id path ;;
     match updated with
     | Some v => tx_ret v
     | None => tx_raise AssertionError
     end) d.
End WriteGuard.

Section RenameGuard.
Context (workspace_id : uuid) (expected_path new_path now : string).

Definition rename_guard_before : Tx (string * option DocumentVersionRecord) :=
  workspace <- tx_fetchone (fun w => String.eqb (w_id w) workspace_id) ;;
  match workspace with
  | None => tx_raise (KeyError workspace_id)
  | Some w =>
      let current_path := w_active_notebook_path w in
      tx_raise_if (negb (String.eqb (document_path_key current_path)
                           (document_path_key expected_path)))
        (LauncherExn (ConflictError "Active notebook path changed; refresh and retry.")) ;;;
      tx_raise_if (String.eqb (document_path_key current_path) (document_path_key new_path))
        (LauncherExn (ConflictError "Active notebook destination must be distinct.")) ;;;
      source_row <- document_version_row workspace_id current_path ;;
      destination_row <- document_version_row workspace_id new_path ;;
      tx_raise_if (is_some destination_row)
        (LauncherExn (ConflictError "Destination already has an optimistic version.")) ;;;
      tx_ret (current_path, source_row)
  end.

Definition rename_guard_after (current_path : string)
    (source_row : option DocumentVersionRecord) : Tx unit :=
  n <- tx_update (fun w => String.eqb (w_id w) workspace_id
                           && String.eqb (w_active_notebook_path w) current_path)
         (workspace_set_active new_path now) ;;
  tx_raise_if (negb (n =? 1))
    (LauncherExn (ConflictError "Active notebook path changed; refresh and retry.")) ;;;
  match source_row with
  | None => tx_ret tt
  | Some v =>
      tx_update (fun x => String.eqb (d_workspace_id x) workspace_id
                          && String.eqb (d_path x) (d_path v))
        (document_set_path new_path now) ;;; tx_ret tt
  end.

Definition active_notebook_rename_guard {F A} (commit : res unit)
    (compensation : F -> F * res unit) (body : string -> F -> F * res A)
    : db -> F -> (db * F) * res A :=
  transaction_with commit compensation (fun d f =>
    match rename_guard_before d with
    | Err e => (f, Err e)
    | Ok (d1, (current_path, source_row)) =>
        match body current_path f with
        | (f', Err e) => (f', Err e)
        | (f', Ok a) =>
            match rename_guard_after current_path source_row d1 with
            | Ok (d2, _) => (f', Ok (d2, a))
            | Err e => (f', Err e)
            end
        end
    end).
End RenameGuard.
End Documents.

(** ** Every method keeps the database well-formed *)
Lemma tx_catch_preserves {A} (m : Tx A) h : preserves m -> preserves (tx_catch_integrity m h).
Proof.
  unfold tx_catch_integrity. intros Hm d d' a Hd He.
  destruct (m d) as [[d1 b]|[]] eqn:Em; simplify_eq; eauto.
Qed.
#[export] Hint Resolve tx_catch_preserves : wfdb.

Ltac solve_method_wf :=
  intros; first [rewrite on_integrity_error_fst|idtac];
  apply transaction_wf; [|assumption]; eauto 20 with wfdb.

Lemma consume_launch_jti_wf j r c d : wf_db d -> wf_db (fst (consume_launch_jti j r c d)).
Proof. unfold consume_launch_jti. solve_method_wf. Qed.

Lemma create_launch_wf i q r c n w g a t s now d :
  wf_db d -> wf_db (fst (create_launch i q r c n w g a t s now d)).
Proof. unfold create_launch. solve_method_wf. Qed.

Lemma update_launch_state_wf i ex ns now w s m e d :
  wf_db d -> wf_db (fst (update_launch_state i ex ns now w s m e d)).
Proof. unfold update_launch_state. destruct ex; [auto|]. solve_method_wf. Qed.

Lemma fail_launches_for_session_wf s now m e d :
  wf_db d -> wf_db (fst (fail_launches_for_session s now m e d)).
Proof. unfold fail_launches_for_session. solve_method_wf. Qed.

Lemma create_workspace_wf w d : wf_db d -> wf_db (fst (create_workspace w d)).
Proof. unfold create_workspace. solve_method_wf. Qed.

Lemma update_active_notebook_wf w ex n now d :
  wf_db d -> wf_db (fst (update_active_notebook w ex n now d)).
Proof. unfold update_active_notebook. solve_method_wf. Qed.

Lemma release_session_leases_wf s now d :
  wf_db d -> wf_db (fst (release_session_leases s now d)).
Proof. unfold release_session_leases. solve_method_wf. Qed.

Lemma claim_session_wf s w r p g a u now b d :
  wf_db d -> wf_db (fst (claim_session s w r p g a u now b d)).
Proof. unfold claim_session. solve_method_wf. Qed.

Lemma transition_session_wf s ex ns st a b c d :
  wf_db d -> wf_db (fst (transition_session s ex ns st a b c d)).
Proof. unfold transition_session. destruct ex; [auto|]. solve_method_wf. Qed.

Lemma transaction_with_wf {F A} commit (comp : F -> F * res unit) (body : db -> F -> F * res (db * A)) d f :
  (forall f' d' a, body d f = (f', Ok (d', a)) -> wf_db d') ->
  wf_db d -> wf_db (fst (fst (transaction_with commit comp body d f))).
Proof.
  unfold transaction_with, compensate_before_rollback. intros Hb Hd.
  destruct (body d f) as [f' [[d' a]|e]].
  - destruct commit as [|e]; simpl; [eauto|].
    destruct (is_Exception e); [|exact Hd].
    destruct (comp f') as [? [|ce]]; [exact Hd|]. now destruct (is_Exception ce).
  - destruct (is_Exception e); [|exact Hd].
    destruct (comp f') as [? [|ce]]; [exact Hd|]. now destruct (is_Exception ce).
Qed.

Section DocumentsWf.
Context `{Platform}.

Lemma document_version_row_preserves w p : preserves (document_version_row w p).
Proof. unfold document_version_row. eauto 10 with wfdb. Qed.

Lemma check_expected_preserves r e : preserves (check_expected r e).
Proof. unfold check_expected. eauto with wfdb. Qed.
#[local] Hint Resolve document_version_row_preserves check_expected_preserves : wfdb.

Lemma write_guard_before_preserves w p ex al :
  preserves (document_write_guard_before w p ex al).
Proof. unfold document_write_guard_before. eauto 20 with wfdb. Qed.

Lemma write_guard_after_preserves w p k v c ex now r :
  preserves (document_write_guard_after w p k v c ex now r).
Proof. unfold document_write_guard_after. eauto 20 with wfdb. Qed.

Lemma rename_guard_before_preserves w ex n : preserves (rename_guard_before w ex n).
Proof. unfold rename_guard_before. eauto 20 with wfdb. Qed.

Lemma rename_guard_after_preserves w n now c r : preserves (rename_guard_after w n now c r).
Proof. unfold rename_guard_after. eauto 20 with wfdb. Qed.

Lemma set_document_version_wf w p k v c ex now d :
  wf_db d -> wf_db (fst (set_document_version w p k v c ex now d)).
Proof. unfold set_document_version. solve_method_wf. Qed.

Lemma document_write_guard_wf {F A} w p k v c ex now al commit comp (body : F -> F * res A) d f :
  wf_db d ->
  wf_db (fst (fst (document_write_guard w p k v c ex now al commit comp body d f))).
Proof.
  intros Hd. apply transaction_with_wf; [|exact Hd]. intros f' d' a Hb.
  destruct (document_write_guard_before w p ex al d) as [[d1 row]|] eqn:Eb; [|discriminate].
  destruct (body f) as [f1 [b|]]; [|discriminate].
  destruct (document_write_guard_after _ _ _ _ _ _ _ row d1) as [[d2 ?]|] eqn:Ea; simplify_eq.
  eapply write_guard_after_preserves; [|exact Ea].
  eapply write_guard_before_preserves; [exact Hd|exact Eb].
Qed.

Lemma rename_guard_wf {F A} w ex n now commit comp (body : string -> F -> F * res A) d f :
  wf_db d -> wf_db (fst (fst (active_notebook_rename_guard w ex n now commit comp body d f))).
Proof.
  intros Hd. apply transaction_with_wf; [|exact Hd]. intros f' d' a Hb.
  destruct (rename_guard_before w ex n d) as [[d1 [cur row]]|] eqn:Eb; [|discriminate].
  destruct (body cur f) as [f1 [b|]]; [|discriminate].
  destruct (rename_guard_after w n now cur row d1) as [[d2 ?]|] eqn:Ea; simplify_eq.
  eapply rename_guard_after_preserves; [|exact Ea].
  eapply rename_guard_before_preserves; [exact Hd|exact Eb].
Qed.
End DocumentsWf.

(** ** What the methods do *)

(** [update_launch_state] never breaks a constraint of the table. *)
Lemma launch_update_succeeds p ns now w s m e d :
  wf_db d -> str_mem ns launch_states = true ->
  exists t', sql_update p (launch_set_state ns now w s m e) (launches d)
             = Some (t', Z.of_nat (List.length (select p (launches d)))).
Proof.
  intros Hd Hns. apply sql_update_monotone; [apply Hd|..].
  - intros r _ _ Hc. unfold tbl_check in *. simpl in *. unfold launch_check in *. simpl.
    bool_to_prop. rewrite Hns. repeat (apply andb_true_iff; split); auto.
  - intros r x _ _ _ Hc. exact Hc.
  - intros r x _ _ _ _ Hc. exact Hc.
Qed.

(** [update_launch_state] is a compare-and-set on one launch: when the
    launch exists and its state is expected, exactly that row takes the new
    state (the other launches keep theirs); otherwise it raises
    [ConflictError] and changes nothing. *)
Theorem update_launch_state_cas (i ns now : string) (ex : list string)
    (w s m e : option string) (d : db) :
  wf_db d -> ex <> [] -> str_mem ns launch_states = true ->
  let result := update_launch_state i ex ns now w s m e d in
  let stale := LauncherExn (ConflictError "Launch state changed; refresh and retry.") in
  match get_launch i d with
  | Some l =>
      if str_mem (l_state l) ex then
        exists d', result = (d', Ok tt)
          /\ get_launch i d' = Some (launch_set_state ns now w s m e l)
          /\ (forall j, j <> i -> get_launch j d' = get_launch j d)
          /\ notebook_sessions d' = notebook_sessions d
      else result = (d, Err stale)
  | None => result = (d, Err stale)
  end.
Proof.
  intros Hd Hex Hns. cbv zeta. unfold update_launch_state. destruct ex as [|x ex]; [congruence|].
  set (c := fun l : launch_row => str_mem (l_state l) (x :: ex)).
  destruct (launch_update_succeeds (fun l => by_key i l && c l) ns now w s m e d Hd Hns) as (t' & Hu).
  pose proof (tx_update_by_key i c (launch_set_state ns now w s m e) d t' _ Hd (fun _ => eq_refl) Hu) as [Hself Hother].
  unfold transaction, tx_bind, tx_update. simpl tbl.
  change (fun l : launch_row => String.eqb (l_id l) i && str_mem (l_state l) (x :: ex))
    with (fun l : launch_row => by_key i l && c l).
  rewrite Hu. change (get_launch i d) with (fetchone (by_key i) (launches d)).
  simpl tbl in Hself, Hother. destruct (fetchone (by_key i) (launches d)) as [l|].
  - change (str_mem (l_state l) (x :: ex)) with (c l). destruct (c l).
    + destruct Hself as [-> Hf]. eexists. split; [reflexivity|]. repeat split; [exact Hf|exact Hother].
    + rewrite Hself. reflexivity.
  - rewrite Hself. reflexivity.
Qed.

Definition row_starting (s w r : string) (p : Z) (g : bool) (a u now : string) : SessionRecord :=
  mkSession s w r p g a false false false "starting" u now None.

Lemma active_session_other w' (r : SessionRecord) t :
  s_workspace_id r <> w' ->
  fetchone (active_session_of w') (t ++ [r]) = fetchone (active_session_of w') t.
Proof.
  intros Hw. unfold fetchone. rewrite find_app.
  destruct (List.find _ t); [reflexivity|]. simpl. unfold active_session_of at 1.
  now rewrite (proj2 (String.eqb_neq _ _)).
Qed.

Lemma session_insert_ok s w r p g a u now d :
  active_session w d = None -> get_session s d = None -> str_mem a ["write"; "readonly"]%string = true ->
  sql_insert (row_starting s w r p g a u now) (notebook_sessions d)
  = Some (notebook_sessions d ++ [row_starting s w r p g a u now]).
Proof.
  intros Hact Hnew Ha. unfold sql_insert.
  enough (no_conflict (notebook_sessions d) (row_starting s w r p g a u now) = true) as ->.
  { simpl. unfold session_check. simpl s_agent_mode. now rewrite Ha. }
  apply forallb_forall. intros x Hx. apply negb_true_iff. simpl. unfold session_conflict.
  apply orb_false_iff. split.
  - exact (proj1 (fetchone_none _ _) Hnew x Hx).
  - pose proof (proj1 (fetchone_none _ _) Hact x Hx) as Hw. unfold active_session_of in Hw.
    simpl. rewrite andb_true_r, andb_comm. exact Hw.
Qed.

(** [claim_session] admits one runtime per workspace.  When the workspace
    already has an active session, that session is returned unchanged (or
    [WorkspaceActive] is raised, as asked); when it has none, the new
    "starting" session becomes its only active session and no other workspace
    is affected; when the new row breaks a constraint (unknown workspace, used
    id, bad mode), [WorkspaceActive] is raised.  No other outcome exists, and
    a call that does not create changes nothing. *)
Theorem claim_session_exclusive (s w r : string) (p : Z) (g : bool) (a u now : string)
    (reuse : bool) (d : db) :
  let row := row_starting s w r p g a u now in
  let result := claim_session s w r p g a u now reuse d in
  match active_session w d with
  | Some cur => result = (d, if reuse then Ok (cur, false) else Err (LauncherExn WorkspaceActive))
  | None =>
      if is_none (get_session s d) && has_workspace d w
         && str_mem a ["write"; "readonly"]%string
      then exists d', result = (d', Ok (row, true)) /\ active_session w d' = Some row
           /\ forall w', w' <> w -> active_session w' d' = active_session w' d
      else result = (d, Err (LauncherExn WorkspaceActive))
  end.
Proof.
  cbv zeta. unfold claim_session, transaction, tx_bind, tx_fetchone.
  change (fetchone (active_session_of w) (tbl d)) with (active_session w d).
  destruct (active_session w d) as [cur|] eqn:Hact; [now destruct reuse|].
  unfold tx_catch_integrity, tx_insert. simpl tbl_fk.
  change (s_workspace_id _) with w.
  destruct (has_workspace d w) eqn:Hw; [|now rewrite andb_false_r].
  rewrite andb_true_r.
  match goal with |- context [sql_insert ?x (tbl d)] =>
    change (sql_insert x (tbl d)) with (sql_insert (row_starting s w r p g a u now) (notebook_sessions d))
  end.
  destruct (get_session s d) eqn:Hnew; cbn [is_none is_some negb andb].
  - assert (Hn : no_conflict (notebook_sessions d) (row_starting s w r p g a u now) = false).
    { apply not_true_iff_false. intros Hn. apply no_conflict_fresh in Hn.
      change (get_session s d = None) in Hn. congruence. }
    unfold sql_insert. now rewrite Hn, andb_false_r.
  - destruct (str_mem a ["write"; "readonly"]%string) eqn:Ha.
    + pose proof (session_insert_ok s w r p g a u now d Hact Hnew Ha) as ->.
      pose proof (fetch_by_key_snoc (notebook_sessions d) (row_starting s w r p g a u now) s
                    Hnew eq_refl) as Hself.
      change (fetchone (by_key s)) with (fetchone (fun x : SessionRecord => String.eqb (s_id x) s)) in Hself.
      rewrite tbl_set, Hself. eexists. split; [reflexivity|]. split.
      * unfold active_session in *. simpl. unfold fetchone in *. rewrite find_app, Hact. simpl.
        unfold active_session_of. simpl. now rewrite String.eqb_refl.
      * intros w' Hw'. apply active_session_other. simpl. congruence.
    + unfold sql_insert. simpl tbl_check. unfold session_check. simpl s_agent_mode.
      now rewrite Ha.
Qed.

(** [transition_session] breaks no constraint when it does not activate an
    inactive session. *)
Lemma session_update_succeeds i c ns st a b e d :
  wf_db d -> str_mem ns session_states = true ->
  (forall s, get_session i d = Some s -> session_active s || negb (str_mem ns active_states) = true) ->
  exists t', sql_update (fun s => by_key i s && c s) (session_set_state ns st a b e) (notebook_sessions d)
             = Some (t', Z.of_nat (List.length (select (fun s => by_key i s && c s) (notebook_sessions d)))).
Proof.
  intros Hd Hns Hact. assert (Hok := wf_sessions d Hd).
  assert (Hmine : forall r, In r (notebook_sessions d) -> by_key i r && c r = true ->
            by_key i r = true /\ (str_mem ns active_states = true -> session_active r = true)).
  { intros r Hr Hp. bool_to_prop. split; [assumption|]. intros Hn.
    assert (Hg : get_session i d = Some r)
      by exact (fetch_by_key (notebook_sessions d) i r Hok Hr (proj1 (String.eqb_eq _ _) H)).
    specialize (Hact r Hg). rewrite Hn in Hact. simpl in Hact. now rewrite orb_false_r in Hact. }
  apply sql_update_monotone; [exact Hok|..].
  - intros r _ _ Hc. change (session_check r = true) in Hc.
    change (session_check (session_set_state ns st a b e r) = true).
    unfold session_check in *. apply andb_true_iff in Hc as [Hm _].
    apply andb_true_iff. split; [exact Hm|exact Hns].
  - intros r x Hr _ Hp Hc. destruct (Hmine r Hr Hp) as [_ Ha].
    change (session_conflict r x = true).
    change (session_conflict (session_set_state ns st a b e r) x = true) in Hc.
    unfold session_conflict in *. apply orb_true_iff in Hc as [Hc|Hc]; apply orb_true_iff; [now left|right].
    apply andb_true_iff in Hc as [Hc Hw]. apply andb_true_iff in Hc as [Hn Hx].
    repeat (apply andb_true_iff; split); [exact (Ha Hn)|exact Hx|exact Hw].
  - intros r x Hr Hx Hp Hpx _. apply pk_conflict.
    unfold by_key in *. bool_to_prop. congruence.
Qed.

(** [transition_session] is a compare-and-set on one session: in an
    expected state the session takes exactly the new state, the given flags
    and, once, the stop time; every other session is untouched; in another
    state, or for an unknown session, it raises [ConflictError] and changes
    nothing.  The UNIQUE index can only refuse the transition of an inactive
    session to an active state. *)
Theorem transition_session_cas (i ns : string) (ex : list string) (st : option string)
    (a b e : option bool) (d : db) :
  wf_db d -> ex <> [] -> str_mem ns session_states = true ->
  (forall s, get_session i d = Some s -> session_active s || negb (str_mem ns active_states) = true) ->
  let result := transition_session i ex ns st a b e d in
  let stale := LauncherExn (ConflictError "Session state changed; refresh and retry.") in
  match get_session i d with
  | Some s =>
      if str_mem (s_state s) ex then
        exists d', result = (d', Ok (session_set_state ns st a b e s))
          /\ get_session i d' = Some (session_set_state ns st a b e s)
          /\ (forall j, j <> i -> get_session j d' = get_session j d)
          /\ launches d' = launches d /\ workspaces d' = workspaces d
      else result = (d, Err stale)
  | None => result = (d, Err stale)
  end.
Proof.
  intros Hd Hex Hns Hact. cbv zeta. unfold transition_session. destruct ex as [|x ex]; [congruence|].
  set (c := fun s : SessionRecord => str_mem (s_state s) (x :: ex)).
  destruct (session_update_succeeds i c ns st a b e d Hd Hns Hact) as (t' & Hu).
  pose proof (tx_update_by_key i c (session_set_state ns st a b e) d t' _ Hd (fun _ => eq_refl) Hu)
    as [Hself Hother].
  unfold transaction, tx_bind, tx_update.
  change (fun s : SessionRecord => String.eqb (s_id s) i && str_mem (s_state s) (x :: ex))
    with (fun s : SessionRecord => by_key i s && c s).
  change (tbl d) with (notebook_sessions d) in *. rewrite Hu.
  change (get_session i d) with (fetchone (by_key i) (notebook_sessions d)).
  destruct (fetchone (by_key i) (notebook_sessions d)) as [s|].
  - change (str_mem (s_state s) (x :: ex)) with (c s). destruct (c s).
    + destruct Hself as [-> Hf]. exists (set_tbl t' d).
      split; [|split; [exact Hf|split; [exact Hother|split; reflexivity]]].
      cbn [Z.eqb Pos.eqb negb]. unfold tx_raise_if, tx_ret, tx_fetchone. rewrite tbl_set.
      change (fetchone (fun s0 : SessionRecord => String.eqb (s_id s0) i) t') with (fetchone (by_key i) t').
      now rewrite Hf.
    + rewrite Hself. reflexivity.
  - rewrite Hself. reflexivity.
Qed.

Section Posix.
Context `{Platform} (Hposix : os_nt = false).

Definition document_of (w p : string) (v : DocumentVersionRecord) : bool :=
  String.eqb (d_workspace_id v) w && String.eqb (d_path v) p.

Lemma document_of_conflict w p a b :
  document_of w p a = true -> document_of w p b = true -> tbl_conflict a b = true.
Proof.
  unfold document_of. intros Ha Hb. bool_to_prop.
  change (document_conflict a b = true). unfold document_conflict.
  rewrite andb_true_iff, !String.eqb_eq. split; congruence.
Qed.

Lemma document_row_posix w p d :
  wf_db d -> document_version_row w p d = Ok (d, fetchone (document_of w p) (document_versions d)).
Proof.
  intros Hd. unfold document_version_row, tx_bind, tx_select.
  change (tbl d) with (document_versions d).
  assert (Hs : List.filter (document_key_is p)
                 (select (fun v => String.eqb (d_workspace_id v) w) (document_versions d))
               = select (document_of w p) (document_versions d)).
  { unfold select. induction (document_versions d) as [|v t IH]; simpl; [reflexivity|].
    unfold document_of, document_key_is, document_path_key in *. rewrite Hposix in *.
    destruct (d_workspace_id v =? w)%string; simpl; rewrite IH; reflexivity. }
  rewrite Hs. unfold fetchone. rewrite find_filter_hd. fold (select (document_of w p) (document_versions d)).
  destruct (select_at_most_one (document_of w p) (document_versions d)) as [->|(v & ->)];
    [exact (wf_documents d Hd)|intros; eapply document_of_conflict; eauto|reflexivity|reflexivity].
Qed.
End Posix.

(** ** Optimistic concurrency of workspace files *)
Section Optimistic.
Context `{Platform} (Hposix : os_nt = false).

(** What a guard that let the write happen has checked. *)
Lemma write_guard_before_ok w p ex al d d1 row :
  wf_db d -> document_write_guard_before w p ex al d = Ok (d1, row) ->
  d1 = d /\ row = fetchone (document_of w p) (document_versions d)
  /\ (exists ws, get_workspace w d = Some ws
        /\ (al = true \/ w_active_notebook_path ws <> p))
  /\ option_map d_version row = ex.
Proof.
  intros Hd. unfold document_write_guard_before, tx_bind, tx_fetchone.
  change (fetchone _ (tbl d)) with (get_workspace w d).
  destruct (get_workspace w d) as [ws|]; [|discriminate].
  unfold document_path_key. rewrite Hposix.
  destruct (negb al && (p =? w_active_notebook_path ws)%string) eqn:Hact; [discriminate|].
  unfold tx_raise_if at 1, tx_ret at 1. rewrite (document_row_posix Hposix) by exact Hd.
  set (r := fetchone (document_of w p) (document_versions d)). unfold check_expected.
  intros Hok.
  assert (Hex : option_map d_version r = ex /\ d1 = d /\ row = r).
  { unfold tx_raise_if, tx_ret in Hok.
    destruct r as [v|], ex as [e|]; cbn [is_some is_none opt_eqb orb negb option_map] in Hok |- *;
      try discriminate Hok.
    - destruct (d_version v =? e)%string eqn:Hv; cbn [negb] in Hok; [|discriminate Hok].
      bool_to_prop. injection Hok as <- <-. subst e. auto.
    - injection Hok as <- <-. auto. }
  destruct Hex as (Hex & -> & ->). split; [reflexivity|]. split; [reflexivity|]. split; [|exact Hex].
  exists ws. split; [reflexivity|]. destruct al; [now left|right]. simpl in Hact.
  bool_to_prop. congruence.
Qed.

(** The version the write leaves behind. *)
Lemma write_guard_after_ok w p k v c now d d1 row u :
  row = fetchone (document_of w p) (document_versions d) ->
  document_write_guard_after w p k v c (option_map d_version row) now row d = Ok (d1, u) ->
  option_map d_version (fetchone (document_of w p) (document_versions d1)) = Some v
  /\ workspaces d1 = workspaces d.
Proof.
  intros Hrow. unfold document_write_guard_after. destruct row as [r|].
  - unfold tx_bind, tx_update. change (tbl d) with (document_versions d).
    destruct (sql_update _ _ (document_versions d)) as [[t n]|] eqn:Hu; [|discriminate].
    unfold tx_raise_if. destruct (negb (n =? 1)) eqn:Hn; [discriminate|].
    intros Hok. unfold tx_ret in Hok. injection Hok as <- _. split; [|reflexivity].
    apply sql_update_spec in Hu as (-> & _ & _).
    cbn [set_tbl document_table document_versions]. rewrite fetchone_map by reflexivity.
    rewrite <- Hrow. simpl. symmetry in Hrow. apply fetchone_some in Hrow as [_ Hr].
    unfold document_of in Hr. bool_to_prop. unfold document_at. simpl.
    rewrite (proj2 (String.eqb_eq (d_workspace_id r) w)) by assumption.
    now rewrite !String.eqb_refl.
  - unfold tx_insert. destruct (tbl_fk d _); [|discriminate].
    destruct (sql_insert _ _) as [t|] eqn:Hi; [|discriminate].
    intros [= <- _]. split; [|reflexivity]. apply sql_insert_spec in Hi as (-> & _).
    cbn [set_tbl document_table document_versions]. unfold fetchone in *.
    change (tbl d) with (document_versions d). rewrite find_app, <- Hrow.
    simpl. unfold document_of. simpl. now rewrite !String.eqb_refl.
Qed.

(** A committed guarded write: what was checked and what is recorded. *)
Lemma write_guard_committed {F A} w p k v c ex now al commit comp (body : F -> F * res A) d f d1 f1 a :
  wf_db d ->
  document_write_guard w p k v c ex now al commit comp body d f = ((d1, f1), Ok a) ->
  option_map d_version (fetchone (document_of w p) (document_versions d)) = ex
  /\ option_map d_version (fetchone (document_of w p) (document_versions d1)) = Some v
  /\ get_workspace w d1 = get_workspace w d
  /\ body f = (f1, Ok a).
Proof.
  intros Hd. unfold document_write_guard, transaction_with, compensate_before_rollback.
  destruct (document_write_guard_before w p ex al d) as [[d0 row]|e] eqn:Hb.
  - apply write_guard_before_ok in Hb as (-> & Hrow & _ & Hex); [|exact Hd].
    rewrite <- Hex. destruct (body f) as [f' [b|e]]; simpl.
    + destruct (document_write_guard_after _ _ _ _ _ _ _ row d) as [[d2 u]|e] eqn:Ha.
      * destruct commit as [|e]; [|destruct (is_Exception e); [destruct (comp f') as [? [|ce]]|];
          try destruct (is_Exception ce); discriminate].
        intros [= <- <- <-]. destruct (write_guard_after_ok w p k v c now d d2 row u Hrow Ha) as [Hv Hw].
        rewrite <- Hrow. unfold get_workspace. now rewrite Hw.
      * destruct (is_Exception e); [destruct (comp f') as [? [|ce]]|];
          try destruct (is_Exception ce); discriminate.
    + destruct (is_Exception e); [destruct (comp f') as [? [|ce]]|];
          try destruct (is_Exception ce); discriminate.
  - destruct (is_Exception e); [destruct (comp f) as [? [|ce]]|];
          try destruct (is_Exception ce); discriminate.
Qed.

End Optimistic.

(** ** A database with one launch, one workspace and its session

    Built by the operations above; the witnesses of this development start
    from it. *)
Definition sample_workspace : WorkspaceRecord :=
  mkWorkspace "ws-1" 7 "owner" "repo" "0123456789abcdef0123456789abcdef01234567" "a.ipynb"
    "/ws/ws-1" "/ws/ws-1/work" "/ws/ws-1/outputs" "a.ipynb" None "t0" "t0".

Definition sample_launch_db : db :=
  fst (create_launch "launch-1" "digest" (Some 7) (Some "c0ffee") (Some "a.ipynb") None "auto"
         "readonly" true "starting" "t0" empty_db).

Definition sample_workspace_db : db := fst (create_workspace sample_workspace sample_launch_db).

Definition sample_db : db :=
  fst (claim_session "se-1" "ws-1" "rt-1" 8888 true "write" "http://127.0.0.1:8888" "t1" false
         sample_workspace_db).

Lemma sample_workspace_db_wf : wf_db sample_workspace_db.
Proof. apply create_workspace_wf, create_launch_wf, empty_db_wf. Qed.

Lemma sample_db_wf : wf_db sample_db.
Proof. apply claim_session_wf, sample_workspace_db_wf. Qed.

Lemma sample_session_active s :
  get_session "se-1" sample_db = Some s -> session_active s || negb (str_mem "ready" active_states) = true.
Proof. intros Hs. vm_compute in Hs. now simplify_eq. Qed.

Lemma update_launch_state_cas_witness :
  exists d', update_launch_state "launch-1" ["starting"] "ready" "t2" None None None None sample_db
             = (d', Ok tt)
    /\ option_map l_state (get_launch "launch-1" d') = Some "ready"%string.
Proof.
  pose proof (update_launch_state_cas "launch-1" "ready" "t2" ["starting"] None None None None sample_db
                sample_db_wf ltac:(discriminate) eq_refl) as H.
  eval_head H. destruct H as (d' & Hr & Hl & _).
  exists d'. split; [exact Hr|]. rewrite Hl. reflexivity.
Defined.

Lemma transition_session_cas_witness :
  exists d', transition_session "se-1" ["starting"] "ready" None (Some true) None None sample_db
             = (d', Ok (session_set_state "ready" None (Some true) None None
                          (row_starting "se-1" "ws-1" "rt-1" 8888 true "write"
                             "http://127.0.0.1:8888" "t1")))
    /\ notebook_sessions d' <> notebook_sessions sample_db.
Proof.
  pose proof (transition_session_cas "se-1" "ready" ["starting"] None (Some true) None None sample_db
                sample_db_wf ltac:(discriminate) eq_refl sample_session_active) as H.
  eval_head H. destruct H as (d' & Hr & Hs & _).
  exists d'. split; [exact Hr|]. intros He. unfold get_session in Hs. rewrite He in Hs.
    vm_compute in Hs. discriminate.
Defined.

Definition no_files (f : unit) : unit * res unit := (f, Ok tt).

Definition sample_write (v now : string) (d : db) : (db * unit) * res unit :=
  document_write_guard (H := false) "ws-1" "b.py" "file" v None None now false (Ok tt)
    no_files no_files d tt.

