(* ===== verification/Migration.v ===== *)
(** * Opening an old database ([StateStore.initialize] of src/notebook_launcher/state.py)

    The tables as they are on disk: columns with their declared types, and rows
    of typed values.  [initialize] creates what is missing, adds columns and
    rewrites the table of grants in one transaction, so that the identity of a
    root, once an INTEGER, is a decimal text.  Any statement may fail. *)
From S2P Require Export Json Database Triples.

(** ** Values, tables and the file *)
Inductive cell := Null | Integer (z : Z) | Real (text : string) | TextCell (s : string) | Blob (bytes : string).

#[export] Instance cell_eq : EqDecision cell.
Proof. solve_decision. Defined.

(** A row holds a value for some of the columns; the others are NULL. *)
Definition row : Type := list (string * cell).
Fixpoint field (r : row) (column : string) : cell :=
  match r with [] => Null | (k, v) :: r' => if String.eqb k column then v else field r' column end.

Record table := mkTable { t_columns : list (string * string); t_rows : list row }.

Record file := mkFile { f_tables : gmap string table; f_indexes : gmap string string }.
Definition with_tables (t : gmap string table) (f : file) : file := mkFile t (f_indexes f).
Definition set_table (name : string) (t : table) (f : file) : file := with_tables (<[name := t]> (f_tables f)) f.

(** A connection: the file as it sees it, what a rollback restores, and how many
    statements it has run. *)
Record connection := mkConnection { c_file : file; c_saved : option file; c_count : nat }.
Definition set_file (f : file) (c : connection) : connection := mkConnection f (c_saved c) (c_count c).

Definition OperationalError : exn := SubprocessError "OperationalError".

(** ** The schema *)
Definition text_columns : list string -> list (string * string) := map (fun c => (c, "TEXT"%string)).

Definition grant_columns : list (string * string) :=
  text_columns ["id"; "workspace_id"; "display_path"; "canonical_root"; "root_dev"; "root_ino"; "container_path"; "mode"; "created_at"; "revoked_at"]%string.

Definition schema_tables : list (string * list (string * string)) :=
  [("launch_authorization_replay", text_columns ["jti_hash"; "request_digest"; "consumed_at"]);
   ("launches", [("id", "TEXT"); ("request_digest", "TEXT"); ("repository_id", "INTEGER"); ("commit_sha", "TEXT"); ("notebook_path", "TEXT");
                 ("workspace_id", "TEXT"); ("gpu", "TEXT"); ("agent_mode", "TEXT"); ("trust_covered", "INTEGER"); ("state", "TEXT");
                 ("session_id", "TEXT"); ("message", "TEXT"); ("error_code", "TEXT"); ("created_at", "TEXT"); ("updated_at", "TEXT")]);
   ("trust_records", ("id", "TEXT") :: ("repository_id", "INTEGER")
                     :: text_columns ["repository_node_id"; "grant_owner"; "grant_repository"; "scope"; "commit_sha"; "created_at"; "revoked_at"]);
   ("workspaces", ("id", "TEXT") :: ("source_repository_id", "INTEGER")
                  :: text_columns ["source_owner"; "source_repository"; "source_commit_sha"; "source_notebook_path"; "root_path"; "work_path";
                                   "outputs_path"; "active_notebook_path"; "user_data_grant_id"; "created_at"; "updated_at"]);
   ("notebook_sessions", [("id", "TEXT"); ("workspace_id", "TEXT"); ("runtime_id", "TEXT"); ("host_port", "INTEGER"); ("gpu_enabled", "INTEGER");
                          ("agent_mode", "TEXT"); ("sandbox_verified", "INTEGER"); ("network_verified", "INTEGER");
                          ("collaboration_ready", "INTEGER"); ("state", "TEXT"); ("notebook_url", "TEXT"); ("started_at", "TEXT"); ("stopped_at", "TEXT")]);
   ("writable_agent_leases", text_columns ["id"; "session_id"; "client_label"; "acquired_at"; "heartbeat_at"; "released_at"]);
   ("document_versions", text_columns ["workspace_id"; "path"; "kind"; "version"; "content_hash"; "updated_at"]);
   ("user_data_grants", grant_columns);
   ("audit_events", [("id", "TEXT"); ("session_id", "TEXT"); ("lease_id", "TEXT"); ("operation_id", "TEXT"); ("operation", "TEXT"); ("target", "TEXT");
                     ("started_at", "TEXT"); ("duration_ms", "INTEGER"); ("outcome", "TEXT"); ("error_type", "TEXT")])]%string.

Definition grant_index : string := "ux_one_active_user_data_grant".

Definition schema_indexes : list (string * string) :=
  [("ux_active_repository_trust", "trust_records"); ("ux_active_exact_commit_trust", "trust_records");
   ("ux_one_active_session_per_workspace", "notebook_sessions"); ("ux_one_active_writable_lease", "writable_agent_leases");
   (grant_index, "user_data_grants")]%string.

(** What the partial index on grants keeps apart. *)
Definition active_key (r : row) : option cell :=
  if bool_decide (field r "revoked_at" = Null) then Some (field r "workspace_id") else None.

Fixpoint all_different (keys : list cell) : bool :=
  match keys with [] => true | k :: rest => negb (bool_decide (k <> Null /\ k ∈ rest)) && all_different rest end.

Section Initialize.
(** Whether a statement fails, by its number; whether the rows of a table keep
    another index apart; whether a file system call fails. *)
Context (fault : nat -> option exn) (other_unique : string -> table -> bool) (make_parents : res unit).

(** A statement: it may fail, else it changes the file or raises. *)
Definition statement (run : file -> res file) : Eff connection unit := fun c =>
  let c' := mkConnection (c_file c) (c_saved c) (S (c_count c)) in
  match fault (c_count c) with
  | Some e => (c', Err e)
  | None => match run (c_file c) with Ok f => (set_file f c', Ok tt) | Err e => (c', Err e) end
  end.

Definition create_table_if_missing (name : string) (columns : list (string * string)) (f : file) : res file :=
  match f_tables f !! name with Some _ => Ok f | None => Ok (set_table name (mkTable columns []) f) end.

Definition unique_ok (index : string) (t : table) : bool :=
  if String.eqb index grant_index then all_different (omap active_key (t_rows t)) else other_unique index t.

Definition create_index_if_missing (index table_name : string) (f : file) : res file :=
  match f_indexes f !! index, f_tables f !! table_name with
  | Some _, _ => Ok f
  | None, Some t => if unique_ok index t then Ok (mkFile (f_tables f) (<[index := table_name]> (f_indexes f))) else Err IntegrityError
  | None, None => Err OperationalError
  end.

(** [executescript(SCHEMA)]; the two pragmas change no row. *)
Definition execute_schema : Eff connection unit :=
  _ ← statement Ok;
  _ ← statement Ok;
  _ ← eff_iter (fun t => statement (create_table_if_missing (fst t) (snd t))) schema_tables;
  eff_iter (fun i => statement (create_index_if_missing (fst i) (snd i))) schema_indexes.

(** [PRAGMA table_info]: the declared types by name. *)
Definition table_info (name : string) : Eff connection (list (string * string)) := fun c =>
  let c' := mkConnection (c_file c) (c_saved c) (S (c_count c)) in
  match fault (c_count c) with
  | Some e => (c', Err e)
  | None => (c', Ok match f_tables (c_file c) !! name with Some t => t_columns t | None => [] end)
  end.

Definition declared (columns : list (string * string)) (column : string) : option string :=
  match List.find (fun c => String.eqb (fst c) column) columns with Some c => Some (snd c) | None => None end.

(** [ALTER TABLE ... ADD COLUMN]: the rows have NULL there. *)
Definition add_column (name column definition : string) (f : file) : res file :=
  match f_tables f !! name with
  | Some t => Ok (set_table name (mkTable (t_columns t ++ [(column, definition)]) (t_rows t)) f)
  | None => Err OperationalError
  end.

(** [_ensure_column] *)
Definition ensure_column (name column definition : string) : Eff connection unit :=
  columns ← table_info name;
  if is_some (declared columns column) then mret tt else statement (add_column name column definition).

(** ** [_migrate_user_data_identity_to_text] *)
Definition legacy : string := "user_data_grants_legacy".

(** [CAST(... AS TEXT)] *)
Definition cast_text (v : cell) : cell :=
  match v with Integer z => TextCell (str_of_int z) | Real t => TextCell t | Blob s => TextCell s | _ => v end.

Definition migrate_row (r : row) : row :=
  map (fun column => (column, let v := field r column in
                              if String.eqb column "root_dev" || String.eqb column "root_ino" then cast_text v else v))
      (map fst grant_columns).

(** NOT NULL, CHECK, PRIMARY KEY and REFERENCES of the new table. *)
Definition grant_rows_ok (f : file) (rows : list row) : bool :=
  forallb (fun r => forallb (fun c => negb (bool_decide (field r c = Null)))
                            ["workspace_id"; "display_path"; "canonical_root"; "container_path"; "mode"; "created_at"]%string
                    && bool_decide (field r "mode" = TextCell "ro" \/ field r "mode" = TextCell "rw")
                    && match f_tables f !! "workspaces"%string with
                       | Some w => existsb (fun x => bool_decide (field x "id" = field r "workspace_id")) (t_rows w)
                       | None => false
                       end) rows
  && all_different (map (fun r => field r "id") rows).

Definition drop_index (index : string) (f : file) : res file := Ok (mkFile (f_tables f) (delete index (f_indexes f))).

Definition rename_table (name new_name : string) (f : file) : res file :=
  match f_tables f !! name, f_tables f !! new_name with
  | Some t, None => Ok (with_tables (<[new_name := t]> (delete name (f_tables f))) f)
  | _, _ => Err OperationalError
  end.

Definition copy_rows (f : file) : res file :=
  match f_tables f !! legacy, f_tables f !! "user_data_grants"%string with
  | Some old, Some new =>
      if forallb (fun c => is_some (declared (t_columns old) (fst c))) grant_columns then
        let rows := map migrate_row (t_rows old) in
        if grant_rows_ok f rows then Ok (set_table "user_data_grants" (mkTable (t_columns new) (t_rows new ++ rows)) f)
        else Err IntegrityError
      else Err OperationalError
  | _, _ => Err OperationalError
  end.

Definition drop_table (name : string) (f : file) : res file :=
  match f_tables f !! name with
  | Some _ => Ok (with_tables (delete name (f_tables f)) f)
  | None => Err OperationalError
  end.

(** There is no transaction within a transaction. *)
Definition begin_immediate : Eff connection unit := fun c =>
  match statement Ok c with
  | (c', Ok _) => match c_saved c' with
                  | None => (mkConnection (c_file c') (Some (c_file c')) (c_count c'), Ok tt)
                  | Some _ => (c', Err OperationalError)
                  end
  | r => r
  end.
Definition rollback : Eff connection unit := fun c =>
  (mkConnection match c_saved c with Some f => f | None => c_file c end None (c_count c), Ok tt).
Definition commit : Eff connection unit := fun c =>
  match statement Ok c with
  | (c', Ok _) => (mkConnection (c_file c') None (c_count c'), Ok tt)
  | r => r
  end.

Definition migration : Eff connection unit :=
  _ ← statement (drop_index grant_index);
  _ ← statement (rename_table "user_data_grants" legacy);
  _ ← statement (create_table_if_missing "user_data_grants" grant_columns);
  _ ← statement copy_rows;
  _ ← statement (drop_table legacy);
  statement (create_index_if_missing grant_index "user_data_grants").

Definition is_text (declared_type : option string) : bool :=
  match declared_type with Some t => String.eqb (upper t) "TEXT" | None => false end.

Definition migrate_user_data_identity_to_text : Eff connection unit :=
  columns ← table_info "user_data_grants";
  if is_text (declared columns "root_dev") && is_text (declared columns "root_ino") then mret tt
  else
    _ ← begin_immediate;
    _ ← eff_try migration (fun e => if is_Exception e then Some (_ ← rollback; eff_raise e) else None);
    commit.

(** ** [initialize]

    [close] gives up what was not committed. *)
Definition initialize_tables : Eff connection unit :=
  _ ← execute_schema;
  _ ← ensure_column "user_data_grants" "root_dev" "TEXT";
  _ ← ensure_column "user_data_grants" "root_ino" "TEXT";
  _ ← ensure_column "audit_events" "operation_id" "TEXT";
  _ ← ensure_column "launches" "session_id" "TEXT";
  _ ← ensure_column "launches" "message" "TEXT";
  _ ← ensure_column "launches" "error_code" "TEXT";
  migrate_user_data_identity_to_text.

(** [connect]: the pragmas, and the closing of the connection. *)
Definition connected {A} (body : Eff connection A) (f : file) : file * res A :=
  let '(c, r) := eff_finally (_ ← statement Ok; _ ← statement Ok; body) rollback (mkConnection f None 0) in (c_file c, r).

Definition initialize (f : file) : file * res unit :=
  match make_parents with
  | Err e => (f, Err e)
  | Ok _ => connected initialize_tables f
  end.
End Initialize.

(** ** What a grant says *)

(** [int(value)] of what the launcher stored: an integer, or its decimal text. *)
Definition read_int (s : string) : option Z :=
  match s with
  | String "-" digits => option_map Z.opp (read_decimal digits)
  | _ => read_decimal s
  end.

Definition identity_of (v : cell) : option (option Z) :=
  match v with
  | Null => Some None
  | Integer z => Some (Some z)
  | TextCell s => option_map Some (read_int s)
  | _ => None
  end.

Definition text_of (v : cell) : option string := match v with TextCell s => Some s | _ => None end.
Definition optional_text (v : cell) : option (option string) :=
  match v with Null => Some None | TextCell s => Some (Some s) | _ => None end.

(** The row of Database that a row on disk is. *)
Definition grant_of (r : row) : option grant_row :=
  i ← text_of (field r "id"); w ← text_of (field r "workspace_id"); d ← text_of (field r "display_path");
  p ← text_of (field r "canonical_root"); dev ← identity_of (field r "root_dev"); ino ← identity_of (field r "root_ino");
  c ← text_of (field r "container_path"); m ← text_of (field r "mode"); t ← text_of (field r "created_at");
  v ← optional_text (field r "revoked_at");
  Some (mkGrant i w d p dev ino c m t v).

Lemma read_int_str z : read_int (str_of_int z) = Some z.
Proof.
  destruct (str_of_int_numeral z) as (sign & D & -> & Hsign & HD). destruct Hsign as [[-> Hz]|[-> Hz]].
  - change (read_int ("-" ++ D)) with (option_map Z.opp (read_decimal D)). rewrite (read_decimal_numeral _ _ HD). cbn. f_equal. lia.
  - change ("" ++ D)%string with D. pose proof (read_decimal_numeral _ _ HD) as Hr. rewrite Z.abs_eq in Hr by lia.
    unfold read_int. destruct D as [|c D]; [exact Hr|]. assert (Hc : c <> "-"%char).
    { destruct HD as [Hd _ _]. cbn in Hd. intros ->. discriminate. }
    destruct c as [[] [] [] [] [] [] [] []]; first [exact Hr|now destruct Hc].
Qed.

Definition plain (v : cell) : bool := match v with Real _ | Blob _ => false | _ => true end.

Lemma identity_cast v : plain v = true -> identity_of (cast_text v) = identity_of v.
Proof. destruct v; try discriminate; try reflexivity. intros _. cbn. now rewrite read_int_str. Qed.

(** The rewritten row is the same grant. *)
Lemma grant_of_migrated r : plain (field r "root_dev") = true -> plain (field r "root_ino") = true ->
  grant_of (migrate_row r) = grant_of r.
Proof. intros H1 H2. unfold grant_of. cbn. now rewrite !identity_cast. Qed.

(** ** Nothing is lost *)
Definition plain_grants (f : file) : Prop :=
  forall t r, f_tables f !! "user_data_grants"%string = Some t -> In r (t_rows t) ->
    plain (field r "root_dev") = true /\ plain (field r "root_ino") = true.

(** Every table keeps its rows, and the grants their meaning. *)
Definition same_rows (name : string) (t t' : table) : Prop :=
  if String.eqb name "user_data_grants" then map grant_of (t_rows t') = map grant_of (t_rows t) else t_rows t' = t_rows t.

Definition preserves (f f' : file) : Prop :=
  plain_grants f -> plain_grants f' /\ forall name t, f_tables f !! name = Some t -> exists t', f_tables f' !! name = Some t' /\ same_rows name t t'.

#[export] Instance preserves_preorder : PreOrder preserves.
Proof.
  split.
  - intros f Hf. split; [exact Hf|]. intros name t Ht. exists t. split; [exact Ht|]. unfold same_rows. now destruct (String.eqb _ _).
  - intros f1 f2 f3 H12 H23 Hf. destruct (H12 Hf) as [Hf2 H2]. destruct (H23 Hf2) as [Hf3 H3]. split; [exact Hf3|].
    intros name t Ht. destruct (H2 name t Ht) as (t2 & E2 & S2). destruct (H3 name t2 E2) as (t3 & E3 & S3).
    exists t3. split; [exact E3|]. unfold same_rows in *. destruct (String.eqb _ _); congruence.
Qed.

(** A table with the same rows in the place of another. *)
Lemma preserves_set name t t' f : f_tables f !! name = Some t -> t_rows t' = t_rows t -> preserves f (set_table name t' f).
Proof.
  intros Ht Hr Hf. split.
  - intros t0 r Hl Hi. cbn in Hl. apply lookup_insert_Some in Hl as [(-> & <-)|(Hne & Hl)]; [rewrite Hr in Hi; eauto|eauto].
  - intros name0 t0 H0. cbn. destruct (decide (name0 = name)) as [->|Hne].
    + rewrite lookup_insert_eq. exists t'. split; [reflexivity|]. assert (t0 = t) as -> by congruence.
      unfold same_rows. destruct (String.eqb _ _); now rewrite Hr.
    + rewrite lookup_insert_ne by congruence. exists t0. split; [exact H0|]. unfold same_rows. now destruct (String.eqb _ _).
Qed.
Lemma preserves_new name t f : f_tables f !! name = None -> t_rows t = [] -> preserves f (set_table name t f).
Proof.
  intros Ht Hr Hf. split.
  - intros t0 r Hl Hi. cbn in Hl. apply lookup_insert_Some in Hl as [(-> & <-)|(Hne & Hl)]; [rewrite Hr in Hi; destruct Hi|eauto].
  - intros name0 t0 H0. cbn. rewrite lookup_insert_ne by congruence. exists t0. split; [exact H0|]. unfold same_rows. now destruct (String.eqb _ _).
Qed.
Lemma preserves_tables f f' : f_tables f' = f_tables f -> preserves f f'.
Proof. intros E Hf. unfold plain_grants. rewrite E. split; [exact Hf|]. exact (proj2 ((reflexivity f : preserves f f) Hf)). Qed.

(** ** Running the statements *)
Section Runs.
Context (fault : nat -> option exn) (other_unique : string -> table -> bool).

(** What another connection sees. *)
Definition durable (c : connection) : file := match c_saved c with Some f => f | None => c_file c end.
Definition lossless (c c' : connection) : Prop := preserves (durable c) (durable c').

#[local] Instance lossless_preorder : PreOrder lossless.
Proof. split; [intros c; unfold lossless; reflexivity|intros a b c; unfold lossless; apply transitivity]. Qed.

Abbreviation keeps m := (holds (fun _ : connection => True) lossless m).

Lemma statement_inv run c c' r : statement fault run c = (c', r) ->
  c_saved c' = c_saved c /\ (r = Ok tt /\ run (c_file c) = Ok (c_file c') \/ (exists e, r = Err e) /\ c_file c' = c_file c).
Proof.
  unfold statement. destruct (fault (c_count c)) as [e|]; [intros [= <- <-]; cbn; eauto|].
  destruct (run (c_file c)) as [f|e] eqn:E; intros [= <- <-]; cbn; eauto.
Qed.

Lemma keeps_statement run : (forall f f', run f = Ok f' -> preserves f f') -> keeps (statement fault run).
Proof.
  intros Hr c c' r _ _ E. apply statement_inv in E as [Es H]. split_and!; [exact Logic.I| |auto]. unfold lossless, durable. rewrite Es.
  destruct (c_saved c); [reflexivity|]. destruct H as [[_ H]|[_ ->]]; [now apply Hr|reflexivity].
Qed.

Lemma create_preserves name columns f f' : create_table_if_missing name columns f = Ok f' -> preserves f f'.
Proof.
  unfold create_table_if_missing. destruct (f_tables f !! name) eqn:E; intros [= <-]; [reflexivity|]. now apply preserves_new.
Qed.
Lemma index_preserves index name f f' : create_index_if_missing other_unique index name f = Ok f' -> preserves f f'.
Proof.
  unfold create_index_if_missing. repeat case_match; intros [= <-]; [reflexivity|now apply preserves_tables].
Qed.
Lemma add_column_preserves name column definition f f' : add_column name column definition f = Ok f' -> preserves f f'.
Proof. unfold add_column. destruct (f_tables f !! name) as [t|] eqn:E; intros [= <-]. now apply (preserves_set name t). Qed.
#[local] Hint Resolve create_preserves index_preserves add_column_preserves : core.

Lemma keeps_info name : keeps (table_info fault name).
Proof.
  intros c c' r _ _ E. unfold table_info in E. split_and!; [exact Logic.I| |auto].
  assert (H : durable c' = durable c) by (destruct (fault (c_count c)); injection E as <- _; reflexivity).
  unfold lossless. rewrite H. reflexivity.
Qed.
#[local] Hint Resolve keeps_info : triples.
#[local] Hint Extern 1 (holds _ lossless (statement _ _)) => (apply keeps_statement; eauto; intros ? ? [= <-]; reflexivity) : triples.

Lemma keeps_schema : keeps (execute_schema fault other_unique).
Proof. unfold execute_schema. solve_triple. Qed.
Lemma keeps_column name column definition : keeps (ensure_column fault name column definition).
Proof. unfold ensure_column. solve_triple. Qed.
#[local] Hint Resolve keeps_schema keeps_column : triples.

(** The migration inside its transaction. *)
Lemma seq_ok (m k : Eff connection unit) c c' r : (_ ← m; k) c = (c', r) ->
  (exists e, r = Err e /\ m c = (c', r)) \/ exists c1, m c = (c1, Ok tt) /\ k c1 = (c', r).
Proof. intros E. apply bind_inv in E as [(e & E & ->)|(c1 & [] & E1 & E)]; eauto. Qed.

Lemma statement_ok run c c' : statement fault run c = (c', Ok tt) -> c_saved c' = c_saved c /\ run (c_file c) = Ok (c_file c').
Proof. intros E. apply statement_inv in E as [Es [[_ H]|[[e [=]] _]]]. auto. Qed.

Lemma migration_saved c c' r : migration fault other_unique c = (c', r) -> c_saved c' = c_saved c.
Proof.
  unfold migration. revert c. assert (Hs : forall run c c' r, statement fault run c = (c', r) -> c_saved c' = c_saved c)
    by (intros run c0 c1 x E; apply statement_inv in E as [E _]; exact E).
  intros c E. repeat (apply seq_ok in E as [(? & _ & E)|(? & E1 & E)]; [now apply Hs in E|apply Hs in E1; rewrite <- E1; clear E1]).
  now apply Hs in E.
Qed.

Definition grants_name : string := "user_data_grants".

(** What the six statements do together. *)
Lemma migration_ok c c' : migration fault other_unique c = (c', Ok tt) ->
  exists t, f_tables (c_file c) !! grants_name = Some t
    /\ f_tables (c_file c') = <[grants_name := mkTable grant_columns (map migrate_row (t_rows t))]> (f_tables (c_file c))
    /\ f_indexes (c_file c') = <[grant_index := grants_name]> (f_indexes (c_file c)).
Proof.
  unfold migration. intros E. repeat (apply eff_bind_ok in E as (? & [] & ? & E)).
  repeat match goal with H : statement _ _ _ = _ |- _ => apply statement_ok in H as [_ H] end.
  destruct c as [f s n]. cbn [c_file] in *. fold grants_name in *.
  repeat match goal with x : connection |- _ => destruct x end. cbn [c_file] in *.
  unfold drop_index in H. injection H as <-. unfold rename_table in H0. cbn [f_tables] in H0.
  destruct (f_tables f !! grants_name) as [t|] eqn:Et; [|discriminate]. destruct (f_tables f !! legacy) eqn:El; [discriminate|].
  injection H0 as <-. exists t. split; [reflexivity|]. unfold create_table_if_missing in H1. cbn [f_tables with_tables] in H1.
  rewrite lookup_insert_ne, lookup_delete_eq in H1 by discriminate. injection H1 as <-.
  unfold copy_rows in H2. fold grants_name in H2. cbn [f_tables with_tables set_table] in H2.
  rewrite lookup_insert_ne, !lookup_insert_eq in H2 by discriminate.
  destruct (forallb _ grant_columns); [|discriminate]. destruct (grant_rows_ok _ _); [|discriminate]. injection H2 as <-.
  unfold drop_table in H3. cbn [f_tables with_tables set_table] in H3.
  rewrite lookup_insert_ne, lookup_insert_ne, lookup_insert_eq in H3 by discriminate. injection H3 as <-.
  unfold create_index_if_missing in E. cbn [f_tables f_indexes with_tables set_table] in E. rewrite lookup_delete_eq in E.
  repeat case_match; try discriminate. injection E as <-. cbn [f_tables f_indexes].
  split; [|now rewrite insert_delete_eq]. apply map_eq. intros name. cbn [t_columns app].
  destruct (decide (name = legacy)) as [->|Hl]; [rewrite lookup_delete_eq, lookup_insert_ne by discriminate; now rewrite El|].
  rewrite lookup_delete_ne by congruence. destruct (decide (name = grants_name)) as [->|Hg]; [now rewrite !lookup_insert_eq|].
  rewrite !lookup_insert_ne, lookup_delete_ne by congruence. reflexivity.
Qed.

Lemma migrated_preserves t f f' : f_tables f !! grants_name = Some t ->
  f_tables f' = <[grants_name := mkTable grant_columns (map migrate_row (t_rows t))]> (f_tables f) -> preserves f f'.
Proof.
  intros Ht Ef Hf. unfold plain_grants. rewrite Ef. split.
  - intros t' r Hl Hr. fold grants_name in Hl. rewrite lookup_insert_eq in Hl. injection Hl as <-. cbn in Hr.
    apply in_map_iff in Hr as (r0 & <- & Hr). destruct (Hf t r0 Ht Hr) as [H1 H2].
    assert (Hc : forall v, plain v = true -> plain (cast_text v) = true) by now intros [].
    split; cbn; now apply Hc.
  - intros name t0 H0. destruct (decide (name = grants_name)) as [->|Hne].
    + rewrite lookup_insert_eq. eexists. split; [reflexivity|]. assert (t0 = t) as -> by congruence.
      unfold same_rows. rewrite (String.eqb_refl grants_name : String.eqb grants_name "user_data_grants" = true). cbn [t_rows].
      rewrite map_map. apply map_ext_in. intros r Hr. destruct (Hf t r Ht Hr). now apply grant_of_migrated.
    + rewrite lookup_insert_ne by congruence. exists t0. split; [exact H0|]. unfold same_rows. now destruct (String.eqb _ _).
Qed.

Lemma begin_inv c c' r : begin_immediate fault c = (c', r) ->
  (exists e, r = Err e /\ c_saved c' = c_saved c /\ c_file c' = c_file c)
  \/ r = Ok tt /\ c_saved c' = Some (c_file c) /\ c_file c' = c_file c /\ c_saved c = None.
Proof.
  unfold begin_immediate. destruct (statement fault Ok c) as [c1 [u|e]] eqn:E; apply statement_inv in E as [Es H].
  - destruct H as [[_ H]|[[e [=]] _]]. injection H as Hf. rewrite Es, Hf. destruct (c_saved c) eqn:E0; intros [= <- <-]; [left; eauto 6|right].
    cbn. auto.
  - intros [= <- <-]. left. destruct H as [[[=] _]|[_ H]]. eauto.
Qed.
Lemma commit_inv c c' r : commit fault c = (c', r) ->
  (exists e, r = Err e /\ c_saved c' = c_saved c) \/ r = Ok tt /\ c_saved c' = None /\ c_file c' = c_file c.
Proof.
  unfold commit. destruct (statement fault Ok c) as [c1 [u|e]] eqn:E; apply statement_inv in E as [Es H]; intros [= <- <-].
  - right. destruct H as [[_ H]|[[e [=]] _]]. injection H as Hf. cbn. now rewrite Hf.
  - left. eauto.
Qed.

(** [except Exception: rollback; raise] leaves the state of the beginning to restore. *)
Lemma try_migration_inv c c' r : c_saved c = Some (c_file c) ->
  eff_try (migration fault other_unique) (fun e => if is_Exception e then Some (_ ← rollback; eff_raise e) else None) c = (c', r) ->
  (exists e, r = Err e /\ durable c' = c_file c) \/ migration fault other_unique c = (c', Ok tt) /\ r = Ok tt /\ c_saved c' = Some (c_file c).
Proof.
  intros Hs E. unfold eff_try in E. destruct (migration fault other_unique c) as [c1 [[]|e]] eqn:E1; pose proof (migration_saved _ _ _ E1) as Es.
  - injection E as <- <-. right. split_and!; [reflexivity|reflexivity|congruence].
  - left. unfold durable. destruct (is_Exception e); injection E as <- <-; cbn; rewrite Es, Hs; eauto.
Qed.

Lemma keeps_migrate : keeps (migrate_user_data_identity_to_text fault other_unique).
Proof.
  unfold migrate_user_data_identity_to_text. apply holds_bind; [typeclasses eauto|apply keeps_info|]. intros columns.
  destruct (is_text _ && is_text _); [apply holds_ret; typeclasses eauto|]. intros c c' r _ _ E. split_and!; [exact Logic.I| |auto].
  apply seq_ok in E as [(e & -> & E)|(c1 & E1 & E)]; unfold lossless.
  { apply begin_inv in E as [(e' & _ & Es & Ef)|(? & _)]; [|discriminate]. unfold durable. rewrite Es, Ef. reflexivity. }
  apply begin_inv in E1 as [(e & [=] & _)|(_ & Es & Ef & Hn)]. rewrite <- Ef in Es.
  assert (Hd : durable c = c_file c1) by (unfold durable; now rewrite Hn). rewrite Hd.
  apply seq_ok in E as [(e & -> & E)|(c2 & E2 & E)].
  { destruct (try_migration_inv _ _ _ Es E) as [(e' & _ & ->)|(_ & [=] & _)]. reflexivity. }
  destruct (try_migration_inv _ _ _ Es E2) as [(e' & [=] & _)|(Em & _ & Es2)].
  apply commit_inv in E as [(e & _ & Es3)|(_ & Es3 & Ef3)]; unfold durable; rewrite Es3.
  - rewrite Es2. reflexivity.
  - apply migration_ok in Em as (t & Ht & Ett & _). rewrite Ef3. eapply migrated_preserves; eassumption.
Qed.
#[local] Hint Resolve keeps_migrate : triples.

Lemma keeps_initialize : keeps (initialize_tables fault other_unique).
Proof. unfold initialize_tables. solve_triple. Qed.
End Runs.


(** ** Opening it again *)

Definition has_column (f : file) (name column : string) : Prop :=
  exists t, f_tables f !! name = Some t /\ is_some (declared (t_columns t) column) = true.

Definition added_columns : list (string * string) :=
  [("user_data_grants", "root_dev"); ("user_data_grants", "root_ino"); ("audit_events", "operation_id");
   ("launches", "session_id"); ("launches", "message"); ("launches", "error_code")]%string.

(** The schema of this version. *)
Record current (f : file) : Prop := mkCurrent {
  current_tables : forall t, In t schema_tables -> is_Some (f_tables f !! fst t);
  current_indexes : forall i, In i schema_indexes -> is_Some (f_indexes f !! fst i);
  current_columns : forall c, In c added_columns -> has_column f (fst c) (snd c);
  current_texts : forall t, f_tables f !! grants_name = Some t ->
    is_text (declared (t_columns t) "root_dev") = true /\ is_text (declared (t_columns t) "root_ino") = true }.

Section Again.
Context (fault : nat -> option exn) (other_unique : string -> table -> bool).

(** What a statement that succeeds outside the migration keeps. *)
Definition grows (f f' : file) : Prop :=
  (forall name, is_Some (f_tables f !! name) -> is_Some (f_tables f' !! name))
  /\ (forall i, is_Some (f_indexes f !! i) -> is_Some (f_indexes f' !! i))
  /\ forall name column, has_column f name column -> has_column f' name column.

#[local] Instance grows_preorder : PreOrder grows.
Proof.
  split; [intros f; unfold grows; auto|]. intros a b c (H1 & H2 & H3) (H4 & H5 & H6). split_and!; auto.
Qed.

Lemma iter_ok {A} (f : A -> Eff connection unit) (Post : A -> file -> Prop) l c c' :
  (forall a c c', f a c = (c', Ok tt) -> grows (c_file c) (c_file c') /\ Post a (c_file c')) ->
  (forall a x y, grows x y -> Post a x -> Post a y) ->
  eff_iter f l c = (c', Ok tt) -> grows (c_file c) (c_file c') /\ forall a, In a l -> Post a (c_file c').
Proof.
  intros Hf Hp. revert c. induction l as [|a l IH]; intros c E; cbn [eff_iter] in E.
  - injection E as <-. split; [reflexivity|intros a []].
  - destruct (f a c) as [c1 [[]|e]] eqn:E1; [|discriminate]. destruct (Hf _ _ _ E1) as [G1 P1]. destruct (IH _ E) as [G2 P2].
    split; [etrans; eassumption|]. intros x [<-|Hx]; [eapply Hp; eassumption|auto].
Qed.

Lemma set_grows name t f : (forall t0, f_tables f !! name = Some t0 -> forall column, is_some (declared (t_columns t0) column) = true -> is_some (declared (t_columns t) column) = true) ->
  grows f (set_table name t f).
Proof.
  intros Ht. split_and!.
  - intros n Hn. cbn. destruct (decide (n = name)) as [->|Hne]; [rewrite lookup_insert_eq; eauto|now rewrite lookup_insert_ne by congruence].
  - auto.
  - intros n column (t0 & H0 & Hc). unfold has_column. cbn. destruct (decide (n = name)) as [->|Hne].
    + rewrite lookup_insert_eq. eauto.
    + rewrite lookup_insert_ne by congruence. eauto.
Qed.

Lemma schema_ok c c' : execute_schema fault other_unique c = (c', Ok tt) ->
  grows (c_file c) (c_file c') /\ (forall t, In t schema_tables -> is_Some (f_tables (c_file c') !! fst t))
  /\ forall i, In i schema_indexes -> is_Some (f_indexes (c_file c') !! fst i).
Proof.
  unfold execute_schema. intros E. apply eff_bind_ok in E as (c1 & [] & E1 & E). apply eff_bind_ok in E as (c2 & [] & E2 & E).
  apply eff_bind_ok in E as (c3 & [] & E3 & E). apply statement_ok in E1 as [_ [= Q1]]. apply statement_ok in E2 as [_ [= Q2]].
  rewrite Q1, Q2. clear Q1 Q2 c c1. apply (iter_ok _ (fun t f => is_Some (f_tables f !! fst t))) in E3 as [G3 P3].
  2:{ intros t c c0 Es. apply statement_ok in Es as [_ Es]. unfold create_table_if_missing in Es.
      destruct (f_tables (c_file c) !! fst t) eqn:Et; injection Es as <-; [split; [reflexivity|eauto]|].
      split; [apply set_grows; congruence|]. cbn. rewrite lookup_insert_eq. eauto. }
  2:{ intros t x y (H & _) Hx. auto. }
  apply (iter_ok _ (fun i f => is_Some (f_indexes f !! fst i))) in E as [G4 P4].
  2:{ intros i c c0 Es. apply statement_ok in Es as [_ Es]. unfold create_index_if_missing in Es.
      destruct (f_indexes (c_file c) !! fst i) eqn:Ei; [injection Es as <-; split; [reflexivity|eauto]|].
      destruct (f_tables (c_file c) !! snd i); [|discriminate]. destruct (unique_ok _ _ _); [|discriminate]. injection Es as <-.
      split; [|cbn; rewrite lookup_insert_eq; eauto]. split_and!; [auto| |auto]. intros j Hj. cbn.
      destruct (decide (j = fst i)) as [->|Hne]; [rewrite lookup_insert_eq; eauto|now rewrite lookup_insert_ne by congruence]. }
  2:{ intros i x y (_ & H & _) Hx. auto. }
  split_and!; [etrans; eassumption| |exact P4]. intros t Ht. apply G4. auto.
Qed.

Lemma find_app_some {A} (p : A -> bool) l1 l2 x : List.find p l1 = Some x -> List.find p (l1 ++ l2) = Some x.
Proof. induction l1 as [|a l1 IH]; cbn; [discriminate|]. destruct (p a); auto. Qed.
Lemma declared_app l l' column : is_some (declared l column) = true -> is_some (declared (l ++ l') column) = true.
Proof. unfold declared. destruct (List.find _ l) as [x|] eqn:E; [|discriminate]. now rewrite (find_app_some _ _ _ _ E). Qed.

Lemma column_ok name column definition c c' : ensure_column fault name column definition c = (c', Ok tt) -> is_Some (f_tables (c_file c) !! name) ->
  grows (c_file c) (c_file c') /\ has_column (c_file c') name column.
Proof.
  unfold ensure_column. intros E [t Ht]. apply eff_bind_ok in E as (c1 & columns & E1 & E).
  assert (Hc : c_file c1 = c_file c /\ columns = t_columns t).
  { unfold table_info in E1. destruct (fault (c_count c)); [discriminate|]. injection E1 as <- <-. cbn. now rewrite Ht. }
  destruct Hc as [Hf ->]. rewrite <- Hf in *. clear Hf E1. destruct (is_some (declared (t_columns t) column)) eqn:Ed.
  - injection E as <-. split; [reflexivity|]. exists t. auto.
  - apply statement_ok in E as [_ E]. unfold add_column in E. rewrite Ht in E. injection E as <-. split.
    + apply set_grows. intros t0 H0 col. assert (t0 = t) as -> by congruence. apply declared_app.
    + eexists. cbn. rewrite lookup_insert_eq. split; [reflexivity|]. cbn. unfold declared. clear Ht Ed.
      induction (t_columns t) as [|x l IH]; cbn; [now rewrite String.eqb_refl|]. destruct (String.eqb (fst x) column); [reflexivity|exact IH].
Qed.

Lemma migrate_ok c c' : migrate_user_data_identity_to_text fault other_unique c = (c', Ok tt) ->
  c_file c' = c_file c
    /\ (forall t, f_tables (c_file c) !! grants_name = Some t ->
         is_text (declared (t_columns t) "root_dev") = true /\ is_text (declared (t_columns t) "root_ino") = true)
  \/ exists rows, f_tables (c_file c') = <[grants_name := mkTable grant_columns rows]> (f_tables (c_file c))
       /\ f_indexes (c_file c') = <[grant_index := grants_name]> (f_indexes (c_file c)).
Proof.
  unfold migrate_user_data_identity_to_text. intros E. apply eff_bind_ok in E as (c1 & columns & E1 & E).
  unfold table_info in E1. destruct (fault (c_count c)); [discriminate|]. injection E1 as <- Hc. fold grants_name in Hc.
  destruct (is_text _ && is_text _) eqn:Et.
  - injection E as <-. left. split; [reflexivity|]. intros t Ht. rewrite Ht in Hc. subst columns. now apply andb_true_iff in Et.
  - right. clear Hc Et. apply eff_bind_ok in E as (c2 & [] & E2 & E). apply begin_inv in E2 as [(e & [=] & _)|(_ & Es & Ef & _)].
    cbn [c_file] in *. apply eff_bind_ok in E as (c3 & [] & E3 & E). rewrite <- Ef in Es.
    destruct (try_migration_inv _ _ _ _ _ Es E3) as [(e & [=] & _)|(Em & _ & _)].
    apply commit_inv in E as [(e & [=] & _)|(_ & _ & Ef3)]. apply migration_ok in Em as (t & _ & Ht & Hi).
    rewrite Ef3, Ht, Hi, Ef. eauto.
Qed.

Lemma migrated_current f f' rows :
  (forall t, In t schema_tables -> is_Some (f_tables f !! fst t)) -> (forall i, In i schema_indexes -> is_Some (f_indexes f !! fst i)) ->
  (forall c, In c added_columns -> has_column f (fst c) (snd c)) ->
  f_tables f' = <[grants_name := mkTable grant_columns rows]> (f_tables f) -> f_indexes f' = <[grant_index := grants_name]> (f_indexes f) ->
  current f'.
Proof.
  intros Ht Hi Hc Et Ei. split.
  - intros t H. rewrite Et. destruct (decide (fst t = grants_name)) as [->|Hne]; [rewrite lookup_insert_eq; eauto|].
    rewrite lookup_insert_ne by congruence. auto.
  - intros i H. rewrite Ei. destruct (decide (fst i = grant_index)) as [->|Hne]; [rewrite lookup_insert_eq; eauto|].
    rewrite lookup_insert_ne by congruence. auto.
  - intros c H. unfold has_column. rewrite Et. destruct (decide (fst c = grants_name)) as [E|Hne].
    + rewrite E, lookup_insert_eq. eexists. split; [reflexivity|]. cbn in H. destruct H as [<-|[<-|[<-|[<-|[<-|[<-|[]]]]]]]; first [reflexivity|discriminate].
    + rewrite lookup_insert_ne by congruence. exact (Hc c H).
  - intros t H. rewrite Et, lookup_insert_eq in H. injection H as <-. split; reflexivity.
Qed.

Lemma initialize_tables_current c c' : initialize_tables fault other_unique c = (c', Ok tt) -> current (c_file c').
Proof.
  unfold initialize_tables. intros E. apply eff_bind_ok in E as (c0 & [] & E0 & E). apply schema_ok in E0 as (_ & Ht & Hi).
  assert (Hstep : forall name column definition a b (P : list (string * string)),
            (forall x, In x P -> has_column (c_file a) (fst x) (snd x)) -> (forall t, In t schema_tables -> is_Some (f_tables (c_file a) !! fst t)) ->
            (forall i, In i schema_indexes -> is_Some (f_indexes (c_file a) !! fst i)) ->
            In name (map fst schema_tables) -> ensure_column fault name column definition a = (b, Ok tt) ->
            (forall x, In x (P ++ [(name, column)]) -> has_column (c_file b) (fst x) (snd x)) /\ (forall t, In t schema_tables -> is_Some (f_tables (c_file b) !! fst t))
            /\ forall i, In i schema_indexes -> is_Some (f_indexes (c_file b) !! fst i)).
  { intros name column definition a b P HP Hta Hia Hn Ee. apply in_map_iff in Hn as (t & <- & Hin).
    apply column_ok in Ee as [(G1 & G2 & G3) Hcol]; [|now apply Hta]. split_and!; auto. intros x Hx. apply in_app_iff in Hx as [Hx|[<-|[]]]; [auto|exact Hcol]. }
  assert (HP : forall x : string * string, In x [] -> has_column (c_file c0) (fst x) (snd x)) by easy.
  do 6 (apply eff_bind_ok in E as (? & [] & E1 & E); apply (Hstep _ _ _ _ _ _ HP Ht Hi) in E1 as (HP' & Ht' & Hi'); [|vm_compute; tauto];
        clear HP Ht Hi; rename HP' into HP, Ht' into Ht, Hi' into Hi).
  apply migrate_ok in E as [[Ef Htext]|(rows & Et & Ei)].
  - rewrite Ef. split; [exact Ht|exact Hi|exact HP|exact Htext].
  - eapply migrated_current; [exact Ht|exact Hi|exact HP|exact Et|exact Ei].
Qed.
End Again.

(** ** Nothing is done twice *)
Section Settled.
Context (other_unique : string -> table -> bool) (f : file) (Hcurrent : current f).
Definition no_fault (n : nat) : option exn := None.

(** Code that leaves a current file as it is. *)
Definition skips {A} (m : Eff connection A) (P : A -> Prop) : Prop :=
  forall n, exists n' x, m (mkConnection f None n) = (mkConnection f None n', Ok x) /\ P x.

Lemma skips_bind {A B} (m : Eff connection A) (k : A -> Eff connection B) P Q : skips m P -> (forall x, P x -> skips (k x) Q) -> skips (m ≫= k) Q.
Proof.
  intros Hm Hk n. destruct (Hm n) as (n1 & x & E & Hx). destruct (Hk x Hx n1) as (n2 & y & E2 & Hy). exists n2, y. split; [|exact Hy].
  unfold mbind, eff_bind. now rewrite E.
Qed.
Lemma skips_iter {A} (g : A -> Eff connection unit) l : (forall a, In a l -> skips (g a) (fun _ => True)) -> skips (eff_iter g l) (fun _ => True).
Proof.
  induction l as [|a l IH]; intros H n; cbn [eff_iter]; [now exists n, tt|].
  destruct (H a (or_introl eq_refl) n) as (n1 & [] & E & _). rewrite E. apply IH. intros x Hx. apply H. now right.
Qed.
Lemma skips_statement run : run f = Ok f -> skips (statement no_fault run) (fun _ => True).
Proof. intros E n. exists (S n), tt. unfold statement, no_fault. cbn. now rewrite E. Qed.

Lemma skips_schema : skips (execute_schema no_fault other_unique) (fun _ => True).
Proof.
  unfold execute_schema. eapply skips_bind; [now apply skips_statement|intros _ _]. eapply skips_bind; [now apply skips_statement|intros _ _].
  eapply skips_bind; [|intros _ _].
  - apply skips_iter. intros t Ht. apply skips_statement. unfold create_table_if_missing. destruct (current_tables f Hcurrent t Ht) as [x ->]. reflexivity.
  - apply skips_iter. intros i Hi. apply skips_statement. unfold create_index_if_missing. destruct (current_indexes f Hcurrent i Hi) as [x ->]. reflexivity.
Qed.

Lemma skips_info name : skips (table_info no_fault name) (fun columns => forall t, f_tables f !! name = Some t -> columns = t_columns t).
Proof. intros n. eexists _, _. split; [reflexivity|]. cbn. intros t Ht. now rewrite Ht. Qed.

Lemma skips_column c definition : In c added_columns -> skips (ensure_column no_fault (fst c) (snd c) definition) (fun _ => True).
Proof.
  intros Hc. unfold ensure_column. eapply skips_bind; [apply skips_info|]. intros columns Hcolumns.
  destruct (current_columns f Hcurrent c Hc) as (t & Ht & Hd). rewrite (Hcolumns t Ht), Hd. intros n. now exists n, tt.
Qed.

Lemma skips_migrate : skips (migrate_user_data_identity_to_text no_fault other_unique) (fun _ => True).
Proof.
  unfold migrate_user_data_identity_to_text. eapply skips_bind; [apply skips_info|]. intros columns Hcolumns.
  destruct (current_tables f Hcurrent ("user_data_grants", grant_columns)%string) as [t Ht]; [vm_compute; tauto|].
  rewrite (Hcolumns t Ht). destruct (current_texts f Hcurrent t Ht) as [-> ->]. intros n. now exists n, tt.
Qed.

Lemma skips_initialize : skips (initialize_tables no_fault other_unique) (fun _ => True).
Proof.
  unfold initialize_tables. eapply skips_bind; [apply skips_schema|intros _ _].
  eapply skips_bind; [apply (skips_column ("user_data_grants", "root_dev")); vm_compute; tauto|intros _ _].
  eapply skips_bind; [apply (skips_column ("user_data_grants", "root_ino")); vm_compute; tauto|intros _ _].
  eapply skips_bind; [apply (skips_column ("audit_events", "operation_id")); vm_compute; tauto|intros _ _].
  eapply skips_bind; [apply (skips_column ("launches", "session_id")); vm_compute; tauto|intros _ _].
  eapply skips_bind; [apply (skips_column ("launches", "message")); vm_compute; tauto|intros _ _].
  eapply skips_bind; [apply (skips_column ("launches", "error_code")); vm_compute; tauto|intros _ _]. apply skips_migrate.
Qed.
End Settled.

(** No transaction is left open. *)
Section Closed.
Context (fault : nat -> option exn) (other_unique : string -> table -> bool).

Abbreviation closed m := (holds (fun c : connection => c_saved c = None) (fun _ _ => True) m).
#[local] Instance anywhere : PreOrder (fun _ _ : connection => True).
Proof. now split. Qed.

Lemma closed_statement run : closed (statement fault run).
Proof. intros c c' r Hc _ E. apply statement_inv in E as [Es _]. split_and!; [congruence|easy|easy]. Qed.
Lemma closed_info name : closed (table_info fault name).
Proof. intros c c' r Hc _ E. unfold table_info in E. destruct (fault (c_count c)); injection E as <- _; auto. Qed.
#[local] Hint Resolve closed_statement closed_info : triples.
Lemma closed_schema : closed (execute_schema fault other_unique).
Proof. unfold execute_schema. solve_triple. Qed.
Lemma closed_column name column definition : closed (ensure_column fault name column definition).
Proof. unfold ensure_column. solve_triple. Qed.

Lemma initialize_closed c c' : initialize_tables fault other_unique c = (c', Ok tt) -> c_saved c = None -> c_saved c' = None.
Proof.
  unfold initialize_tables. intros E Hc. apply eff_bind_ok in E as (c1 & [] & E1 & E).
  apply (closed_schema c c1) in E1 as (Hc1 & _); [|exact Hc|exact Logic.I]. clear Hc c.
  do 6 (apply eff_bind_ok in E as (? & [] & E1 & E); apply (closed_column _ _ _ _ _) in E1 as (Hc & _); [|exact Hc1|exact Logic.I]; clear Hc1; rename Hc into Hc1).
  unfold migrate_user_data_identity_to_text in E. apply eff_bind_ok in E as (c8 & columns & E1 & E).
  apply (closed_info _ _ _) in E1 as (Hc & _); [|exact Hc1|exact Logic.I]. destruct (is_text _ && is_text _); [now injection E as <-|].
  apply eff_bind_ok in E as (c9 & [] & _ & E). apply eff_bind_ok in E as (c10 & [] & _ & E).
  apply commit_inv in E as [(e & [=] & _)|(_ & Hs & _)]. exact Hs.
Qed.
End Closed.

(** A database that was opened has the schema of this version, and opening it
    again changes nothing. *)
Theorem initialize_idempotent fault other_unique make_parents f f' :
  initialize fault other_unique make_parents f = (f', Ok tt) ->
  current f' /\ initialize no_fault other_unique (Ok tt) f' = (f', Ok tt).
Proof.
  intros E. assert (Hc : current f').
  { unfold initialize in E. destruct make_parents as [u|e]; [|discriminate]. unfold connected, eff_finally in E.
    destruct ((_ ← statement fault Ok; _ ← statement fault Ok; initialize_tables fault other_unique) (mkConnection f None 0)) as [c x] eqn:Ec.
    unfold rollback in E. injection E as <- ->. apply eff_bind_ok in Ec as (c1 & [] & E1 & Ec). apply eff_bind_ok in Ec as (c2 & [] & E2 & Ec).
    apply statement_inv in E1 as [Es1 _]. apply statement_inv in E2 as [Es2 _]. cbn [c_saved] in Es1.
    rewrite (initialize_closed _ _ _ _ Ec) by congruence. exact (initialize_tables_current _ _ _ _ Ec). }
  split; [exact Hc|]. unfold initialize, connected, eff_finally. destruct (skips_initialize other_unique f' Hc 2%nat) as (n & [] & En & _).
  assert (Hs : forall k, statement no_fault Ok (mkConnection f' None k) = (mkConnection f' None (S k), Ok tt)) by reflexivity.
  unfold mbind, eff_bind. rewrite !Hs, En. reflexivity.
Qed.

(** ** A database of an early version *)
Definition early_grant (i w : string) (dev ino : Z) : row :=
  [("id", TextCell i); ("workspace_id", TextCell w); ("display_path", TextCell "/data"); ("canonical_root", TextCell "/data"); ("root_dev", Integer dev);
   ("root_ino", Integer ino); ("container_path", TextCell "/mnt/user-data"); ("mode", TextCell "ro"); ("created_at", TextCell "t")]%string.

Definition early : file := mkFile
  {["user_data_grants"%string := mkTable (map (fun c => (fst c, if String.eqb (fst c) "root_dev" || String.eqb (fst c) "root_ino" then "INTEGER" else "TEXT")%string) grant_columns)
                                  [early_grant "g1" "w1" 2049 131077];
     "workspaces"%string := mkTable [("id", "TEXT")]%string [[("id", TextCell "w1")]%string]]} ∅.

Definition all_unique (index : string) (t : table) : bool := true.
Definition opened : file * res unit := initialize no_fault all_unique (Ok tt) early.
(** The copy of the rows fails. *)
Definition broken (n : nat) : option exn := if Nat.eqb n 28 then Some (OSError 28) else None.
Definition not_opened : file * res unit := initialize broken all_unique (Ok tt) early.

Example opened_ex : snd opened = Ok tt
  /\ option_map (fun t => map (fun r => (field r "root_dev", field r "root_ino")) (t_rows t)) (f_tables (fst opened) !! grants_name)
     = Some [(TextCell "2049", TextCell "131077")].
Proof. vm_compute. auto. Qed.
Example not_opened_ex : snd not_opened = Err (OSError 28) /\ f_tables (fst not_opened) !! grants_name = f_tables early !! grants_name.
Proof. vm_compute. auto. Qed.


(** ** Rows and records

    What the statements of StateStore write for a record, and what
    [_workspace_record], [_session_record] and [_document_version_record] make of
    the row. *)
Definition optional_cell (o : option string) : cell := match o with Some s => TextCell s | None => Null end.
Definition bool_cell (b : bool) : cell := Integer (Z.b2z b).
Definition int_of (v : cell) : option Z := match v with Integer z => Some z | _ => None end.
(** [bool(value)] *)
Definition bool_of (v : cell) : option bool := option_map (fun z => negb (z =? 0)) (int_of v).

Definition workspace_cells (w : WorkspaceRecord) : row :=
  [("id", TextCell (w_id w)); ("source_repository_id", Integer (w_source_repository_id w)); ("source_owner", TextCell (w_source_owner w));
   ("source_repository", TextCell (w_source_repository w)); ("source_commit_sha", TextCell (w_source_commit_sha w));
   ("source_notebook_path", TextCell (w_source_notebook_path w)); ("root_path", TextCell (w_root_path w)); ("work_path", TextCell (w_work_path w));
   ("outputs_path", TextCell (w_outputs_path w)); ("active_notebook_path", TextCell (w_active_notebook_path w));
   ("user_data_grant_id", optional_cell (w_user_data_grant_id w)); ("created_at", TextCell (w_created_at w)); ("updated_at", TextCell (w_updated_at w))]%string.

Definition workspace_record (r : row) : option WorkspaceRecord :=
  i ← text_of (field r "id"); rid ← int_of (field r "source_repository_id"); owner ← text_of (field r "source_owner");
  repository ← text_of (field r "source_repository"); sha ← text_of (field r "source_commit_sha"); notebook ← text_of (field r "source_notebook_path");
  root ← text_of (field r "root_path"); work ← text_of (field r "work_path"); outputs ← text_of (field r "outputs_path");
  active ← text_of (field r "active_notebook_path"); grant ← optional_text (field r "user_data_grant_id");
  created ← text_of (field r "created_at"); updated ← text_of (field r "updated_at");
  Some (mkWorkspace i rid owner repository sha notebook root work outputs active grant created updated).

Definition session_cells (s : SessionRecord) : row :=
  [("id", TextCell (s_id s)); ("workspace_id", TextCell (s_workspace_id s)); ("runtime_id", TextCell (s_runtime_id s)); ("host_port", Integer (s_host_port s));
   ("gpu_enabled", bool_cell (s_gpu_enabled s)); ("agent_mode", TextCell (s_agent_mode s)); ("sandbox_verified", bool_cell (s_sandbox_verified s));
   ("network_verified", bool_cell (s_network_verified s)); ("collaboration_ready", bool_cell (s_collaboration_ready s)); ("state", TextCell (s_state s));
   ("notebook_url", TextCell (s_notebook_url s)); ("started_at", TextCell (s_started_at s)); ("stopped_at", optional_cell (s_stopped_at s))]%string.

Definition session_record (r : row) : option SessionRecord :=
  i ← text_of (field r "id"); w ← text_of (field r "workspace_id"); runtime ← text_of (field r "runtime_id"); port ← int_of (field r "host_port");
  gpu ← bool_of (field r "gpu_enabled"); mode ← text_of (field r "agent_mode"); sandbox ← bool_of (field r "sandbox_verified");
  network ← bool_of (field r "network_verified"); ready ← bool_of (field r "collaboration_ready"); state ← text_of (field r "state");
  url ← text_of (field r "notebook_url"); begun ← text_of (field r "started_at"); ended ← optional_text (field r "stopped_at");
  Some (mkSession i w runtime port gpu mode sandbox network ready state url begun ended).

Definition document_cells (d : DocumentVersionRecord) : row :=
  [("workspace_id", TextCell (d_workspace_id d)); ("path", TextCell (d_path d)); ("kind", TextCell (d_kind d)); ("version", TextCell (d_version d));
   ("content_hash", optional_cell (d_content_hash d)); ("updated_at", TextCell (d_updated_at d))]%string.

Definition document_version_record (r : row) : option DocumentVersionRecord :=
  w ← text_of (field r "workspace_id"); p ← text_of (field r "path"); k ← text_of (field r "kind"); v ← text_of (field r "version");
  h ← optional_text (field r "content_hash"); u ← text_of (field r "updated_at");
  Some (mkDocument w p k v h u).

(** A record that was written is read back. *)
Theorem records_read_back :
  (forall w, workspace_record (workspace_cells w) = Some w)
  /\ (forall s, session_record (session_cells s) = Some s)
  /\ (forall d, document_version_record (document_cells d) = Some d).
Proof.
  split_and!; intros []; repeat match goal with x : bool |- _ => destruct x | x : option _ |- _ => destruct x end; reflexivity.
Qed.
