(* ===== verification/Leases.v ===== *)
(** * Writable-agent leases (src/notebook_launcher/leases.py, launches.py, cli.py)

    [WritableLeaseStore], the two SQLite validators of the MCP bridge and the
    public attachment descriptor.  The clock is an argument of each call. *)
From S2P Require Export StateStore.

(** What [self._clock()] returned: an aware instant, or a naive datetime. *)
Inductive clock_reading := Aware (t : Z) | Naive (t : Z).

Definition lease_now (clock : clock_reading) : res Z :=
  match clock with
  | Aware t => Ok t
  | Naive _ => Err (ValueError "lease clock must return a timezone-aware datetime")
  end.

(** [COALESCE(heartbeat_at, acquired_at)] *)
Definition lease_seen (l : lease_row) : string :=
  match ls_heartbeat_at l with Some h => h | None => ls_acquired_at l end.

(** [COALESCE(heartbeat_at, acquired_at) < ?] *)
Definition lease_stale (stale_before : string) (l : lease_row) : bool :=
  sql_ltb (lease_seen l) stale_before.

Definition lease_release (now : string) (l : lease_row) : lease_row :=
  mkLease (ls_id l) (ls_session_id l) (ls_client_label l) (ls_acquired_at l)
    (ls_heartbeat_at l) (Some now).

Definition lease_beat (now : string) (l : lease_row) : lease_row :=
  mkLease (ls_id l) (ls_session_id l) (ls_client_label l) (ls_acquired_at l)
    (Some now) (ls_released_at l).

Definition session_accepts_writer (session : option SessionRecord) : bool :=
  match session with
  | Some s => String.eqb (s_state s) "ready" && String.eqb (s_agent_mode s) "write"
  | None => false
  end.

Section WritableLeaseStore.
Context (stale_after_seconds : Z).

(** The constructor's check, shared by [SqliteLeaseValidator]. *)
Definition WritableLeaseStore_init : res unit :=
  raise_if (stale_after_seconds <=? 0) (ValueError "stale_after_seconds must be positive").

(** The instant and the staleness bound, before any transaction starts. *)
Definition lease_times (clock : clock_reading) : res (Z * Z) :=
  let! now_value := lease_now clock in
  let! stale_before := dt_sub now_value (seconds stale_after_seconds) in
  Ok (now_value, stale_before).

Definition acquire_tx (lease_id session_id : uuid) (client_label : option string)
    (now stale_before : string) : Tx uuid :=
  session <- tx_fetchone (fun s => String.eqb (s_id s) session_id) ;;
  tx_raise_if (negb (session_accepts_writer session)) (LauncherExn WritableAgentBusy) ;;;
  tx_update (fun l => String.eqb (ls_session_id l) session_id && lease_active l
                      && lease_stale stale_before l)
    (lease_release now) ;;;
  tx_insert (mkLease lease_id session_id client_label now (Some now) None) ;;;
  tx_ret lease_id.

Definition acquire (lease_id session_id : uuid) (client_label : option string)
    (clock : clock_reading) (d : db) : db * res uuid :=
  match lease_times clock with
  | Err e => (d, Err e)
  | Ok (now_value, stale_before) =>
      on_integrity_error (Err (LauncherExn WritableAgentBusy))
        (transaction (acquire_tx lease_id session_id client_label
                        (isoformat now_value) (isoformat stale_before)) d)
  end.

Definition release (lease_id : uuid) (clock : clock_reading) (d : db) : db * res unit :=
  match lease_now clock with
  | Err e => (d, Err e)
  | Ok now =>
      transaction (tx_update (fun l => String.eqb (ls_id l) lease_id && lease_active l)
                     (lease_release (isoformat now)) ;;; tx_ret tt) d
  end.

Definition heartbeat (lease_id : uuid) (clock : clock_reading) (d : db) : db * res bool :=
  match lease_now clock with
  | Err e => (d, Err e)
  | Ok now =>
      transaction (n <- tx_update (fun l => String.eqb (ls_id l) lease_id && lease_active l)
                          (lease_beat (isoformat now)) ;; tx_ret (n =? 1)) d
  end.

Definition invalidate_session (session_id : uuid) (clock : clock_reading) (d : db)
    : db * res unit :=
  match lease_now clock with
  | Err e => (d, Err e)
  | Ok now =>
      transaction (tx_update (fun l => String.eqb (ls_session_id l) session_id)
                     (lease_release_now (isoformat now)) ;;; tx_ret tt) d
  end.

(** [session_id IN (SELECT id FROM notebook_sessions WHERE state NOT IN ...)] *)
Definition session_ended (d : db) (session_id : uuid) : bool :=
  existsb (fun s => String.eqb (s_id s) session_id && negb (session_active s))
    (notebook_sessions d).

Definition reconcile_selects (stale_before : string) (d : db) (l : lease_row) : bool :=
  lease_active l && (lease_stale stale_before l || session_ended d (ls_session_id l)).

Definition reconcile (clock : clock_reading) (d : db) : db * res Z :=
  match lease_times clock with
  | Err e => (d, Err e)
  | Ok (now_value, stale_before) =>
      transaction (fun d0 =>
        tx_update (reconcile_selects (isoformat stale_before) d0)
          (lease_release_now (isoformat now_value)) d0) d
  end.
End WritableLeaseStore.

(** ** The validators of the MCP bridge (cli.py) *)
Definition attachment_validate (session_id : uuid) (d : db) : res unit :=
  raise_if (match get_session session_id d with
            | Some s => negb (String.eqb (s_state s) "ready")
            | None => true
            end)
    (LauncherExn (PermissionDenied "The notebook session is not ready or was stopped.")).

Definition lease_current (stale_before : string) (session_id lease_id : uuid) (l : lease_row) : bool :=
  String.eqb (ls_id l) lease_id && String.eqb (ls_session_id l) session_id && lease_active l
  && negb (lease_stale stale_before l).

(** [now] is [datetime.now(UTC)]. *)
Definition lease_validate (stale_after_seconds : Z) (session_id lease_id : uuid) (now : Z)
    (d : db) : res unit :=
  let! stale_before := dt_sub now (seconds stale_after_seconds) in
  raise_if (is_none (fetchone (lease_current (isoformat stale_before) session_id lease_id)
                       (writable_agent_leases d)))
    (LauncherExn (PermissionDenied "The writable-agent lease is no longer active.")).

(** ** The attachment descriptor (mcp.py, launches.py) *)
Record McpAttachmentDescriptor := mkDescriptor {
  md_session_id : uuid;
  md_notebook_path : string;
  md_available : bool;
  md_status : string;
  md_transport : string;
  md_command : string;
  md_args : list string;
  md_agent_mode : AgentMode;
  md_backend : string;
  md_write_lease_available : bool;
  md_capabilities : list string }.

Record McpCapabilities := mkCapabilities {
  inspect_notebook : bool;
  mutate_notebook : bool;
  execute : bool;
  workspace_read : bool;
  workspace_write : bool;
  restart_kernel : bool }.

Definition READONLY_METHODS : list string := ["cell.read"; "notebook.read"; "output.read"]%string.
Definition EXPOSED_WRITE_METHODS : list string := READONLY_METHODS.

(** The property [methods]; the lists above are sorted. *)
Definition capability_methods (c : McpCapabilities) : list string :=
  if mutate_notebook c then EXPOSED_WRITE_METHODS else READONLY_METHODS.

Definition capabilities_for_mode (mode : AgentMode) : McpCapabilities :=
  match mode with
  | AgentMode_READONLY => mkCapabilities true false false false false false
  | AgentMode_WRITE => mkCapabilities true false false false false false
  end.

Definition build_attachment_descriptor (session_id : uuid) (notebook_path : string)
    (mode : AgentMode) (backend : string) (available write_lease_available : bool)
    : McpAttachmentDescriptor :=
  mkDescriptor session_id notebook_path available
    (if available then "available" else "unavailable") "stdio" "notebook-launcher"
    ["mcp"; session_id; "--mode"; AgentMode_value mode]%string mode backend
    write_lease_available (capability_methods (capabilities_for_mode mode)).

Definition with_status (status : string) (m : McpAttachmentDescriptor) : McpAttachmentDescriptor :=
  mkDescriptor (md_session_id m) (md_notebook_path m) (md_available m) status (md_transport m)
    (md_command m) (md_args m) (md_agent_mode m) (md_backend m) (md_write_lease_available m)
    (md_capabilities m).

(** The EXISTS subquery: an unreleased lease seen since [stale_before]. *)
Definition write_lease_held (stale_before : string) (session_id : uuid) (d : db) : bool :=
  existsb (fun l => String.eqb (ls_session_id l) session_id && lease_active l
                    && negb (lease_stale stale_before l)) (writable_agent_leases d).

Definition describe (stale_after_seconds : Z) (backend : string) (session_id : uuid) (now : Z)
    (d : db) : res (option McpAttachmentDescriptor) :=
  let! stale_before := dt_sub now (seconds stale_after_seconds) in
  match get_session session_id d with
  | None => Ok None
  | Some s =>
      match get_workspace (s_workspace_id s) d with
      | None => Ok None
      | Some w =>
          let! mode := AgentMode_of (s_agent_mode s) in
          let ready := String.eqb (s_state s) "ready" in
          let m := build_attachment_descriptor session_id (w_active_notebook_path w) mode backend
                     ready (ready && negb (write_lease_held (isoformat stale_before) session_id d)) in
          Ok (Some (if str_mem (s_state s) ["stopped"; "failed"]%string
                    then with_status (s_state s) m else m))
      end
  end.

(** ** Well-formedness *)
Lemma acquire_wf st i s c clk d : wf_db d -> wf_db (fst (acquire st i s c clk d)).
Proof.
  intros Hd. unfold acquire. destruct (lease_times st clk) as [[t b]|e]; [|exact Hd].
  unfold acquire_tx. solve_method_wf.
Qed.

(** A lease that was taken has the id it was asked with. *)
Lemma acquire_returns st i s c clk d d' x : acquire st i s c clk d = (d', Ok x) -> x = i.
Proof.
  unfold acquire, on_integrity_error, transaction, acquire_tx, tx_bind, tx_raise_if, tx_ret, tx_update, tx_insert.
  intros E. repeat (case_match; simplify_eq/=); reflexivity.
Qed.

Lemma release_wf i clk d : wf_db d -> wf_db (fst (release i clk d)).
Proof. intros Hd. unfold release. destruct (lease_now clk); [|exact Hd]. solve_method_wf. Qed.

Lemma heartbeat_wf i clk d : wf_db d -> wf_db (fst (heartbeat i clk d)).
Proof. intros Hd. unfold heartbeat. destruct (lease_now clk); [|exact Hd]. solve_method_wf. Qed.

Lemma invalidate_session_wf s clk d : wf_db d -> wf_db (fst (invalidate_session s clk d)).
Proof.
  intros Hd. unfold invalidate_session. destruct (lease_now clk); [|exact Hd]. solve_method_wf.
Qed.

Lemma reconcile_wf st clk d : wf_db d -> wf_db (fst (reconcile st clk d)).
Proof.
  intros Hd. unfold reconcile. destruct (lease_times st clk) as [[t b]|e]; [|exact Hd].
  apply transaction_wf; [|exact Hd]. intros d0 d1 n H0 He.
  eapply (preserves_update (R := lease_row)); [| |exact H0|exact He]; [reflexivity|].
  do 2 intro; exact id.
Qed.

(** ** Updates of leases never break a constraint *)
Definition lease_shrinks (f : lease_row -> lease_row) : Prop :=
  forall l, ls_id (f l) = ls_id l /\ ls_session_id (f l) = ls_session_id l
            /\ (lease_active (f l) = true -> lease_active l = true).

Lemma lease_conflict_shrinks f l x :
  lease_shrinks f -> lease_conflict (f l) x = true -> lease_conflict l x = true.
Proof.
  intros Hf. destruct (Hf l) as (Hi & Hs & Ha). unfold lease_conflict. rewrite Hi, Hs.
  destruct (lease_active (f l)); [now rewrite Ha|].
  simpl. rewrite orb_false_r. now intros ->.
Qed.

Lemma lease_update_succeeds p f d :
  wf_db d -> lease_shrinks f ->
  exists t', sql_update p f (writable_agent_leases d)
             = Some (t', Z.of_nat (List.length (select p (writable_agent_leases d)))).
Proof.
  intros Hd Hf. apply sql_update_monotone; [apply Hd|reflexivity|..].
  - intros r x _ _ _. now apply lease_conflict_shrinks.
  - intros r x _ _ _ _ Hc. apply (lease_conflict_shrinks f _ _ Hf) in Hc.
    pose proof (tbl_conflict_sym r (f x)) as Hsym. cbn [tbl_conflict lease_table] in Hsym.
    rewrite Hsym in Hc. apply (lease_conflict_shrinks f _ _ Hf) in Hc.
    rewrite tbl_conflict_sym. exact Hc.
Qed.

Lemma lease_release_shrinks now : lease_shrinks (lease_release now).
Proof. intros l. now split. Qed.
Lemma lease_beat_shrinks now : lease_shrinks (lease_beat now).
Proof. intros l. now split. Qed.
Lemma lease_release_now_shrinks now : lease_shrinks (lease_release_now now).
Proof.
  intros l. split; [reflexivity|split; [reflexivity|]]. unfold lease_active, lease_release_now.
  simpl. now destruct (ls_released_at l).
Qed.
#[export] Hint Resolve lease_release_shrinks lease_beat_shrinks lease_release_now_shrinks : launcher.

(** At most one unreleased lease per session. *)
Lemma one_active_lease d s a b :
  wf_db d -> In a (writable_agent_leases d) -> In b (writable_agent_leases d) ->
  lease_active a = true -> lease_active b = true ->
  ls_session_id a = s -> ls_session_id b = s -> a = b.
Proof.
  intros Hd Ha Hb Haa Hab Hsa Hsb. apply (tbl_ok_unique (writable_agent_leases d)); auto using wf_leases.
  change (lease_conflict a b = true). unfold lease_conflict.
  rewrite Haa, Hab, Hsa, Hsb, String.eqb_refl. apply orb_true_r.
Qed.

Lemma get_session_has d s x : get_session s d = Some x -> has_session d s = true.
Proof.
  intros Hs. apply fetchone_some in Hs as [Hin Hk]. apply existsb_exists. eauto.
Qed.

(** ** [acquire] *)
Definition get_lease (i : uuid) (d : db) : option lease_row :=
  fetchone (by_key i) (writable_agent_leases d).

Definition stale_of (s stale_before : string) (l : lease_row) : bool :=
  String.eqb (ls_session_id l) s && lease_active l && lease_stale stale_before l.

(** The leases after a successful [acquire]. *)
Definition acquired_leases (i s : uuid) (c : option string) (now sb : string) (d : db)
    : list lease_row :=
  map (fun l => if stale_of s sb l then lease_release now l else l) (writable_agent_leases d)
  ++ [mkLease i s c now (Some now) None].

Lemma acquire_no_conflict i s c now sb d :
  get_lease i d = None ->
  no_conflict (map (fun l => if stale_of s sb l then lease_release now l else l)
                 (writable_agent_leases d)) (mkLease i s c now (Some now) None)
  = negb (write_lease_held sb s d).
Proof.
  intros Hi. unfold no_conflict, write_lease_held. rewrite forallb_map.
  unfold get_lease in Hi. pose proof (proj1 (fetchone_none _ _) Hi) as Hf. clear Hi.
  induction (writable_agent_leases d) as [|l t IH]; [reflexivity|].
  cbn [forallb existsb]. rewrite negb_orb, IH by (intros; apply Hf; now right). f_equal. f_equal.
  pose proof (Hf l (or_introl eq_refl)) as Hl. unfold by_key in Hl.
  change (lease_conflict (if stale_of s sb l then lease_release now l else l)
            (mkLease i s c now (Some now) None)
          = (ls_session_id l =? s)%string && lease_active l && negb (lease_stale sb l)).
  unfold lease_conflict, stale_of. simpl ls_id. simpl ls_session_id. change (pk l) with (ls_id l) in Hl.
  change (lease_active (mkLease i s c now (Some now) None)) with true.
  destruct (ls_session_id l =? s)%string eqn:Es, (lease_active l) eqn:Ea, (lease_stale sb l) eqn:El;
    simpl; rewrite ?Hl, ?Es, ?Ea; reflexivity.
Qed.

Lemma acquire_tx_spec i s c now sb d :
  wf_db d -> get_lease i d = None ->
  acquire_tx i s c now sb d
  = if session_accepts_writer (get_session s d) then
      if write_lease_held sb s d then Err IntegrityError
      else Ok (set_tbl (acquired_leases i s c now sb d) d, i)
    else Err (LauncherExn WritableAgentBusy).
Proof.
  intros Hd Hi. unfold acquire_tx, tx_bind, tx_fetchone.
  change (fetchone _ (tbl d)) with (get_session s d).
  destruct (session_accepts_writer (get_session s d)) eqn:Hs; [|reflexivity].
  assert (Hhas : has_session d s = true).
  { destruct (get_session s d) as [x|] eqn:Hg; [|discriminate]. exact (get_session_has d s x Hg). }
  cbn [negb tx_raise_if]. unfold tx_ret, tx_update.
  change (fun l => (ls_session_id l =? s)%string && lease_active l && lease_stale sb l)
    with (stale_of s sb).
  destruct (lease_update_succeeds (stale_of s sb) (lease_release now) d Hd) as (t' & Hu);
    [auto with launcher|].
  change (tbl d) with (writable_agent_leases d). rewrite Hu.
  apply sql_update_spec in Hu as (-> & _ & _). unfold tx_insert. cbn [tbl_fk lease_db].
  change (has_session (set_tbl ?t d) ?k) with (has_session d k). cbn [ls_session_id]. rewrite Hhas.
  cbn [tbl set_tbl lease_db writable_agent_leases]. unfold sql_insert.
  rewrite acquire_no_conflict by exact Hi. now destruct (write_lease_held sb s d).
Qed.

(** What [acquire] returns, and the leases it leaves. *)
Lemma acquire_spec st i s c t b d :
  wf_db d -> get_lease i d = None -> dt_sub t (seconds st) = Ok b ->
  acquire st i s c (Aware t) d
  = if session_accepts_writer (get_session s d) && negb (write_lease_held (isoformat b) s d)
    then (set_tbl (acquired_leases i s c (isoformat t) (isoformat b) d) d, Ok i)
    else (d, Err (LauncherExn WritableAgentBusy)).
Proof.
  intros Hd Hi Hb. unfold acquire, lease_times. simpl. rewrite Hb. simpl.
  unfold transaction. rewrite acquire_tx_spec by assumption.
  destruct (session_accepts_writer _); [|reflexivity].
  now destruct (write_lease_held _ _ _).
Qed.

Lemma lease_validate_ok st s j now d :
  lease_validate st s j now d = Ok tt ->
  exists l, In l (writable_agent_leases d) /\ ls_id l = j /\ ls_session_id l = s
            /\ lease_active l = true.
Proof.
  unfold lease_validate. intros H. inv_ok. unfold is_none in Hk.
  destruct (fetchone _ _) as [l|] eqn:Hf; [|discriminate].
  apply fetchone_some in Hf as [Hin Hl]. unfold lease_current in Hl. bool_to_prop. eauto.
Qed.

Lemma acquired_lease_validates i s c t b st d :
  wf_db (set_tbl (acquired_leases i s c (isoformat t) (isoformat b) d) d) ->
  0 < st -> in_datetime_range t -> dt_sub t (seconds st) = Ok b ->
  lease_validate st s i t (set_tbl (acquired_leases i s c (isoformat t) (isoformat b) d) d) = Ok tt.
Proof.
  intros Hd Hst Ht Hb. unfold lease_validate. rewrite Hb. simpl rbind.
  apply dt_add_range in Hb as [-> Hb].
  apply raise_if_ok. apply negb_false_iff, is_some_true.
  destruct (fetchone (lease_current (isoformat (t + - seconds st)) s i) _) as [l|] eqn:Hf; [now exists l|].
  exfalso. pose proof (proj1 (fetchone_none _ _) Hf (mkLease i s c (isoformat t) (Some (isoformat t)) None)) as Hn.
  assert (Hin : In (mkLease i s c (isoformat t) (Some (isoformat t)) None)
                  (acquired_leases i s c (isoformat t) (isoformat (t + - seconds st)) d))
    by (apply in_or_app; right; now left).
  specialize (Hn Hin). revert Hn. unfold lease_current, lease_stale, lease_seen. simpl.
  rewrite !String.eqb_refl, iso_ltb by assumption. unfold seconds in *.
  rewrite (proj2 (Z.ltb_ge _ _)) by lia. discriminate.
Qed.

Definition of_session (s : uuid) (l : lease_row) : bool := String.eqb (ls_session_id l) s.

Lemma acquired_leases_other i s c now sb d s' :
  s' <> s -> select (of_session s') (acquired_leases i s c now sb d)
             = select (of_session s') (writable_agent_leases d).
Proof.
  intros Hs. unfold acquired_leases.
  assert (Hne : (s =? s')%string = false) by (apply String.eqb_neq; congruence).
  rewrite select_snoc_other by exact Hne. apply select_map_other.
  intros r _ Hr. unfold stale_of, of_session in *. bool_to_prop. simpl.
  replace (ls_session_id r) with s by congruence. rewrite (proj2 (String.eqb_neq _ _)) by congruence. auto.
Qed.

(** C23: mutual exclusion of writable agents.  [acquire] succeeds exactly when
    the session is ready in write mode and no unreleased lease of it was seen
    within the staleness bound; otherwise it raises [WritableAgentBusy] and
    changes nothing.  After it succeeds the caller's lease validates, no other
    lease of the session validates at any time and with any bound, and the
    leases of other sessions are untouched. *)
Theorem acquire_exclusive (st : Z) (i s : uuid) (c : option string) (t b : Z) (d : db) :
  wf_db d -> 0 < st -> in_datetime_range t -> dt_sub t (seconds st) = Ok b -> get_lease i d = None ->
  if session_accepts_writer (get_session s d) && negb (write_lease_held (isoformat b) s d)
  then exists d', acquire st i s c (Aware t) d = (d', Ok i)
       /\ lease_validate st s i t d' = Ok tt
       /\ (forall j st' now, j <> i -> lease_validate st' s j now d' <> Ok tt)
       /\ (forall s', s' <> s -> select (of_session s') (writable_agent_leases d')
                                 = select (of_session s') (writable_agent_leases d))
  else acquire st i s c (Aware t) d = (d, Err (LauncherExn WritableAgentBusy)).
Proof.
  intros Hd Hst Ht Hb Hi. pose proof (acquire_wf st i s c (Aware t) d Hd) as Hd'.
  rewrite (acquire_spec st i s c t b d) in * by assumption.
  destruct (session_accepts_writer _ && _); [|reflexivity]. simpl fst in Hd'.
  eexists. split; [reflexivity|]. pose proof (acquired_lease_validates i s c t b st d Hd' Hst Ht Hb) as Hv.
  split; [exact Hv|]. split.
  - intros j st' now Hj Hv'. apply lease_validate_ok in Hv as (l & Hl & Hli & Hls & Hla).
    apply lease_validate_ok in Hv' as (l' & Hl' & Hli' & Hls' & Hla').
    assert (l = l') by (eapply (one_active_lease _ s); [exact Hd'|..]; assumption). congruence.
  - intros s' Hs'. now apply acquired_leases_other.
Qed.

(** The descriptor tells the truth about the lease.  For a session of a
    well-formed database in write mode, the [write_lease_available] that
    [describe] publishes is true exactly when [acquire], called at the same
    instant, would succeed. *)
Theorem descriptor_predicts_acquire (st : Z) (be : string) (i s : uuid) (c : option string) (t b : Z)
    (x : SessionRecord) (d : db) :
  wf_db d -> dt_sub t (seconds st) = Ok b -> get_lease i d = None ->
  get_session s d = Some x -> s_agent_mode x = "write"%string ->
  exists m, describe st be s t d = Ok (Some m)
    /\ (md_write_lease_available m = true <-> snd (acquire st i s c (Aware t) d) = Ok i).
Proof.
  intros Hd Hb Hi Hx Hm. rewrite (acquire_spec st i s c t b d) by assumption.
  unfold describe. rewrite Hb, Hx. simpl rbind.
  assert (Hw : has_workspace d (s_workspace_id x) = true).
  { pose proof (wf_fk_sessions d Hd) as Hfk. unfold fks in Hfk. rewrite forallb_forall in Hfk.
    apply (Hfk x). now apply fetchone_some in Hx. }
  destruct (get_workspace (s_workspace_id x) d) as [w|] eqn:Hgw.
  - rewrite Hm. change (AgentMode_of "write") with (Ok (E:=exn) AgentMode_WRITE). cbn [rbind].
    eexists. split; [reflexivity|]. cbn [session_accepts_writer]. rewrite Hm, String.eqb_refl, andb_true_r.
    match goal with |- md_write_lease_available (if ?k then _ else _) = true <-> _ => destruct k end;
      cbn [with_status md_write_lease_available build_attachment_descriptor];
      (destruct ((s_state x =? "ready")%string && _); split; [reflexivity|reflexivity|discriminate|discriminate]).
  - exfalso. apply existsb_exists in Hw as (y & Hy & Hk).
    pose proof (proj1 (fetchone_none _ _) Hgw y Hy) as Hno. simpl in Hno. congruence.
Qed.

Lemma select_map_none {R} `{Table R} (p : R -> bool) f t :
  (forall r, p (f r) = false) -> select p (map (fun r => if p r then f r else r) t) = [].
Proof.
  intros Hf. apply filter_nil_iff. intros x Hx. apply in_map_iff in Hx as (r & <- & _).
  destruct (p r) eqn:Hp; [apply Hf|exact Hp].
Qed.

(** [reconcile] releases, at the given instant, exactly the unreleased
    leases that were not seen within the staleness bound or whose session has
    ended, keeps every other lease as it is and returns how many it released;
    run again at the same instant it finds nothing to release. *)
Theorem reconcile_exact (st t b : Z) (d : db) :
  wf_db d -> dt_sub t (seconds st) = Ok b ->
  let due := reconcile_selects (isoformat b) d in
  exists d', reconcile st (Aware t) d
             = (d', Ok (Z.of_nat (List.length (select due (writable_agent_leases d)))))
    /\ (forall i, get_lease i d'
                  = option_map (fun l => if due l then lease_release (isoformat t) l else l) (get_lease i d))
    /\ notebook_sessions d' = notebook_sessions d
    /\ reconcile st (Aware t) d' = (d', Ok 0).
Proof.
  intros Hd Hb. cbv zeta. unfold reconcile, lease_times. simpl lease_now. cbn [rbind]. rewrite Hb.
  cbn [rbind]. set (due := reconcile_selects (isoformat b) d). unfold transaction, tx_update.
  destruct (lease_update_succeeds due (lease_release_now (isoformat t)) d Hd) as (t' & Hu);
    [auto with launcher|].
  change (tbl d) with (writable_agent_leases d). fold due. rewrite Hu.
  pose proof (sql_update_spec _ _ _ _ _ Hu) as (-> & _ & Hok).
  eexists. split; [reflexivity|]. cbn [set_tbl lease_db]. split; [|split; [reflexivity|]].
  - intros i. unfold get_lease. cbn [writable_agent_leases]. rewrite fetchone_map by reflexivity.
    destruct (fetchone (by_key i) (writable_agent_leases d)) as [l|]; [|reflexivity].
    simpl. destruct (due l) eqn:Hl; [|reflexivity]. f_equal. unfold due, reconcile_selects, lease_active in Hl.
    bool_to_prop. apply is_none_true in H. unfold lease_release_now. now rewrite H.
  - cbn [tbl lease_db writable_agent_leases].
    change (reconcile_selects (isoformat b) (mkDb _ _ _ _ _ _ _ _ _ _ _)) with due.
    assert (Hnone : select due (map (fun r => if due r then lease_release_now (isoformat t) r else r)
                                  (writable_agent_leases d)) = []).
    { apply select_map_none. intros r. unfold due, reconcile_selects, lease_active, lease_release_now.
      simpl. now destruct (ls_released_at r). }
    set (ls := map _ _) in *. unfold sql_update.
    assert (Hid : map (fun r => if due r then lease_release_now (isoformat t) r else r) ls = ls).
    { rewrite <- map_id. apply map_ext_in. intros x Hx.
      now rewrite (proj1 (filter_nil_iff _ _) Hnone x Hx). }
    rewrite Hid, Hok, Hnone. reflexivity.
Qed.

(** ** Witnesses *)
Definition ready_db : db :=
  fst (transition_session "se-1" ["starting"] "ready" None (Some true) (Some true) (Some true)
         sample_db).

Lemma ready_db_wf : wf_db ready_db.
Proof. apply transition_session_wf, sample_db_wf. Qed.

(** An agent that acquired the lease at instant 1000 s. *)
Definition leased_db : db := fst (acquire 30 "le-1" "se-1" None (Aware (seconds 1000)) ready_db).

Lemma leased_db_wf : wf_db leased_db.
Proof. apply acquire_wf, ready_db_wf. Qed.

Lemma acquire_exclusive_witness :
  exists d', acquire 30 "le-2" "se-1" None (Aware (seconds 1031)) leased_db = (d', Ok "le-2"%string)
    /\ lease_validate 30 "se-1" "le-2" (seconds 1031) d' = Ok tt
    /\ lease_validate 30 "se-1" "le-1" (seconds 1031) d' <> Ok tt.
Proof.
  pose proof (acquire_exclusive 30 "le-2" "se-1" None (seconds 1031) (seconds 1001) leased_db
                leased_db_wf ltac:(lia) ltac:(vm_compute; split; discriminate) eq_refl eq_refl) as H.
  eval_head H. destruct H as (d' & Hr & Hv & Hx & _).
  exists d'. split; [exact Hr|]. split; [exact Hv|]. apply Hx. discriminate.
Defined.

Lemma descriptor_predicts_acquire_witness :
  exists m, describe 30 "jupyter-mcp-server/2.x" "se-1" (seconds 1010) leased_db = Ok (Some m)
    /\ md_write_lease_available m = false
    /\ snd (acquire 30 "le-2" "se-1" None (Aware (seconds 1010)) leased_db) <> Ok "le-2"%string.
Proof.
  destruct (descriptor_predicts_acquire 30 "jupyter-mcp-server/2.x" "le-2" "se-1" None (seconds 1010)
              (seconds 980) (session_set_state "ready" None (Some true) (Some true) (Some true)
                (row_starting "se-1" "ws-1" "rt-1" 8888 true "write" "http://127.0.0.1:8888" "t1"))
              leased_db leased_db_wf eq_refl eq_refl eq_refl eq_refl) as (m & Hm & Hiff).
  exists m. split; [exact Hm|]. assert (Hf : md_write_lease_available m = false).
  { vm_compute in Hm. injection Hm as <-. reflexivity. }
  split; [exact Hf|]. intros Hok. apply Hiff in Hok. congruence.
Defined.

Lemma reconcile_exact_witness :
  exists d', reconcile 30 (Aware (seconds 1031)) leased_db = (d', Ok 1)
    /\ reconcile 30 (Aware (seconds 1031)) d' = (d', Ok 0).
Proof.
  destruct (reconcile_exact 30 (seconds 1031) (seconds 1001) leased_db leased_db_wf eq_refl)
    as (d' & Hr & _ & _ & Hi).
  exists d'. split; [exact Hr|exact Hi].
Defined.
