(* ===== verification/AuditLog.v ===== *)
(** * The audit log (src/notebook_launcher/audit.py)

    [sanitize_audit_target] with its two regular expressions, and
    [AuditStore.record].  The expressions leave no choice in how they match:
    each repetition ends where its class of characters ends.  As everywhere,
    white space, letters and their cases are those of ASCII. *)
From S2P Require Export StateStore Utf8.

Definition MAX_TARGET_LENGTH : nat := 512.

Record AuditEvent := mkAuditEvent {
  ev_operation : string;
  ev_session_id : option uuid;
  ev_operation_id : option uuid;
  ev_lease_id : option uuid;
  ev_target : option string;
  ev_duration_ms : option Z;
  ev_outcome : option string;
  ev_error_type : option string }.

(** ** The expressions *)

(** The text before the first character outside [p], and the rest. *)
Fixpoint span (p : ascii -> bool) (s : string) : string * string :=
  match s with
  | String c s' => if p c then let '(a, b) := span p s' in (String c a, b) else (EmptyString, s)
  | EmptyString => (EmptyString, EmptyString)
  end.

(** A word in any case: its text as it is written, and the rest. *)
Definition word (w s : string) : option (string * string) :=
  if starts_with w (lower s) then Some (str_take (String.length w) s, str_drop (String.length w) s) else None.

Definition non_space (c : ascii) : bool := negb (is_space c).
Definition value_char (c : ascii) : bool := non_space c && negb (Ascii.eqb c "&").

(** [authorization\s*:\s*bearer\s+\S+]: the replacement, and the length of the match *)
Definition match_authorization (_ : option ascii) (s : string) : option (string * nat) :=
  match word "authorization" s with
  | None => None
  | Some (w1, s) =>
      let '(sp1, s) := span is_space s in
      match s with
      | String ":" s =>
          let '(sp2, s) := span is_space s in
          match word "bearer" s with
          | None => None
          | Some (w2, s) =>
              let '(sp3, s) := span is_space s in
              let '(value, _) := span non_space s in
              if String.eqb sp3 "" || String.eqb value "" then None
              else let kept := (w1 ++ sp1 ++ ":" ++ sp2 ++ w2 ++ sp3)%string in
                   Some (kept ++ "[REDACTED]", String.length kept + String.length value)%nat%string
          end
      | _ => None
      end
  end.

(** [\b(token|password|secret|api[_-]?key)=([^\s&]+)] *)
Definition secret_keys : list string := ["token"; "password"; "secret"; "apikey"; "api_key"; "api-key"]%string.
Definition word_char (c : ascii) : bool := is_alnum c || Ascii.eqb c "_".

Definition match_secret (previous : option ascii) (s : string) : option (string * nat) :=
  if match previous with Some c => word_char c | None => false end then None
  else
    match omap (fun k => word (k ++ "=") s) secret_keys with
    | (kept, s) :: _ =>
        let '(value, _) := span value_char s in
        if String.eqb value "" then None
        else Some (kept ++ "[REDACTED]", String.length kept + String.length value)%nat%string
    | [] => None
    end.

(** [pattern.sub(...)]: from left to right, going on after each match. *)
Fixpoint re_sub (find : option ascii -> string -> option (string * nat)) (previous : option ascii) (skip : nat) (s : string)
  : string :=
  match s with
  | EmptyString => EmptyString
  | String c s' =>
      match skip with
      | S k => re_sub find (Some c) k s'
      | O => match find previous s with
             | Some (replacement, S n) => (replacement ++ re_sub find (Some c) n s')%string
             | _ => String c (re_sub find (Some c) 0 s')
             end
      end
  end.

Definition sanitize_audit_target (target : option string) : option string :=
  option_map (fun t =>
    let safe := replace_char "010" " " (replace_char "013" " " t) in
    let safe := re_sub match_authorization None 0 safe in
    let safe := re_sub match_secret None 0 safe in
    str_slice MAX_TARGET_LENGTH safe) target.

Example sanitize_ex :
  map (fun t => sanitize_audit_target (Some t))
    ["GET /x?Token=abc&api-key=k&mytoken=1 secret="; "Authorization :  BEARER s3cret rest"; "authorization: bearer "]%string
  = [Some "GET /x?Token=[REDACTED]&api-key=[REDACTED]&mytoken=1 secret="; Some "Authorization :  BEARER [REDACTED] rest";
     Some "authorization: bearer "]%string.
Proof. vm_compute. reflexivity. Qed.

(** ** [AuditStore.record] *)
Definition record (event : AuditEvent) (new_id : uuid) (now : string) (d : db) : db * res unit :=
  transaction
    (tx_insert (mkAudit new_id (ev_session_id event) (ev_lease_id event) (ev_operation_id event) (ev_operation event)
       (sanitize_audit_target (ev_target event)) now (ev_duration_ms event) (ev_outcome event) (ev_error_type event))) d.

Lemma record_wf e i now d : wf_db d -> wf_db (fst (record e i now d)).
Proof. unfold record. solve_method_wf. Qed.

(** ** What is stored *)
Lemma re_sub_line q find previous skip s :
  (forall p t r n, find p t = Some (r, n) -> all_chars q t = true -> all_chars q r = true) ->
  all_chars q s = true -> all_chars q (re_sub find previous skip s) = true.
Proof.
  intros Hf. revert previous skip. induction s as [|c s IH]; intros previous skip Hs; [reflexivity|].
  pose proof Hs as Hs'. cbn [all_chars] in Hs'. apply andb_true_iff in Hs' as [Hc Hs']. cbn [re_sub].
  destruct skip as [|k]; [|auto]. destruct (find previous (String c s)) as [[r [|n]]|] eqn:Ef.
  - cbn [all_chars]. now rewrite Hc, IH.
  - rewrite all_chars_append, (Hf _ _ _ _ Ef Hs). now apply IH.
  - cbn [all_chars]. now rewrite Hc, IH.
Qed.

(** A pass keeps a class of characters that holds of its replacement. *)
Section Keeps.
Context (q : ascii -> bool) (Hq : all_chars q "[REDACTED]" = true) (Hcolon : q ":"%char = true).

Lemma span_keeps p s a b : span p s = (a, b) -> all_chars q s = true -> all_chars q a = true /\ all_chars q b = true.
Proof.
  revert a b. induction s as [|c s IH]; intros a b; cbn [span]; [intros [= <- <-]; auto|]. intros E Hs.
  pose proof Hs as Hs'. cbn [all_chars] in Hs'. apply andb_true_iff in Hs' as [Hc Hs'].
  destruct (p c); [|injection E as <- <-; auto]. destruct (span p s) as [x y] eqn:Ex. injection E as <- <-.
  destruct (IH x y eq_refl Hs'). cbn [all_chars]. now rewrite Hc.
Qed.

Lemma word_keeps w s a b : word w s = Some (a, b) -> all_chars q s = true -> all_chars q a = true /\ all_chars q b = true.
Proof.
  unfold word. destruct (starts_with w (lower s)); [|discriminate]. intros [= <- <-] Hs.
  generalize (String.length w) as n. clear w. induction s as [|c s IH]; intros n; [now destruct n|].
  cbn [all_chars] in Hs. apply andb_true_iff in Hs as [Hc Hs]. destruct n as [|n]; cbn [str_take str_drop all_chars].
  - now rewrite Hc.
  - destruct (IH Hs n). now rewrite Hc.
Qed.

Lemma authorization_keeps p s r n : match_authorization p s = Some (r, n) -> all_chars q s = true -> all_chars q r = true.
Proof.
  unfold match_authorization. intros E Hs. destruct (word _ s) as [[w1 s1]|] eqn:E1; [|discriminate].
  destruct (word_keeps _ _ _ _ E1 Hs) as [H1 H1']. destruct (span is_space s1) as [sp1 s2] eqn:E2.
  destruct (span_keeps _ _ _ _ E2 H1') as [H2 H2']. destruct s2 as [|c s3]; [discriminate|].
  destruct (Ascii.eqb_spec c ":") as [->|Hne].
  2: { destruct c as [[] [] [] [] [] [] [] []]; try discriminate; now elim Hne. }
  cbn [all_chars] in H2'. apply andb_true_iff in H2' as [_ H3]. destruct (span is_space s3) as [sp2 s4] eqn:E4.
  destruct (span_keeps _ _ _ _ E4 H3) as [H4 H4']. destruct (word _ s4) as [[w2 s5]|] eqn:E5; [|discriminate].
  destruct (word_keeps _ _ _ _ E5 H4') as [H5 H5']. destruct (span is_space s5) as [sp3 s6] eqn:E6.
  destruct (span_keeps _ _ _ _ E6 H5') as [H6 _]. destruct (span non_space s6) as [value s7]. destruct (_ || _); [discriminate|].
  assert (Hc : all_chars q ":" = true) by (cbn; now rewrite Hcolon).
  injection E as <- _. now rewrite !all_chars_append, H1, H2, Hc, H4, H5, H6, Hq.
Qed.

Lemma secret_keeps p s r n : match_secret p s = Some (r, n) -> all_chars q s = true -> all_chars q r = true.
Proof.
  unfold match_secret. intros E Hs. destruct (match p with Some c => word_char c | None => false end); [discriminate|].
  destruct (omap _ secret_keys) as [|[kept rest] l] eqn:Eo; [discriminate|].
  assert (Hin : (kept, rest) ∈ omap (fun k => word (k ++ "=") s) secret_keys) by (rewrite Eo; left).
  apply list_elem_of_omap in Hin as (k & _ & Hk). destruct (word_keeps _ _ _ _ Hk Hs) as [H1 _].
  destruct (span value_char rest) as [value rest']. destruct (String.eqb value ""); [discriminate|].
  injection E as <- _. now rewrite all_chars_append, H1, Hq.
Qed.
End Keeps.

(** Not a line end. *)
Definition in_line (c : ascii) : bool := negb ((ord c =? 10) || (ord c =? 13)).

Lemma replace_in_line s : all_chars in_line (replace_char "010" " " (replace_char "013" " " s)) = true.
Proof.
  unfold replace_char. induction s as [|c s IH]; [reflexivity|]. cbn [map_chars all_chars]. rewrite IH, andb_true_r.
  destruct (Ascii.eqb_spec c "013") as [->|H1]; [reflexivity|]. destruct (Ascii.eqb_spec c "010") as [->|H2]; [reflexivity|].
  unfold in_line. destruct (Z.eqb_spec (ord c) 10) as [E|_].
  - elim H2. now apply (f_equal (fun z => ascii_of_N (Z.to_N z))) in E; unfold ord in E; rewrite N2Z.id, ascii_N_embedding in E.
  - destruct (Z.eqb_spec (ord c) 13) as [E|_]; [|reflexivity].
    elim H1. now apply (f_equal (fun z => ascii_of_N (Z.to_N z))) in E; unfold ord in E; rewrite N2Z.id, ascii_N_embedding in E.
Qed.

Lemma str_slice_keeps q n s : all_chars q s = true -> all_chars q (str_slice n s) = true.
Proof.
  revert n. induction s as [|c s IH]; intros n Hs; [reflexivity|]. cbn [all_chars] in Hs. apply andb_true_iff in Hs as [Hc Hs].
  cbn [str_slice]. destruct (is_cont c); [cbn [all_chars]; now rewrite Hc, IH|].
  destruct n; [reflexivity|]. cbn [all_chars]. now rewrite Hc, IH.
Qed.

Lemma str_slice_len n s : (str_len (str_slice n s) <= n)%nat.
Proof.
  revert n. induction s as [|c s IH]; intros n; [simpl; lia|]. cbn [str_slice]. destruct (is_cont c) eqn:Ec.
  - cbn [str_len]. rewrite Ec. apply IH.
  - destruct n as [|n]; [simpl; lia|]. cbn [str_len]. rewrite Ec. specialize (IH n). lia.
Qed.

(** An audit record is one short line.  Whatever the target of an event
    is, [record] appends exactly one row to the log and changes no other table,
    or changes nothing; the target that is stored contains no line end and at
    most 512 characters, so that a caller cannot forge or flood lines of the
    log; an event without a target is stored without one. *)
Theorem audit_record_is_line event i now d d' r : record event i now d = (d', r) ->
  (r <> Ok tt /\ d' = d)
  \/ exists row, d' = set_tbl (audit_events d ++ [row]) d /\ a_operation row = ev_operation event
       /\ (a_target row = None <-> ev_target event = None)
       /\ forall t, a_target row = Some t -> all_chars in_line t = true /\ (str_len t <= MAX_TARGET_LENGTH)%nat.
Proof.
  unfold record, transaction, tx_insert. destruct (sql_insert _ (tbl d)) as [t'|] eqn:Ei; cbn [tbl_fk audit_db].
  2: { intros [= <- <-]. left. split; [discriminate|reflexivity]. }
  apply sql_insert_spec in Ei as (-> & _). intros [= <- _]. right. eexists. split; [reflexivity|]. cbn [a_operation a_target].
  split_and!; [reflexivity|destruct (ev_target event); easy|]. intros t Ht. unfold sanitize_audit_target in Ht.
  destruct (ev_target event) as [target|]; [|discriminate]. injection Ht as <-. split; [|apply str_slice_len].
  apply str_slice_keeps, re_sub_line; [intros p s x n; now apply secret_keeps|].
  apply re_sub_line; [intros p s x n; now apply authorization_keeps|]. apply replace_in_line.
Qed.

Definition sample_event : AuditEvent :=
  mkAuditEvent "mcp.call" None None None (Some ("read" ++ String "010" "token=abc"))%string (Some 3) None None.
Definition sample_record : db * res unit := Eval vm_compute in record sample_event "ev-1" "t0" empty_db.

Lemma audit_record_is_line_witness :
  exists row, fst sample_record = set_tbl [row] empty_db /\ a_target row = Some "read token=[REDACTED]"%string.
Proof.
  destruct (audit_record_is_line sample_event "ev-1" "t0" empty_db (fst sample_record) (snd sample_record) eq_refl)
    as [[H _]|(row & H & _)]; [now elim H|]. exists row. split; [exact H|].
  assert (E : audit_events (fst sample_record) = [row]) by (rewrite H; reflexivity). vm_compute in E. now injection E as <-.
Defined.
