(* ===== verification/Lifecycles.v ===== *)
(** * Life cycles of sessions and launches

    The abstract specification of the state database's sessions and launches:
    each row is a small state machine that is created in an initial state and
    only moves along the edges below; rows are never deleted.  PipelineProofs
    shows that the pipeline implements it. *)
From stdpp Require Import relations.
From S2P Require Export StateStore Triples.

(** ** The abstract machines *)
Inductive session_edge : string -> string -> Prop :=
| edge_ready : session_edge "starting" "ready"
| edge_start_failed : session_edge "starting" "failed"
| edge_start_stopping : session_edge "starting" "stopping"
| edge_ready_stopping : session_edge "ready" "stopping"
| edge_ready_failed : session_edge "ready" "failed"
| edge_stopped : session_edge "stopping" "stopped"
| edge_stop_failed : session_edge "stopping" "failed".

Inductive launch_edge : string -> string -> Prop :=
| edge_authorized : launch_edge "pending_trust" "authorized"
| edge_denied : launch_edge "pending_trust" "failed"
| edge_admitted : launch_edge "authorized" "starting"
| edge_rejected : launch_edge "authorized" "failed"
| edge_progress : launch_edge "starting" "starting"
| edge_launch_ready : launch_edge "starting" "ready"
| edge_launch_failed : launch_edge "starting" "failed"
| edge_start_stopped : launch_edge "starting" "stopped"
| edge_launch_stopped : launch_edge "ready" "stopped".

(** What a session never changes. *)
Definition session_identity (s : SessionRecord) : uuid * uuid * string * Z * bool * string * string * string :=
  (s_id s, s_workspace_id s, s_runtime_id s, s_host_port s, s_gpu_enabled s, s_agent_mode s, s_notebook_url s,
   s_started_at s).

Definition session_step (s s' : SessionRecord) : Prop :=
  session_identity s' = session_identity s /\ session_edge (s_state s) (s_state s').
Definition session_init (s : SessionRecord) : Prop :=
  s_state s = "starting"%string /\ s_sandbox_verified s = false /\ s_network_verified s = false /\
  s_collaboration_ready s = false /\ s_stopped_at s = None.

(** What a launch never changes. *)
Definition launch_identity (l : launch_row) : string * string * option Z * option string * option string * string * string * bool :=
  (l_id l, l_request_digest l, l_repository_id l, l_commit_sha l, l_notebook_path l, l_gpu l, l_agent_mode l,
   l_trust_covered l).

Definition launch_step (l l' : launch_row) : Prop :=
  launch_identity l' = launch_identity l /\ launch_edge (l_state l) (l_state l').
Definition launch_init (l : launch_row) : Prop := str_mem (l_state l) ["pending_trust"; "authorized"]%string = true.

(** ** A table of machines: its rows step, new rows come from an initial state *)
Section Evolves.
Context {R : Type} (step : R -> R -> Prop) (init : R -> Prop).

Definition evolves (t t' : list R) : Prop :=
  exists t1 added, t' = t1 ++ added /\ Forall2 (rtc step) t t1 /\
    Forall (fun r => exists r0, init r0 /\ rtc step r0 r) added.

Lemma evolves_refl t : evolves t t.
Proof.
  exists t, []. rewrite app_nil_r. split_and!; [reflexivity| |constructor].
  induction t; constructor; auto. apply rtc_refl.
Qed.

Lemma Forall2_rtc_trans (a b c : list R) : Forall2 (rtc step) a b -> Forall2 (rtc step) b c -> Forall2 (rtc step) a c.
Proof. intros H. revert c. induction H; intros c Hc; inversion Hc; subst; constructor; eauto. etrans; eauto. Qed.

Lemma evolves_trans a b c : evolves a b -> evolves b c -> evolves a c.
Proof.
  intros (b1 & new1 & -> & Hab & Hn1) (c1 & new2 & -> & Hbc & Hn2).
  apply Forall2_app_inv_l in Hbc as (c1a & c1b & Hba & Hbb & ->).
  exists c1a, (c1b ++ new2). split; [now rewrite app_assoc|]. split; [eapply Forall2_rtc_trans; eauto|].
  apply Forall_app. split; [|exact Hn2]. clear Hn2 Hab Hba. revert c1b Hbb. induction Hn1 as [|r new1 (r0 & Hi & Hr) _ IH];
    intros c1b Hbb; inversion Hbb; subst; constructor; [|now apply IH].
  exists r0. split; [exact Hi|]. etrans; eauto.
Qed.

Lemma evolves_map (f : R -> R) t : (forall r, In r t -> f r = r \/ step r (f r)) -> evolves t (map f t).
Proof.
  intros H. exists (map f t), []. rewrite app_nil_r. split_and!; [reflexivity| |constructor].
  induction t as [|r t IH]; constructor.
  - destruct (H r (or_introl eq_refl)) as [->|Hs]; [apply rtc_refl|now apply rtc_once].
  - apply IH. intros x Hx. apply H. now right.
Qed.

Lemma evolves_add t r : init r -> evolves t (t ++ [r]).
Proof.
  intros Hi. exists t, [r]. split; [reflexivity|]. split.
  - induction t; constructor; auto. apply rtc_refl.
  - constructor; [|constructor]. exists r. split; [exact Hi|apply rtc_refl].
Qed.

(** A row stays, possibly further on. *)
Lemma evolves_In t t' r : evolves t t' -> In r t -> exists r', In r' t' /\ rtc step r r'.
Proof.
  intros (t1 & added & -> & H & _) Hr. induction H as [|x y t t1 Hxy H IH]; [easy|]. destruct Hr as [->|Hr].
  - exists y. split; [now left|exact Hxy].
  - destruct (IH Hr) as (r' & Hin & Hs). exists r'. split; [now right|exact Hs].
Qed.

(** A property that initial rows have and steps keep. *)
Lemma evolves_Forall (P : R -> Prop) t t' :
  (forall r, init r -> P r) -> (forall r r', P r -> step r r' -> P r') -> evolves t t' -> Forall P t -> Forall P t'.
Proof.
  intros Hi Hs (t1 & added & -> & H & Hadd) Ht.
  assert (Hrtc : forall r r', rtc step r r' -> P r -> P r') by (induction 1; eauto).
  apply Forall_app. split.
  - clear Hadd. induction H; inversion Ht; subst; constructor; eauto.
  - eapply Forall_impl; [exact Hadd|]. intros r (r0 & H0 & Hr). eauto.
Qed.
End Evolves.

Lemma evolves_mono {R} (step : R -> R -> Prop) (init init' : R -> Prop) t t' :
  (forall r, init r -> init' r) -> evolves step init t t' -> evolves step init' t t'.
Proof.
  intros Hi (t1 & added & -> & H & Hadd). exists t1, added. split_and!; [reflexivity|exact H|].
  eapply Forall_impl; [exact Hadd|]. intros r (r0 & H0 & Hr). eauto.
Qed.

(** ** The database: both tables evolve, sessions with a given kind of start *)
Section DbEvolves.
Context (named : SessionRecord -> Prop).

Definition named_init (s : SessionRecord) : Prop := session_init s /\ named s.

Definition db_evolves (d d' : db) : Prop :=
  evolves session_step named_init (notebook_sessions d) (notebook_sessions d') /\
  evolves launch_step launch_init (launches d) (launches d').

#[export] Instance db_evolves_preorder : PreOrder db_evolves.
Proof.
  split.
  - intros d. split; apply evolves_refl.
  - intros a b c [H1 H2] [H3 H4]. split; eapply evolves_trans; eauto.
Qed.

Lemma same_tables_evolve d d' :
  notebook_sessions d' = notebook_sessions d -> launches d' = launches d -> db_evolves d d'.
Proof. intros H1 H2. unfold db_evolves. rewrite H1, H2. split; apply evolves_refl. Qed.

Lemma launch_update_evolves p ns t w s m e d :
  (forall l, p l = true -> launch_edge (l_state l) ns) ->
  evolves launch_step launch_init (launches d) (map (fun l => if p l then launch_set_state ns t w s m e l else l) (launches d)).
Proof. intros Hp. apply evolves_map. intros l _. destruct (p l) eqn:E; [right|now left]. split; [reflexivity|]. exact (Hp l E). Qed.

Lemma str_mem_Forall (P : string -> Prop) x l : Forall P l -> str_mem x l = true -> P x.
Proof. intros H Hx. apply str_mem_In in Hx. rewrite Forall_forall in H. apply H. now apply list_elem_of_In. Qed.

Lemma update_launch_state_evolves i ex ns t w s m e d :
  Forall (fun x => launch_edge x ns) ex -> db_evolves d (fst (update_launch_state i ex ns t w s m e d)).
Proof.
  intros Hex. unfold update_launch_state. destruct ex as [|x ex]; [reflexivity|]. unfold transaction, tx_bind, tx_update.
  destruct (sql_update _ _ (tbl d)) as [[t' n]|] eqn:Eu; [|reflexivity].
  unfold tx_raise_if. destruct (negb (n =? 1)%Z); [reflexivity|]. cbn. apply sql_update_spec in Eu as (-> & _ & _).
  split; [apply evolves_refl|]. apply launch_update_evolves. intros l [_ Hm]%andb_true_iff. exact (str_mem_Forall _ _ _ Hex Hm).
Qed.

Lemma fail_launches_evolves i t m e d : db_evolves d (fst (fail_launches_for_session i t m e d)).
Proof.
  unfold fail_launches_for_session, transaction, tx_update. destruct (sql_update _ _ (tbl d)) as [[t' n]|] eqn:Eu; [|reflexivity].
  apply sql_update_spec in Eu as (-> & _ & _). split; [apply evolves_refl|].
  apply launch_update_evolves. intros l [_ Hm]%andb_true_iff. apply String.eqb_eq in Hm. rewrite Hm. constructor.
Qed.

Lemma create_workspace_evolves w d : db_evolves d (fst (create_workspace w d)).
Proof.
  unfold create_workspace, transaction, tx_bind, tx_insert, tx_fetchone. destruct (tbl_fk d w); [|reflexivity].
  destruct (sql_insert w (tbl d)) as [t|]; [|reflexivity].
  destruct (fetchone _ (tbl (set_tbl t d))); apply same_tables_evolve; reflexivity.
Qed.

Lemma release_leases_evolves i t d : db_evolves d (fst (release_session_leases i t d)).
Proof.
  unfold release_session_leases, transaction, tx_bind, tx_update. destruct (sql_update _ _ (tbl d)) as [[t' n]|]; [|reflexivity].
  apply same_tables_evolve; reflexivity.
Qed.

Lemma claim_session_evolves i w r p g a u t b d :
  named (mkSession i w r p g a false false false "starting" u t None) ->
  db_evolves d (fst (claim_session i w r p g a u t b d)).
Proof.
  intros Hn. unfold claim_session, transaction, tx_bind, tx_fetchone, tx_catch_integrity, tx_insert.
  destruct (fetchone _ (tbl d)) as [s|]; [destruct b; reflexivity|].
  destruct (tbl_fk d _); [|reflexivity]. destruct (sql_insert _ (tbl d)) as [t'|] eqn:Ei; [|reflexivity].
  apply sql_insert_spec in Ei as (-> & _ & _).
  destruct (fetchone _ _); [|reflexivity]. cbn. split; [|apply evolves_refl].
  apply evolves_add. split; [|exact Hn]. repeat split.
Qed.

Lemma transition_session_evolves i ex ns st a b c d :
  Forall (fun x => session_edge x ns) ex -> db_evolves d (fst (transition_session i ex ns st a b c d)).
Proof.
  intros Hex. unfold transition_session. destruct ex as [|x ex]; [reflexivity|]. unfold transaction, tx_bind, tx_update, tx_fetchone.
  destruct (sql_update _ _ (tbl d)) as [[t' n]|] eqn:Eu; [|reflexivity].
  unfold tx_raise_if. destruct (negb (n =? 1)%Z); [reflexivity|]. cbn [tx_ret]. destruct (fetchone _ _); [|reflexivity].
  apply sql_update_spec in Eu as (-> & _ & _). split; [|apply evolves_refl]. cbn.
  apply evolves_map. intros r _. match goal with |- context [if ?p then _ else _] => destruct p eqn:E end; [right|now left].
  apply andb_true_iff in E as [_ Hm]. split; [reflexivity|]. exact (str_mem_Forall _ _ _ Hex Hm).
Qed.

(** The sessions stay named. *)
Lemma evolves_named d d' :
  (forall s s', session_identity s' = session_identity s -> named s -> named s') ->
  db_evolves d d' -> Forall named (notebook_sessions d) -> Forall named (notebook_sessions d').
Proof.
  intros Hid [H _]. apply (evolves_Forall session_step named_init); [|clear H|exact H].
  - intros r [_ Hn]. exact Hn.
  - intros r r' Hr [Hi _]. eauto.
Qed.
End DbEvolves.

(** A session that has ended stays as it is. *)
Lemma ended_is_final s s' : str_mem (s_state s) ["stopped"; "failed"]%string = true -> rtc session_step s s' -> s' = s.
Proof.
  intros He H. destruct H as [|s s1 s' [_ Hs] _]; [reflexivity|]. exfalso.
  inversion Hs as [E1 E2|E1 E2|E1 E2|E1 E2|E1 E2|E1 E2|E1 E2]; rewrite <- E1 in He; discriminate He.
Qed.
