(* ===== verification/Mcp.v ===== *)
(** * The MCP bridge (src/notebook_launcher/mcp.py)

    [SemanticMcpAdapter] checks the capability, the attachment and the lease of
    every call and passes it to the backends; [run_stdio_bridge] serves
    newline-delimited JSON-RPC over it.  The backends and the validators are
    protocols in the source: here an environment that answers each call from
    the calls made so far. *)
From S2P Require Export Leases LaunchAuth Bounded PosixPath.

(** ** The calls on the protocols *)
Inductive mcp_call :=
| ValidateAttachment (session_id : uuid)
| ValidateLease (session_id lease_id : uuid)
| NbInspect (path : string)
| NbReadCell (path cell_id : string)
| NbMutate (path method : string) (params : list (string * json)) (expected_version : string)
| NbMove (path destination expected_version : string)
| NbExecute (path method : string) (params : list (string * json))
| NbCancel (operation_id : string)
| NbReadOutput (path : string) (request : list (string * json))
| NbRestart (path : string)
| WsRead (path : string)
| WsWrite (path data : string)
| WsMove (source destination : string)
| WsDelete (path : string)
| WsList (path : string) (limit : Z).

Definition McpCalls : Type := list mcp_call.

(** The validators, the [NotebookBackend] and the [WorkspaceBackend]. *)
Record Backends := mkBackends {
  on_unit : McpCalls -> mcp_call -> res unit;
  on_json : McpCalls -> mcp_call -> res json;
  on_text : McpCalls -> mcp_call -> res string;
  on_value : McpCalls -> mcp_call -> res value }.

(** What the adapter is given; [_active_notebook_path] is part of its state. *)
Record SemanticMcpAdapter := mkAdapter {
  ad_mode : AgentMode;
  ad_session_id : option uuid;
  ad_lease_id : option uuid;
  ad_has_lease_validator : bool;
  ad_has_attachment_validator : bool;
  ad_output_limit : Z }.

Record McpState := mkMcpState {
  mcp_calls : McpCalls;
  active_path : string;
  written : list string }.

Definition with_calls (h : McpCalls) (s : McpState) : McpState := mkMcpState h (active_path s) (written s).
Definition with_path (p : string) (s : McpState) : McpState := mkMcpState (mcp_calls s) p (written s).
Definition with_output (line : string) (s : McpState) : McpState :=
  mkMcpState (mcp_calls s) (active_path s) (written s ++ [line]).

Definition adapter_methods (a : SemanticMcpAdapter) : list string :=
  capability_methods (capabilities_for_mode (ad_mode a)).

(** [SemanticMcpAdapter.__init__] *)
Definition SemanticMcpAdapter_init (a : SemanticMcpAdapter) (active_notebook_path : string)
  : res (SemanticMcpAdapter * McpState) :=
  let! _ := raise_if (ad_output_limit a <? minimum_mcp_output_bytes (adapter_methods a))
    (ValueError "output_limit is too small for tools/list") in
  let! path := normalize_workspace_path active_notebook_path in
  Ok (a, mkMcpState [] path []).

Section Adapter.
Context `{PyFloat} `{PyConversions}.
Context (env : Backends) (a : SemanticMcpAdapter).
(** [repr] of a text, and pydantic's validation of an envelope. *)
Context (py_repr : string -> string) (model_validate : list (string * json) -> res OutputEnvelope).

Definition ask {A} (c : mcp_call) (answer : McpCalls -> mcp_call -> res A) : Eff McpState A := fun s =>
  (with_calls (mcp_calls s ++ [c]) s, answer (mcp_calls s) c).

Definition get_active : Eff McpState string := fun s => (s, Ok (active_path s)).
Definition set_active (p : string) : Eff McpState unit := fun s => (with_path p s, Ok tt).

Definition validate_attachment : Eff McpState unit :=
  if ad_has_attachment_validator a then
    match ad_session_id a with
    | None => eff_raise (LauncherExn (PermissionDenied "MCP attachment has no session identity."))
    | Some s => ask (ValidateAttachment s) (on_unit env)
    end
  else mret tt.

Definition require_write : Eff McpState unit :=
  _ ← validate_attachment;
  if bool_decide (ad_mode a = AgentMode_READONLY) then
    eff_raise (LauncherExn (PermissionDenied "Capability is not available in read-only mode."))
  else match ad_has_lease_validator a, ad_session_id a, ad_lease_id a with
       | true, Some s, Some l => ask (ValidateLease s l) (on_unit env)
       | _, _, _ => eff_raise (LauncherExn (PermissionDenied "A current writable-agent lease is required."))
       end.

Definition assert_not_active (path : string) : Eff McpState unit :=
  active ← get_active;
  eff_lift (assert_not_active_notebook path active).

Definition adapter_inspect_notebook : Eff McpState json :=
  _ ← validate_attachment;
  path ← get_active;
  ask (NbInspect path) (on_json env).

Definition adapter_read_cell (cell_id : string) : Eff McpState json :=
  _ ← validate_attachment;
  path ← get_active;
  ask (NbReadCell path cell_id) (on_json env).

Definition adapter_mutate (method : string) (params : list (string * json)) (expected_version : string)
  : Eff McpState string :=
  _ ← require_write;
  path ← get_active;
  ask (NbMutate path method params expected_version) (on_text env).

Definition adapter_move_notebook (destination expected_version : string) : Eff McpState string :=
  _ ← require_write;
  destination ← eff_lift (normalize_workspace_path destination);
  path ← get_active;
  updated ← ask (NbMove path destination expected_version) (on_text env);
  updated ← eff_lift (normalize_workspace_path updated);
  _ ← set_active updated;
  mret updated.

Definition adapter_execute (method : string) (params : list (string * json)) : Eff McpState OutputEnvelope :=
  _ ← require_write;
  path ← get_active;
  v ← ask (NbExecute path method params) (on_value env);
  eff_lift (bound_output py_str v (ad_output_limit a)).

Definition adapter_cancel (operation_id : string) : Eff McpState json :=
  _ ← require_write;
  ask (NbCancel operation_id) (on_json env).

Definition adapter_read_output (request : list (string * json)) : Eff McpState OutputEnvelope :=
  _ ← validate_attachment;
  path ← get_active;
  v ← ask (NbReadOutput path request) (on_value env);
  eff_lift (bound_output py_str v (ad_output_limit a)).

Definition adapter_restart_kernel : Eff McpState unit :=
  _ ← require_write;
  path ← get_active;
  ask (NbRestart path) (on_unit env).

Definition adapter_read_file (path : string) : Eff McpState string :=
  _ ← require_write;
  path ← eff_lift (normalize_workspace_path path);
  ask (WsRead path) (on_text env).

Definition adapter_write_file (path data : string) : Eff McpState unit :=
  _ ← require_write;
  path ← eff_lift (normalize_workspace_path path);
  _ ← assert_not_active path;
  ask (WsWrite path data) (on_unit env).

Definition adapter_move_file (source destination : string) : Eff McpState unit :=
  _ ← require_write;
  source ← eff_lift (normalize_workspace_path source);
  destination ← eff_lift (normalize_workspace_path destination);
  _ ← assert_not_active source;
  _ ← assert_not_active destination;
  ask (WsMove source destination) (on_unit env).

Definition adapter_delete_file (path : string) : Eff McpState unit :=
  _ ← require_write;
  path ← eff_lift (normalize_workspace_path path);
  _ ← assert_not_active path;
  ask (WsDelete path) (on_unit env).

Definition adapter_list_files (path : string) (limit : Z) : Eff McpState json :=
  _ ← require_write;
  _ ← eff_raise_if ((limit <=? 0) || (1000 <? limit)) (ValueError "limit must be between 1 and 1000");
  path ← eff_lift (normalize_workspace_path path);
  ask (WsList path limit) (on_json env).

(** [str(values[key])] and [str(values.get(key, default))] *)
Definition text_item (key : string) (values : list (string * json)) : Eff McpState string :=
  match obj_get key values with
  | Some v => mret (py_str v)
  | None => eff_raise (KeyError key)
  end.

Definition text_or (key default : string) (values : list (string * json)) : string :=
  match obj_get key values with Some v => py_str v | None => default end.

Definition flag (key : string) : semantic_result := RJson (JObj [(key, JBool true)]).

(** [SemanticMcpAdapter.call]; a bytes value cannot arrive in JSON params. *)
Definition call (method : string) (values : list (string * json)) : Eff McpState semantic_result :=
  if negb (str_mem method (adapter_methods a)) then
    eff_raise (LauncherExn (PermissionDenied ("MCP capability " ++ py_repr method ++ " is not available.")))
  else if String.eqb method "notebook.read" then
    j ← adapter_inspect_notebook; mret (RJson j)
  else if String.eqb method "cell.read" then
    cell ← text_item "cell_id" values;
    j ← adapter_read_cell cell; mret (RJson j)
  else if str_mem method ["cell.insert"; "cell.update"; "cell.delete"]%string then
    expected ← text_item "expected_document_version" values;
    version ← adapter_mutate method values expected;
    mret (RJson (JObj [("document_version"%string, JStr version)]))
  else if String.eqb method "notebook.move" then
    destination ← text_item "destination" values;
    expected ← text_item "expected_document_version" values;
    path ← adapter_move_notebook destination expected;
    mret (RJson (JObj [("notebook_path"%string, JStr path)]))
  else if str_mem method ["cell.execute"; "notebook.execute_all"; "kernel.execute_code"]%string then
    e ← adapter_execute method values; mret (RDump e)
  else if String.eqb method "execution.cancel" then
    op ← text_item "operation_id" values;
    j ← adapter_cancel op; mret (RJson j)
  else if String.eqb method "output.read" then
    e ← adapter_read_output values; mret (RDump e)
  else if String.eqb method "kernel.restart" then
    _ ← adapter_restart_kernel; mret (flag "restarted")
  else if String.eqb method "workspace.file.read" then
    path ← text_item "path" values;
    data ← adapter_read_file path;
    e ← eff_lift (bound_output py_str (VBytes data) (ad_output_limit a));
    mret (RDump e)
  else if String.eqb method "workspace.file.write" then
    path ← text_item "path" values;
    _ ← adapter_write_file path (text_or "content" "" values);
    mret (flag "written")
  else if String.eqb method "workspace.file.move" then
    source ← text_item "source" values;
    destination ← text_item "destination" values;
    _ ← adapter_move_file source destination;
    mret (flag "moved")
  else if String.eqb method "workspace.file.delete" then
    path ← text_item "path" values;
    _ ← adapter_delete_file path;
    mret (flag "deleted")
  else if String.eqb method "workspace.file.list" then
    limit ← eff_lift (match obj_get "limit" values with Some v => py_int v | None => Ok 1000 end);
    j ← adapter_list_files (text_or "path" "." values) limit;
    mret (RJson j)
  else eff_raise (LauncherExn (PermissionDenied ("Unknown MCP capability " ++ py_repr method ++ "."))).

(** ** [run_stdio_bridge] *)

(** [str(exc)] *)
Context (exn_str : exn -> string).

(** [not line.strip()] *)
Definition is_blank (c : ascii) : bool :=
  let n := ord c in ((9 <=? n) && (n <=? 13)) || ((28 <=? n) && (n <=? 32)).
Definition blank_line (line : string) : bool := all_chars is_blank line.

(** Python's truth value of a JSON value. *)
Definition json_truthy (v : json) : bool :=
  match v with
  | JNull => false
  | JBool b => b
  | JInt z => negb (z =? 0)
  | JFloat t => negb (str_mem t ["0.0"; "-0.0"]%string)
  | JStr s => negb (String.eqb s "")
  | JList l => match l with [] => false | _ => true end
  | JObj l => match l with [] => false | _ => true end
  end.

Definition is_null (v : json) : bool := match v with JNull => true | _ => false end.

(** Whether the [try] block already wrote its answer, if any, or leaves a
    response to the code below it. *)
Inductive outcome := Finished (line : option string) | Respond (response : json).

Definition encode (response : json) : Eff McpState string :=
  eff_lift (encode_response_line py_str response (ad_output_limit a)).

Definition emit (response : json) : Eff McpState outcome :=
  line ← encode response; mret (Finished (Some line)).

(** A response that a notification does not get. *)
Definition emit_unless (is_notification : bool) (response : json) : Eff McpState outcome :=
  if is_notification then mret (Finished None) else emit response.

Definition type_error {A} (msg : string) : Eff McpState A := eff_raise (TypeError msg).

(** The branch [tools/call]. *)
Definition tools_call (request : list (string * json)) (id : json) (is_notification : bool)
  : Eff McpState outcome :=
  let params := match obj_get "params" request with
                | Some v => if json_truthy v then v else JObj []
                | None => JObj []
                end in
  match params with
  | JObj fields =>
      match obj_get "name" fields, match obj_get "arguments" fields with Some v => v | None => JObj [] end with
      | Some (JStr name), JObj arguments =>
          response ← eff_try
            (result ← call name arguments;
             mret (inl result))
            (fun e => match e with
                      | LauncherExn le =>
                          Some (mret (inr (bounded_tool_error id (code le) (message le) (ad_output_limit a))))
                      | _ =>
                          if is_RuntimeError e
                          then Some (mret (inr (bounded_tool_error id "backend_error" (exn_str e) (ad_output_limit a))))
                          else None
                      end);
          response ← match response with
                     | inl result => eff_lift (bounded_tool_response py_str model_validate id result (ad_output_limit a))
                     | inr error => mret error
                     end;
          emit_unless is_notification response
      | _, _ => type_error "tools/call requires a name and object arguments"
      end
  | _ => type_error "tools/call params must be an object"
  end.

Definition initialize_result : json :=
  JObj [("protocolVersion", JStr "2025-06-18");
        ("capabilities", JObj [("tools", JObj [("listChanged", JBool false)])]);
        ("serverInfo", JObj [("name", JStr "notebook-launcher"); ("version", JStr "0.1.0")])]%string.

Definition result_of (id result : json) : Eff McpState outcome :=
  mret (Respond (jsonrpc id [("result"%string, result)])).

(** The valid requests, by method. *)
Definition dispatch_method (method : string) (request : list (string * json)) (id : json)
    (is_notification : bool) : Eff McpState outcome :=
  if String.eqb method "notifications/initialized" then mret (Finished None)
  else if String.eqb method "initialize" then result_of id initialize_result
  else if String.eqb method "ping" then result_of id (JObj [])
  else if String.eqb method "tools/list" then
    result_of id (JObj [("tools"%string, tool_descriptors (adapter_methods a))])
  else if String.eqb method "tools/call" then tools_call request id is_notification
  else emit_unless is_notification
         (jsonrpc_error id JSONRPC_METHOD_NOT_FOUND ("Method not found: " ++ method)).

(** A parsed request: its id as sent, whether it has none, and the id that is
    echoed. *)
Definition raw_request_id (request : list (string * json)) : json :=
  match obj_get "id" request with Some v => v | None => JNull end.

Definition notification (parsed : res json) : bool :=
  match parsed with Ok (JObj request) => is_none (obj_get "id" request) | _ => false end.

Definition echoed_id (parsed : res json) : json :=
  match parsed with Ok (JObj request) => safe_request_id (raw_request_id request) | _ => JNull end.

(** The body of the [try] block. *)
Definition serve (parsed : res json) : Eff McpState outcome :=
  match parsed with
  | Err (JSONDecodeError msg) => emit (jsonrpc_error JNull JSONRPC_PARSE_ERROR ("Parse error: " ++ msg))
  | Err e => eff_raise e
  | Ok (JObj request) =>
      let id := echoed_id parsed in
      if negb (notification parsed) && negb (is_null (raw_request_id request)) && is_null id then
        emit (jsonrpc_error JNull JSONRPC_INVALID_REQUEST "Invalid Request: id is invalid or too large")
      else match obj_get "jsonrpc" request, obj_get "method" request with
           | Some (JStr version), Some (JStr method) =>
               if String.eqb version "2.0" then dispatch_method method request id (notification parsed)
               else emit_unless (notification parsed) (jsonrpc_error id JSONRPC_INVALID_REQUEST "Invalid Request")
           | _, _ =>
               emit_unless (notification parsed) (jsonrpc_error id JSONRPC_INVALID_REQUEST "Invalid Request")
           end
  | Ok _ =>
      emit (jsonrpc_error JNull JSONRPC_INVALID_REQUEST "Invalid Request: JSON-RPC request must be an object")
  end.

(** The [except] clauses below it. *)
Definition bridge_handler (id : json) (e : exn) : option (Eff McpState outcome) :=
  match e with
  | LauncherExn le =>
      Some (mret (Respond (jsonrpc_error id JSONRPC_SERVER_ERROR (code le ++ ": " ++ message le))))
  | KeyError _ | TypeError _ | ValueError _ | JSONDecodeError _ =>
      Some (mret (Respond (jsonrpc_error id JSONRPC_INVALID_PARAMS ("Invalid params: " ++ exn_str e))))
  | RuntimeError _ | NetworkPolicyError _ | RuntimePolicyError _ | EnvironmentBuildError _ | JupyterStateError _ =>
      Some (mret (Respond (jsonrpc_error id JSONRPC_INTERNAL_ERROR ("Internal error: " ++ exn_str e))))
  | _ => None
  end.

Definition handle_line (line : string) : Eff McpState (option string) :=
  if blank_line line then mret None
  else
    let parsed := loads line in
    outcome ← eff_try (serve parsed) (bridge_handler (echoed_id parsed));
    match outcome with
    | Finished answer => mret answer
    | Respond response =>
        if notification parsed then mret None
        else line ← encode response; mret (Some line)
    end.

Definition write_line (answer : option string) : Eff McpState unit := fun s =>
  (match answer with Some line => with_output line s | None => s end, Ok tt).

Definition run_stdio_bridge (lines : list string) : Eff McpState Z :=
  _ ← eff_iter (fun line => answer ← handle_line line; write_line answer) lines;
  mret 0.
End Adapter.

(** ** Reading only *)

(** The calls that read the active notebook. *)
Definition reads (path : string) (c : mcp_call) : Prop :=
  c = NbInspect path \/ (exists cell, c = NbReadCell path cell) \/ exists request, c = NbReadOutput path request.

Section ReadOnly.
Context `{PyFloat} `{PyConversions}.
Context (env : Backends) (a : SemanticMcpAdapter).
Context (py_repr : string -> string).

(** The attachment check passed, and what it called. *)
Definition attached (s : McpState) (guard : McpCalls) : Prop :=
  if ad_has_attachment_validator a then
    exists i, ad_session_id a = Some i /\ guard = [ValidateAttachment i]
      /\ on_unit env (mcp_calls s) (ValidateAttachment i) = Ok tt
  else guard = [].

(** A call of the adapter made no calls but the attachment check and then, if
    that passed, one read of the active notebook; it changed nothing else. *)
Definition only_reads (s s' : McpState) : Prop :=
  active_path s' = active_path s /\ written s' = written s /\
  exists new, mcp_calls s' = mcp_calls s ++ new /\
    (new = [] \/ (exists i, ad_session_id a = Some i /\ new = [ValidateAttachment i])
     \/ exists guard c, attached s guard /\ reads (active_path s) c /\ new = guard ++ [c]).

Lemma only_reads_refl s : only_reads s s.
Proof. split; [reflexivity|]. split; [reflexivity|]. exists []. rewrite app_nil_r. auto. Qed.

(** A read behind the attachment check. *)
Lemma guarded_read {A B} (c : string -> mcp_call) (answer : McpCalls -> mcp_call -> res A)
    (k : A -> Eff McpState B) s s' r :
  (forall p, reads p (c p)) -> (forall x t, fst (k x t) = t) ->
  (_ ← validate_attachment env a; path ← get_active; v ← ask (c path) answer; k v) s = (s', r) ->
  only_reads s s'.
Proof.
  intros Hread Hk Hs. unfold validate_attachment in Hs.
  assert (Hdone : forall h guard, attached s guard -> h = mcp_calls s ++ guard ->
            forall s' r, (path ← get_active; v ← ask (c path) answer; k v) (with_calls h s) = (s', r) -> only_reads s s').
  { intros h guard Hg -> t u Ht. unfold mbind, eff_bind, get_active, ask, with_calls in Ht. cbn in Ht.
    assert (Hst : t = mkMcpState ((mcp_calls s ++ guard) ++ [c (active_path s)]) (active_path s) (written s)).
    { destruct (answer _ _) as [x|e]; [|congruence].
      pose proof (Hk x (mkMcpState ((mcp_calls s ++ guard) ++ [c (active_path s)]) (active_path s) (written s))) as He.
      rewrite Ht in He. exact He. }
    subst t. split; [reflexivity|]. split; [reflexivity|]. exists (guard ++ [c (active_path s)]).
    cbn [mcp_calls]. rewrite <- app_assoc. split; [reflexivity|]. right; right. eauto 10. }
  unfold attached in Hdone. destruct (ad_has_attachment_validator a).
  - destruct (ad_session_id a) as [i|] eqn:Hi.
    + unfold mbind at 1, eff_bind at 1, ask at 1 in Hs.
      destruct (on_unit env (mcp_calls s) (ValidateAttachment i)) as [[]|e] eqn:E.
      * eapply Hdone; [|reflexivity|exact Hs]. eauto.
      * injection Hs as <- _. split; [reflexivity|]. split; [reflexivity|].
        exists [ValidateAttachment i]. split; [reflexivity|]. right; left. eauto.
    + injection Hs as <- _. apply only_reads_refl.
  - unfold mbind at 1, eff_bind at 1, mret at 1, eff_ret at 1 in Hs.
    apply (Hdone (mcp_calls s) [] eq_refl) in Hs; [exact Hs|now rewrite app_nil_r].
Qed.

Lemma adapter_methods_readonly : adapter_methods a = READONLY_METHODS.
Proof. unfold adapter_methods. now destruct (ad_mode a). Qed.

Lemma call_refused method values s :
  str_mem method READONLY_METHODS = false ->
  call env a py_repr method values s
  = (s, Err (LauncherExn (PermissionDenied ("MCP capability " ++ py_repr method ++ " is not available.")))).
Proof. intros Hm. unfold call. now rewrite adapter_methods_readonly, Hm. Qed.

Lemma call_reads method values s s' r : call env a py_repr method values s = (s', r) -> only_reads s s'.
Proof.
  destruct (str_mem method READONLY_METHODS) eqn:Hm.
  2:{ rewrite call_refused by exact Hm. intros [= <- _]. apply only_reads_refl. }
  unfold call. rewrite adapter_methods_readonly, Hm. cbn [negb].
  apply str_mem_In in Hm. destruct Hm as [<-|[<-|[<-|[]]]].
  - change (String.eqb "cell.read" "notebook.read") with false.
    change (String.eqb "cell.read" "cell.read") with true. cbv iota. unfold text_item.
    destruct (obj_get "cell_id" values) as [v|]; intros Hs; [|injection Hs as <- _; apply only_reads_refl].
    eapply (guarded_read (fun p => NbReadCell p (py_str v)) (on_json env) (fun j => mret (RJson j)));
      [intros p; unfold reads; eauto|reflexivity|].
    rewrite <- Hs. unfold adapter_read_cell, mbind, eff_bind, mret, eff_ret. cbv beta.
    destruct (validate_attachment env a s) as [t [[]|e]]; reflexivity.
  - change (String.eqb "notebook.read" "notebook.read") with true. cbv iota. intros Hs.
    eapply (guarded_read NbInspect (on_json env) (fun j => mret (RJson j)));
      [intros p; unfold reads; eauto|reflexivity|].
    rewrite <- Hs. unfold adapter_inspect_notebook, mbind, eff_bind, mret, eff_ret. cbv beta.
    destruct (validate_attachment env a s) as [t [[]|e]]; reflexivity.
  - cbv beta iota delta [String.eqb str_mem existsb orb]. cbn. intros Hs.
    eapply (guarded_read (fun p => NbReadOutput p values) (on_value env)
             (fun v => e ← eff_lift (bound_output py_str v (ad_output_limit a)); mret (RDump e)));
      [intros p; unfold reads; eauto| |].
    { intros x t. unfold mbind, eff_bind, eff_lift. now destruct (bound_output _ _ _). }
    rewrite <- Hs. unfold adapter_read_output, mbind, eff_bind, mret, eff_ret. cbv beta.
    destruct (validate_attachment env a s) as [t [[]|e]]; [|reflexivity].
    unfold get_active, ask. destruct (on_value env _ _); [|reflexivity].
    unfold eff_lift. now destruct (bound_output _ _ _).
Qed.

(** The bridge only reads the active notebook.  In either mode a tool call
    makes no call on the backends except, after the attachment check (when
    there is one) has passed, a single read of the active notebook: its
    inspection, a cell or an output.  The active path does not change.  Every
    other tool, writing ones included, is refused before any call is made. *)
Theorem bridge_reads_only method values s :
  only_reads s (fst (call env a py_repr method values s))
  /\ (str_mem method READONLY_METHODS = false ->
      fst (call env a py_repr method values s) = s
      /\ exists msg, snd (call env a py_repr method values s) = Err (LauncherExn (PermissionDenied msg))).
Proof.
  split.
  - destruct (call env a py_repr method values s) as [s' r] eqn:E. exact (call_reads _ _ _ _ _ E).
  - intros Hm. rewrite call_refused by exact Hm. eauto.
Qed.
End ReadOnly.

(** ** One answer per request *)

(** The exceptions that the bridge turns into responses. *)
Definition caught (e : exn) : bool :=
  match e with
  | LauncherExn _ | KeyError _ | TypeError _ | ValueError _ | JSONDecodeError _
  | RuntimeError _ | NetworkPolicyError _ | RuntimePolicyError _ | EnvironmentBuildError _ | JupyterStateError _ => true
  | _ => false
  end.

(** Code that writes no output and whose result, or exception, satisfies [P]. *)
Definition yields {A} (m : Eff McpState A) (P : A -> Prop) (Q : exn -> Prop) : Prop :=
  forall s, exists s' r, m s = (s', r) /\ written s' = written s
    /\ match r with Ok x => P x | Err e => Q e end.

Lemma yields_ret {A} (x : A) (P : A -> Prop) Q : P x -> yields (mret x) P Q.
Proof. intros Hx s. exists s, (Ok x). auto. Qed.

Lemma yields_raise {A} e (P : A -> Prop) (Q : exn -> Prop) : Q e -> yields (eff_raise e) P Q.
Proof. intros He s. exists s, (Err e). auto. Qed.

Lemma yields_lift {A} (r : res A) (P : A -> Prop) (Q : exn -> Prop) :
  match r with Ok x => P x | Err e => Q e end -> yields (eff_lift r) P Q.
Proof. intros Hr s. exists s, r. auto. Qed.

Lemma yields_bind {A B} (m : Eff McpState A) (k : A -> Eff McpState B) P R Q :
  yields m P Q -> (forall x, P x -> yields (k x) R Q) -> yields (m ≫= k) R Q.
Proof.
  intros Hm Hk s. destruct (Hm s) as (s1 & r & E & Hw & Hr).
  unfold mbind, eff_bind. rewrite E. destruct r as [x|e].
  - destruct (Hk x Hr s1) as (s2 & r2 & E2 & Hw2 & Hr2). exists s2, r2. rewrite E2. split; [reflexivity|].
    split; [congruence|exact Hr2].
  - exists s1, (Err e). auto.
Qed.

(** [try]: the handler takes every exception that can arrive. *)
Lemma yields_try {A} (m : Eff McpState A) h (P : A -> Prop) (Q Q' : exn -> Prop) :
  yields m P Q ->
  (forall e, Q e -> match h e with Some k => yields k P Q' | None => Q' e end) ->
  yields (eff_try m h) P Q'.
Proof.
  intros Hm Hh s. destruct (Hm s) as (s1 & r & E & Hw & Hr). unfold eff_try. rewrite E.
  destruct r as [x|e]; [exists s1, (Ok x); auto|]. specialize (Hh e Hr). destruct (h e) as [k|].
  - destruct (Hh s1) as (s2 & r2 & E2 & Hw2 & Hr2). exists s2, r2. rewrite E2. split; [reflexivity|].
    split; [congruence|exact Hr2].
  - exists s1, (Err e). auto.
Qed.

Lemma yields_weaken {A} (m : Eff McpState A) (P P' : A -> Prop) (Q Q' : exn -> Prop) :
  yields m P Q -> (forall x, P x -> P' x) -> (forall e, Q e -> Q' e) -> yields m P' Q'.
Proof.
  intros Hm HP HQ s. destruct (Hm s) as (s1 & r & E & Hw & Hr). exists s1, r.
  split; [exact E|]. split; [exact Hw|]. destruct r; auto.
Qed.

Section Bridge.
Context `{PyFloat} `{PyConversions}.
Context (env : Backends) (a : SemanticMcpAdapter).
Context (py_repr : string -> string) (model_validate : list (string * json) -> res OutputEnvelope).
Context (exn_str : exn -> string).

(** [repr] of a float has no control characters; the protocols and pydantic
    raise the exceptions that the bridge expects; the limit passed
    [SemanticMcpAdapter.__init__]. *)
Hypothesis float_repr_clean :
  forall t, all_chars not_control t = true -> all_chars not_control (float_repr t) = true.
Hypothesis env_caught : forall h c e,
  on_unit env h c = Err e \/ on_json env h c = Err e \/ on_value env h c = Err e -> caught e = true.
Hypothesis validate_caught : forall fields e, model_validate fields = Err e -> caught e = true.
Hypothesis limit_ok : minimum_mcp_output_bytes (adapter_methods a) <= ad_output_limit a.

Definition is_caught (e : exn) : Prop := caught e = true.
Definition anything {A} (x : A) : Prop := True.

Lemma limit_enough : 900 <= ad_output_limit a.
Proof.
  etrans; [|exact limit_ok]. rewrite adapter_methods_readonly. apply Z.leb_le. vm_compute. reflexivity.
Qed.

Lemma value_error_caught e : is_ValueError e = true -> caught e = true.
Proof. destruct e; easy. Qed.

Lemma bound_output_caught v limit e : bound_output py_str v limit = Err e -> caught e = true.
Proof.
  unfold bound_output. intros Hb. apply rbind_err in Hb as [Hb|(u & _ & Hb)].
  - apply raise_if_err in Hb as [_ <-]. reflexivity.
  - destruct v as [bs|j]; [discriminate|]. destruct j; try discriminate;
      apply rbind_err in Hb as [Hb|(w & _ & [=])]; apply value_error_caught; exact (loads_total _ _ Hb).
Qed.

Lemma ask_json_yields c : yields (ask c (on_json env)) anything is_caught.
Proof.
  intros s. eexists _, _. split; [reflexivity|]. split; [reflexivity|].
  destruct (on_json env _ c) eqn:E; [exact I|]. eapply env_caught. eauto.
Qed.

Lemma ask_value_yields c : yields (ask c (on_value env)) anything is_caught.
Proof.
  intros s. eexists _, _. split; [reflexivity|]. split; [reflexivity|].
  destruct (on_value env _ c) eqn:E; [exact I|]. eapply env_caught. eauto.
Qed.

Lemma validate_attachment_yields : yields (validate_attachment env a) anything is_caught.
Proof.
  unfold validate_attachment. destruct (ad_has_attachment_validator a); [|now apply yields_ret].
  destruct (ad_session_id a) as [i|]; [|now apply yields_raise].
  intros s. eexists _, _. split; [reflexivity|]. split; [reflexivity|].
  destruct (on_unit env _ _) eqn:E; [exact I|]. eapply env_caught. eauto.
Qed.

Lemma get_active_yields : yields get_active anything is_caught.
Proof. intros s. exists s, (Ok (active_path s)). split; [reflexivity|]. split; [reflexivity|exact I]. Qed.

Lemma call_yields method values : yields (call env a py_repr method values) anything is_caught.
Proof.
  destruct (str_mem method READONLY_METHODS) eqn:Hm.
  2:{ intros s. rewrite call_refused by exact Hm. exists s. eexists. split; [reflexivity|]. split; reflexivity. }
  unfold call. rewrite adapter_methods_readonly, Hm. cbn [negb].
  apply str_mem_In in Hm. destruct Hm as [<-|[<-|[<-|[]]]].
  - change (String.eqb "cell.read" "notebook.read") with false.
    change (String.eqb "cell.read" "cell.read") with true. cbv iota.
    apply (yields_bind _ _ anything); [unfold text_item; destruct (obj_get _ _);
      [now apply yields_ret|now apply yields_raise]|].
    intros cell _. apply (yields_bind _ _ anything); [|intros; now apply yields_ret].
    apply (yields_bind _ _ anything); [apply validate_attachment_yields|]. intros _ _.
    apply (yields_bind _ _ anything); [apply get_active_yields|]. intros p _. apply ask_json_yields.
  - change (String.eqb "notebook.read" "notebook.read") with true. cbv iota.
    apply (yields_bind _ _ anything); [|intros; now apply yields_ret].
    apply (yields_bind _ _ anything); [apply validate_attachment_yields|]. intros _ _.
    apply (yields_bind _ _ anything); [apply get_active_yields|]. intros p _. apply ask_json_yields.
  - cbn. apply (yields_bind _ _ anything); [|intros; now apply yields_ret].
    apply (yields_bind _ _ anything); [apply validate_attachment_yields|]. intros _ _.
    apply (yields_bind _ _ anything); [apply get_active_yields|]. intros p _.
    apply (yields_bind _ _ anything); [apply ask_value_yields|]. intros v _. apply yields_lift.
    destruct (bound_output _ _ _) eqn:E; [exact I|]. exact (bound_output_caught _ _ _ E).
Qed.

(** *** Responses *)
Lemma wire_caught v limit e : wire_output_envelope py_str model_validate v limit = Err e -> caught e = true.
Proof.
  unfold wire_output_envelope, rmap. destruct (original_envelope model_validate v) as [original|] eqn:Ho.
  - intros Hw. apply rbind_err in Hw as [Hw|(o & _ & Hw)].
    + subst original. unfold original_envelope in Ho. destruct v as [[| | | | | |fields]|]; try discriminate.
      destruct (has_keys _ fields); [|discriminate]. injection Ho as Ho. exact (validate_caught _ _ Ho).
    + apply rbind_err in Hw as [Hw|(w & _ & [=])]. exact (bound_output_caught _ _ _ Hw).
  - destruct v as [j|e']; [|discriminate]. intros Hw. apply rbind_err in Hw as [Hw|(w & _ & [=])].
    exact (bound_output_caught _ _ _ Hw).
Qed.

Lemma tool_response_cases id v limit : clean id = true ->
  match bounded_tool_response py_str model_validate id v limit with
  | Ok r => clean r = true
  | Err e => caught e = true
  end.
Proof.
  intros Hid. unfold bounded_tool_response.
  match goal with |- context [bisection ?b ?f ?l ?h] => destruct (bisection b f l h) as [[r|]|e] eqn:Hb end;
    cbn [rbind].
  - apply bisect_built in Hb as [[=]|(n & Hn)]. apply rbind_ok in Hn as (x & _ & [= <-]).
    cbn [clean tool_result jsonrpc forallb snd]. now rewrite Hid.
  - cbn [clean jsonrpc_error jsonrpc forallb snd]. now rewrite Hid.
  - apply bisect_raises in Hb as (n & Hn). apply rbind_err in Hn as [Hn|(x & _ & [=])]. exact (wire_caught _ _ _ Hn).
Qed.

Lemma tool_error_clean id c m limit : clean id = true -> clean (bounded_tool_error id c m limit) = true.
Proof.
  intros Hid. unfold bounded_tool_error.
  match goal with |- context [bisection ?b ?f ?l ?h] => destruct (bisection b f l h) as [[r|]|e] eqn:Hb end;
    try (cbn [clean jsonrpc_error jsonrpc forallb snd]; now rewrite Hid).
  apply bisect_built in Hb as [[=]|(n & Hn)]. injection Hn as <-.
  cbn [clean tool_result jsonrpc forallb snd]. now rewrite Hid.
Qed.

Lemma error_clean id c m : clean id = true -> clean (jsonrpc_error id c m) = true.
Proof. intros Hid. cbn [clean jsonrpc_error jsonrpc forallb snd]. now rewrite Hid. Qed.

(** *** Requests *)

(** A request that is valid but only acknowledges the initialization. *)
Definition acknowledgement (request : list (string * json)) : bool :=
  match obj_get "jsonrpc" request, obj_get "method" request with
  | Some (JStr version), Some (JStr method) =>
      String.eqb version "2.0" && String.eqb method "notifications/initialized"
  | _, _ => false
  end.

Definition unusable_id (parsed : res json) : bool :=
  match parsed with
  | Ok (JObj request) =>
      negb (is_null (raw_request_id request)) && is_null (safe_request_id (raw_request_id request))
  | _ => false
  end.

(** The lines that get an answer: everything but blank lines, requests without
    an id, and the acknowledgement of the initialization. *)
Definition expects_answer (line : string) : bool :=
  negb (blank_line line) &&
  match loads line with
  | Ok (JObj request) =>
      is_some (obj_get "id" request)
      && (unusable_id (loads line) || negb (acknowledgement request))
  | _ => true
  end.

Section Line.
Variable expects : bool.
Variable parsed : res json.

(** An outcome of the [try] block that answers as expected. *)
Definition good_outcome (o : outcome) : Prop :=
  match o with
  | Finished answer => is_some answer = expects /\ forall l, answer = Some l -> framed (ad_output_limit a) l
  | Respond r => clean r = true /\ (notification parsed = false -> expects = true)
                 /\ (notification parsed = true -> expects = false)
  end.

Definition good_exn (e : exn) : Prop :=
  caught e = true /\ (notification parsed = false -> expects = true)
  /\ (notification parsed = true -> expects = false).

Lemma emit_good r : clean r = true -> expects = true ->
  yields (emit a r) good_outcome good_exn.
Proof.
  intros Hc He s. destruct (encode_response_line_framed py_str r _ limit_enough Hc) as (line & Hline & Hf).
  exists s, (Ok (Finished (Some line))). unfold emit, encode, eff_lift, mbind, eff_bind. rewrite Hline.
  split; [reflexivity|]. split; [reflexivity|]. split; [now rewrite He|]. intros l [= <-]. exact Hf.
Qed.

Lemma emit_unless_good n r : clean r = true -> expects = negb n ->
  yields (emit_unless a n r) good_outcome good_exn.
Proof.
  intros Hc He. destruct n; [|now apply emit_good].
  apply yields_ret. split; [now rewrite He|discriminate].
Qed.

Lemma raise_good {A} e (P : A -> Prop) : caught e = true -> expects = negb (notification parsed) ->
  yields (eff_raise e) P good_exn.
Proof.
  intros Hc He. apply yields_raise. split; [exact Hc|]. rewrite He. split; intros ->; reflexivity.
Qed.

Lemma tools_call_good request id : clean id = true -> expects = negb (notification parsed) ->
  yields (tools_call env a py_repr model_validate exn_str request id (notification parsed)) good_outcome good_exn.
Proof.
  intros Hid He. unfold tools_call, type_error.
  match goal with |- context [match ?x with JObj _ => _ | _ => _ end] => destruct x as [| | | | | |fields] end;
    try (now apply raise_good).
  destruct (obj_get "name" fields) as [[| | | |name| |]|]; try (now apply raise_good).
  match goal with |- context [match ?x with JObj _ => _ | _ => _ end] => destruct x as [| | | | | |arguments] end;
    try (now apply raise_good).
  apply (yields_bind _ _ (fun r => match r with inl _ => True | inr e => clean e = true end)).
  - apply (yields_try _ _ _ is_caught).
    + apply (yields_bind _ _ anything); [apply call_yields|]. intros x _. now apply yields_ret.
    + intros e Hcaught.
      assert (Hgood : good_exn e) by (split; [exact Hcaught|]; rewrite He; split; intros ->; reflexivity).
      destruct e; cbn [is_RuntimeError]; first [exact Hgood | apply yields_ret; now apply tool_error_clean].
  - intros r Hr. apply (yields_bind _ _ (fun r => clean r = true)).
    + destruct r as [result|err]; [|now apply yields_ret]. apply yields_lift.
      pose proof (tool_response_cases id result (ad_output_limit a) Hid) as Hc.
      destruct (bounded_tool_response _ _ _ _ _); [exact Hc|].
      split; [exact Hc|]. rewrite He. split; intros ->; reflexivity.
    + intros response Hc. apply emit_unless_good; assumption.
Qed.

Lemma respond_good id result : clean id = true -> clean result = true ->
  expects = negb (notification parsed) ->
  yields (result_of id result) good_outcome good_exn.
Proof.
  intros Hid Hr He. apply yields_ret. split; [cbn [clean jsonrpc forallb snd]; now rewrite Hid, Hr|].
  rewrite He. split; intros ->; reflexivity.
Qed.

Lemma descriptors_clean methods : clean (tool_descriptors methods) = true.
Proof. unfold tool_descriptors. cbn [clean]. rewrite forallb_map. apply forallb_forall. intros m _. reflexivity. Qed.

Lemma dispatch_good method request id : clean id = true ->
  expects = (if String.eqb method "notifications/initialized" then false else negb (notification parsed)) ->
  yields (dispatch_method env a py_repr model_validate exn_str method request id (notification parsed))
    good_outcome good_exn.
Proof.
  intros Hid He. unfold dispatch_method.
  destruct (String.eqb method "notifications/initialized").
  { apply yields_ret. split; [now rewrite He|discriminate]. }
  destruct (String.eqb method "initialize"); [now apply respond_good|].
  destruct (String.eqb method "ping"); [now apply respond_good|].
  destruct (String.eqb method "tools/list").
  { apply respond_good; [exact Hid| |exact He]. cbn [clean forallb snd]. now rewrite descriptors_clean. }
  destruct (String.eqb method "tools/call"); [now apply tools_call_good|].
  apply emit_unless_good; [now apply error_clean|exact He].
Qed.
End Line.

Lemma echoed_clean line : clean (echoed_id (loads line)) = true.
Proof.
  unfold echoed_id, raw_request_id. destruct (loads line) as [[| | | | | |request]|e] eqn:E; try reflexivity.
  apply (loads_clean float_repr_clean) in E. apply safe_request_id_clean.
  destruct (obj_get "id" request) eqn:Eg; [|reflexivity]. exact (obj_get_clean _ _ _ E Eg).
Qed.

Lemma serve_good line : blank_line line = false ->
  yields (serve env a py_repr model_validate exn_str (loads line))
    (good_outcome (expects_answer line) (loads line)) (good_exn (expects_answer line) (loads line)).
Proof.
  intros Hb. unfold expects_answer. rewrite Hb. cbn [negb andb]. pose proof (echoed_clean line) as Hid.
  assert (Herr : forall e, loads line = Err e -> caught e = true)
    by (intros e He; apply value_error_caught, (loads_total _ _ He)).
  destruct (loads line) as [[| | | | | |request]|e] eqn:E; cbn [serve];
    try (now apply emit_good; [reflexivity|]).
  - cbn [unusable_id]. unfold echoed_id in Hid.
    destruct (negb (is_null (raw_request_id request)) && is_null (safe_request_id (raw_request_id request))) eqn:Hu.
    + unfold echoed_id. rewrite <- andb_assoc, Hu, andb_true_r. cbn [orb].
      apply andb_true_iff in Hu as [Hu _]. unfold raw_request_id in Hu. cbn [notification is_none].
      unfold is_none. destruct (obj_get "id" request) eqn:Ei; [|discriminate]. cbn [is_some negb andb].
      now apply emit_good.
    + unfold echoed_id. rewrite <- andb_assoc, Hu, andb_false_r. cbn [orb]. unfold acknowledgement.
      assert (Hinv : forall b : bool, b = true ->
        yields (emit_unless a (notification (Ok (JObj request)))
                  (jsonrpc_error (safe_request_id (raw_request_id request)) JSONRPC_INVALID_REQUEST "Invalid Request"))
          (good_outcome (is_some (obj_get "id" request) && b) (Ok (JObj request)))
          (good_exn (is_some (obj_get "id" request) && b) (Ok (JObj request)))).
      { intros b ->. apply emit_unless_good; [now apply error_clean|].
        cbn [notification]. unfold is_none. now rewrite negb_involutive, andb_true_r. }
      destruct (obj_get "jsonrpc" request) as [[| | | |version| |]|]; try (now apply Hinv).
      destruct (obj_get "method" request) as [[| | | |method| |]|]; try (now apply Hinv).
      destruct (String.eqb version "2.0"); [|now apply Hinv]. cbn [andb].
      apply dispatch_good; [exact Hid|]. cbn [notification]. unfold is_none.
      rewrite negb_involutive. destruct (String.eqb method "notifications/initialized"); cbn [negb];
        [now rewrite andb_false_r|now rewrite andb_true_r].
  - specialize (Herr e eq_refl). destruct e; try discriminate Herr;
      first [now apply emit_good | apply raise_good; [reflexivity|reflexivity]].
Qed.

(** One line of input. *)
Lemma handle_line_yields line :
  yields (handle_line env a py_repr model_validate exn_str line)
    (fun answer => is_some answer = expects_answer line
                   /\ forall l, answer = Some l -> framed (ad_output_limit a) l)
    (fun _ => False).
Proof.
  unfold handle_line. destruct (blank_line line) eqn:Hb.
  { apply yields_ret. unfold expects_answer. rewrite Hb. split; [reflexivity|discriminate]. }
  apply (yields_bind _ _ (good_outcome (expects_answer line) (loads line))).
  - eapply yields_try; [exact (serve_good line Hb)|]. intros e (Hc & Hn & Hy).
    destruct e; try discriminate Hc; cbn [bridge_handler]; apply yields_ret;
      (split; [apply error_clean, echoed_clean|auto]).
  - intros [answer|r] Ho; [now apply yields_ret|]. destruct Ho as (Hc & Hn & Hy).
    destruct (notification (loads line)) eqn:En.
    + apply yields_ret. rewrite (Hy eq_refl). split; [reflexivity|discriminate].
    + intros s. destruct (encode_response_line_framed py_str r _ limit_enough Hc) as (l & Hl & Hf).
      exists s, (Ok (Some l)). unfold encode, eff_lift, mbind, eff_bind. rewrite Hl.
      split; [reflexivity|]. split; [reflexivity|]. rewrite (Hn eq_refl). split; [reflexivity|].
      intros x [= <-]. exact Hf.
Qed.

(** What the bridge wrote for each line. *)
Definition answers_of (lines : list string) (answers : list (option string)) : Prop :=
  Forall2 (fun line answer =>
    is_some answer = expects_answer line
    /\ forall l, answer = Some l -> framed (ad_output_limit a) l) lines answers.

End Bridge.

(** ** Witnesses *)
Definition sample_adapter : SemanticMcpAdapter :=
  mkAdapter AgentMode_READONLY (Some "se-1"%string) None false true 2000.

(** Backends that answer; one cell does not exist. *)
Definition sample_backends : Backends := {|
  on_unit _ _ := Ok tt;
  on_json _ c := match c with
                 | NbReadCell _ cell =>
                     if String.eqb cell "missing" then Err (RuntimeError "no such cell")
                     else Ok (JObj [("source"%string, JStr "x = 1")])
                 | _ => Ok JNull
                 end;
  on_text _ _ := Ok "v1"%string;
  on_value _ _ := Ok (VJson (JStr "output")) |}.

Definition no_envelope (fields : list (string * json)) : res OutputEnvelope := Err (ValueError "invalid envelope").
Definition sample_text (e : exn) : string := "error".
Definition sample_state : McpState := mkMcpState [] "a.ipynb" [].

(** Requests in JSON, from values. *)
Definition request_line (fields : list (string * json)) : string := (dumps (JObj fields) ++ NEWLINE)%string.
Definition sample_call (id : Z) (tool cell : string) : string :=
  request_line [("jsonrpc", JStr "2.0"); ("id", JInt id); ("method", JStr "tools/call");
                ("params", JObj [("name", JStr tool); ("arguments", JObj [("cell_id", JStr cell)])])]%string.

Definition sample_lines : list string :=
  [request_line [("jsonrpc", JStr "2.0"); ("id", JInt 1); ("method", JStr "tools/list")];
   NEWLINE; "not json"; sample_call 2 "cell.read" "c1"; sample_call 3 "cell.read" "missing";
   sample_call 4 "cell.delete" "c1";
   request_line [("jsonrpc", JStr "2.0"); ("method", JStr "notifications/initialized")]]%string.

Example bridge_ex :
  let '(s, r) := run_stdio_bridge sample_backends sample_adapter id no_envelope sample_text sample_lines sample_state in
  r = Ok 0 /\ List.length (written s) = 5%nat
  /\ mcp_calls s = [ValidateAttachment "se-1"; NbReadCell "a.ipynb" "c1";
                    ValidateAttachment "se-1"; NbReadCell "a.ipynb" "missing"].
Proof. vm_compute. auto. Qed.

