(* ===== verification/Datalayer.v ===== *)
(** * The backend of the MCP bridge (JsonLineTransport and DatalayerBackend of src/notebook_launcher/mcp.py)

    [JsonLineTransport] speaks JSON-RPC, one JSON text per line, with a process;
    what the process writes is left open, and every call on it may fail.
    [DatalayerBackend] maps the operations of [NotebookBackend] and
    [WorkspaceBackend] to the tools of such a process; it is written against the
    protocol [SemanticBackendTransport].  Together they are the backends of the
    adapter of Mcp. *)
From S2P Require Export Mcp JsonText Triples.

(** [SemanticBackendTransport]; [W] is the state that it works on. *)
Class SemanticBackendTransport (W : Type) := {
  transport_call : string -> list (string * json) -> Eff W value;
  transport_close : Eff W unit }.

(** [dict(items)] of a list of pairs, whose keys need not be texts. *)
Class PyDict := dict_of_list : list json -> res (list (string * json)).

(** ** Values *)

(** [dict(v)] *)
Definition py_dict `{PyDict} (v : json) : res (list (string * json)) :=
  match v with
  | JObj fields => Ok fields
  | JList items => dict_of_list items
  | JStr s => if String.eqb s "" then Ok []
              else Err (ValueError "dictionary update sequence element #0 has length 1; 2 is required")
  | _ => Err (TypeError "object is not iterable")
  end.

(** [d.pop(key, None)] leaves this. *)
Definition obj_remove (key : string) (fields : list (string * json)) : list (string * json) :=
  List.filter (fun f => negb (String.eqb (fst f) key)) fields.

(** [a or b] of two lookups with [get] *)
Definition first_truthy (keys : list string) (fields : list (string * json)) : option json :=
  List.find json_truthy (omap (fun k => obj_get k fields) keys).

Definition version_of : list (string * json) -> option json := first_truthy ["document_version"; "etag"]%string.

Definition is_text_item (item : json) : option (list (string * json)) :=
  match item with
  | JObj fields => match obj_get "type" fields with Some (JStr "text") => Some fields | _ => None end
  | _ => None
  end.

(** [result["structuredContent"]] with the cache data of the protocol *)
Definition with_meta (result : list (string * json)) (structured : json) : json :=
  match structured with
  | JObj fields =>
      match first_truthy ["_meta"] result, obj_get "meta" result with
      | Some (JObj meta), _ | None, Some (JObj meta) => JObj (obj_set "_mcp_meta" (JObj meta) fields)
      | _, _ => structured
      end
  | _ => structured
  end.

Definition object_at (key : string) (fields : list (string * json)) : option (list (string * json)) :=
  match obj_get key fields with Some (JObj f) => Some f | _ => None end.

Section Values.
Context `{PyFloat} `{PyConversions}.

Definition tool_error_message (result : list (string * json)) : string :=
  match obj_get "content" result with
  | Some (JList content) =>
      let text := str_join " " (map (fun f => match obj_get "text" f with Some v => py_str v | None => "" end)%string
                                  (omap is_text_item content)) in
      if String.eqb text "" then "backend tool call failed" else text
  | _ => "backend tool call failed"
  end.

Definition mcp_result_etag (result : list (string * json)) : option string :=
  match object_at "_mcp_meta" result with
  | Some meta =>
      match object_at "io.modelcontextprotocol/cache" meta with
      | Some cache => match obj_get "etag" cache with
                      | Some v => if json_truthy v then Some (py_str v) else None
                      | None => None
                      end
      | None => None
      end
  | None => None
  end.

(** The result of a tool, from the result of the request. *)
Definition tool_result_value (result : json) : res json :=
  match result with
  | JObj fields =>
      if match obj_get "isError" fields with Some v => json_truthy v | None => false end then
        Err (RuntimeError (tool_error_message fields))
      else
        match obj_get "structuredContent" fields with
        | Some structured => Ok (with_meta fields structured)
        | None =>
            match obj_get "content" fields with
            | Some (JList [item]) =>
                match is_text_item item with
                | Some item =>
                    let text := match obj_get "text" item with Some v => py_str v | None => "" end%string in
                    match loads text with
                    | Err (JSONDecodeError _) => Ok (JStr text)
                    | r => r
                    end
                | None => Ok result
                end
            | _ => Ok result
            end
        end
  | _ => Ok result
  end.
End Values.

(** ** [JsonLineTransport] *)
Inductive rpc_call :=
| SpawnBackend (argv : list string)
| PollBackend
| WriteLine (line : string)
| FlushInput
| ReadLine
| CloseInput
| WaitBackend (seconds : Z)
| TerminateBackend.

Definition RpcTrace : Type := list rpc_call.

(** [rpc_line] is the next line of the output, empty at its end. *)
Record RpcEnv := mkRpcEnv {
  rpc_unit : RpcTrace -> rpc_call -> res unit;
  rpc_ended : RpcTrace -> bool;
  rpc_line : RpcTrace -> res string }.

Record JsonLineTransport := mkTransport { rpc_trace : RpcTrace; request_id : Z }.

(** [response.get("id") == request_id]: numbers are equal whatever their type. *)
Definition same_id (v : option json) (id : Z) : bool :=
  match v with
  | Some (JInt z) => z =? id
  | Some (JBool b) => Z.b2z b =? id
  | Some (JFloat t) => String.eqb t (str_of_int id ++ ".0")
  | _ => false
  end.

Section Transport.
Context `{PyFloat} `{PyConversions}.
(** The process, and how many lines are read for one request. *)
Context (env : RpcEnv) (lines : nat).

Definition rpc {A} (c : rpc_call) (answer : RpcTrace -> res A) : Eff JsonLineTransport A := fun s =>
  (mkTransport (rpc_trace s ++ [c]) (request_id s), answer (rpc_trace s)).
Definition rpc_act (c : rpc_call) : Eff JsonLineTransport unit := rpc c (fun t => rpc_unit env t c).
Definition backend_ended : Eff JsonLineTransport bool := rpc PollBackend (fun t => Ok (rpc_ended env t)).

(** [self._request_id += 1] *)
Definition next_id : Eff JsonLineTransport Z := fun s =>
  (mkTransport (rpc_trace s) (request_id s + 1), Ok (request_id s + 1)).

(** The line of a request. *)
Definition json_request (id : Z) (method : string) (params : list (string * json)) : string :=
  (dumps_ascii (JObj [("jsonrpc", JStr "2.0"); ("id", JInt id); ("method", JStr method); ("params", JObj params)]%string)
    ++ NEWLINE)%string.

(** [while True], until the response with this id. *)
Fixpoint read_response (fuel : nat) (id : Z) : Eff JsonLineTransport (list (string * json)) :=
  match fuel with
  | O => eff_raise Diverges
  | S fuel' =>
      line ← rpc ReadLine (rpc_line env);
      if String.eqb line "" then eff_raise (RuntimeError "MCP backend closed its output")
      else
        response ← eff_lift (loads line);
        match response with
        | JObj fields => if same_id (obj_get "id" fields) id then mret fields else read_response fuel' id
        | _ => eff_raise (AttributeError "object has no attribute 'get'")
        end
  end.

Definition request (method : string) (params : list (string * json)) : Eff JsonLineTransport (list (string * json)) :=
  ended ← backend_ended;
  _ ← eff_raise_if ended (RuntimeError "MCP backend process is not running");
  id ← next_id;
  _ ← rpc_act (WriteLine (json_request id method params));
  _ ← rpc_act FlushInput;
  response ← read_response lines id;
  match obj_get "error" response with
  | Some (JObj error) =>
      eff_raise (RuntimeError match obj_get "message" error with Some v => py_str v | None => "backend request failed" end)
  | Some error => eff_raise (RuntimeError (py_str error))
  | None => mret response
  end.

Definition initialize_params : list (string * json) :=
  [("protocolVersion", JStr "2025-06-18"); ("capabilities", JObj []);
   ("clientInfo", JObj [("name", JStr "notebook-launcher"); ("version", JStr "0.1.0")])]%string.

Definition initialized_line : string :=
  (dumps_ascii (JObj [("jsonrpc", JStr "2.0"); ("method", JStr "notifications/initialized")]%string) ++ NEWLINE)%string.

Definition initialize : Eff JsonLineTransport unit :=
  _ ← request "initialize" initialize_params;
  _ ← rpc_act (WriteLine initialized_line);
  rpc_act FlushInput.

(** [__init__], of a process that was not started yet *)
Definition open_transport (argv : list string) : Eff JsonLineTransport unit :=
  _ ← eff_raise_if (match argv with [] => true | _ => false end) (ValueError "backend argv must be a non-empty sequence");
  _ ← rpc_act (SpawnBackend argv);
  initialize.

(** [_request] with the method and the parameters that [call] makes of a tool. *)
Definition rpc_method (method : string) : string := if has_char "/"%char method then method else "tools/call".
Definition rpc_params (method : string) (params : list (string * json)) : list (string * json) :=
  if String.eqb (rpc_method method) "tools/call" then [("name", JStr method); ("arguments", JObj params)]%string else params.

Definition transport_request (method : string) (params : list (string * json)) : Eff JsonLineTransport value :=
  response ← request (rpc_method method) (rpc_params method params);
  let result := match obj_get "result" response with Some v => v | None => JNull end in
  if String.eqb (rpc_method method) "tools/call" then v ← eff_lift (tool_result_value result); mret (VJson v)
  else mret (VJson result).

Definition close_transport : Eff JsonLineTransport unit :=
  ended ← backend_ended;
  if ended : bool then mret tt
  else
    _ ← rpc_act CloseInput;
    eff_try (rpc_act (WaitBackend 2))
      (fun e => match e with
                | SubprocessError "TimeoutExpired" => Some (_ ← rpc_act TerminateBackend; rpc_act (WaitBackend 2))
                | _ => None
                end).

#[local] Instance json_line_transport : SemanticBackendTransport JsonLineTransport := {
  transport_call := transport_request;
  transport_close := close_transport }.
End Transport.

(** ** [DatalayerBackend] *)
Section Backend.
Context `{PyFloat} `{PyConversions} `{PyDict} {W : Type} `{SemanticBackendTransport W}.

(** [_mapping] *)
Definition mapping (method : string) (params : list (string * json)) : Eff W (list (string * json)) :=
  result ← transport_call method params;
  match result with
  | VJson (JObj fields) => mret fields
  | _ => eff_raise (TypeError (method ++ " backend returned a non-object"))
  end.

(** A result with the version that the protocol gave. *)
Definition with_version (result : list (string * json)) : list (string * json) :=
  match mcp_result_etag result with
  | Some version => if String.eqb version "" then result else obj_set "document_version" (JStr version) result
  | None => result
  end.

Definition dl_activate (notebook_path : string) : Eff W unit :=
  _ ← mapping "use_notebook" [("notebook_name", JStr notebook_path); ("notebook_path", JStr notebook_path); ("mode", JStr "connect")]%string;
  mret tt.

Definition dl_inspect (notebook_path : string) : Eff W (list (string * json)) :=
  result ← mapping "read_notebook" [("notebook_name", JStr notebook_path); ("response_format", JStr "detailed"); ("limit", JInt 0)]%string;
  mret (with_version result).

Definition dl_read_cell (notebook_path cell_id : string) : Eff W (list (string * json)) :=
  result ← mapping "read_cell" [("notebook_name", JStr notebook_path); ("cell_id", JStr cell_id)]%string;
  mret (with_version result).

Definition mutation_tool (method : string) : res string :=
  if String.eqb method "cell.insert" then Ok "insert_cell"%string
  else if String.eqb method "cell.update" then Ok "overwrite_cell_source"%string
  else if String.eqb method "cell.delete" then Ok "delete_cell"%string
  else Err (KeyError method).

Definition mutation_params (notebook_path method : string) (params : list (string * json)) : list (string * json) :=
  let params := obj_set "notebook_name" (JStr notebook_path) (obj_remove "expected_document_version" params) in
  if String.eqb method "cell.delete" then
    match obj_get "cell_id" params with
    | Some cell_id => obj_set "cell_ids_to_delete" (JList [cell_id]) (obj_remove "cell_id" params)
    | None => params
    end
  else params.

Definition stale : exn := LauncherExn (ConflictError "The notebook document version changed; refresh and retry.").

Definition dl_mutate (notebook_path method : string) (params : list (string * json)) (expected_version : string) : Eff W string :=
  current ← dl_inspect notebook_path;
  same ← match version_of current with
         | Some version => eff_lift (compare_digest (py_str version) expected_version)
         | None => mret false
         end;
  _ ← eff_raise_if (negb same) stale;
  backend_method ← eff_lift (mutation_tool method);
  result ← mapping backend_method (mutation_params notebook_path method params);
  updated_version ← match version_of result with
                    | Some version => mret (Some version)
                    | None => refreshed ← dl_inspect notebook_path; mret (version_of refreshed)
                    end;
  match updated_version with
  | Some version => mret (py_str version)
  | None => eff_raise (LauncherExn (ConflictError "The backend did not provide an authoritative version."))
  end.

Definition dl_move (notebook_path destination expected_version : string) : Eff W string :=
  result ← mapping "notebook.move" [("notebook_path", JStr notebook_path); ("destination", JStr destination);
                                    ("expected_document_version", JStr expected_version)]%string;
  mret match obj_get "notebook_path" result with Some v => py_str v | None => destination end.

Definition execution_tool (method : string) : res string :=
  if String.eqb method "cell.execute" then Ok "execute_cell"%string
  else if String.eqb method "notebook.execute_all" then Ok "notebook_run_all_cells"%string
  else if String.eqb method "kernel.execute_code" then Ok "execute_code"%string
  else Err (KeyError method).

Definition dl_execute (notebook_path method : string) (params : list (string * json)) : Eff W value :=
  backend_method ← eff_lift (execution_tool method);
  transport_call backend_method
    (if String.eqb method "kernel.execute_code" then params else obj_set "notebook_name" (JStr notebook_path) params).

Definition dl_cancel (operation_id : string) : Eff W (list (string * json)) :=
  mapping "tasks/cancel" [("task_id", JStr operation_id)]%string.

Definition dl_read_output (notebook_path : string) (request : list (string * json)) : Eff W value :=
  transport_call "read_cell" (obj_set "notebook_name" (JStr notebook_path) request).

Definition call_only (method : string) (params : list (string * json)) : Eff W unit :=
  _ ← transport_call method params; mret tt.

Definition dl_restart_kernel (notebook_path : string) : Eff W unit :=
  call_only "restart_notebook" [("notebook_name", JStr notebook_path)]%string.

(** Bytes; a text stands for its bytes in UTF-8. *)
Definition dl_read_file (path : string) : Eff W string :=
  result ← transport_call "workspace.file.read" [("path", JStr path)]%string;
  match result with
  | VBytes bs => mret bs
  | VJson (JStr s) => mret s
  | VJson (JObj fields) =>
      match obj_get "content" fields with
      | Some v => mret (py_str v)
      | None => eff_raise (TypeError "workspace file backend returned unsupported content")
      end
  | _ => eff_raise (TypeError "workspace file backend returned unsupported content")
  end.

Definition dl_write_file (path data : string) : Eff W unit :=
  _ ← eff_raise_if (negb (utf8_text data)) (ValueError "'utf-8' codec can't decode bytes");
  call_only "workspace.file.write" [("path", JStr path); ("content", JStr data)]%string.

Definition dl_move_file (source destination : string) : Eff W unit :=
  call_only "workspace.file.move" [("source", JStr source); ("destination", JStr destination)]%string.

Definition dl_delete_file (path : string) : Eff W unit :=
  call_only "workspace.file.delete" [("path", JStr path)]%string.

Fixpoint dicts (items : list json) : res (list json) :=
  match items with
  | [] => Ok []
  | item :: items => let! fields := py_dict item in let! rest := dicts items in Ok (JObj fields :: rest)
  end.

Definition dl_list_files (path : string) (limit : Z) : Eff W json :=
  result ← transport_call "workspace.file.list" [("path", JStr path); ("limit", JInt limit)]%string;
  match result with
  | VJson (JList items) => l ← eff_lift (dicts items); mret (JList l)
  | _ => eff_raise (TypeError "workspace listing backend returned a non-list")
  end.

(** ** The backends of the adapter

    [guards] are the validators of the attachment and of the lease.  What the
    process answers depends on the calls made before, which are run again. *)
Context (guards : Backends) (w0 : W).

Definition no_answer {A} : Eff W A := eff_raise AssertionError.

Definition unit_op (c : mcp_call) : Eff W unit :=
  match c with
  | NbRestart path => dl_restart_kernel path
  | WsWrite path data => dl_write_file path data
  | WsMove source destination => dl_move_file source destination
  | WsDelete path => dl_delete_file path
  | _ => no_answer
  end.

Definition json_op (c : mcp_call) : Eff W json :=
  match c with
  | NbInspect path => fields ← dl_inspect path; mret (JObj fields)
  | NbReadCell path cell_id => fields ← dl_read_cell path cell_id; mret (JObj fields)
  | NbCancel operation_id => fields ← dl_cancel operation_id; mret (JObj fields)
  | WsList path limit => dl_list_files path limit
  | _ => no_answer
  end.

Definition text_op (c : mcp_call) : Eff W string :=
  match c with
  | NbMutate path method params expected => dl_mutate path method params expected
  | NbMove path destination expected => dl_move path destination expected
  | WsRead path => dl_read_file path
  | _ => no_answer
  end.

Definition value_op (c : mcp_call) : Eff W value :=
  match c with
  | NbExecute path method params => dl_execute path method params
  | NbReadOutput path request => dl_read_output path request
  | _ => no_answer
  end.

Definition backend_op (c : mcp_call) : Eff W unit :=
  match c with
  | ValidateAttachment _ | ValidateLease _ _ => mret tt
  | NbRestart _ | WsWrite _ _ | WsMove _ _ | WsDelete _ => unit_op c
  | NbInspect _ | NbReadCell _ _ | NbCancel _ | WsList _ _ => _ ← json_op c; mret tt
  | NbMutate _ _ _ _ | NbMove _ _ _ | WsRead _ => _ ← text_op c; mret tt
  | NbExecute _ _ _ | NbReadOutput _ _ => _ ← value_op c; mret tt
  end.

Definition replay (h : McpCalls) : W := fold_left (fun w c => fst (backend_op c w)) h w0.

Definition datalayer_backends : Backends := {|
  on_unit h c := match c with
                 | ValidateAttachment _ | ValidateLease _ _ => on_unit guards h c
                 | _ => snd (unit_op c (replay h))
                 end;
  on_json h c := snd (json_op c (replay h));
  on_text h c := snd (text_op c (replay h));
  on_value h c := snd (value_op c (replay h)) |}.
End Backend.

(** ** A request gets its own response *)
Section Requests.
Context `{PyFloat} `{PyConversions}.
Context (env : RpcEnv) (lines : nat).

(** What a line says to the request [id]: nothing, when it is the response to
    another request or a notification. *)
Definition verdict (id : Z) (line : res string) : option (res (list (string * json))) :=
  match line with
  | Err e => Some (Err e)
  | Ok text =>
      if String.eqb text "" then Some (Err (RuntimeError "MCP backend closed its output"))
      else match loads text with
           | Err e => Some (Err e)
           | Ok (JObj fields) => if same_id (obj_get "id" fields) id then Some (Ok fields) else None
           | Ok _ => Some (Err (AttributeError "object has no attribute 'get'"))
           end
  end.

(** The line that is read after [n] others. *)
Definition line_after (t : RpcTrace) (n : nat) : res string := rpc_line env (t ++ repeat ReadLine n).

Lemma read_step (t : RpcTrace) n : (t ++ [ReadLine]) ++ repeat ReadLine n = t ++ repeat ReadLine (S n).
Proof. now rewrite <- app_assoc. Qed.
Lemma line_after_step t n : line_after (t ++ [ReadLine]) n = line_after t (S n).
Proof. unfold line_after. now rewrite read_step. Qed.

Lemma read_response_step fuel id s :
  read_response env (S fuel) id s
  = let s1 := mkTransport (rpc_trace s ++ [ReadLine]) (request_id s) in
    match verdict id (line_after (rpc_trace s) 0) with
    | Some r => (s1, r)
    | None => read_response env fuel id s1
    end.
Proof.
  cbn [read_response]. unfold mbind at 1, eff_bind at 1, rpc, line_after. cbn [repeat]. rewrite app_nil_r. unfold verdict.
  destruct (rpc_line env (rpc_trace s)) as [text|e]; [|reflexivity]. cbv zeta. destruct (String.eqb text ""); [reflexivity|].
  unfold mbind, eff_bind, eff_lift. destruct (loads text) as [[]|e]; try reflexivity. now destruct (same_id _ id).
Qed.

Lemma read_response_spec fuel id s s' r : read_response env fuel id s = (s', r) ->
  request_id s' = request_id s /\
  exists n, (forall k, (k < n)%nat -> verdict id (line_after (rpc_trace s) k) = None)
    /\ ((n = fuel /\ r = Err Diverges /\ rpc_trace s' = rpc_trace s ++ repeat ReadLine n)
        \/ ((n < fuel)%nat /\ verdict id (line_after (rpc_trace s) n) = Some r /\ rpc_trace s' = rpc_trace s ++ repeat ReadLine (S n))).
Proof.
  revert s. induction fuel as [|fuel IH]; intros s E.
  - injection E as <- <-. split; [reflexivity|]. exists 0%nat. split; [lia|]. left. cbn. now rewrite app_nil_r.
  - rewrite read_response_step in E. cbv zeta in E. destruct (verdict id (line_after (rpc_trace s) 0)) as [v|] eqn:V.
    + injection E as <- <-. split; [reflexivity|]. exists 0%nat. split; [lia|]. right. split_and!; [lia|exact V|reflexivity].
    + apply IH in E as (Hid & n & Hn & Hcases). cbn [rpc_trace request_id] in *. split; [exact Hid|].
      exists (S n). split.
      { intros [|k] Hk; [exact V|]. rewrite <- line_after_step. apply Hn. lia. }
      rewrite <- line_after_step, <- (read_step (rpc_trace s)). destruct Hcases as [(-> & -> & Et)|(Hlt & Hv & Et)]; [left|right].
      * split_and!; [reflexivity|reflexivity|exact Et].
      * split_and!; [lia|exact Hv|]. now rewrite <- (read_step (rpc_trace s) (S n)).
Qed.

(** The trace when a request was sent. *)
Definition sent (s : JsonLineTransport) (method : string) (params : list (string * json)) : RpcTrace :=
  rpc_trace s ++ [PollBackend; WriteLine (json_request (request_id s + 1) method params); FlushInput].

End Requests.

(** ** What the bridge asks of the process *)

(** A read tool about this notebook. *)
Definition asks_read (path : string) (line : string) : Prop :=
  exists id tool arguments, In tool ["read_notebook"; "read_cell"]%string
    /\ obj_get "notebook_name" arguments = Some (JStr path)
    /\ line = json_request id "tools/call" [("name", JStr tool); ("arguments", JObj arguments)]%string.

Definition read_event (path : string) (c : rpc_call) : Prop :=
  match c with
  | WriteLine line => asks_read path line
  | PollBackend | FlushInput | ReadLine => True
  | _ => False
  end.

Lemma obj_get_set_same k v fields : obj_get k (obj_set k v fields) = Some v.
Proof.
  induction fields as [|[k' x] fields IH]; cbn; [now rewrite String.eqb_refl|].
  destruct (String.eqb k' k) eqn:E; cbn; rewrite E; [reflexivity|exact IH].
Qed.

Section Sends.
Context `{PyFloat} `{PyConversions} `{PyDict}.
Context (env : RpcEnv) (lines : nat).
Context (guards : Backends) (w0 : JsonLineTransport).

(** The process was only asked to read. *)
Definition only_asked (path : string) (w w' : JsonLineTransport) : Prop :=
  appends (read_event path) (rpc_trace w) (rpc_trace w').

#[local] Instance only_asked_preorder path : PreOrder (only_asked path).
Proof. split; [intros w; unfold only_asked; reflexivity|intros a b c; unfold only_asked; apply transitivity]. Qed.

Abbreviation asks path := (holds (fun _ : JsonLineTransport => True) (only_asked path)).

Lemma asks_rpc {A} path c (answer : RpcTrace -> res A) : read_event path c -> asks path (rpc c answer).
Proof. intros Hc w w' r _ _ [= <- _]. split_and!; [exact Logic.I|now apply appends_one|auto]. Qed.
#[local] Hint Extern 1 (holds _ (only_asked _) (rpc _ _)) => (apply asks_rpc; first [exact Logic.I|solve [auto]]) : triples.

Lemma asks_next path : asks path next_id.
Proof. intros w w' r _ _ [= <- _]. split_and!; [exact Logic.I|unfold only_asked; reflexivity|auto]. Qed.
#[local] Hint Resolve asks_next : triples.

Lemma asks_response path fuel id : asks path (read_response env fuel id).
Proof. induction fuel as [|fuel IH]; cbn [read_response]; solve_triple. Qed.
#[local] Hint Resolve asks_response : triples.

Lemma asks_request path tool params : In tool ["read_notebook"; "read_cell"]%string ->
  obj_get "notebook_name" params = Some (JStr path) ->
  asks path (transport_request env lines tool params).
Proof.
  intros Ht Hp. assert (Hm : rpc_method tool = "tools/call"%string) by (destruct Ht as [<-|[<-|[]]]; reflexivity).
  unfold transport_request, rpc_params. rewrite Hm. change (String.eqb "tools/call" "tools/call") with true. cbv iota.
  apply holds_bind; [typeclasses eauto| |intros response; solve_triple].
  unfold request, backend_ended, rpc_act.
  assert (Hw : forall id, read_event path (WriteLine (json_request id "tools/call" [("name", JStr tool); ("arguments", JObj params)])))
    by (intros id; exists id, tool, params; auto).
  solve_triple.
Qed.
#[local] Instance process : SemanticBackendTransport JsonLineTransport := json_line_transport env lines.

(** The operations that read send nothing else. *)
Lemma asks_call path tool params : In tool ["read_notebook"; "read_cell"]%string ->
  obj_get "notebook_name" params = Some (JStr path) -> asks path (transport_call tool params).
Proof. apply asks_request. Qed.

Lemma asks_mapping path tool params : In tool ["read_notebook"; "read_cell"]%string ->
  obj_get "notebook_name" params = Some (JStr path) -> asks path (mapping tool params).
Proof.
  intros Ht Hp. unfold mapping. apply holds_bind; [typeclasses eauto|now apply asks_call|intros v; solve_triple].
Qed.

Lemma asks_op path c : reads path c -> asks path (backend_op c).
Proof.
  intros [->|[(cell & ->)|(request & ->)]]; cbn [backend_op json_op value_op];
    (apply holds_bind; [typeclasses eauto| |intros; solve_triple]).
  - unfold dl_inspect. apply holds_bind; [typeclasses eauto| |intros; solve_triple]. apply holds_bind; [typeclasses eauto| |intros; solve_triple]. apply asks_mapping; [now left|reflexivity].
  - unfold dl_read_cell. apply holds_bind; [typeclasses eauto| |intros; solve_triple]. apply holds_bind; [typeclasses eauto| |intros; solve_triple]. apply asks_mapping; [right; now left|reflexivity].
  - unfold dl_read_output. apply asks_call; [right; now left|apply obj_get_set_same].
Qed.

(** A call that the bridge may make. *)
Definition bridge_call_ok (path : string) (c : mcp_call) : Prop := reads path c \/ exists i, c = ValidateAttachment i.

Lemma asks_replay path h : Forall (bridge_call_ok path) h -> only_asked path w0 (replay w0 h).
Proof.
  unfold replay. generalize w0. induction h as [|c h IH]; intros w F; [reflexivity|]. apply Forall_cons in F as [Hc F].
  cbn [fold_left]. etrans; [|now apply IH]. destruct Hc as [Hr|(i & ->)]; [|reflexivity].
  destruct (backend_op c w) as [w' r] eqn:E. cbn [fst]. exact (proj1 (proj2 (asks_op path c Hr _ _ _ Logic.I Logic.I E))).
Qed.
End Sends.

Section BridgeReads.
Context `{PyFloat} `{PyConversions}.
Context (backends : Backends) (a : SemanticMcpAdapter).
Context (py_repr : string -> string) (model_validate : list (string * json) -> res OutputEnvelope) (exn_str : exn -> string).

(** Lines are served with calls that read the active notebook, which stays the same. *)
Definition served (s s' : McpState) : Prop :=
  active_path s' = active_path s /\ appends (bridge_call_ok (active_path s)) (mcp_calls s) (mcp_calls s').

#[local] Instance served_preorder : PreOrder served.
Proof.
  split.
  - intros s. split; [reflexivity|]. reflexivity.
  - intros s1 s2 s3 (P1 & A1) (P2 & A2). rewrite P1 in *. split; [exact P2|etrans; eassumption].
Qed.

Lemma only_reads_served s s' : only_reads backends a s s' -> served s s'.
Proof.
  intros (Hp & _ & new & Hc & Hnew). split; [exact Hp|]. exists new. split; [exact Hc|].
  destruct Hnew as [->|[(i & _ & ->)|(guard & c & Hg & Hr & ->)]].
  - constructor.
  - constructor; [right; eauto|constructor].
  - apply Forall_app. split; [|constructor; [now left|constructor]]. unfold attached in Hg.
    destruct (ad_has_attachment_validator a); [|subst guard; constructor].
    destruct Hg as (i & _ & -> & _). constructor; [right; eauto|constructor].
Qed.

Abbreviation serves := (holds (fun _ : McpState => True) served).

Lemma serves_call method values : serves (call backends a py_repr method values).
Proof. intros s s' r _ _ E. split_and!; [exact Logic.I|apply only_reads_served; eapply call_reads; exact E|auto]. Qed.
Lemma serves_write answer : serves (write_line answer).
Proof. intros s s' r _ _ [= <- _]. split_and!; [exact Logic.I|destruct answer; now split|auto]. Qed.
#[local] Hint Resolve serves_call serves_write : triples.

Lemma serves_line line : serves (handle_line backends a py_repr model_validate exn_str line).
Proof.
  unfold handle_line, serve, dispatch_method, tools_call, bridge_handler, emit_unless, emit, encode, result_of, type_error. solve_triple.
Qed.
#[local] Hint Resolve serves_line : triples.

Lemma serves_bridge ls : serves (run_stdio_bridge backends a py_repr model_validate exn_str ls).
Proof. unfold run_stdio_bridge. solve_triple. Qed.
End BridgeReads.

(** C22: the agent cannot write through the bridge.  Whatever lines the client
    sends, in either mode, the only requests that the bridge writes to the
    backend process are calls of the tools [read_notebook] and [read_cell], each
    about the active notebook, whatever notebook the client named; no text of
    the client reaches the process but as an argument of such a call. *)
Theorem bridge_process_only_reads `{PyFloat} `{PyConversions} `{PyDict} env lines guards w0 a py_repr model_validate exn_str requests path s' r :
  let process := json_line_transport env lines in
  run_stdio_bridge (datalayer_backends guards w0) a py_repr model_validate exn_str requests (mkMcpState [] path []) = (s', r) ->
  active_path s' = path
  /\ exists new, rpc_trace (replay w0 (mcp_calls s')) = rpc_trace w0 ++ new /\ Forall (read_event path) new.
Proof.
  intros process E. destruct (serves_bridge _ _ _ _ _ _ _ _ _ Logic.I Logic.I E) as (_ & (Hp & h & Hc & F) & _).
  split; [exact Hp|]. apply asks_replay. rewrite Hc. exact F.
Qed.

(** ** Optimistic concurrency *)
Lemma obj_get_set_other k k' v fields : k <> k' -> obj_get k (obj_set k' v fields) = obj_get k fields.
Proof.
  intros Hk. induction fields as [|[x y] fields IH]; cbn.
  - destruct (String.eqb_spec k' k) as [->|]; [now destruct Hk|reflexivity].
  - destruct (String.eqb_spec x k') as [->|]; cbn; destruct (String.eqb_spec k' k) as [->|]; try (now destruct Hk); [reflexivity|now rewrite IH..].
Qed.
Lemma obj_get_remove_other k k' fields : k <> k' -> obj_get k (obj_remove k' fields) = obj_get k fields.
Proof.
  intros Hk. induction fields as [|[x y] fields IH]; [reflexivity|]. cbn. destruct (String.eqb_spec x k') as [->|Hx]; cbn.
  - destruct (String.eqb_spec k' k) as [->|]; [now destruct Hk|exact IH].
  - destruct (String.eqb x k); [reflexivity|exact IH].
Qed.
Lemma mutation_names_notebook path method params : obj_get "notebook_name" (mutation_params path method params) = Some (JStr path).
Proof.
  unfold mutation_params. repeat case_match; try apply obj_get_set_same.
  rewrite obj_get_set_other, obj_get_remove_other by easy. apply obj_get_set_same.
Qed.

(** A change is sent only for the version that the client saw.  A mutation
    first reads the notebook.  Unless the version it finds is the expected one
    and the method is known, it raises and the backend has been asked nothing
    else.  Otherwise one tool is called on this notebook, and a version is
    given back only when that call gave a result: its own version, or else that
    of the notebook read again. *)
Theorem mutate_sees_version `{PyConversions} `{PyDict} {W : Type} `{SemanticBackendTransport W} path method params expected w w' r :
  dl_mutate path method params expected w = (w', r) ->
  let '(w1, current) := dl_inspect path w in
  (w' = w1 /\ exists e, r = Err e)
  \/ exists fields version tool,
       current = Ok fields /\ version_of fields = Some version /\ py_str version = expected /\ mutation_tool method = Ok tool
       /\ obj_get "notebook_name" (mutation_params path method params) = Some (JStr path)
       /\ forall updated, r = Ok updated ->
            exists w2 result v, mapping tool (mutation_params path method params) w1 = (w2, Ok result) /\ updated = py_str v
              /\ (version_of result = Some v /\ w' = w2
                  \/ version_of result = None /\ exists again, dl_inspect path w2 = (w', Ok again) /\ version_of again = Some v).
Proof.
  intros E. unfold dl_mutate in E. destruct (dl_inspect path w) as [w1 current] eqn:E1.
  apply bind_inv in E as [(e & E & ->)|(w2 & fields & E2 & E)]; [left; split; [congruence|eauto]|].
  rewrite E1 in E2. injection E2 as -> ->. apply bind_inv in E as [(e & E & ->)|(w3 & same & E3 & E)].
  { left. destruct (version_of fields); [|discriminate]. injection E as <- _. eauto. }
  assert (w3 = w2) as -> by (destruct (version_of fields); now injection E3).
  apply bind_inv in E as [(e & [= <- _] & ->)|(w4 & u & E4 & E)]; [left; eauto|]. injection E4 as -> Hsame.
  apply bind_inv in E as [(e & E & ->)|(w5 & tool & E5 & E)]; [injection E as <- _; left; eauto|]. injection E5 as -> Htool.
  right. assert (exists version, version_of fields = Some version /\ py_str version = expected) as (version & Hv & He).
  { destruct same; [|discriminate]. destruct (version_of fields) as [v|]; [|discriminate]. injection E3 as E3. exists v. split; [reflexivity|].
    unfold compare_digest in E3. destruct (_ && _); [|discriminate]. injection E3 as E3. now apply String.eqb_eq. }
  exists fields, version, tool. split_and!; [reflexivity|exact Hv|exact He|exact Htool|apply mutation_names_notebook|].
  intros updated ->. apply eff_bind_ok in E as (w6 & result & E6 & E). apply eff_bind_ok in E as (w7 & v & E7 & E).
  destruct v as [v|]; [|discriminate]. injection E as -> <-. exists w6, result, v. split; [exact E6|]. split; [reflexivity|].
  destruct (version_of result) as [v'|]; [left|right].
  - injection E7 as -> ->. auto.
  - split; [reflexivity|]. apply eff_bind_ok in E7 as (w8 & again & E8 & [= -> Hv']). eauto.
Qed.

(** ** A process that answers *)
#[export] Instance no_dict : PyDict | 10 := fun _ => Err (TypeError "cannot convert dictionary update sequence element").

Definition written_lines (t : RpcTrace) : list string := omap (fun c => match c with WriteLine line => Some line | _ => None end) t.
Definition lines_read (t : RpcTrace) : nat := List.length (List.filter (fun c => match c with ReadLine => true | _ => false end) t).

(** Before each response it writes a notification, and the response to a
    request of long ago. *)
Definition answer_line (id : Z) (k : nat) : string :=
  let object fields := (dumps_ascii (JObj (("jsonrpc", JStr "2.0") :: fields)%string) ++ NEWLINE)%string in
  match k with
  | O => object [("method", JStr "notifications/progress")]%string
  | 1%nat => object [("id", JInt (id - 1)); ("result", JStr "late")]%string
  | _ => object [("id", JInt id); ("result", JObj [("structuredContent", JObj [("source", JStr "x = 1")]);
                                                   ("_meta", JObj [("io.modelcontextprotocol/cache", JObj [("etag", JStr "v1")])])])]%string
  end.

Definition chatty : RpcEnv := {|
  rpc_unit := fun _ _ => Ok tt;
  rpc_ended := fun _ => false;
  rpc_line := fun t => Ok (answer_line (Z.of_nat (List.length (written_lines t))) (lines_read t mod 3)) |}.

Definition fresh_transport : JsonLineTransport := mkTransport [] 0.
Definition one_request : JsonLineTransport * res (list (string * json)) :=
  request chatty 10 "tools/call" [("name", JStr "read_notebook")]%string fresh_transport.


Definition over_process : Backends := datalayer_backends (H2 := json_line_transport chatty 10) sample_backends fresh_transport.
Definition served_lines : McpState * res Z := run_stdio_bridge over_process sample_adapter id no_envelope sample_text sample_lines sample_state.

Example served_calls :
  mcp_calls (fst served_lines) = [ValidateAttachment "se-1"; NbReadCell "a.ipynb" "c1"; ValidateAttachment "se-1"; NbReadCell "a.ipynb" "missing"]
  /\ written_lines (rpc_trace (replay (H2 := json_line_transport chatty 10) fresh_transport (mcp_calls (fst served_lines))))
     = map (fun n => json_request n "tools/call"
                       [("name", JStr "read_cell");
                        ("arguments", JObj [("notebook_name", JStr "a.ipynb"); ("cell_id", JStr (if Z.eqb n 1 then "c1" else "missing"))])]%string) [1; 2].
Proof. vm_compute. auto. Qed.

Lemma bridge_process_only_reads_witness :
  active_path (fst served_lines) = "a.ipynb"%string
  /\ exists new, rpc_trace (replay (H2 := json_line_transport chatty 10) fresh_transport (mcp_calls (fst served_lines))) = [] ++ new
       /\ Forall (read_event "a.ipynb") new.
Proof.
  refine (bridge_process_only_reads chatty 10 sample_backends fresh_transport sample_adapter id no_envelope sample_text sample_lines
            "a.ipynb" (fst served_lines) (snd served_lines) _).
  unfold served_lines, over_process, sample_state. now destruct (run_stdio_bridge _ _ _ _ _ _ _).
Defined.

Definition mutation_run : JsonLineTransport * res string :=
  dl_mutate (H2 := json_line_transport chatty 10) "a.ipynb" "cell.delete" [("cell_id", JStr "c1")]%string "v1" fresh_transport.

Example mutation_calls :
  snd mutation_run = Ok "v1"%string /\
  written_lines (rpc_trace (fst mutation_run)) =
    [json_request 1 "tools/call" [("name", JStr "read_notebook");
       ("arguments", JObj [("notebook_name", JStr "a.ipynb"); ("response_format", JStr "detailed"); ("limit", JInt 0)])];
     json_request 2 "tools/call" [("name", JStr "delete_cell");
       ("arguments", JObj [("notebook_name", JStr "a.ipynb"); ("cell_ids_to_delete", JList [JStr "c1"])])];
     json_request 3 "tools/call" [("name", JStr "read_notebook");
       ("arguments", JObj [("notebook_name", JStr "a.ipynb"); ("response_format", JStr "detailed"); ("limit", JInt 0)])]]%string.
Proof. vm_compute. auto. Qed.

Lemma mutate_sees_version_witness :
  exists fields version tool,
    snd (dl_inspect (H2 := json_line_transport chatty 10) "a.ipynb" fresh_transport) = Ok fields
    /\ version_of fields = Some version /\ py_str version = "v1"%string /\ mutation_tool "cell.delete" = Ok tool.
Proof.
  assert (E : dl_mutate (H2 := json_line_transport chatty 10) "a.ipynb" "cell.delete" [("cell_id", JStr "c1")]%string "v1" fresh_transport
              = (fst mutation_run, snd mutation_run)) by (unfold mutation_run; now destruct (dl_mutate _ _ _ _ _)).
  pose proof (mutate_sees_version (H1 := json_line_transport chatty 10) "a.ipynb" "cell.delete" [("cell_id", JStr "c1")]%string "v1"
                fresh_transport _ _ E) as Hm.
  destruct (dl_inspect "a.ipynb" fresh_transport) as [w1 current]. destruct Hm as [[_ [e He]]|(fields & version & tool & Hc & Hv & Hx & Ht & _)].
  - exfalso. revert He. vm_compute. discriminate.
  - cbn [snd]. eauto 8.
Defined.

(** A line that is JSON but no object ends the bridge: the [AttributeError] is
    none of the exceptions that [run_stdio_bridge] answers. *)
Definition batching : RpcEnv := {| rpc_unit := fun _ _ => Ok tt; rpc_ended := fun _ => false; rpc_line := fun _ => Ok ("[]" ++ NEWLINE)%string |}.

Example array_line_ends_bridge :
  let process := json_line_transport batching 10 in
  let '(s, r) := run_stdio_bridge (datalayer_backends sample_backends fresh_transport) sample_adapter id no_envelope sample_text
                   [sample_call 2 "cell.read" "c1"] sample_state in
  written s = [] /\ r = Err (AttributeError "object has no attribute 'get'").
Proof. vm_compute. auto. Qed.
