(* ===== verification/Bridge.v ===== *)
(** * The command [notebook-launcher mcp] (src/notebook_launcher/cli.py)

    [resolve_mcp_bridge], which reads the private credentials of a session,
    takes its writable lease and starts the backend process, and
    [McpBridgeContext].  Files, the clock and the backend process answer from
    the calls made so far; other processes work on the database between the
    accesses. *)
From S2P Require Export Triples Mcp Urls.

Record BridgeSettings := mkBridgeSettings {
  bs_runtime_dir : string;
  bs_lease_stale_seconds : Z;
  bs_lease_heartbeat_seconds : Z;
  bs_max_agent_output_bytes : Z;
  bs_executable : string;
  bs_environ : gmap string string }.

Inductive bridge_call :=
| QuerySession (session_id : uuid)
| IsSymlink (path : string)
| ResolvePath (path : string) (strict : bool)
| IsFile (path : string)
| StatSize (path : string)
| StatMode (path : string)
| ReadText (path : string)
| ReadClock
| NewUuid
| AcquireLease (lease_id session_id : uuid) (client_label : option string)
| ReleaseLease (lease_id : uuid)
| StartTransport (argv : list string) (env : gmap string string)
| ActivateNotebook (path : string)
| StartHeartbeat (lease_id : uuid) (interval : Z)
| StopHeartbeat
| CloseTransport
| RunBridge.

Definition BridgeTrace : Type := list bridge_call.

Record BridgeEnv := mkBridgeEnv {
  be_bool : BridgeTrace -> bridge_call -> res bool;
  be_text : BridgeTrace -> bridge_call -> res string;
  be_int : BridgeTrace -> bridge_call -> res Z;
  be_clock : BridgeTrace -> Z;
  be_unit : BridgeTrace -> bridge_call -> res unit;
  be_workers : BridgeTrace -> bridge_call -> db -> db }.

(** [bw_closed] is the field [_closed] of the one context of the process. *)
Record BridgeWorld := mkBridgeWorld { bw_trace : BridgeTrace; bw_db : db; bw_closed : bool }.

(** [McpBridgeContext] *)
Record McpBridgeContext := mkBridgeContext {
  bc_adapter : SemanticMcpAdapter;
  bc_state : McpState;
  bc_lease_id : option uuid;
  bc_heartbeat_interval_seconds : Z }.

(** ** Pure parts *)
Definition not_ready : exn := SystemExit "session_not_ready".

(** [_require_loopback_jupyter_url] *)
Definition truthy_part (o : option string) : bool := match o with Some s => negb (String.eqb s "") | None => false end.

Definition require_loopback_jupyter_url (value : string) : res unit :=
  let! parsed := urlparse value in
  let! _ := raise_if (negb (str_mem (us_scheme parsed) ["http"; "https"]%string)
                      || truthy_part (username parsed) || truthy_part (password parsed)) not_ready in
  raise_if (negb (match hostname parsed with
                  | Some host => String.eqb host "localhost"
                                 || match ip_address host with Some a => is_loopback a | None => false end
                  | None => false
                  end)) not_ready.

Definition transport_argv (executable : string) : list string :=
  [executable; "-m"; "jupyter_mcp_server"; "start"; "--transport"; "stdio"; "--start-new-code-sandbox"; "false";
   "--document-provider"; "jupyter"; "--sandbox-variant"; "jupyter-server"; "--open-notebook-in-ui"; "false"]%string.

Definition transport_keys : list string :=
  ["PATH"; "SystemRoot"; "WINDIR"; "TEMP"; "TMP"; "LANG"; "LC_ALL"]%string.

Definition transport_env (environ : gmap string string) (jupyter_url jupyter_token document : string) : gmap string string :=
  list_to_map [("JUPYTER_URL", jupyter_url); ("JUPYTER_TOKEN", jupyter_token); ("DOCUMENT_ID", document)]%string
  ∪ filter (fun kv => str_mem kv.1 transport_keys = true) environ.

Section Bridge.
Context `{PyFloat} `{PyConversions}.
Context (env : BridgeEnv) (cfg : BridgeSettings).

(** ** Steps: other processes change the database while a call runs *)
Definition bridge_do {A} (c : bridge_call) (answer : BridgeTrace -> db -> db * res A) : Eff BridgeWorld A := fun w =>
  let '(d, r) := answer (bw_trace w) (be_workers env (bw_trace w) c (bw_db w)) in
  (mkBridgeWorld (bw_trace w ++ [c]) d (bw_closed w), r).
Definition bridge_ask {A} (c : bridge_call) (answer : BridgeTrace -> res A) : Eff BridgeWorld A :=
  bridge_do c (fun t d => (d, answer t)).

Definition ask_bool (c : bridge_call) : Eff BridgeWorld bool := bridge_ask c (fun t => be_bool env t c).
Definition ask_text (c : bridge_call) : Eff BridgeWorld string := bridge_ask c (fun t => be_text env t c).
Definition ask_int (c : bridge_call) : Eff BridgeWorld Z := bridge_ask c (fun t => be_int env t c).
Definition act (c : bridge_call) : Eff BridgeWorld unit := bridge_ask c (fun t => be_unit env t c).
Definition set_closed (b : bool) : Eff BridgeWorld unit := fun w => (mkBridgeWorld (bw_trace w) (bw_db w) b, Ok tt).
Definition is_closed : Eff BridgeWorld bool := fun w => (w, Ok (bw_closed w)).
Definition read_clock : Eff BridgeWorld Z := bridge_ask ReadClock (fun t => Ok (be_clock env t)).

Definition release_lease (lease_id : uuid) : Eff BridgeWorld unit :=
  now ← read_clock;
  bridge_do (ReleaseLease lease_id) (fun _ d => Leases.release lease_id (Aware now) d).

Definition release_if (lease_id : option uuid) : Eff BridgeWorld unit :=
  match lease_id with Some l => release_lease l | None => mret tt end.

(** ** [resolve_mcp_bridge] *)

(** The session, its mode and its notebook. *)
Definition session_row (session_id : uuid) (d : db) : option (SessionRecord * WorkspaceRecord) :=
  match get_session session_id d with
  | Some s => match get_workspace (s_workspace_id s) d with Some w => Some (s, w) | None => None end
  | None => None
  end.

Definition resolve_session (session_id : uuid) (requested_mode : option string) : Eff BridgeWorld (AgentMode * string) :=
  row ← bridge_do (QuerySession session_id) (fun _ d => (d, Ok (session_row session_id d)));
  match row with
  | None => eff_raise (SystemExit "unknown_session")
  | Some (s, w) =>
      _ ← eff_raise_if (negb (String.eqb (s_state s) "ready")) not_ready;
      session_mode ← eff_lift (AgentMode_of (s_agent_mode s));
      mode ← eff_lift (if truthy requested_mode then match requested_mode with Some m => AgentMode_of m | None => Ok session_mode end
                       else Ok session_mode);
      _ ← eff_raise_if (bool_decide (session_mode = AgentMode_READONLY) && bool_decide (mode = AgentMode_WRITE))
            (SystemExit "permission_denied");
      mret (mode, w_active_notebook_path w)
  end.

(** The private file, with its checks. *)
Definition read_private (session_id : uuid) : Eff BridgeWorld (string * string) :=
  let private_path := (bs_runtime_dir cfg ++ "/" ++ session_id ++ "/mcp-private.json")%string in
  runtime_root ← ask_text (ResolvePath (bs_runtime_dir cfg) false);
  link ← ask_bool (IsSymlink private_path);
  _ ← eff_raise_if link not_ready;
  resolved ← eff_try (ask_text (ResolvePath private_path true))
               (fun e => match e with FileNotFoundError _ => Some (eff_raise not_ready) | _ => None end);
  _ ← eff_raise_if (negb (is_parent runtime_root resolved)) not_ready;
  file ← ask_bool (IsFile resolved);
  _ ← eff_raise_if (negb file) not_ready;
  size ← ask_int (StatSize resolved);
  _ ← eff_raise_if (64 * 1024 <? size) not_ready;
  mode ← ask_int (StatMode resolved);
  _ ← eff_raise_if (negb (Z.land (Z.land mode 0xfff) 0x3f =? 0)) not_ready;
  text ← ask_text (ReadText resolved);
  private ← eff_lift (loads text);
  url ← eff_lift (py_item "jupyter_url" private);
  token ← eff_lift (py_item "jupyter_token" private);
  mret (py_str url, py_str token).

Definition acquire_lease (session_id : uuid) (client_label : option string) : Eff BridgeWorld uuid :=
  now ← read_clock;
  lease_id ← ask_text NewUuid;
  bridge_do (AcquireLease lease_id session_id client_label)
    (fun _ d => Leases.acquire (bs_lease_stale_seconds cfg) lease_id session_id client_label (Aware now) d).

(** Undo what was started when [m] raises an [Exception]. *)
Definition or_undo {A} (m : Eff BridgeWorld A) (undo : Eff BridgeWorld unit) : Eff BridgeWorld A :=
  eff_try m (fun e => if is_Exception e then Some (_ ← undo; eff_raise e) else None).

Definition bridge_adapter (session_id : uuid) (mode : AgentMode) (lease_id : option uuid) : SemanticMcpAdapter :=
  mkAdapter mode (Some session_id) lease_id true true (bs_max_agent_output_bytes cfg).

(** [McpBridgeContext.__post_init__] *)
Definition post_init (lease_id : option uuid) : Eff BridgeWorld unit :=
  _ ← set_closed false;
  match lease_id with Some l => act (StartHeartbeat l (bs_lease_heartbeat_seconds cfg)) | None => mret tt end.

(** From the lease to the context. *)
Definition attach (session_id : uuid) (mode : AgentMode) (document jupyter_url jupyter_token : string) (lease_id : option uuid)
  : Eff BridgeWorld McpBridgeContext :=
  let environment := transport_env (bs_environ cfg) jupyter_url jupyter_token document in
  _ ← or_undo (act (StartTransport (transport_argv (bs_executable cfg)) environment)) (release_if lease_id);
  _ ← or_undo (act (ActivateNotebook document)) (eff_finally (act CloseTransport) (release_if lease_id));
  built ← eff_lift (SemanticMcpAdapter_init (bridge_adapter session_id mode lease_id) document);
  _ ← post_init lease_id;
  mret (mkBridgeContext (fst built) (snd built) lease_id (bs_lease_heartbeat_seconds cfg)).

Definition resolve_mcp_bridge (session_id : uuid) (requested_mode client_label : option string)
  : Eff BridgeWorld McpBridgeContext :=
  session ← resolve_session session_id requested_mode;
  private ← read_private session_id;
  _ ← eff_lift (require_loopback_jupyter_url (fst private));
  _ ← eff_raise_if (String.eqb (snd private) "" || has_char "000" (snd private)) not_ready;
  _ ← eff_lift (WritableLeaseStore_init (bs_lease_stale_seconds cfg));
  lease_id ← (if bool_decide (fst session = AgentMode_WRITE) then l ← acquire_lease session_id client_label; mret (Some l)
              else mret None);
  attach session_id (fst session) (snd session) (fst private) (snd private) lease_id.

(** ** [McpBridgeContext.close] *)
Definition close (ctx : McpBridgeContext) : Eff BridgeWorld unit :=
  closed ← is_closed;
  if closed : bool then mret tt
  else
    _ ← set_closed true;
    _ ← (if is_some (bc_lease_id ctx) then bridge_ask StopHeartbeat (fun _ => Ok tt) else mret tt);
    eff_finally (act CloseTransport) (release_if (bc_lease_id ctx)).

(** The [mcp] branch of [main]; the loop of the bridge is one call here (see
    [Mcp.run_stdio_bridge]). *)
Definition mcp_command (session_id : uuid) (requested_mode client_label : option string) : Eff BridgeWorld Z :=
  context ← resolve_mcp_bridge session_id requested_mode client_label;
  eff_finally (ask_int RunBridge) (close context).
End Bridge.

(** ** Leases that are taken are given back *)

(** No lease of this id is active. *)
Definition lease_free (lease_id : uuid) (d : db) : Prop :=
  Forall (fun l => ls_id l = lease_id -> lease_active l = false) (writable_agent_leases d).

Lemma release_frees i now d : wf_db d -> lease_free i (fst (Leases.release i (Aware now) d))
  /\ snd (Leases.release i (Aware now) d) = Ok tt.
Proof.
  intros Hd. unfold Leases.release. cbn [lease_now]. unfold transaction, tx_bind, tx_update.
  destruct (lease_update_succeeds (fun l => String.eqb (ls_id l) i && lease_active l) (lease_release (isoformat now)) d)
    as (n & Hu); [exact Hd|apply lease_release_shrinks|]. change (tbl d) with (writable_agent_leases d). rewrite Hu. cbn.
  apply sql_update_spec in Hu as (-> & _).
  split; [|reflexivity]. unfold lease_free. cbn. apply Forall_fmap, Forall_forall. intros l _ Hl. cbn in *.
  destruct (String.eqb (ls_id l) i && lease_active l) eqn:E; [reflexivity|].
  apply andb_false_iff in E as [E|E]; [|exact E]. apply String.eqb_neq in E. now elim E.
Qed.

(** What other processes do keeps the database well-formed. *)
Definition others_ok (env : BridgeEnv) : Prop := forall t c d, wf_db d -> wf_db (be_workers env t c d).

Section BridgeProofs.
Context `{PyFloat} `{PyConversions}.
Context (env : BridgeEnv) (cfg : BridgeSettings) (Hothers : others_ok env).

(** The calls since then. *)
Definition since (w w' : BridgeWorld) (tr : BridgeTrace) : Prop := bw_trace w' = bw_trace w ++ tr.

Definition wf_world (w : BridgeWorld) : Prop := wf_db (bw_db w).
Definition quiet_call (c : bridge_call) : bool := match c with AcquireLease _ _ _ => false | _ => true end.
Definition quiet (w w' : BridgeWorld) : Prop := exists tr, since w w' tr /\ Forall (fun c => quiet_call c = true) tr.

#[local] Instance quiet_preorder : PreOrder quiet.
Proof.
  split.
  - intros w. exists []. split; [unfold since; now rewrite app_nil_r|constructor].
  - intros a b c (t1 & E1 & F1) (t2 & E2 & F2). exists (t1 ++ t2).
    split; [unfold since in *; now rewrite E2, E1, app_assoc|now apply Forall_app].
Qed.

Abbreviation peaceful := (holds wf_world quiet).

Lemma peaceful_do {A} c (answer : BridgeTrace -> db -> db * res A) : quiet_call c = true ->
  (forall t d, wf_db d -> wf_db (fst (answer t d))) -> peaceful (bridge_do env c answer).
Proof.
  intros Hc Ha w w' r Hw _ E. unfold bridge_do in E. destruct (answer _ _) as [d x] eqn:Ed. injection E as <- <-.
  split_and!; [|exists [c]; split; [reflexivity|now constructor]|auto].
  specialize (Ha (bw_trace w) (be_workers env (bw_trace w) c (bw_db w))). rewrite Ed in Ha. now apply Ha, Hothers.
Qed.

Lemma peaceful_ask {A} c (answer : BridgeTrace -> res A) : quiet_call c = true -> peaceful (bridge_ask env c answer).
Proof. intros Hc. apply peaceful_do; [exact Hc|auto]. Qed.

Lemma peaceful_set b : peaceful (set_closed b).
Proof. intros w w' r Hw _ [= <- <-]. split_and!; [exact Hw|exists []; split; [unfold since; now rewrite app_nil_r|constructor]|auto]. Qed.
Lemma peaceful_flag : peaceful is_closed.
Proof. intros w w' r Hw _ [= <- <-]. split_and!; [exact Hw|reflexivity|auto]. Qed.
#[local] Hint Resolve peaceful_set peaceful_flag : triples.

#[local] Hint Extern 1 (holds wf_world quiet (bridge_ask _ _ _)) => (apply peaceful_ask; reflexivity) : triples.
#[local] Hint Extern 1 (holds wf_world quiet (bridge_do _ (ReleaseLease _) _)) =>
  (apply peaceful_do; [reflexivity|intros; now apply release_wf]) : triples.
#[local] Hint Extern 1 (holds wf_world quiet (bridge_do _ (QuerySession _) _)) =>
  (apply peaceful_do; [reflexivity|auto]) : triples.

Ltac bridge_steps := unfold ask_bool, ask_text, ask_int, act, read_clock; solve_triple.

Lemma peaceful_session i m : peaceful (resolve_session env i m).
Proof.
  unfold resolve_session. apply holds_bind; [typeclasses eauto|auto with triples|intros [[s w]|]]; bridge_steps.
Qed.
Lemma peaceful_private i : peaceful (read_private env cfg i).
Proof. unfold read_private. bridge_steps. Qed.
Lemma peaceful_release i : peaceful (release_if env i).
Proof. unfold release_if, release_lease. bridge_steps. Qed.
#[local] Hint Resolve peaceful_release : triples.
Lemma peaceful_attach i m doc u t l : peaceful (attach env cfg i m doc u t l).
Proof. unfold attach, or_undo, post_init. bridge_steps. Qed.
Lemma peaceful_close ctx : peaceful (close env ctx).
Proof. unfold close. bridge_steps. Qed.

(** The lease was given back, as the last thing. *)
Definition released (l : uuid) (w w' : BridgeWorld) : Prop :=
  exists post, since w w' (post ++ [ReadClock; ReleaseLease l]) /\ Forall (fun c => quiet_call c = true) post /\ lease_free l (bw_db w').

Lemma released_after l w w1 w' : quiet w w1 -> released l w1 w' -> released l w w'.
Proof.
  intros (t1 & E1 & F1) (post & E2 & F2 & Hl). exists (t1 ++ post). unfold since in *.
  split_and!; [now rewrite E2, E1, <- !app_assoc|now apply Forall_app|exact Hl].
Qed.

Lemma release_effect l w : wf_world w ->
  released l w (fst (release_lease env l w)) /\ snd (release_lease env l w) = Ok tt.
Proof.
  intros Hw. unfold release_lease, read_clock, bridge_ask, bridge_do, mbind, eff_bind. cbn [bw_trace bw_db].
  set (d := be_workers env _ (ReleaseLease l) _).
  assert (Hd : wf_db d) by (apply Hothers, Hothers, Hw).
  destruct (release_frees l (be_clock env (bw_trace w)) d Hd) as [Hf Hr].
  destruct (Leases.release l (Aware (be_clock env (bw_trace w))) d) as [d' r]. cbn [fst snd] in *. split; [|exact Hr].
  exists []. split_and!; [unfold since; cbn; now rewrite <- app_assoc|constructor|exact Hf].
Qed.

Lemma undo_releases l (m : Eff BridgeWorld unit) w w' e : peaceful m -> wf_world w ->
  or_undo m (release_lease env l) w = (w', Err e) -> released l w w' \/ is_Exception e = false.
Proof.
  intros Hm Hw E. unfold or_undo, eff_try in E. destruct (m w) as [w1 [u|e1]] eqn:E1; [discriminate|].
  destruct (Hm _ _ _ Hw Logic.I E1) as (Hw1 & Hq & _). destruct (is_Exception e1) eqn:Ee; [left|right; congruence].
  destruct (release_effect l w1 Hw1) as [Hr Hok]. unfold mbind, eff_bind in E.
  destruct (release_lease env l w1) as [w2 x]. cbn [fst snd] in Hr, Hok. subst x. injection E as <- _.
  eapply released_after; [exact Hq|exact Hr].
Qed.

(** Closing gives the lease back, whatever the backend process does. *)
Lemma finally_releases {A} l (m : Eff BridgeWorld A) w w' r : peaceful m -> wf_world w ->
  eff_finally m (release_lease env l) w = (w', r) -> released l w w'.
Proof.
  intros Hm Hw E. unfold eff_finally in E. destruct (m w) as [w1 x] eqn:E1.
  destruct (Hm _ _ _ Hw Logic.I E1) as (Hw1 & Hq & _). destruct (release_effect l w1 Hw1) as [Hr Hok].
  destruct (release_lease env l w1) as [w2 y]. cbn [fst snd] in Hr, Hok. subst y. injection E as <- _.
  eapply released_after; [exact Hq|exact Hr].
Qed.

(** The ways in which [attach] keeps the lease although it raises: an exception
    that is no [Exception], an adapter that cannot be made, a thread that does
    not start. *)
Definition unguarded (session_id l : uuid) (w w' : BridgeWorld) (e : exn) : Prop :=
  is_Exception e = false
  \/ (exists mode doc, SemanticMcpAdapter_init (bridge_adapter cfg session_id mode (Some l)) doc = Err e)
  \/ exists post, since w w' (post ++ [StartHeartbeat l (bs_lease_heartbeat_seconds cfg)]).

Lemma or_undo_ok {A} (m : Eff BridgeWorld A) u w w' a : or_undo m u w = (w', Ok a) -> m w = (w', Ok a).
Proof.
  unfold or_undo, eff_try. destruct (m w) as [w1 [x|e]]; [auto|]. destruct (is_Exception e); [|discriminate].
  unfold mbind, eff_bind. destruct (u w1) as [w2 [y|e']]; discriminate.
Qed.

Lemma peaceful_act c : quiet_call c = true -> peaceful (act env c).
Proof. apply peaceful_ask. Qed.

Lemma attach_raises i m doc u t l w w' e : wf_world w -> attach env cfg i m doc u t (Some l) w = (w', Err e) ->
  released l w w' \/ unguarded i l w w' e.
Proof.
  intros Hw E. unfold attach in E. cbn [release_if post_init] in E.
  apply bind_inv in E as [(e1 & E & [= <-])|(w1 & x1 & E1 & E)].
  { destruct (undo_releases l _ _ _ _ (peaceful_act (StartTransport _ _) eq_refl) Hw E) as [H1|H1]; [now left|right; now left]. }
  apply or_undo_ok in E1. destruct (peaceful_act (StartTransport _ _) eq_refl _ _ _ Hw Logic.I E1) as (Hw1 & Hq1 & _).
  apply bind_inv in E as [(e1 & E & [= <-])|(w2 & x2 & E2 & E)].
  { unfold or_undo, eff_try in E. destruct (act env (ActivateNotebook doc) w1) as [w3 [y|e2]] eqn:Ea; [discriminate|].
    destruct (peaceful_act (ActivateNotebook _) eq_refl _ _ _ Hw1 Logic.I Ea) as (Hw3 & Hq3 & _).
    destruct (is_Exception e2) eqn:Ee; [left|right; left; congruence].
    unfold mbind, eff_bind in E. destruct (eff_finally (act env CloseTransport) (release_lease env l) w3) as [w4 y] eqn:Ef.
    apply finally_releases in Ef; [|now apply peaceful_act|exact Hw3].
    assert (w' = w4) as -> by (destruct y; now injection E). eapply released_after; [|exact Ef]. etrans; [exact Hq1|exact Hq3]. }
  apply or_undo_ok in E2. destruct (peaceful_act (ActivateNotebook _) eq_refl _ _ _ Hw1 Logic.I E2) as (Hw2 & Hq2 & _).
  apply eff_lift_bind in E as [(e1 & Hb & -> & [= <-])|(built & _ & E)]; [right; right; left; eauto|].
  apply bind_inv in E as [(e1 & E & [= <-])|(w3 & x3 & _ & E)]; [|discriminate].
  right. right. right. injection E as <- _. destruct Hq1 as (t1 & E1' & _), Hq2 as (t2 & E2' & _).
  exists (t1 ++ t2). unfold since in *. cbn. now rewrite E2', E1', <- !app_assoc.
Qed.

Lemma attach_ok i m doc u t l w w' ctx : attach env cfg i m doc u t l w = (w', Ok ctx) ->
  bc_lease_id ctx = l /\ bw_closed w' = false.
Proof.
  unfold attach. intros E. apply eff_bind_ok in E as (w1 & ? & _ & E). apply eff_bind_ok in E as (w2 & ? & _ & E).
  apply eff_bind_ok in E as (w3 & ? & _ & E). apply eff_bind_ok in E as (w4 & ? & Ep & E). injection E as <- <-.
  split; [reflexivity|]. unfold post_init, set_closed, mbind, eff_bind in Ep. destruct l as [l|]; [|now injection Ep as <- _].
  unfold act, bridge_ask, bridge_do in Ep. now injection Ep as <- _.
Qed.

Lemma acquire_effect i lab w w' r : wf_world w -> acquire_lease env cfg i lab w = (w', r) ->
  wf_world w' /\ ((quiet w w' /\ exists e, r = Err e)
  \/ exists l w1, quiet w w1 /\ since w1 w' [AcquireLease l i lab] /\ forall x, r = Ok x -> x = l).
Proof.
  intros Hw E. unfold acquire_lease in E. apply bind_inv in E as [(e & E & _)|(w1 & t & E1 & E)]; [discriminate|].
  destruct (peaceful_ask ReadClock _ eq_refl _ _ _ Hw Logic.I E1) as (Hw1 & Hq1 & _).
  apply bind_inv in E as [(e & E & ->)|(w2 & l & E2 & E)].
  { destruct (peaceful_ask NewUuid _ eq_refl _ _ _ Hw1 Logic.I E) as (Hw2 & Hq2 & _). split; [exact Hw2|left]. split; [etrans; eauto|eauto]. }
  destruct (peaceful_ask NewUuid _ eq_refl _ _ _ Hw1 Logic.I E2) as (Hw2 & Hq2 & _). unfold bridge_do in E.
  set (d := be_workers env _ (AcquireLease l i lab) _) in E. assert (Hd : wf_db d) by (apply Hothers, Hw2).
  pose proof (acquire_wf (bs_lease_stale_seconds cfg) l i lab (Aware t) d Hd) as Hwf.
  destruct (Leases.acquire _ l i lab (Aware t) d) as [d' x] eqn:Ea. injection E as <- <-. split; [exact Hwf|right].
  exists l, w2. split_and!; [etrans; eauto|reflexivity|]. intros y ->. eapply acquire_returns. exact Ea.
Qed.

(** The phases of [resolve_mcp_bridge]. *)
Lemma resolve_shape i rm lab w w' r : wf_world w -> resolve_mcp_bridge env cfg i rm lab w = (w', r) ->
  (quiet w w' /\ wf_world w' /\ forall ctx, r = Ok ctx -> bc_lease_id ctx = None)
  \/ exists w0 m l w1 w2, resolve_session env i rm w = (w0, Ok m) /\ fst m = AgentMode_WRITE
     /\ quiet w w1 /\ since w1 w2 [AcquireLease l i lab] /\ wf_world w2
     /\ ((w2 = w' /\ exists e, r = Err e) \/ exists u t, attach env cfg i (fst m) (snd m) u t (Some l) w2 = (w', r)).
Proof.
  intros Hw E. unfold resolve_mcp_bridge in E. apply bind_inv in E as [(e & E & ->)|(w0 & m & E0 & E)].
  { destruct (peaceful_session i rm _ _ _ Hw Logic.I E) as (H1 & H2 & _). left. split_and!; [exact H2|exact H1|discriminate]. }
  destruct (peaceful_session i rm _ _ _ Hw Logic.I E0) as (Hw0 & Hq0 & _).
  apply bind_inv in E as [(e & E & ->)|(w1 & p & E1 & E)].
  { destruct (peaceful_private i _ _ _ Hw0 Logic.I E) as (H1 & H2 & _). left. split_and!; [etrans; eauto|exact H1|discriminate]. }
  destruct (peaceful_private i _ _ _ Hw0 Logic.I E1) as (Hw1 & Hq1 & _). assert (Hq : quiet w w1) by (etrans; eauto).
  apply eff_lift_bind in E as [(e & _ & -> & ->)|([] & _ & E)]; [left; split_and!; [exact Hq|exact Hw1|discriminate]|].
  apply eff_raise_if_bind in E as [(_ & -> & ->)|[_ E]]; [left; split_and!; [exact Hq|exact Hw1|discriminate]|].
  apply eff_lift_bind in E as [(e & _ & -> & ->)|([] & _ & E)]; [left; split_and!; [exact Hq|exact Hw1|discriminate]|].
  destruct (bool_decide (fst m = AgentMode_WRITE)) eqn:Em.
  - apply bool_decide_eq_true in Em. apply bind_inv in E as [(e & E & ->)|(w2 & o & E2 & E)].
    + apply bind_inv in E as [(e' & E & _)|(w2 & x & _ & E)]; [|discriminate].
      destruct (acquire_effect _ _ _ _ _ Hw1 E) as [Hw2 [[Hq2 _]|(l & w3 & Hq3 & Hs & _)]].
      * left. split_and!; [etrans; eauto|exact Hw2|discriminate].
      * right. exists w0, m, l, w3, w'. split_and!; [exact E0|exact Em|etrans; eauto|exact Hs|exact Hw2|left; eauto].
    + apply bind_inv in E2 as [(e' & _ & E2)|(w3 & l & E3 & E2)]; [discriminate|]. injection E2 as <- <-.
      destruct (acquire_effect _ _ _ _ _ Hw1 E3) as [Hw3 [[_ [e He]]|(l' & w4 & Hq4 & Hs & Hl)]]; [discriminate|].
      rewrite (Hl l eq_refl) in E. right. exists w0, m, l', w4, w3.
      split_and!; [exact E0|exact Em|etrans; eauto|exact Hs|exact Hw3|right; eauto].
  - apply bind_inv in E as [(e & E & _)|(w2 & o & E2 & E)]; [discriminate|]. injection E2 as <- <-.
    destruct (peaceful_attach i (fst m) (snd m) (fst p) (snd p) None _ _ _ Hw1 Logic.I E) as (H1 & H2 & _).
    left. split_and!; [etrans; eauto|exact H1|]. intros ctx ->. now apply attach_ok in E as [-> _].
Qed.

Lemma readonly_mode i rm w w0 m s ws : resolve_session env i rm w = (w0, Ok m) -> fst m = AgentMode_WRITE ->
  session_row i (be_workers env (bw_trace w) (QuerySession i) (bw_db w)) = Some (s, ws) ->
  s_agent_mode s = "readonly"%string -> False.
Proof.
  unfold resolve_session. intros E Hm Hrow Hro. unfold mbind, eff_bind, bridge_do in E. rewrite Hrow in E.
  apply eff_raise_if_bind in E as [(_ & _ & [=])|[_ E]]. rewrite Hro in E.
  apply eff_lift_bind in E as [(e & _ & _ & [=])|(mode0 & [= <-] & E)].
  apply eff_lift_bind in E as [(e & _ & _ & [=])|(mode & _ & E)].
  apply eff_raise_if_bind in E as [(_ & _ & [=])|[Hn E]]. injection E as _ <-. cbn in Hm. subst mode. discriminate.
Qed.

(** The loop ends in any way, then the heartbeat stops, the process is closed. *)
Lemma loop_releases ctx l w1 w' r : wf_world w1 -> bw_closed w1 = false -> bc_lease_id ctx = Some l ->
  eff_finally (ask_int env RunBridge) (close env ctx) w1 = (w', r) -> released l w1 w'.
Proof.
  intros Hw Hcl Hl E. unfold eff_finally in E. destruct (ask_int env RunBridge w1) as [w2 x] eqn:E1.
  assert (Hq2 : wf_world w2 /\ quiet w1 w2 /\ _) by exact (peaceful_ask RunBridge _ eq_refl _ _ _ Hw Logic.I E1).
  destruct Hq2 as (Hw2 & Hq2 & _).
  assert (Hcl2 : bw_closed w2 = false) by (unfold ask_int, bridge_ask, bridge_do in E1; now injection E1 as <- _).
  destruct (close env ctx w2) as [w3 y] eqn:E2. assert (w' = w3) as -> by (destruct y; now injection E).
  unfold close in E2. rewrite Hl in E2. cbn [is_some release_if] in E2.
  apply bind_inv in E2 as [(e & E2 & _)|(w4 & b & [= <- <-] & E2)]; [discriminate|]. rewrite Hcl2 in E2.
  apply bind_inv in E2 as [(e & E2 & _)|(w5 & [] & E3 & E2)]; [discriminate|].
  destruct (peaceful_set true _ _ _ Hw2 Logic.I E3) as (Hw5 & Hq5 & _).
  apply bind_inv in E2 as [(e & E2 & _)|(w6 & z & E6 & E2)]; [discriminate|].
  destruct (peaceful_ask StopHeartbeat _ eq_refl _ _ _ Hw5 Logic.I E6) as (Hw6 & Hq6 & _).
  apply finally_releases in E2; [|now apply peaceful_act|exact Hw6].
  eapply released_after; [|exact E2]. etrans; [exact Hq2|]. etrans; eassumption.
Qed.

End BridgeProofs.

(** ** A bridge that loses its process when it closes *)
Definition sample_bridge : BridgeEnv := {|
  be_bool _ c := Ok (match c with IsFile _ => true | _ => false end);
  be_text _ c := Ok (match c with
    | NewUuid => "le-7"
    | ReadText _ => dumps (JObj [("jupyter_url", JStr "http://127.0.0.1:8888"); ("jupyter_token", JStr "t")])
    | ResolvePath p _ => p
    | _ => ""
    end);
  be_int _ c := match c with RunBridge => Err (RuntimeError "loop failed") | StatMode _ => Ok 0x8180 | _ => Ok 100 end;
  be_clock _ := seconds 1000;
  be_unit _ c := match c with CloseTransport => Err (RuntimeError "lost") | _ => Ok tt end;
  be_workers _ _ d := d |}%string.

Definition sample_settings : BridgeSettings := mkBridgeSettings "/run" 30 10 1048576 "python" {["PATH" := "/bin"; "SECRET" := "x"]}%string.

Definition sample_start : BridgeWorld := mkBridgeWorld [] ready_db false.
Definition sample_end : BridgeWorld * res Z :=
  mcp_command sample_bridge sample_settings "se-1" None (Some "agent"%string) sample_start.

Example mcp_command_ex :
  map (fun l => (ls_id l, lease_active l)) (writable_agent_leases (bw_db (fst sample_end))) = [("le-7"%string, false)]
  /\ snd sample_end = Err (RuntimeError "lost")
  /\ drop 13 (bw_trace (fst sample_end))
     = [StartHeartbeat "le-7" 10; RunBridge; StopHeartbeat; CloseTransport; ReadClock; ReleaseLease "le-7"]%string.
Proof. vm_compute. split_and!; reflexivity. Qed.

Lemma sample_end_eq : mcp_command sample_bridge sample_settings "se-1" None (Some "agent"%string) sample_start = (fst sample_end, snd sample_end).
Proof. unfold sample_end. now destruct mcp_command. Qed.


(** An exception that is no [Exception], here out of the start of the process,
    passes the handlers of [resolve_mcp_bridge]: the lease stays active until
    it is stale. *)
Definition stopped_bridge : BridgeEnv := {|
  be_bool := be_bool sample_bridge;
  be_text := be_text sample_bridge;
  be_int := be_int sample_bridge;
  be_clock := be_clock sample_bridge;
  be_unit _ c := match c with StartTransport _ _ => Err (SystemExit "terminated") | _ => Ok tt end;
  be_workers := be_workers sample_bridge |}%string.

Example stopped_start_keeps_lease :
  let '(w', r) := mcp_command stopped_bridge sample_settings "se-1" None None sample_start in
  r = Err (SystemExit "terminated")
  /\ map (fun l => (ls_id l, lease_active l)) (writable_agent_leases (bw_db w')) = [("le-7"%string, true)].
Proof. vm_compute. split; reflexivity. Qed.
