(* ===== verification/Heartbeats.v ===== *)
(** * Settings and heartbeats (src/notebook_launcher/config.py, cli.py)

    [Settings] with its checks, and the thread of [McpBridgeContext] that renews
    the writable lease, among the lease operations of other processes. *)
From S2P Require Export Leases Mcp.

(** ** [Settings] *)
Record Settings := mkSettings {
  st_root : string;
  st_host : string;
  st_port : Z;
  st_launch_token_ttl_seconds : Z;
  st_trust_challenge_ttl_seconds : Z;
  st_execution_timeout_seconds : Z;
  st_execution_cancel_grace_seconds : Z;
  st_max_agent_output_bytes : Z;
  st_writable_lease_stale_seconds : Z;
  st_writable_lease_heartbeat_seconds : Z;
  st_runtime_memory : string;
  (** in units of 1/1000 CPU *)
  st_runtime_cpus : Z;
  st_runtime_pids_limit : Z;
  st_approved_dns_endpoints : list string }.

(** The defaults, for a home directory. *)
Definition default_settings (home : string) : Settings := mkSettings (home ++ "/.notebook-launcher") "127.0.0.1" 8080 300 600 1800 10
  (1024 * 1024) 30 10 "8g" 4000 1024 [].

(** [MIN_MCP_OUTPUT_BYTES] *)
Definition MIN_MCP_OUTPUT_BYTES : Z := minimum_mcp_output_bytes READONLY_METHODS.

(** The constraints [ge=...] of the fields and [_validate_lease_timing]. *)
Definition validate_settings (s : Settings) : res Settings :=
  let! _ := raise_if (st_max_agent_output_bytes s <? MIN_MCP_OUTPUT_BYTES) (ValueError "max_agent_output_bytes is too small") in
  let! _ := raise_if (st_writable_lease_stale_seconds s <? 3) (ValueError "writable_lease_stale_seconds is too small") in
  let! _ := raise_if (st_writable_lease_heartbeat_seconds s <? 1) (ValueError "writable_lease_heartbeat_seconds is too small") in
  let! _ := raise_if (st_writable_lease_stale_seconds s <=? st_writable_lease_heartbeat_seconds s)
    (ValueError "writable lease heartbeat interval must be shorter than stale TTL") in
  Ok s.

Definition state_db (s : Settings) : string := (st_root s ++ "/state.db")%string.
Definition sources_dir (s : Settings) : string := (st_root s ++ "/sources")%string.
Definition workspaces_dir (s : Settings) : string := (st_root s ++ "/workspaces")%string.
Definition runtime_dir (s : Settings) : string := (st_root s ++ "/runtime")%string.

(** [ensure_directories]: each directory, and whether its parents are made too. *)
Definition ensure_directories (s : Settings) : list (string * bool) :=
  [(st_root s, true); (sources_dir s, false); (workspaces_dir s, false); (runtime_dir s, false)].

(** ** [_heartbeat_loop] *)

(** What other processes do with leases, each at its own time. *)
Inductive lease_op :=
| Acquire (lease_id session_id : uuid) (client_label : option string)
| Beat (lease_id : uuid)
| Release (lease_id : uuid)
| Reconcile
| Validate (session_id lease_id : uuid).

Section Loop.
Context (stale interval : Z).

Definition run_op (t : Z) (o : lease_op) (d : db) : db :=
  match o with
  | Acquire i s c => fst (acquire stale i s c (Aware t) d)
  | Beat i => fst (heartbeat i (Aware t) d)
  | Release i => fst (release i (Aware t) d)
  | Reconcile => fst (reconcile stale (Aware t) d)
  | Validate _ _ => d
  end.
Definition run_ops (ops : list (Z * lease_op)) (d : db) : db := fold_left (fun d o => run_op (fst o) (snd o) d) ops d.

(** One turn: what others do during the wait, and how much longer than the
    interval the wait took. *)
Record turn := mkTurn { tn_ops : list (Z * lease_op); tn_delay : Z }.

(** The thread, while the stop event is not set; [None] while it goes on, else
    how it ended.  [last] is the time of the last beat. *)
Fixpoint heartbeat_loop (lease_id : uuid) (last : Z) (turns : list turn) (d : db) : Z * db * option (res unit) :=
  match turns with
  | [] => (last, d, None)
  | turn :: turns =>
      let now := last + seconds interval + tn_delay turn in
      match heartbeat lease_id (Aware now) (run_ops (tn_ops turn) d) with
      | (d', Ok true) => heartbeat_loop lease_id now turns d'
      | (d', Ok false) => (now, d', Some (Ok tt))
      | (d', Err e) => (now, d', Some (Err e))
      end
  end.
End Loop.

(** ** A lease that is renewed stays *)
Section Kept.
Context (stale : Z) (i s : uuid).

(** The lease is active and was last seen then; its session takes a writer. *)
Definition held_row (last : Z) (l : lease_row) : Prop :=
  ls_id l = i /\ ls_session_id l = s /\ lease_active l = true /\ lease_seen l = isoformat last.
Definition holder (last : Z) (d : db) : Prop :=
  wf_db d /\ in_datetime_range last /\ session_accepts_writer (get_session s d) = true
  /\ exists l, In l (writable_agent_leases d) /\ held_row last l.

Lemma fresh last t b l : in_datetime_range last -> t <= last + seconds stale -> dt_sub t (seconds stale) = Ok b ->
  held_row last l -> lease_stale (isoformat b) l = false.
Proof.
  intros Hl Ht Hb (_ & _ & _ & Hs). apply dt_add_range in Hb as [-> Hb]. unfold lease_stale. rewrite Hs, iso_ltb by assumption. lia.
Qed.

(** A lease that an update does not select is still there. *)
Lemma kept_by_update last d d' (p : lease_row -> bool) f extra : holder last d -> wf_db d' ->
  get_session s d' = get_session s d ->
  writable_agent_leases d' = map (fun r => if p r then f r else r) (writable_agent_leases d) ++ extra ->
  (forall l, In l (writable_agent_leases d) -> held_row last l -> p l = false) -> holder last d'.
Proof.
  intros (Hd & Hr & Hs & l & Hin & Hl) Hd' Hs' E Hp. split; [exact Hd'|]. split; [exact Hr|]. rewrite Hs'. split; [exact Hs|].
  exists l. split; [|exact Hl]. rewrite E. apply in_or_app. left. apply in_map_iff. exists l. now rewrite (Hp l Hin Hl).
Qed.

(** What a transaction of one update leaves. *)
Lemma update_tx (p : lease_row -> bool) f {A} (k : Z -> A) d : wf_db d -> lease_shrinks f ->
  transaction (n <- tx_update p f ;; tx_ret (k n)) d
  = (set_tbl (map (fun r => if p r then f r else r) (writable_agent_leases d)) d,
     Ok (k (Z.of_nat (List.length (select p (writable_agent_leases d)))))).
Proof.
  intros Hd Hf. destruct (lease_update_succeeds p f d Hd Hf) as [t' Hu]. unfold transaction, tx_bind, tx_update.
  change (tbl d) with (writable_agent_leases d). rewrite Hu. now apply sql_update_spec in Hu as (-> & _ & _).
Qed.

Lemma acquire_inv j s' c t d : fst (acquire stale j s' c (Aware t) d) = d
  \/ exists b, dt_sub t (seconds stale) = Ok b
       /\ fst (acquire stale j s' c (Aware t) d) = set_tbl (acquired_leases j s' c (isoformat t) (isoformat b) d) d.
Proof.
  unfold acquire, lease_times. cbn [lease_now rbind]. destruct (dt_sub t (seconds stale)) as [b|e]; [|now left]. cbn [rbind].
  unfold transaction. destruct (acquire_tx j s' c (isoformat t) (isoformat b) d) as [[d1 x]|e] eqn:E; [|left; now destruct e].
  right. exists b. split; [reflexivity|]. cbn [on_integrity_error fst]. unfold acquire_tx, tx_bind, tx_fetchone, tx_update, tx_insert in E.
  destruct (session_accepts_writer _); cbn [negb tx_raise_if] in E; [|discriminate]. unfold tx_ret in E.
  destruct (sql_update _ _ _) as [[ls n]|] eqn:Eu; [|discriminate]. apply sql_update_spec in Eu as (-> & _ & _).
  destruct (tbl_fk _ _); [|discriminate]. destruct (sql_insert _ _) as [ls'|] eqn:Ei; [|discriminate]. injection E as <- <-.
  apply sql_insert_spec in Ei. destruct Ei as [-> _]. reflexivity.
Qed.

(** What the others may do at [t]: anything to other leases. *)
Definition other (o : lease_op) : Prop :=
  match o with Beat j | Release j => j <> i | _ => True end.
Definition op_ok (now : Z) (o : Z * lease_op) : Prop := fst o <= now /\ other (snd o).

Lemma no_session_ended d : wf_db d -> session_accepts_writer (get_session s d) = true -> session_ended d s = false.
Proof.
  intros Hd Hs. destruct (session_ended d s) eqn:E; [exfalso|reflexivity]. unfold session_ended in E.
  apply existsb_exists in E as (x & Hx & Hk). bool_to_prop. unfold get_session in Hs.
  destruct (fetchone _ _) as [y|] eqn:Hf in Hs; [|discriminate]. apply fetchone_some in Hf as [Hy Hyk].
  assert (x = y) as -> by (eapply (by_key_unique (notebook_sessions d) s); eauto using wf_sessions; unfold by_key; cbn [pk session_table]; now apply String.eqb_eq).
  unfold session_accepts_writer in Hs. bool_to_prop. unfold session_active in *. rewrite H1 in *. discriminate.
Qed.

(** An update of another lease. *)
Lemma kept_by_id last d ls' j f : holder last d -> wf_db (set_tbl ls' d) -> j <> i ->
  ls' = map (fun r => if String.eqb (ls_id r) j && lease_active r then f r else r) (writable_agent_leases d) ->
  holder last (set_tbl ls' d).
Proof.
  intros Hh Hw Hj ->. eapply (kept_by_update last d) with (extra := []); [exact Hh|exact Hw|reflexivity|now rewrite app_nil_r|].
  intros l _ (Hi & _). cbn beta. rewrite Hi, (proj2 (String.eqb_neq i j)) by congruence. reflexivity.
Qed.

Lemma kept_by_op last t o d : holder last d -> t <= last + seconds stale -> other o -> holder last (run_op stale t o d).
Proof.
  intros Hh Ht Ho. pose proof Hh as (Hd & Hr & Hs & _). destruct o as [j s' c|j|j| |]; cbn [run_op other] in *; [| | | |exact Hh].
  - destruct (acquire_inv j s' c t d) as [->|(b & Hb & E)]; [exact Hh|].
    eapply (kept_by_update last d); [exact Hh|now apply acquire_wf|now rewrite E|rewrite E; reflexivity|].
    intros l _ Hl. unfold stale_of. rewrite (fresh last t b l Hr Ht Hb Hl). apply andb_false_r.
  - pose proof (heartbeat_wf j (Aware t) d Hd) as Hw. unfold heartbeat in *. cbn [lease_now] in *.
    rewrite (update_tx _ _ (fun n => n =? 1) d Hd (lease_beat_shrinks _)) in *. eapply (kept_by_id last d _ j); [exact Hh|exact Hw|exact Ho|reflexivity].
  - pose proof (release_wf j (Aware t) d Hd) as Hw. unfold release in *. cbn [lease_now] in *.
    rewrite (update_tx _ _ (fun _ => tt) d Hd (lease_release_shrinks _)) in *. eapply (kept_by_id last d _ j); [exact Hh|exact Hw|exact Ho|reflexivity].
  - pose proof (reconcile_wf stale (Aware t) d Hd) as Hw. unfold reconcile, lease_times in *. cbn [lease_now rbind] in *.
    destruct (dt_sub t (seconds stale)) as [b|e] eqn:Hb; [|exact Hh]. cbn [rbind] in *. unfold transaction in *.
    pose proof (update_tx (reconcile_selects (isoformat b) d) _ id d Hd (lease_release_now_shrinks (isoformat t))) as E.
    unfold transaction, tx_bind, tx_ret in E. destruct (tx_update _ _ d) as [[d' n]|e] eqn:Eu; [|exact Hh]. injection E as -> ->.
    eapply (kept_by_update last d) with (extra := []); [exact Hh|exact Hw|reflexivity|now rewrite app_nil_r|].
    intros l _ Hl. unfold reconcile_selects. rewrite (fresh last t b l Hr Ht Hb Hl). destruct Hl as (_ & -> & _ & _).
    rewrite (no_session_ended d Hd Hs). apply andb_false_r.
Qed.

Lemma kept_by_ops last now ops d : holder last d -> now <= last + seconds stale -> Forall (op_ok now) ops ->
  holder last (run_ops stale ops d).
Proof.
  intros Hh Hn Ho. unfold run_ops. revert d Hh. induction Ho as [|[t o] ops [Ht Hoth] _ IH]; intros d Hh; [exact Hh|].
  apply IH. apply kept_by_op; cbn [fst snd] in *; [exact Hh|lia|exact Hoth].
Qed.

Lemma beat_keeps last now d : holder last d -> in_datetime_range now ->
  exists d', heartbeat i (Aware now) d = (d', Ok true) /\ holder now d'.
Proof.
  intros (Hd & _ & Hs & l & Hin & Hi & Hls & Ha & _) Hn. pose proof (heartbeat_wf i (Aware now) d Hd) as Hw.
  unfold heartbeat in *. cbn [lease_now] in *. rewrite (update_tx _ _ (fun n => n =? 1) d Hd (lease_beat_shrinks _)) in *. cbn [fst] in Hw.
  assert (Hf : fetchone (by_key i) (writable_agent_leases d) = Some l).
  { now apply fetch_by_key; [apply wf_leases| |]. }
  change (fun l => (ls_id l =? i)%string && lease_active l) with (fun l => by_key i l && lease_active l) in *.
  rewrite (select_by_key _ i lease_active (wf_leases d Hd)), Hf, Ha. eexists. split; [reflexivity|].
  split; [exact Hw|]. split; [exact Hn|]. split; [exact Hs|]. exists (lease_beat (isoformat now) l). split.
  - cbn. apply in_map_iff. exists l. unfold by_key. cbn [pk lease_keyed]. rewrite Hi, String.eqb_refl, Ha. auto.
  - split_and!; try assumption. reflexivity.
Qed.

(** A turn whose wait ended at most a second late. *)
Definition turn_ok (now : Z) (tn : turn) : Prop :=
  0 <= tn_delay tn <= seconds 1 /\ in_datetime_range now /\ Forall (op_ok now) (tn_ops tn).
Fixpoint turns_ok (interval last : Z) (turns : list turn) : Prop :=
  match turns with
  | [] => True
  | tn :: turns => let now := last + seconds interval + tn_delay tn in turn_ok now tn /\ turns_ok interval now turns
  end.

Lemma loop_keeps interval turns last d : interval < stale -> holder last d -> turns_ok interval last turns ->
  exists last' d', heartbeat_loop stale interval i last turns d = (last', d', None) /\ holder last' d'.
Proof.
  intros Hi. revert last d. induction turns as [|tn turns IH]; intros last d Hh Ht; [eauto|].
  destruct Ht as [(Hdelay & Hr & Ho) Ht]. cbn [heartbeat_loop].
  assert (Hnow : last + seconds interval + tn_delay tn <= last + seconds stale) by (unfold seconds in *; lia).
  destruct (beat_keeps last _ _ (kept_by_ops _ _ _ _ Hh Hnow Ho) Hr) as (d' & -> & Hh'). now apply IH.
Qed.

(** The lease validates while it is not stale, and no other is taken. *)
Lemma holder_excludes last d t b : holder last d -> t <= last + seconds stale -> dt_sub t (seconds stale) = Ok b ->
  lease_validate stale s i t d = Ok tt
  /\ forall j c, get_lease j d = None -> acquire stale j s c (Aware t) d = (d, Err (LauncherExn WritableAgentBusy)).
Proof.
  intros (Hd & Hr & Hs & l & Hin & Hl) Ht Hb. pose proof (fresh last t b l Hr Ht Hb Hl) as Hfr. destruct Hl as (Hi & Hls & Ha & _). split.
  - unfold lease_validate. rewrite Hb. cbn [rbind]. apply raise_if_ok, negb_false_iff, is_some_true.
    destruct (fetchone _ _) as [x|] eqn:Hf; [eauto|exfalso]. pose proof (proj1 (fetchone_none _ _) Hf l Hin) as Hn.
    unfold lease_current in Hn. rewrite Hi, Hls, !String.eqb_refl, Ha, Hfr in Hn. discriminate.
  - intros j c Hj. rewrite (acquire_spec stale j s c t b d Hd Hj Hb), Hs.
    replace (write_lease_held (isoformat b) s d) with true; [reflexivity|]. symmetry. unfold write_lease_held. apply existsb_exists.
    exists l. split; [exact Hin|]. now rewrite Hls, String.eqb_refl, Ha, Hfr.
Qed.
End Kept.

(** C24: settings that pass their checks keep a renewed lease.  Whatever the
    checks of [Settings] accept as stale limit and heartbeat interval: while
    the thread of the bridge wakes at most a second late, its loop goes on,
    whatever leases other processes acquire, renew, release or reconcile in
    the meantime (this lease's own release excepted), and after any number of
    turns the lease validates and no other agent gets the session until the
    stale limit after the last beat is over. *)
Theorem heartbeats_keep_lease (st : Settings) (i s : uuid) (last : Z) (turns : list turn) (d : db) :
  validate_settings st = Ok st -> holder i s last d ->
  turns_ok i (st_writable_lease_heartbeat_seconds st) last turns ->
  exists last' d',
    heartbeat_loop (st_writable_lease_stale_seconds st) (st_writable_lease_heartbeat_seconds st) i last turns d = (last', d', None)
    /\ forall t b, t <= last' + seconds (st_writable_lease_stale_seconds st) ->
         dt_sub t (seconds (st_writable_lease_stale_seconds st)) = Ok b ->
         lease_validate (st_writable_lease_stale_seconds st) s i t d' = Ok tt
         /\ forall j c, get_lease j d' = None ->
              acquire (st_writable_lease_stale_seconds st) j s c (Aware t) d' = (d', Err (LauncherExn WritableAgentBusy)).
Proof.
  intros Hv Hh Ht. unfold validate_settings in Hv. inv_ok.
  destruct (loop_keeps (st_writable_lease_stale_seconds st) i s (st_writable_lease_heartbeat_seconds st) turns last d) as (last' & d' & -> & Hh');
    [lia|exact Hh|exact Ht|].
  exists last', d'. split; [reflexivity|]. intros t b Htl Hb. exact (holder_excludes _ i s last' d' t b Hh' Htl Hb).
Qed.

(** The lease of Leases, renewed twice while another agent asks for the
    session, a lease nobody has is released and the launcher reconciles. *)
Definition busy_turn (t : Z) : turn :=
  mkTurn [(seconds t, Acquire "le-2" "se-1" None); (seconds (t + 1), Release "le-9"); (seconds (t + 2), Reconcile)] (seconds 1).

Lemma heartbeats_keep_lease_witness :
  validate_settings (default_settings "/home/u") = Ok (default_settings "/home/u")
  /\ exists d', heartbeat_loop 30 10 "le-1" (seconds 1000) [busy_turn 1003; busy_turn 1017] leased_db = (seconds 1022, d', None)
       /\ lease_validate 30 "se-1" "le-1" (seconds 1052) d' = Ok tt
       /\ snd (acquire 30 "le-2" "se-1" None (Aware (seconds 1052)) d') = Err (LauncherExn WritableAgentBusy).
Proof.
  assert (Hv : validate_settings (default_settings "/home/u") = Ok (default_settings "/home/u")) by (vm_compute; reflexivity).
  split; [exact Hv|].
  destruct (heartbeats_keep_lease (default_settings "/home/u") "le-1" "se-1" (seconds 1000) [busy_turn 1003; busy_turn 1017] leased_db Hv)
    as (last' & d' & Hl & Hk).
  - split; [apply leased_db_wf|]. split; [vm_compute; split; discriminate|]. split; [reflexivity|].
    eexists. split; [left; reflexivity|]. now split_and!.
  - cbn. repeat (split || constructor); try easy; try (vm_compute; congruence).
  - exists d'. assert (last' = seconds 1022) as -> by (vm_compute in Hl; injection Hl as <- _; reflexivity). split; [exact Hl|].
    destruct (Hk (seconds 1052) (seconds 1022)) as [H1 H2]; [vm_compute; discriminate|reflexivity|].
    split; [exact H1|]. change 30 with (st_writable_lease_stale_seconds (default_settings "/home/u")). rewrite H2; [reflexivity|].
    vm_compute in Hl. injection Hl as <-. reflexivity.
Defined.
