(* ===== verification/Sandbox.v ===== *)
(** * Sandbox policies (src/notebook_launcher/sandbox.py)

    The policy of a container, its validation, and the [docker run] argument
    vector made from it.  Host paths are strings; what they resolve to on the
    host is an argument, as the components below the root. *)
From S2P Require Export Network PosixPath Json.

Definition CONTROL_NAMES : list string := ["docker.sock"; "podman.sock"; "containerd.sock"; "crio.sock"]%string.

Definition FORBIDDEN_ENV_FRAGMENTS : list string :=
  ["AWS_"; "AZURE_"; "GOOGLE_"; "GITHUB_"; "GH_TOKEN"; "SSH_"; "DOCKER_"; "KUBECONFIG"; "PASSWORD"; "SECRET";
   "PRIVATE_KEY"; "API_KEY"; "TOKEN"; "CREDENTIAL"; "AUTH"]%string.

(** [cpus] is the text of a Python number. *)
Record SandboxPolicy := mkSandboxPolicy {
  sp_image : string;
  sp_container_name : string;
  sp_workspace_host : string;
  sp_workspace_container : string;
  sp_readonly_mounts : list (string * string);
  sp_readwrite_mounts : list (string * string);
  sp_environment : list (string * string);
  sp_memory : string;
  sp_cpus : string;
  sp_pids_limit : Z;
  sp_gpu_enabled : bool;
  sp_seccomp_profile : option string;
  sp_network_name : option string;
  sp_published_ports : list (Z * Z);
  sp_tmpfs_size : string;
  sp_nofile_limit : Z }.

Definition name_start (c : ascii) : bool := is_alnum c.

(** [_CONTAINER_NAME.fullmatch(name)] *)
Definition valid_container_name (name : string) : bool :=
  match name with
  | String c rest => name_start c && all_chars name_char rest && Nat.leb (String.length rest) 127
  | EmptyString => false
  end.

(** [cpus <= 0] on the text of an [int] or [float]. *)
Definition number_not_positive (text : string) : bool :=
  starts_with "-" text || str_mem text ["0"; "0.0"]%string.

Definition NUL : ascii := "000"%char.
Definition is_credential_name (key : string) : bool :=
  existsb (fun fragment => contains fragment (upper key)) FORBIDDEN_ENV_FRAGMENTS.

Section Host.
(** [expanduser().resolve(strict=False)], [resolve(strict=True)] and [is_file]. *)
Context (resolve : string -> res (list string)) (resolve_file : string -> res string) (is_file : string -> bool).

Fixpoint is_prefix (a b : list string) : bool :=
  match a, b with
  | [], _ => true
  | x :: a', y :: b' => String.eqb x y && is_prefix a' b'
  | _ :: _, [] => false
  end.

Definition parts_eqb (a b : list string) : bool := bool_decide (a = b).
Definition posix_of (parts : list string) : string := ("/" ++ str_join "/" parts)%string.

Definition FORBIDDEN_PARTS : list string := [".ssh"; ".aws"; ".docker"; ".kube"; ".gnupg"]%string.

Definition all_mounts (p : SandboxPolicy) : list (string * string) :=
  (sp_workspace_host p, sp_workspace_container p) :: sp_readonly_mounts p ++ sp_readwrite_mounts p.

Definition value_error_if (b : bool) (msg : string) : res unit := raise_if b (ValueError msg).

Definition validate_mount (docker_socket home : list string) (host : string) : res unit :=
  let! resolved := resolve host in
  let! _ := value_error_if (parts_eqb resolved docker_socket) "Docker socket must not be mounted" in
  let! _ := value_error_if (str_mem (lower (List.last resolved "")) CONTROL_NAMES)
    "container-control sockets must not be mounted" in
  let! _ := value_error_if (match resolved with [] => true | _ => false end) "filesystem root must not be mounted" in
  let! _ := value_error_if (is_prefix resolved home) "whole home directory must not be mounted" in
  let! _ := value_error_if (existsb (fun part => str_mem (lower part) FORBIDDEN_PARTS) resolved)
    ("credential directory must not be mounted: " ++ posix_of resolved) in
  value_error_if (contains "/.config/gcloud" (lower (posix_of resolved)))
    ("credential directory must not be mounted: " ++ posix_of resolved).

(** [for x in l: f(x)] *)
Fixpoint for_each {A} (f : A -> res unit) (l : list A) : res unit :=
  match l with
  | [] => Ok tt
  | a :: l' => let! _ := f a in for_each f l'
  end.

Definition validate_mount_policy (p : SandboxPolicy) (home : string) : res unit :=
  let! docker_socket := resolve "/var/run/docker.sock" in
  let! home := resolve home in
  for_each (fun m => validate_mount docker_socket home (fst m)) (all_mounts p).

Definition validate_container_path (value : string) : res unit :=
  let! _ := value_error_if (negb (is_absolute value) || has_dotdot (path_parts value))
    ("container mount path must be absolute and normalized: " ++ value) in
  value_error_if (str_mem value ["/"; "/var/run/docker.sock"]%string)
    ("container mount path is forbidden: " ++ value).

(** The loop with the set of destinations. *)
Fixpoint validate_destinations (seen : list string) (mounts : list (string * string)) : res unit :=
  match mounts with
  | [] => Ok tt
  | (_, container) :: rest =>
      let! _ := validate_container_path container in
      let! _ := value_error_if (str_mem container seen) ("duplicate container mount destination: " ++ container) in
      validate_destinations (container :: seen) rest
  end.

Definition has_comma (s : string) : bool := has_char "," s.

Definition validate_environment_entry (entry : string * string) : res unit :=
  let '(key, v) := entry in
  let! _ := value_error_if (String.eqb key "" || has_char "=" key || has_char NUL key || has_char NUL v)
    "invalid container environment entry" in
  value_error_if (is_credential_name key) ("host credential variable must not be injected: " ++ key).

Definition port_ok (port : Z) : bool := (1 <=? port) && (port <=? 65535).

Definition validate_sandbox_policy (p : SandboxPolicy) (home : string) (require_network : bool) : res unit :=
  let! _ := value_error_if (is_blank (sp_image p) || has_char NUL (sp_image p)) "container image is required" in
  let! _ := value_error_if (negb (valid_container_name (sp_container_name p))) "invalid container name" in
  let! _ := value_error_if (number_not_positive (sp_cpus p) || (sp_pids_limit p <=? 0) || (sp_nofile_limit p <=? 0))
    "sandbox resource limits must be positive" in
  let! _ := value_error_if (is_blank (sp_memory p) || is_blank (sp_tmpfs_size p))
    "sandbox memory and tmpfs limits are required" in
  let! _ := value_error_if (require_network && match sp_network_name p with None => true | Some n => String.eqb n "" end)
    "a launcher-managed network is required" in
  let! _ := value_error_if (match sp_network_name p with None => false | Some n => is_blank n || has_char NUL n end)
    "invalid launcher-managed network name" in
  let! _ := match sp_seccomp_profile p with
            | None => Ok tt
            | Some path =>
                let! profile := resolve_file path in
                value_error_if (negb (is_file profile)) "seccomp profile must be a file"
            end in
  let! _ := validate_mount_policy p home in
  let! _ := validate_destinations [] (all_mounts p) in
  let! _ := for_each (fun m => value_error_if (has_comma (fst m) || has_comma (snd m))
                        "Docker mount paths must not contain commas") (all_mounts p) in
  let! _ := for_each validate_environment_entry (sp_environment p) in
  for_each (fun ports => value_error_if (negb (port_ok (fst ports) && port_ok (snd ports)))
              "published ports must be between 1 and 65535") (sp_published_ports p).

(** ** [docker_run_argv] *)
Definition bind_mount (host container : string) : string :=
  ("type=bind,source=" ++ host ++ ",target=" ++ container)%string.

Definition mount_argv (suffix : string) (mounts : list (string * string)) : list string :=
  flat_map (fun m => ["--mount"; bind_mount (fst m) (snd m) ++ suffix]%string) mounts.

Definition sandbox_options (p : SandboxPolicy) : list string :=
  ["--rm"; "--name"; sp_container_name p; "--user"; "1000:1000"; "--security-opt"; "no-new-privileges:true";
   "--cap-drop"; "ALL"; "--memory"; sp_memory p; "--cpus"; sp_cpus p; "--pids-limit"; str_of_int (sp_pids_limit p);
   "--ulimit"; "nofile=" ++ str_of_int (sp_nofile_limit p) ++ ":" ++ str_of_int (sp_nofile_limit p);
   "--read-only"; "--tmpfs"; "/tmp:rw,noexec,nosuid,nodev,size=" ++ sp_tmpfs_size p;
   "--tmpfs"; "/run:rw,noexec,nosuid,nodev,size=64m"; "--init";
   "--mount"; bind_mount (sp_workspace_host p) (sp_workspace_container p)]%string
  ++ match sp_seccomp_profile p with
     | Some profile => ["--security-opt"; "seccomp=" ++ profile]%string
     | None => []
     end
  ++ mount_argv ",readonly" (sp_readonly_mounts p)
  ++ mount_argv "" (sp_readwrite_mounts p)
  ++ flat_map (fun e => ["--env"; fst e ++ "=" ++ snd e]%string) (sp_environment p)
  ++ match sp_network_name p with Some n => ["--network"; n]%string | None => [] end
  ++ flat_map (fun ports => ["--publish"; "127.0.0.1:" ++ str_of_int (fst ports) ++ ":" ++ str_of_int (snd ports)]%string)
       (sp_published_ports p)
  ++ (if sp_gpu_enabled p then ["--gpus"; "all"]%string else []).

Definition docker_run_argv (p : SandboxPolicy) (home : string) (command : list string) : res (list string) :=
  let! _ := validate_sandbox_policy p home false in
  let! _ := value_error_if (existsb (has_char NUL) command)
    "container command entries must be strings without NUL bytes" in
  Ok (["docker"; "run"]%string ++ sandbox_options p ++ sp_image p :: command).

(** ** [scrub_host_environment]

    The set of allowed names is visited in some order: the list. *)
Fixpoint scrub_host_environment (environment : string -> option string) (allowed : list string)
  : res (list (string * string)) :=
  match allowed with
  | [] => Ok []
  | key :: rest =>
      match environment key with
      | None => scrub_host_environment environment rest
      | Some v =>
          let! _ := value_error_if (is_credential_name key)
            ("host secret environment variable is forbidden: " ++ key) in
          let! clean := scrub_host_environment environment rest in
          Ok ((key, v) :: clean)
      end
  end.
End Host.

(** ** Reading the argument vector back

    The reference for what a [docker run] command line asks for: options with
    a value, flags, then the image and the command; a [--mount] value is a
    comma-separated list of fields. *)
Definition DOCKER_FLAGS : list string := ["--rm"; "--read-only"; "--init"; "--detach"]%string.

Record RunConfig := mkRunConfig {
  rc_options : list (string * string);
  rc_flags : list string;
  rc_image : string;
  rc_command : list string }.

Fixpoint parse_run (argv : list string) : option RunConfig :=
  match argv with
  | [] => None
  | x :: rest =>
      if str_mem x DOCKER_FLAGS then
        option_map (fun c => mkRunConfig (rc_options c) (x :: rc_flags c) (rc_image c) (rc_command c)) (parse_run rest)
      else if starts_with "-" x then
        match rest with
        | v :: rest' =>
            option_map (fun c => mkRunConfig ((x, v) :: rc_options c) (rc_flags c) (rc_image c) (rc_command c))
              (parse_run rest')
        | [] => None
        end
      else Some (mkRunConfig [] [] x rest)
  end.

(** The values of one option. *)
Definition option_values (name : string) (c : RunConfig) : list string :=
  map snd (List.filter (fun o => String.eqb (fst o) name) (rc_options c)).

Definition drop_prefix (p s : string) : option string :=
  if starts_with p s then Some (str_drop (String.length p) s) else None.

Record BindMount := mkBindMount { bm_source : string; bm_target : string; bm_readonly : bool }.

Definition parse_mount (s : string) : option BindMount :=
  match split_on "," s with
  | "type=bind"%string :: source :: target :: rest =>
      match drop_prefix "source=" source, drop_prefix "target=" target, rest with
      | Some h, Some c, [] => Some (mkBindMount h c false)
      | Some h, Some c, ["readonly"%string] => Some (mkBindMount h c true)
      | _, _, _ => None
      end
  | _ => None
  end.

(** Where a [--publish] value binds: host address, host port, container port. *)
Definition parse_publish (s : string) : option (string * string * string) :=
  match split_on ":" s with [a; h; c] => Some (a, h, c) | _ => None end.

Definition parse_env (s : string) : option (string * string) := split_once "=" s.

Lemma drop_prefix_app p s : drop_prefix p (p ++ s)%string = Some s.
Proof.
  unfold drop_prefix. assert (Hs : starts_with p (p ++ s)%string = true /\ str_drop (String.length p) (p ++ s)%string = s).
  { induction p as [|c p IH]; [destruct s; auto|]. simpl. rewrite Ascii.eqb_refl. exact IH. }
  destruct Hs as [-> ->]. reflexivity.
Qed.

Lemma has_char_false c s : has_char c s = false -> all_chars (no_sep c) s = true.
Proof. unfold has_char. intros H. now apply negb_false_iff in H. Qed.

Lemma parse_mount_back host container (ro : bool) :
  has_comma host = false -> has_comma container = false ->
  parse_mount (bind_mount host container ++ (if ro then ",readonly" else "")) = Some (mkBindMount host container ro).
Proof.
  intros Hh%has_char_false Hc%has_char_false.
  assert (E : (bind_mount host container ++ (if ro then ",readonly" else ""))%string
    = str_join "," (["type=bind"; "source=" ++ host; "target=" ++ container]%string ++ (if ro then ["readonly"%string] else []))%list).
  { unfold bind_mount. destruct ro; cbn [str_join app]; rewrite !string_app_assoc, ?string_app_nil_r; reflexivity. }
  unfold parse_mount. rewrite E, split_join.
  - cbn [app]. rewrite !drop_prefix_app. now destruct ro.
  - discriminate.
  - cbn [app forallb]. rewrite !all_chars_append, Hh, Hc. now destruct ro.
Qed.

(** Command-line items: an option with its value, or a flag. *)
Definition encode_items (items : list (string * option string)) : list string :=
  flat_map (fun i => fst i :: match snd i with Some v => [v] | None => [] end) items.

Definition item_ok (i : string * option string) : bool :=
  match snd i with
  | Some _ => starts_with "-" (fst i) && negb (str_mem (fst i) DOCKER_FLAGS)
  | None => str_mem (fst i) DOCKER_FLAGS
  end.

Definition config_of (items : list (string * option string)) (image : string) (command : list string) : RunConfig :=
  mkRunConfig (omap (fun i => option_map (pair (fst i)) (snd i)) items)
    (map fst (List.filter (fun i => is_none (snd i)) items)) image command.

Lemma parse_items items image command :
  forallb item_ok items = true -> starts_with "-" image = false ->
  parse_run (encode_items items ++ image :: command) = Some (config_of items image command).
Proof.
  intros Hok Himage. induction items as [|[x [v|]] items IH].
  - cbn [encode_items flat_map app parse_run]. destruct (str_mem image DOCKER_FLAGS) eqn:E; [exfalso|].
    + apply str_mem_In in E. repeat destruct E as [<-|E]; try discriminate Himage. exact E.
    + rewrite Himage. reflexivity.
  - simpl in Hok. apply andb_true_iff in Hok as [Hx Hok]. unfold item_ok in Hx. cbn [fst snd] in Hx.
    apply andb_true_iff in Hx as [H1 H2]. apply negb_true_iff in H2. cbn [encode_items flat_map fst snd app parse_run].
    rewrite H2, H1. fold (encode_items items). rewrite IH by exact Hok. reflexivity.
  - simpl in Hok. apply andb_true_iff in Hok as [Hx Hok]. unfold item_ok in Hx. cbn [fst snd] in Hx.
    cbn [encode_items flat_map fst snd app parse_run]. rewrite Hx. fold (encode_items items).
    rewrite IH by exact Hok. reflexivity.
Qed.

Definition opt (name v : string) : string * option string := (name, Some v).
Definition mount_items (suffix : string) (mounts : list (string * string)) : list (string * option string) :=
  map (fun m => opt "--mount" (bind_mount (fst m) (snd m) ++ suffix)) mounts.

Definition sandbox_items (p : SandboxPolicy) : list (string * option string) :=
  [("--rm", None); opt "--name" (sp_container_name p); opt "--user" "1000:1000";
   opt "--security-opt" "no-new-privileges:true"; opt "--cap-drop" "ALL"; opt "--memory" (sp_memory p);
   opt "--cpus" (sp_cpus p); opt "--pids-limit" (str_of_int (sp_pids_limit p));
   opt "--ulimit" ("nofile=" ++ str_of_int (sp_nofile_limit p) ++ ":" ++ str_of_int (sp_nofile_limit p));
   ("--read-only", None); opt "--tmpfs" ("/tmp:rw,noexec,nosuid,nodev,size=" ++ sp_tmpfs_size p);
   opt "--tmpfs" "/run:rw,noexec,nosuid,nodev,size=64m"; ("--init", None);
   opt "--mount" (bind_mount (sp_workspace_host p) (sp_workspace_container p))]%string
  ++ match sp_seccomp_profile p with Some f => [opt "--security-opt" ("seccomp=" ++ f)] | None => [] end
  ++ mount_items ",readonly" (sp_readonly_mounts p) ++ mount_items "" (sp_readwrite_mounts p)
  ++ map (fun e => opt "--env" (fst e ++ "=" ++ snd e)) (sp_environment p)
  ++ match sp_network_name p with Some n => [opt "--network" n] | None => [] end
  ++ map (fun q => opt "--publish" ("127.0.0.1:" ++ str_of_int (fst q) ++ ":" ++ str_of_int (snd q))) (sp_published_ports p)
  ++ (if sp_gpu_enabled p then [opt "--gpus" "all"] else []).

Lemma encode_app a b : encode_items (a ++ b) = encode_items a ++ encode_items b.
Proof. apply flat_map_app. Qed.

Lemma encode_map {A} (f : A -> string * string) l :
  encode_items (map (fun a => opt (fst (f a)) (snd (f a))) l) = flat_map (fun a => [fst (f a); snd (f a)]) l.
Proof. induction l as [|a l IH]; [reflexivity|]. cbn [map encode_items flat_map fst snd opt app]. now f_equal; f_equal. Qed.

Lemma sandbox_options_items p : sandbox_options p = encode_items (sandbox_items p).
Proof.
  unfold sandbox_options, sandbox_items. rewrite !encode_app. f_equal.
  f_equal; [now destruct (sp_seccomp_profile p)|].
  f_equal; [symmetry; apply (encode_map (fun m => ("--mount", bind_mount (fst m) (snd m) ++ ",readonly")%string))|].
  f_equal; [symmetry; apply (encode_map (fun m => ("--mount", bind_mount (fst m) (snd m) ++ "")%string))|].
  f_equal; [symmetry; apply (encode_map (fun e => ("--env", fst e ++ "=" ++ snd e)%string))|].
  f_equal; [now destruct (sp_network_name p)|].
  f_equal; [symmetry; apply (encode_map (fun q => ("--publish", "127.0.0.1:" ++ str_of_int (fst q) ++ ":" ++ str_of_int (snd q))%string))|].
  now destruct (sp_gpu_enabled p).
Qed.

Lemma items_ok_map {A} name (f : A -> string) l :
  item_ok (opt name "") = true -> forallb item_ok (map (fun a => opt name (f a)) l) = true.
Proof. intros H. apply forallb_forall. intros i Hi. apply in_map_iff in Hi as (a & <- & _). exact H. Qed.

Lemma sandbox_items_ok p : forallb item_ok (sandbox_items p) = true.
Proof.
  unfold sandbox_items. rewrite !forallb_app. unfold mount_items.
  rewrite !items_ok_map by reflexivity. destruct (sp_seccomp_profile p), (sp_network_name p), (sp_gpu_enabled p); reflexivity.
Qed.

(** The values of one option among items. *)
Definition item_values (name : string) (items : list (string * option string)) : list string :=
  omap (fun i => if String.eqb (fst i) name then snd i else None) items.

Lemma option_values_items name items image command :
  option_values name (config_of items image command) = item_values name items.
Proof.
  unfold option_values, item_values, config_of. cbn [rc_options].
  induction items as [|[x [v|]] items IH]; cbn [omap list_omap option_map fst snd]; [reflexivity| |].
  - cbn [List.filter fst]. destruct (String.eqb x name); cbn [map snd]; rewrite IH; reflexivity.
  - rewrite IH. now destruct (String.eqb x name).
Qed.

Lemma item_values_app name a b : item_values name (a ++ b) = item_values name a ++ item_values name b.
Proof. apply omap_app. Qed.

Lemma item_values_map {A} name other (f : A -> string) l :
  item_values name (map (fun a => opt other (f a)) l) = if String.eqb other name then map f l else [].
Proof.
  induction l as [|a l IH]; cbn [map item_values omap list_omap opt fst snd]; [now destruct (String.eqb other name)|].
  fold (item_values name (map (fun a => opt other (f a)) l)). rewrite IH. now destruct (String.eqb other name).
Qed.


Definition mount_of (ro : bool) (m : string * string) : BindMount := mkBindMount (fst m) (snd m) ro.

(** The bind mounts a policy asks for. *)
Definition policy_mounts (p : SandboxPolicy) : list BindMount :=
  mount_of false (sp_workspace_host p, sp_workspace_container p)
  :: map (mount_of true) (sp_readonly_mounts p) ++ map (mount_of false) (sp_readwrite_mounts p).

Lemma mount_values p : item_values "--mount" (sandbox_items p)
  = bind_mount (sp_workspace_host p) (sp_workspace_container p)
    :: map (fun m => bind_mount (fst m) (snd m) ++ ",readonly")%string (sp_readonly_mounts p)
    ++ map (fun m => bind_mount (fst m) (snd m) ++ "")%string (sp_readwrite_mounts p).
Proof.
  unfold sandbox_items, mount_items. rewrite !item_values_app, !item_values_map.
  destruct (sp_seccomp_profile p), (sp_network_name p), (sp_gpu_enabled p); cbn; now rewrite ?app_nil_r.
Qed.

Lemma env_values p :
  item_values "--env" (sandbox_items p) = map (fun e => fst e ++ "=" ++ snd e)%string (sp_environment p).
Proof.
  unfold sandbox_items, mount_items. rewrite !item_values_app, !item_values_map.
  destruct (sp_seccomp_profile p), (sp_network_name p), (sp_gpu_enabled p); cbn; now rewrite ?app_nil_r.
Qed.

Lemma publish_values p : item_values "--publish" (sandbox_items p)
  = map (fun q => "127.0.0.1:" ++ str_of_int (fst q) ++ ":" ++ str_of_int (snd q))%string (sp_published_ports p).
Proof.
  unfold sandbox_items, mount_items. rewrite !item_values_app, !item_values_map.
  destruct (sp_seccomp_profile p), (sp_network_name p), (sp_gpu_enabled p); cbn; now rewrite ?app_nil_r.
Qed.

(** The options that drop privileges, and the names of all options. *)
Lemma fixed_values p :
  item_values "--user" (sandbox_items p) = ["1000:1000"%string] /\
  item_values "--cap-drop" (sandbox_items p) = ["ALL"%string] /\
  (exists rest, item_values "--security-opt" (sandbox_items p) = "no-new-privileges:true"%string :: rest) /\
  item_values "--network" (sandbox_items p) = match sp_network_name p with Some n => [n] | None => [] end.
Proof.
  unfold sandbox_items, mount_items. rewrite !item_values_app, !item_values_map.
  destruct (sp_seccomp_profile p), (sp_network_name p), (sp_gpu_enabled p); cbn; eauto 10.
Qed.

Definition SANDBOX_OPTIONS : list string :=
  ["--name"; "--user"; "--security-opt"; "--cap-drop"; "--memory"; "--cpus"; "--pids-limit"; "--ulimit"; "--tmpfs";
   "--mount"; "--env"; "--network"; "--publish"; "--gpus"]%string.

Lemma sandbox_item_names p :
  forallb (fun i => is_none (snd i) || str_mem (fst i) SANDBOX_OPTIONS) (sandbox_items p) = true.
Proof.
  assert (Hmap : forall A name (f : A -> string) l, str_mem name SANDBOX_OPTIONS = true ->
    forallb (fun i : string * option string => is_none (snd i) || str_mem (fst i) SANDBOX_OPTIONS)
      (map (fun a => opt name (f a)) l) = true).
  { intros A name f l H. apply forallb_forall. intros i Hi. apply in_map_iff in Hi as (a & <- & _). exact H. }
  unfold sandbox_items, mount_items. rewrite !forallb_app, !Hmap by reflexivity.
  destruct (sp_seccomp_profile p), (sp_network_name p), (sp_gpu_enabled p); reflexivity.
Qed.

(** ** What validation guarantees *)
Lemma for_each_ok {A} (f : A -> res unit) l : for_each f l = Ok tt <-> Forall (fun a => f a = Ok tt) l.
Proof.
  induction l as [|a l IH]; cbn [for_each]; [easy|]. rewrite Forall_cons, rbind_ok. split.
  - intros ([] & Ha & Hl). tauto.
  - intros [Ha Hl]. exists tt. tauto.
Qed.

Lemma value_error_if_ok b msg u : value_error_if b msg = Ok u <-> b = false.
Proof. apply raise_if_ok. Qed.

Lemma validate_destinations_ok seen mounts :
  validate_destinations seen mounts = Ok tt ->
  Forall (fun m => validate_container_path (snd m) = Ok tt) mounts /\
  NoDup (map snd mounts) /\ Forall (fun m => ~ In (snd m) seen) mounts.
Proof.
  revert seen. induction mounts as [|[h c] mounts IH]; intros seen; cbn [validate_destinations map snd].
  { repeat constructor. }
  intros H. apply rbind_ok in H as ([] & Hc & H). apply rbind_ok in H as ([] & Hs & H).
  apply value_error_if_ok in Hs. destruct (IH _ H) as (H1 & H2 & H3). split_and!; [now constructor| |].
  - apply NoDup_cons. split; [|exact H2]. rewrite list_elem_of_In. intros Hin. apply in_map_iff in Hin as (m & E & Hm).
    rewrite Forall_forall in H3. apply (H3 m); [now apply list_elem_of_In|]. left. congruence.
  - constructor.
    + cbn [snd]. rewrite <- str_mem_In. congruence.
    + eapply Forall_impl; [exact H3|]. intros m Hm Hin. apply Hm. now right.
Qed.

Section Validated.
Context (resolve : string -> res (list string)) (resolve_file : string -> res string) (is_file : string -> bool).

(** The parts of the check that the later theorems read. *)
Lemma validate_sandbox_policy_ok p home net :
  validate_sandbox_policy resolve resolve_file is_file p home net = Ok tt ->
  validate_mount_policy resolve p home = Ok tt /\
  validate_destinations [] (all_mounts p) = Ok tt /\
  Forall (fun m => has_comma (fst m) = false /\ has_comma (snd m) = false) (all_mounts p) /\
  Forall (fun e => validate_environment_entry e = Ok tt) (sp_environment p) /\
  Forall (fun q => port_ok (fst q) = true /\ port_ok (snd q) = true) (sp_published_ports p).
Proof.
  intros H. unfold validate_sandbox_policy in H.
  repeat (apply rbind_ok in H as ([] & ? & H)).
  repeat match goal with K : for_each _ _ = Ok tt |- _ => apply for_each_ok in K end.
  split_and!; try assumption; (eapply Forall_impl; [eassumption|]); cbv beta; intros x Hx;
    apply value_error_if_ok in Hx.
  - now apply orb_false_iff in Hx.
  - apply negb_false_iff in Hx. now apply andb_true_iff in Hx.
Qed.

(** What a resolved host path must not be. *)
Definition confined (docker_socket home resolved : list string) : Prop :=
  resolved <> [] /\ resolved <> docker_socket /\
  ~ In (lower (List.last resolved ""%string)) CONTROL_NAMES /\
  is_prefix resolved home = false /\
  Forall (fun part => ~ In (lower part) FORBIDDEN_PARTS) resolved.

Lemma validate_mount_ok docker_socket home host :
  validate_mount resolve docker_socket home host = Ok tt ->
  exists resolved, resolve host = Ok resolved /\ confined docker_socket home resolved.
Proof.
  unfold validate_mount. intros H. apply rbind_ok in H as (resolved & Hr & H). exists resolved. split; [exact Hr|].
  repeat (apply rbind_ok in H as ([] & ?%value_error_if_ok & H)).
  unfold confined. split_and!; try assumption.
  - now destruct resolved.
  - unfold parts_eqb in *. now eapply bool_decide_eq_false_1; eauto.
  - rewrite <- str_mem_In. congruence.
  - apply Forall_forall. intros part Hp Hin. apply list_elem_of_In in Hp. apply str_mem_In in Hin.
    assert (E : existsb (fun x => str_mem (lower x) FORBIDDEN_PARTS) resolved = true); [|congruence].
    apply existsb_exists. eauto.
Qed.

End Validated.

Lemma sandbox_flags p :
  map fst (List.filter (fun i => is_none (snd i)) (sandbox_items p)) = ["--rm"; "--read-only"; "--init"]%string.
Proof.
  assert (Hmap : forall A name (f : A -> string) l,
    List.filter (fun i : string * option string => is_none (snd i)) (map (fun a => opt name (f a)) l) = []).
  { intros A name f l. induction l as [|a l IH]; [reflexivity|]. exact IH. }
  unfold sandbox_items, mount_items. rewrite !List.filter_app, !Hmap.
  destruct (sp_seccomp_profile p), (sp_network_name p), (sp_gpu_enabled p); reflexivity.
Qed.

Lemma config_option_names items image command :
  forallb (fun i => is_none (snd i) || str_mem (fst i) SANDBOX_OPTIONS) items = true ->
  Forall (fun o => In (fst o) SANDBOX_OPTIONS) (rc_options (config_of items image command)).
Proof.
  cbn [rc_options config_of]. induction items as [|[x [v|]] items IH]; cbn [forallb omap list_omap option_map fst snd is_none orb]; intros H.
  - constructor.
  - apply andb_true_iff in H as [H1 H2]. constructor; [now apply str_mem_In|now apply IH].
  - now apply IH.
Qed.

Section Argv.
Context (resolve : string -> res (list string)) (resolve_file : string -> res string) (is_file : string -> bool).

Lemma omap_all {A B} (f : A -> option B) (g : A -> B) l :
  Forall (fun a => f a = Some (g a)) l -> omap f l = map g l.
Proof. induction 1 as [|a l H _ IH]; [reflexivity|]. cbn. now rewrite H, IH. Qed.

Lemma omap_map {A B C} (f : B -> option C) (g : A -> B) l : omap f (map g l) = omap (fun a => f (g a)) l.
Proof. induction l as [|a l IH]; [reflexivity|]. cbn. now rewrite IH. Qed.

Lemma parse_mounts_back p :
  Forall (fun m => has_comma (fst m) = false /\ has_comma (snd m) = false) (all_mounts p) ->
  omap parse_mount (item_values "--mount" (sandbox_items p)) = policy_mounts p.
Proof.
  intros H. rewrite mount_values. unfold policy_mounts. apply Forall_cons in H as [[Hw1 Hw2] H].
  apply Forall_app in H as [Hro Hrw].
  pose proof (parse_mount_back (sp_workspace_host p) (sp_workspace_container p) false Hw1 Hw2) as E.
  rewrite string_app_nil_r in E. cbn [omap list_omap]. rewrite E. f_equal.
  change (list_omap string BindMount parse_mount) with (omap (M := list) parse_mount).
  etransitivity; [apply omap_app|]. rewrite !omap_map. f_equal; apply omap_all; (eapply Forall_impl; [eassumption|]);
    intros m [H1 H2]; [apply (parse_mount_back _ _ true H1 H2)|apply (parse_mount_back _ _ false H1 H2)].
Qed.

Lemma parse_envs_back p : Forall (fun e => validate_environment_entry e = Ok tt) (sp_environment p) ->
  omap parse_env (item_values "--env" (sandbox_items p)) = sp_environment p.
Proof.
  intros H. rewrite env_values, omap_map. rewrite (omap_all _ (fun e => e)); [apply map_id|].
  eapply Forall_impl; [exact H|]. intros [k v] He. cbv beta. unfold validate_environment_entry in He.
  apply rbind_ok in He as ([] & He%value_error_if_ok & _). repeat apply orb_false_iff in He as [He ?].
  unfold parse_env. cbn [fst snd]. apply split_once_app. now apply has_char_false.
Qed.

(** The loopback address of a published port. *)
Definition published (q : Z * Z) : string * string * string := ("127.0.0.1"%string, str_of_int (fst q), str_of_int (snd q)).

Lemma str_of_int_no_colon z : all_chars (no_sep ":") (str_of_int z) = true.
Proof. apply str_of_int_chars; [reflexivity|]. intros c Hc. by_chars c. Qed.

Lemma parse_publish_back q :
  parse_publish ("127.0.0.1:" ++ str_of_int (fst q) ++ ":" ++ str_of_int (snd q)) = Some (published q).
Proof.
  unfold parse_publish.
  change ("127.0.0.1:" ++ str_of_int (fst q) ++ ":" ++ str_of_int (snd q))%string
    with (str_join ":" ["127.0.0.1"%string; str_of_int (fst q); str_of_int (snd q)]).
  rewrite split_join; [reflexivity|discriminate|]. cbn [forallb]. now rewrite !str_of_int_no_colon.
Qed.

(** C18: reading the [docker run] argument vector back gives the policy, and
    nothing but the policy: the options end at the image, the command is
    unchanged, the bind mounts are the policy's with their read-only flags,
    the environment is the policy's entry by entry, every port is published
    on 127.0.0.1 only, the container runs as user 1000 without capabilities
    and new privileges, read-only and removed on exit, and no option outside
    the fixed list occurs.  (An image that starts with a dash would be read
    as an option; validation does not exclude it.) *)
Theorem argv_parses_back p home command argv :
  docker_run_argv resolve resolve_file is_file p home command = Ok argv -> starts_with "-" (sp_image p) = false ->
  exists rest c, argv = "docker"%string :: "run"%string :: rest /\ parse_run rest = Some c /\
    rc_image c = sp_image p /\ rc_command c = command /\
    omap parse_mount (option_values "--mount" c) = policy_mounts p /\
    omap parse_env (option_values "--env" c) = sp_environment p /\
    omap parse_publish (option_values "--publish" c) = map published (sp_published_ports p) /\
    option_values "--user" c = ["1000:1000"%string] /\ option_values "--cap-drop" c = ["ALL"%string] /\
    (exists more, option_values "--security-opt" c = "no-new-privileges:true"%string :: more) /\
    option_values "--network" c = match sp_network_name p with Some n => [n] | None => [] end /\
    rc_flags c = ["--rm"; "--read-only"; "--init"]%string /\
    Forall (fun o => In (fst o) SANDBOX_OPTIONS) (rc_options c).
Proof.
  intros H Himage. unfold docker_run_argv in H. apply rbind_ok in H as ([] & Hv & H).
  apply rbind_ok in H as ([] & _ & H). apply validate_sandbox_policy_ok in Hv as (_ & _ & Hcomma & Henv & _).
  rewrite sandbox_options_items in H. assert (Ea : argv = ["docker"; "run"]%string ++ encode_items (sandbox_items p) ++ sp_image p :: command) by congruence.
  exists (encode_items (sandbox_items p) ++ sp_image p :: command), (config_of (sandbox_items p) (sp_image p) command).
  split; [exact Ea|]. split; [apply parse_items; [apply sandbox_items_ok|exact Himage]|].
  rewrite !option_values_items. destruct (fixed_values p) as (F1 & F2 & F3 & F4). split_and!; try assumption; try reflexivity.
  - now apply parse_mounts_back.
  - now apply parse_envs_back.
  - rewrite publish_values, omap_map. apply omap_all, Forall_true. apply parse_publish_back.
  - apply sandbox_flags.
  - apply config_option_names, sandbox_item_names.
Qed.
End Argv.

(** ** Witnesses *)

(** A host without symbolic links. *)
Definition plain_resolve (s : string) : res (list string) :=
  Ok (List.filter (fun x => negb (String.eqb x "")) (split_on "/" s)).
Definition plain_file (s : string) : res string := Ok s.

Definition sample_policy : SandboxPolicy :=
  mkSandboxPolicy "registry/image@sha256:0" "nl-session" "/srv/ws" "/workspace" [("/srv/data,1", "/data")]%string
    [("/srv/out", "/out")]%string [("MODE", "a=b")]%string "8g" "4.0" 1024 false None (Some "nl-net"%string)
    [(40001, 8888)] "512m" 4096.
Definition good_policy : SandboxPolicy :=
  mkSandboxPolicy "registry/image@sha256:0" "nl-session" "/srv/ws" "/workspace" [("/srv/data", "/data")]%string
    [("/srv/out", "/out")]%string [("MODE", "a=b")]%string "8g" "4.0" 1024 false None (Some "nl-net"%string)
    [(40001, 8888)] "512m" 4096.

Definition validates (p : SandboxPolicy) : res unit :=
  validate_sandbox_policy plain_resolve plain_file (fun _ => true) p "/home/user" true.

Definition with_workspace (host : string) : SandboxPolicy :=
  mkSandboxPolicy "i" "c" host "/workspace" [] [] [] "8g" "4.0" 1 false None (Some "n"%string) [] "512m" 1.

Example validate_ex :
  map validates [good_policy; sample_policy; with_workspace "/"; with_workspace "/home"; with_workspace "/home/user";
                 with_workspace "/srv/.SSH/keys"; with_workspace "/run/Docker.sock"]%string
  = [Ok tt; Err (ValueError "Docker mount paths must not contain commas");
     Err (ValueError "filesystem root must not be mounted"); Err (ValueError "whole home directory must not be mounted");
     Err (ValueError "whole home directory must not be mounted");
     Err (ValueError "credential directory must not be mounted: /srv/.SSH/keys");
     Err (ValueError "container-control sockets must not be mounted")].
Proof. vm_compute. reflexivity. Qed.

(** An image that starts with a dash passes the check and is read as an option. *)
Definition dashed_policy : SandboxPolicy :=
  mkSandboxPolicy "--privileged" "c" "/srv/ws" "/workspace" [] [] [] "8g" "4.0" 1 false None None [] "512m" 1.

Example dashed_image_ex :
  match docker_run_argv plain_resolve plain_file (fun _ => true) dashed_policy "/home/user" ["jupyter"; "lab"]%string with
  | Ok (_ :: _ :: rest) => option_map (fun c => (rc_image c, option_values "--privileged" c)) (parse_run rest)
  | _ => None
  end = Some ("lab"%string, ["jupyter"%string]).
Proof. vm_compute. reflexivity. Qed.


Lemma argv_parses_back_witness :
  exists rest c, parse_run rest = Some c /\ omap parse_mount (option_values "--mount" c) = policy_mounts good_policy.
Proof.
  destruct (argv_parses_back plain_resolve plain_file (fun _ => true) good_policy "/home/user" ["jupyter"%string]
              _ eq_refl eq_refl) as (rest & c & _ & Hp & _ & _ & Hm & _).
  exists rest, c. auto.
Defined.
