(* ===== verification/Runtime.v ===== *)
(** * GPUs and the container runtime (src/notebook_launcher/runtime.py)

    Reading the device list, deciding what a container gets, and
    [DockerRuntime], which starts a container only under a network policy that
    holds at that moment.  The runner is the one of Network: it may answer each
    command depending on the commands before it. *)
From S2P Require Export Sandbox.

Record GPUDevice := mkGPUDevice { gd_uuid : string; gd_name : string }.

Record GPUProbeResult := mkGPUProbeResult {
  gp_available : bool;
  gp_devices : list GPUDevice;
  gp_error : option string }.

Record GPUAllocation := mkGPUAllocation {
  ga_requested_mode : GPU;
  ga_enabled : bool;
  ga_devices : list GPUDevice;
  ga_host_available : bool;
  ga_container_available : bool;
  ga_reason : option string }.

Record RuntimeStartResult := mkRuntimeStart {
  rs_container_id : string;
  rs_argv : list string;
  rs_sandbox_verified : bool;
  rs_network_verified : bool;
  rs_gpu_enabled : bool;
  rs_ready : bool }.

Record RuntimeReadiness := mkRuntimeReadiness {
  rr_container_id : string;
  rr_sandbox_verified : bool;
  rr_network_verified : bool;
  rr_collaboration_ready : bool;
  rr_ready : bool }.

(** ** Probes *)
Definition probe_failed (error : string) : GPUProbeResult := mkGPUProbeResult false [] (Some error).

Fixpoint parse_gpu_lines (lines : list string) : list GPUDevice :=
  match lines with
  | [] => []
  | line :: rest =>
      if is_blank line then parse_gpu_lines rest
      else match split_once "," line with
           | Some (uuid, name) => mkGPUDevice (strip uuid) (strip name) :: parse_gpu_lines rest
           | None => parse_gpu_lines rest
           end
  end.

Definition parse_gpu_devices (out : string) : GPUProbeResult :=
  let devices := parse_gpu_lines (splitlines out) in
  mkGPUProbeResult (match devices with [] => false | _ => true end) devices None.

(** [type(exc).__name__] of [OSError] and [subprocess.SubprocessError]. *)
Definition process_failure (e : exn) : option string :=
  match e with
  | SubprocessError cls => Some cls
  | OSError _ => Some "OSError"%string
  | FileNotFoundError _ => Some "FileNotFoundError"%string
  | FileExistsError _ => Some "FileExistsError"%string
  | _ => None
  end.

(** The same with [ExecutionTimeout]. *)
Definition runtime_failure (e : exn) : option string :=
  match e with
  | LauncherExn x => if bool_decide (x = ExecutionTimeout) then Some "ExecutionTimeout"%string else None
  | _ => process_failure e
  end.

(** What [subprocess.run] gave for [nvidia-smi]. *)
Definition probe_nvidia (answer : res CommandResult) : res GPUProbeResult :=
  match answer with
  | Err e => match process_failure e with Some name => Ok (probe_failed name) | None => Err e end
  | Ok r => if negb (returncode r =? 0) then Ok (probe_failed "nvidia_smi_failed")
            else Ok (parse_gpu_devices (stdout r))
  end.

Definition gpu_probe_argv (image : string) : list string :=
  ["docker"; "run"; "--rm"; "--network"; "none"; "--security-opt"; "no-new-privileges:true"; "--cap-drop"; "ALL";
   "--user"; "1000:1000"; "--read-only"; "--pids-limit"; "64"; "--memory"; "1g"; "--cpus"; "1"; "--gpus"; "all";
   image; "nvidia-smi"; "--query-gpu=uuid,name"; "--format=csv,noheader"]%string.

(** Runs one command and hands on what it raised. *)
Definition call_runner (runner : Runner) (argv : list string) : Eff History CommandResult := fun h =>
  (h ++ [argv], runner h argv).

Definition probe_nvidia_container (runner : Runner) (image : string) : Eff History GPUProbeResult :=
  if is_blank image || has_char NUL image then eff_raise (ValueError "container image is required")
  else fun h =>
    match call_runner runner (gpu_probe_argv image) h with
    | (h', Err e) => (h', match runtime_failure e with Some name => Ok (probe_failed name) | None => Err e end)
    | (h', Ok r) => (h', Ok (if negb (returncode r =? 0) then probe_failed "container_gpu_probe_failed"
                             else parse_gpu_devices (stdout r)))
    end.

(** ** Deciding *)
Definition effective_gpu_enabled (mode : GPU) (probe : GPUProbeResult) : res bool :=
  match mode with
  | GPU_OFF => Ok false
  | GPU_ON =>
      if negb (gp_available probe)
      then Err (RuntimeError "GPU-required mode requested but no usable NVIDIA GPU is available") else Ok true
  | GPU_AUTO => Ok (gp_available probe)
  end.

Definition no_gpu (error : option string) : GPUProbeResult := mkGPUProbeResult false [] error.

Definition device_ids (p : GPUProbeResult) : gset string := list_to_set (map gd_uuid (gp_devices p)).

(** [detail or 'unavailable'] *)
Definition or_unavailable (o : option string) : string :=
  match o with Some s => if String.eqb s "" then "unavailable" else s | None => "unavailable" end.

Definition effective_gpu_probe (mode : GPU) (host : GPUProbeResult) (container : option GPUProbeResult)
  : res GPUProbeResult :=
  if bool_decide (mode = GPU_OFF) then Ok (no_gpu None)
  else
    match container with
    | Some c =>
        if gp_available host && gp_available c then
          if negb (bool_decide (device_ids host = device_ids c)) then
            if bool_decide (mode = GPU_ON)
            then Err (RuntimeError "GPU-required mode requested but host/container device identities differ")
            else Ok (no_gpu (Some "device_identity_mismatch"%string))
          else Ok (mkGPUProbeResult true (gp_devices c) None)
        else if bool_decide (mode = GPU_ON)
        then Err (RuntimeError ("GPU-required mode requested but the NVIDIA device is not usable inside the runtime ("
                    ++ or_unavailable (if gp_available host then gp_error c else gp_error host) ++ ")"))
        else Ok (no_gpu None)
    | None =>
        if bool_decide (mode = GPU_ON)
        then Err (RuntimeError ("GPU-required mode requested but the NVIDIA device is not usable inside the runtime ("
                    ++ or_unavailable (gp_error host) ++ ")"))
        else Ok (no_gpu None)
    end.

Definition resolve_gpu_allocation (mode : GPU) (host : GPUProbeResult) (container : option GPUProbeResult)
  : res GPUAllocation :=
  let! effective := effective_gpu_probe mode host container in
  let reason :=
    if bool_decide (mode = GPU_OFF) then Some "disabled_by_policy"%string
    else if negb (gp_available effective) && is_none (gp_error effective) then Some "usable_gpu_unavailable"%string
    else gp_error effective in
  Ok (mkGPUAllocation mode (gp_available effective) (gp_devices effective) (gp_available host)
        (match container with Some c => gp_available c | None => false end) reason).

(** ** [DockerRuntime] *)

(** The values after [--publish]. *)
Fixpoint published_values (argv : list string) : list string :=
  match argv with
  | x :: ((y :: _) as rest) => (if String.eqb x "--publish" then [y] else []) ++ published_values rest
  | _ => []
  end.

Definition policy_error_if (b : bool) (msg : string) : res unit := raise_if b (RuntimePolicyError msg).

(** The checks of the attestation, in the order of the source. *)
Definition check_attestation (p : SandboxPolicy) (a : NetworkPolicyAttestation) : res unit :=
  let! _ := policy_error_if (negb (at_verified a)) "network policy is not verified" in
  let! _ := policy_error_if ((at_commands_verified a <=? 0) || negb (at_deny_non_global a))
    "non-global destination denial is not verified" in
  let! _ := policy_error_if (negb (at_dns_exceptions_port_53_only a)) "DNS exception scope is not verified" in
  let! _ := policy_error_if (at_host_gateway_alias_present a) "host gateway alias is forbidden" in
  let! _ := policy_error_if (negb (bool_decide (sp_network_name p = Some (at_network_name a))))
    "sandbox network does not match verified network" in
  policy_error_if (match at_verification_commands a with [] => true | _ => false end)
    "network attestation has no verification evidence".

Definition check_argv (argv : list string) : res unit :=
  let! _ := policy_error_if (str_mem "--add-host" argv || existsb (contains "host-gateway") argv)
    "host gateway aliases are forbidden" in
  policy_error_if (existsb (fun v => negb (starts_with "127.0.0.1:" v)) (published_values argv))
    "published ports must bind to loopback".

(** [(argv[0], argv[1], "--detach", argv[2:])] *)
Definition detached (argv : list string) : list string := firstn 2 argv ++ "--detach"%string :: skipn 2 argv.

Section DockerRuntime.
Context (runner : Runner) (resolve : string -> res (list string)) (resolve_file : string -> res string)
  (is_file : string -> bool).
(** [self.home], and [Path.home()] of the process, which [docker_run_argv] uses. *)
Context (home process_home : string).

(** Runs a command and turns the failures of the process into a policy error. *)
Definition run_guarded (argv : list string) : Eff History CommandResult := fun h =>
  match call_runner runner argv h with
  | (h', Err e) => (h', match runtime_failure e with Some name => Err (RuntimePolicyError name) | None => Err e end)
  | r => r
  end.

Definition reverify : list (list string) -> Eff History unit :=
  eff_iter (fun command =>
    verification ← call_runner runner command;
    eff_raise_if (negb (returncode verification =? 0)) (RuntimePolicyError "network policy verification is stale")).

Definition runtime_start (p : SandboxPolicy) (command : list string) (a : NetworkPolicyAttestation)
  : Eff History RuntimeStartResult :=
  _ ← eff_lift (validate_sandbox_policy resolve resolve_file is_file p home true);
  _ ← eff_lift (check_attestation p a);
  _ ← reverify (at_verification_commands a);
  argv ← eff_lift (docker_run_argv resolve resolve_file is_file p process_home command);
  _ ← eff_lift (check_argv argv);
  result ← run_guarded (detached argv);
  _ ← eff_raise_if (negb (returncode result =? 0))
        (RuntimePolicyError ("docker_run_failed_" ++ str_of_int (returncode result)));
  _ ← eff_raise_if (String.eqb (strip (stdout result)) "") (RuntimePolicyError "docker_run_missing_container_id");
  mret (mkRuntimeStart (strip (stdout result)) (detached argv) true true (sp_gpu_enabled p) false).

Definition inspect_running_argv (container_id : string) : list string :=
  ["docker"; "inspect"; "--format"; "{{.State.Running}}"; container_id]%string.

Definition runtime_readiness (started : RuntimeStartResult) (collaboration_ready : bool)
  : Eff History RuntimeReadiness :=
  _ ← eff_lift (policy_error_if (negb (rs_sandbox_verified started)) "sandbox policy is not verified");
  _ ← eff_lift (policy_error_if (negb (rs_network_verified started)) "network policy is not verified");
  _ ← eff_lift (policy_error_if (negb collaboration_ready) "Jupyter collaboration is not ready");
  result ← run_guarded (inspect_running_argv (rs_container_id started));
  _ ← eff_raise_if (negb (returncode result =? 0) || negb (String.eqb (lower (strip (stdout result))) "true"))
        (RuntimePolicyError "runtime container is not running");
  mret (mkRuntimeReadiness (rs_container_id started) true true true true).
End DockerRuntime.

(** ** Starting fails closed *)
(** The verification commands run in order until one does not succeed. *)
Lemma reverify_trace runner cs h h' r : reverify runner cs h = (h', r) ->
  (exists k e, h' = h ++ firstn k cs /\ r = Err e) \/ (h' = h ++ cs /\ r = Ok tt /\ all_succeed runner h cs).
Proof.
  unfold reverify. revert h. induction cs as [|c cs IH]; intros h H; cbn [eff_iter] in H.
  - right. rewrite app_nil_r. split_and!; [congruence|congruence|exact I].
  - unfold mbind, eff_bind, call_runner in H. destruct (runner h c) as [x|e] eqn:Hr.
    + unfold eff_raise_if, raise_if in H. destruct (Z.eqb_spec (returncode x) 0) as [H0|H0]; cbn [negb] in H.
      * apply IH in H as [(k & e & -> & ->)|(-> & -> & Hs)]; rewrite <- app_assoc; [left; now exists (S k), e|].
        right. split_and!; eauto. split; eauto.
      * left. exists 1%nat, (RuntimePolicyError "network policy verification is stale").
        injection H as <- <-. auto.
    + left. exists 1%nat, e. injection H as <- <-. auto.
Qed.

(** What an accepted attestation says about the network of the policy. *)
Definition attested (p : SandboxPolicy) (a : NetworkPolicyAttestation) : Prop :=
  at_verified a = true /\ 0 < at_commands_verified a /\ at_deny_non_global a = true /\
  at_dns_exceptions_port_53_only a = true /\ at_host_gateway_alias_present a = false /\
  sp_network_name p = Some (at_network_name a) /\ at_verification_commands a <> [].

Lemma policy_error_if_ok b msg u : policy_error_if b msg = Ok u <-> b = false.
Proof. apply raise_if_ok. Qed.

Lemma check_attestation_ok p a : check_attestation p a = Ok tt -> attested p a.
Proof.
  unfold check_attestation. intros H. repeat (apply rbind_ok in H as ([] & ?%policy_error_if_ok & H)).
  apply policy_error_if_ok in H. unfold attested.
  repeat match goal with
  | K : negb _ = false |- _ => apply negb_false_iff in K
  | K : (_ || _) = false |- _ => apply orb_false_iff in K as [? ?]
  | K : bool_decide _ = true |- _ => apply bool_decide_eq_true in K
  end.
  split_and!; try assumption; [lia|]. now destruct (at_verification_commands a).
Qed.

Lemma run_guarded_trace runner argv h h' r : run_guarded runner argv h = (h', r) ->
  h' = h ++ [argv] /\ (forall x, r = Ok x -> runner h argv = Ok x).
Proof.
  unfold run_guarded, call_runner. destruct (runner h argv) as [x|e]; intros H; injection H as <- <-; split; try reflexivity.
  - auto.
  - intros x. destruct (runtime_failure e); congruence.
Qed.

(** Passes a check: in the first case it raised. *)
Tactic Notation "checked" hyp(H) "as" simple_intropattern(a) ident(E) :=
  apply eff_lift_bind in H as [(?e & E & -> & ->)|(a & E & H)].

Lemma runtime_start_trace runner resolve resolve_file is_file home process_home p command a h h' r :
  runtime_start runner resolve resolve_file is_file home process_home p command a h = (h', r) ->
  (exists k e, h' = h ++ firstn k (at_verification_commands a) /\ r = Err e) \/
  exists argv,
    validate_sandbox_policy resolve resolve_file is_file p home true = Ok tt /\ attested p a /\
    all_succeed runner h (at_verification_commands a) /\
    docker_run_argv resolve resolve_file is_file p process_home command = Ok argv /\ check_argv argv = Ok tt /\
    h' = h ++ at_verification_commands a ++ [detached argv] /\
    (forall s, r = Ok s -> exists result,
       runner (h ++ at_verification_commands a) (detached argv) = Ok result /\ returncode result = 0 /\
       strip (stdout result) <> ""%string /\
       s = mkRuntimeStart (strip (stdout result)) (detached argv) true true (sp_gpu_enabled p) false).
Proof.
  assert (Hnil : h = h ++ firstn 0 (at_verification_commands a)) by (now rewrite app_nil_r).
  assert (Hall : h ++ at_verification_commands a = h ++ firstn (List.length (at_verification_commands a)) (at_verification_commands a))
    by (now rewrite firstn_all).
  unfold runtime_start. intros H. checked H as [] E1; [left; eauto|]. checked H as [] E2; [left; eauto|].
  apply bind_inv in H as [(e & E & ->)|(h1 & [] & E & H)].
  { apply reverify_trace in E as [(k & e' & -> & _)|(-> & _ & _)]; left; eauto. }
  apply reverify_trace in E as [(k & e' & _ & [=])|(-> & _ & Hs)].
  checked H as argv E3; [left; eauto|]. checked H as [] E4; [left; eauto|].
  right. exists argv. apply check_attestation_ok in E2. split_and!; try assumption.
  - apply bind_inv in H as [(e & E & _)|(h2 & x & E & H)]; apply run_guarded_trace in E as [E _].
    + now rewrite app_assoc.
    + apply eff_raise_if_bind in H as [(_ & -> & _)|(_ & H)]; [now rewrite app_assoc|].
      apply eff_raise_if_bind in H as [(_ & -> & _)|(_ & H)]; [now rewrite app_assoc|].
      injection H as <- _. now rewrite app_assoc.
  - intros s ->. apply eff_bind_ok in H as (h2 & x & E & H). apply run_guarded_trace in E as [_ E]. exists x.
    apply eff_raise_if_bind in H as [(_ & _ & [=])|(E0 & H)]. apply eff_raise_if_bind in H as [(_ & _ & [=])|(E5 & H)].
    injection H as _ <-. apply negb_false_iff, Z.eqb_eq in E0. apply String.eqb_neq in E5. auto.
Qed.

Lemma mode_is_off mode : bool_decide (mode = GPU_OFF) = match mode with GPU_OFF => true | _ => false end.
Proof. now destruct mode. Qed.
Lemma mode_is_on mode : bool_decide (mode = GPU_ON) = match mode with GPU_ON => true | _ => false end.
Proof. now destruct mode. Qed.

Section Properties.
Context (runner : Runner) (resolve : string -> res (list string)) (resolve_file : string -> res string)
  (is_file : string -> bool) (home process_home : string).

(** C19: the runtime starts fail-closed.  Whatever the commands answer, either
    no command but an initial part of the attestation's own verification
    commands ran and the start raised, or the policy is valid and attached to
    the attested network, the attestation says that non-global destinations
    are denied, every verification command was run again just before and
    returned zero, and then exactly one container was started, from the
    argument vector of the policy, published on loopback and without a host
    gateway; the start returns only when that command returned zero and
    printed a container id. *)
Theorem start_fails_closed p command a h h' r :
  runtime_start runner resolve resolve_file is_file home process_home p command a h = (h', r) ->
  (exists k e, h' = h ++ firstn k (at_verification_commands a) /\ r = Err e) \/
  exists argv,
    attested p a /\ all_succeed runner h (at_verification_commands a) /\
    validate_sandbox_policy resolve resolve_file is_file p home true = Ok tt /\
    docker_run_argv resolve resolve_file is_file p process_home command = Ok argv /\
    h' = h ++ at_verification_commands a ++ [detached argv] /\
    ~ In "--add-host"%string argv /\ Forall (fun v => contains "host-gateway" v = false) argv /\
    Forall (fun v => starts_with "127.0.0.1:" v = true) (published_values argv) /\
    (forall s, r = Ok s -> exists result,
       runner (h ++ at_verification_commands a) (detached argv) = Ok result /\ returncode result = 0 /\
       rs_container_id s = strip (stdout result) /\ rs_container_id s <> ""%string /\
       rs_argv s = detached argv /\ rs_gpu_enabled s = sp_gpu_enabled p /\ rs_ready s = false).
Proof.
  intros H. apply runtime_start_trace in H as [H|(argv & Hv & Ha & Hs & Hargv & Hc & Hh & Hr)]; [now left|right].
  exists argv. unfold check_argv in Hc. apply rbind_ok in Hc as ([] & Hg%policy_error_if_ok & Hp%policy_error_if_ok).
  apply orb_false_iff in Hg as [Hg1 Hg2]. split_and!; try assumption.
  - rewrite <- str_mem_In. congruence.
  - now apply existsb_false.
  - apply existsb_false in Hp. eapply Forall_impl; [exact Hp|]. intros v. apply negb_false_iff.
  - intros s Es. destruct (Hr s Es) as (result & ? & ? & ? & ->). exists result. auto 10.
Qed.

End Properties.

(** A GPU reaches a container only when it should: the mode is not off,
    the host and the container both report devices, and the same ones; a
    launch that requires a GPU gets it or fails, never silently nothing; a
    launch that forbids it gets none; and a refusal carries a reason. *)
Theorem gpu_allocation_exact mode host container r :
  resolve_gpu_allocation mode host container = r ->
  let usable := exists c, container = Some c /\ gp_available host = true /\ gp_available c = true
                          /\ device_ids host = device_ids c in
  match r with
  | Ok a =>
      (ga_enabled a = true <-> mode <> GPU_OFF /\ usable) /\
      (mode = GPU_ON -> ga_enabled a = true) /\
      (ga_enabled a = true -> exists c, container = Some c /\ ga_devices a = gp_devices c /\ ga_reason a = None) /\
      (ga_enabled a = false -> ga_devices a = [] /\ ga_reason a <> None)
  | Err e => mode = GPU_ON /\ ~ usable /\ is_RuntimeError e = true
  end.
Proof.
  intros <- usable.
  assert (Hu : usable <-> match container with
                          | Some c => gp_available host && gp_available c && bool_decide (device_ids host = device_ids c)
                          | None => false
                          end = true).
  { unfold usable. destruct container as [c|]; [|split; [intros (c & [=] & _)|discriminate]].
    rewrite !andb_true_iff, bool_decide_eq_true. split; [intros (x & [= <-] & H); tauto|intros H; exists c; tauto]. }
  clearbody usable. unfold resolve_gpu_allocation, effective_gpu_probe.
  rewrite ?mode_is_off, ?mode_is_on. destruct container as [c|].
  - destruct (gp_available host), (gp_available c) eqn:Ec, (bool_decide (device_ids host = device_ids c)); cbn [andb] in Hu;
      destruct mode; cbn; rewrite ?Ec; (split_and!; try easy; try tauto; try intuition congruence; eauto);
      intros _; exists c; auto.
  - destruct mode; cbn; (split_and!; try easy; try tauto; intuition congruence).
Qed.

(** A readiness report needs the two verifications, the collaboration and a
    container that docker reports as running. *)
Lemma readiness_needs_everything runner started collab h h' r :
  runtime_readiness runner started collab h = (h', r) -> is_ok r = true ->
  rs_sandbox_verified started = true /\ rs_network_verified started = true /\ collab = true /\
  exists x, runner h (inspect_running_argv (rs_container_id started)) = Ok x /\ returncode x = 0 /\
    lower (strip (stdout x)) = "true"%string /\ h' = h ++ [inspect_running_argv (rs_container_id started)].
Proof.
  unfold runtime_readiness. intros H Hr.
  checked H as [] E1; [discriminate Hr|]. checked H as [] E2; [discriminate Hr|]. checked H as [] E3; [discriminate Hr|].
  apply policy_error_if_ok, negb_false_iff in E1, E2, E3. split_and!; try assumption.
  apply bind_inv in H as [(e & _ & ->)|(h1 & x & E & H)]; [discriminate Hr|]. apply run_guarded_trace in E as [-> E].
  apply eff_raise_if_bind in H as [(_ & _ & ->)|(E4 & H)]; [discriminate Hr|]. injection H as <- _.
  apply orb_false_iff in E4 as [E4 E5]. apply negb_false_iff in E4, E5. apply Z.eqb_eq in E4. apply String.eqb_eq in E5.
  exists x. auto.
Qed.

(** ** Witnesses *)
Definition good_attestation : NetworkPolicyAttestation :=
  mkAttestation "nl-net" "nl0" true 1 true true false [["iptables"; "-C"]%string].
Definition stale_attestation : NetworkPolicyAttestation :=
  mkAttestation "nl-net" "nl0" true 1 true true false [["iptables"; "-C"]; ["stale"]]%string.

(** A runner that starts containers and fails the command [stale]. *)
Definition starting_runner : Runner := fun _ c =>
  Ok (answer (if bool_decide (c = ["stale"%string]) then 1 else 0) "c0ffee").

Definition start_sample (a : NetworkPolicyAttestation) : History * res RuntimeStartResult :=
  runtime_start starting_runner plain_resolve plain_file (fun _ => true) "/home/user" "/home/user" good_policy
    ["jupyter"%string] a [].

Example start_ex :
  (fst (start_sample stale_attestation), snd (start_sample stale_attestation))
  = ([["iptables"; "-C"]; ["stale"]]%string, Err (RuntimePolicyError "network policy verification is stale"))
  /\ match snd (start_sample good_attestation) with Ok s => rs_container_id s | Err _ => ""%string end = "c0ffee"%string.
Proof. vm_compute. auto. Qed.

Lemma start_fails_closed_witness :
  exists k e, fst (start_sample stale_attestation) = [] ++ firstn k (at_verification_commands stale_attestation)
    /\ snd (start_sample stale_attestation) = Err e.
Proof.
  destruct (start_fails_closed starting_runner plain_resolve plain_file (fun _ => true) "/home/user" "/home/user"
              good_policy ["jupyter"%string] stale_attestation [] _ _ (surjective_pairing (start_sample stale_attestation)))
    as [H|(argv & _ & Hs & _)]; [exact H|].
  exfalso. destruct Hs as (_ & (x & Hx & H0) & _). vm_compute in Hx. injection Hx as <-. vm_compute in H0. discriminate H0.
Defined.

Definition one_gpu : GPUProbeResult := parse_gpu_devices ("GPU-1, RTX 4090" ++ String "010" "").

Lemma gpu_allocation_exact_witness :
  ga_enabled (mkGPUAllocation GPU_AUTO true (gp_devices one_gpu) true true None) = true <->
  GPU_AUTO <> GPU_OFF /\ exists c, Some one_gpu = Some c /\ gp_available one_gpu = true /\ gp_available c = true
                          /\ device_ids one_gpu = device_ids c.
Proof. exact (proj1 (gpu_allocation_exact GPU_AUTO one_gpu (Some one_gpu) (Ok _) eq_refl)). Defined.
