(* ===== verification/Repository.v ===== *)
(** * The source cache (src/notebook_launcher/repository.py)

    The digest of a source tree, the manifest, and [SourceCache], which fetches
    one commit of a public repository with git and keeps it under the cache's
    root.  Git, the directories and the other processes that use the cache
    answer every call from the calls made so far. *)
From S2P Require Export Triples Urls Command Crypto JsonText Models PosixPath.

Definition SOURCE_MANIFEST_NAME : string := ".notebook-launcher-source.sha256".

Record SourceSnapshot := mkSourceSnapshot {
  ss_root : string;
  ss_notebook : string;
  ss_repository_id : Z;
  ss_commit_sha : string;
  ss_tree_digest : string }.

(** ** [source_tree_digest] *)

(** One path below the root: its name relative to the root, the mode that
    [lstat] gives, and what [readlink] or [read_bytes] gives. *)
Record tree_entry := mkEntry { te_path : string; te_mode : Z; te_data : string }.

(** Python's [str.encode]; names that are not UTF-8 hold lone surrogates. *)
Definition encode_text (s : string) : res (list Z) :=
  if utf8_text s then Ok (str_encode s) else Err (ValueError "surrogates not allowed").

(** [n.to_bytes(k, "big")] *)
Fixpoint big_endian (k : nat) (n : Z) : list Z :=
  match k with
  | O => []
  | S k' => big_endian k' (n / 256) ++ [n mod 256]
  end.
Definition to_bytes (k : nat) (n : Z) : res (list Z) :=
  if n <? 256 ^ Z.of_nat k then Ok (big_endian k n) else Err OverflowError.

Inductive entry_kind := Symlink | Directory | Regular | Other.
#[export] Instance entry_kind_eq : EqDecision entry_kind. Proof. solve_decision. Defined.

(** [stat.S_IFMT] and [stat.S_IMODE] *)
Definition kind_of (mode : Z) : entry_kind :=
  let format := Z.land mode 0xf000 in
  if format =? 0xa000 then Symlink else if format =? 0x4000 then Directory
  else if format =? 0x8000 then Regular else Other.
Definition permissions (mode : Z) : Z := Z.land mode 0xfff.

Definition kind_byte (k : entry_kind) : Z :=
  match k with Symlink => 76 | Directory => 68 | Regular => 70 | Other => 79 end.

Definition payload_of (e : tree_entry) : res (list Z) :=
  match kind_of (te_mode e) with
  | Symlink => encode_text (te_data e)
  | Directory => Ok []
  | Regular => Ok (str_encode (te_data e))
  | Other => Ok (str_encode (str_of_int (te_mode e)))
  end.

Definition entry_bytes (relative : list Z) (e : tree_entry) : res (list Z) :=
  let! payload := payload_of e in
  let! mode := to_bytes 4 (permissions (te_mode e)) in
  let! name_length := to_bytes 8 (Z.of_nat (List.length relative)) in
  let! payload_length := to_bytes 8 (Z.of_nat (List.length payload)) in
  Ok (kind_byte (kind_of (te_mode e)) :: mode ++ name_length ++ relative ++ payload_length ++ payload).

(** The bytes that the entries feed into the digest, in their order. *)
Fixpoint entries_bytes (entries : list tree_entry) : res (list Z) :=
  match entries with
  | [] => Ok []
  | e :: rest =>
      let! relative := encode_text (te_path e) in
      if String.eqb (te_path e) SOURCE_MANIFEST_NAME then entries_bytes rest
      else
        let! bytes := entry_bytes relative e in
        let! more := entries_bytes rest in
        Ok (bytes ++ more)
  end.

(** [sorted(..., key=...as_posix())] of the distinct names of a tree. *)
Fixpoint insert_entry (e : tree_entry) (l : list tree_entry) : list tree_entry :=
  match l with
  | [] => [e]
  | x :: l' => if String.ltb (te_path e) (te_path x) then e :: l else x :: insert_entry e l'
  end.
Definition sort_entries (l : list tree_entry) : list tree_entry := foldr insert_entry [] l.

Definition tree_bytes (tree : list tree_entry) : res (list Z) := entries_bytes (sort_entries tree).
Definition source_tree_digest (tree : list tree_entry) : res string := rmap sha256_hex (tree_bytes tree).

(** ** [_validate_public_clone_url] *)
Definition github_name_char (c : ascii) : bool :=
  is_alnum c || Ascii.eqb c "_" || Ascii.eqb c "." || Ascii.eqb c "-".

(** [^/[A-Za-z0-9_.-]+/[A-Za-z0-9_.-]+\.git$] in full *)
Definition github_name (s : string) : bool := negb (String.eqb s "") && all_chars github_name_char s.
Definition github_path (path : string) : bool :=
  match split_on "/" path with
  | [front; owner; repository] =>
      String.eqb front "" && github_name owner && ends_with ".git" repository
      && github_name (str_take (String.length repository - 4) repository)
  | _ => false
  end.

Definition clone_url_error : exn := ValueError "clone URL must be a credential-free public GitHub HTTPS URL".

Definition validate_public_clone_url (clone_url owner repository : string) : res unit :=
  let! parsed := urlsplit clone_url in
  let expected_path := ("/" ++ owner ++ "/" ++ repository ++ ".git")%string in
  let! _ := raise_if (negb (String.eqb (us_scheme parsed) "https")
                      || negb (bool_decide (hostname parsed = Some "github.com"%string))
                      || is_some (username parsed) || is_some (password parsed)) clone_url_error in
  let! p := port parsed in
  raise_if (is_some p || negb (String.eqb (us_query parsed) "") || negb (String.eqb (us_fragment parsed) "")
            || negb (github_path (us_path parsed))
            || negb (String.eqb (lower (us_path parsed)) (lower expected_path))) clone_url_error.

(** [^[0-9a-fA-F]{40}$] in full *)
Definition is_sha (s : string) : bool := Nat.eqb (String.length s) 40 && all_chars hexadecimal s.

(** ** [_git_environment] *)
Definition git_environment_allowed : list string :=
  ["PATH"; "SystemRoot"; "WINDIR"; "TEMP"; "TMP"; "LANG"; "LC_ALL"; "SSL_CERT_FILE"; "SSL_CERT_DIR"]%string.
Definition git_environment (environ : gmap string string) : gmap string string :=
  list_to_map [("GIT_TERMINAL_PROMPT", "0"); ("GCM_INTERACTIVE", "Never"); ("GIT_CONFIG_NOSYSTEM", "1");
               ("GIT_CONFIG_GLOBAL", "/dev/null")]%string
  ∪ filter (fun kv => str_mem kv.1 git_environment_allowed = true) environ.

(** ** What the digest depends on *)
Definition visible (tree : list tree_entry) : list tree_entry :=
  List.filter (fun e => negb (String.eqb (te_path e) SOURCE_MANIFEST_NAME)) (sort_entries tree).

Definition payload_text (e : tree_entry) : string :=
  match kind_of (te_mode e) with
  | Symlink | Regular => te_data e
  | Directory => ""
  | Other => str_of_int (te_mode e)
  end.

Definition entry_view (e : tree_entry) : entry_kind * Z * string * string :=
  (kind_of (te_mode e), permissions (te_mode e), te_path e, payload_text e).

Lemma big_endian_length k n : List.length (big_endian k n) = k.
Proof. revert n. induction k as [|k IH]; intros n; [reflexivity|]. cbn [big_endian]. rewrite List.length_app, IH. simpl. lia. Qed.

Lemma big_endian_inj k a b : 0 <= a < 256 ^ Z.of_nat k -> 0 <= b < 256 ^ Z.of_nat k -> big_endian k a = big_endian k b -> a = b.
Proof.
  revert a b. induction k as [|k IH]; intros a b Ha Hb E; [simpl in *; lia|]. cbn [big_endian] in E.
  apply app_inj_tail in E as [E1 E2]. rewrite Nat2Z.inj_succ, Z.pow_succ_r in Ha, Hb by lia.
  assert (a / 256 = b / 256) by (apply IH; [split; [apply Z.div_pos|apply Z.div_lt_upper_bound]; lia..|exact E1]).
  rewrite (Z.div_mod a 256), (Z.div_mod b 256) by lia. congruence.
Qed.

Lemma to_bytes_length k n bs : to_bytes k n = Ok bs -> List.length bs = k.
Proof. unfold to_bytes. destruct (_ <? _); [|discriminate]. intros [= <-]. apply big_endian_length. Qed.

Lemma to_bytes_inj k a b bs : 0 <= a -> 0 <= b -> to_bytes k a = Ok bs -> to_bytes k b = Ok bs -> a = b.
Proof.
  unfold to_bytes. intros Ha Hb. destruct (Z.ltb_spec a (256 ^ Z.of_nat k)); [|discriminate].
  destruct (Z.ltb_spec b (256 ^ Z.of_nat k)); [|discriminate]. intros [= <-] [= E]. eapply big_endian_inj; [..|symmetry; exact E]; lia.
Qed.

Lemma str_encode_inj a b : str_encode a = str_encode b -> a = b.
Proof. intros E. rewrite <- (decode_str_encode a), <- (decode_str_encode b). now f_equal. Qed.

Lemma encode_text_ok s bs : encode_text s = Ok bs -> bs = str_encode s.
Proof. unfold encode_text. destruct (utf8_text s); [now intros [= <-]|discriminate]. Qed.

Lemma payload_encoded e bs : payload_of e = Ok bs -> bs = str_encode (payload_text e).
Proof.
  unfold payload_of, payload_text. destruct (kind_of _); [apply encode_text_ok|..]; now intros [= <-].
Qed.

Lemma kind_byte_inj a b : kind_byte a = kind_byte b -> a = b.
Proof. destruct a, b; easy. Qed.

Lemma permissions_nonneg m : 0 <= permissions m.
Proof. unfold permissions. apply Z.land_nonneg. right. lia. Qed.

(** Same lengths, then same texts. *)
Lemma prefixed_inj k (a b x y : list Z) la lb : to_bytes k (Z.of_nat (List.length a)) = Ok la ->
  to_bytes k (Z.of_nat (List.length b)) = Ok lb -> la ++ a ++ x = lb ++ b ++ y -> a = b /\ x = y.
Proof.
  intros Ha Hb E. apply app_inj_1 in E as [El E]; [|now rewrite (to_bytes_length _ _ _ Ha), (to_bytes_length _ _ _ Hb)].
  subst lb. apply app_inj_1 in E; [exact E|]. apply Nat2Z.inj. eapply to_bytes_inj; [..|exact Ha|exact Hb]; lia.
Qed.

Lemma entry_bytes_inj ra rb ea eb ba bb x y : entry_bytes ra ea = Ok ba -> entry_bytes rb eb = Ok bb ->
  ba ++ x = bb ++ y -> ra = rb /\ kind_of (te_mode ea) = kind_of (te_mode eb)
    /\ permissions (te_mode ea) = permissions (te_mode eb) /\ payload_text ea = payload_text eb /\ x = y.
Proof.
  unfold entry_bytes. intros Ha Hb E.
  apply rbind_ok in Ha as (pa & Hpa & Ha). apply rbind_ok in Ha as (ma & Hma & Ha). apply rbind_ok in Ha as (na & Hna & Ha).
  apply rbind_ok in Ha as (la & Hla & Ha). injection Ha as <-.
  apply rbind_ok in Hb as (pb & Hpb & Hb). apply rbind_ok in Hb as (mb & Hmb & Hb). apply rbind_ok in Hb as (nb & Hnb & Hb).
  apply rbind_ok in Hb as (lb & Hlb & Hb). injection Hb as <-.
  cbn [app] in E. injection E as Ek E. rewrite <- !app_assoc in E.
  apply app_inj_1 in E as [Em E]; [|now rewrite (to_bytes_length _ _ _ Hma), (to_bytes_length _ _ _ Hmb)]. subst mb.
  apply (prefixed_inj _ _ _ _ _ _ _ Hna Hnb) in E as [-> E]. apply (prefixed_inj _ _ _ _ _ _ _ Hla Hlb) in E as [-> ->].
  apply payload_encoded in Hpa. apply payload_encoded in Hpb. rewrite Hpa in Hpb. apply str_encode_inj in Hpb.
  split_and!; [reflexivity|now apply kind_byte_inj| |exact Hpb|reflexivity].
  eapply to_bytes_inj; [apply permissions_nonneg..|exact Hma|exact Hmb].
Qed.

Lemma entries_bytes_visible l b : entries_bytes l = Ok b ->
  entries_bytes (List.filter (fun e => negb (String.eqb (te_path e) SOURCE_MANIFEST_NAME)) l) = Ok b.
Proof.
  revert b. induction l as [|e l IH]; intros b; cbn [entries_bytes List.filter]; [auto|]. intros H.
  apply rbind_ok in H as (r & Hr & H). destruct (String.eqb (te_path e) SOURCE_MANIFEST_NAME) eqn:Em; cbn [negb]; [auto|].
  apply rbind_ok in H as (x & Hx & H). apply rbind_ok in H as (y & Hy & H). cbn [entries_bytes].
  rewrite Hr. cbn [rbind]. rewrite Em, Hx. cbn [rbind]. now rewrite (IH _ Hy).
Qed.

Lemma entries_bytes_cons e l b : te_path e <> SOURCE_MANIFEST_NAME -> entries_bytes (e :: l) = Ok b ->
  exists x y, entry_bytes (str_encode (te_path e)) e = Ok x /\ entries_bytes l = Ok y /\ b = x ++ y /\ x <> [].
Proof.
  intros He H. cbn [entries_bytes] in H. apply rbind_ok in H as (r & Hr & H). apply encode_text_ok in Hr as ->.
  rewrite (proj2 (String.eqb_neq _ _) He) in H. apply rbind_ok in H as (x & Hx & H). apply rbind_ok in H as (y & Hy & H).
  exists x, y. split_and!; [exact Hx|exact Hy|congruence|]. unfold entry_bytes in Hx.
  repeat (apply rbind_ok in Hx as (? & ? & Hx)). now injection Hx as <-.
Qed.

Lemma entries_bytes_inj l1 l2 b : Forall (fun e => te_path e <> SOURCE_MANIFEST_NAME) l1 ->
  Forall (fun e => te_path e <> SOURCE_MANIFEST_NAME) l2 ->
  entries_bytes l1 = Ok b -> entries_bytes l2 = Ok b -> map entry_view l1 = map entry_view l2.
Proof.
  intros F1. revert l2 b. induction F1 as [|e l1 He F1 IH]; intros l2 b F2 H1 H2; destruct F2 as [|e' l2 He' F2]; [reflexivity|..].
  - injection H1 as <-. apply entries_bytes_cons in H2 as (x & y & _ & _ & E & Hx); [|exact He']. now destruct x.
  - injection H2 as <-. apply entries_bytes_cons in H1 as (x & y & _ & _ & E & Hx); [|exact He]. now destruct x.
  - apply entries_bytes_cons in H1 as (x1 & y1 & Hx1 & Hy1 & E1 & _); [|exact He].
    apply entries_bytes_cons in H2 as (x2 & y2 & Hx2 & Hy2 & E2 & _); [|exact He'].
    rewrite E1 in E2. destruct (entry_bytes_inj _ _ _ _ _ _ _ _ Hx1 Hx2 E2) as (Er & Ek & Em & Ep & Ey).
    apply str_encode_inj in Er. cbn [map]. f_equal; [unfold entry_view; congruence|]. subst y2. eauto.
Qed.

Lemma visible_paths tree : Forall (fun e => te_path e <> SOURCE_MANIFEST_NAME) (visible tree).
Proof.
  apply Forall_forall. intros e He. apply list_elem_of_In, filter_In in He as [_ He].
  apply negb_true_iff in He. now apply String.eqb_neq.
Qed.

(** Two trees with one digest look the same, or SHA-256 has a collision. *)
Definition same_tree (a b : list tree_entry) : Prop := map entry_view (visible a) = map entry_view (visible b).
Definition sha256_collision : Prop := exists a b, a <> b /\ sha256_hex a = sha256_hex b.

Lemma digest_binds a b d : source_tree_digest a = Ok d -> source_tree_digest b = Ok d -> same_tree a b \/ sha256_collision.
Proof.
  unfold source_tree_digest, rmap. intros Ha Hb. apply rbind_ok in Ha as (x & Hx & Ha). apply rbind_ok in Hb as (y & Hy & Hb).
  destruct (decide (x = y)) as [->|Hne].
  - left. unfold same_tree. eapply (entries_bytes_inj _ _ y); [apply visible_paths..| |]; now apply entries_bytes_visible.
  - right. exists x, y. split; [exact Hne|congruence].
Qed.

(** ** The effects of the cache *)
Module SourceCache.
Inductive cache_call :=
| Exists (path : string)
| IsFile (path : string)
| IsDir (path : string)
| IsSymlink (path : string)
| Resolve (path : string)
| ReadManifest (path : string)
| ScanTree (root : string)
| MakeDirs (path : string)
| MakeTemp (parent : string)
| NewName
| Git (cwd : string) (argv : list string) (env : gmap string string)
| CreateManifest (path : string)
| WriteManifest (path text : string)
| Unlink (path : string)
| Replace (source target : string)
| RemoveTree (path : string).

Definition CacheTrace : Type := list cache_call.

Record CacheEnv := mkCacheEnv {
  ce_bool : CacheTrace -> cache_call -> res bool;
  ce_text : CacheTrace -> cache_call -> res string;
  ce_tree : CacheTrace -> string -> res (list tree_entry);
  ce_unit : CacheTrace -> cache_call -> res unit;
  ce_git : CacheTrace -> list string -> res CommandResult;
  ce_environ : gmap string string }.

Section Cache.
Context (env : CacheEnv).

Definition cache_do {A} (c : cache_call) (answer : CacheTrace -> res A) : Eff CacheTrace A := fun t => (t ++ [c], answer t).
Definition ask (c : cache_call) : Eff CacheTrace bool := cache_do c (fun t => ce_bool env t c).
Definition ask_text (c : cache_call) : Eff CacheTrace string := cache_do c (fun t => ce_text env t c).
Definition act (c : cache_call) : Eff CacheTrace unit := cache_do c (fun t => ce_unit env t c).

Definition tree_digest_of (root : string) : Eff CacheTrace string :=
  tree ← cache_do (ScanTree root) (fun t => ce_tree env t root);
  eff_lift (source_tree_digest tree).

Definition manifest_of (root : string) : string := (root ++ "/" ++ SOURCE_MANIFEST_NAME)%string.

(** ** The manifest *)
Definition write_manifest (root digest : string) : Eff CacheTrace unit :=
  let manifest := manifest_of root in
  _ ← eff_try (act (CreateManifest manifest))
        (fun e => match e with FileExistsError _ => Some (eff_raise (LauncherExn RepositoryIdentityChanged)) | _ => None end);
  eff_try (act (WriteManifest manifest (digest ++ String "010" "")))
    (fun e => if is_Exception e then Some (_ ← act (Unlink manifest); eff_raise e) else None).

(** [read_text(encoding="ascii")] raises [UnicodeDecodeError]. *)
Definition ascii_text (s : string) : res string :=
  if all_chars (fun c => ord c <? 128) s then Ok s else Err (ValueError "ordinal not in range(128)").

Definition identity_changed {A} : Eff CacheTrace A := eff_raise (LauncherExn RepositoryIdentityChanged).

Definition validated_cached_digest (root : string) : Eff CacheTrace string :=
  expected ← eff_try (text ← ask_text (ReadManifest (manifest_of root)); t ← eff_lift (ascii_text text); mret (strip t))
    (fun e => if is_OSError e || is_ValueError e then Some identity_changed else None);
  digest ← tree_digest_of root;
  if String.eqb expected digest then mret digest else identity_changed.

(** [target.parent] and [target.name] of a cached snapshot are arguments. *)
Definition quarantine_manifestless_snapshot (parent name : string) : Eff CacheTrace unit :=
  let target := (parent ++ "/" ++ name)%string in
  there ← ask (Exists target);
  if negb there then mret tt
  else
    hex ← ask_text NewName;
    eff_try (act (Replace target (parent ++ "/.quarantine-" ++ name ++ "-" ++ hex)))
      (fun e => match e with FileNotFoundError _ => Some (mret tt) | _ => None end).

(** ** [_validated_notebook] *)
Definition join_path (root relative : string) : string := str_join "/" (root :: path_parts relative).

Definition notebook_missing : exn :=
  LauncherExn (RepositorySetupFailed "The requested notebook is missing from the revision.").
Definition notebook_escapes : exn :=
  LauncherExn (RepositorySetupFailed "The requested notebook escapes the source snapshot.").

Definition validated_notebook (root notebook_path : string) : Eff CacheTrace string :=
  let candidate := join_path root notebook_path in
  link ← ask (IsSymlink candidate);
  file ← (if link : bool then mret false else ask (IsFile candidate));
  _ ← eff_raise_if (negb file) notebook_missing;
  resolved_root ← ask_text (Resolve root);
  resolved ← ask_text (Resolve candidate);
  _ ← eff_raise_if (negb (is_relative_to resolved resolved_root)) notebook_escapes;
  mret candidate.

(** ** [_git] and [SourceCache.acquire] *)
Definition setup_failed : exn := LauncherExn (RepositorySetupFailed "The public repository could not be prepared.").

Definition git (cwd : string) (args : list string) : Eff CacheTrace CommandResult :=
  let argv := "git"%string :: args in
  result ← cache_do (Git cwd argv (git_environment (ce_environ env))) (fun t => ce_git env t argv);
  _ ← eff_raise_if (negb (returncode result =? 0)) setup_failed;
  mret result.

Definition remove_staging (staging : string) : Eff CacheTrace unit :=
  there ← ask (Exists staging);
  if there : bool then act (RemoveTree staging) else mret tt.

(** The exceptions that leave [acquire] as they are. *)
Definition passes (e : exn) : bool :=
  match e with
  | LauncherExn le => str_mem (code le) ["repository_identity_changed"; "repository_setup_failed"]%string
  | _ => is_ValueError e
  end.

Context (cache_root : string).

Definition parent_of (source : ResolvedSource) : string := (cache_root ++ "/" ++ str_of_int (rs_repository_id source))%string.
Definition target_of (source : ResolvedSource) : string :=
  (parent_of source ++ "/" ++ lower (rs_commit_sha source))%string.

Definition snapshot_at (source : ResolvedSource) (notebook digest : string) : SourceSnapshot :=
  mkSourceSnapshot (target_of source) notebook (rs_repository_id source) (lower (rs_commit_sha source)) digest.

(** From the checked out commit to the cached snapshot. *)
Definition store_snapshot (staging : string) (source : ResolvedSource) : Eff CacheTrace SourceSnapshot :=
  let target := target_of source in
  _ ← validated_notebook staging (rs_notebook_path source);
  _ ← act (RemoveTree (staging ++ "/.git"));
  digest ← tree_digest_of staging;
  _ ← write_manifest staging digest;
  _ ← eff_try (act (Replace staging target))
        (fun e => if is_OSError e then Some (dir ← ask (IsDir target); if dir : bool then mret tt else eff_raise e) else None);
  notebook ← validated_notebook target (rs_notebook_path source);
  digest ← validated_cached_digest target;
  mret (snapshot_at source notebook digest).

Definition fetch_into (staging : string) (source : ResolvedSource) : Eff CacheTrace SourceSnapshot :=
  let commit_sha := lower (rs_commit_sha source) in
  _ ← git staging ["init"; "--quiet"]%string;
  _ ← git staging ["remote"; "add"; "origin"; rs_clone_url source]%string;
  _ ← git staging ["-c"; "credential.helper="; "fetch"; "--quiet"; "--depth=1"; "origin"; commit_sha]%string;
  _ ← git staging ["checkout"; "--quiet"; "--detach"; "FETCH_HEAD"]%string;
  head ← git staging ["rev-parse"; "HEAD"]%string;
  _ ← (if String.eqb (lower (strip (stdout head))) commit_sha then mret tt else identity_changed);
  store_snapshot staging source.

Definition fetch (source : ResolvedSource) : Eff CacheTrace SourceSnapshot :=
  _ ← act (MakeDirs (parent_of source));
  staging ← ask_text (MakeTemp (parent_of source));
  eff_finally
    (eff_try (fetch_into staging source)
       (fun e => if passes e then None else if is_OSError e then Some (eff_raise setup_failed) else None))
    (remove_staging staging).

(** The snapshot that is there. *)
Definition cached (source : ResolvedSource) : Eff CacheTrace SourceSnapshot :=
  digest ← validated_cached_digest (target_of source);
  notebook ← validated_notebook (target_of source) (rs_notebook_path source);
  mret (snapshot_at source notebook digest).

Definition acquire (source : ResolvedSource) : Eff CacheTrace SourceSnapshot :=
  _ ← eff_raise_if (negb (is_sha (rs_commit_sha source))) (ValueError "commit SHA must be 40 hexadecimal characters");
  _ ← eff_lift (validate_public_clone_url (rs_clone_url source) (rs_owner source) (rs_repository source));
  let target := target_of source in
  there ← ask (Exists target);
  if there : bool then
    manifest ← ask (IsFile (manifest_of target));
    if negb manifest then
      _ ← quarantine_manifestless_snapshot (parent_of source) (lower (rs_commit_sha source));
      fetch source
    else
      cached source
  else fetch source.

(** [SourceCache.verify_unchanged] *)
Definition verify_unchanged (snapshot : SourceSnapshot) : Eff CacheTrace unit :=
  manifest ← ask (IsFile (manifest_of (ss_root snapshot)));
  current ← (if manifest : bool then validated_cached_digest (ss_root snapshot) else tree_digest_of (ss_root snapshot));
  if String.eqb current (ss_tree_digest snapshot) then mret tt else identity_changed.
End Cache.

(** ** The calls of the cache *)
Section CacheProofs.
Context (env : CacheEnv) (cache_root : string).

(** The calls since then, all of them in [P]. *)
Abbreviation grows := appends.

Definition anything (_ : CacheTrace) : Prop := True.
Abbreviation calls P := (holds anything (grows P)).

Lemma calls_do {A} (P : cache_call -> Prop) c (answer : CacheTrace -> res A) : P c -> calls P (cache_do c answer).
Proof.
  intros Hc t t' r _ _ [= <- <-]. split_and!; [exact Logic.I| |auto]. exists [c]. split; [reflexivity|]. now constructor.
Qed.

Lemma calls_weaken {A} (P Q : cache_call -> Prop) (m : Eff CacheTrace A) : (forall c, P c -> Q c) -> calls P m -> calls Q m.
Proof.
  intros HPQ Hm t t' r _ _ E. destruct (Hm _ _ _ Logic.I Logic.I E) as (_ & (s & -> & F) & _). split_and!; [exact Logic.I| |auto].
  exists s. split; [reflexivity|]. eapply Forall_impl; [exact F|exact HPQ].
Qed.

Lemma calls_prefix {A} P (m : Eff CacheTrace A) t t' r : calls P m -> m t = (t', r) -> t `prefix_of` t'.
Proof. intros Hm E. destruct (Hm _ _ _ Logic.I Logic.I E) as (_ & (s & -> & _) & _). now exists s. Qed.

(** The commands of git for a source. *)
Definition git_commands (source : ResolvedSource) : list (list string) :=
  [["git"; "init"; "--quiet"]; ["git"; "remote"; "add"; "origin"; rs_clone_url source];
   ["git"; "-c"; "credential.helper="; "fetch"; "--quiet"; "--depth=1"; "origin"; lower (rs_commit_sha source)];
   ["git"; "checkout"; "--quiet"; "--detach"; "FETCH_HEAD"]; ["git"; "rev-parse"; "HEAD"]]%string.

(** The calls of [fetch_into] that change something. *)
Definition in_staging (staging : string) (source : ResolvedSource) (c : cache_call) : Prop :=
  match c with
  | Git cwd argv e => cwd = staging /\ In argv (git_commands source) /\ e = git_environment (ce_environ env)
  | CreateManifest p | WriteManifest p _ | Unlink p => p = manifest_of staging
  | Replace a b => a = staging /\ b = target_of cache_root source
  | RemoveTree p => p = staging \/ p = (staging ++ "/.git")%string
  | MakeDirs _ | MakeTemp _ | NewName => False
  | _ => True
  end.

#[local] Hint Extern 1 (holds anything (grows _) (cache_do _ _)) => (apply calls_do; cbn; auto 8) : triples.
Ltac cache_steps := repeat progress unfold git, validated_notebook, tree_digest_of, write_manifest, validated_cached_digest, identity_changed,
  remove_staging, ask, ask_text, act; solve_triple.

(** Reading changes nothing. *)
Definition reads (c : cache_call) : Prop :=
  match c with Exists _ | IsFile _ | IsDir _ | IsSymlink _ | Resolve _ | ReadManifest _ | ScanTree _ => True | _ => False end.

Lemma calls_notebook root path : calls reads (validated_notebook env root path).
Proof. cache_steps. Qed.
Lemma calls_digest root : calls reads (validated_cached_digest env root).
Proof. cache_steps. Qed.
Lemma calls_tree root : calls reads (tree_digest_of env root).
Proof. cache_steps. Qed.

Lemma reads_in_staging st src c : reads c -> in_staging st src c.
Proof. now destruct c. Qed.

Lemma calls_git st src args : In ("git"%string :: args) (git_commands src) -> calls (in_staging st src) (git env st args).
Proof.
  intros Hin. unfold git. apply holds_bind; [typeclasses eauto|apply calls_do; now split_and!|intros r]. cache_steps.
Qed.

Lemma calls_store st src : calls (in_staging st src) (store_snapshot env cache_root st src).
Proof.
  unfold store_snapshot.
  apply holds_bind; [typeclasses eauto|eapply calls_weaken; [apply reads_in_staging|apply calls_notebook]|intros ?].
  do 4 (apply holds_bind; [typeclasses eauto|cache_steps|intros ?]).
  apply holds_bind; [typeclasses eauto|eapply calls_weaken; [apply reads_in_staging|apply calls_notebook]|intros ?].
  apply holds_bind; [typeclasses eauto|eapply calls_weaken; [apply reads_in_staging|apply calls_digest]|intros ?].
  cache_steps.
Qed.

Lemma calls_fetch_into st src : calls (in_staging st src) (fetch_into env cache_root st src).
Proof.
  unfold fetch_into. do 5 (apply holds_bind; [typeclasses eauto|apply calls_git; cbn; auto 8|intros ?]).
  apply holds_bind; [typeclasses eauto|cache_steps|intros ?]. apply calls_store.
Qed.

(** ** What a result is based on *)

(** The manifest was read and equals the digest of the tree scanned next. *)
Definition verified (root digest : string) (tree : list tree_entry) (t : CacheTrace) : Prop :=
  exists t1 text, t1 ++ [ReadManifest (manifest_of root); ScanTree root] `prefix_of` t
    /\ ce_text env t1 (ReadManifest (manifest_of root)) = Ok text /\ strip text = digest
    /\ ce_tree env (t1 ++ [ReadManifest (manifest_of root)]) root = Ok tree /\ source_tree_digest tree = Ok digest.

(** Git said that the staging directory holds the commit. *)
Definition checked_out (staging sha : string) (t : CacheTrace) : Prop :=
  let argv := ["git"; "rev-parse"; "HEAD"]%string in
  exists t1 r, t1 ++ [Git staging argv (git_environment (ce_environ env))] `prefix_of` t
    /\ ce_git env t1 argv = Ok r /\ returncode r = 0 /\ lower (strip (stdout r)) = sha.

Lemma verified_later root d tree t t' : t `prefix_of` t' -> verified root d tree t -> verified root d tree t'.
Proof. intros Hp (t1 & x & H1 & H2). exists t1, x. split; [etrans; eassumption|exact H2]. Qed.

Lemma checked_out_later st sha t t' : t `prefix_of` t' -> checked_out st sha t -> checked_out st sha t'.
Proof. intros Hp (t1 & x & H1 & H2). exists t1, x. split; [etrans; eassumption|exact H2]. Qed.

Ltac open_cache := unfold mbind, eff_bind, eff_try, eff_lift, mret, eff_ret, ask, ask_text, act, cache_do, eff_raise_if, raise_if,
  eff_raise, identity_changed in *.

Lemma cached_digest_verified root t t' d : validated_cached_digest env root t = (t', Ok d) ->
  exists tree, verified root d tree t'.
Proof.
  unfold validated_cached_digest, tree_digest_of. open_cache. intros E.
  destruct (ce_text env t (ReadManifest (manifest_of root))) as [text|e] eqn:Et; [|now destruct (is_OSError e || is_ValueError e)].
  destruct (ascii_text text) as [x|e] eqn:Ea; [|now destruct (is_OSError e || is_ValueError e)].
  unfold ascii_text in Ea. destruct (all_chars _ text); [|discriminate]. injection Ea as <-.
  destruct (ce_tree env (t ++ [ReadManifest (manifest_of root)]) root) as [tree|e] eqn:Er; [|discriminate].
  destruct (source_tree_digest tree) as [digest|e] eqn:Ed; [|discriminate].
  destruct (String.eqb (strip text) digest) eqn:Eq; [|discriminate]. injection E as <- <-. apply String.eqb_eq in Eq.
  exists tree, t, text. split_and!; [exists []; now rewrite app_nil_r, <- app_assoc|exact Et|exact Eq|exact Er|exact Ed].
Qed.

Lemma notebook_path_of root path t t' nb : validated_notebook env root path t = (t', Ok nb) -> nb = join_path root path.
Proof.
  unfold validated_notebook. intros E. repeat (apply eff_bind_ok in E as (? & ? & _ & E)). now injection E as _ <-.
Qed.

Lemma git_ok st args t t' r : git env st args t = (t', Ok r) ->
  t' = t ++ [Git st ("git"%string :: args) (git_environment (ce_environ env))]
  /\ ce_git env t ("git"%string :: args) = Ok r /\ returncode r = 0.
Proof.
  unfold git. open_cache. destruct (ce_git env t _) as [x|e]; [|discriminate].
  destruct (Z.eqb_spec (returncode x) 0); cbn [negb]; [|discriminate]. intros [= <- <-]. auto.
Qed.

Lemma store_ok st src t t' s : store_snapshot env cache_root st src t = (t', Ok s) ->
  exists tree, s = snapshot_at cache_root src (join_path (target_of cache_root src) (rs_notebook_path src)) (ss_tree_digest s)
    /\ verified (ss_root s) (ss_tree_digest s) tree t'.
Proof.
  unfold store_snapshot. intros E. do 5 (apply eff_bind_ok in E as (? & ? & _ & E)).
  apply eff_bind_ok in E as (t3 & nb & En & E). apply notebook_path_of in En as ->.
  apply eff_bind_ok in E as (t4 & d & Ed & E). apply cached_digest_verified in Ed as (tree & Hv). injection E as <- <-.
  exists tree. split; [reflexivity|exact Hv].
Qed.

Lemma fetch_into_ok st src t t' s : fetch_into env cache_root st src t = (t', Ok s) ->
  exists tree, s = snapshot_at cache_root src (join_path (target_of cache_root src) (rs_notebook_path src)) (ss_tree_digest s)
    /\ verified (ss_root s) (ss_tree_digest s) tree t' /\ checked_out st (lower (rs_commit_sha src)) t'.
Proof.
  unfold fetch_into. intros E. do 4 (apply eff_bind_ok in E as (? & ? & _ & E)).
  apply eff_bind_ok in E as (t1 & r & Eg & E). apply git_ok in Eg as (-> & Hr & H0).
  apply eff_bind_ok in E as (t2 & u & Ec & E). destruct (String.eqb _ _) eqn:Eh in Ec; [|discriminate]. injection Ec as <- _.
  pose proof (calls_prefix _ _ _ _ _ (calls_store st src) E) as Hp. apply store_ok in E as (tree & Hs & Hv).
  exists tree. split_and!; [exact Hs|exact Hv|]. eapply checked_out_later; [exact Hp|].
  eexists _, r. split_and!; [reflexivity|exact Hr|exact H0|]. now apply String.eqb_eq.
Qed.

(** ** [fetch] and [acquire] *)
Definition cleanup (staging : string) (t : CacheTrace) : CacheTrace :=
  Exists staging :: match ce_bool env t (Exists staging) with Ok true => [RemoveTree staging] | _ => [] end.

Lemma remove_staging_trace st t : fst (remove_staging env st t) = t ++ cleanup st t.
Proof.
  unfold remove_staging, cleanup. open_cache. destruct (ce_bool env t (Exists st)) as [[]|e]; cbn; [|reflexivity..].
  now rewrite <- app_assoc.
Qed.

Lemma fetch_shape src t t' r : fetch env cache_root src t = (t', r) ->
  let t0 := t ++ [MakeDirs (parent_of cache_root src)] in
  (t' = t0 \/ t' = t0 ++ [MakeTemp (parent_of cache_root src)]) /\ (forall s, r <> Ok s)
  \/ exists st tr, ce_text env t0 (MakeTemp (parent_of cache_root src)) = Ok st
      /\ Forall (in_staging st src) tr
      /\ t' = (t0 ++ MakeTemp (parent_of cache_root src) :: tr) ++ cleanup st (t0 ++ MakeTemp (parent_of cache_root src) :: tr)
      /\ forall s, r = Ok s -> fetch_into env cache_root st src (t0 ++ [MakeTemp (parent_of cache_root src)])
           = (t0 ++ MakeTemp (parent_of cache_root src) :: tr, Ok s).
Proof.
  intros E t0. unfold fetch in E. apply bind_inv in E as [(e & E & ->)|(t1 & u & E1 & E)].
  { injection E as <- _. left. split; [now left|discriminate]. }
  injection E1 as <- _. apply bind_inv in E as [(e & E & ->)|(t1 & st & E1 & E)].
  { injection E as <- _. left. split; [now right|discriminate]. }
  injection E1 as <- Est. right. fold t0 in E, Est. unfold eff_finally in E.
  set (t1 := t0 ++ [MakeTemp _]) in *. unfold eff_try in E.
  destruct (fetch_into env cache_root st src t1) as [t2 x] eqn:Ef.
  destruct (calls_fetch_into st src _ _ _ Logic.I Logic.I Ef) as (_ & (tr & E2 & F) & _).
  exists st, tr. split_and!; [exact Est|exact F|..].
  - assert (Et : t0 ++ MakeTemp (parent_of cache_root src) :: tr = t2) by (rewrite E2; unfold t1; now rewrite <- app_assoc).
    rewrite Et, <- remove_staging_trace. destruct x as [a|e]; [|destruct (passes e); [|destruct (is_OSError e)]];
      cbn in E; destruct (remove_staging env st t2) as [t3 [x3|e']]; injection E as <- _; reflexivity.
  - intros s ->. assert (Et : t0 ++ MakeTemp (parent_of cache_root src) :: tr = t2) by (rewrite E2; unfold t1; now rewrite <- app_assoc).
    rewrite Et, Ef. destruct x as [a|e]; [|destruct (passes e); [|destruct (is_OSError e)]];
      cbn in E; destruct (remove_staging env st t2) as [t3 [x3|e']];
      first [discriminate|injection E as _ <-; reflexivity].
Qed.

(** The calls before the staging directory exists. *)
Definition prepares (src : ResolvedSource) (c : cache_call) : Prop :=
  reads c \/ c = NewName \/ c = MakeDirs (parent_of cache_root src) \/ c = MakeTemp (parent_of cache_root src)
  \/ exists hex, c = Replace (target_of cache_root src)
       (parent_of cache_root src ++ "/.quarantine-" ++ lower (rs_commit_sha src) ++ "-" ++ hex)%string.

Lemma calls_quarantine src :
  calls (prepares src) (quarantine_manifestless_snapshot env (parent_of cache_root src) (lower (rs_commit_sha src))).
Proof.
  unfold quarantine_manifestless_snapshot.
  apply holds_bind; [typeclasses eauto|apply calls_do; now left|intros []]; [|apply holds_ret; typeclasses eauto].
  apply holds_bind; [typeclasses eauto|apply calls_do; right; now left|intros hex].
  apply holds_try; [typeclasses eauto| |intros e k; destruct e; try discriminate; intros [= <-]; apply holds_ret; typeclasses eauto].
  apply calls_do. right. right. right. right. now exists hex.
Qed.

(** How [acquire] proceeds: it refuses, or uses the cached snapshot, or
    fetches after some preparation. *)
Lemma acquire_cases src t t' r : acquire env cache_root src t = (t', r) ->
  (t' = t /\ forall s, r <> Ok s)
  \/ is_sha (rs_commit_sha src) = true
     /\ validate_public_clone_url (rs_clone_url src) (rs_owner src) (rs_repository src) = Ok tt
     /\ exists t1, grows (prepares src) t t1
        /\ (t1 = t' /\ (forall s, r <> Ok s)
            \/ cached env cache_root src t1 = (t', r)
            \/ fetch env cache_root src t1 = (t', r)).
Proof.
  intros E. unfold acquire in E. apply eff_raise_if_bind in E as [(_ & -> & ->)|[Hs E]]; [left; split; [reflexivity|discriminate]|].
  apply negb_false_iff in Hs. apply eff_lift_bind in E as [(e & _ & -> & ->)|([] & Hv & E)]; [left; split; [reflexivity|discriminate]|].
  right. split_and!; [exact Hs|exact Hv|]. apply bind_inv in E as [(e & E & ->)|(t1 & there & E1 & E)].
  { exists t'. split; [|left; split; [reflexivity|discriminate]]. injection E as <- _. exists [Exists (target_of cache_root src)].
    split; [reflexivity|]. constructor; [now left|constructor]. }
  injection E1 as <- _. assert (G1 : grows (prepares src) t (t ++ [Exists (target_of cache_root src)])).
  { exists [Exists (target_of cache_root src)]. split; [reflexivity|]. constructor; [now left|constructor]. }
  set (t1 := t ++ _) in *. destruct there; [|exists t1; auto].
  apply bind_inv in E as [(e & E & ->)|(t2 & file & E2 & E)].
  { exists t'. split; [|left; split; [reflexivity|discriminate]]. injection E as <- _. etrans; [exact G1|].
    eexists [_]. split; [reflexivity|]. constructor; [now left|constructor]. }
  injection E2 as <- _. assert (G2 : grows (prepares src) t (t1 ++ [IsFile (manifest_of (target_of cache_root src))])).
  { etrans; [exact G1|]. eexists [_]. split; [reflexivity|]. constructor; [now left|constructor]. }
  set (t2 := t1 ++ _) in *. destruct file; cbn [negb] in E; [exists t2; split; [exact G2|right; left; eauto]|].
  apply bind_inv in E as [(e & E & ->)|(t3 & u & E3 & E)].
  - destruct (calls_quarantine src _ _ _ Logic.I Logic.I E) as (_ & G3 & _). exists t'. split; [etrans; eauto|].
    left. split; [reflexivity|discriminate].
  - destruct (calls_quarantine src _ _ _ Logic.I Logic.I E3) as (_ & G3 & _). exists t3. split; [etrans; eauto|auto].
Qed.

Lemma calls_cached src : calls reads (cached env cache_root src).
Proof.
  unfold cached. apply holds_bind; [typeclasses eauto|apply calls_digest|intros d].
  apply holds_bind; [typeclasses eauto|apply calls_notebook|intros nb]. apply holds_ret. typeclasses eauto.
Qed.

Lemma cached_ok src t t' s : cached env cache_root src t = (t', Ok s) ->
  exists tree, s = snapshot_at cache_root src (join_path (target_of cache_root src) (rs_notebook_path src)) (ss_tree_digest s)
    /\ verified (ss_root s) (ss_tree_digest s) tree t'.
Proof.
  unfold cached. intros E. apply eff_bind_ok in E as (t1 & d & Ed & E). apply eff_bind_ok in E as (t2 & nb & En & E).
  injection E as <- <-. pose proof (calls_prefix _ _ _ _ _ (calls_notebook _ _) En) as Hp. apply notebook_path_of in En as ->.
  apply cached_digest_verified in Ed as (tree & Hv). exists tree. split; [reflexivity|]. eapply verified_later; [exact Hp|exact Hv].
Qed.


(** The cache works in a staging directory and leaves none.  Whatever the
    collaborators answer or raise, [acquire] only reads, moves a snapshot
    without a manifest aside, and makes one staging directory; after that it
    runs git only there, only with its five fixed commands for this URL and
    commit and in the scrubbed environment, writes only the manifest there, and
    moves the directory only to the snapshot's path; a cached snapshot is never
    written to.  On every outcome it ends by asking whether the staging
    directory is still there and removing it when it is. *)
Theorem acquire_leaves_no_staging src t t' r : acquire env cache_root src t = (t', r) ->
  grows (prepares src) t t'
  \/ exists pre staging tr,
       Forall (prepares src) pre /\ ce_text env (t ++ pre) (MakeTemp (parent_of cache_root src)) = Ok staging
       /\ Forall (in_staging staging src) tr
       /\ let t1 := t ++ pre ++ MakeTemp (parent_of cache_root src) :: tr in
          t' = t1 ++ Exists staging :: match ce_bool env t1 (Exists staging) with Ok true => [RemoveTree staging] | _ => [] end.
Proof.
  intros E. destruct (acquire_cases _ _ _ _ E) as [[-> _]|(_ & _ & t1 & Hg & Hc)]; [now left|].
  destruct Hc as [[-> _]|[Hc|Hf]]; [now left|..].
  - left. destruct (calls_cached src _ _ _ Logic.I Logic.I Hc) as (_ & (tr & -> & F) & _).
    etrans; [exact Hg|]. exists tr. split; [reflexivity|]. eapply Forall_impl; [exact F|]. intros c. now left.
  - destruct Hg as (pre & -> & Hpre). destruct (fetch_shape _ _ _ _ Hf) as [[Ht _]|(st & tr & Est & F & Et & _)].
    + left. assert (Hm : Forall (prepares src) [MakeDirs (parent_of cache_root src); MakeTemp (parent_of cache_root src)]).
      { apply Forall_forall. intros c. rewrite list_elem_of_In. unfold prepares. intros [<-|[<-|[]]]; auto 6. }
      destruct Ht as [->| ->]; rewrite <- ?app_assoc; (eexists; split; [reflexivity|]); repeat (apply Forall_app; split);
        try assumption; inversion Hm; subst; auto.
    + right. exists (pre ++ [MakeDirs (parent_of cache_root src)]), st, tr. rewrite <- app_assoc in Est.
      split_and!; [|exact Est|exact F|].
      * apply Forall_app. split; [exact Hpre|]. constructor; [unfold prepares; auto|constructor].
      * assert (E1 : ((t ++ pre) ++ [MakeDirs (parent_of cache_root src)]) ++ MakeTemp (parent_of cache_root src) :: tr
          = t ++ (pre ++ [MakeDirs (parent_of cache_root src)]) ++ MakeTemp (parent_of cache_root src) :: tr)
          by now rewrite <- !app_assoc.
        rewrite <- E1. exact Et.
Qed.

End CacheProofs.

(** ** Witnesses *)
Definition cache_sha : string := "0123456789ABCDEF0123456789abcdef01234567".
Definition cache_source : ResolvedSource :=
  mkResolvedSource 7 None "owner" "repo" "main" cache_sha "nb/a.ipynb" "https://github.com/owner/repo.git".
Definition cache_tree : list tree_entry :=
  [mkEntry "nb/a.ipynb" 0x81a4 "{}"; mkEntry "nb" 0x41ed ""; mkEntry SOURCE_MANIFEST_NAME 0x8180 "x"]%string.
Definition cache_digest : string := match source_tree_digest cache_tree with Ok d => d | Err _ => "" end.

Definition moved (t : CacheTrace) : bool := existsb (fun c => match c with Replace _ _ => true | _ => false end) t.

(** Git checks out what it is asked for. *)
Definition sample_cache : CacheEnv := {|
  ce_bool t c := match c with
                 | Exists p => Ok (if String.eqb p "/cache/.source-1" then negb (moved t) else moved t)
                 | IsSymlink _ => Ok false
                 | _ => Ok true
                 end;
  ce_text _ c := match c with
                 | Resolve p => Ok p
                 | ReadManifest _ => Ok (cache_digest ++ String "010" "")%string
                 | _ => Ok "/cache/.source-1"%string
                 end;
  ce_tree _ _ := Ok cache_tree;
  ce_unit _ _ := Ok tt;
  ce_git _ argv := Ok (mkCommandResult argv 0 (cache_sha ++ String "010" "") "" 41 0 false 1);
  ce_environ := {[ "PATH" := "/bin"; "GITHUB_TOKEN" := "secret" ]}%string |}.

Definition fetched : CacheTrace * res SourceSnapshot := Eval vm_compute in acquire sample_cache "/cache" cache_source [].
Lemma fetched_eq : acquire sample_cache "/cache" cache_source [] = fetched.
Proof. vm_compute. reflexivity. Qed.

(** The second time nothing is fetched. *)
Example cached_ex :
  List.length (fst fetched) = 24%nat
  /\ fst (acquire sample_cache "/cache" cache_source (fst fetched))
     = fst fetched ++ [Exists "/cache/7/0123456789abcdef0123456789abcdef01234567";
                       IsFile "/cache/7/0123456789abcdef0123456789abcdef01234567/.notebook-launcher-source.sha256";
                       ReadManifest "/cache/7/0123456789abcdef0123456789abcdef01234567/.notebook-launcher-source.sha256";
                       ScanTree "/cache/7/0123456789abcdef0123456789abcdef01234567";
                       IsSymlink "/cache/7/0123456789abcdef0123456789abcdef01234567/nb/a.ipynb";
                       IsFile "/cache/7/0123456789abcdef0123456789abcdef01234567/nb/a.ipynb";
                       Resolve "/cache/7/0123456789abcdef0123456789abcdef01234567";
                       Resolve "/cache/7/0123456789abcdef0123456789abcdef01234567/nb/a.ipynb"]%string.
Proof. vm_compute. split; reflexivity. Qed.

Example git_environment_ex :
  map_to_list (git_environment (ce_environ sample_cache))
  ≡ₚ [("GIT_TERMINAL_PROMPT", "0"); ("GCM_INTERACTIVE", "Never"); ("GIT_CONFIG_NOSYSTEM", "1");
      ("GIT_CONFIG_GLOBAL", "/dev/null"); ("PATH", "/bin")]%string.
Proof. vm_compute. solve_Permutation. Qed.

Definition acquired : SourceSnapshot := Eval vm_compute in
  match snd fetched with Ok s => s | Err _ => mkSourceSnapshot "" "" 0 "" "" end.


Lemma acquire_leaves_no_staging_witness :
  appends (prepares "/cache" cache_source) [] (fst fetched)
  \/ exists pre staging tr,
       Forall (prepares "/cache" cache_source) pre
       /\ ce_text sample_cache pre (MakeTemp "/cache/7") = Ok staging
       /\ Forall (in_staging sample_cache "/cache" staging cache_source) tr.
Proof.
  destruct (acquire_leaves_no_staging sample_cache "/cache" cache_source [] (fst fetched) (snd fetched) fetched_eq)
    as [H|(pre & st & tr & H1 & H2 & H3 & _)]; [now left|right; now exists pre, st, tr].
Defined.

End SourceCache.

(** [urlsplit] drops tabs and line ends, but git gets the text with them. *)
Example clone_url_with_tab :
  validate_public_clone_url ("https://git" ++ String "009" "hub.com/Owner/repo.git") "owner" "repo" = Ok tt
  /\ is_ok (validate_public_clone_url "https://github.com:443/owner/repo.git" "owner" "repo") = false
  /\ is_ok (validate_public_clone_url "https://me@github.com/owner/repo.git" "owner" "repo") = false.
Proof. vm_compute. auto. Qed.
