(* ===== verification/Jupyter.v ===== *)
(** * The Jupyter adapter (src/notebook_launcher/jupyter.py)

    [HttpCollaborationBackend.observe_notebook] over an HTTP client that is an
    argument, and [JupyterSessionAdapter]: the fixed notebook, its rename with
    the compensating move, and who owns a kernel's request.  The backend and
    the callback for a changed path answer each call from the calls made so
    far. *)
From S2P Require Export Triples Urls LaunchAuth PosixPath Models.

(** ** [normalize_notebook_path] *)

(** [PurePosixPath.suffix] *)
Definition suffix (name : string) : string :=
  match split_on "." name with
  | stem :: (_ :: _) as pieces =>
      let last := List.last pieces ""%string in
      if String.eqb last "" || Nat.eqb (String.length name) (S (String.length last)) then "" else ("." ++ last)%string
  | _ => ""
  end.

Definition normalize_notebook_path (v : string) : res string :=
  let parts := path_parts v in
  let! _ := raise_if (is_absolute v || match parts with [] => true | _ => false end)
    (ValueError "notebook path must be workspace-relative") in
  let! _ := raise_if (has_dotdot parts) (ValueError "notebook path must not traverse the workspace") in
  let! _ := raise_if (negb (String.eqb (lower (suffix (List.last parts ""%string))) ".ipynb"))
    (ValueError "active notebook must have an .ipynb suffix") in
  Ok (as_posix parts).

Example normalize_notebook_ex : map (fun v => match normalize_notebook_path v with Ok p => p | Err _ => "-"%string end)
    ["a//./b.IPYNB"; "/a.ipynb"; "../a.ipynb"; "a.ipynb/"; ".ipynb"; "a.ipynb.txt"; "x/..ipynb"; ""; "a."]%string
  = ["a/b.IPYNB"; "-"; "-"; "a.ipynb"; "-"; "-"; "x/..ipynb"; "-"; "-"]%string.
Proof. vm_compute. reflexivity. Qed.

(** ** Observations *)
Record BackendNotebookState := mkBackendState { bn_path : string; bn_version : string; bn_collaboration_ready : bool }.
Record NotebookObservation := mkObservation {
  no_active_notebook_path : string;
  no_authoritative_version : string;
  no_collaboration_ready : bool }.
Record KernelObservation := mkKernelObservation {
  ko_status : string;
  ko_parent_msg_id : option string;
  ko_owner_operation_id : option uuid }.

(** ** [HttpCollaborationBackend] *)
Record HttpRequest := mkHttpRequest { hr_method : string; hr_url : string; hr_data : string; hr_headers : list (string * string) }.
Record HttpResponse := mkHttpResponse { hs_status : Z; hs_body : list Z }.

Section Http.
Context `{PyFloat} `{PyConversions}.

Record HttpCollaborationBackend := mkHttpBackend { hb_jupyter_url : string; hb_token : string }.

(** [positive] says that the timeout is. *)
Definition HttpCollaborationBackend_init (jupyter_url token : string) (positive : bool) : res HttpCollaborationBackend :=
  let! parsed := urlsplit jupyter_url in
  let! _ := raise_if (negb (String.eqb (us_scheme parsed) "http")
                      || match hostname parsed with Some h => negb (str_mem h ["127.0.0.1"; "::1"]%string) | None => true end)
    (ValueError "Jupyter collaboration URL must use loopback HTTP") in
  let! _ := raise_if (String.eqb token "" || has_char "000" token) (ValueError "Jupyter token is required") in
  let! _ := raise_if (negb positive) (ValueError "timeout_seconds must be positive") in
  Ok (mkHttpBackend (rstrip (is_char "/") jupyter_url) token).

Definition session_request (b : HttpCollaborationBackend) (path : string) : HttpRequest :=
  mkHttpRequest "PUT" (hb_jupyter_url b ++ "/api/collaboration/session/" ++ quote path_safe path)
    ("{" ++ quoted "format" ++ ": " ++ quoted "json" ++ ", " ++ quoted "type" ++ ": " ++ quoted "notebook" ++ "}")
    [("Authorization", "token " ++ hb_token b); ("Content-Type", "application/json")]%string.

Definition state_error {A} (msg : string) : res A := Err (JupyterStateError msg).

Definition text_field (key : string) (fields : list (string * json)) : option string :=
  match obj_get key fields with Some (JStr s) => if String.eqb s "" then None else Some s | _ => None end.
Definition field_is (key text : string) (fields : list (string * json)) : bool :=
  match obj_get key fields with Some (JStr s) => String.eqb s text | _ => false end.

(** What the response says of the notebook at [path]. *)
Definition read_session (path : string) (response : HttpResponse) : res BackendNotebookState :=
  let! _ := raise_if (negb ((hs_status response =? 200) || (hs_status response =? 201)))
    (JupyterStateError ("Jupyter collaboration session returned " ++ str_of_int (hs_status response))) in
  let! payload := match loads_bytes (hs_body response) with
                  | Err (TypeError _) => state_error "Jupyter collaboration session returned invalid JSON"
                  | Err e => if is_ValueError e then state_error "Jupyter collaboration session returned invalid JSON" else Err e
                  | ok => ok
                  end in
  match payload with
  | JObj fields =>
      match text_field "fileId" fields, text_field "sessionId" fields with
      | Some file_id, Some session_id =>
          if field_is "format" "json" fields && field_is "type" "notebook" fields
          then Ok (mkBackendState path (session_id ++ ":" ++ file_id) true)
          else state_error "Jupyter collaboration session identity is unavailable"
      | _, _ => state_error "Jupyter collaboration session identity is unavailable"
      end
  | _ => state_error "Jupyter collaboration session response is invalid"
  end.

Definition http_observe_notebook (b : HttpCollaborationBackend) (urlopen : HttpRequest -> res HttpResponse) (path : string)
  : res BackendNotebookState :=
  let! path := normalize_notebook_path path in
  let! response := urlopen (session_request b path) in
  read_session path response.

Definition http_move_notebook : res BackendNotebookState :=
  state_error "HTTP collaboration readiness backend does not support notebook moves".
End Http.

(** ** [JupyterSessionAdapter] *)
Inductive jupyter_call :=
| ObserveNotebook (path : string)
| MoveNotebook (source destination expected_version : string)
| PathChanged (source destination : string).

Definition JupyterTrace : Type := list jupyter_call.

Record JupyterEnv := mkJupyterEnv {
  je_observe : JupyterTrace -> string -> res BackendNotebookState;
  je_move : JupyterTrace -> string -> string -> string -> res BackendNotebookState;
  (** none when the adapter has no callback *)
  je_path_changed : option (JupyterTrace -> string -> string -> res unit) }.

Record JupyterSessionAdapter := mkAdapter {
  ja_active : string;
  ja_owners : gmap string uuid;
  ja_kernel : KernelObservation }.

Record JupyterWorld := mkJupyterWorld { jw_trace : JupyterTrace; jw_adapter : JupyterSessionAdapter }.

Definition new_adapter (active_notebook_path : string) : res JupyterSessionAdapter :=
  let! path := normalize_notebook_path active_notebook_path in
  Ok (mkAdapter path ∅ (mkKernelObservation "unknown" None None)).

Section Adapter.
Context (env : JupyterEnv).

Definition backend_call {A} (c : jupyter_call) (answer : JupyterTrace -> res A) : Eff JupyterWorld A := fun w =>
  (mkJupyterWorld (jw_trace w ++ [c]) (jw_adapter w), answer (jw_trace w)).
Definition move_notebook (source destination version : string) : Eff JupyterWorld BackendNotebookState :=
  backend_call (MoveNotebook source destination version) (fun t => je_move env t source destination version).
Definition read_adapter : Eff JupyterWorld JupyterSessionAdapter := fun w => (w, Ok (jw_adapter w)).
Definition set_adapter (a : JupyterSessionAdapter) : Eff JupyterWorld unit := fun w => (mkJupyterWorld (jw_trace w) a, Ok tt).

Definition observe : Eff JupyterWorld NotebookObservation :=
  self ← read_adapter;
  state ← backend_call (ObserveNotebook (ja_active self)) (fun t => je_observe env t (ja_active self));
  observed_path ← eff_lift (normalize_notebook_path (bn_path state));
  _ ← eff_raise_if (negb (String.eqb observed_path (ja_active self)))
        (JupyterStateError "Jupyter observation changed the fixed notebook target");
  _ ← eff_raise_if (String.eqb (bn_version state) "") (JupyterStateError "Jupyter did not provide an authoritative version");
  mret (mkObservation (ja_active self) (bn_version state) (bn_collaboration_ready state)).

Definition require_collaboration : Eff JupyterWorld NotebookObservation :=
  observation ← observe;
  _ ← eff_raise_if (negb (no_collaboration_ready observation)) (JupyterStateError "Jupyter collaboration is not ready");
  mret observation.

Definition browser_focused (_path : string) : Eff JupyterWorld string := self ← read_adapter; mret (ja_active self).

Definition rollback_failed : exn := JupyterStateError "workspace metadata update and Jupyter move rollback failed".
Definition rolled_back : exn := JupyterStateError "workspace metadata update failed; Jupyter move was rolled back".

(** [self._on_active_path_changed(...)] and the move back when it raises. *)
Definition path_changed (source destination version : string) : Eff JupyterWorld unit :=
  match je_path_changed env with
  | None => mret tt
  | Some callback =>
      eff_try (backend_call (PathChanged source destination) (fun t => callback t source destination))
        (fun e => if is_Exception e then
             Some (_ ← eff_try (move_notebook destination source version)
                     (fun e => if is_Exception e then Some (eff_raise rollback_failed) else None);
                   eff_raise rolled_back)
           else None)
  end.

(** The part of [rename_active] for a new path. *)
Definition move_active (source destination expected_version : string) : Eff JupyterWorld NotebookObservation :=
  moved ← move_notebook source destination expected_version;
  moved_path ← eff_lift (normalize_notebook_path (bn_path moved));
  _ ← eff_raise_if (negb (String.eqb moved_path destination))
        (JupyterStateError "Jupyter returned an unexpected moved notebook path");
  _ ← eff_raise_if (String.eqb (bn_version moved) "" || negb (bn_collaboration_ready moved))
        (JupyterStateError "moved notebook is not collaboration-ready");
  _ ← path_changed source destination (bn_version moved);
  self ← read_adapter;
  _ ← set_adapter (mkAdapter destination (ja_owners self) (ja_kernel self));
  mret (mkObservation destination (bn_version moved) true).

Definition rename_active (destination expected_version : string) : Eff JupyterWorld NotebookObservation :=
  current ← require_collaboration;
  _ ← eff_raise_if (negb (String.eqb (no_authoritative_version current) expected_version))
        (JupyterStateError "stale active-notebook version");
  destination ← eff_lift (normalize_notebook_path destination);
  self ← read_adapter;
  if String.eqb destination (ja_active self) then mret current
  else move_active (ja_active self) destination expected_version.

(** ** Owners of requests *)
Definition register_request (operation_id : uuid) (jupyter_msg_id : string) : Eff JupyterWorld unit :=
  _ ← eff_raise_if (String.eqb jupyter_msg_id "" || has_char "000" jupyter_msg_id)
        (ValueError "Jupyter message ID is required");
  self ← read_adapter;
  _ ← eff_raise_if (match ja_owners self !! jupyter_msg_id with
                    | Some existing => negb (String.eqb existing operation_id)
                    | None => false
                    end) (JupyterStateError "Jupyter message ID already has a different owner");
  set_adapter (mkAdapter (ja_active self) (<[jupyter_msg_id := operation_id]> (ja_owners self)) (ja_kernel self)).

Definition kernel_statuses : list string := ["starting"; "idle"; "busy"; "restarting"; "dead"]%string.

Definition observe_kernel_status (status : string) (parent_msg_id : option string) : Eff JupyterWorld KernelObservation :=
  _ ← eff_raise_if (negb (str_mem status kernel_statuses)) (ValueError "unsupported Jupyter kernel status");
  self ← read_adapter;
  let busy := String.eqb status "busy" in
  let owner := match parent_msg_id with Some m => if busy then ja_owners self !! m else None | None => None end in
  let kernel := mkKernelObservation status (if busy then parent_msg_id else None) owner in
  _ ← set_adapter (mkAdapter (ja_active self) (ja_owners self) kernel);
  mret kernel.

Definition complete_request (jupyter_msg_id : string) : Eff JupyterWorld unit :=
  self ← read_adapter;
  set_adapter (mkAdapter (ja_active self) (delete jupyter_msg_id (ja_owners self)) (ja_kernel self)).
End Adapter.

(** ** Renaming *)
Lemma normalize_idempotent v p : normalize_notebook_path v = Ok p -> normalize_notebook_path p = Ok p.
Proof.
  unfold normalize_notebook_path. intros E. apply rbind_ok in E as (u1 & E1 & E). apply rbind_ok in E as (u2 & E2 & E).
  apply rbind_ok in E as (u3 & E3 & E). injection E as <-.
  assert (Hne : path_parts v <> []) by (intros Hn; rewrite Hn, orb_true_r in E1; discriminate).
  destruct (path_parts_back v Hne) as [-> ->]. cbn [orb]. destruct (path_parts v) as [|p ps]; [easy|].
  cbn [raise_if rbind]. now rewrite E2, E3.
Qed.

Section AdapterProofs.
Context (env : JupyterEnv).

Definition owners_of (w : JupyterWorld) : gmap string uuid := ja_owners (jw_adapter w).
Definition active_of (w : JupyterWorld) : string := ja_active (jw_adapter w).

(** Observations call the backend once and leave the adapter alone. *)
Lemma observe_effect w w' r : observe env w = (w', r) ->
  w' = mkJupyterWorld (jw_trace w ++ [ObserveNotebook (active_of w)]) (jw_adapter w)
  /\ forall o, r = Ok o -> no_active_notebook_path o = active_of w /\ no_authoritative_version o <> ""%string.
Proof.
  unfold observe. intros E. apply bind_inv in E as [(e & E & _)|(w1 & self & E1 & E)]; [discriminate|]. injection E1 as <- <-.
  fold (active_of w) in E. apply bind_inv in E as [(e & E & ->)|(w1 & state & E1 & E)].
  { injection E as <- _. split; [reflexivity|discriminate]. }
  injection E1 as <- _. apply eff_lift_bind in E as [(e & _ & -> & ->)|(p & _ & E)]; [split; [reflexivity|discriminate]|].
  apply eff_raise_if_bind in E as [(_ & -> & ->)|[_ E]]; [split; [reflexivity|discriminate]|].
  apply eff_raise_if_bind in E as [(_ & -> & ->)|[Hv E]]; [split; [reflexivity|discriminate]|].
  injection E as <- <-. split; [reflexivity|]. intros o [= <-]. split; [reflexivity|]. now apply String.eqb_neq.
Qed.

Lemma require_effect w w' r : require_collaboration env w = (w', r) ->
  w' = mkJupyterWorld (jw_trace w ++ [ObserveNotebook (active_of w)]) (jw_adapter w)
  /\ forall o, r = Ok o -> no_active_notebook_path o = active_of w /\ no_authoritative_version o <> ""%string
       /\ no_collaboration_ready o = true.
Proof.
  unfold require_collaboration. intros E. apply bind_inv in E as [(e & E & ->)|(w1 & o & E1 & E)].
  { apply observe_effect in E as [-> _]. split; [reflexivity|discriminate]. }
  apply observe_effect in E1 as [-> Ho]. apply eff_raise_if_bind in E as [(_ & -> & ->)|[Hc E]]; [split; [reflexivity|discriminate]|].
  injection E as <- <-. split; [reflexivity|]. intros o' [= <-]. destruct (Ho o eq_refl). apply negb_false_iff in Hc. auto.
Qed.

(** The calls after the move of the notebook. *)
Definition changed_calls (source destination version : string) : list jupyter_call :=
  match je_path_changed env with Some _ => [PathChanged source destination] | None => [] end.

Lemma path_changed_effect s d v w w' r : path_changed env s d v w = (w', r) ->
  jw_adapter w' = jw_adapter w
  /\ (r = Ok tt /\ jw_trace w' = jw_trace w ++ changed_calls s d v
      \/ r <> Ok tt /\ (jw_trace w' = jw_trace w ++ [PathChanged s d] /\ (forall e, r = Err e -> is_Exception e = false)
                        \/ jw_trace w' = jw_trace w ++ [PathChanged s d; MoveNotebook d s v])).
Proof.
  unfold path_changed, changed_calls. destruct (je_path_changed env) as [callback|].
  2: { intros [= <- <-]. split; [reflexivity|left]. split; [reflexivity|]. now rewrite app_nil_r. }
  unfold eff_try, backend_call, move_notebook. destruct (callback (jw_trace w) s d) as [[]|e].
  { intros [= <- <-]. auto. }
  destruct (is_Exception e) eqn:Ee.
  - unfold mbind, eff_bind. cbn. unfold backend_call. cbn. intros E. split; [|right].
    + destruct (je_move env _ d s v) as [m|e']; [now injection E as <- _|]. destruct (is_Exception e'); now injection E as <- _.
    + destruct (je_move env _ d s v) as [m|e']; [|destruct (is_Exception e')]; injection E as <- <-; (split; [discriminate|right]);
        cbn; now rewrite <- app_assoc.
  - intros [= <- <-]. split; [reflexivity|right]. split; [discriminate|left]. split; [reflexivity|]. now intros e' [= <-].
Qed.

(** A rename that raised: the adapter is as before, and when the callback for
    the new path raised, the last call moved the notebook back. *)
Definition rename_failed (a d version : string) (w w' : JupyterWorld) {A} (r : res A) (calls : list jupyter_call) : Prop :=
  exists e, r = Err e /\ jw_adapter w' = jw_adapter w
  /\ (calls = [] \/ calls = [MoveNotebook a d version]
      \/ calls = [MoveNotebook a d version; PathChanged a d] /\ is_Exception e = false
      \/ exists v, calls = [MoveNotebook a d version; PathChanged a d; MoveNotebook d a v]).

(** A rename that returned: the adapter has the new path. *)
Definition renamed (a d version : string) (w w' : JupyterWorld) (r : res NotebookObservation) (calls : list jupyter_call) : Prop :=
  exists v, v <> ""%string /\ r = Ok (mkObservation d v true)
  /\ jw_adapter w' = mkAdapter d (owners_of w) (ja_kernel (jw_adapter w))
  /\ calls = MoveNotebook a d version :: changed_calls a d v.

Lemma move_active_effect a d version w w' r : move_active env a d version w = (w', r) ->
  exists calls, jw_trace w' = jw_trace w ++ calls
    /\ (renamed a d version w w' r calls \/ rename_failed a d version w w' r calls).
Proof.
  unfold move_active. intros E. apply bind_inv in E as [(e & E & ->)|(w1 & m & E1 & E)].
  { injection E as <- _. eexists. split; [reflexivity|right]. exists e. auto. }
  injection E1 as <- _. set (w1 := mkJupyterWorld (jw_trace w ++ _) _) in E.
  assert (Hearly : forall e, w' = w1 -> r = Err e -> exists calls, jw_trace w' = jw_trace w ++ calls
    /\ (renamed a d version w w' r calls \/ rename_failed a d version w w' r calls)).
  { intros e -> ->. eexists. split; [reflexivity|right]. exists e. auto. }
  apply eff_lift_bind in E as [(e & _ & E1 & E2)|(p & _ & E)]; [eauto|].
  apply eff_raise_if_bind in E as [(_ & E1 & E2)|[_ E]]; [eauto|].
  apply eff_raise_if_bind in E as [(_ & E1 & E2)|[Hv E]]; [eauto|]. clear Hearly.
  apply orb_false_iff in Hv as [Hv _]. apply String.eqb_neq in Hv.
  apply bind_inv in E as [(e & E & ->)|(w2 & u & E1 & E)].
  - destruct (path_changed_effect _ _ _ _ _ _ E) as [Ha [[Hr _]|[_ Ht]]]; [discriminate|].
    destruct Ht as [[Ht He]|Ht]; rewrite Ht; cbn; rewrite <- app_assoc; (eexists; split; [reflexivity|right]); exists e;
      (split_and!; [reflexivity|exact Ha|]); cbn; eauto 8.
  - destruct (path_changed_effect _ _ _ _ _ _ E1) as [Ha [[_ Ht]|[Hr _]]]; [|destruct u; now elim Hr].
    unfold mbind, eff_bind, read_adapter, set_adapter, mret, eff_ret in E. injection E as <- <-. cbn. rewrite Ht, Ha. cbn.
    rewrite <- app_assoc. eexists. split; [reflexivity|left]. exists (bn_version m). now split_and!.
Qed.

Lemma rename_effect dst version w w' r : rename_active env dst version w = (w', r) ->
  exists calls, jw_trace w' = jw_trace w ++ ObserveNotebook (active_of w) :: calls
    /\ (r = Ok (mkObservation (active_of w) version true) /\ normalize_notebook_path dst = Ok (active_of w)
          /\ jw_adapter w' = jw_adapter w /\ calls = []
        \/ (exists d, normalize_notebook_path dst = Ok d /\ d <> active_of w /\ renamed (active_of w) d version w w' r calls)
        \/ exists d, rename_failed (active_of w) d version w w' r calls).
Proof.
  unfold rename_active. intros E. apply bind_inv in E as [(e & E & ->)|(w1 & o & E1 & E)].
  { apply require_effect in E as [-> _]. exists []. split; [reflexivity|right; right]. exists ""%string, e. auto. }
  apply require_effect in E1 as [-> Ho]. destruct (Ho o eq_refl) as (Hp & Hv & Hc). set (w1 := mkJupyterWorld _ _) in E.
  assert (Hearly : forall e, w' = w1 -> r = Err e -> jw_trace w' = jw_trace w ++ [ObserveNotebook (active_of w)]
    /\ exists d, rename_failed (active_of w) d version w w' r []).
  { intros e -> ->. split; [reflexivity|]. exists ""%string, e. auto. }
  apply eff_raise_if_bind in E as [(_ & E1 & E2)|[Hs E]].
  { destruct (Hearly _ E1 E2) as [Ht Hf]. exists []. auto. }
  apply negb_false_iff, String.eqb_eq in Hs. apply eff_lift_bind in E as [(e & _ & E1 & E2)|(d & Hd & E)].
  { destruct (Hearly _ E1 E2) as [Ht Hf]. exists []. auto. }
  apply bind_inv in E as [(e & E & _)|(w2 & self & E1 & E)]; [discriminate|]. injection E1 as <- <-.
  change (ja_active (jw_adapter w)) with (active_of w) in E. destruct (String.eqb_spec d (active_of w)) as [->|Hne].
  - unfold mret, eff_ret in E. injection E as <- <-. exists []. split; [reflexivity|left]. split_and!; [|exact Hd|reflexivity..].
    destruct o as [p v c]. cbn in *. now subst.
  - apply move_active_effect in E as (calls & Ht & Hc'). exists calls. split; [rewrite Ht; cbn; now rewrite <- app_assoc|].
    destruct Hc' as [Hr|Hf]; [right; left; exists d; auto|right; right; exists d; exact Hf].
Qed.


(** ** Who owns a request

    The operations of the adapter, and what they mean for the owners: an
    abstract table in which a message gets an owner when it has none and loses
    it when it completes. *)
Inductive adapter_op :=
| OpObserve
| OpRequire
| OpFocus (path : string)
| OpRename (destination expected_version : string)
| OpRegister (operation_id : uuid) (jupyter_msg_id : string)
| OpKernel (status : string) (parent_msg_id : option string)
| OpComplete (jupyter_msg_id : string).

Definition adapter_step (w : JupyterWorld) (o : adapter_op) : JupyterWorld :=
  match o with
  | OpObserve => fst (observe env w)
  | OpRequire => fst (require_collaboration env w)
  | OpFocus p => fst (browser_focused p w)
  | OpRename d v => fst (rename_active env d v w)
  | OpRegister i m => fst (register_request i m w)
  | OpKernel s p => fst (observe_kernel_status s p w)
  | OpComplete m => fst (complete_request m w)
  end.

Definition valid_message (m : string) : bool := negb (String.eqb m "" || has_char "000" m).

Definition owners_step (owners : gmap string uuid) (o : adapter_op) : gmap string uuid :=
  match o with
  | OpRegister i m => if valid_message m && is_none (owners !! m) then <[m := i]> owners else owners
  | OpComplete m => delete m owners
  | _ => owners
  end.

Lemma register_owners i m w : owners_of (fst (register_request i m w)) = owners_step (owners_of w) (OpRegister i m).
Proof.
  unfold register_request, mbind, eff_bind, eff_raise_if, raise_if, read_adapter, set_adapter, owners_of, owners_step, valid_message.
  destruct (String.eqb m "" || has_char "000" m); [reflexivity|]. cbn.
  destruct (ja_owners (jw_adapter w) !! m) as [j|] eqn:Em; cbn; [|reflexivity].
  destruct (String.eqb_spec j i) as [->|]; cbn; [|reflexivity]. now apply insert_id.
Qed.

Lemma rename_adapter_cases dst v w w' r : rename_active env dst v w = (w', r) ->
  jw_adapter w' = jw_adapter w
  \/ exists d, normalize_notebook_path dst = Ok d /\ jw_adapter w' = mkAdapter d (owners_of w) (ja_kernel (jw_adapter w)).
Proof.
  intros E. apply rename_effect in E as (calls & _ & [(_ & _ & Ha & _)|[(d & Hd & _ & v' & _ & _ & Ha & _)|(d & e & _ & Ha & _)]]); eauto.
Qed.

Lemma rename_adapter d v w : owners_of (fst (rename_active env d v w)) = owners_of w
  /\ ja_kernel (jw_adapter (fst (rename_active env d v w))) = ja_kernel (jw_adapter w).
Proof.
  destruct (rename_active env d v w) as [w' r] eqn:E.
  destruct (rename_adapter_cases _ _ _ _ _ E) as [Ha|(p & _ & Ha)]; unfold owners_of; cbn [fst]; now rewrite Ha.
Qed.

Lemma observe_keeps w : jw_adapter (fst (observe env w)) = jw_adapter w.
Proof. destruct (observe env w) as [w' r] eqn:E. now apply observe_effect in E as [-> _]. Qed.
Lemma require_keeps w : jw_adapter (fst (require_collaboration env w)) = jw_adapter w.
Proof. destruct (require_collaboration env w) as [w' r] eqn:E. now apply require_effect in E as [-> _]. Qed.

Lemma kernel_keeps s p w : owners_of (fst (observe_kernel_status s p w)) = owners_of w
  /\ active_of (fst (observe_kernel_status s p w)) = active_of w.
Proof. unfold observe_kernel_status, mbind, eff_bind, eff_raise_if, raise_if. now destruct (negb _). Qed.

Lemma register_active i m w : active_of (fst (register_request i m w)) = active_of w.
Proof.
  unfold register_request, mbind, eff_bind, eff_raise_if, raise_if, read_adapter. destruct (String.eqb m "" || _); [reflexivity|].
  destruct (ja_owners (jw_adapter w) !! m) as [j|]; [destruct (negb _)|]; reflexivity.
Qed.

Lemma step_owners w o : owners_of (adapter_step w o) = owners_step (owners_of w) o.
Proof.
  destruct o; cbn [adapter_step owners_step]; try reflexivity.
  - unfold owners_of. now rewrite observe_keeps.
  - unfold owners_of. now rewrite require_keeps.
  - apply rename_adapter.
  - apply register_owners.
  - apply kernel_keeps.
Qed.

Lemma step_active w o : match o with OpRename _ _ => False | _ => True end -> active_of (adapter_step w o) = active_of w.
Proof.
  destruct o; cbn [adapter_step]; try easy; intros _; unfold active_of.
  - now rewrite observe_keeps.
  - now rewrite require_keeps.
  - apply register_active.
  - apply kernel_keeps.
Qed.

Lemma step_normalized w o : active_of (adapter_step w o) = active_of w
  \/ normalize_notebook_path (active_of (adapter_step w o)) = Ok (active_of (adapter_step w o)).
Proof.
  destruct o; try (left; apply step_active; exact Logic.I). cbn [adapter_step].
  destruct (rename_active env destination expected_version w) as [w' r] eqn:E. unfold active_of. cbn [fst].
  destruct (rename_adapter_cases _ _ _ _ _ E) as [->|(d & Hd & ->)]; [now left|right]. exact (normalize_idempotent _ _ Hd).
Qed.

(** A kernel request is attributed to the operation that registered it.
    Whatever the backend answers and in whatever order notebooks are observed,
    renamed, requests registered and completed and kernel states observed, the
    owners are those of the abstract table: a message belongs to the first
    operation that registered it since its last completion, no other operation
    can take it over, and messages without text or with a NUL belong to
    nobody; and a kernel that is observed busy with a message reports exactly
    that owner, in any other state none.  The active notebook is changed by
    renames only, and stays a normalized notebook path. *)
Theorem requests_attributed ops w :
  let w' := fold_left adapter_step ops w in
  owners_of w' = fold_left owners_step ops (owners_of w)
  /\ (forall status parent w'' k, observe_kernel_status status parent w' = (w'', Ok k) ->
        ko_owner_operation_id k = (if String.eqb status "busy" then parent ≫= (owners_of w' !!.) else None))
  /\ ((forall o, In o ops -> match o with OpRename _ _ => False | _ => True end) -> active_of w' = active_of w)
  /\ (normalize_notebook_path (active_of w) = Ok (active_of w) -> normalize_notebook_path (active_of w') = Ok (active_of w')).
Proof.
  intros w'. split_and!.
  - subst w'. revert w. induction ops as [|o ops IH]; intros w; [reflexivity|]. cbn [fold_left]. now rewrite IH, step_owners.
  - intros status parent w'' k E. unfold observe_kernel_status in E.
    apply eff_raise_if_bind in E as [(_ & _ & E)|[_ E]]; [discriminate|].
    unfold mbind, eff_bind, read_adapter, set_adapter, mret, eff_ret in E. injection E as _ <-. cbn.
    destruct parent as [m|]; [|now destruct (String.eqb status _)]. now destruct (String.eqb status _).
  - subst w'. revert w. induction ops as [|o ops IH]; intros w Ho; [reflexivity|]. cbn [fold_left].
    rewrite IH by (intros; apply Ho; now right). apply step_active. specialize (Ho o (or_introl eq_refl)). now destruct o.
  - subst w'. revert w. induction ops as [|o ops IH]; intros w Hw; [exact Hw|]. cbn [fold_left]. apply IH.
    destruct (step_normalized w o) as [->|Hn]; auto.
Qed.
End AdapterProofs.

(** ** Witnesses *)

(** A backend that moves what it is asked; the callback accepts every path but
    one. *)
Definition sample_jupyter : JupyterEnv := {|
  je_observe t p := Ok (mkBackendState p (str_of_int (Z.of_nat (List.length (List.filter (fun c => match c with MoveNotebook _ _ _ => true | _ => false end) t)))) true);
  je_move _ _ d _ := Ok (mkBackendState d "moved" true);
  je_path_changed := Some (fun _ _ d => if String.eqb d "taken.ipynb" then Err (ValueError "taken") else Ok tt) |}%string.

Definition sample_adapter : JupyterWorld := mkJupyterWorld []
  (mkAdapter "a.ipynb" ∅ (mkKernelObservation "unknown" None None)).

Definition renamed_world : JupyterWorld * res NotebookObservation :=
  Eval vm_compute in rename_active sample_jupyter "b//c.ipynb" "0" sample_adapter.
Lemma renamed_world_eq : rename_active sample_jupyter "b//c.ipynb" "0" sample_adapter = renamed_world.
Proof. vm_compute. reflexivity. Qed.

Example rename_active_ex :
  jw_trace (fst renamed_world) = [ObserveNotebook "a.ipynb"; MoveNotebook "a.ipynb" "b/c.ipynb" "0"; PathChanged "a.ipynb" "b/c.ipynb"]%string
  /\ jw_trace (fst (rename_active sample_jupyter "taken.ipynb" "1" (fst renamed_world)))
     = jw_trace (fst renamed_world) ++
       [ObserveNotebook "b/c.ipynb"; MoveNotebook "b/c.ipynb" "taken.ipynb" "1"; PathChanged "b/c.ipynb" "taken.ipynb";
        MoveNotebook "taken.ipynb" "b/c.ipynb" "moved"]%string.
Proof. vm_compute. split; reflexivity. Qed.


(** A backend that moved the notebook but does not report it ready: the
    adapter raises, keeps the old path and moves nothing back. *)
Definition unready_jupyter : JupyterEnv := {|
  je_observe _ p := Ok (mkBackendState p "0" true);
  je_move _ _ d _ := Ok (mkBackendState d "1" false);
  je_path_changed := None |}%string.

Example unready_move_stays :
  let '(w', r) := rename_active unready_jupyter "b.ipynb" "0" sample_adapter in
  r = Err (JupyterStateError "moved notebook is not collaboration-ready") /\ active_of w' = "a.ipynb"%string
  /\ jw_trace w' = [ObserveNotebook "a.ipynb"; MoveNotebook "a.ipynb" "b.ipynb" "0"]%string.
Proof. vm_compute. auto. Qed.
