(* ===== verification/Adapters.v ===== *)
(** * The pipeline's own adapters (src/notebook_launcher/pipeline.py)

    [DockerContainerControl] over the command runner, [HttpJupyterReadinessProbe]
    over the HTTP backend and the session adapter of Jupyter, the allocation of
    a port and the access rights of the private directory.  The commands, the
    HTTP server, the clock, the sockets and the operating system answer each
    call from the calls before it. *)
From S2P Require Export Runtime Jupyter.

(** ** [DockerContainerControl] *)
Module DockerContainerControl.
Section Control.
Context (runner : Runner).

Definition is_alive (runtime_id : string) : Eff History bool :=
  result ← call_runner runner (inspect_running_argv runtime_id);
  mret ((returncode result =? 0) && String.eqb (lower (strip (stdout result))) "true").

Definition remove_argv (runtime_id : string) : list string := ["docker"; "rm"; "--force"; runtime_id]%string.

Definition stop (runtime_id : string) : Eff History unit :=
  result ← call_runner runner (remove_argv runtime_id);
  alive ← (if negb (returncode result =? 0) then is_alive runtime_id else mret false);
  eff_raise_if alive (RuntimeError ("docker_stop_failed_" ++ str_of_int (returncode result))).

(** Docker says that the container runs. *)
Definition reported_running (h : History) (runtime_id : string) : bool :=
  match runner h (inspect_running_argv runtime_id) with
  | Ok r => (returncode r =? 0) && String.eqb (lower (strip (stdout r))) "true"
  | Err _ => false
  end.

Lemma is_alive_answer i h h' r : is_alive i h = (h', r) ->
  h' = h ++ [inspect_running_argv i] /\ forall b, r = Ok b -> b = reported_running h i.
Proof.
  unfold is_alive, reported_running. unfold mbind, eff_bind, call_runner.
  destruct (runner h _) as [x|e]; intros [= <- <-]; (split; [reflexivity|]); intros b; [now intros [= <-]|discriminate].
Qed.

(** [stop] returns only when Docker removed the container or then did not
    say that it runs. *)
Lemma stop_confirmed i h h' : stop i h = (h', Ok tt) ->
  (exists x, runner h (remove_argv i) = Ok x /\ returncode x = 0)
  \/ reported_running (h ++ [remove_argv i]) i = false.
Proof.
  intros E. apply eff_bind_ok in E as (h1 & x & E1 & E). unfold call_runner in E1. injection E1 as <- E1.
  destruct (Z.eqb_spec (returncode x) 0) as [H0|H0]; [eauto|right]. cbn [negb] in E.
  apply eff_bind_ok in E as (h2 & alive & E2 & E). apply is_alive_answer in E2 as [_ Ha]. rewrite <- (Ha _ eq_refl).
  injection E as _ E. now apply raise_if_ok in E.
Qed.
End Control.
End DockerContainerControl.

(** ** [HttpJupyterReadinessProbe] *)
Module HttpJupyterReadinessProbe.

Inductive probe_call :=
| Request (request : HttpRequest)
| Monotonic
| Sleep (microseconds : Z).

Definition ProbeTrace : Type := list probe_call.

Record ProbeEnv := mkProbeEnv {
  pb_urlopen : ProbeTrace -> HttpRequest -> res HttpResponse;
  pb_monotonic : ProbeTrace -> Z }.

Section Probe.
Context `{PyFloat} `{PyConversions} (env : ProbeEnv).
(** In microseconds. *)
Context (timeout interval : Z).

Definition init : res unit :=
  raise_if ((timeout <=? 0) || (interval <=? 0)) (ValueError "readiness timeouts must be positive").

Definition monotonic : Eff ProbeTrace Z := fun t => (t ++ [Monotonic], Ok (pb_monotonic env t)).
Definition sleep : Eff ProbeTrace unit := fun t => (t ++ [Sleep interval], Ok tt).

(** [timeout_seconds=min(2.0, self.interval_seconds * 4)] *)
Definition request_timeout : Z := Z.min 2000000 (interval * 4).

(** The requests of a call of the backend, and its answer. *)
Definition requests_of (b : HttpCollaborationBackend) (c : jupyter_call) : list probe_call :=
  match c with
  | ObserveNotebook path => match normalize_notebook_path path with Ok p => [Request (session_request b p)] | Err _ => [] end
  | _ => []
  end.
Definition backend_at (b : HttpCollaborationBackend) (t : ProbeTrace) : JupyterEnv :=
  mkJupyterEnv (fun _ path => http_observe_notebook b (pb_urlopen env t) path) (fun _ _ _ _ => http_move_notebook) None.

(** The body of the [try]. *)
Definition attempt (jupyter_url token notebook_path : string) : Eff ProbeTrace unit := fun t =>
  match HttpCollaborationBackend_init jupyter_url token (0 <? request_timeout) with
  | Err e => (t, Err e)
  | Ok b =>
      match new_adapter notebook_path with
      | Err e => (t, Err e)
      | Ok adapter =>
          let '(w, r) := require_collaboration (backend_at b t) (mkJupyterWorld [] adapter) in
          (t ++ flat_map (requests_of b) (jw_trace w), rmap (fun _ => tt) r)
      end
  end.

(** [HTTPError], [URLError] and [TimeoutError] are [OSError]s. *)
Definition tries_again (e : exn) : bool :=
  is_OSError e || is_ValueError e || match e with JupyterStateError _ => true | _ => false end.

Fixpoint poll (fuel : nat) (deadline : Z) (jupyter_url token notebook_path : string) : Eff ProbeTrace bool :=
  match fuel with
  | O => eff_raise Diverges
  | S fuel' =>
      now ← monotonic;
      if deadline <=? now then mret false
      else
        ready ← eff_try (_ ← attempt jupyter_url token notebook_path; mret true)
                  (fun e => if tries_again e then Some (mret false) else None);
        if ready : bool then mret true
        else _ ← sleep; poll fuel' deadline jupyter_url token notebook_path
  end.

Definition wait (fuel : nat) (jupyter_url token notebook_path : string) : Eff ProbeTrace bool :=
  now ← monotonic;
  poll fuel (now + timeout) jupyter_url token notebook_path.

(** The response of a Jupyter server that shares the notebook. *)
Definition collaborates (response : HttpResponse) : Prop :=
  (hs_status response = 200 \/ hs_status response = 201) /\
  exists fields file_id session_id, loads_bytes (hs_body response) = Ok (JObj fields)
    /\ text_field "fileId" fields = Some file_id /\ text_field "sessionId" fields = Some session_id
    /\ field_is "format" "json" fields = true /\ field_is "type" "notebook" fields = true.

Lemma read_session_collaborates path response state : read_session path response = Ok state -> collaborates response.
Proof.
  unfold read_session, collaborates. intros E. apply rbind_ok in E as (u & Hs & E). apply raise_if_ok in Hs.
  apply rbind_ok in E as (payload & Hp & E). split.
  { apply negb_false_iff, orb_true_iff in Hs as [Hs|Hs]; apply Z.eqb_eq in Hs; auto. }
  destruct (loads_bytes _) as [v|e].
  2: { destruct e; try discriminate; cbn [is_ValueError] in Hp; discriminate. }
  injection Hp as ->. destruct payload as [| | | | | |fields]; try discriminate.
  destruct (text_field "fileId" fields) as [f|] eqn:Ef; [|discriminate].
  destruct (text_field "sessionId" fields) as [i|] eqn:Ei; [|discriminate].
  destruct (field_is "format" "json" fields && _) eqn:Eb; [|discriminate]. bool_to_prop.
  exists fields, f, i. auto.
Qed.

(** The server that is asked: on the loopback interface, with a token. *)
Definition asks_loopback (jupyter_url token : string) (b : HttpCollaborationBackend) : Prop :=
  hb_token b = token /\ token <> ""%string /\ hb_jupyter_url b = rstrip (is_char "/") jupyter_url /\
  exists parsed, urlsplit jupyter_url = Ok parsed /\ us_scheme parsed = "http"%string
    /\ (hostname parsed = Some "127.0.0.1" \/ hostname parsed = Some "::1")%string.

Lemma backend_loopback url token positive b : HttpCollaborationBackend_init url token positive = Ok b -> asks_loopback url token b.
Proof.
  unfold HttpCollaborationBackend_init, asks_loopback. intros E. apply rbind_ok in E as (parsed & Hp & E).
  apply rbind_ok in E as (u1 & H1%raise_if_ok & E). apply rbind_ok in E as (u2 & H2%raise_if_ok & E).
  apply rbind_ok in E as (u3 & _ & E). injection E as <-. apply orb_false_iff in H1 as [H1 H3], H2 as [H2 _].
  split; [reflexivity|]. split; [now apply String.eqb_neq|]. split; [reflexivity|]. exists parsed. split; [exact Hp|].
  split; [now apply negb_false_iff, String.eqb_eq in H1|]. destruct (hostname parsed) as [h|]; [|discriminate].
  apply negb_false_iff, str_mem_In in H3 as [<-|[<-|[]]]; auto.
Qed.

(** One attempt asks once. *)
Lemma probe_attempt_ok url token path t t' : attempt url token path t = (t', Ok tt) ->
  exists b p response, asks_loopback url token b /\ normalize_notebook_path path = Ok p
    /\ t' = t ++ [Request (session_request b p)]
    /\ pb_urlopen env t (session_request b p) = Ok response /\ collaborates response.
Proof.
  unfold attempt. destruct (HttpCollaborationBackend_init url token _) as [b|e] eqn:Eb; [|discriminate].
  destruct (new_adapter path) as [a|e] eqn:Ea; [|discriminate]. apply rbind_ok in Ea as (p & Ep & Ea). injection Ea as <-.
  destruct (require_collaboration _ _) as [w r] eqn:Er. intros E. injection E as <- Hr. destruct r as [o|e]; [|discriminate].
  exists b, p. pose proof (normalize_idempotent _ _ Ep) as Hp.
  destruct (require_effect _ _ _ _ Er) as [-> _]. cbn [jw_trace app flat_map requests_of active_of ja_active jw_adapter].
  rewrite Hp. cbn [app]. unfold require_collaboration, observe in Er.
  apply eff_bind_ok in Er as (w1 & o1 & Er & _). apply eff_bind_ok in Er as (w2 & a & E1 & Er). injection E1 as <- <-.
  apply eff_bind_ok in Er as (w3 & st & E3 & _). cbn [jw_adapter ja_active] in E3. injection E3 as _ E3.
  unfold http_observe_notebook in E3. rewrite Hp in E3. cbn [rbind] in E3. apply rbind_ok in E3 as (response & E3 & E4).
  exists response. split; [exact (backend_loopback _ _ _ _ Eb)|]. split_and!; auto. exact (read_session_collaborates _ _ _ E4).
Qed.

(** The calls of an attempt. *)
Lemma attempt_calls url token path t t' r : attempt url token path t = (t', r) -> exists s, t' = t ++ s.
Proof.
  unfold attempt. destruct (HttpCollaborationBackend_init _ _ _) as [b|e]; [|intros [= <- _]; exists []; now rewrite app_nil_r].
  destruct (new_adapter _) as [a|e]; [|intros [= <- _]; exists []; now rewrite app_nil_r].
  destruct (require_collaboration _ _) as [w x]. intros [= <- _]. eauto.
Qed.

(** Jupyter was asked for the notebook, last, and answered that it shares it. *)
Definition seen_collaborating (url token path : string) (t t' : ProbeTrace) : Prop :=
  exists s b p response, t' = t ++ s ++ [Request (session_request b p)]
    /\ asks_loopback url token b /\ normalize_notebook_path path = Ok p
    /\ pb_urlopen env (t ++ s) (session_request b p) = Ok response /\ collaborates response.

Lemma probe_seen_later url token path t s t' : seen_collaborating url token path (t ++ s) t' -> seen_collaborating url token path t t'.
Proof.
  intros (s' & b & p & response & -> & H1 & H2 & H3 & H4). exists (s ++ s'), b, p, response.
  rewrite !app_assoc in *. auto.
Qed.

(** The last calls were those of an attempt whose exception is not tried again. *)
Definition given_up (url token path : string) (t' : ProbeTrace) (e : exn) : Prop :=
  exists t, attempt url token path t = (t', Err e) /\ tries_again e = false.
(** The last call read a clock on which the deadline has come. *)
Definition timed_out (deadline : Z) (t' : ProbeTrace) : Prop :=
  exists t, t' = t ++ [Monotonic] /\ deadline <= pb_monotonic env t.

(** One turn of the loop. *)
Lemma poll_step fuel deadline url token path t t' r : poll (S fuel) deadline url token path t = (t', r) ->
  (timed_out deadline t' /\ r = Ok false)
  \/ (r = Ok true /\ attempt url token path (t ++ [Monotonic]) = (t', Ok tt))
  \/ (exists e, r = Err e /\ given_up url token path t' e)
  \/ (pb_monotonic env t < deadline /\ exists s, poll fuel deadline url token path ((t ++ s) ++ [Sleep interval]) = (t', r)).
Proof.
  cbn [poll]. intros E. apply bind_inv in E as [(e' & [=] & _)|(t1 & now & E1 & E)]. injection E1 as <- <-.
  destruct (Z.leb_spec deadline (pb_monotonic env t)) as [Hd|Hd]; [injection E as <- <-; left; split; [now exists t|reflexivity]|right].
  unfold mbind at 1, eff_bind at 1, eff_try in E.
  destruct ((_ ← attempt url token path; mret true) (t ++ [Monotonic])) as [t3 [ok|e]] eqn:Ea.
  - apply eff_bind_ok in Ea as (t4 & [] & Ea & Em). injection Em as <- <-. injection E as <- <-. auto.
  - right. apply bind_inv in Ea as [(e' & Ea & [= <-])|(t4 & u & _ & Em)]; [|discriminate].
    destruct (tries_again e) eqn:Ht; [right|left].
    + split; [exact Hd|]. apply attempt_calls in Ea as [s ->]. exists ([Monotonic] ++ s). rewrite app_assoc. exact E.
    + exists e. injection E as <- <-. split; [reflexivity|]. now exists (t ++ [Monotonic]).
Qed.

Lemma poll_true fuel deadline url token path t t' : poll fuel deadline url token path t = (t', Ok true) ->
  seen_collaborating url token path t t'.
Proof.
  revert t. induction fuel as [|fuel IH]; intros t E; [discriminate|].
  apply poll_step in E as [[_ [=]]|[[_ Ea]|[(e & [=] & _)|(_ & s & E)]]].
  - destruct (probe_attempt_ok _ _ _ _ _ Ea) as (b & p & response & H1 & H2 & -> & H3 & H4).
    exists [Monotonic], b, p, response. rewrite <- app_assoc in *. auto.
  - apply IH in E. rewrite <- app_assoc in E. now apply probe_seen_later in E.
Qed.

(** A clock that never goes back and that sleeping moves on. *)
Record steady : Prop := mkSteady {
  steady_calls t s : pb_monotonic env t <= pb_monotonic env (t ++ s);
  steady_sleep t : pb_monotonic env t + interval <= pb_monotonic env (t ++ [Sleep interval]) }.

(** The loop ends by itself, at the latest when the time is over. *)
Lemma poll_ends fuel deadline url token path t t' r : steady ->
  deadline - pb_monotonic env t <= Z.of_nat fuel * interval ->
  poll (S fuel) deadline url token path t = (t', r) ->
  match r with
  | Ok true => seen_collaborating url token path t t'
  | Ok false => timed_out deadline t'
  | Err e => given_up url token path t' e
  end.
Proof.
  intros Hs. revert t. induction fuel as [|fuel IH]; intros t Hf E; pose proof E as Ep;
    apply poll_step in E as [[Hd ->]|[[-> _]|[(e & -> & He)|(Hd & s & E)]]]; eauto using poll_true; [lia|].
  pose proof (steady_calls Hs t s). pose proof (steady_sleep Hs (t ++ s)).
  apply IH in E; [|lia]. destruct r as [[]|e]; [exact (poll_true _ _ _ _ _ _ _ Ep)|exact E..].
Qed.

(** C11: the readiness probe ends and tells the truth.  On a clock that sleeping
    moves on, the loop ends after at most [timeout / interval] sleeps.  It
    returns [True] only when its last call asked the Jupyter server on the
    loopback interface, with the token, for the collaboration session of this
    notebook, and the server answered 200 or 201 with the identity of the file
    and of the session; [False] only when its last reading of the clock was
    past the deadline; and it raises only what its last attempt raised, an
    exception that is not tried again. *)
Theorem probe_ends_truthfully fuel url token path t t' r : steady ->
  timeout <= Z.of_nat fuel * interval -> wait (S fuel) url token path t = (t', r) ->
  match r with
  | Ok true => seen_collaborating url token path t t'
  | Ok false => timed_out (pb_monotonic env t + timeout) t'
  | Err e => given_up url token path t' e
  end.
Proof.
  intros Hs Hf E. unfold wait in E. apply bind_inv in E as [(e & [=] & _)|(t1 & now & E1 & E)]. injection E1 as <- <-.
  pose proof (steady_calls Hs t [Monotonic]).
  apply (poll_ends fuel) in E; [|exact Hs|lia]. destruct r as [[]|e]; [now apply probe_seen_later in E|exact E..].
Qed.
End Probe.

(** Jupyter refuses the connection for two seconds, then shares the notebook.
    The clock is what was slept. *)
Definition slept (t : ProbeTrace) : Z := foldr (fun c n => match c with Sleep d => Z.max 0 d + n | _ => n end) 0 t.

Definition shared_notebook : HttpResponse :=
  mkHttpResponse 201 (str_encode ("{" ++ quoted "format" ++ ":" ++ quoted "json" ++ "," ++ quoted "type" ++ ":" ++ quoted "notebook" ++ ","
    ++ quoted "fileId" ++ ":" ++ quoted "f1" ++ "," ++ quoted "sessionId" ++ ":" ++ quoted "s1" ++ "}")%string).

Definition booting : ProbeEnv := mkProbeEnv
  (fun t _ => if slept t <? 2000000 then Err (OSError 111) else Ok shared_notebook) slept.

Example booting_wait :
  wait booting 60000000 250000 241 "http://127.0.0.1:40001/" "secret" "a/b.ipynb" [] =
  (Monotonic :: flat_map (fun _ => [Monotonic; Request (session_request (mkHttpBackend "http://127.0.0.1:40001" "secret") "a/b.ipynb");
                                    Sleep 250000]) (seq 0 8)
     ++ [Monotonic; Request (session_request (mkHttpBackend "http://127.0.0.1:40001" "secret") "a/b.ipynb")], Ok true).
Proof. vm_compute. reflexivity. Qed.

Lemma slept_app a b : slept (a ++ b) = slept a + slept b.
Proof. unfold slept. induction a as [|c a IH]; [reflexivity|]. cbn [app foldr]. rewrite IH. destruct c; lia. Qed.

Lemma booting_steady : steady booting 250000.
Proof.
  assert (Hpos : forall t, 0 <= slept t) by (unfold slept; induction t as [|[] t IH]; cbn [foldr]; lia).
  split; intros; cbn [pb_monotonic booting]; rewrite slept_app; [pose proof (Hpos s); lia|reflexivity].
Qed.

Lemma probe_ends_truthfully_witness :
  exists t', wait booting 60000000 250000 241 "http://127.0.0.1:40001/" "secret" "a/b.ipynb" [] = (t', Ok true)
    /\ seen_collaborating booting "http://127.0.0.1:40001/" "secret" "a/b.ipynb" [] t'.
Proof.
  exists (fst (wait booting 60000000 250000 241 "http://127.0.0.1:40001/" "secret" "a/b.ipynb" [])).
  split; [vm_compute; reflexivity|].
  exact (probe_ends_truthfully booting 60000000 250000 240 "http://127.0.0.1:40001/" "secret" "a/b.ipynb" []
    (fst (wait booting 60000000 250000 241 "http://127.0.0.1:40001/" "secret" "a/b.ipynb" [])) (Ok true)
    booting_steady ltac:(vm_compute; discriminate) ltac:(vm_compute; reflexivity)).
Defined.
End HttpJupyterReadinessProbe.

(** ** [_allocate_loopback_port] and [_restrict_owner_access] *)
Inductive os_call :=
| OpenSocket
| BindSocket (host : string) (port : Z)
| GetSockName
| CloseSocket
| Chmod (path : string) (mode : Z)
| GetUser
| RunCommand (argv : list string).

Definition OsTrace : Type := list os_call.

Record OsEnv := mkOsEnv {
  oe_unit : OsTrace -> os_call -> res unit;
  oe_port : OsTrace -> res Z;
  oe_user : OsTrace -> res string;
  oe_command : OsTrace -> list string -> res CommandResult }.

Section OperatingSystem.
Context (env : OsEnv) (nt : bool).

Definition os_ask {A} (c : os_call) (answer : OsTrace -> res A) : Eff OsTrace A := fun t => (t ++ [c], answer t).
Definition os_do (c : os_call) : Eff OsTrace unit := os_ask c (fun t => oe_unit env t c).

Definition allocate_loopback_port : Eff OsTrace Z :=
  _ ← os_do OpenSocket;
  eff_finally
    (_ ← os_do (BindSocket "127.0.0.1" 0);
     os_ask GetSockName (oe_port env))
    (os_do CloseSocket).

(** [stat.S_IRWXU] *)
Definition S_IRWXU : Z := 0x1c0.

Definition icacls_argv (path principal : string) : list string :=
  ["icacls"; path; "/inheritance:r"; "/grant:r"; principal ++ ":(OI)(CI)F"]%string.

Definition restrict_owner_access (path : string) : Eff OsTrace unit :=
  if negb nt then os_do (Chmod path S_IRWXU)
  else
    principal ← os_ask GetUser (oe_user env);
    _ ← eff_raise_if (String.eqb principal "" || has_char Sandbox.NUL principal)
          (RuntimeError "unable to resolve the current Windows user");
    result ← os_ask (RunCommand (icacls_argv path principal)) (fun t => oe_command env t (icacls_argv path principal));
    eff_raise_if (negb (returncode result =? 0)) (RuntimeError ("runtime_private_acl_failed_" ++ str_of_int (returncode result))).

(** The socket that reserved the port is closed again, whatever fails. *)
Lemma port_socket_closed t t' r : allocate_loopback_port t = (t', r) ->
  (t' = t ++ [OpenSocket] /\ exists e, oe_unit env t OpenSocket = Err e)
  \/ exists s, t' = t ++ OpenSocket :: BindSocket "127.0.0.1" 0 :: s ++ [CloseSocket].
Proof.
  unfold allocate_loopback_port. intros E. apply bind_inv in E as [(e & E & _)|(t1 & u & E1 & E)].
  - injection E as <- E. eauto.
  - injection E1 as <- _. right. unfold eff_finally, os_do, os_ask, mbind, eff_bind in E.
    destruct (oe_unit env (t ++ [OpenSocket]) _) as [v|e]; [exists [GetSockName]|exists []].
    all: destruct (oe_unit env _ CloseSocket); injection E as <- _; now rewrite <- !app_assoc.
Qed.
End OperatingSystem.
