(* ===== verification/Environment.v ===== *)
(** * Environments (src/notebook_launcher/environment.py)

    The identity of an environment, the image cache, the repo2docker build and
    the host diagnostics, over a runner as in Network. *)
From S2P Require Export Runtime.

Definition RUNTIME_STRATEGY_VERSION : string :=
  "repo2docker-v2-jupyterlab-4.6.3-collaboration-5.0.3-notebook-7.6.0".

Record CapabilityDiagnostic := mkDiagnostic {
  cd_name : string;
  cd_available : bool;
  cd_version : option string;
  cd_error : option string }.

(** [HostDiagnostics.get]: [None] where [next] raises [StopIteration]. *)
Definition diagnostics_get (capabilities : list CapabilityDiagnostic) (name : string) : option CapabilityDiagnostic :=
  List.find (fun item => String.eqb (cd_name item) name) capabilities.

Record EnvironmentIdentity := mkEnvironmentIdentity {
  ei_repository_id : Z;
  ei_commit_sha : string;
  ei_builder_version : string;
  ei_strategy_version : string;
  ei_environment_digest : string;
  ei_image_tag : string }.

Record EnvironmentBuildResult := mkBuildResult {
  br_identity : EnvironmentIdentity;
  br_cache_hit : bool;
  br_image_id : string;
  br_duration_ms : Z }.

(** ** [environment_identity] *)
Definition is_hex_lower (c : ascii) : bool := is_digit c || ((97 <=? ord c) && (ord c <=? 102)).

Definition digest_parts (repository_id : Z) (sha builder strategy : string) : list string :=
  [str_of_int repository_id; sha; strip builder; strip strategy].

Definition digest_input (repository_id : Z) (sha builder strategy : string) : string :=
  str_join (String Sandbox.NUL "") (digest_parts repository_id sha builder strategy).

Definition environment_identity (repository_id : Z) (commit_sha builder_version strategy_version : string)
  : res EnvironmentIdentity :=
  let sha := lower commit_sha in
  let! _ := value_error_if (negb (Nat.eqb (String.length sha) 40) || negb (all_chars is_hex_lower sha))
    "commit_sha must be a 40-character hexadecimal SHA" in
  let! _ := value_error_if (repository_id <=? 0) "repository_id must be positive" in
  let! _ := value_error_if (is_blank builder_version || is_blank strategy_version)
    "builder and strategy versions are required" in
  let digest := sha256_hex (str_encode (digest_input repository_id sha builder_version strategy_version)) in
  Ok (mkEnvironmentIdentity repository_id sha (strip builder_version) (strip strategy_version) digest
        ("notebook-launcher/" ++ str_of_int repository_id ++ ":" ++ str_take 20 digest)).

(** ** [DockerEnvironmentCache] *)
Definition image_inspect_argv (identity : EnvironmentIdentity) : list string :=
  ["docker"; "image"; "inspect"; "--format"; "{{.Id}}"; ei_image_tag identity]%string.

(** [except (ExecutionTimeout, OSError)] *)
Definition timeout_or_os (e : exn) : bool :=
  match e with LauncherExn x => bool_decide (x = ExecutionTimeout) | _ => is_OSError e end.

Section Builder.
Context (runner : Runner).

Definition cache_contains (identity : EnvironmentIdentity) : Eff History bool := fun h =>
  match call_runner runner (image_inspect_argv identity) h with
  | (h', Ok r) => (h', Ok ((returncode r =? 0) && negb (String.eqb (strip (stdout r)) "")))
  | (h', Err e) => (h', if timeout_or_os e then Ok false else Err e)
  end.

Definition cache_image_id (identity : EnvironmentIdentity) : Eff History (option string) := fun h =>
  match call_runner runner (image_inspect_argv identity) h with
  | (h', Ok r) =>
      (h', Ok (if negb (returncode r =? 0) then None
               else if String.eqb (strip (stdout r)) "" then None else Some (strip (stdout r))))
  | (h', Err e) => (h', if timeout_or_os e then Ok None else Err e)
  end.

(** ** [Repo2DockerBuilder] *)
Context (executable : list string) (runtime_appendix : string).

(** The checks of the constructor on the argument vector; a [sys.executable]
    or a single string is a list here. *)
Definition valid_executable : bool :=
  negb (match executable with [] => true | _ => false end)
  && forallb (fun item => negb (String.eqb item "" || has_char Sandbox.NUL item)) executable.

Definition build_argv (identity : EnvironmentIdentity) (source_root : string) : list string :=
  executable ++ ["--no-run"; "--image-name"; ei_image_tag identity; "--user-id"; "1000"; "--user-name"; "jovyan";
                 "--appendix"; runtime_appendix; source_root]%string.

(** [type(exc).__name__] of an [OSError]. *)
Definition os_error_name (e : exn) : string :=
  match process_failure e with Some n => n | None => "OSError" end.

Definition run_build (argv : list string) : Eff History CommandResult := fun h =>
  match call_runner runner argv h with
  | (h', Err e) =>
      (h', if negb (timeout_or_os e) then Err e
           else if is_OSError e then Err (EnvironmentBuildError ("repo2docker_unavailable: " ++ os_error_name e))
           else Err (EnvironmentBuildError "repo2docker_timeout"))
  | r => r
  end.

(** [source_root] is resolved and [is_dir] is what the host says of it. *)
Definition builder_ensure (identity : EnvironmentIdentity) (source_root : res string) (is_dir : string -> bool)
  : Eff History EnvironmentBuildResult :=
  root ← eff_lift source_root;
  _ ← eff_raise_if (negb (is_dir root)) (ValueError "repo2docker source_root must be a directory");
  cached ← cache_image_id identity;
  match cached with
  | Some i => mret (mkBuildResult identity true i 0)
  | None =>
      result ← run_build (build_argv identity root);
      _ ← eff_raise_if (negb (returncode result =? 0))
            (EnvironmentBuildError ("repo2docker_failed_" ++ str_of_int (returncode result)));
      built ← cache_image_id identity;
      match built with
      | Some i => mret (mkBuildResult identity false i (duration_ms result))
      | None => eff_raise (EnvironmentBuildError "repo2docker_image_missing_after_build")
      end
  end.
End Builder.

(** ** Host diagnostics *)
Section Diagnostics.
Context (runner : Runner).

Definition first_line (out : string) : option string :=
  option_map strip (List.find (fun line => negb (is_blank line)) (splitlines out)).

Definition probe_command (name : string) (argv : list string) : Eff History CapabilityDiagnostic := fun h =>
  match call_runner runner argv h with
  | (h', Ok r) =>
      (h', Ok (if negb (returncode r =? 0)
               then mkDiagnostic name false None (Some ("command_failed_" ++ str_of_int (returncode r))%string)
               else mkDiagnostic name true (first_line (stdout r)) None))
  | (h', Err e) =>
      (h', if negb (timeout_or_os e) then Err e
           else Ok (mkDiagnostic name false None (Some (if is_OSError e then os_error_name e else "timeout"%string))))
  end.

Context (sys_executable : string).

Definition probe_python_distribution (name distribution : string) : Eff History CapabilityDiagnostic :=
  probe_command name
    [sys_executable; "-c"; "from importlib.metadata import version; import sys; print(version(sys.argv[1]))";
     distribution]%string.

Definition probe_network_policy (system : string) : Eff History CapabilityDiagnostic :=
  if negb (String.eqb system "Linux") then
    mret (mkDiagnostic "network_policy" false None (Some "unsupported_platform"%string))
  else
    nft ← probe_command "network_policy" ["nft"; "--version"]%string;
    if cd_available nft then mret nft
    else
      iptables ← probe_command "network_policy" ["iptables"; "--version"]%string;
      if cd_available iptables then mret iptables
      else mret (mkDiagnostic "network_policy" false None (Some "nft_and_iptables_unavailable"%string)).

(** [probe_state_directory] writes a temporary file; the effect is the
    argument [written], its diagnostic is this. *)
Definition probe_state_directory (path : string) (written : res unit) : res CapabilityDiagnostic :=
  match written with
  | Ok _ => Ok (mkDiagnostic "state_directory" true (Some path) None)
  | Err e => if is_OSError e then Ok (mkDiagnostic "state_directory" false None (Some (os_error_name e))) else Err e
  end.

Definition collect_host_diagnostics (system root : string) (written : res unit)
  : Eff History (list CapabilityDiagnostic) :=
  git ← probe_command "git" ["git"; "--version"]%string;
  docker ← probe_command "docker" ["docker"; "version"; "--format"; "{{.Server.Version}}"]%string;
  repo2docker ← probe_command "repo2docker" [sys_executable; "-m"; "repo2docker"; "--version"]%string;
  collaboration ← probe_python_distribution "jupyter_collaboration" "jupyter-collaboration";
  backend ← probe_python_distribution "mcp_backend" "jupyter-mcp-server";
  gpu ← probe_command "gpu" ["nvidia-smi"; "--query-gpu=name"; "--format=csv,noheader"]%string;
  network ← probe_network_policy system;
  state ← eff_lift (probe_state_directory root written);
  mret [git; docker; repo2docker; collaboration; backend; gpu; network; state].
End Diagnostics.

(** ** The digest input *)

(** Reading a digest input back. *)
Definition parse_digest_input (s : string) : option (Z * string * string * string) :=
  match split_on Sandbox.NUL s with
  | [i; sha; builder; strategy] => option_map (fun z => (z, sha, builder, strategy)) (read_decimal i)
  | _ => None
  end.

Lemma all_chars_lstrip p q s : all_chars q s = true -> all_chars q (lstrip p s) = true.
Proof.
  induction s as [|c s IH]; [auto|]. intros H. cbn [lstrip]. destruct (p c); [|exact H].
  cbn [all_chars] in H. apply andb_true_iff in H as [_ H]. auto.
Qed.

Lemma all_chars_rstrip p q s : all_chars q s = true -> all_chars q (rstrip p s) = true.
Proof.
  induction s as [|c s IH]; [auto|]. intros H. cbn [all_chars rstrip] in *. apply andb_true_iff in H as [Hc H].
  specialize (IH H). destruct (rstrip p s); [destruct (p c)|]; cbn [all_chars] in *; rewrite ?Hc; auto.
Qed.

Lemma all_chars_strip q s : all_chars q s = true -> all_chars q (strip s) = true.
Proof. intros H. unfold strip. now apply all_chars_rstrip, all_chars_lstrip. Qed.

Lemma str_of_int_no_nul z : all_chars (no_sep Sandbox.NUL) (str_of_int z) = true.
Proof. apply str_of_int_chars; [reflexivity|]. intros c Hc. by_chars c. Qed.

Lemma read_str_of_int z : 0 <= z -> read_decimal (str_of_int z) = Some z.
Proof.
  intros Hz. destruct (str_of_int_numeral z) as (sg & D & -> & [[_ ?]|[-> _]] & Hnum); [lia|].
  rewrite Z.abs_eq in Hnum by lia. now apply read_decimal_numeral.
Qed.

Lemma parse_digest_input_back r sha b s :
  0 <= r -> has_char Sandbox.NUL sha = false -> has_char Sandbox.NUL b = false -> has_char Sandbox.NUL s = false ->
  parse_digest_input (digest_input r sha b s) = Some (r, sha, strip b, strip s).
Proof.
  intros Hr Hsha%has_char_false Hb%has_char_false Hs%has_char_false. unfold parse_digest_input, digest_input.
  rewrite split_join; [|discriminate|].
  - unfold digest_parts. now rewrite read_str_of_int.
  - unfold digest_parts. cbn [forallb]. now rewrite str_of_int_no_nul, Hsha, !all_chars_strip.
Qed.

Lemma hex_no_nul s : all_chars is_hex_lower s = true -> has_char Sandbox.NUL s = false.
Proof.
  intros H. unfold has_char. apply negb_false_iff. apply (all_chars_imp is_hex_lower); [|exact H].
  intros c Hc. by_chars c.
Qed.

(** An environment identity is canonical: it exists exactly for a 40-digit
    hexadecimal commit, a positive repository and non-blank versions; its
    commit is in lower case; its digest is the SHA-256 of a text from which
    the repository, the commit and both versions can be read back, so two
    identities with the same digest input are the same (versions without NUL);
    and the image tag is made of the repository and the first 20 digits. *)
Theorem environment_identity_canonical r c b s :
  (is_ok (environment_identity r c b s) = true <->
     String.length (lower c) = 40%nat /\ all_chars is_hex_lower (lower c) = true /\ 0 < r /\
     is_blank b = false /\ is_blank s = false) /\
  forall i, environment_identity r c b s = Ok i ->
    has_char Sandbox.NUL b = false -> has_char Sandbox.NUL s = false ->
    exists input, ei_environment_digest i = sha256_hex (str_encode input) /\
      parse_digest_input input
      = Some (ei_repository_id i, ei_commit_sha i, ei_builder_version i, ei_strategy_version i) /\
      ei_commit_sha i = lower c /\ ei_repository_id i = r /\
      ei_image_tag i = ("notebook-launcher/" ++ str_of_int r ++ ":" ++ str_take 20 (ei_environment_digest i))%string.
Proof.
  unfold environment_identity. split.
  - destruct (Nat.eqb_spec (String.length (lower c)) 40) as [E1|E1], (all_chars is_hex_lower (lower c)) eqn:E2,
      (Z.leb_spec r 0) as [E3|E3], (is_blank b) eqn:E4, (is_blank s) eqn:E5; cbn; split; intuition (congruence || lia).
  - intros i H Hb Hs. repeat (apply rbind_ok in H as ([] & ?%value_error_if_ok & H)).
    assert (E : i = mkEnvironmentIdentity r (lower c) (strip b) (strip s)
      (sha256_hex (str_encode (digest_input r (lower c) b s)))
      ("notebook-launcher/" ++ str_of_int r ++ ":" ++ str_take 20 (sha256_hex (str_encode (digest_input r (lower c) b s)))))
      by congruence.
    subst i. exists (digest_input r (lower c) b s). split_and!; try reflexivity.
    apply orb_false_iff in H0 as [_ Hhex%negb_false_iff]. cbn [ei_repository_id ei_commit_sha].
    apply parse_digest_input_back; [apply Z.leb_gt in H1; lia|now apply hex_no_nul|exact Hb|exact Hs].
Qed.

(** ** The build *)
Lemma cache_image_id_trace runner i h h' r : cache_image_id runner i h = (h', r) ->
  h' = h ++ [image_inspect_argv i] /\
  forall id, r = Ok (Some id) -> exists x, runner h (image_inspect_argv i) = Ok x /\ returncode x = 0
                                  /\ id = strip (stdout x) /\ id <> ""%string.
Proof.
  unfold cache_image_id, call_runner. destruct (runner h (image_inspect_argv i)) as [x|e]; intros H; injection H as <- <-;
    (split; [reflexivity|]).
  - intros id H. exists x. destruct (Z.eqb_spec (returncode x) 0), (String.eqb_spec (strip (stdout x)) ""); cbn [negb] in H;
      try congruence. assert (id = strip (stdout x)) by congruence. subst id. auto.
  - intros id. destruct (timeout_or_os e); congruence.
Qed.

Lemma run_build_trace runner argv h h' r : run_build runner argv h = (h', r) ->
  h' = h ++ [argv] /\ (forall x, r = Ok x -> runner h argv = Ok x).
Proof.
  unfold run_build, call_runner. destruct (runner h argv) as [x|e]; intros H; injection H as <- <-; (split; [reflexivity|]).
  - auto.
  - intros x. destruct (timeout_or_os e), (is_OSError e); cbn; congruence.
Qed.

Section Ensure.
Context (runner : Runner) (executable : list string) (appendix : string).

(** The environment builder runs at most one build and only when the image
    is not cached: the commands that ran are the inspection of the tag,
    followed by the build of exactly this tag from this root and, if it
    succeeded, a second inspection; a result that reports a cache hit comes
    from the first inspection with nothing built, any other result from a
    build that returned zero; in both cases the image id is what the last
    inspection printed, and it is not empty. *)
Theorem ensure_builds_once i root is_dir h h' r :
  builder_ensure runner executable appendix i (Ok root) is_dir h = (h', r) ->
  let inspect := image_inspect_argv i in
  let build := build_argv executable appendix i root in
  (exists k, h' = h ++ firstn k [inspect; build; inspect]) /\
  forall b, r = Ok b ->
    br_identity b = i /\ br_image_id b <> ""%string /\
    if br_cache_hit b
    then h' = h ++ [inspect] /\
         exists x, runner h inspect = Ok x /\ returncode x = 0 /\ br_image_id b = strip (stdout x)
    else h' = h ++ [inspect; build; inspect] /\
         (exists y, runner (h ++ [inspect]) build = Ok y /\ returncode y = 0 /\ br_duration_ms b = duration_ms y) /\
         exists x, runner (h ++ [inspect; build]) inspect = Ok x /\ returncode x = 0
                   /\ br_image_id b = strip (stdout x).
Proof.
  intros H inspect build. unfold builder_ensure in H. checked H as a E0; [discriminate E0|]. injection E0 as <-.
  apply eff_raise_if_bind in H as [(_ & -> & ->)|(_ & H)].
  { split; [exists 0%nat; now rewrite app_nil_r|discriminate]. }
  apply bind_inv in H as [(e & E & ->)|(h1 & cached & E & H)];
    apply cache_image_id_trace in E as [-> Hid]; [split; [now exists 1%nat|discriminate]|].
  destruct cached as [id|].
  { injection H as <- <-. split; [now exists 1%nat|]. intros b Hb. assert (b = mkBuildResult i true id 0) as -> by congruence.
    cbn. destruct (Hid id eq_refl) as (x & ? & ? & ? & ?). split_and!; eauto. }
  apply bind_inv in H as [(e & E & ->)|(h1 & y & E & H)]; apply run_build_trace in E as [-> Hy];
    rewrite <- app_assoc in *; cbn [app] in *; [split; [now exists 2%nat|discriminate]|].
  apply eff_raise_if_bind in H as [(_ & -> & ->)|(Hrc & H)]; [split; [now exists 2%nat|discriminate]|].
  apply negb_false_iff, Z.eqb_eq in Hrc.
  apply bind_inv in H as [(e & E & ->)|(h1 & built & E & H)]; apply cache_image_id_trace in E as [-> Hb];
    rewrite <- app_assoc in *; cbn [app] in *; [split; [now exists 3%nat|discriminate]|].
  destruct built as [id|]; injection H as <- <-; (split; [now exists 3%nat|]); [|discriminate].
  intros b Eb. assert (b = mkBuildResult i false id (duration_ms y)) as -> by congruence. cbn.
  destruct (Hb id eq_refl) as (x & ? & ? & ? & ?). split_and!; eauto 10.
Qed.
End Ensure.

(** The network policy is available when one of the two tools answers. *)
Lemma network_policy_needs_linux runner system h h' d :
  probe_network_policy runner system h = (h', Ok d) -> cd_available d = true -> system = "Linux"%string.
Proof.
  unfold probe_network_policy. destruct (String.eqb_spec system "Linux"); [auto|]. cbn [negb]. intros H Hd.
  injection H as _ <-. discriminate Hd.
Qed.

(** ** Witnesses *)
Definition sample_sha : string := "0123456789ABCDEF0123456789abcdef01234567".

Definition sample_identity : EnvironmentIdentity :=
  match environment_identity 42 sample_sha "repo2docker 2024.07.0" RUNTIME_STRATEGY_VERSION with
  | Ok i => i
  | Err _ => mkEnvironmentIdentity 0 "" "" "" "" ""
  end.

Lemma environment_identity_canonical_witness :
  exists i input, environment_identity 42 sample_sha "repo2docker 2024.07.0" RUNTIME_STRATEGY_VERSION = Ok i /\
    parse_digest_input input
    = Some (ei_repository_id i, ei_commit_sha i, ei_builder_version i, ei_strategy_version i).
Proof.
  pose proof (environment_identity_canonical 42 sample_sha "repo2docker 2024.07.0" RUNTIME_STRATEGY_VERSION) as [Hok Hi].
  destruct (environment_identity 42 sample_sha "repo2docker 2024.07.0" RUNTIME_STRATEGY_VERSION) as [i|e] eqn:E.
  - destruct (Hi i eq_refl eq_refl eq_refl) as (input & _ & Hp & _). exists i, input. auto.
  - exfalso. assert (is_ok (Err (A := EnvironmentIdentity) e) = true); [|discriminate].
    apply Hok. repeat split; reflexivity.
Defined.

(** A host whose image appears once it is built. *)
Definition building_runner : Runner := fun h c =>
  if str_mem "inspect" c then Ok (answer (match h with [] => 1 | _ => 0 end) "sha256:1") else Ok (answer 0 "").

Example ensure_ex :
  match builder_ensure building_runner ["repo2docker"%string] "RUN x" sample_identity (Ok "/src"%string) (fun _ => true) [] with
  | (h, Ok b) => (List.length h, br_cache_hit b, br_image_id b)
  | (h, Err _) => (List.length h, true, ""%string)
  end = (3%nat, false, "sha256:1"%string).
Proof. vm_compute. reflexivity. Qed.

Lemma ensure_builds_once_witness :
  exists k, fst (builder_ensure building_runner ["repo2docker"%string] "RUN x" sample_identity (Ok "/src"%string)
                   (fun _ => true) [])
    = [] ++ firstn k [image_inspect_argv sample_identity;
                      build_argv ["repo2docker"%string] "RUN x" sample_identity "/src";
                      image_inspect_argv sample_identity].
Proof.
  exact (proj1 (ensure_builds_once building_runner ["repo2docker"%string] "RUN x" sample_identity "/src" (fun _ => true) []
    _ _ (surjective_pairing _))).
Defined.
