(* ===== verification/Trust.v ===== *)
(** * Source trust (src/notebook_launcher/trust.py and trust_flow.py)

    [TrustStore]: the persistent grants.  [TrustFlowStore]: the one-time
    challenge by which a user confirms trust in a pending launch.  UUIDs and
    nonces drawn by the code, and its clock, are arguments. *)
From S2P Require Export StateStore Crypto.

(** ** [TrustStore] *)
Record TrustMatch := mkTrustMatch {
  tm_trusted : bool;
  tm_trust_id : option uuid;
  tm_scope : option TrustScope }.

Definition exact_trust (repository_id : Z) (commit_sha : string) (t : trust_row) : bool :=
  (t_repository_id t =? repository_id) && trust_active t
  && String.eqb (t_scope t) "exact_commit" && opt_eqb (t_commit_sha t) (Some commit_sha).

Definition repository_trust (repository_id : Z) (t : trust_row) : bool :=
  (t_repository_id t =? repository_id) && trust_active t && String.eqb (t_scope t) "repository".

(** [ORDER BY CASE scope WHEN 'exact_commit' THEN 0 ELSE 1 END LIMIT 1]: an
    exact-commit row when there is one, else a repository row. *)
Definition find_trust_row (repository_id : Z) (commit_sha : string) (d : db) : option trust_row :=
  match fetchone (exact_trust repository_id commit_sha) (trust_records d) with
  | Some t => Some t
  | None => fetchone (repository_trust repository_id) (trust_records d)
  end.

Definition find (source : ResolvedSource) (d : db) : res TrustMatch :=
  match find_trust_row (rs_repository_id source) (rs_commit_sha source) d with
  | None => Ok (mkTrustMatch false None None)
  | Some t =>
      let! scope := TrustScope_of (t_scope t) in
      Ok (mkTrustMatch true (Some (t_id t)) (Some scope))
  end.

Definition scoped_commit (scope : TrustScope) (commit_sha : string) : option string :=
  match scope with EXACT_COMMIT => Some commit_sha | REPOSITORY => None end.

Definition grant_identity (trust_id : uuid) (repository_id : Z) (repository_node_id : option string)
    (owner repository commit_sha : string) (scope : TrustScope) (now : Z) (d : db)
    : db * res uuid :=
  transaction
    (tx_insert (mkTrust trust_id repository_id repository_node_id owner repository
                  (TrustScope_value scope) (scoped_commit scope commit_sha) (isoformat now) None) ;;;
     tx_ret trust_id) d.

Definition grant (trust_id : uuid) (source : ResolvedSource) (scope : TrustScope) (now : Z) (d : db)
    : db * res uuid :=
  grant_identity trust_id (rs_repository_id source) (rs_repository_node_id source)
    (rs_owner source) (rs_repository source) (rs_commit_sha source) scope now d.

Definition trust_revoke_row (now : string) (t : trust_row) : trust_row :=
  mkTrust (t_id t) (t_repository_id t) (t_repository_node_id t) (t_grant_owner t)
    (t_grant_repository t) (t_scope t) (t_commit_sha t) (t_created_at t) (Some now).

Definition revoke (trust_id : uuid) (now : Z) (d : db) : db * res bool :=
  transaction
    (n <- tx_update (fun t => String.eqb (t_id t) trust_id && trust_active t)
            (trust_revoke_row (isoformat now)) ;;
     tx_ret (n =? 1)) d.

(** [ORDER BY created_at, id] *)
Definition trust_before (a b : trust_row) : bool :=
  sql_ltb (t_created_at a) (t_created_at b)
  || (String.eqb (t_created_at a) (t_created_at b) && negb (sql_ltb (t_id b) (t_id a))).

Fixpoint insert_trust (t : trust_row) (l : list trust_row) : list trust_row :=
  match l with
  | [] => [t]
  | x :: l' => if trust_before t x then t :: l else x :: insert_trust t l'
  end.

Definition order_trust (l : list trust_row) : list trust_row := fold_right insert_trust [] l.

(** [datetime.fromisoformat]: the instant, or [ValueError]. *)
Definition parse_iso (s : string) : res Z :=
  match fromisoformat s with
  | Some z => Ok z
  | None => Err (ValueError "Invalid isoformat string")
  end.

(** [TrustRecord(id=UUID(row["id"]), ...)] *)
Definition trust_record_of_row (t : trust_row) : res TrustRecord :=
  let! scope := TrustScope_of (t_scope t) in
  let! _ := parse_iso (t_created_at t) in
  let! _ := match t_revoked_at t with Some r => rmap Some (parse_iso r) | None => Ok None end in
  validate_commit_scope
    (mkTrustRecord (t_id t) (t_repository_id t) (t_repository_node_id t) (t_grant_owner t)
       (t_grant_repository t) scope (t_commit_sha t) (t_created_at t) (t_revoked_at t)).

Fixpoint rmapM {A B} (f : A -> res B) (l : list A) : res (list B) :=
  match l with
  | [] => Ok []
  | a :: l' =>
      let! b := f a in
      let! bs := rmapM f l' in
      Ok (b :: bs)
  end.

Definition list_active (d : db) : res (list TrustRecord) :=
  rmapM trust_record_of_row (order_trust (select trust_active (trust_records d))).

(** ** [TrustFlowStore] *)
Record LaunchSourceIdentity := mkIdentity {
  id_launch_id : string;
  id_repository_id : Z;
  id_repository_node_id : option string;
  id_owner : string;
  id_repository : string;
  id_commit_sha : string;
  id_notebook_path : string;
  id_requested_ref : string;
  id_clone_url : string }.

Definition hash_nonce (nonce : string) : string := sha256_hex (str_encode nonce).

Definition create_challenge (nonce launch_id : string) (source : ResolvedSource)
    (ttl_seconds now : Z) (d : db) : db * res (string * Z) :=
  match dt_add now (seconds ttl_seconds) with
  | Err e => (d, Err e)
  | Ok expires =>
      transaction
        (tx_replace (mkLaunchSource launch_id (rs_repository_id source)
            (rs_repository_node_id source) (rs_owner source) (rs_repository source)
            (rs_commit_sha source) (rs_notebook_path source)
            (Some (rs_requested_ref source)) (Some (rs_clone_url source))) ;;;
         tx_replace (mkChallenge launch_id (hash_nonce nonce) (isoformat expires) None) ;;;
         tx_ret (nonce, expires)) d
  end.

(** Python's [a or b] on an optional text. *)
Definition or_text (a : option string) (b : string) : string :=
  if truthy a then match a with Some s => s | None => b end else b.

Definition source_for_launch (launch_id : string) (d : db) : option LaunchSourceIdentity :=
  match fetchone (by_key launch_id) (launch_sources d) with
  | None => None
  | Some r =>
      Some (mkIdentity launch_id (src_repository_id r) (src_repository_node_id r) (src_owner r)
              (src_repository r) (src_commit_sha r) (src_notebook_path r)
              (or_text (src_requested_ref r) (src_commit_sha r))
              (or_text (src_clone_url r)
                 ("https://github.com/" ++ src_owner r ++ "/" ++ src_repository r ++ ".git")))
  end.

Definition challenge_used (c : challenge_row) : bool := is_some (ch_used_at c).

Definition challenge_use (now : string) (c : challenge_row) : challenge_row :=
  mkChallenge (ch_launch_id c) (ch_nonce_hash c) (ch_expires_at c) (Some now).

(** [datetime.fromisoformat(challenge["expires_at"]) < now] *)
Definition challenge_expired (c : challenge_row) (now : Z) : res bool :=
  let! expires := parse_iso (ch_expires_at c) in Ok (expires <? now).

Definition launch_deny (now : string) (l : launch_row) : launch_row :=
  mkLaunch (l_id l) (l_request_digest l) (l_repository_id l) (l_commit_sha l) (l_notebook_path l)
    (l_workspace_id l) (l_gpu l) (l_agent_mode l) (l_trust_covered l) "failed" (l_session_id l)
    (Some "Source trust was denied."%string) (Some "trust_denied"%string) (l_created_at l) now.

Definition launch_authorize (now : string) (l : launch_row) : launch_row :=
  mkLaunch (l_id l) (l_request_digest l) (l_repository_id l) (l_commit_sha l) (l_notebook_path l)
    (l_workspace_id l) (l_gpu l) (l_agent_mode l) true "authorized" (l_session_id l)
    (l_message l) (l_error_code l) (l_created_at l) now.

Definition pending_launch (launch_id : string) (l : launch_row) : bool :=
  String.eqb (l_id l) launch_id && String.eqb (l_state l) "pending_trust".

(** Shared end of [deny] and [complete_trust]: the challenge is used up and
    the pending launch takes its new state. *)
Definition settle (launch_id : string) (now : Z) (f : launch_row -> launch_row) : Tx unit :=
  tx_update (by_key launch_id) (challenge_use (isoformat now)) ;;;
  n <- tx_update (pending_launch launch_id) f ;;
  tx_raise_if (negb (n =? 1)) (ValueError "launch is not pending trust").

Definition deny (launch_id nonce : string) (now : Z) (d : db) : db * res unit :=
  transaction
    (challenge <- tx_fetchone (by_key launch_id) ;;
     match challenge with
     | None => tx_raise (ValueError "trust challenge not found or already used")
     | Some c =>
         tx_raise_if (challenge_used c) (ValueError "trust challenge not found or already used") ;;;
         expired <- tx_lift (challenge_expired c now) ;;
         tx_raise_if expired (ValueError "trust challenge expired") ;;;
         tx_raise_if (negb (String.eqb (ch_nonce_hash c) (hash_nonce nonce)))
           (ValueError "invalid trust challenge") ;;;
         settle launch_id now (launch_deny (isoformat now))
     end) d.

Definition validate_challenge (launch_id nonce : string) (now : Z) (d : db) : res bool :=
  match fetchone (by_key launch_id) (trust_challenges d) with
  | None => Ok false
  | Some c =>
      if challenge_used c then Ok false
      else
        let! expired := challenge_expired c now in
        Ok (negb expired && String.eqb (ch_nonce_hash c) (hash_nonce nonce))
  end.

(** The active grant of the scope the user chose, if there is one. *)
Definition existing_trust (scope : TrustScope) (s : launch_source_row) : trust_row -> bool :=
  match scope with
  | EXACT_COMMIT => exact_trust (src_repository_id s) (src_commit_sha s)
  | REPOSITORY => repository_trust (src_repository_id s)
  end.

Definition trust_row_of (trust_id : uuid) (scope : TrustScope) (now : Z) (s : launch_source_row)
    : trust_row :=
  mkTrust trust_id (src_repository_id s) (src_repository_node_id s) (src_owner s)
    (src_repository s) (TrustScope_value scope) (scoped_commit scope (src_commit_sha s))
    (isoformat now) None.

Definition complete_trust (new_id : uuid) (launch_id nonce : string) (scope : TrustScope) (now : Z)
    (d : db) : db * res uuid :=
  transaction
    (challenge <- tx_fetchone (by_key launch_id) ;;
     match challenge with
     | None => tx_raise (ValueError "trust challenge not found")
     | Some c =>
         tx_raise_if (challenge_used c) (ValueError "trust challenge already used") ;;;
         expired <- tx_lift (challenge_expired c now) ;;
         tx_raise_if expired (ValueError "trust challenge expired") ;;;
         tx_raise_if (negb (String.eqb (ch_nonce_hash c) (hash_nonce nonce)))
           (ValueError "invalid trust challenge") ;;;
         source <- tx_fetchone (by_key launch_id) ;;
         match source with
         | None => tx_raise (ValueError "launch source identity missing")
         | Some s =>
             existing <- tx_fetchone (existing_trust scope s) ;;
             trust_id <- match existing with
                         | Some t => tx_ret (t_id t)
                         | None => tx_insert (trust_row_of new_id scope now s) ;;; tx_ret new_id
                         end ;;
             settle launch_id now (launch_authorize (isoformat now)) ;;;
             tx_ret trust_id
         end
     end) d.

(** ** Well-formedness *)
Lemma grant_identity_wf i r n o p c s now d :
  wf_db d -> wf_db (fst (grant_identity i r n o p c s now d)).
Proof. unfold grant_identity. solve_method_wf. Qed.

Lemma revoke_wf i now d : wf_db d -> wf_db (fst (revoke i now d)).
Proof. unfold revoke. solve_method_wf. Qed.

Lemma create_challenge_wf n i s ttl now d :
  wf_db d -> wf_db (fst (create_challenge n i s ttl now d)).
Proof.
  intros Hd. unfold create_challenge. destruct (dt_add now _); [|exact Hd].
  apply transaction_wf; [|exact Hd]. eauto 20 with wfdb.
Qed.

Lemma settle_preserves i now f :
  (forall l, l_id (f l) = l_id l) -> preserves (settle i now f).
Proof.
  intros Hf. unfold settle. apply preserves_bind; [auto with wfdb|]. intros _.
  apply preserves_bind; [|intros; auto with wfdb].
  apply preserves_update; [exact Hf|reflexivity].
Qed.

#[export] Hint Extern 0 (preserves (settle _ _ _)) => (apply settle_preserves; reflexivity) : wfdb.

Lemma deny_wf i n now d : wf_db d -> wf_db (fst (deny i n now d)).
Proof. unfold deny. solve_method_wf. Qed.

Lemma complete_trust_wf t i n s now d : wf_db d -> wf_db (fst (complete_trust t i n s now d)).
Proof. unfold complete_trust. solve_method_wf. Qed.

(** ** [settle] *)
Definition launch_moves (f : launch_row -> launch_row) : Prop :=
  forall l, l_id (f l) = l_id l /\ (launch_check l = true -> launch_check (f l) = true).

Lemma launch_check_state f l :
  l_gpu (f l) = l_gpu l -> l_agent_mode (f l) = l_agent_mode l ->
  str_mem (l_state (f l)) launch_states = true -> launch_check l = true -> launch_check (f l) = true.
Proof.
  unfold launch_check. intros -> -> -> H. bool_to_prop. now rewrite H, H1.
Qed.

Lemma launch_deny_moves now : launch_moves (launch_deny now).
Proof. intros l. split; [reflexivity|]. now apply launch_check_state. Qed.
Lemma launch_authorize_moves now : launch_moves (launch_authorize now).
Proof. intros l. split; [reflexivity|]. now apply launch_check_state. Qed.

Definition settled_launches i f (d : db) : list launch_row :=
  map (fun l => if pending_launch i l then f l else l) (launches d).
Definition settled_challenges i now (d : db) : list challenge_row :=
  map (fun c => if by_key i c then challenge_use (isoformat now) c else c) (trust_challenges d).

Definition is_pending (i : string) (d : db) : bool :=
  match get_launch i d with Some l => String.eqb (l_state l) "pending_trust" | None => false end.

Lemma challenge_update_succeeds i now d :
  wf_db d ->
  exists n, sql_update (by_key i) (challenge_use (isoformat now)) (trust_challenges d)
            = Some (settled_challenges i now d, n).
Proof.
  intros Hd. destruct (sql_update_monotone (by_key i) (challenge_use (isoformat now))
                         (trust_challenges d)) as (t' & Hu); [apply Hd|now intros..|].
  pose proof (sql_update_spec _ _ _ _ _ Hu) as (-> & _). eauto.
Qed.

Lemma settle_spec i now f d :
  wf_db d -> launch_moves f ->
  settle i now f d
  = if is_pending i d then
      Ok (set_tbl (settled_launches i f d) (set_tbl (settled_challenges i now d) d), tt)
    else Err (ValueError "launch is not pending trust").
Proof.
  intros Hd Hf. unfold settle, tx_bind, tx_update.
  destruct (challenge_update_succeeds i now d Hd) as (n & Hc).
  change (tbl d) with (trust_challenges d) at 1. rewrite Hc.
  change (tbl (set_tbl (settled_challenges i now d) d)) with (launches d).
  destruct (sql_update_monotone (pending_launch i) f (launches d)) as (t' & Hu); [apply Hd|..].
  - intros l _ _. apply Hf.
  - intros l x _ _ _. cbn [tbl_conflict launch_table]. now rewrite (proj1 (Hf l)).
  - intros l x _ _ _ _. cbn [tbl_conflict launch_table]. now rewrite (proj1 (Hf l)), (proj1 (Hf x)).
  - pose proof (tx_update_by_key i (fun l => String.eqb (l_state l) "pending_trust") f d t' _ Hd
                  (fun l => proj1 (Hf l)) Hu) as [Hself _].
    change (pending_launch i) with (fun l => by_key i l && String.eqb (l_state l) "pending_trust") in *.
    rewrite Hu. unfold is_pending.
    change (get_launch i d) with (fetchone (by_key i) (launches d)).
    change (tbl d) with (launches d) in Hself.
    apply sql_update_spec in Hu as (-> & _).
    destruct (fetchone (by_key i) (launches d)) as [l|]; [|now rewrite Hself].
    destruct (l_state l =? "pending_trust")%string; [destruct Hself as [-> _]; reflexivity|now rewrite Hself].
Qed.

(** ** What a confirmation needs *)
Definition confirmable (i nonce : string) (now : Z) (d : db) : bool :=
  match validate_challenge i nonce now d with Ok b => b | Err _ => false end && is_pending i d.

Lemma challenge_checks {A} c nonce now (k : Tx A) d e1 e2 e3 :
  (tx_raise_if (challenge_used c) e1 ;;;
   expired <- tx_lift (challenge_expired c now) ;;
   tx_raise_if expired e2 ;;;
   tx_raise_if (negb (String.eqb (ch_nonce_hash c) (hash_nonce nonce))) e3 ;;; k) d
  = if match (if challenge_used c then Ok false
              else let! expired := challenge_expired c now in
                   Ok (negb expired && String.eqb (ch_nonce_hash c) (hash_nonce nonce))) with
       | Ok b => b | Err _ => false end
    then k d
    else Err (if challenge_used c then e1
              else match challenge_expired c now with
                   | Err e => e
                   | Ok b => if b then e2 else e3
                   end).
Proof.
  unfold tx_bind, tx_raise_if, tx_raise, tx_ret. destruct (challenge_used c); [reflexivity|].
  destruct (challenge_expired c now) as [b|e]; simpl; [|reflexivity].
  destruct b; simpl; [reflexivity|].
  unfold tx_ret. now destruct (ch_nonce_hash c =? hash_nonce nonce)%string.
Qed.

Lemma challenge_gate {A} i nonce now (k : challenge_row -> Tx A) e0 e1 e2 e3 d :
  (challenge <- tx_fetchone (by_key i) ;;
   match challenge with
   | None => tx_raise e0
   | Some c =>
       tx_raise_if (challenge_used c) e1 ;;;
       expired <- tx_lift (challenge_expired c now) ;;
       tx_raise_if expired e2 ;;;
       tx_raise_if (negb (String.eqb (ch_nonce_hash c) (hash_nonce nonce))) e3 ;;;
       k c
   end) d
  = match fetchone (by_key i) (trust_challenges d) with
    | Some c =>
        if match validate_challenge i nonce now d with Ok b => b | Err _ => false end then k c d
        else Err (if challenge_used c then e1
                  else match challenge_expired c now with
                       | Err e => e
                       | Ok b => if b then e2 else e3
                       end)
    | None => Err e0
    end.
Proof.
  unfold tx_bind at 1, tx_fetchone. change (tbl d) with (trust_challenges d).
  unfold validate_challenge. destruct (fetchone (by_key i) (trust_challenges d)) as [c|]; [|reflexivity].
  apply challenge_checks.
Qed.

Lemma validate_settled i f now d nonce' now' :
  validate_challenge i nonce' now'
    (set_tbl (settled_launches i f d) (set_tbl (settled_challenges i now d) d)) = Ok false.
Proof.
  unfold validate_challenge, settled_challenges. cbn [set_tbl launch_db challenge_db trust_challenges].
  rewrite fetchone_map by reflexivity.
  destruct (fetchone (by_key i) (trust_challenges d)) as [c|] eqn:Hc; [|reflexivity].
  apply fetchone_some in Hc as [_ Hk]. simpl. now rewrite Hk.
Qed.

Lemma validate_some i nonce now d :
  validate_challenge i nonce now d = Ok true ->
  exists c, fetchone (by_key i) (trust_challenges d) = Some c.
Proof.
  unfold validate_challenge. destruct (fetchone _ _); [eauto|discriminate].
Qed.

Lemma confirmable_true i nonce now d :
  confirmable i nonce now d = true <->
  validate_challenge i nonce now d = Ok true /\ is_pending i d = true.
Proof.
  unfold confirmable. destruct (validate_challenge i nonce now d) as [[]|]; simpl; naive_solver.
Qed.

Lemma deny_spec i nonce now d :
  wf_db d ->
  if confirmable i nonce now d
  then deny i nonce now d
       = (set_tbl (settled_launches i (launch_deny (isoformat now)) d)
            (set_tbl (settled_challenges i now d) d), Ok tt)
  else exists e, deny i nonce now d = (d, Err e).
Proof.
  intros Hd. unfold deny, transaction. rewrite challenge_gate.
  unfold confirmable. destruct (validate_challenge i nonce now d) as [[]|] eqn:Hv.
  - destruct (validate_some _ _ _ _ Hv) as [c ->].
    rewrite settle_spec by auto using launch_deny_moves.
    destruct (is_pending i d); simpl; eauto.
  - simpl. destruct (fetchone _ _); eauto.
  - simpl. destruct (fetchone _ _); eauto.
Qed.

(** ** The trust row of a confirmation *)
Lemma existing_trust_conflict scope s n now x :
  tbl_conflict x (trust_row_of n scope now s) = by_key n x || existing_trust scope s x.
Proof.
  cbn [tbl_conflict trust_table]. unfold trust_conflict, by_key. cbn [pk trust_keyed].
  destruct scope; simpl; unfold exact_trust, repository_trust;
    destruct (t_id x =? n)%string, (t_scope x =? "repository")%string,
      (t_scope x =? "exact_commit")%string, (trust_active x), (t_repository_id x =? src_repository_id s);
    reflexivity.
Qed.

Definition confirmed_trust (n : uuid) scope now s (d : db) : list trust_row :=
  match fetchone (existing_trust scope s) (trust_records d) with
  | Some _ => trust_records d
  | None => trust_records d ++ [trust_row_of n scope now s]
  end.

Lemma existing_trust_new n scope now s : existing_trust scope s (trust_row_of n scope now s) = true.
Proof.
  destruct scope; simpl; unfold exact_trust, repository_trust; simpl;
    now rewrite Z.eqb_refl, ?String.eqb_refl.
Qed.

Lemma confirmed_trust_found n scope now s d :
  exists t, fetchone (existing_trust scope s) (confirmed_trust n scope now s d) = Some t
    /\ t_id t = match fetchone (existing_trust scope s) (trust_records d) with
                | Some x => t_id x | None => n end.
Proof.
  unfold confirmed_trust. destruct (fetchone (existing_trust scope s) (trust_records d)) as [x|] eqn:Hf.
  - eauto.
  - unfold fetchone in *. rewrite find_app, Hf. simpl. rewrite existing_trust_new. eauto.
Qed.

(** Which sources a confirmation may make trusted. *)
Definition covered (scope : TrustScope) (s : launch_source_row) (r : Z) (c : string) : bool :=
  (src_repository_id s =? r)
  && match scope with EXACT_COMMIT => String.eqb (src_commit_sha s) c | REPOSITORY => true end.

Lemma fetchone_app {R} (p : R -> bool) t1 t2 :
  fetchone p (t1 ++ t2) = match fetchone p t1 with Some r => Some r | None => fetchone p t2 end.
Proof. apply find_app. Qed.

Lemma confirmed_trust_scope n scope now s d d' r c :
  trust_records d' = confirmed_trust n scope now s d -> covered scope s r c = false ->
  find_trust_row r c d' = find_trust_row r c d.
Proof.
  unfold find_trust_row, confirmed_trust. intros -> Hc.
  destruct (fetchone (existing_trust scope s) (trust_records d)); [reflexivity|].
  rewrite !fetchone_app.
  assert (Hno : fetchone (exact_trust r c) [trust_row_of n scope now s] = None
                /\ fetchone (repository_trust r) [trust_row_of n scope now s] = None).
  { unfold fetchone, exact_trust, repository_trust, covered in *. simpl.
    destruct (src_repository_id s =? r); [|auto].
    destruct scope; simpl in *; [rewrite Hc|discriminate]. auto. }
  destruct Hno as [-> ->].
  destruct (fetchone (exact_trust r c) (trust_records d)); [reflexivity|].
  now destruct (fetchone (repository_trust r) (trust_records d)).
Qed.

Lemma trust_insert_ok n scope now s d :
  fetchone (by_key n) (trust_records d) = None ->
  fetchone (existing_trust scope s) (trust_records d) = None ->
  sql_insert (trust_row_of n scope now s) (trust_records d)
  = Some (trust_records d ++ [trust_row_of n scope now s]).
Proof.
  intros Hn He. unfold sql_insert.
  assert (tbl_check (trust_row_of n scope now s) = true) as -> by (destruct scope; reflexivity).
  enough (no_conflict (trust_records d) (trust_row_of n scope now s) = true) as -> by reflexivity.
  apply forallb_forall. intros x Hx. rewrite existing_trust_conflict.
  now rewrite (proj1 (fetchone_none _ _) Hn x Hx), (proj1 (fetchone_none _ _) He x Hx).
Qed.

(** The database after a confirmation. *)
Definition confirmed_db (n : uuid) (i : string) scope now s (d : db) : db :=
  let d1 := set_tbl (confirmed_trust n scope now s d) d in
  set_tbl (settled_launches i (launch_authorize (isoformat now)) d1)
    (set_tbl (settled_challenges i now d1) d1).

Lemma confirmed_trust_wf n scope now s d :
  wf_db d -> fetchone (by_key n) (trust_records d) = None ->
  wf_db (set_tbl (confirmed_trust n scope now s d) d).
Proof.
  intros Hd Hn. apply set_tbl_wf; [exact Hd| |apply forallb_true|].
  - unfold confirmed_trust. destruct (fetchone (existing_trust _ _) _) eqn:He; [apply Hd|].
    eapply sql_insert_ok; [apply Hd|]. now apply trust_insert_ok.
  - intros k Hk. unfold confirmed_trust. destruct (fetchone (existing_trust _ _) _); [exact Hk|].
    rewrite existsb_app. apply orb_true_iff. now left.
Qed.

(** From the look-up of the source to the end of [complete_trust]. *)
Lemma confirm_tail n i scope now s d :
  wf_db d -> fetchone (by_key n) (trust_records d) = None ->
  (existing <- tx_fetchone (existing_trust scope s) ;;
   trust_id <- match existing with
               | Some t => tx_ret (t_id t)
               | None => tx_insert (trust_row_of n scope now s) ;;; tx_ret n
               end ;;
   settle i now (launch_authorize (isoformat now)) ;;;
   tx_ret trust_id) d
  = if is_pending i d
    then Ok (confirmed_db n i scope now s d,
             match fetchone (existing_trust scope s) (trust_records d) with
             | Some t => t_id t | None => n end)
    else Err (ValueError "launch is not pending trust").
Proof.
  intros Hd Hn. unfold tx_bind at 1, tx_fetchone. change (tbl d) with (trust_records d).
  pose proof (confirmed_trust_wf n scope now s d Hd Hn) as Hwf.
  unfold confirmed_db, confirmed_trust in *.
  destruct (fetchone (existing_trust scope s) (trust_records d)) as [t|] eqn:He.
  - replace (set_tbl (trust_records d) d) with d in * by (destruct d; reflexivity).
    unfold tx_bind at 1, tx_ret at 1. unfold tx_bind at 1.
    rewrite settle_spec by auto using launch_authorize_moves. now destruct (is_pending i d).
  - unfold tx_bind at 1. unfold tx_bind at 1. unfold tx_insert. cbn [tbl_fk trust_db].
    change (tbl d) with (trust_records d). rewrite trust_insert_ok by assumption.
    unfold tx_ret at 1. unfold tx_bind at 1.
    rewrite settle_spec by auto using launch_authorize_moves.
    change (is_pending i (set_tbl (trust_records d ++ [trust_row_of n scope now s]) d)) with (is_pending i d).
    now destruct (is_pending i d).
Qed.

Lemma complete_trust_result n i nonce scope now d :
  wf_db d -> fetchone (by_key n) (trust_records d) = None ->
  match fetchone (by_key i) (launch_sources d) with
  | Some s =>
      if confirmable i nonce now d
      then complete_trust n i nonce scope now d
           = (confirmed_db n i scope now s d,
              Ok (match fetchone (existing_trust scope s) (trust_records d) with
                  | Some t => t_id t | None => n end))
      else exists e, complete_trust n i nonce scope now d = (d, Err e)
  | None => exists e, complete_trust n i nonce scope now d = (d, Err e)
  end.
Proof.
  intros Hd Hn. unfold complete_trust, transaction. rewrite challenge_gate.
  unfold confirmable. destruct (validate_challenge i nonce now d) as [[]|] eqn:Hv;
    [destruct (validate_some _ _ _ _ Hv) as [c ->]|..].
  - match goal with |- context [tx_bind (tx_fetchone (by_key i)) ?k d] =>
      change (tx_bind (tx_fetchone (by_key i)) k d) with (k (fetchone (by_key i) (launch_sources d)) d)
    end. cbv beta.
    destruct (fetchone (by_key i) (launch_sources d)) as [s|]; [|simpl; eauto].
    rewrite confirm_tail by assumption. destruct (is_pending i d); simpl; eauto.
  - simpl. destruct (fetchone (by_key i) (trust_challenges d)), (fetchone (by_key i) (launch_sources d)); eauto.
  - simpl. destruct (fetchone (by_key i) (trust_challenges d)), (fetchone (by_key i) (launch_sources d)); eauto.
Qed.

Lemma settled_launch_self i f d l :
  wf_db d -> launch_moves f -> get_launch i d = Some l -> is_pending i d = true ->
  fetchone (by_key i) (settled_launches i f d) = Some (f l).
Proof.
  intros Hd Hf Hl Hp. unfold settled_launches.
  rewrite (map_by_key_self (pending_launch i) f (launches d) i l);
    [|apply Hd|intros; apply Hf|exact Hl].
  unfold is_pending in Hp. rewrite Hl in Hp. apply fetchone_some in Hl as [_ Hk].
  unfold pending_launch. now rewrite Hk, Hp.
Qed.

Lemma settled_launch_other i f d j :
  launch_moves f -> j <> i -> fetchone (by_key j) (settled_launches i f d) = get_launch j d.
Proof.
  intros Hf Hj. change (get_launch j d) with (fetchone (by_key j) (launches d)).
  apply map_by_key_other; [intros; apply Hf|].
  intros r _ Hp. unfold pending_launch in Hp. bool_to_prop. simpl. congruence.
Qed.

(** Confirming trust.  For a launch whose source is recorded,
    [complete_trust] succeeds exactly when the challenge validates (same nonce,
    unused, not expired) and the launch waits for trust.  Then that launch is
    authorized, an active grant of exactly the chosen scope exists for the
    recorded source, its id is returned, the challenge is used up, no other
    launch changes, and no source outside the scope changes its trust.
    Otherwise it raises and nothing changes. *)
Theorem complete_trust_spec (n i nonce : string) (scope : TrustScope) (now : Z)
    (s : launch_source_row) (d : db) :
  wf_db d -> fetchone (by_key n) (trust_records d) = None ->
  fetchone (by_key i) (launch_sources d) = Some s ->
  if confirmable i nonce now d then
    exists d' t, complete_trust n i nonce scope now d = (d', Ok (t_id t))
      /\ fetchone (existing_trust scope s) (trust_records d') = Some t
      /\ get_launch i d' = option_map (launch_authorize (isoformat now)) (get_launch i d)
      /\ (forall j, j <> i -> get_launch j d' = get_launch j d)
      /\ (forall nonce' now', validate_challenge i nonce' now' d' = Ok false)
      /\ (forall r c, covered scope s r c = false -> find_trust_row r c d' = find_trust_row r c d)
  else exists e, complete_trust n i nonce scope now d = (d, Err e).
Proof.
  intros Hd Hn Hs. pose proof (complete_trust_result n i nonce scope now d Hd Hn) as Hr.
  rewrite Hs in Hr. destruct (confirmable i nonce now d) eqn:Hc; [|exact Hr].
  apply confirmable_true in Hc as [_ Hp].
  destruct (confirmed_trust_found n scope now s d) as (t & Ht & Hid).
  exists (confirmed_db n i scope now s d), t. rewrite Hr, Hid. split; [reflexivity|].
  split; [exact Ht|]. split; [|split; [|split]].
  - destruct (get_launch i d) as [l|] eqn:Hl; [|unfold is_pending in Hp; rewrite Hl in Hp; discriminate].
    exact (settled_launch_self i _ _ l Hd (launch_authorize_moves _) Hl Hp).
  - intros j Hj. exact (settled_launch_other i _ _ j (launch_authorize_moves _) Hj).
  - intros nonce' now'. apply validate_settled.
  - intros r c. now apply confirmed_trust_scope with (n := n) (now := now).
Qed.

(** A challenge answers once.  After [deny] or [complete_trust] returned
    for a launch, neither can succeed again for it, with any nonce, scope or
    time, unless a new challenge is created; both leave the database as it is. *)
Theorem challenge_single_use (n i nonce : string) (scope : TrustScope) (now : Z) (d d' : db) :
  wf_db d -> fetchone (by_key n) (trust_records d) = None ->
  deny i nonce now d = (d', Ok tt)
  \/ (exists t, complete_trust n i nonce scope now d = (d', Ok t)) ->
  forall n2 nonce2 scope2 now2, fetchone (by_key n2) (trust_records d') = None ->
    (exists e, deny i nonce2 now2 d' = (d', Err e))
    /\ (exists e, complete_trust n2 i nonce2 scope2 now2 d' = (d', Err e)).
Proof.
  intros Hd Hn Hdone n2 nonce2 scope2 now2 Hn2.
  assert (Hv : validate_challenge i nonce2 now2 d' = Ok false /\ wf_db d').
  { destruct Hdone as [Hok|(t & Hok)].
    - pose proof (deny_spec i nonce now d Hd) as Hr. pose proof (deny_wf i nonce now d Hd) as Hw.
      rewrite Hok in *. destruct (confirmable i nonce now d); [|destruct Hr as [? [=]]].
      injection Hr as ->. split; [apply validate_settled|exact Hw].
    - pose proof (complete_trust_result n i nonce scope now d Hd Hn) as Hr.
      pose proof (complete_trust_wf n i nonce scope now d Hd) as Hw. rewrite Hok in *.
      destruct (fetchone (by_key i) (launch_sources d)); [|destruct Hr as [? [=]]].
      destruct (confirmable i nonce now d); [|destruct Hr as [? [=]]].
      injection Hr as -> _. split; [apply validate_settled|exact Hw]. }
  destruct Hv as [Hv Hw]. pose proof (deny_spec i nonce2 now2 d' Hw) as H1.
  pose proof (complete_trust_result n2 i nonce2 scope2 now2 d' Hw Hn2) as H2.
  unfold confirmable in *. rewrite Hv in *. split; [exact H1|].
  destruct (fetchone (by_key i) (launch_sources d')); exact H2.
Qed.

(** ** [find], [grant] and [revoke] *)
Lemma find_trust_row_some r c d t :
  find_trust_row r c d = Some t ->
  In t (trust_records d) /\ t_repository_id t = r /\ trust_active t = true
  /\ (t_scope t = "repository"%string
      \/ t_scope t = "exact_commit"%string /\ t_commit_sha t = Some c).
Proof.
  unfold find_trust_row. destruct (fetchone (exact_trust r c) _) as [x|] eqn:He; intros Hf.
  - injection Hf as ->. apply fetchone_some in He as [Hin Hx]. unfold exact_trust, opt_eqb in Hx.
    bool_to_prop. destruct (t_commit_sha t); [|discriminate]. bool_to_prop. subst. auto 6.
  - apply fetchone_some in Hf as [Hin Hx]. unfold repository_trust in Hx. bool_to_prop. auto 6.
Qed.

Lemma trust_revoke_succeeds i now d :
  wf_db d ->
  exists n, sql_update (fun t => by_key i t && trust_active t) (trust_revoke_row now) (trust_records d)
            = Some (map (fun t => if by_key i t && trust_active t then trust_revoke_row now t else t)
                      (trust_records d), n).
Proof.
  intros Hd.
  assert (Hshrink : forall r x, trust_conflict (trust_revoke_row now r) x = true -> trust_conflict r x = true).
  { intros r x. unfold trust_conflict, trust_revoke_row. simpl. unfold trust_active at 1 3. simpl.
    rewrite !andb_false_r. simpl. rewrite !orb_false_r. now intros ->. }
  destruct (sql_update_monotone (fun t => by_key i t && trust_active t) (trust_revoke_row now)
              (trust_records d)) as (t' & Hu); [apply Hd|..].
  - intros r _ _ Hc. exact Hc.
  - intros r x _ _ _. apply Hshrink.
  - intros r x _ _ _ _ Hc. apply Hshrink in Hc. cbn [tbl_conflict trust_table].
    pose proof (tbl_conflict_sym r (trust_revoke_row now x)) as Hs. cbn [tbl_conflict trust_table] in Hs.
    rewrite Hs in Hc. apply Hshrink in Hc. pose proof (tbl_conflict_sym x r) as Hs2.
    cbn [tbl_conflict trust_table] in Hs2. congruence.
  - pose proof (sql_update_spec _ _ _ _ _ Hu) as (-> & _). eauto.
Qed.

(** The grants that make a source trusted. *)
Definition trusts (r : Z) (c : string) (t : trust_row) : Prop :=
  t_repository_id t = r /\ trust_active t = true
  /\ (t_scope t = "repository"%string
      \/ t_scope t = "exact_commit"%string /\ t_commit_sha t = Some c).

Lemma find_trust_row_none r c d t :
  find_trust_row r c d = None -> In t (trust_records d) -> ~ trusts r c t.
Proof.
  unfold find_trust_row. destruct (fetchone (exact_trust r c) _) eqn:He; [discriminate|].
  intros Hn Hin (Hr & Ha & Hs). pose proof (proj1 (fetchone_none _ _) He t Hin) as H1.
  pose proof (proj1 (fetchone_none _ _) Hn t Hin) as H2.
  unfold exact_trust, repository_trust in *. rewrite Hr, Z.eqb_refl, Ha in *.
  destruct Hs as [Hs|[Hs Hc]]; rewrite Hs in *; simpl in *; [discriminate|].
  rewrite Hc in H1. simpl in H1. now rewrite String.eqb_refl in H1.
Qed.

(** [find] is sound and complete.  It answers (it never raises) that a
    source is trusted exactly when an unrevoked grant covers it: one for its
    whole repository, or one for its exact commit; and the grant it names is
    such a grant. *)
Theorem find_spec (source : ResolvedSource) (d : db) :
  exists m, find source d = Ok m
    /\ (tm_trusted m = true <->
        exists t, In t (trust_records d) /\ trusts (rs_repository_id source) (rs_commit_sha source) t)
    /\ (forall i, tm_trust_id m = Some i ->
        exists t, In t (trust_records d) /\ t_id t = i
          /\ trusts (rs_repository_id source) (rs_commit_sha source) t).
Proof.
  unfold find. destruct (find_trust_row _ _ d) as [t|] eqn:Hf.
  - pose proof (find_trust_row_some _ _ _ _ Hf) as (Hin & Ht).
    assert (Hsc : exists sc, TrustScope_of (t_scope t) = Ok sc)
      by (destruct Ht as (_ & _ & [->|[-> _]]); vm_compute; eauto).
    destruct Hsc as [sc ->]. eexists. split; [reflexivity|]. simpl.
    split; [split; [intros _; exists t; split; [exact Hin|exact Ht]|reflexivity]|].
    intros i [= <-]. exists t. split; [exact Hin|split; [reflexivity|exact Ht]].
  - eexists. split; [reflexivity|]. simpl. split; [split; [discriminate|]|discriminate].
    intros (t & Hin & Ht). destruct (find_trust_row_none _ _ _ _ Hf Hin Ht).
Qed.

Lemma revoke_inactive i now d :
  wf_db d ->
  (forall t, fetchone (by_key i) (trust_records d) = Some t -> trust_active t = false) ->
  revoke i now d = (d, Ok false).
Proof.
  intros Hd Hno. unfold revoke, transaction, tx_bind, tx_update.
  destruct (trust_revoke_succeeds i (isoformat now) d Hd) as (n & Hu).
  change (sql_update (fun t => (t_id t =? i)%string && trust_active t)) with
    (sql_update (fun t : trust_row => by_key i t && trust_active t)).
  change (tbl d) with (trust_records d) in *. rewrite Hu. unfold tx_ret.
  pose proof (sql_update_spec _ _ _ _ _ Hu) as (_ & Hn & _).
  rewrite select_by_key in Hn by apply Hd.
  assert (Hsel : forall x, In x (trust_records d) -> by_key i x && trust_active x = false).
  { intros x Hx. destruct (by_key i x) eqn:Hk; [|reflexivity]. apply (Hno x).
    apply fetch_by_key; [apply Hd|exact Hx|]. unfold by_key in Hk. now apply String.eqb_eq. }
  rewrite (map_ext_in _ id), map_id by (intros x Hx; now rewrite (Hsel x Hx)).
  assert (n = 0) as ->.
  { rewrite Hn. destruct (fetchone (by_key i) (trust_records d)) as [t|]; [|reflexivity].
    now rewrite (Hno t eq_refl). }
  now destruct d.
Qed.

(** [revoke] takes effect at once and only once.  On an unrevoked grant it
    returns [True], after which the grant makes no source trusted; every other
    grant is as before, and a second revocation returns [False] and keeps the
    first instant.  On an unknown or revoked id it returns [False] and changes
    nothing. *)
Theorem revoke_effective (i : string) (now : Z) (d : db) :
  wf_db d ->
  match fetchone (by_key i) (trust_records d) with
  | Some t =>
      if trust_active t then
        exists d', revoke i now d = (d', Ok true)
          /\ (forall x r c, In x (trust_records d') -> t_id x = i -> ~ trusts r c x)
          /\ (forall j, j <> i -> fetchone (by_key j) (trust_records d')
                                  = fetchone (by_key j) (trust_records d))
          /\ (forall now', revoke i now' d' = (d', Ok false))
      else revoke i now d = (d, Ok false)
  | None => revoke i now d = (d, Ok false)
  end.
Proof.
  intros Hd. pose proof (revoke_wf i now d Hd) as Hd'.
  pose proof (revoke_inactive i) as Hnone.
  destruct (fetchone (by_key i) (trust_records d)) as [t|] eqn:Ht;
    [|apply Hnone; [exact Hd|now rewrite Ht]].
  destruct (trust_active t) eqn:Ha; [|apply Hnone; [exact Hd|intros x; rewrite Ht; congruence]].
  revert Hd'. unfold revoke at 1 2, transaction, tx_bind, tx_update.
  destruct (trust_revoke_succeeds i (isoformat now) d Hd) as (n & Hu).
  change (sql_update (fun t => (t_id t =? i)%string && trust_active t)) with
      (sql_update (fun t : trust_row => by_key i t && trust_active t)).
  pose proof (tx_update_by_key i trust_active (trust_revoke_row (isoformat now)) d _ _ Hd
                  (fun _ => eq_refl) Hu) as [Hself Hother].
  change (tbl d) with (trust_records d) in *. rewrite Hu, Ht, Ha in *. destruct Hself as [-> Hself].
  set (ts := map _ _) in *. unfold tx_ret. cbn [fst Z.eqb Pos.eqb]. intros Hd'.
  assert (Hrev : forall x, In x ts -> t_id x = i -> trust_active x = false).
  { intros x Hx Hi. pose proof (fetch_by_key ts i x (wf_trust _ Hd') Hx Hi) as Hfx.
    rewrite Hself in Hfx. now injection Hfx as <-. }
  exists (set_tbl ts d). split; [reflexivity|]. split; [|split; [exact Hother|]].
  - intros x r c Hx Hi (_ & Hact & _). rewrite (Hrev x Hx Hi) in Hact. discriminate.
  - intros now'. apply Hnone; [exact Hd'|]. intros x Hx. apply fetch_by_key_some in Hx as [Hx Hi].
    now apply Hrev.
Qed.

(** ** Witnesses *)
Definition sample_source : ResolvedSource :=
  mkResolvedSource 7 None "owner" "repo" "main" "0123456789abcdef0123456789abcdef01234567"
    "a.ipynb" "https://github.com/owner/repo.git".

Definition pending_db : db :=
  fst (create_launch "launch-2" "digest" (Some 7) (Some "0123456789abcdef0123456789abcdef01234567")
         (Some "a.ipynb") None "auto" "readonly" false "pending_trust" "t0" sample_db).

(** The challenge of "launch-2", created at 1000 s for 600 s. *)
Definition challenged_db : db :=
  fst (create_challenge "nonce" "launch-2" sample_source 600 (seconds 1000) pending_db).

Lemma challenged_db_wf : wf_db challenged_db.
Proof. apply create_challenge_wf, create_launch_wf, sample_db_wf. Qed.

Definition sample_source_row : launch_source_row :=
  mkLaunchSource "launch-2" 7 None "owner" "repo" "0123456789abcdef0123456789abcdef01234567"
    "a.ipynb" (Some "main"%string) (Some "https://github.com/owner/repo.git"%string).

Lemma complete_trust_spec_witness :
  exists d' t, complete_trust "tr-1" "launch-2" "nonce" EXACT_COMMIT (seconds 1500) challenged_db
               = (d', Ok (t_id t))
    /\ option_map l_state (get_launch "launch-2" d') = Some "authorized"%string
    /\ find_trust_row 7 "ffffffffffffffffffffffffffffffffffffffff" d' = None.
Proof.
  pose proof (complete_trust_spec "tr-1" "launch-2" "nonce" EXACT_COMMIT (seconds 1500)
                sample_source_row challenged_db challenged_db_wf eq_refl eq_refl) as H.
  eval_head H. destruct H as (d' & t & Hr & _ & Hl & _ & _ & Hf).
  exists d', t. split; [exact Hr|]. split; [rewrite Hl; reflexivity|].
  rewrite Hf by reflexivity. reflexivity.
Defined.

Definition trusted_db : db :=
  fst (complete_trust "tr-1" "launch-2" "nonce" EXACT_COMMIT (seconds 1500) challenged_db).

Lemma trusted_db_wf : wf_db trusted_db.
Proof. apply complete_trust_wf, challenged_db_wf. Qed.

Lemma challenge_single_use_witness :
  exists e, complete_trust "tr-2" "launch-2" "nonce" REPOSITORY (seconds 1501) trusted_db
            = (trusted_db, Err e).
Proof.
  refine (proj2 (challenge_single_use "tr-1" "launch-2" "nonce" EXACT_COMMIT (seconds 1500)
                   challenged_db trusted_db challenged_db_wf eq_refl (or_intror (ex_intro _ "tr-1"%string _))
                   "tr-2" "nonce" REPOSITORY (seconds 1501) _)); vm_compute; reflexivity.
Defined.

Lemma revoke_effective_witness :
  exists d', revoke "tr-1" (seconds 2000) trusted_db = (d', Ok true)
    /\ revoke "tr-1" (seconds 2001) d' = (d', Ok false).
Proof.
  pose proof (revoke_effective "tr-1" (seconds 2000) trusted_db trusted_db_wf) as H.
  eval_head H. destruct H as (d' & Hr & _ & _ & H2). exists d'. split; [exact Hr|apply H2].
Defined.
