(* ===== verification/Grants.v ===== *)
(** * Local data grants (src/notebook_launcher/grants.py, and
    [canonical_grant_root] of safe_paths.py)

    A workspace has at most one active grant of a host directory; the directory
    is remembered by its device and inode.  The host's path resolution is an
    argument. *)
From S2P Require Export Trust.

Record RootIdentity := mkRootIdentity { device : Z; inode : Z }.

Definition identity_eqb (a b : RootIdentity) : bool := (device a =? device b) && (inode a =? inode b).

Record GrantRecord := mkGrantRecord {
  gr_id : uuid;
  gr_workspace_id : uuid;
  gr_display_path : string;
  gr_canonical_root : string;
  gr_identity : RootIdentity;
  gr_mode : string;
  gr_created_at : Z;
  gr_revoked_at : option Z }.

(** The host: what [expanduser().resolve(strict=...)], [is_dir] and
    [stat(follow_symlinks=False)] of a resolved path answer. *)
Record Host := mkHost {
  resolve_strict : string -> res string;
  resolve_any : string -> res string;
  host_is_dir : string -> bool;
  host_stat : string -> res RootIdentity }.

Section Grants.
Context (host : Host).

(** A resolved path is no reparse point. *)
Definition canonical_grant_root (path : string) (home : option string) (forbidden_roots : list string) : res string :=
  let! root := resolve_strict host path in
  let! _ := raise_if (negb (host_is_dir host root)) (ValueError "granted path must be a directory") in
  let! anchor := resolve_strict host "/" in
  let! homes := match home with Some h => rmap (fun r => [r]) (resolve_any host h) | None => Ok [] end in
  let! forbidden := rmapM (resolve_any host) forbidden_roots in
  let! _ := raise_if (str_mem root (anchor :: homes ++ forbidden))
    (ValueError "whole home or filesystem root cannot be granted") in
  Ok root.

(** [root_identity] and [validate_root_identity] *)
Definition host_root_identity (root : string) : res RootIdentity :=
  let! identity := host_stat host root in
  let! _ := raise_if (negb (host_is_dir host root)) (LauncherExn HostPathEscape) in
  Ok identity.

Definition validate_host_root (root : string) (expected : RootIdentity) : res string :=
  let! canonical := resolve_strict host root in
  let! current := host_root_identity canonical in
  let! _ := raise_if (negb (identity_eqb current expected)) (LauncherExn HostPathEscape) in
  Ok canonical.

Definition active_grant_of (workspace_id : uuid) (g : grant_row) : bool :=
  String.eqb (g_workspace_id g) workspace_id && grant_active g.

Definition workspace_set_grant (grant_id : option uuid) (now : string) (w : WorkspaceRecord) : WorkspaceRecord :=
  mkWorkspace (w_id w) (w_source_repository_id w) (w_source_owner w) (w_source_repository w)
    (w_source_commit_sha w) (w_source_notebook_path w) (w_root_path w) (w_work_path w)
    (w_outputs_path w) (w_active_notebook_path w) grant_id (w_created_at w) now.

Definition set_workspace_grant (workspace_id : uuid) (grant_id : option uuid) (now : string) : Tx Z :=
  tx_update (fun w => String.eqb (w_id w) workspace_id) (workspace_set_grant grant_id now).

Definition new_grant_row (grant_id workspace_id path canonical mode now : string) (identity : RootIdentity) : grant_row :=
  mkGrant grant_id workspace_id path canonical (Some (device identity)) (Some (inode identity))
    "/mnt/user-data" mode now None.

Definition grant (grant_id workspace_id : uuid) (path mode : string) (home : option string) (now : Z) (d : db)
  : db * res GrantRecord :=
  match
    (let! _ := raise_if (negb (str_mem mode ["ro"; "rw"]%string)) (ValueError "mode must be ro or rw") in
     let! canonical := canonical_grant_root path home [] in
     let! identity := host_stat host canonical in
     Ok (canonical, identity))
  with
  | Err e => (d, Err e)
  | Ok (canonical, identity) =>
      on_integrity_error (Err (ValueError "workspace already has an active data grant or does not exist"))
        (transaction
           (tx_insert (new_grant_row grant_id workspace_id path canonical mode (isoformat now) identity) ;;;
            set_workspace_grant workspace_id (Some grant_id) (isoformat now) ;;;
            tx_ret (mkGrantRecord grant_id workspace_id path canonical identity mode now None)) d)
  end.

Definition active_row (workspace_id : uuid) (d : db) : option grant_row :=
  fetchone (active_grant_of workspace_id) (user_data_grants d).

Definition active (workspace_id : uuid) (d : db) : res (option GrantRecord) :=
  match active_row workspace_id d with
  | None => Ok None
  | Some row =>
      match g_root_dev row, g_root_ino row with
      | Some dev, Some ino =>
          let! created := parse_iso (g_created_at row) in
          Ok (Some (mkGrantRecord (g_id row) (g_workspace_id row) (g_display_path row) (g_canonical_root row)
                      (mkRootIdentity dev ino) (g_mode row) created None))
      | _, _ => Err (RuntimeError "data grant predates filesystem-identity tracking; re-grant required")
      end
  end.

(** [except (OSError, HostPathEscape, RuntimeError, ValueError)] *)
Definition identity_failure (e : exn) : bool :=
  is_OSError e || is_RuntimeError e || is_ValueError e
  || match e with LauncherExn l => bool_decide (l = HostPathEscape) | _ => false end.

Definition changed_root {A} : res A := Err (RuntimeError "granted directory identity changed or became unavailable").

Definition revalidate (workspace_id : uuid) (d : db) : res (option GrantRecord) :=
  let! record := active workspace_id d in
  match record with
  | None => Ok None
  | Some record =>
      match
        (let! current := resolve_strict host (gr_display_path record) in
         let! _ := validate_host_root current (gr_identity record) in
         Ok current)
      with
      | Ok current =>
          if negb (String.eqb current (gr_canonical_root record)) then changed_root else Ok (Some record)
      | Err e => if identity_failure e then changed_root else Err e
      end
  end.

Definition revoke_row (now : string) (g : grant_row) : grant_row :=
  mkGrant (g_id g) (g_workspace_id g) (g_display_path g) (g_canonical_root g) (g_root_dev g) (g_root_ino g)
    (g_container_path g) (g_mode g) (g_created_at g) (Some now).

Definition revoke (workspace_id : uuid) (now : string) (d : db) : db * res bool :=
  transaction
    (n <- tx_update (active_grant_of workspace_id) (revoke_row now) ;;
     (if n =? 1 then set_workspace_grant workspace_id None now ;;; tx_ret tt else tx_ret tt) ;;;
     tx_ret (n =? 1)) d.
End Grants.

(** ** The database stays well-formed *)
Lemma set_workspace_grant_preserves w g now : preserves (set_workspace_grant w g now).
Proof. unfold set_workspace_grant. eauto 10 with wfdb. Qed.
#[export] Hint Resolve set_workspace_grant_preserves : wfdb.

Lemma grant_wf host i w p m h now d : wf_db d -> wf_db (fst (grant host i w p m h now d)).
Proof.
  unfold grant. intros Hd. destruct (let! _ := _ in _) as [[canonical identity]|e]; [|exact Hd].
  rewrite on_integrity_error_fst. apply transaction_wf; [|exact Hd]. eauto 20 with wfdb.
Qed.

Lemma revoke_grant_wf w now d : wf_db d -> wf_db (fst (revoke w now d)).
Proof. unfold revoke. solve_method_wf. Qed.

(** ** What grants do *)
Lemma active_grants_conflict w a b :
  active_grant_of w a = true -> active_grant_of w b = true -> tbl_conflict a b = true.
Proof.
  unfold active_grant_of. intros [Ha Ha']%andb_true_iff [Hb Hb']%andb_true_iff. bool_to_prop. cbn. unfold grant_conflict.
  rewrite Ha', Hb', Ha, Hb, String.eqb_refl. apply orb_true_r.
Qed.

Lemma active_row_snoc w g d : active_row w (set_tbl (user_data_grants d ++ [g]) d)
  = match active_row w d with Some x => Some x | None => if active_grant_of w g then Some g else None end.
Proof.
  unfold active_row, fetchone. cbn [set_tbl grant_db user_data_grants]. rewrite find_app.
  destruct (List.find _ _); [reflexivity|]. simpl. now destruct (active_grant_of w g).
Qed.

Lemma revoke_conflict now a b : tbl_conflict (revoke_row now a) b = true -> tbl_conflict a b = true.
Proof.
  cbn. unfold grant_conflict, revoke_row, grant_active at 1. cbn. rewrite orb_false_r. now intros ->.
Qed.

Lemma revoke_update w now d : wf_db d ->
  sql_update (active_grant_of w) (revoke_row now) (user_data_grants d)
  = Some (map (fun g => if active_grant_of w g then revoke_row now g else g) (user_data_grants d),
          Z.of_nat (List.length (select (active_grant_of w) (user_data_grants d)))).
Proof.
  intros Hd. destruct (sql_update_monotone (active_grant_of w) (revoke_row now) (user_data_grants d)) as (t' & Hu).
  - apply Hd.
  - intros r _ _ Hc. exact Hc.
  - intros r x _ _ _. apply revoke_conflict.
  - intros r x _ _ _ _ Hc. apply revoke_conflict in Hc. rewrite tbl_conflict_sym in Hc |- *.
    now apply revoke_conflict in Hc.
  - pose proof (sql_update_spec _ _ _ _ _ Hu) as (-> & _). exact Hu.
Qed.

(** The UPDATE of the workspace cannot fail, and does not touch the grants. *)
Lemma set_workspace_grant_ok w g now d : wf_db d ->
  exists d' n, set_workspace_grant w g now d = Ok (d', n) /\ user_data_grants d' = user_data_grants d.
Proof.
  intros Hd. unfold set_workspace_grant, tx_update. change (tbl d) with (workspaces d).
  destruct (sql_update_monotone (fun x => String.eqb (w_id x) w) (workspace_set_grant g now) (workspaces d)) as (t' & ->);
    [apply Hd|..]; [intros; reflexivity|intros r x _ _ _ H; exact H|intros r x _ _ _ _ H; exact H|].
  eexists _, _. split; reflexivity.
Qed.

Lemma select_active w d : wf_db d ->
  select (active_grant_of w) (user_data_grants d)
  = match active_row w d with Some g => [g] | None => [] end.
Proof.
  intros Hd. unfold active_row.
  destruct (select_at_most_one (active_grant_of w) (user_data_grants d)) as [Hs|(g & Hs)].
  - apply Hd.
  - intros r x _ _. apply active_grants_conflict.
  - rewrite Hs. assert (Hn : fetchone (active_grant_of w) (user_data_grants d) = None) by (now apply fetchone_none, filter_nil_iff).
    now rewrite Hn.
  - rewrite Hs. unfold fetchone. rewrite find_filter_hd. fold (select (active_grant_of w) (user_data_grants d)). now rewrite Hs.
Qed.

(** What [revoke] leaves: no active grant of the workspace. *)
Lemma revoke_result w now d : wf_db d ->
  snd (revoke w now d) = Ok (is_some (active_row w d))
  /\ active_row w (fst (revoke w now d)) = None
  /\ forall w', w' <> w -> active_row w' (fst (revoke w now d)) = active_row w' d.
Proof.
  intros Hd. unfold revoke, transaction, tx_bind, tx_update. change (tbl d) with (user_data_grants d).
  rewrite (revoke_update w now d Hd), (select_active w d Hd).
  set (ts := map _ (user_data_grants d)).
  assert (Hts : forall d', user_data_grants d' = ts -> active_row w d' = None
            /\ forall w', w' <> w -> active_row w' d' = active_row w' d).
  { intros d' Hd'. unfold active_row. rewrite Hd'. split.
    - apply fetchone_none. intros r Hr. apply in_map_iff in Hr as (g & <- & _).
      destruct (active_grant_of w g) eqn:Hg; [|exact Hg]. unfold active_grant_of, revoke_row, grant_active. simpl. apply andb_false_r.
    - intros w' Hw'. unfold fetchone. rewrite !find_filter_hd. fold (select (active_grant_of w') ts).
      unfold ts. rewrite select_map_other; [reflexivity|]. intros g _ Hg. unfold active_grant_of in *. simpl.
      bool_to_prop. rewrite (proj2 (String.eqb_neq _ _)) by congruence. auto. }
  assert (Hwf1 : wf_db (set_tbl ts d)).
  { assert (Hpr : preserves (tx_update (active_grant_of w) (revoke_row now))) by (apply preserves_update; [reflexivity|auto]).
    apply (Hpr d _ (Z.of_nat (List.length (select (active_grant_of w) (user_data_grants d)))) Hd).
    unfold tx_update. change (tbl d) with (user_data_grants d). now rewrite (revoke_update w now d Hd). }
  destruct (active_row w d) as [g|];
    [change (Z.of_nat (List.length [g]) =? 1) with true|change (Z.of_nat (List.length []) =? 1) with false]; cbn [is_some].
  - destruct (set_workspace_grant_ok w None now _ Hwf1) as (d' & n & -> & Hg).
    split; [reflexivity|]. exact (Hts d' Hg).
  - split; [reflexivity|]. now apply Hts.
Qed.

Lemma canonical_grant_root_ok host path home root :
  canonical_grant_root host path home [] = Ok root ->
  resolve_strict host path = Ok root /\ host_is_dir host root = true
  /\ resolve_strict host "/" <> Ok root
  /\ (forall h, home = Some h -> resolve_any host h <> Ok root).
Proof.
  unfold canonical_grant_root. intros Hc. apply rbind_ok in Hc as (r & Hr & Hc).
  apply rbind_ok in Hc as (u1 & Hdir & Hc). apply raise_if_ok, negb_false_iff in Hdir.
  apply rbind_ok in Hc as (anchor & Ha & Hc). apply rbind_ok in Hc as (homes & Hh & Hc).
  apply rbind_ok in Hc as (fs & Hf & Hc). apply rbind_ok in Hc as (u2 & Hmem & Hc). injection Hc as ->.
  apply raise_if_ok in Hmem. assert (Hnot : ~ In root (anchor :: homes ++ fs)).
  { rewrite <- str_mem_In. now rewrite Hmem. }
  split; [exact Hr|]. split; [exact Hdir|]. split.
  - rewrite Ha. intros [= ->]. apply Hnot. now left.
  - intros h ->. simpl in Hh. intros Hroot. rewrite Hroot in Hh. injection Hh as <-. apply Hnot. right. now left.
Qed.

(** The row of a successful [grant], and the transaction that stored it. *)
Lemma grant_ok host i w path mode home now d d' g : wf_db d ->
  grant host i w path mode home now d = (d', Ok g) ->
  exists canonical identity,
    let row := new_grant_row i w path canonical mode (isoformat now) identity in
    g = mkGrantRecord i w path canonical identity mode now None
    /\ canonical_grant_root host path home [] = Ok canonical
    /\ host_stat host canonical = Ok identity
    /\ no_conflict (user_data_grants d) row = true
    /\ user_data_grants d' = user_data_grants d ++ [row].
Proof.
  intros Hd. unfold grant.
  destruct (let! _ := _ in _) as [[canonical identity]|e] eqn:Hg; [|discriminate].
  apply rbind_ok in Hg as (u & _ & Hg). apply rbind_ok in Hg as (c & Hc & Hg).
  apply rbind_ok in Hg as (idn & Hi & Hg). injection Hg as -> ->.
  set (row := new_grant_row i w path canonical mode (isoformat now) identity).
  unfold transaction, tx_bind. destruct (tx_insert row d) as [[d1 u1]|e] eqn:Hins; [|destruct e; discriminate].
  assert (Hd1 := preserves_insert row d d1 u1 Hd Hins). unfold tx_insert in Hins.
  destruct (tbl_fk d row); [|discriminate]. destruct (sql_insert row (tbl d)) as [t|] eqn:Hs; [|discriminate].
  apply sql_insert_spec in Hs as (-> & _ & Hn). injection Hins as <- _.
  destruct (set_workspace_grant_ok w (Some i) (isoformat now) _ Hd1) as (d2 & n & -> & Hg2).
  intros [= <- <-]. exists canonical, identity. cbn zeta. fold row. auto.
Qed.

(** A workspace has at most one active grant.  [grant] succeeds only when
    the workspace has none; it then grants the directory that the path resolves
    to, with its identity, never the filesystem root or the home, and [active]
    returns exactly that grant; a failed [grant] changes nothing.  [revoke]
    tells whether there was a grant and leaves none.  Other workspaces' grants
    are untouched by both. *)
Theorem grant_single_active host i w path mode home now d :
  wf_db d -> in_datetime_range now ->
  match grant host i w path mode home now d with
  | (d', Ok g) =>
      active_row w d = None /\ active w d' = Ok (Some g)
      /\ (forall w', w' <> w -> active_row w' d' = active_row w' d)
      /\ resolve_strict host path = Ok (gr_canonical_root g)
      /\ host_stat host (gr_canonical_root g) = Ok (gr_identity g)
      /\ resolve_strict host "/" <> Ok (gr_canonical_root g)
      /\ (forall h, home = Some h -> resolve_any host h <> Ok (gr_canonical_root g))
  | (d', Err _) => d' = d
  end
  /\ (forall at_, snd (revoke w at_ d) = Ok (is_some (active_row w d))
        /\ active w (fst (revoke w at_ d)) = Ok None
        /\ forall w', w' <> w -> active_row w' (fst (revoke w at_ d)) = active_row w' d).
Proof.
  intros Hd Hnow. split.
  - destruct (grant host i w path mode home now d) as [d' [g|e]] eqn:Hg.
    + apply (grant_ok _ _ _ _ _ _ _ _ _ _ Hd) in Hg as (canonical & identity & -> & Hc & Hid & Hn & Ht).
      destruct (canonical_grant_root_ok _ _ _ _ Hc) as (H1 & _ & H2 & H3).
      set (row := new_grant_row _ _ _ _ _ _ _) in *. cbn [gr_canonical_root gr_identity].
      assert (Hrow : active_grant_of w row = true) by (unfold active_grant_of, row; simpl; now rewrite String.eqb_refl).
      assert (Hnone : active_row w d = None).
      { apply fetchone_none. intros x Hx. apply not_true_iff_false. intros Hax.
        pose proof (no_conflict_In _ _ _ Hn Hx) as Hcx. rewrite (active_grants_conflict w x row Hax Hrow) in Hcx. discriminate. }
      assert (Hsnoc : forall w', active_row w' d' = match active_row w' d with Some x => Some x
                | None => if active_grant_of w' row then Some row else None end).
      { intros w'. rewrite <- active_row_snoc. unfold active_row. now rewrite Ht. }
      split; [exact Hnone|]. split; [|split; [|auto]].
      * unfold active. rewrite Hsnoc, Hnone, Hrow. cbn. unfold parse_iso. rewrite (fromisoformat_isoformat now Hnow).
        destruct identity. reflexivity.
      * intros w' Hw'. rewrite Hsnoc. unfold active_grant_of, row. simpl. rewrite (proj2 (String.eqb_neq _ _)) by congruence.
        now destruct (active_row w' d).
    + revert Hg. unfold grant. destruct (let! _ := _ in _) as [[canonical identity]|e1]; [|congruence].
      destruct (transaction _ d) as [d1 [a|x]] eqn:Et; unfold on_integrity_error; [congruence|].
      apply transaction_err in Et as [-> _]. destruct x; congruence.
  - intros at_. destruct (revoke_result w at_ d Hd) as (H1 & H2 & H3). split; [exact H1|]. split; [|exact H3].
    unfold active. now rewrite H2.
Qed.

(** A revalidated grant is the active grant of the workspace, and the
    granted directory is the one it was: the displayed path still resolves to
    the recorded directory, whose device and inode are the recorded ones.
    Anything else about the directory is reported as one [RuntimeError]. *)
Theorem revalidate_current host w d :
  match revalidate host w d with
  | Ok None => active_row w d = None
  | Ok (Some g) =>
      active w d = Ok (Some g)
      /\ resolve_strict host (gr_display_path g) = Ok (gr_canonical_root g)
      /\ exists canonical, resolve_strict host (gr_canonical_root g) = Ok canonical
         /\ host_is_dir host canonical = true /\ host_stat host canonical = Ok (gr_identity g)
  | Err e => active w d = Err e \/ e = RuntimeError "granted directory identity changed or became unavailable"
             \/ identity_failure e = false
  end.
Proof.
  unfold revalidate. destruct (active w d) as [[g|]|e] eqn:Ha; cbn [rbind].
  - destruct (let! _ := _ in _) as [current|e] eqn:Hc.
    + apply rbind_ok in Hc as (c & Hr & Hc). apply rbind_ok in Hc as (v & Hv & Hc). injection Hc as ->.
      unfold changed_root. destruct (String.eqb_spec current (gr_canonical_root g)) as [->|Hne]; cbn [negb]; [|auto].
      split; [reflexivity|]. split; [exact Hr|]. unfold validate_host_root in Hv.
      apply rbind_ok in Hv as (canonical & Hcan & Hv). exists canonical. split; [exact Hcan|].
      apply rbind_ok in Hv as (current & Hcur & Hv). apply rbind_ok in Hv as (u & Heq & _).
      apply raise_if_ok, negb_false_iff in Heq. unfold host_root_identity in Hcur.
      apply rbind_ok in Hcur as (identity & Hst & Hcur). apply rbind_ok in Hcur as (u2 & Hdir & Hcur).
      apply raise_if_ok, negb_false_iff in Hdir. injection Hcur as <-. split; [exact Hdir|]. rewrite Hst.
      unfold identity_eqb in Heq. apply andb_true_iff in Heq as [H1 H2]. apply Z.eqb_eq in H1, H2.
      destruct identity, (gr_identity g). simpl in *. congruence.
    + unfold changed_root. destruct (identity_failure e) eqn:He; auto.
  - unfold active in Ha. destruct (active_row w d) as [row|]; [|reflexivity].
    destruct (g_root_dev row), (g_root_ino row); try discriminate. apply rbind_ok in Ha as (created & _ & [=]).
  - auto.
Qed.

(** ** Witness *)
Definition sample_host : Host := mkHost (fun p => Ok p) (fun p => Ok p) (fun _ => true)
  (fun p => Ok (mkRootIdentity 1 (Z.of_nat (String.length p)))).

Lemma grant_single_active_witness :
  exists d' g, grant sample_host "g-1" "ws-1" "/data" "rw" (Some "/home/u"%string) 0 sample_db = (d', Ok g)
    /\ active "ws-1" d' = Ok (Some g).
Proof.
  destruct (grant_single_active sample_host "g-1" "ws-1" "/data" "rw" (Some "/home/u"%string) 0 sample_db sample_db_wf)
    as [H _]; [split; vm_compute; discriminate|].
  eval_head H. destruct H as (_ & Ha & _). eexists _, _. split; [vm_compute; reflexivity|]. exact Ha.
Defined.
