(* ===== verification/Cli.v ===== *)
(** * The command line (src/notebook_launcher/cli.py)

    [main] after its arguments are parsed: the settings, the state store, and
    the commands over the stores of Grants and Trust and over the bridge.  The
    operating system, the web server and the clock answer from the calls made
    so far; what is printed is part of the state. *)
From S2P Require Export Grants Bridge Heartbeats.

(** What [build_parser] accepts. *)
Inductive command :=
| Serve (host : option string) (port : option Z)
| Mcp (session_id : uuid) (mode client_label : option string)
| WorkspaceMount (workspace_id : uuid) (path mode : string)
| WorkspaceUnmount (workspace_id : uuid)
| WorkspaceMountStatus (workspace_id : uuid)
| TrustList
| TrustRevoke (trust_id : uuid).

(** [--mode] has choices in two commands. *)
Definition accepted (c : command) : bool :=
  match c with
  | Mcp _ (Some mode) _ => str_mem mode ["write"; "readonly"]%string
  | WorkspaceMount _ _ mode => str_mem mode ["ro"; "rw"]%string
  | _ => true
  end.

Inductive cli_call :=
| MakeDirectory (path : string) (parents : bool)
| InitializeState (path : string)
| IndexGrants
| RunServer (host : string) (port : Z)
| BridgeSession (session_id : uuid)
| ReadNow
| NewId.

Definition CliTrace : Type := list cli_call.

Record CliEnv := mkCliEnv {
  cl_settings : res Settings;
  cl_unit : CliTrace -> cli_call -> res unit;
  cl_now : CliTrace -> Z;
  cl_uuid : CliTrace -> uuid;
  cl_host : Host;
  cl_home : string;
  cl_bridge : BridgeEnv;
  cl_executable : string;
  cl_environ : gmap string string;
  (** [model_dump(mode="json")] *)
  cl_model_dump : TrustRecord -> json }.

Record CliWorld := mkCliWorld { cw_trace : CliTrace; cw_db : db; cw_out : list string }.

(** ** [json.dumps(value, indent=2)] *)
Definition newline_indent (depth : nat) : string := String "010" (str_join "" (repeat "  "%string depth)).

Fixpoint dumps_indent (depth : nat) (v : json) : string :=
  let block (opening closing : string) (items : list string) :=
    match items with
    | [] => opening ++ closing
    | _ => opening ++ newline_indent (S depth) ++ str_join ("," ++ newline_indent (S depth)) items ++ newline_indent depth ++ closing
    end%string in
  match v with
  | JList l => block "[" "]" (map (dumps_indent (S depth)) l)
  | JObj fields => block "{" "}" (map (fun f => dump_str true (fst f) ++ ": " ++ dumps_indent (S depth) (snd f)) fields)
  | v => dumps_ascii v
  end%string.

Section Main.
Context `{PyFloat} `{PyConversions} (env : CliEnv).

Definition cli_do {A} (c : cli_call) (answer : CliTrace -> db -> db * res A) : Eff CliWorld A := fun w =>
  let '(d, r) := answer (cw_trace w) (cw_db w) in (mkCliWorld (cw_trace w ++ [c]) d (cw_out w), r).
Definition cli_act (c : cli_call) : Eff CliWorld unit := cli_do c (fun t d => (d, cl_unit env t c)).
Definition on_store {A} (m : db -> db * res A) : Eff CliWorld A := fun w =>
  let '(d, r) := m (cw_db w) in (mkCliWorld (cw_trace w) d (cw_out w), r).
Definition now : Eff CliWorld Z := cli_do ReadNow (fun t d => (d, Ok (cl_now env t))).
Definition fresh_id : Eff CliWorld uuid := cli_do NewId (fun t d => (d, Ok (cl_uuid env t))).
Definition print (line : string) : Eff CliWorld unit := fun w => (mkCliWorld (cw_trace w) (cw_db w) (cw_out w ++ [line]), Ok tt).

(** [Settings()], [ensure_directories] and the state store. *)
Definition start_up : Eff CliWorld Settings :=
  settings ← eff_lift (cl_settings env);
  _ ← eff_iter (fun d => cli_act (MakeDirectory (fst d) (snd d))) (ensure_directories settings);
  _ ← cli_act (InitializeState (state_db settings));
  mret settings.

Definition bridge_settings (s : Settings) : BridgeSettings :=
  mkBridgeSettings (runtime_dir s) (st_writable_lease_stale_seconds s) (st_writable_lease_heartbeat_seconds s)
    (st_max_agent_output_bytes s) (cl_executable env) (cl_environ env).

Definition serve (s : Settings) (host : option string) (port : option Z) : Eff CliWorld Z :=
  _ ← cli_act (RunServer (default (st_host s) host) (default (st_port s) port));
  mret 0.

Definition mcp (s : Settings) (session_id : uuid) (mode client_label : option string) : Eff CliWorld Z := fun w =>
  let '(b, r) := mcp_command (cl_bridge env) (bridge_settings s) session_id mode client_label (mkBridgeWorld [] (cw_db w) false) in
  (mkCliWorld (cw_trace w ++ [BridgeSession session_id]) (bw_db b) (cw_out w), r).

Definition grant_line (g : GrantRecord) : string := (gr_id g ++ " " ++ gr_mode g ++ " " ++ gr_canonical_root g)%string.

(** [grant] reads the clock and draws its id only after its checks, which have
    no effect. *)
Definition mount (workspace_id : uuid) (path mode : string) : Eff CliWorld Z :=
  id ← fresh_id;
  t ← now;
  mounted ← on_store (Grants.grant (cl_host env) id workspace_id path mode (Some (cl_home env)) t);
  _ ← print (grant_line mounted);
  mret 0.

Definition unmount (workspace_id : uuid) : Eff CliWorld Z :=
  t ← now;
  revoked ← on_store (Grants.revoke workspace_id (isoformat t));
  _ ← eff_raise_if (negb revoked) (SystemExit "workspace has no active data grant");
  mret 0.

Definition mount_status (workspace_id : uuid) : Eff CliWorld Z :=
  active ← on_store (fun d => (d, Grants.active workspace_id d));
  _ ← print (match active with None => "none"%string | Some g => grant_line g end);
  mret 0.

Definition trust_list : Eff CliWorld Z :=
  records ← on_store (fun d => (d, list_active d));
  _ ← print (dumps_indent 0 (JList (map (cl_model_dump env) records)));
  mret 0.

Definition trust_revoke (trust_id : uuid) : Eff CliWorld Z :=
  t ← now;
  revoked ← on_store (Trust.revoke trust_id t);
  _ ← eff_raise_if (negb revoked) (SystemExit "trust_not_found");
  mret 0.

Definition main (c : command) : Eff CliWorld Z :=
  _ ← eff_raise_if (negb (accepted c)) (SystemExit "2");
  settings ← start_up;
  match c with
  | Serve host port => serve settings host port
  | Mcp session_id mode client_label => mcp settings session_id mode client_label
  | WorkspaceMount workspace_id path mode => _ ← cli_act IndexGrants; mount workspace_id path mode
  | WorkspaceUnmount workspace_id => _ ← cli_act IndexGrants; unmount workspace_id
  | WorkspaceMountStatus workspace_id => _ ← cli_act IndexGrants; mount_status workspace_id
  | TrustList => trust_list
  | TrustRevoke trust_id => trust_revoke trust_id
  end.
End Main.

(** ** The commands on grants agree *)
Section Commands.
Context `{PyFloat} `{PyConversions} (env : CliEnv) (st : Settings).
Context (Hsettings : cl_settings env = Ok st).
Context (Hsystem : forall t c, cl_unit env t c = Ok tt).
Context (Hclock : forall t, in_datetime_range (cl_now env t)).

(** Only the trace has grown. *)
Definition as_before (w w' : CliWorld) : Prop := cw_db w' = cw_db w /\ cw_out w' = cw_out w.

Lemma act_ok c w : exists w', cli_act env c w = (w', Ok tt) /\ as_before w w'.
Proof. unfold cli_act, cli_do. rewrite Hsystem. eexists. split; [reflexivity|]. now split. Qed.

Lemma start_up_ok w : exists w', start_up env w = (w', Ok st) /\ as_before w w'.
Proof.
  unfold start_up, mbind, eff_bind, eff_lift. rewrite Hsettings. cbn [ensure_directories eff_iter]. unfold cli_act, cli_do.
  rewrite !Hsystem. eexists. split; [reflexivity|]. now split.
Qed.

(** What a command does once everything is set up. *)
Definition body (c : command) : Eff CliWorld Z :=
  match c with
  | Serve host port => serve env st host port
  | Mcp session_id mode client_label => mcp env st session_id mode client_label
  | WorkspaceMount workspace_id path mode => mount env workspace_id path mode
  | WorkspaceUnmount workspace_id => unmount env workspace_id
  | WorkspaceMountStatus workspace_id => mount_status workspace_id
  | TrustList => trust_list env
  | TrustRevoke trust_id => trust_revoke env trust_id
  end.

Lemma main_body c w : accepted c = true -> exists w', main env c w = body c w' /\ as_before w w'.
Proof.
  intros Hc. destruct (start_up_ok w) as (w1 & E1 & [D1 O1]). unfold main, mbind, eff_bind, eff_raise_if at 1. rewrite Hc. cbn [negb raise_if].
  rewrite E1. destruct c; try (exists w1; now split); destruct (act_ok IndexGrants w1) as (w2 & E2 & [D2 O2]); rewrite E2; exists w2;
    (split; [reflexivity|split; congruence]).
Qed.

(** The effect of each command on grants, from the state it finds. *)
Lemma mount_effect ws path mode w : wf_db (cw_db w) ->
  match mount env ws path mode w with
  | (w', Ok code) => code = 0 /\ wf_db (cw_db w') /\ exists g, Grants.active ws (cw_db w') = Ok (Some g) /\ cw_out w' = cw_out w ++ [grant_line g]
  | (w', Err _) => as_before w w'
  end
  /\ (active_row ws (cw_db w) <> None -> exists e, snd (mount env ws path mode w) = Err e).
Proof.
  intros Hd. unfold mount, fresh_id, now, cli_do, on_store, print, mbind, eff_bind. cbn [cw_db cw_trace cw_out].
  set (i := cl_uuid env _). set (t := cl_now env _).
  destruct (grant_single_active (cl_host env) i ws path mode (Some (cl_home env)) t (cw_db w) Hd (Hclock _)) as [Hg _].
  pose proof (Grants.grant_wf (cl_host env) i ws path mode (Some (cl_home env)) t (cw_db w) Hd) as Hwf.
  destruct (Grants.grant _ _ _ _ _ _ _ _) as [d [g|e]].
  - destruct Hg as (Hnone & Ha & _). split; [|congruence]. split; [reflexivity|]. split; [exact Hwf|]. exists g. auto.
  - split; [now split|eauto].
Qed.

Lemma unmount_effect ws w : wf_db (cw_db w) ->
  exists w', unmount env ws w = (w', if is_some (active_row ws (cw_db w)) then Ok 0
                                      else Err (SystemExit "workspace has no active data grant"))
    /\ wf_db (cw_db w') /\ active_row ws (cw_db w') = None /\ cw_out w' = cw_out w.
Proof.
  intros Hd. unfold unmount, now, cli_do, on_store, mbind, eff_bind. cbn [cw_db cw_trace cw_out].
  set (t := isoformat _). destruct (revoke_result ws t (cw_db w) Hd) as (H1 & H2 & _).
  pose proof (revoke_grant_wf ws t (cw_db w) Hd) as Hwf. destruct (Grants.revoke ws t (cw_db w)) as [d r]. cbn [fst snd] in *. subst r.
  destruct (is_some _); (eexists; split; [reflexivity|auto]).
Qed.

Lemma status_effect ws w g : Grants.active ws (cw_db w) = Ok g ->
  exists w', mount_status ws w = (w', Ok 0) /\ cw_db w' = cw_db w
    /\ cw_out w' = cw_out w ++ [match g with None => "none"%string | Some g => grant_line g end].
Proof. intros Hg. unfold mount_status, on_store, print, mbind, eff_bind. rewrite Hg. eexists. split; [reflexivity|]. now split. Qed.

Lemma active_has_row ws d g : Grants.active ws d = Ok (Some g) -> active_row ws d <> None.
Proof. unfold Grants.active. now destruct (active_row ws d). Qed.
Lemma no_row_inactive ws d : active_row ws d = None -> Grants.active ws d = Ok None.
Proof. unfold Grants.active. now intros ->. Qed.

(** The commands on data grants agree with each other.  After
    [workspace mount] succeeded and printed a line: [workspace mount-status]
    prints the same line and changes nothing; another [workspace mount] of the
    workspace fails and changes nothing; [workspace unmount] succeeds once, a
    second time it exits with a message; and after it [mount-status] prints
    [none]. *)
Theorem mount_commands_agree ws path mode w w1 code :
  wf_db (cw_db w) -> main env (WorkspaceMount ws path mode) w = (w1, Ok code) ->
  code = 0 /\ exists line, cw_out w1 = cw_out w ++ [line]
  /\ (exists w2, main env (WorkspaceMountStatus ws) w1 = (w2, Ok 0) /\ cw_db w2 = cw_db w1 /\ cw_out w2 = cw_out w1 ++ [line])
  /\ (forall path' mode', exists w2 e, main env (WorkspaceMount ws path' mode') w1 = (w2, Err e) /\ as_before w1 w2)
  /\ exists w3, main env (WorkspaceUnmount ws) w1 = (w3, Ok 0) /\ cw_out w3 = cw_out w1
     /\ (exists w4, main env (WorkspaceMountStatus ws) w3 = (w4, Ok 0) /\ cw_out w4 = cw_out w3 ++ ["none"%string])
     /\ exists w5, main env (WorkspaceUnmount ws) w3 = (w5, Err (SystemExit "workspace has no active data grant")).
Proof.
  intros Hd E. destruct (accepted (WorkspaceMount ws path mode)) eqn:Ha.
  2: { unfold main, mbind, eff_bind, eff_raise_if at 1 in E. rewrite Ha in E. discriminate. }
  destruct (main_body _ w Ha) as (w0 & Em & [D0 O0]). rewrite Em in E. cbn [body] in E. rewrite <- D0 in Hd.
  destruct (mount_effect ws path mode w0 Hd) as [Hm _]. rewrite E in Hm. destruct Hm as (-> & Hd1 & g & Hg & Ho).
  split; [reflexivity|]. exists (grant_line g). split; [congruence|]. split_and!.
  - destruct (main_body (WorkspaceMountStatus ws) w1 eq_refl) as (v & -> & [D O]). cbn [body].
    destruct (status_effect ws v (Some g)) as (w2 & -> & D2 & O2); [congruence|]. exists w2. split_and!; congruence.
  - intros path' mode'. destruct (accepted (WorkspaceMount ws path' mode')) eqn:Ha'.
    2: { exists w1, (SystemExit "2"). unfold main, mbind, eff_bind, eff_raise_if at 1. rewrite Ha'. now split. }
    destruct (main_body _ w1 Ha') as (v & -> & [D O]). cbn [body]. destruct (mount_effect ws path' mode' v) as [Hm' He]; [congruence|].
    destruct He as [e He]; [rewrite D; exact (active_has_row _ _ _ Hg)|]. destruct (mount env ws path' mode' v) as [w2 r]. cbn [snd] in He. subst r.
    destruct Hm'. exists w2, e. split; [reflexivity|]. split; congruence.
  - destruct (main_body (WorkspaceUnmount ws) w1 eq_refl) as (v & -> & [D O]). cbn [body].
    destruct (unmount_effect ws v) as (w3 & -> & Hd3 & Hn & O3); [congruence|]. rewrite D.
    pose proof (active_has_row _ _ _ Hg) as Hrow. destruct (active_row ws (cw_db w1)) as [row|]; [|easy]. cbn [is_some].
    exists w3. split; [reflexivity|]. split; [congruence|]. split.
    + destruct (main_body (WorkspaceMountStatus ws) w3 eq_refl) as (v' & -> & [D' O']). cbn [body].
      destruct (status_effect ws v' None) as (w4 & -> & _ & O4); [rewrite D'; now apply no_row_inactive|]. exists w4. split; congruence.
    + destruct (main_body (WorkspaceUnmount ws) w3 eq_refl) as (v' & -> & [D' O']). cbn [body].
      destruct (unmount_effect ws v') as (w5 & -> & _); [congruence|]. rewrite D', Hn. now exists w5.
Qed.
End Commands.

(** ** Revoked trust is not listed *)
Lemma rmapM_In {A B} (f : A -> res B) l bs b : rmapM f l = Ok bs -> In b bs -> exists a, In a l /\ f a = Ok b.
Proof.
  revert bs. induction l as [|a l IH]; intros bs; cbn [rmapM]; [intros [= <-] []|]. intros E Hb.
  apply rbind_ok in E as (x & Ex & E). apply rbind_ok in E as (xs & Exs & E). injection E as <-.
  destruct Hb as [<-|Hb]; [exists a; split; [now left|exact Ex]|]. destruct (IH xs Exs Hb) as (a' & Ha & E'). exists a'. split; [now right|exact E'].
Qed.

Lemma In_insert_trust x t l : In x (insert_trust t l) <-> x = t \/ In x l.
Proof.
  induction l as [|y l IH]; cbn [insert_trust]; [cbn; intuition|]. destruct (trust_before t y); cbn [In]; [intuition|]. rewrite IH. intuition.
Qed.
Lemma In_order_trust x l : In x (order_trust l) <-> In x l.
Proof. unfold order_trust. induction l as [|y l IH]; cbn [fold_right]; [reflexivity|]. rewrite In_insert_trust, IH. cbn. intuition. Qed.

(** A record that is listed makes its source trusted. *)
Lemma listed_trusts d rs r : list_active d = Ok rs -> In r rs ->
  exists t c, In t (trust_records d) /\ t_id t = tr_id r /\ trusts (t_repository_id t) c t.
Proof.
  unfold list_active. intros E Hr. destruct (rmapM_In _ _ _ _ E Hr) as (t & Ht & Et). apply In_order_trust, select_spec in Ht as [Ht Ha].
  unfold trust_record_of_row in Et. apply rbind_ok in Et as (scope & Es & Et).
  apply rbind_ok in Et as (z & _ & Et). apply rbind_ok in Et as (o & _ & Et). unfold validate_commit_scope in Et.
  apply rbind_ok in Et as (u1 & H1%raise_if_ok & Et). apply rbind_ok in Et as (u2 & _ & Et). injection Et as <-. cbn [tr_scope tr_commit_sha tr_id] in *.
  exists t, (default ""%string (t_commit_sha t)). split_and!; [exact Ht|reflexivity|]. split; [reflexivity|]. split; [exact Ha|].
  destruct scope; [right|left].
  - destruct (t_commit_sha t) as [c|]; [|discriminate]. split; [|reflexivity]. unfold TrustScope_of in Es.
    repeat case_match; simplify_eq; now apply String.eqb_eq.
  - unfold TrustScope_of in Es. repeat case_match; simplify_eq; now apply String.eqb_eq.
Qed.

(** After [trust revoke] succeeded, [trust list] does not show the grant, and
    revoking it again exits with a message. *)
Theorem revoked_trust_not_listed `{PyFloat} `{PyConversions} (env : CliEnv) (st : Settings) i w w1 code :
  cl_settings env = Ok st -> (forall t c, cl_unit env t c = Ok tt) ->
  wf_db (cw_db w) -> main env (TrustRevoke i) w = (w1, Ok code) ->
  code = 0 /\ (forall rs, list_active (cw_db w1) = Ok rs -> ~ In i (map tr_id rs))
  /\ exists w2, main env (TrustRevoke i) w1 = (w2, Err (SystemExit "trust_not_found")) /\ cw_db w2 = cw_db w1.
Proof.
  intros Hst Hsys Hd E. destruct (main_body env st Hst Hsys (TrustRevoke i) w eq_refl) as (w0 & Em & [D0 O0]). rewrite Em in E.
  cbn [body] in E. unfold trust_revoke, now, cli_do, on_store, mbind, eff_bind in E. cbn [cw_db cw_trace cw_out] in E.
  set (t := cl_now env _) in E. rewrite <- D0 in Hd. pose proof (revoke_effective i t (cw_db w0) Hd) as Hr.
  destruct (Trust.revoke i t (cw_db w0)) as [d b] eqn:Er.
  assert (Hb : b = Ok true) by (destruct b as [[]|e]; [reflexivity|discriminate..]). subst b. injection E as <- <-.
  split; [reflexivity|]. destruct (fetchone _ _) as [row|]; [|congruence]. destruct (trust_active row); [|congruence].
  destruct Hr as (d' & Hr & Hno & _ & Hagain). injection Hr as <-. split.
  - intros rs Hl Hin. apply in_map_iff in Hin as (r & Hid & Hin). destruct (listed_trusts _ _ _ Hl Hin) as (x & c & Hx & Hxi & Htr).
    cbn [cw_db] in Hx. refine (Hno x _ c Hx _ Htr). congruence.
  - match goal with |- context [main _ _ ?w1] => destruct (main_body env st Hst Hsys (TrustRevoke i) w1 eq_refl) as (v & -> & [D O]) end.
    cbn [body]. unfold trust_revoke, now, cli_do, on_store, mbind, eff_bind. cbn [cw_db cw_trace cw_out]. rewrite D. cbn [cw_db].
    rewrite Hagain. cbn. eexists. split; reflexivity.
Qed.

(** ** Witnesses *)
Definition sample_cli : CliEnv := {|
  cl_settings := Ok (default_settings "/home/u");
  cl_unit _ _ := Ok tt;
  cl_now _ := seconds 1000;
  cl_uuid _ := "g-1"%string;
  cl_host := sample_host;
  cl_home := "/home/u"%string;
  cl_bridge := sample_bridge;
  cl_executable := "python"%string;
  cl_environ := ∅;
  cl_model_dump r := JObj [("id", JStr (tr_id r)); ("repository_id", JInt (tr_repository_id r))]%string |}.

Fixpoint commands (l : list command) (w : CliWorld) : CliWorld :=
  match l with [] => w | c :: l => commands l (fst (main sample_cli c w)) end.

Definition shell : CliWorld := mkCliWorld [] trusted_db [].

Definition NL : string := String "010" EmptyString.

Example commands_print :
  cw_out (commands [WorkspaceMountStatus "ws-1"; WorkspaceMount "ws-1" "/data" "rw"; WorkspaceMountStatus "ws-1";
                    WorkspaceUnmount "ws-1"; WorkspaceMountStatus "ws-1"; TrustList; TrustRevoke "tr-1"; TrustList] shell)
  = ["none"; "g-1 rw /data"; "g-1 rw /data"; "none";
     "[" ++ NL ++ "  {" ++ NL ++ "    " ++ quoted "id" ++ ": " ++ quoted "tr-1" ++ "," ++ NL ++ "    " ++ quoted "repository_id" ++ ": 7" ++ NL
         ++ "  }" ++ NL ++ "]"; "[]"]%string.
Proof. vm_compute. reflexivity. Qed.

Definition mounted : CliWorld := fst (main sample_cli (WorkspaceMount "ws-1" "/data" "rw") shell).

Lemma mount_commands_agree_witness :
  exists w2, main sample_cli (WorkspaceMountStatus "ws-1") mounted = (w2, Ok 0) /\ cw_out w2 = ["g-1 rw /data"; "g-1 rw /data"]%string.
Proof.
  assert (E : main sample_cli (WorkspaceMount "ws-1" "/data" "rw") shell = (mounted, Ok 0)) by (vm_compute; reflexivity).
  destruct (mount_commands_agree sample_cli (default_settings "/home/u") eq_refl (fun _ _ => eq_refl)
    (fun _ => ltac:(vm_compute; split; discriminate)) "ws-1" "/data" "rw" shell mounted 0 trusted_db_wf E)
    as (_ & line & Hl & (w2 & E2 & _ & O2) & _).
  exists w2. split; [exact E2|]. rewrite O2, Hl. assert (Hm : cw_out mounted = ["g-1 rw /data"%string]) by (vm_compute; reflexivity).
  rewrite Hm in Hl. cbn in Hl. injection Hl as <-. reflexivity.
Defined.

Definition trust_revoked : CliWorld := fst (main sample_cli (TrustRevoke "tr-1") shell).

Lemma revoked_trust_not_listed_witness : list_active (cw_db trust_revoked) = Ok []
  /\ exists w2, main sample_cli (TrustRevoke "tr-1") trust_revoked = (w2, Err (SystemExit "trust_not_found")).
Proof.
  split; [vm_compute; reflexivity|].
  assert (E : main sample_cli (TrustRevoke "tr-1") shell = (trust_revoked, Ok 0)) by (vm_compute; reflexivity).
  destruct (revoked_trust_not_listed sample_cli (default_settings "/home/u") "tr-1" shell trust_revoked 0 eq_refl
    (fun _ _ => eq_refl) trusted_db_wf E) as (_ & _ & w2 & E2 & _).
  exists w2. exact E2.
Defined.
