(* ===== verification/Workspace.v ===== *)
(** * Workspace files (class [WorkspaceManager] of src/notebook_launcher/workspace.py)

    Writing, copying and renaming the files of a workspace together with their
    versions in the database: the file operations run inside a transaction of
    the state store, with a compensation that restores the file when the
    transaction fails.  [WorkspaceManager.create] is [Pipeline.workspace_create]. *)
From S2P Require Export FileTree Grants Json.

Definition content_hash (data : string) : string := sha256_hex (str_encode data).

(** ** [_without_notebook_outputs] *)
Definition clear_cell (cell : json) : json :=
  match cell with
  | JObj fields =>
      match obj_get "cell_type" fields with
      | Some (JStr "code") => JObj (obj_set "execution_count" JNull (obj_set "outputs" (JList []) fields))
      | _ => cell
      end
  | _ => cell
  end.

Definition invalid_notebook {A} : res A := Err (ValueError "source_path does not contain a valid notebook").

Section Workspace.
Context `{Platform} `{PyFloat}.
Context (fault : nat -> option (Z * nat)).
(** What a directory path resolves to, and the inode [lstat] finds there. *)
Context (root_now : string -> nat -> res Z) (root_lstat : string -> nat -> res Z).
Context (path_is_dir : string -> bool).
(** [json.loads] of bytes: their encoding is detected and decoded first. *)
Context (json_of_bytes : string -> res json).

Definition without_notebook_outputs (data : string) : res string :=
  match json_of_bytes data with
  | Ok (JObj fields) =>
      match obj_get "cells" fields with
      | Some (JList cells) => Ok (dumps (JObj (obj_set "cells" (JList (map clear_cell cells)) fields)))
      | _ => invalid_notebook
      end
  | Ok _ => invalid_notebook
  | Err (JSONDecodeError _) => invalid_notebook
  | Err e => Err e
  end.

(** [root_identity(record.work_path)] *)
Definition work_identity (work_path : string) : Eff FileSystem Z :=
  i ← (resolve_root (root_lstat work_path)); root_identity i.

(** ** [_write_workspace_document] *)

(** The file system and the variables of the closure. *)
Record WriteVars := mkWriteVars {
  files : FileSystem;
  previous : option string;
  previous_exists : bool;
  write_attempted : bool }.

Definition on_files {A} (m : Eff FileSystem A) : Eff WriteVars A := fun v =>
  let '(f, r) := m (files v) in (mkWriteVars f (previous v) (previous_exists v) (write_attempted v), r).

Section WriteDocument.
Context (work_path path data : string) (overwrite : bool) (identity : Z).
(** The names drawn for the temporary files of the write and of its undoing. *)
Context (token undo_token : string).

Definition read_document : Eff FileSystem string := read_bytes_under_root fault (root_now work_path) path (Some identity).
Definition write_document (token data : string) (overwrite : bool) : Eff FileSystem unit :=
  atomic_write_under_root fault (root_now work_path) token path data overwrite (Some identity).

(** [try: ... except FileNotFoundError: ...] *)
Definition if_missing {S A} (k : Eff S A) (e : exn) : option (Eff S A) :=
  match e with FileNotFoundError _ => Some k | _ => None end.

Definition compensate_write : Eff WriteVars unit := fun v =>
  if negb (write_attempted v) then (v, Ok tt)
  else
    (current ← eff_try (data ← on_files read_document; mret (Some data)) (if_missing (mret None));
     let unchanged := Bool.eqb (is_some current) (previous_exists v)
                      && (negb (previous_exists v) || opt_eqb current (previous v)) in
     if unchanged then mret tt
     else if previous_exists v then
       match previous v with
       | Some previous => on_files (write_document undo_token previous true)
       | None => eff_raise AssertionError
       end
     else on_files (unlink_under_root fault (root_now work_path) path true (Some identity))) v.

Definition set_previous (data : string) : Eff WriteVars unit := fun v =>
  (mkWriteVars (files v) (Some data) true (write_attempted v), Ok tt).
Definition mark_attempted : Eff WriteVars unit := fun v =>
  (mkWriteVars (files v) (previous v) (previous_exists v) true, Ok tt).

Definition write_body : Eff WriteVars unit :=
  _ ← eff_try
        (data ← on_files read_document; set_previous data)
        (if_missing (mret tt));
  _ ← mark_attempted;
  on_files (write_document token data overwrite).

Definition write_workspace_document (workspace_id : uuid) (kind version : string) (expected_version : option string)
    (allow_active_notebook : bool) (now : string) (commit : res unit) (d : db) (f : FileSystem)
  : (db * FileSystem) * res unit :=
  let '((d', v), r) :=
    document_write_guard workspace_id path kind version (Some (content_hash data)) expected_version now
      allow_active_notebook commit compensate_write write_body d (mkWriteVars f None false false) in
  ((d', files v), r).
End WriteDocument.

(** ** The operations *)
Definition files_only {A} (m : Eff FileSystem A) : Eff (db * FileSystem) A := fun s =>
  let '(f, r) := m (snd s) in ((fst s, f), r).

(** [self._workspace(workspace_id)] *)
Definition workspace (workspace_id : uuid) : Eff (db * FileSystem) WorkspaceRecord := fun s =>
  (s, match get_workspace workspace_id (fst s) with Some w => Ok w | None => Err (KeyError workspace_id) end).

Definition write_document_step (record : WorkspaceRecord) (path data kind version : string)
    (expected_version : option string) (overwrite allow_active_notebook : bool) (identity : Z)
    (token undo_token now : string) (commit : res unit) : Eff (db * FileSystem) unit := fun s =>
  write_workspace_document (w_work_path record) path data overwrite identity token undo_token
    (w_id record) kind version expected_version allow_active_notebook now commit (fst s) (snd s).

Definition active_conflict {A} (msg : string) : Eff (db * FileSystem) A := eff_raise (LauncherExn (ConflictError msg)).

Definition write_file (workspace_id : uuid) (relative_path data : string) (expected_version : option string)
    (overwrite allow_active_notebook : bool) (version token undo_token now : string) (commit : res unit)
  : Eff (db * FileSystem) string :=
  record ← workspace workspace_id;
  identity ← files_only (work_identity (w_work_path record));
  normalized_path ← eff_lift (validate_relative_path relative_path);
  active_path ← eff_lift (validate_relative_path (w_active_notebook_path record));
  if String.eqb (document_path_key normalized_path) (document_path_key active_path) && negb allow_active_notebook
  then active_conflict "The active notebook must be changed through notebook-aware operations."
  else
    _ ← write_document_step record normalized_path data
          (if ends_with ".ipynb" normalized_path then "notebook" else "file") version expected_version
          overwrite allow_active_notebook identity token undo_token now commit;
    mret version.

Definition reopen (workspace_id : uuid) : Eff (db * FileSystem) WorkspaceRecord :=
  record ← workspace workspace_id;
  if negb (path_is_dir (w_work_path record)) || negb (path_is_dir (w_outputs_path record))
  then eff_raise (FileNotFoundError "persistent workspace storage is unavailable")
  else
    identity ← files_only (work_identity (w_work_path record));
    _ ← eff_try
          (files_only (safe_open_under_root fault (root_now (w_work_path record)) (w_active_notebook_path record)
                         (Some identity)))
          (if_missing (eff_raise (FileNotFoundError "active notebook is missing from the workspace")));
    mret record.
(** ** [save_copy] *)
Definition permission_denied {A} (msg : string) : Eff (db * FileSystem) A :=
  eff_raise (LauncherExn (PermissionDenied msg)).

Definition names_notebook (path : string) : bool := ends_with ".ipynb" (casefold path).

Section SaveCopy.
(** [self.grants], its host, and what a granted directory resolves to now. *)
Context (grants : option Host) (granted_now : string -> nat -> res Z).

Definition save_to_grant (workspace_id : uuid) (destination_path data : string) (overwrite : bool) (token : string)
  : Eff (db * FileSystem) unit := fun s =>
  match grants with
  | None => permission_denied "No local data directory is granted." s
  | Some host =>
      match revalidate host workspace_id (fst s) with
      | Err e => (s, Err e)
      | Ok None => permission_denied "No local data directory is granted." s
      | Ok (Some grant) =>
          if negb (String.eqb (gr_mode grant) "rw") then permission_denied "The local data grant is read-only." s
          else files_only (atomic_write_under_root fault (granted_now (gr_canonical_root grant)) token destination_path
                             data overwrite (Some (inode (gr_identity grant)))) s
      end
  end.

(** [self.state.get_document_version(...)] *)
Definition existing_version (workspace_id : uuid) (path : string) : Eff (db * FileSystem) (option DocumentVersionRecord) :=
  fun s => (s, get_document_version workspace_id path (fst s)).

Definition save_copy (workspace_id : uuid) (source_path destination_scope destination_path : string)
    (include_outputs overwrite : bool) (version token undo_token now : string) (commit : res unit)
  : Eff (db * FileSystem) unit :=
  record ← workspace workspace_id;
  identity ← files_only (work_identity (w_work_path record));
  source_path ← eff_lift (validate_relative_path source_path);
  destination_path ← eff_lift (validate_relative_path destination_path);
  _ ← eff_raise_if (negb (names_notebook source_path)) (ValueError "source_path must name a notebook");
  _ ← eff_raise_if (negb (names_notebook destination_path)) (ValueError "destination_path must end in .ipynb");
  _ ← (if String.eqb destination_scope "workspace"
                 then eff_raise_if (String.eqb (document_path_key source_path) (document_path_key destination_path))
                        (ValueError "Save a Copy requires a distinct destination") ≫= fun _ =>
                      active ← eff_lift (validate_relative_path (w_active_notebook_path record));
                      eff_raise_if (String.eqb (document_path_key destination_path) (document_path_key active))
                        (LauncherExn (ConflictError "Save a Copy cannot replace the active notebook."))
                 else mret tt);
  data ← files_only (read_bytes_under_root fault (root_now (w_work_path record)) source_path (Some identity));
  data ← eff_lift (if include_outputs then Ok data else without_notebook_outputs data);
  if String.eqb destination_scope "workspace" then
    existing ← existing_version workspace_id destination_path;
    _ ← eff_raise_if (is_some existing && negb overwrite) (FileExistsError destination_path);
    write_document_step record destination_path data "notebook" version (option_map d_version existing) overwrite false
      identity token undo_token now commit
  else if String.eqb destination_scope "user_data" then save_to_grant workspace_id destination_path data overwrite token
  else eff_raise (ValueError "destination_scope must be workspace or user_data").
End SaveCopy.

(** ** [rename_active_notebook] *)
Record RenameVars := mkRenameVars {
  renamed_files : FileSystem;
  moved : bool;
  current_path : string }.

Section Rename.
Context (work_path destination_path : string) (identity : Z).

Definition rename_files (source destination : string) (v : RenameVars) : RenameVars * res unit :=
  let '(f, r) := rename_under_root fault (root_now work_path) source destination false (Some identity) (renamed_files v) in
  (mkRenameVars f (moved v) (current_path v), r).

Definition compensate_rename : Eff RenameVars unit := fun v =>
  if moved v then rename_files destination_path (current_path v) v else (v, Ok tt).

Definition rename_body (guarded_path : string) : Eff RenameVars unit := fun v =>
  let v := mkRenameVars (renamed_files v) (moved v) guarded_path in
  match rename_files guarded_path destination_path v with
  | (v, Ok _) => (mkRenameVars (renamed_files v) true (current_path v), Ok tt)
  | (v, Err e) => (v, Err e)
  end.
End Rename.

(** The [with] statement. *)
Definition guarded_rename (workspace_id : uuid) (work_path old_path destination_path now : string) (identity : Z)
    (commit : res unit) : Eff (db * FileSystem) unit := fun s =>
  let '((d, v), r) :=
    active_notebook_rename_guard workspace_id old_path destination_path now commit
      (compensate_rename work_path destination_path identity) (rename_body work_path destination_path identity)
      (fst s) (mkRenameVars (snd s) false old_path) in
  ((d, renamed_files v), r).

(** [self.state.get_workspace(...)]; [assert updated is not None] *)
Definition updated_workspace (workspace_id : uuid) : Eff (db * FileSystem) WorkspaceRecord := fun s =>
  (s, match get_workspace workspace_id (fst s) with Some w => Ok w | None => Err AssertionError end).

Definition rename_active_notebook (workspace_id : uuid) (destination_path now : string) (commit : res unit)
  : Eff (db * FileSystem) WorkspaceRecord :=
  record ← workspace workspace_id;
  identity ← files_only (work_identity (w_work_path record));
  old_path ← eff_lift (validate_relative_path (w_active_notebook_path record));
  destination_path ← eff_lift (validate_relative_path destination_path);
  _ ← eff_raise_if (negb (names_notebook destination_path)) (ValueError "destination_path must end in .ipynb");
  _ ← guarded_rename workspace_id (w_work_path record) old_path destination_path now identity commit;
  updated_workspace workspace_id.
End Workspace.

(** ** A write and its version are one step *)
Section WriteAtomic.
Context `{Platform}.
Context (fault : nat -> option (Z * nat)) (root_now : string -> nat -> res Z).
Context (work_path path data : string) (overwrite : bool) (root : Z) (token undo_token : string) (parts : list string).
(** The work directory stays where it is, and a missing file is reported only
    when it is missing. *)
Context (Hroot : forall n, root_now work_path n = Ok root) (Hhonest : forall n k, fault n <> Some (ENOENT, k)).
Context (Hparts : safe_relative_parts path = Ok parts).
(** The temporary names are distinct and not those of existing files. *)
Let temporary := temporary_name token (final parts).
Let undo_temporary := temporary_name undo_token (final parts).
Context (Htokens : undo_temporary <> temporary) (Hin : ~ In temporary parts) (Hundo : ~ In undo_temporary parts).

(** The closure's variables when the file had content [old]. *)
Definition attempted (old : option string) (v : WriteVars) : Prop :=
  write_attempted v = true /\ previous v = old /\ previous_exists v = is_some old
  /\ wf_fs (files v) /\ fresh_name undo_temporary (files v).

Lemma on_files_ok {A} (m : Eff FileSystem A) v v' r : on_files m v = (v', r) ->
  m (files v) = (files v', r) /\ previous v' = previous v /\ previous_exists v' = previous_exists v
  /\ write_attempted v' = write_attempted v.
Proof. unfold on_files. destruct (m (files v)) as [f1 r1]. intros [= <- <-]. auto. Qed.

(** The reading of the old content: what the [try] leaves behind. *)
Lemma read_previous v v' r :
  previous v = None -> previous_exists v = false ->
  eff_try (data ← on_files (read_document fault root_now work_path path root); set_previous data)
    (if_missing (mret tt)) v = (v', r) ->
  same_fs (files v) (files v') /\ write_attempted v' = write_attempted v
  /\ (r = Ok tt -> previous v' = content_at (files v) root parts /\ previous_exists v' = is_some (content_at (files v) root parts)).
Proof.
  intros Hp He Hs. unfold eff_try, mbind, eff_bind in Hs.
  destruct (on_files _ v) as [v1 r1] eqn:E. apply on_files_ok in E as (E & E1 & E2 & E3).
  assert (Hsame := pure_read_bytes _ _ _ _ _ _ _ E). destruct r1 as [old|e].
  - injection Hs as <- <-. cbn. split; [exact Hsame|]. split; [exact E3|]. intros _.
    destruct (read_bytes_ok _ _ _ Hroot _ _ _ _ E) as (ps & Hps & Hc).
    assert (ps = parts) as -> by congruence. rewrite Hc. auto.
  - unfold if_missing in Hs. destruct e; injection Hs as <- <-; split; auto; split; auto; try discriminate.
    intros _. destruct (read_bytes_missing _ _ Hhonest _ Hroot _ _ _ _ E) as (ps & Hps & Hc).
    assert (ps = parts) as -> by congruence. rewrite Hc, E1, E2. auto.
Qed.

Lemma write_body_spec f v' r : wf_fs f -> fresh_name temporary f -> fresh_name undo_temporary f ->
  write_body fault root_now work_path path data overwrite root token (mkWriteVars f None false false) = (v', r) ->
  (write_attempted v' = false /\ same_fs f (files v') /\ is_ok r = false)
  \/ (attempted (content_at f root parts) v' /\ kept (final parts) f (files v')
      /\ (r = Ok tt -> content_at (files v') root parts = Some data)).
Proof.
  intros Hwf Hf1 Hf2 Hs. unfold write_body in Hs. unfold mbind at 1, eff_bind at 1 in Hs.
  destruct (eff_try _ _ _) as [v1 r1] eqn:E. apply read_previous in E as (Hsame & Hwa & Hok); [|reflexivity..].
  cbn [files write_attempted] in *. destruct r1 as [[]|e]; [|injection Hs as <- <-; auto].
  destruct (Hok eq_refl) as [Hp He]. unfold mbind, eff_bind, mark_attempted in Hs.
  apply on_files_ok in Hs as (Hw & H1 & H2 & H3). cbn [files previous previous_exists write_attempted] in *. right.
  destruct (write_under_root_spec _ _ _ Hroot _ _ _ _ _ _ _ _ (same_wf _ _ Hsame Hwf) Hparts (same_fresh _ _ Hsame _ Hf1) Hin Hw)
    as [Hwf' Hc Hok' Hd Hk Hfr].
  split; [|split; [|exact Hok']].
  - unfold attempted. rewrite H1, H2, H3. split; [reflexivity|]. split; [exact Hp|]. split; [exact He|]. split; [exact Hwf'|].
    apply Hfr; [exact Hundo|exact Htokens|exact (same_fresh _ _ Hsame _ Hf2)].
  - exact (kept_trans _ _ _ _ (same_kept _ _ Hsame _) Hk).
Qed.

(** The compensation restores the content, when it returns. *)
Lemma compensate_write_spec old v v' : attempted old v ->
  compensate_write fault root_now work_path path root undo_token v = (v', Ok tt) ->
  content_at (files v') root parts = old /\ kept (final parts) (files v) (files v').
Proof.
  intros (Hwa & Hp & He & Hwf & Hf) Hs. unfold compensate_write in Hs. rewrite Hwa in Hs. cbn [negb] in Hs.
  apply eff_bind_ok in Hs as (v1 & current & Hread & Hs).
  assert (Hcur : same_fs (files v) (files v1) /\ previous v1 = old /\ previous_exists v1 = is_some old
            /\ current = content_at (files v) root parts).
  { unfold eff_try, mbind, eff_bind in Hread. destruct (on_files _ v) as [v2 r2] eqn:E.
    apply on_files_ok in E as (E & E1 & E2 & E3). assert (Hsame := pure_read_bytes _ _ _ _ _ _ _ E).
    destruct r2 as [cur|e].
    - injection Hread as <- <-. destruct (read_bytes_ok _ _ _ Hroot _ _ _ _ E) as (ps & Hps & Hc).
      assert (ps = parts) as -> by congruence. rewrite Hc, E1, E2. auto.
    - unfold if_missing in Hread. destruct e; try discriminate. injection Hread as <- <-.
      destruct (read_bytes_missing _ _ Hhonest _ Hroot _ _ _ _ E) as (ps & Hps & Hc).
      assert (ps = parts) as -> by congruence. rewrite Hc, E1, E2. auto. }
  destruct Hcur as (Hsame & Hp1 & He1 & ->). assert (Hk := same_kept _ _ Hsame (final parts)).
  cbv zeta in Hs. rewrite Hp, He in Hs.
  destruct (_ && _) eqn:Hun; cbn [negb] in Hs.
  - injection Hs as <-. rewrite (same_content _ _ Hsame). split; [|exact Hk]. apply andb_true_iff in Hun as [H1 H2].
    destruct (content_at (files v) root parts) as [cur|], old as [o|]; try discriminate; [|reflexivity].
    cbn in H2. apply String.eqb_eq in H2. now subst.
  - assert (Hwf1 := same_wf _ _ Hsame Hwf). assert (Hf1 := same_fresh _ _ Hsame _ Hf). destruct old as [o|]; cbn [is_some] in Hs.
    + apply on_files_ok in Hs as (Hw & _).
      destruct (write_under_root_spec _ _ _ Hroot _ _ _ _ _ _ _ _ Hwf1 Hparts Hf1 Hundo Hw) as [_ _ Hok _ Hk' _].
      split; [exact (Hok eq_refl)|exact (kept_trans _ _ _ _ Hk Hk')].
    + apply on_files_ok in Hs as (Hu & _).
      destruct (unlink_under_root_spec _ _ _ Hroot Hhonest _ _ _ _ Hwf1 Hparts Hu) as (Hc & Hk' & _).
      split; [exact Hc|exact (kept_trans _ _ _ _ Hk Hk')].
Qed.

Definition failed_twice (e : exn) : Prop :=
  exists es, e = ExceptionGroup "transaction and filesystem compensation both failed" es.

(** What a write that raised leaves: nothing, unless undoing it failed too. *)
Definition undone (d d' : db) (f f' : FileSystem) (e : exn) : Prop :=
  d' = d /\ ((content_at f' root parts = content_at f root parts /\ kept (final parts) f f') \/ failed_twice e).

Lemma compensated {A} original v d d' v' (r : res A) f old :
  (if is_Exception original
   then compensate_before_rollback original (compensate_write fault root_now work_path path root undo_token) d v
   else ((d, v), Err original)) = ((d', v'), r) ->
  (write_attempted v = false /\ same_fs f (files v) \/ attempted old v /\ kept (final parts) f (files v)) ->
  old = content_at f root parts ->
  exists e, r = Err e /\ (is_Exception e = true -> undone d d' f (files v') e).
Proof.
  intros Hs Hcase Hold. destruct (is_Exception original) eqn:He;
    [|injection Hs as <- <- <-; exists original; split; [reflexivity|congruence]].
  unfold compensate_before_rollback in Hs.
  destruct (compensate_write _ _ _ _ _ _ v) as [v1 [[]|ce]] eqn:E.
  - injection Hs as <- <- <-. exists original. split; [reflexivity|]. intros _. split; [reflexivity|]. left.
    destruct Hcase as [[Hwa Hsame]|[Ha Hk]].
    + unfold compensate_write in E. rewrite Hwa in E. injection E as <-.
      split; [exact (same_content _ _ Hsame _ _)|exact (same_kept _ _ Hsame _)].
    + destruct (compensate_write_spec _ _ _ Ha E) as [Hc Hk']. split; [congruence|exact (kept_trans _ _ _ _ Hk Hk')].
  - destruct (is_Exception ce) eqn:Hce; injection Hs as <- <- <-; (eexists; split; [reflexivity|]); [|congruence].
    intros _. split; [reflexivity|]. right. unfold failed_twice. eauto.
Qed.

Lemma write_workspace_document_spec workspace_id kind version expected al now commit d f d' f' r :
  wf_fs f -> fresh_name temporary f -> fresh_name undo_temporary f ->
  write_workspace_document fault root_now work_path path data overwrite root token undo_token workspace_id kind version
    expected al now commit d f = ((d', f'), r) ->
  match r with
  | Ok _ => content_at f' root parts = Some data /\ kept (final parts) f f'
            /\ exists v, document_write_guard workspace_id path kind version (Some (content_hash data)) expected now al
                 commit (compensate_write fault root_now work_path path root undo_token)
                 (write_body fault root_now work_path path data overwrite root token) d (mkWriteVars f None false false)
                 = ((d', v), Ok tt)
  | Err e => is_Exception e = true -> undone d d' f f' e
  end.
Proof.
  intros Hwf Hf1 Hf2. unfold write_workspace_document.
  destruct (document_write_guard _ _ _ _ _ _ _ _ _ _ _ _ _) as [[d1 v1] r1] eqn:Hg. intros [= <- <- <-].
  pose proof Hg as Hg0. unfold document_write_guard, transaction_with in Hg.
  destruct (document_write_guard_before workspace_id path expected al d) as [[d0 row]|e] eqn:Hb.
  - destruct (write_body _ _ _ _ _ _ _ _ _) as [v2 r2] eqn:Eb.
    destruct (write_body_spec _ _ _ Hwf Hf1 Hf2 Eb) as [(Hwa & Hsame & Hr)|(Ha & Hk & Hok)].
    + destruct r2 as [u|e]; [discriminate|].
      destruct (compensated _ _ _ _ _ _ f _ Hg (or_introl (conj Hwa Hsame)) eq_refl) as (x & -> & Hx). exact Hx.
    + assert (Hcomp := fun original Hc => compensated original v2 d d1 v1 r1 f _ Hc (or_intror (conj Ha Hk)) eq_refl).
      destruct r2 as [[]|e]; [|destruct (Hcomp _ Hg) as (x & -> & Hx); exact Hx].
      destruct (document_write_guard_after _ _ _ _ _ _ _ row d0) as [[d2 u]|e];
        [|destruct (Hcomp _ Hg) as (x & -> & Hx); exact Hx].
      destruct commit as [|e]; [|destruct (Hcomp _ Hg) as (x & -> & Hx); exact Hx].
      injection Hg as <- <- <-. split; [exact (Hok eq_refl)|]. split; [exact Hk|]. eauto.
  - destruct (compensated _ _ _ _ _ _ f _ Hg (or_introl (conj eq_refl (same_fs_refl f))) eq_refl) as (x & -> & Hx). exact Hx.
Qed.
End WriteAtomic.

(** The version recorded for a path. *)
Definition recorded_version (w : uuid) (path : string) (d : db) : option string :=
  option_map d_version (fetchone (document_of w path) (document_versions d)).

Lemma get_workspace_id w d record : get_workspace w d = Some record -> w_id record = w.
Proof. unfold get_workspace. intros Hw. apply fetchone_some in Hw as [_ Hw]. now apply String.eqb_eq. Qed.


(** ** Renaming the active notebook *)

(** A work directory with the notebook [a.ipynb]. *)
Definition work_fs : FileSystem :=
  mkFs (<[1 := Dir (<["a.ipynb"%string := 2]> ∅)]> (<[2 := File "{}"]> ∅)) 3 0.

Definition always_root : string -> nat -> res Z := fun _ _ => Ok 1.

(** The disk fails at one system call. *)
Definition fault_at (k : nat) (errno : Z) : nat -> option (Z * nat) :=
  fun n => if Nat.eqb n k then Some (errno, 0%nat) else None.

Definition sample_rename (fault : nat -> option (Z * nat)) (commit : res unit) :=
  rename_active_notebook (H := false) fault always_root always_root "ws-1" "b.ipynb" "t9" commit (sample_db, work_fs).

Definition active_path (d : db) : option string := option_map w_active_notebook_path (get_workspace "ws-1" d).

(** Without faults both move; when COMMIT fails the file is moved back. *)
Example rename_ex :
  (let '((d, f), r) := sample_rename no_fault (Ok tt) in
   (is_ok r, active_path d, content_at f 1 ["a.ipynb"%string], content_at f 1 ["b.ipynb"%string]))
  = (true, Some "b.ipynb", None, Some "{}")%string
  /\ (let '((d, f), r) := sample_rename no_fault (Err (OSError 5)) in
      (is_ok r, active_path d, content_at f 1 ["a.ipynb"%string], content_at f 1 ["b.ipynb"%string]))
     = (false, Some "a.ipynb", Some "{}", None)%string.
Proof. vm_compute. auto. Qed.


(** ** Witness *)
Definition sample_write_file (commit : res unit) :=
  write_file (H := false) no_fault always_root always_root "ws-1" "dir/b.txt" "B2" None true false "v1" "00ff" "11ee" "t9"
    commit (sample_db, sample_fs).

