(* ===== verification/Execution.v ===== *)
(** * Agent executions (src/notebook_launcher/execution.py)

    [ExecutionBroker]: the state machine that serialises executions and
    decides when an interrupt is safe.  [ExecutionCoordinator]: its binding to
    a kernel.  The dictionary [_records] is an association list in insertion
    order; the lock makes each method one step.  The kernel (a [Protocol] that
    the Jupyter adapter implements) answers through a parameter, and the calls
    it receives are recorded in order. *)
From S2P Require Export Models.

Definition TERMINAL_STATES : list ExecutionState := [COMPLETED; FAILED; TIMEOUT; CANCELLED].

Definition terminal (s : ExecutionState) : bool :=
  match s with COMPLETED | FAILED | TIMEOUT | CANCELLED => true | _ => false end.

Record ExecutionRecord := mkExecution {
  operation_id : uuid;
  session_id : uuid;
  state : ExecutionState;
  queued_at : Z;
  jupyter_msg_id : option string;
  active_parent_msg_id : option string;
  dispatched_at : option Z;
  started_at : option Z;
  cancel_requested_at : option Z;
  requested_outcome : option ExecutionState;
  deadline_at : option Z;
  finished_at : option Z }.

Definition owns_active_kernel_request (r : ExecutionRecord) : bool :=
  truthy (jupyter_msg_id r) && truthy (active_parent_msg_id r)
  && match jupyter_msg_id r, active_parent_msg_id r with
     | Some a, Some b => String.eqb a b
     | _, _ => false
     end
  && match state r with RUNNING | CANCEL_PENDING => true | _ => false end.

(** ** The fields that [replace] changes *)
Definition with_dispatch (msg : string) (now : Z) (r : ExecutionRecord) : ExecutionRecord :=
  mkExecution (operation_id r) (session_id r) DISPATCHED (queued_at r) (Some msg)
    (active_parent_msg_id r) (Some now) (started_at r) (cancel_requested_at r)
    (requested_outcome r) (deadline_at r) (finished_at r).

Definition with_parent (st : ExecutionState) (parent : string) (started : option Z)
    (r : ExecutionRecord) : ExecutionRecord :=
  mkExecution (operation_id r) (session_id r) st (queued_at r) (jupyter_msg_id r)
    (Some parent) (dispatched_at r) started (cancel_requested_at r) (requested_outcome r)
    (deadline_at r) (finished_at r).

Definition with_request (st outcome : ExecutionState) (now : Z) (finished : option Z)
    (r : ExecutionRecord) : ExecutionRecord :=
  mkExecution (operation_id r) (session_id r) st (queued_at r) (jupyter_msg_id r)
    (active_parent_msg_id r) (dispatched_at r) (started_at r) (Some now) (Some outcome)
    (deadline_at r) finished.

Definition with_state (st : ExecutionState) (finished : option Z) (r : ExecutionRecord)
    : ExecutionRecord :=
  mkExecution (operation_id r) (session_id r) st (queued_at r) (jupyter_msg_id r)
    (active_parent_msg_id r) (dispatched_at r) (started_at r) (cancel_requested_at r)
    (requested_outcome r) (deadline_at r) finished.

(** ** [ExecutionBroker] *)
Record ExecutionBroker := mkBroker {
  records : list ExecutionRecord;
  queue : list uuid;
  active : option uuid;
  kernel_busy_parent : option string }.

Definition new_broker : ExecutionBroker := mkBroker [] [] None None.

Definition is_op (i : uuid) (r : ExecutionRecord) : bool := String.eqb (operation_id r) i.

Definition lookup (b : ExecutionBroker) (i : uuid) : option ExecutionRecord :=
  List.find (is_op i) (records b).

(** [self._records[operation_id]] *)
Definition broker_get (i : uuid) (b : ExecutionBroker) : res ExecutionRecord :=
  match lookup b i with Some r => Ok r | None => Err (KeyError i) end.

(** [self._records[operation_id] = updated], for a key that is present. *)
Definition put (r : ExecutionRecord) (b : ExecutionBroker) : ExecutionBroker :=
  mkBroker (map (fun x => if is_op (operation_id r) x then r else x) (records b))
    (queue b) (active b) (kernel_busy_parent b).

Definition with_queue (q : list uuid) (b : ExecutionBroker) : ExecutionBroker :=
  mkBroker (records b) q (active b) (kernel_busy_parent b).
Definition with_active (a : option uuid) (b : ExecutionBroker) : ExecutionBroker :=
  mkBroker (records b) (queue b) a (kernel_busy_parent b).
Definition with_busy (p : option string) (b : ExecutionBroker) : ExecutionBroker :=
  mkBroker (records b) (queue b) (active b) p.

(** A method that reads the record of its operation first. *)
Definition on_record {A} (i : uuid) (k : ExecutionRecord -> ExecutionBroker * res A)
    (b : ExecutionBroker) : ExecutionBroker * res A :=
  match lookup b i with
  | Some r => k r
  | None => (b, Err (KeyError i))
  end.

Definition enqueue (new_id : uuid) (session : uuid) (timeout_seconds : option Z) (now : Z)
    (b : ExecutionBroker) : ExecutionBroker * res ExecutionRecord :=
  if match timeout_seconds with Some t => t <=? 0 | None => false end
  then (b, Err (ValueError "timeout_seconds must be positive"))
  else
    match match timeout_seconds with
          | Some t => rmap Some (dt_add now (seconds t))
          | None => Ok None
          end with
    | Err e => (b, Err e)
    | Ok deadline =>
        let r := mkExecution new_id session QUEUED now None None None None None None deadline None in
        (mkBroker (records b ++ [r]) (queue b ++ [new_id]) (active b) (kernel_busy_parent b), Ok r)
    end.

(** The loop of [next_queued]: the head of the queue that is still queued;
    the heads that are not are dropped. *)
Fixpoint drop_settled (rs : list ExecutionRecord) (q : list uuid)
    : list uuid * res (option ExecutionRecord) :=
  match q with
  | [] => ([], Ok None)
  | i :: q' =>
      match List.find (is_op i) rs with
      | None => (q, Err (KeyError i))
      | Some r => if decide (state r = QUEUED) then (q, Ok (Some r)) else drop_settled rs q'
      end
  end.

Definition next_queued (b : ExecutionBroker) : ExecutionBroker * res (option ExecutionRecord) :=
  if is_some (active b) || is_some (kernel_busy_parent b) then (b, Ok None)
  else let '(q, r) := drop_settled (records b) (queue b) in (with_queue q b, r).

Definition dispatch (i : uuid) (msg : string) (now : Z) (b : ExecutionBroker)
    : ExecutionBroker * res ExecutionRecord :=
  if String.eqb msg "" then (b, Err (ValueError "jupyter_msg_id is required"))
  else if is_some (active b) then
    (b, Err (RuntimeError "another agent execution is already dispatched"))
  else if is_some (kernel_busy_parent b) then
    (b, Err (RuntimeError "kernel is busy with another request"))
  else on_record i (fun r =>
    if decide (state r <> QUEUED) then
      (b, Err (RuntimeError "only queued operations may be dispatched"))
    else match queue b with
         | h :: q =>
             if negb (String.eqb h i) then
               (b, Err (RuntimeError "execution dispatch must preserve queue order"))
             else let u := with_dispatch msg now r in
                  (with_active (Some i) (put u (with_queue q b)), Ok u)
         | [] => let u := with_dispatch msg now r in (with_active (Some i) (put u b), Ok u)
         end) b.

Definition observe_busy_parent (i : uuid) (parent : string) (now : Z) (b : ExecutionBroker)
    : ExecutionBroker * res ExecutionRecord :=
  let b := with_busy (Some parent) b in
  on_record i (fun r =>
    let mine := match jupyter_msg_id r with Some m => String.eqb m parent | None => false end in
    let '(st, started) :=
      if mine then
        match state r with
        | DISPATCHED => (RUNNING, Some now)
        | CANCEL_PENDING =>
            (CANCEL_PENDING, match started_at r with Some t => Some t | None => Some now end)
        | st => (st, started_at r)
        end
      else (state r, started_at r) in
    let u := with_parent st parent started r in
    (put u b, Ok u)) b.

Definition observe_kernel_busy (parent : string) (b : ExecutionBroker) : ExecutionBroker :=
  with_busy (Some parent) b.
Definition observe_kernel_idle (b : ExecutionBroker) : ExecutionBroker := with_busy None b.

Definition interrupt_required (i : uuid) (b : ExecutionBroker) : res bool :=
  rmap owns_active_kernel_request (broker_get i b).

(** [request_cancel] and [request_timeout] differ only in the outcome. *)
Definition request_outcome (outcome : ExecutionState) (i : uuid) (now : Z) (b : ExecutionBroker)
    : ExecutionBroker * res (ExecutionRecord * bool) :=
  on_record i (fun r =>
    if terminal (state r) then (b, Ok (r, false))
    else if decide (state r = QUEUED) then
      let u := with_request outcome outcome now (Some now) r in (put u b, Ok (u, false))
    else
      let u := with_request CANCEL_PENDING outcome now (finished_at r) r in
      (put u b, Ok (u, owns_active_kernel_request u))) b.

Definition request_cancel := request_outcome CANCELLED.
Definition request_timeout := request_outcome TIMEOUT.

Definition mark_cancelling (i : uuid) (b : ExecutionBroker) : ExecutionBroker * res ExecutionRecord :=
  on_record i (fun r =>
    if negb (owns_active_kernel_request r) then
      (b, Err (RuntimeError "kernel interrupt requires confirmed agent ownership"))
    else let u := with_state CANCELLING (finished_at r) r in (put u b, Ok u)) b.

Definition overdue (current : Z) (r : ExecutionRecord) : bool :=
  match deadline_at r with
  | Some t => (t <=? current) && negb (terminal (state r))
  | None => false
  end.

(** The loop of [expire] over a snapshot of the keys; [now] stamps the
    requests, [current] is the instant the deadlines are compared with. *)
Fixpoint expire_loop (ids : list uuid) (current now : Z) (b : ExecutionBroker)
    : ExecutionBroker * res (list (ExecutionRecord * bool)) :=
  match ids with
  | [] => (b, Ok [])
  | i :: ids' =>
      on_record i (fun r =>
        if overdue current r then
          match request_timeout i now b with
          | (b1, Err e) => (b1, Err e)
          | (b1, Ok x) =>
              let '(b2, xs) := expire_loop ids' current now b1 in (b2, rmap (cons x) xs)
          end
        else expire_loop ids' current now b) b
  end.

Definition expire (current now : Z) (b : ExecutionBroker)
    : ExecutionBroker * res (list (ExecutionRecord * bool)) :=
  expire_loop (map operation_id (records b)) current now b.

Definition finish (i : uuid) (outcome : ExecutionState) (now : Z) (b : ExecutionBroker)
    : ExecutionBroker * res ExecutionRecord :=
  if negb (terminal outcome) then (b, Err (ValueError "outcome must be terminal"))
  else on_record i (fun r =>
    let u := with_state outcome (Some now) r in
    let b1 := put u b in
    (if match active b with Some a => String.eqb a i | None => false end
     then with_active None b1 else b1, Ok u)) b.

Fixpoint finish_all (ids : list uuid) (now : Z) (b : ExecutionBroker)
    : ExecutionBroker * res (list ExecutionRecord) :=
  match ids with
  | [] => (b, Ok [])
  | i :: ids' =>
      match finish i CANCELLED now b with
      | (b1, Err e) => (b1, Err e)
      | (b1, Ok x) => let '(b2, xs) := finish_all ids' now b1 in (b2, rmap (cons x) xs)
      end
  end.

Definition broker_invalidate_session (session : uuid) (now : Z) (b : ExecutionBroker)
    : ExecutionBroker * res (list ExecutionRecord) :=
  finish_all (map operation_id
    (List.filter (fun r => String.eqb (session_id r) session && negb (terminal (state r))) (records b)))
    now b.

(** ** [ExecutionCoordinator] *)
Inductive kernel_call := KDispatch | KInterrupt | KWaitForIdle | KRestart.

(** What the kernel answers to the calls of one operation. *)
Record Kernel := mkKernel {
  k_dispatch : res string;
  k_interrupt : res unit;
  k_wait_for_idle : option (res bool);
  k_restart : res unit }.

(** The broker and the calls made so far. *)
Definition Coordinator : Type := ExecutionBroker * list kernel_call.

Definition coordinator_init (cancel_grace_seconds : Z) : res unit :=
  raise_if (cancel_grace_seconds <? 0) (ValueError "cancel_grace_seconds cannot be negative").

Section Coordinator.
Context (k : Kernel) (now : Z).

Definition dispatch_next (c : Coordinator) : Coordinator * res (option ExecutionRecord) :=
  let '(b, calls) := c in
  match next_queued b with
  | (b1, Err e) => ((b1, calls), Err e)
  | (b1, Ok None) => ((b1, calls), Ok None)
  | (b1, Ok (Some r)) =>
      match k_dispatch k with
      | Err e => ((b1, calls ++ [KDispatch]), Err e)
      | Ok msg =>
          let '(b2, u) := dispatch (operation_id r) msg now b1 in
          ((b2, calls ++ [KDispatch]), rmap Some u)
      end
  end.

Definition interrupt_owned (i : uuid) (c : Coordinator) : Coordinator * res unit :=
  let '(b, calls) := c in
  match mark_cancelling i b with
  | (b1, Err e) => ((b1, calls), Err e)
  | (b1, Ok r) =>
      let calls := calls ++ [KInterrupt] in
      match k_interrupt k, k_wait_for_idle k with
      | Err e, _ => ((b1, calls), Err e)
      | Ok _, None => ((b1, calls), Ok tt)
      | Ok _, Some idle =>
          let calls := calls ++ [KWaitForIdle] in
          let finish_it calls :=
            let '(b2, f) := finish i (match requested_outcome r with
                                      | Some o => o | None => CANCELLED end) now b1 in
            ((b2, calls), rmap (fun _ => tt) f) in
          match idle with
          | Err e => ((b1, calls), Err e)
          | Ok true => finish_it calls
          | Ok false =>
              match k_restart k with
              | Err e => ((b1, calls ++ [KRestart]), Err e)
              | Ok _ => finish_it (calls ++ [KRestart])
              end
          end
      end
  end.

(** [if should_interrupt: ...; return self.broker.get(operation_id)] *)
Definition then_interrupt (should : bool) (i : uuid) (record : ExecutionRecord) (c : Coordinator)
    : Coordinator * res ExecutionRecord :=
  if should then
    match interrupt_owned i c with
    | (c1, Err e) => (c1, Err e)
    | (c1, Ok _) => (c1, broker_get i (fst c1))
    end
  else (c, Ok record).

Definition coordinator_observe_busy_parent (i : uuid) (parent : string) (c : Coordinator)
    : Coordinator * res ExecutionRecord :=
  let '(b, calls) := c in
  match observe_busy_parent i parent now b with
  | (b1, Err e) => ((b1, calls), Err e)
  | (b1, Ok r) =>
      then_interrupt (bool_decide (state r = CANCEL_PENDING) && owns_active_kernel_request r)
        i r (b1, calls)
  end.

Definition cancel (i : uuid) (c : Coordinator) : Coordinator * res ExecutionRecord :=
  let '(b, calls) := c in
  match request_cancel i now b with
  | (b1, Err e) => ((b1, calls), Err e)
  | (b1, Ok (r, should)) => then_interrupt should i r (b1, calls)
  end.

Definition timeout (i : uuid) (c : Coordinator) : Coordinator * res ExecutionRecord :=
  let '(b, calls) := c in
  match request_timeout i now b with
  | (b1, Err e) => ((b1, calls), Err e)
  | (b1, Ok (r, should)) => then_interrupt should i r (b1, calls)
  end.
End Coordinator.

(** ** The invariant of the broker *)
Definition in_flight (s : ExecutionState) : bool :=
  match s with DISPATCHED | RUNNING | CANCEL_PENDING | CANCELLING => true | _ => false end.

Definition keys (b : ExecutionBroker) : list uuid := map operation_id (records b).

(** The operations are distinct, the queue lists operations in the order of
    their arrival and misses none that is queued, and an execution is in
    flight exactly when it is the active one. *)
Record broker_inv (b : ExecutionBroker) : Prop := mkInv {
  inv_keys : NoDup (keys b);
  inv_queue : sublist (queue b) (keys b);
  inv_queued : forall r, In r (records b) -> state r = QUEUED -> In (operation_id r) (queue b);
  inv_flight : forall r, In r (records b) ->
                 (in_flight (state r) = true <-> active b = Some (operation_id r));
  inv_active : forall i, active b = Some i -> In i (keys b) }.

Lemma lookup_some b i r : lookup b i = Some r -> In r (records b) /\ operation_id r = i.
Proof.
  intros H. apply find_some in H as [Hin Hk]. unfold is_op in Hk. bool_to_prop. auto.
Qed.

Lemma keys_unique rs r x :
  NoDup (map operation_id rs) -> In r rs -> In x rs -> operation_id r = operation_id x -> r = x.
Proof.
  induction rs as [|y rs IH]; simpl; [easy|]. intros Hnd Hr Hx He.
  apply NoDup_cons in Hnd as [Hy Hnd].
  assert (Hnot : forall z, In z rs -> operation_id z <> operation_id y).
  { intros z Hz Heq. apply Hy. rewrite <- Heq. apply list_elem_of_In, in_map, Hz. }
  destruct Hr as [->|Hr], Hx as [->|Hx]; auto; exfalso;
    [apply (Hnot x)|apply (Hnot r)]; auto; congruence.
Qed.

Lemma find_is_op rs r :
  NoDup (map operation_id rs) -> In r rs -> List.find (is_op (operation_id r)) rs = Some r.
Proof.
  intros Hnd Hr. destruct (List.find _ _) as [x|] eqn:Hf.
  - apply find_some in Hf as [Hx Hk]. unfold is_op in Hk. bool_to_prop.
    f_equal. now apply (keys_unique rs).
  - rewrite find_none_iff in Hf. specialize (Hf r Hr). unfold is_op in Hf.
    now rewrite String.eqb_refl in Hf.
Qed.

Lemma lookup_In b r : broker_inv b -> In r (records b) -> lookup b (operation_id r) = Some r.
Proof. intros Hb. apply find_is_op, Hb. Qed.

Lemma new_broker_inv : broker_inv new_broker.
Proof. split; simpl; [constructor|constructor|easy|easy|easy]. Qed.

Lemma keys_put u b : map operation_id (records (put u b)) = keys b.
Proof.
  unfold keys, put. simpl. rewrite map_map. apply map_ext_in. intros x _.
  unfold is_op. destruct (operation_id x =? operation_id u)%string eqn:E; [|reflexivity].
  bool_to_prop. congruence.
Qed.

Lemma In_put u b x :
  In x (records (put u b)) -> x = u \/ In x (records b) /\ operation_id x <> operation_id u.
Proof.
  simpl. intros H. apply in_map_iff in H as (y & <- & Hy). unfold is_op.
  destruct (operation_id y =? operation_id u)%string eqn:E; [auto|]. bool_to_prop. auto.
Qed.

(** Replacing a record by one of the same key, without touching who is active. *)
Lemma put_inv b i r u :
  broker_inv b -> lookup b i = Some r -> operation_id u = i ->
  (state u = QUEUED -> state r = QUEUED) -> in_flight (state u) = in_flight (state r) ->
  broker_inv (put u b).
Proof.
  intros Hb Hl Hu Hq Hf. apply lookup_some in Hl as [Hr Hi]. split.
  - unfold keys. rewrite keys_put. apply Hb.
  - unfold keys. rewrite keys_put. apply Hb.
  - intros x Hx. apply In_put in Hx as [->|[Hx _]]; [|apply Hb; exact Hx].
    intros Hs. rewrite Hu, <- Hi. apply (inv_queued b Hb r Hr). auto.
  - intros x Hx. apply In_put in Hx as [->|[Hx _]]; [|apply Hb; exact Hx].
    rewrite Hf, Hu, <- Hi. exact (inv_flight b Hb r Hr).
  - intros j Hj. unfold keys. rewrite keys_put. exact (inv_active b Hb j Hj).
Qed.

Lemma on_record_inv {A} i (k : ExecutionRecord -> ExecutionBroker * res A) b :
  broker_inv b -> (forall r, lookup b i = Some r -> broker_inv (fst (k r))) ->
  broker_inv (fst (on_record i k b)).
Proof. unfold on_record. intros Hb Hk. destruct (lookup b i) eqn:Hl; [now apply Hk|exact Hb]. Qed.

Lemma enqueue_inv i s t now b :
  broker_inv b -> ~ In i (keys b) -> broker_inv (fst (enqueue i s t now b)).
Proof.
  intros Hb Hi. unfold enqueue. destruct (match t with Some t => t <=? 0 | None => false end); [exact Hb|].
  destruct (match t with Some t => rmap Some (dt_add now (seconds t)) | None => Ok None end); [|exact Hb].
  unfold keys in Hi. split; simpl; unfold keys; simpl; rewrite ?map_app; simpl.
  - apply NoDup_app. split; [apply Hb|split; [|apply NoDup_singleton]].
    intros x Hx Hx2. apply list_elem_of_singleton in Hx2 as ->. apply Hi. now apply list_elem_of_In.
  - apply sublist_app; [apply Hb|reflexivity].
  - intros r Hr Hs. apply in_app_iff in Hr as [Hr|[<-|[]]]; apply in_app_iff; [left|right; now left].
    now apply inv_queued.
  - intros r Hr. apply in_app_iff in Hr as [Hr|[<-|[]]]; [now apply inv_flight|]. simpl.
    split; [discriminate|]. intros Ha. apply (inv_active b Hb) in Ha. now apply Hi in Ha.
  - intros j Hj. apply in_app_iff. left. now apply (inv_active b Hb).
Qed.

(** Dropping settled heads keeps every queued operation. *)
Lemma drop_settled_queue rs q :
  sublist (fst (drop_settled rs q)) q
  /\ forall i r, In i q -> List.find (is_op i) rs = Some r -> state r = QUEUED ->
       In i (fst (drop_settled rs q)).
Proof.
  induction q as [|i q [IH1 IH2]]; simpl; [split; [constructor|easy]|].
  destruct (List.find (is_op i) rs) as [r|] eqn:Hf; [|split; [reflexivity|simpl; auto]].
  destruct (decide (state r = QUEUED)) as [Hq|Hq]; [split; [reflexivity|simpl; auto]|].
  split; [now constructor|]. intros j x [<-|Hj] Hx Hs; [congruence|eauto].
Qed.

Lemma with_queue_inv b q :
  broker_inv b -> sublist q (queue b) ->
  (forall r, In r (records b) -> state r = QUEUED -> In (operation_id r) q) ->
  broker_inv (with_queue q b).
Proof.
  intros Hb Hq Hin. split; simpl; try apply Hb; auto.
  etrans; [exact Hq|]. apply (inv_queue b Hb).
Qed.

Lemma next_queued_inv b : broker_inv b -> broker_inv (fst (next_queued b)).
Proof.
  intros Hb. unfold next_queued. destruct (_ || _); [exact Hb|].
  pose proof (drop_settled_queue (records b) (queue b)) as [Hs Hin].
  destruct (drop_settled (records b) (queue b)) as [q o]. simpl in *.
  apply with_queue_inv; [exact Hb|exact Hs|]. intros r Hr Hq.
  eapply Hin; [now apply inv_queued|exact (lookup_In b r Hb Hr)|exact Hq].
Qed.

(** The step by which a queued operation becomes the active one. *)
Lemma activate_inv b i r u :
  broker_inv b -> active b = None -> lookup b i = Some r -> operation_id u = i ->
  in_flight (state u) = true -> broker_inv (with_active (Some i) (put u b)).
Proof.
  intros Hb Ha Hl Hu Hf. apply lookup_some in Hl as [Hr Hi].
  assert (Hk : keys (with_active (Some i) (put u b)) = keys b) by apply keys_put. split; rewrite ?Hk.
  - apply Hb.
  - apply Hb.
  - intros x Hx. apply In_put in Hx as [->|[Hx _]]; [|exact (inv_queued b Hb x Hx)].
    intros Hs. rewrite Hs in Hf. discriminate.
  - intros x Hx. apply In_put in Hx as [->|[Hx Hne]]; [simpl; rewrite Hu; tauto|].
    pose proof (inv_flight b Hb x Hx) as [H1 _]. rewrite Ha in H1. split; [intros H; now apply H1 in H|].
    intros [= He]. congruence.
  - intros j [= <-]. rewrite <- Hi. now apply in_map.
Qed.

Lemma dispatch_inv i msg now b : broker_inv b -> broker_inv (fst (dispatch i msg now b)).
Proof.
  intros Hb. unfold dispatch. destruct (msg =? "")%string; [exact Hb|].
  destruct (active b) eqn:Ha; [exact Hb|]. cbn [is_some].
  destruct (is_some (kernel_busy_parent b)); [exact Hb|].
  apply on_record_inv; [exact Hb|]. intros r Hl. destruct (decide (state r <> QUEUED)) as [|Hq]; [exact Hb|].
  assert (Hop : operation_id (with_dispatch msg now r) = i) by (apply lookup_some in Hl; apply Hl).
  destruct (queue b) as [|h q] eqn:Hqu.
  - now apply (activate_inv b i r).
  - destruct (h =? i)%string eqn:Hh; [|exact Hb]. cbn [negb fst]. bool_to_prop. subst h.
    (* first activate, then drop the head, which is no longer queued *)
    pose proof (activate_inv b i r _ Hb Ha Hl Hop eq_refl) as Hact.
    change (with_active (Some i) (put (with_dispatch msg now r) (with_queue q b)))
      with (with_queue q (with_active (Some i) (put (with_dispatch msg now r) b))).
    apply with_queue_inv; [exact Hact|simpl; rewrite Hqu; now constructor|].
    intros x Hx Hs. pose proof (inv_queued _ Hact x Hx Hs) as Hin. simpl in Hin. rewrite Hqu in Hin.
    destruct Hin as [He|Hin]; [exfalso|exact Hin].
    assert (Hf : in_flight (state x) = true) by (apply (inv_flight _ Hact x Hx); simpl; congruence).
    rewrite Hs in Hf. discriminate.
Qed.

Lemma observe_busy_parent_inv i p now b :
  broker_inv b -> broker_inv (fst (observe_busy_parent i p now b)).
Proof.
  intros Hb. unfold observe_busy_parent.
  assert (Hb1 : broker_inv (with_busy (Some p) b)) by (split; apply Hb).
  apply on_record_inv; [exact Hb1|]. intros r Hl.
  assert (Hi : operation_id r = i) by (apply lookup_some in Hl; apply Hl).
  destruct (match jupyter_msg_id r with Some m => (m =? p)%string | None => false end);
    [destruct (state r) eqn:Hs|]; cbn [fst];
    (eapply put_inv; [exact Hb1|exact Hl|exact Hi|..]); simpl; rewrite ?Hs; auto; discriminate.
Qed.

Lemma request_outcome_inv o i now b :
  terminal o = true -> broker_inv b -> broker_inv (fst (request_outcome o i now b)).
Proof.
  intros Ho Hb. unfold request_outcome. apply on_record_inv; [exact Hb|]. intros r Hl.
  assert (Hi : operation_id r = i) by (apply lookup_some in Hl; apply Hl).
  destruct (terminal (state r)) eqn:Ht; [exact Hb|].
  destruct (decide (state r = QUEUED)) as [Hq|Hq]; cbn [fst];
    (eapply put_inv; [exact Hb|exact Hl|exact Hi|..]); simpl; auto; try discriminate.
  - rewrite Hq. now destruct o.
  - destruct (state r); simpl in *; congruence.
Qed.

Lemma mark_cancelling_inv i b : broker_inv b -> broker_inv (fst (mark_cancelling i b)).
Proof.
  intros Hb. unfold mark_cancelling. apply on_record_inv; [exact Hb|]. intros r Hl.
  assert (Hi : operation_id r = i) by (apply lookup_some in Hl; apply Hl).
  destruct (owns_active_kernel_request r) eqn:Ho; [|exact Hb]. cbn [negb fst].
  eapply put_inv; [exact Hb|exact Hl|exact Hi|discriminate|]. simpl.
  unfold owns_active_kernel_request in Ho. destruct (state r); auto;
    now rewrite andb_false_r in Ho.
Qed.

Lemma finish_inv i o now b : broker_inv b -> broker_inv (fst (finish i o now b)).
Proof.
  intros Hb. unfold finish. destruct (terminal o) eqn:Ho; [|exact Hb]. cbn [negb].
  apply on_record_inv; [exact Hb|]. intros r Hl.
  pose proof (lookup_some b i r Hl) as [Hr Hi].
  assert (Hno : in_flight o = false) by (destruct o; try discriminate Ho; reflexivity).
  set (u := with_state o (Some now) r). assert (Hu : operation_id u = i) by exact Hi.
  destruct (match active b with Some a => (a =? i)%string | None => false end) eqn:Ha; cbn [fst].
  - destruct (active b) as [a|] eqn:Hact; [|discriminate]. bool_to_prop. subst a.
    assert (Hk : keys (with_active None (put u b)) = keys b) by apply keys_put.
    split; rewrite ?Hk; [apply Hb|apply Hb|..|discriminate].
    + intros x Hx. apply In_put in Hx as [->|[Hx _]]; [|exact (inv_queued b Hb x Hx)].
      intros Hs. simpl in Hs. subst o. discriminate.
    + intros x Hx. apply In_put in Hx as [->|[Hx Hne]]; (split; [|discriminate]); intros H.
      * simpl in H. congruence.
      * apply (inv_flight b Hb x Hx) in H. congruence.
  - apply (put_inv b i r); [exact Hb|exact Hl|exact Hu|intros Hs; simpl in Hs; subst o; discriminate|].
    simpl. rewrite Hno. destruct (in_flight (state r)) eqn:Hf; [|reflexivity].
    apply (inv_flight b Hb r Hr) in Hf. rewrite Hf in Ha. rewrite Hi, String.eqb_refl in Ha. discriminate.
Qed.

Lemma expire_inv cur now b : broker_inv b -> broker_inv (fst (expire cur now b)).
Proof.
  unfold expire. generalize (map operation_id (records b)) as ids. intros ids. revert b.
  induction ids as [|i ids IH]; intros b Hb; simpl; [exact Hb|].
  apply on_record_inv; [exact Hb|]. intros r Hl. destruct (overdue cur r); [|now apply IH].
  pose proof (request_outcome_inv TIMEOUT i now b eq_refl Hb) as H1.
  change (request_outcome TIMEOUT i now b) with (request_timeout i now b) in H1.
  destruct (request_timeout i now b) as [b1 [x|e]]; [|exact H1].
  specialize (IH b1 H1). now destruct (expire_loop ids cur now b1).
Qed.

Lemma finish_all_inv ids now b : broker_inv b -> broker_inv (fst (finish_all ids now b)).
Proof.
  revert b. induction ids as [|i ids IH]; intros b Hb; simpl; [exact Hb|].
  pose proof (finish_inv i CANCELLED now b Hb) as H1.
  destruct (finish i CANCELLED now b) as [b1 [x|e]]; [|exact H1].
  specialize (IH b1 H1). now destruct (finish_all ids now b1).
Qed.

(** ** Reachable states: any interleaving of the methods

    Each method runs under the lock, so a run of the broker is a sequence of
    method calls; the id of a new operation is fresh ([uuid4]). *)
Inductive broker_step (b : ExecutionBroker) : ExecutionBroker -> Prop :=
| step_enqueue i s t now :
    ~ In i (keys b) -> broker_step b (fst (enqueue i s t now b))
| step_next_queued : broker_step b (fst (next_queued b))
| step_dispatch i msg now : broker_step b (fst (dispatch i msg now b))
| step_observe i p now : broker_step b (fst (observe_busy_parent i p now b))
| step_kernel_busy p : broker_step b (observe_kernel_busy p b)
| step_kernel_idle : broker_step b (observe_kernel_idle b)
| step_cancel i now : broker_step b (fst (request_cancel i now b))
| step_timeout i now : broker_step b (fst (request_timeout i now b))
| step_mark i : broker_step b (fst (mark_cancelling i b))
| step_expire cur now : broker_step b (fst (expire cur now b))
| step_finish i o now : broker_step b (fst (finish i o now b))
| step_invalidate s now : broker_step b (fst (broker_invalidate_session s now b)).

Definition reachable (b : ExecutionBroker) : Prop := rtc broker_step new_broker b.

Lemma step_inv b b' : broker_step b b' -> broker_inv b -> broker_inv b'.
Proof.
  intros Hs Hb. destruct Hs.
  - now apply enqueue_inv.
  - now apply next_queued_inv.
  - now apply dispatch_inv.
  - now apply observe_busy_parent_inv.
  - split; apply Hb.
  - split; apply Hb.
  - now apply request_outcome_inv.
  - now apply request_outcome_inv.
  - now apply mark_cancelling_inv.
  - now apply expire_inv.
  - now apply finish_inv.
  - now apply finish_all_inv.
Qed.

Lemma reachable_inv b : reachable b -> broker_inv b.
Proof.
  intros Hr. unfold reachable in Hr. remember new_broker as b0 eqn:H0.
  assert (Hb : broker_inv b0) by (subst; apply new_broker_inv). clear H0.
  induction Hr as [|x y z Hxy _ IH]; [exact Hb|]. apply IH. exact (step_inv _ _ Hxy Hb).
Qed.

(** ** [next_queued] is first in, first out *)
Definition is_queued (r : ExecutionRecord) : bool := bool_decide (state r = QUEUED).

Lemma drop_settled_fifo pre suf q :
  NoDup (map operation_id (pre ++ suf)) ->
  (forall r, In r pre -> is_queued r = false) ->
  sublist q (map operation_id suf) ->
  (forall r, In r suf -> state r = QUEUED -> In (operation_id r) q) ->
  snd (drop_settled (pre ++ suf) q) = Ok (List.find is_queued (pre ++ suf)).
Proof.
  revert pre q. induction suf as [|r suf IH]; intros pre q Hnd Hpre Hsub Hin.
  - apply sublist_nil_r in Hsub as ->. simpl. f_equal. symmetry. apply find_none_iff.
    intros x Hx. rewrite app_nil_r in Hx. auto.
  - assert (Happ : pre ++ r :: suf = (pre ++ [r]) ++ suf) by now rewrite <- app_assoc.
    assert (Hnext : is_queued r = false -> forall x, In x (pre ++ [r]) -> is_queued x = false).
    { intros Hr x Hx. apply in_app_iff in Hx as [Hx|[<-|[]]]; auto. }
    simpl in Hsub. apply sublist_cons_r in Hsub as [Hsub|(q' & -> & Hsub)].
    + assert (Hr : is_queued r = false).
      { apply bool_decide_eq_false_2. intros Hq.
        specialize (Hin r (or_introl eq_refl) Hq).
        rewrite map_app in Hnd. apply NoDup_app in Hnd as (_ & _ & Hnd). simpl in Hnd.
        apply NoDup_cons in Hnd as [Hno _]. apply Hno.
        eapply elem_of_sublist; [|exact Hsub]. now apply list_elem_of_In. }
      rewrite Happ in *. apply IH; auto. intros x Hx. apply Hin. now right.
    + cbn [drop_settled].
      rewrite find_is_op; [|exact Hnd|apply in_app_iff; right; now left].
      destruct (decide (state r = QUEUED)) as [Hq|Hq].
      * simpl. f_equal. rewrite find_app, (proj2 (find_none_iff _ _)) by exact Hpre.
        simpl. unfold is_queued. now rewrite bool_decide_eq_true_2.
      * assert (Hr : is_queued r = false) by now apply bool_decide_eq_false_2.
        rewrite Happ in *. apply IH; auto. intros x Hx Hs.
        destruct (Hin x (or_intror Hx) Hs) as [He|]; [exfalso|assumption].
        assert (x = r) as ->; [|congruence].
        apply (keys_unique ((pre ++ [r]) ++ suf)); auto; apply in_app_iff;
          [now right|left; apply in_app_iff; right; now left].
Qed.

(** C28: executions are serialised.  In every state that any interleaving of
    the methods reaches, at most one execution is in flight (dispatched,
    running, or being cancelled), and it is the one the broker calls active. *)
Theorem broker_serialises (b : ExecutionBroker) (r x : ExecutionRecord) :
  reachable b -> In r (records b) -> In x (records b) ->
  in_flight (state r) = true ->
  active b = Some (operation_id r) /\ (in_flight (state x) = true -> x = r).
Proof.
  intros Hr Hin Hx Hf. apply reachable_inv in Hr.
  pose proof (proj1 (inv_flight b Hr r Hin) Hf) as Ha. split; [exact Ha|].
  intros Hfx. pose proof (proj1 (inv_flight b Hr x Hx) Hfx) as Hax.
  apply (keys_unique (records b)); [apply Hr|exact Hx|exact Hin|congruence].
Qed.

(** The queue is first in, first out.  In every reachable state
    [next_queued] answers (it never raises): nothing while an execution is
    active or the kernel is busy, otherwise the operation that was enqueued
    first among those still queued, whatever was cancelled in between. *)
Theorem next_queued_fifo (b : ExecutionBroker) :
  reachable b ->
  snd (next_queued b)
  = Ok (if is_some (active b) || is_some (kernel_busy_parent b) then None
        else List.find is_queued (records b)).
Proof.
  intros Hr. apply reachable_inv in Hr. unfold next_queued.
  destruct (_ || _); [reflexivity|].
  pose proof (drop_settled_fifo [] (records b) (queue b) (inv_keys b Hr) ltac:(easy)
                (inv_queue b Hr) (inv_queued b Hr)) as Hd.
  simpl in Hd. now destruct (drop_settled (records b) (queue b)).
Qed.

(** ** Progress of the executions *)
Lemma lookup_put u b j :
  lookup (put u b) j
  = if (j =? operation_id u)%string then option_map (fun _ => u) (lookup b j) else lookup b j.
Proof.
  unfold lookup, put. simpl. induction (records b) as [|x rs IH]; simpl;
    [now destruct (j =? operation_id u)%string|].
  rewrite IH. unfold is_op.
  destruct (operation_id x =? operation_id u)%string eqn:Hx, (j =? operation_id u)%string eqn:Hj;
    bool_to_prop; subst.
  - now rewrite String.eqb_refl, Hx, String.eqb_refl.
  - rewrite Hx. rewrite !(proj2 (String.eqb_neq _ _)) by congruence. reflexivity.
  - now rewrite !(proj2 (String.eqb_neq _ _)) by congruence.
  - reflexivity.
Qed.

(** How far an execution has come. *)
Definition phase (s : ExecutionState) : Z :=
  match s with
  | QUEUED => 0
  | DISPATCHED => 1
  | RUNNING => 2
  | CANCEL_PENDING | CANCELLING => 3
  | COMPLETED | FAILED | TIMEOUT | CANCELLED => 4
  end.

(** The same execution, no earlier in its life. *)
Record later (r r' : ExecutionRecord) : Prop := mkLater {
  later_op : operation_id r' = operation_id r;
  later_session : session_id r' = session_id r;
  later_queued : queued_at r' = queued_at r;
  later_deadline : deadline_at r' = deadline_at r;
  later_phase : phase (state r) <= phase (state r') }.

Definition advances (b b' : ExecutionBroker) : Prop :=
  forall i r, lookup b i = Some r -> exists r', lookup b' i = Some r' /\ later r r'.

#[export] Instance later_preorder : PreOrder later.
Proof.
  split.
  - intros r. split; reflexivity.
  - intros x y z [] []. split; try congruence. lia.
Qed.

#[export] Instance advances_preorder : PreOrder advances.
Proof.
  split.
  - intros b i r Hr. exists r. split; [exact Hr|reflexivity].
  - intros x y z Hxy Hyz i r Hr. destruct (Hxy i r Hr) as (r' & Hr' & H1).
    destruct (Hyz i r' Hr') as (r2 & Hr2 & H2). exists r2. split; [exact Hr2|etrans; eassumption].
Qed.

Lemma advances_same b b' : records b' = records b -> advances b b'.
Proof. intros He i r Hr. exists r. unfold lookup in *. rewrite He. split; [exact Hr|reflexivity]. Qed.

Lemma put_advances b i r u : lookup b i = Some r -> later r u -> advances b (put u b).
Proof.
  intros Hl Hu j x Hx. rewrite lookup_put. pose proof (lookup_some b i r Hl) as [_ Hi].
  destruct (j =? operation_id u)%string eqn:Hj; [|exists x; split; [exact Hx|reflexivity]].
  bool_to_prop. rewrite Hx. exists u. split; [reflexivity|].
  assert (j = i) as -> by (rewrite Hj, (later_op _ _ Hu); exact Hi). congruence.
Qed.

Lemma on_record_advances {A} i (k : ExecutionRecord -> ExecutionBroker * res A) b b0 :
  advances b0 b -> (forall r, lookup b i = Some r -> advances b0 (fst (k r))) ->
  advances b0 (fst (on_record i k b)).
Proof. unfold on_record. intros Hb Hk. destruct (lookup b i) eqn:Hl; [now apply Hk|exact Hb]. Qed.

Lemma request_outcome_advances o i now b :
  terminal o = true -> advances b (fst (request_outcome o i now b)).
Proof.
  intros Ho. apply on_record_advances; [reflexivity|]. intros r Hl.
  destruct (terminal (state r)) eqn:Ht; [reflexivity|].
  destruct (decide (state r = QUEUED)) as [Hq|Hq]; cbn [fst];
    apply (put_advances b i r _ Hl); split; try reflexivity; simpl.
  - rewrite Hq. now destruct o.
  - destruct (state r); simpl; try lia; discriminate.
Qed.

Lemma finish_advances i o now b : advances b (fst (finish i o now b)).
Proof.
  unfold finish. destruct (terminal o) eqn:Ho; [|reflexivity]. cbn [negb].
  apply on_record_advances; [reflexivity|]. intros r Hl.
  assert (Hput : advances b (put (with_state o (Some now) r) b)).
  { apply (put_advances b i r _ Hl). split; try reflexivity. simpl.
    destruct o; try discriminate Ho; destruct (state r); simpl; lia. }
  destruct (match active b with Some a => _ | None => _ end); [|exact Hput].
  etrans; [exact Hput|now apply advances_same].
Qed.

Lemma finish_all_advances ids now b : advances b (fst (finish_all ids now b)).
Proof.
  revert b. induction ids as [|i ids IH]; intros b; simpl; [reflexivity|].
  pose proof (finish_advances i CANCELLED now b) as H1.
  destruct (finish i CANCELLED now b) as [b1 [x|e]]; [|exact H1].
  specialize (IH b1). destruct (finish_all ids now b1). simpl in *. etrans; eassumption.
Qed.

Lemma expire_loop_advances ids cur now b : advances b (fst (expire_loop ids cur now b)).
Proof.
  revert b. induction ids as [|i ids IH]; intros b; simpl; [reflexivity|].
  apply on_record_advances; [reflexivity|]. intros r Hl. destruct (overdue cur r); [|apply IH].
  pose proof (request_outcome_advances TIMEOUT i now b eq_refl) as H1.
  change (request_outcome TIMEOUT i now b) with (request_timeout i now b) in H1.
  destruct (request_timeout i now b) as [b1 [x|e]]; [|exact H1].
  specialize (IH b1). destruct (expire_loop ids cur now b1). simpl in *. etrans; eassumption.
Qed.

Lemma step_advances b b' : broker_step b b' -> advances b b'.
Proof.
  intros Hs. destruct Hs as [i s t now Hi| |i msg now|i p now| | |i now|i now|i| |i o now|s now].
  - unfold enqueue. destruct (match t with Some t => _ | None => _ end); [reflexivity|].
    destruct (match t with Some t => _ | None => _ end); [|reflexivity].
    intros j r Hr. exists r. split; [|reflexivity]. unfold lookup in *. simpl. now rewrite find_app, Hr.
  - unfold next_queued. destruct (_ || _); [reflexivity|].
    destruct (drop_settled _ _). now apply advances_same.
  - unfold dispatch. destruct (msg =? "")%string; [reflexivity|].
    destruct (is_some (active b)); [reflexivity|]. destruct (is_some (kernel_busy_parent b)); [reflexivity|].
    apply on_record_advances; [reflexivity|]. intros r Hl.
    destruct (decide (state r <> QUEUED)) as [|Hq]; [reflexivity|].
    assert (Hput : advances b (put (with_dispatch msg now r) b)).
    { apply (put_advances b i r _ Hl). split; try reflexivity. destruct (state r); simpl; try lia;
        exfalso; apply Hq; discriminate. }
    destruct (queue b) as [|h q]; [|destruct (negb _); [reflexivity|]];
      (etrans; [exact Hput|now apply advances_same]).
  - apply on_record_advances; [now apply advances_same|]. intros r Hl.
    etrans; [apply (advances_same b (with_busy (Some p) b)); reflexivity|].
    destruct (match jupyter_msg_id r with Some m => _ | None => _ end);
      [destruct (state r) eqn:Hs|]; cbn [fst];
      apply (put_advances _ i r _ Hl); split; simpl; rewrite ?Hs; simpl; lia || reflexivity.
  - now apply advances_same.
  - now apply advances_same.
  - now apply request_outcome_advances.
  - now apply request_outcome_advances.
  - apply on_record_advances; [reflexivity|]. intros r Hl.
    destruct (owns_active_kernel_request r) eqn:Ho; [|reflexivity]. cbn [negb fst].
    apply (put_advances b i r _ Hl). split; try reflexivity.
    unfold owns_active_kernel_request in Ho. destruct (state r); simpl; try lia;
      rewrite andb_false_r in Ho; discriminate.
  - apply expire_loop_advances.
  - apply finish_advances.
  - apply finish_all_advances.
Qed.

Lemma steps_advance b b' : rtc broker_step b b' -> advances b b'.
Proof.
  induction 1 as [|x y z Hxy _ IH]; [reflexivity|].
  etrans; [exact (step_advances _ _ Hxy)|exact IH].
Qed.

(** Executions only move forward.  Whatever the methods are called in
    between, an execution is never lost, keeps its identity, session and
    deadline, and never goes back to an earlier phase: in particular one that
    was dispatched is never queued again and one that ended stays ended. *)
Theorem executions_move_forward (b b' : ExecutionBroker) (i : uuid) (r : ExecutionRecord) :
  rtc broker_step b b' -> lookup b i = Some r ->
  exists r', lookup b' i = Some r' /\ later r r'
    /\ (terminal (state r) = true -> terminal (state r') = true).
Proof.
  intros Hs Hr.
  pose proof (steps_advance b b' Hs) as Ha.
  destruct (Ha i r Hr) as (r' & Hr' & Hlater). exists r'. split; [exact Hr'|]. split; [exact Hlater|].
  destruct Hlater as [_ _ _ _ Hp]. intros Ht. destruct (state r), (state r'); simpl in *; congruence || lia.
Qed.

(** ** Dispatching makes progress *)
Lemma drop_settled_head rs q r :
  snd (drop_settled rs q) = Ok (Some r) ->
  state r = QUEUED /\ exists q', fst (drop_settled rs q) = operation_id r :: q'
    /\ List.find (is_op (operation_id r)) rs = Some r.
Proof.
  induction q as [|i q IH]; simpl; [discriminate|].
  destruct (List.find (is_op i) rs) as [x|] eqn:Hf; [|discriminate].
  destruct (decide (state x = QUEUED)) as [Hq|Hq]; [|exact IH].
  intros [= ->]. pose proof (find_some _ _ Hf) as [_ Hi]. unfold is_op in Hi. bool_to_prop.
  subst i. split; [exact Hq|]. eauto.
Qed.

Lemma next_queued_head b r :
  broker_inv b -> active b = None -> kernel_busy_parent b = None ->
  List.find is_queued (records b) = Some r ->
  exists q, next_queued b = (with_queue (operation_id r :: q) b, Ok (Some r))
    /\ lookup b (operation_id r) = Some r /\ state r = QUEUED.
Proof.
  intros Hb Ha Hk Hf. unfold next_queued. rewrite Ha, Hk. cbn [is_some orb].
  pose proof (drop_settled_fifo [] (records b) (queue b) (inv_keys b Hb) ltac:(easy)
                (inv_queue b Hb) (inv_queued b Hb)) as Hd.
  simpl app in Hd. rewrite Hf in Hd. pose proof (drop_settled_head _ _ _ Hd) as (Hq & q & Hfst & Hl).
  destruct (drop_settled (records b) (queue b)) as [q0 o]. simpl in *. subst. eauto.
Qed.

(** Dispatching makes progress.  In a reachable state where nothing runs
    and the kernel is idle, if some operation is queued then [dispatch_next]
    sends exactly one request to the kernel and, when the kernel answers with
    a message id, marks the first queued operation as dispatched and active. *)
Theorem dispatch_next_progress (k : Kernel) (now : Z) (b : ExecutionBroker)
    (calls : list kernel_call) (r : ExecutionRecord) (msg : string) :
  reachable b -> active b = None -> kernel_busy_parent b = None ->
  List.find is_queued (records b) = Some r ->
  k_dispatch k = Ok msg -> msg <> ""%string ->
  exists b', dispatch_next k now (b, calls)
             = ((b', calls ++ [KDispatch]), Ok (Some (with_dispatch msg now r)))
    /\ active b' = Some (operation_id r)
    /\ lookup b' (operation_id r) = Some (with_dispatch msg now r).
Proof.
  intros Hr Ha Hk Hf Hm Hne. apply reachable_inv in Hr.
  destruct (next_queued_head b r Hr Ha Hk Hf) as (q & Hn & Hl & Hq).
  unfold dispatch_next. rewrite Hn, Hm. unfold dispatch. cbn [with_queue active queue kernel_busy_parent].
  rewrite (proj2 (String.eqb_neq msg "") Hne), Ha, Hk. cbn [is_some]. unfold on_record.
  change (lookup (with_queue (operation_id r :: q) b) (operation_id r)) with (lookup b (operation_id r)).
  rewrite Hl. destruct (decide (state r <> QUEUED)) as [Hno|_]; [now destruct Hno|].
  rewrite String.eqb_refl. cbn [negb rmap rbind]. eexists. split; [reflexivity|]. split; [reflexivity|].
  change (lookup (with_active ?a ?x) ?i) with (lookup x i). rewrite lookup_put. simpl.
  rewrite String.eqb_refl. change (lookup (with_queue _ (with_queue _ b)) ?i) with (lookup b i).
  now rewrite Hl.
Qed.

(** ** Deadlines and session ends *)
Definition timed_out (now : Z) (r : ExecutionRecord) : ExecutionRecord :=
  if decide (state r = QUEUED) then with_request TIMEOUT TIMEOUT now (Some now) r
  else with_request CANCEL_PENDING TIMEOUT now (finished_at r) r.

Lemma request_timeout_result i now b r :
  lookup b i = Some r -> terminal (state r) = false ->
  exists x, request_timeout i now b = (put (timed_out now r) b, Ok x).
Proof.
  intros Hl Ht. unfold request_timeout, request_outcome, on_record, timed_out. rewrite Hl, Ht.
  destruct (decide (state r = QUEUED)); eauto.
Qed.

Lemma expire_loop_spec cur now ids b :
  NoDup ids -> (forall i, In i ids -> exists r, lookup b i = Some r) ->
  exists b' l, expire_loop ids cur now b = (b', Ok l) /\ active b' = active b
    /\ forall j, lookup b' j
         = option_map (fun r => if existsb (String.eqb j) ids && overdue cur r then timed_out now r else r)
             (lookup b j).
Proof.
  revert b. induction ids as [|i ids IH]; intros b Hnd Hin.
  - exists b, []. split; [reflexivity|]. split; [reflexivity|]. intros j. simpl. now destruct (lookup b j).
  - apply NoDup_cons in Hnd as [Hi Hnd]. cbn [expire_loop]. unfold on_record.
    destruct (Hin i (or_introl eq_refl)) as (r & Hr). rewrite Hr.
    assert (Hni : existsb (String.eqb i) ids = false).
    { apply not_true_iff_false. intros He. apply existsb_exists in He as (x & Hx & He).
      apply String.eqb_eq in He. subst x. apply Hi. now apply list_elem_of_In. }
    pose proof (lookup_some b i r Hr) as [_ Hop].
    destruct (overdue cur r) eqn:Ho.
    + assert (Ht : terminal (state r) = false).
      { unfold overdue in Ho. destruct (deadline_at r); [|discriminate]. now bool_to_prop. }
      destruct (request_timeout_result i now b r Hr Ht) as (x & ->).
      assert (Htop : operation_id (timed_out now r) = i)
        by (unfold timed_out; destruct (decide _); exact Hop).
      destruct (IH (put (timed_out now r) b) Hnd) as (b' & l & He & Ha & Hl).
      { intros j Hj. destruct (Hin j (or_intror Hj)) as (y & Hy). rewrite lookup_put, Hy.
        destruct (j =? _)%string; simpl; eauto. }
      rewrite He. exists b', (x :: l). split; [reflexivity|]. split; [exact Ha|].
      intros j. rewrite Hl, lookup_put, Htop. cbn [existsb].
      destruct (j =? i)%string eqn:Hji; [|reflexivity]. bool_to_prop. subst j.
      rewrite Hr. simpl. rewrite Hni, Ho. reflexivity.
    + destruct (IH b Hnd) as (b' & l & He & Ha & Hl); [intros j Hj; apply Hin; now right|].
      rewrite He. exists b', l. split; [reflexivity|]. split; [exact Ha|].
      intros j. rewrite Hl. cbn [existsb].
      destruct (j =? i)%string eqn:Hji; [|reflexivity]. bool_to_prop. subst j.
      rewrite Hr. simpl. now rewrite Hni, Ho.
Qed.

(** [expire] misses no deadline.  In a reachable state it never raises;
    afterwards every execution whose deadline has passed and that had not
    ended is timed out (when it was queued) or has a cancellation with outcome
    TIMEOUT pending, and every other execution is untouched. *)
Theorem expire_complete (cur now : Z) (b : ExecutionBroker) :
  reachable b ->
  exists b' l, expire cur now b = (b', Ok l) /\ active b' = active b
    /\ forall i, lookup b' i
         = option_map (fun r => if overdue cur r then timed_out now r else r) (lookup b i).
Proof.
  intros Hr. apply reachable_inv in Hr. unfold expire.
  destruct (expire_loop_spec cur now (map operation_id (records b)) b (inv_keys b Hr))
    as (b' & l & He & Ha & Hl).
  - intros i Hi. apply in_map_iff in Hi as (r & <- & Hin). exists r. now apply lookup_In.
  - exists b', l. split; [exact He|]. split; [exact Ha|]. intros i. rewrite Hl.
    destruct (lookup b i) as [r|] eqn:Hi; [|reflexivity]. simpl.
    enough (existsb (String.eqb i) (map operation_id (records b)) = true) as -> by reflexivity.
    apply lookup_some in Hi as [Hin <-]. apply existsb_exists. exists (operation_id r).
    split; [now apply in_map|apply String.eqb_refl].
Qed.

(** ** Cancellation through the coordinator *)

(** The operation's own request was the last one seen busy for it. *)
Definition owns_request (r : ExecutionRecord) : bool :=
  owns_active_kernel_request (with_state RUNNING None r).

Definition cancelling (now : Z) (r : ExecutionRecord) : ExecutionRecord :=
  with_request CANCEL_PENDING CANCELLED now (finished_at r) r.

Definition cancelled_by_interrupt (now : Z) (r : ExecutionRecord) : ExecutionRecord :=
  with_state CANCELLED (Some now) (with_state CANCELLING (finished_at r) (cancelling now r)).

Lemma lookup_put_self b i r u : lookup b i = Some r -> operation_id u = i -> lookup (put u b) i = Some u.
Proof. intros Hl Hu. rewrite lookup_put, Hu, String.eqb_refl, Hl. reflexivity. Qed.

Lemma interrupt_owned_ok k now i b calls r idle :
  lookup b i = Some r -> owns_active_kernel_request r = true -> active b = Some i ->
  requested_outcome r = Some CANCELLED ->
  k_interrupt k = Ok tt -> k_wait_for_idle k = Some (Ok idle) -> k_restart k = Ok tt ->
  exists b', interrupt_owned k now i (b, calls)
             = ((b', calls ++ [KInterrupt; KWaitForIdle] ++ if idle then [] else [KRestart]), Ok tt)
    /\ active b' = None
    /\ lookup b' i = Some (with_state CANCELLED (Some now) (with_state CANCELLING (finished_at r) r)).
Proof.
  intros Hl Ho Ha Hout Hi Hw Hre. pose proof (lookup_some b i r Hl) as [_ Hop].
  unfold interrupt_owned, mark_cancelling, on_record. rewrite Hl, Ho, Hi, Hw, Hre. cbn [negb].
  unfold finish at 1 2. cbn [requested_outcome with_state]. rewrite Hout. cbn [terminal negb].
  set (c := with_state CANCELLING (finished_at r) r).
  assert (Hc : lookup (put c b) i = Some c) by (apply (lookup_put_self b i r); [exact Hl|exact Hop]).
  unfold on_record. rewrite Hc. cbn [put active]. rewrite Ha, String.eqb_refl.
  set (u := with_state CANCELLED (Some now) c).
  assert (Hu : lookup (with_active None (put u (put c b))) i = Some u).
  { change (lookup (with_active None ?x) i) with (lookup x i).
    apply (lookup_put_self _ i c); [exact Hc|exact Hop]. }
  destruct idle; cbn [rmap rbind]; rewrite <- ?app_assoc; eauto.
Qed.

(** Cancelling.  In a reachable state, cancelling an execution that ended
    does nothing; a queued one is cancelled on the spot; one in flight whose
    request is not the one the kernel was last seen busy with only becomes
    pending, and the kernel is not interrupted; one that owns the kernel is
    interrupted exactly once, the kernel is restarted only if it stays busy
    past the grace period, and the execution ends CANCELLED with nothing
    active. *)
Theorem cancel_effect (k : Kernel) (now : Z) (i : uuid) (b : ExecutionBroker)
    (calls : list kernel_call) (r : ExecutionRecord) (idle : bool) :
  reachable b -> lookup b i = Some r ->
  k_interrupt k = Ok tt -> k_wait_for_idle k = Some (Ok idle) -> k_restart k = Ok tt ->
  if terminal (state r) then cancel k now i (b, calls) = ((b, calls), Ok r)
  else if bool_decide (state r = QUEUED) then
    let u := with_request CANCELLED CANCELLED now (Some now) r in
    cancel k now i (b, calls) = ((put u b, calls), Ok u)
  else if owns_request r then
    exists b', cancel k now i (b, calls)
               = ((b', calls ++ [KInterrupt; KWaitForIdle] ++ if idle then [] else [KRestart]),
                  Ok (cancelled_by_interrupt now r))
      /\ active b' = None
      /\ lookup b' i = Some (cancelled_by_interrupt now r)
  else cancel k now i (b, calls) = ((put (cancelling now r) b, calls), Ok (cancelling now r)).
Proof.
  intros Hr Hl Hi Hw Hre. apply reachable_inv in Hr. pose proof (lookup_some b i r Hl) as [Hin Hop].
  unfold cancel, request_cancel, request_outcome, on_record. rewrite Hl.
  destruct (terminal (state r)) eqn:Ht; [reflexivity|].
  destruct (decide (state r = QUEUED)) as [Hq|Hq];
    [rewrite bool_decide_eq_true_2 by exact Hq; reflexivity|rewrite bool_decide_eq_false_2 by exact Hq].
  change (owns_active_kernel_request (with_request CANCEL_PENDING CANCELLED now (finished_at r) r))
    with (owns_request r).
  fold (cancelling now r). unfold then_interrupt. destruct (owns_request r) eqn:Ho; [|reflexivity].
  assert (Hc : lookup (put (cancelling now r) b) i = Some (cancelling now r))
    by (apply (lookup_put_self b i r); [exact Hl|exact Hop]).
  assert (Ha : active b = Some i).
  { rewrite <- Hop. apply (inv_flight b Hr r Hin). destruct (state r); try reflexivity; try discriminate.
    now destruct Hq. }
  destruct (interrupt_owned_ok k now i (put (cancelling now r) b) calls (cancelling now r) idle
              Hc Ho Ha eq_refl Hi Hw Hre) as (b' & He & Ha' & Hl').
  exists b'. rewrite He. cbn [fst]. unfold broker_get. rewrite Hl'. auto.
Qed.

(** What the broker does not know: an execution that was seen busy keeps its
    claim after the kernel went idle and turned to another request, so
    cancelling it asks for an interrupt that hits that other request. *)
Lemma stale_claim_interrupts_other :
  exists b i r, reachable b /\ lookup b i = Some r
    /\ jupyter_msg_id r = Some "own"%string /\ kernel_busy_parent b = Some "other"%string
    /\ exists r', snd (request_cancel i 5 b) = Ok (r', true).
Proof.
  set (b1 := fst (enqueue "op" "se" None 1 new_broker)).
  set (b2 := fst (dispatch "op" "own" 2 b1)).
  set (b3 := fst (observe_busy_parent "op" "own" 3 b2)).
  set (b4 := observe_kernel_idle b3). set (b5 := observe_kernel_busy "other" b4).
  assert (Hr : reachable b5).
  { unfold reachable. eapply rtc_l; [apply (step_enqueue new_broker "op" "se" None 1); now intros []|].
    eapply rtc_l; [apply (step_dispatch b1 "op" "own" 2)|].
    eapply rtc_l; [apply (step_observe b2 "op" "own" 3)|].
    eapply rtc_l; [apply (step_kernel_idle b3)|]. apply rtc_once. apply (step_kernel_busy b4 "other"). }
  destruct (lookup b5 "op") as [r|] eqn:Hl; [|discriminate].
  exists b5, "op"%string, r. split; [exact Hr|]. split; [exact Hl|].
  vm_compute in Hl. injection Hl as <-. repeat split. eexists. vm_compute. reflexivity.
Qed.

(** ** Witnesses *)
Definition queued_broker : ExecutionBroker :=
  fst (enqueue "op-2" "se" None 2 (fst (enqueue "op-1" "se" (Some 60) 1 new_broker))).

Definition running_broker : ExecutionBroker :=
  fst (observe_busy_parent "op-1" "msg" 4 (fst (dispatch "op-1" "msg" 3 queued_broker))).

Lemma queued_broker_reachable : reachable queued_broker.
Proof.
  unfold reachable. eapply rtc_l; [apply (step_enqueue new_broker "op-1" "se" (Some 60) 1); now intros []|].
  apply rtc_once, (step_enqueue _ "op-2" "se" None 2). intros [H|[]]. discriminate.
Qed.

Lemma running_broker_reachable : reachable running_broker.
Proof.
  unfold reachable. eapply rtc_r; [eapply rtc_r; [exact queued_broker_reachable|]|].
  - apply (step_dispatch queued_broker "op-1" "msg" 3).
  - apply (step_observe (fst (dispatch "op-1" "msg" 3 queued_broker)) "op-1" "msg" 4).
Qed.

Definition op_record (b : ExecutionBroker) (i : uuid) : ExecutionRecord :=
  match lookup b i with Some r => r
  | None => mkExecution "" "" QUEUED 0 None None None None None None None None end.

Lemma broker_serialises_witness :
  active running_broker = Some "op-1"%string
  /\ (in_flight (state (op_record running_broker "op-2")) = true ->
      op_record running_broker "op-2" = op_record running_broker "op-1").
Proof.
  refine (broker_serialises running_broker (op_record running_broker "op-1")
            (op_record running_broker "op-2") running_broker_reachable _ _ eq_refl);
    vm_compute; auto.
Defined.

Lemma next_queued_fifo_witness :
  snd (next_queued (fst (request_cancel "op-1" 3 queued_broker)))
  = Ok (Some (op_record queued_broker "op-2")).
Proof.
  rewrite (next_queued_fifo (fst (request_cancel "op-1" 3 queued_broker))); [reflexivity|].
  eapply rtc_r; [exact queued_broker_reachable|apply step_cancel].
Defined.

Lemma executions_move_forward_witness :
  exists r', lookup running_broker "op-1" = Some r'
    /\ later (op_record queued_broker "op-1") r'
    /\ (terminal (state (op_record queued_broker "op-1")) = true -> terminal (state r') = true).
Proof.
  refine (executions_move_forward queued_broker running_broker "op-1" _ _ eq_refl).
  eapply rtc_l; [apply (step_dispatch queued_broker "op-1" "msg" 3)|].
  apply rtc_once, (step_observe (fst (dispatch "op-1" "msg" 3 queued_broker)) "op-1" "msg" 4).
Defined.

Definition sample_kernel (idle : bool) : Kernel :=
  mkKernel (Ok "msg"%string) (Ok tt) (Some (Ok idle)) (Ok tt).

Lemma dispatch_next_progress_witness :
  exists b', dispatch_next (sample_kernel true) 3 (queued_broker, [])
             = ((b', [KDispatch]), Ok (Some (with_dispatch "msg" 3 (op_record queued_broker "op-1"))))
    /\ active b' = Some "op-1"%string.
Proof.
  destruct (dispatch_next_progress (sample_kernel true) 3 queued_broker []
              (op_record queued_broker "op-1") "msg" queued_broker_reachable eq_refl eq_refl eq_refl
              eq_refl ltac:(discriminate)) as (b' & Hd & Ha & _).
  exists b'. split; [exact Hd|exact Ha].
Defined.

Lemma expire_complete_witness :
  exists b' l, expire (seconds 61) 9 running_broker = (b', Ok l)
    /\ lookup b' "op-1" = Some (timed_out 9 (op_record running_broker "op-1")).
Proof.
  destruct (expire_complete (seconds 61) 9 running_broker running_broker_reachable)
    as (b' & l & He & _ & Hl).
  exists b', l. split; [exact He|]. rewrite Hl. reflexivity.
Defined.

Lemma cancel_effect_witness :
  exists b', cancel (sample_kernel false) 9 "op-1" (running_broker, [])
             = ((b', [KInterrupt; KWaitForIdle; KRestart]),
                Ok (cancelled_by_interrupt 9 (op_record running_broker "op-1")))
    /\ active b' = None.
Proof.
  pose proof (cancel_effect (sample_kernel false) 9 "op-1" running_broker []
                (op_record running_broker "op-1") false running_broker_reachable eq_refl
                eq_refl eq_refl eq_refl) as H.
  eval_head H. destruct H as (b' & Hc & Ha & _). exists b'. split; [exact Hc|exact Ha].
Defined.
