(* ===== verification/Scheduler.v ===== *)
(** * Workers of launches (src/notebook_launcher/pipeline.py)

    [LaunchPipeline.schedule], [_forget] and [close] with the thread pool that
    the constructor makes: futures, the table of the scheduled ones, and the
    threads of the pool that start, finish and call back in any order. *)
From S2P Require Export Source Models.

(** A future is known by its place among those that were submitted.  Its
    callback runs after its result was set. *)
Inductive status := Pending | Running | Finished | CalledBack.

#[export] Instance status_eq : EqDecision status.
Proof. solve_decision. Defined.

Record future := mkFuture {
  fu_launch_id : string;
  fu_request : LaunchRequest;
  fu_source : option ResolvedSource;
  fu_status : status }.

Definition set_status (x : status) (f : future) : future := mkFuture (fu_launch_id f) (fu_request f) (fu_source f) x.

(** [future.done()] *)
Definition done (f : future) : bool := match fu_status f with Finished | CalledBack => true | _ => false end.

Record Scheduler := mkScheduler {
  sc_futures : list future;
  sc_scheduled : gmap string nat;
  sc_shutdown : bool }.

Definition new_scheduler : Scheduler := mkScheduler [] ∅ false.

(** [ThreadPoolExecutor(max_workers=2)] *)
Definition max_workers : nat := 2.

Definition submit (launch_id : string) (request : LaunchRequest) (source : option ResolvedSource) (s : Scheduler)
  : Scheduler * res nat :=
  if sc_shutdown s then (s, Err (RuntimeError "cannot schedule new futures after shutdown"))
  else
    let k := List.length (sc_futures s) in
    (mkScheduler (sc_futures s ++ [mkFuture launch_id request source Pending]) (<[launch_id := k]> (sc_scheduled s)) false, Ok k).

(** [schedule], under the lock; the callback that it adds is a step of its own. *)
Definition schedule (launch_id : string) (request : LaunchRequest) (source : option ResolvedSource) (s : Scheduler)
  : Scheduler * res nat :=
  match sc_scheduled s !! launch_id with
  | Some k =>
      match sc_futures s !! k with
      | Some pending => if negb (done pending) then (s, Ok k) else submit launch_id request source s
      | None => submit launch_id request source s
      end
  | None => submit launch_id request source s
  end.

(** [_forget] *)
Definition forget (launch_id : string) (completed : nat) (scheduled : gmap string nat) : gmap string nat :=
  if bool_decide (scheduled !! launch_id = Some completed) then delete launch_id scheduled else scheduled.

Definition update (k : nat) (f : future) (s : Scheduler) : Scheduler :=
  mkScheduler (<[k := f]> (sc_futures s)) (sc_scheduled s) (sc_shutdown s).

Definition is_running (f : future) : bool := bool_decide (fu_status f = Running).
Definition busy (s : Scheduler) : nat := List.length (List.filter is_running (sc_futures s)).

(** ** Steps *)

(** A thread of the pool: it takes the oldest pending future, sets its result,
    and then runs its callback. *)
Inductive worker_step (s : Scheduler) : Scheduler -> Prop :=
| worker_starts k f : sc_futures s !! k = Some f -> fu_status f = Pending -> (busy s < max_workers)%nat ->
    (forall k' f', (k' < k)%nat -> sc_futures s !! k' = Some f' -> fu_status f' <> Pending) ->
    worker_step s (update k (set_status Running f) s)
| worker_finishes k f : sc_futures s !! k = Some f -> fu_status f = Running ->
    worker_step s (update k (set_status Finished f) s)
| worker_calls_back k f : sc_futures s !! k = Some f -> fu_status f = Finished ->
    worker_step s (mkScheduler (<[k := set_status CalledBack f]> (sc_futures s))
                     (forget (fu_launch_id f) k (sc_scheduled s)) (sc_shutdown s)).

Inductive step (s : Scheduler) : Scheduler -> Prop :=
| step_schedule launch_id request source : step s (fst (schedule launch_id request source s))
| step_close : step s (mkScheduler (sc_futures s) (sc_scheduled s) true)
| step_worker s' : worker_step s s' -> step s s'.

Definition reachable (s : Scheduler) : Prop := rtc step new_scheduler s.

(** ** The table and the live futures agree *)
Record inv (s : Scheduler) : Prop := mkInv {
  inv_table i k : sc_scheduled s !! i = Some k ->
    exists f, sc_futures s !! k = Some f /\ fu_launch_id f = i /\ fu_status f <> CalledBack;
  inv_live k f : sc_futures s !! k = Some f -> done f = false -> sc_scheduled s !! fu_launch_id f = Some k;
  inv_busy : (busy s <= max_workers)%nat }.

Lemma done_status f : done f = true <-> fu_status f = Finished \/ fu_status f = CalledBack.
Proof. unfold done. destruct (fu_status f); intuition congruence. Qed.

(** A sum over the list when one place changes. *)
Fixpoint total (w : future -> nat) (l : list future) : nat :=
  match l with [] => 0 | f :: l => w f + total w l end%nat.
Lemma total_insert w l k f g : l !! k = Some f -> (total w (<[k := g]> l) + w f = total w l + w g)%nat.
Proof.
  revert k. induction l as [|x l IH]; intros [|k] E; try discriminate; cbn [lookup list_lookup insert list_insert total] in *; [injection E as ->; lia|].
  specialize (IH k E). unfold insert in *. lia.
Qed.
Lemma busy_total s : busy s = total (fun f => if is_running f then 1 else 0)%nat (sc_futures s).
Proof. unfold busy. induction (sc_futures s) as [|f l IH]; [reflexivity|]. cbn. destruct (is_running f); cbn; lia. Qed.
Lemma total_app w a b : total w (a ++ b) = (total w a + total w b)%nat.
Proof. induction a as [|f a IH]; [reflexivity|]. cbn. lia. Qed.

Lemma submit_inv i rq src s : inv s ->
  (forall k f, sc_scheduled s !! i = Some k -> sc_futures s !! k = Some f -> done f = true) ->
  inv (fst (submit i rq src s)).
Proof.
  intros [Ht Hl Hb] Hi. unfold submit. destruct (sc_shutdown s); [now split|]. cbn [fst]. split; cbn [sc_scheduled sc_futures].
  - intros j k Hk. destruct (decide (j = i)) as [->|Hne].
    + rewrite lookup_insert_eq in Hk. injection Hk as <-. eexists. rewrite list_lookup_middle by reflexivity. split; [reflexivity|]. easy.
    + rewrite lookup_insert_ne in Hk by congruence. destruct (Ht j k Hk) as (f & Hf & Hrest). exists f.
      split; [now apply lookup_app_l_Some|exact Hrest].
  - intros k f Hf Hd. apply lookup_app_Some in Hf as [Hf|[Hk Hf]].
    + pose proof (Hl k f Hf Hd) as Hs. destruct (decide (fu_launch_id f = i)) as [<-|Hne].
      * rewrite (Hi k f Hs Hf) in Hd. discriminate.
      * now rewrite lookup_insert_ne.
    + apply list_lookup_singleton_Some in Hf as [E <-]. cbn [fu_launch_id]. rewrite lookup_insert_eq. f_equal. lia.
  - rewrite busy_total in *. cbn [sc_futures] in *. rewrite total_app. cbn [total].
    change (is_running (mkFuture i rq src Pending)) with false. cbv iota. lia.
Qed.

Lemma schedule_inv i rq src s : inv s -> inv (fst (schedule i rq src s)).
Proof.
  intros Hs. unfold schedule. destruct (sc_scheduled s !! i) as [k|] eqn:Ei; [|apply submit_inv; [exact Hs|congruence]].
  destruct (sc_futures s !! k) as [f|] eqn:Ef; [|apply submit_inv; [exact Hs|congruence]].
  destruct (done f) eqn:Ed; [|exact Hs]. apply submit_inv; [exact Hs|]. intros k' f' E1 E2. congruence.
Qed.

(** A change of one future's status that keeps its place in the table. *)
Lemma update_inv k f x s : inv s -> sc_futures s !! k = Some f -> fu_status f <> CalledBack -> x <> CalledBack ->
  (done f = true -> done (set_status x f) = true) ->
  (is_running (set_status x f) = true -> is_running f = true \/ (busy s < max_workers)%nat) ->
  inv (update k (set_status x f) s).
Proof.
  intros [Ht Hl Hb] Hf Hn Hx Hd Hr. split; cbn [sc_scheduled sc_futures update].
  - intros i k' Hk. destruct (Ht i k' Hk) as (g & Hg & Hi & Hs). destruct (decide (k' = k)) as [->|Hne].
    + rewrite Hf in Hg. injection Hg as <-. exists (set_status x f). rewrite list_lookup_insert_eq by (eapply lookup_lt_Some; eassumption). auto.
    + exists g. rewrite list_lookup_insert_ne by congruence. auto.
  - intros k' g Hg Hdone. destruct (decide (k' = k)) as [->|Hne].
    + rewrite list_lookup_insert_eq in Hg by (eapply lookup_lt_Some; eassumption). injection Hg as <-. cbn [fu_launch_id set_status].
      apply Hl; [exact Hf|]. destruct (done f); [now rewrite Hd in Hdone|reflexivity].
    + rewrite list_lookup_insert_ne in Hg by congruence. now apply Hl.
  - rewrite busy_total in *. cbn [sc_futures update].
    pose proof (total_insert (fun f => if is_running f then 1 else 0)%nat _ k f (set_status x f) Hf) as E. cbn beta in E.
    destruct (is_running (set_status x f)), (is_running f); lia.
Qed.

Lemma forget_lookup i j k k' m : forget i k m !! j = Some k' -> m !! j = Some k' /\ (j = i -> k' <> k).
Proof.
  unfold forget. case_bool_decide as E; intros H; [|split; [exact H|congruence]].
  apply lookup_delete_Some in H as [Hne H]. split; [exact H|congruence].
Qed.
Lemma forget_keeps i j k k' m : m !! j = Some k' -> k' <> k -> forget i k m !! j = Some k'.
Proof.
  unfold forget. case_bool_decide as E; intros H Hk; [|exact H]. destruct (decide (j = i)) as [->|Hne]; [congruence|].
  now rewrite lookup_delete_ne.
Qed.

Lemma callback_inv k f s : inv s -> sc_futures s !! k = Some f -> fu_status f = Finished ->
  inv (mkScheduler (<[k := set_status CalledBack f]> (sc_futures s)) (forget (fu_launch_id f) k (sc_scheduled s)) (sc_shutdown s)).
Proof.
  intros [Ht Hl Hb] Hf Hfin. assert (Hk : (k < length (sc_futures s))%nat) by (eapply lookup_lt_Some; eassumption).
  split; cbn [sc_scheduled sc_futures].
  - intros i k' H. apply forget_lookup in H as [H Hne]. destruct (Ht i k' H) as (g & Hg & Hi & Hs).
    destruct (decide (k' = k)) as [->|Hk']; [|exists g; rewrite list_lookup_insert_ne by congruence; auto].
    exfalso. rewrite Hf in Hg. injection Hg as <-. now apply Hne.
  - intros k' g Hg Hd. destruct (decide (k' = k)) as [->|Hk'].
    + rewrite list_lookup_insert_eq in Hg by exact Hk. injection Hg as <-. discriminate.
    + rewrite list_lookup_insert_ne in Hg by congruence. apply forget_keeps; [now apply Hl|exact Hk'].
  - rewrite busy_total in *. cbn [sc_futures].
    pose proof (total_insert (fun f => if is_running f then 1 else 0)%nat _ k f (set_status CalledBack f) Hf) as E. cbn beta in E.
    change (is_running (set_status CalledBack f)) with false in E. cbv iota in E. lia.
Qed.

Lemma worker_inv s s' : inv s -> worker_step s s' -> inv s'.
Proof.
  intros Hs [k f Hf Hp Hb _|k f Hf Hp|k f Hf Hp]; [| |now apply callback_inv].
  - apply update_inv; [exact Hs|exact Hf|congruence|congruence| |auto]. rewrite done_status, Hp. intros [|]; congruence.
  - apply update_inv; [exact Hs|exact Hf|congruence|congruence|reflexivity|discriminate].
Qed.

Lemma scheduler_inv s : reachable s -> inv s.
Proof.
  unfold reachable. assert (H0 : inv new_scheduler) by (split; [intros i k H; discriminate H|intros k f H; discriminate H|apply Nat.le_0_l]).
  intros H. revert H0. induction H as [s|s s1 s2 Hst _ IH]; [auto|]. intros Hs. apply IH.
  destruct Hst as [i rq src| |s' Hw]; [now apply schedule_inv|destruct Hs; now split|now apply (worker_inv s)].
Qed.

(** C10: at most one worker for a launch.  Whatever launches are scheduled, and
    however the threads of the pool interleave with that: two futures of the
    same launch are never unfinished together; scheduling a launch whose future
    is unfinished returns that future and submits nothing; at most two futures
    run; and when every callback has run, the table is empty. *)
Theorem one_worker_per_launch s : reachable s ->
  (forall k k' f f', sc_futures s !! k = Some f -> sc_futures s !! k' = Some f' -> fu_launch_id f = fu_launch_id f' ->
     done f = false -> done f' = false -> k = k')
  /\ (forall k f request source, sc_futures s !! k = Some f -> done f = false ->
        schedule (fu_launch_id f) request source s = (s, Ok k))
  /\ (busy s <= 2)%nat
  /\ (Forall (fun f => fu_status f = CalledBack) (sc_futures s) -> sc_scheduled s = ∅).
Proof.
  intros [Ht Hl Hb]%scheduler_inv. split_and!; [| |exact Hb|].
  - intros k k' f f' Hf Hf' Hi Hd Hd'. apply Hl in Hf, Hf'; [|assumption..]. congruence.
  - intros k f rq src Hf Hd. unfold schedule. now rewrite (Hl k f Hf Hd), Hf, Hd.
  - intros Hall. apply map_eq. intros i. rewrite lookup_empty. destruct (sc_scheduled s !! i) as [k|] eqn:E; [exfalso|reflexivity].
    destruct (Ht i k E) as (f & Hf & _ & Hn). rewrite Forall_lookup in Hall. eauto.
Qed.

(** ** The threads come to rest *)
Definition work_left (f : future) : nat := match fu_status f with Pending => 3 | Running => 2 | Finished => 1 | CalledBack => 0 end.

Lemma worker_measure s s' : worker_step s s' -> (S (total work_left (sc_futures s')) = total work_left (sc_futures s))%nat.
Proof.
  intros [k f Hf Hp _ _|k f Hf Hp|k f Hf Hp]; cbn [sc_futures update];
    match goal with |- context [set_status ?x f] => pose proof (total_insert work_left _ k f (set_status x f) Hf) as E end;
    unfold work_left at 2 4 in E; rewrite Hp in E; cbn [set_status fu_status] in E; lia.
Qed.

(** A future whose callback has not run leaves the pool something to do. *)
Lemma worker_enabled s : ~ Forall (fun f => fu_status f = CalledBack) (sc_futures s) -> exists s', worker_step s s'.
Proof.
  intros Hn. destruct (decide (Exists (fun f => fu_status f = Finished) (sc_futures s))) as [(f & Hin & Hf)%Exists_exists|Hfin].
  { apply list_elem_of_lookup in Hin as [k Hk]. eexists. eapply worker_calls_back; eauto. }
  destruct (decide (Exists (fun f => fu_status f = Running) (sc_futures s))) as [(f & Hin & Hf)%Exists_exists|Hrun].
  { apply list_elem_of_lookup in Hin as [k Hk]. eexists. eapply worker_finishes; eauto. }
  destruct (list_find (fun f => fu_status f = Pending) (sc_futures s)) as [[k f]|] eqn:E.
  - apply list_find_Some in E as (Hk & Hf & Hfirst). eexists. eapply worker_starts; eauto.
    unfold busy. rewrite (proj2 (filter_nil_iff is_running _)); [apply Nat.lt_0_succ|]. intros g Hg. unfold is_running.
    apply bool_decide_eq_false. intros Hr. apply Hrun, Exists_exists. exists g. split; [now apply list_elem_of_In|exact Hr].
  - exfalso. apply Hn, Forall_forall. intros f Hf. rewrite list_find_None, Forall_forall in E. specialize (E f Hf).
    rewrite !Exists_exists in *. destruct (fu_status f) eqn:Es; [easy|exfalso..|reflexivity]; [apply Hrun|apply Hfin]; eauto.
Qed.

Lemma workers_bounded n s s' : nsteps worker_step n s s' -> (n + total work_left (sc_futures s') = total work_left (sc_futures s))%nat.
Proof. induction 1 as [s|n s s1 s2 Hw _ IH]; [reflexivity|]. apply worker_measure in Hw. lia. Qed.

Lemma total_bound l : (total work_left l <= 3 * length l)%nat.
Proof. induction l as [|f l IH]; cbn [total length]; [lia|]. unfold work_left at 1. destruct (fu_status f); lia. Qed.

(** Waiting for the pool ends.  The threads take at most three steps for each
    future; where they cannot go on, every callback has run and the table is
    empty; and until then they can. *)
Theorem workers_drain s n s' : reachable s -> nsteps worker_step n s s' ->
  (n <= 3 * length (sc_futures s))%nat
  /\ ((exists s'', worker_step s' s'') \/ sc_scheduled s' = ∅ /\ Forall (fun f => fu_status f = CalledBack) (sc_futures s')).
Proof.
  intros Hr Hn. pose proof (workers_bounded _ _ _ Hn). pose proof (total_bound (sc_futures s)). split; [lia|].
  destruct (decide (Forall (fun f => fu_status f = CalledBack) (sc_futures s'))) as [Hall|Hall]; [right|left; now apply worker_enabled].
  assert (Hi : inv s') by (apply scheduler_inv in Hr; clear - Hr Hn; induction Hn; eauto using worker_inv).
  split; [|exact Hall]. apply map_eq. intros i. rewrite lookup_empty.
  destruct (sc_scheduled s' !! i) as [k|] eqn:E; [exfalso|reflexivity]. destruct (inv_table _ Hi i k E) as (f & Hf & _ & Hne).
  rewrite Forall_lookup in Hall. eauto.
Qed.

(** ** Witnesses *)
Definition launch_request : LaunchRequest := mkLaunchRequest None None None None (Some "ws-1"%string) GPU_AUTO AgentMode_WRITE.

(** The launch was scheduled, its worker has set the result, and it is
    scheduled again before the callback runs: the callback of the first future
    leaves the second one in the table. *)
Definition one_job (x : status) : future := mkFuture "launch-1" launch_request None x.
Definition rescheduled : Scheduler := mkScheduler [one_job CalledBack; one_job Pending] {[ "launch-1"%string := 1%nat ]} false.

Lemma rescheduled_reachable : reachable rescheduled.
Proof.
  eapply rtc_l. { apply (step_schedule _ "launch-1" launch_request None). }
  eapply rtc_l. { apply step_worker. eapply (worker_starts _ 0); [reflexivity|reflexivity|vm_compute; lia|]. intros k' f' Hk. lia. }
  eapply rtc_l. { apply step_worker. eapply (worker_finishes _ 0); reflexivity. }
  eapply rtc_l. { apply (step_schedule _ "launch-1" launch_request None). }
  eapply rtc_l. { apply step_worker. eapply (worker_calls_back _ 0); reflexivity. }
  match goal with |- rtc _ ?s _ => assert (s = rescheduled) as -> by (vm_compute; reflexivity) end. apply rtc_refl.
Qed.

Lemma one_worker_per_launch_witness :
  reachable rescheduled /\ schedule "launch-1" launch_request None rescheduled = (rescheduled, Ok 1%nat) /\ (busy rescheduled <= 2)%nat.
Proof.
  split; [exact rescheduled_reachable|]. destruct (one_worker_per_launch rescheduled rescheduled_reachable) as (_ & Hs & Hb & _).
  split; [exact (Hs 1%nat (one_job Pending) launch_request None eq_refl eq_refl)|exact Hb].
Defined.

Lemma workers_drain_witness :
  (0 <= 3 * length (sc_futures rescheduled))%nat
  /\ ((exists s', worker_step rescheduled s')
      \/ sc_scheduled rescheduled = ∅ /\ Forall (fun f => fu_status f = CalledBack) (sc_futures rescheduled)).
Proof. exact (workers_drain rescheduled 0 rescheduled rescheduled_reachable (nsteps_O _ _)). Defined.
