(* ===== verification/Pipeline.v ===== *)
(** * The launch pipeline (src/notebook_launcher/pipeline.py)

    [LaunchPipeline]: its state is the state database, the private runtime
    directory, the sessions that a run of this process owns, and the clock.
    Every effect outside that state (network, runtime, builder, probes, files)
    is a call whose answer may depend on all the calls before it; while a call
    runs, other threads and processes may change the shared state
    ([interfere]).  [PipelineProofs] has the theorems. *)
From S2P Require Export Environment Repository Grants Lifecycles.

Definition JUPYTER_CONTAINER_PORT : Z := 8888.
Definition JUPYTER_CONFIG_CONTAINER_PATH : string := "/jupyter_server_config.py".

Record PipelineLaunchResult := mkPipelineResult {
  pr_launch_id : string;
  pr_workspace_id : uuid;
  pr_session_id : uuid;
  pr_notebook_url : string;
  pr_reused_existing : bool;
  pr_cache_hit : option bool;
  pr_gpu : option GPUAllocation }.

(** ** Pure helpers *)
Definition pipeline_notebook_url (base_url notebook_path : string) : string :=
  (base_url ++ "/lab/tree/" ++ quote path_safe notebook_path)%string.

Definition jupyter_command (notebook_path : string) : list string :=
  ["jupyter"; "lab"; "--config=" ++ JUPYTER_CONFIG_CONTAINER_PATH; "--collaborative";
   "--ServerApp.port=" ++ str_of_int JUPYTER_CONTAINER_PORT; "--ServerApp.port_retries=0";
   "--ServerApp.root_dir=/workspace"; "--ServerApp.default_url=/lab/tree/" ++ quote path_safe notebook_path; "--no-browser"]%string.

(** [UUID.hex] and [UUID.int] of a canonical text. *)
Definition uuid_hex (u : uuid) : string := filter_chars (fun c => negb (Ascii.eqb c "-")) u.
Definition uuid_int (u : uuid) : Z := match read_hex (uuid_hex u) with Some n => n | None => 0 end.

Definition runtime_name_of (session_id : uuid) : string := ("notebook-launcher-" ++ uuid_hex session_id)%string.

(** The constructor of [FirewallPlan] validates. *)
Definition firewall_plan (approved_dns_endpoints : list string) (session_id : uuid) : res FirewallPlan :=
  let second_octet := 16 + Z.shiftr (uuid_int session_id) 8 mod 224 in
  let third_octet := 1 + uuid_int session_id mod 253 in
  validate_plan (mkPlan ("nl-" ++ str_take 10 (uuid_hex session_id)) ("nlbr" ++ str_take 8 (uuid_hex session_id))
    ("10." ++ str_of_int second_octet ++ "." ++ str_of_int third_octet ++ ".0/24") None approved_dns_endpoints).

Definition source_from_workspace (w : WorkspaceRecord) : ResolvedSource :=
  mkResolvedSource (w_source_repository_id w) None (w_source_owner w) (w_source_repository w)
    (w_source_commit_sha w) (w_source_commit_sha w) (w_source_notebook_path w)
    ("https://github.com/" ++ w_source_owner w ++ "/" ++ w_source_repository w ++ ".git").

Definition verify_workspace_source (w : WorkspaceRecord) (s : ResolvedSource) : res unit :=
  value_error_if (negb ((rs_repository_id s =? w_source_repository_id w)
                        && String.eqb (rs_commit_sha s) (w_source_commit_sha w)
                        && String.eqb (rs_notebook_path s) (w_source_notebook_path w)))
    "workspace source identity changed".

Definition runtime_error_if (b : bool) (msg : string) : res unit := raise_if b (RuntimeError msg).

Definition assert_session_compatible (s : SessionRecord) (request : LaunchRequest) : res unit :=
  let! _ := runtime_error_if (negb (String.eqb (s_agent_mode s) (AgentMode_value (rq_agent_mode request))))
    "active workspace session agent mode does not match the launch request" in
  let! _ := runtime_error_if (bool_decide (rq_gpu request = GPU_ON) && negb (s_gpu_enabled s))
    "GPU-required launch cannot reuse a CPU-only session" in
  runtime_error_if (bool_decide (rq_gpu request = GPU_OFF) && s_gpu_enabled s)
    "GPU-disabled launch cannot reuse a GPU-enabled session".

(** [str(row[...])] of a nullable column. *)
Definition str_of_column (o : option string) : string := match o with Some s => s | None => "None" end.

Definition verify_launch_binding (row : launch_row) (request : LaunchRequest) (source : option ResolvedSource) : res unit :=
  let! _ := value_error_if (negb (String.eqb (l_gpu row) (GPU_value (rq_gpu request)))
                            || negb (String.eqb (l_agent_mode row) (AgentMode_value (rq_agent_mode request))))
    "launch runtime policy binding changed" in
  match rq_workspace_id request with
  | Some w => value_error_if (negb (opt_eqb (l_workspace_id row) (Some w))) "launch workspace binding changed"
  | None =>
      match source with
      | None => Ok tt
      | Some s =>
          match l_repository_id row with
          | None => Err (TypeError "int() argument must be a string, a bytes-like object or a real number, not 'NoneType'")
          | Some i =>
              value_error_if (negb ((rs_repository_id s =? i) && String.eqb (rs_commit_sha s) (str_of_column (l_commit_sha row))
                                    && String.eqb (rs_notebook_path s) (str_of_column (l_notebook_path row))))
                "launch source binding changed"
          end
      end
  end.

Definition existing_result (launch_id : string) (s : SessionRecord) : PipelineLaunchResult :=
  mkPipelineResult launch_id (s_workspace_id s) (s_id s) (s_notebook_url s) true None None.

(** [_raise_cleanup_failures] *)
Definition raise_cleanup_failures (msg : string) (failures : list exn) : res unit :=
  match failures with
  | [] => Ok tt
  | [e] => Err e
  | _ => Err (ExceptionGroup msg failures)
  end.

(** ** The shared state *)

(** What a name in a session's private directory is. *)
Inductive private_node :=
| PFile (content : string)
| PLink (to_file : bool)
| PDir.

(** What the name of a session is in the runtime directory. *)
Inductive session_entry :=
| EDir (files : gmap string private_node)
| ELink (reaches_private_file : bool)
| EFile.

Record Shared := mkShared {
  sh_db : db;
  sh_runtime : gmap string session_entry;
  sh_owners : list uuid }.

Inductive call :=
| Acquire (source : ResolvedSource)
| MakeWorkspace (root : string)
| Materialize (snapshot : SourceSnapshot) (workspace_id : uuid)
| RemoveTree (root : string)
| CheckFiles (record : WorkspaceRecord)
| EnsureEnvironment (identity : EnvironmentIdentity) (root : string)
| HostGpuProbe
| ContainerGpuProbe (image : string)
| AllocatePort
| NetworkApply (plan : FirewallPlan)
| NetworkVerify (plan : FirewallPlan)
| NetworkRemove (plan : FirewallPlan)
| StartRuntime (policy : SandboxPolicy) (command : list string) (network : NetworkPolicyAttestation)
| CheckReadiness (started : RuntimeStartResult) (collaboration_ready : bool)
| WaitReady (jupyter_url token notebook_path : string)
| IsAlive (runtime_id : string)
| StopRuntime (runtime_id : string)
| MakeDir (session_id : uuid)
| RestrictDir (session_id : uuid)
| WritePrivate (session_id : uuid) (name content : string)
| UnlinkPrivate (session_id : uuid) (name : string)
| RemoveDir (session_id : uuid)
| WaitOwner (session_id : uuid).

Definition Trace : Type := list call.

Record World := mkWorld { trace : Trace; ticks : nat; shared : Shared }.

(** How creating one private file ended. *)
Inductive write_outcome :=
| Written
| WriteFailed (e : exn)
| WriteFailedLeaving (e : exn).

(** The collaborators of the pipeline and the operating system. *)
Record PipelineEnv := mkPipelineEnv {
  on_acquire : Trace -> ResolvedSource -> res SourceSnapshot;
  on_make_workspace : Trace -> string -> res unit;
  on_materialize : Trace -> SourceSnapshot -> uuid -> res unit;
  on_remove_tree : Trace -> string -> res unit;
  on_check_files : Trace -> WorkspaceRecord -> res unit;
  on_ensure : Trace -> EnvironmentIdentity -> string -> res EnvironmentBuildResult;
  on_host_gpu : Trace -> res GPUProbeResult;
  on_container_gpu : Trace -> string -> res GPUProbeResult;
  on_port : Trace -> res Z;
  on_apply : Trace -> FirewallPlan -> res NetworkPolicyAttestation;
  on_verify : Trace -> FirewallPlan -> res NetworkPolicyAttestation;
  on_remove : Trace -> FirewallPlan -> res unit;
  on_start : Trace -> SandboxPolicy -> list string -> NetworkPolicyAttestation -> res RuntimeStartResult;
  on_readiness : Trace -> RuntimeStartResult -> bool -> res RuntimeReadiness;
  on_wait_ready : Trace -> string -> string -> string -> res bool;
  on_is_alive : Trace -> string -> res bool;
  on_stop : Trace -> string -> res unit;
  on_make_dir : Trace -> uuid -> res unit;
  on_restrict : Trace -> uuid -> res unit;
  on_write : Trace -> uuid -> string -> write_outcome;
  on_unlink : Trace -> uuid -> string -> res unit;
  on_remove_dir : Trace -> uuid -> res unit;
  on_wait_owner : Trace -> uuid -> bool;
  new_uuid : Trace -> uuid;
  new_token : Trace -> string;
  clock : nat -> string;
  host_now : Trace -> Host;
  interfere : Trace -> call -> Shared -> Shared }.

(** The settings and constructor arguments that the modelled code reads. *)
Record PipelineConfig := mkPipelineConfig {
  pc_workspaces_dir : string;
  pc_runtime_dir : string;
  pc_runtime_memory : string;
  pc_runtime_cpus : string;
  pc_runtime_pids_limit : Z;
  pc_builder_version : string;
  pc_approved_dns_endpoints : list string }.

(** ** Primitive steps *)
Section Pipeline.
Context (env : PipelineEnv) (cfg : PipelineConfig).

Definition perform {A} (c : call) (answer : Trace -> A) : World -> World * A := fun w =>
  (mkWorld (trace w ++ [c]) (ticks w) (interfere env (trace w) c (shared w)), answer (trace w)).
Definition invoke {A} (c : call) (answer : Trace -> res A) : Eff World A := perform c answer.

(** A read of the database, and a method of the state store. *)
Definition read_db {A} (f : db -> A) : Eff World A := fun w => (w, Ok (f (sh_db (shared w)))).
Definition read_db_res {A} (f : db -> res A) : Eff World A := fun w => (w, f (sh_db (shared w))).
Definition on_db {A} (m : db -> db * res A) : Eff World A := fun w =>
  let '(d, r) := m (sh_db (shared w)) in
  (mkWorld (trace w) (ticks w) (mkShared d (sh_runtime (shared w)) (sh_owners (shared w))), r).

(** [_now()] *)
Definition now : Eff World string := fun w => (mkWorld (trace w) (S (ticks w)) (shared w), Ok (clock env (ticks w))).

Definition read_owned (session_id : uuid) : Eff World bool := fun w =>
  (w, Ok (str_mem session_id (sh_owners (shared w)))).
Definition set_owners (f : list uuid -> list uuid) : Eff World unit := fun w =>
  (mkWorld (trace w) (ticks w)
     (mkShared (sh_db (shared w)) (sh_runtime (shared w)) (f (sh_owners (shared w)))), Ok tt).

Definition read_entry (session_id : uuid) : Eff World (option session_entry) := fun w =>
  (w, Ok (sh_runtime (shared w) !! session_id)).
Definition set_entry (session_id : uuid) (e : option session_entry) : Eff World unit := fun w =>
  (mkWorld (trace w) (ticks w)
     (mkShared (sh_db (shared w))
        (match e with Some e => <[session_id := e]> (sh_runtime (shared w)) | None => delete session_id (sh_runtime (shared w)) end)
        (sh_owners (shared w))), Ok tt).

Definition update_launch (launch_id : string) (expected : list string) (new_state : string)
  (workspace_id session_id message error_code : option string) : Eff World unit :=
  t ← now; on_db (update_launch_state launch_id expected new_state t workspace_id session_id message error_code).

Definition transition (session_id : uuid) (expected : list string) (new_state : string) : Eff World SessionRecord :=
  on_db (transition_session session_id expected new_state None None None None).

(** The same with [stopped_at=_now()]. *)
Definition transition_stopped (session_id : uuid) (expected : list string) (new_state : string)
  : Eff World SessionRecord :=
  t ← now; on_db (transition_session session_id expected new_state (Some t) None None None).

Definition release_leases (session_id : uuid) : Eff World unit :=
  t ← now; on_db (release_session_leases session_id t).

(** [try: m  except Exception: pass] *)
Definition ignore_Exception {A} (m : Eff World A) : Eff World unit :=
  eff_try (_ ← m; mret tt) (fun e => if is_Exception e then Some (mret tt) else None).

(** [try: m  except Exception as exc: failures.append(exc)] *)
Definition collect_Exception {A} (m : Eff World A) (failures : list exn) : Eff World (list exn) :=
  eff_try (_ ← m; mret failures) (fun e => if is_Exception e then Some (mret (failures ++ [e])) else None).

(** ** Private session state *)
Definition PRIVATE_JSON : string := "mcp-private.json".
Definition PRIVATE_CONFIG : string := "jupyter_server_config.py".

Definition set_file (session_id : uuid) (name : string) (node : option private_node) : Eff World unit :=
  entry ← read_entry session_id;
  match entry with
  | Some (EDir files) =>
      set_entry session_id (Some (EDir (match node with Some n => <[name := n]> files | None => delete name files end)))
  | _ => mret tt
  end.

(** [session_dir.rmdir()] *)
Definition remove_dir (session_id : uuid) : Eff World unit :=
  _ ← invoke (RemoveDir session_id) (fun t => on_remove_dir env t session_id);
  entry ← read_entry session_id;
  match entry with
  | Some (EDir files) => if bool_decide (files = ∅) then set_entry session_id None else eff_raise (OSError 39)
  | Some _ => eff_raise (OSError 20)
  | None => eff_raise (FileNotFoundError session_id)
  end.

(** [path.unlink(missing_ok=True)] *)
Definition unlink_private (session_id : uuid) (name : string) : Eff World unit :=
  _ ← invoke (UnlinkPrivate session_id name) (fun t => on_unlink env t session_id name);
  set_file session_id name None.

(** How the file is left, in the session's directory and behind a link. *)
Definition write_node (session_id : uuid) (name content : string) (o : write_outcome) : Eff World unit :=
  match o with
  | Written => set_file session_id name (Some (PFile content))
  | WriteFailed e => eff_raise e
  | WriteFailedLeaving e => _ ← set_file session_id name (Some (PFile content)); eff_raise e
  end.
Definition write_through (o : write_outcome) : Eff World unit :=
  match o with Written => mret tt | WriteFailed e | WriteFailedLeaving e => eff_raise e end.

(** [_exclusive_private_write] *)
Definition exclusive_private_write (session_id : uuid) (name content : string) : Eff World unit :=
  let write := perform (WritePrivate session_id name content) (fun t => on_write env t session_id name) in
  entry ← read_entry session_id;
  match entry with
  | Some (EDir files) =>
      if is_some (files !! name) then eff_raise (FileExistsError name)
      else fun w => let '(w', o) := write w in write_node session_id name content o w'
  | Some (ELink _) => fun w => let '(w', o) := write w in write_through o w'
  | Some EFile => eff_raise (OSError 20)
  | None => eff_raise (FileNotFoundError name)
  end.

Definition make_session_dir (session_id : uuid) : Eff World unit :=
  entry ← read_entry session_id;
  if is_some entry then eff_raise (FileExistsError session_id)
  else
    _ ← invoke (MakeDir session_id) (fun t => on_make_dir env t session_id);
    set_entry session_id (Some (EDir ∅)).

Definition private_json (jupyter_url token : string) : json :=
  JObj [("jupyter_url", JStr jupyter_url); ("jupyter_token", JStr token)]%string.

Definition NL : string := String "010"%char "".

Definition config_text (token : string) : string :=
  ("c = get_config()" ++ NL
   ++ "c.IdentityProvider.token = " ++ dump_str true token ++ NL
   ++ "c.ServerApp.token = " ++ dump_str true token ++ NL
   ++ "c.ServerApp.open_browser = False" ++ NL
   ++ "c.ServerApp.allow_remote_access = True" ++ NL
   ++ "c.ServerApp.ip = '0.0.0.0'" ++ NL)%string.

(** The path of the generated configuration on the host. *)
Definition config_path_of (session_id : uuid) : string :=
  (pc_runtime_dir cfg ++ "/" ++ session_id ++ "/" ++ PRIVATE_CONFIG)%string.

(** [try: m  except Exception: h; raise] *)
Definition on_Exception {A} (m : Eff World A) (h : Eff World unit) : Eff World A :=
  eff_try m (fun e => if is_Exception e then Some (_ ← h; eff_raise e) else None).

Context `{PyFloat}.

Definition write_runtime_secrets (session_id : uuid) (jupyter_url token : string) : Eff World unit :=
  _ ← make_session_dir session_id;
  _ ← on_Exception (invoke (RestrictDir session_id) (fun t => on_restrict env t session_id)) (remove_dir session_id);
  _ ← exclusive_private_write session_id PRIVATE_JSON (dumps_ascii (private_json jupyter_url token));
  on_Exception (exclusive_private_write session_id PRIVATE_CONFIG (config_text token))
    (_ ← unlink_private session_id PRIVATE_JSON; remove_dir session_id).

(** One turn of the loop of [_invalidate_session_private_state]. *)
Definition invalidate_name (session_id : uuid) (name : string) : Eff World unit :=
  entry ← read_entry session_id;
  match entry with
  | Some (EDir files) =>
      match files !! name with
      | Some (PFile _) | Some (PLink _) => unlink_private session_id name
      | _ => mret tt
      end
  | _ => mret tt
  end.

Definition invalidate_session_private_state (session_id : uuid) : Eff World unit :=
  entry ← read_entry session_id;
  match entry with
  | None | Some (ELink _) => mret tt
  | Some _ =>
      _ ← eff_iter (invalidate_name session_id) [PRIVATE_JSON; PRIVATE_CONFIG];
      eff_try (remove_dir session_id) (fun e => if is_OSError e then Some (mret tt) else None)
  end.

(** The checks of [_read_runtime_credentials] on the parsed document. *)
Definition private_credentials (host_port : Z) (v : json) : res (string * string) :=
  let invalid := RuntimeError "ready session private state is invalid" in
  match v with
  | JObj fields =>
      match obj_get "jupyter_url" fields, obj_get "jupyter_token" fields with
      | Some (JStr url), Some (JStr token) =>
          let! _ := raise_if (negb (String.eqb url ("http://127.0.0.1:" ++ str_of_int host_port)) || String.eqb token "") invalid in
          let! _ := raise_if (has_char Sandbox.NUL token) invalid in
          Ok (url, token)
      | _, _ => Err invalid
      end
  | _ => Err (TypeError "ready session private state is invalid")
  end.

Definition parse_credentials (host_port : Z) (content : string) : res (string * string) :=
  let! _ := runtime_error_if (64 * 1024 <? Z.of_nat (String.length content)) "ready session private state is invalid" in
  let! private := loads content in
  private_credentials host_port private.

Definition read_runtime_credentials (session : SessionRecord) : Eff World (string * string) :=
  entry ← read_entry (s_id session);
  match entry with
  | Some (ELink _) => eff_raise (RuntimeError "ready session private state is unsafe")
  | Some (EDir files) =>
      match files !! PRIVATE_JSON with
      | Some (PFile content) => eff_lift (parse_credentials (s_host_port session) content)
      | Some _ => eff_raise (RuntimeError "ready session private state is unsafe")
      | None => eff_raise (RuntimeError "ready session private state is unavailable")
      end
  | Some EFile => eff_raise (OSError 20)
  | None => eff_raise (RuntimeError "ready session private state is unavailable")
  end.

(** ** Stopping a runtime *)
Definition is_alive (runtime_id : string) : Eff World bool :=
  invoke (IsAlive runtime_id) (fun t => on_is_alive env t runtime_id).
Definition stop_runtime (runtime_id : string) : Eff World unit :=
  invoke (StopRuntime runtime_id) (fun t => on_stop env t runtime_id).
Definition network_remove (plan : FirewallPlan) : Eff World unit :=
  invoke (NetworkRemove plan) (fun t => on_remove env t plan).

(** The answer, or the [Exception] that the call raised. *)
Definition attempt {A} (m : Eff World A) : Eff World (A + exn) :=
  eff_try (a ← m; mret (inl a)) (fun e => if is_Exception e then Some (mret (inr e)) else None).

Definition stop_and_confirm_runtime (runtime_id : string) (stop_if_alive : bool) : Eff World (bool * list exn) :=
  alive ← attempt (is_alive runtime_id);
  match alive with
  | inr e => mret (false, [e])
  | inl alive =>
      failures ← (if alive && stop_if_alive then collect_Exception (stop_runtime runtime_id) [] else mret []);
      still_alive ← attempt (is_alive runtime_id);
      match still_alive with
      | inr e => mret (false, failures ++ [e])
      | inl true =>
          mret (false, match failures with
                       | [] => [RuntimeError "runtime remained alive during cleanup"]
                       | _ => failures
                       end)
      | inl false => mret (true, failures)
      end
  end.

Definition remove_network_if (confirmed : bool) (plan : FirewallPlan) (failures : list exn) : Eff World (list exn) :=
  if confirmed then collect_Exception (network_remove plan) failures else mret failures.

Definition plan_of (session_id : uuid) : res FirewallPlan := firewall_plan (pc_approved_dns_endpoints cfg) session_id.

Definition retire_session (session : SessionRecord) (expected_state : string) (stop_if_alive : bool) : Eff World unit :=
  confirmed ← stop_and_confirm_runtime (s_runtime_id session) stop_if_alive;
  plan ← eff_lift (plan_of (s_id session));
  failures ← remove_network_if (fst confirmed) plan (snd confirmed);
  _ ← invalidate_session_private_state (s_id session);
  _ ← release_leases (s_id session);
  match failures with
  | [] =>
      _ ← transition_stopped (s_id session) [expected_state] "failed";
      t ← now;
      _ ← on_db (fail_launches_for_session (s_id session) t "Previous runtime did not survive launcher restart."
                   "stale_runtime_reconciled");
      mret tt
  | _ =>
      failures ← (if negb (String.eqb (s_state session) "stopping")
                  then collect_Exception (transition (s_id session) [expected_state] "stopping") failures
                  else mret failures);
      eff_lift (raise_cleanup_failures "stale runtime cleanup failed" failures)
  end.

(** ** Reusing a session *)
Definition verify_ready (v : bool) (msg : string) : Eff World unit := eff_raise_if (negb v) (RuntimeError msg).

Definition wait_ready (jupyter_url token notebook_path : string) : Eff World bool :=
  invoke (WaitReady jupyter_url token notebook_path) (fun t => on_wait_ready env t jupyter_url token notebook_path).
Definition check_readiness (started : RuntimeStartResult) (collaboration_ready : bool) : Eff World RuntimeReadiness :=
  invoke (CheckReadiness started collaboration_ready) (fun t => on_readiness env t started collaboration_ready).

Definition reattest_ready_session (session : SessionRecord) : Eff World unit :=
  workspace ← read_db (get_workspace (s_workspace_id session));
  match workspace with
  | None => eff_raise (RuntimeError "ready session workspace is unavailable")
  | Some workspace =>
      plan ← eff_lift (plan_of (s_id session));
      attestation ← invoke (NetworkVerify plan) (fun t => on_verify env t plan);
      _ ← verify_ready (at_verified attestation) "ready session network policy is not verified";
      credentials ← read_runtime_credentials session;
      collaboration_ready ← wait_ready (fst credentials) (snd credentials) (w_active_notebook_path workspace);
      readiness ← check_readiness
        (mkRuntimeStart (s_runtime_id session) [] (s_sandbox_verified session) (at_verified attestation)
           (s_gpu_enabled session) true) collaboration_ready;
      verify_ready (rr_ready readiness && rr_sandbox_verified readiness && rr_network_verified readiness
                    && rr_collaboration_ready readiness) "ready session failed live readiness attestation"
  end.

Definition mark_launch_ready (launch_id : string) (session : SessionRecord) : Eff World unit :=
  update_launch launch_id ["starting"%string] "ready" (Some (s_workspace_id session)) (Some (s_id session))
    (Some "Reused existing notebook runtime."%string) None.

Definition fully_verified (s : SessionRecord) : bool :=
  s_sandbox_verified s && s_network_verified s && s_collaboration_ready s.

(** The branch of [_reuse_existing_session] for a ready session. *)
Definition reuse_ready (launch_id : string) (request : LaunchRequest) (session : SessionRecord)
  : Eff World (option PipelineLaunchResult) :=
  if negb (fully_verified session) then _ ← retire_session session "ready" true; mret None
  else
    alive ← is_alive (s_runtime_id session);
    if negb alive then _ ← retire_session session "ready" false; mret None
    else
      _ ← eff_lift (assert_session_compatible session request);
      attested ← attempt (reattest_ready_session session);
      match attested with
      | inr _ => _ ← retire_session session "ready" true; mret None
      | inl _ => _ ← mark_launch_ready launch_id session; mret (Some (existing_result launch_id session))
      end.

(** [_reuse_existing_session] calls itself; [fuel] is the depth of the calls
    (Python raises [RecursionError] when its own limit is reached). *)
Fixpoint reuse_existing_session (fuel : nat) (launch_id : string) (request : LaunchRequest) (session : SessionRecord)
  : Eff World (option PipelineLaunchResult) :=
  match fuel with
  | O => eff_raise (RuntimeError "maximum recursion depth exceeded")
  | S fuel' =>
      if String.eqb (s_state session) "stopping" then eff_raise (RuntimeError "workspace runtime is stopping")
      else if String.eqb (s_state session) "ready" then reuse_ready launch_id request session
      else if negb (String.eqb (s_state session) "starting")
      then eff_raise (RuntimeError ("workspace runtime cannot be reused from " ++ s_state session))
      else
        owned ← read_owned (s_id session);
        current ← (if owned : bool then mret None else read_db (get_session (s_id session)));
        if negb owned then
          match current with
          | None => eff_raise (RuntimeError "existing workspace runtime disappeared during startup")
          | Some current =>
              if negb (String.eqb (s_state current) "starting")
              then reuse_existing_session fuel' launch_id request current
              else _ ← retire_session session "starting" true; mret None
          end
        else
          _ ← eff_lift (assert_session_compatible session request);
          _ ← update_launch launch_id ["starting"%string] "starting" (Some (s_workspace_id session)) (Some (s_id session))
                (Some "Following existing workspace runtime startup."%string) None;
          finished ← (fun w => let '(w', b) := perform (WaitOwner (s_id session))
                                                 (fun t => on_wait_owner env t (s_id session)) w in (w', Ok b));
          if negb finished then eff_raise (RuntimeError "timed out following existing workspace runtime startup")
          else
            current ← read_db (get_session (s_id session));
            match current with
            | None => eff_raise (RuntimeError "existing workspace runtime disappeared during startup")
            | Some current =>
                _ ← eff_lift (assert_session_compatible current request);
                if negb (String.eqb (s_state current) "ready")
                then eff_raise (RuntimeError ("existing workspace runtime finished startup as " ++ s_state current))
                else reuse_existing_session fuel' launch_id request current
            end
  end.

(** The depth that the calls need (see [reuse_terminates]). *)
Definition reuse_depth : nat := 2.

(** ** [reconcile_starting_sessions] *)
Fixpoint reconcile_sessions (sessions : list SessionRecord) (reconciled : Z) : Eff World Z :=
  match sessions with
  | [] => mret reconciled
  | session :: rest =>
      owned ← read_owned (s_id session);
      if owned : bool then reconcile_sessions rest reconciled
      else _ ← retire_session session "starting" true; reconcile_sessions rest (reconciled + 1)
  end.

Definition reconcile_starting_sessions : Eff World Z :=
  sessions ← read_db (sessions_in_states ["starting"%string]);
  reconcile_sessions sessions 0.

(** ** [stop] *)
Definition workspace_launches (workspace_id : uuid) (d : db) : list launch_row :=
  select (fun l => opt_eqb (l_workspace_id l) (Some workspace_id) && str_mem (l_state l) ["starting"; "ready"]%string)
    (launches d).

Definition set_workspace_launch_state (workspace_id : uuid) (new_state : string) : Eff World unit :=
  rows ← read_db (workspace_launches workspace_id);
  eff_iter (fun row => ignore_Exception
    (update_launch (l_id row) [l_state row] new_state (Some workspace_id) None None None)) rows.

Definition stop (session_id : uuid) : Eff World bool :=
  session ← read_db (get_session session_id);
  match session with
  | None => mret false
  | Some session =>
      if str_mem (s_state session) ["stopped"; "failed"]%string then
        _ ← invalidate_session_private_state session_id;
        _ ← release_leases session_id;
        _ ← set_workspace_launch_state (s_workspace_id session) "stopped";
        mret true
      else
        session ← (if negb (String.eqb (s_state session) "stopping")
                   then transition session_id ["starting"; "ready"]%string "stopping" else mret session);
        plan ← eff_lift (plan_of session_id);
        confirmed ← stop_and_confirm_runtime (s_runtime_id session) true;
        failures ← remove_network_if (fst confirmed) plan (snd confirmed);
        _ ← invalidate_session_private_state session_id;
        _ ← release_leases session_id;
        match failures with
        | [] =>
            _ ← transition_stopped session_id ["stopping"%string] "stopped";
            _ ← set_workspace_launch_state (s_workspace_id session) "stopped";
            mret true
        | _ => _ ← eff_lift (raise_cleanup_failures "runtime cleanup failed" failures); mret true
        end
  end.

(** ** Preparing the workspace *)
Definition acquire_source (source : ResolvedSource) : Eff World SourceSnapshot :=
  invoke (Acquire source) (fun t => on_acquire env t source).

(** [uuid4()] and [secrets.token_urlsafe(32)] *)
Definition fresh_uuid : Eff World uuid := fun w => (w, Ok (new_uuid env (trace w))).
Definition fresh_token : Eff World string := fun w => (w, Ok (new_token env (trace w))).

(** [WorkspaceManager.create] (workspace.py): [MakeWorkspace] is the check and
    creation of the directory, [Materialize] the work on files between it and
    the insertion of the row. *)
Definition workspace_create (snapshot : SourceSnapshot) (owner repository notebook_path : string)
  : Eff World WorkspaceRecord :=
  workspace_id ← fresh_uuid;
  let root := (pc_workspaces_dir cfg ++ "/" ++ workspace_id)%string in
  _ ← invoke (MakeWorkspace root) (fun t => on_make_workspace env t root);
  eff_try
    (_ ← invoke (Materialize snapshot workspace_id) (fun t => on_materialize env t snapshot workspace_id);
     t ← now;
     on_db (create_workspace (mkWorkspace workspace_id (ss_repository_id snapshot) owner repository
       (ss_commit_sha snapshot) notebook_path root (root ++ "/work") (root ++ "/outputs") notebook_path None t t)))
    (fun e =>
       if is_Exception e then Some
         (cleaned ← attempt (invoke (RemoveTree root) (fun t => on_remove_tree env t root));
          match cleaned with
          | inr cleanup => eff_raise (ExceptionGroup "workspace creation and cleanup both failed" [e; cleanup])
          | inl _ => eff_raise e
          end)
       else None).

(** [WorkspaceManager.reopen]: [CheckFiles] stands for the checks of the
    directories and of the active notebook (see [Workspace.reopen]). *)
Definition workspace_reopen (workspace_id : uuid) : Eff World WorkspaceRecord :=
  record ← read_db (get_workspace workspace_id);
  match record with
  | None => eff_raise (KeyError workspace_id)
  | Some record => _ ← invoke (CheckFiles record) (fun t => on_check_files env t record); mret record
  end.

Definition source_from_trust_flow (launch_id : string) (d : db) : option ResolvedSource :=
  option_map (fun i => mkResolvedSource (id_repository_id i) (id_repository_node_id i) (id_owner i) (id_repository i)
                         (id_requested_ref i) (id_commit_sha i) (id_notebook_path i) (id_clone_url i))
    (source_for_launch launch_id d).

(** [source or self._source_from_trust_flow(launch_id)] *)
Definition source_or_trusted (source : option ResolvedSource) (launch_id : string) : Eff World (option ResolvedSource) :=
  match source with
  | Some s => mret (Some s)
  | None => read_db_res (fun d => let s := source_from_trust_flow launch_id d in
                            match s with
                            | Some r => rmap Some (validate_resolved r)
                            | None => Ok None
                            end)
  end.

Definition prepare_workspace (request : LaunchRequest) (source : option ResolvedSource) (launch_id : string)
  : Eff World (ResolvedSource * option SourceSnapshot * WorkspaceRecord) :=
  prepared ←
    match rq_workspace_id request with
    | None =>
        resolved ← source_or_trusted source launch_id;
        match resolved with
        | None => eff_raise (ValueError "resolved source is required for a fresh launch")
        | Some resolved =>
            snapshot ← acquire_source resolved;
            workspace ← workspace_create snapshot (rs_owner resolved) (rs_repository resolved) (rs_notebook_path resolved);
            mret (resolved, Some snapshot, workspace)
        end
    | Some workspace_id =>
        workspace ← workspace_reopen workspace_id;
        resolved ← match source with
                   | Some s => mret s
                   | None => eff_lift (validate_resolved (source_from_workspace workspace))
                   end;
        _ ← eff_lift (verify_workspace_source workspace resolved);
        mret (resolved, None, workspace)
    end;
  _ ← update_launch launch_id ["starting"%string] "starting" (Some (w_id (snd prepared))) None None None;
  mret prepared.

(** [_persisted_request] *)
Definition persisted_request (launch_id : string) (source : option ResolvedSource)
  : Eff World (LaunchRequest * option ResolvedSource) :=
  launch ← read_db (get_launch launch_id);
  match launch with
  | None => eff_raise (KeyError launch_id)
  | Some launch =>
      if negb (String.eqb (l_state launch) "authorized") then eff_raise (ValueError "launch is not authorized")
      else
        match l_workspace_id launch with
        | Some workspace_id =>
            eff_lift
              (let! gpu := GPU_of (l_gpu launch) in
               let! mode := AgentMode_of (l_agent_mode launch) in
               let! request := validate_source (mkLaunchRequest None None None None (Some workspace_id) gpu mode) in
               Ok (request, source))
        | None =>
            resolved ← source_or_trusted source launch_id;
            match resolved with
            | None => eff_raise (ValueError "resolved source is required for a fresh launch")
            | Some r =>
                eff_lift
                  (let! gpu := GPU_of (l_gpu launch) in
                   let! mode := AgentMode_of (l_agent_mode launch) in
                   let! request := validate_source
                     (mkLaunchRequest None (Some (rs_owner r ++ "/" ++ rs_repository r)%string) (Some (rs_commit_sha r))
                        (Some (rs_notebook_path r)) None gpu mode) in
                   Ok (request, Some r))
            end
        end
  end.

(** ** The sandbox of a session *)
Definition gpu_allocation (mode : GPU) (image : string) : Eff World GPUAllocation :=
  host ← (if bool_decide (mode = GPU_OFF) then mret (no_gpu None) else invoke HostGpuProbe (on_host_gpu env));
  container ← (if negb (bool_decide (mode = GPU_OFF)) && gp_available host
               then c ← invoke (ContainerGpuProbe image) (fun t => on_container_gpu env t image); mret (Some c)
               else mret None);
  eff_lift (resolve_gpu_allocation mode host container).

Definition policy_with_grant (workspace : WorkspaceRecord) (session_id : uuid) (image : string) (plan : FirewallPlan)
    (host_port : Z) (gpu_enabled : bool) (grant : option GrantRecord) : SandboxPolicy :=
  let user_data mode := match grant with
                        | Some g => if String.eqb (gr_mode g) "ro" then
                                      (if mode : bool then [(gr_canonical_root g, "/mnt/user-data")] else [])
                                    else (if mode then [] else [(gr_canonical_root g, "/mnt/user-data")])
                        | None => []
                        end%string in
  mkSandboxPolicy image (runtime_name_of session_id) (w_work_path workspace) "/workspace"
    ((config_path_of session_id, JUPYTER_CONFIG_CONTAINER_PATH) :: user_data true)
    ((w_outputs_path workspace, "/workspace/outputs"%string) :: user_data false)
    [("HOME", "/tmp/notebook-launcher-home"); ("JUPYTER_RUNTIME_DIR", "/tmp/jupyter-runtime")]%string
    (pc_runtime_memory cfg) (pc_runtime_cpus cfg) (pc_runtime_pids_limit cfg) gpu_enabled None (Some (network_name plan))
    [(host_port, JUPYTER_CONTAINER_PORT)] "512m" 4096.

Definition sandbox_policy (workspace : WorkspaceRecord) (session_id : uuid) (image : string) (plan : FirewallPlan)
    (host_port : Z) (gpu_enabled : bool) : Eff World SandboxPolicy := fun w =>
  (w, rmap (policy_with_grant workspace session_id image plan host_port gpu_enabled)
        (revalidate (host_now env (trace w)) (w_id workspace) (sh_db (shared w)))).

(** [private_path.is_file()] *)
Definition private_is_file (session_id : uuid) : Eff World bool :=
  entry ← read_entry session_id;
  mret match entry with
       | Some (EDir files) =>
           match files !! PRIVATE_JSON with Some (PFile _) => true | Some (PLink b) => b | _ => false end
       | Some (ELink b) => b
       | _ => false
       end.

(** ** [run]

    The local variables that the exception handler reads. *)
Record Locals := mkLocals {
  lo_session_id : option uuid;
  lo_owned_session_id : option uuid;
  lo_workspace : option WorkspaceRecord;
  lo_plan : option FirewallPlan;
  lo_runtime_name : option string }.

Definition no_locals : Locals := mkLocals None None None None None.

(** A step of the body of the [try], and an assignment. *)
Definition up {A} (m : Eff World A) : Eff (Locals * World) A := fun lw =>
  let '(w', r) := m (snd lw) in ((fst lw, w'), r).
Definition assign (f : Locals -> Locals) : Eff (Locals * World) unit := fun lw => ((f (fst lw), snd lw), Ok tt).

Definition claim (session_id : uuid) (workspace : WorkspaceRecord) (host_port : Z) (gpu_enabled : bool)
    (request : LaunchRequest) (notebook_url : string) : Eff World (SessionRecord * bool) :=
  t ← now;
  on_db (claim_session session_id (w_id workspace) (runtime_name_of session_id) host_port gpu_enabled
           (AgentMode_value (rq_agent_mode request)) notebook_url t true).

Definition token_in_argv (token : string) (command : list string) : bool :=
  str_mem token command || existsb (contains token) command.

(** The part of the body after the session is claimed: it starts the runtime
    and makes the session ready. *)
Definition start_session (launch_id : string) (workspace : WorkspaceRecord) (session_id : uuid) (image : string)
    (host_port : Z) (gpu_enabled : bool) : Eff (Locals * World) unit :=
  let base_url := ("http://127.0.0.1:" ++ str_of_int host_port)%string in
  _ ← up (update_launch launch_id ["starting"%string] "starting" (Some (w_id workspace)) (Some session_id)
            (Some "Preparing sandboxed Jupyter runtime."%string) None);
  token ← up fresh_token;
  _ ← up (write_runtime_secrets session_id base_url token);
  plan ← up (eff_lift (plan_of session_id));
  _ ← assign (fun lo => mkLocals (lo_session_id lo) (lo_owned_session_id lo) (lo_workspace lo) (Some plan)
                          (lo_runtime_name lo));
  attestation ← up (invoke (NetworkApply plan) (fun t => on_apply env t plan));
  policy ← up (sandbox_policy workspace session_id image plan host_port gpu_enabled);
  let command := jupyter_command (w_active_notebook_path workspace) in
  _ ← up (eff_raise_if (token_in_argv token command) (RuntimeError "Jupyter token must not be present in argv"));
  started ← up (invoke (StartRuntime policy command attestation) (fun t => on_start env t policy command attestation));
  collaboration_ready ← up (wait_ready base_url token (w_active_notebook_path workspace));
  readiness ← up (check_readiness started collaboration_ready);
  _ ← up (verify_ready (rr_ready readiness) "runtime readiness gates did not pass");
  present ← up (private_is_file session_id);
  _ ← up (verify_ready present "MCP private state is unavailable");
  _ ← up (on_db (transition_session session_id ["starting"%string] "ready" None (Some (rr_sandbox_verified readiness))
                   (Some (rr_network_verified readiness)) (Some (rr_collaboration_ready readiness))));
  up (update_launch launch_id ["starting"%string] "ready" (Some (w_id workspace)) (Some session_id)
        (Some "Notebook runtime is ready."%string) None).

(** The body of the [try] in [run]. *)
Definition run_body (launch_id : string) (request : LaunchRequest) (source : option ResolvedSource)
  : Eff (Locals * World) PipelineLaunchResult :=
  prepared ← up (prepare_workspace request source launch_id);
  let '(resolved, snapshot, workspace) := prepared in
  _ ← assign (fun lo => mkLocals (lo_session_id lo) (lo_owned_session_id lo) (Some workspace) (lo_plan lo)
                          (lo_runtime_name lo));
  existing ← up (read_db (active_session (w_id workspace)));
  reused ← match existing with
           | Some session => up (reuse_existing_session reuse_depth launch_id request session)
           | None => mret None
           end;
  match reused with
  | Some result => mret result
  | None =>
      snapshot ← match snapshot with Some s => mret s | None => up (acquire_source resolved) end;
      identity ← up (eff_lift (environment_identity (w_source_repository_id workspace) (w_source_commit_sha workspace)
                                 (pc_builder_version cfg) RUNTIME_STRATEGY_VERSION));
      build ← up (invoke (EnsureEnvironment identity (ss_root snapshot)) (fun t => on_ensure env t identity (ss_root snapshot)));
      let image := ei_image_tag (br_identity build) in
      allocation ← up (gpu_allocation (rq_gpu request) image);
      session_id ← up fresh_uuid;
      _ ← assign (fun lo => mkLocals (Some session_id) (lo_owned_session_id lo) (lo_workspace lo) (lo_plan lo)
                              (Some (runtime_name_of session_id)));
      host_port ← up (invoke AllocatePort (on_port env));
      let notebook_url := pipeline_notebook_url ("http://127.0.0.1:" ++ str_of_int host_port)
                            (w_active_notebook_path workspace) in
      claimed ← up (claim session_id workspace host_port (ga_enabled allocation) request notebook_url);
      if negb (snd claimed) then
        reused ← up (reuse_existing_session reuse_depth launch_id request (fst claimed));
        match reused with
        | None => eff_raise (RuntimeError "stale active session was retired; retry launch")
        | Some result => mret result
        end
      else
        _ ← assign (fun lo => mkLocals (lo_session_id lo) (Some session_id) (lo_workspace lo) (lo_plan lo)
                                (lo_runtime_name lo));
        _ ← up (set_owners (cons session_id));
        _ ← start_session launch_id workspace session_id image host_port (ga_enabled allocation);
        mret (mkPipelineResult launch_id (w_id workspace) session_id notebook_url false (Some (br_cache_hit build))
                (Some allocation))
  end.

(** [_fail_launch] *)
Definition fail_launch (launch_id : string) (workspace_id : option uuid) : Eff World unit :=
  row ← read_db (get_launch launch_id);
  match row with
  | None => mret tt
  | Some row =>
      if negb (str_mem (l_state row) ["authorized"; "starting"]%string) then mret tt
      else ignore_Exception
        (update_launch launch_id [l_state row] "failed" workspace_id None (Some "Notebook runtime launch failed."%string)
           (Some "launch_pipeline_failed"%string))
  end.

(** What the rollback records of a session that is not settled. *)
Definition settle_session (session_id : uuid) (cleanup_failures : list exn) : Eff World unit :=
  current ← read_db (get_session session_id);
  match current with
  | None => mret tt
  | Some current =>
      if str_mem (s_state current) ["starting"; "stopping"]%string then
        ignore_Exception
          match cleanup_failures with
          | [] => _ ← transition_stopped session_id [s_state current] "failed"; mret tt
          | _ => if String.eqb (s_state current) "starting"
                 then _ ← transition session_id ["starting"%string] "stopping"; mret tt
                 else mret tt
          end
      else mret tt
  end.

(** The [except Exception] of [run]: it always raises. *)
Definition rollback {A} (launch_id : string) (lo : Locals) (launch_failure : exn) : Eff World A :=
  confirmed ← match lo_session_id lo, lo_runtime_name lo with
              | Some _, Some runtime => stop_and_confirm_runtime runtime true
              | _, _ => mret (true, [])
              end;
  failures ← match lo_plan lo with
             | Some plan => remove_network_if (fst confirmed) plan (snd confirmed)
             | None => mret (snd confirmed)
             end;
  _ ← match lo_session_id lo with
      | Some session_id =>
          _ ← invalidate_session_private_state session_id;
          _ ← release_leases session_id;
          settle_session session_id failures
      | None => mret tt
      end;
  failures ← match failures with
             | [] => _ ← fail_launch launch_id (option_map w_id (lo_workspace lo)); mret []
             | _ => collect_Exception (fail_launch launch_id (option_map w_id (lo_workspace lo))) failures
             end;
  _ ← eff_lift (raise_cleanup_failures "launch rollback cleanup failed" failures);
  eff_raise launch_failure.

(** The [finally] of [run]. *)
Definition drop_owner (lo : Locals) : Eff World unit :=
  match lo_owned_session_id lo with
  | Some session_id => set_owners (List.filter (fun s => negb (String.eqb s session_id)))
  | None => mret tt
  end.

(** The [try] statement of [run]. *)
Definition run_admitted (launch_id : string) (request : LaunchRequest) (source : option ResolvedSource)
  : Eff World PipelineLaunchResult := fun w =>
  let '((lo, w'), r) := run_body launch_id request source (no_locals, w) in
  eff_finally
    match r with
    | Ok result => mret result
    | Err e => if is_Exception e then rollback launch_id lo e else eff_raise e
    end (drop_owner lo) w'.

Definition run (launch_id : string) (request : LaunchRequest) (source : option ResolvedSource)
  : Eff World PipelineLaunchResult :=
  launch ← read_db (get_launch launch_id);
  match launch with
  | None => eff_raise (KeyError launch_id)
  | Some launch =>
      if negb (String.eqb (l_state launch) "authorized") then eff_raise (ValueError "launch is not authorized")
      else
        _ ← eff_lift (verify_launch_binding launch request source);
        _ ← update_launch launch_id ["authorized"%string] "starting" None None None None;
        run_admitted launch_id request source
  end.

Definition run_authorized (launch_id : string) (source : option ResolvedSource) : Eff World PipelineLaunchResult :=
  persisted ← persisted_request launch_id source;
  run launch_id (fst persisted) (snd persisted).
End Pipeline.
