(* ===== verification/PipelineProofs.v ===== *)
(** * The launch pipeline keeps its contract (pipeline.py)

    Every operation of [Pipeline] implements the life cycles of [Lifecycles],
    keeps the database well-formed and removes a network only after the
    runtime behind it was seen stopped; then what a completed stop and a
    completed launch guarantee, the recursion of the reuse of a session, the
    credentials of a session and the firewall plan of a session. *)
From S2P Require Export Pipeline.

Definition db_of (w : World) : db := sh_db (shared w).

(** The runtime of a session is the container named after it. *)
Definition named (s : SessionRecord) : Prop := s_runtime_id s = runtime_name_of (s_id s).

Section Contract.
Context (env : PipelineEnv) (cfg : PipelineConfig) `{PyFloat}.

(** The runtime was seen stopped by the call just made. *)
Definition seen_stopped (t : Trace) (runtime_id : string) : Prop :=
  exists t', t = t' ++ [IsAlive runtime_id] /\ on_is_alive env t' runtime_id = Ok false.

(** In the calls [tr] made after [pre], each removal of a network is the
    removal of the network of some session and comes directly after its
    runtime was seen stopped. *)
Definition removals_safe (pre tr : Trace) : Prop :=
  forall a p b, tr = a ++ NetworkRemove p :: b ->
    exists session_id, plan_of cfg session_id = Ok p /\ seen_stopped (pre ++ a) (runtime_name_of session_id).

Definition inv (w : World) : Prop := wf_db (db_of w) /\ Forall named (notebook_sessions (db_of w)).

Definition guar (w w' : World) : Prop :=
  (exists tr, trace w' = trace w ++ tr /\ removals_safe (trace w) tr) /\ db_evolves named (db_of w) (db_of w').

#[local] Instance guar_preorder : PreOrder guar.
Proof.
  split.
  - intros w. split; [|reflexivity]. exists []. split; [now rewrite app_nil_r|]. intros a p b E. now destruct a.
  - intros x y z [(t1 & E1 & S1) D1] [(t2 & E2 & S2) D2]. split; [|etrans; eauto].
    exists (t1 ++ t2). split; [now rewrite E2, E1, app_assoc|]. intros a p b E.
    apply app_eq_app in E as (l & [[-> E]|[-> E]]).
    + destruct l as [|c l]; cbn in E.
      * rewrite app_nil_r in *. destruct (S2 [] p b (eq_sym E)) as (s & Hp & Hs). exists s. split; [exact Hp|].
        now rewrite E1, app_nil_r in Hs.
      * injection E as <- ->. exact (S1 a p l eq_refl).
    + rewrite E1 in S2. destruct (S2 l p b E) as (s & Hp & Hs). exists s. split; [exact Hp|]. now rewrite app_assoc.
Qed.

(** What other threads and processes do to the database while a call runs:
    they keep it well-formed and follow the same life cycles. *)
Definition well_behaved : Prop := forall t c sh,
  wf_db (sh_db sh) -> Forall named (notebook_sessions (sh_db sh)) ->
  wf_db (sh_db (interfere env t c sh)) /\ db_evolves named (sh_db sh) (sh_db (interfere env t c sh)).

Context (Hrely : well_behaved).

Abbreviation keeps := (holds inv guar).

Lemma named_identity s s' : session_identity s' = session_identity s -> named s -> named s'.
Proof. unfold named, session_identity. congruence. Qed.

Lemma inv_evolves w w' : inv w -> wf_db (db_of w') -> db_evolves named (db_of w) (db_of w') -> inv w'.
Proof. intros [_ Hn] Hwf He. split; [exact Hwf|]. eapply evolves_named; eauto using named_identity. Qed.

Definition is_removal (c : call) : bool := match c with NetworkRemove _ => true | _ => false end.

Lemma safe_one pre c : is_removal c = false -> removals_safe pre [c].
Proof. intros Hc a p b E. destruct a as [|x [|]]; [injection E as -> _; discriminate|discriminate|discriminate]. Qed.

(** ** Primitive steps *)
Lemma perform_step {A} c (answer : Trace -> A) w w' a : inv w -> perform env c answer w = (w', a) ->
  inv w' /\ trace w' = trace w ++ [c] /\ a = answer (trace w) /\ db_evolves named (db_of w) (db_of w').
Proof.
  intros Hi [= <- <-]. destruct Hi as [Hwf Hn]. destruct (Hrely (trace w) c (shared w) Hwf Hn) as [Hwf' He].
  split; [|auto]. eapply inv_evolves; [split; [exact Hwf|exact Hn]|exact Hwf'|exact He].
Qed.

Lemma keeps_perform {A} c (answer : Trace -> res A) : is_removal c = false -> keeps (invoke env c answer).
Proof.
  intros Hc w w' r Hi _ E. destruct (perform_step _ _ _ _ _ Hi E) as (Hi' & Et & _ & He).
  split_and!; [exact Hi'| |auto]. split; [|exact He]. exists [c]. split; [exact Et|now apply safe_one].
Qed.

Lemma keeps_pure {A} (m : Eff World A) :
  (forall w w' r, m w = (w', r) -> trace w' = trace w /\ db_of w' = db_of w) -> keeps m.
Proof.
  intros Hm w w' r Hi _ E. destruct (Hm _ _ _ E) as [Et Ed]. split_and!; [|split|auto].
  - unfold inv. now rewrite Ed.
  - exists []. split; [now rewrite Et, app_nil_r|]. intros a p b Ea. now destruct a.
  - now rewrite Ed.
Qed.

Lemma keeps_on_db {A} (m : db -> db * res A) :
  (forall d, wf_db d -> wf_db (fst (m d))) -> (forall d, db_evolves named d (fst (m d))) -> keeps (on_db m).
Proof.
  intros Hwf He w w' r Hi _ E. unfold on_db in E. specialize (Hwf (sh_db (shared w)) (proj1 Hi)).
  specialize (He (sh_db (shared w))). destruct (m (sh_db (shared w))) as [d x]. injection E as <- <-.
  split_and!; [|split|auto].
  - eapply inv_evolves; [exact Hi|exact Hwf|exact He].
  - exists []. split; [cbn; now rewrite app_nil_r|]. intros a p b Ea. now destruct a.
  - exact He.
Qed.

Ltac pure_step := apply keeps_pure; intros w w' r E; injection E as <- _; auto.

Lemma keeps_read {A} (f : db -> A) : keeps (read_db f).
Proof. pure_step. Qed.
Lemma keeps_read_res {A} (f : db -> res A) : keeps (read_db_res f).
Proof. pure_step. Qed.
Lemma keeps_now : keeps (now env).
Proof. pure_step. Qed.
Lemma keeps_read_owned s : keeps (read_owned s).
Proof. pure_step. Qed.
Lemma keeps_set_owners f : keeps (set_owners f).
Proof. pure_step. Qed.
Lemma keeps_read_entry s : keeps (read_entry s).
Proof. pure_step. Qed.
Lemma keeps_set_entry s e : keeps (set_entry s e).
Proof. pure_step. Qed.
Lemma keeps_fresh_uuid : keeps (fresh_uuid env).
Proof. pure_step. Qed.
Lemma keeps_fresh_token : keeps (fresh_token env).
Proof. pure_step. Qed.
Lemma keeps_sandbox_policy a b c d e f : keeps (sandbox_policy env cfg a b c d e f).
Proof. pure_step. Qed.

#[local] Hint Resolve keeps_read keeps_read_res keeps_now keeps_read_owned keeps_set_owners keeps_read_entry keeps_set_entry
  keeps_fresh_uuid keeps_fresh_token keeps_sandbox_policy : triples.
#[local] Hint Extern 1 (holds inv guar (invoke _ _ _)) => (apply keeps_perform; reflexivity) : triples.

Lemma keeps_update_launch i ex ns w s m e : Forall (fun x => launch_edge x ns) ex -> keeps (update_launch env i ex ns w s m e).
Proof.
  intros Hex. unfold update_launch. apply holds_bind; [typeclasses eauto|apply keeps_now|intros t].
  apply keeps_on_db; [intros; now apply update_launch_state_wf|intros; now apply update_launch_state_evolves].
Qed.

Lemma keeps_transition i ex ns st a b c : Forall (fun x => session_edge x ns) ex ->
  keeps (on_db (transition_session i ex ns st a b c)).
Proof. intros Hex. apply keeps_on_db; [intros; now apply transition_session_wf|intros; now apply transition_session_evolves]. Qed.

Lemma keeps_transition_stopped i ex ns : Forall (fun x => session_edge x ns) ex -> keeps (transition_stopped env i ex ns).
Proof.
  intros Hex. apply holds_bind; [typeclasses eauto|apply keeps_now|intros t]. now apply keeps_transition.
Qed.

Lemma keeps_release i : keeps (release_leases env i).
Proof.
  apply holds_bind; [typeclasses eauto|apply keeps_now|intros t].
  apply keeps_on_db; [intros; now apply release_session_leases_wf|intros; apply release_leases_evolves].
Qed.

Lemma keeps_fail_launches i t m e : keeps (on_db (fail_launches_for_session i t m e)).
Proof. apply keeps_on_db; [intros; now apply fail_launches_for_session_wf|intros; apply fail_launches_evolves]. Qed.

Lemma keeps_create_workspace w : keeps (on_db (create_workspace w)).
Proof. apply keeps_on_db; [intros; now apply create_workspace_wf|intros; apply create_workspace_evolves]. Qed.

Lemma keeps_claim i w p g rq u : keeps (claim env i w p g rq u).
Proof.
  apply holds_bind; [typeclasses eauto|apply keeps_now|intros t].
  apply keeps_on_db; [intros; now apply claim_session_wf|intros; now apply claim_session_evolves].
Qed.

#[local] Hint Resolve keeps_release keeps_fail_launches keeps_create_workspace keeps_claim : triples.
#[local] Hint Extern 1 (holds inv guar (update_launch _ _ _ _ _ _ _ _)) =>
  (apply keeps_update_launch; repeat constructor) : triples.
#[local] Hint Extern 1 (holds inv guar (transition_stopped _ _ _ _)) =>
  (apply keeps_transition_stopped; repeat constructor) : triples.
#[local] Hint Extern 1 (holds inv guar (transition _ _ _)) => (apply keeps_transition; repeat constructor) : triples.
#[local] Hint Extern 1 (holds inv guar (on_db (transition_session _ _ _ _ _ _ _))) =>
  (apply keeps_transition; repeat constructor) : triples.

(** ** Private state *)
Lemma keeps_set_file s n x : keeps (set_file s n x).
Proof. unfold set_file. solve_triple. Qed.
#[local] Hint Resolve keeps_set_file : triples.

Lemma keeps_remove_dir s : keeps (remove_dir env s).
Proof. unfold remove_dir. solve_triple. Qed.
Lemma keeps_unlink s n : keeps (unlink_private env s n).
Proof. unfold unlink_private. solve_triple. Qed.
#[local] Hint Resolve keeps_remove_dir keeps_unlink : triples.

(** A call whose answer is looked at before the next step. *)
Lemma keeps_after {A B} c (answer : Trace -> A) (k : A -> Eff World B) : is_removal c = false -> (forall a, keeps (k a)) ->
  keeps (fun w => let '(w', a) := perform env c answer w in k a w').
Proof.
  intros Hc Hk w w' r Hi _ E. destruct (perform env c answer w) as [w1 a] eqn:Ep.
  destruct (perform_step _ _ _ _ _ Hi Ep) as (Hi1 & Et & _ & He). destruct (Hk a w1 w' r Hi1 Logic.I E) as (H1 & H2 & _).
  split_and!; [exact H1| |auto]. etrans; [|exact H2]. split; [|exact He]. exists [c]. split; [exact Et|now apply safe_one].
Qed.

Lemma keeps_exclusive_write s n content : keeps (exclusive_private_write env s n content).
Proof.
  unfold exclusive_private_write. apply holds_bind; [typeclasses eauto|auto with triples|intros [[files|b|]|]].
  - destruct (is_some (files !! n)); [auto with triples|]. apply keeps_after; [reflexivity|]. intros [|e|e]; cbn; solve_triple.
  - apply keeps_after; [reflexivity|]. intros [|e|e]; cbn; solve_triple.
  - auto with triples.
  - auto with triples.
Qed.
#[local] Hint Resolve keeps_exclusive_write : triples.

Lemma keeps_make_dir s : keeps (make_session_dir env s).
Proof. unfold make_session_dir. solve_triple. Qed.

Lemma keeps_on_Exception {A} (m : Eff World A) h : keeps m -> keeps h -> keeps (on_Exception m h).
Proof.
  intros Hm Hh. unfold on_Exception. apply holds_try; [typeclasses eauto|exact Hm|]. intros e k.
  destruct (is_Exception e); [|discriminate]. intros E; injection E as <-. solve_triple.
Qed.
#[local] Hint Resolve keeps_make_dir : triples.

Lemma keeps_write_secrets s u t : keeps (write_runtime_secrets env s u t).
Proof.
  unfold write_runtime_secrets. solve_triple; apply keeps_on_Exception; solve_triple.
Qed.

Lemma keeps_invalidate_name s n : keeps (invalidate_name env s n).
Proof. unfold invalidate_name. solve_triple. Qed.
#[local] Hint Resolve keeps_invalidate_name : triples.

Lemma holds_catch {A} (m : Eff World A) p (k : Eff World A) : keeps m -> keeps k ->
  keeps (eff_try m (fun e => if p e : bool then Some k else None)).
Proof.
  intros Hm Hk. apply holds_try; [typeclasses eauto|exact Hm|]. intros e k'. destruct (p e); [|discriminate].
  intros E; injection E as <-. exact Hk.
Qed.

Lemma keeps_invalidate s : keeps (invalidate_session_private_state env s).
Proof.
  unfold invalidate_session_private_state. apply holds_bind; [typeclasses eauto|auto with triples|].
  assert (Hrest : keeps (_ ← eff_iter (invalidate_name env s) [PRIVATE_JSON; PRIVATE_CONFIG];
                         eff_try (remove_dir env s) (fun e => if is_OSError e then Some (mret tt) else None))).
  { apply holds_bind; [typeclasses eauto|apply holds_iter; [typeclasses eauto|auto with triples]|intros _].
    apply holds_catch; auto with triples. }
  intros [[files| |]|]; auto with triples.
Qed.

Lemma keeps_ignore {A} (m : Eff World A) : keeps m -> keeps (ignore_Exception m).
Proof. intros Hm. apply holds_catch; [|auto with triples]. solve_triple. Qed.

Lemma keeps_attempt {A} (m : Eff World A) : keeps m -> keeps (attempt m).
Proof.
  intros Hm. unfold attempt. apply holds_try; [typeclasses eauto|solve_triple|]. intros e k.
  destruct (is_Exception e); [|discriminate]. intros E; injection E as <-. auto with triples.
Qed.

Lemma keeps_collect {A} (m : Eff World A) l : keeps m -> keeps (collect_Exception m l).
Proof.
  intros Hm. unfold collect_Exception. apply holds_try; [typeclasses eauto|solve_triple|]. intros e k.
  destruct (is_Exception e); [|discriminate]. intros E; injection E as <-. auto with triples.
Qed.

#[local] Hint Resolve keeps_write_secrets keeps_invalidate keeps_ignore keeps_attempt keeps_collect : triples.

(** ** Stopping a runtime and removing its network *)
Lemma keeps_is_alive r : keeps (is_alive env r).
Proof. now apply keeps_perform. Qed.
Lemma keeps_stop_runtime r : keeps (stop_runtime env r).
Proof. now apply keeps_perform. Qed.
#[local] Hint Resolve keeps_is_alive keeps_stop_runtime : triples.

Lemma is_alive_triple r :
  triple inv guar (fun _ => True) (is_alive env r) (fun b w => b = false -> seen_stopped (trace w) r).
Proof.
  intros w w' x Hi _ E. destruct (keeps_perform (IsAlive r) (fun t => on_is_alive env t r) eq_refl w w' x Hi Logic.I E) as (H1 & H2 & _).
  split_and!; [exact H1|exact H2|]. intros b -> ->. injection E as Ew Ea. exists (trace w). subst w'. auto.
Qed.

Lemma attempt_triple {A} (m : Eff World A) (Q : A -> World -> Prop) : triple inv guar (fun _ => True) m Q ->
  triple inv guar (fun _ => True) (attempt m) (fun x w => match x with inl a => Q a w | inr _ => True end).
Proof.
  intros Hm. unfold attempt. apply triple_try; [typeclasses eauto| |].
  - eapply triple_bind; [typeclasses eauto|exact Hm|]. intros a. apply triple_value; [typeclasses eauto|auto].
  - intros e k. destruct (is_Exception e); [|discriminate]. intros E; injection E as <-.
    apply triple_value; [typeclasses eauto|auto].
Qed.

(** [True] for its result means that the runtime was just seen stopped. *)
Lemma stop_and_confirm_triple r b :
  triple inv guar (fun _ => True) (stop_and_confirm_runtime env r b)
    (fun c w => fst c = true -> seen_stopped (trace w) r).
Proof.
  unfold stop_and_confirm_runtime.
  apply triple_after; [typeclasses eauto|auto with triples|]. intros [alive|e].
  2: { apply triple_value; [typeclasses eauto|]. discriminate. }
  apply triple_after; [typeclasses eauto|destruct (alive && b); auto with triples|]. intros failures.
  eapply triple_bind; [typeclasses eauto|apply (attempt_triple _ _ (is_alive_triple r))|].
  intros [[|]|e]; (apply triple_value; [typeclasses eauto|]); intros w Hw; cbn; auto; discriminate.
Qed.

Lemma network_remove_triple s p :
  plan_of cfg s = Ok p ->
  triple inv guar (fun w => seen_stopped (trace w) (runtime_name_of s)) (network_remove env p) (fun _ _ => True).
Proof.
  intros Hp w w' r Hi Hs E. destruct (perform_step _ _ _ _ _ Hi E) as (Hi' & Et & _ & He).
  split_and!; [exact Hi'| |auto]. split; [|exact He]. exists [NetworkRemove p]. split; [exact Et|].
  intros a q b Ea. destruct a as [|x [|]]; [|discriminate|discriminate]. injection Ea as <- _.
  exists s. split; [exact Hp|]. now rewrite app_nil_r.
Qed.
(** The removal that follows a confirmation. *)
Lemma remove_network_triple s p b l :
  plan_of cfg s = Ok p ->
  triple inv guar (fun w => b = true -> seen_stopped (trace w) (runtime_name_of s)) (remove_network_if env b p l)
    (fun _ _ => True).
Proof.
  intros Hp. unfold remove_network_if. destruct b; [|apply triple_value; [typeclasses eauto|auto]].
  unfold collect_Exception. apply triple_try; [typeclasses eauto| |].
  - eapply triple_bind with (Q := fun _ _ => True); [typeclasses eauto| |intros ?; apply triple_value; [typeclasses eauto|auto]].
    eapply triple_conseq; [apply (network_remove_triple s p Hp)|cbv beta; auto|auto].
  - intros e k. destruct (is_Exception e); [|discriminate]. intros E; injection E as <-.
    apply triple_value; [typeclasses eauto|auto].
Qed.

(** What follows the confirmation, when nothing more is said of its state. *)
Lemma triple_top {A} (P : World -> Prop) (m : Eff World A) : keeps m -> triple inv guar P m (fun _ _ => True).
Proof. intros Hm. eapply triple_conseq; [exact Hm|easy|easy]. Qed.

(** Confirm, compute the plan, remove: the pattern of every teardown. *)
Lemma keeps_teardown {A} s r b (plan : res FirewallPlan) (k : list exn -> Eff World A) :
  r = runtime_name_of s -> plan = plan_of cfg s -> (forall l, keeps (k l)) ->
  keeps (confirmed ← stop_and_confirm_runtime env r b;
         plan ← eff_lift plan;
         failures ← remove_network_if env (fst confirmed) plan (snd confirmed);
         k failures).
Proof.
  intros -> -> Hk. eapply triple_bind; [typeclasses eauto|apply stop_and_confirm_triple|]. intros [c l].
  eapply triple_bind; [typeclasses eauto|apply triple_lift; typeclasses eauto|]. intros p.
  eapply triple_bind; [typeclasses eauto| |intros l'; apply triple_top, Hk]. cbv beta. cbn [fst snd].
  intros w w' x Hi [Hp Hs] E. exact (remove_network_triple s p c l (eq_sym (eq_sym Hp)) w w' x Hi Hs E).
Qed.

Lemma keeps_retire session e b : named session -> session_edge e "failed" -> session_edge e "stopping" ->
  keeps (retire_session env cfg session e b).
Proof.
  intros Hn H1 H2. unfold retire_session. apply (keeps_teardown (s_id session)); [exact Hn|reflexivity|]. intros failures.
  assert (Hf : Forall (fun x => session_edge x "failed") [e]) by auto.
  assert (Hs : Forall (fun x => session_edge x "stopping") [e]) by auto.
  pose proof (keeps_transition_stopped (s_id session) _ _ Hf).
  pose proof (keeps_transition (s_id session) _ _ None None None None Hs). solve_triple.
Qed.

(** ** Reusing a session *)
Lemma keeps_read_credentials s : keeps (read_runtime_credentials s).
Proof. unfold read_runtime_credentials. solve_triple. Qed.
#[local] Hint Resolve keeps_read_credentials : triples.

Lemma keeps_reattest s : keeps (reattest_ready_session env cfg s).
Proof. unfold reattest_ready_session, verify_ready, wait_ready, check_readiness. solve_triple. Qed.
#[local] Hint Resolve keeps_reattest : triples.

Lemma keeps_reuse_ready i rq s : named s -> keeps (reuse_ready env cfg i rq s).
Proof.
  intros Hn. unfold reuse_ready, mark_launch_ready.
  assert (Hr : forall b, keeps (retire_session env cfg s "ready" b)) by (intros b; apply keeps_retire; [exact Hn|constructor|constructor]).
  solve_triple.
Qed.

(** A session read from the database is named after its container. *)
Definition all_named (o : option SessionRecord) (_ : World) : Prop := forall s, o = Some s -> named s.

Lemma fetch_named q : triple inv guar (fun _ => True) (read_db (fun d => fetchone q (notebook_sessions d))) all_named.
Proof.
  intros w w' r Hi _ E. destruct (keeps_read _ _ _ _ Hi Logic.I E) as (H1 & H2 & _). split_and!; [exact H1|exact H2|].
  intros o -> s ->. injection E as _ Ef. apply fetchone_some in Ef as [Hin _].
  destruct Hi as [_ Hn]. rewrite Forall_forall in Hn. apply Hn. now apply list_elem_of_In.
Qed.

Lemma keeps_fetch_named {B} q (k : option SessionRecord -> Eff World B) :
  (forall o, (forall s, o = Some s -> named s) -> keeps (k o)) ->
  keeps (o ← read_db (fun d => fetchone q (notebook_sessions d)); k o).
Proof.
  intros Hk. eapply triple_bind; [typeclasses eauto|apply fetch_named|]. intros o w w' r Hi Ho E.
  exact (Hk o Ho w w' r Hi Logic.I E).
Qed.

Lemma keeps_wait_owner s : keeps (fun w : World => let '(w', b) := perform env (WaitOwner s) (fun t => on_wait_owner env t s) w in (w', Ok b)).
Proof. apply (keeps_after (WaitOwner s) _ (fun b w' => (w', Ok b))); [reflexivity|]. intros b. apply holds_ret. typeclasses eauto. Qed.
#[local] Hint Resolve keeps_wait_owner : triples.

Lemma keeps_reuse fuel i rq s : named s -> keeps (reuse_existing_session env cfg fuel i rq s).
Proof.
  revert s. induction fuel as [|fuel IH]; intros s Hn; cbn [reuse_existing_session]; [auto with triples|].
  destruct (String.eqb (s_state s) "stopping"); [auto with triples|].
  destruct (String.eqb (s_state s) "ready"); [now apply keeps_reuse_ready|].
  destruct (negb (String.eqb (s_state s) "starting")); [auto with triples|].
  assert (Hr : keeps (retire_session env cfg s "starting" true)) by (apply keeps_retire; [exact Hn|constructor|constructor]).
  apply holds_bind; [typeclasses eauto|auto with triples|intros [|]]; cbn [negb].
  - apply holds_bind; [typeclasses eauto|auto with triples|intros _].
    do 3 (apply holds_bind; [typeclasses eauto|eauto 3 with triples|intros ?]). destruct (negb _); [auto with triples|].
    apply keeps_fetch_named. intros [cur|] Hc; [|auto with triples].
    apply holds_bind; [typeclasses eauto|auto with triples|intros _].
    destruct (negb _); [auto with triples|]. now apply IH, Hc.
  - apply keeps_fetch_named. intros [cur|] Hc; [|auto with triples].
    destruct (negb _); [now apply IH, Hc|]. solve_triple.
Qed.

(** ** Reconciling and stopping *)
Lemma keeps_reconcile_sessions l n : Forall named l -> keeps (reconcile_sessions env cfg l n).
Proof.
  intros Hl. revert n. induction Hl as [|s l Hn Hl IH]; intros n; cbn [reconcile_sessions]; [auto with triples|].
  apply holds_bind; [typeclasses eauto|auto with triples|intros [|]]; [apply IH|].
  apply holds_bind; [typeclasses eauto|apply keeps_retire; [exact Hn|constructor|constructor]|intros _; apply IH].
Qed.

Lemma keeps_reconcile : keeps (reconcile_starting_sessions env cfg).
Proof.
  apply (triple_bind inv guar (fun _ => True) _ _ (fun l _ => Forall named l)).
  - intros w w' r Hi _ E. destruct (keeps_read _ _ _ _ Hi Logic.I E) as (H1 & H2 & _). split_and!; [exact H1|exact H2|].
    intros l ->. injection E as _ <-. destruct Hi as [_ Hn]. apply Forall_forall. intros s Hs. rewrite Forall_forall in Hn.
    apply Hn. apply list_elem_of_In in Hs. apply list_elem_of_In. now apply select_spec in Hs.
  - intros l w w' r Hi Hl E. exact (keeps_reconcile_sessions l 0 Hl w w' r Hi Logic.I E).
Qed.

Lemma keeps_teardown_plan {A} s r b p (k : list exn -> Eff World A) :
  r = runtime_name_of s -> plan_of cfg s = Ok p -> (forall l, keeps (k l)) ->
  keeps (confirmed ← stop_and_confirm_runtime env r b;
         failures ← remove_network_if env (fst confirmed) p (snd confirmed);
         k failures).
Proof.
  intros -> Hp Hk. eapply triple_bind; [typeclasses eauto|apply stop_and_confirm_triple|]. intros [c l].
  eapply triple_bind; [typeclasses eauto| |intros l'; apply triple_top, Hk]. exact (remove_network_triple s p c l Hp).
Qed.

(** A session row that a method returns. *)
Definition row_of (i : uuid) (d : db) (s : SessionRecord) : Prop := In s (notebook_sessions d) /\ s_id s = i.

Lemma transition_row i ex ns st a b c d d' s : transition_session i ex ns st a b c d = (d', Ok s) -> row_of i d' s.
Proof.
  unfold transition_session. destruct ex as [|x ex]; [discriminate|]. intros H0. apply transaction_ok in H0.
  unfold tx_bind, tx_update, tx_fetchone, tx_raise_if in H0. destruct (sql_update _ _ _) as [[t' n]|]; [|discriminate].
  destruct (negb (n =? 1)); [discriminate|]. cbn [tx_ret] in H0. destruct (fetchone _ _) as [r|] eqn:Ef; [|discriminate].
  unfold tx_ret in H0. assert (r = s) by congruence. subst r. apply fetchone_some in Ef as [Hin Hid].
  apply String.eqb_eq in Hid. split; [|exact Hid]. replace d' with (set_tbl t' d) by congruence. exact Hin.
Qed.

Lemma claim_row i w r p g a u t d d' s b : claim_session i w r p g a u t true d = (d', Ok (s, b)) ->
  In s (notebook_sessions d').
Proof.
  unfold claim_session. intros H0. apply transaction_ok in H0. unfold tx_bind, tx_fetchone, tx_catch_integrity, tx_insert in H0.
  destruct (fetchone _ (tbl d)) as [x|] eqn:Ef.
  - unfold tx_ret in H0. assert (x = s /\ d' = d) as [-> ->] by (split; congruence). now apply fetchone_some in Ef.
  - destruct (tbl_fk d _); [|discriminate]. destruct (sql_insert _ _) as [t'|]; [|discriminate]. cbv beta iota in H0. clear Ef.
    destruct (fetchone _ _) as [r'|] eqn:Eg; [|discriminate]. unfold tx_ret in H0.
    assert (r' = s) by congruence. subst r'. replace d' with (set_tbl t' d) by congruence. now apply fetchone_some in Eg.
Qed.

Lemma on_db_rows {A} (m : db -> db * res A) (Q : A -> db -> Prop) : keeps (on_db m) ->
  (forall d d' a, m d = (d', Ok a) -> Q a d') ->
  triple inv guar (fun _ => True) (on_db m) (fun a w => Q a (db_of w) /\ inv w).
Proof.
  intros Hk Hq w w' r Hi _ E. destruct (Hk _ _ _ Hi Logic.I E) as (H1 & H2 & _). split_and!; [exact H1|exact H2|].
  intros a ->. split; [|exact H1]. unfold on_db in E. destruct (m (sh_db (shared w))) as [d x] eqn:Em.
  injection E as <- ->. exact (Hq _ _ _ Em).
Qed.

Lemma inv_row w s : inv w -> In s (notebook_sessions (db_of w)) -> named s.
Proof. intros [_ Hn] Hin. rewrite Forall_forall in Hn. apply Hn. now apply list_elem_of_In. Qed.

Lemma launch_stop_edge w d l : In l (workspace_launches w d) -> launch_edge (l_state l) "stopped".
Proof.
  intros Hl. apply select_spec in Hl as [_ Hl]. apply andb_true_iff in Hl as [_ Hl]. apply str_mem_In in Hl.
  destruct Hl as [<-|[<-|[]]]; constructor.
Qed.

Lemma keeps_set_workspace w : keeps (set_workspace_launch_state env w "stopped").
Proof.
  apply (triple_bind inv guar (fun _ => True) _ _ (fun l _ => Forall (fun r => launch_edge (l_state r) "stopped") l)).
  - intros x x' r Hi _ E. destruct (keeps_read _ _ _ _ Hi Logic.I E) as (H1 & H2 & _). split_and!; [exact H1|exact H2|].
    intros l ->. injection E as _ <-. apply Forall_forall. intros l Hl. apply list_elem_of_In in Hl. now apply launch_stop_edge in Hl.
  - intros l x x' r Hi Hl E. assert (Hk : keeps (eff_iter (fun row => ignore_Exception
      (update_launch env (l_id row) [l_state row] "stopped" (Some w) None None None)) l)).
    { apply holds_iter; [typeclasses eauto|]. intros row Hr. apply keeps_ignore, keeps_update_launch.
      rewrite Forall_forall in Hl. constructor; [|constructor]. apply Hl. now apply list_elem_of_In. }
    exact (Hk _ _ _ Hi Logic.I E).
Qed.
#[local] Hint Resolve keeps_set_workspace : triples.

(** A session read by its id. *)
Lemma fetch_row i :
  triple inv guar (fun _ => True) (read_db (get_session i)) (fun o _ => forall s, o = Some s -> named s /\ s_id s = i).
Proof.
  intros w w' r Hi _ E. destruct (fetch_named _ w w' r Hi Logic.I E) as (H1 & H2 & H3). split_and!; [exact H1|exact H2|].
  intros o -> s ->. split; [exact (H3 _ eq_refl s eq_refl)|]. injection E as _ Ef. apply fetchone_some in Ef as [_ Hid].
  now apply String.eqb_eq.
Qed.

Lemma holds_bind_ret {A B} (a : A) (k : A -> Eff World B) : keeps (k a) -> keeps (mret a ≫= k).
Proof. intros Hk. exact Hk. Qed.

(** The teardown of [stop], once the session is recorded as stopping. *)
Lemma keeps_stop_rest i s : s_runtime_id s = runtime_name_of i ->
  keeps (plan ← eff_lift (plan_of cfg i);
         confirmed ← stop_and_confirm_runtime env (s_runtime_id s) true;
         failures ← remove_network_if env (fst confirmed) plan (snd confirmed);
         _ ← invalidate_session_private_state env i;
         _ ← release_leases env i;
         match failures with
         | [] => _ ← transition_stopped env i ["stopping"%string] "stopped";
                 _ ← set_workspace_launch_state env (s_workspace_id s) "stopped";
                 mret true
         | _ => _ ← eff_lift (raise_cleanup_failures "runtime cleanup failed" failures); mret true
         end).
Proof.
  intros Hr. eapply triple_bind; [typeclasses eauto|apply (triple_lift inv guar (fun _ => True))|].
  intros p w w' r Hi [Hp _] E. revert w w' r Hi E.
  assert (Hk : keeps (confirmed ← stop_and_confirm_runtime env (s_runtime_id s) true;
     failures ← remove_network_if env (fst confirmed) p (snd confirmed);
     _ ← invalidate_session_private_state env i;
     _ ← release_leases env i;
     match failures with
     | [] => _ ← transition_stopped env i ["stopping"%string] "stopped";
             _ ← set_workspace_launch_state env (s_workspace_id s) "stopped";
             mret true
     | _ => _ ← eff_lift (raise_cleanup_failures "runtime cleanup failed" failures); mret true
     end)); [|intros w w' r Hi E; exact (Hk w w' r Hi Logic.I E)].
  apply (keeps_teardown_plan i); [exact Hr|exact Hp|]. intros failures. solve_triple.
Qed.

Lemma keeps_stop i : keeps (stop env cfg i).
Proof.
  unfold stop. eapply triple_bind; [typeclasses eauto|apply (fetch_row i)|]. intros [s|].
  2: { apply triple_value; [typeclasses eauto|auto]. }
  intros w w' r Hi Hs E. destruct (Hs s eq_refl) as [Hn Hid]. revert w w' r Hi E Hs.
  assert (Hr : s_runtime_id s = runtime_name_of i) by (rewrite <- Hid; exact Hn).
  match goal with |- forall w w' r, inv w -> ?m w = _ -> _ => assert (Hk : keeps m) end.
  2: { intros w w' r Hi E _. exact (Hk w w' r Hi Logic.I E). }
  destruct (str_mem _ _); [solve_triple|]. destruct (String.eqb (s_state s) "stopping"); cbn [negb].
  - apply holds_bind_ret. now apply keeps_stop_rest.
  - eapply triple_bind; [typeclasses eauto|apply (on_db_rows _ (fun a d => row_of i d a))|].
    + apply keeps_transition. repeat constructor.
    + intros d d' a. apply transition_row.
    + intros a w w' r Hi [[Hin Hid'] Hi'] E. refine (keeps_stop_rest i a _ w w' r Hi Logic.I E).
      rewrite <- Hid'. exact (inv_row _ _ Hi' Hin).
Qed.

(** ** Launching *)
Lemma keeps_workspace_create sn o r p : keeps (workspace_create env cfg sn o r p).
Proof.
  unfold workspace_create. do 2 (apply holds_bind; [typeclasses eauto|auto with triples|intros ?]).
  apply holds_try; [typeclasses eauto|solve_triple|]. intros e k. destruct (is_Exception e); [|discriminate].
  intros E; injection E as <-. solve_triple.
Qed.

Lemma keeps_reopen i : keeps (workspace_reopen env i).
Proof. unfold workspace_reopen. solve_triple. Qed.
Lemma keeps_source_or_trusted s i : keeps (source_or_trusted s i).
Proof. unfold source_or_trusted. solve_triple. Qed.
Lemma keeps_acquire s : keeps (acquire_source env s).
Proof. now apply keeps_perform. Qed.
#[local] Hint Resolve keeps_workspace_create keeps_reopen keeps_source_or_trusted keeps_acquire : triples.

Lemma keeps_prepare rq src i : keeps (prepare_workspace env cfg rq src i).
Proof. unfold prepare_workspace. solve_triple. Qed.

Lemma keeps_gpu m i : keeps (gpu_allocation env m i).
Proof. unfold gpu_allocation. solve_triple. Qed.

Lemma keeps_persisted i src : keeps (persisted_request i src).
Proof. unfold persisted_request. solve_triple. Qed.
#[local] Hint Resolve keeps_prepare keeps_gpu keeps_persisted : triples.

Lemma keeps_private_is_file s : keeps (private_is_file s).
Proof. unfold private_is_file. solve_triple. Qed.
#[local] Hint Resolve keeps_private_is_file : triples.

(** The local variables of [run]: the runtime and the plan are the session's. *)
Definition consistent (lo : Locals) : Prop :=
  match lo_session_id lo with
  | Some s => lo_runtime_name lo = Some (runtime_name_of s) /\ (forall p, lo_plan lo = Some p -> plan_of cfg s = Ok p)
  | None => lo_plan lo = None
  end.

Definition inv2 (lw : Locals * World) : Prop := inv (snd lw) /\ consistent (fst lw).
Definition guar2 (a b : Locals * World) : Prop := guar (snd a) (snd b).
#[local] Instance guar2_preorder : PreOrder guar2.
Proof. split; [intros a; unfold guar2; reflexivity|]. intros a b c H1 H2. unfold guar2 in *. etrans; eauto. Qed.

Lemma up_triple {A} (F : Locals -> Prop) (m : Eff World A) (Q : A -> World -> Prop) :
  triple inv guar (fun _ => True) m Q ->
  triple inv2 guar2 (fun lw => F (fst lw)) (up m) (fun a lw => Q a (snd lw) /\ F (fst lw)).
Proof.
  intros Hm [lo w] [lo' w'] r [Hi Hc] Hf E. unfold up in E. cbn [snd fst] in *. destruct (m w) as [w1 x] eqn:Em.
  injection E as -> -> ->. destruct (Hm _ _ _ Hi Logic.I Em) as (H1 & H2 & H3). split_and!; [split; [exact H1|exact Hc]|exact H2|auto].
Qed.

Lemma up_keeps {A} (m : Eff World A) : keeps m -> holds inv2 guar2 (up m).
Proof. intros Hm. eapply holds_triple. apply (up_triple (fun _ => True)). exact Hm. Qed.

(** The assignments of the local variables keep them consistent. *)
Lemma assign_triple (F G : Locals -> Prop) f :
  (forall lo, consistent lo -> F lo -> consistent (f lo) /\ G (f lo)) ->
  triple inv2 guar2 (fun lw => F (fst lw)) (assign f) (fun _ lw => G (fst lw)).
Proof.
  intros Hf [lo w] [lo' w'] r [Hi Hc] HF E. injection E as <- <- <-. destruct (Hf lo Hc HF) as [H1 H2].
  split_and!; [split; [exact Hi|exact H1]|unfold guar2; reflexivity|auto].
Qed.

#[local] Hint Extern 2 (holds inv2 guar2 (up _)) => (apply up_keeps; solve_triple) : triples.

Definition session_is (s : uuid) (lo : Locals) : Prop := lo_session_id lo = Some s.

(** A framed step: nothing is known of its result. *)
Lemma up_frame {A} (F : Locals -> Prop) (m : Eff World A) : keeps m ->
  triple inv2 guar2 (fun lw => F (fst lw)) (up m) (fun _ lw => F (fst lw)).
Proof.
  intros Hm. eapply triple_conseq; [apply (up_triple F m (fun _ _ => True) Hm)|auto|]. intros a lw [_ Hf]. exact Hf.
Qed.

Ltac framed s := eapply triple_bind with (Q := fun _ lw => session_is s (fst lw));
  [typeclasses eauto|apply up_frame; auto with triples|intros ?].

Lemma triple2_top {A} (P : Locals * World -> Prop) (m : Eff (Locals * World) A) : holds inv2 guar2 m ->
  triple inv2 guar2 P m (fun _ _ => True).
Proof. intros Hm. eapply triple_conseq; [exact Hm|easy|easy]. Qed.

Lemma keeps_start_session i w s img p g :
  triple inv2 guar2 (fun lw => session_is s (fst lw)) (start_session env cfg i w s img p g) (fun _ _ => True).
Proof.
  unfold start_session. framed s. framed s. framed s.
  eapply triple_bind; [typeclasses eauto|apply (up_triple (session_is s) _ (fun pl _ => plan_of cfg s = Ok pl))|].
  { eapply triple_conseq; [apply (triple_lift inv guar (fun _ => True))|auto|]. now intros pl x [Hp _]. }
  intros plan. eapply triple_bind with (Q := fun _ lw => session_is s (fst lw)); [typeclasses eauto| |].
  - eapply triple_conseq; [apply (assign_triple (fun lo => plan_of cfg s = Ok plan /\ session_is s lo) (session_is s))| |auto].
    + intros lo Hc [Hp Hs]. split; [|exact Hs]. unfold consistent in *. cbn. rewrite Hs in *. destruct Hc as [Hr _].
      split; [exact Hr|]. congruence.
    + intros lw [Hp Hs]. auto.
  - intros _. apply triple2_top. unfold verify_ready, wait_ready, check_readiness. solve_triple.
Qed.

(** ** The rollback *)
Lemma keeps_fail_launch i w : keeps (fail_launch env i w).
Proof.
  unfold fail_launch. apply holds_bind; [typeclasses eauto|auto with triples|intros [l|]]; [|auto with triples].
  destruct (str_mem (l_state l) _) eqn:E; cbn [negb]; [|auto with triples]. apply keeps_ignore, keeps_update_launch.
  constructor; [|constructor]. apply str_mem_In in E. destruct E as [<-|[<-|[]]]; constructor.
Qed.

Lemma keeps_settle s l : keeps (settle_session env s l).
Proof.
  unfold settle_session. apply holds_bind; [typeclasses eauto|auto with triples|intros [c|]]; [|auto with triples].
  destruct (str_mem (s_state c) _) eqn:E; [|auto with triples]. apply keeps_ignore. destruct l as [|e l].
  - assert (Hk : keeps (transition_stopped env s [s_state c] "failed")).
    { apply keeps_transition_stopped. constructor; [|constructor]. apply str_mem_In in E. destruct E as [<-|[<-|[]]]; constructor. }
    solve_triple.
  - destruct (String.eqb (s_state c) "starting"); solve_triple.
Qed.
#[local] Hint Resolve keeps_fail_launch keeps_settle : triples.

Lemma keeps_rollback {A} i lo e : consistent lo -> keeps (rollback (A := A) env i lo e).
Proof.
  intros Hc. unfold rollback, consistent in *. destruct (lo_session_id lo) as [s|].
  - destruct Hc as [-> Hp]. destruct (lo_plan lo) as [p|].
    + apply (keeps_teardown_plan s); [reflexivity|now apply Hp|]. intros l. solve_triple.
    + assert (keeps (stop_and_confirm_runtime env (runtime_name_of s) true)) by (eapply holds_triple, stop_and_confirm_triple).
      solve_triple.
  - rewrite Hc. solve_triple.
Qed.

Definition unclaimed (lo : Locals) : Prop := lo_session_id lo = None.

Ltac framed0 := eapply triple_bind with (Q := fun _ lw => unclaimed (fst lw));
  [typeclasses eauto|apply up_frame; solve_triple|intros ?].

Lemma claim_triple i w p g rq u :
  triple inv guar (fun _ => True) (claim env i w p g rq u) (fun c _ => named (fst c)).
Proof.
  unfold claim. apply triple_after; [typeclasses eauto|auto with triples|intros t].
  eapply triple_conseq; [apply (on_db_rows _ (fun c d => In (fst c) (notebook_sessions d)))|auto|].
  - apply keeps_on_db; [intros; now apply claim_session_wf|intros; now apply claim_session_evolves].
  - intros d d' [s b]. apply claim_row.
  - intros c x [Hin Hi]. exact (inv_row _ _ Hi Hin).
Qed.

(** From the drawing of the session's id to the end. *)
Definition claim_and_start (i : string) (rq : LaunchRequest) (w : WorkspaceRecord) (img : string) (hit : bool)
    (al : GPUAllocation) : Eff (Locals * World) PipelineLaunchResult :=
  session_id ← up (fresh_uuid env);
  _ ← assign (fun lo => mkLocals (Some session_id) (lo_owned_session_id lo) (lo_workspace lo) (lo_plan lo)
                          (Some (runtime_name_of session_id)));
  host_port ← up (invoke env AllocatePort (on_port env));
  let notebook_url := pipeline_notebook_url ("http://127.0.0.1:" ++ str_of_int host_port) (w_active_notebook_path w) in
  claimed ← up (claim env session_id w host_port (ga_enabled al) rq notebook_url);
  if negb (snd claimed) then
    reused ← up (reuse_existing_session env cfg reuse_depth i rq (fst claimed));
    match reused with
    | None => eff_raise (RuntimeError "stale active session was retired; retry launch")
    | Some result => mret result
    end
  else
    _ ← assign (fun lo => mkLocals (lo_session_id lo) (Some session_id) (lo_workspace lo) (lo_plan lo) (lo_runtime_name lo));
    _ ← up (set_owners (cons session_id));
    _ ← start_session env cfg i w session_id img host_port (ga_enabled al);
    mret (mkPipelineResult i (w_id w) session_id notebook_url false (Some hit) (Some al)).

Lemma keeps_claim_and_start i rq w img hit al :
  triple inv2 guar2 (fun lw => unclaimed (fst lw)) (claim_and_start i rq w img hit al) (fun _ _ => True).
Proof.
  unfold claim_and_start. framed0. rename a into s.
  eapply triple_bind with (Q := fun _ lw => session_is s (fst lw)); [typeclasses eauto| |intros _].
  { apply assign_triple. intros lo Hc Hu. unfold consistent, unclaimed, session_is in *. rewrite Hu in Hc. cbn.
    split; [|reflexivity]. split; [reflexivity|]. congruence. }
  framed s. rename a into port.
  eapply triple_bind; [typeclasses eauto|apply (up_triple (session_is s) _ _ (claim_triple _ _ _ _ _ _))|].
  intros [row created]. cbn [fst snd]. destruct created; cbn [negb].
  - eapply triple_bind with (Q := fun _ lw => session_is s (fst lw)); [typeclasses eauto| |intros _].
    { eapply triple_conseq; [apply (assign_triple (session_is s) (session_is s)); auto|intros lw [_ Hs]; exact Hs|auto]. }
    framed s. eapply triple_bind; [typeclasses eauto|apply keeps_start_session|intros u].
    apply triple2_top. auto with triples.
  - intros lw lw' r Hi [Hn _] E.
    assert (Hk : keeps (reuse_existing_session env cfg reuse_depth i rq row)) by now apply keeps_reuse.
    match goal with E : ?m lw = _ |- _ => assert (Hm : holds inv2 guar2 m) by solve_triple end.
    destruct (Hm _ _ _ Hi Logic.I E) as (H1 & H2 & _). auto.
Qed.

Lemma keeps_run_body i rq src :
  triple inv2 guar2 (fun lw => unclaimed (fst lw)) (run_body env cfg i rq src) (fun _ _ => True).
Proof.
  unfold run_body. framed0. destruct a as [[resolved snap] w].
  eapply triple_bind with (Q := fun _ lw => unclaimed (fst lw)); [typeclasses eauto|apply assign_triple; auto|intros _].
  eapply triple_bind; [typeclasses eauto|apply (up_triple unclaimed _ _ (fetch_named _))|intros existing].
  eapply triple_bind with (Q := fun _ lw => unclaimed (fst lw)); [typeclasses eauto| |intros reused].
  { intros lw lw' r Hi [Hn Hu] E. assert (Hk : triple inv2 guar2 (fun lw => unclaimed (fst lw))
      (match existing with Some session => up (reuse_existing_session env cfg reuse_depth i rq session) | None => mret None end)
      (fun _ lw => unclaimed (fst lw))).
    { destruct existing as [s|]; [apply up_frame, keeps_reuse, Hn; reflexivity|apply triple_value; [typeclasses eauto|auto]]. }
    exact (Hk lw lw' r Hi Hu E). }
  destruct reused as [result|]; [apply triple2_top; auto with triples|].
  eapply triple_bind with (Q := fun _ lw => unclaimed (fst lw)); [typeclasses eauto| |intros s].
  { destruct snap; [apply triple_value; [typeclasses eauto|auto]|apply up_frame; auto with triples]. }
  framed0. framed0. framed0. apply keeps_claim_and_start.
Qed.

Lemma keeps_run_admitted i rq src : keeps (run_admitted env cfg i rq src).
Proof.
  intros w w' r Hi _ E. unfold run_admitted in E. destruct (run_body env cfg i rq src (no_locals, w)) as [[lo w1] x] eqn:Eb.
  destruct (keeps_run_body i rq src (no_locals, w) (lo, w1) x (conj Hi eq_refl) eq_refl Eb) as ([H1 Hc] & H2 & _).
  match goal with E : eff_finally ?m ?f w1 = _ |- _ => assert (Hk : keeps (eff_finally m f)) end.
  { apply holds_finally; [typeclasses eauto| |unfold drop_owner; solve_triple].
    destruct x as [a|e]; [auto with triples|]. destruct (is_Exception e); [now apply keeps_rollback|auto with triples]. }
  destruct (Hk _ _ _ H1 Logic.I E) as (H3 & H4 & _). split_and!; [exact H3| |auto]. unfold guar2 in H2. cbn in H2. etrans; eauto.
Qed.
#[local] Hint Resolve keeps_run_admitted : triples.

Lemma keeps_run i rq src : keeps (run env cfg i rq src).
Proof. unfold run. solve_triple. Qed.
Lemma keeps_run_authorized i src : keeps (run_authorized env cfg i src).
Proof. unfold run_authorized. apply holds_bind; [typeclasses eauto|auto with triples|intros [rq s]]. apply keeps_run. Qed.
End Contract.

(** ** The operations of a launcher process *)
Inductive operation :=
| OpRun (launch_id : string) (request : LaunchRequest) (source : option ResolvedSource)
| OpRunAuthorized (launch_id : string) (source : option ResolvedSource)
| OpStop (session_id : uuid)
| OpReconcile.

Section Operations.
Context (env : PipelineEnv) (cfg : PipelineConfig) `{PyFloat}.

Definition execute (o : operation) (w : World) : World :=
  match o with
  | OpRun i rq src => fst (run env cfg i rq src w)
  | OpRunAuthorized i src => fst (run_authorized env cfg i src w)
  | OpStop s => fst (stop env cfg s w)
  | OpReconcile => fst (reconcile_starting_sessions env cfg w)
  end.

Definition execute_all (ops : list operation) (w : World) : World := fold_left (fun w o => execute o w) ops w.

Lemma holds_fst {A} (m : Eff World A) w : holds inv (guar env cfg) m -> inv w ->
  inv (fst (m w)) /\ guar env cfg w (fst (m w)).
Proof. intros Hm Hi. destruct (m w) as [w' r] eqn:E. destruct (Hm _ _ _ Hi Logic.I E) as (H1 & H2 & _). auto. Qed.

Lemma execute_keeps o w : well_behaved env -> inv w -> inv (execute o w) /\ guar env cfg w (execute o w).
Proof.
  intros Hr Hi. destruct o; cbn [execute]; apply holds_fst; auto using keeps_run, keeps_run_authorized, keeps_stop, keeps_reconcile.
Qed.

Lemma execute_all_keeps ops w : well_behaved env -> inv w -> inv (execute_all ops w) /\ guar env cfg w (execute_all ops w).
Proof.
  intros Hr. unfold execute_all. revert w. induction ops as [|o ops IH]; intros w Hi; cbn [fold_left].
  - split; [exact Hi|]. apply guar_preorder.
  - destruct (execute_keeps o w Hr Hi) as [H1 H2]. destruct (IH _ H1) as [H3 H4]. split; [exact H3|].
    exact (PreOrder_Transitive (R := guar env cfg) _ _ _ H2 H4) || (eapply guar_preorder; eauto).
Qed.

(** C8: the pipeline implements the life cycles of sessions and launches.
    Whatever the network, the runtime, the builder, the files and the probes
    answer or raise, and whatever other threads do along the same life
    cycles, any sequence of launches, stops and reconciliations moves every
    session and every launch only along the edges of its machine; no row is
    deleted, none changes its identity, new sessions start as [starting] with
    nothing verified, and a session that has ended stays as it was. *)
Theorem pipeline_refines_lifecycles ops w :
  well_behaved env -> inv w ->
  db_evolves named (db_of w) (db_of (execute_all ops w)) /\
  (forall s, In s (notebook_sessions (db_of w)) -> str_mem (s_state s) ["stopped"; "failed"]%string = true ->
     In s (notebook_sessions (db_of (execute_all ops w)))).
Proof.
  intros Hr Hi. destruct (execute_all_keeps ops w Hr Hi) as [_ [_ He]]. split; [exact He|]. intros s Hs Hend.
  destruct He as [He _]. destruct (evolves_In _ _ _ _ _ He Hs) as (s' & Hin & Hstep).
  now rewrite (ended_is_final _ _ Hend Hstep) in Hin.
Qed.


(** C5: the network policy outlives the runtime.  In whatever the pipeline
    does, on success and in every rollback, a network is removed only as the
    network of some session, and the call just before saw the container of
    that session not running; so no container that may still run loses its
    egress policy. *)
Theorem network_removed_after_stop ops w :
  well_behaved env -> inv w ->
  exists tr, trace (execute_all ops w) = trace w ++ tr /\
    forall a p b, tr = a ++ NetworkRemove p :: b ->
      exists session_id pre, plan_of cfg session_id = Ok p /\
        trace w ++ a = pre ++ [IsAlive (runtime_name_of session_id)] /\
        on_is_alive env pre (runtime_name_of session_id) = Ok false.
Proof.
  intros Hr Hi. destruct (execute_all_keeps ops w Hr Hi) as [_ [(tr & Et & Hs) _]]. exists tr. split; [exact Et|].
  intros a p b E. destruct (Hs a p b E) as (s & Hp & pre & Hpre & Ha). exists s, pre. auto.
Qed.

(** ** The recursion of [_reuse_existing_session] *)
Lemma bind_ext {A B} (m : Eff World A) (k k' : A -> Eff World B) w :
  (forall a x, k a x = k' a x) -> (m ≫= k) w = (m ≫= k') w.
Proof. intros Hk. unfold mbind, eff_bind. destruct (m w) as [x [a|e]]; [apply Hk|reflexivity]. Qed.

Lemma reuse_settled n i rq s w : s_state s <> "starting"%string ->
  reuse_existing_session env cfg (S n) i rq s w = reuse_existing_session env cfg 1 i rq s w.
Proof.
  intros Hs. cbn [reuse_existing_session]. apply String.eqb_neq in Hs. rewrite Hs. cbn [negb]. reflexivity.
Qed.

(** The reuse of a session terminates: it calls itself at most once,
    because the inner call is about a session that has left [starting]; two
    levels of recursion give the result of any deeper limit. *)
Theorem reuse_terminates n i rq s w :
  reuse_existing_session env cfg (reuse_depth + n) i rq s w = reuse_existing_session env cfg reuse_depth i rq s w.
Proof.
  unfold reuse_depth. cbn [Nat.add]. remember 1%nat as one eqn:E1. remember (S n) as m eqn:Em.
  cbn [reuse_existing_session]. subst one m.
  destruct (String.eqb (s_state s) "stopping"); [reflexivity|]. destruct (String.eqb (s_state s) "ready"); [reflexivity|].
  destruct (negb (String.eqb (s_state s) "starting")); [reflexivity|].
  repeat (apply bind_ext; intros ? ?). destruct (negb _).
  - destruct a0 as [cur|]; [|reflexivity]. destruct (String.eqb_spec (s_state cur) "starting"); cbn [negb]; [reflexivity|].
    now apply reuse_settled.
  - repeat (apply bind_ext; intros ? ?). destruct (negb _); [reflexivity|].
    repeat (apply bind_ext; intros ? ?). destruct a4 as [cur|]; [|reflexivity].
    apply bind_ext; intros ? ?. destruct (String.eqb_spec (s_state cur) "ready") as [Er|]; cbn [negb]; [|reflexivity].
    apply reuse_settled. congruence.
Qed.
End Operations.

(** ** Witnesses *)

(** A launcher whose collaborators do what they are asked and nobody else
    runs. *)
Definition pipeline_now : string := "2024-01-02T03:04:05+00:00".
Definition pipeline_ids : list string :=
  ["0f8fad5b-d9cb-469f-a165-70867728950e"; "7c9e6679-7425-40de-944b-e07fc1f90ae7"]%string.

(** A container runs from its start to its removal. *)
Fixpoint running (runtime_id : string) (reversed : Trace) : bool :=
  match reversed with
  | [] => false
  | StartRuntime p _ _ :: t => String.eqb (sp_container_name p) runtime_id || running runtime_id t
  | StopRuntime r :: t => negb (String.eqb r runtime_id) && running runtime_id t
  | _ :: t => running runtime_id t
  end.

Definition pipeline_identity : EnvironmentIdentity :=
  mkEnvironmentIdentity 42 "" "" "" "" "notebook-launcher/42:0123456789abcdef0123".

Definition sample_env : PipelineEnv := {|
  on_acquire _ s := Ok (mkSourceSnapshot "/srv/sources/42" "/srv/sources/42/a.ipynb" (rs_repository_id s) (rs_commit_sha s) "digest");
  on_make_workspace _ _ := Ok tt;
  on_materialize _ _ _ := Ok tt;
  on_remove_tree _ _ := Ok tt;
  on_check_files _ _ := Ok tt;
  on_ensure _ _ _ := Ok (mkBuildResult pipeline_identity true "sha256:1" 0);
  on_host_gpu _ := Ok (no_gpu None);
  on_container_gpu _ _ := Ok (no_gpu None);
  on_port _ := Ok 40001;
  on_apply _ p := Ok (mkAttestation (network_name p) (bridge_name p) true 1 true true false [["true"%string]]);
  on_verify _ p := Ok (mkAttestation (network_name p) (bridge_name p) true 1 true true false [["true"%string]]);
  on_remove _ _ := Ok tt;
  on_start _ p c _ := Ok (mkRuntimeStart "c0ffee" c true true (sp_gpu_enabled p) false);
  on_readiness _ s _ := Ok (mkRuntimeReadiness (rs_container_id s) true true true true);
  on_wait_ready _ _ _ _ := Ok true;
  on_is_alive t r := Ok (running r (rev t));
  on_stop _ _ := Ok tt;
  on_make_dir _ _ := Ok tt;
  on_restrict _ _ := Ok tt;
  on_write _ _ _ := Written;
  on_unlink _ _ _ := Ok tt;
  on_remove_dir _ _ := Ok tt;
  on_wait_owner _ _ := false;
  new_uuid t := nth (List.length t mod 2) pipeline_ids ""%string;
  new_token _ := "sample-token";
  clock _ := pipeline_now;
  host_now _ := mkHost (fun s => Ok s) (fun s => Ok s) (fun _ => false) (fun _ => Err (FileNotFoundError ""));
  interfere _ _ sh := sh |}%string.

Definition sample_config : PipelineConfig :=
  mkPipelineConfig "/srv/workspaces" "/srv/runtime" "8g" "4.0" 1024 "repo2docker 2024.07.0" ["9.9.9.9"%string].

(** One workspace and one authorized launch of it. *)
Definition authorized_db : db :=
  fst (create_launch "launch-2" "digest" (Some 7) None None (Some "ws-1"%string) "off" "write" true "authorized"
         pipeline_now sample_workspace_db).
Definition sample_world : World := mkWorld [] 0 (mkShared authorized_db ∅ []).

Definition sample_request : LaunchRequest :=
  mkLaunchRequest None None None None (Some "ws-1"%string) GPU_OFF AgentMode_WRITE.

#[export] Instance no_floats : PyFloat := fun s => s.

Lemma sample_behaves : well_behaved sample_env.
Proof. intros t c sh Hwf Hn. split; [exact Hwf|]. reflexivity. Qed.

Lemma sample_world_inv : inv sample_world.
Proof. split; [apply create_launch_wf, sample_workspace_db_wf|]. constructor. Qed.

Definition sample_ops : list operation :=
  [OpRun "launch-2" sample_request None; OpReconcile; OpStop (nth 1 pipeline_ids ""%string)].

(** The session that the launch makes, then the stop of it. *)
Example pipeline_ex :
  let after_run := execute_all sample_env sample_config (firstn 1 sample_ops) sample_world in
  let after_stop := execute_all sample_env sample_config sample_ops sample_world in
  map (fun s => (s_state s, s_host_port s)) (notebook_sessions (db_of after_run)) = [("ready"%string, 40001)] /\
  map l_state (launches (db_of after_run)) = ["starting"; "ready"]%string /\
  map s_state (notebook_sessions (db_of after_stop)) = ["stopped"%string] /\
  map l_state (launches (db_of after_stop)) = ["starting"; "stopped"]%string.
Proof. vm_compute. auto. Qed.

Lemma pipeline_refines_lifecycles_witness :
  db_evolves named (db_of sample_world) (db_of (execute_all sample_env sample_config sample_ops sample_world)).
Proof. exact (proj1 (pipeline_refines_lifecycles sample_env sample_config sample_ops sample_world sample_behaves sample_world_inv)). Defined.


Lemma network_removed_after_stop_witness :
  exists tr, trace (execute_all sample_env sample_config sample_ops sample_world) = trace sample_world ++ tr.
Proof.
  destruct (network_removed_after_stop sample_env sample_config sample_ops sample_world sample_behaves sample_world_inv)
    as (tr & Et & _). exists tr. exact Et.
Defined.

Lemma reuse_terminates_witness :
  reuse_existing_session sample_env sample_config 2 "launch-2" sample_request
    (mkSession "se-9" "ws-1" "rt-9" 1 false "write" true true true "starting" "u" "t" None) sample_world
  = reuse_existing_session sample_env sample_config 7 "launch-2" sample_request
      (mkSession "se-9" "ws-1" "rt-9" 1 false "write" true true true "starting" "u" "t" None) sample_world.
Proof. symmetry. exact (reuse_terminates sample_env sample_config 5 "launch-2" sample_request _ sample_world). Defined.
