(* ===== verification/PipelineOutcomes.v ===== *)
(** * What a completed stop and a completed launch guarantee (pipeline.py)

    A [stop] that returns has seen the container stopped, removed its network,
    recorded the session as stopped and released its leases; a [run] that
    returns has a ready launch bound to a ready session whose container was
    started under an applied network policy. *)
From S2P Require Export PipelineProofs LaunchAuth.

Section Outcomes.
Context (env : PipelineEnv) (cfg : PipelineConfig) `{PyFloat}.
Context (Hrely : well_behaved env).

Abbreviation keeps := (holds inv (guar env cfg)).
Abbreviation spec := (triple inv (guar env cfg)).
#[local] Existing Instance guar_preorder.

(** An assertion about the past survives every step. *)
Lemma triple_stable {A} (P : World -> Prop) (m : Eff World A) :
  (forall w w', P w -> guar env cfg w w' -> P w') -> keeps m -> spec P m (fun _ => P).
Proof.
  intros Hp Hm w w' r Hi Hw E. destruct (Hm w w' r Hi Logic.I E) as (H1 & H2 & _). split_and!; [exact H1|exact H2|eauto].
Qed.

(** ** The teardown, seen from its end *)

(** The network of the session was removed after its runtime was seen stopped. *)
Definition torn_down (i : uuid) (t : Trace) : Prop :=
  exists pre p post, plan_of cfg i = Ok p /\ t = pre ++ NetworkRemove p :: post /\ on_remove env pre p = Ok tt /\
    seen_stopped env pre (runtime_name_of i).

Lemma torn_down_app i t t' : torn_down i t -> torn_down i (t ++ t').
Proof. intros (pre & p & post & Hp & -> & Hr & Hs). exists pre, p, (post ++ t'). split_and!; auto. now rewrite <- app_assoc. Qed.

Lemma torn_down_stable i (l : list exn) w w' :
  (l = [] -> torn_down i (trace w)) -> guar env cfg w w' -> l = [] -> torn_down i (trace w').
Proof. intros Hw [(tr & -> & _) _] Hl. now apply torn_down_app, Hw. Qed.

(** An unconfirmed stop reports a failure. *)
Lemma unconfirmed_fails r b :
  spec (fun _ => True) (stop_and_confirm_runtime env r b)
    (fun c w => (fst c = true -> seen_stopped env (trace w) r) /\ (fst c = false -> snd c <> [])).
Proof.
  intros w w' x Hi _ E. destruct (stop_and_confirm_triple env cfg Hrely r b w w' x Hi Logic.I E) as (H1 & H2 & H3).
  split_and!; [exact H1|exact H2|]. intros [c l] ->. split; [exact (H3 _ eq_refl)|]. cbn [fst snd]. intros Hc.
  unfold stop_and_confirm_runtime in E. apply eff_bind_ok in E as (w1 & [alive|e] & E1 & E).
  2: { injection E as _ _ <-. discriminate. }
  apply eff_bind_ok in E as (w2 & failures & E2 & E). apply eff_bind_ok in E as (w3 & [[|]|e] & E3 & E); injection E as _ <- <-.
  - destruct failures; discriminate.
  - discriminate.
  - now destruct failures.
Qed.

Lemma remove_network_removes i p b l :
  plan_of cfg i = Ok p ->
  spec (fun w => (b = true -> seen_stopped env (trace w) (runtime_name_of i)) /\ (b = false -> l <> []))
    (remove_network_if env b p l) (fun l' w => l' = [] -> torn_down i (trace w)).
Proof.
  intros Hp w w' r Hi [Hs Hl] E.
  destruct (remove_network_triple env cfg Hrely i p b l Hp w w' r Hi Hs E) as (H1 & H2 & _).
  split_and!; [exact H1|exact H2|]. intros l' -> Hnil. unfold remove_network_if in E. destruct b.
  2: { injection E as _ El. destruct (Hl eq_refl). congruence. }
  unfold collect_Exception, eff_try, network_remove, invoke, perform, mbind, eff_bind in E.
  destruct (on_remove env (trace w) p) as [[]|e] eqn:Ea.
  - injection E as <- _. exists (trace w), p, []. split_and!; auto.
  - destruct (is_Exception e); [|discriminate]. injection E as _ El. rewrite Hnil in El. now destruct l.
Qed.

(** ** The end of [stop]: no call is made any more *)
Definition leases_released (i : uuid) (d : db) : Prop :=
  forall l, In l (writable_agent_leases d) -> ls_session_id l = i -> lease_active l = false.

Lemma release_releases i t d d' : release_session_leases i t d = (d', Ok tt) -> leases_released i d'.
Proof.
  unfold release_session_leases. intros E. apply transaction_ok in E. unfold tx_bind, tx_update in E.
  destruct (sql_update _ _ (tbl d)) as [[t' n]|] eqn:Eu; [|discriminate]. unfold tx_ret in E.
  replace d' with (set_tbl t' d) by congruence. apply sql_update_spec in Eu as (-> & _ & _).
  intros l Hl Hi. cbn in Hl. apply in_map_iff in Hl as (x & <- & _).
  destruct (String.eqb_spec (ls_session_id x) i) as [Ex|Ex]; [|now cbn in Hi].
  unfold lease_active, lease_release_now. cbn. now destruct (ls_released_at x).
Qed.

Lemma transition_settles i ex ns st a b c d d' s : wf_db d ->
  transition_session i ex ns st a b c d = (d', Ok s) ->
  get_session i d' = Some s /\ s_state s = ns /\ writable_agent_leases d' = writable_agent_leases d /\
  s_sandbox_verified s = or_keep a (s_sandbox_verified s) /\ s_network_verified s = or_keep b (s_network_verified s) /\
  s_collaboration_ready s = or_keep c (s_collaboration_ready s).
Proof.
  intros Hwf E. unfold transition_session in E. destruct ex as [|x ex]; [discriminate|]. apply transaction_ok in E.
  unfold tx_bind, tx_update, tx_fetchone, tx_raise_if in E. destruct (sql_update _ _ (tbl d)) as [[t' n]|] eqn:Eu; [|discriminate].
  destruct (Z.eqb_spec n 1) as [->|]; [|discriminate]. cbn [negb tx_ret] in E.
  pose proof (tx_update_by_key i (fun s => str_mem (s_state s) (x :: ex)) (session_set_state ns st a b c) d t' 1 Hwf (fun r => eq_refl) Eu) as [Hk _].
  destruct (fetchone (by_key i) (tbl d)) as [s0|]; [|discriminate]. destruct (str_mem (s_state s0) _); [|discriminate].
  destruct Hk as [_ Hk]. unfold tx_ret in E.
  change (fun s1 : SessionRecord => (s_id s1 =? i)%string) with (by_key (R := SessionRecord) i) in E.
  rewrite tbl_set, Hk in E. injection E as <- <-. split; [exact Hk|]. cbn. split_and!; auto; now destruct a, b, c.
Qed.

(** A step that makes no call and changes neither sessions nor leases. *)
Definition quiet {A} (m : Eff World A) : Prop := forall w w' r, m w = (w', r) ->
  trace w' = trace w /\ notebook_sessions (db_of w') = notebook_sessions (db_of w) /\
  writable_agent_leases (db_of w') = writable_agent_leases (db_of w).

Lemma quiet_bind {A B} (m : Eff World A) (k : A -> Eff World B) : quiet m -> (forall a, quiet (k a)) -> quiet (m ≫= k).
Proof.
  intros Hm Hk w w' r E. apply bind_inv in E as [(e & E & ->)|(w1 & a & E1 & E2)]; [exact (Hm _ _ _ E)|].
  destruct (Hk a _ _ _ E2) as (-> & -> & ->). exact (Hm _ _ _ E1).
Qed.

Lemma quiet_now : quiet (now env).
Proof. intros w w' r [= <- _]. auto. Qed.
Lemma quiet_ret {A} (a : A) : quiet (mret a).
Proof. intros w w' r [= <- _]. auto. Qed.
Lemma quiet_read {A} (f : db -> A) : quiet (read_db f).
Proof. intros w w' r [= <- _]. auto. Qed.

Lemma quiet_iter {A} (f : A -> Eff World unit) l : (forall a, quiet (f a)) -> quiet (eff_iter f l).
Proof.
  intros Hf. induction l as [|a l IH]; intros w w' r E; cbn [eff_iter] in E; [injection E as <- _; auto|].
  destruct (f a w) as [w1 [u|e]] eqn:E1.
  - destruct (Hf a _ _ _ E1) as (<- & <- & <-). exact (IH _ _ _ E).
  - injection E as <- _. exact (Hf a _ _ _ E1).
Qed.

Lemma quiet_catch {A} (m : Eff World A) p (k : Eff World A) : quiet m -> quiet k ->
  quiet (eff_try m (fun e => if p e : bool then Some k else None)).
Proof.
  intros Hm Hk w w' r E. unfold eff_try in E. destruct (m w) as [w1 [a|e]] eqn:E1; destruct (Hm _ _ _ E1) as (T & S & L).
  - injection E as <- _. auto.
  - destruct (p e); [|injection E as <- _; auto]. destruct (Hk _ _ _ E) as (-> & -> & ->). auto.
Qed.

Lemma quiet_update_launch i ex ns w s m e : quiet (update_launch env i ex ns w s m e).
Proof.
  apply quiet_bind; [apply quiet_now|]. intros t x x' r E. unfold on_db, update_launch_state in E.
  destruct ex as [|y ex]; [injection E as <- _; auto|]. unfold transaction, tx_bind, tx_update in E.
  destruct (sql_update _ _ (tbl (sh_db (shared x)))) as [[t' n]|]; [|injection E as <- _; auto].
  unfold tx_raise_if in E. destruct (negb (n =? 1)); injection E as <- _; auto.
Qed.

Lemma quiet_set_workspace w ns : quiet (set_workspace_launch_state env w ns).
Proof.
  apply quiet_bind; [apply quiet_read|]. intros l. apply quiet_iter. intros row. unfold ignore_Exception.
  apply quiet_catch; [|apply quiet_ret]. apply quiet_bind; [apply quiet_update_launch|]. intros _. apply quiet_ret.
Qed.

(** What the last steps of [stop] leave. *)
Lemma stop_settles i ws w w' :
  inv w -> torn_down i (trace w) -> leases_released i (db_of w) ->
  (_ ← transition_stopped env i ["stopping"%string] "stopped";
   _ ← set_workspace_launch_state env ws "stopped";
   mret true) w = (w', Ok true) ->
  torn_down i (trace w') /\ leases_released i (db_of w') /\
  exists s, get_session i (db_of w') = Some s /\ s_state s = "stopped"%string.
Proof.
  intros [Hwf _] Ht Hl E. apply eff_bind_ok in E as (w2 & s & E1 & E). apply eff_bind_ok in E as (w3 & [] & E2 & E).
  injection E as <-. destruct (quiet_set_workspace _ _ _ _ _ E2) as (Et & Es & El).
  apply eff_bind_ok in E1 as (w1 & t & Ew & E1). injection Ew as <- _. unfold on_db in E1. cbn [shared] in E1.
  destruct (transition_session i ["stopping"%string] "stopped" (Some t) None None None (sh_db (shared w))) as [d x] eqn:Em.
  injection E1 as <- ->. destruct (transition_settles _ _ _ _ _ _ _ _ _ _ Hwf Em) as (Hg & Hst & Hls & _).
  rewrite Et. split; [exact Ht|]. unfold leases_released, get_session. rewrite El, Es. cbn. rewrite Hls. split; [exact Hl|].
  exists s. auto.
Qed.

Lemma raise_cleanup_ok msg l u : raise_cleanup_failures msg l = Ok u -> l = [].
Proof. destruct l as [|e [|e' l]]; [reflexivity|discriminate|discriminate]. Qed.

(** The session that [stop] tears down: its runtime is the container named
    after it. *)
Lemma stopping_row i s w w' s' : inv w -> get_session i (db_of w) = Some s ->
  (if negb (String.eqb (s_state s) "stopping") then transition i ["starting"; "ready"]%string "stopping" else mret s) w
  = (w', Ok s') -> inv w' /\ s_runtime_id s' = runtime_name_of i.
Proof.
  intros Hi Hg E. destruct (String.eqb (s_state s) "stopping"); cbn [negb] in E.
  - injection E as <- <-. split; [exact Hi|]. apply fetchone_some in Hg as [Hin Hid]. apply String.eqb_eq in Hid.
    rewrite <- Hid. exact (inv_row _ _ Hi Hin).
  - destruct (keeps_transition env cfg i ["starting"; "ready"]%string "stopping" None None None None
                ltac:(repeat constructor) _ _ _ Hi Logic.I E) as (H1 & _ & _). split; [exact H1|].
    unfold transition, on_db in E. destruct (transition_session _ _ _ _ _ _ _ _) as [d x] eqn:Em. injection E as <- ->.
    apply transition_row in Em as [Hin Hid]. rewrite <- Hid. exact (inv_row _ _ H1 Hin).
Qed.

(** Nothing can use the session's container any more. *)
Definition stopped_for_good (i : uuid) (w : World) : Prop :=
  torn_down i (trace w) /\ leases_released i (db_of w) /\
  exists s, get_session i (db_of w) = Some s /\ s_state s = "stopped"%string.

(** C9: a [stop] that reports success has stopped everything: for a session
    that was starting, ready or already stopping, its container was seen not
    running, after that its network was removed and the removal succeeded,
    the session is recorded as stopped, and no writable lease of it is
    active.  Any failure on the way raises instead. *)
Theorem stop_complete i s w w' :
  inv w -> get_session i (db_of w) = Some s -> str_mem (s_state s) ["stopped"; "failed"]%string = false ->
  stop env cfg i w = (w', Ok true) -> stopped_for_good i w'.
Proof.
  intros Hi Hg Hlive E. apply eff_bind_ok in E as (w0 & o & E0 & E). injection E0 as <- <-.
  unfold db_of in Hg. rewrite Hg, Hlive in E. apply eff_bind_ok in E as (w1 & s1 & E1 & E).
  destruct (stopping_row _ _ _ _ _ Hi Hg E1) as [Hi1 Hr]. apply eff_bind_ok in E as (w1' & p & Ep & E).
  injection Ep as <- Hp. apply eff_bind_ok in E as (w2 & c & E2 & E). rewrite Hr in E2.
  destruct (unconfirmed_fails _ _ _ _ _ Hi1 Logic.I E2) as (Hi2 & _ & Hc). specialize (Hc c eq_refl).
  apply eff_bind_ok in E as (w3 & l & E3 & E).
  destruct (remove_network_removes i p _ _ Hp _ _ _ Hi2 Hc E3) as (Hi3 & _ & Hl). specialize (Hl l eq_refl).
  apply eff_bind_ok in E as (w4 & [] & E4 & E).
  destruct (keeps_invalidate env cfg Hrely i _ _ _ Hi3 Logic.I E4) as (Hi4 & G4 & _).
  pose proof (torn_down_stable i l _ _ Hl G4) as Hl4. apply eff_bind_ok in E as (w5 & [] & E5 & E).
  destruct (keeps_release env cfg i _ _ _ Hi4 Logic.I E5) as (Hi5 & G5 & _).
  pose proof (torn_down_stable i l _ _ Hl4 G5) as Hl5.
  assert (Hrel : leases_released i (db_of w5)).
  { apply eff_bind_ok in E5 as (w6 & t & Et & E5). unfold on_db in E5.
    destruct (release_session_leases i t (sh_db (shared w6))) as [d x] eqn:Em. injection E5 as <- ->.
    exact (release_releases _ _ _ _ Em). }
  destruct l as [|e l].
  - exact (stop_settles i _ _ _ Hi5 (Hl5 eq_refl) Hrel E).
  - apply eff_bind_ok in E as (w6 & u & E6 & _). injection E6 as _ E6. now apply (raise_cleanup_ok "runtime cleanup failed" (e :: l)) in E6.
Qed.

(** ** A completed launch *)
Definition launch_bound (i : string) (ns : string) (ws sid : uuid) (d : db) : Prop :=
  exists l, get_launch i d = Some l /\ l_state l = ns /\ l_workspace_id l = Some ws /\ l_session_id l = Some sid.

Lemma update_launch_binds i ex ns ws sid m e w w' u : inv w ->
  update_launch env i ex ns (Some ws) (Some sid) m e w = (w', Ok u) ->
  launch_bound i ns ws sid (db_of w') /\ notebook_sessions (db_of w') = notebook_sessions (db_of w) /\ trace w' = trace w.
Proof.
  intros [Hwf _] E. destruct (quiet_update_launch _ _ _ _ _ _ _ _ _ _ E) as (Et & Es & _). split; [|auto].
  apply eff_bind_ok in E as (w1 & t & E1 & E). injection E1 as <- _. unfold on_db in E. cbn [shared] in E.
  destruct (update_launch_state i ex ns t (Some ws) (Some sid) m e (sh_db (shared w))) as [d x] eqn:Em. injection E as <- ->.
  unfold update_launch_state in Em. destruct ex as [|y ex]; [discriminate|]. apply transaction_ok in Em.
  unfold tx_bind, tx_update, tx_raise_if in Em. destruct (sql_update _ _ (tbl (sh_db (shared w)))) as [[t' n]|] eqn:Eu; [|discriminate].
  destruct (Z.eqb_spec n 1) as [->|]; [|discriminate]. cbn [negb] in Em.
  pose proof (tx_update_by_key i (fun l => str_mem (l_state l) (y :: ex)) (launch_set_state ns t (Some ws) (Some sid) m e)
                (sh_db (shared w)) t' 1 Hwf (fun r => eq_refl) Eu) as [Hk _].
  destruct (fetchone (by_key i) (tbl (sh_db (shared w)))) as [l0|]; [|discriminate].
  destruct (str_mem (l_state l0) _); [|discriminate]. destruct Hk as [_ Hk]. injection Em as <-.
  exists (launch_set_state ns t (Some ws) (Some sid) m e l0). split; [exact Hk|auto].
Qed.

Definition result_ready (i : string) (res : PipelineLaunchResult) (d : db) : Prop :=
  pr_launch_id res = i /\ launch_bound i "ready" (pr_workspace_id res) (pr_session_id res) d.

(** The last calls when a session is reused: its network was verified, Jupyter
    was probed, and with the answer the runtime was found ready in every
    respect. *)
Definition reattested (sid : uuid) (t : Trace) : Prop :=
  exists a p att url token path started collab rr,
    t = a ++ [NetworkVerify p; WaitReady url token path; CheckReadiness started collab] /\
    plan_of cfg sid = Ok p /\ on_verify env a p = Ok att /\ at_verified att = true /\ rs_container_id started = runtime_name_of sid /\
    on_wait_ready env (a ++ [NetworkVerify p]) url token path = Ok collab /\
    on_readiness env (a ++ [NetworkVerify p; WaitReady url token path]) started collab = Ok rr /\
    rr_ready rr && rr_sandbox_verified rr && rr_network_verified rr && rr_collaboration_ready rr = true.

Lemma reattest_result s w w' u : named s -> reattest_ready_session env cfg s w = (w', Ok u) -> reattested (s_id s) (trace w').
Proof.
  unfold reattest_ready_session. intros Hn E. apply eff_bind_ok in E as (w1 & ws & E1 & E). injection E1 as <- _.
  destruct ws as [ws|]; [|discriminate]. apply eff_bind_ok in E as (w1 & p & E1 & E). injection E1 as <- Hp.
  apply eff_bind_ok in E as (w2 & att & E2 & E). injection E2 as E2 Ha. assert (T2 : trace w2 = trace w ++ [_]) by (rewrite <- E2; reflexivity).
  apply eff_bind_ok in E as (w3 & u3 & E3 & E). injection E3 as <- Hv. apply raise_if_ok, negb_false_iff in Hv.
  apply eff_bind_ok in E as (w4 & cr & E4 & E). assert (w4 = w2) as ->.
  { unfold read_runtime_credentials in E4. apply eff_bind_ok in E4 as (w5 & en & E5 & E4). injection E5 as <- _.
    repeat case_match; now injection E4 as <- _. }
  apply eff_bind_ok in E as (w5 & collab & E5 & E). injection E5 as E5 Hw. assert (T5 : trace w5 = trace w2 ++ [_]) by (rewrite <- E5; reflexivity).
  apply eff_bind_ok in E as (w6 & rr & E6 & E). injection E6 as E6 Hr. assert (T6 : trace w6 = trace w5 ++ [_]) by (rewrite <- E6; reflexivity).
  injection E as <- Hall. apply raise_if_ok, negb_false_iff in Hall. rewrite T2 in Hw. rewrite T5, T2, <- app_assoc in Hr.
  rewrite T6, T5, T2, <- !app_assoc. exists (trace w), p, att. do 6 eexists. split; [reflexivity|]. split_and!; eauto.
Qed.

Lemma attempt_ok {A} (m : Eff World A) w w' a : attempt m w = (w', Ok (inl a)) -> m w = (w', Ok a).
Proof.
  unfold attempt, eff_try, mbind, eff_bind. destruct (m w) as [w1 [x|e]]; [now intros [= <- <-]|].
  destruct (is_Exception e); discriminate.
Qed.

(** What reusing a session has achieved. *)
Definition reused (i : string) (res : PipelineLaunchResult) (w : World) : Prop :=
  result_ready i res (db_of w) /\ pr_reused_existing res = true /\ reattested (pr_session_id res) (trace w).

Lemma reuse_ready_result i rq s w w' res : named s -> inv w ->
  reuse_ready env cfg i rq s w = (w', Ok (Some res)) -> reused i res w'.
Proof.
  intros Hn Hi E. unfold reuse_ready in E. destruct (negb (fully_verified s)).
  { apply eff_bind_ok in E as (w1 & u & _ & E). discriminate. }
  apply eff_bind_ok in E as (w1 & alive & E1 & E).
  destruct (keeps_is_alive env cfg Hrely _ _ _ _ Hi Logic.I E1) as (Hi1 & _ & _). destruct alive; cbn [negb] in E.
  2: { apply eff_bind_ok in E as (w2 & u & _ & E). discriminate. }
  apply eff_bind_ok in E as (w2 & u & E2 & E). injection E2 as <- _. apply eff_bind_ok in E as (w3 & x & E3 & E).
  assert (Hk : keeps (attempt (reattest_ready_session env cfg s))) by (apply keeps_attempt, keeps_reattest, Hrely).
  destruct (Hk _ _ _ Hi1 Logic.I E3) as (Hi3 & _ & _). destruct x as [x|e].
  2: { apply eff_bind_ok in E as (w4 & u4 & _ & E). discriminate. }
  apply eff_bind_ok in E as (w4 & u4 & E4 & E). injection E as <- <-.
  destruct (update_launch_binds _ _ _ _ _ _ _ _ _ _ Hi3 E4) as (Hb & _ & Ht). split; [split; [reflexivity|exact Hb]|].
  split; [reflexivity|]. rewrite Ht. apply attempt_ok in E3. exact (reattest_result _ _ _ _ Hn E3).
Qed.

Lemma reuse_result fuel i rq s w w' res : named s -> inv w ->
  reuse_existing_session env cfg fuel i rq s w = (w', Ok (Some res)) -> reused i res w'.
Proof.
  revert s w. induction fuel as [|fuel IH]; intros s w Hn Hi E; cbn [reuse_existing_session] in E; [discriminate|].
  destruct (String.eqb (s_state s) "stopping"); [discriminate|].
  destruct (String.eqb (s_state s) "ready"); [exact (reuse_ready_result _ _ _ _ _ _ Hn Hi E)|].
  destruct (negb (String.eqb (s_state s) "starting")); [discriminate|].
  apply eff_bind_ok in E as (w1 & owned & E1 & E). injection E1 as <- Eo. apply eff_bind_ok in E as (w1 & cur & E1 & E).
  destruct owned; cbn [negb] in E.
  - injection E1 as <- _. apply eff_bind_ok in E as (w2 & u2 & E2 & E). injection E2 as <- _.
    apply eff_bind_ok in E as (w2 & u3 & E3 & E).
    destruct (keeps_update_launch env cfg i ["starting"%string] "starting" (Some (s_workspace_id s)) (Some (s_id s))
                (Some "Following existing workspace runtime startup."%string) None ltac:(repeat constructor) _ _ _ Hi Logic.I E3)
      as (Hi2 & _ & _).
    apply eff_bind_ok in E as (w3 & fin & E4 & E).
    destruct (keeps_wait_owner env cfg Hrely (s_id s) _ _ _ Hi2 Logic.I E4) as (Hi3 & _ & _).
    destruct fin; cbn [negb] in E; [|discriminate]. apply eff_bind_ok in E as (w4 & o & E5 & E).
    destruct (fetch_row env cfg (s_id s) _ _ _ Hi3 Logic.I E5) as (Hi4 & _ & Ho). destruct o as [c|]; [|discriminate].
    apply eff_bind_ok in E as (w5 & u5 & E6 & E). injection E6 as <- _. destruct (negb _); [discriminate|].
    refine (IH c w4 _ Hi4 E). exact (proj1 (Ho _ eq_refl c eq_refl)).
  - destruct (fetch_row env cfg (s_id s) _ _ _ Hi Logic.I E1) as (Hi1 & _ & Ho). destruct cur as [c|]; [|discriminate].
    destruct (negb _); [refine (IH c w1 _ Hi1 E); exact (proj1 (Ho _ eq_refl c eq_refl))|].
    apply eff_bind_ok in E as (w4 & u4 & _ & E). discriminate.
Qed.

(** ** The start of a session, step by step *)
Lemma up_ok {A} (m : Eff World A) lo w lw' a : up m (lo, w) = (lw', Ok a) -> exists w', lw' = (lo, w') /\ m w = (w', Ok a).
Proof. unfold up. cbn [fst snd]. destruct (m w) as [w' r]. intros H0. injection H0 as <- <-. eauto. Qed.

(** The last calls: the network of the session was applied, its container was
    started under that attestation, Jupyter was probed and with the answer the
    runtime was found ready.  The network is not removed after that. *)
Definition started_under_policy (sid : uuid) (t : Trace) : Prop :=
  exists a p att policy command started url token path collab,
    t = a ++ [NetworkApply p; StartRuntime policy command att; WaitReady url token path; CheckReadiness started collab] /\
    plan_of cfg sid = Ok p /\ on_apply env a p = Ok att /\
    on_start env (a ++ [NetworkApply p]) policy command att = Ok started /\
    sp_network_name policy = Some (network_name p) /\ sp_container_name policy = runtime_name_of sid /\
    token_in_argv token command = false /\
    on_wait_ready env (a ++ [NetworkApply p; StartRuntime policy command att]) url token path = Ok collab /\
    exists rr, on_readiness env (a ++ [NetworkApply p; StartRuntime policy command att; WaitReady url token path]) started collab = Ok rr
      /\ rr_ready rr = true.

(** The session is ready with the flags that the runtime's readiness check
    reported. *)
Definition session_ready (sid : uuid) (d : db) : Prop :=
  exists s t started collab rr, get_session sid d = Some s /\ s_state s = "ready"%string /\
    on_readiness env t started collab = Ok rr /\ rr_ready rr = true /\ s_sandbox_verified s = rr_sandbox_verified rr /\
    s_network_verified s = rr_network_verified rr /\ s_collaboration_ready s = rr_collaboration_ready rr.

(** One step of the body: its state and its invariant. *)
Lemma step_up {A B} (m : Eff World A) (k : A -> Eff (Locals * World) B) lo w lw' b :
  keeps m -> inv w -> (up m ≫= k) (lo, w) = (lw', Ok b) ->
  exists w1 a, m w = (w1, Ok a) /\ inv w1 /\ guar env cfg w w1 /\ k a (lo, w1) = (lw', Ok b).
Proof.
  intros Hk Hi E. apply eff_bind_ok in E as (lw1 & a & E1 & E). apply up_ok in E1 as (w1 & -> & E1).
  destruct (Hk _ _ _ Hi Logic.I E1) as (H1 & H2 & _). eauto 10.
Qed.

Lemma guar_trace w w' : guar env cfg w w' -> exists tr, trace w' = trace w ++ tr.
Proof. intros [(tr & E & _) _]. eauto. Qed.

(** The preparation: secrets, plan and network. *)
Lemma start_network i w sid img port g lo x lw' u : inv x ->
  start_session env cfg i w sid img port g (lo, x) = (lw', Ok u) ->
  exists lo1 x1 token p att, inv x1 /\ plan_of cfg sid = Ok p /\
    (exists a, trace x1 = a ++ [NetworkApply p] /\ on_apply env a p = Ok att) /\
    (policy ← up (sandbox_policy env cfg w sid img p port g);
     let command := jupyter_command (w_active_notebook_path w) in
     _ ← up (eff_raise_if (token_in_argv token command) (RuntimeError "Jupyter token must not be present in argv"));
     started ← up (invoke env (StartRuntime policy command att) (fun t => on_start env t policy command att));
     collaboration_ready ← up (wait_ready env ("http://127.0.0.1:" ++ str_of_int port) token (w_active_notebook_path w));
     readiness ← up (check_readiness env started collaboration_ready);
     _ ← up (verify_ready (rr_ready readiness) "runtime readiness gates did not pass");
     present ← up (private_is_file sid);
     _ ← up (verify_ready present "MCP private state is unavailable");
     _ ← up (on_db (transition_session sid ["starting"%string] "ready" None (Some (rr_sandbox_verified readiness))
                      (Some (rr_network_verified readiness)) (Some (rr_collaboration_ready readiness))));
     up (update_launch env i ["starting"%string] "ready" (Some (w_id w)) (Some sid) (Some "Notebook runtime is ready."%string) None))
      (lo1, x1) = (lw', Ok u).
Proof.
  intros Hi E. unfold start_session in E.
  apply step_up in E as (x1 & u1 & _ & Hi1 & _ & E); [|apply keeps_update_launch; repeat constructor|exact Hi].
  apply step_up in E as (x2 & token & _ & Hi2 & _ & E); [|apply keeps_fresh_token|exact Hi1].
  apply step_up in E as (x3 & u3 & _ & Hi3 & _ & E); [|now apply keeps_write_secrets|exact Hi2].
  apply step_up in E as (x4 & p & E4 & Hi4 & _ & E); [|apply holds_lift; typeclasses eauto|exact Hi3].
  injection E4 as <- Hp. apply eff_bind_ok in E as (lw5 & u5 & E5 & E). injection E5 as <-. cbn [fst snd] in E.
  apply step_up in E as (x6 & att & E6 & Hi6 & _ & E); [|now apply keeps_perform|exact Hi4].
  injection E6 as <- Ha. eexists _, _, token, p, att. split; [exact Hi6|]. split; [exact Hp|]. split; [|exact E].
  exists (trace x3). auto.
Qed.

Lemma start_session_result i w sid img port g lo x lw' u : inv x ->
  start_session env cfg i w sid img port g (lo, x) = (lw', Ok u) ->
  launch_bound i "ready" (w_id w) sid (db_of (snd lw')) /\ session_ready sid (db_of (snd lw')) /\
  started_under_policy sid (trace (snd lw')).
Proof.
  intros Hi E. apply start_network in E as (lo1 & x1 & token & p & att & Hi1 & Hp & (a & Ea & Ha) & E); [|exact Hi].
  apply step_up in E as (x2 & policy & E2 & Hi2 & G2 & E); [|apply keeps_sandbox_policy|exact Hi1].
  injection E2 as <- E2. destruct (revalidate _ _ _) as [grant|]; [|discriminate]. injection E2 as <-. cbv zeta in E.
  apply step_up in E as (x3 & u3 & E3 & Hi3 & G3 & E); [|apply holds_raise_if; typeclasses eauto|exact Hi2].
  injection E3 as <- Htoken. apply raise_if_ok in Htoken.
  apply step_up in E as (x4 & started & E4 & Hi4 & _ & E); [|now apply keeps_perform|exact Hi3].
  injection E4 as E4 Hstart. rewrite Ea in Hstart. assert (T4 : trace x4 = trace x1 ++ [_]) by (rewrite <- E4; reflexivity). clear E4.
  apply step_up in E as (x5 & collab & E5 & Hi5 & _ & E); [|now apply keeps_perform|exact Hi4].
  injection E5 as E5 Hwait. assert (T5 : trace x5 = trace x4 ++ [_]) by (rewrite <- E5; reflexivity). clear E5.
  apply step_up in E as (x6 & rr & E6 & Hi6 & _ & E); [|now apply keeps_perform|exact Hi5].
  injection E6 as E6 Hrr. assert (T6 : trace x6 = trace x5 ++ [_]) by (rewrite <- E6; reflexivity). clear E6.
  apply step_up in E as (x7 & u7 & E7 & Hi7 & G7 & E); [|apply holds_raise_if; typeclasses eauto|exact Hi6].
  injection E7 as <- Hready. apply raise_if_ok, negb_false_iff in Hready.
  apply step_up in E as (x8 & present & E8 & Hi8 & G8 & E); [|now apply keeps_private_is_file|exact Hi7]. injection E8 as <- _.
  apply step_up in E as (x9 & u9 & E9 & Hi9 & G9 & E); [|apply holds_raise_if; typeclasses eauto|exact Hi8]. injection E9 as <- _.
  apply step_up in E as (x10 & s & E10 & Hi10 & G10 & E); [|apply keeps_transition; repeat constructor|exact Hi9].
  apply up_ok in E as (x11 & -> & E11). cbn [snd].
  destruct (update_launch_binds _ _ _ _ _ _ _ _ _ _ Hi10 E11) as (Hb & Hs & Ht). split; [exact Hb|].
  unfold on_db in E10. destruct (transition_session _ _ _ _ _ _ _ _) as [d y] eqn:Em. injection E10 as E10 ->.
  destruct (transition_settles _ _ _ _ _ _ _ _ _ _ (proj1 Hi9) Em) as (Hg & Hst & _ & F1 & F2 & F3). split.
  - exists s, (trace x5), started, collab, rr. split_and!; auto.
    unfold get_session, db_of. unfold db_of in Hs. rewrite Hs, <- E10. exact Hg.
  - rewrite Ht, <- E10. cbn [trace]. rewrite T6, T5, T4, Ea, <- !app_assoc. cbn [app].
    rewrite T4, Ea, <- app_assoc in Hwait. rewrite T5, T4, Ea, <- !app_assoc in Hrr.
    exists a, p, att. do 7 eexists. split; [reflexivity|]. split_and!; eauto.
Qed.

Lemma rollback_raises {A} i lo e w w' (a : A) : rollback env i lo e w <> (w', Ok a).
Proof.
  intros E. unfold rollback in E. apply eff_bind_ok in E as (w1 & x1 & _ & E). apply eff_bind_ok in E as (w2 & x2 & _ & E).
  apply eff_bind_ok in E as (w3 & x3 & _ & E). apply eff_bind_ok in E as (w4 & x4 & _ & E).
  apply eff_bind_ok in E as (w5 & x5 & _ & E). discriminate.
Qed.

(** What a launch that returns has achieved. *)
Definition launched (i : string) (res : PipelineLaunchResult) (w : World) : Prop :=
  result_ready i res (db_of w) /\
  (pr_reused_existing res = false ->
   session_ready (pr_session_id res) (db_of w) /\ started_under_policy (pr_session_id res) (trace w)) /\
  (pr_reused_existing res = true -> reattested (pr_session_id res) (trace w)).

Lemma reused_launched i res w : reused i res w -> launched i res w.
Proof. intros (H1 & H2 & H3). split; [exact H1|]. split; [congruence|auto]. Qed.

Lemma claim_and_start_result i rq w img hit al lo x lw' res : inv x ->
  claim_and_start env cfg i rq w img hit al (lo, x) = (lw', Ok res) -> launched i res (snd lw').
Proof.
  intros Hi E. unfold claim_and_start in E.
  apply step_up in E as (x1 & sid & _ & Hi1 & _ & E); [|apply keeps_fresh_uuid|exact Hi].
  apply eff_bind_ok in E as (lw2 & u2 & E2 & E). injection E2 as <-. cbn [fst snd] in E.
  apply step_up in E as (x3 & port & _ & Hi3 & _ & E); [|now apply keeps_perform|exact Hi1]. cbv zeta in E.
  apply eff_bind_ok in E as (lw4 & [row created] & E4 & E). apply up_ok in E4 as (x4 & -> & E4).
  destruct (claim_triple env cfg _ _ _ _ _ _ _ _ _ Hi3 Logic.I E4) as (Hi4 & _ & Hn). specialize (Hn _ eq_refl).
  cbn [fst snd] in *. destruct created; cbn [negb] in E.
  - apply eff_bind_ok in E as (lw5 & u5 & E5 & E). injection E5 as <-. cbn [fst snd] in E.
    apply step_up in E as (x6 & u6 & _ & Hi6 & _ & E); [|apply keeps_set_owners|exact Hi4].
    apply eff_bind_ok in E as (lw7 & u7 & E7 & E). injection E as <- <-.
    destruct (start_session_result _ _ _ _ _ _ _ _ _ _ Hi6 E7) as (Hb & Hs & Ht). split; [split; [reflexivity|exact Hb]|]. split; [auto|discriminate].
  - apply eff_bind_ok in E as (lw5 & o & E5 & E). apply up_ok in E5 as (x5 & -> & E5).
    destruct o as [r|]; [|discriminate]. injection E as <- <-.
    apply reused_launched. exact (reuse_result _ _ _ _ _ _ _ Hn Hi4 E5).
Qed.

Lemma run_body_result i rq src lo x lw' res : inv x ->
  run_body env cfg i rq src (lo, x) = (lw', Ok res) -> launched i res (snd lw').
Proof.
  intros Hi E. unfold run_body in E.
  apply step_up in E as (x1 & [[resolved snap] w] & _ & Hi1 & _ & E); [|now apply keeps_prepare|exact Hi].
  apply eff_bind_ok in E as (lw2 & u2 & E2 & E). injection E2 as <-. cbn [fst snd] in E.
  apply eff_bind_ok in E as (lw3 & existing & E3 & E). apply up_ok in E3 as (x3 & -> & E3).
  destruct (fetch_named env cfg _ _ _ _ Hi1 Logic.I E3) as (Hi3 & _ & Hn). specialize (Hn _ eq_refl).
  apply eff_bind_ok in E as (lw4 & reused & E4 & E).
  assert (Hr : inv (snd lw4) /\ forall r, reused = Some r -> launched i r (snd lw4)).
  { destruct existing as [s|]; [|injection E4 as <- <-; split; [exact Hi3|discriminate]].
    apply up_ok in E4 as (x4 & -> & E4). specialize (Hn s eq_refl).
    destruct (keeps_reuse env cfg Hrely reuse_depth i rq s Hn _ _ _ Hi3 Logic.I E4) as (Hi4 & _ & _). split; [exact Hi4|].
    intros r ->. apply reused_launched. exact (reuse_result _ _ _ _ _ _ _ Hn Hi3 E4). }
  destruct Hr as [Hi4 Hr]. destruct reused as [r|]; [injection E as <- <-; now apply Hr|].
  apply eff_bind_ok in E as ([lo5 x5] & sn & E5 & E). destruct lw4 as [lo4 x4]. cbn [snd] in *.
  assert (Hi5 : inv x5).
  { destruct snap; [injection E5 as _ <- _; exact Hi4|]. apply up_ok in E5 as (y & Ey & E5). injection Ey as -> ->.
    exact (proj1 (keeps_acquire env cfg Hrely resolved _ _ _ Hi4 Logic.I E5)). }
  apply step_up in E as (x6 & idn & _ & Hi6 & _ & E); [|apply holds_lift; typeclasses eauto|exact Hi5].
  apply step_up in E as (x7 & build & _ & Hi7 & _ & E); [|now apply keeps_perform|exact Hi6].
  apply step_up in E as (x8 & al & _ & Hi8 & _ & E); [|now apply keeps_gpu|exact Hi7].
  exact (claim_and_start_result _ _ _ _ _ _ _ _ _ _ Hi8 E).
Qed.

Lemma run_launched i rq src w w' res :
  inv w -> run env cfg i rq src w = (w', Ok res) -> launched i res w'.
Proof.
  intros Hi E. apply eff_bind_ok in E as (w1 & l & E1 & E). injection E1 as <- _. destruct l as [l|]; [|discriminate].
  destruct (negb _); [discriminate|]. apply eff_bind_ok in E as (w1 & u1 & E1 & E). injection E1 as <- _.
  apply eff_bind_ok in E as (w2 & u2 & E2 & E).
  destruct (keeps_update_launch env cfg i ["authorized"%string] "starting" None None None None ltac:(repeat constructor) _ _ _
              Hi Logic.I E2) as (Hi2 & _ & _).
  unfold run_admitted in E. destruct (run_body env cfg i rq src (no_locals, w2)) as [[lo w3] x] eqn:Eb.
  unfold eff_finally in E. destruct x as [a|e].
  - pose proof (run_body_result _ _ _ _ _ _ _ Hi2 Eb) as Hl. cbn [snd] in Hl.
    unfold drop_owner in E. destruct (lo_owned_session_id lo); injection E as <- <-; exact Hl.
  - destruct (is_Exception e).
    + destruct (rollback env i lo e w3) as [w4 [a|e']] eqn:Er; [now apply rollback_raises in Er|].
      unfold drop_owner in E. destruct (lo_owned_session_id lo); discriminate.
    + unfold drop_owner in E. destruct (lo_owned_session_id lo); discriminate.
Qed.

(** C7: a launch that returns is ready.  Its launch row is [ready] and bound
    to the workspace and session of the result; and if the session is new,
    its row is [ready] with the flags of a readiness check that passed, its
    network was applied, its container was started with that attestation, on
    that network and under the session's name, no argument of its command
    contains the token, the readiness check was given what the probe of Jupyter
    answered, and nothing was removed since; if it is an existing one, its
    network was verified and its readiness checked last of all.  Otherwise
    [run] raises. *)
Theorem run_ready i rq src w w' res :
  inv w -> run env cfg i rq src w = (w', Ok res) ->
  pr_launch_id res = i /\ launch_bound i "ready" (pr_workspace_id res) (pr_session_id res) (db_of w')
  /\ (pr_reused_existing res = false ->
       session_ready (pr_session_id res) (db_of w') /\ started_under_policy (pr_session_id res) (trace w'))
  /\ (pr_reused_existing res = true -> reattested (pr_session_id res) (trace w')).
Proof. intros Hi E. destruct (run_launched i rq src w w' res Hi E) as ([Hid Hb] & Hnew & Hold). auto. Qed.
End Outcomes.

(** ** The credentials of a session *)
Section Credentials.
Context (env : PipelineEnv) (cfg : PipelineConfig) `{PyFloat}.

Definition loopback_url (port : Z) : string := ("http://127.0.0.1:" ++ str_of_int port)%string.

Lemma private_json_printable url token :
  all_chars printable url = true -> all_chars printable token = true ->
  dumps_ascii (private_json url token) = dumps (private_json url token).
Proof.
  intros Hu Ht. unfold private_json, dumps_ascii, dumps. cbn [dumps_with map str_join fst snd]. unfold dump_str, quoted.
  rewrite (escape_ascii_printable url Hu), (escape_ascii_printable token Ht). reflexivity.
Qed.

Lemma loopback_printable port : all_chars printable (loopback_url port) = true.
Proof. unfold loopback_url. rewrite all_chars_append, str_of_int_printable. reflexivity. Qed.

Lemma printable_no_nul s : all_chars printable s = true -> has_char Sandbox.NUL s = false.
Proof.
  intros Hs. unfold has_char. apply negb_false_iff. apply (all_chars_imp printable); [|exact Hs].
  intros c Hc. by_chars c.
Qed.

Lemma parse_credentials_back port token :
  all_chars printable token = true -> token <> ""%string ->
  (Z.of_nat (String.length (dumps_ascii (private_json (loopback_url port) token))) <= 64 * 1024) ->
  parse_credentials port (dumps_ascii (private_json (loopback_url port) token)) = Ok (loopback_url port, token).
Proof.
  intros Ht Hne Hlen. unfold parse_credentials, runtime_error_if, raise_if.
  destruct (Z.ltb_spec (64 * 1024) (Z.of_nat (String.length (dumps_ascii (private_json (loopback_url port) token))))) as [Hl|_]; [lia|].
  cbn [rbind]. rewrite private_json_printable by auto using loopback_printable. rewrite loads_dumps by reflexivity. cbn [rbind].
  unfold private_credentials, private_json.
  change (obj_get "jupyter_url" _) with (Some (JStr (loopback_url port))).
  change (obj_get "jupyter_token" _) with (Some (JStr token)). cbv beta iota.
  unfold loopback_url at 1. rewrite String.eqb_refl, (proj2 (String.eqb_neq token "") Hne), printable_no_nul by exact Ht.
  reflexivity.
Qed.

(** Nobody else changes the runtime directory. *)
Context (Hprivate : forall t c sh, sh_runtime (interfere env t c sh) = sh_runtime sh).

Definition entry_of (i : uuid) (w : World) : option session_entry := sh_runtime (shared w) !! i.

Lemma invoke_entry {A} c (answer : Trace -> res A) w w' r i : invoke env c answer w = (w', r) -> entry_of i w' = entry_of i w.
Proof. intros E. injection E as <- _. unfold entry_of. cbn [shared]. now rewrite Hprivate. Qed.

Lemma make_dir_entry i w w' u : make_session_dir env i w = (w', Ok u) -> entry_of i w' = Some (EDir ∅).
Proof.
  intros E. apply eff_bind_ok in E as (w1 & e & E1 & E). injection E1 as <- _. destruct (is_some e); [discriminate|].
  apply eff_bind_ok in E as (w2 & u2 & _ & E). injection E as <-. unfold entry_of. cbn. apply lookup_insert_eq.
Qed.

Lemma private_write_entry i name content files w w' u : entry_of i w = Some (EDir files) ->
  exclusive_private_write env i name content w = (w', Ok u) -> entry_of i w' = Some (EDir (<[name := PFile content]> files)).
Proof.
  intros He E. apply eff_bind_ok in E as (w1 & e & E1 & E). injection E1 as <- <-. unfold entry_of in He. rewrite He in E.
  destruct (is_some (files !! name)); [discriminate|].
  destruct (perform env (WritePrivate i name content) (fun t => on_write env t i name) w) as [w2 o] eqn:Ep.
  assert (He2 : entry_of i w2 = Some (EDir files)).
  { injection Ep as <- _. unfold entry_of. cbn [shared]. now rewrite Hprivate. }
  destruct o as [|e|e]; [|discriminate|].
  - apply eff_bind_ok in E as (w3 & e & E3 & E). injection E3 as <- <-. unfold entry_of in He2. rewrite He2 in E.
    injection E as <-. unfold entry_of. cbn. apply lookup_insert_eq.
  - apply eff_bind_ok in E as (w3 & u3 & _ & E). discriminate.
Qed.

Lemma on_Exception_ok {A} (m : Eff World A) h w w' a : on_Exception m h w = (w', Ok a) -> m w = (w', Ok a).
Proof.
  unfold on_Exception, eff_try. destruct (m w) as [w1 [b|e]]; [auto|]. destruct (is_Exception e); [|discriminate].
  intros E. apply eff_bind_ok in E as (w2 & u & _ & E). discriminate.
Qed.

(** C33: the secrets that a launch writes for its session are the credentials
    that a later reuse of the session reads: if writing succeeds, reading
    gives back the loopback URL of the session's port and the token, for
    every token of printable ASCII that fits in 64 KiB; and the token is in
    the configuration that Jupyter reads as well. *)
Theorem credentials_roundtrip s token w w' u :
  all_chars printable token = true -> token <> ""%string ->
  Z.of_nat (String.length (dumps_ascii (private_json (loopback_url (s_host_port s)) token))) <= 64 * 1024 ->
  write_runtime_secrets env (s_id s) (loopback_url (s_host_port s)) token w = (w', Ok u) ->
  read_runtime_credentials s w' = (w', Ok (loopback_url (s_host_port s), token)) /\
  exists files, sh_runtime (shared w') !! s_id s = Some (EDir files) /\
    files !! PRIVATE_CONFIG = Some (PFile (config_text token)).
Proof.
  intros Ht Hne Hlen E. unfold write_runtime_secrets in E. apply eff_bind_ok in E as (w1 & u1 & E1 & E).
  apply make_dir_entry in E1. apply eff_bind_ok in E as (w2 & u2 & E2 & E). apply on_Exception_ok in E2.
  apply (invoke_entry _ _ _ _ _ (s_id s)) in E2. rewrite E1 in E2.
  apply eff_bind_ok in E as (w3 & u3 & E3 & E). apply (private_write_entry _ _ _ _ _ _ _ E2) in E3.
  apply on_Exception_ok in E. apply (private_write_entry _ _ _ _ _ _ _ E3) in E. unfold entry_of in E. split.
  - unfold read_runtime_credentials, mbind, eff_bind, read_entry. rewrite E.
    rewrite lookup_insert_ne by discriminate. rewrite lookup_insert_eq. unfold eff_lift. f_equal.
    now apply parse_credentials_back.
  - eexists. split; [exact E|]. apply lookup_insert_eq.
Qed.
End Credentials.

(** ** The firewall plan of a session *)

(** The characters of a canonical UUID text. *)
Definition uuid_text (u : uuid) : bool := all_chars (fun c => is_hex_lower c || Ascii.eqb c "-") u.

Lemma parse_octet_back n : 0 <= n < 256 -> parse_octet (str_of_int n) = Some n.
Proof.
  intros Hn. assert (Hall : all_below (fun k => match parse_octet (str_of_int k) with Some m => m =? k | None => false end) 256 = true)
    by (vm_compute; reflexivity).
  pose proof (all_below_spec _ _ Hall n Hn) as Hk. cbv beta in Hk. destruct (parse_octet (str_of_int n)) as [m|]; [|discriminate].
  f_equal. now apply Z.eqb_eq.
Qed.

Lemma str_of_int_no_sep z sep : is_digit sep = false -> Ascii.eqb sep "-" = false -> all_chars (no_sep sep) (str_of_int z) = true.
Proof.
  intros H1 H2. apply str_of_int_chars; unfold no_sep.
  - rewrite Ascii.eqb_sym. now rewrite H2.
  - intros c Hc. destruct (Ascii.eqb_spec c sep) as [->|]; [congruence|reflexivity].
Qed.

Definition session_subnet (a b : Z) : string := ("10." ++ str_of_int a ++ "." ++ str_of_int b ++ ".0/24")%string.
Definition session_network (a b : Z) : network := mkNetwork (((10 * 256 + a) * 256 + b) * 256 + 0) 24.

Lemma parse_session_subnet a b : 0 <= a < 256 -> 0 <= b < 256 ->
  parse_ipv4_network (session_subnet a b) = Some (session_network a b).
Proof.
  intros Ha Hb. pose proof (str_of_int_no_sep a "." eq_refl eq_refl) as Sa. pose proof (str_of_int_no_sep b "." eq_refl eq_refl) as Sb.
  pose proof (str_of_int_no_sep a "/" eq_refl eq_refl) as Ta. pose proof (str_of_int_no_sep b "/" eq_refl eq_refl) as Tb.
  assert (E4 : parse_ipv4 (str_join "." ["10"; str_of_int a; str_of_int b; "0"]%string) = Some (((10 * 256 + a) * 256 + b) * 256 + 0)).
  { unfold parse_ipv4. rewrite split_join; [|discriminate|cbn [forallb]; now rewrite Sa, Sb].
    now rewrite (parse_octet_back a Ha), (parse_octet_back b Hb). }
  unfold parse_ipv4_network.
  assert (E : session_subnet a b = str_join "/" [str_join "." ["10"; str_of_int a; str_of_int b; "0"]; "24"]%string).
  { unfold session_subnet. cbn [str_join]. rewrite !string_app_assoc. reflexivity. }
  rewrite E, split_join; [|discriminate|].
  - rewrite E4. change (parse_prefix "24") with (Some 24). cbv beta iota zeta. change (2 ^ (32 - 24) - 1) with (Z.ones 8).
    rewrite Z.land_ones by lia. replace ((((10 * 256 + a) * 256 + b) * 256 + 0) mod 2 ^ 8) with 0; [reflexivity|].
    change (2 ^ 8) with 256. symmetry. rewrite Z.add_0_r. apply Z.mod_mul. lia.
  - cbn [forallb str_join]. rewrite !all_chars_append, Ta, Tb. reflexivity.
Qed.

Lemma session_network_private a b : 0 <= a < 256 -> 0 <= b < 256 -> network_is_global (session_network a b) = false.
Proof.
  intros Ha Hb. unfold network_is_global. apply andb_false_iff. right. apply negb_false_iff.
  assert (Hin : forall x, 10 * 2 ^ 24 <= x < 11 * 2 ^ 24 -> Z.shiftr x 24 = 10).
  { intros x Hx. rewrite Z.shiftr_div_pow2 by lia. change (2 ^ 24) with 16777216 in *. symmetry.
    apply (Z.div_unique x 16777216 10 (x - 10 * 16777216)); lia. }
  assert (N1 : 10 * 2 ^ 24 <= net_addr (session_network a b) < 11 * 2 ^ 24) by (cbn; lia).
  assert (N2 : 10 * 2 ^ 24 <= net_last 32 (session_network a b) < 11 * 2 ^ 24) by (unfold net_last; cbn; lia).
  unfold network_is_private. apply andb_true_iff. split.
  - apply existsb_exists. exists (mkNetwork (10 * 2 ^ 24) 8). split; [vm_compute; tauto|].
    unfold network_within, in_network. cbn [net_prefix]. change (32 - 8) with 24. rewrite (Hin _ N1), (Hin _ N2). reflexivity.
  - apply forallb_forall. intros m Hm. vm_compute in Hm. unfold in_network.
    repeat destruct Hm as [<-|Hm]; [..|destruct Hm]; cbn [net_prefix]; change (32 - 32) with 0; rewrite !Z.shiftr_0_r;
      apply andb_true_iff; split; apply negb_true_iff, Z.eqb_neq; cbn [net_addr] in *; lia.
Qed.

Lemma uuid_hex_chars u : uuid_text u = true -> all_chars is_hex_lower (uuid_hex u) = true.
Proof.
  unfold uuid_text, uuid_hex. induction u as [|c u IH]; [reflexivity|]. cbn [all_chars filter_chars]. intros [Hc Hu]%andb_true_iff.
  destruct (Ascii.eqb c "-") eqn:Ec; cbn [negb]; [auto|]. rewrite orb_false_r in Hc. cbn [all_chars]. now rewrite Hc, IH.
Qed.

Lemma str_take_length n s : (String.length (str_take n s) <= n)%nat.
Proof. revert s. induction n as [|n IH]; intros [|c s]; cbn; try lia. specialize (IH s). lia. Qed.

Lemma hex_name_chars s : all_chars is_hex_lower s = true -> all_chars name_char s = true.
Proof. apply all_chars_imp. intros c Hc. by_chars c. Qed.

(** Every session gets a firewall plan that the applier accepts.  For any
    canonical UUID and any IPv4 resolvers the plan is built without an
    error: its network and bridge names are valid Docker and interface
    names, its subnet is 10.x.y.0/24 with x in 16..239 and y in 1..253, so
    it parses as a network that is not global, and it asks for no IPv6. *)
Theorem firewall_plan_valid endpoints u :
  uuid_text u = true ->
  forallb (fun e => match ip_address e with Some (IPv4 _) => true | _ => false end) endpoints = true ->
  exists p x y, firewall_plan endpoints u = Ok p /\ 16 <= x <= 239 /\ 1 <= y <= 253 /\
    ipv4_subnet p = session_subnet x y /\ parse_ipv4_network (ipv4_subnet p) = Some (session_network x y) /\
    network_is_global (session_network x y) = false /\
    valid_network_name (network_name p) = true /\ valid_interface_name (bridge_name p) = true /\
    ipv6_subnet p = None /\ approved_dns_endpoints p = endpoints.
Proof.
  intros Hu He. pose proof (hex_name_chars _ (uuid_hex_chars u Hu)) as Hn.
  set (x := 16 + Z.shiftr (uuid_int u) 8 mod 224). set (y := 1 + uuid_int u mod 253).
  assert (Hx : 16 <= x <= 239) by (unfold x; pose proof (Z.mod_pos_bound (Z.shiftr (uuid_int u) 8) 224 eq_refl); lia).
  assert (Hy : 1 <= y <= 253) by (unfold y; pose proof (Z.mod_pos_bound (uuid_int u) 253 eq_refl); lia).
  assert (Hname : valid_network_name ("nl-" ++ str_take 10 (uuid_hex u)) = true).
  { change ("nl-" ++ str_take 10 (uuid_hex u))%string with (String "n" ("l-" ++ str_take 10 (uuid_hex u))).
    unfold valid_network_name. rewrite all_chars_append, all_chars_take, length_append by exact Hn.
    apply andb_true_iff. split; [reflexivity|]. apply Nat.leb_le. pose proof (str_take_length 10 (uuid_hex u)).
    change (String.length "l-") with 2%nat. lia. }
  assert (Hbridge : valid_interface_name ("nlbr" ++ str_take 8 (uuid_hex u)) = true).
  { unfold valid_interface_name. rewrite all_chars_append, all_chars_take, length_append by exact Hn.
    pose proof (str_take_length 8 (uuid_hex u)). apply andb_true_iff. split; [reflexivity|]. apply Nat.leb_le.
    change (String.length "nlbr") with 4%nat. lia. }
  exists (mkPlan ("nl-" ++ str_take 10 (uuid_hex u)) ("nlbr" ++ str_take 8 (uuid_hex u)) (session_subnet x y) None endpoints), x, y.
  assert (Hnet := parse_session_subnet x y ltac:(lia) ltac:(lia)).
  assert (Hpriv := session_network_private x y ltac:(lia) ltac:(lia)). split; [|split_and!; auto; lia].
  unfold firewall_plan. fold x y. fold (session_subnet x y). unfold validate_plan.
  cbn [network_name bridge_name ipv4_subnet ipv6_subnet approved_dns_endpoints]. rewrite Hname, Hbridge, Hnet, Hpriv, He. reflexivity.
Qed.

(** ** Witnesses *)
Definition launched_world : World * res PipelineLaunchResult :=
  run sample_env sample_config "launch-2" sample_request None sample_world.

Definition launched_result : PipelineLaunchResult :=
  match snd launched_world with
  | Ok r => r
  | Err _ => mkPipelineResult "" "" "" "" true None None
  end.

Lemma launched_world_inv : inv (fst launched_world).
Proof.
  exact (proj1 (holds_fst sample_env sample_config _ sample_world
    (keeps_run sample_env sample_config sample_behaves "launch-2" sample_request None) sample_world_inv)).
Qed.

Lemma run_ready_witness :
  pr_reused_existing launched_result = false /\ session_ready sample_env (pr_session_id launched_result) (db_of (fst launched_world)).
Proof.
  assert (Hf : pr_reused_existing launched_result = false) by (vm_compute; reflexivity). split; [exact Hf|].
  assert (E : run sample_env sample_config "launch-2" sample_request None sample_world = (fst launched_world, Ok launched_result))
    by (vm_compute; reflexivity).
  exact (proj1 (proj1 (proj2 (proj2 (run_ready sample_env sample_config sample_behaves "launch-2" sample_request None sample_world
                         (fst launched_world) launched_result sample_world_inv E))) Hf)).
Defined.

Definition launched_session : uuid := nth 1 pipeline_ids ""%string.
Definition stopped_world : World := fst (stop sample_env sample_config launched_session (fst launched_world)).

Lemma stop_complete_witness : leases_released launched_session (db_of stopped_world).
Proof.
  destruct (get_session launched_session (db_of (fst launched_world))) as [s|] eqn:Hg.
  - assert (E : stop sample_env sample_config launched_session (fst launched_world) = (stopped_world, Ok true))
      by (vm_compute; reflexivity).
    assert (Hl : str_mem (s_state s) ["stopped"; "failed"]%string = false).
    { vm_compute in Hg. injection Hg as <-. reflexivity. }
    exact (proj1 (proj2 (stop_complete sample_env sample_config sample_behaves launched_session s (fst launched_world)
                           stopped_world launched_world_inv Hg Hl E))).
  - exfalso. vm_compute in Hg. discriminate Hg.
Defined.

Definition ready_sample : SessionRecord :=
  mkSession launched_session "ws-1" (runtime_name_of launched_session) 40001 false "write" true true true "ready" "u" "t" None.

Lemma credentials_roundtrip_witness :
  let w := fst (write_runtime_secrets sample_env launched_session (loopback_url 40001) "sample-token" sample_world) in
  read_runtime_credentials ready_sample w = (w, Ok (loopback_url 40001, "sample-token"%string)).
Proof.
  exact (proj1 (credentials_roundtrip sample_env (fun _ _ _ => eq_refl) ready_sample "sample-token" sample_world
    (fst (write_runtime_secrets sample_env launched_session (loopback_url 40001) "sample-token" sample_world)) tt
    ltac:(vm_compute; reflexivity) ltac:(vm_compute; discriminate) ltac:(vm_compute; discriminate) ltac:(vm_compute; reflexivity))).
Defined.

Lemma firewall_plan_valid_witness :
  exists p x y, firewall_plan ["9.9.9.9"%string] launched_session = Ok p /\ ipv4_subnet p = session_subnet x y.
Proof.
  destruct (firewall_plan_valid ["9.9.9.9"%string] launched_session eq_refl eq_refl) as (p & x & y & Hp & _ & _ & Hs & _).
  exists p, x, y. auto.
Defined.
