(* ===== verification/Progress.v ===== *)
(** * A launch succeeds (src/notebook_launcher/pipeline.py)

    When every collaborator of [LaunchPipeline.run] does what it is asked and
    other threads leave the rows of this launch alone, the launch of a fresh
    source returns.  The proof goes through the stages of the launch: which of
    its rows and files exist, and in which state. *)
From S2P Require Import PipelineOutcomes.

(** ** Programs that return

    [lives P m Q]: from a state whose shared part satisfies [P], [m] returns a
    value, and then [Q] holds of it and of the shared part. *)
Section Lives.
Context {S : Type} (view : S -> Shared).

Definition lives {A} (P : Shared -> Prop) (m : Eff S A) (Q : A -> Shared -> Prop) : Prop :=
  forall s s' r, P (view s) -> m s = (s', r) -> exists a, r = Ok a /\ Q a (view s').

Lemma lives_bind {A B} P (m : Eff S A) Q (k : A -> Eff S B) Q' :
  lives P m Q -> (forall a, lives (Q a) (k a) Q') -> lives P (m ≫= k) Q'.
Proof.
  intros Hm Hk s s' r Hp E. apply bind_inv in E as [(e & E & ->)|(s1 & a & E & E')].
  - destruct (Hm _ _ _ Hp E) as (a & [=] & _).
  - destruct (Hm _ _ _ Hp E) as (a' & [= <-] & Hq). exact (Hk a _ _ _ Hq E').
Qed.

Lemma lives_ret {A} P (a : A) : lives P (mret a) (fun x sh => x = a /\ P sh).
Proof. intros s s' r Hp [= <- <-]. eauto. Qed.
Lemma lives_lift {A} P (a : A) x : x = Ok a -> lives P (eff_lift x) (fun y sh => y = a /\ P sh).
Proof. intros -> s s' r Hp [= <- <-]. eauto. Qed.
Lemma lives_raise_if P b e : b = false -> lives P (eff_raise_if b e) (fun _ => P).
Proof. intros -> s s' r Hp [= <- <-]. eauto. Qed.
Lemma lives_conseq {A} (P P' : Shared -> Prop) (m : Eff S A) (Q Q' : A -> Shared -> Prop) :
  lives P' m Q' -> (forall sh, P sh -> P' sh) -> (forall a sh, Q' a sh -> Q a sh) -> lives P m Q.
Proof. intros H HP HQ s s' r Hp E. destruct (H s s' r (HP _ Hp) E) as (a & -> & Hq). eauto. Qed.
Lemma lives_then {A} P (m : Eff S A) (Q Q' : A -> Shared -> Prop) :
  lives P m Q' -> (forall a sh, Q' a sh -> Q a sh) -> lives P m Q.
Proof. intros Hm HQ. eapply lives_conseq; [exact Hm|auto|exact HQ]. Qed.
Lemma lives_try {A} P (m : Eff S A) h Q : lives P m Q -> lives P (eff_try m h) Q.
Proof.
  intros Hm s s' r Hp E. unfold eff_try in E. destruct (m s) as [s1 x] eqn:Em.
  destruct (Hm _ _ _ Hp Em) as (a & -> & Hq). injection E as <- <-. eauto.
Qed.
(** A known value, and a fact that the state does not carry. *)
Lemma lives_known {A B} (b : B) (P : B -> Shared -> Prop) (m : B -> Eff S A) Q :
  lives (P b) (m b) Q -> forall x, lives (fun sh => x = b /\ P x sh) (m x) Q.
Proof. intros H x s s' r [-> Hp]. now apply H. Qed.
Lemma lives_fact {A} (F : Prop) P (m : Eff S A) Q : (F -> lives P m Q) -> lives (fun sh => F /\ P sh) m Q.
Proof. intros H s s' r [Hf Hp]. now apply H. Qed.
End Lives.

Abbreviation livesW := (lives shared).
Abbreviation livesL := (lives (fun lw : Locals * World => shared (snd lw))).

Lemma lives_up {A} P (m : Eff World A) Q : livesW P m Q -> livesL P (up m) Q.
Proof.
  intros Hm [lo w] lw' r Hp E. unfold up in E. cbn [fst snd] in *. destruct (m w) as [w' x] eqn:Em. injection E as <- <-.
  destruct (Hm _ _ _ Hp Em) as (a & -> & Hq). eauto.
Qed.
Lemma lives_assign P f : livesL P (assign f) (fun _ => P).
Proof. intros [lo w] lw' r Hp [= <- <-]. eauto. Qed.

Section Progress.
Context (env : PipelineEnv) (cfg : PipelineConfig) `{PyFloat} (launch_id : string).

(** The ids that the launch may draw. *)
Definition mine (x : uuid) : Prop := exists t, x = new_uuid env t.

(** ** Stages *)
Definition launch_at (st : string) (sh : Shared) : Prop :=
  exists row, get_launch launch_id (sh_db sh) = Some row /\ l_state row = st.

(** The launch is in state [st]; its workspace, its session and its private
    directory are these, or none of its ids is used for one yet. *)
Record stage (st : string) (workspace : option WorkspaceRecord) (session : option SessionRecord)
    (private : option (uuid * session_entry)) (sh : Shared) : Prop := mkStage {
  sg_wf : wf_db (sh_db sh);
  sg_launch : launch_at st sh;
  sg_workspace : match workspace with
                 | None => forall x, mine x -> get_workspace x (sh_db sh) = None
                 | Some w => mine (w_id w) /\ get_workspace (w_id w) (sh_db sh) = Some w
                 end;
  sg_session : match session with
               | None => forall x, mine x -> get_session x (sh_db sh) = None /\ active_session x (sh_db sh) = None
               | Some s => mine (s_id s) /\ get_session (s_id s) (sh_db sh) = Some s
               end;
  sg_grants : forall x, mine x -> active_row x (sh_db sh) = None;
  sg_private : match private with
               | None => forall x, mine x -> sh_runtime sh !! x = None
               | Some (x, e) => mine x /\ sh_runtime sh !! x = Some e
               end }.

(** What others may do meanwhile: anything to the rows of other launches,
    workspaces and sessions. *)
Record spares (sh sh' : Shared) : Prop := mkSpares {
  sp_launch : get_launch launch_id (sh_db sh') = get_launch launch_id (sh_db sh);
  sp_workspace x : mine x -> get_workspace x (sh_db sh') = get_workspace x (sh_db sh);
  sp_session x : mine x -> get_session x (sh_db sh') = get_session x (sh_db sh);
  sp_active x : mine x -> active_session x (sh_db sh') = active_session x (sh_db sh);
  sp_grants x : mine x -> active_row x (sh_db sh') = active_row x (sh_db sh);
  sp_private x : mine x -> sh_runtime sh' !! x = sh_runtime sh !! x }.

Lemma stage_spared st wo so po sh sh' : spares sh sh' -> wf_db (sh_db sh') -> stage st wo so po sh -> stage st wo so po sh'.
Proof.
  intros [E1 E2 E3 E4 E5 E6] Hwf [_ Hl Hw Hs Hg Hp]. split; [exact Hwf|..].
  - unfold launch_at. now rewrite E1.
  - destruct wo as [w|]; [destruct Hw as [Hm Hw]; now rewrite E2|]. intros x Hx. rewrite E2; auto.
  - destruct so as [s|]; [destruct Hs as [Hm Hs]; now rewrite E3|]. intros x Hx. rewrite E3, E4; auto.
  - intros x Hx. rewrite E5; auto.
  - destruct po as [[x e]|]; [destruct Hp as [Hm Hp]; now rewrite E6|]. intros x Hx. rewrite E6; auto.
Qed.

(** ** Collaborators that do what they are asked *)
Record willing : Prop := mkWilling {
  wl_others t c sh : wf_db (sh_db sh) -> spares sh (interfere env t c sh) /\ wf_db (sh_db (interfere env t c sh));
  wl_uuid t : uuid_text (new_uuid env t) = true;
  wl_token t path : token_in_argv (new_token env t) (jupyter_command path) = false;
  wl_acquire t s : exists snapshot, on_acquire env t s = Ok snapshot
    /\ ss_repository_id snapshot = rs_repository_id s /\ ss_commit_sha snapshot = rs_commit_sha s;
  wl_make t root : on_make_workspace env t root = Ok tt;
  wl_materialize t snapshot w : on_materialize env t snapshot w = Ok tt;
  wl_ensure t i root : exists build, on_ensure env t i root = Ok build;
  wl_host_gpu t : exists probe, on_host_gpu env t = Ok probe;
  wl_container_gpu t image : exists probe, on_container_gpu env t image = Ok probe;
  wl_port t : exists port, on_port env t = Ok port;
  wl_apply t p : exists a, on_apply env t p = Ok a;
  wl_start t p c a : exists started, on_start env t p c a = Ok started;
  wl_wait t url token path : on_wait_ready env t url token path = Ok true;
  wl_readiness t started : exists rr, on_readiness env t started true = Ok rr /\ rr_ready rr = true;
  wl_make_dir t s : on_make_dir env t s = Ok tt;
  wl_restrict t s : on_restrict env t s = Ok tt;
  wl_write t s name : on_write env t s name = Written }.

Context (Hw : willing).

(** ** Steps that leave the stage as it is *)
Lemma lives_perform {A} st wo so po c (answer : Trace -> A) :
  forall w w' r, stage st wo so po (shared w) -> perform env c answer w = (w', r) ->
    stage st wo so po (shared w') /\ r = answer (trace w).
Proof.
  intros w w' r Hs [= <- <-]. cbn [shared]. destruct (wl_others Hw (trace w) c (shared w) (sg_wf _ _ _ _ _ Hs)) as [Hsp Hwf].
  split; [now apply (stage_spared _ _ _ _ (shared w))|reflexivity].
Qed.

(** A call of a collaborator, whose answers satisfy [Q]. *)
Lemma lives_invoke {A} st wo so po c (answer : Trace -> res A) (Q : A -> Prop) : (forall t, exists a, answer t = Ok a /\ Q a) ->
  livesW (stage st wo so po) (invoke env c answer) (fun a sh => Q a /\ stage st wo so po sh).
Proof.
  intros Ha w w' r Hs E. destruct (lives_perform _ _ _ _ _ _ _ _ _ Hs E) as [Hs' ->].
  destruct (Ha (trace w)) as (a & -> & Hq). eauto.
Qed.

Lemma lives_now P : livesW P (now env) (fun _ => P).
Proof. intros w w' r Hp [= <- <-]. eauto. Qed.
Lemma lives_fresh_uuid P : livesW P (fresh_uuid env) (fun x sh => mine x /\ uuid_text x = true /\ P sh).
Proof. intros w w' r Hp [= <- <-]. eexists. split; [reflexivity|]. split; [now eexists|]. split; [apply Hw|exact Hp]. Qed.
Lemma lives_fresh_token P : livesW P (fresh_token env) (fun x sh => (forall path, token_in_argv x (jupyter_command path) = false) /\ P sh).
Proof. intros w w' r Hp [= <- <-]. eexists. split; [reflexivity|]. split; [intros path; apply Hw|exact Hp]. Qed.
Lemma lives_read {A} P (f : db -> A) : livesW P (read_db f) (fun a sh => a = f (sh_db sh) /\ P sh).
Proof. intros w w' r Hp [= <- <-]. eauto. Qed.
(** ** Statements of the launch *)
Lemma lives_on_db {A} (P : Shared -> Prop) (m : db -> db * res A) (Q : A -> Shared -> Prop) :
  (forall sh, P sh -> exists d a, m (sh_db sh) = (d, Ok a) /\ Q a (mkShared d (sh_runtime sh) (sh_owners sh))) ->
  livesW P (on_db m) Q.
Proof.
  intros Hm w w' r Hp E. unfold on_db in E. destruct (Hm _ Hp) as (d & a & Em & Hq). rewrite Em in E.
  injection E as <- <-. eauto.
Qed.

Lemma update_launch_frame i ex ns t w s m e d d' u : update_launch_state i ex ns t w s m e d = (d', Ok u) ->
  workspaces d' = workspaces d /\ notebook_sessions d' = notebook_sessions d /\ user_data_grants d' = user_data_grants d.
Proof.
  unfold update_launch_state, transaction, tx_bind, tx_update. destruct ex; [discriminate|].
  destruct (sql_update _ _ _) as [[rows n]|]; [|discriminate]. unfold tx_raise_if, tx_raise, tx_ret.
  destruct (negb _); [discriminate|]. intros [= <- _]. auto.
Qed.

(** The launch goes on. *)
Lemma lives_update st ns wo so po ex ws sid m e : str_mem st ex = true -> str_mem ns launch_states = true ->
  livesW (stage st wo so po) (update_launch env launch_id ex ns ws sid m e) (fun _ => stage ns wo so po).
Proof.
  intros Hst Hns. eapply lives_bind; [apply lives_now|]. intros t. apply lives_on_db. intros sh [Hwf (row & Hrow & <-) Hwo Hso Hg Hp].
  assert (Hex : ex <> []) by (intros ->; discriminate).
  pose proof (update_launch_state_cas launch_id ns t ex ws sid m e (sh_db sh) Hwf Hex Hns) as Hc. cbv zeta in Hc.
  rewrite Hrow, Hst in Hc. destruct Hc as (d' & E & Hl & _). exists d', tt. split; [exact E|].
  pose proof (update_launch_frame _ _ _ _ _ _ _ _ _ _ _ E) as (Ew & Es & Eg).
  pose proof (update_launch_state_wf launch_id ex ns t ws sid m e (sh_db sh) Hwf) as Hwf'. rewrite E in Hwf'.
  split; cbn [sh_db sh_runtime] in *; unfold get_workspace, get_session, active_session, active_row in *; rewrite ?Ew, ?Es, ?Eg; auto.
  eexists. split; [exact Hl|reflexivity].
Qed.

Lemma create_workspace_fresh w d : get_workspace (w_id w) d = None ->
  create_workspace w d = (set_tbl (workspaces d ++ [w]) d, Ok w).
Proof.
  intros Hn. unfold create_workspace, transaction, tx_bind, tx_insert. cbn [tbl_fk workspace_db]. unfold sql_insert.
  assert (no_conflict (workspaces d) w = true) as Hc.
  { apply forallb_forall. intros x Hx. apply negb_true_iff. exact (proj1 (fetchone_none _ _) Hn x Hx). }
  change (tbl d) with (workspaces d). rewrite Hc. cbn [tbl_check workspace_table andb].
  unfold tx_fetchone. rewrite tbl_set. change (fun x : WorkspaceRecord => String.eqb (w_id x) (w_id w)) with (by_key (R:=WorkspaceRecord) (w_id w)).
  assert (fetchone (by_key (R:=WorkspaceRecord) (w_id w)) (workspaces d ++ [w]) = Some w) as -> by now apply fetch_by_key_snoc.
  reflexivity.
Qed.

Lemma lives_create_workspace st so po w : mine (w_id w) ->
  livesW (stage st None so po) (on_db (create_workspace w)) (fun x sh => x = w /\ stage st (Some w) so po sh).
Proof.
  intros Hm. apply lives_on_db. intros sh [Hwf Hl Hwo Hso Hg Hp].
  pose proof (create_workspace_fresh w (sh_db sh) (Hwo _ Hm)) as E.
  pose proof (create_workspace_wf w (sh_db sh) Hwf) as Hwf'. rewrite E in Hwf'. do 2 eexists. split; [exact E|]. split; [reflexivity|].
  split; cbn [sh_db sh_runtime]; auto. split; [exact Hm|].
  change (fetchone (by_key (R:=WorkspaceRecord) (w_id w)) (workspaces (sh_db sh) ++ [w]) = Some w).
  apply fetch_by_key_snoc; [exact (Hwo _ Hm)|reflexivity].
Qed.

(** The session of this workspace is claimed. *)
Lemma claim_fresh s w r p g a u t d : get_session s d = None -> active_session w d = None -> has_workspace d w = true ->
  str_mem a ["write"; "readonly"]%string = true ->
  claim_session s w r p g a u t true d
  = (set_tbl (notebook_sessions d ++ [row_starting s w r p g a u t]) d, Ok (row_starting s w r p g a u t, true)).
Proof.
  intros Hs Hact Hw' Ha. unfold claim_session, transaction, tx_bind, tx_fetchone.
  change (fetchone (active_session_of w) (tbl d)) with (active_session w d). rewrite Hact.
  unfold tx_catch_integrity, tx_insert. cbn [tbl_fk session_db s_workspace_id]. rewrite Hw'.
  match goal with |- context [sql_insert ?x (tbl d)] =>
    change (sql_insert x (tbl d)) with (sql_insert (row_starting s w r p g a u t) (notebook_sessions d)) end.
  rewrite (session_insert_ok s w r p g a u t d Hact Hs Ha), tbl_set. change (fun x : SessionRecord => String.eqb (s_id x) s) with (by_key (R:=SessionRecord) s).
  set (row := row_starting s w r p g a u t).
  assert (fetchone (by_key (R:=SessionRecord) s) (notebook_sessions d ++ [row]) = Some row) as -> by now apply fetch_by_key_snoc.
  reflexivity.
Qed.

Lemma lives_claim st w po sid port gpu rq url : mine sid ->
  livesW (stage st (Some w) None po) (claim env sid w port gpu rq url)
    (fun x sh => snd x = true /\ exists s, s_id s = sid /\ s_state s = "starting"%string /\ stage st (Some w) (Some s) po sh).
Proof.
  intros Hm. eapply lives_bind; [apply lives_now|]. intros t. apply lives_on_db. intros sh [Hwf Hl [Hmw Hwo] Hso Hg Hp].
  destruct (Hso _ Hm) as [Hs _]. destruct (Hso _ Hmw) as [_ Hact].
  assert (Hhas : has_workspace (sh_db sh) (w_id w) = true).
  { unfold has_workspace. apply existsb_exists. unfold get_workspace, fetchone in Hwo.
    apply find_some in Hwo as [Hin Hid]. eauto. }
  assert (Ha : str_mem (AgentMode_value (rq_agent_mode rq)) ["write"; "readonly"]%string = true) by now destruct (rq_agent_mode rq).
  pose proof (claim_fresh sid (w_id w) (runtime_name_of sid) port gpu _ url t (sh_db sh) Hs Hact Hhas Ha) as E.
  pose proof (claim_session_wf sid (w_id w) (runtime_name_of sid) port gpu (AgentMode_value (rq_agent_mode rq)) url t true
                (sh_db sh) Hwf) as Hwf'.
  rewrite E in Hwf'. set (row := row_starting _ _ _ _ _ _ _ _) in *. do 2 eexists. split; [exact E|].
  split; [reflexivity|]. exists row. do 2 (split; [reflexivity|]). split; cbn [sh_db sh_runtime]; auto. split; [exact Hm|].
  change (fetchone (by_key (R:=SessionRecord) sid) (notebook_sessions (sh_db sh) ++ [row]) = Some row).
  now apply fetch_by_key_snoc.
Qed.

(** The session becomes ready; of the rest only the launch still matters. *)
Definition launching (st : string) (sh : Shared) : Prop := wf_db (sh_db sh) /\ launch_at st sh.

Lemma lives_ready st wo po s a b c : s_state s = "starting"%string ->
  livesW (stage st wo (Some s) po) (on_db (transition_session (s_id s) ["starting"%string] "ready" None a b c)) (fun _ => launching st).
Proof.
  intros Hst. apply lives_on_db. intros sh [Hwf (row & Hrow & Hl) _ [_ Hs] _ _].
  pose proof (transition_session_cas (s_id s) "ready" ["starting"%string] None a b c (sh_db sh) Hwf ltac:(easy) eq_refl) as Hc.
  assert (Hact : forall x, get_session (s_id s) (sh_db sh) = Some x -> session_active x || negb (str_mem "ready" active_states) = true)
    by (intros x Ex; rewrite Hs in Ex; injection Ex as <-; unfold session_active; now rewrite Hst).
  specialize (Hc Hact). cbv zeta in Hc. rewrite Hs, Hst in Hc. destruct Hc as (d' & E & _ & _ & El & _).
  pose proof (transition_session_wf (s_id s) ["starting"%string] "ready" None a b c (sh_db sh) Hwf) as Hwf'. rewrite E in Hwf'.
  do 2 eexists. split; [exact E|]. split; cbn [sh_db]; [exact Hwf'|]. exists row. unfold get_launch in *. cbn [sh_db]. now rewrite El.
Qed.

Lemma lives_finish st ns ex ws sid m e : str_mem st ex = true -> str_mem ns launch_states = true ->
  livesW (launching st) (update_launch env launch_id ex ns ws sid m e) (fun _ _ => True).
Proof.
  intros Hst Hns. eapply lives_bind; [apply lives_now|]. intros t. apply lives_on_db. intros sh [Hwf (row & Hrow & <-)].
  assert (Hex : ex <> []) by (intros ->; discriminate).
  pose proof (update_launch_state_cas launch_id ns t ex ws sid m e (sh_db sh) Hwf Hex Hns) as Hc. cbv zeta in Hc.
  rewrite Hrow, Hst in Hc. destruct Hc as (d' & E & _). eauto.
Qed.
(** ** The private directory *)
Lemma lives_entry st wo so sid e :
  livesW (stage st wo so (Some (sid, e))) (read_entry sid) (fun x sh => x = Some e /\ stage st wo so (Some (sid, e)) sh).
Proof. intros w w' r Hs [= <- <-]. eexists. split; [reflexivity|]. split; [apply Hs|exact Hs]. Qed.
Lemma lives_no_entry st wo so sid : mine sid ->
  livesW (stage st wo so None) (read_entry sid) (fun x sh => x = None /\ stage st wo so None sh).
Proof. intros Hm w w' r Hs [= <- <-]. eexists. split; [reflexivity|]. split; [now apply Hs|exact Hs]. Qed.
Lemma lives_set_entry st wo so po sid e : mine sid ->
  livesW (stage st wo so po) (set_entry sid (Some e)) (fun _ => stage st wo so (Some (sid, e))).
Proof.
  intros Hm w w' r [Hwf Hl Hwo Hso Hg _] [= <- <-]. eexists. split; [reflexivity|]. split; auto. split; [exact Hm|apply lookup_insert_eq].
Qed.

Lemma lives_private_write st wo so sid files name content : mine sid -> files !! name = None ->
  livesW (stage st wo so (Some (sid, EDir files))) (exclusive_private_write env sid name content)
    (fun _ => stage st wo so (Some (sid, EDir (<[name := PFile content]> files)))).
Proof.
  intros Hm Hn. eapply lives_bind; [apply lives_entry|]. apply lives_known. rewrite Hn. cbn [is_some].
  intros w w' r Hs E. destruct (perform env _ _ w) as [w1 o] eqn:Ep.
  destruct (lives_perform _ _ _ _ _ _ _ _ _ Hs Ep) as [Hs1 ->]. rewrite (wl_write Hw) in E. revert Hs1 E.
  enough (Hf : livesW (stage st wo so (Some (sid, EDir files))) (write_node sid name content Written)
                 (fun _ => stage st wo so (Some (sid, EDir (<[name := PFile content]> files))))) by exact (Hf w1 w' r).
  eapply lives_bind; [apply lives_entry|]. apply lives_known. now apply lives_set_entry.
Qed.

Lemma lives_call {A} st wo so po c (answer : Trace -> res A) a : (forall t, answer t = Ok a) ->
  livesW (stage st wo so po) (invoke env c answer) (fun x sh => x = a /\ stage st wo so po sh).
Proof. intros Ha. apply lives_invoke. eauto. Qed.

Lemma lives_secrets st wo so sid url token : mine sid ->
  livesW (stage st wo so None) (write_runtime_secrets env sid url token)
    (fun _ sh => exists files content, files !! PRIVATE_JSON = Some (PFile content) /\ stage st wo so (Some (sid, EDir files)) sh).
Proof.
  intros Hm. unfold write_runtime_secrets, make_session_dir. eapply lives_bind.
  { eapply lives_bind; [now apply lives_no_entry|]. apply lives_known. cbn [is_some].
    eapply lives_bind; [apply lives_call; intros t; apply Hw|]. intros u. apply lives_fact. intros _. now apply lives_set_entry. }
  intros u1. eapply lives_bind; [apply lives_try, lives_call; intros t; apply Hw|]. intros u2. apply lives_fact. intros _.
  eapply lives_bind; [now apply lives_private_write|]. intros u3.
  eapply lives_then; [apply lives_try, lives_private_write; [exact Hm|reflexivity]|]. intros a sh Hs.
  do 2 eexists. split; [|exact Hs]. reflexivity.
Qed.

Lemma lives_private_is_file st wo so sid files content : files !! PRIVATE_JSON = Some (PFile content) ->
  livesW (stage st wo so (Some (sid, EDir files))) (private_is_file sid)
    (fun b sh => b = true /\ stage st wo so (Some (sid, EDir files)) sh).
Proof.
  intros Hf. eapply lives_bind; [apply lives_entry|]. apply lives_known. rewrite Hf. apply lives_ret.
Qed.

(** ** The workspace and the policy *)
Lemma lives_workspace_create st so po snapshot owner repository path :
  livesW (stage st None so po) (workspace_create env cfg snapshot owner repository path)
    (fun x sh => (w_source_repository_id x = ss_repository_id snapshot /\ w_source_commit_sha x = ss_commit_sha snapshot)
                 /\ stage st (Some x) so po sh).
Proof.
  eapply lives_bind; [apply lives_fresh_uuid|]. intros x. apply lives_fact. intros Hm. apply lives_fact. intros _.
  eapply lives_bind; [apply lives_call; intros t; apply Hw|]. intros u. apply lives_fact. intros _. apply lives_try.
  eapply lives_bind; [apply lives_call; intros t; apply Hw|]. intros u'. apply lives_fact. intros _.
  eapply lives_bind; [apply lives_now|]. intros t.
  eapply lives_then; [apply lives_create_workspace; exact Hm|]. intros a sh [-> Hs]. auto.
Qed.

Lemma lives_prepare rq source : rq_workspace_id rq = None ->
  livesW (stage "starting" None None None) (prepare_workspace env cfg rq (Some source) launch_id)
    (fun x sh => (exists snapshot w, x = (source, Some snapshot, w) /\ w_source_repository_id w = rs_repository_id source
                   /\ w_source_commit_sha w = rs_commit_sha source)
                 /\ stage "starting" (Some (snd x)) None None sh).
Proof.
  intros Hrq. unfold prepare_workspace. rewrite Hrq.
  apply (lives_bind shared _ _ (fun x sh => (exists snapshot w, x = (source, Some snapshot, w) /\ w_source_repository_id w = rs_repository_id source
                   /\ w_source_commit_sha w = rs_commit_sha source) /\ stage "starting" (Some (snd x)) None None sh)).
  - eapply lives_bind; [apply lives_ret|]. apply lives_known. eapply lives_bind; [apply lives_invoke; intros t; apply Hw|].
    intros snapshot. apply lives_fact. intros [Hi Hc]. eapply lives_bind; [apply lives_workspace_create|]. intros w.
    apply lives_fact. intros [Hi' Hc']. intros s s' r Hs [= <- <-]. eexists. split; [reflexivity|]. split; [|exact Hs].
    exists snapshot, w. split_and!; congruence.
  - intros x. apply lives_fact. intros Hx. eapply lives_bind; [now apply lives_update|]. intros u s s' r Hs [= <- <-]. eauto.
Qed.

Lemma lives_gpu st wo so po mode image : mode <> GPU_ON ->
  livesW (stage st wo so po) (gpu_allocation env mode image) (fun _ => stage st wo so po).
Proof.
  intros Hm. unfold gpu_allocation. apply (lives_bind shared _ _ (fun _ => stage st wo so po)).
  { destruct (bool_decide _); [eapply lives_then; [apply lives_ret|now intros a sh [_ Hs]]|].
    eapply lives_then; [apply (lives_invoke _ _ _ _ _ _ (fun _ => True)); intros t; destruct (wl_host_gpu Hw t); eauto|now intros a sh [_ Hs]]. }
  intros host. apply (lives_bind shared _ _ (fun _ => stage st wo so po)).
  { destruct (negb _ && _); [|eapply lives_then; [apply lives_ret|now intros a sh [_ Hs]]].
    eapply lives_bind; [apply (lives_invoke _ _ _ _ _ _ (fun _ => True)); intros t; destruct (wl_container_gpu Hw t image); eauto|].
    intros c. apply lives_fact. intros _. eapply lives_then; [apply lives_ret|now intros a sh [_ Hs]]. }
  intros container. assert (exists a, resolve_gpu_allocation mode host container = Ok a) as [a Ha].
  { unfold resolve_gpu_allocation, effective_gpu_probe. rewrite (bool_decide_eq_false_2 (mode = GPU_ON)) by exact Hm.
    repeat case_match; simplify_eq; cbn [rbind]; eauto. }
  eapply lives_then; [exact (lives_lift shared (stage st wo so po) a _ Ha)|now intros x sh [_ Hs]].
Qed.

Lemma lives_policy st w so po sid image plan port gpu :
  livesW (stage st (Some w) so po) (sandbox_policy env cfg w sid image plan port gpu) (fun _ => stage st (Some w) so po).
Proof.
  intros s s' r Hs [= <- <-]. unfold revalidate, active.
  rewrite (sg_grants _ _ _ _ _ Hs (w_id w)) by apply (sg_workspace _ _ _ _ _ Hs). cbn [rbind rmap]. eauto.
Qed.
End Progress.
