(* ===== verification/Assembly.v ===== *)
(** * The pipeline with its own collaborators (src/notebook_launcher/pipeline.py)

    [LaunchPipeline.__init__] without arguments: the source cache, the builder,
    the network applier, the Docker runtime and its control, and the readiness
    probe of this repository.  What they ask of the host (commands, files,
    requests, the clock) is answered anew at each point of the pipeline's
    trace. *)
From S2P Require Export PipelineOutcomes Adapters.

(** The host as the collaborators see it when the pipeline has made these calls. *)
Record Outside := mkOutside {
  ou_run : Trace -> Runner;
  ou_nvidia_smi : Trace -> res CommandResult;
  ou_cache : Trace -> SourceCache.CacheEnv;
  ou_probe : Trace -> HttpJupyterReadinessProbe.ProbeEnv;
  ou_os : Trace -> OsEnv;
  ou_resolve : Trace -> string -> res (list string);
  ou_resolve_file : Trace -> string -> res string;
  ou_is_file : Trace -> string -> bool;
  ou_source_root : Trace -> string -> res string;
  ou_is_dir : Trace -> string -> bool;
  ou_home : string;
  ou_builder : list string;
  ou_appendix : string;
  ou_sources_dir : string;
  ou_nt : bool }.

(** The defaults of [HttpJupyterReadinessProbe], and the polls it is given:
    one for each interval and one more. *)
Definition probe_timeout : Z := 60000000.
Definition probe_interval : Z := 250000.
Definition probe_polls : nat := 241.

(** The version of the builder when none is given: that of the package, or
    [PackageNotFoundError]. *)
Definition repo2docker_version (installed : option string) : string :=
  match installed with
  | Some version => "repo2docker " ++ version
  | None => "repo2docker unavailable"
  end.

(** The first line of the constructor. *)
Definition check_start_timeout (microseconds : Z) : res unit :=
  raise_if (microseconds <=? 0) (ValueError "existing_start_timeout_seconds must be positive").

Section Assembly.
Context (base : PipelineEnv) (cfg : PipelineConfig) (o : Outside) `{PyFloat} `{PyConversions}.

Definition start_container (t : Trace) (policy : SandboxPolicy) (command : list string) (att : NetworkPolicyAttestation)
  : res RuntimeStartResult :=
  snd (runtime_start (ou_run o t) (ou_resolve o t) (ou_resolve_file o t) (ou_is_file o t) (ou_home o) (ou_home o)
         policy command att []).
Definition private_dir (session_id : uuid) : string := (pc_runtime_dir cfg ++ "/" ++ session_id)%string.

Definition assembled : PipelineEnv := {|
  on_acquire := fun t source => snd (SourceCache.acquire (ou_cache o t) (ou_sources_dir o) source []);
  on_make_workspace := on_make_workspace base;
  on_materialize := on_materialize base;
  on_remove_tree := on_remove_tree base;
  on_check_files := on_check_files base;
  on_ensure := fun t identity root => snd (builder_ensure (ou_run o t) (ou_builder o) (ou_appendix o) identity
                                             (ou_source_root o t root) (ou_is_dir o t) []);
  on_host_gpu := fun t => probe_nvidia (ou_nvidia_smi o t);
  on_container_gpu := fun t image => snd (probe_nvidia_container (ou_run o t) image []);
  on_port := fun t => snd (allocate_loopback_port (ou_os o t) []);
  on_apply := fun t plan => snd (apply_policy (ou_run o t) plan []);
  on_verify := fun t plan => snd (Network.verify (ou_run o t) plan []);
  on_remove := fun t plan => snd (Network.remove (ou_run o t) plan []);
  on_start := start_container;
  on_readiness := fun t started collaboration_ready => snd (runtime_readiness (ou_run o t) started collaboration_ready []);
  on_wait_ready := fun t url token path =>
    snd (HttpJupyterReadinessProbe.wait (ou_probe o t) probe_timeout probe_interval probe_polls url token path []);
  on_is_alive := fun t runtime_id => snd (DockerContainerControl.is_alive (ou_run o t) runtime_id []);
  on_stop := fun t runtime_id => snd (DockerContainerControl.stop (ou_run o t) runtime_id []);
  on_make_dir := on_make_dir base;
  on_restrict := fun t session_id => snd (restrict_owner_access (ou_os o t) (ou_nt o) (private_dir session_id) []);
  on_write := on_write base;
  on_unlink := on_unlink base;
  on_remove_dir := on_remove_dir base;
  on_wait_owner := on_wait_owner base;
  new_uuid := new_uuid base;
  new_token := new_token base;
  clock := clock base;
  host_now := host_now base;
  interfere := interfere base |}.

(** ** What each collaborator's answer means *)

(** The network of the plan was created, its firewall rules installed and
    verified, each by a command that succeeded. *)
Definition firewalled (t : Trace) (p : FirewallPlan) : Prop :=
  all_succeed (ou_run o t) [] (docker_network_create_argv p :: firewall_rule_argv p ++ firewall_verification_argv p).

Lemma applied_firewalled t p att : snd (apply_policy (ou_run o t) p []) = Ok att ->
  firewalled t p /\ at_verification_commands att = firewall_verification_argv p.
Proof.
  destruct (apply_policy (ou_run o t) p []) as [h r] eqn:E. cbn [snd]. intros ->. apply apply_fails_closed in E.
  destruct E as (_ & Hs & Hv & _). auto.
Qed.

(** A container of a valid policy was started, right after the rules had been
    verified again; it is published on the loopback interface only. *)
Definition contained (t : Trace) (p : FirewallPlan) (policy : SandboxPolicy) (command : list string) (container : string) : Prop :=
  exists argv result,
    validate_sandbox_policy (ou_resolve o t) (ou_resolve_file o t) (ou_is_file o t) policy (ou_home o) true = Ok tt
    /\ docker_run_argv (ou_resolve o t) (ou_resolve_file o t) (ou_is_file o t) policy (ou_home o) command = Ok argv
    /\ all_succeed (ou_run o t) [] (firewall_verification_argv p)
    /\ ou_run o t (firewall_verification_argv p) (detached argv) = Ok result
    /\ returncode result = 0 /\ container = strip (stdout result)
    /\ Forall (fun v => starts_with "127.0.0.1:" v = true) (published_values argv).

Lemma started_contained t p policy command att started :
  at_verification_commands att = firewall_verification_argv p ->
  start_container t policy command att = Ok started -> contained t p policy command (rs_container_id started).
Proof.
  intros Hv. unfold start_container. destruct (runtime_start _ _ _ _ _ _ policy command att []) as [h r] eqn:E. cbn [snd]. intros ->.
  apply runtime_start_trace in E as [(k & e & _ & [=])|(argv & H1 & _ & H2 & H3 & H4 & _ & H5)].
  destruct (H5 _ eq_refl) as (result & H6 & H7 & _ & ->). rewrite Hv in *. exists argv, result. split_and!; auto.
  unfold check_argv in H4. apply rbind_ok in H4 as ([] & _ & H4%policy_error_if_ok). apply existsb_false in H4.
  eapply Forall_impl; [exact H4|]. intros v. apply negb_false_iff.
Qed.

(** Docker says that the container runs, and every flag is set. *)
Lemma readiness_means runner started collab rr : snd (runtime_readiness runner started collab []) = Ok rr ->
  collab = true /\ DockerContainerControl.reported_running runner [] (rs_container_id started) = true
  /\ rr_sandbox_verified rr = true /\ rr_network_verified rr = true /\ rr_collaboration_ready rr = true.
Proof.
  destruct (runtime_readiness runner started collab []) as [h r] eqn:E. cbn [snd]. intros ->. unfold runtime_readiness in E.
  apply eff_lift_bind in E as [(e & _ & _ & [=])|(u1 & _ & E)]. apply eff_lift_bind in E as [(e & _ & _ & [=])|(u2 & _ & E)].
  apply eff_lift_bind in E as [(e & _ & _ & [=])|(u3 & Hc & E)]. apply policy_error_if_ok, negb_false_iff in Hc.
  apply eff_bind_ok in E as (h1 & x & E1 & E). apply run_guarded_trace in E1 as [_ E1]. specialize (E1 _ eq_refl).
  apply eff_raise_if_bind in E as [(_ & _ & [=])|(Hx & E)]. injection E as _ <-.
  unfold DockerContainerControl.reported_running. rewrite E1. apply orb_false_iff in Hx as [Hx1 Hx2].
  apply negb_false_iff in Hx1, Hx2. rewrite Hx1, Hx2. auto.
Qed.

(** ** A launch with these collaborators *)

(** What stands behind a session when its launch has returned. *)
Definition guarded_session (sid : uuid) (w : World) : Prop :=
  exists s, get_session sid (db_of w) = Some s /\ s_state s = "ready"%string /\ s_sandbox_verified s = true
    /\ s_network_verified s = true /\ s_collaboration_ready s = true.
Definition guarded_runtime (sid : uuid) (w : World) : Prop :=
  exists a p att policy command started url token path probed,
    let started_at := a ++ [NetworkApply p] in
    let probed_at := started_at ++ [StartRuntime policy command att] in
    let checked_at := probed_at ++ [WaitReady url token path] in
    trace w = checked_at ++ [CheckReadiness started true]
    /\ plan_of cfg sid = Ok p /\ firewalled a p
    /\ sp_network_name policy = Some (network_name p) /\ sp_container_name policy = runtime_name_of sid
    /\ contained started_at p policy command (rs_container_id started) /\ token_in_argv token command = false
    /\ HttpJupyterReadinessProbe.seen_collaborating (ou_probe o probed_at) url token path [] probed
    /\ DockerContainerControl.reported_running (ou_run o checked_at) [] (rs_container_id started) = true.

Definition guarded_reuse (sid : uuid) (w : World) : Prop :=
  exists a p url token path started probed,
    let verified_at := a ++ [NetworkVerify p] in
    let checked_at := verified_at ++ [WaitReady url token path] in
    trace w = checked_at ++ [CheckReadiness started true]
    /\ plan_of cfg sid = Ok p /\ all_succeed (ou_run o a) [] (firewall_verification_argv p)
    /\ HttpJupyterReadinessProbe.seen_collaborating (ou_probe o verified_at) url token path [] probed
    /\ DockerContainerControl.reported_running (ou_run o checked_at) [] (runtime_name_of sid) = true.

Lemma probe_seen t url token path :
  snd (HttpJupyterReadinessProbe.wait (ou_probe o t) probe_timeout probe_interval probe_polls url token path []) = Ok true ->
  exists probed, HttpJupyterReadinessProbe.seen_collaborating (ou_probe o t) url token path [] probed.
Proof.
  destruct (HttpJupyterReadinessProbe.wait _ _ _ _ url token path []) as [t' r] eqn:E. cbn [snd]. intros ->. exists t'.
  unfold HttpJupyterReadinessProbe.wait in E. apply eff_bind_ok in E as (t1 & n & E1 & E). injection E1 as <- <-.
  apply HttpJupyterReadinessProbe.poll_true in E. exact (HttpJupyterReadinessProbe.probe_seen_later _ _ _ _ [] [_] _ E).
Qed.

Lemma started_guarded sid w : started_under_policy assembled cfg sid (trace w) -> guarded_runtime sid w.
Proof.
  intros (a & p & att & policy & command & started & url & token & path & collab & Ht & Hp & Ha & Hs & Hn & Hc & Htok & Hw & rr & Hrr & _).
  cbn [assembled on_apply on_start on_wait_ready on_readiness] in *.
  apply applied_firewalled in Ha as [Hf Hv]. apply (started_contained _ p) in Hs; [|exact Hv].
  apply readiness_means in Hrr as (-> & Hrun & _). apply probe_seen in Hw as [probed Hw].
  exists a, p, att, policy, command, started, url, token, path, probed. cbv zeta. rewrite <- !app_assoc. cbn [app]. auto 10.
Qed.

Lemma reattested_guarded sid w : reattested assembled cfg sid (trace w) -> guarded_reuse sid w.
Proof.
  intros (a & p & att & url & token & path & started & collab & rr & Ht & Hp & Ha & _ & Hid & Hw & Hrr & _).
  cbn [assembled on_verify on_wait_ready on_readiness] in *. destruct (Network.verify (ou_run o a) p []) as [h r] eqn:Ev.
  cbn [snd] in Ha. subst r. apply verify_ok in Ev as (_ & Hs & _). apply readiness_means in Hrr as (-> & Hrun & _).
  apply probe_seen in Hw as [probed Hw]. rewrite Hid in Hrun. exists a, p, url, token, path, started, probed. cbv zeta.
  rewrite <- !app_assoc. cbn [app]. auto 10.
Qed.

Lemma ready_guarded sid w : session_ready assembled sid (db_of w) -> guarded_session sid w.
Proof.
  intros (s & t & started & collab & rr & Hg & Hst & Hrr & _ & F1 & F2 & F3). cbn [assembled on_readiness] in Hrr.
  apply readiness_means in Hrr as (_ & _ & E1 & E2 & E3). exists s. split_and!; congruence.
Qed.

End Assembly.

(** ** Witness *)

(** A host on which every command succeeds and Jupyter starts at once. *)
Definition docker_says (argv : list string) : string :=
  match argv with
  | docker :: verb :: _ =>
      if String.eqb verb "run" then "c0ffee" ++ NL
      else if String.eqb verb "inspect" then "true" ++ NL
      else if String.eqb verb "image" then "sha256:1" ++ NL else ""
  | _ => ""
  end%string.

Definition willing_host : Outside := {|
  ou_run _ := fun _ argv => Ok (mkCommandResult argv 0 (docker_says argv) "" 0 0 false 1);
  ou_nvidia_smi _ := Err (FileNotFoundError "nvidia-smi");
  ou_cache _ := SourceCache.sample_cache;
  ou_probe _ := HttpJupyterReadinessProbe.mkProbeEnv (fun _ _ => Ok HttpJupyterReadinessProbe.shared_notebook)
                  HttpJupyterReadinessProbe.slept;
  ou_os _ := mkOsEnv (fun _ _ => Ok tt) (fun _ => Ok 40001) (fun _ => Ok "user"%string)
               (fun _ argv => Ok (mkCommandResult argv 0 "" "" 0 0 false 1));
  ou_resolve _ := plain_resolve;
  ou_resolve_file _ := plain_file;
  ou_is_file _ := fun _ => true;
  ou_source_root _ := fun root => Ok root;
  ou_is_dir _ := fun _ => true;
  ou_home := "/home/user";
  ou_builder := ["jupyter-repo2docker"];
  ou_appendix := "";
  ou_sources_dir := "/cache";
  ou_nt := false |}%string.

Definition assembled_run : World * res PipelineLaunchResult :=
  Pipeline.run (assembled sample_env sample_config willing_host) sample_config "launch-2" sample_request None sample_world.
Definition assembled_result : PipelineLaunchResult :=
  match snd assembled_run with Ok r => r | Err _ => mkPipelineResult "" "" "" "" true None None end.

