(* ===== verification/Workers.v ===== *)
(** * What the pipeline's threads do to authorizations (pipeline.py)

    The threads of the pipeline run beside the web application on the same
    database.  Whatever they do, they leave the tables of authorization alone
    and move a launch only when it is no longer waiting for trust.  The web
    application's theorems rely on this. *)
From S2P Require Export PipelineProofs.

(** The consumed tokens, the trust grants, the recorded sources and the
    challenges. *)
Definition authorizations (d : db) : list replay_row * list trust_row * list launch_source_row * list challenge_row :=
  (replays d, trust_records d, launch_sources d, trust_challenges d).

Definition worker_launch_step (l l' : launch_row) : Prop :=
  launch_step l l' /\ l_state l <> "pending_trust"%string.

Definition worker_rel (d d' : db) : Prop :=
  authorizations d' = authorizations d /\ Forall2 (rtc worker_launch_step) (launches d) (launches d').

#[export] Instance worker_rel_preorder : PreOrder worker_rel.
Proof.
  split.
  - intros d. split; [reflexivity|]. induction (launches d); constructor; auto. apply rtc_refl.
  - intros a b c [A1 L1] [A2 L2]. split; [congruence|]. eapply Forall2_rtc_trans; eauto.
Qed.

Lemma worker_same d d' : authorizations d' = authorizations d -> launches d' = launches d -> worker_rel d d'.
Proof. intros Ha Hl. split; [exact Ha|]. rewrite Hl. apply worker_rel_preorder. Qed.

(** An update of launches that are not waiting for trust. *)
Lemma worker_map d d' (p : launch_row -> bool) f :
  authorizations d' = authorizations d ->
  launches d' = map (fun l => if p l then f l else l) (launches d) ->
  (forall l, p l = true -> worker_launch_step l (f l)) -> worker_rel d d'.
Proof.
  intros Ha Hl Hp. split; [exact Ha|]. rewrite Hl. clear Ha Hl. induction (launches d) as [|l ls IH]; constructor; [|exact IH].
  destruct (p l) eqn:E; [apply rtc_once; auto|apply rtc_refl].
Qed.

Definition worker_edge (ns x : string) : Prop := launch_edge x ns /\ x <> "pending_trust"%string.

Lemma worker_set_state ns t w s m e l : worker_edge ns (l_state l) ->
  worker_launch_step l (launch_set_state ns t w s m e l).
Proof. intros [He Hn]. split; [split; [reflexivity|exact He]|exact Hn]. Qed.

(** ** The methods of the store that the pipeline calls *)
Lemma update_launch_state_worker i ex ns t w s m e d :
  Forall (worker_edge ns) ex -> worker_rel d (fst (update_launch_state i ex ns t w s m e d)).
Proof.
  intros Hex. unfold update_launch_state. destruct ex as [|x ex]; [reflexivity|]. unfold transaction, tx_bind, tx_update.
  destruct (sql_update _ _ (tbl d)) as [[t' n]|] eqn:Eu; [|reflexivity].
  unfold tx_raise_if. destruct (negb (n =? 1)%Z); [reflexivity|]. cbn. apply sql_update_spec in Eu as (-> & _ & _).
  eapply worker_map; [reflexivity..|]. intros l [_ Hm]%andb_true_iff. apply worker_set_state.
  exact (str_mem_Forall _ _ _ Hex Hm).
Qed.

Lemma fail_launches_worker i t m e d : worker_rel d (fst (fail_launches_for_session i t m e d)).
Proof.
  unfold fail_launches_for_session, transaction, tx_update. destruct (sql_update _ _ (tbl d)) as [[t' n]|] eqn:Eu; [|reflexivity].
  apply sql_update_spec in Eu as (-> & _ & _). eapply worker_map; [reflexivity..|].
  intros l [_ Hm]%andb_true_iff. apply String.eqb_eq in Hm. apply worker_set_state. rewrite Hm. split; [constructor|discriminate].
Qed.

Lemma create_workspace_worker w d : worker_rel d (fst (create_workspace w d)).
Proof.
  unfold create_workspace, transaction, tx_bind, tx_insert, tx_fetchone. destruct (tbl_fk d w); [|reflexivity].
  destruct (sql_insert w (tbl d)) as [t|]; [|reflexivity].
  destruct (fetchone _ (tbl (set_tbl t d))); apply worker_same; reflexivity.
Qed.

Lemma release_leases_worker i t d : worker_rel d (fst (release_session_leases i t d)).
Proof.
  unfold release_session_leases, transaction, tx_bind, tx_update. destruct (sql_update _ _ (tbl d)) as [[t' n]|]; [|reflexivity].
  apply worker_same; reflexivity.
Qed.

Lemma claim_session_worker i w r p g a u t b d : worker_rel d (fst (claim_session i w r p g a u t b d)).
Proof.
  unfold claim_session, transaction, tx_bind, tx_fetchone, tx_catch_integrity, tx_insert.
  destruct (fetchone _ (tbl d)) as [s|]; [destruct b; reflexivity|].
  destruct (tbl_fk d _); [|reflexivity]. destruct (sql_insert _ (tbl d)) as [t'|]; [|reflexivity].
  destruct (fetchone _ _); apply worker_same; reflexivity.
Qed.

Lemma transition_session_worker i ex ns st a b c d : worker_rel d (fst (transition_session i ex ns st a b c d)).
Proof.
  unfold transition_session. destruct ex as [|x ex]; [reflexivity|]. unfold transaction, tx_bind, tx_update, tx_fetchone.
  destruct (sql_update _ _ (tbl d)) as [[t' n]|]; [|reflexivity].
  unfold tx_raise_if. destruct (negb (n =? 1)%Z); [reflexivity|]. cbn [tx_ret]. destruct (fetchone _ _); apply worker_same; reflexivity.
Qed.

(** ** The operations of the pipeline *)
Section Workers.
Context (env : PipelineEnv) (cfg : PipelineConfig) `{PyFloat}.

(** The other threads of the process are workers too. *)
Context (Hrely : forall t c sh, worker_rel (sh_db sh) (sh_db (interfere env t c sh))).

Definition any (_ : World) : Prop := True.
Definition db_worker (w w' : World) : Prop := worker_rel (sh_db (shared w)) (sh_db (shared w')).

#[local] Instance db_worker_preorder : PreOrder db_worker.
Proof. split; [intros w; unfold db_worker; reflexivity|intros a b c H1 H2; unfold db_worker in *; etrans; eauto]. Qed.

Abbreviation works := (holds any db_worker).

Lemma works_by_db {A} (m : Eff World A) :
  (forall w, worker_rel (sh_db (shared w)) (sh_db (shared (fst (m w))))) -> works m.
Proof. intros Hm w w' r _ _ E. split_and!; [exact Logic.I| |auto]. specialize (Hm w). now rewrite E in Hm. Qed.

Lemma works_invoke {A} c (answer : Trace -> res A) : works (invoke env c answer).
Proof. apply works_by_db. intros w. apply Hrely. Qed.

Lemma works_on_db {A} (m : db -> db * res A) : (forall d, worker_rel d (fst (m d))) -> works (on_db m).
Proof. intros Hm. apply works_by_db. intros w. unfold on_db. specialize (Hm (sh_db (shared w))). now destruct (m _). Qed.

Lemma works_after {A B} c (answer : Trace -> A) (k : A -> Eff World B) : (forall a, works (k a)) ->
  works (fun w => let '(w', a) := perform env c answer w in k a w').
Proof.
  intros Hk w w' r _ _ E. unfold perform in E.
  destruct (Hk _ _ _ _ Logic.I Logic.I E) as (_ & H2 & _). split_and!; [exact Logic.I| |auto]. etrans; [|exact H2]. apply Hrely.
Qed.

Lemma works_catch {A} (m : Eff World A) p (k : exn -> Eff World A) : works m -> (forall e, works (k e)) ->
  works (eff_try m (fun e => if p e : bool then Some (k e) else None)).
Proof.
  intros Hm Hk. apply holds_try; [typeclasses eauto|exact Hm|]. intros e k'. destruct (p e); [|discriminate].
  intros E; injection E as <-. apply Hk.
Qed.

Ltac same_db := apply works_by_db; let x := fresh in intros x; exact (PreOrder_Reflexive (R := worker_rel) (sh_db (shared x))).
#[local] Hint Extern 1 (holds any db_worker (read_db _)) => same_db : triples.
#[local] Hint Extern 1 (holds any db_worker (read_db_res _)) => same_db : triples.
#[local] Hint Extern 1 (holds any db_worker (now _)) => same_db : triples.
#[local] Hint Extern 1 (holds any db_worker (read_owned _)) => same_db : triples.
#[local] Hint Extern 1 (holds any db_worker (set_owners _)) => same_db : triples.
#[local] Hint Extern 1 (holds any db_worker (read_entry _)) => same_db : triples.
#[local] Hint Extern 1 (holds any db_worker (set_entry _ _)) => same_db : triples.
#[local] Hint Extern 1 (holds any db_worker (fresh_uuid _)) => same_db : triples.
#[local] Hint Extern 1 (holds any db_worker (fresh_token _)) => same_db : triples.
#[local] Hint Extern 1 (holds any db_worker (sandbox_policy _ _ _ _ _ _ _ _)) => same_db : triples.
#[local] Hint Extern 1 (holds any db_worker (invoke _ _ _)) => apply works_invoke : triples.
#[local] Hint Extern 1 (holds any db_worker (on_db (fail_launches_for_session _ _ _ _))) =>
  (apply works_on_db; intros; apply fail_launches_worker) : triples.
#[local] Hint Extern 1 (holds any db_worker (on_db (create_workspace _))) =>
  (apply works_on_db; intros; apply create_workspace_worker) : triples.
#[local] Hint Extern 1 (holds any db_worker (on_db (release_session_leases _ _))) =>
  (apply works_on_db; intros; apply release_leases_worker) : triples.
#[local] Hint Extern 1 (holds any db_worker (on_db (claim_session _ _ _ _ _ _ _ _ _))) =>
  (apply works_on_db; intros; apply claim_session_worker) : triples.
#[local] Hint Extern 1 (holds any db_worker (on_db (transition_session _ _ _ _ _ _ _))) =>
  (apply works_on_db; intros; apply transition_session_worker) : triples.

Lemma works_update_launch i ex ns w s m e : Forall (worker_edge ns) ex -> works (update_launch env i ex ns w s m e).
Proof.
  intros Hex. unfold update_launch. apply holds_bind; [typeclasses eauto|auto with triples|intros t].
  apply works_on_db. intros d. now apply update_launch_state_worker.
Qed.

Ltac worker_edges := repeat first [constructor | discriminate].
#[local] Hint Extern 1 (holds any db_worker (update_launch _ _ _ _ _ _ _ _)) =>
  (apply works_update_launch; worker_edges) : triples.

(** Opens the definitions of the pipeline down to the steps above. *)
Ltac open_pipeline :=
  repeat progress unfold transition, transition_stopped, release_leases, ignore_Exception, collect_Exception, attempt, on_Exception,
    set_file, remove_dir, unlink_private, write_through, make_session_dir, is_alive, stop_runtime, network_remove,
    remove_network_if, verify_ready, wait_ready, check_readiness.
Ltac works := open_pipeline; solve_triple.

Lemma works_ignore {A} (m : Eff World A) : works m -> works (ignore_Exception m).
Proof. intros Hm. apply (works_catch _ is_Exception (fun _ => mret tt)); [|auto with triples]. solve_triple. Qed.
Lemma works_collect {A} (m : Eff World A) l : works m -> works (collect_Exception m l).
Proof. intros Hm. apply (works_catch _ is_Exception (fun e => mret (l ++ [e]))); [|auto with triples]. solve_triple. Qed.
Lemma works_attempt {A} (m : Eff World A) : works m -> works (attempt m).
Proof. intros Hm. apply (works_catch _ is_Exception (fun e => mret (inr e))); [|auto with triples]. solve_triple. Qed.
Lemma works_unlink s n : works (unlink_private env s n).
Proof. works. Qed.
Lemma works_remove_dir s : works (remove_dir env s).
Proof. works. Qed.
#[local] Hint Resolve works_ignore works_collect works_attempt works_unlink works_remove_dir : triples.

Lemma works_exclusive_write s n content : works (exclusive_private_write env s n content).
Proof.
  unfold exclusive_private_write. apply holds_bind; [typeclasses eauto|auto with triples|intros [[files|b|]|]].
  - destruct (is_some (files !! n)); [auto with triples|]. apply works_after. intros [|e|e]; cbn; works.
  - apply works_after. intros [|e|e]; cbn; works.
  - auto with triples.
  - auto with triples.
Qed.
#[local] Hint Resolve works_exclusive_write : triples.

Lemma works_write_secrets s u t : works (write_runtime_secrets env s u t).
Proof. unfold write_runtime_secrets. works. Qed.

Lemma works_invalidate s : works (invalidate_session_private_state env s).
Proof. unfold invalidate_session_private_state, invalidate_name. works. Qed.

Lemma works_stop_and_confirm r b : works (stop_and_confirm_runtime env r b).
Proof. unfold stop_and_confirm_runtime. works. Qed.
#[local] Hint Resolve works_write_secrets works_invalidate works_stop_and_confirm : triples.

Lemma works_remove_network b p l : works (remove_network_if env b p l).
Proof. works. Qed.
#[local] Hint Resolve works_remove_network : triples.

Lemma works_retire s e b : works (retire_session env cfg s e b).
Proof. unfold retire_session. works. Qed.
Lemma works_reattest s : works (reattest_ready_session env cfg s).
Proof. unfold reattest_ready_session, read_runtime_credentials. works. Qed.
#[local] Hint Resolve works_retire works_reattest : triples.

Lemma works_reuse_ready i rq s : works (reuse_ready env cfg i rq s).
Proof. unfold reuse_ready, mark_launch_ready. works. Qed.
#[local] Hint Resolve works_reuse_ready : triples.

Lemma works_wait_owner s :
  works (fun w : World => let '(w', b) := perform env (WaitOwner s) (fun t => on_wait_owner env t s) w in (w', Ok b)).
Proof. apply (works_after (WaitOwner s) _ (fun b w' => (w', Ok b))). intros b. apply holds_ret. typeclasses eauto. Qed.
#[local] Hint Resolve works_wait_owner : triples.

Lemma works_reuse fuel i rq s : works (reuse_existing_session env cfg fuel i rq s).
Proof. revert s. induction fuel as [|fuel IH]; intros s; cbn [reuse_existing_session]; works. Qed.
#[local] Hint Resolve works_reuse : triples.

Lemma works_reconcile : works (reconcile_starting_sessions env cfg).
Proof.
  unfold reconcile_starting_sessions. apply holds_bind; [typeclasses eauto|auto with triples|intros l]. generalize 0.
  induction l as [|s l IH]; intros n; cbn [reconcile_sessions]; solve_triple.
Qed.

(** The workspace's launches that [stop] ends are starting or ready. *)
Lemma works_set_workspace w : works (set_workspace_launch_state env w "stopped").
Proof.
  intros x x' r _ _ E. unfold set_workspace_launch_state in E. apply bind_inv in E as [(e & E & ->)|(x1 & rows & E & E2)].
  - discriminate.
  - unfold read_db in E. assert (x1 = x) as -> by congruence.
    assert (rows = workspace_launches w (sh_db (shared x))) as -> by congruence. assert (Hk : works (eff_iter (fun row => ignore_Exception
      (update_launch env (l_id row) [l_state row] "stopped" (Some w) None None None))
      (workspace_launches w (sh_db (shared x))))).
    { apply holds_iter; [typeclasses eauto|]. intros row Hr. apply works_ignore, works_update_launch.
      apply select_spec in Hr as [_ Hr]. apply andb_true_iff in Hr as [_ Hr]. apply str_mem_In in Hr.
      constructor; [|constructor]. destruct Hr as [<-|[<-|[]]]; (split; [constructor|discriminate]). }
    exact (Hk _ _ _ Logic.I Logic.I E2).
Qed.
#[local] Hint Resolve works_set_workspace : triples.

Lemma works_stop i : works (stop env cfg i).
Proof. unfold stop. works. Qed.

Lemma works_workspace_create sn o r p : works (workspace_create env cfg sn o r p).
Proof.
  unfold workspace_create. do 2 (apply holds_bind; [typeclasses eauto|auto with triples|intros ?]).
  apply works_catch; [solve_triple|]. intros e. solve_triple.
Qed.
#[local] Hint Resolve works_workspace_create : triples.

Lemma works_prepare rq src i : works (prepare_workspace env cfg rq src i).
Proof. unfold prepare_workspace, workspace_reopen, source_or_trusted, acquire_source. works. Qed.

Lemma works_fail_launch i w : works (fail_launch env i w).
Proof.
  unfold fail_launch. apply holds_bind; [typeclasses eauto|auto with triples|intros [l|]]; [|auto with triples].
  destruct (str_mem (l_state l) _) eqn:E; cbn [negb]; [|auto with triples]. apply works_ignore, works_update_launch.
  constructor; [|constructor]. apply str_mem_In in E. destruct E as [<-|[<-|[]]]; (split; [constructor|discriminate]).
Qed.
#[local] Hint Resolve works_prepare works_fail_launch : triples.

Lemma works_rollback {A} i lo e : works (rollback (A := A) env i lo e).
Proof. unfold rollback, settle_session. works. Qed.

(** A step of the body of [run]. *)
Definition db_worker2 (a b : Locals * World) : Prop := db_worker (snd a) (snd b).
#[local] Instance db_worker2_preorder : PreOrder db_worker2.
Proof. split; [intros a; unfold db_worker2; reflexivity|]. intros a b c H1 H2. unfold db_worker2 in *. etrans; eauto. Qed.

Definition any2 (_ : Locals * World) : Prop := True.

Lemma works_up {A} (m : Eff World A) : works m -> holds any2 db_worker2 (up m).
Proof.
  intros Hm [lo w] [lo' w'] r _ _ E. unfold up in E. cbn [snd fst] in E. destruct (m w) as [w1 x] eqn:Em.
  injection E as -> -> ->. destruct (Hm _ _ _ Logic.I Logic.I Em) as (_ & H2 & _). split_and!; [exact Logic.I|exact H2|auto].
Qed.

Lemma works_assign f : holds any2 db_worker2 (assign f).
Proof.
  intros [lo w] [lo' w'] r _ _ E. injection E as <- <- <-.
  split_and!; [exact Logic.I|unfold db_worker2; reflexivity|auto].
Qed.
#[local] Hint Resolve works_assign : triples.
#[local] Hint Extern 2 (holds any2 db_worker2 (up _)) => (apply works_up; works) : triples.

Lemma works_run_body i rq src : holds any2 db_worker2 (run_body env cfg i rq src).
Proof.
  unfold run_body, start_session, claim, gpu_allocation, private_is_file, write_runtime_secrets, acquire_source. works.
Qed.

Lemma works_run_admitted i rq src : works (run_admitted env cfg i rq src).
Proof.
  intros w w' r _ _ E. unfold run_admitted in E. destruct (run_body env cfg i rq src (no_locals, w)) as [[lo w1] x] eqn:Eb.
  destruct (works_run_body i rq src (no_locals, w) (lo, w1) x Logic.I Logic.I Eb) as (_ & H2 & _).
  match goal with E : eff_finally ?m ?f w1 = _ |- _ => assert (Hk : works (eff_finally m f)) end.
  { apply holds_finally; [typeclasses eauto| |unfold drop_owner; works].
    destruct x as [a|e]; [auto with triples|]. destruct (is_Exception e); [apply works_rollback|auto with triples]. }
  destruct (Hk _ _ _ Logic.I Logic.I E) as (_ & H4 & _). split_and!; [exact Logic.I| |auto]. etrans; eauto.
Qed.
#[local] Hint Resolve works_run_admitted : triples.

Lemma works_run i rq src : works (run env cfg i rq src).
Proof. unfold run. works. Qed.

Lemma works_run_authorized i src : works (run_authorized env cfg i src).
Proof.
  unfold run_authorized, persisted_request, source_or_trusted.
  apply holds_bind; [typeclasses eauto|solve_triple|intros [rq s]]. apply works_run.
Qed.

Lemma execute_all_worker ops w : worker_rel (db_of w) (db_of (execute_all env cfg ops w)).
Proof.
  unfold execute_all. revert w. induction ops as [|o ops IH]; intros w; cbn [fold_left]; [reflexivity|].
  etrans; [|apply IH]. assert (Hf : forall A (m : Eff World A), works m -> db_worker w (fst (m w))).
  { intros A m Hm. destruct (m w) as [w' r] eqn:E. exact (proj1 (proj2 (Hm _ _ _ Logic.I Logic.I E))). }
  destruct o; apply Hf; auto using works_run, works_run_authorized, works_stop, works_reconcile.
Qed.
End Workers.

(** C4: the pipeline authorizes nothing.  Whatever its collaborators answer or
    raise, any sequence of launches, stops and reconciliations leaves the
    consumed tokens, the trust grants, the recorded sources and the challenges
    as they were, creates no launch, and leaves every launch that waits for
    trust untouched: only a launch that was authorized before moves, along its
    life cycle. *)
Theorem pipeline_authorizes_nothing env cfg `{PyFloat} ops w :
  (forall t c sh, worker_rel (sh_db sh) (sh_db (interfere env t c sh))) ->
  authorizations (db_of (execute_all env cfg ops w)) = authorizations (db_of w)
  /\ Forall2 (fun l l' => rtc launch_step l l' /\ (l_state l = "pending_trust"%string -> l' = l))
       (launches (db_of w)) (launches (db_of (execute_all env cfg ops w))).
Proof.
  intros Hr. destruct (execute_all_worker env cfg Hr ops w) as [Ha Hl].
  split; [exact Ha|]. eapply Forall2_impl; [exact Hl|]. intros l l' Hs. split.
  - induction Hs as [l|l l1 l2 [H1 _] _ IH]; [apply rtc_refl|eapply rtc_l; eauto].
  - intros Hp. destruct Hs as [|l l1 l2 [_ Hn] _]; [reflexivity|contradiction].
Qed.

Lemma pipeline_authorizes_nothing_witness :
  authorizations (db_of (execute_all sample_env sample_config sample_ops sample_world)) = authorizations (db_of sample_world).
Proof. refine (proj1 (pipeline_authorizes_nothing sample_env sample_config sample_ops sample_world _)). reflexivity. Defined.
