(* ===== verification/Launches.v ===== *)
(** * Starting launches (src/notebook_launcher/launches.py, app.py)

    The effects of the web application, the digest that binds a launch to its
    authorization, [StateLaunchStarter] and [PipelineLaunchStarter].

    The handlers run one after the other (none of them awaits), but the threads
    of the pipeline work on the database at the same time: every access of a
    handler to the database comes after [ae_workers] changed it. *)
From S2P Require Export Web LaunchAuth Trust Pipeline.

(** ** The world of the web application *)

(** [NotebookCopyRequest] (models.py) *)
Record NotebookCopyRequest := mkCopyRequest {
  nc_source_path : string;
  nc_destination_scope : DestinationScope;
  nc_destination_path : string;
  nc_include_outputs : bool;
  nc_overwrite : bool }.

Inductive app_call :=
| Resolve (request : LaunchRequest)
| ReadClock
| DrawUuid
| DrawNonce
| DrawJti
| AccessDatabase
| Submit (launch_id : string) (request : LaunchRequest) (source : option ResolvedSource)
| StopSession (session_id : uuid)
| SaveCopy (workspace_id : uuid) (request : NotebookCopyRequest).

Definition AppTrace : Type := list app_call.

Record AppWorld := mkAppWorld { app_trace : AppTrace; app_db : db }.

(** The resolver, the clock, random identifiers, the pipeline's executor, the
    runtime and the files, which answer from all the calls so far; and the
    pipeline's threads. *)
Record AppEnv := mkAppEnv {
  ae_resolve : AppTrace -> LaunchRequest -> res ResolvedSource;
  ae_clock : AppTrace -> Z;
  ae_uuid : AppTrace -> uuid;
  ae_nonce : AppTrace -> string;
  ae_jti : AppTrace -> string;
  ae_pending : AppTrace -> string -> bool;
  ae_submit : AppTrace -> string -> res unit;
  ae_stop : AppTrace -> uuid -> res bool;
  ae_save_copy : AppTrace -> uuid -> NotebookCopyRequest -> res unit;
  ae_workers : AppTrace -> app_call -> db -> db }.

(** ** The digest of a launch *)

(** [request.model_dump(mode="json", exclude_none=True)] *)
Definition some_field (key : string) (o : option string) : list (string * json) :=
  match o with Some s => [(key, JStr s)] | None => [] end.

Definition request_fields (r : LaunchRequest) : list (string * json) :=
  (some_field "url" (rq_url r) ++ some_field "repo" (rq_repo r) ++ some_field "ref" (rq_ref r)
   ++ some_field "path" (rq_path r) ++ some_field "workspace_id" (rq_workspace_id r)
   ++ [("gpu", JStr (GPU_value (rq_gpu r))); ("agent_mode", JStr (AgentMode_value (rq_agent_mode r)))]%string).

(** [payload["resolved_..."] = ...] for a resolved source *)
Definition source_fields (source : option ResolvedSource) : list (string * json) :=
  match source with
  | None => []
  | Some s => [("resolved_repository_id", JInt (rs_repository_id s));
               ("resolved_commit_sha", JStr (rs_commit_sha s));
               ("resolved_notebook_path", JStr (rs_notebook_path s))]%string
  end.

Definition digest_payload (r : LaunchRequest) (source : option ResolvedSource) : json :=
  JObj (request_fields r ++ source_fields source).

Definition normalized_digest (r : LaunchRequest) (source : option ResolvedSource) : string :=
  request_digest (digest_payload r source).

Section Starter.
Context (env : AppEnv) (cfg : WebSettings).

(** ** Steps *)
Definition app_perform {A} (c : app_call) (answer : AppTrace -> res A) : Eff AppWorld A := fun w =>
  (mkAppWorld (app_trace w ++ [c]) (ae_workers env (app_trace w) c (app_db w)), answer (app_trace w)).

Definition app_now : Eff AppWorld Z := app_perform ReadClock (fun t => Ok (ae_clock env t)).
Definition app_uuid : Eff AppWorld uuid := app_perform DrawUuid (fun t => Ok (ae_uuid env t)).

(** A query, and a method of a store. *)
Definition access : Eff AppWorld unit := app_perform AccessDatabase (fun _ => Ok tt).
Definition query {A} (f : db -> res A) : Eff AppWorld A := fun w => (w, f (app_db w)).
Definition method {A} (m : db -> db * res A) : Eff AppWorld A := fun w =>
  let '(d, r) := m (app_db w) in (mkAppWorld (app_trace w) d, r).

Definition app_read {A} (f : db -> res A) : Eff AppWorld A := _ ← access; query f.
Definition app_write {A} (m : db -> db * res A) : Eff AppWorld A := _ ← access; method m.

(** ** [StateLaunchStarter.start] *)
Record StartResult := mkStartResult {
  sr_launch_id : string;
  sr_state : string;
  sr_trust_covered : bool;
  sr_trust_confirmation_url : option string;
  sr_trust_expires_at : option string }.

Definition state_of_start (source : option ResolvedSource) (trust_covered : bool) : string :=
  if trust_covered || is_none source then "authorized" else "pending_trust".

Definition state_start (request : LaunchRequest) (source : option ResolvedSource) (trust_covered : bool)
  : Eff AppWorld StartResult :=
  let digest := normalized_digest request source in
  let state_name := state_of_start source trust_covered in
  now ← app_now;
  new_id ← app_uuid;
  launch_id ← app_write (create_launch new_id digest (option_map rs_repository_id source)
                (option_map rs_commit_sha source) (option_map rs_notebook_path source) (rq_workspace_id request)
                (GPU_value (rq_gpu request)) (AgentMode_value (rq_agent_mode request)) trust_covered state_name
                (isoformat now));
  match source with
  | Some source =>
      if trust_covered then mret (mkStartResult launch_id state_name trust_covered None None)
      else
        nonce ← app_perform DrawNonce (fun t => Ok (ae_nonce env t));
        now ← app_now;
        challenge ← app_write (create_challenge nonce launch_id source (ws_trust_challenge_ttl_seconds cfg) now);
        mret (mkStartResult launch_id state_name trust_covered
                (Some ("/trust/" ++ launch_id ++ "?nonce=" ++ fst challenge)%string)
                (Some (isoformat (snd challenge))))
  | None => mret (mkStartResult launch_id state_name trust_covered None None)
  end.

(** ** [LaunchPipeline.schedule] and [schedule_authorized]

    A worker for the launch that has not finished is reused; otherwise the
    launch is submitted to the executor. *)
Definition schedule (launch_id : string) (request : LaunchRequest) (source : option ResolvedSource)
  : Eff AppWorld unit := fun w =>
  if ae_pending env (app_trace w) launch_id then (w, Ok tt)
  else app_perform (Submit launch_id request source) (fun t => ae_submit env t launch_id) w.

(** [_persisted_request] of the pipeline, which only reads. *)
Definition persisted_of (launch_id : string) (d : db) : res (LaunchRequest * option ResolvedSource) :=
  snd (persisted_request launch_id None (mkWorld [] 0 (mkShared d ∅ []))).

Definition schedule_authorized (launch_id : string) : Eff AppWorld unit :=
  persisted ← app_read (persisted_of launch_id);
  schedule launch_id (fst persisted) (snd persisted).

(** ** [PipelineLaunchStarter] *)
Definition pipeline_start (request : LaunchRequest) (source : option ResolvedSource) (trust_covered : bool)
  : Eff AppWorld StartResult :=
  result ← state_start request source trust_covered;
  _ ← (if String.eqb (sr_state result) "authorized" then schedule (sr_launch_id result) request source else mret tt);
  mret result.

Definition continue_authorized (launch_id : string) : Eff AppWorld unit := schedule_authorized launch_id.
End Starter.
