(* ===== verification/App.v ===== *)
(** * The HTTP application (src/notebook_launcher/app.py)

    One definition per route, with the statuses and details of its error
    responses, over the world of [Launches].  Routing, the parsing of bodies and
    path parameters and the static markup of the pages belong to the framework:
    a handler takes its parsed arguments, and a page is the list of the texts
    put into it. *)
From S2P Require Export Launches Leases.

(** ** Request bodies *)
Record LaunchPost := mkLaunchPost { lp_request : LaunchRequest; lp_launch_token : string }.

Inductive TrustDecision := TRUST_EXACT_COMMIT | TRUST_REPOSITORY | DENY.

Record TrustPost := mkTrustPost {
  tp_decision : option TrustDecision;
  tp_confirmation_nonce : option string;
  tp_nonce : option string;
  tp_scope : option TrustScope }.

(** [TrustPost.normalized]: the nonce, and the scope or none for a denial. *)
Definition normalized (b : TrustPost) : res (string * option TrustScope) :=
  let nonce := if truthy (tp_confirmation_nonce b) then tp_confirmation_nonce b else tp_nonce b in
  let! nonce := match nonce with
                | Some n => if String.eqb n "" then Err (ValueError "confirmation_nonce is required") else Ok n
                | None => Err (ValueError "confirmation_nonce is required")
                end in
  match tp_decision b with
  | Some DENY => Ok (nonce, None)
  | Some TRUST_EXACT_COMMIT => Ok (nonce, Some EXACT_COMMIT)
  | Some TRUST_REPOSITORY => Ok (nonce, Some REPOSITORY)
  | None =>
      match tp_scope b with
      | Some scope => Ok (nonce, Some scope)
      | None => Err (ValueError "trust decision is required")
      end
  end.

(** The query parameters of the preview page. *)
Record PreviewQuery := mkPreviewQuery {
  pq_url : option string;
  pq_repo : option string;
  pq_ref : option string;
  pq_path : option string;
  pq_workspace_id : option string;
  pq_gpu : string;
  pq_agent_mode : string }.

(** ** Requests and responses *)
Inductive AppRequest :=
| GetHealth
| GetStatusPage (launch_id : string)
| GetPreview (q : PreviewQuery)
| PostLaunch (body : LaunchPost)
| GetTrustPage (launch_id nonce : string)
| PostTrust (launch_id : string) (body : TrustPost)
| GetLaunch (launch_id : string)
| GetTrust
| DeleteTrust (trust_id : uuid)
| GetWorkspace (workspace_id : uuid)
| PostCopy (workspace_id : uuid) (body : NotebookCopyRequest)
| GetMcp (session_id : uuid)
| DeleteSession (session_id : uuid).

Inductive AppResponse :=
| Health (status host : string) (port : Z)
| Page (texts : list string)
| Launched (result : StartResult)
| TrustDenied (launch_id : string)
| TrustConfirmed (launch_id : string) (trust_id : uuid) (scope : TrustScope)
| LaunchState (launch_id state : string) (trust_covered : bool)
    (workspace_id session_id message error_code : option string)
| TrustList (records : list TrustRecord)
| WorkspaceMetadata (record : WorkspaceRecord)
| Copied (workspace_id : uuid) (scope destination : string)
| McpDescriptor (descriptor : McpAttachmentDescriptor)
| NoContent.

(** ** Errors *)
Definition http_text (status : Z) (detail : string) : exn := HTTPException status (DetailText detail) None.
Definition http_public (e : LauncherError) : exn := HTTPException (http_status e) (DetailPublic e) None.

(** [LaunchAuthorizationError] and its subclasses, by their codes. *)
Definition is_LaunchAuthorizationError (e : exn) : bool :=
  match e with
  | LauncherExn le => str_mem (code le) ["invalid_launch_token"; "launch_token_expired"; "launch_request_changed";
                                         "launch_token_replayed"]%string
  | _ => false
  end.

Definition launch_request_changed : LauncherError :=
  LaunchAuthorizationError "launch_request_changed" "The launch request changed; refresh the preview and retry.".
Definition launch_token_replayed : LauncherError :=
  LaunchAuthorizationError "launch_token_replayed" "The launch authorization token was already used.".

(** [except ...: raise HTTPException(...) from exc] *)
Definition convert {A} (f : exn -> option exn) (m : Eff AppWorld A) : Eff AppWorld A :=
  eff_try m (fun e => option_map eff_raise (f e)).

Definition cause_detail (status : Z) (e : exn) : exn := HTTPException status DetailOfCause (Some e).
Definition public_detail (e : exn) : option exn :=
  match e with LauncherExn le => Some (HTTPException (http_status le) (DetailPublic le) (Some e)) | _ => None end.

(** [except Exception] of the preview, and the two clauses of the launch. *)
Definition preview_error (e : exn) : option exn := if is_Exception e then Some (cause_detail 400 e) else None.
Definition launch_error (e : exn) : option exn :=
  if is_LaunchAuthorizationError e then public_detail e else preview_error e.
Definition trust_error (e : exn) : option exn := if is_ValueError e then Some (cause_detail 409 e) else None.
Definition copy_error (e : exn) : option exn :=
  match e with
  | LauncherExn _ => public_detail e
  | FileExistsError _ => Some (HTTPException 409 (DetailText "destination exists") (Some e))
  | KeyError _ => Some (cause_detail 400 e)
  | _ => if is_ValueError e then Some (cause_detail 400 e) else None
  end.

(** ** The handlers *)
Section App.
Context `{PyFloat} `{PyConversions}.
Context (env : AppEnv) (cfg : WebSettings) (codec : LaunchTokenCodec).
(** How pydantic reads a UUID, and the settings of the descriptors. *)
Context (uuid_of_text : string -> res uuid) (stale_seconds : Z) (backend : string).

#[local] Abbreviation app_now := (app_now env).
#[local] Abbreviation app_read := (app_read env).
#[local] Abbreviation app_write := (app_write env).

Definition check_local_request (client : HttpClient) : Eff AppWorld unit :=
  _ ← eff_raise_if (negb (local_client client)) (http_text 400 "local client required");
  eff_raise_if (negb (local_origin cfg client)) (http_text 400 "cross-origin request denied").

Definition resolve_source (request : LaunchRequest) : Eff AppWorld (option ResolvedSource) :=
  match rq_workspace_id request with
  | Some _ => mret None
  | None => s ← app_perform env (Resolve request) (fun t => ae_resolve env t request); mret (Some s)
  end.

(** [bool(source and trust.find(source).trusted)] *)
Definition trusted (source : option ResolvedSource) : Eff AppWorld bool :=
  match source with
  | None => mret false
  | Some s => m ← app_read (Trust.find s); mret (tm_trusted m)
  end.

Definition health : Eff AppWorld AppResponse := mret (Health "ok" (ws_host cfg) (ws_port cfg)).

Definition status_page (launch_id : string) : Eff AppWorld AppResponse :=
  row ← app_read (fun d => Ok (get_launch launch_id d));
  match row with
  | None => eff_raise (http_text 404 "launch not found")
  | Some l => mret (Page [html_escape launch_id; html_escape (l_state l); html_escape (or_text (l_workspace_id l) "pending")])
  end.

(** [LaunchRequest(...)] from query parameters *)
Definition preview_request (q : PreviewQuery) : res LaunchRequest :=
  let! workspace_id := match pq_workspace_id q with Some t => rmap Some (uuid_of_text t) | None => Ok None end in
  let! gpu := GPU_of (pq_gpu q) in
  let! mode := AgentMode_of (pq_agent_mode q) in
  validate_source (mkLaunchRequest (pq_url q) (pq_repo q) (pq_ref q) (pq_path q) workspace_id gpu mode).

Definition bool_text (b : bool) : string := if b then "true" else "false".

Definition preview (q : PreviewQuery) : Eff AppWorld AppResponse :=
  resolved ← convert preview_error
    (request ← eff_lift (preview_request q); source ← resolve_source request; mret (request, source));
  let '(request, source) := resolved in
  trust_covered ← trusted source;
  let digest := normalized_digest request source in
  jti ← app_perform env DrawJti (fun t => Ok (ae_jti env t));
  now ← app_now;
  issued ← eff_lift (issue codec jti digest now);
  mret (Page [bool_text trust_covered; html_escape (isoformat (snd issued));
              safe_script_json (JObj (request_fields request)); safe_script_json (JStr (fst issued))]).

Definition launch (client : HttpClient) (body : LaunchPost) : Eff AppWorld AppResponse :=
  _ ← check_local_request client;
  checked ← convert launch_error
    (source ← resolve_source (lp_request body);
     now ← app_now;
     claims ← eff_lift (LaunchAuth.decode codec (lp_launch_token body) now);
     mret (source, normalized_digest (lp_request body) source, claims));
  let '(source, digest, claims) := checked in
  same ← eff_lift (compare_digest (cl_request_digest claims) digest);
  _ ← eff_raise_if (negb same) (http_public launch_request_changed);
  now ← app_now;
  consumed ← app_write (consume_launch_jti (hash_jti (cl_jti claims)) digest (isoformat now));
  _ ← eff_raise_if (negb consumed) (http_public launch_token_replayed);
  trust_covered ← trusted source;
  result ← pipeline_start env cfg (lp_request body) source trust_covered;
  mret (Launched result).

Definition trust_page (launch_id nonce : string) : Eff AppWorld AppResponse :=
  now ← app_now;
  valid ← app_read (validate_challenge launch_id nonce now);
  _ ← eff_raise_if (negb valid) (http_text 403 "invalid or expired trust challenge");
  source ← app_read (fun d => Ok (source_for_launch launch_id d));
  match source with
  | None => eff_raise (http_text 404 "launch source not found")
  | Some s =>
      mret (Page [html_escape (id_owner s); html_escape (id_repository s); html_escape (str_slice 12 (id_commit_sha s));
                  html_escape (id_notebook_path s); safe_script_json (JStr launch_id); safe_script_json (JStr nonce)])
  end.

(** [_verify_trust_source_unchanged] *)
Definition same_identity (saved : LaunchSourceIdentity) (current : ResolvedSource) : bool :=
  (rs_repository_id current =? id_repository_id saved)
  && bool_decide (rs_repository_node_id current = id_repository_node_id saved)
  && String.eqb (rs_commit_sha current) (id_commit_sha saved)
  && String.eqb (rs_notebook_path current) (id_notebook_path saved).

Definition request_of_identity (saved : LaunchSourceIdentity) : LaunchRequest :=
  mkLaunchRequest None (Some (id_owner saved ++ "/" ++ id_repository saved)%string) (Some (id_requested_ref saved))
    (Some (id_notebook_path saved)) None GPU_AUTO AgentMode_WRITE.

Definition verify_trust_source_unchanged (launch_id : string) : Eff AppWorld unit :=
  saved ← app_read (fun d => Ok (source_for_launch launch_id d));
  match saved with
  | None => eff_raise (ValueError "launch source identity missing")
  | Some saved =>
      request ← eff_lift (validate_source (request_of_identity saved));
      current ← app_perform env (Resolve request) (fun t => ae_resolve env t request);
      eff_raise_if (negb (same_identity saved current))
        (ValueError "source identity changed; refresh the preview and authorize again")
  end.

Definition confirm_trust (client : HttpClient) (launch_id : string) (body : TrustPost) : Eff AppWorld AppResponse :=
  _ ← check_local_request client;
  convert trust_error
    (decided ← eff_lift (normalized body);
     match snd decided with
     | None =>
         now ← app_now;
         _ ← app_write (deny launch_id (fst decided) now);
         mret (TrustDenied launch_id)
     | Some scope =>
         _ ← verify_trust_source_unchanged launch_id;
         now ← app_now;
         new_id ← app_uuid env;
         trust_id ← app_write (complete_trust new_id launch_id (fst decided) scope now);
         _ ← continue_authorized env launch_id;
         mret (TrustConfirmed launch_id trust_id scope)
     end).

Definition launch_status (launch_id : string) : Eff AppWorld AppResponse :=
  row ← app_read (fun d => Ok (get_launch launch_id d));
  match row with
  | None => eff_raise (http_text 404 "launch not found")
  | Some l => mret (LaunchState (l_id l) (l_state l) (l_trust_covered l) (l_workspace_id l) (l_session_id l)
                      (l_message l) (l_error_code l))
  end.

Definition list_trust : Eff AppWorld AppResponse := records ← app_read list_active; mret (TrustList records).

Definition revoke_trust (client : HttpClient) (trust_id : uuid) : Eff AppWorld AppResponse :=
  _ ← check_local_request client;
  now ← app_now;
  revoked ← app_write (Trust.revoke trust_id now);
  _ ← eff_raise_if (negb revoked) (http_text 404 "trust grant not found");
  mret NoContent.

Definition workspace_metadata (workspace_id : uuid) : Eff AppWorld AppResponse :=
  record ← app_read (fun d => Ok (get_workspace workspace_id d));
  match record with
  | None => eff_raise (http_text 404 "workspace not found")
  | Some r => mret (WorkspaceMetadata r)
  end.

Definition copy_notebook (client : HttpClient) (workspace_id : uuid) (body : NotebookCopyRequest)
  : Eff AppWorld AppResponse :=
  _ ← check_local_request client;
  _ ← convert copy_error
        (app_perform env (SaveCopy workspace_id body) (fun t => ae_save_copy env t workspace_id body));
  mret (Copied workspace_id (DestinationScope_value (nc_destination_scope body)) (nc_destination_path body)).

Definition mcp_descriptor (session_id : uuid) : Eff AppWorld AppResponse :=
  now ← app_now;
  descriptor ← app_read (describe stale_seconds backend session_id now);
  match descriptor with
  | None => eff_raise (http_text 404 "unknown session")
  | Some m =>
      _ ← eff_raise_if (String.eqb (md_status m) "stopped") (http_text 410 "session stopped");
      _ ← eff_raise_if (negb (md_available m)) (http_text 409 "session not ready");
      mret (McpDescriptor m)
  end.

Definition stop_session (client : HttpClient) (session_id : uuid) : Eff AppWorld AppResponse :=
  _ ← check_local_request client;
  stopped ← app_perform env (StopSession session_id) (fun t => ae_stop env t session_id);
  _ ← eff_raise_if (negb stopped) (http_text 404 "unknown session");
  mret NoContent.

(** The routes of [create_app]. *)
Definition handle (client : HttpClient) (r : AppRequest) : Eff AppWorld AppResponse :=
  match r with
  | GetHealth => health
  | GetStatusPage i => status_page i
  | GetPreview q => preview q
  | PostLaunch b => launch client b
  | GetTrustPage i n => trust_page i n
  | PostTrust i b => confirm_trust client i b
  | GetLaunch i => launch_status i
  | GetTrust => list_trust
  | DeleteTrust i => revoke_trust client i
  | GetWorkspace i => workspace_metadata i
  | PostCopy i b => copy_notebook client i b
  | GetMcp i => mcp_descriptor i
  | DeleteSession i => stop_session client i
  end.
End App.
