(* ===== verification/AppProofs.v ===== *)
(** * The web application starts only authorized launches (app.py, launches.py)

    The invariant of the authorizations that every request and every step of
    the pipeline's threads keeps, and what follows: every launch has a one-time
    token of its own, bound to its request; what may execute is trusted or
    reopens a workspace; only local requests act; reads change nothing. *)
From S2P Require Export Workers App.

(** ** Steps in which the application itself changes nothing *)
Definition submits (c : app_call) : bool := match c with Submit _ _ _ => true | _ => false end.
Definition acts (c : app_call) : bool :=
  match c with Submit _ _ _ | StopSession _ | SaveCopy _ _ => true | _ => false end.

(** The calls made are not in [p]; the database was changed by workers only. *)
Definition background (p : app_call -> bool) (w w' : AppWorld) : Prop :=
  (exists tr, app_trace w' = app_trace w ++ tr /\ Forall (fun c => p c = false) tr)
  /\ (wf_db (app_db w) -> wf_db (app_db w')) /\ worker_rel (app_db w) (app_db w').

#[export] Instance background_preorder p : PreOrder (background p).
Proof.
  split.
  - intros w. split; [exists []; now rewrite app_nil_r|]. split; [auto|reflexivity].
  - intros a b c [(t1 & E1 & F1) [W1 R1]] [(t2 & E2 & F2) [W2 R2]]. split; [|split; [auto|etrans; eauto]].
    exists (t1 ++ t2). split; [now rewrite E2, E1, app_assoc|]. now apply Forall_app.
Qed.

Lemma background_weaken (p q : app_call -> bool) w w' :
  (forall c, q c = true -> p c = true) -> background p w w' -> background q w w'.
Proof.
  intros Hpq [(tr & E & F) H]. split; [|exact H]. exists tr. split; [exact E|]. eapply Forall_impl; [exact F|].
  intros c Hc. destruct (q c) eqn:Eq; [|reflexivity]. apply Hpq in Eq. cbv beta in Hc. congruence.
Qed.

(** A launch that a worker moved. *)
Definition executable (l : launch_row) : bool :=
  str_mem (l_state l) ["authorized"; "starting"; "ready"; "stopped"]%string.

Lemma worker_moves l l' : rtc worker_launch_step l l' ->
  launch_identity l' = launch_identity l /\ (executable l' = true -> executable l = true).
Proof.
  induction 1 as [l|l l1 l2 [[Hid He] Hn] _ [IHid IHe]]; [auto|]. split; [congruence|].
  intros H. apply IHe in H. unfold executable in *. inversion He as [E1 E2|E1 E2|E1 E2|E1 E2|E1 E2|E1 E2|E1 E2|E1 E2|E1 E2];
    rewrite <- ?E1, <- ?E2 in *; first [reflexivity|discriminate H|now elim Hn].
Qed.

Lemma worker_row (d d' : db) l' : worker_rel d d' -> In l' (launches d') ->
  exists l, In l (launches d) /\ rtc worker_launch_step l l'.
Proof.
  intros [_ H]. induction H as [|a b la lb Hab H IH]; [easy|]. intros [->|Hin]; [exists a; now split; [left|]|].
  destruct (IH Hin) as (l & Hl & Hs). exists l. split; [now right|exact Hs].
Qed.

Lemma worker_row_kept (d d' : db) l : worker_rel d d' -> In l (launches d) ->
  exists l', In l' (launches d') /\ rtc worker_launch_step l l'.
Proof.
  intros [_ H]. induction H as [|a b la lb Hab H IH]; [easy|]. intros [->|Hin]; [exists b; now split; [left|]|].
  destruct (IH Hin) as (l' & Hl & Hs). exists l'. split; [now right|exact Hs].
Qed.

(** ** Authorizations *)

(** The requests that the application received. *)
Definition History : Type := list (HttpClient * AppRequest).

Definition is_local (cfg : WebSettings) (c : HttpClient) : bool := local_client c && local_origin cfg c.

(** A grant that covers the source of a launch. *)
Definition covers (t : trust_row) (l : launch_row) : Prop :=
  Some (t_repository_id t) = l_repository_id l
  /\ (t_scope t = "repository"%string \/ t_scope t = "exact_commit"%string /\ t_commit_sha t = l_commit_sha l).

Section Invariant.
Context `{PyFloat} `{PyConversions}.
Context (cfg : WebSettings) (codec : LaunchTokenCodec).

(** A consumed token came with a local launch request that it was issued for. *)
Definition token_of (h : History) (r : replay_row) : Prop :=
  exists client body source t claims,
    In (client, PostLaunch body) h /\ is_local cfg client = true
    /\ LaunchAuth.decode codec (lp_launch_token body) t = Ok claims
    /\ r_jti_hash r = hash_jti (cl_jti claims)
    /\ r_request_digest r = cl_request_digest claims
    /\ r_request_digest r = normalized_digest (lp_request body) source
    /\ (source = None <-> rq_workspace_id (lp_request body) <> None).

(** A grant was decided by a local trust request. *)
Definition grant_of (h : History) (t : trust_row) : Prop :=
  exists client i body nonce scope,
    In (client, PostTrust i body) h /\ is_local cfg client = true
    /\ normalized body = Ok (nonce, Some scope) /\ t_scope t = TrustScope_value scope.

(** Every launch has its own token; [rs] are the tokens of the launches. *)
Definition tokens (ls : list launch_row) (rs consumed : list replay_row) : Prop :=
  sublist rs consumed /\ Forall2 (fun l r => r_request_digest r = l_request_digest l) ls rs.

Definition trusted_source (d : db) (l : launch_row) : Prop :=
  l_repository_id l = None \/ exists t, In t (trust_records d) /\ covers t l.

(** The recorded source of a launch is the launch's. *)
Definition source_of (s : launch_source_row) (l : launch_row) : Prop :=
  l_id l = src_launch_id s ->
  l_repository_id l = Some (src_repository_id s) /\ l_commit_sha l = Some (src_commit_sha s).

Record app_inv (h : History) (tr : AppTrace) (d : db) : Prop := mkAppInv {
  ai_wf : wf_db d;
  ai_consumed : Forall (token_of h) (replays d);
  ai_tokens : exists rs, tokens (launches d) rs (replays d);
  ai_grants : Forall (grant_of h) (trust_records d);
  ai_sources : forall s l, In s (launch_sources d) -> In l (launches d) -> source_of s l;
  ai_executable : forall l, In l (launches d) -> executable l = true -> trusted_source d l;
  ai_submitted : forall i rq src, In (Submit i rq src) tr -> exists l, In l (launches d) /\ l_id l = i /\ trusted_source d l }.

Definition inv_of (h : History) (w : AppWorld) : Prop := app_inv h (app_trace w) (app_db w).

(** What depends only on what a launch never changes. *)
Lemma covers_identity t l l' : launch_identity l' = launch_identity l -> covers t l -> covers t l'.
Proof. unfold covers, launch_identity. intros E. now injection E as _ _ -> -> _ _ _ _. Qed.

Lemma trusted_identity d d' l l' :
  trust_records d' = trust_records d -> launch_identity l' = launch_identity l ->
  trusted_source d l -> trusted_source d' l'.
Proof.
  intros Ht Hid. unfold trusted_source. rewrite Ht. intros [Hn|(t & Hin & Hc)].
  - left. unfold launch_identity in Hid. congruence.
  - right. exists t. eauto using covers_identity.
Qed.

Lemma source_identity s l l' : launch_identity l' = launch_identity l -> source_of s l -> source_of s l'.
Proof. unfold source_of, launch_identity. intros E. now injection E as -> _ -> -> _ _ _ _. Qed.

Lemma tokens_workers d d' rs consumed : worker_rel d d' -> tokens (launches d) rs consumed ->
  tokens (launches d') rs consumed.
Proof.
  intros [_ Hl] [Hs Hf]. split; [exact Hs|]. clear Hs. revert rs Hf.
  induction Hl as [|a b la lb Hab Hl IH]; intros rs Hf; inversion Hf as [|x y lx rs' Hxy Hf']; subst; constructor; auto.
  apply worker_moves in Hab as [Hid _]. unfold launch_identity in Hid. congruence.
Qed.

(** The invariant is kept by the workers and by calls other than a submission. *)
Lemma inv_background h w w' : inv_of h w -> background submits w w' -> inv_of h w'.
Proof.
  intros [Hwf Hc [rs Ht] Hg Hs He Hsub] [(tr & Etr & Ftr) [W R]]. pose proof R as [Ha _].
  unfold authorizations in Ha. injection Ha as Er Etrust Es _. constructor.
  - auto.
  - now rewrite Er.
  - exists rs. rewrite Er. eapply tokens_workers; eauto.
  - now rewrite Etrust.
  - intros s l' Hins Hin'. destruct (worker_row _ _ _ R Hin') as (l & Hin & Hstep). apply worker_moves in Hstep as [Hid _].
    rewrite Es in Hins. eauto using source_identity.
  - intros l' Hin' Hex. destruct (worker_row _ _ _ R Hin') as (l & Hin & Hstep). apply worker_moves in Hstep as [Hid Hb].
    eapply trusted_identity; eauto.
  - intros i rq src Hin. rewrite Etr in Hin. apply in_app_or in Hin as [Hin|Hin].
    + destruct (Hsub _ _ _ Hin) as (l & Hl & Hid & Htr). destruct (worker_row_kept _ _ _ R Hl) as (l' & Hl' & Hstep).
      apply worker_moves in Hstep as [Hi _]. exists l'. split_and!; [exact Hl'|unfold launch_identity in Hi; congruence|].
      eapply trusted_identity; eauto.
    + exfalso. rewrite Forall_forall in Ftr. apply list_elem_of_In in Hin. specialize (Ftr _ Hin). discriminate.
Qed.

(** More requests. *)
Lemma inv_more h x w : inv_of h w -> inv_of (h ++ [x]) w.
Proof.
  intros [Hwf Hc Ht Hg Hs He Hsub]. constructor; auto.
  - eapply Forall_impl; [exact Hc|]. intros r (c & b & s & t & cl & Hin & Hr). exists c, b, s, t, cl.
    split; [apply in_or_app; now left|exact Hr].
  - eapply Forall_impl; [exact Hg|]. intros r (c & i & b & n & s & Hin & Hr). exists c, i, b, n, s.
    split; [apply in_or_app; now left|exact Hr].
Qed.
End Invariant.

(** ** The steps of the handlers *)

(** What the pipeline's threads do (see [Workers]). *)
Definition workers_ok (env : AppEnv) : Prop := forall t c d,
  worker_rel d (ae_workers env t c d) /\ (wf_db d -> wf_db (ae_workers env t c d)).

Section Handlers.
Context `{PyFloat} `{PyConversions}.
Context (env : AppEnv) (cfg : WebSettings) (codec : LaunchTokenCodec).
Context (uuid_of_text : string -> res uuid) (stale_seconds : Z) (backend : string).
Context (Hworkers : workers_ok env).

Definition any_app (_ : AppWorld) : Prop := True.

(** [m] makes no call in [p] and leaves the database to the workers. *)
Abbreviation idle p := (holds any_app (background p)).

Lemma idle_perform {A} p c (answer : AppTrace -> res A) : p c = false -> idle p (app_perform env c answer).
Proof.
  intros Hc w w' r _ _ [= <- <-]. split_and!; [exact Logic.I| |auto].
  split; [exists [c]; split; [reflexivity|now constructor]|]. cbn. destruct (Hworkers (app_trace w) c (app_db w)). auto.
Qed.

Lemma idle_query {A} p (f : db -> res A) : idle p (query f).
Proof. intros w w' r _ _ [= <- <-]. split_and!; [exact Logic.I|reflexivity|auto]. Qed.

#[local] Hint Extern 1 (holds any_app (background _) (app_perform _ _ _)) => (apply idle_perform; reflexivity) : triples.
#[local] Hint Resolve idle_query : triples.

Lemma idle_convert {A} p f (m : Eff AppWorld A) : idle p m -> idle p (convert f m).
Proof.
  intros Hm. apply holds_try; [typeclasses eauto|exact Hm|]. intros e k. destruct (f e); [|discriminate].
  intros E; injection E as <-. auto with triples.
Qed.

Ltac idle_steps := unfold app_now, app_uuid, app_read, access; solve_triple.

Lemma idle_read {A} (f : db -> res A) : idle acts (app_read env f).
Proof. idle_steps. Qed.
Lemma idle_check client : idle acts (check_local_request cfg client).
Proof. unfold check_local_request. idle_steps. Qed.
Lemma idle_resolve_source rq : idle acts (resolve_source env rq).
Proof. unfold resolve_source. idle_steps. Qed.
Lemma idle_trusted source : idle acts (trusted env source).
Proof. unfold trusted. idle_steps. Qed.
#[local] Hint Resolve idle_read idle_check idle_resolve_source idle_trusted : triples.

Lemma idle_preview q : idle acts (preview env codec uuid_of_text q).
Proof.
  unfold preview. apply holds_bind; [typeclasses eauto|apply idle_convert; idle_steps|intros [rq src]]. idle_steps.
Qed.

(** Requests that only read. *)
Definition is_get (r : AppRequest) : bool :=
  match r with
  | PostLaunch _ | PostTrust _ _ | DeleteTrust _ | PostCopy _ _ | DeleteSession _ => false
  | _ => true
  end.

Abbreviation handle := (handle env cfg codec uuid_of_text stale_seconds backend).

Lemma idle_get client r : is_get r = true -> idle acts (handle client r).
Proof.
  destruct r; intros Hg; try discriminate; cbn [App.handle]; try apply idle_preview;
    unfold health, status_page, trust_page, launch_status, list_trust, workspace_metadata, mcp_descriptor; idle_steps.
Qed.

(** ** The checks of a local request *)
Lemma check_local client w w' r : check_local_request cfg client w = (w', r) ->
  w' = w /\ (r = Ok tt /\ is_local cfg client = true \/ is_local cfg client = false /\ exists d, r = Err (http_text 400 d)).
Proof.
  unfold check_local_request, is_local, mbind, eff_bind, eff_raise_if, raise_if.
  destruct (local_client client); cbn [negb andb]; [destruct (local_origin cfg client); cbn [negb]|]; intros [= <- <-]; eauto 6.
Qed.

Definition is_write (r : AppRequest) : bool := negb (is_get r).

(** C3: only local requests act.  Every request that can change anything
    checks first that it comes from this machine and not from a foreign web
    page: when the client's address is not a loopback one or the [Origin]
    header is not one of the application's own, it answers 400 and neither the
    database, the pipeline, the runtime nor the files see anything of it.
    Every other request only reads: it submits nothing, stops nothing, copies
    nothing and leaves the database to the pipeline's threads, so opening a
    link never launches code. *)
Theorem only_local_requests_act client r w w' res :
  handle client r w = (w', res) ->
  (is_write r = true -> is_local cfg client = false ->
     w' = w /\ exists detail, res = Err (http_text 400 detail))
  /\ (is_write r = false ->
     (exists tr, app_trace w' = app_trace w ++ tr /\ Forall (fun c => acts c = false) tr)
     /\ worker_rel (app_db w) (app_db w')).
Proof.
  intros Hh. split.
  - intros Hg Hl. assert (Hc : forall (k : unit -> Eff AppWorld AppResponse) x,
      (check_local_request cfg client ≫= k) w = x -> exists d, x = (w, Err (http_text 400 d))).
    { intros k [x1 x2] E. apply bind_inv in E as [(e & E & ->)|(w1 & u & E & _)]; apply check_local in E as [-> [[E1 E2]|[_ [d E]]]];
        try congruence. exists d. congruence. }
    unfold is_write in Hg. destruct r; try discriminate; cbn [App.handle] in Hh; apply Hc in Hh as [d [= -> ->]]; eauto.
  - intros Hg. apply negb_false_iff in Hg. destruct (idle_get client r Hg _ _ _ Logic.I Logic.I Hh) as (_ & [Ht [_ Hr]] & _).
    auto.
Qed.
End Handlers.

(** ** What the methods of the stores change *)
Lemma consume_effect j g t d d' r : consume_launch_jti j g t d = (d', r) ->
  (r = Ok true /\ d' = set_tbl (replays d ++ [mkReplay j g t]) d) \/ (d' = d /\ r <> Ok true).
Proof.
  unfold consume_launch_jti, transaction, tx_bind, tx_insert. cbn [tbl_fk replay_db].
  destruct (sql_insert _ (tbl d)) as [t'|] eqn:Ei; cbn; intros [= <- <-]; [left|right; split; [reflexivity|discriminate]].
  apply sql_insert_spec in Ei as (-> & _). auto.
Qed.

Lemma create_launch_effect i g rid sha np ws gpu mode cov st t d d' r :
  create_launch i g rid sha np ws gpu mode cov st t d = (d', r) ->
  (r = Ok i /\ d' = set_tbl (launches d ++ [mkLaunch i g rid sha np ws gpu mode cov st None None None t t]) d
   /\ (forall l, In l (launches d) -> l_id l <> i))
  \/ (d' = d /\ forall a, r <> Ok a).
Proof.
  unfold create_launch, transaction, tx_bind, tx_insert. cbn [tbl_fk launch_db].
  destruct (sql_insert _ (tbl d)) as [t'|] eqn:Ei; cbn; intros [= <- <-]; [left|right; split; [reflexivity|discriminate]].
  apply sql_insert_spec in Ei as (-> & _ & Hn). split_and!; [reflexivity..|]. intros l Hl.
  pose proof (no_conflict_In _ _ _ Hn Hl) as Hc. now apply String.eqb_neq in Hc.
Qed.

Lemma create_challenge_effect n i s ttl now d d' r :
  create_challenge n i s ttl now d = (d', r) ->
  (replays d' = replays d /\ launches d' = launches d /\ trust_records d' = trust_records d
   /\ forall x, In x (launch_sources d') -> In x (launch_sources d)
        \/ src_launch_id x = i /\ src_repository_id x = rs_repository_id s /\ src_commit_sha x = rs_commit_sha s).
Proof.
  unfold create_challenge. destruct (dt_add now _) as [e|e]; [|intros [= <- <-]; auto 7].
  unfold transaction, tx_bind, tx_replace. destruct (tbl_fk d _); [|intros [= <- <-]; auto 7].
  destruct (sql_replace _ (tbl d)) as [t1|] eqn:E1; [|intros [= <- <-]; auto 7].
  destruct (tbl_fk _ _); [|intros [= <- <-]; auto 7].
  destruct (sql_replace _ (tbl (set_tbl t1 d))) as [t2|] eqn:E2; cbn; intros [= <- <-]; [|auto 7].
  split_and!; [reflexivity..|]. intros x Hx. cbn in Hx. unfold sql_replace in E1. destruct (tbl_check _); [|discriminate].
  injection E1 as <-. apply in_app_or in Hx as [Hx|[<-|[]]]; [left; now apply filter_In in Hx as [Hx _]|right; auto].
Qed.

(** Whether a source is trusted, as [trusted_source] of the launch started for it. *)
Definition source_granted (d : db) (s : ResolvedSource) : Prop :=
  exists t, In t (trust_records d) /\ t_repository_id t = rs_repository_id s
    /\ (t_scope t = "repository"%string \/ t_scope t = "exact_commit"%string /\ t_commit_sha t = Some (rs_commit_sha s)).

Lemma find_granted s d m : Trust.find s d = Ok m -> tm_trusted m = true -> source_granted d s.
Proof.
  intros Hf Ht. destruct (find_spec s d) as (m' & Hf' & Hiff & _). rewrite Hf in Hf'. injection Hf' as <-.
  apply Hiff in Ht as (t & Hin & Hr & _ & Hs). exists t. auto.
Qed.

(** ** Launch requests keep the invariant *)
Section Launching.
Context `{PyFloat} `{PyConversions}.
Context (env : AppEnv) (cfg : WebSettings) (codec : LaunchTokenCodec).
Context (Hworkers : workers_ok env).

Abbreviation inv := (inv_of cfg codec).
Abbreviation idle m := (holds any_app (background submits) m).

Lemma idle_submits {A} (m : Eff AppWorld A) : holds any_app (background acts) m -> idle m.
Proof.
  intros Hm w w' r _ _ E. destruct (Hm _ _ _ Logic.I Logic.I E) as (_ & Hb & _). split_and!; [exact Logic.I| |auto].
  eapply background_weaken; [|exact Hb]. now intros [].
Qed.

Lemma idle_step {A} (m : Eff AppWorld A) w w' r : idle m -> m w = (w', r) -> background submits w w'.
Proof. intros Hm E. exact (proj1 (proj2 (Hm _ _ _ Logic.I Logic.I E))). Qed.

Lemma idle_call {A} c (answer : AppTrace -> res A) : submits c = false -> idle (app_perform env c answer).
Proof. now apply idle_perform. Qed.

(** A method runs after the workers did. *)
Lemma write_inv {A} (m : db -> db * res A) w w' r : app_write env m w = (w', r) ->
  exists w1 d, background submits w w1 /\ m (app_db w1) = (d, r) /\ w' = mkAppWorld (app_trace w1) d.
Proof.
  unfold app_write. intros E. apply bind_inv in E as [(e & E & _)|(w1 & u & E & E2)]; [discriminate|].
  exists w1. unfold method in E2. destruct (m (app_db w1)) as [d x] eqn:Em. injection E2 as <- <-. exists d.
  split_and!; [|reflexivity|reflexivity]. eapply idle_step; [|exact E]. now apply idle_call.
Qed.

(** The token of a launch that is not recorded yet. *)
Definition spare (digest : string) (d : db) : Prop :=
  exists rs consumed r, replays d = consumed ++ [r] /\ tokens (launches d) rs consumed /\ r_request_digest r = digest.

Lemma spare_workers digest d d' : worker_rel d d' -> spare digest d -> spare digest d'.
Proof.
  intros R (rs & c & r & E & Ht & Hd). exists rs, c, r. split_and!; [|eapply tokens_workers; eauto|exact Hd].
  destruct R as [Ha _]. unfold authorizations in Ha. congruence.
Qed.

Lemma granted_workers s d d' : worker_rel d d' -> source_granted d s -> source_granted d' s.
Proof. intros [Ha _]. unfold source_granted, authorizations in *. injection Ha as _ -> _ _. auto. Qed.

Lemma background_workers p w w' : background p w w' -> worker_rel (app_db w) (app_db w').
Proof. intros [_ [_ R]]. exact R. Qed.

(** The token is consumed. *)
Lemma inv_consume h w j g t :
  inv h w -> token_of cfg codec h (mkReplay j g t) ->
  let w' := mkAppWorld (app_trace w) (set_tbl (replays (app_db w) ++ [mkReplay j g t]) (app_db w)) in
  wf_db (app_db w') -> inv h w' /\ spare g (app_db w').
Proof.
  intros [Hwf Hc [rs [Hs Hf]] Hg Hso He Hsub] Hr w' Hwf'. split.
  - constructor; cbn; auto.
    + apply Forall_app. split; [exact Hc|]. now constructor.
    + exists rs. split; [|exact Hf]. cbn. now apply sublist_inserts_r.
  - exists rs, (replays (app_db w)), (mkReplay j g t). cbn. split_and!; [reflexivity|now split|reflexivity].
Qed.

(** The source that a launch row has. *)
Definition row_source (s : option ResolvedSource) (l : launch_row) : Prop :=
  l_repository_id l = option_map rs_repository_id s /\ l_commit_sha l = option_map rs_commit_sha s.

Lemma row_trusted d s l : row_source s l -> (forall x, s = Some x -> source_granted d x) -> trusted_source d l.
Proof.
  intros [Hr Hc] Hs. destruct s as [x|]; [right|left; exact Hr]. destruct (Hs x eq_refl) as (t & Hin & Ht & Hsc).
  exists t. split; [exact Hin|]. unfold covers. cbn in Hr, Hc. rewrite Hr, Hc, Ht. auto.
Qed.

Lemma fk_sources d s : wf_db d -> In s (launch_sources d) -> exists l, In l (launches d) /\ l_id l = src_launch_id s.
Proof.
  intros Hwf Hs. pose proof (wf_fk_launch_sources _ Hwf) as Hfk. unfold fks in Hfk. rewrite forallb_forall in Hfk.
  specialize (Hfk s Hs). apply existsb_exists in Hfk as (l & Hl & E). exists l. split; [exact Hl|]. now apply String.eqb_eq.
Qed.

(** The launch is recorded. *)
Lemma inv_create h w l :
  inv h w -> spare (l_request_digest l) (app_db w) -> (forall x, In x (launches (app_db w)) -> l_id x <> l_id l) ->
  (executable l = true -> trusted_source (app_db w) l) ->
  let w' := mkAppWorld (app_trace w) (set_tbl (launches (app_db w) ++ [l]) (app_db w)) in
  wf_db (app_db w') -> inv h w'.
Proof.
  intros [Hwf Hc _ Hg Hso He Hsub] (rs & cs & r & Er & [Hs Hf] & Hd) Hnew Hex w' Hwf'. constructor; cbn; auto.
  - exists (rs ++ [r]). split; [cbn; rewrite Er; now apply sublist_app|]. apply Forall2_app; [exact Hf|]. now constructor.
  - intros s x Hins Hin. apply in_app_or in Hin as [Hin|[<-|[]]]; [now apply Hso|]. intros E.
    destruct (fk_sources _ s Hwf Hins) as (y & Hy & Ey). exfalso. apply (Hnew y Hy). congruence.
  - intros x Hin Hx. apply in_app_or in Hin as [Hin|[<-|[]]]; [exact (He x Hin Hx)|exact (Hex Hx)].
  - intros i rq src Hin. destruct (Hsub _ _ _ Hin) as (x & Hx & Hi & Ht). exists x. split; [apply in_or_app; now left|auto].
Qed.

(** Its source and challenge are recorded. *)
Lemma inv_challenge h w d i s :
  inv h w -> wf_db d -> replays d = replays (app_db w) -> launches d = launches (app_db w) ->
  trust_records d = trust_records (app_db w) ->
  (forall x, In x (launch_sources d) -> In x (launch_sources (app_db w))
     \/ src_launch_id x = i /\ src_repository_id x = rs_repository_id s /\ src_commit_sha x = rs_commit_sha s) ->
  (forall l, In l (launches (app_db w)) -> l_id l = i -> row_source (Some s) l) ->
  inv h (mkAppWorld (app_trace w) d).
Proof.
  intros [Hwf Hc Ht Hg Hso He Hsub] Hwf' Er El Et Hx Hrow. constructor; cbn; auto.
  - now rewrite Er.
  - now rewrite Er, El.
  - now rewrite Et.
  - intros x l Hin Hl. rewrite El in Hl. destruct (Hx x Hin) as [Hin'|(Ei & Ea & Eb)]; [now apply Hso|].
    intros E. destruct (Hrow l Hl) as [H1 H2]; [congruence|]. cbn in H1, H2. rewrite H1, H2, Ea, Eb. auto.
  - rewrite El. unfold trusted_source. rewrite Et. exact He.
  - rewrite El. unfold trusted_source. rewrite Et. exact Hsub.
Qed.

(** ** [StateLaunchStarter.start] *)

(** What a worker does not change of the row of a launch. *)
Definition own_rows (i : string) (s : option ResolvedSource) (d : db) : Prop :=
  (exists l, In l (launches d) /\ l_id l = i) /\ forall l, In l (launches d) -> l_id l = i -> row_source s l.

Lemma own_rows_workers i s d d' : worker_rel d d' -> own_rows i s d -> own_rows i s d'.
Proof.
  intros R [(l & Hl & Hi) Hr]. split.
  - destruct (worker_row_kept _ _ _ R Hl) as (l' & Hl' & Hs). apply worker_moves in Hs as [Hid _]. exists l'.
    split; [exact Hl'|]. unfold launch_identity in Hid. congruence.
  - intros l' Hl' Hi'. destruct (worker_row _ _ _ R Hl') as (x & Hx & Hs). apply worker_moves in Hs as [Hid _].
    unfold launch_identity in Hid. injection Hid as E1 _ E3 E4 _ _ _ _. unfold row_source in *. rewrite E3, E4.
    apply Hr; [exact Hx|congruence].
Qed.

Lemma own_rows_new i s l d : (forall x, In x (launches d) -> l_id x <> i) -> l_id l = i -> row_source s l ->
  own_rows i s (set_tbl (launches d ++ [l]) d).
Proof.
  intros Hnew Hi Hr. split; [exists l; split; [cbn; apply in_or_app; right; now left|exact Hi]|].
  intros x Hx Ex. cbn in Hx. apply in_app_or in Hx as [Hx|[<-|[]]]; [now elim (Hnew x Hx)|exact Hr].
Qed.

(** ** Triples about the database between the steps *)
Definition anyhow (_ _ : AppWorld) : Prop := True.
#[local] Instance anyhow_preorder : PreOrder anyhow.
Proof. now split. Qed.

Abbreviation step h := (triple (inv h) anyhow).

(** What the workers keep. *)
Definition stable (P : AppWorld -> Prop) : Prop := forall w w', worker_rel (app_db w) (app_db w') -> P w -> P w'.

Lemma stable_and P Q : stable P -> stable Q -> stable (fun w => P w /\ Q w).
Proof. intros HP HQ w w' R [H1 H2]. split; eauto. Qed.
Lemma stable_true : stable (fun _ => True).
Proof. now intros w w'. Qed.
Lemma stable_spare g : stable (fun w => spare g (app_db w)).
Proof. intros w w'. apply spare_workers. Qed.
Lemma stable_own i s : stable (fun w => own_rows i s (app_db w)).
Proof. intros w w'. apply own_rows_workers. Qed.

Definition granted_if (b : bool) (src : option ResolvedSource) (d : db) : Prop :=
  b = true -> forall s, src = Some s -> source_granted d s.
Lemma stable_granted b src : stable (fun w => granted_if b src (app_db w)).
Proof. intros w w' R Hg Hb s Hs. eapply granted_workers; [exact R|]. exact (Hg Hb s Hs). Qed.

#[local] Hint Resolve stable_and stable_true stable_spare stable_own stable_granted : triples.

Lemma step_idle {A} h P (m : Eff AppWorld A) : idle m -> stable P -> step h P m (fun _ => P).
Proof.
  intros Hm HP w w' r Hi Hp E. apply idle_step in E; [|exact Hm].
  split_and!; [eapply inv_background; eauto|exact Logic.I|]. intros a _. exact (HP _ _ (background_workers _ _ _ E) Hp).
Qed.

(** A method of a store, from what it does to the database that the workers left. *)
Lemma step_write {A} h P (m : db -> db * res A) (Q : A -> db -> Prop) : stable P ->
  (forall w d r, inv h w -> P w -> m (app_db w) = (d, r) ->
     inv h (mkAppWorld (app_trace w) d) /\ forall a, r = Ok a -> Q a d) ->
  step h P (app_write env m) (fun a w => Q a (app_db w)).
Proof.
  intros HP Hm w w' r Hi Hp E. apply write_inv in E as (w1 & d & Hb & Em & ->).
  destruct (Hm w1 d r (inv_background _ _ _ _ _ Hi Hb) (HP _ _ (background_workers _ _ _ Hb) Hp) Em) as [H1 H2].
  split_and!; [exact H1|exact Logic.I|exact H2].
Qed.

Lemma idle_now : idle (app_now env).
Proof. now apply idle_call. Qed.
Lemma idle_uuid : idle (app_uuid env).
Proof. now apply idle_call. Qed.
#[local] Hint Resolve idle_now idle_uuid : triples.
#[local] Hint Extern 1 (holds any_app (background submits) (app_perform _ _ _)) => (apply idle_call; reflexivity) : triples.

(** A step that leaves the assertion to the workers. *)
Ltac frame := eapply triple_bind; [typeclasses eauto|apply step_idle; [solve [auto with triples]|solve [auto with triples]]|intros ?].

(** ** [StateLaunchStarter.start] *)
Abbreviation ready_for i src b := (fun w : AppWorld => own_rows i src (app_db w) /\ granted_if b src (app_db w)).

Lemma create_launch_step h src b i g rid sha np ws gpu mode st t :
  rid = option_map rs_repository_id src -> sha = option_map rs_commit_sha src -> st = state_of_start src b ->
  step h (fun w => spare g (app_db w) /\ granted_if b src (app_db w))
    (app_write env (create_launch i g rid sha np ws gpu mode b st t)) (fun i => ready_for i src b).
Proof.
  intros -> -> ->. apply (step_write h _ _ (fun i d => own_rows i src d /\ granted_if b src d)); [auto with triples|].
  intros w d r Hi [Hs Hg] Em.
  pose proof (create_launch_wf i g (option_map rs_repository_id src) (option_map rs_commit_sha src) np ws gpu mode b
    (state_of_start src b) t _ (ai_wf _ _ _ _ _ Hi)) as Hwf.
  rewrite Em in Hwf. destruct (create_launch_effect _ _ _ _ _ _ _ _ _ _ _ _ _ _ Em) as [(-> & -> & Hnew)|[-> Hno]].
  - split; [|intros x [= <-]; split; [apply own_rows_new; [exact Hnew|reflexivity|now split]|exact Hg]].
    apply inv_create; [exact Hi|exact Hs|exact Hnew| |exact Hwf]. intros Hex. apply (row_trusted _ src); [now split|].
    intros s ->. apply Hg; [|reflexivity]. unfold state_of_start in Hex. destruct b; [reflexivity|discriminate].
  - split; [now destruct w|]. intros x Ex. now elim (Hno x).
Qed.

Lemma create_challenge_step h i s b nonce ttl now :
  step h (ready_for i (Some s) b) (app_write env (create_challenge nonce i s ttl now)) (fun _ => ready_for i (Some s) b).
Proof.
  apply (step_write h _ _ (fun _ d => own_rows i (Some s) d /\ granted_if b (Some s) d)); [auto with triples|].
  intros w d r Hi [Ho Hg] Em.
  destruct (create_challenge_effect _ _ _ _ _ _ _ _ Em) as (E1 & E2 & E3 & E4). split.
  - apply (inv_challenge h w d i s Hi); [|assumption..|exact (proj2 Ho)].
    pose proof (create_challenge_wf nonce i s ttl now _ (ai_wf _ _ _ _ _ Hi)) as Hwf. now rewrite Em in Hwf.
  - intros a _. unfold own_rows, granted_if, source_granted. now rewrite E2, E3.
Qed.

Lemma state_start_step h rq src b :
  step h (fun w => spare (normalized_digest rq src) (app_db w) /\ granted_if b src (app_db w)) (state_start env cfg rq src b)
    (fun a w => sr_state a = state_of_start src b /\ ready_for (sr_launch_id a) src b w).
Proof.
  unfold state_start. frame. frame.
  eapply triple_bind; [typeclasses eauto|apply (create_launch_step h src b); reflexivity|intros i].
  assert (Hret : forall st u x, st = state_of_start src b -> step h (ready_for i src b)
     (mret (mkStartResult i st b u x)) (fun a w => sr_state a = state_of_start src b /\ ready_for (sr_launch_id a) src b w)).
  { intros st u x ->. apply triple_value; [typeclasses eauto|]. intros w Hw. now split. }
  destruct src as [s|]; [destruct b|]; [now apply Hret| |now apply Hret].
  frame. frame. eapply triple_bind; [typeclasses eauto|apply create_challenge_step|intros c]. now apply Hret.
Qed.

(** ** Submitting to the pipeline *)
Definition startable (i : string) (w : AppWorld) : Prop :=
  exists l, In l (launches (app_db w)) /\ l_id l = i /\ trusted_source (app_db w) l.

Lemma schedule_step h i rq src : step h (startable i) (schedule env i rq src) (fun _ _ => True).
Proof.
  intros w w' r Hi Hs E. unfold schedule in E. destruct (ae_pending env (app_trace w) i).
  { injection E as <- <-. split_and!; [exact Hi|exact Logic.I|auto]. }
  injection E as <- <-. split_and!; [|exact Logic.I|auto].
  assert (Hi' : inv h (mkAppWorld (app_trace w ++ [Submit i rq src]) (app_db w))).
  { destruct Hi as [Hwf Hc Ht Hg Hso He Hsub]. constructor; cbn; auto. intros j rq' src' Hin.
    apply in_app_or in Hin as [Hin|[[= <- <- <-]|[]]]; [eauto|exact Hs]. }
  refine (inv_background _ _ _ _ _ Hi' _). destruct (Hworkers (app_trace w) (Submit i rq src) (app_db w)) as [H1 H2].
  split; [exists []; split; [cbn; now rewrite app_nil_r|constructor]|]. split; [exact H2|exact H1].
Qed.

Lemma ready_startable i src b w : ready_for i src b w -> state_of_start src b = "authorized"%string -> startable i w.
Proof.
  intros [[(l & Hl & Hi) Hr] Hg] Hs. exists l. split_and!; [exact Hl|exact Hi|]. apply (row_trusted _ src); [now apply Hr|].
  intros s ->. apply Hg; [|reflexivity]. unfold state_of_start in Hs. destruct b; [reflexivity|discriminate].
Qed.

Lemma pipeline_start_step h rq src b :
  step h (fun w => spare (normalized_digest rq src) (app_db w) /\ granted_if b src (app_db w)) (pipeline_start env cfg rq src b)
    (fun _ _ => True).
Proof.
  unfold pipeline_start. eapply triple_bind; [typeclasses eauto|apply state_start_step|intros a].
  eapply triple_bind with (Q := fun _ _ => True); [typeclasses eauto| |intros _; apply triple_value; [typeclasses eauto|auto]].
  destruct (String.eqb (sr_state a) "authorized") eqn:Ea; [|apply triple_value; [typeclasses eauto|auto]].
  apply String.eqb_eq in Ea. eapply triple_conseq; [apply schedule_step| |auto].
  intros w [Hst Hr]. eapply ready_startable; [exact Hr|congruence].
Qed.

(** ** [POST /api/launches] *)
Lemma step_convert {A} h P (Q : A -> AppWorld -> Prop) f (m : Eff AppWorld A) : step h P m Q -> step h P (convert f m) Q.
Proof.
  intros Hm. apply triple_try; [typeclasses eauto|exact Hm|]. intros e k. destruct (f e); [|discriminate].
  intros E; injection E as <-. apply triple_raise. typeclasses eauto.
Qed.

Lemma check_step h client : step h (fun _ => True) (check_local_request cfg client) (fun _ _ => is_local cfg client = true).
Proof.
  intros w w' r Hi _ E. apply check_local in E as [-> Hr]. split_and!; [exact Hi|exact Logic.I|]. intros a ->.
  destruct Hr as [[_ Hl]|[_ [d E]]]; [exact Hl|discriminate].
Qed.

(** What the body of the [try] in [launch] established. *)
Definition checked_token (body : LaunchPost) (x : option ResolvedSource * string * LaunchTokenClaims) : Prop :=
  let '(source, digest, claims) := x in
  digest = normalized_digest (lp_request body) source
  /\ (exists t, LaunchAuth.decode codec (lp_launch_token body) t = Ok claims)
  /\ (source = None <-> rq_workspace_id (lp_request body) <> None).

Lemma resolve_step h P rq : stable P ->
  step h P (resolve_source env rq) (fun s w => P w /\ (s = None <-> rq_workspace_id rq <> None)).
Proof.
  intros HP. unfold resolve_source. destruct (rq_workspace_id rq).
  - apply triple_value; [typeclasses eauto|]. now split.
  - eapply triple_bind; [typeclasses eauto|apply step_idle; [auto with triples|exact HP]|intros s].
    apply triple_value; [typeclasses eauto|]. now split.
Qed.

Lemma step_lift {A} h P (x : res A) : step h P (eff_lift x) (fun a w => x = Ok a /\ P w).
Proof. apply triple_lift. typeclasses eauto. Qed.
Lemma step_raise_if h P b e : step h P (eff_raise_if b e) (fun _ w => b = false /\ P w).
Proof. apply triple_raise_if. typeclasses eauto. Qed.

Lemma stable_const (P : Prop) : stable (fun _ => P).
Proof. now intros w w'. Qed.
#[local] Hint Resolve stable_const : triples.

Lemma checked_step h body :
  step h (fun _ => True)
    (convert launch_error
      (source ← resolve_source env (lp_request body);
       now ← app_now env;
       claims ← eff_lift (LaunchAuth.decode codec (lp_launch_token body) now);
       mret (source, normalized_digest (lp_request body) source, claims)))
    (fun x _ => checked_token body x).
Proof.
  apply step_convert. eapply triple_bind; [typeclasses eauto|apply (resolve_step h (fun _ => True)), stable_true|intros s].
  frame. eapply triple_bind; [typeclasses eauto|apply step_lift|intros claims].
  apply triple_value; [typeclasses eauto|]. intros w [Hd [_ Hs]]. cbn. eauto.
Qed.

Lemma consume_step h client body source claims g now :
  In (client, PostLaunch body) h -> is_local cfg client = true -> checked_token body (source, g, claims) ->
  cl_request_digest claims = g ->
  step h (fun _ => True) (app_write env (consume_launch_jti (hash_jti (cl_jti claims)) g now))
    (fun b w => b = true -> spare g (app_db w)).
Proof.
  intros Hin Hl (Hd & [t Ht] & Hs) Hg. apply (step_write h _ _ (fun b d => b = true -> spare g d)); [auto with triples|].
  intros w d r Hi _ Em.
  pose proof (consume_launch_jti_wf (hash_jti (cl_jti claims)) g now _ (ai_wf _ _ _ _ _ Hi)) as Hwf. rewrite Em in Hwf.
  destruct (consume_effect _ _ _ _ _ _ Em) as [[-> ->]|[-> Hr]].
  - destruct (inv_consume h w (hash_jti (cl_jti claims)) g now Hi) as [H1 H2]; [|exact Hwf|].
    + exists client, body, source, t, claims. cbn. split_and!; [exact Hin|exact Hl|exact Ht|reflexivity|congruence|exact Hd|apply Hs..].
    + split; [exact H1|]. intros b _ _. exact H2.
  - split; [now destruct w|]. intros b -> ->. now elim Hr.
Qed.

Lemma trusted_step h g src :
  step h (fun w => spare g (app_db w)) (trusted env src) (fun b w => spare g (app_db w) /\ granted_if b src (app_db w)).
Proof.
  unfold trusted. destruct src as [s|]; [|apply triple_value; [typeclasses eauto|]; intros w Hw; split; [exact Hw|discriminate]].
  eapply triple_bind with (Q := fun m w => spare g (app_db w) /\ granted_if (tm_trusted m) (Some s) (app_db w));
    [typeclasses eauto| |intros m; apply triple_value; [typeclasses eauto|auto]].
  unfold app_read. eapply triple_bind; [typeclasses eauto|apply step_idle; [unfold access; auto with triples|auto with triples]|intros ?].
  intros w w' r Hi Hw [= <- <-]. split_and!; [exact Hi|exact Logic.I|]. intros m Hm. split; [exact Hw|].
  intros Ht x [= <-]. eapply find_granted; eauto.
Qed.

Lemma compare_digest_true a b : compare_digest a b = Ok true -> a = b.
Proof. unfold compare_digest. destruct (_ && _); [|discriminate]. intros [= E]. now apply String.eqb_eq. Qed.

(** A fact that does not depend on the world. *)
Lemma step_pure {A} h (P : AppWorld -> Prop) (phi : Prop) (m : Eff AppWorld A) Q : (forall w, P w -> phi) ->
  (phi -> step h (fun _ => True) m Q) -> step h P m Q.
Proof. intros HP Hm w w' r Hi Hp E. exact (Hm (HP w Hp) w w' r Hi Logic.I E). Qed.

Lemma launch_step h client body : In (client, PostLaunch body) h ->
  step h (fun _ => True) (launch env cfg codec client body) (fun _ _ => True).
Proof.
  intros Hin. unfold launch. eapply triple_bind; [typeclasses eauto|apply check_step|intros ?].
  apply (step_pure h _ (is_local cfg client = true)); [auto|]. intros Hl.
  eapply triple_bind; [typeclasses eauto|apply checked_step|intros [[src g] claims]].
  apply (step_pure h _ (checked_token body (src, g, claims))); [auto|]. intros Hch.
  eapply triple_bind; [typeclasses eauto|apply step_lift|intros same].
  eapply triple_bind; [typeclasses eauto|apply step_raise_if|intros ?].
  apply (step_pure h _ (cl_request_digest claims = g)).
  { intros w (Hs & Hc & _). apply negb_false_iff in Hs as ->. now apply compare_digest_true. }
  intros Hc.
  frame. eapply triple_bind; [typeclasses eauto|eapply consume_step; eassumption|intros consumed].
  eapply triple_bind; [typeclasses eauto|apply step_raise_if|intros ?].
  eapply triple_bind; [typeclasses eauto| |intros covered].
  { eapply triple_conseq; [apply (trusted_step h g src)| |intros b w Hb; exact Hb].
    intros w [Hn Hw]. apply negb_false_iff in Hn. auto. }
  destruct Hch as [-> _].
  eapply triple_bind; [typeclasses eauto|apply pipeline_start_step|intros started]. apply triple_value; [typeclasses eauto|auto].
Qed.

(** ** [POST /api/launches/{launch_id}/trust] *)
Lemma tx_bind_ok {A B} (m : Tx A) (k : A -> Tx B) d d' b :
  tx_bind m k d = Ok (d', b) -> exists d1 a, m d = Ok (d1, a) /\ k a d1 = Ok (d', b).
Proof. unfold tx_bind. destruct (m d) as [[d1 a]|e]; [eauto|discriminate]. Qed.

Lemma tx_raise_if_ok b e d d' u : tx_raise_if b e d = Ok (d', u) -> d' = d /\ b = false.
Proof. unfold tx_raise_if. destruct b; [discriminate|]. now intros [= <- _]. Qed.

Lemma tx_update_ok {R} `{DbTable R} (p : R -> bool) f d d' n :
  tx_update p f d = Ok (d', n) -> d' = set_tbl (map (fun r => if p r then f r else r) (tbl d)) d.
Proof.
  unfold tx_update. destruct (sql_update p f (tbl d)) as [[t' m]|] eqn:E; [|discriminate].
  apply sql_update_spec in E as (-> & _). now intros [= <- _].
Qed.

(** Only the launches that wait for trust under this id move. *)
Definition settled (i : string) (f : launch_row -> launch_row) (d d' : db) : Prop :=
  replays d' = replays d /\ launch_sources d' = launch_sources d
  /\ launches d' = map (fun l => if pending_launch i l then f l else l) (launches d).

Lemma settle_effect i now f d d' u : Trust.settle i now f d = Ok (d', u) ->
  settled i f d d' /\ trust_records d' = trust_records d.
Proof.
  unfold Trust.settle. intros H1. apply tx_bind_ok in H1 as (d1 & n1 & H1 & H2). apply tx_update_ok in H1.
  apply tx_bind_ok in H2 as (d2 & n2 & H2 & H3). apply tx_update_ok in H2. apply tx_raise_if_ok in H3 as [-> _].
  subst d2 d1. repeat split.
Qed.

Lemma deny_effect i n now d d' r : deny i n now d = (d', r) ->
  d' = d \/ settled i (launch_deny (isoformat now)) d d' /\ trust_records d' = trust_records d.
Proof.
  unfold deny. destruct r as [u|e]; intros E; [|left; now apply transaction_err in E as [-> _]].
  right. apply transaction_ok in E. apply tx_bind_ok in E as (d1 & c & E1 & E). injection E1 as <- <-.
  destruct (fetchone _ _) as [c|]; [|discriminate].
  apply tx_bind_ok in E as (d1 & ? & E1 & E). apply tx_raise_if_ok in E1 as [-> _].
  apply tx_bind_ok in E as (d1 & ? & E1 & E). unfold tx_lift in E1. destruct (challenge_expired c now); [|discriminate].
  injection E1 as <- <-. apply tx_bind_ok in E as (d1 & ? & E1 & E). apply tx_raise_if_ok in E1 as [-> _].
  apply tx_bind_ok in E as (d1 & ? & E1 & E). apply tx_raise_if_ok in E1 as [-> _]. now apply settle_effect in E.
Qed.

Lemma complete_trust_effect n i nonce scope now d d' r : complete_trust n i nonce scope now d = (d', r) ->
  d' = d \/ settled i (launch_authorize (isoformat now)) d d' /\
    exists s t, In s (launch_sources d) /\ src_launch_id s = i /\ In t (trust_records d') /\ existing_trust scope s t = true
      /\ (trust_records d' = trust_records d \/ trust_records d' = trust_records d ++ [trust_row_of n scope now s]).
Proof.
  unfold complete_trust. destruct r as [u|e]; intros E; [|left; now apply transaction_err in E as [-> _]].
  right. apply transaction_ok in E. apply tx_bind_ok in E as (d1 & c & E1 & E). injection E1 as <- <-.
  destruct (fetchone _ _) as [c|]; [|discriminate].
  apply tx_bind_ok in E as (d1 & ? & E1 & E). apply tx_raise_if_ok in E1 as [-> _].
  apply tx_bind_ok in E as (d1 & ? & E1 & E). unfold tx_lift in E1. destruct (challenge_expired c now); [|discriminate].
  injection E1 as <- <-. apply tx_bind_ok in E as (d1 & ? & E1 & E). apply tx_raise_if_ok in E1 as [-> _].
  apply tx_bind_ok in E as (d1 & ? & E1 & E). apply tx_raise_if_ok in E1 as [-> _].
  apply tx_bind_ok in E as (d1 & so & E1 & E). injection E1 as <- <-. destruct (fetchone _ _) as [s|] eqn:Es; [|discriminate].
  apply fetch_by_key_some in Es as [Hs Hi].
  apply tx_bind_ok in E as (d1 & ex & E1 & E). injection E1 as <- <-. apply tx_bind_ok in E as (d1 & tid & E1 & E).
  apply tx_bind_ok in E as (d2 & ? & E2 & E). unfold tx_ret in E. injection E as <- _. apply settle_effect in E2 as [(S1 & S2 & S3) S4].
  change (tbl d) with (trust_records d) in E1. destruct (fetchone (existing_trust scope s) (trust_records d)) as [t|] eqn:Et.
  - unfold tx_ret in E1. injection E1 as <- _. apply fetchone_some in Et as [Ht Hx]. split; [now repeat split|].
    exists s, t. split_and!; [exact Hs|exact Hi|now rewrite S4|exact Hx|now left].
  - apply tx_bind_ok in E1 as (d3 & ? & E1 & E3). unfold tx_ret in E3. injection E3 as <- _. unfold tx_insert in E1.
    destruct (tbl_fk d _); [|discriminate]. destruct (sql_insert _ (tbl d)) as [t'|] eqn:Ei; [|discriminate].
    apply sql_insert_spec in Ei as (-> & _). injection E1 as <-. cbn in S1, S2, S3, S4. split; [now repeat split|].
    exists s, (trust_row_of n scope now s). rewrite S4.
    split_and!; [exact Hs|exact Hi|apply in_or_app; right; now left|apply existing_trust_new|now right].
Qed.

Lemma existing_covers scope s t l : existing_trust scope s t = true ->
  l_repository_id l = Some (src_repository_id s) -> l_commit_sha l = Some (src_commit_sha s) -> covers t l.
Proof.
  intros Ht Hr Hc. unfold covers. rewrite Hr, Hc. destruct scope; cbn in Ht; unfold exact_trust, repository_trust, opt_eqb in Ht;
    bool_to_prop; subst; split; try congruence; auto.
  right. split; [assumption|]. destruct (t_commit_sha t); [|discriminate]. now apply String.eqb_eq in H2 as ->.
Qed.

(** The settlement of a challenge: the launches of other states stay. *)
Lemma inv_settled h w d i f :
  inv h w -> wf_db d -> settled i f (app_db w) d ->
  (forall l, l_id (f l) = l_id l /\ l_repository_id (f l) = l_repository_id l /\ l_commit_sha (f l) = l_commit_sha l
     /\ l_request_digest (f l) = l_request_digest l) ->
  Forall (grant_of cfg h) (trust_records d) ->
  (forall t, In t (trust_records (app_db w)) -> In t (trust_records d)) ->
  (forall l, In l (launches (app_db w)) -> pending_launch i l = true -> executable (f l) = true -> trusted_source d (f l)) ->
  inv h (mkAppWorld (app_trace w) d).
Proof.
  intros [Hwf Hc [rs [Hs Hf]] Hg Hso He Hsub] Hwf' (E1 & E2 & E3) Hk Hg' Hmono Hex.
  assert (Hkeep : forall l, trusted_source (app_db w) l -> trusted_source d l).
  { intros l [Hn|(t & Hin & Hcov)]; [now left|right; exists t; auto]. }
  assert (Hkeepf : forall l, trusted_source d l -> trusted_source d (f l)).
  { intros l. destruct (Hk l) as (_ & Er & Ec & _). unfold trusted_source, covers. now rewrite Er, Ec. }
  constructor; cbn; auto.
  - now rewrite E1.
  - exists rs. rewrite E1, E3. split; [exact Hs|]. clear Hs He Hex Hsub Hso.
    apply Forall2_fmap_l. eapply Forall2_impl; [exact Hf|]. intros x r Hxr. cbn.
    destruct (pending_launch i x); [|exact Hxr]. destruct (Hk x) as (_ & _ & _ & ->). exact Hxr.
  - intros s l Hin Hl. rewrite E2 in Hin. rewrite E3 in Hl. apply in_map_iff in Hl as (x & <- & Hx).
    specialize (Hso s x Hin Hx). destruct (pending_launch i x); [|exact Hso]. unfold source_of in *.
    destruct (Hk x) as (-> & -> & -> & _). exact Hso.
  - intros l Hl Hx. rewrite E3 in Hl. apply in_map_iff in Hl as (x & <- & Hin). destruct (pending_launch i x) eqn:Ep; auto.
  - intros j rq src Hin. destruct (Hsub _ _ _ Hin) as (x & Hx & Hj & Ht).
    exists (if pending_launch i x then f x else x). rewrite E3. split_and!.
    + now apply (in_map (fun l => if pending_launch i l then f l else l)).
    + destruct (pending_launch i x); [|exact Hj]. now destruct (Hk x) as (-> & _).
    + destruct (pending_launch i x); auto.
Qed.

(** The body of the [try] in [confirm_trust], for a decision. *)
Lemma deny_step h i nonce now : step h (fun _ => True) (app_write env (deny i nonce now)) (fun _ _ => True).
Proof.
  apply (step_write h _ _ (fun _ _ => True)); [auto with triples|]. intros w d r Hi _ Em. split; [|auto].
  pose proof (deny_wf i nonce now _ (ai_wf _ _ _ _ _ Hi)) as Hwf. rewrite Em in Hwf.
  destruct (deny_effect _ _ _ _ _ _ Em) as [->|[Hs Ht]]; [now destruct w|].
  apply (inv_settled h w d i (launch_deny (isoformat now))); [exact Hi|exact Hwf|exact Hs|intros l; now split_and!|..].
  - rewrite Ht. exact (ai_grants _ _ _ _ _ Hi).
  - now rewrite Ht.
  - discriminate.
Qed.

Lemma confirm_step h client i body nonce scope new now :
  In (client, PostTrust i body) h -> is_local cfg client = true -> normalized body = Ok (nonce, Some scope) ->
  step h (fun _ => True) (app_write env (complete_trust new i nonce scope now)) (fun _ _ => True).
Proof.
  intros Hin Hl Hn. apply (step_write h _ _ (fun _ _ => True)); [auto with triples|]. intros w d r Hi _ Em. split; [|auto].
  pose proof (complete_trust_wf new i nonce scope now _ (ai_wf _ _ _ _ _ Hi)) as Hwf. rewrite Em in Hwf.
  destruct (complete_trust_effect _ _ _ _ _ _ _ _ Em) as [->|[Hs (s & t & Hsin & Hsi & Htin & Hex & Ht)]]; [now destruct w|].
  apply (inv_settled h w d i (launch_authorize (isoformat now))); [exact Hi|exact Hwf|exact Hs|intros l; now split_and!|..].
  - destruct Ht as [->| ->]; [exact (ai_grants _ _ _ _ _ Hi)|]. apply Forall_app. split; [exact (ai_grants _ _ _ _ _ Hi)|].
    constructor; [|constructor]. exists client, i, body, nonce, scope. now split_and!.
  - intros x Hx. destruct Ht as [->| ->]; [exact Hx|apply in_or_app; now left].
  - intros l Hlin Hp _. right. exists t. split; [exact Htin|].
    destruct (ai_sources _ _ _ _ _ Hi s l Hsin Hlin) as [H1 H2].
    { unfold pending_launch in Hp. apply andb_true_iff in Hp as [Hp _]. apply String.eqb_eq in Hp. congruence. }
    exact (existing_covers scope s t _ Hex H1 H2).
Qed.
(** [schedule_authorized] finds an authorized launch. *)
Lemma persisted_authorized i d x : persisted_of i d = Ok x ->
  exists l, In l (launches d) /\ l_id l = i /\ l_state l = "authorized"%string.
Proof.
  unfold persisted_of, persisted_request, read_db. unfold mbind at 1, eff_bind at 1. cbn [snd fst sh_db shared].
  destruct (get_launch i d) as [l|] eqn:El; [|discriminate].
  destruct (String.eqb (l_state l) "authorized") eqn:Es; cbn [negb]; [|discriminate]. intros _.
  apply String.eqb_eq in Es.
  change (fetchone (by_key i) (launches d) = Some l) in El. apply fetch_by_key_some in El as [Hin Hid]. now exists l.
Qed.

Lemma continue_step h i : step h (fun _ => True) (continue_authorized env i) (fun _ _ => True).
Proof.
  unfold continue_authorized, schedule_authorized, app_read.
  eapply triple_bind with (Q := fun _ => startable i); [typeclasses eauto| |intros x; apply schedule_step].
  eapply triple_bind; [typeclasses eauto|apply (step_idle h (fun _ => True)); [unfold access; auto with triples|auto with triples]|intros ?].
  intros w w' r Hi _ [= <- <-]. split_and!; [exact Hi|exact Logic.I|]. intros x Hx.
  apply persisted_authorized in Hx as (l & Hl & Hid & Hs). exists l. split_and!; [exact Hl|exact Hid|].
  apply (ai_executable _ _ _ _ _ Hi); [exact Hl|]. unfold executable. now rewrite Hs.
Qed.

Lemma idle_verify i : idle (verify_trust_source_unchanged env i).
Proof.
  apply idle_submits. unfold verify_trust_source_unchanged.
  apply holds_bind; [typeclasses eauto|now apply idle_read|intros [saved|]]; [|solve_triple].
  apply holds_bind; [typeclasses eauto|solve_triple|intros rq].
  apply holds_bind; [typeclasses eauto|now apply idle_perform|intros s]. solve_triple.
Qed.

Lemma trust_step h client i body : In (client, PostTrust i body) h ->
  step h (fun _ => True) (confirm_trust env cfg client i body) (fun _ _ => True).
Proof.
  intros Hin. unfold confirm_trust. eapply triple_bind; [typeclasses eauto|apply check_step|intros ?].
  apply (step_pure h _ (is_local cfg client = true)); [auto|]. intros Hl. apply step_convert.
  eapply triple_bind; [typeclasses eauto|apply step_lift|intros [nonce [scope|]]]; cbn [fst snd].
  - apply (step_pure h _ (normalized body = Ok (nonce, Some scope))); [now intros w [-> _]|]. intros Hn.
    eapply triple_bind; [typeclasses eauto|apply step_idle; [apply idle_verify|auto with triples]|intros ?].
    frame. frame. eapply triple_bind; [typeclasses eauto|eapply confirm_step; eassumption|intros ?].
    eapply triple_bind; [typeclasses eauto|apply continue_step|intros ?]. apply triple_value; [typeclasses eauto|auto].
  - apply (step_pure h _ True); [auto|intros _]. frame.
    eapply triple_bind; [typeclasses eauto|apply deny_step|intros ?]. apply triple_value; [typeclasses eauto|auto].
Qed.

(** ** [DELETE /api/trust/{trust_id}] *)
Lemma revoke_effect i now d d' r : Trust.revoke i now d = (d', r) ->
  d' = d \/ d' = set_tbl (map (fun t => if by_key i t && trust_active t then trust_revoke_row (isoformat now) t else t)
                            (trust_records d)) d.
Proof.
  unfold Trust.revoke. destruct r as [u|e]; intros E; [|left; now apply transaction_err in E as [-> _]].
  right. apply transaction_ok in E. apply tx_bind_ok in E as (d1 & n & E1 & E). unfold tx_ret in E. injection E as <- _.
  now apply tx_update_ok in E1.
Qed.

Lemma revoke_step h i now : step h (fun _ => True) (app_write env (Trust.revoke i now)) (fun _ _ => True).
Proof.
  apply (step_write h _ _ (fun _ _ => True)); [auto with triples|]. intros w d r Hi _ Em. split; [|auto].
  pose proof (revoke_wf i now _ (ai_wf _ _ _ _ _ Hi)) as Hwf. rewrite Em in Hwf.
  destruct (revoke_effect _ _ _ _ _ Em) as [->| ->]; [now destruct w|].
  destruct Hi as [_ Hc Ht Hg Hso He Hsub]. set (f := fun t : trust_row => _) in Hwf |- *.
  assert (Hf : forall t, t_scope (f t) = t_scope t /\ forall l, covers t l -> covers (f t) l).
  { intros t. unfold f. destruct (_ && _); split; auto. }
  assert (Hkeep : forall l, trusted_source (app_db w) l -> trusted_source (set_tbl (map f (trust_records (app_db w))) (app_db w)) l).
  { intros l [Hn|(t & Hin & Hcov)]; [now left|right]. exists (f t). split; [now apply (in_map f)|now apply Hf]. }
  constructor; cbn; auto.
  - apply Forall_fmap. eapply Forall_impl; [exact Hg|]. intros t (c & j & b & n & s & Hin & Hl & Hn & Hs). cbn.
    exists c, j, b, n, s. rewrite (proj1 (Hf t)). now split_and!.
  - intros j rq src Hin. destruct (Hsub _ _ _ Hin) as (l & Hl & Hj & Htr). exists l. auto.
Qed.

Lemma delete_trust_step h client i :
  step h (fun _ => True) (revoke_trust env cfg client i) (fun _ _ => True).
Proof.
  unfold revoke_trust. eapply triple_bind; [typeclasses eauto|apply check_step|intros ?].
  apply (step_pure h _ True); [auto|intros _]. frame.
  eapply triple_bind; [typeclasses eauto|apply revoke_step|intros b].
  eapply triple_bind; [typeclasses eauto|apply step_raise_if|intros ?]. apply triple_value; [typeclasses eauto|auto].
Qed.

(** ** Every request keeps the invariant *)
Context (uuid_of_text : string -> res uuid) (stale_seconds : Z) (backend : string).
Abbreviation handle := (App.handle env cfg codec uuid_of_text stale_seconds backend).

Lemma idle_copy client i b : idle (copy_notebook env cfg client i b).
Proof.
  unfold copy_notebook. apply holds_bind; [typeclasses eauto|apply idle_submits, idle_check|intros ?].
  apply holds_bind; [typeclasses eauto| |intros ?; apply holds_ret; typeclasses eauto].
  apply idle_convert. now apply idle_call.
Qed.

Lemma idle_stop client i : idle (stop_session env cfg client i).
Proof.
  unfold stop_session. apply holds_bind; [typeclasses eauto|apply idle_submits, idle_check|intros ?].
  apply holds_bind; [typeclasses eauto|now apply idle_call|intros b]. solve_triple.
Qed.

Lemma handle_keeps h client r w w' res : handle client r w = (w', res) -> inv h w -> inv (h ++ [(client, r)]) w'.
Proof.
  intros E Hi. apply (inv_more cfg codec h (client, r)) in Hi.
  assert (Hin : In (client, r) (h ++ [(client, r)])) by (apply in_or_app; right; now left).
  assert (Hidle : idle (handle client r) -> inv (h ++ [(client, r)]) w').
  { intros Hd. exact (inv_background _ _ _ _ _ Hi (idle_step _ _ _ _ Hd E)). }
  destruct (is_get r) eqn:Eg; [now apply Hidle, idle_submits, idle_get|].
  destruct r; try discriminate; cbn [App.handle] in E.
  - exact (proj1 (launch_step _ _ _ Hin _ _ _ Hi Logic.I E)).
  - exact (proj1 (trust_step _ _ _ _ Hin _ _ _ Hi Logic.I E)).
  - exact (proj1 (delete_trust_step _ _ _ _ _ _ Hi Logic.I E)).
  - exact (Hidle (idle_copy _ _ _)).
  - exact (Hidle (idle_stop _ _)).
Qed.

(** ** Runs of the application

    Requests come one after the other; between them the pipeline's threads
    work on the database. *)
Inductive app_run (w0 : AppWorld) : History -> AppWorld -> Prop :=
| run_start : app_run w0 [] w0
| run_request h w client r w' res : app_run w0 h w -> handle client r w = (w', res) -> app_run w0 (h ++ [(client, r)]) w'
| run_workers h w d : app_run w0 h w -> worker_rel (app_db w) d -> wf_db d -> app_run w0 h (mkAppWorld (app_trace w) d).

(** A database in which nothing was launched or granted yet. *)
Definition fresh_world (w : AppWorld) : Prop :=
  wf_db (app_db w) /\ authorizations (app_db w) = ([], [], [], []) /\ launches (app_db w) = [] /\ app_trace w = [].

Lemma run_inv w0 h w : fresh_world w0 -> app_run w0 h w -> inv h w.
Proof.
  intros (Hwf & Ha & Hl & Ht). unfold authorizations in Ha. injection Ha as E1 E2 E3 _.
  induction 1 as [|h w client r w' res _ IH E|h w d _ IH R W].
  - constructor; rewrite ?E1, ?E2, ?E3, ?Hl, ?Ht; try easy; try constructor. exists []. split; constructor.
  - exact (handle_keeps _ _ _ _ _ _ E IH).
  - refine (inv_background _ _ _ _ _ IH _). split; [exists []; split; [cbn; now rewrite app_nil_r|constructor]|]. now split.
Qed.

Definition serve (h : History) (w : AppWorld) : AppWorld :=
  fold_left (fun w x => fst (handle (fst x) (snd x) w)) h w.

Lemma serve_run w0 h0 w h : app_run w0 h0 w -> app_run w0 (h0 ++ h) (serve h w).
Proof.
  revert h0 w. induction h as [|[client r] h IH]; intros h0 w Hr; [now rewrite app_nil_r|]. cbn [serve fold_left fst snd].
  rewrite (assoc_L (++) h0 [(client, r)] h : h0 ++ (client, r) :: h = _). apply IH.
  eapply run_request; [exact Hr|apply surjective_pairing].
Qed.
End Launching.



(** ** Witnesses *)

(** A launcher whose pipeline runs each submitted launch at once. *)
Definition sample_pipeline (c : app_call) (d : db) : db :=
  match c with
  | Submit i rq source =>
      if forallb (fun s => String.eqb (s_runtime_id s) (runtime_name_of (s_id s))) (notebook_sessions d)
      then db_of (execute_all sample_env sample_config [OpRun i rq source] (mkWorld [] 0 (mkShared d ∅ [])))
      else d
  | _ => d
  end.

Definition sample_app_env : AppEnv := {|
  ae_resolve _ _ := Ok sample_source;
  ae_clock _ := seconds 1000;
  ae_uuid t := ("id-" ++ str_of_int (Z.of_nat (List.length t)))%string;
  ae_nonce _ := "nonce"%string;
  ae_jti _ := "jti-1"%string;
  ae_pending _ _ := false;
  ae_submit _ _ := Ok tt;
  ae_stop _ _ := Ok true;
  ae_save_copy _ _ _ := Ok tt;
  ae_workers _ := sample_pipeline |}.

Lemma sample_app_env_ok : workers_ok sample_app_env.
Proof.
  intros t c d. destruct c; try (split; [reflexivity|auto]). cbn [ae_workers sample_app_env]. unfold sample_pipeline.
  destruct (forallb _ _) eqn:Hn; [|split; [reflexivity|auto]].
  assert (Hrely : forall t c sh, worker_rel (sh_db sh) (sh_db (interfere sample_env t c sh))) by reflexivity.
  set (w := mkWorld _ _ _). split; [exact (execute_all_worker sample_env sample_config Hrely _ w)|].
  intros Hwf. refine (proj1 (proj1 (execute_all_keeps sample_env sample_config _ w sample_behaves _))).
  split; [exact Hwf|]. apply Forall_forall. intros s Hs. apply list_elem_of_In in Hs.
  rewrite forallb_forall in Hn. now apply String.eqb_eq, Hn.
Qed.

Definition sample_client : HttpClient := mkHttpClient (Some "127.0.0.1"%string) None.
Definition sample_web : WebSettings := mkWebSettings "127.0.0.1" 8080 600.

(** A fresh launch of a notebook, and a launch of the workspace that is there. *)
Definition sample_fresh : LaunchRequest :=
  mkLaunchRequest None (Some "owner/repo"%string) (Some "main"%string) (Some "a.ipynb"%string) None GPU_OFF AgentMode_READONLY.

Definition sample_post (jti : string) (rq : LaunchRequest) (source : option ResolvedSource) : AppRequest :=
  PostLaunch (mkLaunchPost rq (match issue sample_codec jti (normalized_digest rq source) (seconds 1000) with
                               | Ok (token, _) => token
                               | Err _ => ""%string
                               end)).

Definition sample_start : AppWorld := mkAppWorld [] (fst (create_workspace sample_workspace empty_db)).

Lemma sample_start_fresh : fresh_world sample_start.
Proof. split; [apply create_workspace_wf, empty_db_wf|]. repeat split. Qed.

Definition sample_history : History :=
  [(sample_client, GetTrust);
   (sample_client, sample_post "jti-1" sample_fresh (Some sample_source));
   (sample_client, sample_post "jti-1" sample_fresh (Some sample_source));
   (sample_client, PostTrust "id-7" (mkTrustPost (Some TRUST_EXACT_COMMIT) (Some "nonce"%string) None None));
   (sample_client, sample_post "jti-2" sample_request None)].

Abbreviation sample_serve h :=
  (serve sample_app_env sample_web sample_codec Ok 300 "jupyter" h sample_start).

Abbreviation sample_run h :=
  (app_run sample_app_env sample_web sample_codec Ok 300 "jupyter" sample_start h (sample_serve h)).

Lemma sample_history_run : sample_run sample_history.
Proof. exact (serve_run _ _ _ _ _ _ sample_start [] sample_start sample_history (run_start _ _ _ _ _ _ _)). Qed.

(** Of the two posts with one token only one counts; the fresh launch waits
    for trust and then runs, the workspace's runs at once. *)
Example sample_history_ex :
  map (fun n => map l_state (launches (app_db (sample_serve (firstn n sample_history))))) (seq 0 6)
  = [[]; []; ["pending_trust"]; ["pending_trust"]; ["ready"]; ["ready"; "ready"]]%string.
Proof. vm_compute. reflexivity. Qed.


(** After the decision to trust the fresh launch's commit. *)
Definition sample_trusted_history : History := firstn 4 sample_history.
Definition sample_trusted : AppWorld := sample_serve sample_trusted_history.

Lemma sample_trusted_run :
  app_run sample_app_env sample_web sample_codec Ok 300 "jupyter" sample_start sample_trusted_history sample_trusted.
Proof. exact (serve_run _ _ _ _ _ _ sample_start [] sample_start sample_trusted_history (run_start _ _ _ _ _ _ _)). Qed.

Lemma sample_trusted_launch : exists l,
  In l (launches (app_db sample_trusted)) /\ executable l = true /\ l_repository_id l <> None.
Proof. vm_compute. eexists. split_and!; [left; reflexivity|reflexivity|discriminate]. Qed.


Definition sample_stranger : HttpClient := mkHttpClient (Some "127.0.0.1"%string) (Some "http://evil.example"%string).
Definition sample_answer : AppWorld * res AppResponse :=
  App.handle sample_app_env sample_web sample_codec Ok 300 "jupyter" sample_stranger
    (sample_post "jti-1" sample_fresh (Some sample_source)) sample_start.

Lemma only_local_requests_act_witness :
  fst sample_answer = sample_start /\ exists detail, snd sample_answer = Err (http_text 400 detail).
Proof.
  refine (proj1 (only_local_requests_act sample_app_env sample_web sample_codec Ok 300 "jupyter" sample_app_env_ok sample_stranger
                   (sample_post "jti-1" sample_fresh (Some sample_source)) sample_start (fst sample_answer) (snd sample_answer) _) _ _);
    vm_compute; reflexivity.
Defined.
